(* ===== verification/_CoqProject ===== *)
-Q . S2P
Prelude.v
CTypes.v
VmSock.v
VmTcp.v
VmTask.v
VmNet.v
VmSockRefs.v
VmTaskRefs.v
VmTable.v
VmLayout.v
Models.v
GoStrings.v
GoFloat.v
TorExitList.v
Probe.v
EbpfService.v
Sha256.v
MerkleHash.v
MerkleProofs.v
MerkleConsistency.v
ConsistencySound.v
Bolt.v
TransparencyLog.v
Pki.v
EventSigning.v
Sth.v
TransparencyHttp.v
GoTime.v
AuditLog.v
IntegrityMerkle.v
Identity.v
Authn.v
Jwt.v
Authz.v
AuthHttp.v
Revocation.v
Migrations.v
Retention.v
Stream.v
Correlation.v
Pipeline.v
Reliability.v
Base64.v
Oidc.v
Repository.v
Canary.v
Fs.v
Civil.v
Backup.v
BackupThm.v
Topology.v
Reconciliation.v
Rules.v
NetAddr.v
StreamProcessor.v
Sources.v
Detection.v
Dns.v
Vault.v
Health.v
Neotron.v
Hub.v
Server.v
Boot.v
Durations.v
Api.v
Ml.v
PortScanner.v
Virtual.v
ProxyCa.v
Nas.v
