(* ===== verification/Prelude.v ===== *)
(** * O.W.A.S.A.K.A.: verification library

    O.W.A.S.A.K.A. is a SIEM: an eBPF probe and network services observe a host,
    an event pipeline signs what they see, a transparency log and an audit log
    make the record tamper-evident, and an HTTP surface serves it to
    authenticated and authorized principals.  This library models the parts of
    the repository that carry those guarantees and proves them.  Paths below are
    relative to src/internal/ unless they start with src/.

    ** Parts and files

    - [CTypes], [VmSock], [VmTcp], [VmTask], [VmNet], [VmSockRefs],
      [VmTaskRefs], [VmLayout]: the C type language and its x86-64 layout, and
      the declarations of network/ebpf/bpf/vmlinux.h that the probe's types reach
      (struct sock, tcp_sock, task_struct, net, sk_buff and what they contain or
      point to).  [struct_x], [union_x], [enum_x], [td_x] are the header's
      declarations of [x]; const and volatile are dropped, a pointer keeps the
      name of its target, and a [struct tag;] member without a declarator adds
      no member, as in C.
    - [Probe]: network/ebpf/bpf/probe.c, the kprobe on tcp_v4_connect.
      [EbpfService]: network/ebpf/service.go, its user-space reader.
      [TorExitList]: network/tor/exitlist.go and service.go.
    - [VmTable]: the layout of the same kernel types as gcc computes it from the
      header, the table that [VmLayout] compares the transcription with.
    - [Models] (models/event.go and shared Go notions), [GoStrings] (the strings
      package), [GoTime] (RFC 3339 times), [Sha256] (FIPS 180-4, executable),
      [Bolt] (the BoltDB interface and a map instance of it).
    - [MerkleHash], [MerkleProofs], [MerkleConsistency], [TransparencyLog], [Sth],
      [TransparencyHttp]: storage/transparency (hash.go, proofs.go, tree.go,
      types.go, sth.go, http.go).
    - [Pki]: storage/pki.  [EventSigning]: events/signer.go and verifier.go.
    - [AuditLog], [IntegrityMerkle]: storage/integrity.
    - [Identity], [Authn], [Jwt]: identity (principals, credentials, stores,
      authenticator), identity/jwt.  [Authz]: authz types, loader and engine.
      [AuthHttp]: identity/middleware, authz/middleware.go, reload.go, admin.go.
    - [Revocation]: identity/revocation.  [Migrations]: storage/migrations.
    - [MerkleProofs], [MerkleConsistency] and [ConsistencySound]: completeness and
      soundness of the two verifiers of storage/transparency/proofs.go.
    - [Pipeline]: events/pipeline.go, over [EventSigning] and [TransparencyLog];
      an event's metadata map is a location of a heap shared by the sinks.
    - [Correlation]: analytics/correlation/temporal.go, the kill-chain windows
      with the backing array they share.  [Stream]: analytics/stream/buffer.go and
      window.go.  [Reliability]: reliability/backoff.go.
    - [Retention]: storage/retention, with the database file behind an inode.
    - [Base64] (RawURL decoding, HMAC-SHA256), [Oidc]: identity/oidc.
    - [Repository]: storage/db and models/alert.go.  [Canary]: canary/token.go,
      http_token.go and trigger.go.
    - [Fs] (a disk where every call may fail and the machine may stop between two
      calls), [Civil] (calendar dates), [Backup], [BackupThm]: storage/backup.
    - [Topology]: network/topology.  [Reconciliation]: discovery/reconciliation.
    - [GoFloat] (IEEE 754 doubles, strconv), [Rules]: the rule engine of
      analytics/correlation (engine.go, rules.go, yaml_rule.go) and its embedded
      rules.  [NetAddr] (package net), [StreamProcessor]: normalizer.go,
      processor.go and the ranking of window.go in analytics/stream.
    - [Sources]: the events of the DNS resolver, the ARP and port scanners, the
      proxy and the canary webhook.  [Detection]: these parts wired as in
      app/app.go, from an event to its alerts and the canary's count.
    - [Dns]: network/dns/resolver.go.  [Vault]: storage/crypto.  [Health]:
      health/health.go.  [Neotron]: events/neotron.go, with the loop it closes
      through [Pipeline] and the publisher.
    - [Hub]: api/websocket.go.  [Server]: api/server.go, middleware_otel.go, the
      mux of net/http and the route table of app/app.go.  [Durations], [Api]: the
      handlers of api/ over [Repository] and [Canary].  [Boot]: the keys and the
      administrator made at start-up in app/app.go, api/login.go.
    - [Ml]: analytics/ml.  [PortScanner]: discovery/attack_surface/scanner.go.
      [Virtual]: discovery/virtual.  [ProxyCa]: network/proxy/tls.go and helpers of
      proxy.go.  [Nas]: storage/nas.

    ** How the code is modelled

    A Go function is a function of its arguments and of the state it reads; it
    returns the new state where it changes one.  An error is a value of a sum or
    of [res], whose third case [RPanic] is a run-time panic.  Machine integers
    are [Z] with their wrap-around written out where it can happen; times are
    nanoseconds since the zero time; byte slices are lists of [Z] in 0..255;
    strings are byte strings.  Pointers and maps whose aliasing matters
    (principals, event metadata, the window array) are locations of a heap or a
    shared array.  Whatever Go leaves open (map iteration order, fresh
    UUIDs, random bytes, the clock, results of I/O) is an argument.  An operation
    that runs under its component's lock is one atomic step; where goroutines
    share state without one, or by channels, their interleavings are modelled
    ([PortScanner], [Hub], the training in [Ml], the echo in [Neotron]).

    Third-party code is a class of operations with a class of its documented
    laws: [Bolt]/[BoltLaws] (bbolt), [Ed25519]/[Ed25519Laws], [KeyStore],
    [JSON]/[JSONLaws] (encoding/json at a type), [JwtLib]/[JwtLaws]
    (golang-jwt), [Libraries] (bcrypt, TOTP, Unicode tables), [bpf_env]/[bpf_laws]
    (BPF helpers and CO-RE), [AEAD]/[AEADLaws] (AES-GCM).  Each has a concrete instance on which the witnesses
    run.  SHA-256 is not assumed collision free: where a statement depends on it,
    a collision is an explicit alternative of the conclusion.

    ** What the theorems show

    - Kernel side: the record the probe commits holds the tgid, comm, address
      and port of the connecting task, for any kernel layout of struct sock;
      every transcribed kernel type has the layout that the compiler gives the
      header ([VmTable], made with gcc), and every access is in bounds and aligned;
      a tcp_sock can be read as a sock.
    - User side: samples decode to what the probe wrote, the read loop handles
      each sample once and returns exactly when the reader is closed, the Tor
      filter reports exactly what it should (and with which octet order).
    - Transparency log: proofs of inclusion and consistency are complete for all
      sizes; inclusion is sound up to a collision; the persisted log refines an
      abstract append-only list, survives reopening, and its served proofs
      verify; tree heads and the HTTP endpoint are correct.
    - Provenance: signed events verify across key rotation until the key is
      retired or expires; rotation keeps one active key per purpose.
    - Audit log and snapshots: a history of appends and restarts verifies, with
      failing writes too unless a line is stored after a failed one before a
      restart; the last hash commits to the history; drift detection.
    - Access control: exact characterizations of authentication, token
      verification, policy decisions (independent of map orders; grants
      can be lost only to a clash of deduplication keys), of the inheritance
      expansion, which always ends, and of the
      requests that reach a protected handler, with their audit events; denylist
      and credential stores; hot reload.
    - Migrations: an interrupted upgrade leaves a resumable prefix; a revert
      undoes exactly one migration.
    - Pipeline: a critical event is stored with a signature that verifies, and
      enters the log with exactly the signed bytes and a verifying inclusion
      proof, or the log reports why not.
    - Analytics: the ring buffer implements a bounded queue under both overflow
      policies; the greedy chain scan finds exactly the subsequences of its window.
    - Housekeeping: a retention sweep removes exactly what has expired.  The
      retry loop stays within its budget, and without one returns exactly when
      some round is not a retryable failure.
    - Federated login: a session starts exactly under the listed conditions, and
      a principal gets exactly the roles of its groups.
    - Repository: updates and listings of alerts behave as operations on a map
      from identifiers; a planted canary that is touched is counted.
    - Proof verification is sound, not only complete: accepted inclusion and
      consistency proofs bind the root, up to a SHA-256 collision.
    - Backup: a stored backup restores to the log it was taken from; whatever fails,
      a restore installs a verified database, the old one aside or reported as not
      kept, or fails with the old one intact; the defects of the
      swap and of the report are theorems beside it.
    - Detection: the engine raises exactly the alerts of the rules that fire; a burst
      is flagged from its hundred-and-first event; a touched canary is counted once
      whatever else fires, if its record can be saved; the built-in chains and some built-in rules never fire on
      what the program's own observers report.
    - Inventory: drift alerts determine the inventory; topology differences are
      exact; the ranking of addresses is the true top.
    - Serving: which handler runs for which request, with which principal, through
      the whole chain of middleware; what a hub client is sent; what the first
      administrator can do and for how long; that no WebSocket is ever accepted and
      that roles are never asked.
    - Concurrency: a port scan reports each open port once and always ends, in every
      interleaving; the anomaly detector dies of an event exactly while it trains;
      compliance events echo for ever.
    - Resolver, vault, health, compliance, inventory of machines, intercepting proxy
      and NAS: cached answers come from upstream, ciphertexts open to what was
      sealed, readiness, the reading of listings, and what happens when files are
      torn, caches full, certificates old or mounts lost.
    - Several theorems prove what the code does where that differs from its
      documentation (reversed octets, unchecked proof length, repeated factors,
      unchecked key purpose, and others stated beside their components).

    ** Fuel and bounds

    Recursion that is not structural takes fuel computed from the input:
    [MerkleTreeHash] and the proofs the number of leaves, [expandInherits] one
    more than the number of roles (a chain of distinct roles is no longer),
    trimming the length of the string, the doubling loop 64 steps (a uint64), the
    retry loop its budget (or, without one, any fuel past the round that stops it),
    an isolation tree its maximal depth, splitting into fields the length of the text.
    Each is proved enough: the results are characterized for all inputs, never
    only when fuel happens to suffice.

    ** Not modelled

    The rest of vmlinux.h: its other thousands of declarations are of kernel types
    that no type the probe handles reaches, and nothing in the program refers to
    them.  The bodies of system calls: sockets and tunnels, packet capture, child
    processes, browser automation, mounting and TLS handshakes; what the program
    decides around them is modelled.  Metrics, tracing, logging, the boot banner,
    configuration files, the command line and the web interface, which report or
    parse and keep no state of their own.  X.509 issuance, TOTP enrolment and the
    tickers of background loops are left to their libraries.
    Within modelled components: the breaker (a wrapper of a third-party state
    machine), delay factors other than two, OIDC discovery and code exchange, the
    NATS client and the honeypot's virtual machine.  The location of a
    redirect is the argument of http.Redirect, before its cleaning of relative paths
    and without its HTML body ([Oidc], [Server]).  In [Rules] the binary logarithm, the map
    orders and the YAML decoder are arguments; in [Ml] also the natural logarithm,
    the power, the random draws and the model file; in [Api] the statistics
    endpoints are left out. *)
From stdpp Require Import base list strings gmap pretty.
From Stdlib Require Import ZArith Lia Bool.

(** Every development file works with machine integers as [Z]. *)
#[global] Open Scope Z_scope.

(** ** Hint databases

    [owasaka] collects the closing lemmas of the components (bounds, lengths,
    preservation facts); [owasaka_len] the length equations used by rewriting. *)
Create HintDb owasaka discriminated.
Create Rewrite HintDb owasaka_len.

(** ** Tactics *)

(** [bdestruct b] cases on a boolean comparison and turns the result into the
    proposition it decides. *)
Ltac breflect :=
  repeat match goal with
  | H : _ && _ = true |- _ => apply andb_true_iff in H as [? ?]
  | H : _ || _ = false |- _ => apply orb_false_iff in H as [? ?]
  | H : negb _ = true |- _ => apply negb_true_iff in H
  | H : negb _ = false |- _ => apply negb_false_iff in H
  | H : (_ =? _)%Z = true |- _ => apply Z.eqb_eq in H
  | H : (_ =? _)%Z = false |- _ => apply Z.eqb_neq in H
  | H : (_ <? _)%Z = true |- _ => apply Z.ltb_lt in H
  | H : (_ <? _)%Z = false |- _ => apply Z.ltb_ge in H
  | H : (_ <=? _)%Z = true |- _ => apply Z.leb_le in H
  | H : (_ <=? _)%Z = false |- _ => apply Z.leb_gt in H
  | H : bool_decide _ = true |- _ => apply bool_decide_eq_true in H
  | H : bool_decide _ = false |- _ => apply bool_decide_eq_false in H
  end.

(** Case analysis on the first boolean or option scrutinee of the goal. *)
Ltac case_head :=
  match goal with
  | |- context [if ?b then _ else _] => destruct b eqn:?
  | |- context [match ?o with Some _ => _ | None => _ end] => destruct o eqn:?
  end.

Local Open Scope Z_scope.

(** ** Bytes and fixed-width integers

    A byte is a [Z] in [0, 256); a [w]-bit unsigned integer is a [Z] reduced
    modulo [2 ^ w]. *)
Abbreviation bytes := (list Z).

Definition byte_ok (b : Z) : Prop := 0 <= b < 256.
Definition wrap (w x : Z) : Z := x mod 2 ^ w.

#[export] Instance byte_ok_dec b : Decision (byte_ok b).
Proof. unfold byte_ok. solve_decision. Defined.

Lemma wrap_range w x : 0 <= w -> 0 <= wrap w x < 2 ^ w.
Proof. intros. apply Z.mod_pos_bound. lia. Qed.

Lemma wrap_small w x : 0 <= x < 2 ^ w -> wrap w x = x.
Proof. apply Z.mod_small. Qed.

(** Little-endian and big-endian codes, as encoding/binary and the CPU use
    them. *)
Fixpoint le_decode (bs : bytes) : Z :=
  match bs with
  | [] => 0
  | b :: bs' => b + 256 * le_decode bs'
  end.

Fixpoint le_encode (n : nat) (v : Z) : bytes :=
  match n with
  | O => []
  | S n' => v mod 256 :: le_encode n' (v / 256)
  end.

Definition be_encode (n : nat) (v : Z) : bytes := rev (le_encode n v).
Definition be_decode (bs : bytes) : Z := le_decode (rev bs).

Lemma length_le_encode n v : length (le_encode n v) = n.
Proof. revert v. induction n; intros; simpl; auto. Qed.

Lemma length_be_encode n v : length (be_encode n v) = n.
Proof. unfold be_encode. by rewrite length_rev, length_le_encode. Qed.

Lemma le_encode_bytes n v : Forall byte_ok (le_encode n v).
Proof.
  revert v. induction n; intros; simpl; constructor; auto.
  apply Z.mod_pos_bound. lia.
Qed.

Lemma be_encode_bytes n v : Forall byte_ok (be_encode n v).
Proof. unfold be_encode. apply List.Forall_rev, le_encode_bytes. Qed.

Lemma le_encode_decode bs : Forall byte_ok bs -> le_encode (length bs) (le_decode bs) = bs.
Proof.
  induction 1 as [|b bs Hb _ IH]; [done|]. unfold byte_ok in Hb. simpl. f_equal.
  - rewrite Z.mul_comm, Z.add_mod, Z.mod_mul, Z.add_0_r, Z.mod_mod, Z.mod_small; lia.
  - rewrite Z.mul_comm, Z.div_add, Z.div_small, Z.add_0_l by lia. done.
Qed.

Lemma le_decode_encode n v : le_decode (le_encode n v) = v mod 256 ^ Z.of_nat n.
Proof.
  revert v. induction n as [|n IH]; intros v; [by rewrite Z.mod_1_r|].
  cbn [le_encode le_decode]. rewrite IH, Nat2Z.inj_succ, Z.pow_succ_r by lia.
  rewrite Z.rem_mul_r by lia. reflexivity.
Qed.

Lemma le_decode_range bs : Forall byte_ok bs -> 0 <= le_decode bs < 256 ^ Z.of_nat (length bs).
Proof.
  induction 1 as [|b bs Hb _ IH]; [simpl; lia|]. unfold byte_ok in Hb.
  cbn [le_decode length]. rewrite Nat2Z.inj_succ, Z.pow_succ_r by lia. lia.
Qed.

Lemma be_encode_decode bs : Forall byte_ok bs -> be_encode (length bs) (be_decode bs) = bs.
Proof.
  intros H. unfold be_encode, be_decode. rewrite <- (length_rev bs), le_encode_decode.
  - apply rev_involutive.
  - by apply List.Forall_rev.
Qed.

Lemma be_decode_encode n v : be_decode (be_encode n v) = v mod 256 ^ Z.of_nat n.
Proof. unfold be_encode, be_decode. by rewrite rev_involutive, le_decode_encode. Qed.

(** Writing big-endian what was read little-endian reverses the bytes. *)
Lemma be_encode_le_decode bs : Forall byte_ok bs -> be_encode (length bs) (le_decode bs) = rev bs.
Proof. intros. unfold be_encode. by rewrite le_encode_decode. Qed.

#[export] Hint Resolve le_encode_bytes be_encode_bytes : owasaka.
#[export] Hint Rewrite length_le_encode length_be_encode length_rev : owasaka_len.

(** ** Byte buffers

    [slice off len b] is [b[off : off+len]]; [write off d b] overwrites
    [b[off : off + len d]], leaving the length of [b] alone. *)
Definition slice {A} (off len : nat) (b : list A) : list A := take len (drop off b).
Definition write {A} (off : nat) (d b : list A) : list A :=
  take (length b) (take off b ++ d ++ drop (off + length d) b).

Lemma length_write {A} off (d b : list A) : length (write off d b) = length b.
Proof. unfold write. rewrite length_take, !length_app, length_take, length_drop. lia. Qed.

Lemma slice_write_same {A} off (d b : list A) :
  (off + length d <= length b)%nat -> slice off (length d) (write off d b) = d.
Proof.
  intros H. unfold slice, write.
  rewrite (take_ge (_ ++ _)) by (rewrite !length_app, length_take, length_drop; lia).
  rewrite drop_app_length' by (rewrite length_take; lia). apply take_app_length.
Qed.

Lemma slice_write_disjoint {A} off len off' (d b : list A) :
  (off' + length d <= length b)%nat ->
  (off + len <= off' \/ off' + length d <= off)%nat ->
  slice off len (write off' d b) = slice off len b.
Proof.
  intros Hb H. apply list_eq. intros i. unfold slice, write.
  rewrite (take_ge (_ ++ _)) by (rewrite !length_app, length_take, length_drop; lia).
  destruct (decide (i < len)%nat); [|by rewrite !lookup_take_ge by lia].
  rewrite !lookup_take_lt, !lookup_drop by lia.
  destruct H.
  - rewrite lookup_app_l, lookup_take_lt; [done|lia|rewrite length_take; lia].
  - rewrite lookup_app_r, length_take by (rewrite length_take; lia).
    rewrite lookup_app_r by lia. rewrite lookup_drop. f_equal. lia.
Qed.

Lemma length_slice {A} off len (b : list A) : (off + len <= length b)%nat -> length (slice off len b) = len.
Proof. intros. unfold slice. rewrite length_take, length_drop. lia. Qed.

(** Overwriting a middle segment by one of the same length. *)
Lemma write_app {A} off (d x y z : list A) :
  length x = off -> length y = length d -> write off d (x ++ y ++ z) = x ++ d ++ z.
Proof.
  intros <- Hy. unfold write. rewrite take_app_length, drop_app_ge by lia.
  replace (length x + length d - length x)%nat with (length y) by lia. rewrite drop_app_length.
  apply take_ge. rewrite !length_app. lia.
Qed.

#[export] Hint Rewrite @length_write : owasaka_len.

(** ** Bit operations *)

Lemma testbit_high x n i : 0 <= x < 2 ^ n -> n <= i -> Z.testbit x i = false.
Proof.
  intros Hx Hi. destruct (decide (0 <= n)).
  - rewrite <- (Z.mod_small x (2 ^ n)) by done. by apply Z.mod_pow2_bits_high.
  - rewrite Z.pow_neg_r in Hx by lia. lia.
Qed.

Lemma land_shifted_low h l n : 0 <= n -> 0 <= l < 2 ^ n -> Z.land (h * 2 ^ n) l = 0.
Proof.
  intros Hn Hl. apply Z.bits_inj'. intros i Hi. rewrite Z.land_spec, Z.bits_0.
  destruct (decide (i < n)).
  - rewrite Z.mul_pow2_bits_low by lia. done.
  - rewrite (testbit_high l n) by lia. apply andb_false_r.
Qed.

(** Putting a low part next to a shifted high part is addition. *)
Lemma lor_shifted_low h l n : 0 <= n -> 0 <= l < 2 ^ n -> Z.lor (h * 2 ^ n) l = h * 2 ^ n + l.
Proof.
  intros Hn Hl. pose proof (land_shifted_low h l n Hn Hl) as H.
  by rewrite <- Z.lxor_lor, Z.add_nocarry_lxor.
Qed.

(** ** Outcomes

    Go code that returns a value, returns an error or panics. *)

Inductive res (E A : Type) := ROk (a : A) | RErr (e : E) | RPanic.
Arguments ROk {E A} a.
Arguments RErr {E A} e.
Arguments RPanic {E A}.

Definition res_bind {E A B} (r : res E A) (f : A -> res E B) : res E B :=
  match r with ROk a => f a | RErr e => RErr e | RPanic => RPanic end.

Declare Scope res_scope.
Delimit Scope res_scope with res.
Notation "'let!' x := e 'in' k" := (res_bind e (fun x => k))
  (at level 200, x pattern, e at level 100, k at level 200, right associativity) : res_scope.
Open Scope res_scope.

Lemma res_bind_ok {E A B} (r : res E A) (f : A -> res E B) b :
  res_bind r f = ROk b -> exists a, r = ROk a /\ f a = ROk b.
Proof. destruct r; simpl; intros; [eauto|done|done]. Qed.
