(* ===== verification/CTypes.v ===== *)
(** * C types and their x86-64 layout

    The type language of internal/network/ebpf/bpf/vmlinux.h and probe.c:
    integers, enums, pointers, arrays, structs and unions with bit-fields, and
    the System V x86-64 layout rules (size, alignment, member offsets) that
    bpf2go's amd64 target compiles them with.  The layout is executable; the
    theorems say that it is sane for every well-formed type: alignment divides
    size, members of a struct never overlap, and every member access stays
    inside its object. *)
From S2P Require Import Prelude.
From stdpp Require Import base list strings gmap.
From Stdlib Require Import ZArith Lia Bool Znumtheory.

(** ** Syntax *)

(** A member list is part of the mutual definition, so that all functions on
    types are plain structural recursions. A member has a name (empty for an
    anonymous struct or union and for a padding bit-field), a type and, for a
    bit-field, a width in bits. *)
Inductive ctype : Type :=
| CInt (size : Z) (signed : bool)
| CEnum (tag : string) (enumerators : list (string * Z))
| CPtr (pointee : string)
| CArr (elem : ctype) (count : Z)
| CStruct (tag : string) (ms : members)
| CUnion (tag : string) (ms : members)
with members : Type :=
| MNil
| MCons (name : string) (ty : ctype) (width : option Z) (rest : members).

Scheme ctype_mut := Induction for ctype Sort Prop
  with members_mut := Induction for members Sort Prop.
Combined Scheme ctype_members_ind from ctype_mut, members_mut.

Declare Scope cdecl_scope.
Delimit Scope cdecl_scope with cdecl.

(** Concrete syntax of a member list: [field "a" t ,, bits "b" u 3 ,, fin]. *)
Definition field (name : string) (t : ctype) (rest : members) : members := MCons name t None rest.
Definition bits (name : string) (t : ctype) (w : Z) (rest : members) : members :=
  MCons name t (Some w) rest.
Definition anon (t : ctype) (rest : members) : members := MCons "" t None rest.
Definition pad (t : ctype) (w : Z) (rest : members) : members := MCons "" t (Some w) rest.
Abbreviation fin := MNil.
Notation "f ,, g" := (f g) (at level 65, right associativity, only parsing) : cdecl_scope.

(** The base types of C on x86-64 (LP64). *)
Definition c_bool := CInt 1 false.
Definition c_char := CInt 1 true.
Definition c_schar := CInt 1 true.
Definition c_uchar := CInt 1 false.
Definition c_short := CInt 2 true.
Definition c_ushort := CInt 2 false.
Definition c_int := CInt 4 true.
Definition c_uint := CInt 4 false.
Definition c_long := CInt 8 true.
Definition c_ulong := CInt 8 false.
Definition c_llong := CInt 8 true.
Definition c_ullong := CInt 8 false.

(** ** Layout *)

Definition round_up (x a : Z) : Z := (x + a - 1) / a * a.
Definition bytes_of_bits (b : Z) : Z := (b + 7) / 8.

(** An enum is as wide as [int] unless one of its values needs 64 bits. *)
Definition fits_uint32 (v : Z) : bool := (0 <=? v) && (v <? 2 ^ 32).
Definition fits_int32 (v : Z) : bool := (- 2 ^ 31 <=? v) && (v <? 2 ^ 31).
Definition enum_size (es : list (string * Z)) : Z :=
  if forallb (fun e => fits_uint32 e.2) es || forallb (fun e => fits_int32 e.2) es
  then 4 else 8.

(** Alignment. An unnamed bit-field does not contribute to its struct's
    alignment (System V ABI, 3.1.2). *)
Fixpoint alignof (t : ctype) : Z :=
  match t with
  | CInt s _ => s
  | CEnum _ es => enum_size es
  | CPtr _ => 8
  | CArr e _ => alignof e
  | CStruct _ ms => members_align ms
  | CUnion _ ms => members_align ms
  end
with members_align (ms : members) : Z :=
  match ms with
  | MNil => 1
  | MCons n t w r =>
      match w with
      | Some _ => if bool_decide (n = "") then members_align r
                  else Z.max (alignof t) (members_align r)
      | None => Z.max (alignof t) (members_align r)
      end
  end.

(** Where the next member starts, in bits, when the previous one ended at
    [cur]: an ordinary member at its alignment; a bit-field at [cur] if it fits
    in the current storage unit of its type, else at the next unit; a
    zero-width bit-field closes the unit. *)
Definition member_start (size align : Z) (w : option Z) (cur : Z) : Z :=
  match w with
  | None => round_up cur (8 * align)
  | Some w =>
      if w =? 0 then round_up cur (8 * size)
      else if cur mod (8 * size) + w <=? 8 * size then cur
      else round_up cur (8 * size)
  end.

Definition member_bits (size : Z) (w : option Z) : Z :=
  match w with None => 8 * size | Some w => w end.

Fixpoint sizeof (t : ctype) : Z :=
  match t with
  | CInt s _ => s
  | CEnum _ es => enum_size es
  | CPtr _ => 8
  | CArr e n => n * sizeof e
  | CStruct _ ms => round_up (bytes_of_bits (struct_end ms 0)) (members_align ms)
  | CUnion _ ms => round_up (union_bytes ms) (members_align ms)
  end
with struct_end (ms : members) (cur : Z) : Z :=
  match ms with
  | MNil => cur
  | MCons n t w r =>
      struct_end r (member_start (sizeof t) (alignof t) w cur + member_bits (sizeof t) w)
  end
with union_bytes (ms : members) : Z :=
  match ms with
  | MNil => 0
  | MCons n t w r => Z.max (bytes_of_bits (member_bits (sizeof t) w)) (union_bytes r)
  end.

(** The bit spans [(name, start, length)] of a struct's members, in order. *)
Fixpoint member_spans (ms : members) (cur : Z) : list (string * Z * Z) :=
  match ms with
  | MNil => []
  | MCons n t w r =>
      let s := member_start (sizeof t) (alignof t) w cur in
      let b := member_bits (sizeof t) w in
      (n, s, b) :: member_spans r (s + b)
  end.

(** ** Member access

    [find_member t n] is what [x.n] designates in an object [x] of type [t]:
    the bit offset, type and width of member [n], found through anonymous
    structs and unions as C does. *)
Record place := Place { pl_bit : Z; pl_type : ctype; pl_width : option Z }.

Definition shift_place (d : Z) (p : place) : place :=
  Place (d + pl_bit p) (pl_type p) (pl_width p).

Fixpoint find_member (t : ctype) (n : string) : option place :=
  match t with
  | CStruct _ ms => find_struct ms 0 n
  | CUnion _ ms => find_union ms n
  | _ => None
  end
with find_struct (ms : members) (cur : Z) (n : string) : option place :=
  match ms with
  | MNil => None
  | MCons m t w r =>
      let s := member_start (sizeof t) (alignof t) w cur in
      let next := find_struct r (s + member_bits (sizeof t) w) n in
      if bool_decide (m = "") then
        match w, find_member t n with
        | None, Some p => Some (shift_place s p)
        | _, _ => next
        end
      else if bool_decide (m = n) then Some (Place s t w)
      else next
  end
with find_union (ms : members) (n : string) : option place :=
  match ms with
  | MNil => None
  | MCons m t w r =>
      if bool_decide (m = "") then
        match w, find_member t n with
        | None, Some p => Some p
        | _, _ => find_union r n
        end
      else if bool_decide (m = n) then Some (Place 0 t w)
      else find_union r n
  end.

(** All the members that can be named on an object, with first bit and width in
    bits, in the order in which [find_member] meets them. *)
Definition shift_member (d : Z) (m : string * Z * Z) : string * Z * Z := (m.1.1, d + m.1.2, m.2).

Fixpoint named_members (t : ctype) : list (string * Z * Z) :=
  match t with
  | CStruct _ ms => struct_members ms 0
  | CUnion _ ms => union_members ms
  | _ => []
  end
with struct_members (ms : members) (cur : Z) : list (string * Z * Z) :=
  match ms with
  | MNil => []
  | MCons m t w r =>
      let s := member_start (sizeof t) (alignof t) w cur in
      let b := member_bits (sizeof t) w in
      let here := if bool_decide (m = "") then match w with None => shift_member s <$> named_members t | Some _ => [] end
                  else [(m, s, b)] in
      here ++ struct_members r (s + b)
  end
with union_members (ms : members) : list (string * Z * Z) :=
  match ms with
  | MNil => []
  | MCons m t w r =>
      let here := if bool_decide (m = "") then match w with None => named_members t | Some _ => [] end
                  else [(m, 0, member_bits (sizeof t) w)] in
      here ++ union_members r
  end.

(** The first entry of a name. *)
Fixpoint member_at (n : string) (l : list (string * Z * Z)) : option (Z * Z) :=
  match l with
  | [] => None
  | (m, s, b) :: l' => if bool_decide (m = n) then Some (s, b) else member_at n l'
  end.

(** An access path [x.a.b[3].c] of member names and array indices. *)
Inductive accessor := AField (n : string) | AIndex (i : Z).

Definition access (t : ctype) (a : accessor) : option place :=
  match a with
  | AField n => find_member t n
  | AIndex i =>
      match t with
      | CArr e n => if (0 <=? i) && (i <? n) then Some (Place (8 * (i * sizeof e)) e None) else None
      | _ => None
      end
  end.

Fixpoint access_path (t : ctype) (path : list accessor) : option place :=
  match path with
  | [] => Some (Place 0 t None)
  | a :: path' =>
      p ← access t a;
      match pl_width p, path' with
      | Some _, _ :: _ => None
      | Some _, [] => Some p
      | None, _ => shift_place (pl_bit p) <$> access_path (pl_type p) path'
      end
  end.

(** [offsetof(t, path)] in bytes, defined for paths that do not end in a
    bit-field. *)
Definition offsetof (t : ctype) (path : list accessor) : option Z :=
  p ← access_path t path;
  match pl_width p with None => Some (pl_bit p / 8) | Some _ => None end.

(** ** Well-formed types *)

Definition is_pow2_size (s : Z) : bool :=
  (s =? 1) || (s =? 2) || (s =? 4) || (s =? 8) || (s =? 16).

Definition wf_width (t : ctype) (w : option Z) : bool :=
  match w with
  | None => true
  | Some w =>
      match t with
      | CInt s _ => (0 <=? w) && (w <=? 8 * s)
      | CEnum _ es => (0 <=? w) && (w <=? 8 * enum_size es)
      | _ => false
      end
  end.

Fixpoint wf_ctype (t : ctype) : bool :=
  match t with
  | CInt s _ => is_pow2_size s
  | CEnum _ _ => true
  | CPtr _ => true
  | CArr e n => (0 <=? n) && wf_ctype e
  | CStruct _ ms => wf_members ms
  | CUnion _ ms => wf_members ms
  end
with wf_members (ms : members) : bool :=
  match ms with
  | MNil => true
  | MCons _ t w r => wf_ctype t && wf_width t w && wf_members r
  end.

#[global] Arguments member_start : simpl never.
#[global] Arguments round_up : simpl never.
#[global] Arguments bytes_of_bits : simpl never.

(** ** Arithmetic of alignment *)

Lemma round_up_ge x a : 0 < a -> x <= round_up x a.
Proof. intros Ha. unfold round_up. pose proof (Z.div_mod (x + a - 1) a). pose proof (Z.mod_pos_bound (x + a - 1) a Ha). nia. Qed.

Lemma round_up_lt x a : 0 < a -> round_up x a < x + a.
Proof. intros Ha. unfold round_up. pose proof (Z.div_mod (x + a - 1) a). pose proof (Z.mod_pos_bound (x + a - 1) a Ha). nia. Qed.

Lemma round_up_divide x a : (a | round_up x a).
Proof. exists ((x + a - 1) / a). reflexivity. Qed.

Lemma round_up_id x a : 0 < a -> (a | x) -> round_up x a = x.
Proof.
  intros Ha [k ->]. unfold round_up.
  replace (k * a + a - 1) with (k * a + (a - 1)) by lia.
  rewrite Z.div_add_l by lia. rewrite (Z.div_small (a - 1)) by lia. lia.
Qed.

Lemma bytes_of_bits_spec b : b <= 8 * bytes_of_bits b.
Proof. unfold bytes_of_bits. pose proof (Z.div_mod (b + 7) 8). pose proof (Z.mod_pos_bound (b + 7) 8). lia. Qed.

Lemma bytes_of_bits_nonneg b : 0 <= b -> 0 <= bytes_of_bits b.
Proof. intros. apply Z.div_pos; lia. Qed.

Lemma pow2_size_cases s : is_pow2_size s = true -> s = 1 \/ s = 2 \/ s = 4 \/ s = 8 \/ s = 16.
Proof. unfold is_pow2_size. rewrite !orb_true_iff, !Z.eqb_eq. tauto. Qed.

Lemma pow2_size_pos s : is_pow2_size s = true -> 0 < s.
Proof. intros H%pow2_size_cases. lia. Qed.

Lemma pow2_size_max a b : is_pow2_size a = true -> is_pow2_size b = true -> is_pow2_size (Z.max a b) = true.
Proof. intros. destruct (Z.max_spec a b) as [[_ ->]|[_ ->]]; done. Qed.

(** Among the alignments of C types, smaller ones divide larger ones. *)
Lemma pow2_size_divide a b : is_pow2_size a = true -> is_pow2_size b = true -> a <= b -> (a | b).
Proof.
  intros Ha%pow2_size_cases Hb%pow2_size_cases Hle.
  exists (b / a). destruct Ha as [->|[->|[->|[->| ->]]]], Hb as [->|[->|[->|[->| ->]]]]; try lia; reflexivity.
Qed.

Lemma enum_size_pow2 es : is_pow2_size (enum_size es) = true.
Proof. unfold enum_size. by destruct (_ || _). Qed.

Lemma enum_size_cases es : enum_size es = 4 \/ enum_size es = 8.
Proof. unfold enum_size. destruct (_ || _); auto. Qed.

#[export] Hint Resolve round_up_divide enum_size_pow2 pow2_size_max pow2_size_pos : owasaka.

(** ** Sizes and alignments of well-formed types *)

Lemma alignof_pow2_mut :
  (forall t, wf_ctype t = true -> is_pow2_size (alignof t) = true) /\
  (forall ms, wf_members ms = true -> is_pow2_size (members_align ms) = true).
Proof.
  apply ctype_members_ind; simpl; intros; breflect; eauto with owasaka.
  destruct width as [w|]; [case_bool_decide|]; eauto with owasaka.
Qed.

Lemma alignof_pow2 t : wf_ctype t = true -> is_pow2_size (alignof t) = true.
Proof. apply alignof_pow2_mut. Qed.

Lemma members_align_pow2 ms : wf_members ms = true -> is_pow2_size (members_align ms) = true.
Proof. apply alignof_pow2_mut. Qed.

Lemma alignof_pos t : wf_ctype t = true -> 0 < alignof t.
Proof. intros. by apply pow2_size_pos, alignof_pow2. Qed.

Lemma members_align_pos ms : wf_members ms = true -> 0 < members_align ms.
Proof. intros. by apply pow2_size_pos, members_align_pow2. Qed.

#[export] Hint Resolve alignof_pow2 members_align_pow2 alignof_pos members_align_pos : owasaka.

(** A member that counts for alignment has an alignment dividing the struct's. *)
Lemma member_align_divide n t w r :
  wf_members (MCons n t w r) = true ->
  (w = None \/ n <> "") ->
  (alignof t | members_align (MCons n t w r)) .
Proof.
  simpl. intros H Hw. breflect. apply pow2_size_divide; eauto with owasaka.
  - destruct w; [case_bool_decide|]; eauto with owasaka.
  - destruct Hw as [->|Hn]; [lia|]. destruct w; [|lia]. rewrite bool_decide_eq_false_2 by done. lia.
Qed.

Lemma rest_align_divide n t w r :
  wf_members (MCons n t w r) = true -> (members_align r | members_align (MCons n t w r)).
Proof.
  simpl. intros H. breflect. apply pow2_size_divide; eauto with owasaka.
  - destruct w; [case_bool_decide|]; eauto with owasaka.
  - destruct w; [case_bool_decide|]; lia.
Qed.

Lemma member_bits_nonneg t w :
  wf_width t w = true -> 0 <= sizeof t -> 0 <= member_bits (sizeof t) w.
Proof. destruct w as [w|]; simpl; [destruct t; intros; breflect; lia|lia]. Qed.

Lemma member_start_ge t w cur :
  wf_ctype t = true -> wf_width t w = true -> cur <= member_start (sizeof t) (alignof t) w cur.
Proof.
  intros Hwf Hw. unfold member_start. destruct w as [w|].
  - assert (0 < 8 * sizeof t) as Hs.
    { destruct t; simpl in *; try done.
      - apply pow2_size_pos in Hwf. lia.
      - destruct (enum_size_cases enumerators); lia. }
    repeat case_head; try lia; by apply round_up_ge.
  - apply round_up_ge. pose proof (alignof_pos t Hwf). lia.
Qed.

(** Sizes are non-negative, the cursor never moves backwards, and the
    alignment of a type divides its size. *)
Lemma sizeof_nonneg_mut :
  (forall t, wf_ctype t = true -> 0 <= sizeof t) /\
  (forall ms, wf_members ms = true ->
     (forall cur, 0 <= cur -> cur <= struct_end ms cur) /\ 0 <= union_bytes ms).
Proof.
  apply ctype_members_ind; simpl; try done.
  - intros s _ H. apply pow2_size_pos in H. lia.
  - intros _ es _. destruct (enum_size_cases es); lia.
  - intros e IH n H. breflect. specialize (IH ltac:(done)). nia.
  - intros _ ms IH H. destruct (IH H) as [Hend _].
    etrans; [|apply round_up_ge; eauto with owasaka].
    apply bytes_of_bits_nonneg, Hend. lia.
  - intros _ ms IH H. destruct (IH H) as [_ Hu].
    etrans; [apply Hu|apply round_up_ge; eauto with owasaka].
  - intros n t IHt w r IHr H. breflect.
    destruct (IHr ltac:(done)) as [Hend Hu].
    assert (0 <= member_bits (sizeof t) w) as Hb by (apply member_bits_nonneg; auto).
    split; [|lia]. intros cur Hcur.
    pose proof (member_start_ge t w cur ltac:(done) ltac:(done)).
    etrans; [|apply Hend]; lia.
Qed.

Lemma sizeof_nonneg t : wf_ctype t = true -> 0 <= sizeof t.
Proof. apply sizeof_nonneg_mut. Qed.

Lemma struct_end_ge ms cur : wf_members ms = true -> 0 <= cur -> cur <= struct_end ms cur.
Proof. intros H. by apply sizeof_nonneg_mut. Qed.

Lemma union_bytes_nonneg ms : wf_members ms = true -> 0 <= union_bytes ms.
Proof. intros H. by apply sizeof_nonneg_mut. Qed.

#[export] Hint Resolve sizeof_nonneg member_bits_nonneg union_bytes_nonneg : owasaka.

Lemma alignof_divides_sizeof_mut :
  (forall t, wf_ctype t = true -> (alignof t | sizeof t)) /\ (forall ms, wf_members ms = true -> True).
Proof.
  apply ctype_members_ind; simpl; auto with owasaka; try (intros; reflexivity).
  intros e IH n H. breflect. by apply Z.divide_mul_r, IH.
Qed.

Lemma alignof_divides_sizeof t : wf_ctype t = true -> (alignof t | sizeof t).
Proof. apply alignof_divides_sizeof_mut. Qed.

(** ** Member access stays inside the object *)

(** Bits a place occupies. *)
Definition place_bits (p : place) : Z := member_bits (sizeof (pl_type p)) (pl_width p).

(** [sound_place a p]: the place has a well-formed type, its width fits, and,
    unless it is a bit-field, it is aligned for its type, whose alignment
    divides [a], the alignment of the enclosing object. *)
Definition sound_place (a : Z) (p : place) : Prop :=
  wf_ctype (pl_type p) = true /\ wf_width (pl_type p) (pl_width p) = true /\
  (pl_width p = None -> (8 * alignof (pl_type p) | pl_bit p) /\ (alignof (pl_type p) | a)).

Lemma sound_place_weaken a b p : (a | b) -> sound_place a p -> sound_place b p.
Proof.
  intros Hab (H1 & H2 & H3). split; [done|]. split; [done|].
  intros Hw. destruct (H3 Hw). split; [done|by etrans].
Qed.

(** Moving a sound place by a multiple of the enclosing alignment keeps it
    sound. *)
Lemma sound_place_shift a d p : (8 * a | d) -> sound_place a p -> sound_place a (shift_place d p).
Proof.
  intros Hd (H1 & H2 & H3). split; [done|]. split; [done|].
  simpl. intros Hw. destruct (H3 Hw) as [Hal Ha]. split; [|done].
  apply Z.divide_add_r; [|done]. etrans; [|exact Hd]. by apply Z.mul_divide_mono_l.
Qed.

Lemma place_bits_shift d p : place_bits (shift_place d p) = place_bits p.
Proof. done. Qed.

Lemma member_start_align t cur : (8 * alignof t | member_start (sizeof t) (alignof t) None cur).
Proof. apply round_up_divide. Qed.

(** A member occupies bits [cur .. struct_end] of its struct. *)
Lemma member_end_le n t w r cur :
  wf_members (MCons n t w r) = true -> 0 <= cur ->
  member_start (sizeof t) (alignof t) w cur + member_bits (sizeof t) w <= struct_end (MCons n t w r) cur.
Proof.
  simpl. intros H Hcur. breflect. apply struct_end_ge; [done|].
  pose proof (member_start_ge t w cur ltac:(done) ltac:(done)).
  pose proof (member_bits_nonneg t w ltac:(done) ltac:(auto with owasaka)). lia.
Qed.

(** The direct member designated by a [MCons] cell is a sound place. *)
Lemma head_place_sound n t w r cur :
  wf_members (MCons n t w r) = true -> n <> "" ->
  sound_place (members_align (MCons n t w r)) (Place (member_start (sizeof t) (alignof t) w cur) t w).
Proof.
  intros H Hn. pose proof (member_align_divide n t w r H (or_intror Hn)) as Hd.
  simpl in H. breflect. split; [done|]. split; [done|]. simpl. intros ->. split; [apply member_start_align|done].
Qed.

(** [find_member] finds what [named_members] lists, and nothing else. *)
Definition extent (p : place) : Z * Z := (pl_bit p, place_bits p).

Lemma member_at_app n l k : member_at n (l ++ k) = match member_at n l with Some e => Some e | None => member_at n k end.
Proof. induction l as [|[[m s] b] l IH]; [done|]. cbn [member_at app]. by case_bool_decide. Qed.

Lemma member_at_shift n d l : member_at n (shift_member d <$> l) = (fun e => (d + e.1, e.2)) <$> member_at n l.
Proof. induction l as [|[[m s] b] l IH]; [done|]. cbn. by case_bool_decide. Qed.

Lemma find_member_named_mut :
  (forall t n, extent <$> find_member t n = member_at n (named_members t)) /\
  (forall ms n, (forall cur, extent <$> find_struct ms cur n = member_at n (struct_members ms cur)) /\
     extent <$> find_union ms n = member_at n (union_members ms)).
Proof.
  apply ctype_members_ind; try done; [intros tag ms IH n; apply (IH n)|intros tag ms IH n; apply (IH n)|].
  intros m t IHt w r IHr n. destruct (IHr n) as [IHs IHu]. specialize (IHt n). split; [intros cur|];
    cbn [find_struct struct_members find_union union_members]; rewrite member_at_app; case_bool_decide as Hm.
  - destruct w; [apply IHs|]. rewrite member_at_shift, <- IHt. destruct (find_member t n) as [p|]; [|apply IHs].
    cbn. by destruct p.
  - cbn [member_at]. case_bool_decide; [done|]. apply IHs.
  - destruct w; [apply IHu|]. rewrite <- IHt. by destruct (find_member t n).
  - cbn [member_at]. case_bool_decide; [done|]. apply IHu.
Qed.

Lemma find_member_named t n : extent <$> find_member t n = member_at n (named_members t).
Proof. apply find_member_named_mut. Qed.

Definition in_object (t : ctype) (p : place) : Prop :=
  0 <= pl_bit p /\ pl_bit p + place_bits p <= 8 * sizeof t /\ sound_place (alignof t) p.

Definition in_struct (ms : members) (cur : Z) (p : place) : Prop :=
  cur <= pl_bit p /\ pl_bit p + place_bits p <= struct_end ms cur /\ sound_place (members_align ms) p.

Definition in_union (ms : members) (p : place) : Prop :=
  0 <= pl_bit p /\ pl_bit p + place_bits p <= 8 * union_bytes ms /\ sound_place (members_align ms) p.

(** A place of an anonymous member is a place of the struct around it. *)
Lemma in_struct_anon t r cur p :
  wf_members (MCons "" t None r) = true -> 0 <= cur -> in_object t p ->
  in_struct (MCons "" t None r) cur (shift_place (member_start (sizeof t) (alignof t) None cur) p).
Proof.
  intros H Hcur (H0 & Hend & Hs). pose proof (member_end_le "" t None r cur H Hcur) as Hle.
  pose proof (member_align_divide "" t None r H (or_introl eq_refl)) as Hd.
  pose proof H as H'. simpl in H'. breflect.
  pose proof (member_start_ge t None cur ltac:(done) eq_refl).
  split; [simpl; lia|]. split.
  - rewrite place_bits_shift. simpl in *. lia.
  - eapply sound_place_weaken, sound_place_shift; [done|apply member_start_align|done].
Qed.

Lemma in_struct_rest n t w r cur p :
  wf_members (MCons n t w r) = true -> 0 <= cur ->
  in_struct r (member_start (sizeof t) (alignof t) w cur + member_bits (sizeof t) w) p ->
  in_struct (MCons n t w r) cur p.
Proof.
  intros H Hcur (H0 & Hend & Hs). pose proof (rest_align_divide n t w r H) as Hd.
  simpl in H. breflect.
  pose proof (member_start_ge t w cur ltac:(done) ltac:(done)).
  pose proof (member_bits_nonneg t w ltac:(done) ltac:(auto with owasaka)).
  split; [simpl; lia|]. split; [simpl; lia|]. by eapply sound_place_weaken.
Qed.

Lemma in_union_rest n t w r p :
  wf_members (MCons n t w r) = true -> in_union r p -> in_union (MCons n t w r) p.
Proof.
  intros H (H0 & Hend & Hs). pose proof (rest_align_divide n t w r H) as Hd.
  split; [simpl; lia|]. split; [simpl; lia|]. by eapply sound_place_weaken.
Qed.

Lemma in_union_anon t r p :
  wf_members (MCons "" t None r) = true -> in_object t p -> in_union (MCons "" t None r) p.
Proof.
  intros H (H0 & Hend & Hs). pose proof (member_align_divide "" t None r H (or_introl eq_refl)) as Hd.
  pose proof (bytes_of_bits_spec (8 * sizeof t)).
  split; [simpl; lia|]. split; [simpl; lia|]. by eapply sound_place_weaken.
Qed.

Lemma find_member_sound_mut :
  (forall t, wf_ctype t = true -> forall n p, find_member t n = Some p -> in_object t p) /\
  (forall ms, wf_members ms = true ->
     (forall cur n p, 0 <= cur -> find_struct ms cur n = Some p -> in_struct ms cur p) /\
     (forall n p, find_union ms n = Some p -> in_union ms p)).
Proof.
  apply ctype_members_ind; try done.
  - intros tag ms IH H n p Hf. destruct (IH H) as [Hs _]. destruct (Hs 0 n p ltac:(lia) Hf) as (? & ? & ?).
    split; [lia|]. split; [|done]. simpl. pose proof (bytes_of_bits_spec (struct_end ms 0)).
    pose proof (round_up_ge (bytes_of_bits (struct_end ms 0)) (members_align ms) (members_align_pos ms H)). lia.
  - intros tag ms IH H n p Hf. destruct (IH H) as [_ Hu]. destruct (Hu n p Hf) as (? & ? & ?).
    split; [lia|]. split; [|done]. simpl.
    pose proof (round_up_ge (union_bytes ms) (members_align ms) (members_align_pos ms H)). lia.
  - intros m t IHt w r IHr H. pose proof H as H'. simpl in H'. breflect.
    destruct (IHr ltac:(done)) as [IHs IHu].
    pose proof (member_bits_nonneg t w ltac:(done) ltac:(auto with owasaka)).
    split.
    + intros cur n p Hcur Hf. simpl in Hf.
      pose proof (member_start_ge t w cur ltac:(done) ltac:(done)).
      assert (find_struct r (member_start (sizeof t) (alignof t) w cur + member_bits (sizeof t) w) n = Some p ->
              in_struct (MCons m t w r) cur p) as Hrest.
      { intros Hr. apply in_struct_rest; [done..|]. eapply IHs; [lia|exact Hr]. }
      case_bool_decide as Hm; [subst m|case_bool_decide; [|auto]].
      * destruct w; [auto|]. destruct (find_member t n) as [q|] eqn:Hq; [|auto].
        simplify_eq. apply in_struct_anon; eauto.
      * simplify_eq. split; [simpl; lia|]. split; [by apply member_end_le|by apply head_place_sound].
    + intros n p Hf. simpl in Hf.
      assert (find_union r n = Some p -> in_union (MCons m t w r) p) as Hrest by (intros; apply in_union_rest; eauto).
      case_bool_decide as Hm; [subst m|case_bool_decide; [|auto]].
      * destruct w; [auto|]. destruct (find_member t n) as [q|] eqn:Hq; [|auto].
        simplify_eq. apply in_union_anon; eauto.
      * simplify_eq. pose proof (bytes_of_bits_spec (member_bits (sizeof t) w)).
        split; [simpl; lia|]. split; [unfold place_bits; simpl; lia|].
        pose proof (member_align_divide n t w r H (or_intror Hm)).
        split; [done|]. split; [done|]. intros _. split; [apply Z.divide_0_r|done].
Qed.

Lemma find_member_sound t n p : wf_ctype t = true -> find_member t n = Some p -> in_object t p.
Proof. intros H. by apply find_member_sound_mut. Qed.

Lemma access_sound t a p : wf_ctype t = true -> access t a = Some p -> in_object t p.
Proof.
  intros H. destruct a as [n|i]; simpl; [by apply find_member_sound|].
  destruct t as [| | |e n| |]; try done. simpl in H. breflect. intros Hp.
  destruct ((0 <=? i) && (i <? n)) eqn:Hi; simplify_eq. breflect.
  pose proof (sizeof_nonneg e ltac:(done)).
  split; [simpl; nia|]. split; [unfold place_bits; simpl; nia|]. split; [done|]. split; [done|].
  intros _. split; [|reflexivity].
  by apply Z.mul_divide_mono_l, Z.divide_mul_r, alignof_divides_sizeof.
Qed.

Lemma access_path_sound path : forall t p,
  wf_ctype t = true -> access_path t path = Some p -> in_object t p.
Proof.
  induction path as [|a path IH]; intros t p Hwf Hp; simpl in Hp.
  - simplify_eq. split; [done|]. split; [unfold place_bits; simpl; lia|]. split; [done|]. split; [done|].
    intros _. split; [apply Z.divide_0_r|reflexivity].
  - destruct (access t a) as [q|] eqn:Hq; [|done]. simpl in Hp.
    destruct (access_sound t a q Hwf Hq) as (Hq0 & Hqe & Hqs). destruct (pl_width q) eqn:Hw.
    + destruct path; simplify_eq. done.
    + apply fmap_Some in Hp as (q' & Hq' & ->). destruct Hqs as (Hqwf & Hqw & Hqa).
      destruct (IH _ _ Hqwf Hq') as (H0 & He & Hs). destruct (Hqa Hw) as [Hal Hdiv].
      assert (place_bits q = 8 * sizeof (pl_type q)) as Hqb by (unfold place_bits; by rewrite Hw).
      split; [simpl; lia|]. split.
      * rewrite place_bits_shift. simpl. lia.
      * eapply sound_place_weaken; [exact Hdiv|]. by apply sound_place_shift.
Qed.

(** ** Members of a struct are laid out in order, without overlap *)

Lemma member_spans_ge ms : forall cur i n s b,
  wf_members ms = true -> 0 <= cur -> member_spans ms cur !! i = Some (n, s, b) ->
  cur <= s /\ 0 <= b /\ s + b <= struct_end ms cur.
Proof.
  induction ms as [|m t w r IH]; intros cur i n s b Hwf Hcur Hi; [done|].
  pose proof (member_end_le m t w r cur Hwf Hcur). simpl in Hwf. breflect.
  pose proof (member_start_ge t w cur ltac:(done) ltac:(done)).
  pose proof (member_bits_nonneg t w ltac:(done) ltac:(auto with owasaka)).
  destruct i as [|i]; simpl in Hi; [simplify_eq; lia|].
  eapply IH in Hi; [|done|lia]. simpl. destruct Hi as (? & ? & ?). lia.
Qed.

Lemma member_spans_ordered ms : forall cur i j n1 s1 b1 n2 s2 b2,
  wf_members ms = true -> 0 <= cur -> (i < j)%nat ->
  member_spans ms cur !! i = Some (n1, s1, b1) -> member_spans ms cur !! j = Some (n2, s2, b2) ->
  s1 + b1 <= s2.
Proof.
  induction ms as [|m t w r IH]; intros cur i j n1 s1 b1 n2 s2 b2 Hwf Hcur Hij Hi Hj; [done|].
  simpl in Hwf. breflect.
  pose proof (member_start_ge t w cur ltac:(done) ltac:(done)).
  pose proof (member_bits_nonneg t w ltac:(done) ltac:(auto with owasaka)).
  destruct j as [|j]; [lia|]. destruct i as [|i]; simpl in Hi, Hj.
  - simplify_eq. eapply member_spans_ge in Hj; [|done|lia]. lia.
  - eapply (IH _ i j n1 s1 b1 n2 s2 b2); [done| |lia|exact Hi|exact Hj]; lia.
Qed.

(** [offsetof] of a path that ends in an ordinary member: the member lies
    inside the object, aligned for its type. *)
Lemma offsetof_sound t path p :
  wf_ctype t = true -> access_path t path = Some p -> pl_width p = None ->
  exists o, offsetof t path = Some o /\ pl_bit p = 8 * o /\ 0 <= o /\
    o + sizeof (pl_type p) <= sizeof t /\ (alignof (pl_type p) | o).
Proof.
  intros Hwf Hp Hw. destruct (access_path_sound path t p Hwf Hp) as (H0 & He & Hpw & _ & Ha).
  destruct (Ha Hw) as [[k Hk] _]. unfold offsetof. rewrite Hp. simpl. rewrite Hw.
  unfold place_bits in He. rewrite Hw in He. simpl in He.
  exists (k * alignof (pl_type p)).
  assert (pl_bit p = k * alignof (pl_type p) * 8) as Hbit by (rewrite Hk; ring).
  rewrite Hbit, Z.div_mul by lia. repeat split; try lia. apply Z.divide_factor_r.
Qed.
