(* ===== verification/VmSock.v ===== *)
(** * vmlinux.h: VmSock

    Types of the probed socket: struct sock, its by-value members, and the
    types the probe itself names (pt_regs, enum bpf_map_type,
    bpf_ringbuf_hdr).
    Transcribed declaration by declaration from
    internal/network/ebpf/bpf/vmlinux.h, in its order: [struct_x], [union_x],
    [enum_x] and [td_x] are its struct, union, enum and typedef [x]; a pointer
    keeps the name of its target. *)
From S2P Require Import Prelude CTypes.
From stdpp Require Import base list strings.
From Stdlib Require Import ZArith.
Local Open Scope cdecl_scope.
Local Open Scope string_scope.
Local Open Scope Z_scope.

Definition enum_bpf_map_type : ctype := CEnum "bpf_map_type" [
  ("BPF_MAP_TYPE_UNSPEC", 0);
  ("BPF_MAP_TYPE_HASH", 1);
  ("BPF_MAP_TYPE_ARRAY", 2);
  ("BPF_MAP_TYPE_PROG_ARRAY", 3);
  ("BPF_MAP_TYPE_PERF_EVENT_ARRAY", 4);
  ("BPF_MAP_TYPE_PERCPU_HASH", 5);
  ("BPF_MAP_TYPE_PERCPU_ARRAY", 6);
  ("BPF_MAP_TYPE_STACK_TRACE", 7);
  ("BPF_MAP_TYPE_CGROUP_ARRAY", 8);
  ("BPF_MAP_TYPE_LRU_HASH", 9);
  ("BPF_MAP_TYPE_LRU_PERCPU_HASH", 10);
  ("BPF_MAP_TYPE_LPM_TRIE", 11);
  ("BPF_MAP_TYPE_ARRAY_OF_MAPS", 12);
  ("BPF_MAP_TYPE_HASH_OF_MAPS", 13);
  ("BPF_MAP_TYPE_DEVMAP", 14);
  ("BPF_MAP_TYPE_SOCKMAP", 15);
  ("BPF_MAP_TYPE_CPUMAP", 16);
  ("BPF_MAP_TYPE_XSKMAP", 17);
  ("BPF_MAP_TYPE_SOCKHASH", 18);
  ("BPF_MAP_TYPE_CGROUP_STORAGE_DEPRECATED", 19);
  ("BPF_MAP_TYPE_CGROUP_STORAGE", 19);
  ("BPF_MAP_TYPE_REUSEPORT_SOCKARRAY", 20);
  ("BPF_MAP_TYPE_PERCPU_CGROUP_STORAGE_DEPRECATED", 21);
  ("BPF_MAP_TYPE_PERCPU_CGROUP_STORAGE", 21);
  ("BPF_MAP_TYPE_QUEUE", 22);
  ("BPF_MAP_TYPE_STACK", 23);
  ("BPF_MAP_TYPE_SK_STORAGE", 24);
  ("BPF_MAP_TYPE_DEVMAP_HASH", 25);
  ("BPF_MAP_TYPE_STRUCT_OPS", 26);
  ("BPF_MAP_TYPE_RINGBUF", 27);
  ("BPF_MAP_TYPE_INODE_STORAGE", 28);
  ("BPF_MAP_TYPE_TASK_STORAGE", 29);
  ("BPF_MAP_TYPE_BLOOM_FILTER", 30);
  ("BPF_MAP_TYPE_USER_RINGBUF", 31);
  ("BPF_MAP_TYPE_CGRP_STORAGE", 32);
  ("BPF_MAP_TYPE_ARENA", 33);
  ("BPF_MAP_TYPE_INSN_ARRAY", 34);
  ("__MAX_BPF_MAP_TYPE", 35)].

Definition td_bool : ctype := c_bool.

Definition td___s32 : ctype := c_int.

Definition td___s64 : ctype := c_llong.

Definition td_s64 : ctype := td___s64.

Definition td_ktime_t : ctype := td_s64.

Definition td___u64 : ctype := c_ullong.

Definition td_u64 : ctype := td___u64.

Definition td___addrpair : ctype := td___u64.

Definition td_netdev_features_t : ctype := td_u64.

Definition td___u16 : ctype := c_ushort.

Definition td_u16 : ctype := td___u16.

Definition td___be16 : ctype := td___u16.

Definition td___u8 : ctype := c_uchar.

Definition td_u8 : ctype := td___u8.

Definition td___u32 : ctype := c_uint.

Definition td_u32 : ctype := td___u32.

Definition td___be32 : ctype := td___u32.

Definition td___kernel_uid32_t : ctype := c_uint.

Definition td___portpair : ctype := td___u32.

Definition td_gfp_t : ctype := c_uint.

Definition td_uid_t : ctype := td___kernel_uid32_t.

Definition struct_list_head : ctype := CStruct "list_head" (
  field "next" (CPtr "struct list_head") ,,
  field "prev" (CPtr "struct list_head") ,,
  fin).

Definition td_atomic_t : ctype := CStruct "" (
  field "counter" c_int ,,
  fin).

Definition struct_refcount_struct : ctype := CStruct "refcount_struct" (
  field "refs" td_atomic_t ,,
  fin).

Definition td_refcount_t : ctype := struct_refcount_struct.

Definition td_atomic64_t : ctype := CStruct "" (
  field "counter" td_s64 ,,
  fin).

Definition struct_qspinlock : ctype := CStruct "qspinlock" (
  anon (CUnion "" (
    field "val" td_atomic_t ,,
    anon (CStruct "" (
      field "locked" td_u8 ,,
      field "pending" td_u8 ,,
      fin)) ,,
    anon (CStruct "" (
      field "locked_pending" td_u16 ,,
      field "tail" td_u16 ,,
      fin)) ,,
    fin)) ,,
  fin).

Definition td_arch_spinlock_t : ctype := struct_qspinlock.

Definition struct_qrwlock : ctype := CStruct "qrwlock" (
  anon (CUnion "" (
    field "cnts" td_atomic_t ,,
    anon (CStruct "" (
      field "wlocked" td_u8 ,,
      field "__lstate" (CArr td_u8 3) ,,
      fin)) ,,
    fin)) ,,
  field "wait_lock" td_arch_spinlock_t ,,
  fin).

Definition td_arch_rwlock_t : ctype := struct_qrwlock.

Definition struct_rwlock : ctype := CStruct "rwlock" (
  field "raw_lock" td_arch_rwlock_t ,,
  fin).

Definition td_rwlock_t : ctype := struct_rwlock.

Definition struct_raw_spinlock : ctype := CStruct "raw_spinlock" (
  field "raw_lock" td_arch_spinlock_t ,,
  fin).

Definition struct_spinlock : ctype := CStruct "spinlock" (
  anon (CUnion "" (
    field "rlock" struct_raw_spinlock ,,
    fin)) ,,
  fin).

Definition td_spinlock_t : ctype := struct_spinlock.

Definition td_freeptr_t : ctype := CStruct "" (
  field "v" c_ulong ,,
  fin).

Definition td_kuid_t : ctype := CStruct "" (
  field "val" td_uid_t ,,
  fin).

Definition td_netns_tracker : ctype := CStruct "" (
  fin).

Definition td_possible_net_t : ctype := CStruct "" (
  field "net" (CPtr "struct net") ,,
  fin).

Definition struct_wait_queue_head : ctype := CStruct "wait_queue_head" (
  field "lock" td_spinlock_t ,,
  field "head" struct_list_head ,,
  fin).

Definition td_wait_queue_head_t : ctype := struct_wait_queue_head.

Definition td_socket_lock_t : ctype := CStruct "" (
  anon (CUnion "" (
    field "combined" c_long ,,
    fin)) ,,
  field "wq" td_wait_queue_head_t ,,
  fin).

Definition struct_in6_addr : ctype := CStruct "in6_addr" (
  field "in6_u" (CUnion "" (
    field "u6_addr8" (CArr td___u8 16) ,,
    field "u6_addr16" (CArr td___be16 8) ,,
    field "u6_addr32" (CArr td___be32 4) ,,
    fin)) ,,
  fin).

Definition struct_hlist_node : ctype := CStruct "hlist_node" (
  field "next" (CPtr "struct hlist_node") ,,
  field "pprev" (CPtr "struct hlist_node *") ,,
  fin).

Definition struct_sk_buff_list : ctype := CStruct "sk_buff_list" (
  field "next" (CPtr "struct sk_buff") ,,
  field "prev" (CPtr "struct sk_buff") ,,
  fin).

Definition struct_sk_buff_head : ctype := CStruct "sk_buff_head" (
  anon (CUnion "" (
    anon (CStruct "" (
      field "next" (CPtr "struct sk_buff") ,,
      field "prev" (CPtr "struct sk_buff") ,,
      fin)) ,,
    field "list" struct_sk_buff_list ,,
    fin)) ,,
  field "qlen" td___u32 ,,
  field "lock" td_spinlock_t ,,
  fin).

Definition struct_callback_head : ctype := CStruct "callback_head" (
  field "next" (CPtr "struct callback_head") ,,
  field "func" (CPtr "void ()") ,,
  fin).

Definition struct_fred_cs : ctype := CStruct "fred_cs" (
  bits "cs" td_u64 16 ,,
  bits "sl" td_u64 2 ,,
  bits "wfe" td_u64 1 ,,
  fin).

Definition struct_fred_ss : ctype := CStruct "fred_ss" (
  bits "ss" td_u64 16 ,,
  bits "sti" td_u64 1 ,,
  bits "swevent" td_u64 1 ,,
  bits "nmi" td_u64 1 ,,
  pad c_int 13 ,,
  bits "vector" td_u64 8 ,,
  pad c_short 8 ,,
  bits "type" td_u64 4 ,,
  pad c_char 4 ,,
  bits "enclave" td_u64 1 ,,
  bits "l" td_u64 1 ,,
  bits "nested" td_u64 1 ,,
  pad c_char 1 ,,
  bits "insnlen" td_u64 4 ,,
  fin).

Definition struct_pt_regs : ctype := CStruct "pt_regs" (
  field "r15" c_ulong ,,
  field "r14" c_ulong ,,
  field "r13" c_ulong ,,
  field "r12" c_ulong ,,
  field "bp" c_ulong ,,
  field "bx" c_ulong ,,
  field "r11" c_ulong ,,
  field "r10" c_ulong ,,
  field "r9" c_ulong ,,
  field "r8" c_ulong ,,
  field "ax" c_ulong ,,
  field "cx" c_ulong ,,
  field "dx" c_ulong ,,
  field "si" c_ulong ,,
  field "di" c_ulong ,,
  field "orig_ax" c_ulong ,,
  field "ip" c_ulong ,,
  anon (CUnion "" (
    field "cs" td_u16 ,,
    field "csx" td_u64 ,,
    field "fred_cs" struct_fred_cs ,,
    fin)) ,,
  field "flags" c_ulong ,,
  field "sp" c_ulong ,,
  anon (CUnion "" (
    field "ss" td_u16 ,,
    field "ssx" td_u64 ,,
    field "fred_ss" struct_fred_ss ,,
    fin)) ,,
  fin).

Definition struct_timer_list : ctype := CStruct "timer_list" (
  field "entry" struct_hlist_node ,,
  field "expires" c_ulong ,,
  field "function" (CPtr "void ()") ,,
  field "flags" td_u32 ,,
  fin).

Definition struct_rb_root : ctype := CStruct "rb_root" (
  field "rb_node" (CPtr "struct rb_node") ,,
  fin).

Definition struct_xarray : ctype := CStruct "xarray" (
  field "xa_lock" td_spinlock_t ,,
  field "xa_flags" td_gfp_t ,,
  field "xa_head" (CPtr "void") ,,
  fin).

Definition struct_hlist_nulls_node : ctype := CStruct "hlist_nulls_node" (
  field "next" (CPtr "struct hlist_nulls_node") ,,
  field "pprev" (CPtr "struct hlist_nulls_node *") ,,
  fin).

Definition struct_sock_common : ctype := CStruct "sock_common" (
  anon (CUnion "" (
    field "skc_addrpair" td___addrpair ,,
    anon (CStruct "" (
      field "skc_daddr" td___be32 ,,
      field "skc_rcv_saddr" td___be32 ,,
      fin)) ,,
    fin)) ,,
  anon (CUnion "" (
    field "skc_hash" c_uint ,,
    field "skc_u16hashes" (CArr td___u16 2) ,,
    fin)) ,,
  anon (CUnion "" (
    field "skc_portpair" td___portpair ,,
    anon (CStruct "" (
      field "skc_dport" td___be16 ,,
      field "skc_num" td___u16 ,,
      fin)) ,,
    fin)) ,,
  field "skc_family" c_ushort ,,
  field "skc_state" c_uchar ,,
  bits "skc_reuse" c_uchar 4 ,,
  bits "skc_reuseport" c_uchar 1 ,,
  bits "skc_ipv6only" c_uchar 1 ,,
  bits "skc_net_refcnt" c_uchar 1 ,,
  bits "skc_bypass_prot_mem" c_uchar 1 ,,
  field "skc_bound_dev_if" c_int ,,
  anon (CUnion "" (
    field "skc_bind_node" struct_hlist_node ,,
    field "skc_portaddr_node" struct_hlist_node ,,
    fin)) ,,
  field "skc_prot" (CPtr "struct proto") ,,
  field "skc_net" td_possible_net_t ,,
  field "skc_v6_daddr" struct_in6_addr ,,
  field "skc_v6_rcv_saddr" struct_in6_addr ,,
  field "skc_cookie" td_atomic64_t ,,
  anon (CUnion "" (
    field "skc_flags" c_ulong ,,
    field "skc_listener" (CPtr "struct sock") ,,
    field "skc_tw_dr" (CPtr "struct inet_timewait_death_row") ,,
    fin)) ,,
  field "skc_dontcopy_begin" (CArr c_int 0) ,,
  anon (CUnion "" (
    field "skc_node" struct_hlist_node ,,
    field "skc_nulls_node" struct_hlist_nulls_node ,,
    fin)) ,,
  field "skc_tx_queue_mapping" c_ushort ,,
  field "skc_rx_queue_mapping" c_ushort ,,
  anon (CUnion "" (
    field "skc_incoming_cpu" c_int ,,
    field "skc_rcv_wnd" td_u32 ,,
    field "skc_tw_rcv_nxt" td_u32 ,,
    fin)) ,,
  field "skc_refcnt" td_refcount_t ,,
  field "skc_dontcopy_end" (CArr c_int 0) ,,
  anon (CUnion "" (
    field "skc_rxhash" td_u32 ,,
    field "skc_window_clamp" td_u32 ,,
    field "skc_tw_snd_nxt" td_u32 ,,
    fin)) ,,
  fin).

Definition struct_page_frag : ctype := CStruct "page_frag" (
  field "page" (CPtr "struct page") ,,
  field "offset" td___u32 ,,
  field "size" td___u32 ,,
  fin).

Definition struct_sock_cgroup_data : ctype := CStruct "sock_cgroup_data" (
  field "cgroup" (CPtr "struct cgroup") ,,
  field "classid" td_u32 ,,
  field "prioidx" td_u16 ,,
  fin).

Definition struct_sock : ctype := CStruct "sock" (
  field "__sk_common" struct_sock_common ,,
  field "__cacheline_group_begin__sock_write_rx" (CArr td___u8 0) ,,
  field "sk_drops" td_atomic_t ,,
  field "sk_peek_off" td___s32 ,,
  field "sk_error_queue" struct_sk_buff_head ,,
  field "sk_receive_queue" struct_sk_buff_head ,,
  field "sk_backlog" (CStruct "" (
    field "rmem_alloc" td_atomic_t ,,
    field "len" c_int ,,
    field "head" (CPtr "struct sk_buff") ,,
    field "tail" (CPtr "struct sk_buff") ,,
    fin)) ,,
  field "__cacheline_group_end__sock_write_rx" (CArr td___u8 0) ,,
  field "__cacheline_group_begin__sock_read_rx" (CArr td___u8 0) ,,
  field "sk_rx_dst" (CPtr "struct dst_entry") ,,
  field "sk_rx_dst_ifindex" c_int ,,
  field "sk_rx_dst_cookie" td_u32 ,,
  field "sk_ll_usec" c_uint ,,
  field "sk_napi_id" c_uint ,,
  field "sk_busy_poll_budget" td_u16 ,,
  field "sk_prefer_busy_poll" td_u8 ,,
  field "sk_userlocks" td_u8 ,,
  field "sk_rcvbuf" c_int ,,
  field "sk_filter" (CPtr "struct sk_filter") ,,
  anon (CUnion "" (
    field "sk_wq" (CPtr "struct socket_wq") ,,
    field "sk_wq_raw" (CPtr "struct socket_wq") ,,
    fin)) ,,
  field "sk_data_ready" (CPtr "void ()") ,,
  field "sk_rcvtimeo" c_long ,,
  field "sk_rcvlowat" c_int ,,
  field "__cacheline_group_end__sock_read_rx" (CArr td___u8 0) ,,
  field "__cacheline_group_begin__sock_read_rxtx" (CArr td___u8 0) ,,
  field "sk_err" c_int ,,
  field "sk_socket" (CPtr "struct socket") ,,
  field "sk_memcg" (CPtr "struct mem_cgroup") ,,
  field "sk_policy" (CArr (CPtr "struct xfrm_policy") 2) ,,
  field "__cacheline_group_end__sock_read_rxtx" (CArr td___u8 0) ,,
  field "__cacheline_group_begin__sock_write_rxtx" (CArr td___u8 0) ,,
  field "sk_lock" td_socket_lock_t ,,
  field "sk_reserved_mem" td_u32 ,,
  field "sk_forward_alloc" c_int ,,
  field "sk_tsflags" td_u32 ,,
  field "__cacheline_group_end__sock_write_rxtx" (CArr td___u8 0) ,,
  field "__cacheline_group_begin__sock_write_tx" (CArr td___u8 0) ,,
  field "sk_write_pending" c_int ,,
  field "sk_omem_alloc" td_atomic_t ,,
  field "sk_err_soft" c_int ,,
  field "sk_wmem_queued" c_int ,,
  field "sk_wmem_alloc" td_refcount_t ,,
  field "sk_tsq_flags" c_ulong ,,
  anon (CUnion "" (
    field "sk_send_head" (CPtr "struct sk_buff") ,,
    field "tcp_rtx_queue" struct_rb_root ,,
    fin)) ,,
  field "sk_write_queue" struct_sk_buff_head ,,
  field "sk_frag" struct_page_frag ,,
  anon (CUnion "" (
    field "sk_timer" struct_timer_list ,,
    field "tcp_retransmit_timer" struct_timer_list ,,
    field "mptcp_retransmit_timer" struct_timer_list ,,
    fin)) ,,
  field "sk_pacing_rate" c_ulong ,,
  field "sk_zckey" td_atomic_t ,,
  field "sk_tskey" td_atomic_t ,,
  field "sk_tx_queue_mapping_jiffies" c_ulong ,,
  field "__cacheline_group_end__sock_write_tx" (CArr td___u8 0) ,,
  field "__cacheline_group_begin__sock_read_tx" (CArr td___u8 0) ,,
  field "sk_dst_pending_confirm" td_u32 ,,
  field "sk_pacing_status" td_u32 ,,
  field "sk_max_pacing_rate" c_ulong ,,
  field "sk_sndtimeo" c_long ,,
  field "sk_priority" td_u32 ,,
  field "sk_mark" td_u32 ,,
  field "sk_uid" td_kuid_t ,,
  field "sk_protocol" td_u16 ,,
  field "sk_type" td_u16 ,,
  field "sk_dst_cache" (CPtr "struct dst_entry") ,,
  field "sk_route_caps" td_netdev_features_t ,,
  field "sk_validate_xmit_skb" (CPtr "struct sk_buff * ()") ,,
  field "sk_gso_type" td_u16 ,,
  field "sk_gso_max_segs" td_u16 ,,
  field "sk_gso_max_size" c_uint ,,
  field "sk_allocation" td_gfp_t ,,
  field "sk_txhash" td_u32 ,,
  field "sk_sndbuf" c_int ,,
  field "sk_pacing_shift" td_u8 ,,
  field "sk_use_task_frag" td_bool ,,
  field "__cacheline_group_end__sock_read_tx" (CArr td___u8 0) ,,
  bits "sk_gso_disabled" td_u8 1 ,,
  bits "sk_kern_sock" td_u8 1 ,,
  bits "sk_no_check_tx" td_u8 1 ,,
  bits "sk_no_check_rx" td_u8 1 ,,
  field "sk_shutdown" td_u8 ,,
  field "sk_lingertime" c_ulong ,,
  field "sk_prot_creator" (CPtr "struct proto") ,,
  field "sk_callback_lock" td_rwlock_t ,,
  field "sk_ack_backlog" td_u32 ,,
  field "sk_max_ack_backlog" td_u32 ,,
  field "sk_ino" td_u64 ,,
  field "sk_peer_lock" td_spinlock_t ,,
  field "sk_bind_phc" c_int ,,
  field "sk_peer_pid" (CPtr "struct pid") ,,
  field "sk_peer_cred" (CPtr "struct cred") ,,
  field "sk_stamp" td_ktime_t ,,
  field "sk_disconnects" c_int ,,
  anon (CUnion "" (
    field "sk_txrehash" td_u8 ,,
    field "sk_scm_recv_flags" td_u8 ,,
    anon (CStruct "" (
      bits "sk_scm_credentials" td_u8 1 ,,
      bits "sk_scm_security" td_u8 1 ,,
      bits "sk_scm_pidfd" td_u8 1 ,,
      bits "sk_scm_rights" td_u8 1 ,,
      bits "sk_scm_unused" td_u8 4 ,,
      fin)) ,,
    fin)) ,,
  field "sk_clockid" td_u8 ,,
  bits "sk_txtime_deadline_mode" td_u8 1 ,,
  bits "sk_txtime_report_errors" td_u8 1 ,,
  bits "sk_txtime_unused" td_u8 6 ,,
  field "sk_bpf_cb_flags" td_u8 ,,
  field "sk_user_data" (CPtr "void") ,,
  field "sk_security" (CPtr "void") ,,
  field "sk_cgrp_data" struct_sock_cgroup_data ,,
  field "sk_state_change" (CPtr "void ()") ,,
  field "sk_write_space" (CPtr "void ()") ,,
  field "sk_error_report" (CPtr "void ()") ,,
  field "sk_backlog_rcv" (CPtr "int ()") ,,
  field "sk_destruct" (CPtr "void ()") ,,
  field "sk_reuseport_cb" (CPtr "struct sock_reuseport") ,,
  field "sk_bpf_storage" (CPtr "struct bpf_local_storage") ,,
  field "sk_drop_counters" (CPtr "struct numa_drop_counters") ,,
  anon (CUnion "" (
    field "sk_rcu" struct_callback_head ,,
    field "sk_freeptr" td_freeptr_t ,,
    fin)) ,,
  field "ns_tracker" td_netns_tracker ,,
  field "sk_user_frags" struct_xarray ,,
  fin).

Definition struct_bpf_ringbuf_hdr : ctype := CStruct "bpf_ringbuf_hdr" (
  field "len" td_u32 ,,
  field "pg_off" td_u32 ,,
  fin).

(** All types of this file. *)
Definition vmsock_types : list ctype := [
  enum_bpf_map_type;
  td_bool;
  td___s32;
  td___s64;
  td_s64;
  td_ktime_t;
  td___u64;
  td_u64;
  td___addrpair;
  td_netdev_features_t;
  td___u16;
  td_u16;
  td___be16;
  td___u8;
  td_u8;
  td___u32;
  td_u32;
  td___be32;
  td___kernel_uid32_t;
  td___portpair;
  td_gfp_t;
  td_uid_t;
  struct_list_head;
  td_atomic_t;
  struct_refcount_struct;
  td_refcount_t;
  td_atomic64_t;
  struct_qspinlock;
  td_arch_spinlock_t;
  struct_qrwlock;
  td_arch_rwlock_t;
  struct_rwlock;
  td_rwlock_t;
  struct_raw_spinlock;
  struct_spinlock;
  td_spinlock_t;
  td_freeptr_t;
  td_kuid_t;
  td_netns_tracker;
  td_possible_net_t;
  struct_wait_queue_head;
  td_wait_queue_head_t;
  td_socket_lock_t;
  struct_in6_addr;
  struct_hlist_node;
  struct_sk_buff_list;
  struct_sk_buff_head;
  struct_callback_head;
  struct_fred_cs;
  struct_fred_ss;
  struct_pt_regs;
  struct_timer_list;
  struct_rb_root;
  struct_xarray;
  struct_hlist_nulls_node;
  struct_sock_common;
  struct_page_frag;
  struct_sock_cgroup_data;
  struct_sock;
  struct_bpf_ringbuf_hdr].
