(* ===== verification/VmTcp.v ===== *)
(** * vmlinux.h: VmTcp

    Types of the object tcp_v4_connect is called on: struct tcp_sock, which
    embeds struct sock through inet_connection_sock and inet_sock.
    Transcribed declaration by declaration from
    internal/network/ebpf/bpf/vmlinux.h, in its order: [struct_x], [union_x],
    [enum_x] and [td_x] are its struct, union, enum and typedef [x]; a pointer
    keeps the name of its target. *)
From S2P Require Import Prelude CTypes VmSock.
From stdpp Require Import base list strings.
From Stdlib Require Import ZArith.
Local Open Scope cdecl_scope.
Local Open Scope string_scope.
Local Open Scope Z_scope.

Definition td___be64 : ctype := td___u64.

Definition td___s16 : ctype := c_short.

Definition td_dscp_t : ctype := td_u8.

Definition struct_rb_node : ctype := CStruct "rb_node" (
  field "__rb_parent_color" c_ulong ,,
  field "rb_right" (CPtr "struct rb_node") ,,
  field "rb_left" (CPtr "struct rb_node") ,,
  fin).

Definition struct_rb_node_linked : ctype := CStruct "rb_node_linked" (
  field "node" struct_rb_node ,,
  field "prev" (CPtr "struct rb_node_linked") ,,
  field "next" (CPtr "struct rb_node_linked") ,,
  fin).

Definition struct_timerqueue_linked_node : ctype := CStruct "timerqueue_linked_node" (
  field "node" struct_rb_node_linked ,,
  field "expires" td_ktime_t ,,
  fin).

Definition struct_hrtimer : ctype := CStruct "hrtimer" (
  field "node" struct_timerqueue_linked_node ,,
  field "base" (CPtr "struct hrtimer_clock_base") ,,
  field "is_queued" td_bool ,,
  field "is_rel" td_bool ,,
  field "is_soft" td_bool ,,
  field "is_hard" td_bool ,,
  field "is_lazy" td_bool ,,
  field "_softexpires" td_ktime_t ,,
  field "function" (CPtr "enum hrtimer_restart ()") ,,
  fin).

Definition struct_fastopen_queue : ctype := CStruct "fastopen_queue" (
  field "rskq_rst_head" (CPtr "struct request_sock") ,,
  field "rskq_rst_tail" (CPtr "struct request_sock") ,,
  field "lock" td_spinlock_t ,,
  field "qlen" c_int ,,
  field "max_qlen" c_int ,,
  field "ctx" (CPtr "struct tcp_fastopen_context") ,,
  fin).

Definition struct_flowi_tunnel : ctype := CStruct "flowi_tunnel" (
  field "tun_id" td___be64 ,,
  fin).

Definition struct_flowi_common : ctype := CStruct "flowi_common" (
  field "flowic_oif" c_int ,,
  field "flowic_iif" c_int ,,
  field "flowic_l3mdev" c_int ,,
  field "flowic_mark" td___u32 ,,
  field "flowic_dscp" td_dscp_t ,,
  field "flowic_scope" td___u8 ,,
  field "flowic_proto" td___u8 ,,
  field "flowic_flags" td___u8 ,,
  field "flowic_secid" td___u32 ,,
  field "flowic_uid" td_kuid_t ,,
  field "flowic_multipath_hash" td___u32 ,,
  field "flowic_tun_key" struct_flowi_tunnel ,,
  fin).

Definition union_flowi_uli : ctype := CUnion "flowi_uli" (
  field "ports" (CStruct "" (
    field "dport" td___be16 ,,
    field "sport" td___be16 ,,
    fin)) ,,
  field "icmpt" (CStruct "" (
    field "type" td___u8 ,,
    field "code" td___u8 ,,
    fin)) ,,
  field "gre_key" td___be32 ,,
  field "mht" (CStruct "" (
    field "type" td___u8 ,,
    fin)) ,,
  fin).

Definition struct_flowi4 : ctype := CStruct "flowi4" (
  field "__fl_common" struct_flowi_common ,,
  field "saddr" td___be32 ,,
  field "daddr" td___be32 ,,
  field "uli" union_flowi_uli ,,
  fin).

Definition struct_flowi6 : ctype := CStruct "flowi6" (
  field "__fl_common" struct_flowi_common ,,
  field "daddr" struct_in6_addr ,,
  field "saddr" struct_in6_addr ,,
  field "flowlabel" td___be32 ,,
  field "uli" union_flowi_uli ,,
  field "mp_hash" td___u32 ,,
  fin).

Definition struct_flowi : ctype := CStruct "flowi" (
  field "u" (CUnion "" (
    field "__fl_common" struct_flowi_common ,,
    field "ip4" struct_flowi4 ,,
    field "ip6" struct_flowi6 ,,
    fin)) ,,
  fin).

Definition struct_inet6_cork : ctype := CStruct "inet6_cork" (
  field "opt" (CPtr "struct ipv6_txoptions") ,,
  field "hop_limit" td_u8 ,,
  field "tclass" td_u8 ,,
  bits "dontfrag" td_u8 1 ,,
  fin).

Definition struct_inet_cork : ctype := CStruct "inet_cork" (
  field "flags" c_uint ,,
  field "addr" td___be32 ,,
  field "opt" (CPtr "struct ip_options") ,,
  field "fragsize" c_uint ,,
  field "length" c_int ,,
  field "dst" (CPtr "struct dst_entry") ,,
  field "tx_flags" td_u8 ,,
  field "ttl" td___u8 ,,
  field "tos" td___s16 ,,
  field "priority" td_u32 ,,
  field "gso_size" td___u16 ,,
  field "ts_opt_id" td_u32 ,,
  field "transmit_time" td_u64 ,,
  field "mark" td_u32 ,,
  fin).

Definition struct_inet_cork_full : ctype := CStruct "inet_cork_full" (
  field "base" struct_inet_cork ,,
  field "fl" struct_flowi ,,
  field "base6" struct_inet6_cork ,,
  fin).

Definition struct_inet_sock : ctype := CStruct "inet_sock" (
  field "sk" struct_sock ,,
  field "pinet6" (CPtr "struct ipv6_pinfo") ,,
  field "ipv6_fl_list" (CPtr "struct ipv6_fl_socklist") ,,
  field "inet_flags" c_ulong ,,
  field "inet_saddr" td___be32 ,,
  field "uc_ttl" td___s16 ,,
  field "inet_sport" td___be16 ,,
  field "inet_opt" (CPtr "struct ip_options_rcu") ,,
  field "inet_id" td_atomic_t ,,
  field "tos" td___u8 ,,
  field "min_ttl" td___u8 ,,
  field "mc_ttl" td___u8 ,,
  field "pmtudisc" td___u8 ,,
  field "rcv_tos" td___u8 ,,
  field "convert_csum" td___u8 ,,
  field "uc_index" c_int ,,
  field "mc_index" c_int ,,
  field "mc_addr" td___be32 ,,
  field "local_port_range" td_u32 ,,
  field "mc_list" (CPtr "struct ip_mc_socklist") ,,
  field "cork" struct_inet_cork_full ,,
  fin).

Definition struct_request_sock_queue : ctype := CStruct "request_sock_queue" (
  field "rskq_lock" td_spinlock_t ,,
  field "rskq_defer_accept" td_u8 ,,
  field "synflood_warned" td_u8 ,,
  field "qlen" td_atomic_t ,,
  field "young" td_atomic_t ,,
  field "rskq_accept_head" (CPtr "struct request_sock") ,,
  field "rskq_accept_tail" (CPtr "struct request_sock") ,,
  field "fastopenq" struct_fastopen_queue ,,
  fin).

Definition struct_inet_connection_sock : ctype := CStruct "inet_connection_sock" (
  field "icsk_inet" struct_inet_sock ,,
  field "icsk_accept_queue" struct_request_sock_queue ,,
  field "icsk_bind_hash" (CPtr "struct inet_bind_bucket") ,,
  field "icsk_bind2_hash" (CPtr "struct inet_bind2_bucket") ,,
  field "icsk_delack_timer" struct_timer_list ,,
  anon (CUnion "" (
    field "icsk_keepalive_timer" struct_timer_list ,,
    field "mptcp_tout_timer" struct_timer_list ,,
    fin)) ,,
  field "icsk_rto" td___u32 ,,
  field "icsk_rto_min" td___u32 ,,
  field "icsk_rto_max" td_u32 ,,
  field "icsk_delack_max" td___u32 ,,
  field "icsk_pmtu_cookie" td___u32 ,,
  field "icsk_ca_ops" (CPtr "struct tcp_congestion_ops") ,,
  field "icsk_af_ops" (CPtr "struct inet_connection_sock_af_ops") ,,
  field "icsk_ulp_ops" (CPtr "struct tcp_ulp_ops") ,,
  field "icsk_ulp_data" (CPtr "void") ,,
  field "icsk_sync_mss" (CPtr "unsigned int ()") ,,
  bits "icsk_ca_state" td___u8 5 ,,
  bits "icsk_ca_initialized" td___u8 1 ,,
  bits "icsk_ca_setsockopt" td___u8 1 ,,
  bits "icsk_ca_dst_locked" td___u8 1 ,,
  field "icsk_retransmits" td___u8 ,,
  field "icsk_pending" td___u8 ,,
  field "icsk_backoff" td___u8 ,,
  field "icsk_syn_retries" td___u8 ,,
  field "icsk_probes_out" td___u8 ,,
  field "icsk_ext_hdr_len" td___u16 ,,
  field "icsk_ack" (CStruct "" (
    field "pending" td___u8 ,,
    field "quick" td___u8 ,,
    field "pingpong" td___u8 ,,
    field "retry" td___u8 ,,
    bits "ato" td___u32 8 ,,
    bits "lrcv_flowlabel" td___u32 20 ,,
    bits "dst_quick_ack" td___u32 1 ,,
    bits "unused" td___u32 3 ,,
    field "lrcvtime" td___u32 ,,
    field "last_seg_size" td___u16 ,,
    field "rcv_mss" td___u16 ,,
    fin)) ,,
  field "icsk_mtup" (CStruct "" (
    field "search_high" c_int ,,
    field "search_low" c_int ,,
    bits "probe_size" td_u32 31 ,,
    bits "enabled" td_u32 1 ,,
    field "probe_timestamp" td_u32 ,,
    fin)) ,,
  field "icsk_probes_tstamp" td_u32 ,,
  field "icsk_user_timeout" td_u32 ,,
  field "icsk_ca_priv" (CArr td_u64 13) ,,
  fin).

Definition struct_minmax_sample : ctype := CStruct "minmax_sample" (
  field "t" td_u32 ,,
  field "v" td_u32 ,,
  fin).

Definition struct_minmax : ctype := CStruct "minmax" (
  field "s" (CArr struct_minmax_sample 3) ,,
  fin).

Definition struct_tcp_options_received : ctype := CStruct "tcp_options_received" (
  field "ts_recent_stamp" c_int ,,
  field "ts_recent" td_u32 ,,
  field "rcv_tsval" td_u32 ,,
  field "rcv_tsecr" td_u32 ,,
  bits "saw_tstamp" td_u16 1 ,,
  bits "tstamp_ok" td_u16 1 ,,
  bits "dsack" td_u16 1 ,,
  bits "wscale_ok" td_u16 1 ,,
  bits "sack_ok" td_u16 3 ,,
  bits "smc_ok" td_u16 1 ,,
  bits "snd_wscale" td_u16 4 ,,
  bits "rcv_wscale" td_u16 4 ,,
  bits "accecn" td_u8 6 ,,
  bits "saw_unknown" td_u8 1 ,,
  bits "unused" td_u8 1 ,,
  field "num_sacks" td_u8 ,,
  field "user_mss" td_u16 ,,
  field "mss_clamp" td_u16 ,,
  fin).

Definition struct_tcp_rack : ctype := CStruct "tcp_rack" (
  field "mstamp" td_u64 ,,
  field "rtt_us" td_u32 ,,
  field "end_seq" td_u32 ,,
  field "last_delivered" td_u32 ,,
  field "reo_wnd_steps" td_u8 ,,
  bits "reo_wnd_persist" td_u8 5 ,,
  bits "dsack_seen" td_u8 1 ,,
  bits "advanced" td_u8 1 ,,
  fin).

Definition struct_tcp_sack_block : ctype := CStruct "tcp_sack_block" (
  field "start_seq" td_u32 ,,
  field "end_seq" td_u32 ,,
  fin).

Definition struct_tcp_sock : ctype := CStruct "tcp_sock" (
  field "inet_conn" struct_inet_connection_sock ,,
  field "__cacheline_group_begin__tcp_sock_read_tx" (CArr td___u8 0) ,,
  field "max_window" td_u32 ,,
  field "rcv_ssthresh" td_u32 ,,
  field "reordering" td_u32 ,,
  field "notsent_lowat" td_u32 ,,
  field "gso_segs" td_u16 ,,
  field "retransmit_skb_hint" (CPtr "struct sk_buff") ,,
  field "tcp_clean_acked" (CPtr "void ()") ,,
  field "__cacheline_group_end__tcp_sock_read_tx" (CArr td___u8 0) ,,
  field "__cacheline_group_begin__tcp_sock_read_txrx" (CArr td___u8 0) ,,
  field "tsoffset" td_u32 ,,
  field "snd_wnd" td_u32 ,,
  field "mss_cache" td_u32 ,,
  field "snd_cwnd" td_u32 ,,
  field "prr_out" td_u32 ,,
  field "lost_out" td_u32 ,,
  field "sacked_out" td_u32 ,,
  field "tcp_header_len" td_u16 ,,
  field "scaling_ratio" td_u8 ,,
  bits "repair" td_u8 1 ,,
  bits "tcp_usec_ts" td_u8 1 ,,
  bits "is_sack_reneg" td_u8 1 ,,
  bits "is_cwnd_limited" td_u8 1 ,,
  bits "recvmsg_inq" td_u8 1 ,,
  field "__cacheline_group_end__tcp_sock_read_txrx" (CArr td___u8 0) ,,
  field "__cacheline_group_begin__tcp_sock_read_rx" (CArr td___u8 0) ,,
  field "copied_seq" td_u32 ,,
  field "snd_wl1" td_u32 ,,
  field "tlp_high_seq" td_u32 ,,
  field "rttvar_us" td_u32 ,,
  field "retrans_out" td_u32 ,,
  field "advmss" td_u16 ,,
  field "urg_data" td_u16 ,,
  field "lost" td_u32 ,,
  field "snd_ssthresh" td_u32 ,,
  field "rtt_min" struct_minmax ,,
  field "out_of_order_queue" struct_rb_root ,,
  field "__cacheline_group_end__tcp_sock_read_rx" (CArr td___u8 0) ,,
  pad c_long 64 ,,
  pad c_long 64 ,,
  pad c_long 64 ,,
  pad c_long 64 ,,
  field "__cacheline_group_begin__tcp_sock_write_tx" (CArr td___u8 0) ,,
  field "segs_out" td_u32 ,,
  field "data_segs_out" td_u32 ,,
  field "bytes_sent" td_u64 ,,
  field "snd_sml" td_u32 ,,
  field "chrono_type" td_u8 ,,
  field "chrono_start" td_u32 ,,
  field "chrono_stat" (CArr td_u32 3) ,,
  field "write_seq" td_u32 ,,
  field "pushed_seq" td_u32 ,,
  field "lsndtime" td_u32 ,,
  field "mdev_us" td_u32 ,,
  field "rtt_seq" td_u32 ,,
  field "tcp_wstamp_ns" td_u64 ,,
  field "accecn_opt_tstamp" td_u64 ,,
  field "tsorted_sent_queue" struct_list_head ,,
  field "highest_sack" (CPtr "struct sk_buff") ,,
  field "ecn_flags" td_u8 ,,
  field "__cacheline_group_end__tcp_sock_write_tx" (CArr td___u8 0) ,,
  field "__cacheline_group_begin__tcp_sock_write_txrx" (CArr td___u8 0) ,,
  bits "nonagle" td_u8 4 ,,
  bits "rate_app_limited" td_u8 1 ,,
  pad c_short 3 ,,
  bits "received_ce_pending" td_u8 4 ,,
  bits "accecn_opt_sent_w_dsack" td_u8 1 ,,
  bits "unused2" td_u8 3 ,,
  bits "accecn_minlen" td_u8 2 ,,
  bits "est_ecnfield" td_u8 2 ,,
  bits "accecn_opt_demand" td_u8 2 ,,
  bits "prev_ecnfield" td_u8 2 ,,
  field "pred_flags" td___be32 ,,
  field "tcp_clock_cache" td_u64 ,,
  field "tcp_mstamp" td_u64 ,,
  field "rcv_nxt" td_u32 ,,
  field "snd_nxt" td_u32 ,,
  field "snd_una" td_u32 ,,
  field "window_clamp" td_u32 ,,
  field "srtt_us" td_u32 ,,
  field "packets_out" td_u32 ,,
  field "snd_up" td_u32 ,,
  field "delivered" td_u32 ,,
  field "delivered_ce" td_u32 ,,
  field "received_ce" td_u32 ,,
  field "received_ecn_bytes" (CArr td_u32 3) ,,
  field "app_limited" td_u32 ,,
  field "rcv_wnd" td_u32 ,,
  field "rcv_mwnd_seq" td_u32 ,,
  field "rcv_tstamp" td_u32 ,,
  field "rx_opt" struct_tcp_options_received ,,
  field "__cacheline_group_end__tcp_sock_write_txrx" (CArr td___u8 0) ,,
  pad c_long 0 ,,
  field "__cacheline_group_begin__tcp_sock_write_rx" (CArr td___u8 0) ,,
  field "bytes_received" td_u64 ,,
  field "segs_in" td_u32 ,,
  field "data_segs_in" td_u32 ,,
  field "rcv_wup" td_u32 ,,
  field "max_packets_out" td_u32 ,,
  field "cwnd_usage_seq" td_u32 ,,
  field "rate_delivered" td_u32 ,,
  field "rate_interval_us" td_u32 ,,
  field "rcv_rtt_last_tsecr" td_u32 ,,
  field "delivered_ecn_bytes" (CArr td_u32 3) ,,
  field "pkts_acked_ewma" td_u16 ,,
  field "first_tx_mstamp" td_u64 ,,
  field "delivered_mstamp" td_u64 ,,
  field "bytes_acked" td_u64 ,,
  field "rcv_rtt_est" (CStruct "" (
    field "rtt_us" td_u32 ,,
    field "seq" td_u32 ,,
    field "time" td_u64 ,,
    fin)) ,,
  field "rcvq_space" (CStruct "" (
    field "space" c_int ,,
    field "seq" td_u32 ,,
    field "time" td_u64 ,,
    fin)) ,,
  field "__cacheline_group_end__tcp_sock_write_rx" (CArr td___u8 0) ,,
  field "dsack_dups" td_u32 ,,
  field "compressed_ack_rcv_nxt" td_u32 ,,
  field "tsq_node" struct_list_head ,,
  field "rack" struct_tcp_rack ,,
  field "compressed_ack" td_u8 ,,
  bits "dup_ack_counter" td_u8 2 ,,
  bits "tlp_retrans" td_u8 1 ,,
  bits "syn_ect_snt" td_u8 2 ,,
  bits "syn_ect_rcv" td_u8 2 ,,
  bits "thin_lto" td_u8 1 ,,
  bits "fastopen_connect" td_u8 1 ,,
  bits "fastopen_no_cookie" td_u8 1 ,,
  bits "fastopen_client_fail" td_u8 2 ,,
  bits "frto" td_u8 1 ,,
  field "repair_queue" td_u8 ,,
  bits "save_syn" td_u8 2 ,,
  bits "syn_data" td_u8 1 ,,
  bits "syn_fastopen" td_u8 1 ,,
  bits "syn_fastopen_exp" td_u8 1 ,,
  bits "syn_fastopen_ch" td_u8 1 ,,
  bits "syn_data_acked" td_u8 1 ,,
  bits "syn_fastopen_child" td_u8 1 ,,
  field "keepalive_probes" td_u8 ,,
  bits "accecn_fail_mode" td_u8 4 ,,
  bits "saw_accecn_opt" td_u8 2 ,,
  field "tcp_tx_delay" td_u32 ,,
  field "mdev_max_us" td_u32 ,,
  field "reord_seen" td_u32 ,,
  field "snd_cwnd_cnt" td_u32 ,,
  field "snd_cwnd_clamp" td_u32 ,,
  field "snd_cwnd_used" td_u32 ,,
  field "snd_cwnd_stamp" td_u32 ,,
  field "prior_cwnd" td_u32 ,,
  field "prr_delivered" td_u32 ,,
  field "last_oow_ack_time" td_u32 ,,
  field "pacing_timer" struct_hrtimer ,,
  field "compressed_ack_timer" struct_hrtimer ,,
  field "ooo_last_skb" (CPtr "struct sk_buff") ,,
  field "duplicate_sack" (CArr struct_tcp_sack_block 1) ,,
  field "selective_acks" (CArr struct_tcp_sack_block 4) ,,
  field "recv_sack_cache" (CArr struct_tcp_sack_block 4) ,,
  field "prior_ssthresh" td_u32 ,,
  field "high_seq" td_u32 ,,
  field "retrans_stamp" td_u32 ,,
  field "undo_marker" td_u32 ,,
  field "undo_retrans" c_int ,,
  field "mtu_info" td_u32 ,,
  field "bytes_retrans" td_u64 ,,
  field "total_retrans" td_u32 ,,
  field "rto_stamp" td_u32 ,,
  field "total_rto" td_u16 ,,
  field "total_rto_recoveries" td_u16 ,,
  field "total_rto_time" td_u32 ,,
  field "urg_seq" td_u32 ,,
  field "keepalive_time" c_uint ,,
  field "keepalive_intvl" c_uint ,,
  field "linger2" c_int ,,
  field "bpf_sock_ops_cb_flags" td_u8 ,,
  bits "bpf_chg_cc_inprogress" td_u8 1 ,,
  field "timeout_rehash" td_u16 ,,
  field "rcv_ooopack" td_u32 ,,
  field "mtu_probe" (CStruct "" (
    field "probe_seq_start" td_u32 ,,
    field "probe_seq_end" td_u32 ,,
    fin)) ,,
  field "plb_rehash" td_u32 ,,
  field "is_mptcp" td_bool ,,
  field "syn_smc" td_bool ,,
  field "smc_hs_congested" (CPtr "bool ()") ,,
  field "af_specific" (CPtr "struct tcp_sock_af_ops") ,,
  field "md5sig_info" (CPtr "struct tcp_md5sig_info") ,,
  field "fastopen_req" (CPtr "struct tcp_fastopen_request") ,,
  field "fastopen_rsk" (CPtr "struct request_sock") ,,
  field "saved_syn" (CPtr "struct saved_syn") ,,
  pad c_long 64 ,,
  pad c_long 64 ,,
  pad c_long 64 ,,
  fin).

(** All types of this file. *)
Definition vmtcp_types : list ctype := [
  td___be64;
  td___s16;
  td_dscp_t;
  struct_rb_node;
  struct_rb_node_linked;
  struct_timerqueue_linked_node;
  struct_hrtimer;
  struct_fastopen_queue;
  struct_flowi_tunnel;
  struct_flowi_common;
  union_flowi_uli;
  struct_flowi4;
  struct_flowi6;
  struct_flowi;
  struct_inet6_cork;
  struct_inet_cork;
  struct_inet_cork_full;
  struct_inet_sock;
  struct_request_sock_queue;
  struct_inet_connection_sock;
  struct_minmax_sample;
  struct_minmax;
  struct_tcp_options_received;
  struct_tcp_rack;
  struct_tcp_sack_block;
  struct_tcp_sock].
