(* ===== verification/VmTask.v ===== *)
(** * vmlinux.h: VmTask

    Types of the current task: struct task_struct and its by-value members
    (comm, pid and tgid are read by the BPF helpers).
    Transcribed declaration by declaration from
    internal/network/ebpf/bpf/vmlinux.h, in its order: [struct_x], [union_x],
    [enum_x] and [td_x] are its struct, union, enum and typedef [x]; a pointer
    keeps the name of its target. *)
From S2P Require Import Prelude CTypes VmSock VmTcp.
From stdpp Require Import base list strings.
From Stdlib Require Import ZArith.
Local Open Scope cdecl_scope.
Local Open Scope string_scope.
Local Open Scope Z_scope.

Definition enum_timespec_type : ctype := CEnum "timespec_type" [
  ("TT_NONE", 0);
  ("TT_NATIVE", 1);
  ("TT_COMPAT", 2)].

Definition enum_vtime_state : ctype := CEnum "vtime_state" [
  ("VTIME_INACTIVE", 0);
  ("VTIME_IDLE", 1);
  ("VTIME_SYS", 2);
  ("VTIME_USER", 3);
  ("VTIME_GUEST", 4)].

Definition td___kernel_clockid_t : ctype := c_int.

Definition td___kernel_pid_t : ctype := c_int.

Definition td_clockid_t : ctype := td___kernel_clockid_t.

Definition td_s32 : ctype := td___s32.

Definition td_pid_t : ctype := td___kernel_pid_t.

Definition td_time64_t : ctype := td___s64.

Definition td___kernel_ulong_t : ctype := c_ulong.

Definition td___kernel_size_t : ctype := td___kernel_ulong_t.

Definition td_size_t : ctype := td___kernel_size_t.

Definition td_atomic_long_t : ctype := td_atomic64_t.

Definition td_raw_spinlock_t : ctype := struct_raw_spinlock.

Definition struct_optimistic_spin_queue : ctype := CStruct "optimistic_spin_queue" (
  field "tail" td_atomic_t ,,
  fin).

Definition struct_mutex : ctype := CStruct "mutex" (
  field "owner" td_atomic_long_t ,,
  field "wait_lock" td_raw_spinlock_t ,,
  field "osq" struct_optimistic_spin_queue ,,
  field "first_waiter" (CPtr "struct mutex_waiter") ,,
  fin).

Definition td_nodemask_t : ctype := CStruct "" (
  field "bits" (CArr c_ulong 1) ,,
  fin).

Definition struct_seqcount : ctype := CStruct "seqcount" (
  field "sequence" c_uint ,,
  fin).

Definition td_seqcount_t : ctype := struct_seqcount.

Definition td_sigset_t : ctype := CStruct "" (
  field "sig" (CArr c_ulong 1) ,,
  fin).

Definition struct_llist_head : ctype := CStruct "llist_head" (
  field "first" (CPtr "struct llist_node") ,,
  fin).

Definition struct_llist_node : ctype := CStruct "llist_node" (
  field "next" (CPtr "struct llist_node") ,,
  fin).

Definition struct___call_single_node : ctype := CStruct "__call_single_node" (
  field "llist" struct_llist_node ,,
  anon (CUnion "" (
    field "u_flags" c_uint ,,
    field "a_flags" td_atomic_t ,,
    fin)) ,,
  field "src" td_u16 ,,
  field "dst" td_u16 ,,
  fin).

Definition struct_cpumask : ctype := CStruct "cpumask" (
  field "bits" (CArr c_ulong 6) ,,
  fin).

Definition struct_plist_node : ctype := CStruct "plist_node" (
  field "prio" c_int ,,
  field "prio_list" struct_list_head ,,
  field "node_list" struct_list_head ,,
  fin).

Definition struct_rb_root_cached : ctype := CStruct "rb_root_cached" (
  field "rb_root" struct_rb_root ,,
  field "rb_leftmost" (CPtr "struct rb_node") ,,
  fin).

Definition struct_timespec64 : ctype := CStruct "timespec64" (
  field "tv_sec" td_time64_t ,,
  field "tv_nsec" c_long ,,
  fin).

Definition struct_hlist_head : ctype := CStruct "hlist_head" (
  field "first" (CPtr "struct hlist_node") ,,
  fin).

Definition struct_timerqueue_head : ctype := CStruct "timerqueue_head" (
  field "rb_root" struct_rb_root_cached ,,
  fin).

Definition struct_arch_tlbflush_unmap_batch : ctype := CStruct "arch_tlbflush_unmap_batch" (
  field "cpumask" struct_cpumask ,,
  field "unmapped_pages" td_bool ,,
  fin).

Definition struct_seqcount_spinlock : ctype := CStruct "seqcount_spinlock" (
  field "seqcount" td_seqcount_t ,,
  fin).

Definition td_seqcount_spinlock_t : ctype := struct_seqcount_spinlock.

Definition td_cpumask_t : ctype := struct_cpumask.

Definition struct_scx_dsq_list_node : ctype := CStruct "scx_dsq_list_node" (
  field "node" struct_list_head ,,
  field "flags" td_u32 ,,
  field "priv" td_u32 ,,
  fin).

Definition struct_load_weight : ctype := CStruct "load_weight" (
  field "weight" c_ulong ,,
  field "inv_weight" td_u32 ,,
  fin).

Definition struct_sched_avg : ctype := CStruct "sched_avg" (
  field "last_update_time" td_u64 ,,
  field "load_sum" td_u64 ,,
  field "runnable_sum" td_u64 ,,
  field "util_sum" td_u32 ,,
  field "period_contrib" td_u32 ,,
  field "load_avg" c_ulong ,,
  field "runnable_avg" c_ulong ,,
  field "util_avg" c_ulong ,,
  field "util_est" c_uint ,,
  fin).

Definition struct_prev_cputime : ctype := CStruct "prev_cputime" (
  field "utime" td_u64 ,,
  field "stime" td_u64 ,,
  field "lock" td_raw_spinlock_t ,,
  fin).

Definition struct_desc_struct : ctype := CStruct "desc_struct" (
  field "limit0" td_u16 ,,
  field "base0" td_u16 ,,
  bits "base1" td_u16 8 ,,
  bits "type" td_u16 4 ,,
  bits "s" td_u16 1 ,,
  bits "dpl" td_u16 2 ,,
  bits "p" td_u16 1 ,,
  bits "limit1" td_u16 4 ,,
  bits "avl" td_u16 1 ,,
  bits "l" td_u16 1 ,,
  bits "d" td_u16 1 ,,
  bits "g" td_u16 1 ,,
  bits "base2" td_u16 8 ,,
  fin).

Definition struct_kmap_ctrl : ctype := CStruct "kmap_ctrl" (
  fin).

Definition struct_lazy_mmu_state : ctype := CStruct "lazy_mmu_state" (
  field "enable_count" td_u8 ,,
  field "pause_count" td_u8 ,,
  fin).

Definition struct_posix_cputimer_base : ctype := CStruct "posix_cputimer_base" (
  field "nextevt" td_u64 ,,
  field "tqhead" struct_timerqueue_head ,,
  fin).

Definition struct_posix_cputimers : ctype := CStruct "posix_cputimers" (
  field "bases" (CArr struct_posix_cputimer_base 3) ,,
  field "timers_active" c_uint ,,
  field "expiry_active" c_uint ,,
  fin).

Definition struct_posix_cputimers_work : ctype := CStruct "posix_cputimers_work" (
  field "work" struct_callback_head ,,
  field "mutex" struct_mutex ,,
  field "scheduled" c_uint ,,
  fin).

Definition union_rcu_special : ctype := CUnion "rcu_special" (
  field "b" (CStruct "" (
    field "blocked" td_u8 ,,
    field "need_qs" td_u8 ,,
    field "exp_hint" td_u8 ,,
    field "need_mb" td_u8 ,,
    fin)) ,,
  field "s" td_u32 ,,
  fin).

Definition struct_restart_block : ctype := CStruct "restart_block" (
  field "arch_data" c_ulong ,,
  field "fn" (CPtr "long int ()") ,,
  anon (CUnion "" (
    field "futex" (CStruct "" (
      field "uaddr" (CPtr "u32") ,,
      field "val" td_u32 ,,
      field "flags" td_u32 ,,
      field "bitset" td_u32 ,,
      field "time" td_ktime_t ,,
      field "uaddr2" (CPtr "u32") ,,
      fin)) ,,
    field "nanosleep" (CStruct "" (
      field "clockid" td_clockid_t ,,
      field "type" enum_timespec_type ,,
      anon (CUnion "" (
        field "rmtp" (CPtr "struct __kernel_timespec") ,,
        field "compat_rmtp" (CPtr "struct old_timespec32") ,,
        fin)) ,,
      field "expires" td_ktime_t ,,
      fin)) ,,
    field "poll" (CStruct "" (
      field "ufds" (CPtr "struct pollfd") ,,
      field "nfds" c_int ,,
      field "has_timeout" c_int ,,
      field "end_time" struct_timespec64 ,,
      fin)) ,,
    fin)) ,,
  fin).

Definition td_dl_server_pick_f : ctype := CPtr "struct task_struct * ()".

Definition struct_sched_dl_entity : ctype := CStruct "sched_dl_entity" (
  field "rb_node" struct_rb_node ,,
  field "dl_runtime" td_u64 ,,
  field "dl_deadline" td_u64 ,,
  field "dl_period" td_u64 ,,
  field "dl_bw" td_u64 ,,
  field "dl_density" td_u64 ,,
  field "runtime" td_s64 ,,
  field "deadline" td_u64 ,,
  field "flags" c_uint ,,
  bits "dl_throttled" c_uint 1 ,,
  bits "dl_yielded" c_uint 1 ,,
  bits "dl_non_contending" c_uint 1 ,,
  bits "dl_overrun" c_uint 1 ,,
  bits "dl_server" c_uint 1 ,,
  bits "dl_server_active" c_uint 1 ,,
  bits "dl_defer" c_uint 1 ,,
  bits "dl_defer_armed" c_uint 1 ,,
  bits "dl_defer_running" c_uint 1 ,,
  bits "dl_defer_idle" c_uint 1 ,,
  field "dl_timer" struct_hrtimer ,,
  field "inactive_timer" struct_hrtimer ,,
  field "rq" (CPtr "struct rq") ,,
  field "server_pick_task" td_dl_server_pick_f ,,
  field "pi_se" (CPtr "struct sched_dl_entity") ,,
  fin).

Definition struct_sched_info : ctype := CStruct "sched_info" (
  field "pcount" c_ulong ,,
  field "run_delay" c_ullong ,,
  field "max_run_delay" c_ullong ,,
  field "min_run_delay" c_ullong ,,
  field "last_arrival" c_ullong ,,
  field "last_queued" c_ullong ,,
  field "max_run_delay_ts" struct_timespec64 ,,
  fin).

Definition struct_rseq_event : ctype := CStruct "rseq_event" (
  anon (CUnion "" (
    field "all" td_u64 ,,
    anon (CStruct "" (
      anon (CUnion "" (
        field "events" td_u32 ,,
        anon (CStruct "" (
          field "sched_switch" td_u8 ,,
          field "ids_changed" td_u8 ,,
          field "user_irq" td_u8 ,,
          fin)) ,,
        fin)) ,,
      field "has_rseq" td_u8 ,,
      field "__pad" td_u8 ,,
      anon (CUnion "" (
        field "error" td_u16 ,,
        anon (CStruct "" (
          field "fatal" td_u8 ,,
          field "slowpath" td_u8 ,,
          fin)) ,,
        fin)) ,,
      fin)) ,,
    fin)) ,,
  fin).

Definition struct_rseq_ids : ctype := CStruct "rseq_ids" (
  anon (CUnion "" (
    field "cpu_cid" td_u64 ,,
    anon (CStruct "" (
      field "cpu_id" td_u32 ,,
      field "mm_cid" td_u32 ,,
      fin)) ,,
    fin)) ,,
  field "node_id" td_u32 ,,
  fin).

Definition struct_rseq_data : ctype := CStruct "rseq_data" (
  field "usrptr" (CPtr "struct rseq") ,,
  field "len" td_u32 ,,
  field "sig" td_u32 ,,
  field "event" struct_rseq_event ,,
  field "ids" struct_rseq_ids ,,
  fin).

Definition struct_sched_entity : ctype := CStruct "sched_entity" (
  field "load" struct_load_weight ,,
  field "run_node" struct_rb_node ,,
  field "deadline" td_u64 ,,
  field "min_vruntime" td_u64 ,,
  field "min_slice" td_u64 ,,
  field "max_slice" td_u64 ,,
  field "group_node" struct_list_head ,,
  field "on_rq" c_uchar ,,
  field "sched_delayed" c_uchar ,,
  field "rel_deadline" c_uchar ,,
  field "custom_slice" c_uchar ,,
  field "exec_start" td_u64 ,,
  field "sum_exec_runtime" td_u64 ,,
  field "prev_sum_exec_runtime" td_u64 ,,
  field "vruntime" td_u64 ,,
  field "vlag" td_s64 ,,
  field "vprot" td_u64 ,,
  field "slice" td_u64 ,,
  field "nr_migrations" td_u64 ,,
  field "depth" c_int ,,
  field "parent" (CPtr "struct sched_entity") ,,
  field "cfs_rq" (CPtr "struct cfs_rq") ,,
  field "my_q" (CPtr "struct cfs_rq") ,,
  field "runnable_weight" c_ulong ,,
  pad c_long 64 ,,
  pad c_long 64 ,,
  pad c_long 64 ,,
  pad c_long 64 ,,
  pad c_long 64 ,,
  pad c_long 64 ,,
  pad c_long 64 ,,
  field "avg" struct_sched_avg ,,
  fin).

Definition struct_sched_statistics : ctype := CStruct "sched_statistics" (
  field "wait_start" td_u64 ,,
  field "wait_max" td_u64 ,,
  field "wait_count" td_u64 ,,
  field "wait_sum" td_u64 ,,
  field "iowait_count" td_u64 ,,
  field "iowait_sum" td_u64 ,,
  field "sleep_start" td_u64 ,,
  field "sleep_max" td_u64 ,,
  field "sum_sleep_runtime" td_s64 ,,
  field "block_start" td_u64 ,,
  field "block_max" td_u64 ,,
  field "sum_block_runtime" td_s64 ,,
  field "exec_max" td_s64 ,,
  field "slice_max" td_u64 ,,
  field "nr_migrations_cold" td_u64 ,,
  field "nr_failed_migrations_affine" td_u64 ,,
  field "nr_failed_migrations_running" td_u64 ,,
  field "nr_failed_migrations_hot" td_u64 ,,
  field "nr_forced_migrations" td_u64 ,,
  field "nr_wakeups" td_u64 ,,
  field "nr_wakeups_sync" td_u64 ,,
  field "nr_wakeups_migrate" td_u64 ,,
  field "nr_wakeups_local" td_u64 ,,
  field "nr_wakeups_remote" td_u64 ,,
  field "nr_wakeups_affine" td_u64 ,,
  field "nr_wakeups_affine_attempts" td_u64 ,,
  field "nr_wakeups_passive" td_u64 ,,
  field "nr_wakeups_idle" td_u64 ,,
  field "core_forceidle_sum" td_u64 ,,
  pad c_long 64 ,,
  pad c_long 64 ,,
  pad c_long 64 ,,
  fin).

Definition struct_sched_ext_entity : ctype := CStruct "sched_ext_entity" (
  field "sched" (CPtr "struct scx_sched") ,,
  field "dsq" (CPtr "struct scx_dispatch_q") ,,
  field "ops_state" td_atomic_long_t ,,
  field "ddsp_dsq_id" td_u64 ,,
  field "ddsp_enq_flags" td_u64 ,,
  field "dsq_list" struct_scx_dsq_list_node ,,
  field "dsq_priq" struct_rb_node ,,
  field "dsq_seq" td_u32 ,,
  field "dsq_flags" td_u32 ,,
  field "flags" td_u32 ,,
  field "weight" td_u32 ,,
  field "sticky_cpu" td_s32 ,,
  field "holding_cpu" td_s32 ,,
  field "selected_cpu" td_s32 ,,
  field "kf_tasks" (CArr (CPtr "struct task_struct") 2) ,,
  field "runnable_node" struct_list_head ,,
  field "runnable_at" c_ulong ,,
  field "core_sched_at" td_u64 ,,
  field "slice" td_u64 ,,
  field "dsq_vtime" td_u64 ,,
  field "disallow" td_bool ,,
  field "cgrp_moving_from" (CPtr "struct cgroup") ,,
  field "tasks_node" struct_list_head ,,
  fin).

Definition struct_sched_mm_cid : ctype := CStruct "sched_mm_cid" (
  field "active" c_uint ,,
  field "cid" c_uint ,,
  field "node" struct_hlist_node ,,
  fin).

Definition struct_sched_rt_entity : ctype := CStruct "sched_rt_entity" (
  field "run_list" struct_list_head ,,
  field "timeout" c_ulong ,,
  field "watchdog_stamp" c_ulong ,,
  field "time_slice" c_uint ,,
  field "on_rq" c_ushort ,,
  field "on_list" c_ushort ,,
  field "back" (CPtr "struct sched_rt_entity") ,,
  fin).

Definition struct_seccomp : ctype := CStruct "seccomp" (
  field "mode" c_int ,,
  field "filter_count" td_atomic_t ,,
  field "filter" (CPtr "struct seccomp_filter") ,,
  fin).

Definition struct_sigpending : ctype := CStruct "sigpending" (
  field "list" struct_list_head ,,
  field "signal" td_sigset_t ,,
  fin).

Definition struct_task_io_accounting : ctype := CStruct "task_io_accounting" (
  field "rchar" td_u64 ,,
  field "wchar" td_u64 ,,
  field "syscr" td_u64 ,,
  field "syscw" td_u64 ,,
  field "read_bytes" td_u64 ,,
  field "write_bytes" td_u64 ,,
  field "cancelled_write_bytes" td_u64 ,,
  fin).

Definition struct_syscall_user_dispatch : ctype := CStruct "syscall_user_dispatch" (
  field "selector" (CPtr "char") ,,
  field "offset" c_ulong ,,
  field "len" c_ulong ,,
  field "on_dispatch" td_bool ,,
  fin).

Definition struct_sysv_sem : ctype := CStruct "sysv_sem" (
  field "undo_list" (CPtr "struct sem_undo_list") ,,
  fin).

Definition struct_sysv_shm : ctype := CStruct "sysv_shm" (
  field "shm_clist" struct_list_head ,,
  fin).

Definition struct_uclamp_se : ctype := CStruct "uclamp_se" (
  bits "value" c_uint 11 ,,
  bits "bucket_id" c_uint 3 ,,
  bits "active" c_uint 1 ,,
  bits "user_defined" c_uint 1 ,,
  fin).

Definition struct_thread_info : ctype := CStruct "thread_info" (
  field "flags" c_ulong ,,
  field "syscall_work" c_ulong ,,
  field "status" td_u32 ,,
  field "cpu" td_u32 ,,
  fin).

Definition struct_vtime : ctype := CStruct "vtime" (
  field "seqcount" td_seqcount_t ,,
  field "starttime" c_ullong ,,
  field "state" enum_vtime_state ,,
  field "cpu" c_uint ,,
  field "utime" td_u64 ,,
  field "stime" td_u64 ,,
  field "gtime" td_u64 ,,
  fin).

Definition struct_wake_q_node : ctype := CStruct "wake_q_node" (
  field "next" (CPtr "struct wake_q_node") ,,
  fin).

Definition struct_tlbflush_unmap_batch : ctype := CStruct "tlbflush_unmap_batch" (
  field "arch" struct_arch_tlbflush_unmap_batch ,,
  field "flush_required" td_bool ,,
  field "writable" td_bool ,,
  fin).

Definition union_unwind_task_id : ctype := CUnion "unwind_task_id" (
  anon (CStruct "" (
    field "cpu" td_u32 ,,
    field "cnt" td_u32 ,,
    fin)) ,,
  field "id" td_u64 ,,
  fin).

Definition struct_unwind_task_info : ctype := CStruct "unwind_task_info" (
  field "unwind_mask" td_atomic_long_t ,,
  field "cache" (CPtr "struct unwind_cache") ,,
  field "work" struct_callback_head ,,
  field "id" union_unwind_task_id ,,
  fin).

Definition struct_thread_shstk : ctype := CStruct "thread_shstk" (
  field "base" td_u64 ,,
  field "size" td_u64 ,,
  fin).

Definition struct_thread_struct : ctype := CStruct "thread_struct" (
  field "tls_array" (CArr struct_desc_struct 3) ,,
  field "sp" c_ulong ,,
  field "es" c_ushort ,,
  field "ds" c_ushort ,,
  field "fsindex" c_ushort ,,
  field "gsindex" c_ushort ,,
  field "fsbase" c_ulong ,,
  field "gsbase" c_ulong ,,
  field "ptrace_bps" (CArr (CPtr "struct perf_event") 4) ,,
  field "virtual_dr6" c_ulong ,,
  field "ptrace_dr7" c_ulong ,,
  field "cr2" c_ulong ,,
  field "trap_nr" c_ulong ,,
  field "error_code" c_ulong ,,
  field "io_bitmap" (CPtr "struct io_bitmap") ,,
  field "iopl_emul" c_ulong ,,
  bits "iopl_warn" c_uint 1 ,,
  field "pkru" td_u32 ,,
  field "features" c_ulong ,,
  field "features_locked" c_ulong ,,
  field "shstk" struct_thread_shstk ,,
  fin).

Definition struct_task_struct : ctype := CStruct "task_struct" (
  field "thread_info" struct_thread_info ,,
  field "__state" c_uint ,,
  field "saved_state" c_uint ,,
  field "stack" (CPtr "void") ,,
  field "usage" td_refcount_t ,,
  field "flags" c_uint ,,
  field "ptrace" c_uint ,,
  field "alloc_tag" (CPtr "struct alloc_tag") ,,
  field "on_cpu" c_int ,,
  field "wake_entry" struct___call_single_node ,,
  field "wakee_flips" c_uint ,,
  field "wakee_flip_decay_ts" c_ulong ,,
  field "last_wakee" (CPtr "struct task_struct") ,,
  field "recent_used_cpu" c_int ,,
  field "wake_cpu" c_int ,,
  field "on_rq" c_int ,,
  field "prio" c_int ,,
  field "static_prio" c_int ,,
  field "normal_prio" c_int ,,
  field "rt_priority" c_uint ,,
  pad c_long 64 ,,
  pad c_long 64 ,,
  pad c_long 64 ,,
  pad c_long 64 ,,
  pad c_long 64 ,,
  pad c_long 64 ,,
  field "se" struct_sched_entity ,,
  field "rt" struct_sched_rt_entity ,,
  field "dl" struct_sched_dl_entity ,,
  field "dl_server" (CPtr "struct sched_dl_entity") ,,
  field "scx" struct_sched_ext_entity ,,
  field "sched_class" (CPtr "struct sched_class") ,,
  field "core_node" struct_rb_node ,,
  field "core_cookie" c_ulong ,,
  field "core_occupation" c_uint ,,
  field "sched_task_group" (CPtr "struct task_group") ,,
  field "sched_throttle_work" struct_callback_head ,,
  field "throttle_node" struct_list_head ,,
  field "throttled" td_bool ,,
  field "uclamp_req" (CArr struct_uclamp_se 2) ,,
  field "uclamp" (CArr struct_uclamp_se 2) ,,
  pad c_long 64 ,,
  pad c_long 64 ,,
  pad c_long 64 ,,
  pad c_long 64 ,,
  pad c_long 64 ,,
  pad c_long 64 ,,
  field "stats" struct_sched_statistics ,,
  field "preempt_notifiers" struct_hlist_head ,,
  field "btrace_seq" c_uint ,,
  field "policy" c_uint ,,
  field "max_allowed_capacity" c_ulong ,,
  field "nr_cpus_allowed" c_int ,,
  field "cpus_ptr" (CPtr "cpumask_t") ,,
  field "user_cpus_ptr" (CPtr "cpumask_t") ,,
  field "cpus_mask" td_cpumask_t ,,
  field "migration_pending" (CPtr "void") ,,
  field "migration_disabled" c_ushort ,,
  field "migration_flags" c_ushort ,,
  field "rcu_read_lock_nesting" c_int ,,
  field "rcu_read_unlock_special" union_rcu_special ,,
  field "rcu_node_entry" struct_list_head ,,
  field "rcu_blocked_node" (CPtr "struct rcu_node") ,,
  field "rcu_tasks_nvcsw" c_ulong ,,
  field "rcu_tasks_holdout" td_u8 ,,
  field "rcu_tasks_idx" td_u8 ,,
  field "rcu_tasks_idle_cpu" c_int ,,
  field "rcu_tasks_holdout_list" struct_list_head ,,
  field "rcu_tasks_exit_cpu" c_int ,,
  field "rcu_tasks_exit_list" struct_list_head ,,
  field "trc_reader_nesting" c_int ,,
  field "trc_reader_scp" (CPtr "struct srcu_ctr") ,,
  field "sched_info" struct_sched_info ,,
  field "tasks" struct_list_head ,,
  field "pushable_tasks" struct_plist_node ,,
  field "pushable_dl_tasks" struct_rb_node ,,
  field "mm" (CPtr "struct mm_struct") ,,
  field "active_mm" (CPtr "struct mm_struct") ,,
  field "exit_state" c_int ,,
  field "exit_code" c_int ,,
  field "exit_signal" c_int ,,
  field "pdeath_signal" c_int ,,
  field "jobctl" c_ulong ,,
  field "personality" c_uint ,,
  bits "sched_reset_on_fork" c_uint 1 ,,
  bits "sched_contributes_to_load" c_uint 1 ,,
  bits "sched_migrated" c_uint 1 ,,
  bits "sched_task_hot" c_uint 1 ,,
  pad c_long 28 ,,
  bits "sched_remote_wakeup" c_uint 1 ,,
  bits "sched_rt_mutex" c_uint 1 ,,
  bits "user_dumpable" c_uint 1 ,,
  bits "in_execve" c_uint 1 ,,
  bits "in_iowait" c_uint 1 ,,
  bits "restore_sigmask" c_uint 1 ,,
  bits "in_lru_fault" c_uint 1 ,,
  bits "no_cgroup_migration" c_uint 1 ,,
  bits "frozen" c_uint 1 ,,
  bits "use_memdelay" c_uint 1 ,,
  bits "in_memstall" c_uint 1 ,,
  bits "in_eventfd" c_uint 1 ,,
  bits "pasid_activated" c_uint 1 ,,
  bits "reported_split_lock" c_uint 1 ,,
  bits "in_thrashing" c_uint 1 ,,
  bits "in_nf_duplicate" c_uint 1 ,,
  field "atomic_flags" c_ulong ,,
  field "restart_block" struct_restart_block ,,
  field "pid" td_pid_t ,,
  field "tgid" td_pid_t ,,
  field "stack_canary" c_ulong ,,
  field "real_parent" (CPtr "struct task_struct") ,,
  field "parent" (CPtr "struct task_struct") ,,
  field "children" struct_list_head ,,
  field "sibling" struct_list_head ,,
  field "group_leader" (CPtr "struct task_struct") ,,
  field "ptraced" struct_list_head ,,
  field "ptrace_entry" struct_list_head ,,
  field "thread_pid" (CPtr "struct pid") ,,
  field "pid_links" (CArr struct_hlist_node 4) ,,
  field "thread_node" struct_list_head ,,
  field "vfork_done" (CPtr "struct completion") ,,
  field "set_child_tid" (CPtr "int") ,,
  field "clear_child_tid" (CPtr "int") ,,
  field "worker_private" (CPtr "void") ,,
  field "utime" td_u64 ,,
  field "stime" td_u64 ,,
  field "gtime" td_u64 ,,
  field "prev_cputime" struct_prev_cputime ,,
  field "vtime" struct_vtime ,,
  field "tick_dep_mask" td_atomic_t ,,
  field "nvcsw" c_ulong ,,
  field "nivcsw" c_ulong ,,
  field "start_time" td_u64 ,,
  field "start_boottime" td_u64 ,,
  field "min_flt" c_ulong ,,
  field "maj_flt" c_ulong ,,
  field "posix_cputimers" struct_posix_cputimers ,,
  field "posix_cputimers_work" struct_posix_cputimers_work ,,
  field "ptracer_cred" (CPtr "struct cred") ,,
  field "real_cred" (CPtr "struct cred") ,,
  field "cred" (CPtr "struct cred") ,,
  field "cached_requested_key" (CPtr "struct key") ,,
  field "comm" (CArr c_char 16) ,,
  field "nameidata" (CPtr "struct nameidata") ,,
  field "sysvsem" struct_sysv_sem ,,
  field "sysvshm" struct_sysv_shm ,,
  field "last_switch_count" c_ulong ,,
  field "last_switch_time" c_ulong ,,
  field "fs" (CPtr "struct fs_struct") ,,
  field "files" (CPtr "struct files_struct") ,,
  field "io_uring" (CPtr "struct io_uring_task") ,,
  field "io_uring_restrict" (CPtr "struct io_restriction") ,,
  field "nsproxy" (CPtr "struct nsproxy") ,,
  field "signal" (CPtr "struct signal_struct") ,,
  field "sighand" (CPtr "struct sighand_struct") ,,
  field "blocked" td_sigset_t ,,
  field "real_blocked" td_sigset_t ,,
  field "saved_sigmask" td_sigset_t ,,
  field "pending" struct_sigpending ,,
  field "sas_ss_sp" c_ulong ,,
  field "sas_ss_size" td_size_t ,,
  field "sas_ss_flags" c_uint ,,
  field "task_works" (CPtr "struct callback_head") ,,
  field "audit_context" (CPtr "struct audit_context") ,,
  field "loginuid" td_kuid_t ,,
  field "sessionid" c_uint ,,
  field "seccomp" struct_seccomp ,,
  field "syscall_dispatch" struct_syscall_user_dispatch ,,
  field "parent_exec_id" td_u64 ,,
  field "self_exec_id" td_u64 ,,
  field "alloc_lock" td_spinlock_t ,,
  field "pi_lock" td_raw_spinlock_t ,,
  field "wake_q" struct_wake_q_node ,,
  field "pi_waiters" struct_rb_root_cached ,,
  field "pi_top_task" (CPtr "struct task_struct") ,,
  field "pi_blocked_on" (CPtr "struct rt_mutex_waiter") ,,
  field "blocked_on" (CPtr "struct mutex") ,,
  field "blocked_lock" td_raw_spinlock_t ,,
  field "blocker" c_ulong ,,
  field "journal_info" (CPtr "void") ,,
  field "bio_list" (CPtr "struct bio_list") ,,
  field "plug" (CPtr "struct blk_plug") ,,
  field "reclaim_state" (CPtr "struct reclaim_state") ,,
  field "io_context" (CPtr "struct io_context") ,,
  field "capture_control" (CPtr "struct capture_control") ,,
  field "ptrace_message" c_ulong ,,
  field "last_siginfo" (CPtr "kernel_siginfo_t") ,,
  field "ioac" struct_task_io_accounting ,,
  field "psi_flags" c_uint ,,
  field "acct_rss_mem1" td_u64 ,,
  field "acct_vm_mem1" td_u64 ,,
  field "acct_timexpd" td_u64 ,,
  field "mems_allowed" td_nodemask_t ,,
  field "mems_allowed_seq" td_seqcount_spinlock_t ,,
  field "cpuset_mem_spread_rotor" c_int ,,
  field "cgroups" (CPtr "struct css_set") ,,
  field "cg_list" struct_list_head ,,
  field "closid" td_u32 ,,
  field "rmid" td_u32 ,,
  field "robust_list" (CPtr "struct robust_list_head") ,,
  field "compat_robust_list" (CPtr "struct compat_robust_list_head") ,,
  field "pi_state_list" struct_list_head ,,
  field "pi_state_cache" (CPtr "struct futex_pi_state") ,,
  field "futex_exit_mutex" struct_mutex ,,
  field "futex_state" c_uint ,,
  field "perf_recursion" (CArr td_u8 4) ,,
  field "perf_event_ctxp" (CPtr "struct perf_event_context") ,,
  field "perf_event_mutex" struct_mutex ,,
  field "perf_event_list" struct_list_head ,,
  field "perf_ctx_data" (CPtr "struct perf_ctx_data") ,,
  field "mempolicy" (CPtr "struct mempolicy") ,,
  field "il_prev" c_short ,,
  field "il_weight" td_u8 ,,
  field "pref_node_fork" c_short ,,
  field "numa_scan_seq" c_int ,,
  field "numa_scan_period" c_uint ,,
  field "numa_scan_period_max" c_uint ,,
  field "numa_preferred_nid" c_int ,,
  field "numa_migrate_retry" c_ulong ,,
  field "node_stamp" td_u64 ,,
  field "last_task_numa_placement" td_u64 ,,
  field "last_sum_exec_runtime" td_u64 ,,
  field "numa_work" struct_callback_head ,,
  field "numa_group" (CPtr "struct numa_group") ,,
  field "numa_faults" (CPtr "long unsigned int") ,,
  field "total_numa_faults" c_ulong ,,
  field "numa_faults_locality" (CArr c_ulong 3) ,,
  field "numa_pages_migrated" c_ulong ,,
  field "rseq" struct_rseq_data ,,
  field "mm_cid" struct_sched_mm_cid ,,
  field "tlb_ubc" struct_tlbflush_unmap_batch ,,
  field "splice_pipe" (CPtr "struct pipe_inode_info") ,,
  field "task_frag" struct_page_frag ,,
  field "lazy_mmu_state" struct_lazy_mmu_state ,,
  field "delays" (CPtr "struct task_delay_info") ,,
  field "nr_dirtied" c_int ,,
  field "nr_dirtied_pause" c_int ,,
  field "dirty_paused_when" c_ulong ,,
  field "timer_slack_ns" td_u64 ,,
  field "default_timer_slack_ns" td_u64 ,,
  field "curr_ret_stack" c_int ,,
  field "curr_ret_depth" c_int ,,
  field "ret_stack" (CPtr "long unsigned int") ,,
  field "ftrace_timestamp" c_ullong ,,
  field "ftrace_sleeptime" c_ullong ,,
  field "trace_overrun" td_atomic_t ,,
  field "tracing_graph_pause" td_atomic_t ,,
  field "trace_recursion" c_ulong ,,
  field "memcg_nr_pages_over_high" c_uint ,,
  field "active_memcg" (CPtr "struct mem_cgroup") ,,
  field "objcg" (CPtr "struct obj_cgroup") ,,
  field "throttle_disk" (CPtr "struct gendisk") ,,
  field "utask" (CPtr "struct uprobe_task") ,,
  field "sequential_io" c_uint ,,
  field "sequential_io_avg" c_uint ,,
  field "kmap_ctrl" struct_kmap_ctrl ,,
  field "rcu" struct_callback_head ,,
  field "rcu_users" td_refcount_t ,,
  field "pagefault_disabled" c_int ,,
  field "oom_reaper_list" (CPtr "struct task_struct") ,,
  field "oom_reaper_timer" struct_timer_list ,,
  field "stack_vm_area" (CPtr "struct vm_struct") ,,
  field "stack_refcount" td_refcount_t ,,
  field "security" (CPtr "void") ,,
  field "bpf_storage" (CPtr "struct bpf_local_storage") ,,
  field "bpf_ctx" (CPtr "struct bpf_run_ctx") ,,
  field "bpf_net_context" (CPtr "struct bpf_net_context") ,,
  field "mce_vaddr" (CPtr "void") ,,
  field "mce_kflags" td___u64 ,,
  field "mce_addr" td_u64 ,,
  bits "mce_ripv" td___u64 1 ,,
  bits "mce_whole_page" td___u64 1 ,,
  bits "__mce_reserved" td___u64 62 ,,
  field "mce_kill_me" struct_callback_head ,,
  field "mce_count" c_int ,,
  field "kretprobe_instances" struct_llist_head ,,
  field "rethooks" struct_llist_head ,,
  field "l1d_flush_kill" struct_callback_head ,,
  field "unwind_info" struct_unwind_task_info ,,
  field "thread" struct_thread_struct ,,
  fin).

(** All types of this file. *)
Definition vmtask_types : list ctype := [
  enum_timespec_type;
  enum_vtime_state;
  td___kernel_clockid_t;
  td___kernel_pid_t;
  td_clockid_t;
  td_s32;
  td_pid_t;
  td_time64_t;
  td___kernel_ulong_t;
  td___kernel_size_t;
  td_size_t;
  td_atomic_long_t;
  td_raw_spinlock_t;
  struct_optimistic_spin_queue;
  struct_mutex;
  td_nodemask_t;
  struct_seqcount;
  td_seqcount_t;
  td_sigset_t;
  struct_llist_head;
  struct_llist_node;
  struct___call_single_node;
  struct_cpumask;
  struct_plist_node;
  struct_rb_root_cached;
  struct_timespec64;
  struct_hlist_head;
  struct_timerqueue_head;
  struct_arch_tlbflush_unmap_batch;
  struct_seqcount_spinlock;
  td_seqcount_spinlock_t;
  td_cpumask_t;
  struct_scx_dsq_list_node;
  struct_load_weight;
  struct_sched_avg;
  struct_prev_cputime;
  struct_desc_struct;
  struct_kmap_ctrl;
  struct_lazy_mmu_state;
  struct_posix_cputimer_base;
  struct_posix_cputimers;
  struct_posix_cputimers_work;
  union_rcu_special;
  struct_restart_block;
  td_dl_server_pick_f;
  struct_sched_dl_entity;
  struct_sched_info;
  struct_rseq_event;
  struct_rseq_ids;
  struct_rseq_data;
  struct_sched_entity;
  struct_sched_statistics;
  struct_sched_ext_entity;
  struct_sched_mm_cid;
  struct_sched_rt_entity;
  struct_seccomp;
  struct_sigpending;
  struct_task_io_accounting;
  struct_syscall_user_dispatch;
  struct_sysv_sem;
  struct_sysv_shm;
  struct_uclamp_se;
  struct_thread_info;
  struct_vtime;
  struct_wake_q_node;
  struct_tlbflush_unmap_batch;
  union_unwind_task_id;
  struct_unwind_task_info;
  struct_thread_shstk;
  struct_thread_struct;
  struct_task_struct].
