(* ===== verification/VmNet.v ===== *)
(** * vmlinux.h: VmNet

    The network namespace a socket belongs to: struct net and its per-
    protocol parts.
    Transcribed declaration by declaration from
    internal/network/ebpf/bpf/vmlinux.h, in its order: [struct_x], [union_x],
    [enum_x] and [td_x] are its struct, union, enum and typedef [x]; a pointer
    keeps the name of its target. *)
From S2P Require Import Prelude CTypes VmSock VmTcp VmTask.
From stdpp Require Import base list strings.
From Stdlib Require Import ZArith.
Local Open Scope cdecl_scope.
Local Open Scope string_scope.
Local Open Scope Z_scope.

Definition enum_vsock_net_mode : ctype := CEnum "vsock_net_mode" [
  ("VSOCK_NET_MODE_GLOBAL", 0);
  ("VSOCK_NET_MODE_LOCAL", 1)].

Definition td___kernel_gid32_t : ctype := c_uint.

Definition td_gid_t : ctype := td___kernel_gid32_t.

Definition td_kgid_t : ctype := CStruct "" (
  field "val" td_gid_t ,,
  fin).

Definition struct_rw_semaphore : ctype := CStruct "rw_semaphore" (
  field "count" td_atomic_long_t ,,
  field "owner" td_atomic_long_t ,,
  field "osq" struct_optimistic_spin_queue ,,
  field "wait_lock" td_raw_spinlock_t ,,
  field "first_waiter" (CPtr "struct rwsem_waiter") ,,
  fin).

Definition td_siphash_key_t : ctype := CStruct "" (
  field "key" (CArr td_u64 2) ,,
  fin).

Definition td_work_func_t : ctype := CPtr "void ()".

Definition struct_work_struct : ctype := CStruct "work_struct" (
  field "data" td_atomic_long_t ,,
  field "entry" struct_list_head ,,
  field "func" td_work_func_t ,,
  fin).

Definition struct_delayed_work : ctype := CStruct "delayed_work" (
  field "work" struct_work_struct ,,
  field "timer" struct_timer_list ,,
  field "wq" (CPtr "struct workqueue_struct") ,,
  field "cpu" c_int ,,
  fin).

Definition struct_percpu_counter : ctype := CStruct "percpu_counter" (
  field "lock" td_raw_spinlock_t ,,
  field "count" td_s64 ,,
  field "list" struct_list_head ,,
  field "counters" (CPtr "s32") ,,
  fin).

Definition struct_seqlock : ctype := CStruct "seqlock" (
  field "seqcount" td_seqcount_spinlock_t ,,
  field "lock" td_spinlock_t ,,
  fin).

Definition td_seqlock_t : ctype := struct_seqlock.

Definition struct_blocking_notifier_head : ctype := CStruct "blocking_notifier_head" (
  field "rwsem" struct_rw_semaphore ,,
  field "head" (CPtr "struct notifier_block") ,,
  fin).

Definition struct_ns_common : ctype := CStruct "ns_common" (
  anon (CStruct "" (
    field "__ns_ref" td_refcount_t ,,
    pad c_long 64 ,,
    pad c_long 64 ,,
    pad c_long 64 ,,
    pad c_long 64 ,,
    pad c_long 64 ,,
    pad c_long 64 ,,
    pad c_long 64 ,,
    fin)) ,,
  field "ns_type" td_u32 ,,
  field "stashed" (CPtr "struct dentry") ,,
  field "ops" (CPtr "struct proc_ns_operations") ,,
  field "inum" c_uint ,,
  anon (CUnion "" (
    field "ns_rcu" struct_callback_head ,,
    fin)) ,,
  fin).

Definition struct_idr : ctype := CStruct "idr" (
  field "idr_rt" struct_xarray ,,
  field "idr_base" c_uint ,,
  field "idr_next" c_uint ,,
  fin).

Definition struct_ctl_table_header : ctype := CStruct "ctl_table_header" (
  anon (CUnion "" (
    anon (CStruct "" (
      field "ctl_table" (CPtr "struct ctl_table") ,,
      field "ctl_table_size" c_int ,,
      field "used" c_int ,,
      field "count" c_int ,,
      field "nreg" c_int ,,
      fin)) ,,
    field "rcu" struct_callback_head ,,
    fin)) ,,
  field "unregistering" (CPtr "struct completion") ,,
  field "ctl_table_arg" (CPtr "struct ctl_table") ,,
  field "root" (CPtr "struct ctl_table_root") ,,
  field "set" (CPtr "struct ctl_table_set") ,,
  field "parent" (CPtr "struct ctl_dir") ,,
  field "node" (CPtr "struct ctl_node") ,,
  field "inodes" struct_hlist_head ,,
  field "type" (CEnum "" [("SYSCTL_TABLE_TYPE_DEFAULT", 0); ("SYSCTL_TABLE_TYPE_PERMANENTLY_EMPTY", 1)]) ,,
  fin).

Definition struct_ctl_dir : ctype := CStruct "ctl_dir" (
  field "header" struct_ctl_table_header ,,
  field "root" struct_rb_root ,,
  fin).

Definition struct_ctl_table_set : ctype := CStruct "ctl_table_set" (
  field "is_seen" (CPtr "int ()") ,,
  field "dir" struct_ctl_dir ,,
  fin).

Definition struct_ref_tracker_dir : ctype := CStruct "ref_tracker_dir" (
  fin).

Definition struct_raw_notifier_head : ctype := CStruct "raw_notifier_head" (
  field "head" (CPtr "struct notifier_block") ,,
  fin).

Definition struct_dst_ops : ctype := CStruct "dst_ops" (
  field "family" c_ushort ,,
  field "gc_thresh" c_uint ,,
  field "gc" (CPtr "void ()") ,,
  field "check" (CPtr "struct dst_entry * ()") ,,
  field "default_advmss" (CPtr "unsigned int ()") ,,
  field "mtu" (CPtr "unsigned int ()") ,,
  field "cow_metrics" (CPtr "u32 * ()") ,,
  field "destroy" (CPtr "void ()") ,,
  field "ifdown" (CPtr "void ()") ,,
  field "negative_advice" (CPtr "void ()") ,,
  field "link_failure" (CPtr "void ()") ,,
  field "update_pmtu" (CPtr "void ()") ,,
  field "redirect" (CPtr "void ()") ,,
  field "local_out" (CPtr "int ()") ,,
  field "neigh_lookup" (CPtr "struct neighbour * ()") ,,
  field "confirm_neigh" (CPtr "void ()") ,,
  field "kmem_cachep" (CPtr "struct kmem_cache") ,,
  field "pcpuc_entries" struct_percpu_counter ,,
  pad c_long 64 ,,
  pad c_long 64 ,,
  pad c_long 64 ,,
  fin).

Definition struct_inet_timewait_death_row : ctype := CStruct "inet_timewait_death_row" (
  field "tw_refcount" td_refcount_t ,,
  pad c_long 64 ,,
  pad c_long 64 ,,
  pad c_long 64 ,,
  pad c_long 64 ,,
  pad c_long 64 ,,
  pad c_long 64 ,,
  pad c_long 64 ,,
  field "hashinfo" (CPtr "struct inet_hashinfo") ,,
  field "sysctl_max_tw_buckets" c_int ,,
  pad c_long 64 ,,
  pad c_long 64 ,,
  pad c_long 64 ,,
  pad c_long 64 ,,
  pad c_long 64 ,,
  pad c_long 64 ,,
  fin).

Definition struct_local_ports : ctype := CStruct "local_ports" (
  field "range" td_u32 ,,
  field "warned" td_bool ,,
  fin).

Definition struct_netns_core : ctype := CStruct "netns_core" (
  field "sysctl_hdr" (CPtr "struct ctl_table_header") ,,
  field "sysctl_somaxconn" c_int ,,
  field "sysctl_txq_reselection" c_int ,,
  field "sysctl_optmem_max" c_int ,,
  field "sysctl_txrehash" td_u8 ,,
  field "sysctl_tstamp_allow_data" td_u8 ,,
  field "sysctl_bypass_prot_mem" td_u8 ,,
  field "prot_inuse" (CPtr "struct prot_inuse") ,,
  field "rps_default_mask" (CPtr "struct cpumask") ,,
  fin).

Definition struct_netns_mib : ctype := CStruct "netns_mib" (
  field "ip_statistics" (CPtr "struct ipstats_mib") ,,
  field "ipv6_statistics" (CPtr "struct ipstats_mib") ,,
  field "tcp_statistics" (CPtr "struct tcp_mib") ,,
  field "net_statistics" (CPtr "struct linux_mib") ,,
  field "udp_statistics" (CPtr "struct udp_mib") ,,
  field "udp_stats_in6" (CPtr "struct udp_mib") ,,
  field "tls_statistics" (CPtr "struct linux_tls_mib") ,,
  field "mptcp_statistics" (CPtr "struct mptcp_mib") ,,
  field "icmp_statistics" (CPtr "struct icmp_mib") ,,
  field "icmpmsg_statistics" (CPtr "struct icmpmsg_mib") ,,
  field "icmpv6_statistics" (CPtr "struct icmpv6_mib") ,,
  field "icmpv6msg_statistics" (CPtr "struct icmpv6msg_mib") ,,
  field "proc_net_devsnmp6" (CPtr "struct proc_dir_entry") ,,
  fin).

Definition struct_netns_packet : ctype := CStruct "netns_packet" (
  field "sklist_lock" struct_mutex ,,
  field "sklist" struct_hlist_head ,,
  fin).

Definition struct_unix_table : ctype := CStruct "unix_table" (
  field "locks" (CPtr "spinlock_t") ,,
  field "buckets" (CPtr "struct hlist_head") ,,
  fin).

Definition struct_netns_unix : ctype := CStruct "netns_unix" (
  field "table" struct_unix_table ,,
  field "sysctl_max_dgram_qlen" c_int ,,
  field "ctl" (CPtr "struct ctl_table_header") ,,
  fin).

Definition struct_netns_nexthop : ctype := CStruct "netns_nexthop" (
  field "rb_root" struct_rb_root ,,
  field "devhash" (CPtr "struct hlist_head") ,,
  field "seq" c_uint ,,
  field "last_id_allocated" td_u32 ,,
  field "notifier_chain" struct_blocking_notifier_head ,,
  fin).

Definition struct_udp_tunnel_gro : ctype := CStruct "udp_tunnel_gro" (
  field "sk" (CPtr "struct sock") ,,
  field "list" struct_hlist_head ,,
  fin).

Definition struct_ping_group_range : ctype := CStruct "ping_group_range" (
  field "lock" td_seqlock_t ,,
  field "range" (CArr td_kgid_t 2) ,,
  fin).

Definition struct_sysctl_fib_multipath_hash_seed : ctype := CStruct "sysctl_fib_multipath_hash_seed" (
  field "user_seed" td_u32 ,,
  field "mp_seed" td_u32 ,,
  fin).

Definition struct_netns_ipv4 : ctype := CStruct "netns_ipv4" (
  field "__cacheline_group_begin__netns_ipv4_read_tx" (CArr td___u8 0) ,,
  field "sysctl_tcp_early_retrans" td_u8 ,,
  field "sysctl_tcp_tso_win_divisor" td_u8 ,,
  field "sysctl_tcp_tso_rtt_log" td_u8 ,,
  field "sysctl_tcp_autocorking" td_u8 ,,
  field "sysctl_tcp_min_snd_mss" c_int ,,
  field "sysctl_tcp_notsent_lowat" c_uint ,,
  field "sysctl_tcp_limit_output_bytes" c_int ,,
  field "sysctl_tcp_min_rtt_wlen" c_int ,,
  field "sysctl_tcp_wmem" (CArr c_int 3) ,,
  field "sysctl_ip_fwd_use_pmtu" td_u8 ,,
  field "__cacheline_group_end__netns_ipv4_read_tx" (CArr td___u8 0) ,,
  field "__cacheline_group_begin__netns_ipv4_read_txrx" (CArr td___u8 0) ,,
  field "sysctl_tcp_shrink_window" td_u8 ,,
  field "__cacheline_group_end__netns_ipv4_read_txrx" (CArr td___u8 0) ,,
  field "__cacheline_group_begin__netns_ipv4_read_rx" (CArr td___u8 0) ,,
  field "sysctl_tcp_moderate_rcvbuf" td_u8 ,,
  field "sysctl_ip_early_demux" td_u8 ,,
  field "sysctl_tcp_early_demux" td_u8 ,,
  field "sysctl_tcp_l3mdev_accept" td_u8 ,,
  field "sysctl_tcp_reordering" c_int ,,
  field "sysctl_tcp_rmem" (CArr c_int 3) ,,
  field "sysctl_tcp_rcvbuf_low_rtt" c_int ,,
  field "__cacheline_group_end__netns_ipv4_read_rx" (CArr td___u8 0) ,,
  pad c_long 0 ,,
  field "__cacheline_group_begin__icmp" (CArr td___u8 0) ,,
  field "icmp_global_credit" td_atomic_t ,,
  field "icmp_global_stamp" td_u32 ,,
  field "__cacheline_group_end__icmp" (CArr td___u8 0) ,,
  pad c_long 64 ,,
  pad c_long 64 ,,
  pad c_long 64 ,,
  pad c_long 64 ,,
  pad c_long 64 ,,
  pad c_long 64 ,,
  pad c_long 64 ,,
  field "__cacheline_group_pad__icmp" (CStruct "" (
    fin)) ,,
  field "tcp_death_row" struct_inet_timewait_death_row ,,
  field "udp_table" (CPtr "struct udp_table") ,,
  field "udp_tunnel_gro" (CArr struct_udp_tunnel_gro 2) ,,
  field "forw_hdr" (CPtr "struct ctl_table_header") ,,
  field "frags_hdr" (CPtr "struct ctl_table_header") ,,
  field "ipv4_hdr" (CPtr "struct ctl_table_header") ,,
  field "route_hdr" (CPtr "struct ctl_table_header") ,,
  field "xfrm4_hdr" (CPtr "struct ctl_table_header") ,,
  field "devconf_all" (CPtr "struct ipv4_devconf") ,,
  field "devconf_dflt" (CPtr "struct ipv4_devconf") ,,
  field "ra_chain" (CPtr "struct ip_ra_chain") ,,
  field "ra_mutex" struct_mutex ,,
  field "rules_ops" (CPtr "struct fib_rules_ops") ,,
  field "fib_main" (CPtr "struct fib_table") ,,
  field "fib_default" (CPtr "struct fib_table") ,,
  field "fib_rules_require_fldissect" c_uint ,,
  field "fib_has_custom_rules" td_bool ,,
  field "fib_has_custom_local_routes" td_bool ,,
  field "fib_offload_disabled" td_bool ,,
  field "fib_num_tclassid_users" td_atomic_t ,,
  field "fib_table_hash" (CPtr "struct hlist_head") ,,
  field "fibnl" (CPtr "struct sock") ,,
  field "fib_info_hash" (CPtr "struct hlist_head") ,,
  field "fib_info_hash_bits" c_uint ,,
  field "fib_info_cnt" c_uint ,,
  field "mc_autojoin_sk" (CPtr "struct sock") ,,
  field "peers" (CPtr "struct inet_peer_base") ,,
  field "fqdir" (CPtr "struct fqdir") ,,
  field "sysctl_icmp_echo_ignore_all" td_u8 ,,
  field "sysctl_icmp_echo_enable_probe" td_u8 ,,
  field "sysctl_icmp_echo_ignore_broadcasts" td_u8 ,,
  field "sysctl_icmp_ignore_bogus_error_responses" td_u8 ,,
  field "sysctl_icmp_errors_use_inbound_ifaddr" td_u8 ,,
  field "sysctl_icmp_errors_extension_mask" td_u8 ,,
  field "sysctl_icmp_ratelimit" c_int ,,
  field "sysctl_icmp_ratemask" c_int ,,
  field "sysctl_icmp_msgs_per_sec" c_int ,,
  field "sysctl_icmp_msgs_burst" c_int ,,
  field "ip_rt_min_pmtu" td_u32 ,,
  field "ip_rt_mtu_expires" c_int ,,
  field "ip_rt_min_advmss" c_int ,,
  field "ip_local_ports" struct_local_ports ,,
  field "sysctl_tcp_ecn" td_u8 ,,
  field "sysctl_tcp_ecn_option" td_u8 ,,
  field "sysctl_tcp_ecn_option_beacon" td_u8 ,,
  field "sysctl_tcp_ecn_fallback" td_u8 ,,
  field "sysctl_ip_default_ttl" td_u8 ,,
  field "sysctl_ip_no_pmtu_disc" td_u8 ,,
  field "sysctl_ip_fwd_update_priority" td_u8 ,,
  field "sysctl_ip_nonlocal_bind" td_u8 ,,
  field "sysctl_ip_autobind_reuse" td_u8 ,,
  field "sysctl_ip_dynaddr" td_u8 ,,
  field "sysctl_ip_local_port_step_width" td_u32 ,,
  field "sysctl_raw_l3mdev_accept" td_u8 ,,
  field "sysctl_udp_early_demux" td_u8 ,,
  field "sysctl_nexthop_compat_mode" td_u8 ,,
  field "sysctl_fwmark_reflect" td_u8 ,,
  field "sysctl_tcp_fwmark_accept" td_u8 ,,
  field "sysctl_tcp_mtu_probing" td_u8 ,,
  field "sysctl_tcp_mtu_probe_floor" c_int ,,
  field "sysctl_tcp_base_mss" c_int ,,
  field "sysctl_tcp_probe_threshold" c_int ,,
  field "sysctl_tcp_probe_interval" td_u32 ,,
  field "sysctl_tcp_keepalive_time" c_int ,,
  field "sysctl_tcp_keepalive_intvl" c_int ,,
  field "sysctl_tcp_keepalive_probes" td_u8 ,,
  field "sysctl_tcp_syn_retries" td_u8 ,,
  field "sysctl_tcp_synack_retries" td_u8 ,,
  field "sysctl_tcp_syncookies" td_u8 ,,
  field "sysctl_tcp_migrate_req" td_u8 ,,
  field "sysctl_tcp_comp_sack_nr" td_u8 ,,
  field "sysctl_tcp_backlog_ack_defer" td_u8 ,,
  field "sysctl_tcp_pingpong_thresh" td_u8 ,,
  field "sysctl_tcp_retries1" td_u8 ,,
  field "sysctl_tcp_retries2" td_u8 ,,
  field "sysctl_tcp_orphan_retries" td_u8 ,,
  field "sysctl_tcp_tw_reuse" td_u8 ,,
  field "sysctl_tcp_tw_reuse_delay" c_uint ,,
  field "sysctl_tcp_fin_timeout" c_int ,,
  field "sysctl_tcp_sack" td_u8 ,,
  field "sysctl_tcp_window_scaling" td_u8 ,,
  field "sysctl_tcp_timestamps" td_u8 ,,
  field "sysctl_tcp_rto_min_us" c_int ,,
  field "sysctl_tcp_rto_max_ms" c_int ,,
  field "sysctl_tcp_recovery" td_u8 ,,
  field "sysctl_tcp_thin_linear_timeouts" td_u8 ,,
  field "sysctl_tcp_slow_start_after_idle" td_u8 ,,
  field "sysctl_tcp_retrans_collapse" td_u8 ,,
  field "sysctl_tcp_stdurg" td_u8 ,,
  field "sysctl_tcp_rfc1337" td_u8 ,,
  field "sysctl_tcp_abort_on_overflow" td_u8 ,,
  field "sysctl_tcp_fack" td_u8 ,,
  field "sysctl_tcp_max_reordering" c_int ,,
  field "sysctl_tcp_adv_win_scale" c_int ,,
  field "sysctl_tcp_dsack" td_u8 ,,
  field "sysctl_tcp_app_win" td_u8 ,,
  field "sysctl_tcp_frto" td_u8 ,,
  field "sysctl_tcp_nometrics_save" td_u8 ,,
  field "sysctl_tcp_no_ssthresh_metrics_save" td_u8 ,,
  field "sysctl_tcp_workaround_signed_windows" td_u8 ,,
  field "sysctl_tcp_challenge_ack_limit" c_int ,,
  field "sysctl_tcp_min_tso_segs" td_u8 ,,
  field "sysctl_tcp_reflect_tos" td_u8 ,,
  field "sysctl_tcp_invalid_ratelimit" c_int ,,
  field "sysctl_tcp_pacing_ss_ratio" c_int ,,
  field "sysctl_tcp_pacing_ca_ratio" c_int ,,
  field "sysctl_tcp_child_ehash_entries" c_uint ,,
  field "sysctl_tcp_comp_sack_rtt_percent" c_int ,,
  field "sysctl_tcp_comp_sack_delay_ns" c_ulong ,,
  field "sysctl_tcp_comp_sack_slack_ns" c_ulong ,,
  field "sysctl_max_syn_backlog" c_int ,,
  field "sysctl_tcp_fastopen" c_int ,,
  field "tcp_congestion_control" (CPtr "struct tcp_congestion_ops") ,,
  field "tcp_fastopen_ctx" (CPtr "struct tcp_fastopen_context") ,,
  field "sysctl_tcp_fastopen_blackhole_timeout" c_uint ,,
  field "tfo_active_disable_times" td_atomic_t ,,
  field "tfo_active_disable_stamp" c_ulong ,,
  field "tcp_challenge_timestamp" td_u32 ,,
  field "tcp_challenge_count" td_u32 ,,
  field "sysctl_tcp_plb_enabled" td_u8 ,,
  field "sysctl_tcp_plb_idle_rehash_rounds" td_u8 ,,
  field "sysctl_tcp_plb_rehash_rounds" td_u8 ,,
  field "sysctl_tcp_plb_suspend_rto_sec" td_u8 ,,
  field "sysctl_tcp_plb_cong_thresh" c_int ,,
  field "sysctl_udp_wmem_min" c_int ,,
  field "sysctl_udp_rmem_min" c_int ,,
  field "sysctl_fib_notify_on_flag_change" td_u8 ,,
  field "sysctl_tcp_syn_linear_timeouts" td_u8 ,,
  field "sysctl_udp_l3mdev_accept" td_u8 ,,
  field "sysctl_igmp_llm_reports" td_u8 ,,
  field "sysctl_igmp_max_memberships" c_int ,,
  field "sysctl_igmp_max_msf" c_int ,,
  field "sysctl_igmp_qrv" c_int ,,
  field "ping_group_range" struct_ping_group_range ,,
  field "ping_port_rover" td_u16 ,,
  field "dev_addr_genid" td_atomic_t ,,
  field "sysctl_udp_child_hash_entries" c_uint ,,
  field "sysctl_local_reserved_ports" (CPtr "long unsigned int") ,,
  field "sysctl_ip_prot_sock" c_int ,,
  field "mr_tables" struct_list_head ,,
  field "mr_rules_ops" (CPtr "struct fib_rules_ops") ,,
  field "ipmr_notifier_ops" (CPtr "struct fib_notifier_ops") ,,
  field "ipmr_seq" td_atomic_t ,,
  field "mfc_mutex" struct_mutex ,,
  field "sysctl_fib_multipath_hash_seed" struct_sysctl_fib_multipath_hash_seed ,,
  field "sysctl_fib_multipath_hash_fields" td_u32 ,,
  field "sysctl_fib_multipath_use_neigh" td_u8 ,,
  field "sysctl_fib_multipath_hash_policy" td_u8 ,,
  field "notifier_ops" (CPtr "struct fib_notifier_ops") ,,
  field "fib_seq" c_uint ,,
  field "rt_genid" td_atomic_t ,,
  field "ip_id_key" td_siphash_key_t ,,
  field "inet_addr_lst" (CPtr "struct hlist_head") ,,
  field "addr_chk_work" struct_delayed_work ,,
  pad c_long 64 ,,
  pad c_long 64 ,,
  fin).

Definition struct_netns_sysctl_ipv6 : ctype := CStruct "netns_sysctl_ipv6" (
  field "hdr" (CPtr "struct ctl_table_header") ,,
  field "route_hdr" (CPtr "struct ctl_table_header") ,,
  field "icmp_hdr" (CPtr "struct ctl_table_header") ,,
  field "frags_hdr" (CPtr "struct ctl_table_header") ,,
  field "xfrm6_hdr" (CPtr "struct ctl_table_header") ,,
  field "flush_delay" c_int ,,
  field "ip6_rt_max_size" c_int ,,
  field "ip6_rt_gc_min_interval" c_int ,,
  field "ip6_rt_gc_timeout" c_int ,,
  field "ip6_rt_gc_interval" c_int ,,
  field "ip6_rt_gc_elasticity" c_int ,,
  field "ip6_rt_mtu_expires" c_int ,,
  field "ip6_rt_min_advmss" c_int ,,
  field "multipath_hash_fields" td_u32 ,,
  field "multipath_hash_policy" td_u8 ,,
  field "__cacheline_group_begin__sysctl_ipv6_flowlabel" (CArr td___u8 0) ,,
  field "flowlabel_consistency" td_u8 ,,
  field "auto_flowlabels" td_u8 ,,
  field "flowlabel_state_ranges" td_u8 ,,
  field "__cacheline_group_end__sysctl_ipv6_flowlabel" (CArr td___u8 0) ,,
  field "icmpv6_echo_ignore_all" td_u8 ,,
  field "icmpv6_echo_ignore_multicast" td_u8 ,,
  field "icmpv6_echo_ignore_anycast" td_u8 ,,
  field "icmpv6_time" c_int ,,
  field "icmpv6_ratemask" (CArr c_ulong 4) ,,
  field "icmpv6_ratemask_ptr" (CPtr "long unsigned int") ,,
  field "anycast_src_echo_reply" td_u8 ,,
  field "bindv6only" td_u8 ,,
  field "ip_nonlocal_bind" td_u8 ,,
  field "fwmark_reflect" td_u8 ,,
  field "idgen_retries" c_int ,,
  field "idgen_delay" c_int ,,
  field "flowlabel_reflect" c_int ,,
  field "max_dst_opts_cnt" c_int ,,
  field "max_hbh_opts_cnt" c_int ,,
  field "max_dst_opts_len" c_int ,,
  field "max_hbh_opts_len" c_int ,,
  field "seg6_flowlabel" c_int ,,
  field "ioam6_id" td_u32 ,,
  field "ioam6_id_wide" td_u64 ,,
  field "skip_notify_on_dev_down" td_u8 ,,
  field "fib_notify_on_flag_change" td_u8 ,,
  field "icmpv6_error_anycast_as_unicast" td_u8 ,,
  field "icmpv6_errors_extension_mask" td_u8 ,,
  fin).

Definition struct_netns_ipv6 : ctype := CStruct "netns_ipv6" (
  field "ip6_dst_ops" struct_dst_ops ,,
  field "sysctl" struct_netns_sysctl_ipv6 ,,
  field "devconf_all" (CPtr "struct ipv6_devconf") ,,
  field "devconf_dflt" (CPtr "struct ipv6_devconf") ,,
  field "peers" (CPtr "struct inet_peer_base") ,,
  field "fqdir" (CPtr "struct fqdir") ,,
  field "fib6_null_entry" (CPtr "struct fib6_info") ,,
  field "ip6_null_entry" (CPtr "struct rt6_info") ,,
  field "rt6_stats" (CPtr "struct rt6_statistics") ,,
  field "ip6_fib_timer" struct_timer_list ,,
  field "fib_table_hash" (CPtr "struct hlist_head") ,,
  field "fib_table_hash_lock" td_spinlock_t ,,
  field "fib6_main_tbl" (CPtr "struct fib6_table") ,,
  field "fib6_walkers" struct_list_head ,,
  field "fib6_walker_lock" td_rwlock_t ,,
  field "fib6_gc_lock" td_spinlock_t ,,
  field "ip6_rt_gc_expire" td_atomic_t ,,
  field "ip6_rt_last_gc" c_ulong ,,
  field "flowlabel_has_excl" c_uchar ,,
  field "fib6_has_custom_rules" td_bool ,,
  field "fib6_rules_require_fldissect" c_uint ,,
  field "fib6_routes_require_src" c_uint ,,
  field "ip6_prohibit_entry" (CPtr "struct rt6_info") ,,
  field "ip6_blk_hole_entry" (CPtr "struct rt6_info") ,,
  field "fib6_local_tbl" (CPtr "struct fib6_table") ,,
  field "fib6_rules_ops" (CPtr "struct fib_rules_ops") ,,
  field "ndisc_sk" (CPtr "struct sock") ,,
  field "tcp_sk" (CPtr "struct sock") ,,
  field "igmp_sk" (CPtr "struct sock") ,,
  field "mc_autojoin_sk" (CPtr "struct sock") ,,
  field "inet6_addr_lst" (CPtr "struct hlist_head") ,,
  field "addrconf_hash_lock" td_spinlock_t ,,
  field "addr_chk_work" struct_delayed_work ,,
  field "mr6_tables" struct_list_head ,,
  field "mr6_rules_ops" (CPtr "struct fib_rules_ops") ,,
  field "dev_addr_genid" td_atomic_t ,,
  field "fib6_sernum" td_atomic_t ,,
  field "seg6_data" (CPtr "struct seg6_pernet_data") ,,
  field "notifier_ops" (CPtr "struct fib_notifier_ops") ,,
  field "ip6mr_notifier_ops" (CPtr "struct fib_notifier_ops") ,,
  field "ipmr_seq" td_atomic_t ,,
  field "flowlabel_count" c_int ,,
  field "ip6addrlbl_table" (CStruct "" (
    field "head" struct_hlist_head ,,
    field "lock" td_spinlock_t ,,
    field "seq" td_u32 ,,
    fin)) ,,
  field "ioam6_data" (CPtr "struct ioam6_pernet_data") ,,
  pad c_long 64 ,,
  pad c_long 64 ,,
  pad c_long 64 ,,
  fin).

Definition struct_netns_sysctl_lowpan : ctype := CStruct "netns_sysctl_lowpan" (
  field "frags_hdr" (CPtr "struct ctl_table_header") ,,
  fin).

Definition struct_netns_ieee802154_lowpan : ctype := CStruct "netns_ieee802154_lowpan" (
  field "sysctl" struct_netns_sysctl_lowpan ,,
  field "fqdir" (CPtr "struct fqdir") ,,
  fin).

Definition struct_netns_sctp : ctype := CStruct "netns_sctp" (
  field "sctp_statistics" (CPtr "struct sctp_mib") ,,
  field "proc_net_sctp" (CPtr "struct proc_dir_entry") ,,
  field "sysctl_header" (CPtr "struct ctl_table_header") ,,
  field "ctl_sock" (CPtr "struct sock") ,,
  field "udp4_sock" (CPtr "struct sock") ,,
  field "udp6_sock" (CPtr "struct sock") ,,
  field "udp_port" c_int ,,
  field "encap_port" c_int ,,
  field "local_addr_list" struct_list_head ,,
  field "addr_waitq" struct_list_head ,,
  field "addr_wq_timer" struct_timer_list ,,
  field "auto_asconf_splist" struct_list_head ,,
  field "addr_wq_lock" td_spinlock_t ,,
  field "local_addr_lock" td_spinlock_t ,,
  field "rto_initial" c_uint ,,
  field "rto_min" c_uint ,,
  field "rto_max" c_uint ,,
  field "rto_alpha" c_int ,,
  field "rto_beta" c_int ,,
  field "max_burst" c_int ,,
  field "cookie_preserve_enable" c_int ,,
  field "cookie_auth_enable" c_int ,,
  field "valid_cookie_life" c_uint ,,
  field "sack_timeout" c_uint ,,
  field "hb_interval" c_uint ,,
  field "probe_interval" c_uint ,,
  field "max_retrans_association" c_int ,,
  field "max_retrans_path" c_int ,,
  field "max_retrans_init" c_int ,,
  field "pf_retrans" c_int ,,
  field "ps_retrans" c_int ,,
  field "pf_enable" c_int ,,
  field "pf_expose" c_int ,,
  field "sndbuf_policy" c_int ,,
  field "rcvbuf_policy" c_int ,,
  field "default_auto_asconf" c_int ,,
  field "addip_enable" c_int ,,
  field "addip_noauth" c_int ,,
  field "prsctp_enable" c_int ,,
  field "reconf_enable" c_int ,,
  field "auth_enable" c_int ,,
  field "intl_enable" c_int ,,
  field "ecn_enable" c_int ,,
  field "scope_policy" c_int ,,
  field "rwnd_upd_shift" c_int ,,
  field "max_autoclose" c_ulong ,,
  field "l3mdev_accept" c_int ,,
  fin).

Definition struct_netns_nf : ctype := CStruct "netns_nf" (
  field "proc_netfilter" (CPtr "struct proc_dir_entry") ,,
  field "nf_loggers" (CArr (CPtr "struct nf_logger") 11) ,,
  field "nf_log_dir_header" (CPtr "struct ctl_table_header") ,,
  field "nf_lwtnl_dir_header" (CPtr "struct ctl_table_header") ,,
  field "hooks_ipv4" (CArr (CPtr "struct nf_hook_entries") 5) ,,
  field "hooks_ipv6" (CArr (CPtr "struct nf_hook_entries") 5) ,,
  field "hooks_arp" (CArr (CPtr "struct nf_hook_entries") 3) ,,
  field "hooks_bridge" (CArr (CPtr "struct nf_hook_entries") 5) ,,
  field "defrag_ipv4_users" c_uint ,,
  field "defrag_ipv6_users" c_uint ,,
  fin).

Definition struct_nf_generic_net : ctype := CStruct "nf_generic_net" (
  field "timeout" c_uint ,,
  fin).

Definition struct_nf_tcp_net : ctype := CStruct "nf_tcp_net" (
  field "timeouts" (CArr c_uint 14) ,,
  field "tcp_loose" td_u8 ,,
  field "tcp_be_liberal" td_u8 ,,
  field "tcp_max_retrans" td_u8 ,,
  field "tcp_ignore_invalid_rst" td_u8 ,,
  field "offload_timeout" c_uint ,,
  fin).

Definition struct_nf_udp_net : ctype := CStruct "nf_udp_net" (
  field "timeouts" (CArr c_uint 2) ,,
  field "offload_timeout" c_uint ,,
  fin).

Definition struct_nf_icmp_net : ctype := CStruct "nf_icmp_net" (
  field "timeout" c_uint ,,
  fin).

Definition struct_nf_sctp_net : ctype := CStruct "nf_sctp_net" (
  field "timeouts" (CArr c_uint 10) ,,
  fin).

Definition struct_nf_gre_net : ctype := CStruct "nf_gre_net" (
  field "keymap_list" struct_list_head ,,
  field "timeouts" (CArr c_uint 2) ,,
  fin).

Definition struct_nf_ip_net : ctype := CStruct "nf_ip_net" (
  field "generic" struct_nf_generic_net ,,
  field "tcp" struct_nf_tcp_net ,,
  field "udp" struct_nf_udp_net ,,
  field "icmp" struct_nf_icmp_net ,,
  field "icmpv6" struct_nf_icmp_net ,,
  field "sctp" struct_nf_sctp_net ,,
  field "gre" struct_nf_gre_net ,,
  fin).

Definition struct_netns_ct : ctype := CStruct "netns_ct" (
  field "ecache_dwork_pending" td_bool ,,
  field "sysctl_log_invalid" td_u8 ,,
  field "sysctl_events" td_u8 ,,
  field "sysctl_acct" td_u8 ,,
  field "sysctl_tstamp" td_u8 ,,
  field "sysctl_checksum" td_u8 ,,
  field "stat" (CPtr "struct ip_conntrack_stat") ,,
  field "nf_conntrack_event_cb" (CPtr "struct nf_ct_event_notifier") ,,
  field "nf_ct_proto" struct_nf_ip_net ,,
  field "labels_used" td_atomic_t ,,
  fin).

Definition struct_netns_nftables : ctype := CStruct "netns_nftables" (
  field "base_seq" c_uint ,,
  field "gencursor" td_u8 ,,
  fin).

Definition struct_netns_ft : ctype := CStruct "netns_ft" (
  field "stat" (CPtr "struct nf_flow_table_stat") ,,
  fin).

Definition struct_netns_bpf : ctype := CStruct "netns_bpf" (
  field "run_array" (CArr (CPtr "struct bpf_prog_array") 2) ,,
  field "progs" (CArr (CPtr "struct bpf_prog") 2) ,,
  field "links" (CArr struct_list_head 2) ,,
  fin).

Definition struct_xfrm_policy_hash : ctype := CStruct "xfrm_policy_hash" (
  field "table" (CPtr "struct hlist_head") ,,
  field "hmask" c_uint ,,
  field "dbits4" td_u8 ,,
  field "sbits4" td_u8 ,,
  field "dbits6" td_u8 ,,
  field "sbits6" td_u8 ,,
  fin).

Definition struct_xfrm_policy_hthresh : ctype := CStruct "xfrm_policy_hthresh" (
  field "work" struct_work_struct ,,
  field "lock" td_seqlock_t ,,
  field "lbits4" td_u8 ,,
  field "rbits4" td_u8 ,,
  field "lbits6" td_u8 ,,
  field "rbits6" td_u8 ,,
  fin).

Definition struct_netns_xfrm : ctype := CStruct "netns_xfrm" (
  field "state_all" struct_list_head ,,
  field "state_bydst" (CPtr "struct hlist_head") ,,
  field "state_bysrc" (CPtr "struct hlist_head") ,,
  field "state_byspi" (CPtr "struct hlist_head") ,,
  field "state_byseq" (CPtr "struct hlist_head") ,,
  field "state_cache_input" (CPtr "struct hlist_head") ,,
  field "state_hmask" c_uint ,,
  field "state_num" c_uint ,,
  field "state_hash_work" struct_work_struct ,,
  field "policy_all" struct_list_head ,,
  field "policy_byidx" (CPtr "struct hlist_head") ,,
  field "policy_idx_hmask" c_uint ,,
  field "idx_generator" c_uint ,,
  field "policy_bydst" (CArr struct_xfrm_policy_hash 3) ,,
  field "policy_count" (CArr c_uint 6) ,,
  field "policy_hash_work" struct_work_struct ,,
  field "policy_hthresh" struct_xfrm_policy_hthresh ,,
  field "inexact_bins" struct_list_head ,,
  field "nlsk" (CPtr "struct sock") ,,
  field "nlsk_stash" (CPtr "struct sock") ,,
  field "sysctl_aevent_etime" td_u32 ,,
  field "sysctl_aevent_rseqth" td_u32 ,,
  field "sysctl_larval_drop" c_int ,,
  field "sysctl_acq_expires" td_u32 ,,
  field "policy_default" (CArr td_u8 3) ,,
  field "sysctl_hdr" (CPtr "struct ctl_table_header") ,,
  pad c_long 64 ,,
  pad c_long 64 ,,
  pad c_long 64 ,,
  pad c_long 64 ,,
  pad c_long 64 ,,
  field "xfrm4_dst_ops" struct_dst_ops ,,
  field "xfrm6_dst_ops" struct_dst_ops ,,
  field "xfrm_state_lock" td_spinlock_t ,,
  field "xfrm_state_hash_generation" td_seqcount_spinlock_t ,,
  field "xfrm_policy_hash_generation" td_seqcount_spinlock_t ,,
  field "xfrm_policy_lock" td_spinlock_t ,,
  field "xfrm_cfg_mutex" struct_mutex ,,
  field "nat_keepalive_work" struct_delayed_work ,,
  fin).

Definition struct_seqcount_mutex : ctype := CStruct "seqcount_mutex" (
  field "seqcount" td_seqcount_t ,,
  fin).

Definition td_seqcount_mutex_t : ctype := struct_seqcount_mutex.

Definition struct_netns_mpls : ctype := CStruct "netns_mpls" (
  field "ip_ttl_propagate" c_int ,,
  field "default_ttl" c_int ,,
  field "platform_labels" td_size_t ,,
  field "platform_label" (CPtr "struct mpls_route *") ,,
  field "platform_mutex" struct_mutex ,,
  field "platform_label_seq" td_seqcount_mutex_t ,,
  field "ctl" (CPtr "struct ctl_table_header") ,,
  fin).

Definition struct_netns_can : ctype := CStruct "netns_can" (
  field "proc_dir" (CPtr "struct proc_dir_entry") ,,
  field "pde_stats" (CPtr "struct proc_dir_entry") ,,
  field "pde_reset_stats" (CPtr "struct proc_dir_entry") ,,
  field "pde_rcvlist_all" (CPtr "struct proc_dir_entry") ,,
  field "pde_rcvlist_fil" (CPtr "struct proc_dir_entry") ,,
  field "pde_rcvlist_inv" (CPtr "struct proc_dir_entry") ,,
  field "pde_rcvlist_sff" (CPtr "struct proc_dir_entry") ,,
  field "pde_rcvlist_eff" (CPtr "struct proc_dir_entry") ,,
  field "pde_rcvlist_err" (CPtr "struct proc_dir_entry") ,,
  field "bcmproc_dir" (CPtr "struct proc_dir_entry") ,,
  field "rx_alldev_list" (CPtr "struct can_dev_rcv_lists") ,,
  field "rcvlists_lock" td_spinlock_t ,,
  field "stattimer" struct_timer_list ,,
  field "pkg_stats" (CPtr "struct can_pkg_stats") ,,
  field "rcv_lists_stats" (CPtr "struct can_rcv_lists_stats") ,,
  field "cgw_list" struct_hlist_head ,,
  fin).

Definition struct_netns_xdp : ctype := CStruct "netns_xdp" (
  field "lock" struct_mutex ,,
  field "list" struct_hlist_head ,,
  fin).

Definition struct_netns_smc : ctype := CStruct "netns_smc" (
  field "smc_stats" (CPtr "struct smc_stats") ,,
  field "mutex_fback_rsn" struct_mutex ,,
  field "fback_rsn" (CPtr "struct smc_stats_rsn") ,,
  field "limit_smc_hs" td_bool ,,
  field "smc_hdr" (CPtr "struct ctl_table_header") ,,
  field "hs_ctrl" (CPtr "struct smc_hs_ctrl") ,,
  field "sysctl_autocorking_size" c_uint ,,
  field "sysctl_smcr_buf_type" c_uint ,,
  field "sysctl_smcr_testlink_time" c_int ,,
  field "sysctl_wmem" c_int ,,
  field "sysctl_rmem" c_int ,,
  field "sysctl_max_links_per_lgr" c_int ,,
  field "sysctl_max_conns_per_lgr" c_int ,,
  field "sysctl_smcr_max_send_wr" c_uint ,,
  field "sysctl_smcr_max_recv_wr" c_uint ,,
  fin).

Definition struct_netns_vsock : ctype := CStruct "netns_vsock" (
  field "sysctl_hdr" (CPtr "struct ctl_table_header") ,,
  field "port" td_u32 ,,
  field "mode" enum_vsock_net_mode ,,
  field "child_ns_mode" enum_vsock_net_mode ,,
  field "child_ns_mode_locked" c_int ,,
  field "g2h_fallback" c_int ,,
  fin).

Definition struct_net : ctype := CStruct "net" (
  field "passive" td_refcount_t ,,
  field "rules_mod_lock" td_spinlock_t ,,
  field "dev_base_seq" c_uint ,,
  field "ifindex" td_u32 ,,
  field "nsid_lock" td_spinlock_t ,,
  field "fnhe_genid" td_atomic_t ,,
  field "list" struct_list_head ,,
  field "exit_list" struct_list_head ,,
  field "defer_free_list" struct_llist_node ,,
  field "cleanup_list" struct_llist_node ,,
  field "ptype_all" struct_list_head ,,
  field "ptype_specific" struct_list_head ,,
  field "key_domain" (CPtr "struct key_tag") ,,
  field "user_ns" (CPtr "struct user_namespace") ,,
  field "ucounts" (CPtr "struct ucounts") ,,
  field "netns_ids" struct_idr ,,
  pad c_long 64 ,,
  pad c_long 64 ,,
  pad c_long 64 ,,
  pad c_long 64 ,,
  pad c_long 64 ,,
  field "ns" struct_ns_common ,,
  field "refcnt_tracker" struct_ref_tracker_dir ,,
  field "notrefcnt_tracker" struct_ref_tracker_dir ,,
  field "dev_base_head" struct_list_head ,,
  field "proc_net" (CPtr "struct proc_dir_entry") ,,
  field "proc_net_stat" (CPtr "struct proc_dir_entry") ,,
  field "sysctls" struct_ctl_table_set ,,
  field "rtnl" (CPtr "struct sock") ,,
  field "genl_sock" (CPtr "struct sock") ,,
  field "uevent_sock" (CPtr "struct uevent_sock") ,,
  field "dev_name_head" (CPtr "struct hlist_head") ,,
  field "dev_index_head" (CPtr "struct hlist_head") ,,
  field "dev_by_index" struct_xarray ,,
  field "netdev_chain" struct_raw_notifier_head ,,
  field "hash_mix" td_u32 ,,
  field "is_dying" td_bool ,,
  field "loopback_dev" (CPtr "struct net_device") ,,
  field "rules_ops" struct_list_head ,,
  field "core" struct_netns_core ,,
  field "mib" struct_netns_mib ,,
  field "packet" struct_netns_packet ,,
  field "unx" struct_netns_unix ,,
  field "nexthop" struct_netns_nexthop ,,
  pad c_long 64 ,,
  field "ipv4" struct_netns_ipv4 ,,
  field "ipv6" struct_netns_ipv6 ,,
  field "ieee802154_lowpan" struct_netns_ieee802154_lowpan ,,
  field "sctp" struct_netns_sctp ,,
  field "nf" struct_netns_nf ,,
  field "ct" struct_netns_ct ,,
  field "nft" struct_netns_nftables ,,
  field "ft" struct_netns_ft ,,
  field "wext_nlevents" struct_sk_buff_head ,,
  field "gen" (CPtr "struct net_generic") ,,
  field "bpf" struct_netns_bpf ,,
  pad c_long 64 ,,
  pad c_long 64 ,,
  pad c_long 64 ,,
  field "xfrm" struct_netns_xfrm ,,
  field "net_cookie" td_u64 ,,
  field "ipvs" (CPtr "struct netns_ipvs") ,,
  field "mpls" struct_netns_mpls ,,
  field "can" struct_netns_can ,,
  field "xdp" struct_netns_xdp ,,
  field "crypto_nlsk" (CPtr "struct sock") ,,
  field "diag_nlsk" (CPtr "struct sock") ,,
  field "smc" struct_netns_smc ,,
  field "vsock" struct_netns_vsock ,,
  pad c_long 64 ,,
  pad c_long 64 ,,
  pad c_long 64 ,,
  fin).

(** All types of this file. *)
Definition vmnet_types : list ctype := [
  enum_vsock_net_mode;
  td___kernel_gid32_t;
  td_gid_t;
  td_kgid_t;
  struct_rw_semaphore;
  td_siphash_key_t;
  td_work_func_t;
  struct_work_struct;
  struct_delayed_work;
  struct_percpu_counter;
  struct_seqlock;
  td_seqlock_t;
  struct_blocking_notifier_head;
  struct_ns_common;
  struct_idr;
  struct_ctl_table_header;
  struct_ctl_dir;
  struct_ctl_table_set;
  struct_ref_tracker_dir;
  struct_raw_notifier_head;
  struct_dst_ops;
  struct_inet_timewait_death_row;
  struct_local_ports;
  struct_netns_core;
  struct_netns_mib;
  struct_netns_packet;
  struct_unix_table;
  struct_netns_unix;
  struct_netns_nexthop;
  struct_udp_tunnel_gro;
  struct_ping_group_range;
  struct_sysctl_fib_multipath_hash_seed;
  struct_netns_ipv4;
  struct_netns_sysctl_ipv6;
  struct_netns_ipv6;
  struct_netns_sysctl_lowpan;
  struct_netns_ieee802154_lowpan;
  struct_netns_sctp;
  struct_netns_nf;
  struct_nf_generic_net;
  struct_nf_tcp_net;
  struct_nf_udp_net;
  struct_nf_icmp_net;
  struct_nf_sctp_net;
  struct_nf_gre_net;
  struct_nf_ip_net;
  struct_netns_ct;
  struct_netns_nftables;
  struct_netns_ft;
  struct_netns_bpf;
  struct_xfrm_policy_hash;
  struct_xfrm_policy_hthresh;
  struct_netns_xfrm;
  struct_seqcount_mutex;
  td_seqcount_mutex_t;
  struct_netns_mpls;
  struct_netns_can;
  struct_netns_xdp;
  struct_netns_smc;
  struct_netns_vsock;
  struct_net].
