(* ===== verification/VmSockRefs.v ===== *)
(** * vmlinux.h: VmSockRefs

    Types one pointer away from struct sock and struct tcp_sock.
    Transcribed declaration by declaration from
    internal/network/ebpf/bpf/vmlinux.h, in its order: [struct_x], [union_x],
    [enum_x] and [td_x] are its struct, union, enum and typedef [x]; a pointer
    keeps the name of its target. *)
From S2P Require Import Prelude CTypes VmSock VmTcp VmTask VmNet.
From stdpp Require Import base list strings.
From Stdlib Require Import ZArith.
Local Open Scope cdecl_scope.
Local Open Scope string_scope.
Local Open Scope Z_scope.

Definition td_socket_state : ctype := CEnum "" [
  ("SS_FREE", 0);
  ("SS_UNCONNECTED", 1);
  ("SS_CONNECTING", 2);
  ("SS_CONNECTED", 3);
  ("SS_DISCONNECTING", 4)].

Definition td___le64 : ctype := td___u64.

Definition td___s8 : ctype := c_schar.

Definition td_s8 : ctype := td___s8.

Definition td___wsum : ctype := td___u32.

Definition td_sk_buff_data_t : ctype := c_uint.

Definition td_slab_flags_t : ctype := c_uint.

Definition td_kernel_cap_t : ctype := CStruct "" (
  field "val" td_u64 ,,
  fin).

Definition td_memdesc_flags_t : ctype := CStruct "" (
  field "f" c_ulong ,,
  fin).

Definition td_netdevice_tracker : ctype := CStruct "" (
  fin).

Definition td_rcuref_t : ctype := CStruct "" (
  field "refcnt" td_atomic_t ,,
  fin).

Definition td_xfrm_address_t : ctype := CUnion "" (
  field "a4" td___be32 ,,
  field "a6" (CArr td___be32 4) ,,
  field "in6" struct_in6_addr ,,
  fin).

Definition struct_rhash_head : ctype := CStruct "rhash_head" (
  field "next" (CPtr "struct rhash_head") ,,
  fin).

Definition struct_rcu_work : ctype := CStruct "rcu_work" (
  field "work" struct_work_struct ,,
  field "rcu" struct_callback_head ,,
  field "wq" (CPtr "struct workqueue_struct") ,,
  fin).

Definition struct_percpu_ref : ctype := CStruct "percpu_ref" (
  field "percpu_count_ptr" c_ulong ,,
  field "data" (CPtr "struct percpu_ref_data") ,,
  fin).

Definition struct_cgroup_subsys_state : ctype := CStruct "cgroup_subsys_state" (
  field "cgroup" (CPtr "struct cgroup") ,,
  field "ss" (CPtr "struct cgroup_subsys") ,,
  field "refcnt" struct_percpu_ref ,,
  field "rstat_cpu" (CPtr "struct css_rstat_cpu") ,,
  field "sibling" struct_list_head ,,
  field "children" struct_list_head ,,
  field "id" c_int ,,
  field "flags" c_uint ,,
  field "serial_nr" td_u64 ,,
  field "online_cnt" td_atomic_t ,,
  field "destroy_work" struct_work_struct ,,
  field "destroy_rwork" struct_rcu_work ,,
  field "parent" (CPtr "struct cgroup_subsys_state") ,,
  field "nr_descendants" c_int ,,
  field "rstat_flush_next" (CPtr "struct cgroup_subsys_state") ,,
  fin).

Definition td_rqspinlock_t : ctype := struct_qspinlock.

Definition struct_sk_buff : ctype := CStruct "sk_buff" (
  anon (CUnion "" (
    anon (CStruct "" (
      field "next" (CPtr "struct sk_buff") ,,
      field "prev" (CPtr "struct sk_buff") ,,
      anon (CUnion "" (
        field "dev" (CPtr "struct net_device") ,,
        field "dev_scratch" c_ulong ,,
        fin)) ,,
      fin)) ,,
    field "rbnode" struct_rb_node ,,
    field "list" struct_list_head ,,
    field "ll_node" struct_llist_node ,,
    fin)) ,,
  field "sk" (CPtr "struct sock") ,,
  anon (CUnion "" (
    field "tstamp" td_ktime_t ,,
    field "skb_mstamp_ns" td_u64 ,,
    fin)) ,,
  field "cb" (CArr c_char 48) ,,
  anon (CUnion "" (
    anon (CStruct "" (
      field "_skb_refdst" c_ulong ,,
      field "destructor" (CPtr "void ()") ,,
      fin)) ,,
    field "tcp_tsorted_anchor" struct_list_head ,,
    field "_sk_redir" c_ulong ,,
    fin)) ,,
  field "_nfct" c_ulong ,,
  field "len" c_uint ,,
  field "data_len" c_uint ,,
  field "mac_len" td___u16 ,,
  field "hdr_len" td___u16 ,,
  field "queue_mapping" td___u16 ,,
  field "__cloned_offset" (CArr td___u8 0) ,,
  bits "cloned" td___u8 1 ,,
  bits "nohdr" td___u8 1 ,,
  bits "fclone" td___u8 2 ,,
  bits "peeked" td___u8 1 ,,
  bits "head_frag" td___u8 1 ,,
  bits "pfmemalloc" td___u8 1 ,,
  bits "pp_recycle" td___u8 1 ,,
  field "active_extensions" td___u8 ,,
  anon (CUnion "" (
    anon (CStruct "" (
      field "__pkt_type_offset" (CArr td___u8 0) ,,
      bits "pkt_type" td___u8 3 ,,
      bits "ignore_df" td___u8 1 ,,
      bits "dst_pending_confirm" td___u8 1 ,,
      bits "ip_summed" td___u8 2 ,,
      bits "ooo_okay" td___u8 1 ,,
      field "__mono_tc_offset" (CArr td___u8 0) ,,
      bits "tstamp_type" td___u8 2 ,,
      bits "tc_at_ingress" td___u8 1 ,,
      bits "tc_skip_classify" td___u8 1 ,,
      bits "remcsum_offload" td___u8 1 ,,
      bits "csum_complete_sw" td___u8 1 ,,
      bits "csum_level" td___u8 2 ,,
      bits "inner_protocol_type" td___u8 1 ,,
      bits "l4_hash" td___u8 1 ,,
      bits "sw_hash" td___u8 1 ,,
      bits "wifi_acked_valid" td___u8 1 ,,
      bits "wifi_acked" td___u8 1 ,,
      bits "no_fcs" td___u8 1 ,,
      bits "encapsulation" td___u8 1 ,,
      bits "encap_hdr_csum" td___u8 1 ,,
      bits "csum_valid" td___u8 1 ,,
      bits "ndisc_nodetype" td___u8 2 ,,
      bits "ipvs_property" td___u8 1 ,,
      bits "nf_trace" td___u8 1 ,,
      bits "offload_fwd_mark" td___u8 1 ,,
      bits "offload_l3_fwd_mark" td___u8 1 ,,
      bits "redirected" td___u8 1 ,,
      bits "from_ingress" td___u8 1 ,,
      bits "nf_skip_egress" td___u8 1 ,,
      bits "decrypted" td___u8 1 ,,
      bits "slow_gro" td___u8 1 ,,
      bits "csum_not_inet" td___u8 1 ,,
      bits "unreadable" td___u8 1 ,,
      bits "tc_depth" td___u8 2 ,,
      field "tc_index" td___u16 ,,
      field "alloc_cpu" td_u16 ,,
      anon (CUnion "" (
        field "csum" td___wsum ,,
        anon (CStruct "" (
          field "csum_start" td___u16 ,,
          field "csum_offset" td___u16 ,,
          fin)) ,,
        fin)) ,,
      field "priority" td___u32 ,,
      field "skb_iif" c_int ,,
      field "hash" td___u32 ,,
      anon (CUnion "" (
        field "vlan_all" td_u32 ,,
        anon (CStruct "" (
          field "vlan_proto" td___be16 ,,
          field "vlan_tci" td___u16 ,,
          fin)) ,,
        fin)) ,,
      anon (CUnion "" (
        field "napi_id" c_uint ,,
        field "sender_cpu" c_uint ,,
        fin)) ,,
      field "secmark" td___u32 ,,
      anon (CUnion "" (
        field "mark" td___u32 ,,
        field "reserved_tailroom" td___u32 ,,
        fin)) ,,
      anon (CUnion "" (
        field "inner_protocol" td___be16 ,,
        field "inner_ipproto" td___u8 ,,
        fin)) ,,
      field "inner_transport_header" td___u16 ,,
      field "inner_network_header" td___u16 ,,
      field "inner_mac_header" td___u16 ,,
      field "protocol" td___be16 ,,
      field "transport_header" td___u16 ,,
      field "network_header" td___u16 ,,
      field "mac_header" td___u16 ,,
      fin)) ,,
    field "headers" (CStruct "" (
      field "__pkt_type_offset" (CArr td___u8 0) ,,
      bits "pkt_type" td___u8 3 ,,
      bits "ignore_df" td___u8 1 ,,
      bits "dst_pending_confirm" td___u8 1 ,,
      bits "ip_summed" td___u8 2 ,,
      bits "ooo_okay" td___u8 1 ,,
      field "__mono_tc_offset" (CArr td___u8 0) ,,
      bits "tstamp_type" td___u8 2 ,,
      bits "tc_at_ingress" td___u8 1 ,,
      bits "tc_skip_classify" td___u8 1 ,,
      bits "remcsum_offload" td___u8 1 ,,
      bits "csum_complete_sw" td___u8 1 ,,
      bits "csum_level" td___u8 2 ,,
      bits "inner_protocol_type" td___u8 1 ,,
      bits "l4_hash" td___u8 1 ,,
      bits "sw_hash" td___u8 1 ,,
      bits "wifi_acked_valid" td___u8 1 ,,
      bits "wifi_acked" td___u8 1 ,,
      bits "no_fcs" td___u8 1 ,,
      bits "encapsulation" td___u8 1 ,,
      bits "encap_hdr_csum" td___u8 1 ,,
      bits "csum_valid" td___u8 1 ,,
      bits "ndisc_nodetype" td___u8 2 ,,
      bits "ipvs_property" td___u8 1 ,,
      bits "nf_trace" td___u8 1 ,,
      bits "offload_fwd_mark" td___u8 1 ,,
      bits "offload_l3_fwd_mark" td___u8 1 ,,
      bits "redirected" td___u8 1 ,,
      bits "from_ingress" td___u8 1 ,,
      bits "nf_skip_egress" td___u8 1 ,,
      bits "decrypted" td___u8 1 ,,
      bits "slow_gro" td___u8 1 ,,
      bits "csum_not_inet" td___u8 1 ,,
      bits "unreadable" td___u8 1 ,,
      bits "tc_depth" td___u8 2 ,,
      field "tc_index" td___u16 ,,
      field "alloc_cpu" td_u16 ,,
      anon (CUnion "" (
        field "csum" td___wsum ,,
        anon (CStruct "" (
          field "csum_start" td___u16 ,,
          field "csum_offset" td___u16 ,,
          fin)) ,,
        fin)) ,,
      field "priority" td___u32 ,,
      field "skb_iif" c_int ,,
      field "hash" td___u32 ,,
      anon (CUnion "" (
        field "vlan_all" td_u32 ,,
        anon (CStruct "" (
          field "vlan_proto" td___be16 ,,
          field "vlan_tci" td___u16 ,,
          fin)) ,,
        fin)) ,,
      anon (CUnion "" (
        field "napi_id" c_uint ,,
        field "sender_cpu" c_uint ,,
        fin)) ,,
      field "secmark" td___u32 ,,
      anon (CUnion "" (
        field "mark" td___u32 ,,
        field "reserved_tailroom" td___u32 ,,
        fin)) ,,
      anon (CUnion "" (
        field "inner_protocol" td___be16 ,,
        field "inner_ipproto" td___u8 ,,
        fin)) ,,
      field "inner_transport_header" td___u16 ,,
      field "inner_network_header" td___u16 ,,
      field "inner_mac_header" td___u16 ,,
      field "protocol" td___be16 ,,
      field "transport_header" td___u16 ,,
      field "network_header" td___u16 ,,
      field "mac_header" td___u16 ,,
      fin)) ,,
    fin)) ,,
  field "tail" td_sk_buff_data_t ,,
  field "end" td_sk_buff_data_t ,,
  field "head" (CPtr "unsigned char") ,,
  field "data" (CPtr "unsigned char") ,,
  field "truesize" c_uint ,,
  field "users" td_refcount_t ,,
  field "extensions" (CPtr "struct skb_ext") ,,
  fin).

Definition struct_bpf_local_storage : ctype := CStruct "bpf_local_storage" (
  field "cache" (CArr (CPtr "struct bpf_local_storage_data") 16) ,,
  field "list" struct_hlist_head ,,
  field "owner" (CPtr "void") ,,
  field "rcu" struct_callback_head ,,
  field "lock" td_rqspinlock_t ,,
  field "mem_charge" td_u64 ,,
  field "owner_refcnt" td_refcount_t ,,
  fin).

Definition struct_cacheline_padding : ctype := CStruct "cacheline_padding" (
  field "x" (CArr c_char 0) ,,
  fin).

Definition struct_cgroup_file : ctype := CStruct "cgroup_file" (
  field "kn" (CPtr "struct kernfs_node") ,,
  field "notified_at" c_ulong ,,
  field "notify_timer" struct_timer_list ,,
  field "lock" td_spinlock_t ,,
  fin).

Definition struct_task_cputime : ctype := CStruct "task_cputime" (
  field "stime" td_u64 ,,
  field "utime" td_u64 ,,
  field "sum_exec_runtime" c_ullong ,,
  fin).

Definition struct_cgroup_base_stat : ctype := CStruct "cgroup_base_stat" (
  field "cputime" struct_task_cputime ,,
  field "forceidle_sum" td_u64 ,,
  field "ntime" td_u64 ,,
  fin).

Definition struct_cgroup_bpf : ctype := CStruct "cgroup_bpf" (
  field "effective" (CArr (CPtr "struct bpf_prog_array") 38) ,,
  field "progs" (CArr struct_hlist_head 38) ,,
  field "flags" (CArr td_u8 38) ,,
  field "revisions" (CArr td_u64 38) ,,
  field "storages" struct_list_head ,,
  field "inactive" (CPtr "struct bpf_prog_array") ,,
  field "refcnt" struct_percpu_ref ,,
  field "release_work" struct_work_struct ,,
  fin).

Definition struct_cgroup_freezer_state : ctype := CStruct "cgroup_freezer_state" (
  field "freeze" td_bool ,,
  field "e_freeze" td_bool ,,
  field "nr_frozen_descendants" c_int ,,
  field "nr_frozen_tasks" c_int ,,
  field "freeze_seq" td_seqcount_spinlock_t ,,
  field "freeze_start_nsec" td_u64 ,,
  field "frozen_nsec" td_u64 ,,
  fin).

Definition struct_cgroup : ctype := CStruct "cgroup" (
  field "self" struct_cgroup_subsys_state ,,
  field "flags" c_ulong ,,
  field "level" c_int ,,
  field "max_depth" c_int ,,
  field "nr_descendants" c_int ,,
  field "nr_dying_descendants" c_int ,,
  field "max_descendants" c_int ,,
  field "nr_populated_csets" c_int ,,
  field "nr_populated_domain_children" c_int ,,
  field "nr_populated_threaded_children" c_int ,,
  field "nr_threaded_children" c_int ,,
  field "kill_seq" c_uint ,,
  field "kn" (CPtr "struct kernfs_node") ,,
  field "procs_file" struct_cgroup_file ,,
  field "events_file" struct_cgroup_file ,,
  field "psi_files" (CArr struct_cgroup_file 4) ,,
  field "subtree_control" td_u32 ,,
  field "subtree_ss_mask" td_u32 ,,
  field "old_subtree_control" td_u32 ,,
  field "old_subtree_ss_mask" td_u32 ,,
  field "subsys" (CArr (CPtr "struct cgroup_subsys_state") 16) ,,
  field "nr_dying_subsys" (CArr c_int 16) ,,
  field "root" (CPtr "struct cgroup_root") ,,
  field "cset_links" struct_list_head ,,
  field "e_csets" (CArr struct_list_head 16) ,,
  field "dom_cgrp" (CPtr "struct cgroup") ,,
  field "old_dom_cgrp" (CPtr "struct cgroup") ,,
  field "rstat_base_cpu" (CPtr "struct cgroup_rstat_base_cpu") ,,
  pad c_long 64 ,,
  pad c_long 64 ,,
  pad c_long 64 ,,
  pad c_long 64 ,,
  pad c_long 64 ,,
  pad c_long 64 ,,
  pad c_long 64 ,,
  field "_pad_" struct_cacheline_padding ,,
  field "last_bstat" struct_cgroup_base_stat ,,
  field "bstat" struct_cgroup_base_stat ,,
  field "prev_cputime" struct_prev_cputime ,,
  field "pidlists" struct_list_head ,,
  field "pidlist_mutex" struct_mutex ,,
  field "offline_waitq" td_wait_queue_head_t ,,
  field "finish_destroy_work" struct_work_struct ,,
  field "release_agent_work" struct_work_struct ,,
  field "psi" (CPtr "struct psi_group") ,,
  field "bpf" struct_cgroup_bpf ,,
  field "freezer" struct_cgroup_freezer_state ,,
  field "bpf_cgrp_storage" (CPtr "struct bpf_local_storage") ,,
  field "scx_sched" (CPtr "struct scx_sched") ,,
  anon (CUnion "" (
    anon (CStruct "" (
      field "__empty_ancestors" (CStruct "" (
        fin)) ,,
      field "ancestors" (CArr (CPtr "struct cgroup") 0) ,,
      fin)) ,,
    anon (CStruct "" (
      field "_root_ancestor" (CPtr "struct cgroup") ,,
      anon (CStruct "" (
        field "__empty__low_ancestors" (CStruct "" (
          fin)) ,,
        field "_low_ancestors" (CArr (CPtr "struct cgroup") 0) ,,
        fin)) ,,
      fin)) ,,
    fin)) ,,
  pad c_long 64 ,,
  pad c_long 64 ,,
  pad c_long 64 ,,
  fin).

Definition struct_cred : ctype := CStruct "cred" (
  field "usage" td_atomic_long_t ,,
  field "uid" td_kuid_t ,,
  field "gid" td_kgid_t ,,
  field "suid" td_kuid_t ,,
  field "sgid" td_kgid_t ,,
  field "euid" td_kuid_t ,,
  field "egid" td_kgid_t ,,
  field "fsuid" td_kuid_t ,,
  field "fsgid" td_kgid_t ,,
  field "securebits" c_uint ,,
  field "cap_inheritable" td_kernel_cap_t ,,
  field "cap_permitted" td_kernel_cap_t ,,
  field "cap_effective" td_kernel_cap_t ,,
  field "cap_bset" td_kernel_cap_t ,,
  field "cap_ambient" td_kernel_cap_t ,,
  field "jit_keyring" c_uchar ,,
  field "session_keyring" (CPtr "struct key") ,,
  field "process_keyring" (CPtr "struct key") ,,
  field "thread_keyring" (CPtr "struct key") ,,
  field "request_key_auth" (CPtr "struct key") ,,
  field "security" (CPtr "void") ,,
  field "user" (CPtr "struct user_struct") ,,
  field "user_ns" (CPtr "struct user_namespace") ,,
  field "ucounts" (CPtr "struct ucounts") ,,
  field "group_info" (CPtr "struct group_info") ,,
  anon (CUnion "" (
    field "non_rcu" c_int ,,
    field "rcu" struct_callback_head ,,
    fin)) ,,
  fin).

Definition struct_deferred_split : ctype := CStruct "deferred_split" (
  field "split_queue_lock" td_spinlock_t ,,
  field "split_queue" struct_list_head ,,
  field "split_queue_len" c_ulong ,,
  fin).

Definition struct_page_counter : ctype := CStruct "page_counter" (
  field "usage" td_atomic_long_t ,,
  field "failcnt" c_ulong ,,
  pad c_long 64 ,,
  pad c_long 64 ,,
  pad c_long 64 ,,
  pad c_long 64 ,,
  pad c_long 64 ,,
  pad c_long 64 ,,
  field "_pad1_" struct_cacheline_padding ,,
  field "emin" c_ulong ,,
  field "min_usage" td_atomic_long_t ,,
  field "children_min_usage" td_atomic_long_t ,,
  field "elow" c_ulong ,,
  field "low_usage" td_atomic_long_t ,,
  field "children_low_usage" td_atomic_long_t ,,
  field "watermark" c_ulong ,,
  field "local_watermark" c_ulong ,,
  field "_pad2_" struct_cacheline_padding ,,
  field "protection_support" td_bool ,,
  field "track_failcnt" td_bool ,,
  field "min" c_ulong ,,
  field "low" c_ulong ,,
  field "high" c_ulong ,,
  field "max" c_ulong ,,
  field "parent" (CPtr "struct page_counter") ,,
  pad c_long 64 ,,
  pad c_long 64 ,,
  fin).

Definition struct_dst_entry : ctype := CStruct "dst_entry" (
  anon (CUnion "" (
    field "dev" (CPtr "struct net_device") ,,
    field "dev_rcu" (CPtr "struct net_device") ,,
    fin)) ,,
  field "ops" (CPtr "struct dst_ops") ,,
  field "_metrics" c_ulong ,,
  field "expires" c_ulong ,,
  field "xfrm" (CPtr "struct xfrm_state") ,,
  field "input" (CPtr "int ()") ,,
  field "output" (CPtr "int ()") ,,
  field "flags" c_ushort ,,
  field "obsolete" c_short ,,
  field "header_len" c_ushort ,,
  field "trailer_len" c_ushort ,,
  field "__rcuref" td_rcuref_t ,,
  field "__use" c_int ,,
  field "lastuse" c_ulong ,,
  field "callback_head" struct_callback_head ,,
  field "error" c_short ,,
  field "__pad" c_short ,,
  field "tclassid" td___u32 ,,
  field "dev_tracker" td_netdevice_tracker ,,
  field "rt_uncached" struct_list_head ,,
  field "rt_uncached_list" (CPtr "struct uncached_list") ,,
  field "lwtstate" (CPtr "struct lwtunnel_state") ,,
  fin).

Definition struct_page : ctype := CStruct "page" (
  field "flags" td_memdesc_flags_t ,,
  anon (CUnion "" (
    anon (CStruct "" (
      anon (CUnion "" (
        field "lru" struct_list_head ,,
        field "buddy_list" struct_list_head ,,
        field "pcp_list" struct_list_head ,,
        field "pcp_llist" struct_llist_node ,,
        fin)) ,,
      field "mapping" (CPtr "struct address_space") ,,
      anon (CUnion "" (
        field "__folio_index" c_ulong ,,
        field "share" c_ulong ,,
        fin)) ,,
      field "private" c_ulong ,,
      fin)) ,,
    anon (CStruct "" (
      field "pp_magic" c_ulong ,,
      field "pp" (CPtr "struct page_pool") ,,
      field "_pp_mapping_pad" c_ulong ,,
      field "dma_addr" c_ulong ,,
      field "pp_ref_count" td_atomic_long_t ,,
      fin)) ,,
    anon (CStruct "" (
      field "compound_info" c_ulong ,,
      fin)) ,,
    anon (CStruct "" (
      field "_unused_pgmap_compound_info" (CPtr "void") ,,
      field "zone_device_data" (CPtr "void") ,,
      fin)) ,,
    field "callback_head" struct_callback_head ,,
    fin)) ,,
  anon (CUnion "" (
    field "page_type" c_uint ,,
    field "_mapcount" td_atomic_t ,,
    fin)) ,,
  field "_refcount" td_atomic_t ,,
  field "memcg_data" c_ulong ,,
  fin).

Definition struct_fprop_global : ctype := CStruct "fprop_global" (
  field "events" struct_percpu_counter ,,
  field "period" c_uint ,,
  field "sequence" td_seqcount_t ,,
  fin).

Definition struct_request_sock : ctype := CStruct "request_sock" (
  field "__req_common" struct_sock_common ,,
  field "dl_next" (CPtr "struct request_sock") ,,
  field "mss" td_u16 ,,
  field "num_retrans" td_u8 ,,
  bits "syncookie" td_u8 1 ,,
  bits "num_timeout" td_u8 7 ,,
  field "ts_recent" td_u32 ,,
  field "rsk_timer" struct_timer_list ,,
  field "rsk_ops" (CPtr "struct request_sock_ops") ,,
  field "sk" (CPtr "struct sock") ,,
  field "saved_syn" (CPtr "struct saved_syn") ,,
  field "secid" td_u32 ,,
  field "peer_secid" td_u32 ,,
  field "timeout" td_u32 ,,
  fin).

Definition struct_lru_gen_mm_list : ctype := CStruct "lru_gen_mm_list" (
  field "fifo" struct_list_head ,,
  field "lock" td_spinlock_t ,,
  fin).

Definition struct_mem_cgroup_private_id : ctype := CStruct "mem_cgroup_private_id" (
  field "id" c_int ,,
  field "ref" td_refcount_t ,,
  fin).

Definition struct_vmpressure : ctype := CStruct "vmpressure" (
  field "scanned" c_ulong ,,
  field "reclaimed" c_ulong ,,
  field "tree_scanned" c_ulong ,,
  field "tree_reclaimed" c_ulong ,,
  field "sr_lock" td_spinlock_t ,,
  field "events" struct_list_head ,,
  field "events_lock" struct_mutex ,,
  field "work" struct_work_struct ,,
  fin).

Definition struct_wb_domain : ctype := CStruct "wb_domain" (
  field "lock" td_spinlock_t ,,
  field "completions" struct_fprop_global ,,
  field "period_timer" struct_timer_list ,,
  field "period_time" c_ulong ,,
  field "dirty_limit_tstamp" c_ulong ,,
  field "dirty_limit" c_ulong ,,
  fin).

Definition struct_wb_completion : ctype := CStruct "wb_completion" (
  field "cnt" td_atomic_t ,,
  field "waitq" (CPtr "wait_queue_head_t") ,,
  field "progress_stamp" c_ulong ,,
  field "wait_start" c_ulong ,,
  fin).

Definition struct_memcg_cgwb_frn : ctype := CStruct "memcg_cgwb_frn" (
  field "bdi_id" td_u64 ,,
  field "memcg_id" c_int ,,
  field "at" td_u64 ,,
  field "done" struct_wb_completion ,,
  fin).

Definition struct_mem_cgroup : ctype := CStruct "mem_cgroup" (
  field "css" struct_cgroup_subsys_state ,,
  field "id" struct_mem_cgroup_private_id ,,
  pad c_long 64 ,,
  pad c_long 64 ,,
  pad c_long 64 ,,
  pad c_long 64 ,,
  pad c_long 64 ,,
  field "memory" struct_page_counter ,,
  anon (CUnion "" (
    field "swap" struct_page_counter ,,
    field "memsw" struct_page_counter ,,
    fin)) ,,
  field "memory_peaks" struct_list_head ,,
  field "swap_peaks" struct_list_head ,,
  field "peaks_lock" td_spinlock_t ,,
  field "high_work" struct_work_struct ,,
  field "zswap_max" c_ulong ,,
  field "zswap_writeback" td_bool ,,
  field "vmpressure" struct_vmpressure ,,
  field "oom_group" td_bool ,,
  field "swappiness" c_int ,,
  field "events_file" struct_cgroup_file ,,
  field "events_local_file" struct_cgroup_file ,,
  field "swap_events_file" struct_cgroup_file ,,
  field "vmstats" (CPtr "struct memcg_vmstats") ,,
  field "memory_events" (CArr td_atomic_long_t 10) ,,
  field "memory_events_local" (CArr td_atomic_long_t 10) ,,
  field "socket_pressure" td_u64 ,,
  field "kmemcg_id" c_int ,,
  field "vmstats_percpu" (CPtr "struct memcg_vmstats_percpu") ,,
  field "cgwb_list" struct_list_head ,,
  field "cgwb_domain" struct_wb_domain ,,
  field "cgwb_frn" (CArr struct_memcg_cgwb_frn 4) ,,
  field "deferred_split_queue" struct_deferred_split ,,
  field "mm_list" struct_lru_gen_mm_list ,,
  field "nodeinfo" (CArr (CPtr "struct mem_cgroup_per_node") 0) ,,
  pad c_long 64 ,,
  pad c_long 64 ,,
  fin).

Definition struct_numa_drop_counters : ctype := CStruct "numa_drop_counters" (
  field "drops0" td_atomic_t ,,
  pad c_long 64 ,,
  pad c_long 64 ,,
  pad c_long 64 ,,
  pad c_long 64 ,,
  pad c_long 64 ,,
  pad c_long 64 ,,
  pad c_long 64 ,,
  field "drops1" td_atomic_t ,,
  pad c_long 64 ,,
  pad c_long 64 ,,
  pad c_long 64 ,,
  pad c_long 64 ,,
  pad c_long 64 ,,
  pad c_long 64 ,,
  pad c_long 64 ,,
  fin).

Definition struct_upid : ctype := CStruct "upid" (
  field "nr" c_int ,,
  field "ns" (CPtr "struct pid_namespace") ,,
  fin).

Definition struct_pid : ctype := CStruct "pid" (
  field "count" td_refcount_t ,,
  field "level" c_uint ,,
  field "lock" td_spinlock_t ,,
  anon (CStruct "" (
    field "ino" td_u64 ,,
    field "pidfs_hash" struct_rhash_head ,,
    field "stashed" (CPtr "struct dentry") ,,
    field "attr" (CPtr "struct pidfs_attr") ,,
    fin)) ,,
  field "tasks" (CArr struct_hlist_head 4) ,,
  field "inodes" struct_hlist_head ,,
  field "wait_pidfd" td_wait_queue_head_t ,,
  field "rcu" struct_callback_head ,,
  field "numbers" (CArr struct_upid 0) ,,
  fin).

Definition struct_proto : ctype := CStruct "proto" (
  field "close" (CPtr "void ()") ,,
  field "pre_connect" (CPtr "int ()") ,,
  field "connect" (CPtr "int ()") ,,
  field "disconnect" (CPtr "int ()") ,,
  field "accept" (CPtr "struct sock * ()") ,,
  field "ioctl" (CPtr "int ()") ,,
  field "init" (CPtr "int ()") ,,
  field "destroy" (CPtr "void ()") ,,
  field "shutdown" (CPtr "void ()") ,,
  field "setsockopt" (CPtr "int ()") ,,
  field "getsockopt" (CPtr "int ()") ,,
  field "keepalive" (CPtr "void ()") ,,
  field "compat_ioctl" (CPtr "int ()") ,,
  field "sendmsg" (CPtr "int ()") ,,
  field "recvmsg" (CPtr "int ()") ,,
  field "splice_eof" (CPtr "void ()") ,,
  field "bind" (CPtr "int ()") ,,
  field "bind_add" (CPtr "int ()") ,,
  field "backlog_rcv" (CPtr "int ()") ,,
  field "bpf_bypass_getsockopt" (CPtr "bool ()") ,,
  field "release_cb" (CPtr "void ()") ,,
  field "hash" (CPtr "int ()") ,,
  field "unhash" (CPtr "void ()") ,,
  field "rehash" (CPtr "void ()") ,,
  field "get_port" (CPtr "int ()") ,,
  field "put_port" (CPtr "void ()") ,,
  field "psock_update_sk_prot" (CPtr "int ()") ,,
  field "inuse_idx" c_uint ,,
  field "stream_memory_free" (CPtr "bool ()") ,,
  field "sock_is_readable" (CPtr "bool ()") ,,
  field "enter_memory_pressure" (CPtr "void ()") ,,
  field "leave_memory_pressure" (CPtr "void ()") ,,
  field "memory_allocated" (CPtr "atomic_long_t") ,,
  field "per_cpu_fw_alloc" (CPtr "int") ,,
  field "sockets_allocated" (CPtr "struct percpu_counter") ,,
  field "memory_pressure" (CPtr "long unsigned int") ,,
  field "sysctl_mem" (CPtr "long int") ,,
  field "sysctl_wmem" (CPtr "int") ,,
  field "sysctl_rmem" (CPtr "int") ,,
  field "sysctl_wmem_offset" td_u32 ,,
  field "sysctl_rmem_offset" td_u32 ,,
  field "max_header" c_int ,,
  field "no_autobind" td_bool ,,
  field "slab" (CPtr "struct kmem_cache") ,,
  field "obj_size" c_uint ,,
  field "freeptr_offset" c_uint ,,
  field "ipv6_pinfo_offset" c_uint ,,
  field "slab_flags" td_slab_flags_t ,,
  field "useroffset" c_uint ,,
  field "usersize" c_uint ,,
  field "rsk_prot" (CPtr "struct request_sock_ops") ,,
  field "twsk_prot" (CPtr "struct timewait_sock_ops") ,,
  field "h" (CUnion "" (
    field "hashinfo" (CPtr "struct inet_hashinfo") ,,
    field "raw_hash" (CPtr "struct raw_hashinfo") ,,
    field "smc_hash" (CPtr "struct smc_hashinfo") ,,
    fin)) ,,
  field "owner" (CPtr "struct module") ,,
  field "name" (CArr c_char 32) ,,
  field "node" struct_list_head ,,
  field "diag_destroy" (CPtr "int ()") ,,
  fin).

Definition struct_saved_syn : ctype := CStruct "saved_syn" (
  field "mac_hdrlen" td_u32 ,,
  field "network_hdrlen" td_u32 ,,
  field "tcp_hdrlen" td_u32 ,,
  field "data" (CArr td_u8 0) ,,
  fin).

Definition struct_sk_filter : ctype := CStruct "sk_filter" (
  field "refcnt" td_refcount_t ,,
  field "rcu" struct_callback_head ,,
  field "prog" (CPtr "struct bpf_prog") ,,
  fin).

Definition struct_sock_reuseport : ctype := CStruct "sock_reuseport" (
  field "rcu" struct_callback_head ,,
  field "max_socks" td_u16 ,,
  field "num_socks" td_u16 ,,
  field "num_closed_socks" td_u16 ,,
  field "incoming_cpu" td_u16 ,,
  field "synq_overflow_ts" c_uint ,,
  field "reuseport_id" c_uint ,,
  bits "bind_inany" c_uint 1 ,,
  bits "has_conns" c_uint 1 ,,
  field "prog" (CPtr "struct bpf_prog") ,,
  field "socks" (CArr (CPtr "struct sock") 0) ,,
  fin).

Definition struct_socket_wq : ctype := CStruct "socket_wq" (
  field "wait" td_wait_queue_head_t ,,
  field "fasync_list" (CPtr "struct fasync_struct") ,,
  field "flags" c_ulong ,,
  field "rcu" struct_callback_head ,,
  pad c_long 64 ,,
  fin).

Definition struct_socket : ctype := CStruct "socket" (
  field "state" td_socket_state ,,
  field "type" c_short ,,
  field "flags" c_ulong ,,
  field "file" (CPtr "struct file") ,,
  field "sk" (CPtr "struct sock") ,,
  field "ops" (CPtr "struct proto_ops") ,,
  pad c_long 64 ,,
  pad c_long 64 ,,
  pad c_long 64 ,,
  field "wq" struct_socket_wq ,,
  fin).

Definition struct_tcp_fastopen_cookie : ctype := CStruct "tcp_fastopen_cookie" (
  field "val" (CArr td___le64 2) ,,
  field "len" td_s8 ,,
  field "exp" td_bool ,,
  fin).

Definition struct_tcp_fastopen_request : ctype := CStruct "tcp_fastopen_request" (
  field "cookie" struct_tcp_fastopen_cookie ,,
  field "data" (CPtr "struct msghdr") ,,
  field "size" td_size_t ,,
  field "copied" c_int ,,
  field "uarg" (CPtr "struct ubuf_info") ,,
  fin).

Definition struct_tcp_md5sig_info : ctype := CStruct "tcp_md5sig_info" (
  field "head" struct_hlist_head ,,
  field "rcu" struct_callback_head ,,
  fin).

Definition struct_tcp_sock_af_ops : ctype := CStruct "tcp_sock_af_ops" (
  field "md5_lookup" (CPtr "struct tcp_md5sig_key * ()") ,,
  field "calc_md5_hash" (CPtr "void ()") ,,
  field "md5_parse" (CPtr "int ()") ,,
  fin).

Definition struct_xfrm_dev_offload : ctype := CStruct "xfrm_dev_offload" (
  field "dev" (CPtr "struct net_device") ,,
  field "dev_tracker" td_netdevice_tracker ,,
  field "real_dev" (CPtr "struct net_device") ,,
  field "offload_handle" c_ulong ,,
  bits "dir" td_u8 2 ,,
  bits "type" td_u8 2 ,,
  bits "flags" td_u8 2 ,,
  fin).

Definition struct_xfrm_id : ctype := CStruct "xfrm_id" (
  field "daddr" td_xfrm_address_t ,,
  field "spi" td___be32 ,,
  field "proto" td___u8 ,,
  fin).

Definition struct_xfrm_lifetime_cfg : ctype := CStruct "xfrm_lifetime_cfg" (
  field "soft_byte_limit" td___u64 ,,
  field "hard_byte_limit" td___u64 ,,
  field "soft_packet_limit" td___u64 ,,
  field "hard_packet_limit" td___u64 ,,
  field "soft_add_expires_seconds" td___u64 ,,
  field "hard_add_expires_seconds" td___u64 ,,
  field "soft_use_expires_seconds" td___u64 ,,
  field "hard_use_expires_seconds" td___u64 ,,
  fin).

Definition struct_xfrm_lifetime_cur : ctype := CStruct "xfrm_lifetime_cur" (
  field "bytes" td___u64 ,,
  field "packets" td___u64 ,,
  field "add_time" td___u64 ,,
  field "use_time" td___u64 ,,
  fin).

Definition struct_xfrm_mark : ctype := CStruct "xfrm_mark" (
  field "v" td___u32 ,,
  field "m" td___u32 ,,
  fin).

Definition struct_xfrm_selector : ctype := CStruct "xfrm_selector" (
  field "daddr" td_xfrm_address_t ,,
  field "saddr" td_xfrm_address_t ,,
  field "dport" td___be16 ,,
  field "dport_mask" td___be16 ,,
  field "sport" td___be16 ,,
  field "sport_mask" td___be16 ,,
  field "family" td___u16 ,,
  field "prefixlen_d" td___u8 ,,
  field "prefixlen_s" td___u8 ,,
  field "proto" td___u8 ,,
  field "ifindex" c_int ,,
  field "user" td___kernel_uid32_t ,,
  fin).

Definition struct_xfrm_policy_walk_entry : ctype := CStruct "xfrm_policy_walk_entry" (
  field "all" struct_list_head ,,
  field "dead" td_u8 ,,
  fin).

Definition struct_xfrm_policy_queue : ctype := CStruct "xfrm_policy_queue" (
  field "hold_queue" struct_sk_buff_head ,,
  field "hold_timer" struct_timer_list ,,
  field "timeout" c_ulong ,,
  fin).

Definition struct_xfrm_tmpl : ctype := CStruct "xfrm_tmpl" (
  field "id" struct_xfrm_id ,,
  field "saddr" td_xfrm_address_t ,,
  field "encap_family" c_ushort ,,
  field "reqid" td_u32 ,,
  field "mode" td_u8 ,,
  field "share" td_u8 ,,
  field "optional" td_u8 ,,
  field "allalgs" td_u8 ,,
  field "aalgos" td_u32 ,,
  field "ealgos" td_u32 ,,
  field "calgos" td_u32 ,,
  fin).

Definition struct_xfrm_policy : ctype := CStruct "xfrm_policy" (
  field "xp_net" td_possible_net_t ,,
  field "bydst" struct_hlist_node ,,
  field "byidx" struct_hlist_node ,,
  field "state_cache_list" struct_hlist_head ,,
  field "lock" td_rwlock_t ,,
  field "refcnt" td_refcount_t ,,
  field "pos" td_u32 ,,
  field "timer" struct_timer_list ,,
  field "genid" td_atomic_t ,,
  field "priority" td_u32 ,,
  field "index" td_u32 ,,
  field "if_id" td_u32 ,,
  field "mark" struct_xfrm_mark ,,
  field "selector" struct_xfrm_selector ,,
  field "lft" struct_xfrm_lifetime_cfg ,,
  field "curlft" struct_xfrm_lifetime_cur ,,
  field "walk" struct_xfrm_policy_walk_entry ,,
  field "polq" struct_xfrm_policy_queue ,,
  field "bydst_reinsert" td_bool ,,
  field "type" td_u8 ,,
  field "action" td_u8 ,,
  field "flags" td_u8 ,,
  field "xfrm_nr" td_u8 ,,
  field "family" td_u16 ,,
  field "security" (CPtr "struct xfrm_sec_ctx") ,,
  field "xfrm_vec" (CArr struct_xfrm_tmpl 6) ,,
  field "rcu" struct_callback_head ,,
  field "xdo" struct_xfrm_dev_offload ,,
  fin).

(** All types of this file. *)
Definition vmsockrefs_types : list ctype := [
  td_socket_state;
  td___le64;
  td___s8;
  td_s8;
  td___wsum;
  td_sk_buff_data_t;
  td_slab_flags_t;
  td_kernel_cap_t;
  td_memdesc_flags_t;
  td_netdevice_tracker;
  td_rcuref_t;
  td_xfrm_address_t;
  struct_rhash_head;
  struct_rcu_work;
  struct_percpu_ref;
  struct_cgroup_subsys_state;
  td_rqspinlock_t;
  struct_sk_buff;
  struct_bpf_local_storage;
  struct_cacheline_padding;
  struct_cgroup_file;
  struct_task_cputime;
  struct_cgroup_base_stat;
  struct_cgroup_bpf;
  struct_cgroup_freezer_state;
  struct_cgroup;
  struct_cred;
  struct_deferred_split;
  struct_page_counter;
  struct_dst_entry;
  struct_page;
  struct_fprop_global;
  struct_request_sock;
  struct_lru_gen_mm_list;
  struct_mem_cgroup_private_id;
  struct_vmpressure;
  struct_wb_domain;
  struct_wb_completion;
  struct_memcg_cgwb_frn;
  struct_mem_cgroup;
  struct_numa_drop_counters;
  struct_upid;
  struct_pid;
  struct_proto;
  struct_saved_syn;
  struct_sk_filter;
  struct_sock_reuseport;
  struct_socket_wq;
  struct_socket;
  struct_tcp_fastopen_cookie;
  struct_tcp_fastopen_request;
  struct_tcp_md5sig_info;
  struct_tcp_sock_af_ops;
  struct_xfrm_dev_offload;
  struct_xfrm_id;
  struct_xfrm_lifetime_cfg;
  struct_xfrm_lifetime_cur;
  struct_xfrm_mark;
  struct_xfrm_selector;
  struct_xfrm_policy_walk_entry;
  struct_xfrm_policy_queue;
  struct_xfrm_tmpl;
  struct_xfrm_policy].
