(* ===== verification/VmTaskRefs.v ===== *)
(** * vmlinux.h: VmTaskRefs

    Types one pointer away from struct task_struct.
    Transcribed declaration by declaration from
    internal/network/ebpf/bpf/vmlinux.h, in its order: [struct_x], [union_x],
    [enum_x] and [td_x] are its struct, union, enum and typedef [x]; a pointer
    keeps the name of its target. *)
From S2P Require Import Prelude CTypes VmSock VmTcp VmTask VmNet VmSockRefs.
From stdpp Require Import base list strings.
From Stdlib Require Import ZArith.
Local Open Scope cdecl_scope.
Local Open Scope string_scope.
Local Open Scope Z_scope.

Definition enum_audit_state : ctype := CEnum "audit_state" [
  ("AUDIT_STATE_DISABLED", 0);
  ("AUDIT_STATE_BUILD", 1);
  ("AUDIT_STATE_RECORD", 2)].

Definition enum_uprobe_task_state : ctype := CEnum "uprobe_task_state" [
  ("UTASK_RUNNING", 0);
  ("UTASK_SSTEP", 1);
  ("UTASK_SSTEP_ACK", 2);
  ("UTASK_SSTEP_TRAPPED", 3)].

Definition td___kernel_mqd_t : ctype := c_int.

Definition td___kernel_timer_t : ctype := c_int.

Definition td_compat_long_t : ctype := td_s32.

Definition td_int32_t : ctype := td_s32.

Definition td_key_serial_t : ctype := td_int32_t.

Definition td_mqd_t : ctype := td___kernel_mqd_t.

Definition td___kernel_long_t : ctype := c_long.

Definition td___kernel_clock_t : ctype := td___kernel_long_t.

Definition td_phys_addr_t : ctype := td_u64.

Definition td_vm_flags_t : ctype := c_ulong.

Definition td_s16 : ctype := td___s16.

Definition td_umode_t : ctype := c_ushort.

Definition td_uint32_t : ctype := td_u32.

Definition td___kernel_dev_t : ctype := td_u32.

Definition td_blk_mode_t : ctype := c_uint.

Definition td_compat_uptr_t : ctype := td_u32.

Definition td_dev_t : ctype := td___kernel_dev_t.

Definition td_key_perm_t : ctype := td_uint32_t.

Definition td_mm_id_t : ctype := c_uint.

Definition td_local_t : ctype := CStruct "" (
  field "a" td_atomic_long_t ,,
  fin).

Definition td_mm_context_t : ctype := CStruct "" (
  field "ctx_id" td_u64 ,,
  field "tlb_gen" td_atomic64_t ,,
  field "next_trim_cpumask" c_ulong ,,
  field "ldt_usr_sem" struct_rw_semaphore ,,
  field "ldt" (CPtr "struct ldt_struct") ,,
  field "flags" c_ulong ,,
  field "lock" struct_mutex ,,
  field "vdso" (CPtr "void") ,,
  field "vdso_image" (CPtr "struct vdso_image") ,,
  field "perf_rdpmc_allowed" td_atomic_t ,,
  field "pkey_allocation_map" td_u16 ,,
  field "execute_only_pkey" td_s16 ,,
  field "global_asid" td_u16 ,,
  field "asid_transition" td_bool ,,
  fin).

Definition td_mm_flags_t : ctype := CStruct "" (
  field "__mm_flags" (CArr c_ulong 1) ,,
  fin).

Definition td_vfsuid_t : ctype := CStruct "" (
  field "val" td_uid_t ,,
  fin).

Definition td_vma_flags_t : ctype := CStruct "" (
  field "__vma_flags" (CArr c_ulong 1) ,,
  fin).

Definition union_sigval : ctype := CUnion "sigval" (
  field "sival_int" c_int ,,
  field "sival_ptr" (CPtr "void") ,,
  fin).

Definition td_sigval_t : ctype := union_sigval.

Definition union___sifields : ctype := CUnion "__sifields" (
  field "_kill" (CStruct "" (
    field "_pid" td___kernel_pid_t ,,
    field "_uid" td___kernel_uid32_t ,,
    fin)) ,,
  field "_timer" (CStruct "" (
    field "_tid" td___kernel_timer_t ,,
    field "_overrun" c_int ,,
    field "_sigval" td_sigval_t ,,
    field "_sys_private" c_int ,,
    fin)) ,,
  field "_rt" (CStruct "" (
    field "_pid" td___kernel_pid_t ,,
    field "_uid" td___kernel_uid32_t ,,
    field "_sigval" td_sigval_t ,,
    fin)) ,,
  field "_sigchld" (CStruct "" (
    field "_pid" td___kernel_pid_t ,,
    field "_uid" td___kernel_uid32_t ,,
    field "_status" c_int ,,
    field "_utime" td___kernel_clock_t ,,
    field "_stime" td___kernel_clock_t ,,
    fin)) ,,
  field "_sigfault" (CStruct "" (
    field "_addr" (CPtr "void") ,,
    anon (CUnion "" (
      field "_trapno" c_int ,,
      field "_addr_lsb" c_short ,,
      field "_addr_bnd" (CStruct "" (
        field "_dummy_bnd" (CArr c_char 8) ,,
        field "_lower" (CPtr "void") ,,
        field "_upper" (CPtr "void") ,,
        fin)) ,,
      field "_addr_pkey" (CStruct "" (
        field "_dummy_pkey" (CArr c_char 8) ,,
        field "_pkey" td___u32 ,,
        fin)) ,,
      field "_perf" (CStruct "" (
        field "_data" c_ulong ,,
        field "_type" td___u32 ,,
        field "_flags" td___u32 ,,
        fin)) ,,
      fin)) ,,
    fin)) ,,
  field "_sigpoll" (CStruct "" (
    field "_band" c_long ,,
    field "_fd" c_int ,,
    fin)) ,,
  field "_sigsys" (CStruct "" (
    field "_call_addr" (CPtr "void") ,,
    field "_syscall" c_int ,,
    field "_arch" c_uint ,,
    fin)) ,,
  fin).

Definition struct_kref : ctype := CStruct "kref" (
  field "refcount" td_refcount_t ,,
  fin).

Definition struct_rlimit : ctype := CStruct "rlimit" (
  field "rlim_cur" td___kernel_ulong_t ,,
  field "rlim_max" td___kernel_ulong_t ,,
  fin).

Definition struct_kobject : ctype := CStruct "kobject" (
  field "name" (CPtr "char") ,,
  field "entry" struct_list_head ,,
  field "parent" (CPtr "struct kobject") ,,
  field "kset" (CPtr "struct kset") ,,
  field "ktype" (CPtr "struct kobj_type") ,,
  field "sd" (CPtr "struct kernfs_node") ,,
  field "kref" struct_kref ,,
  bits "state_initialized" c_uint 1 ,,
  bits "state_in_sysfs" c_uint 1 ,,
  bits "state_add_uevent_sent" c_uint 1 ,,
  bits "state_remove_uevent_sent" c_uint 1 ,,
  bits "uevent_suppress" c_uint 1 ,,
  fin).

Definition struct_swait_queue_head : ctype := CStruct "swait_queue_head" (
  field "lock" td_raw_spinlock_t ,,
  field "task_list" struct_list_head ,,
  fin).

Definition struct_completion : ctype := CStruct "completion" (
  field "done" c_uint ,,
  field "wait" struct_swait_queue_head ,,
  fin).

Definition struct_audit_ntp_val : ctype := CStruct "audit_ntp_val" (
  field "oldval" c_llong ,,
  field "newval" c_llong ,,
  fin).

Definition struct_audit_ntp_data : ctype := CStruct "audit_ntp_data" (
  field "vals" (CArr struct_audit_ntp_val 6) ,,
  fin).

Definition struct_codetag : ctype := CStruct "codetag" (
  field "flags" c_uint ,,
  field "lineno" c_uint ,,
  field "modname" (CPtr "char") ,,
  field "function" (CPtr "char") ,,
  field "filename" (CPtr "char") ,,
  fin).

Definition struct_alloc_tag : ctype := CStruct "alloc_tag" (
  field "ct" struct_codetag ,,
  field "counters" (CPtr "struct alloc_tag_counters") ,,
  fin).

Definition struct_path : ctype := CStruct "path" (
  field "mnt" (CPtr "struct vfsmount") ,,
  field "dentry" (CPtr "struct dentry") ,,
  fin).

Definition struct_arch_uprobe_task : ctype := CStruct "arch_uprobe_task" (
  field "saved_scratch_register" c_ulong ,,
  field "saved_trap_nr" c_uint ,,
  field "saved_tf" c_uint ,,
  fin).

Definition struct_assoc_array : ctype := CStruct "assoc_array" (
  field "root" (CPtr "struct assoc_array_ptr") ,,
  field "nr_leaves_on_tree" c_ulong ,,
  fin).

Definition struct_audit_cap_data : ctype := CStruct "audit_cap_data" (
  field "permitted" td_kernel_cap_t ,,
  field "inheritable" td_kernel_cap_t ,,
  anon (CUnion "" (
    field "fE" c_uint ,,
    field "effective" td_kernel_cap_t ,,
    fin)) ,,
  field "ambient" td_kernel_cap_t ,,
  field "rootid" td_kuid_t ,,
  fin).

Definition struct_lsm_prop_selinux : ctype := CStruct "lsm_prop_selinux" (
  field "secid" td_u32 ,,
  fin).

Definition struct_lsm_prop_smack : ctype := CStruct "lsm_prop_smack" (
  fin).

Definition struct_lsm_prop_apparmor : ctype := CStruct "lsm_prop_apparmor" (
  field "label" (CPtr "struct aa_label") ,,
  fin).

Definition struct_lsm_prop_bpf : ctype := CStruct "lsm_prop_bpf" (
  field "secid" td_u32 ,,
  fin).

Definition struct_lsm_prop : ctype := CStruct "lsm_prop" (
  field "selinux" struct_lsm_prop_selinux ,,
  field "smack" struct_lsm_prop_smack ,,
  field "apparmor" struct_lsm_prop_apparmor ,,
  field "bpf" struct_lsm_prop_bpf ,,
  fin).

Definition struct_audit_stamp : ctype := CStruct "audit_stamp" (
  field "ctime" struct_timespec64 ,,
  field "serial" c_uint ,,
  fin).

Definition struct_audit_names : ctype := CStruct "audit_names" (
  field "list" struct_list_head ,,
  field "name" (CPtr "struct filename") ,,
  field "name_len" c_int ,,
  field "hidden" td_bool ,,
  field "ino" td_u64 ,,
  field "dev" td_dev_t ,,
  field "mode" td_umode_t ,,
  field "uid" td_kuid_t ,,
  field "gid" td_kgid_t ,,
  field "rdev" td_dev_t ,,
  field "oprop" struct_lsm_prop ,,
  field "fcap" struct_audit_cap_data ,,
  field "fcap_ver" c_uint ,,
  field "type" c_uchar ,,
  field "should_free" td_bool ,,
  fin).

Definition struct_mq_attr : ctype := CStruct "mq_attr" (
  field "mq_flags" td___kernel_long_t ,,
  field "mq_maxmsg" td___kernel_long_t ,,
  field "mq_msgsize" td___kernel_long_t ,,
  field "mq_curmsgs" td___kernel_long_t ,,
  field "__reserved" (CArr td___kernel_long_t 4) ,,
  fin).

Definition struct_open_how : ctype := CStruct "open_how" (
  field "flags" td___u64 ,,
  field "mode" td___u64 ,,
  field "resolve" td___u64 ,,
  fin).

Definition struct_audit_proctitle : ctype := CStruct "audit_proctitle" (
  field "len" c_int ,,
  field "value" (CPtr "char") ,,
  fin).

Definition struct_audit_context : ctype := CStruct "audit_context" (
  field "dummy" c_int ,,
  field "context" (CEnum "" [("AUDIT_CTX_UNUSED", 0); ("AUDIT_CTX_SYSCALL", 1); ("AUDIT_CTX_URING", 2)]) ,,
  field "state" enum_audit_state ,,
  field "current_state" enum_audit_state ,,
  field "stamp" struct_audit_stamp ,,
  field "major" c_int ,,
  field "uring_op" c_int ,,
  field "argv" (CArr c_ulong 4) ,,
  field "return_code" c_long ,,
  field "prio" td_u64 ,,
  field "return_valid" c_int ,,
  field "preallocated_names" (CArr struct_audit_names 5) ,,
  field "name_count" c_int ,,
  field "names_list" struct_list_head ,,
  field "filterkey" (CPtr "char") ,,
  field "pwd" struct_path ,,
  field "aux" (CPtr "struct audit_aux_data") ,,
  field "aux_pids" (CPtr "struct audit_aux_data") ,,
  field "sockaddr" (CPtr "struct __kernel_sockaddr_storage") ,,
  field "sockaddr_len" td_size_t ,,
  field "ppid" td_pid_t ,,
  field "uid" td_kuid_t ,,
  field "euid" td_kuid_t ,,
  field "suid" td_kuid_t ,,
  field "fsuid" td_kuid_t ,,
  field "gid" td_kgid_t ,,
  field "egid" td_kgid_t ,,
  field "sgid" td_kgid_t ,,
  field "fsgid" td_kgid_t ,,
  field "personality" c_ulong ,,
  field "arch" c_int ,,
  field "target_pid" td_pid_t ,,
  field "target_auid" td_kuid_t ,,
  field "target_uid" td_kuid_t ,,
  field "target_sessionid" c_uint ,,
  field "target_ref" struct_lsm_prop ,,
  field "target_comm" (CArr c_char 16) ,,
  field "trees" (CPtr "struct audit_tree_refs") ,,
  field "first_trees" (CPtr "struct audit_tree_refs") ,,
  field "killed_trees" struct_list_head ,,
  field "tree_count" c_int ,,
  field "type" c_int ,,
  anon (CUnion "" (
    field "socketcall" (CStruct "" (
      field "nargs" c_int ,,
      field "args" (CArr c_long 6) ,,
      fin)) ,,
    field "ipc" (CStruct "" (
      field "uid" td_kuid_t ,,
      field "gid" td_kgid_t ,,
      field "mode" td_umode_t ,,
      field "oprop" struct_lsm_prop ,,
      field "has_perm" c_int ,,
      field "perm_uid" td_uid_t ,,
      field "perm_gid" td_gid_t ,,
      field "perm_mode" td_umode_t ,,
      field "qbytes" c_ulong ,,
      fin)) ,,
    field "mq_getsetattr" (CStruct "" (
      field "mqdes" td_mqd_t ,,
      field "mqstat" struct_mq_attr ,,
      fin)) ,,
    field "mq_notify" (CStruct "" (
      field "mqdes" td_mqd_t ,,
      field "sigev_signo" c_int ,,
      fin)) ,,
    field "mq_sendrecv" (CStruct "" (
      field "mqdes" td_mqd_t ,,
      field "msg_len" td_size_t ,,
      field "msg_prio" c_uint ,,
      field "abs_timeout" struct_timespec64 ,,
      fin)) ,,
    field "mq_open" (CStruct "" (
      field "oflag" c_int ,,
      field "mode" td_umode_t ,,
      field "attr" struct_mq_attr ,,
      fin)) ,,
    field "capset" (CStruct "" (
      field "pid" td_pid_t ,,
      field "cap" struct_audit_cap_data ,,
      fin)) ,,
    field "mmap" (CStruct "" (
      field "fd" c_int ,,
      field "flags" c_int ,,
      fin)) ,,
    field "openat2" struct_open_how ,,
    field "execve" (CStruct "" (
      field "argc" c_int ,,
      fin)) ,,
    field "module" (CStruct "" (
      field "name" (CPtr "char") ,,
      fin)) ,,
    field "time" (CStruct "" (
      field "ntp_data" struct_audit_ntp_data ,,
      field "tk_injoffset" struct_timespec64 ,,
      fin)) ,,
    fin)) ,,
  field "fds" (CArr c_int 2) ,,
  field "proctitle" struct_audit_proctitle ,,
  fin).

Definition struct_bio_list : ctype := CStruct "bio_list" (
  field "head" (CPtr "struct bio") ,,
  field "tail" (CPtr "struct bio") ,,
  fin).

Definition struct_mempool : ctype := CStruct "mempool" (
  field "lock" td_spinlock_t ,,
  field "min_nr" c_int ,,
  field "curr_nr" c_int ,,
  field "elements" (CPtr "void *") ,,
  field "pool_data" (CPtr "void") ,,
  field "alloc" (CPtr "mempool_alloc_t") ,,
  field "free" (CPtr "mempool_free_t") ,,
  field "wait" td_wait_queue_head_t ,,
  fin).

Definition td_mempool_t : ctype := struct_mempool.

Definition struct_bio_set : ctype := CStruct "bio_set" (
  field "bio_slab" (CPtr "struct kmem_cache") ,,
  field "front_pad" c_uint ,,
  field "cache" (CPtr "struct bio_alloc_cache") ,,
  field "bio_pool" td_mempool_t ,,
  field "bvec_pool" td_mempool_t ,,
  field "back_pad" c_uint ,,
  field "rescue_lock" td_spinlock_t ,,
  field "rescue_list" struct_bio_list ,,
  field "rescue_work" struct_work_struct ,,
  field "rescue_workqueue" (CPtr "struct workqueue_struct") ,,
  field "cpuhp_dead" struct_hlist_node ,,
  fin).

Definition struct_lockdep_map : ctype := CStruct "lockdep_map" (
  fin).

Definition struct_rq_list : ctype := CStruct "rq_list" (
  field "head" (CPtr "struct request") ,,
  field "tail" (CPtr "struct request") ,,
  fin).

Definition struct_blk_plug : ctype := CStruct "blk_plug" (
  field "mq_list" struct_rq_list ,,
  field "cached_rqs" struct_rq_list ,,
  field "cur_ktime" td_u64 ,,
  field "nr_ios" c_ushort ,,
  field "rq_count" c_ushort ,,
  field "multiple_queues" td_bool ,,
  field "has_elevator" td_bool ,,
  field "cb_list" struct_list_head ,,
  fin).

Definition struct_rcuwait : ctype := CStruct "rcuwait" (
  field "task" (CPtr "struct task_struct") ,,
  fin).

Definition struct_irq_work : ctype := CStruct "irq_work" (
  field "node" struct___call_single_node ,,
  field "func" (CPtr "void ()") ,,
  field "irqwait" struct_rcuwait ,,
  fin).

Definition struct_bpf_run_ctx : ctype := CStruct "bpf_run_ctx" (
  fin).

Definition struct_bpf_nh_params : ctype := CStruct "bpf_nh_params" (
  field "nh_family" td_u32 ,,
  anon (CUnion "" (
    field "ipv4_nh" td_u32 ,,
    field "ipv6_nh" struct_in6_addr ,,
    fin)) ,,
  fin).

Definition struct_bpf_redirect_info : ctype := CStruct "bpf_redirect_info" (
  field "tgt_index" td_u64 ,,
  field "tgt_value" (CPtr "void") ,,
  field "map" (CPtr "struct bpf_map") ,,
  field "flags" td_u32 ,,
  field "map_id" td_u32 ,,
  field "map_type" enum_bpf_map_type ,,
  field "nh" struct_bpf_nh_params ,,
  field "kern_flags" td_u32 ,,
  fin).

Definition struct_bpf_net_context : ctype := CStruct "bpf_net_context" (
  field "ri" struct_bpf_redirect_info ,,
  field "cpu_map_flush_list" struct_list_head ,,
  field "dev_map_flush_list" struct_list_head ,,
  field "xskmap_map_flush_list" struct_list_head ,,
  fin).

Definition struct_capture_control : ctype := CStruct "capture_control" (
  field "cc" (CPtr "struct compact_control") ,,
  field "page" (CPtr "struct page") ,,
  fin).

Definition struct_cfs_bandwidth : ctype := CStruct "cfs_bandwidth" (
  field "lock" td_raw_spinlock_t ,,
  field "period" td_ktime_t ,,
  field "quota" td_u64 ,,
  field "runtime" td_u64 ,,
  field "burst" td_u64 ,,
  field "runtime_snap" td_u64 ,,
  field "hierarchical_quota" td_s64 ,,
  field "idle" td_u8 ,,
  field "period_active" td_u8 ,,
  field "slack_started" td_u8 ,,
  field "period_timer" struct_hrtimer ,,
  field "slack_timer" struct_hrtimer ,,
  field "throttled_cfs_rq" struct_list_head ,,
  field "nr_periods" c_int ,,
  field "nr_throttled" c_int ,,
  field "nr_burst" c_int ,,
  field "throttled_time" td_u64 ,,
  field "burst_time" td_u64 ,,
  fin).

Definition struct_compat_robust_list : ctype := CStruct "compat_robust_list" (
  field "next" td_compat_uptr_t ,,
  fin).

Definition struct_compat_robust_list_head : ctype := CStruct "compat_robust_list_head" (
  field "list" struct_compat_robust_list ,,
  field "futex_offset" td_compat_long_t ,,
  field "list_op_pending" td_compat_uptr_t ,,
  fin).

Definition struct_kernel_siginfo : ctype := CStruct "kernel_siginfo" (
  anon (CStruct "" (
    field "si_signo" c_int ,,
    field "si_errno" c_int ,,
    field "si_code" c_int ,,
    field "_sifields" union___sifields ,,
    fin)) ,,
  fin).

Definition td_kernel_siginfo_t : ctype := struct_kernel_siginfo.

Definition struct_cpu_itimer : ctype := CStruct "cpu_itimer" (
  field "expires" td_u64 ,,
  field "incr" td_u64 ,,
  fin).

Definition struct_css_set : ctype := CStruct "css_set" (
  field "subsys" (CArr (CPtr "struct cgroup_subsys_state") 16) ,,
  field "refcount" td_refcount_t ,,
  field "dom_cset" (CPtr "struct css_set") ,,
  field "dfl_cgrp" (CPtr "struct cgroup") ,,
  field "nr_tasks" c_int ,,
  field "tasks" struct_list_head ,,
  field "mg_tasks" struct_list_head ,,
  field "dying_tasks" struct_list_head ,,
  field "task_iters" struct_list_head ,,
  field "e_cset_node" (CArr struct_list_head 16) ,,
  field "threaded_csets" struct_list_head ,,
  field "threaded_csets_node" struct_list_head ,,
  field "hlist" struct_hlist_node ,,
  field "cgrp_links" struct_list_head ,,
  field "mg_src_preload_node" struct_list_head ,,
  field "mg_dst_preload_node" struct_list_head ,,
  field "mg_node" struct_list_head ,,
  field "mg_src_cgrp" (CPtr "struct cgroup") ,,
  field "mg_dst_cgrp" (CPtr "struct cgroup") ,,
  field "mg_dst_cset" (CPtr "struct css_set") ,,
  field "dead" td_bool ,,
  field "callback_head" struct_callback_head ,,
  fin).

Definition struct_delayed_call : ctype := CStruct "delayed_call" (
  field "fn" (CPtr "void ()") ,,
  field "arg" (CPtr "void") ,,
  fin).

Definition struct_qstr : ctype := CStruct "qstr" (
  anon (CUnion "" (
    anon (CStruct "" (
      field "hash" td_u32 ,,
      field "len" td_u32 ,,
      fin)) ,,
    field "hash_len" td_u64 ,,
    fin)) ,,
  field "name" (CPtr "unsigned char") ,,
  fin).

Definition td_kthread_work_func_t : ctype := CPtr "void ()".

Definition struct_kthread_work : ctype := CStruct "kthread_work" (
  field "node" struct_list_head ,,
  field "func" td_kthread_work_func_t ,,
  field "worker" (CPtr "struct kthread_worker") ,,
  field "canceling" c_int ,,
  fin).

Definition struct_rt_mutex_base : ctype := CStruct "rt_mutex_base" (
  field "wait_lock" td_raw_spinlock_t ,,
  field "waiters" struct_rb_root_cached ,,
  field "owner" (CPtr "struct task_struct") ,,
  fin).

Definition struct_rt_mutex : ctype := CStruct "rt_mutex" (
  field "rtmutex" struct_rt_mutex_base ,,
  fin).

Definition struct_maple_tree : ctype := CStruct "maple_tree" (
  anon (CUnion "" (
    field "ma_lock" td_spinlock_t ,,
    fin)) ,,
  field "ma_flags" c_uint ,,
  field "ma_root" (CPtr "void") ,,
  fin).

Definition struct_fdtable : ctype := CStruct "fdtable" (
  field "max_fds" c_uint ,,
  field "fd" (CPtr "struct file *") ,,
  field "close_on_exec" (CPtr "long unsigned int") ,,
  field "open_fds" (CPtr "long unsigned int") ,,
  field "full_fds_bits" (CPtr "long unsigned int") ,,
  field "rcu" struct_callback_head ,,
  fin).

Definition struct_files_struct : ctype := CStruct "files_struct" (
  field "count" td_atomic_t ,,
  field "resize_in_progress" td_bool ,,
  field "resize_wait" td_wait_queue_head_t ,,
  field "fdt" (CPtr "struct fdtable") ,,
  field "fdtab" struct_fdtable ,,
  pad c_long 64 ,,
  pad c_long 64 ,,
  pad c_long 64 ,,
  pad c_long 64 ,,
  field "file_lock" td_spinlock_t ,,
  field "next_fd" c_uint ,,
  field "close_on_exec_init" (CArr c_ulong 1) ,,
  field "open_fds_init" (CArr c_ulong 1) ,,
  field "full_fds_bits_init" (CArr c_ulong 1) ,,
  field "fd_array" (CArr (CPtr "struct file") 64) ,,
  pad c_long 64 ,,
  pad c_long 64 ,,
  pad c_long 64 ,,
  pad c_long 64 ,,
  fin).

Definition struct_fs_struct : ctype := CStruct "fs_struct" (
  field "users" c_int ,,
  field "seq" td_seqlock_t ,,
  field "umask" c_int ,,
  field "in_exec" c_int ,,
  field "root" struct_path ,,
  field "pwd" struct_path ,,
  fin).

Definition union_futex_key : ctype := CUnion "futex_key" (
  field "shared" (CStruct "" (
    field "i_seq" td_u64 ,,
    field "pgoff" c_ulong ,,
    field "offset" c_uint ,,
    fin)) ,,
  field "private" (CStruct "" (
    anon (CUnion "" (
      field "mm" (CPtr "struct mm_struct") ,,
      field "__tmp" td_u64 ,,
      fin)) ,,
    field "address" c_ulong ,,
    field "offset" c_uint ,,
    fin)) ,,
  field "both" (CStruct "" (
    field "ptr" td_u64 ,,
    field "word" c_ulong ,,
    field "offset" c_uint ,,
    field "node" c_uint ,,
    fin)) ,,
  fin).

Definition struct_futex_pi_state : ctype := CStruct "futex_pi_state" (
  field "list" struct_list_head ,,
  field "pi_mutex" struct_rt_mutex_base ,,
  field "owner" (CPtr "struct task_struct") ,,
  field "refcount" td_refcount_t ,,
  field "key" union_futex_key ,,
  fin).

Definition struct_gendisk : ctype := CStruct "gendisk" (
  field "major" c_int ,,
  field "first_minor" c_int ,,
  field "minors" c_int ,,
  field "disk_name" (CArr c_char 32) ,,
  field "events" c_ushort ,,
  field "event_flags" c_ushort ,,
  field "part_tbl" struct_xarray ,,
  field "part0" (CPtr "struct block_device") ,,
  field "fops" (CPtr "struct block_device_operations") ,,
  field "queue" (CPtr "struct request_queue") ,,
  field "private_data" (CPtr "void") ,,
  field "bio_split" struct_bio_set ,,
  field "flags" c_int ,,
  field "state" c_ulong ,,
  field "open_mutex" struct_mutex ,,
  field "open_partitions" c_uint ,,
  field "bdi" (CPtr "struct backing_dev_info") ,,
  field "queue_kobj" struct_kobject ,,
  field "slave_dir" (CPtr "struct kobject") ,,
  field "slave_bdevs" struct_list_head ,,
  field "random" (CPtr "struct timer_rand_state") ,,
  field "ev" (CPtr "struct disk_events") ,,
  field "nr_zones" c_uint ,,
  field "zone_capacity" c_uint ,,
  field "last_zone_capacity" c_uint ,,
  field "zones_cond" (CPtr "u8") ,,
  field "zone_wplugs_hash_bits" c_uint ,,
  field "nr_zone_wplugs" td_atomic_t ,,
  field "zone_wplugs_hash_lock" td_spinlock_t ,,
  field "zone_wplugs_pool" (CPtr "struct mempool") ,,
  field "zone_wplugs_hash" (CPtr "struct hlist_head") ,,
  field "zone_wplugs_wq" (CPtr "struct workqueue_struct") ,,
  field "zone_wplugs_list_lock" td_spinlock_t ,,
  field "zone_wplugs_list" struct_list_head ,,
  field "zone_wplugs_worker" (CPtr "struct task_struct") ,,
  field "zone_wplugs_worker_bio_done" struct_completion ,,
  field "cdi" (CPtr "struct cdrom_device_info") ,,
  field "node_id" c_int ,,
  field "bb" (CPtr "struct badblocks") ,,
  field "lockdep_map" struct_lockdep_map ,,
  field "diskseq" td_u64 ,,
  field "open_mode" td_blk_mode_t ,,
  field "ia_ranges" (CPtr "struct blk_independent_access_ranges") ,,
  field "rqos_state_mutex" struct_mutex ,,
  fin).

Definition struct_io_context : ctype := CStruct "io_context" (
  field "refcount" td_atomic_long_t ,,
  field "active_ref" td_atomic_t ,,
  field "ioprio" c_ushort ,,
  field "lock" td_spinlock_t ,,
  field "icq_tree" struct_xarray ,,
  field "icq_hint" (CPtr "struct io_cq") ,,
  field "icq_list" struct_hlist_head ,,
  field "release_work" struct_work_struct ,,
  fin).

Definition struct_io_restriction : ctype := CStruct "io_restriction" (
  field "register_op" (CArr c_ulong 1) ,,
  field "sqe_op" (CArr c_ulong 2) ,,
  field "bpf_filters" (CPtr "struct io_bpf_filters") ,,
  field "bpf_filters_cow" td_bool ,,
  field "sqe_flags_allowed" td_u8 ,,
  field "sqe_flags_required" td_u8 ,,
  field "op_registered" td_bool ,,
  field "reg_registered" td_bool ,,
  fin).

Definition struct_io_uring_task : ctype := CStruct "io_uring_task" (
  field "cached_refs" c_int ,,
  field "last" (CPtr "struct io_ring_ctx") ,,
  field "task" (CPtr "struct task_struct") ,,
  field "io_wq" (CPtr "struct io_wq") ,,
  field "registered_rings" (CArr (CPtr "struct file") 16) ,,
  field "xa" struct_xarray ,,
  field "wait" struct_wait_queue_head ,,
  field "in_cancel" td_atomic_t ,,
  field "inflight_tracked" td_atomic_t ,,
  field "inflight" struct_percpu_counter ,,
  pad c_long 64 ,,
  anon (CStruct "" (
    field "task_list" struct_llist_head ,,
    field "task_work" struct_callback_head ,,
    pad c_long 64 ,,
    pad c_long 64 ,,
    pad c_long 64 ,,
    pad c_long 64 ,,
    pad c_long 64 ,,
    fin)) ,,
  fin).

Definition td___sighandler_t : ctype := CPtr "__signalfn_t".

Definition td___sigrestore_t : ctype := CPtr "__restorefn_t".

Definition struct_sigaction : ctype := CStruct "sigaction" (
  field "sa_handler" td___sighandler_t ,,
  field "sa_flags" c_ulong ,,
  field "sa_restorer" td___sigrestore_t ,,
  field "sa_mask" td_sigset_t ,,
  fin).

Definition struct_k_sigaction : ctype := CStruct "k_sigaction" (
  field "sa" struct_sigaction ,,
  fin).

Definition struct_keyring_index_key : ctype := CStruct "keyring_index_key" (
  field "hash" c_ulong ,,
  anon (CUnion "" (
    anon (CStruct "" (
      field "desc_len" td_u16 ,,
      field "desc" (CArr c_char 6) ,,
      fin)) ,,
    field "x" c_ulong ,,
    fin)) ,,
  field "type" (CPtr "struct key_type") ,,
  field "domain_tag" (CPtr "struct key_tag") ,,
  field "description" (CPtr "char") ,,
  fin).

Definition union_key_payload : ctype := CUnion "key_payload" (
  field "rcu_data0" (CPtr "void") ,,
  field "data" (CArr (CPtr "void") 4) ,,
  fin).

Definition struct_key : ctype := CStruct "key" (
  field "usage" td_refcount_t ,,
  field "serial" td_key_serial_t ,,
  anon (CUnion "" (
    field "graveyard_link" struct_list_head ,,
    field "serial_node" struct_rb_node ,,
    fin)) ,,
  field "sem" struct_rw_semaphore ,,
  field "user" (CPtr "struct key_user") ,,
  field "security" (CPtr "void") ,,
  anon (CUnion "" (
    field "expiry" td_time64_t ,,
    field "revoked_at" td_time64_t ,,
    fin)) ,,
  field "last_used_at" td_time64_t ,,
  field "uid" td_kuid_t ,,
  field "gid" td_kgid_t ,,
  field "perm" td_key_perm_t ,,
  field "quotalen" c_ushort ,,
  field "datalen" c_ushort ,,
  field "state" c_short ,,
  field "flags" c_ulong ,,
  anon (CUnion "" (
    field "index_key" struct_keyring_index_key ,,
    anon (CStruct "" (
      field "hash" c_ulong ,,
      field "len_desc" c_ulong ,,
      field "type" (CPtr "struct key_type") ,,
      field "domain_tag" (CPtr "struct key_tag") ,,
      field "description" (CPtr "char") ,,
      fin)) ,,
    fin)) ,,
  anon (CUnion "" (
    field "payload" union_key_payload ,,
    anon (CStruct "" (
      field "name_link" struct_list_head ,,
      field "keys" struct_assoc_array ,,
      fin)) ,,
    fin)) ,,
  field "restrict_link" (CPtr "struct key_restriction") ,,
  fin).

Definition struct_mempolicy : ctype := CStruct "mempolicy" (
  field "refcnt" td_atomic_t ,,
  field "mode" c_ushort ,,
  field "flags" c_ushort ,,
  field "nodes" td_nodemask_t ,,
  field "home_node" c_int ,,
  field "w" (CUnion "" (
    field "cpuset_mems_allowed" td_nodemask_t ,,
    field "user_nodemask" td_nodemask_t ,,
    fin)) ,,
  field "rcu" struct_callback_head ,,
  fin).

Definition struct_mm_mm_cid : ctype := CStruct "mm_mm_cid" (
  field "pcpu" (CPtr "struct mm_cid_pcpu") ,,
  field "mode" c_uint ,,
  field "max_cids" c_uint ,,
  field "irq_work" struct_irq_work ,,
  field "work" struct_work_struct ,,
  field "lock" td_raw_spinlock_t ,,
  field "mutex" struct_mutex ,,
  field "user_list" struct_hlist_head ,,
  field "nr_cpus_allowed" c_uint ,,
  field "users" c_uint ,,
  field "pcpu_thrs" c_uint ,,
  field "update_deferred" c_uint ,,
  pad c_long 64 ,,
  pad c_long 64 ,,
  pad c_long 64 ,,
  pad c_long 64 ,,
  pad c_long 64 ,,
  pad c_long 64 ,,
  pad c_long 64 ,,
  fin).

Definition struct_uprobes_state : ctype := CStruct "uprobes_state" (
  field "xol_area" (CPtr "struct xol_area") ,,
  field "head_tramps" struct_hlist_head ,,
  fin).

Definition struct_mm_struct : ctype := CStruct "mm_struct" (
  anon (CStruct "" (
    anon (CStruct "" (
      field "mm_count" td_atomic_t ,,
      pad c_long 64 ,,
      pad c_long 64 ,,
      pad c_long 64 ,,
      pad c_long 64 ,,
      pad c_long 64 ,,
      pad c_long 64 ,,
      pad c_long 64 ,,
      fin)) ,,
    field "mm_mt" struct_maple_tree ,,
    field "mmap_base" c_ulong ,,
    field "mmap_legacy_base" c_ulong ,,
    field "mmap_compat_base" c_ulong ,,
    field "mmap_compat_legacy_base" c_ulong ,,
    field "task_size" c_ulong ,,
    field "pgd" (CPtr "pgd_t") ,,
    field "membarrier_state" td_atomic_t ,,
    field "mm_users" td_atomic_t ,,
    pad c_long 64 ,,
    pad c_long 64 ,,
    pad c_long 64 ,,
    pad c_long 64 ,,
    pad c_long 64 ,,
    pad c_long 64 ,,
    pad c_long 64 ,,
    field "mm_cid" struct_mm_mm_cid ,,
    field "pgtables_bytes" td_atomic_long_t ,,
    field "map_count" c_int ,,
    field "page_table_lock" td_spinlock_t ,,
    field "mmap_lock" struct_rw_semaphore ,,
    field "mmlist" struct_list_head ,,
    field "vma_writer_wait" struct_rcuwait ,,
    field "mm_lock_seq" td_seqcount_t ,,
    field "futex_hash_lock" struct_mutex ,,
    field "futex_phash" (CPtr "struct futex_private_hash") ,,
    field "futex_phash_new" (CPtr "struct futex_private_hash") ,,
    field "futex_batches" c_ulong ,,
    field "futex_rcu" struct_callback_head ,,
    field "futex_atomic" td_atomic_long_t ,,
    field "futex_ref" (CPtr "unsigned int") ,,
    field "hiwater_rss" c_ulong ,,
    field "hiwater_vm" c_ulong ,,
    field "total_vm" c_ulong ,,
    field "locked_vm" c_ulong ,,
    field "pinned_vm" td_atomic64_t ,,
    field "data_vm" c_ulong ,,
    field "exec_vm" c_ulong ,,
    field "stack_vm" c_ulong ,,
    anon (CUnion "" (
      field "def_flags" td_vm_flags_t ,,
      field "def_vma_flags" td_vma_flags_t ,,
      fin)) ,,
    field "write_protect_seq" td_seqcount_t ,,
    field "arg_lock" td_spinlock_t ,,
    field "start_code" c_ulong ,,
    field "end_code" c_ulong ,,
    field "start_data" c_ulong ,,
    field "end_data" c_ulong ,,
    field "start_brk" c_ulong ,,
    field "brk" c_ulong ,,
    field "start_stack" c_ulong ,,
    field "arg_start" c_ulong ,,
    field "arg_end" c_ulong ,,
    field "env_start" c_ulong ,,
    field "env_end" c_ulong ,,
    field "saved_auxv" (CArr c_ulong 56) ,,
    field "rss_stat" (CArr struct_percpu_counter 4) ,,
    field "binfmt" (CPtr "struct linux_binfmt") ,,
    field "context" td_mm_context_t ,,
    field "flags" td_mm_flags_t ,,
    field "ioctx_lock" td_spinlock_t ,,
    field "ioctx_table" (CPtr "struct kioctx_table") ,,
    field "owner" (CPtr "struct task_struct") ,,
    field "user_ns" (CPtr "struct user_namespace") ,,
    field "exe_file" (CPtr "struct file") ,,
    field "notifier_subscriptions" (CPtr "struct mmu_notifier_subscriptions") ,,
    field "numa_next_scan" c_ulong ,,
    field "numa_scan_offset" c_ulong ,,
    field "numa_scan_seq" c_int ,,
    field "tlb_flush_pending" td_atomic_t ,,
    field "tlb_flush_batched" td_atomic_t ,,
    field "uprobes_state" struct_uprobes_state ,,
    field "hugetlb_usage" td_atomic_long_t ,,
    field "async_put_work" struct_work_struct ,,
    field "iommu_mm" (CPtr "struct iommu_mm_data") ,,
    field "ksm_merging_pages" c_ulong ,,
    field "ksm_rmap_items" c_ulong ,,
    field "ksm_zero_pages" td_atomic_long_t ,,
    field "lru_gen" (CStruct "" (
      field "list" struct_list_head ,,
      field "bitmap" c_ulong ,,
      field "memcg" (CPtr "struct mem_cgroup") ,,
      fin)) ,,
    field "mm_id" td_mm_id_t ,,
    pad c_long 64 ,,
    pad c_long 64 ,,
    pad c_long 64 ,,
    pad c_long 64 ,,
    pad c_long 64 ,,
    pad c_long 64 ,,
    pad c_long 64 ,,
    fin)) ,,
  field "flexible_array" (CArr c_char 0) ,,
  fin).

Definition struct_saved : ctype := CStruct "saved" (
  field "link" struct_path ,,
  field "done" struct_delayed_call ,,
  field "name" (CPtr "char") ,,
  field "seq" c_uint ,,
  fin).

Definition struct_nameidata : ctype := CStruct "nameidata" (
  field "path" struct_path ,,
  field "last" struct_qstr ,,
  field "root" struct_path ,,
  field "inode" (CPtr "struct inode") ,,
  field "flags" c_uint ,,
  field "state" c_uint ,,
  field "seq" c_uint ,,
  field "next_seq" c_uint ,,
  field "m_seq" c_uint ,,
  field "r_seq" c_uint ,,
  field "last_type" c_int ,,
  field "depth" c_uint ,,
  field "total_link_count" c_int ,,
  field "stack" (CPtr "struct saved") ,,
  field "internal" (CArr struct_saved 2) ,,
  field "name" (CPtr "struct filename") ,,
  field "pathname" (CPtr "char") ,,
  field "saved" (CPtr "struct nameidata") ,,
  field "root_seq" c_uint ,,
  field "dfd" c_int ,,
  field "dir_vfsuid" td_vfsuid_t ,,
  field "dir_mode" td_umode_t ,,
  fin).

Definition struct_nsproxy : ctype := CStruct "nsproxy" (
  field "count" td_refcount_t ,,
  field "uts_ns" (CPtr "struct uts_namespace") ,,
  field "ipc_ns" (CPtr "struct ipc_namespace") ,,
  field "mnt_ns" (CPtr "struct mnt_namespace") ,,
  field "pid_ns_for_children" (CPtr "struct pid_namespace") ,,
  field "net_ns" (CPtr "struct net") ,,
  field "time_ns" (CPtr "struct time_namespace") ,,
  field "time_ns_for_children" (CPtr "struct time_namespace") ,,
  field "cgroup_ns" (CPtr "struct cgroup_namespace") ,,
  fin).

Definition struct_numa_group : ctype := CStruct "numa_group" (
  field "refcount" td_refcount_t ,,
  field "lock" td_spinlock_t ,,
  field "nr_tasks" c_int ,,
  field "gid" td_pid_t ,,
  field "active_nodes" c_int ,,
  field "rcu" struct_callback_head ,,
  field "total_faults" c_ulong ,,
  field "max_faults_cpu" c_ulong ,,
  field "faults" (CArr c_ulong 0) ,,
  fin).

Definition struct_obj_cgroup : ctype := CStruct "obj_cgroup" (
  field "refcnt" struct_percpu_ref ,,
  field "memcg" (CPtr "struct mem_cgroup") ,,
  field "nr_charged_bytes" td_atomic_t ,,
  anon (CUnion "" (
    field "list" struct_list_head ,,
    field "rcu" struct_callback_head ,,
    fin)) ,,
  field "is_root" td_bool ,,
  fin).

Definition struct_pacct_struct : ctype := CStruct "pacct_struct" (
  field "ac_flag" c_int ,,
  field "ac_exitcode" c_long ,,
  field "ac_mem" c_ulong ,,
  field "ac_utime" td_u64 ,,
  field "ac_stime" td_u64 ,,
  field "ac_minflt" c_ulong ,,
  field "ac_majflt" c_ulong ,,
  fin).

Definition struct_perf_time_ctx : ctype := CStruct "perf_time_ctx" (
  field "time" td_u64 ,,
  field "stamp" td_u64 ,,
  field "offset" td_u64 ,,
  fin).

Definition struct_perf_event_groups : ctype := CStruct "perf_event_groups" (
  field "tree" struct_rb_root ,,
  field "index" td_u64 ,,
  fin).

Definition struct_perf_event_context : ctype := CStruct "perf_event_context" (
  field "lock" td_raw_spinlock_t ,,
  field "mutex" struct_mutex ,,
  field "pmu_ctx_list" struct_list_head ,,
  field "pinned_groups" struct_perf_event_groups ,,
  field "flexible_groups" struct_perf_event_groups ,,
  field "event_list" struct_list_head ,,
  field "nr_events" c_int ,,
  field "nr_user" c_int ,,
  field "is_active" c_int ,,
  field "nr_stat" c_int ,,
  field "nr_freq" c_int ,,
  field "rotate_disable" c_int ,,
  field "refcount" td_refcount_t ,,
  field "task" (CPtr "struct task_struct") ,,
  field "time" struct_perf_time_ctx ,,
  field "timeguest" struct_perf_time_ctx ,,
  field "parent_ctx" (CPtr "struct perf_event_context") ,,
  field "parent_gen" td_u64 ,,
  field "generation" td_u64 ,,
  field "pin_count" c_int ,,
  field "nr_cgroups" c_int ,,
  field "callback_head" struct_callback_head ,,
  field "nr_no_switch_fast" td_local_t ,,
  fin).

Definition struct_perf_ctx_data : ctype := CStruct "perf_ctx_data" (
  field "callback_head" struct_callback_head ,,
  field "refcount" td_refcount_t ,,
  field "global" c_int ,,
  field "ctx_cache" (CPtr "struct kmem_cache") ,,
  field "data" (CPtr "void") ,,
  fin).

Definition struct_pipe_inode_info : ctype := CStruct "pipe_inode_info" (
  field "mutex" struct_mutex ,,
  field "rd_wait" td_wait_queue_head_t ,,
  field "wr_wait" td_wait_queue_head_t ,,
  field "max_usage" c_uint ,,
  field "ring_size" c_uint ,,
  field "nr_accounted" c_uint ,,
  field "readers" c_uint ,,
  field "writers" c_uint ,,
  field "files" c_uint ,,
  field "r_counter" c_uint ,,
  field "w_counter" c_uint ,,
  field "poll_usage" td_bool ,,
  field "note_loss" td_bool ,,
  field "tmp_page" (CArr (CPtr "struct page") 2) ,,
  field "fasync_readers" (CPtr "struct fasync_struct") ,,
  field "fasync_writers" (CPtr "struct fasync_struct") ,,
  field "bufs" (CPtr "struct pipe_buffer") ,,
  field "user" (CPtr "struct user_struct") ,,
  field "watch_queue" (CPtr "struct watch_queue") ,,
  fin).

Definition struct_rcu_exp_work : ctype := CStruct "rcu_exp_work" (
  field "rew_s" c_ulong ,,
  field "rew_work" struct_kthread_work ,,
  fin).

Definition struct_rcu_node : ctype := CStruct "rcu_node" (
  field "lock" td_raw_spinlock_t ,,
  field "gp_seq" c_ulong ,,
  field "gp_seq_needed" c_ulong ,,
  field "completedqs" c_ulong ,,
  field "qsmask" c_ulong ,,
  field "rcu_gp_init_mask" c_ulong ,,
  field "qsmaskinit" c_ulong ,,
  field "qsmaskinitnext" c_ulong ,,
  field "expmask" c_ulong ,,
  field "expmaskinit" c_ulong ,,
  field "expmaskinitnext" c_ulong ,,
  field "exp_kworker" (CPtr "struct kthread_worker") ,,
  field "cbovldmask" c_ulong ,,
  field "ffmask" c_ulong ,,
  field "grpmask" c_ulong ,,
  field "grplo" c_int ,,
  field "grphi" c_int ,,
  field "grpnum" td_u8 ,,
  field "level" td_u8 ,,
  field "wait_blkd_tasks" td_bool ,,
  field "parent" (CPtr "struct rcu_node") ,,
  field "blkd_tasks" struct_list_head ,,
  field "gp_tasks" (CPtr "struct list_head") ,,
  field "exp_tasks" (CPtr "struct list_head") ,,
  field "boost_tasks" (CPtr "struct list_head") ,,
  field "boost_mtx" struct_rt_mutex ,,
  field "boost_time" c_ulong ,,
  field "kthread_mutex" struct_mutex ,,
  field "boost_kthread_task" (CPtr "struct task_struct") ,,
  field "boost_kthread_status" c_uint ,,
  field "n_boosts" c_ulong ,,
  field "nocb_gp_wq" (CArr struct_swait_queue_head 2) ,,
  field "fqslock" td_raw_spinlock_t ,,
  pad c_long 64 ,,
  pad c_long 64 ,,
  pad c_long 64 ,,
  pad c_long 64 ,,
  pad c_long 64 ,,
  pad c_long 64 ,,
  pad c_long 64 ,,
  field "exp_lock" td_spinlock_t ,,
  field "exp_seq_rq" c_ulong ,,
  field "exp_wq" (CArr td_wait_queue_head_t 4) ,,
  field "rew" struct_rcu_exp_work ,,
  field "exp_need_flush" td_bool ,,
  field "exp_poll_lock" td_raw_spinlock_t ,,
  field "exp_seq_poll_rq" c_ulong ,,
  field "exp_poll_wq" struct_work_struct ,,
  pad c_long 64 ,,
  pad c_long 64 ,,
  pad c_long 64 ,,
  pad c_long 64 ,,
  pad c_long 64 ,,
  pad c_long 64 ,,
  fin).

Definition struct_reclaim_state : ctype := CStruct "reclaim_state" (
  field "reclaimed" c_ulong ,,
  field "mm_walk" (CPtr "struct lru_gen_mm_walk") ,,
  fin).

Definition struct_robust_list : ctype := CStruct "robust_list" (
  field "next" (CPtr "struct robust_list") ,,
  fin).

Definition struct_robust_list_head : ctype := CStruct "robust_list_head" (
  field "list" struct_robust_list ,,
  field "futex_offset" c_long ,,
  field "list_op_pending" (CPtr "struct robust_list") ,,
  fin).

Definition struct_rt_waiter_node : ctype := CStruct "rt_waiter_node" (
  field "entry" struct_rb_node ,,
  field "prio" c_int ,,
  field "deadline" td_u64 ,,
  fin).

Definition struct_rt_mutex_waiter : ctype := CStruct "rt_mutex_waiter" (
  field "tree" struct_rt_waiter_node ,,
  field "pi_tree" struct_rt_waiter_node ,,
  field "task" (CPtr "struct task_struct") ,,
  field "lock" (CPtr "struct rt_mutex_base") ,,
  field "wake_state" c_uint ,,
  field "ww_ctx" (CPtr "struct ww_acquire_ctx") ,,
  fin).

Definition struct_sched_class : ctype := CStruct "sched_class" (
  field "uclamp_enabled" c_int ,,
  field "enqueue_task" (CPtr "void ()") ,,
  field "dequeue_task" (CPtr "bool ()") ,,
  field "yield_task" (CPtr "void ()") ,,
  field "yield_to_task" (CPtr "bool ()") ,,
  field "wakeup_preempt" (CPtr "void ()") ,,
  field "balance" (CPtr "int ()") ,,
  field "pick_task" (CPtr "struct task_struct * ()") ,,
  field "pick_next_task" (CPtr "struct task_struct * ()") ,,
  field "put_prev_task" (CPtr "void ()") ,,
  field "set_next_task" (CPtr "void ()") ,,
  field "select_task_rq" (CPtr "int ()") ,,
  field "migrate_task_rq" (CPtr "void ()") ,,
  field "task_woken" (CPtr "void ()") ,,
  field "set_cpus_allowed" (CPtr "void ()") ,,
  field "rq_online" (CPtr "void ()") ,,
  field "rq_offline" (CPtr "void ()") ,,
  field "find_lock_rq" (CPtr "struct rq * ()") ,,
  field "task_tick" (CPtr "void ()") ,,
  field "task_fork" (CPtr "void ()") ,,
  field "task_dead" (CPtr "void ()") ,,
  field "switching_from" (CPtr "void ()") ,,
  field "switched_from" (CPtr "void ()") ,,
  field "switching_to" (CPtr "void ()") ,,
  field "switched_to" (CPtr "void ()") ,,
  field "get_prio" (CPtr "u64 ()") ,,
  field "prio_changed" (CPtr "void ()") ,,
  field "reweight_task" (CPtr "void ()") ,,
  field "get_rr_interval" (CPtr "unsigned int ()") ,,
  field "update_curr" (CPtr "void ()") ,,
  field "task_change_group" (CPtr "void ()") ,,
  field "task_is_throttled" (CPtr "int ()") ,,
  fin).

Definition struct_scx_task_group : ctype := CStruct "scx_task_group" (
  field "flags" td_u32 ,,
  field "weight" td_u32 ,,
  field "bw_period_us" td_u64 ,,
  field "bw_quota_us" td_u64 ,,
  field "bw_burst_us" td_u64 ,,
  field "idle" td_bool ,,
  fin).

Definition struct_sighand_struct : ctype := CStruct "sighand_struct" (
  field "siglock" td_spinlock_t ,,
  field "count" td_refcount_t ,,
  field "signalfd_wqh" td_wait_queue_head_t ,,
  field "action" (CArr struct_k_sigaction 64) ,,
  fin).

Definition struct_task_cputime_atomic : ctype := CStruct "task_cputime_atomic" (
  field "utime" td_atomic64_t ,,
  field "stime" td_atomic64_t ,,
  field "sum_exec_runtime" td_atomic64_t ,,
  fin).

Definition struct_thread_group_cputimer : ctype := CStruct "thread_group_cputimer" (
  field "cputime_atomic" struct_task_cputime_atomic ,,
  fin).

Definition struct_signal_struct : ctype := CStruct "signal_struct" (
  field "sigcnt" td_refcount_t ,,
  field "live" td_atomic_t ,,
  field "nr_threads" c_int ,,
  field "quick_threads" c_int ,,
  field "thread_head" struct_list_head ,,
  field "wait_chldexit" td_wait_queue_head_t ,,
  field "curr_target" (CPtr "struct task_struct") ,,
  field "shared_pending" struct_sigpending ,,
  field "multiprocess" struct_hlist_head ,,
  field "group_exit_code" c_int ,,
  field "notify_count" c_int ,,
  field "group_exec_task" (CPtr "struct task_struct") ,,
  field "group_stop_count" c_int ,,
  field "flags" c_uint ,,
  field "core_state" (CPtr "struct core_state") ,,
  bits "is_child_subreaper" c_uint 1 ,,
  bits "has_child_subreaper" c_uint 1 ,,
  bits "autoreap" c_uint 1 ,,
  bits "timer_create_restore_ids" c_uint 1 ,,
  field "next_posix_timer_id" td_atomic_t ,,
  field "posix_timers" struct_hlist_head ,,
  field "ignored_posix_timers" struct_hlist_head ,,
  field "real_timer" struct_hrtimer ,,
  field "it_real_incr" td_ktime_t ,,
  field "it" (CArr struct_cpu_itimer 2) ,,
  field "cputimer" struct_thread_group_cputimer ,,
  field "posix_cputimers" struct_posix_cputimers ,,
  field "pids" (CArr (CPtr "struct pid") 4) ,,
  field "tick_dep_mask" td_atomic_t ,,
  field "tty_old_pgrp" (CPtr "struct pid") ,,
  field "leader" c_int ,,
  field "tty" (CPtr "struct tty_struct") ,,
  field "autogroup" (CPtr "struct autogroup") ,,
  field "stats_lock" td_seqlock_t ,,
  field "utime" td_u64 ,,
  field "stime" td_u64 ,,
  field "cutime" td_u64 ,,
  field "cstime" td_u64 ,,
  field "gtime" td_u64 ,,
  field "cgtime" td_u64 ,,
  field "prev_cputime" struct_prev_cputime ,,
  field "nvcsw" c_ulong ,,
  field "nivcsw" c_ulong ,,
  field "cnvcsw" c_ulong ,,
  field "cnivcsw" c_ulong ,,
  field "min_flt" c_ulong ,,
  field "maj_flt" c_ulong ,,
  field "cmin_flt" c_ulong ,,
  field "cmaj_flt" c_ulong ,,
  field "inblock" c_ulong ,,
  field "oublock" c_ulong ,,
  field "cinblock" c_ulong ,,
  field "coublock" c_ulong ,,
  field "maxrss" c_ulong ,,
  field "cmaxrss" c_ulong ,,
  field "ioac" struct_task_io_accounting ,,
  field "sum_sched_runtime" c_ullong ,,
  field "rlim" (CArr struct_rlimit 16) ,,
  field "pacct" struct_pacct_struct ,,
  field "stats" (CPtr "struct taskstats") ,,
  field "audit_tty" c_uint ,,
  field "tty_audit_buf" (CPtr "struct tty_audit_buf") ,,
  field "cgroup_threadgroup_rwsem" struct_rw_semaphore ,,
  field "oom_flag_origin" td_bool ,,
  field "oom_score_adj" c_short ,,
  field "oom_score_adj_min" c_short ,,
  field "oom_mm" (CPtr "struct mm_struct") ,,
  field "cred_guard_mutex" struct_mutex ,,
  field "exec_update_lock" struct_rw_semaphore ,,
  fin).

Definition struct_srcu_ctr : ctype := CStruct "srcu_ctr" (
  field "srcu_locks" td_atomic_long_t ,,
  field "srcu_unlocks" td_atomic_long_t ,,
  fin).

Definition struct_task_delay_info : ctype := CStruct "task_delay_info" (
  field "lock" td_raw_spinlock_t ,,
  field "blkio_start" td_u64 ,,
  field "blkio_delay_max" td_u64 ,,
  field "blkio_delay_min" td_u64 ,,
  field "blkio_delay" td_u64 ,,
  field "swapin_start" td_u64 ,,
  field "swapin_delay_max" td_u64 ,,
  field "swapin_delay_min" td_u64 ,,
  field "swapin_delay" td_u64 ,,
  field "blkio_count" td_u32 ,,
  field "swapin_count" td_u32 ,,
  field "freepages_start" td_u64 ,,
  field "freepages_delay_max" td_u64 ,,
  field "freepages_delay_min" td_u64 ,,
  field "freepages_delay" td_u64 ,,
  field "thrashing_start" td_u64 ,,
  field "thrashing_delay_max" td_u64 ,,
  field "thrashing_delay_min" td_u64 ,,
  field "thrashing_delay" td_u64 ,,
  field "compact_start" td_u64 ,,
  field "compact_delay_max" td_u64 ,,
  field "compact_delay_min" td_u64 ,,
  field "compact_delay" td_u64 ,,
  field "wpcopy_start" td_u64 ,,
  field "wpcopy_delay_max" td_u64 ,,
  field "wpcopy_delay_min" td_u64 ,,
  field "wpcopy_delay" td_u64 ,,
  field "irq_delay_max" td_u64 ,,
  field "irq_delay_min" td_u64 ,,
  field "irq_delay" td_u64 ,,
  field "freepages_count" td_u32 ,,
  field "thrashing_count" td_u32 ,,
  field "compact_count" td_u32 ,,
  field "wpcopy_count" td_u32 ,,
  field "irq_count" td_u32 ,,
  field "blkio_delay_max_ts" struct_timespec64 ,,
  field "swapin_delay_max_ts" struct_timespec64 ,,
  field "freepages_delay_max_ts" struct_timespec64 ,,
  field "thrashing_delay_max_ts" struct_timespec64 ,,
  field "compact_delay_max_ts" struct_timespec64 ,,
  field "wpcopy_delay_max_ts" struct_timespec64 ,,
  field "irq_delay_max_ts" struct_timespec64 ,,
  fin).

Definition struct_task_group : ctype := CStruct "task_group" (
  field "css" struct_cgroup_subsys_state ,,
  field "idle" c_int ,,
  field "se" (CPtr "struct sched_entity *") ,,
  field "cfs_rq" (CPtr "struct cfs_rq *") ,,
  field "shares" c_ulong ,,
  pad c_long 64 ,,
  pad c_long 64 ,,
  field "load_avg" td_atomic_long_t ,,
  field "scx" struct_scx_task_group ,,
  field "rcu" struct_callback_head ,,
  field "list" struct_list_head ,,
  field "parent" (CPtr "struct task_group") ,,
  field "siblings" struct_list_head ,,
  field "children" struct_list_head ,,
  field "autogroup" (CPtr "struct autogroup") ,,
  field "cfs_bandwidth" struct_cfs_bandwidth ,,
  field "uclamp_pct" (CArr c_uint 2) ,,
  field "uclamp_req" (CArr struct_uclamp_se 2) ,,
  field "uclamp" (CArr struct_uclamp_se 2) ,,
  pad c_long 64 ,,
  pad c_long 64 ,,
  pad c_long 64 ,,
  fin).

Definition struct_uprobe_task : ctype := CStruct "uprobe_task" (
  field "state" enum_uprobe_task_state ,,
  field "depth" c_uint ,,
  field "return_instances" (CPtr "struct return_instance") ,,
  field "ri_pool" (CPtr "struct return_instance") ,,
  field "ri_timer" struct_timer_list ,,
  field "ri_seqcount" td_seqcount_t ,,
  anon (CUnion "" (
    anon (CStruct "" (
      field "autask" struct_arch_uprobe_task ,,
      field "vaddr" c_ulong ,,
      fin)) ,,
    anon (CStruct "" (
      field "dup_xol_work" struct_callback_head ,,
      field "dup_xol_addr" c_ulong ,,
      fin)) ,,
    fin)) ,,
  field "active_uprobe" (CPtr "struct uprobe") ,,
  field "xol_vaddr" c_ulong ,,
  field "signal_denied" td_bool ,,
  field "auprobe" (CPtr "struct arch_uprobe") ,,
  fin).

Definition struct_vm_struct : ctype := CStruct "vm_struct" (
  anon (CUnion "" (
    field "next" (CPtr "struct vm_struct") ,,
    field "llnode" struct_llist_node ,,
    fin)) ,,
  field "addr" (CPtr "void") ,,
  field "size" c_ulong ,,
  field "flags" c_ulong ,,
  field "pages" (CPtr "struct page *") ,,
  field "page_order" c_uint ,,
  field "nr_pages" c_uint ,,
  field "phys_addr" td_phys_addr_t ,,
  field "caller" (CPtr "void") ,,
  field "requested_size" c_ulong ,,
  fin).

(** All types of this file. *)
Definition vmtaskrefs_types : list ctype := [
  enum_audit_state;
  enum_uprobe_task_state;
  td___kernel_mqd_t;
  td___kernel_timer_t;
  td_compat_long_t;
  td_int32_t;
  td_key_serial_t;
  td_mqd_t;
  td___kernel_long_t;
  td___kernel_clock_t;
  td_phys_addr_t;
  td_vm_flags_t;
  td_s16;
  td_umode_t;
  td_uint32_t;
  td___kernel_dev_t;
  td_blk_mode_t;
  td_compat_uptr_t;
  td_dev_t;
  td_key_perm_t;
  td_mm_id_t;
  td_local_t;
  td_mm_context_t;
  td_mm_flags_t;
  td_vfsuid_t;
  td_vma_flags_t;
  union_sigval;
  td_sigval_t;
  union___sifields;
  struct_kref;
  struct_rlimit;
  struct_kobject;
  struct_swait_queue_head;
  struct_completion;
  struct_audit_ntp_val;
  struct_audit_ntp_data;
  struct_codetag;
  struct_alloc_tag;
  struct_path;
  struct_arch_uprobe_task;
  struct_assoc_array;
  struct_audit_cap_data;
  struct_lsm_prop_selinux;
  struct_lsm_prop_smack;
  struct_lsm_prop_apparmor;
  struct_lsm_prop_bpf;
  struct_lsm_prop;
  struct_audit_stamp;
  struct_audit_names;
  struct_mq_attr;
  struct_open_how;
  struct_audit_proctitle;
  struct_audit_context;
  struct_bio_list;
  struct_mempool;
  td_mempool_t;
  struct_bio_set;
  struct_lockdep_map;
  struct_rq_list;
  struct_blk_plug;
  struct_rcuwait;
  struct_irq_work;
  struct_bpf_run_ctx;
  struct_bpf_nh_params;
  struct_bpf_redirect_info;
  struct_bpf_net_context;
  struct_capture_control;
  struct_cfs_bandwidth;
  struct_compat_robust_list;
  struct_compat_robust_list_head;
  struct_kernel_siginfo;
  td_kernel_siginfo_t;
  struct_cpu_itimer;
  struct_css_set;
  struct_delayed_call;
  struct_qstr;
  td_kthread_work_func_t;
  struct_kthread_work;
  struct_rt_mutex_base;
  struct_rt_mutex;
  struct_maple_tree;
  struct_fdtable;
  struct_files_struct;
  struct_fs_struct;
  union_futex_key;
  struct_futex_pi_state;
  struct_gendisk;
  struct_io_context;
  struct_io_restriction;
  struct_io_uring_task;
  td___sighandler_t;
  td___sigrestore_t;
  struct_sigaction;
  struct_k_sigaction;
  struct_keyring_index_key;
  union_key_payload;
  struct_key;
  struct_mempolicy;
  struct_mm_mm_cid;
  struct_uprobes_state;
  struct_mm_struct;
  struct_saved;
  struct_nameidata;
  struct_nsproxy;
  struct_numa_group;
  struct_obj_cgroup;
  struct_pacct_struct;
  struct_perf_time_ctx;
  struct_perf_event_groups;
  struct_perf_event_context;
  struct_perf_ctx_data;
  struct_pipe_inode_info;
  struct_rcu_exp_work;
  struct_rcu_node;
  struct_reclaim_state;
  struct_robust_list;
  struct_robust_list_head;
  struct_rt_waiter_node;
  struct_rt_mutex_waiter;
  struct_sched_class;
  struct_scx_task_group;
  struct_sighand_struct;
  struct_task_cputime_atomic;
  struct_thread_group_cputimer;
  struct_signal_struct;
  struct_srcu_ctr;
  struct_task_delay_info;
  struct_task_group;
  struct_uprobe_task;
  struct_vm_struct].
