(* ===== verification/VmTable.v ===== *)
(** * The layout of the kernel types as the compiler has it

    For each type of vmlinux.h that the other Vm files transcribe, in the order of
    [VmLayout.layout_types], what gcc says of the header itself on x86-64: sizeof and
    _Alignof, and for every member that can be named on an object of the type
    (through anonymous members as C does), its offset and size in bits: offsetof
    and sizeof of the member, and for a bit-field the bits that are set when it is
    assigned all ones.  Nothing here is computed from the transcription. *)
From stdpp Require Import base list strings.
From Stdlib Require Import ZArith.
Local Open Scope string_scope.
Local Open Scope Z_scope.

(** Size and alignment in bytes; the members with first bit and width. *)
Record abi_row := Abi { ab_size : Z; ab_align : Z; ab_members : list (string * Z * Z) }.

(** The types of VmSock.v. *)
Definition abi_vmsock : list abi_row := [
  (* enum bpf_map_type *) Abi 4 4 [];
  (* bool *) Abi 1 1 [];
  (* __s32 *) Abi 4 4 [];
  (* __s64 *) Abi 8 8 [];
  (* s64 *) Abi 8 8 [];
  (* ktime_t *) Abi 8 8 [];
  (* __u64 *) Abi 8 8 [];
  (* u64 *) Abi 8 8 [];
  (* __addrpair *) Abi 8 8 [];
  (* netdev_features_t *) Abi 8 8 [];
  (* __u16 *) Abi 2 2 [];
  (* u16 *) Abi 2 2 [];
  (* __be16 *) Abi 2 2 [];
  (* __u8 *) Abi 1 1 [];
  (* u8 *) Abi 1 1 [];
  (* __u32 *) Abi 4 4 [];
  (* u32 *) Abi 4 4 [];
  (* __be32 *) Abi 4 4 [];
  (* __kernel_uid32_t *) Abi 4 4 [];
  (* __portpair *) Abi 4 4 [];
  (* gfp_t *) Abi 4 4 [];
  (* uid_t *) Abi 4 4 [];
  (* struct list_head *) Abi 16 8 [
    ("next", 0, 64); ("prev", 64, 64)];
  (* atomic_t *) Abi 4 4 [
    ("counter", 0, 32)];
  (* struct refcount_struct *) Abi 4 4 [
    ("refs", 0, 32)];
  (* refcount_t *) Abi 4 4 [
    ("refs", 0, 32)];
  (* atomic64_t *) Abi 8 8 [
    ("counter", 0, 64)];
  (* struct qspinlock *) Abi 4 4 [
    ("val", 0, 32); ("locked", 0, 8); ("pending", 8, 8); ("locked_pending", 0, 16); ("tail", 16, 16)];
  (* arch_spinlock_t *) Abi 4 4 [
    ("val", 0, 32); ("locked", 0, 8); ("pending", 8, 8); ("locked_pending", 0, 16); ("tail", 16, 16)];
  (* struct qrwlock *) Abi 8 4 [
    ("cnts", 0, 32); ("wlocked", 0, 8); ("__lstate", 8, 24); ("wait_lock", 32, 32)];
  (* arch_rwlock_t *) Abi 8 4 [
    ("cnts", 0, 32); ("wlocked", 0, 8); ("__lstate", 8, 24); ("wait_lock", 32, 32)];
  (* struct rwlock *) Abi 8 4 [
    ("raw_lock", 0, 64)];
  (* rwlock_t *) Abi 8 4 [
    ("raw_lock", 0, 64)];
  (* struct raw_spinlock *) Abi 4 4 [
    ("raw_lock", 0, 32)];
  (* struct spinlock *) Abi 4 4 [
    ("rlock", 0, 32)];
  (* spinlock_t *) Abi 4 4 [
    ("rlock", 0, 32)];
  (* freeptr_t *) Abi 8 8 [
    ("v", 0, 64)];
  (* kuid_t *) Abi 4 4 [
    ("val", 0, 32)];
  (* netns_tracker *) Abi 0 1 [];
  (* possible_net_t *) Abi 8 8 [
    ("net", 0, 64)];
  (* struct wait_queue_head *) Abi 24 8 [
    ("lock", 0, 32); ("head", 64, 128)];
  (* wait_queue_head_t *) Abi 24 8 [
    ("lock", 0, 32); ("head", 64, 128)];
  (* socket_lock_t *) Abi 32 8 [
    ("combined", 0, 64); ("wq", 64, 192)];
  (* struct in6_addr *) Abi 16 4 [
    ("in6_u", 0, 128)];
  (* struct hlist_node *) Abi 16 8 [
    ("next", 0, 64); ("pprev", 64, 64)];
  (* struct sk_buff_list *) Abi 16 8 [
    ("next", 0, 64); ("prev", 64, 64)];
  (* struct sk_buff_head *) Abi 24 8 [
    ("next", 0, 64); ("prev", 64, 64); ("list", 0, 128); ("qlen", 128, 32); ("lock", 160, 32)];
  (* struct callback_head *) Abi 16 8 [
    ("next", 0, 64); ("func", 64, 64)];
  (* struct fred_cs *) Abi 8 8 [
    ("cs", 0, 16); ("sl", 16, 2); ("wfe", 18, 1)];
  (* struct fred_ss *) Abi 8 8 [
    ("ss", 0, 16); ("sti", 16, 1); ("swevent", 17, 1); ("nmi", 18, 1); ("vector", 32, 8); ("type", 48, 4);
    ("enclave", 56, 1); ("l", 57, 1); ("nested", 58, 1); ("insnlen", 60, 4)];
  (* struct pt_regs *) Abi 168 8 [
    ("r15", 0, 64); ("r14", 64, 64); ("r13", 128, 64); ("r12", 192, 64); ("bp", 256, 64); ("bx", 320, 64);
    ("r11", 384, 64); ("r10", 448, 64); ("r9", 512, 64); ("r8", 576, 64); ("ax", 640, 64); ("cx", 704, 64);
    ("dx", 768, 64); ("si", 832, 64); ("di", 896, 64); ("orig_ax", 960, 64); ("ip", 1024, 64); ("cs", 1088,
    16); ("csx", 1088, 64); ("fred_cs", 1088, 64); ("flags", 1152, 64); ("sp", 1216, 64); ("ss", 1280, 16);
    ("ssx", 1280, 64); ("fred_ss", 1280, 64)];
  (* struct timer_list *) Abi 40 8 [
    ("entry", 0, 128); ("expires", 128, 64); ("function", 192, 64); ("flags", 256, 32)];
  (* struct rb_root *) Abi 8 8 [
    ("rb_node", 0, 64)];
  (* struct xarray *) Abi 16 8 [
    ("xa_lock", 0, 32); ("xa_flags", 32, 32); ("xa_head", 64, 64)];
  (* struct hlist_nulls_node *) Abi 16 8 [
    ("next", 0, 64); ("pprev", 64, 64)];
  (* struct sock_common *) Abi 136 8 [
    ("skc_addrpair", 0, 64); ("skc_daddr", 0, 32); ("skc_rcv_saddr", 32, 32); ("skc_hash", 64, 32);
    ("skc_u16hashes", 64, 32); ("skc_portpair", 96, 32); ("skc_dport", 96, 16); ("skc_num", 112, 16);
    ("skc_family", 128, 16); ("skc_state", 144, 8); ("skc_reuse", 152, 4); ("skc_reuseport", 156, 1);
    ("skc_ipv6only", 157, 1); ("skc_net_refcnt", 158, 1); ("skc_bypass_prot_mem", 159, 1);
    ("skc_bound_dev_if", 160, 32); ("skc_bind_node", 192, 128); ("skc_portaddr_node", 192, 128); ("skc_prot",
    320, 64); ("skc_net", 384, 64); ("skc_v6_daddr", 448, 128); ("skc_v6_rcv_saddr", 576, 128); ("skc_cookie",
    704, 64); ("skc_flags", 768, 64); ("skc_listener", 768, 64); ("skc_tw_dr", 768, 64);
    ("skc_dontcopy_begin", 832, 0); ("skc_node", 832, 128); ("skc_nulls_node", 832, 128);
    ("skc_tx_queue_mapping", 960, 16); ("skc_rx_queue_mapping", 976, 16); ("skc_incoming_cpu", 992, 32);
    ("skc_rcv_wnd", 992, 32); ("skc_tw_rcv_nxt", 992, 32); ("skc_refcnt", 1024, 32); ("skc_dontcopy_end",
    1056, 0); ("skc_rxhash", 1056, 32); ("skc_window_clamp", 1056, 32); ("skc_tw_snd_nxt", 1056, 32)];
  (* struct page_frag *) Abi 16 8 [
    ("page", 0, 64); ("offset", 64, 32); ("size", 96, 32)];
  (* struct sock_cgroup_data *) Abi 16 8 [
    ("cgroup", 0, 64); ("classid", 64, 32); ("prioidx", 96, 16)];
  (* struct sock *) Abi 800 8 [
    ("__sk_common", 0, 1088); ("__cacheline_group_begin__sock_write_rx", 1088, 0); ("sk_drops", 1088, 32);
    ("sk_peek_off", 1120, 32); ("sk_error_queue", 1152, 192); ("sk_receive_queue", 1344, 192); ("sk_backlog",
    1536, 192); ("__cacheline_group_end__sock_write_rx", 1728, 0); ("__cacheline_group_begin__sock_read_rx",
    1728, 0); ("sk_rx_dst", 1728, 64); ("sk_rx_dst_ifindex", 1792, 32); ("sk_rx_dst_cookie", 1824, 32);
    ("sk_ll_usec", 1856, 32); ("sk_napi_id", 1888, 32); ("sk_busy_poll_budget", 1920, 16);
    ("sk_prefer_busy_poll", 1936, 8); ("sk_userlocks", 1944, 8); ("sk_rcvbuf", 1952, 32); ("sk_filter", 1984,
    64); ("sk_wq", 2048, 64); ("sk_wq_raw", 2048, 64); ("sk_data_ready", 2112, 64); ("sk_rcvtimeo", 2176, 64);
    ("sk_rcvlowat", 2240, 32); ("__cacheline_group_end__sock_read_rx", 2272, 0);
    ("__cacheline_group_begin__sock_read_rxtx", 2272, 0); ("sk_err", 2272, 32); ("sk_socket", 2304, 64);
    ("sk_memcg", 2368, 64); ("sk_policy", 2432, 128); ("__cacheline_group_end__sock_read_rxtx", 2560, 0);
    ("__cacheline_group_begin__sock_write_rxtx", 2560, 0); ("sk_lock", 2560, 256); ("sk_reserved_mem", 2816,
    32); ("sk_forward_alloc", 2848, 32); ("sk_tsflags", 2880, 32); ("__cacheline_group_end__sock_write_rxtx",
    2912, 0); ("__cacheline_group_begin__sock_write_tx", 2912, 0); ("sk_write_pending", 2912, 32);
    ("sk_omem_alloc", 2944, 32); ("sk_err_soft", 2976, 32); ("sk_wmem_queued", 3008, 32); ("sk_wmem_alloc",
    3040, 32); ("sk_tsq_flags", 3072, 64); ("sk_send_head", 3136, 64); ("tcp_rtx_queue", 3136, 64);
    ("sk_write_queue", 3200, 192); ("sk_frag", 3392, 128); ("sk_timer", 3520, 320); ("tcp_retransmit_timer",
    3520, 320); ("mptcp_retransmit_timer", 3520, 320); ("sk_pacing_rate", 3840, 64); ("sk_zckey", 3904, 32);
    ("sk_tskey", 3936, 32); ("sk_tx_queue_mapping_jiffies", 3968, 64);
    ("__cacheline_group_end__sock_write_tx", 4032, 0); ("__cacheline_group_begin__sock_read_tx", 4032, 0);
    ("sk_dst_pending_confirm", 4032, 32); ("sk_pacing_status", 4064, 32); ("sk_max_pacing_rate", 4096, 64);
    ("sk_sndtimeo", 4160, 64); ("sk_priority", 4224, 32); ("sk_mark", 4256, 32); ("sk_uid", 4288, 32);
    ("sk_protocol", 4320, 16); ("sk_type", 4336, 16); ("sk_dst_cache", 4352, 64); ("sk_route_caps", 4416, 64);
    ("sk_validate_xmit_skb", 4480, 64); ("sk_gso_type", 4544, 16); ("sk_gso_max_segs", 4560, 16);
    ("sk_gso_max_size", 4576, 32); ("sk_allocation", 4608, 32); ("sk_txhash", 4640, 32); ("sk_sndbuf", 4672,
    32); ("sk_pacing_shift", 4704, 8); ("sk_use_task_frag", 4712, 8); ("__cacheline_group_end__sock_read_tx",
    4720, 0); ("sk_gso_disabled", 4720, 1); ("sk_kern_sock", 4721, 1); ("sk_no_check_tx", 4722, 1);
    ("sk_no_check_rx", 4723, 1); ("sk_shutdown", 4728, 8); ("sk_lingertime", 4736, 64); ("sk_prot_creator",
    4800, 64); ("sk_callback_lock", 4864, 64); ("sk_ack_backlog", 4928, 32); ("sk_max_ack_backlog", 4960, 32);
    ("sk_ino", 4992, 64); ("sk_peer_lock", 5056, 32); ("sk_bind_phc", 5088, 32); ("sk_peer_pid", 5120, 64);
    ("sk_peer_cred", 5184, 64); ("sk_stamp", 5248, 64); ("sk_disconnects", 5312, 32); ("sk_txrehash", 5344,
    8); ("sk_scm_recv_flags", 5344, 8); ("sk_scm_credentials", 5344, 1); ("sk_scm_security", 5345, 1);
    ("sk_scm_pidfd", 5346, 1); ("sk_scm_rights", 5347, 1); ("sk_scm_unused", 5348, 4); ("sk_clockid", 5352,
    8); ("sk_txtime_deadline_mode", 5360, 1); ("sk_txtime_report_errors", 5361, 1); ("sk_txtime_unused", 5362,
    6); ("sk_bpf_cb_flags", 5368, 8); ("sk_user_data", 5376, 64); ("sk_security", 5440, 64); ("sk_cgrp_data",
    5504, 128); ("sk_state_change", 5632, 64); ("sk_write_space", 5696, 64); ("sk_error_report", 5760, 64);
    ("sk_backlog_rcv", 5824, 64); ("sk_destruct", 5888, 64); ("sk_reuseport_cb", 5952, 64); ("sk_bpf_storage",
    6016, 64); ("sk_drop_counters", 6080, 64); ("sk_rcu", 6144, 128); ("sk_freeptr", 6144, 64); ("ns_tracker",
    6272, 0); ("sk_user_frags", 6272, 128)];
  (* struct bpf_ringbuf_hdr *) Abi 8 4 [
    ("len", 0, 32); ("pg_off", 32, 32)]].

(** The types of VmTcp.v. *)
Definition abi_vmtcp : list abi_row := [
  (* __be64 *) Abi 8 8 [];
  (* __s16 *) Abi 2 2 [];
  (* dscp_t *) Abi 1 1 [];
  (* struct rb_node *) Abi 24 8 [
    ("__rb_parent_color", 0, 64); ("rb_right", 64, 64); ("rb_left", 128, 64)];
  (* struct rb_node_linked *) Abi 40 8 [
    ("node", 0, 192); ("prev", 192, 64); ("next", 256, 64)];
  (* struct timerqueue_linked_node *) Abi 48 8 [
    ("node", 0, 320); ("expires", 320, 64)];
  (* struct hrtimer *) Abi 80 8 [
    ("node", 0, 384); ("base", 384, 64); ("is_queued", 448, 8); ("is_rel", 456, 8); ("is_soft", 464, 8);
    ("is_hard", 472, 8); ("is_lazy", 480, 8); ("_softexpires", 512, 64); ("function", 576, 64)];
  (* struct fastopen_queue *) Abi 40 8 [
    ("rskq_rst_head", 0, 64); ("rskq_rst_tail", 64, 64); ("lock", 128, 32); ("qlen", 160, 32); ("max_qlen",
    192, 32); ("ctx", 256, 64)];
  (* struct flowi_tunnel *) Abi 8 8 [
    ("tun_id", 0, 64)];
  (* struct flowi_common *) Abi 40 8 [
    ("flowic_oif", 0, 32); ("flowic_iif", 32, 32); ("flowic_l3mdev", 64, 32); ("flowic_mark", 96, 32);
    ("flowic_dscp", 128, 8); ("flowic_scope", 136, 8); ("flowic_proto", 144, 8); ("flowic_flags", 152, 8);
    ("flowic_secid", 160, 32); ("flowic_uid", 192, 32); ("flowic_multipath_hash", 224, 32); ("flowic_tun_key",
    256, 64)];
  (* union flowi_uli *) Abi 4 4 [
    ("ports", 0, 32); ("icmpt", 0, 16); ("gre_key", 0, 32); ("mht", 0, 8)];
  (* struct flowi4 *) Abi 56 8 [
    ("__fl_common", 0, 320); ("saddr", 320, 32); ("daddr", 352, 32); ("uli", 384, 32)];
  (* struct flowi6 *) Abi 88 8 [
    ("__fl_common", 0, 320); ("daddr", 320, 128); ("saddr", 448, 128); ("flowlabel", 576, 32); ("uli", 608,
    32); ("mp_hash", 640, 32)];
  (* struct flowi *) Abi 88 8 [
    ("u", 0, 704)];
  (* struct inet6_cork *) Abi 16 8 [
    ("opt", 0, 64); ("hop_limit", 64, 8); ("tclass", 72, 8); ("dontfrag", 80, 1)];
  (* struct inet_cork *) Abi 64 8 [
    ("flags", 0, 32); ("addr", 32, 32); ("opt", 64, 64); ("fragsize", 128, 32); ("length", 160, 32); ("dst",
    192, 64); ("tx_flags", 256, 8); ("ttl", 264, 8); ("tos", 272, 16); ("priority", 288, 32); ("gso_size",
    320, 16); ("ts_opt_id", 352, 32); ("transmit_time", 384, 64); ("mark", 448, 32)];
  (* struct inet_cork_full *) Abi 168 8 [
    ("base", 0, 512); ("fl", 512, 704); ("base6", 1216, 128)];
  (* struct inet_sock *) Abi 1048 8 [
    ("sk", 0, 6400); ("pinet6", 6400, 64); ("ipv6_fl_list", 6464, 64); ("inet_flags", 6528, 64);
    ("inet_saddr", 6592, 32); ("uc_ttl", 6624, 16); ("inet_sport", 6640, 16); ("inet_opt", 6656, 64);
    ("inet_id", 6720, 32); ("tos", 6752, 8); ("min_ttl", 6760, 8); ("mc_ttl", 6768, 8); ("pmtudisc", 6776, 8);
    ("rcv_tos", 6784, 8); ("convert_csum", 6792, 8); ("uc_index", 6816, 32); ("mc_index", 6848, 32);
    ("mc_addr", 6880, 32); ("local_port_range", 6912, 32); ("mc_list", 6976, 64); ("cork", 7040, 1344)];
  (* struct request_sock_queue *) Abi 72 8 [
    ("rskq_lock", 0, 32); ("rskq_defer_accept", 32, 8); ("synflood_warned", 40, 8); ("qlen", 64, 32);
    ("young", 96, 32); ("rskq_accept_head", 128, 64); ("rskq_accept_tail", 192, 64); ("fastopenq", 256, 320)];
  (* struct inet_connection_sock *) Abi 1432 8 [
    ("icsk_inet", 0, 8384); ("icsk_accept_queue", 8384, 576); ("icsk_bind_hash", 8960, 64);
    ("icsk_bind2_hash", 9024, 64); ("icsk_delack_timer", 9088, 320); ("icsk_keepalive_timer", 9408, 320);
    ("mptcp_tout_timer", 9408, 320); ("icsk_rto", 9728, 32); ("icsk_rto_min", 9760, 32); ("icsk_rto_max",
    9792, 32); ("icsk_delack_max", 9824, 32); ("icsk_pmtu_cookie", 9856, 32); ("icsk_ca_ops", 9920, 64);
    ("icsk_af_ops", 9984, 64); ("icsk_ulp_ops", 10048, 64); ("icsk_ulp_data", 10112, 64); ("icsk_sync_mss",
    10176, 64); ("icsk_ca_state", 10240, 5); ("icsk_ca_initialized", 10245, 1); ("icsk_ca_setsockopt", 10246,
    1); ("icsk_ca_dst_locked", 10247, 1); ("icsk_retransmits", 10248, 8); ("icsk_pending", 10256, 8);
    ("icsk_backoff", 10264, 8); ("icsk_syn_retries", 10272, 8); ("icsk_probes_out", 10280, 8);
    ("icsk_ext_hdr_len", 10288, 16); ("icsk_ack", 10304, 128); ("icsk_mtup", 10432, 128);
    ("icsk_probes_tstamp", 10560, 32); ("icsk_user_timeout", 10592, 32); ("icsk_ca_priv", 10624, 832)];
  (* struct minmax_sample *) Abi 8 4 [
    ("t", 0, 32); ("v", 32, 32)];
  (* struct minmax *) Abi 24 4 [
    ("s", 0, 192)];
  (* struct tcp_options_received *) Abi 24 4 [
    ("ts_recent_stamp", 0, 32); ("ts_recent", 32, 32); ("rcv_tsval", 64, 32); ("rcv_tsecr", 96, 32);
    ("saw_tstamp", 128, 1); ("tstamp_ok", 129, 1); ("dsack", 130, 1); ("wscale_ok", 131, 1); ("sack_ok", 132,
    3); ("smc_ok", 135, 1); ("snd_wscale", 136, 4); ("rcv_wscale", 140, 4); ("accecn", 144, 6);
    ("saw_unknown", 150, 1); ("unused", 151, 1); ("num_sacks", 152, 8); ("user_mss", 160, 16); ("mss_clamp",
    176, 16)];
  (* struct tcp_rack *) Abi 24 8 [
    ("mstamp", 0, 64); ("rtt_us", 64, 32); ("end_seq", 96, 32); ("last_delivered", 128, 32); ("reo_wnd_steps",
    160, 8); ("reo_wnd_persist", 168, 5); ("dsack_seen", 173, 1); ("advanced", 174, 1)];
  (* struct tcp_sack_block *) Abi 8 4 [
    ("start_seq", 0, 32); ("end_seq", 32, 32)];
  (* struct tcp_sock *) Abi 2432 8 [
    ("inet_conn", 0, 11456); ("__cacheline_group_begin__tcp_sock_read_tx", 11456, 0); ("max_window", 11456,
    32); ("rcv_ssthresh", 11488, 32); ("reordering", 11520, 32); ("notsent_lowat", 11552, 32); ("gso_segs",
    11584, 16); ("retransmit_skb_hint", 11648, 64); ("tcp_clean_acked", 11712, 64);
    ("__cacheline_group_end__tcp_sock_read_tx", 11776, 0); ("__cacheline_group_begin__tcp_sock_read_txrx",
    11776, 0); ("tsoffset", 11776, 32); ("snd_wnd", 11808, 32); ("mss_cache", 11840, 32); ("snd_cwnd", 11872,
    32); ("prr_out", 11904, 32); ("lost_out", 11936, 32); ("sacked_out", 11968, 32); ("tcp_header_len", 12000,
    16); ("scaling_ratio", 12016, 8); ("repair", 12024, 1); ("tcp_usec_ts", 12025, 1); ("is_sack_reneg",
    12026, 1); ("is_cwnd_limited", 12027, 1); ("recvmsg_inq", 12028, 1);
    ("__cacheline_group_end__tcp_sock_read_txrx", 12032, 0); ("__cacheline_group_begin__tcp_sock_read_rx",
    12032, 0); ("copied_seq", 12032, 32); ("snd_wl1", 12064, 32); ("tlp_high_seq", 12096, 32); ("rttvar_us",
    12128, 32); ("retrans_out", 12160, 32); ("advmss", 12192, 16); ("urg_data", 12208, 16); ("lost", 12224,
    32); ("snd_ssthresh", 12256, 32); ("rtt_min", 12288, 192); ("out_of_order_queue", 12480, 64);
    ("__cacheline_group_end__tcp_sock_read_rx", 12544, 0); ("__cacheline_group_begin__tcp_sock_write_tx",
    12800, 0); ("segs_out", 12800, 32); ("data_segs_out", 12832, 32); ("bytes_sent", 12864, 64); ("snd_sml",
    12928, 32); ("chrono_type", 12960, 8); ("chrono_start", 12992, 32); ("chrono_stat", 13024, 96);
    ("write_seq", 13120, 32); ("pushed_seq", 13152, 32); ("lsndtime", 13184, 32); ("mdev_us", 13216, 32);
    ("rtt_seq", 13248, 32); ("tcp_wstamp_ns", 13312, 64); ("accecn_opt_tstamp", 13376, 64);
    ("tsorted_sent_queue", 13440, 128); ("highest_sack", 13568, 64); ("ecn_flags", 13632, 8);
    ("__cacheline_group_end__tcp_sock_write_tx", 13640, 0); ("__cacheline_group_begin__tcp_sock_write_txrx",
    13640, 0); ("nonagle", 13640, 4); ("rate_app_limited", 13644, 1); ("received_ce_pending", 13648, 4);
    ("accecn_opt_sent_w_dsack", 13652, 1); ("unused2", 13653, 3); ("accecn_minlen", 13656, 2);
    ("est_ecnfield", 13658, 2); ("accecn_opt_demand", 13660, 2); ("prev_ecnfield", 13662, 2); ("pred_flags",
    13664, 32); ("tcp_clock_cache", 13696, 64); ("tcp_mstamp", 13760, 64); ("rcv_nxt", 13824, 32); ("snd_nxt",
    13856, 32); ("snd_una", 13888, 32); ("window_clamp", 13920, 32); ("srtt_us", 13952, 32); ("packets_out",
    13984, 32); ("snd_up", 14016, 32); ("delivered", 14048, 32); ("delivered_ce", 14080, 32); ("received_ce",
    14112, 32); ("received_ecn_bytes", 14144, 96); ("app_limited", 14240, 32); ("rcv_wnd", 14272, 32);
    ("rcv_mwnd_seq", 14304, 32); ("rcv_tstamp", 14336, 32); ("rx_opt", 14368, 192);
    ("__cacheline_group_end__tcp_sock_write_txrx", 14560, 0); ("__cacheline_group_begin__tcp_sock_write_rx",
    14592, 0); ("bytes_received", 14592, 64); ("segs_in", 14656, 32); ("data_segs_in", 14688, 32); ("rcv_wup",
    14720, 32); ("max_packets_out", 14752, 32); ("cwnd_usage_seq", 14784, 32); ("rate_delivered", 14816, 32);
    ("rate_interval_us", 14848, 32); ("rcv_rtt_last_tsecr", 14880, 32); ("delivered_ecn_bytes", 14912, 96);
    ("pkts_acked_ewma", 15008, 16); ("first_tx_mstamp", 15040, 64); ("delivered_mstamp", 15104, 64);
    ("bytes_acked", 15168, 64); ("rcv_rtt_est", 15232, 128); ("rcvq_space", 15360, 128);
    ("__cacheline_group_end__tcp_sock_write_rx", 15488, 0); ("dsack_dups", 15488, 32);
    ("compressed_ack_rcv_nxt", 15520, 32); ("tsq_node", 15552, 128); ("rack", 15680, 192); ("compressed_ack",
    15872, 8); ("dup_ack_counter", 15880, 2); ("tlp_retrans", 15882, 1); ("syn_ect_snt", 15883, 2);
    ("syn_ect_rcv", 15885, 2); ("thin_lto", 15887, 1); ("fastopen_connect", 15888, 1); ("fastopen_no_cookie",
    15889, 1); ("fastopen_client_fail", 15890, 2); ("frto", 15892, 1); ("repair_queue", 15896, 8);
    ("save_syn", 15904, 2); ("syn_data", 15906, 1); ("syn_fastopen", 15907, 1); ("syn_fastopen_exp", 15908,
    1); ("syn_fastopen_ch", 15909, 1); ("syn_data_acked", 15910, 1); ("syn_fastopen_child", 15911, 1);
    ("keepalive_probes", 15912, 8); ("accecn_fail_mode", 15920, 4); ("saw_accecn_opt", 15924, 2);
    ("tcp_tx_delay", 15936, 32); ("mdev_max_us", 15968, 32); ("reord_seen", 16000, 32); ("snd_cwnd_cnt",
    16032, 32); ("snd_cwnd_clamp", 16064, 32); ("snd_cwnd_used", 16096, 32); ("snd_cwnd_stamp", 16128, 32);
    ("prior_cwnd", 16160, 32); ("prr_delivered", 16192, 32); ("last_oow_ack_time", 16224, 32);
    ("pacing_timer", 16256, 640); ("compressed_ack_timer", 16896, 640); ("ooo_last_skb", 17536, 64);
    ("duplicate_sack", 17600, 64); ("selective_acks", 17664, 256); ("recv_sack_cache", 17920, 256);
    ("prior_ssthresh", 18176, 32); ("high_seq", 18208, 32); ("retrans_stamp", 18240, 32); ("undo_marker",
    18272, 32); ("undo_retrans", 18304, 32); ("mtu_info", 18336, 32); ("bytes_retrans", 18368, 64);
    ("total_retrans", 18432, 32); ("rto_stamp", 18464, 32); ("total_rto", 18496, 16); ("total_rto_recoveries",
    18512, 16); ("total_rto_time", 18528, 32); ("urg_seq", 18560, 32); ("keepalive_time", 18592, 32);
    ("keepalive_intvl", 18624, 32); ("linger2", 18656, 32); ("bpf_sock_ops_cb_flags", 18688, 8);
    ("bpf_chg_cc_inprogress", 18696, 1); ("timeout_rehash", 18704, 16); ("rcv_ooopack", 18720, 32);
    ("mtu_probe", 18752, 64); ("plb_rehash", 18816, 32); ("is_mptcp", 18848, 8); ("syn_smc", 18856, 8);
    ("smc_hs_congested", 18880, 64); ("af_specific", 18944, 64); ("md5sig_info", 19008, 64); ("fastopen_req",
    19072, 64); ("fastopen_rsk", 19136, 64); ("saved_syn", 19200, 64)]].

(** The types of VmTask.v. *)
Definition abi_vmtask : list abi_row := [
  (* enum timespec_type *) Abi 4 4 [];
  (* enum vtime_state *) Abi 4 4 [];
  (* __kernel_clockid_t *) Abi 4 4 [];
  (* __kernel_pid_t *) Abi 4 4 [];
  (* clockid_t *) Abi 4 4 [];
  (* s32 *) Abi 4 4 [];
  (* pid_t *) Abi 4 4 [];
  (* time64_t *) Abi 8 8 [];
  (* __kernel_ulong_t *) Abi 8 8 [];
  (* __kernel_size_t *) Abi 8 8 [];
  (* size_t *) Abi 8 8 [];
  (* atomic_long_t *) Abi 8 8 [
    ("counter", 0, 64)];
  (* raw_spinlock_t *) Abi 4 4 [
    ("raw_lock", 0, 32)];
  (* struct optimistic_spin_queue *) Abi 4 4 [
    ("tail", 0, 32)];
  (* struct mutex *) Abi 24 8 [
    ("owner", 0, 64); ("wait_lock", 64, 32); ("osq", 96, 32); ("first_waiter", 128, 64)];
  (* nodemask_t *) Abi 8 8 [
    ("bits", 0, 64)];
  (* struct seqcount *) Abi 4 4 [
    ("sequence", 0, 32)];
  (* seqcount_t *) Abi 4 4 [
    ("sequence", 0, 32)];
  (* sigset_t *) Abi 8 8 [
    ("sig", 0, 64)];
  (* struct llist_head *) Abi 8 8 [
    ("first", 0, 64)];
  (* struct llist_node *) Abi 8 8 [
    ("next", 0, 64)];
  (* struct __call_single_node *) Abi 16 8 [
    ("llist", 0, 64); ("u_flags", 64, 32); ("a_flags", 64, 32); ("src", 96, 16); ("dst", 112, 16)];
  (* struct cpumask *) Abi 48 8 [
    ("bits", 0, 384)];
  (* struct plist_node *) Abi 40 8 [
    ("prio", 0, 32); ("prio_list", 64, 128); ("node_list", 192, 128)];
  (* struct rb_root_cached *) Abi 16 8 [
    ("rb_root", 0, 64); ("rb_leftmost", 64, 64)];
  (* struct timespec64 *) Abi 16 8 [
    ("tv_sec", 0, 64); ("tv_nsec", 64, 64)];
  (* struct hlist_head *) Abi 8 8 [
    ("first", 0, 64)];
  (* struct timerqueue_head *) Abi 16 8 [
    ("rb_root", 0, 128)];
  (* struct arch_tlbflush_unmap_batch *) Abi 56 8 [
    ("cpumask", 0, 384); ("unmapped_pages", 384, 8)];
  (* struct seqcount_spinlock *) Abi 4 4 [
    ("seqcount", 0, 32)];
  (* seqcount_spinlock_t *) Abi 4 4 [
    ("seqcount", 0, 32)];
  (* cpumask_t *) Abi 48 8 [
    ("bits", 0, 384)];
  (* struct scx_dsq_list_node *) Abi 24 8 [
    ("node", 0, 128); ("flags", 128, 32); ("priv", 160, 32)];
  (* struct load_weight *) Abi 16 8 [
    ("weight", 0, 64); ("inv_weight", 64, 32)];
  (* struct sched_avg *) Abi 64 8 [
    ("last_update_time", 0, 64); ("load_sum", 64, 64); ("runnable_sum", 128, 64); ("util_sum", 192, 32);
    ("period_contrib", 224, 32); ("load_avg", 256, 64); ("runnable_avg", 320, 64); ("util_avg", 384, 64);
    ("util_est", 448, 32)];
  (* struct prev_cputime *) Abi 24 8 [
    ("utime", 0, 64); ("stime", 64, 64); ("lock", 128, 32)];
  (* struct desc_struct *) Abi 8 2 [
    ("limit0", 0, 16); ("base0", 16, 16); ("base1", 32, 8); ("type", 40, 4); ("s", 44, 1); ("dpl", 45, 2);
    ("p", 47, 1); ("limit1", 48, 4); ("avl", 52, 1); ("l", 53, 1); ("d", 54, 1); ("g", 55, 1); ("base2", 56,
    8)];
  (* struct kmap_ctrl *) Abi 0 1 [];
  (* struct lazy_mmu_state *) Abi 2 1 [
    ("enable_count", 0, 8); ("pause_count", 8, 8)];
  (* struct posix_cputimer_base *) Abi 24 8 [
    ("nextevt", 0, 64); ("tqhead", 64, 128)];
  (* struct posix_cputimers *) Abi 80 8 [
    ("bases", 0, 576); ("timers_active", 576, 32); ("expiry_active", 608, 32)];
  (* struct posix_cputimers_work *) Abi 48 8 [
    ("work", 0, 128); ("mutex", 128, 192); ("scheduled", 320, 32)];
  (* union rcu_special *) Abi 4 4 [
    ("b", 0, 32); ("s", 0, 32)];
  (* struct restart_block *) Abi 56 8 [
    ("arch_data", 0, 64); ("fn", 64, 64); ("futex", 128, 320); ("nanosleep", 128, 192); ("poll", 128, 256)];
  (* dl_server_pick_f *) Abi 8 8 [];
  (* struct sched_dl_entity *) Abi 272 8 [
    ("rb_node", 0, 192); ("dl_runtime", 192, 64); ("dl_deadline", 256, 64); ("dl_period", 320, 64); ("dl_bw",
    384, 64); ("dl_density", 448, 64); ("runtime", 512, 64); ("deadline", 576, 64); ("flags", 640, 32);
    ("dl_throttled", 672, 1); ("dl_yielded", 673, 1); ("dl_non_contending", 674, 1); ("dl_overrun", 675, 1);
    ("dl_server", 676, 1); ("dl_server_active", 677, 1); ("dl_defer", 678, 1); ("dl_defer_armed", 679, 1);
    ("dl_defer_running", 680, 1); ("dl_defer_idle", 681, 1); ("dl_timer", 704, 640); ("inactive_timer", 1344,
    640); ("rq", 1984, 64); ("server_pick_task", 2048, 64); ("pi_se", 2112, 64)];
  (* struct sched_info *) Abi 64 8 [
    ("pcount", 0, 64); ("run_delay", 64, 64); ("max_run_delay", 128, 64); ("min_run_delay", 192, 64);
    ("last_arrival", 256, 64); ("last_queued", 320, 64); ("max_run_delay_ts", 384, 128)];
  (* struct rseq_event *) Abi 8 8 [
    ("all", 0, 64); ("events", 0, 32); ("sched_switch", 0, 8); ("ids_changed", 8, 8); ("user_irq", 16, 8);
    ("has_rseq", 32, 8); ("__pad", 40, 8); ("error", 48, 16); ("fatal", 48, 8); ("slowpath", 56, 8)];
  (* struct rseq_ids *) Abi 16 8 [
    ("cpu_cid", 0, 64); ("cpu_id", 0, 32); ("mm_cid", 32, 32); ("node_id", 64, 32)];
  (* struct rseq_data *) Abi 40 8 [
    ("usrptr", 0, 64); ("len", 64, 32); ("sig", 96, 32); ("event", 128, 64); ("ids", 192, 128)];
  (* struct sched_entity *) Abi 320 8 [
    ("load", 0, 128); ("run_node", 128, 192); ("deadline", 320, 64); ("min_vruntime", 384, 64); ("min_slice",
    448, 64); ("max_slice", 512, 64); ("group_node", 576, 128); ("on_rq", 704, 8); ("sched_delayed", 712, 8);
    ("rel_deadline", 720, 8); ("custom_slice", 728, 8); ("exec_start", 768, 64); ("sum_exec_runtime", 832,
    64); ("prev_sum_exec_runtime", 896, 64); ("vruntime", 960, 64); ("vlag", 1024, 64); ("vprot", 1088, 64);
    ("slice", 1152, 64); ("nr_migrations", 1216, 64); ("depth", 1280, 32); ("parent", 1344, 64); ("cfs_rq",
    1408, 64); ("my_q", 1472, 64); ("runnable_weight", 1536, 64); ("avg", 2048, 512)];
  (* struct sched_statistics *) Abi 256 8 [
    ("wait_start", 0, 64); ("wait_max", 64, 64); ("wait_count", 128, 64); ("wait_sum", 192, 64);
    ("iowait_count", 256, 64); ("iowait_sum", 320, 64); ("sleep_start", 384, 64); ("sleep_max", 448, 64);
    ("sum_sleep_runtime", 512, 64); ("block_start", 576, 64); ("block_max", 640, 64); ("sum_block_runtime",
    704, 64); ("exec_max", 768, 64); ("slice_max", 832, 64); ("nr_migrations_cold", 896, 64);
    ("nr_failed_migrations_affine", 960, 64); ("nr_failed_migrations_running", 1024, 64);
    ("nr_failed_migrations_hot", 1088, 64); ("nr_forced_migrations", 1152, 64); ("nr_wakeups", 1216, 64);
    ("nr_wakeups_sync", 1280, 64); ("nr_wakeups_migrate", 1344, 64); ("nr_wakeups_local", 1408, 64);
    ("nr_wakeups_remote", 1472, 64); ("nr_wakeups_affine", 1536, 64); ("nr_wakeups_affine_attempts", 1600,
    64); ("nr_wakeups_passive", 1664, 64); ("nr_wakeups_idle", 1728, 64); ("core_forceidle_sum", 1792, 64)];
  (* struct sched_ext_entity *) Abi 216 8 [
    ("sched", 0, 64); ("dsq", 64, 64); ("ops_state", 128, 64); ("ddsp_dsq_id", 192, 64); ("ddsp_enq_flags",
    256, 64); ("dsq_list", 320, 192); ("dsq_priq", 512, 192); ("dsq_seq", 704, 32); ("dsq_flags", 736, 32);
    ("flags", 768, 32); ("weight", 800, 32); ("sticky_cpu", 832, 32); ("holding_cpu", 864, 32);
    ("selected_cpu", 896, 32); ("kf_tasks", 960, 128); ("runnable_node", 1088, 128); ("runnable_at", 1216,
    64); ("core_sched_at", 1280, 64); ("slice", 1344, 64); ("dsq_vtime", 1408, 64); ("disallow", 1472, 8);
    ("cgrp_moving_from", 1536, 64); ("tasks_node", 1600, 128)];
  (* struct sched_mm_cid *) Abi 24 8 [
    ("active", 0, 32); ("cid", 32, 32); ("node", 64, 128)];
  (* struct sched_rt_entity *) Abi 48 8 [
    ("run_list", 0, 128); ("timeout", 128, 64); ("watchdog_stamp", 192, 64); ("time_slice", 256, 32);
    ("on_rq", 288, 16); ("on_list", 304, 16); ("back", 320, 64)];
  (* struct seccomp *) Abi 16 8 [
    ("mode", 0, 32); ("filter_count", 32, 32); ("filter", 64, 64)];
  (* struct sigpending *) Abi 24 8 [
    ("list", 0, 128); ("signal", 128, 64)];
  (* struct task_io_accounting *) Abi 56 8 [
    ("rchar", 0, 64); ("wchar", 64, 64); ("syscr", 128, 64); ("syscw", 192, 64); ("read_bytes", 256, 64);
    ("write_bytes", 320, 64); ("cancelled_write_bytes", 384, 64)];
  (* struct syscall_user_dispatch *) Abi 32 8 [
    ("selector", 0, 64); ("offset", 64, 64); ("len", 128, 64); ("on_dispatch", 192, 8)];
  (* struct sysv_sem *) Abi 8 8 [
    ("undo_list", 0, 64)];
  (* struct sysv_shm *) Abi 16 8 [
    ("shm_clist", 0, 128)];
  (* struct uclamp_se *) Abi 4 4 [
    ("value", 0, 11); ("bucket_id", 11, 3); ("active", 14, 1); ("user_defined", 15, 1)];
  (* struct thread_info *) Abi 24 8 [
    ("flags", 0, 64); ("syscall_work", 64, 64); ("status", 128, 32); ("cpu", 160, 32)];
  (* struct vtime *) Abi 48 8 [
    ("seqcount", 0, 32); ("starttime", 64, 64); ("state", 128, 32); ("cpu", 160, 32); ("utime", 192, 64);
    ("stime", 256, 64); ("gtime", 320, 64)];
  (* struct wake_q_node *) Abi 8 8 [
    ("next", 0, 64)];
  (* struct tlbflush_unmap_batch *) Abi 64 8 [
    ("arch", 0, 448); ("flush_required", 448, 8); ("writable", 456, 8)];
  (* union unwind_task_id *) Abi 8 8 [
    ("cpu", 0, 32); ("cnt", 32, 32); ("id", 0, 64)];
  (* struct unwind_task_info *) Abi 40 8 [
    ("unwind_mask", 0, 64); ("cache", 64, 64); ("work", 128, 128); ("id", 256, 64)];
  (* struct thread_shstk *) Abi 16 8 [
    ("base", 0, 64); ("size", 64, 64)];
  (* struct thread_struct *) Abi 184 8 [
    ("tls_array", 0, 192); ("sp", 192, 64); ("es", 256, 16); ("ds", 272, 16); ("fsindex", 288, 16);
    ("gsindex", 304, 16); ("fsbase", 320, 64); ("gsbase", 384, 64); ("ptrace_bps", 448, 256); ("virtual_dr6",
    704, 64); ("ptrace_dr7", 768, 64); ("cr2", 832, 64); ("trap_nr", 896, 64); ("error_code", 960, 64);
    ("io_bitmap", 1024, 64); ("iopl_emul", 1088, 64); ("iopl_warn", 1152, 1); ("pkru", 1184, 32); ("features",
    1216, 64); ("features_locked", 1280, 64); ("shstk", 1344, 128)];
  (* struct task_struct *) Abi 4032 8 [
    ("thread_info", 0, 192); ("__state", 192, 32); ("saved_state", 224, 32); ("stack", 256, 64); ("usage",
    320, 32); ("flags", 352, 32); ("ptrace", 384, 32); ("alloc_tag", 448, 64); ("on_cpu", 512, 32);
    ("wake_entry", 576, 128); ("wakee_flips", 704, 32); ("wakee_flip_decay_ts", 768, 64); ("last_wakee", 832,
    64); ("recent_used_cpu", 896, 32); ("wake_cpu", 928, 32); ("on_rq", 960, 32); ("prio", 992, 32);
    ("static_prio", 1024, 32); ("normal_prio", 1056, 32); ("rt_priority", 1088, 32); ("se", 1536, 2560);
    ("rt", 4096, 384); ("dl", 4480, 2176); ("dl_server", 6656, 64); ("scx", 6720, 1728); ("sched_class", 8448,
    64); ("core_node", 8512, 192); ("core_cookie", 8704, 64); ("core_occupation", 8768, 32);
    ("sched_task_group", 8832, 64); ("sched_throttle_work", 8896, 128); ("throttle_node", 9024, 128);
    ("throttled", 9152, 8); ("uclamp_req", 9184, 64); ("uclamp", 9248, 64); ("stats", 9728, 2048);
    ("preempt_notifiers", 11776, 64); ("btrace_seq", 11840, 32); ("policy", 11872, 32);
    ("max_allowed_capacity", 11904, 64); ("nr_cpus_allowed", 11968, 32); ("cpus_ptr", 12032, 64);
    ("user_cpus_ptr", 12096, 64); ("cpus_mask", 12160, 384); ("migration_pending", 12544, 64);
    ("migration_disabled", 12608, 16); ("migration_flags", 12624, 16); ("rcu_read_lock_nesting", 12640, 32);
    ("rcu_read_unlock_special", 12672, 32); ("rcu_node_entry", 12736, 128); ("rcu_blocked_node", 12864, 64);
    ("rcu_tasks_nvcsw", 12928, 64); ("rcu_tasks_holdout", 12992, 8); ("rcu_tasks_idx", 13000, 8);
    ("rcu_tasks_idle_cpu", 13024, 32); ("rcu_tasks_holdout_list", 13056, 128); ("rcu_tasks_exit_cpu", 13184,
    32); ("rcu_tasks_exit_list", 13248, 128); ("trc_reader_nesting", 13376, 32); ("trc_reader_scp", 13440,
    64); ("sched_info", 13504, 512); ("tasks", 14016, 128); ("pushable_tasks", 14144, 320);
    ("pushable_dl_tasks", 14464, 192); ("mm", 14656, 64); ("active_mm", 14720, 64); ("exit_state", 14784, 32);
    ("exit_code", 14816, 32); ("exit_signal", 14848, 32); ("pdeath_signal", 14880, 32); ("jobctl", 14912, 64);
    ("personality", 14976, 32); ("sched_reset_on_fork", 15008, 1); ("sched_contributes_to_load", 15009, 1);
    ("sched_migrated", 15010, 1); ("sched_task_hot", 15011, 1); ("sched_remote_wakeup", 15040, 1);
    ("sched_rt_mutex", 15041, 1); ("user_dumpable", 15042, 1); ("in_execve", 15043, 1); ("in_iowait", 15044,
    1); ("restore_sigmask", 15045, 1); ("in_lru_fault", 15046, 1); ("no_cgroup_migration", 15047, 1);
    ("frozen", 15048, 1); ("use_memdelay", 15049, 1); ("in_memstall", 15050, 1); ("in_eventfd", 15051, 1);
    ("pasid_activated", 15052, 1); ("reported_split_lock", 15053, 1); ("in_thrashing", 15054, 1);
    ("in_nf_duplicate", 15055, 1); ("atomic_flags", 15104, 64); ("restart_block", 15168, 448); ("pid", 15616,
    32); ("tgid", 15648, 32); ("stack_canary", 15680, 64); ("real_parent", 15744, 64); ("parent", 15808, 64);
    ("children", 15872, 128); ("sibling", 16000, 128); ("group_leader", 16128, 64); ("ptraced", 16192, 128);
    ("ptrace_entry", 16320, 128); ("thread_pid", 16448, 64); ("pid_links", 16512, 512); ("thread_node", 17024,
    128); ("vfork_done", 17152, 64); ("set_child_tid", 17216, 64); ("clear_child_tid", 17280, 64);
    ("worker_private", 17344, 64); ("utime", 17408, 64); ("stime", 17472, 64); ("gtime", 17536, 64);
    ("prev_cputime", 17600, 192); ("vtime", 17792, 384); ("tick_dep_mask", 18176, 32); ("nvcsw", 18240, 64);
    ("nivcsw", 18304, 64); ("start_time", 18368, 64); ("start_boottime", 18432, 64); ("min_flt", 18496, 64);
    ("maj_flt", 18560, 64); ("posix_cputimers", 18624, 640); ("posix_cputimers_work", 19264, 384);
    ("ptracer_cred", 19648, 64); ("real_cred", 19712, 64); ("cred", 19776, 64); ("cached_requested_key",
    19840, 64); ("comm", 19904, 128); ("nameidata", 20032, 64); ("sysvsem", 20096, 64); ("sysvshm", 20160,
    128); ("last_switch_count", 20288, 64); ("last_switch_time", 20352, 64); ("fs", 20416, 64); ("files",
    20480, 64); ("io_uring", 20544, 64); ("io_uring_restrict", 20608, 64); ("nsproxy", 20672, 64); ("signal",
    20736, 64); ("sighand", 20800, 64); ("blocked", 20864, 64); ("real_blocked", 20928, 64); ("saved_sigmask",
    20992, 64); ("pending", 21056, 192); ("sas_ss_sp", 21248, 64); ("sas_ss_size", 21312, 64);
    ("sas_ss_flags", 21376, 32); ("task_works", 21440, 64); ("audit_context", 21504, 64); ("loginuid", 21568,
    32); ("sessionid", 21600, 32); ("seccomp", 21632, 128); ("syscall_dispatch", 21760, 256);
    ("parent_exec_id", 22016, 64); ("self_exec_id", 22080, 64); ("alloc_lock", 22144, 32); ("pi_lock", 22176,
    32); ("wake_q", 22208, 64); ("pi_waiters", 22272, 128); ("pi_top_task", 22400, 64); ("pi_blocked_on",
    22464, 64); ("blocked_on", 22528, 64); ("blocked_lock", 22592, 32); ("blocker", 22656, 64);
    ("journal_info", 22720, 64); ("bio_list", 22784, 64); ("plug", 22848, 64); ("reclaim_state", 22912, 64);
    ("io_context", 22976, 64); ("capture_control", 23040, 64); ("ptrace_message", 23104, 64); ("last_siginfo",
    23168, 64); ("ioac", 23232, 448); ("psi_flags", 23680, 32); ("acct_rss_mem1", 23744, 64); ("acct_vm_mem1",
    23808, 64); ("acct_timexpd", 23872, 64); ("mems_allowed", 23936, 64); ("mems_allowed_seq", 24000, 32);
    ("cpuset_mem_spread_rotor", 24032, 32); ("cgroups", 24064, 64); ("cg_list", 24128, 128); ("closid", 24256,
    32); ("rmid", 24288, 32); ("robust_list", 24320, 64); ("compat_robust_list", 24384, 64); ("pi_state_list",
    24448, 128); ("pi_state_cache", 24576, 64); ("futex_exit_mutex", 24640, 192); ("futex_state", 24832, 32);
    ("perf_recursion", 24864, 32); ("perf_event_ctxp", 24896, 64); ("perf_event_mutex", 24960, 192);
    ("perf_event_list", 25152, 128); ("perf_ctx_data", 25280, 64); ("mempolicy", 25344, 64); ("il_prev",
    25408, 16); ("il_weight", 25424, 8); ("pref_node_fork", 25440, 16); ("numa_scan_seq", 25472, 32);
    ("numa_scan_period", 25504, 32); ("numa_scan_period_max", 25536, 32); ("numa_preferred_nid", 25568, 32);
    ("numa_migrate_retry", 25600, 64); ("node_stamp", 25664, 64); ("last_task_numa_placement", 25728, 64);
    ("last_sum_exec_runtime", 25792, 64); ("numa_work", 25856, 128); ("numa_group", 25984, 64);
    ("numa_faults", 26048, 64); ("total_numa_faults", 26112, 64); ("numa_faults_locality", 26176, 192);
    ("numa_pages_migrated", 26368, 64); ("rseq", 26432, 320); ("mm_cid", 26752, 192); ("tlb_ubc", 26944, 512);
    ("splice_pipe", 27456, 64); ("task_frag", 27520, 128); ("lazy_mmu_state", 27648, 16); ("delays", 27712,
    64); ("nr_dirtied", 27776, 32); ("nr_dirtied_pause", 27808, 32); ("dirty_paused_when", 27840, 64);
    ("timer_slack_ns", 27904, 64); ("default_timer_slack_ns", 27968, 64); ("curr_ret_stack", 28032, 32);
    ("curr_ret_depth", 28064, 32); ("ret_stack", 28096, 64); ("ftrace_timestamp", 28160, 64);
    ("ftrace_sleeptime", 28224, 64); ("trace_overrun", 28288, 32); ("tracing_graph_pause", 28320, 32);
    ("trace_recursion", 28352, 64); ("memcg_nr_pages_over_high", 28416, 32); ("active_memcg", 28480, 64);
    ("objcg", 28544, 64); ("throttle_disk", 28608, 64); ("utask", 28672, 64); ("sequential_io", 28736, 32);
    ("sequential_io_avg", 28768, 32); ("kmap_ctrl", 28800, 0); ("rcu", 28800, 128); ("rcu_users", 28928, 32);
    ("pagefault_disabled", 28960, 32); ("oom_reaper_list", 28992, 64); ("oom_reaper_timer", 29056, 320);
    ("stack_vm_area", 29376, 64); ("stack_refcount", 29440, 32); ("security", 29504, 64); ("bpf_storage",
    29568, 64); ("bpf_ctx", 29632, 64); ("bpf_net_context", 29696, 64); ("mce_vaddr", 29760, 64);
    ("mce_kflags", 29824, 64); ("mce_addr", 29888, 64); ("mce_ripv", 29952, 1); ("mce_whole_page", 29953, 1);
    ("__mce_reserved", 29954, 62); ("mce_kill_me", 30016, 128); ("mce_count", 30144, 32);
    ("kretprobe_instances", 30208, 64); ("rethooks", 30272, 64); ("l1d_flush_kill", 30336, 128);
    ("unwind_info", 30464, 320); ("thread", 30784, 1472)]].

(** The types of VmNet.v. *)
Definition abi_vmnet : list abi_row := [
  (* enum vsock_net_mode *) Abi 4 4 [];
  (* __kernel_gid32_t *) Abi 4 4 [];
  (* gid_t *) Abi 4 4 [];
  (* kgid_t *) Abi 4 4 [
    ("val", 0, 32)];
  (* struct rw_semaphore *) Abi 32 8 [
    ("count", 0, 64); ("owner", 64, 64); ("osq", 128, 32); ("wait_lock", 160, 32); ("first_waiter", 192, 64)];
  (* siphash_key_t *) Abi 16 8 [
    ("key", 0, 128)];
  (* work_func_t *) Abi 8 8 [];
  (* struct work_struct *) Abi 32 8 [
    ("data", 0, 64); ("entry", 64, 128); ("func", 192, 64)];
  (* struct delayed_work *) Abi 88 8 [
    ("work", 0, 256); ("timer", 256, 320); ("wq", 576, 64); ("cpu", 640, 32)];
  (* struct percpu_counter *) Abi 40 8 [
    ("lock", 0, 32); ("count", 64, 64); ("list", 128, 128); ("counters", 256, 64)];
  (* struct seqlock *) Abi 8 4 [
    ("seqcount", 0, 32); ("lock", 32, 32)];
  (* seqlock_t *) Abi 8 4 [
    ("seqcount", 0, 32); ("lock", 32, 32)];
  (* struct blocking_notifier_head *) Abi 40 8 [
    ("rwsem", 0, 256); ("head", 256, 64)];
  (* struct ns_common *) Abi 112 8 [
    ("__ns_ref", 0, 32); ("ns_type", 512, 32); ("stashed", 576, 64); ("ops", 640, 64); ("inum", 704, 32);
    ("ns_rcu", 768, 128)];
  (* struct idr *) Abi 24 8 [
    ("idr_rt", 0, 128); ("idr_base", 128, 32); ("idr_next", 160, 32)];
  (* struct ctl_table_header *) Abi 88 8 [
    ("ctl_table", 0, 64); ("ctl_table_size", 64, 32); ("used", 96, 32); ("count", 128, 32); ("nreg", 160, 32);
    ("rcu", 0, 128); ("unregistering", 192, 64); ("ctl_table_arg", 256, 64); ("root", 320, 64); ("set", 384,
    64); ("parent", 448, 64); ("node", 512, 64); ("inodes", 576, 64); ("type", 640, 32)];
  (* struct ctl_dir *) Abi 96 8 [
    ("header", 0, 704); ("root", 704, 64)];
  (* struct ctl_table_set *) Abi 104 8 [
    ("is_seen", 0, 64); ("dir", 64, 768)];
  (* struct ref_tracker_dir *) Abi 0 1 [];
  (* struct raw_notifier_head *) Abi 8 8 [
    ("head", 0, 64)];
  (* struct dst_ops *) Abi 192 8 [
    ("family", 0, 16); ("gc_thresh", 32, 32); ("gc", 64, 64); ("check", 128, 64); ("default_advmss", 192, 64);
    ("mtu", 256, 64); ("cow_metrics", 320, 64); ("destroy", 384, 64); ("ifdown", 448, 64); ("negative_advice",
    512, 64); ("link_failure", 576, 64); ("update_pmtu", 640, 64); ("redirect", 704, 64); ("local_out", 768,
    64); ("neigh_lookup", 832, 64); ("confirm_neigh", 896, 64); ("kmem_cachep", 960, 64); ("pcpuc_entries",
    1024, 320)];
  (* struct inet_timewait_death_row *) Abi 128 8 [
    ("tw_refcount", 0, 32); ("hashinfo", 512, 64); ("sysctl_max_tw_buckets", 576, 32)];
  (* struct local_ports *) Abi 8 4 [
    ("range", 0, 32); ("warned", 32, 8)];
  (* struct netns_core *) Abi 40 8 [
    ("sysctl_hdr", 0, 64); ("sysctl_somaxconn", 64, 32); ("sysctl_txq_reselection", 96, 32);
    ("sysctl_optmem_max", 128, 32); ("sysctl_txrehash", 160, 8); ("sysctl_tstamp_allow_data", 168, 8);
    ("sysctl_bypass_prot_mem", 176, 8); ("prot_inuse", 192, 64); ("rps_default_mask", 256, 64)];
  (* struct netns_mib *) Abi 104 8 [
    ("ip_statistics", 0, 64); ("ipv6_statistics", 64, 64); ("tcp_statistics", 128, 64); ("net_statistics",
    192, 64); ("udp_statistics", 256, 64); ("udp_stats_in6", 320, 64); ("tls_statistics", 384, 64);
    ("mptcp_statistics", 448, 64); ("icmp_statistics", 512, 64); ("icmpmsg_statistics", 576, 64);
    ("icmpv6_statistics", 640, 64); ("icmpv6msg_statistics", 704, 64); ("proc_net_devsnmp6", 768, 64)];
  (* struct netns_packet *) Abi 32 8 [
    ("sklist_lock", 0, 192); ("sklist", 192, 64)];
  (* struct unix_table *) Abi 16 8 [
    ("locks", 0, 64); ("buckets", 64, 64)];
  (* struct netns_unix *) Abi 32 8 [
    ("table", 0, 128); ("sysctl_max_dgram_qlen", 128, 32); ("ctl", 192, 64)];
  (* struct netns_nexthop *) Abi 64 8 [
    ("rb_root", 0, 64); ("devhash", 64, 64); ("seq", 128, 32); ("last_id_allocated", 160, 32);
    ("notifier_chain", 192, 320)];
  (* struct udp_tunnel_gro *) Abi 16 8 [
    ("sk", 0, 64); ("list", 64, 64)];
  (* struct ping_group_range *) Abi 16 4 [
    ("lock", 0, 64); ("range", 64, 64)];
  (* struct sysctl_fib_multipath_hash_seed *) Abi 8 4 [
    ("user_seed", 0, 32); ("mp_seed", 32, 32)];
  (* struct netns_ipv4 *) Abi 1024 8 [
    ("__cacheline_group_begin__netns_ipv4_read_tx", 0, 0); ("sysctl_tcp_early_retrans", 0, 8);
    ("sysctl_tcp_tso_win_divisor", 8, 8); ("sysctl_tcp_tso_rtt_log", 16, 8); ("sysctl_tcp_autocorking", 24,
    8); ("sysctl_tcp_min_snd_mss", 32, 32); ("sysctl_tcp_notsent_lowat", 64, 32);
    ("sysctl_tcp_limit_output_bytes", 96, 32); ("sysctl_tcp_min_rtt_wlen", 128, 32); ("sysctl_tcp_wmem", 160,
    96); ("sysctl_ip_fwd_use_pmtu", 256, 8); ("__cacheline_group_end__netns_ipv4_read_tx", 264, 0);
    ("__cacheline_group_begin__netns_ipv4_read_txrx", 264, 0); ("sysctl_tcp_shrink_window", 264, 8);
    ("__cacheline_group_end__netns_ipv4_read_txrx", 272, 0); ("__cacheline_group_begin__netns_ipv4_read_rx",
    272, 0); ("sysctl_tcp_moderate_rcvbuf", 272, 8); ("sysctl_ip_early_demux", 280, 8);
    ("sysctl_tcp_early_demux", 288, 8); ("sysctl_tcp_l3mdev_accept", 296, 8); ("sysctl_tcp_reordering", 320,
    32); ("sysctl_tcp_rmem", 352, 96); ("sysctl_tcp_rcvbuf_low_rtt", 448, 32);
    ("__cacheline_group_end__netns_ipv4_read_rx", 480, 0); ("__cacheline_group_begin__icmp", 512, 0);
    ("icmp_global_credit", 512, 32); ("icmp_global_stamp", 544, 32); ("__cacheline_group_end__icmp", 576, 0);
    ("__cacheline_group_pad__icmp", 1024, 0); ("tcp_death_row", 1024, 1024); ("udp_table", 2048, 64);
    ("udp_tunnel_gro", 2112, 256); ("forw_hdr", 2368, 64); ("frags_hdr", 2432, 64); ("ipv4_hdr", 2496, 64);
    ("route_hdr", 2560, 64); ("xfrm4_hdr", 2624, 64); ("devconf_all", 2688, 64); ("devconf_dflt", 2752, 64);
    ("ra_chain", 2816, 64); ("ra_mutex", 2880, 192); ("rules_ops", 3072, 64); ("fib_main", 3136, 64);
    ("fib_default", 3200, 64); ("fib_rules_require_fldissect", 3264, 32); ("fib_has_custom_rules", 3296, 8);
    ("fib_has_custom_local_routes", 3304, 8); ("fib_offload_disabled", 3312, 8); ("fib_num_tclassid_users",
    3328, 32); ("fib_table_hash", 3392, 64); ("fibnl", 3456, 64); ("fib_info_hash", 3520, 64);
    ("fib_info_hash_bits", 3584, 32); ("fib_info_cnt", 3616, 32); ("mc_autojoin_sk", 3648, 64); ("peers",
    3712, 64); ("fqdir", 3776, 64); ("sysctl_icmp_echo_ignore_all", 3840, 8);
    ("sysctl_icmp_echo_enable_probe", 3848, 8); ("sysctl_icmp_echo_ignore_broadcasts", 3856, 8);
    ("sysctl_icmp_ignore_bogus_error_responses", 3864, 8); ("sysctl_icmp_errors_use_inbound_ifaddr", 3872, 8);
    ("sysctl_icmp_errors_extension_mask", 3880, 8); ("sysctl_icmp_ratelimit", 3904, 32);
    ("sysctl_icmp_ratemask", 3936, 32); ("sysctl_icmp_msgs_per_sec", 3968, 32); ("sysctl_icmp_msgs_burst",
    4000, 32); ("ip_rt_min_pmtu", 4032, 32); ("ip_rt_mtu_expires", 4064, 32); ("ip_rt_min_advmss", 4096, 32);
    ("ip_local_ports", 4128, 64); ("sysctl_tcp_ecn", 4192, 8); ("sysctl_tcp_ecn_option", 4200, 8);
    ("sysctl_tcp_ecn_option_beacon", 4208, 8); ("sysctl_tcp_ecn_fallback", 4216, 8); ("sysctl_ip_default_ttl",
    4224, 8); ("sysctl_ip_no_pmtu_disc", 4232, 8); ("sysctl_ip_fwd_update_priority", 4240, 8);
    ("sysctl_ip_nonlocal_bind", 4248, 8); ("sysctl_ip_autobind_reuse", 4256, 8); ("sysctl_ip_dynaddr", 4264,
    8); ("sysctl_ip_local_port_step_width", 4288, 32); ("sysctl_raw_l3mdev_accept", 4320, 8);
    ("sysctl_udp_early_demux", 4328, 8); ("sysctl_nexthop_compat_mode", 4336, 8); ("sysctl_fwmark_reflect",
    4344, 8); ("sysctl_tcp_fwmark_accept", 4352, 8); ("sysctl_tcp_mtu_probing", 4360, 8);
    ("sysctl_tcp_mtu_probe_floor", 4384, 32); ("sysctl_tcp_base_mss", 4416, 32);
    ("sysctl_tcp_probe_threshold", 4448, 32); ("sysctl_tcp_probe_interval", 4480, 32);
    ("sysctl_tcp_keepalive_time", 4512, 32); ("sysctl_tcp_keepalive_intvl", 4544, 32);
    ("sysctl_tcp_keepalive_probes", 4576, 8); ("sysctl_tcp_syn_retries", 4584, 8);
    ("sysctl_tcp_synack_retries", 4592, 8); ("sysctl_tcp_syncookies", 4600, 8); ("sysctl_tcp_migrate_req",
    4608, 8); ("sysctl_tcp_comp_sack_nr", 4616, 8); ("sysctl_tcp_backlog_ack_defer", 4624, 8);
    ("sysctl_tcp_pingpong_thresh", 4632, 8); ("sysctl_tcp_retries1", 4640, 8); ("sysctl_tcp_retries2", 4648,
    8); ("sysctl_tcp_orphan_retries", 4656, 8); ("sysctl_tcp_tw_reuse", 4664, 8);
    ("sysctl_tcp_tw_reuse_delay", 4672, 32); ("sysctl_tcp_fin_timeout", 4704, 32); ("sysctl_tcp_sack", 4736,
    8); ("sysctl_tcp_window_scaling", 4744, 8); ("sysctl_tcp_timestamps", 4752, 8); ("sysctl_tcp_rto_min_us",
    4768, 32); ("sysctl_tcp_rto_max_ms", 4800, 32); ("sysctl_tcp_recovery", 4832, 8);
    ("sysctl_tcp_thin_linear_timeouts", 4840, 8); ("sysctl_tcp_slow_start_after_idle", 4848, 8);
    ("sysctl_tcp_retrans_collapse", 4856, 8); ("sysctl_tcp_stdurg", 4864, 8); ("sysctl_tcp_rfc1337", 4872, 8);
    ("sysctl_tcp_abort_on_overflow", 4880, 8); ("sysctl_tcp_fack", 4888, 8); ("sysctl_tcp_max_reordering",
    4896, 32); ("sysctl_tcp_adv_win_scale", 4928, 32); ("sysctl_tcp_dsack", 4960, 8); ("sysctl_tcp_app_win",
    4968, 8); ("sysctl_tcp_frto", 4976, 8); ("sysctl_tcp_nometrics_save", 4984, 8);
    ("sysctl_tcp_no_ssthresh_metrics_save", 4992, 8); ("sysctl_tcp_workaround_signed_windows", 5000, 8);
    ("sysctl_tcp_challenge_ack_limit", 5024, 32); ("sysctl_tcp_min_tso_segs", 5056, 8);
    ("sysctl_tcp_reflect_tos", 5064, 8); ("sysctl_tcp_invalid_ratelimit", 5088, 32);
    ("sysctl_tcp_pacing_ss_ratio", 5120, 32); ("sysctl_tcp_pacing_ca_ratio", 5152, 32);
    ("sysctl_tcp_child_ehash_entries", 5184, 32); ("sysctl_tcp_comp_sack_rtt_percent", 5216, 32);
    ("sysctl_tcp_comp_sack_delay_ns", 5248, 64); ("sysctl_tcp_comp_sack_slack_ns", 5312, 64);
    ("sysctl_max_syn_backlog", 5376, 32); ("sysctl_tcp_fastopen", 5408, 32); ("tcp_congestion_control", 5440,
    64); ("tcp_fastopen_ctx", 5504, 64); ("sysctl_tcp_fastopen_blackhole_timeout", 5568, 32);
    ("tfo_active_disable_times", 5600, 32); ("tfo_active_disable_stamp", 5632, 64);
    ("tcp_challenge_timestamp", 5696, 32); ("tcp_challenge_count", 5728, 32); ("sysctl_tcp_plb_enabled", 5760,
    8); ("sysctl_tcp_plb_idle_rehash_rounds", 5768, 8); ("sysctl_tcp_plb_rehash_rounds", 5776, 8);
    ("sysctl_tcp_plb_suspend_rto_sec", 5784, 8); ("sysctl_tcp_plb_cong_thresh", 5792, 32);
    ("sysctl_udp_wmem_min", 5824, 32); ("sysctl_udp_rmem_min", 5856, 32); ("sysctl_fib_notify_on_flag_change",
    5888, 8); ("sysctl_tcp_syn_linear_timeouts", 5896, 8); ("sysctl_udp_l3mdev_accept", 5904, 8);
    ("sysctl_igmp_llm_reports", 5912, 8); ("sysctl_igmp_max_memberships", 5920, 32); ("sysctl_igmp_max_msf",
    5952, 32); ("sysctl_igmp_qrv", 5984, 32); ("ping_group_range", 6016, 128); ("ping_port_rover", 6144, 16);
    ("dev_addr_genid", 6176, 32); ("sysctl_udp_child_hash_entries", 6208, 32); ("sysctl_local_reserved_ports",
    6272, 64); ("sysctl_ip_prot_sock", 6336, 32); ("mr_tables", 6400, 128); ("mr_rules_ops", 6528, 64);
    ("ipmr_notifier_ops", 6592, 64); ("ipmr_seq", 6656, 32); ("mfc_mutex", 6720, 192);
    ("sysctl_fib_multipath_hash_seed", 6912, 64); ("sysctl_fib_multipath_hash_fields", 6976, 32);
    ("sysctl_fib_multipath_use_neigh", 7008, 8); ("sysctl_fib_multipath_hash_policy", 7016, 8);
    ("notifier_ops", 7040, 64); ("fib_seq", 7104, 32); ("rt_genid", 7136, 32); ("ip_id_key", 7168, 128);
    ("inet_addr_lst", 7296, 64); ("addr_chk_work", 7360, 704)];
  (* struct netns_sysctl_ipv6 *) Abi 184 8 [
    ("hdr", 0, 64); ("route_hdr", 64, 64); ("icmp_hdr", 128, 64); ("frags_hdr", 192, 64); ("xfrm6_hdr", 256,
    64); ("flush_delay", 320, 32); ("ip6_rt_max_size", 352, 32); ("ip6_rt_gc_min_interval", 384, 32);
    ("ip6_rt_gc_timeout", 416, 32); ("ip6_rt_gc_interval", 448, 32); ("ip6_rt_gc_elasticity", 480, 32);
    ("ip6_rt_mtu_expires", 512, 32); ("ip6_rt_min_advmss", 544, 32); ("multipath_hash_fields", 576, 32);
    ("multipath_hash_policy", 608, 8); ("__cacheline_group_begin__sysctl_ipv6_flowlabel", 616, 0);
    ("flowlabel_consistency", 616, 8); ("auto_flowlabels", 624, 8); ("flowlabel_state_ranges", 632, 8);
    ("__cacheline_group_end__sysctl_ipv6_flowlabel", 640, 0); ("icmpv6_echo_ignore_all", 640, 8);
    ("icmpv6_echo_ignore_multicast", 648, 8); ("icmpv6_echo_ignore_anycast", 656, 8); ("icmpv6_time", 672,
    32); ("icmpv6_ratemask", 704, 256); ("icmpv6_ratemask_ptr", 960, 64); ("anycast_src_echo_reply", 1024, 8);
    ("bindv6only", 1032, 8); ("ip_nonlocal_bind", 1040, 8); ("fwmark_reflect", 1048, 8); ("idgen_retries",
    1056, 32); ("idgen_delay", 1088, 32); ("flowlabel_reflect", 1120, 32); ("max_dst_opts_cnt", 1152, 32);
    ("max_hbh_opts_cnt", 1184, 32); ("max_dst_opts_len", 1216, 32); ("max_hbh_opts_len", 1248, 32);
    ("seg6_flowlabel", 1280, 32); ("ioam6_id", 1312, 32); ("ioam6_id_wide", 1344, 64);
    ("skip_notify_on_dev_down", 1408, 8); ("fib_notify_on_flag_change", 1416, 8);
    ("icmpv6_error_anycast_as_unicast", 1424, 8); ("icmpv6_errors_extension_mask", 1432, 8)];
  (* struct netns_ipv6 *) Abi 832 8 [
    ("ip6_dst_ops", 0, 1536); ("sysctl", 1536, 1472); ("devconf_all", 3008, 64); ("devconf_dflt", 3072, 64);
    ("peers", 3136, 64); ("fqdir", 3200, 64); ("fib6_null_entry", 3264, 64); ("ip6_null_entry", 3328, 64);
    ("rt6_stats", 3392, 64); ("ip6_fib_timer", 3456, 320); ("fib_table_hash", 3776, 64);
    ("fib_table_hash_lock", 3840, 32); ("fib6_main_tbl", 3904, 64); ("fib6_walkers", 3968, 128);
    ("fib6_walker_lock", 4096, 64); ("fib6_gc_lock", 4160, 32); ("ip6_rt_gc_expire", 4192, 32);
    ("ip6_rt_last_gc", 4224, 64); ("flowlabel_has_excl", 4288, 8); ("fib6_has_custom_rules", 4296, 8);
    ("fib6_rules_require_fldissect", 4320, 32); ("fib6_routes_require_src", 4352, 32); ("ip6_prohibit_entry",
    4416, 64); ("ip6_blk_hole_entry", 4480, 64); ("fib6_local_tbl", 4544, 64); ("fib6_rules_ops", 4608, 64);
    ("ndisc_sk", 4672, 64); ("tcp_sk", 4736, 64); ("igmp_sk", 4800, 64); ("mc_autojoin_sk", 4864, 64);
    ("inet6_addr_lst", 4928, 64); ("addrconf_hash_lock", 4992, 32); ("addr_chk_work", 5056, 704);
    ("mr6_tables", 5760, 128); ("mr6_rules_ops", 5888, 64); ("dev_addr_genid", 5952, 32); ("fib6_sernum",
    5984, 32); ("seg6_data", 6016, 64); ("notifier_ops", 6080, 64); ("ip6mr_notifier_ops", 6144, 64);
    ("ipmr_seq", 6208, 32); ("flowlabel_count", 6240, 32); ("ip6addrlbl_table", 6272, 128); ("ioam6_data",
    6400, 64)];
  (* struct netns_sysctl_lowpan *) Abi 8 8 [
    ("frags_hdr", 0, 64)];
  (* struct netns_ieee802154_lowpan *) Abi 16 8 [
    ("sysctl", 0, 64); ("fqdir", 64, 64)];
  (* struct netns_sctp *) Abi 296 8 [
    ("sctp_statistics", 0, 64); ("proc_net_sctp", 64, 64); ("sysctl_header", 128, 64); ("ctl_sock", 192, 64);
    ("udp4_sock", 256, 64); ("udp6_sock", 320, 64); ("udp_port", 384, 32); ("encap_port", 416, 32);
    ("local_addr_list", 448, 128); ("addr_waitq", 576, 128); ("addr_wq_timer", 704, 320);
    ("auto_asconf_splist", 1024, 128); ("addr_wq_lock", 1152, 32); ("local_addr_lock", 1184, 32);
    ("rto_initial", 1216, 32); ("rto_min", 1248, 32); ("rto_max", 1280, 32); ("rto_alpha", 1312, 32);
    ("rto_beta", 1344, 32); ("max_burst", 1376, 32); ("cookie_preserve_enable", 1408, 32);
    ("cookie_auth_enable", 1440, 32); ("valid_cookie_life", 1472, 32); ("sack_timeout", 1504, 32);
    ("hb_interval", 1536, 32); ("probe_interval", 1568, 32); ("max_retrans_association", 1600, 32);
    ("max_retrans_path", 1632, 32); ("max_retrans_init", 1664, 32); ("pf_retrans", 1696, 32); ("ps_retrans",
    1728, 32); ("pf_enable", 1760, 32); ("pf_expose", 1792, 32); ("sndbuf_policy", 1824, 32);
    ("rcvbuf_policy", 1856, 32); ("default_auto_asconf", 1888, 32); ("addip_enable", 1920, 32);
    ("addip_noauth", 1952, 32); ("prsctp_enable", 1984, 32); ("reconf_enable", 2016, 32); ("auth_enable",
    2048, 32); ("intl_enable", 2080, 32); ("ecn_enable", 2112, 32); ("scope_policy", 2144, 32);
    ("rwnd_upd_shift", 2176, 32); ("max_autoclose", 2240, 64); ("l3mdev_accept", 2304, 32)];
  (* struct netns_nf *) Abi 264 8 [
    ("proc_netfilter", 0, 64); ("nf_loggers", 64, 704); ("nf_log_dir_header", 768, 64);
    ("nf_lwtnl_dir_header", 832, 64); ("hooks_ipv4", 896, 320); ("hooks_ipv6", 1216, 320); ("hooks_arp", 1536,
    192); ("hooks_bridge", 1728, 320); ("defrag_ipv4_users", 2048, 32); ("defrag_ipv6_users", 2080, 32)];
  (* struct nf_generic_net *) Abi 4 4 [
    ("timeout", 0, 32)];
  (* struct nf_tcp_net *) Abi 64 4 [
    ("timeouts", 0, 448); ("tcp_loose", 448, 8); ("tcp_be_liberal", 456, 8); ("tcp_max_retrans", 464, 8);
    ("tcp_ignore_invalid_rst", 472, 8); ("offload_timeout", 480, 32)];
  (* struct nf_udp_net *) Abi 12 4 [
    ("timeouts", 0, 64); ("offload_timeout", 64, 32)];
  (* struct nf_icmp_net *) Abi 4 4 [
    ("timeout", 0, 32)];
  (* struct nf_sctp_net *) Abi 40 4 [
    ("timeouts", 0, 320)];
  (* struct nf_gre_net *) Abi 24 8 [
    ("keymap_list", 0, 128); ("timeouts", 128, 64)];
  (* struct nf_ip_net *) Abi 152 8 [
    ("generic", 0, 32); ("tcp", 32, 512); ("udp", 544, 96); ("icmp", 640, 32); ("icmpv6", 672, 32); ("sctp",
    704, 320); ("gre", 1024, 192)];
  (* struct netns_ct *) Abi 184 8 [
    ("ecache_dwork_pending", 0, 8); ("sysctl_log_invalid", 8, 8); ("sysctl_events", 16, 8); ("sysctl_acct",
    24, 8); ("sysctl_tstamp", 32, 8); ("sysctl_checksum", 40, 8); ("stat", 64, 64); ("nf_conntrack_event_cb",
    128, 64); ("nf_ct_proto", 192, 1216); ("labels_used", 1408, 32)];
  (* struct netns_nftables *) Abi 8 4 [
    ("base_seq", 0, 32); ("gencursor", 32, 8)];
  (* struct netns_ft *) Abi 8 8 [
    ("stat", 0, 64)];
  (* struct netns_bpf *) Abi 64 8 [
    ("run_array", 0, 128); ("progs", 128, 128); ("links", 256, 256)];
  (* struct xfrm_policy_hash *) Abi 16 8 [
    ("table", 0, 64); ("hmask", 64, 32); ("dbits4", 96, 8); ("sbits4", 104, 8); ("dbits6", 112, 8); ("sbits6",
    120, 8)];
  (* struct xfrm_policy_hthresh *) Abi 48 8 [
    ("work", 0, 256); ("lock", 256, 64); ("lbits4", 320, 8); ("rbits4", 328, 8); ("lbits6", 336, 8);
    ("rbits6", 344, 8)];
  (* struct netns_xfrm *) Abi 896 8 [
    ("state_all", 0, 128); ("state_bydst", 128, 64); ("state_bysrc", 192, 64); ("state_byspi", 256, 64);
    ("state_byseq", 320, 64); ("state_cache_input", 384, 64); ("state_hmask", 448, 32); ("state_num", 480,
    32); ("state_hash_work", 512, 256); ("policy_all", 768, 128); ("policy_byidx", 896, 64);
    ("policy_idx_hmask", 960, 32); ("idx_generator", 992, 32); ("policy_bydst", 1024, 384); ("policy_count",
    1408, 192); ("policy_hash_work", 1600, 256); ("policy_hthresh", 1856, 384); ("inexact_bins", 2240, 128);
    ("nlsk", 2368, 64); ("nlsk_stash", 2432, 64); ("sysctl_aevent_etime", 2496, 32); ("sysctl_aevent_rseqth",
    2528, 32); ("sysctl_larval_drop", 2560, 32); ("sysctl_acq_expires", 2592, 32); ("policy_default", 2624,
    24); ("sysctl_hdr", 2688, 64); ("xfrm4_dst_ops", 3072, 1536); ("xfrm6_dst_ops", 4608, 1536);
    ("xfrm_state_lock", 6144, 32); ("xfrm_state_hash_generation", 6176, 32); ("xfrm_policy_hash_generation",
    6208, 32); ("xfrm_policy_lock", 6240, 32); ("xfrm_cfg_mutex", 6272, 192); ("nat_keepalive_work", 6464,
    704)];
  (* struct seqcount_mutex *) Abi 4 4 [
    ("seqcount", 0, 32)];
  (* seqcount_mutex_t *) Abi 4 4 [
    ("seqcount", 0, 32)];
  (* struct netns_mpls *) Abi 64 8 [
    ("ip_ttl_propagate", 0, 32); ("default_ttl", 32, 32); ("platform_labels", 64, 64); ("platform_label", 128,
    64); ("platform_mutex", 192, 192); ("platform_label_seq", 384, 32); ("ctl", 448, 64)];
  (* struct netns_can *) Abi 160 8 [
    ("proc_dir", 0, 64); ("pde_stats", 64, 64); ("pde_reset_stats", 128, 64); ("pde_rcvlist_all", 192, 64);
    ("pde_rcvlist_fil", 256, 64); ("pde_rcvlist_inv", 320, 64); ("pde_rcvlist_sff", 384, 64);
    ("pde_rcvlist_eff", 448, 64); ("pde_rcvlist_err", 512, 64); ("bcmproc_dir", 576, 64); ("rx_alldev_list",
    640, 64); ("rcvlists_lock", 704, 32); ("stattimer", 768, 320); ("pkg_stats", 1088, 64);
    ("rcv_lists_stats", 1152, 64); ("cgw_list", 1216, 64)];
  (* struct netns_xdp *) Abi 32 8 [
    ("lock", 0, 192); ("list", 192, 64)];
  (* struct netns_smc *) Abi 104 8 [
    ("smc_stats", 0, 64); ("mutex_fback_rsn", 64, 192); ("fback_rsn", 256, 64); ("limit_smc_hs", 320, 8);
    ("smc_hdr", 384, 64); ("hs_ctrl", 448, 64); ("sysctl_autocorking_size", 512, 32); ("sysctl_smcr_buf_type",
    544, 32); ("sysctl_smcr_testlink_time", 576, 32); ("sysctl_wmem", 608, 32); ("sysctl_rmem", 640, 32);
    ("sysctl_max_links_per_lgr", 672, 32); ("sysctl_max_conns_per_lgr", 704, 32); ("sysctl_smcr_max_send_wr",
    736, 32); ("sysctl_smcr_max_recv_wr", 768, 32)];
  (* struct netns_vsock *) Abi 32 8 [
    ("sysctl_hdr", 0, 64); ("port", 64, 32); ("mode", 96, 32); ("child_ns_mode", 128, 32);
    ("child_ns_mode_locked", 160, 32); ("g2h_fallback", 192, 32)];
  (* struct net *) Abi 4912 8 [
    ("passive", 0, 32); ("rules_mod_lock", 32, 32); ("dev_base_seq", 64, 32); ("ifindex", 96, 32);
    ("nsid_lock", 128, 32); ("fnhe_genid", 160, 32); ("list", 192, 128); ("exit_list", 320, 128);
    ("defer_free_list", 448, 64); ("cleanup_list", 512, 64); ("ptype_all", 576, 128); ("ptype_specific", 704,
    128); ("key_domain", 832, 64); ("user_ns", 896, 64); ("ucounts", 960, 64); ("netns_ids", 1024, 192);
    ("ns", 1536, 896); ("refcnt_tracker", 2432, 0); ("notrefcnt_tracker", 2432, 0); ("dev_base_head", 2432,
    128); ("proc_net", 2560, 64); ("proc_net_stat", 2624, 64); ("sysctls", 2688, 832); ("rtnl", 3520, 64);
    ("genl_sock", 3584, 64); ("uevent_sock", 3648, 64); ("dev_name_head", 3712, 64); ("dev_index_head", 3776,
    64); ("dev_by_index", 3840, 128); ("netdev_chain", 3968, 64); ("hash_mix", 4032, 32); ("is_dying", 4064,
    8); ("loopback_dev", 4096, 64); ("rules_ops", 4160, 128); ("core", 4288, 320); ("mib", 4608, 832);
    ("packet", 5440, 256); ("unx", 5696, 256); ("nexthop", 5952, 512); ("ipv4", 6528, 8192); ("ipv6", 14720,
    6656); ("ieee802154_lowpan", 21376, 128); ("sctp", 21504, 2368); ("nf", 23872, 2112); ("ct", 25984, 1472);
    ("nft", 27456, 64); ("ft", 27520, 64); ("wext_nlevents", 27584, 192); ("gen", 27776, 64); ("bpf", 27840,
    512); ("xfrm", 28544, 7168); ("net_cookie", 35712, 64); ("ipvs", 35776, 64); ("mpls", 35840, 512); ("can",
    36352, 1280); ("xdp", 37632, 256); ("crypto_nlsk", 37888, 64); ("diag_nlsk", 37952, 64); ("smc", 38016,
    832); ("vsock", 38848, 256)]].

(** The types of VmSockRefs.v. *)
Definition abi_vmsockrefs : list abi_row := [
  (* socket_state *) Abi 4 4 [];
  (* __le64 *) Abi 8 8 [];
  (* __s8 *) Abi 1 1 [];
  (* s8 *) Abi 1 1 [];
  (* __wsum *) Abi 4 4 [];
  (* sk_buff_data_t *) Abi 4 4 [];
  (* slab_flags_t *) Abi 4 4 [];
  (* kernel_cap_t *) Abi 8 8 [
    ("val", 0, 64)];
  (* memdesc_flags_t *) Abi 8 8 [
    ("f", 0, 64)];
  (* netdevice_tracker *) Abi 0 1 [];
  (* rcuref_t *) Abi 4 4 [
    ("refcnt", 0, 32)];
  (* xfrm_address_t *) Abi 16 4 [
    ("a4", 0, 32); ("a6", 0, 128); ("in6", 0, 128)];
  (* struct rhash_head *) Abi 8 8 [
    ("next", 0, 64)];
  (* struct rcu_work *) Abi 56 8 [
    ("work", 0, 256); ("rcu", 256, 128); ("wq", 384, 64)];
  (* struct percpu_ref *) Abi 16 8 [
    ("percpu_count_ptr", 0, 64); ("data", 64, 64)];
  (* struct cgroup_subsys_state *) Abi 208 8 [
    ("cgroup", 0, 64); ("ss", 64, 64); ("refcnt", 128, 128); ("rstat_cpu", 256, 64); ("sibling", 320, 128);
    ("children", 448, 128); ("id", 576, 32); ("flags", 608, 32); ("serial_nr", 640, 64); ("online_cnt", 704,
    32); ("destroy_work", 768, 256); ("destroy_rwork", 1024, 448); ("parent", 1472, 64); ("nr_descendants",
    1536, 32); ("rstat_flush_next", 1600, 64)];
  (* rqspinlock_t *) Abi 4 4 [
    ("val", 0, 32); ("locked", 0, 8); ("pending", 8, 8); ("locked_pending", 0, 16); ("tail", 16, 16)];
  (* struct sk_buff *) Abi 232 8 [
    ("next", 0, 64); ("prev", 64, 64); ("dev", 128, 64); ("dev_scratch", 128, 64); ("rbnode", 0, 192);
    ("list", 0, 128); ("ll_node", 0, 64); ("sk", 192, 64); ("tstamp", 256, 64); ("skb_mstamp_ns", 256, 64);
    ("cb", 320, 384); ("_skb_refdst", 704, 64); ("destructor", 768, 64); ("tcp_tsorted_anchor", 704, 128);
    ("_sk_redir", 704, 64); ("_nfct", 832, 64); ("len", 896, 32); ("data_len", 928, 32); ("mac_len", 960, 16);
    ("hdr_len", 976, 16); ("queue_mapping", 992, 16); ("__cloned_offset", 1008, 0); ("cloned", 1008, 1);
    ("nohdr", 1009, 1); ("fclone", 1010, 2); ("peeked", 1012, 1); ("head_frag", 1013, 1); ("pfmemalloc", 1014,
    1); ("pp_recycle", 1015, 1); ("active_extensions", 1016, 8); ("__pkt_type_offset", 1024, 0); ("pkt_type",
    1024, 3); ("ignore_df", 1027, 1); ("dst_pending_confirm", 1028, 1); ("ip_summed", 1029, 2); ("ooo_okay",
    1031, 1); ("__mono_tc_offset", 1032, 0); ("tstamp_type", 1032, 2); ("tc_at_ingress", 1034, 1);
    ("tc_skip_classify", 1035, 1); ("remcsum_offload", 1036, 1); ("csum_complete_sw", 1037, 1); ("csum_level",
    1038, 2); ("inner_protocol_type", 1040, 1); ("l4_hash", 1041, 1); ("sw_hash", 1042, 1);
    ("wifi_acked_valid", 1043, 1); ("wifi_acked", 1044, 1); ("no_fcs", 1045, 1); ("encapsulation", 1046, 1);
    ("encap_hdr_csum", 1047, 1); ("csum_valid", 1048, 1); ("ndisc_nodetype", 1049, 2); ("ipvs_property", 1051,
    1); ("nf_trace", 1052, 1); ("offload_fwd_mark", 1053, 1); ("offload_l3_fwd_mark", 1054, 1); ("redirected",
    1055, 1); ("from_ingress", 1056, 1); ("nf_skip_egress", 1057, 1); ("decrypted", 1058, 1); ("slow_gro",
    1059, 1); ("csum_not_inet", 1060, 1); ("unreadable", 1061, 1); ("tc_depth", 1062, 2); ("tc_index", 1072,
    16); ("alloc_cpu", 1088, 16); ("csum", 1120, 32); ("csum_start", 1120, 16); ("csum_offset", 1136, 16);
    ("priority", 1152, 32); ("skb_iif", 1184, 32); ("hash", 1216, 32); ("vlan_all", 1248, 32); ("vlan_proto",
    1248, 16); ("vlan_tci", 1264, 16); ("napi_id", 1280, 32); ("sender_cpu", 1280, 32); ("secmark", 1312, 32);
    ("mark", 1344, 32); ("reserved_tailroom", 1344, 32); ("inner_protocol", 1376, 16); ("inner_ipproto", 1376,
    8); ("inner_transport_header", 1392, 16); ("inner_network_header", 1408, 16); ("inner_mac_header", 1424,
    16); ("protocol", 1440, 16); ("transport_header", 1456, 16); ("network_header", 1472, 16); ("mac_header",
    1488, 16); ("headers", 1024, 480); ("tail", 1504, 32); ("end", 1536, 32); ("head", 1600, 64); ("data",
    1664, 64); ("truesize", 1728, 32); ("users", 1760, 32); ("extensions", 1792, 64)];
  (* struct bpf_local_storage *) Abi 184 8 [
    ("cache", 0, 1024); ("list", 1024, 64); ("owner", 1088, 64); ("rcu", 1152, 128); ("lock", 1280, 32);
    ("mem_charge", 1344, 64); ("owner_refcnt", 1408, 32)];
  (* struct cacheline_padding *) Abi 0 1 [
    ("x", 0, 0)];
  (* struct cgroup_file *) Abi 64 8 [
    ("kn", 0, 64); ("notified_at", 64, 64); ("notify_timer", 128, 320); ("lock", 448, 32)];
  (* struct task_cputime *) Abi 24 8 [
    ("stime", 0, 64); ("utime", 64, 64); ("sum_exec_runtime", 128, 64)];
  (* struct cgroup_base_stat *) Abi 40 8 [
    ("cputime", 0, 192); ("forceidle_sum", 192, 64); ("ntime", 256, 64)];
  (* struct cgroup_bpf *) Abi 1024 8 [
    ("effective", 0, 2432); ("progs", 2432, 2432); ("flags", 4864, 304); ("revisions", 5184, 2432);
    ("storages", 7616, 128); ("inactive", 7744, 64); ("refcnt", 7808, 128); ("release_work", 7936, 256)];
  (* struct cgroup_freezer_state *) Abi 32 8 [
    ("freeze", 0, 8); ("e_freeze", 8, 8); ("nr_frozen_descendants", 32, 32); ("nr_frozen_tasks", 64, 32);
    ("freeze_seq", 96, 32); ("freeze_start_nsec", 128, 64); ("frozen_nsec", 192, 64)];
  (* struct cgroup *) Abi 2560 8 [
    ("self", 0, 1664); ("flags", 1664, 64); ("level", 1728, 32); ("max_depth", 1760, 32); ("nr_descendants",
    1792, 32); ("nr_dying_descendants", 1824, 32); ("max_descendants", 1856, 32); ("nr_populated_csets", 1888,
    32); ("nr_populated_domain_children", 1920, 32); ("nr_populated_threaded_children", 1952, 32);
    ("nr_threaded_children", 1984, 32); ("kill_seq", 2016, 32); ("kn", 2048, 64); ("procs_file", 2112, 512);
    ("events_file", 2624, 512); ("psi_files", 3136, 2048); ("subtree_control", 5184, 32); ("subtree_ss_mask",
    5216, 32); ("old_subtree_control", 5248, 32); ("old_subtree_ss_mask", 5280, 32); ("subsys", 5312, 1024);
    ("nr_dying_subsys", 6336, 512); ("root", 6848, 64); ("cset_links", 6912, 128); ("e_csets", 7040, 2048);
    ("dom_cgrp", 9088, 64); ("old_dom_cgrp", 9152, 64); ("rstat_base_cpu", 9216, 64); ("_pad_", 9728, 0);
    ("last_bstat", 9728, 320); ("bstat", 10048, 320); ("prev_cputime", 10368, 192); ("pidlists", 10560, 128);
    ("pidlist_mutex", 10688, 192); ("offline_waitq", 10880, 192); ("finish_destroy_work", 11072, 256);
    ("release_agent_work", 11328, 256); ("psi", 11584, 64); ("bpf", 11648, 8192); ("freezer", 19840, 256);
    ("bpf_cgrp_storage", 20096, 64); ("scx_sched", 20160, 64); ("__empty_ancestors", 20224, 0); ("ancestors",
    20224, 0); ("_root_ancestor", 20224, 64); ("__empty__low_ancestors", 20288, 0); ("_low_ancestors", 20288,
    0)];
  (* struct cred *) Abi 184 8 [
    ("usage", 0, 64); ("uid", 64, 32); ("gid", 96, 32); ("suid", 128, 32); ("sgid", 160, 32); ("euid", 192,
    32); ("egid", 224, 32); ("fsuid", 256, 32); ("fsgid", 288, 32); ("securebits", 320, 32);
    ("cap_inheritable", 384, 64); ("cap_permitted", 448, 64); ("cap_effective", 512, 64); ("cap_bset", 576,
    64); ("cap_ambient", 640, 64); ("jit_keyring", 704, 8); ("session_keyring", 768, 64); ("process_keyring",
    832, 64); ("thread_keyring", 896, 64); ("request_key_auth", 960, 64); ("security", 1024, 64); ("user",
    1088, 64); ("user_ns", 1152, 64); ("ucounts", 1216, 64); ("group_info", 1280, 64); ("non_rcu", 1344, 32);
    ("rcu", 1344, 128)];
  (* struct deferred_split *) Abi 32 8 [
    ("split_queue_lock", 0, 32); ("split_queue", 64, 128); ("split_queue_len", 192, 64)];
  (* struct page_counter *) Abi 192 8 [
    ("usage", 0, 64); ("failcnt", 64, 64); ("_pad1_", 512, 0); ("emin", 512, 64); ("min_usage", 576, 64);
    ("children_min_usage", 640, 64); ("elow", 704, 64); ("low_usage", 768, 64); ("children_low_usage", 832,
    64); ("watermark", 896, 64); ("local_watermark", 960, 64); ("_pad2_", 1024, 0); ("protection_support",
    1024, 8); ("track_failcnt", 1032, 8); ("min", 1088, 64); ("low", 1152, 64); ("high", 1216, 64); ("max",
    1280, 64); ("parent", 1344, 64)];
  (* struct dst_entry *) Abi 136 8 [
    ("dev", 0, 64); ("dev_rcu", 0, 64); ("ops", 64, 64); ("_metrics", 128, 64); ("expires", 192, 64); ("xfrm",
    256, 64); ("input", 320, 64); ("output", 384, 64); ("flags", 448, 16); ("obsolete", 464, 16);
    ("header_len", 480, 16); ("trailer_len", 496, 16); ("__rcuref", 512, 32); ("__use", 544, 32); ("lastuse",
    576, 64); ("callback_head", 640, 128); ("error", 768, 16); ("__pad", 784, 16); ("tclassid", 800, 32);
    ("dev_tracker", 832, 0); ("rt_uncached", 832, 128); ("rt_uncached_list", 960, 64); ("lwtstate", 1024, 64)];
  (* struct page *) Abi 64 8 [
    ("flags", 0, 64); ("lru", 64, 128); ("buddy_list", 64, 128); ("pcp_list", 64, 128); ("pcp_llist", 64, 64);
    ("mapping", 192, 64); ("__folio_index", 256, 64); ("share", 256, 64); ("private", 320, 64); ("pp_magic",
    64, 64); ("pp", 128, 64); ("_pp_mapping_pad", 192, 64); ("dma_addr", 256, 64); ("pp_ref_count", 320, 64);
    ("compound_info", 64, 64); ("_unused_pgmap_compound_info", 64, 64); ("zone_device_data", 128, 64);
    ("callback_head", 64, 128); ("page_type", 384, 32); ("_mapcount", 384, 32); ("_refcount", 416, 32);
    ("memcg_data", 448, 64)];
  (* struct fprop_global *) Abi 48 8 [
    ("events", 0, 320); ("period", 320, 32); ("sequence", 352, 32)];
  (* struct request_sock *) Abi 232 8 [
    ("__req_common", 0, 1088); ("dl_next", 1088, 64); ("mss", 1152, 16); ("num_retrans", 1168, 8);
    ("syncookie", 1176, 1); ("num_timeout", 1177, 7); ("ts_recent", 1184, 32); ("rsk_timer", 1216, 320);
    ("rsk_ops", 1536, 64); ("sk", 1600, 64); ("saved_syn", 1664, 64); ("secid", 1728, 32); ("peer_secid",
    1760, 32); ("timeout", 1792, 32)];
  (* struct lru_gen_mm_list *) Abi 24 8 [
    ("fifo", 0, 128); ("lock", 128, 32)];
  (* struct mem_cgroup_private_id *) Abi 8 4 [
    ("id", 0, 32); ("ref", 32, 32)];
  (* struct vmpressure *) Abi 112 8 [
    ("scanned", 0, 64); ("reclaimed", 64, 64); ("tree_scanned", 128, 64); ("tree_reclaimed", 192, 64);
    ("sr_lock", 256, 32); ("events", 320, 128); ("events_lock", 448, 192); ("work", 640, 256)];
  (* struct wb_domain *) Abi 120 8 [
    ("lock", 0, 32); ("completions", 64, 384); ("period_timer", 448, 320); ("period_time", 768, 64);
    ("dirty_limit_tstamp", 832, 64); ("dirty_limit", 896, 64)];
  (* struct wb_completion *) Abi 32 8 [
    ("cnt", 0, 32); ("waitq", 64, 64); ("progress_stamp", 128, 64); ("wait_start", 192, 64)];
  (* struct memcg_cgwb_frn *) Abi 56 8 [
    ("bdi_id", 0, 64); ("memcg_id", 64, 32); ("at", 128, 64); ("done", 192, 256)];
  (* struct mem_cgroup *) Abi 1664 8 [
    ("css", 0, 1664); ("id", 1664, 64); ("memory", 2048, 1536); ("swap", 3584, 1536); ("memsw", 3584, 1536);
    ("memory_peaks", 5120, 128); ("swap_peaks", 5248, 128); ("peaks_lock", 5376, 32); ("high_work", 5440,
    256); ("zswap_max", 5696, 64); ("zswap_writeback", 5760, 8); ("vmpressure", 5824, 896); ("oom_group",
    6720, 8); ("swappiness", 6752, 32); ("events_file", 6784, 512); ("events_local_file", 7296, 512);
    ("swap_events_file", 7808, 512); ("vmstats", 8320, 64); ("memory_events", 8384, 640);
    ("memory_events_local", 9024, 640); ("socket_pressure", 9664, 64); ("kmemcg_id", 9728, 32);
    ("vmstats_percpu", 9792, 64); ("cgwb_list", 9856, 128); ("cgwb_domain", 9984, 960); ("cgwb_frn", 10944,
    1792); ("deferred_split_queue", 12736, 256); ("mm_list", 12992, 192); ("nodeinfo", 13184, 0)];
  (* struct numa_drop_counters *) Abi 128 4 [
    ("drops0", 0, 32); ("drops1", 512, 32)];
  (* struct upid *) Abi 16 8 [
    ("nr", 0, 32); ("ns", 64, 64)];
  (* struct pid *) Abi 128 8 [
    ("count", 0, 32); ("level", 32, 32); ("lock", 64, 32); ("ino", 128, 64); ("pidfs_hash", 192, 64);
    ("stashed", 256, 64); ("attr", 320, 64); ("tasks", 384, 256); ("inodes", 640, 64); ("wait_pidfd", 704,
    192); ("rcu", 896, 128); ("numbers", 1024, 0)];
  (* struct proto *) Abi 448 8 [
    ("close", 0, 64); ("pre_connect", 64, 64); ("connect", 128, 64); ("disconnect", 192, 64); ("accept", 256,
    64); ("ioctl", 320, 64); ("init", 384, 64); ("destroy", 448, 64); ("shutdown", 512, 64); ("setsockopt",
    576, 64); ("getsockopt", 640, 64); ("keepalive", 704, 64); ("compat_ioctl", 768, 64); ("sendmsg", 832,
    64); ("recvmsg", 896, 64); ("splice_eof", 960, 64); ("bind", 1024, 64); ("bind_add", 1088, 64);
    ("backlog_rcv", 1152, 64); ("bpf_bypass_getsockopt", 1216, 64); ("release_cb", 1280, 64); ("hash", 1344,
    64); ("unhash", 1408, 64); ("rehash", 1472, 64); ("get_port", 1536, 64); ("put_port", 1600, 64);
    ("psock_update_sk_prot", 1664, 64); ("inuse_idx", 1728, 32); ("stream_memory_free", 1792, 64);
    ("sock_is_readable", 1856, 64); ("enter_memory_pressure", 1920, 64); ("leave_memory_pressure", 1984, 64);
    ("memory_allocated", 2048, 64); ("per_cpu_fw_alloc", 2112, 64); ("sockets_allocated", 2176, 64);
    ("memory_pressure", 2240, 64); ("sysctl_mem", 2304, 64); ("sysctl_wmem", 2368, 64); ("sysctl_rmem", 2432,
    64); ("sysctl_wmem_offset", 2496, 32); ("sysctl_rmem_offset", 2528, 32); ("max_header", 2560, 32);
    ("no_autobind", 2592, 8); ("slab", 2624, 64); ("obj_size", 2688, 32); ("freeptr_offset", 2720, 32);
    ("ipv6_pinfo_offset", 2752, 32); ("slab_flags", 2784, 32); ("useroffset", 2816, 32); ("usersize", 2848,
    32); ("rsk_prot", 2880, 64); ("twsk_prot", 2944, 64); ("h", 3008, 64); ("owner", 3072, 64); ("name", 3136,
    256); ("node", 3392, 128); ("diag_destroy", 3520, 64)];
  (* struct saved_syn *) Abi 12 4 [
    ("mac_hdrlen", 0, 32); ("network_hdrlen", 32, 32); ("tcp_hdrlen", 64, 32); ("data", 96, 0)];
  (* struct sk_filter *) Abi 32 8 [
    ("refcnt", 0, 32); ("rcu", 64, 128); ("prog", 192, 64)];
  (* struct sock_reuseport *) Abi 48 8 [
    ("rcu", 0, 128); ("max_socks", 128, 16); ("num_socks", 144, 16); ("num_closed_socks", 160, 16);
    ("incoming_cpu", 176, 16); ("synq_overflow_ts", 192, 32); ("reuseport_id", 224, 32); ("bind_inany", 256,
    1); ("has_conns", 257, 1); ("prog", 320, 64); ("socks", 384, 0)];
  (* struct socket_wq *) Abi 64 8 [
    ("wait", 0, 192); ("fasync_list", 192, 64); ("flags", 256, 64); ("rcu", 320, 128)];
  (* struct socket *) Abi 128 8 [
    ("state", 0, 32); ("type", 32, 16); ("flags", 64, 64); ("file", 128, 64); ("sk", 192, 64); ("ops", 256,
    64); ("wq", 512, 512)];
  (* struct tcp_fastopen_cookie *) Abi 24 8 [
    ("val", 0, 128); ("len", 128, 8); ("exp", 136, 8)];
  (* struct tcp_fastopen_request *) Abi 56 8 [
    ("cookie", 0, 192); ("data", 192, 64); ("size", 256, 64); ("copied", 320, 32); ("uarg", 384, 64)];
  (* struct tcp_md5sig_info *) Abi 24 8 [
    ("head", 0, 64); ("rcu", 64, 128)];
  (* struct tcp_sock_af_ops *) Abi 24 8 [
    ("md5_lookup", 0, 64); ("calc_md5_hash", 64, 64); ("md5_parse", 128, 64)];
  (* struct xfrm_dev_offload *) Abi 32 8 [
    ("dev", 0, 64); ("dev_tracker", 64, 0); ("real_dev", 64, 64); ("offload_handle", 128, 64); ("dir", 192,
    2); ("type", 194, 2); ("flags", 196, 2)];
  (* struct xfrm_id *) Abi 24 4 [
    ("daddr", 0, 128); ("spi", 128, 32); ("proto", 160, 8)];
  (* struct xfrm_lifetime_cfg *) Abi 64 8 [
    ("soft_byte_limit", 0, 64); ("hard_byte_limit", 64, 64); ("soft_packet_limit", 128, 64);
    ("hard_packet_limit", 192, 64); ("soft_add_expires_seconds", 256, 64); ("hard_add_expires_seconds", 320,
    64); ("soft_use_expires_seconds", 384, 64); ("hard_use_expires_seconds", 448, 64)];
  (* struct xfrm_lifetime_cur *) Abi 32 8 [
    ("bytes", 0, 64); ("packets", 64, 64); ("add_time", 128, 64); ("use_time", 192, 64)];
  (* struct xfrm_mark *) Abi 8 4 [
    ("v", 0, 32); ("m", 32, 32)];
  (* struct xfrm_selector *) Abi 56 4 [
    ("daddr", 0, 128); ("saddr", 128, 128); ("dport", 256, 16); ("dport_mask", 272, 16); ("sport", 288, 16);
    ("sport_mask", 304, 16); ("family", 320, 16); ("prefixlen_d", 336, 8); ("prefixlen_s", 344, 8); ("proto",
    352, 8); ("ifindex", 384, 32); ("user", 416, 32)];
  (* struct xfrm_policy_walk_entry *) Abi 24 8 [
    ("all", 0, 128); ("dead", 128, 8)];
  (* struct xfrm_policy_queue *) Abi 72 8 [
    ("hold_queue", 0, 192); ("hold_timer", 192, 320); ("timeout", 512, 64)];
  (* struct xfrm_tmpl *) Abi 64 4 [
    ("id", 0, 192); ("saddr", 192, 128); ("encap_family", 320, 16); ("reqid", 352, 32); ("mode", 384, 8);
    ("share", 392, 8); ("optional", 400, 8); ("allalgs", 408, 8); ("aalgos", 416, 32); ("ealgos", 448, 32);
    ("calgos", 480, 32)];
  (* struct xfrm_policy *) Abi 824 8 [
    ("xp_net", 0, 64); ("bydst", 64, 128); ("byidx", 192, 128); ("state_cache_list", 320, 64); ("lock", 384,
    64); ("refcnt", 448, 32); ("pos", 480, 32); ("timer", 512, 320); ("genid", 832, 32); ("priority", 864,
    32); ("index", 896, 32); ("if_id", 928, 32); ("mark", 960, 64); ("selector", 1024, 448); ("lft", 1472,
    512); ("curlft", 1984, 256); ("walk", 2240, 192); ("polq", 2432, 576); ("bydst_reinsert", 3008, 8);
    ("type", 3016, 8); ("action", 3024, 8); ("flags", 3032, 8); ("xfrm_nr", 3040, 8); ("family", 3056, 16);
    ("security", 3072, 64); ("xfrm_vec", 3136, 3072); ("rcu", 6208, 128); ("xdo", 6336, 256)]].

(** The types of VmTaskRefs.v. *)
Definition abi_vmtaskrefs : list abi_row := [
  (* enum audit_state *) Abi 4 4 [];
  (* enum uprobe_task_state *) Abi 4 4 [];
  (* __kernel_mqd_t *) Abi 4 4 [];
  (* __kernel_timer_t *) Abi 4 4 [];
  (* compat_long_t *) Abi 4 4 [];
  (* int32_t *) Abi 4 4 [];
  (* key_serial_t *) Abi 4 4 [];
  (* mqd_t *) Abi 4 4 [];
  (* __kernel_long_t *) Abi 8 8 [];
  (* __kernel_clock_t *) Abi 8 8 [];
  (* phys_addr_t *) Abi 8 8 [];
  (* vm_flags_t *) Abi 8 8 [];
  (* s16 *) Abi 2 2 [];
  (* umode_t *) Abi 2 2 [];
  (* uint32_t *) Abi 4 4 [];
  (* __kernel_dev_t *) Abi 4 4 [];
  (* blk_mode_t *) Abi 4 4 [];
  (* compat_uptr_t *) Abi 4 4 [];
  (* dev_t *) Abi 4 4 [];
  (* key_perm_t *) Abi 4 4 [];
  (* mm_id_t *) Abi 4 4 [];
  (* local_t *) Abi 8 8 [
    ("a", 0, 64)];
  (* mm_context_t *) Abi 128 8 [
    ("ctx_id", 0, 64); ("tlb_gen", 64, 64); ("next_trim_cpumask", 128, 64); ("ldt_usr_sem", 192, 256); ("ldt",
    448, 64); ("flags", 512, 64); ("lock", 576, 192); ("vdso", 768, 64); ("vdso_image", 832, 64);
    ("perf_rdpmc_allowed", 896, 32); ("pkey_allocation_map", 928, 16); ("execute_only_pkey", 944, 16);
    ("global_asid", 960, 16); ("asid_transition", 976, 8)];
  (* mm_flags_t *) Abi 8 8 [
    ("__mm_flags", 0, 64)];
  (* vfsuid_t *) Abi 4 4 [
    ("val", 0, 32)];
  (* vma_flags_t *) Abi 8 8 [
    ("__vma_flags", 0, 64)];
  (* union sigval *) Abi 8 8 [
    ("sival_int", 0, 32); ("sival_ptr", 0, 64)];
  (* sigval_t *) Abi 8 8 [
    ("sival_int", 0, 32); ("sival_ptr", 0, 64)];
  (* union __sifields *) Abi 32 8 [
    ("_kill", 0, 64); ("_timer", 0, 192); ("_rt", 0, 128); ("_sigchld", 0, 256); ("_sigfault", 0, 256);
    ("_sigpoll", 0, 128); ("_sigsys", 0, 128)];
  (* struct kref *) Abi 4 4 [
    ("refcount", 0, 32)];
  (* struct rlimit *) Abi 16 8 [
    ("rlim_cur", 0, 64); ("rlim_max", 64, 64)];
  (* struct kobject *) Abi 64 8 [
    ("name", 0, 64); ("entry", 64, 128); ("parent", 192, 64); ("kset", 256, 64); ("ktype", 320, 64); ("sd",
    384, 64); ("kref", 448, 32); ("state_initialized", 480, 1); ("state_in_sysfs", 481, 1);
    ("state_add_uevent_sent", 482, 1); ("state_remove_uevent_sent", 483, 1); ("uevent_suppress", 484, 1)];
  (* struct swait_queue_head *) Abi 24 8 [
    ("lock", 0, 32); ("task_list", 64, 128)];
  (* struct completion *) Abi 32 8 [
    ("done", 0, 32); ("wait", 64, 192)];
  (* struct audit_ntp_val *) Abi 16 8 [
    ("oldval", 0, 64); ("newval", 64, 64)];
  (* struct audit_ntp_data *) Abi 96 8 [
    ("vals", 0, 768)];
  (* struct codetag *) Abi 32 8 [
    ("flags", 0, 32); ("lineno", 32, 32); ("modname", 64, 64); ("function", 128, 64); ("filename", 192, 64)];
  (* struct alloc_tag *) Abi 40 8 [
    ("ct", 0, 256); ("counters", 256, 64)];
  (* struct path *) Abi 16 8 [
    ("mnt", 0, 64); ("dentry", 64, 64)];
  (* struct arch_uprobe_task *) Abi 16 8 [
    ("saved_scratch_register", 0, 64); ("saved_trap_nr", 64, 32); ("saved_tf", 96, 32)];
  (* struct assoc_array *) Abi 16 8 [
    ("root", 0, 64); ("nr_leaves_on_tree", 64, 64)];
  (* struct audit_cap_data *) Abi 40 8 [
    ("permitted", 0, 64); ("inheritable", 64, 64); ("fE", 128, 32); ("effective", 128, 64); ("ambient", 192,
    64); ("rootid", 256, 32)];
  (* struct lsm_prop_selinux *) Abi 4 4 [
    ("secid", 0, 32)];
  (* struct lsm_prop_smack *) Abi 0 1 [];
  (* struct lsm_prop_apparmor *) Abi 8 8 [
    ("label", 0, 64)];
  (* struct lsm_prop_bpf *) Abi 4 4 [
    ("secid", 0, 32)];
  (* struct lsm_prop *) Abi 24 8 [
    ("selinux", 0, 32); ("smack", 32, 0); ("apparmor", 64, 64); ("bpf", 128, 32)];
  (* struct audit_stamp *) Abi 24 8 [
    ("ctime", 0, 128); ("serial", 128, 32)];
  (* struct audit_names *) Abi 136 8 [
    ("list", 0, 128); ("name", 128, 64); ("name_len", 192, 32); ("hidden", 224, 8); ("ino", 256, 64); ("dev",
    320, 32); ("mode", 352, 16); ("uid", 384, 32); ("gid", 416, 32); ("rdev", 448, 32); ("oprop", 512, 192);
    ("fcap", 704, 320); ("fcap_ver", 1024, 32); ("type", 1056, 8); ("should_free", 1064, 8)];
  (* struct mq_attr *) Abi 64 8 [
    ("mq_flags", 0, 64); ("mq_maxmsg", 64, 64); ("mq_msgsize", 128, 64); ("mq_curmsgs", 192, 64);
    ("__reserved", 256, 256)];
  (* struct open_how *) Abi 24 8 [
    ("flags", 0, 64); ("mode", 64, 64); ("resolve", 128, 64)];
  (* struct audit_proctitle *) Abi 16 8 [
    ("len", 0, 32); ("value", 64, 64)];
  (* struct audit_context *) Abi 1152 8 [
    ("dummy", 0, 32); ("context", 32, 32); ("state", 64, 32); ("current_state", 96, 32); ("stamp", 128, 192);
    ("major", 320, 32); ("uring_op", 352, 32); ("argv", 384, 256); ("return_code", 640, 64); ("prio", 704,
    64); ("return_valid", 768, 32); ("preallocated_names", 832, 5440); ("name_count", 6272, 32);
    ("names_list", 6336, 128); ("filterkey", 6464, 64); ("pwd", 6528, 128); ("aux", 6656, 64); ("aux_pids",
    6720, 64); ("sockaddr", 6784, 64); ("sockaddr_len", 6848, 64); ("ppid", 6912, 32); ("uid", 6944, 32);
    ("euid", 6976, 32); ("suid", 7008, 32); ("fsuid", 7040, 32); ("gid", 7072, 32); ("egid", 7104, 32);
    ("sgid", 7136, 32); ("fsgid", 7168, 32); ("personality", 7232, 64); ("arch", 7296, 32); ("target_pid",
    7328, 32); ("target_auid", 7360, 32); ("target_uid", 7392, 32); ("target_sessionid", 7424, 32);
    ("target_ref", 7488, 192); ("target_comm", 7680, 128); ("trees", 7808, 64); ("first_trees", 7872, 64);
    ("killed_trees", 7936, 128); ("tree_count", 8064, 32); ("type", 8096, 32); ("socketcall", 8128, 448);
    ("ipc", 8128, 512); ("mq_getsetattr", 8128, 576); ("mq_notify", 8128, 64); ("mq_sendrecv", 8128, 320);
    ("mq_open", 8128, 576); ("capset", 8128, 384); ("mmap", 8128, 64); ("openat2", 8128, 192); ("execve",
    8128, 32); ("module", 8128, 64); ("time", 8128, 896); ("fds", 9024, 64); ("proctitle", 9088, 128)];
  (* struct bio_list *) Abi 16 8 [
    ("head", 0, 64); ("tail", 64, 64)];
  (* struct mempool *) Abi 72 8 [
    ("lock", 0, 32); ("min_nr", 32, 32); ("curr_nr", 64, 32); ("elements", 128, 64); ("pool_data", 192, 64);
    ("alloc", 256, 64); ("free", 320, 64); ("wait", 384, 192)];
  (* mempool_t *) Abi 72 8 [
    ("lock", 0, 32); ("min_nr", 32, 32); ("curr_nr", 64, 32); ("elements", 128, 64); ("pool_data", 192, 64);
    ("alloc", 256, 64); ("free", 320, 64); ("wait", 384, 192)];
  (* struct bio_set *) Abi 248 8 [
    ("bio_slab", 0, 64); ("front_pad", 64, 32); ("cache", 128, 64); ("bio_pool", 192, 576); ("bvec_pool", 768,
    576); ("back_pad", 1344, 32); ("rescue_lock", 1376, 32); ("rescue_list", 1408, 128); ("rescue_work", 1536,
    256); ("rescue_workqueue", 1792, 64); ("cpuhp_dead", 1856, 128)];
  (* struct lockdep_map *) Abi 0 1 [];
  (* struct rq_list *) Abi 16 8 [
    ("head", 0, 64); ("tail", 64, 64)];
  (* struct blk_plug *) Abi 64 8 [
    ("mq_list", 0, 128); ("cached_rqs", 128, 128); ("cur_ktime", 256, 64); ("nr_ios", 320, 16); ("rq_count",
    336, 16); ("multiple_queues", 352, 8); ("has_elevator", 360, 8); ("cb_list", 384, 128)];
  (* struct rcuwait *) Abi 8 8 [
    ("task", 0, 64)];
  (* struct irq_work *) Abi 32 8 [
    ("node", 0, 128); ("func", 128, 64); ("irqwait", 192, 64)];
  (* struct bpf_run_ctx *) Abi 0 1 [];
  (* struct bpf_nh_params *) Abi 20 4 [
    ("nh_family", 0, 32); ("ipv4_nh", 32, 32); ("ipv6_nh", 32, 128)];
  (* struct bpf_redirect_info *) Abi 64 8 [
    ("tgt_index", 0, 64); ("tgt_value", 64, 64); ("map", 128, 64); ("flags", 192, 32); ("map_id", 224, 32);
    ("map_type", 256, 32); ("nh", 288, 160); ("kern_flags", 448, 32)];
  (* struct bpf_net_context *) Abi 112 8 [
    ("ri", 0, 512); ("cpu_map_flush_list", 512, 128); ("dev_map_flush_list", 640, 128);
    ("xskmap_map_flush_list", 768, 128)];
  (* struct capture_control *) Abi 16 8 [
    ("cc", 0, 64); ("page", 64, 64)];
  (* struct cfs_bandwidth *) Abi 272 8 [
    ("lock", 0, 32); ("period", 64, 64); ("quota", 128, 64); ("runtime", 192, 64); ("burst", 256, 64);
    ("runtime_snap", 320, 64); ("hierarchical_quota", 384, 64); ("idle", 448, 8); ("period_active", 456, 8);
    ("slack_started", 464, 8); ("period_timer", 512, 640); ("slack_timer", 1152, 640); ("throttled_cfs_rq",
    1792, 128); ("nr_periods", 1920, 32); ("nr_throttled", 1952, 32); ("nr_burst", 1984, 32);
    ("throttled_time", 2048, 64); ("burst_time", 2112, 64)];
  (* struct compat_robust_list *) Abi 4 4 [
    ("next", 0, 32)];
  (* struct compat_robust_list_head *) Abi 12 4 [
    ("list", 0, 32); ("futex_offset", 32, 32); ("list_op_pending", 64, 32)];
  (* struct kernel_siginfo *) Abi 48 8 [
    ("si_signo", 0, 32); ("si_errno", 32, 32); ("si_code", 64, 32); ("_sifields", 128, 256)];
  (* kernel_siginfo_t *) Abi 48 8 [
    ("si_signo", 0, 32); ("si_errno", 32, 32); ("si_code", 64, 32); ("_sifields", 128, 256)];
  (* struct cpu_itimer *) Abi 16 8 [
    ("expires", 0, 64); ("incr", 64, 64)];
  (* struct css_set *) Abi 640 8 [
    ("subsys", 0, 1024); ("refcount", 1024, 32); ("dom_cset", 1088, 64); ("dfl_cgrp", 1152, 64); ("nr_tasks",
    1216, 32); ("tasks", 1280, 128); ("mg_tasks", 1408, 128); ("dying_tasks", 1536, 128); ("task_iters", 1664,
    128); ("e_cset_node", 1792, 2048); ("threaded_csets", 3840, 128); ("threaded_csets_node", 3968, 128);
    ("hlist", 4096, 128); ("cgrp_links", 4224, 128); ("mg_src_preload_node", 4352, 128);
    ("mg_dst_preload_node", 4480, 128); ("mg_node", 4608, 128); ("mg_src_cgrp", 4736, 64); ("mg_dst_cgrp",
    4800, 64); ("mg_dst_cset", 4864, 64); ("dead", 4928, 8); ("callback_head", 4992, 128)];
  (* struct delayed_call *) Abi 16 8 [
    ("fn", 0, 64); ("arg", 64, 64)];
  (* struct qstr *) Abi 16 8 [
    ("hash", 0, 32); ("len", 32, 32); ("hash_len", 0, 64); ("name", 64, 64)];
  (* kthread_work_func_t *) Abi 8 8 [];
  (* struct kthread_work *) Abi 40 8 [
    ("node", 0, 128); ("func", 128, 64); ("worker", 192, 64); ("canceling", 256, 32)];
  (* struct rt_mutex_base *) Abi 32 8 [
    ("wait_lock", 0, 32); ("waiters", 64, 128); ("owner", 192, 64)];
  (* struct rt_mutex *) Abi 32 8 [
    ("rtmutex", 0, 256)];
  (* struct maple_tree *) Abi 16 8 [
    ("ma_lock", 0, 32); ("ma_flags", 32, 32); ("ma_root", 64, 64)];
  (* struct fdtable *) Abi 56 8 [
    ("max_fds", 0, 32); ("fd", 64, 64); ("close_on_exec", 128, 64); ("open_fds", 192, 64); ("full_fds_bits",
    256, 64); ("rcu", 320, 128)];
  (* struct files_struct *) Abi 704 8 [
    ("count", 0, 32); ("resize_in_progress", 32, 8); ("resize_wait", 64, 192); ("fdt", 256, 64); ("fdtab",
    320, 448); ("file_lock", 1024, 32); ("next_fd", 1056, 32); ("close_on_exec_init", 1088, 64);
    ("open_fds_init", 1152, 64); ("full_fds_bits_init", 1216, 64); ("fd_array", 1280, 4096)];
  (* struct fs_struct *) Abi 56 8 [
    ("users", 0, 32); ("seq", 32, 64); ("umask", 96, 32); ("in_exec", 128, 32); ("root", 192, 128); ("pwd",
    320, 128)];
  (* union futex_key *) Abi 24 8 [
    ("shared", 0, 192); ("private", 0, 192); ("both", 0, 192)];
  (* struct futex_pi_state *) Abi 88 8 [
    ("list", 0, 128); ("pi_mutex", 128, 256); ("owner", 384, 64); ("refcount", 448, 32); ("key", 512, 192)];
  (* struct gendisk *) Abi 704 8 [
    ("major", 0, 32); ("first_minor", 32, 32); ("minors", 64, 32); ("disk_name", 96, 256); ("events", 352,
    16); ("event_flags", 368, 16); ("part_tbl", 384, 128); ("part0", 512, 64); ("fops", 576, 64); ("queue",
    640, 64); ("private_data", 704, 64); ("bio_split", 768, 1984); ("flags", 2752, 32); ("state", 2816, 64);
    ("open_mutex", 2880, 192); ("open_partitions", 3072, 32); ("bdi", 3136, 64); ("queue_kobj", 3200, 512);
    ("slave_dir", 3712, 64); ("slave_bdevs", 3776, 128); ("random", 3904, 64); ("ev", 3968, 64); ("nr_zones",
    4032, 32); ("zone_capacity", 4064, 32); ("last_zone_capacity", 4096, 32); ("zones_cond", 4160, 64);
    ("zone_wplugs_hash_bits", 4224, 32); ("nr_zone_wplugs", 4256, 32); ("zone_wplugs_hash_lock", 4288, 32);
    ("zone_wplugs_pool", 4352, 64); ("zone_wplugs_hash", 4416, 64); ("zone_wplugs_wq", 4480, 64);
    ("zone_wplugs_list_lock", 4544, 32); ("zone_wplugs_list", 4608, 128); ("zone_wplugs_worker", 4736, 64);
    ("zone_wplugs_worker_bio_done", 4800, 256); ("cdi", 5056, 64); ("node_id", 5120, 32); ("bb", 5184, 64);
    ("lockdep_map", 5248, 0); ("diskseq", 5248, 64); ("open_mode", 5312, 32); ("ia_ranges", 5376, 64);
    ("rqos_state_mutex", 5440, 192)];
  (* struct io_context *) Abi 88 8 [
    ("refcount", 0, 64); ("active_ref", 64, 32); ("ioprio", 96, 16); ("lock", 128, 32); ("icq_tree", 192,
    128); ("icq_hint", 320, 64); ("icq_list", 384, 64); ("release_work", 448, 256)];
  (* struct io_restriction *) Abi 40 8 [
    ("register_op", 0, 64); ("sqe_op", 64, 128); ("bpf_filters", 192, 64); ("bpf_filters_cow", 256, 8);
    ("sqe_flags_allowed", 264, 8); ("sqe_flags_required", 272, 8); ("op_registered", 280, 8);
    ("reg_registered", 288, 8)];
  (* struct io_uring_task *) Abi 320 8 [
    ("cached_refs", 0, 32); ("last", 64, 64); ("task", 128, 64); ("io_wq", 192, 64); ("registered_rings", 256,
    1024); ("xa", 1280, 128); ("wait", 1408, 192); ("in_cancel", 1600, 32); ("inflight_tracked", 1632, 32);
    ("inflight", 1664, 320); ("task_list", 2048, 64); ("task_work", 2112, 128)];
  (* __sighandler_t *) Abi 8 8 [];
  (* __sigrestore_t *) Abi 8 8 [];
  (* struct sigaction *) Abi 32 8 [
    ("sa_handler", 0, 64); ("sa_flags", 64, 64); ("sa_restorer", 128, 64); ("sa_mask", 192, 64)];
  (* struct k_sigaction *) Abi 32 8 [
    ("sa", 0, 256)];
  (* struct keyring_index_key *) Abi 40 8 [
    ("hash", 0, 64); ("desc_len", 64, 16); ("desc", 80, 48); ("x", 64, 64); ("type", 128, 64); ("domain_tag",
    192, 64); ("description", 256, 64)];
  (* union key_payload *) Abi 32 8 [
    ("rcu_data0", 0, 64); ("data", 0, 256)];
  (* struct key *) Abi 208 8 [
    ("usage", 0, 32); ("serial", 32, 32); ("graveyard_link", 64, 128); ("serial_node", 64, 192); ("sem", 256,
    256); ("user", 512, 64); ("security", 576, 64); ("expiry", 640, 64); ("revoked_at", 640, 64);
    ("last_used_at", 704, 64); ("uid", 768, 32); ("gid", 800, 32); ("perm", 832, 32); ("quotalen", 864, 16);
    ("datalen", 880, 16); ("state", 896, 16); ("flags", 960, 64); ("index_key", 1024, 320); ("hash", 1024,
    64); ("len_desc", 1088, 64); ("type", 1152, 64); ("domain_tag", 1216, 64); ("description", 1280, 64);
    ("payload", 1344, 256); ("name_link", 1344, 128); ("keys", 1472, 128); ("restrict_link", 1600, 64)];
  (* struct mempolicy *) Abi 48 8 [
    ("refcnt", 0, 32); ("mode", 32, 16); ("flags", 48, 16); ("nodes", 64, 64); ("home_node", 128, 32); ("w",
    192, 64); ("rcu", 256, 128)];
  (* struct mm_mm_cid *) Abi 192 8 [
    ("pcpu", 0, 64); ("mode", 64, 32); ("max_cids", 96, 32); ("irq_work", 128, 256); ("work", 384, 256);
    ("lock", 640, 32); ("mutex", 704, 192); ("user_list", 896, 64); ("nr_cpus_allowed", 960, 32); ("users",
    992, 32); ("pcpu_thrs", 1024, 32); ("update_deferred", 1056, 32)];
  (* struct uprobes_state *) Abi 16 8 [
    ("xol_area", 0, 64); ("head_tramps", 64, 64)];
  (* struct mm_struct *) Abi 1728 8 [
    ("mm_count", 0, 32); ("mm_mt", 512, 128); ("mmap_base", 640, 64); ("mmap_legacy_base", 704, 64);
    ("mmap_compat_base", 768, 64); ("mmap_compat_legacy_base", 832, 64); ("task_size", 896, 64); ("pgd", 960,
    64); ("membarrier_state", 1024, 32); ("mm_users", 1056, 32); ("mm_cid", 1536, 1536); ("pgtables_bytes",
    3072, 64); ("map_count", 3136, 32); ("page_table_lock", 3168, 32); ("mmap_lock", 3200, 256); ("mmlist",
    3456, 128); ("vma_writer_wait", 3584, 64); ("mm_lock_seq", 3648, 32); ("futex_hash_lock", 3712, 192);
    ("futex_phash", 3904, 64); ("futex_phash_new", 3968, 64); ("futex_batches", 4032, 64); ("futex_rcu", 4096,
    128); ("futex_atomic", 4224, 64); ("futex_ref", 4288, 64); ("hiwater_rss", 4352, 64); ("hiwater_vm", 4416,
    64); ("total_vm", 4480, 64); ("locked_vm", 4544, 64); ("pinned_vm", 4608, 64); ("data_vm", 4672, 64);
    ("exec_vm", 4736, 64); ("stack_vm", 4800, 64); ("def_flags", 4864, 64); ("def_vma_flags", 4864, 64);
    ("write_protect_seq", 4928, 32); ("arg_lock", 4960, 32); ("start_code", 4992, 64); ("end_code", 5056, 64);
    ("start_data", 5120, 64); ("end_data", 5184, 64); ("start_brk", 5248, 64); ("brk", 5312, 64);
    ("start_stack", 5376, 64); ("arg_start", 5440, 64); ("arg_end", 5504, 64); ("env_start", 5568, 64);
    ("env_end", 5632, 64); ("saved_auxv", 5696, 3584); ("rss_stat", 9280, 1280); ("binfmt", 10560, 64);
    ("context", 10624, 1024); ("flags", 11648, 64); ("ioctx_lock", 11712, 32); ("ioctx_table", 11776, 64);
    ("owner", 11840, 64); ("user_ns", 11904, 64); ("exe_file", 11968, 64); ("notifier_subscriptions", 12032,
    64); ("numa_next_scan", 12096, 64); ("numa_scan_offset", 12160, 64); ("numa_scan_seq", 12224, 32);
    ("tlb_flush_pending", 12256, 32); ("tlb_flush_batched", 12288, 32); ("uprobes_state", 12352, 128);
    ("hugetlb_usage", 12480, 64); ("async_put_work", 12544, 256); ("iommu_mm", 12800, 64);
    ("ksm_merging_pages", 12864, 64); ("ksm_rmap_items", 12928, 64); ("ksm_zero_pages", 12992, 64);
    ("lru_gen", 13056, 256); ("mm_id", 13312, 32); ("flexible_array", 13824, 0)];
  (* struct saved *) Abi 48 8 [
    ("link", 0, 128); ("done", 128, 128); ("name", 256, 64); ("seq", 320, 32)];
  (* struct nameidata *) Abi 240 8 [
    ("path", 0, 128); ("last", 128, 128); ("root", 256, 128); ("inode", 384, 64); ("flags", 448, 32);
    ("state", 480, 32); ("seq", 512, 32); ("next_seq", 544, 32); ("m_seq", 576, 32); ("r_seq", 608, 32);
    ("last_type", 640, 32); ("depth", 672, 32); ("total_link_count", 704, 32); ("stack", 768, 64);
    ("internal", 832, 768); ("name", 1600, 64); ("pathname", 1664, 64); ("saved", 1728, 64); ("root_seq",
    1792, 32); ("dfd", 1824, 32); ("dir_vfsuid", 1856, 32); ("dir_mode", 1888, 16)];
  (* struct nsproxy *) Abi 72 8 [
    ("count", 0, 32); ("uts_ns", 64, 64); ("ipc_ns", 128, 64); ("mnt_ns", 192, 64); ("pid_ns_for_children",
    256, 64); ("net_ns", 320, 64); ("time_ns", 384, 64); ("time_ns_for_children", 448, 64); ("cgroup_ns", 512,
    64)];
  (* struct numa_group *) Abi 56 8 [
    ("refcount", 0, 32); ("lock", 32, 32); ("nr_tasks", 64, 32); ("gid", 96, 32); ("active_nodes", 128, 32);
    ("rcu", 192, 128); ("total_faults", 320, 64); ("max_faults_cpu", 384, 64); ("faults", 448, 0)];
  (* struct obj_cgroup *) Abi 56 8 [
    ("refcnt", 0, 128); ("memcg", 128, 64); ("nr_charged_bytes", 192, 32); ("list", 256, 128); ("rcu", 256,
    128); ("is_root", 384, 8)];
  (* struct pacct_struct *) Abi 56 8 [
    ("ac_flag", 0, 32); ("ac_exitcode", 64, 64); ("ac_mem", 128, 64); ("ac_utime", 192, 64); ("ac_stime", 256,
    64); ("ac_minflt", 320, 64); ("ac_majflt", 384, 64)];
  (* struct perf_time_ctx *) Abi 24 8 [
    ("time", 0, 64); ("stamp", 64, 64); ("offset", 128, 64)];
  (* struct perf_event_groups *) Abi 16 8 [
    ("tree", 0, 64); ("index", 64, 64)];
  (* struct perf_event_context *) Abi 240 8 [
    ("lock", 0, 32); ("mutex", 64, 192); ("pmu_ctx_list", 256, 128); ("pinned_groups", 384, 128);
    ("flexible_groups", 512, 128); ("event_list", 640, 128); ("nr_events", 768, 32); ("nr_user", 800, 32);
    ("is_active", 832, 32); ("nr_stat", 864, 32); ("nr_freq", 896, 32); ("rotate_disable", 928, 32);
    ("refcount", 960, 32); ("task", 1024, 64); ("time", 1088, 192); ("timeguest", 1280, 192); ("parent_ctx",
    1472, 64); ("parent_gen", 1536, 64); ("generation", 1600, 64); ("pin_count", 1664, 32); ("nr_cgroups",
    1696, 32); ("callback_head", 1728, 128); ("nr_no_switch_fast", 1856, 64)];
  (* struct perf_ctx_data *) Abi 40 8 [
    ("callback_head", 0, 128); ("refcount", 128, 32); ("global", 160, 32); ("ctx_cache", 192, 64); ("data",
    256, 64)];
  (* struct pipe_inode_info *) Abi 168 8 [
    ("mutex", 0, 192); ("rd_wait", 192, 192); ("wr_wait", 384, 192); ("max_usage", 576, 32); ("ring_size",
    608, 32); ("nr_accounted", 640, 32); ("readers", 672, 32); ("writers", 704, 32); ("files", 736, 32);
    ("r_counter", 768, 32); ("w_counter", 800, 32); ("poll_usage", 832, 8); ("note_loss", 840, 8);
    ("tmp_page", 896, 128); ("fasync_readers", 1024, 64); ("fasync_writers", 1088, 64); ("bufs", 1152, 64);
    ("user", 1216, 64); ("watch_queue", 1280, 64)];
  (* struct rcu_exp_work *) Abi 48 8 [
    ("rew_s", 0, 64); ("rew_work", 64, 320)];
  (* struct rcu_node *) Abi 640 8 [
    ("lock", 0, 32); ("gp_seq", 64, 64); ("gp_seq_needed", 128, 64); ("completedqs", 192, 64); ("qsmask", 256,
    64); ("rcu_gp_init_mask", 320, 64); ("qsmaskinit", 384, 64); ("qsmaskinitnext", 448, 64); ("expmask", 512,
    64); ("expmaskinit", 576, 64); ("expmaskinitnext", 640, 64); ("exp_kworker", 704, 64); ("cbovldmask", 768,
    64); ("ffmask", 832, 64); ("grpmask", 896, 64); ("grplo", 960, 32); ("grphi", 992, 32); ("grpnum", 1024,
    8); ("level", 1032, 8); ("wait_blkd_tasks", 1040, 8); ("parent", 1088, 64); ("blkd_tasks", 1152, 128);
    ("gp_tasks", 1280, 64); ("exp_tasks", 1344, 64); ("boost_tasks", 1408, 64); ("boost_mtx", 1472, 256);
    ("boost_time", 1728, 64); ("kthread_mutex", 1792, 192); ("boost_kthread_task", 1984, 64);
    ("boost_kthread_status", 2048, 32); ("n_boosts", 2112, 64); ("nocb_gp_wq", 2176, 384); ("fqslock", 2560,
    32); ("exp_lock", 3072, 32); ("exp_seq_rq", 3136, 64); ("exp_wq", 3200, 768); ("rew", 3968, 384);
    ("exp_need_flush", 4352, 8); ("exp_poll_lock", 4384, 32); ("exp_seq_poll_rq", 4416, 64); ("exp_poll_wq",
    4480, 256)];
  (* struct reclaim_state *) Abi 16 8 [
    ("reclaimed", 0, 64); ("mm_walk", 64, 64)];
  (* struct robust_list *) Abi 8 8 [
    ("next", 0, 64)];
  (* struct robust_list_head *) Abi 24 8 [
    ("list", 0, 64); ("futex_offset", 64, 64); ("list_op_pending", 128, 64)];
  (* struct rt_waiter_node *) Abi 40 8 [
    ("entry", 0, 192); ("prio", 192, 32); ("deadline", 256, 64)];
  (* struct rt_mutex_waiter *) Abi 112 8 [
    ("tree", 0, 320); ("pi_tree", 320, 320); ("task", 640, 64); ("lock", 704, 64); ("wake_state", 768, 32);
    ("ww_ctx", 832, 64)];
  (* struct sched_class *) Abi 256 8 [
    ("uclamp_enabled", 0, 32); ("enqueue_task", 64, 64); ("dequeue_task", 128, 64); ("yield_task", 192, 64);
    ("yield_to_task", 256, 64); ("wakeup_preempt", 320, 64); ("balance", 384, 64); ("pick_task", 448, 64);
    ("pick_next_task", 512, 64); ("put_prev_task", 576, 64); ("set_next_task", 640, 64); ("select_task_rq",
    704, 64); ("migrate_task_rq", 768, 64); ("task_woken", 832, 64); ("set_cpus_allowed", 896, 64);
    ("rq_online", 960, 64); ("rq_offline", 1024, 64); ("find_lock_rq", 1088, 64); ("task_tick", 1152, 64);
    ("task_fork", 1216, 64); ("task_dead", 1280, 64); ("switching_from", 1344, 64); ("switched_from", 1408,
    64); ("switching_to", 1472, 64); ("switched_to", 1536, 64); ("get_prio", 1600, 64); ("prio_changed", 1664,
    64); ("reweight_task", 1728, 64); ("get_rr_interval", 1792, 64); ("update_curr", 1856, 64);
    ("task_change_group", 1920, 64); ("task_is_throttled", 1984, 64)];
  (* struct scx_task_group *) Abi 40 8 [
    ("flags", 0, 32); ("weight", 32, 32); ("bw_period_us", 64, 64); ("bw_quota_us", 128, 64); ("bw_burst_us",
    192, 64); ("idle", 256, 8)];
  (* struct sighand_struct *) Abi 2080 8 [
    ("siglock", 0, 32); ("count", 32, 32); ("signalfd_wqh", 64, 192); ("action", 256, 16384)];
  (* struct task_cputime_atomic *) Abi 24 8 [
    ("utime", 0, 64); ("stime", 64, 64); ("sum_exec_runtime", 128, 64)];
  (* struct thread_group_cputimer *) Abi 24 8 [
    ("cputime_atomic", 0, 192)];
  (* struct signal_struct *) Abi 1144 8 [
    ("sigcnt", 0, 32); ("live", 32, 32); ("nr_threads", 64, 32); ("quick_threads", 96, 32); ("thread_head",
    128, 128); ("wait_chldexit", 256, 192); ("curr_target", 448, 64); ("shared_pending", 512, 192);
    ("multiprocess", 704, 64); ("group_exit_code", 768, 32); ("notify_count", 800, 32); ("group_exec_task",
    832, 64); ("group_stop_count", 896, 32); ("flags", 928, 32); ("core_state", 960, 64);
    ("is_child_subreaper", 1024, 1); ("has_child_subreaper", 1025, 1); ("autoreap", 1026, 1);
    ("timer_create_restore_ids", 1027, 1); ("next_posix_timer_id", 1056, 32); ("posix_timers", 1088, 64);
    ("ignored_posix_timers", 1152, 64); ("real_timer", 1216, 640); ("it_real_incr", 1856, 64); ("it", 1920,
    256); ("cputimer", 2176, 192); ("posix_cputimers", 2368, 640); ("pids", 3008, 256); ("tick_dep_mask",
    3264, 32); ("tty_old_pgrp", 3328, 64); ("leader", 3392, 32); ("tty", 3456, 64); ("autogroup", 3520, 64);
    ("stats_lock", 3584, 64); ("utime", 3648, 64); ("stime", 3712, 64); ("cutime", 3776, 64); ("cstime", 3840,
    64); ("gtime", 3904, 64); ("cgtime", 3968, 64); ("prev_cputime", 4032, 192); ("nvcsw", 4224, 64);
    ("nivcsw", 4288, 64); ("cnvcsw", 4352, 64); ("cnivcsw", 4416, 64); ("min_flt", 4480, 64); ("maj_flt",
    4544, 64); ("cmin_flt", 4608, 64); ("cmaj_flt", 4672, 64); ("inblock", 4736, 64); ("oublock", 4800, 64);
    ("cinblock", 4864, 64); ("coublock", 4928, 64); ("maxrss", 4992, 64); ("cmaxrss", 5056, 64); ("ioac",
    5120, 448); ("sum_sched_runtime", 5568, 64); ("rlim", 5632, 2048); ("pacct", 7680, 448); ("stats", 8128,
    64); ("audit_tty", 8192, 32); ("tty_audit_buf", 8256, 64); ("cgroup_threadgroup_rwsem", 8320, 256);
    ("oom_flag_origin", 8576, 8); ("oom_score_adj", 8592, 16); ("oom_score_adj_min", 8608, 16); ("oom_mm",
    8640, 64); ("cred_guard_mutex", 8704, 192); ("exec_update_lock", 8896, 256)];
  (* struct srcu_ctr *) Abi 16 8 [
    ("srcu_locks", 0, 64); ("srcu_unlocks", 64, 64)];
  (* struct task_delay_info *) Abi 368 8 [
    ("lock", 0, 32); ("blkio_start", 64, 64); ("blkio_delay_max", 128, 64); ("blkio_delay_min", 192, 64);
    ("blkio_delay", 256, 64); ("swapin_start", 320, 64); ("swapin_delay_max", 384, 64); ("swapin_delay_min",
    448, 64); ("swapin_delay", 512, 64); ("blkio_count", 576, 32); ("swapin_count", 608, 32);
    ("freepages_start", 640, 64); ("freepages_delay_max", 704, 64); ("freepages_delay_min", 768, 64);
    ("freepages_delay", 832, 64); ("thrashing_start", 896, 64); ("thrashing_delay_max", 960, 64);
    ("thrashing_delay_min", 1024, 64); ("thrashing_delay", 1088, 64); ("compact_start", 1152, 64);
    ("compact_delay_max", 1216, 64); ("compact_delay_min", 1280, 64); ("compact_delay", 1344, 64);
    ("wpcopy_start", 1408, 64); ("wpcopy_delay_max", 1472, 64); ("wpcopy_delay_min", 1536, 64);
    ("wpcopy_delay", 1600, 64); ("irq_delay_max", 1664, 64); ("irq_delay_min", 1728, 64); ("irq_delay", 1792,
    64); ("freepages_count", 1856, 32); ("thrashing_count", 1888, 32); ("compact_count", 1920, 32);
    ("wpcopy_count", 1952, 32); ("irq_count", 1984, 32); ("blkio_delay_max_ts", 2048, 128);
    ("swapin_delay_max_ts", 2176, 128); ("freepages_delay_max_ts", 2304, 128); ("thrashing_delay_max_ts",
    2432, 128); ("compact_delay_max_ts", 2560, 128); ("wpcopy_delay_max_ts", 2688, 128); ("irq_delay_max_ts",
    2816, 128)];
  (* struct task_group *) Abi 704 8 [
    ("css", 0, 1664); ("idle", 1664, 32); ("se", 1728, 64); ("cfs_rq", 1792, 64); ("shares", 1856, 64);
    ("load_avg", 2048, 64); ("scx", 2112, 320); ("rcu", 2432, 128); ("list", 2560, 128); ("parent", 2688, 64);
    ("siblings", 2752, 128); ("children", 2880, 128); ("autogroup", 3008, 64); ("cfs_bandwidth", 3072, 2176);
    ("uclamp_pct", 5248, 64); ("uclamp_req", 5312, 64); ("uclamp", 5376, 64)];
  (* struct uprobe_task *) Abi 128 8 [
    ("state", 0, 32); ("depth", 32, 32); ("return_instances", 64, 64); ("ri_pool", 128, 64); ("ri_timer", 192,
    320); ("ri_seqcount", 512, 32); ("autask", 576, 128); ("vaddr", 704, 64); ("dup_xol_work", 576, 128);
    ("dup_xol_addr", 704, 64); ("active_uprobe", 768, 64); ("xol_vaddr", 832, 64); ("signal_denied", 896, 8);
    ("auprobe", 960, 64)];
  (* struct vm_struct *) Abi 72 8 [
    ("next", 0, 64); ("llnode", 0, 64); ("addr", 64, 64); ("size", 128, 64); ("flags", 192, 64); ("pages",
    256, 64); ("page_order", 320, 32); ("nr_pages", 352, 32); ("phys_addr", 384, 64); ("caller", 448, 64);
    ("requested_size", 512, 64)]].

(** The untagged structs and unions declared as the type of a named member. *)
Definition abi_inline : list abi_row := [
  (* struct in6_addr.in6_u *) Abi 16 4 [
    ("u6_addr8", 0, 128); ("u6_addr16", 0, 128); ("u6_addr32", 0, 128)];
  (* struct sock.sk_backlog *) Abi 24 8 [
    ("rmem_alloc", 0, 32); ("len", 32, 32); ("head", 64, 64); ("tail", 128, 64)];
  (* union flowi_uli.ports *) Abi 4 2 [
    ("dport", 0, 16); ("sport", 16, 16)];
  (* union flowi_uli.icmpt *) Abi 2 1 [
    ("type", 0, 8); ("code", 8, 8)];
  (* union flowi_uli.mht *) Abi 1 1 [
    ("type", 0, 8)];
  (* struct flowi.u *) Abi 88 8 [
    ("__fl_common", 0, 320); ("ip4", 0, 448); ("ip6", 0, 704)];
  (* struct inet_connection_sock.icsk_ack *) Abi 16 4 [
    ("pending", 0, 8); ("quick", 8, 8); ("pingpong", 16, 8); ("retry", 24, 8); ("ato", 32, 8);
    ("lrcv_flowlabel", 40, 20); ("dst_quick_ack", 60, 1); ("unused", 61, 3); ("lrcvtime", 64, 32);
    ("last_seg_size", 96, 16); ("rcv_mss", 112, 16)];
  (* struct inet_connection_sock.icsk_mtup *) Abi 16 4 [
    ("search_high", 0, 32); ("search_low", 32, 32); ("probe_size", 64, 31); ("enabled", 95, 1);
    ("probe_timestamp", 96, 32)];
  (* struct tcp_sock.rcv_rtt_est *) Abi 16 8 [
    ("rtt_us", 0, 32); ("seq", 32, 32); ("time", 64, 64)];
  (* struct tcp_sock.rcvq_space *) Abi 16 8 [
    ("space", 0, 32); ("seq", 32, 32); ("time", 64, 64)];
  (* struct tcp_sock.mtu_probe *) Abi 8 4 [
    ("probe_seq_start", 0, 32); ("probe_seq_end", 32, 32)];
  (* union rcu_special.b *) Abi 4 1 [
    ("blocked", 0, 8); ("need_qs", 8, 8); ("exp_hint", 16, 8); ("need_mb", 24, 8)];
  (* struct restart_block.futex *) Abi 40 8 [
    ("uaddr", 0, 64); ("val", 64, 32); ("flags", 96, 32); ("bitset", 128, 32); ("time", 192, 64); ("uaddr2",
    256, 64)];
  (* struct restart_block.nanosleep *) Abi 24 8 [
    ("clockid", 0, 32); ("type", 32, 32); ("rmtp", 64, 64); ("compat_rmtp", 64, 64); ("expires", 128, 64)];
  (* struct restart_block.poll *) Abi 32 8 [
    ("ufds", 0, 64); ("nfds", 64, 32); ("has_timeout", 96, 32); ("end_time", 128, 128)];
  (* struct netns_ipv4.__cacheline_group_pad__icmp *) Abi 0 1 [];
  (* struct netns_ipv6.ip6addrlbl_table *) Abi 16 8 [
    ("head", 0, 64); ("lock", 64, 32); ("seq", 96, 32)];
  (* struct sk_buff.headers *) Abi 60 4 [
    ("__pkt_type_offset", 0, 0); ("pkt_type", 0, 3); ("ignore_df", 3, 1); ("dst_pending_confirm", 4, 1);
    ("ip_summed", 5, 2); ("ooo_okay", 7, 1); ("__mono_tc_offset", 8, 0); ("tstamp_type", 8, 2);
    ("tc_at_ingress", 10, 1); ("tc_skip_classify", 11, 1); ("remcsum_offload", 12, 1); ("csum_complete_sw",
    13, 1); ("csum_level", 14, 2); ("inner_protocol_type", 16, 1); ("l4_hash", 17, 1); ("sw_hash", 18, 1);
    ("wifi_acked_valid", 19, 1); ("wifi_acked", 20, 1); ("no_fcs", 21, 1); ("encapsulation", 22, 1);
    ("encap_hdr_csum", 23, 1); ("csum_valid", 24, 1); ("ndisc_nodetype", 25, 2); ("ipvs_property", 27, 1);
    ("nf_trace", 28, 1); ("offload_fwd_mark", 29, 1); ("offload_l3_fwd_mark", 30, 1); ("redirected", 31, 1);
    ("from_ingress", 32, 1); ("nf_skip_egress", 33, 1); ("decrypted", 34, 1); ("slow_gro", 35, 1);
    ("csum_not_inet", 36, 1); ("unreadable", 37, 1); ("tc_depth", 38, 2); ("tc_index", 48, 16); ("alloc_cpu",
    64, 16); ("csum", 96, 32); ("csum_start", 96, 16); ("csum_offset", 112, 16); ("priority", 128, 32);
    ("skb_iif", 160, 32); ("hash", 192, 32); ("vlan_all", 224, 32); ("vlan_proto", 224, 16); ("vlan_tci", 240,
    16); ("napi_id", 256, 32); ("sender_cpu", 256, 32); ("secmark", 288, 32); ("mark", 320, 32);
    ("reserved_tailroom", 320, 32); ("inner_protocol", 352, 16); ("inner_ipproto", 352, 8);
    ("inner_transport_header", 368, 16); ("inner_network_header", 384, 16); ("inner_mac_header", 400, 16);
    ("protocol", 416, 16); ("transport_header", 432, 16); ("network_header", 448, 16); ("mac_header", 464, 16)];
  (* struct cgroup.__empty_ancestors *) Abi 0 1 [];
  (* struct cgroup.__empty__low_ancestors *) Abi 0 1 [];
  (* struct proto.h *) Abi 8 8 [
    ("hashinfo", 0, 64); ("raw_hash", 0, 64); ("smc_hash", 0, 64)];
  (* union __sifields._kill *) Abi 8 4 [
    ("_pid", 0, 32); ("_uid", 32, 32)];
  (* union __sifields._timer *) Abi 24 8 [
    ("_tid", 0, 32); ("_overrun", 32, 32); ("_sigval", 64, 64); ("_sys_private", 128, 32)];
  (* union __sifields._rt *) Abi 16 8 [
    ("_pid", 0, 32); ("_uid", 32, 32); ("_sigval", 64, 64)];
  (* union __sifields._sigchld *) Abi 32 8 [
    ("_pid", 0, 32); ("_uid", 32, 32); ("_status", 64, 32); ("_utime", 128, 64); ("_stime", 192, 64)];
  (* union __sifields._sigfault *) Abi 32 8 [
    ("_addr", 0, 64); ("_trapno", 64, 32); ("_addr_lsb", 64, 16); ("_addr_bnd", 64, 192); ("_addr_pkey", 64,
    96); ("_perf", 64, 128)];
  (* union __sifields._sigfault._addr_bnd *) Abi 24 8 [
    ("_dummy_bnd", 0, 64); ("_lower", 64, 64); ("_upper", 128, 64)];
  (* union __sifields._sigfault._addr_pkey *) Abi 12 4 [
    ("_dummy_pkey", 0, 64); ("_pkey", 64, 32)];
  (* union __sifields._sigfault._perf *) Abi 16 8 [
    ("_data", 0, 64); ("_type", 64, 32); ("_flags", 96, 32)];
  (* union __sifields._sigpoll *) Abi 16 8 [
    ("_band", 0, 64); ("_fd", 64, 32)];
  (* union __sifields._sigsys *) Abi 16 8 [
    ("_call_addr", 0, 64); ("_syscall", 64, 32); ("_arch", 96, 32)];
  (* struct audit_context.socketcall *) Abi 56 8 [
    ("nargs", 0, 32); ("args", 64, 384)];
  (* struct audit_context.ipc *) Abi 64 8 [
    ("uid", 0, 32); ("gid", 32, 32); ("mode", 64, 16); ("oprop", 128, 192); ("has_perm", 320, 32);
    ("perm_uid", 352, 32); ("perm_gid", 384, 32); ("perm_mode", 416, 16); ("qbytes", 448, 64)];
  (* struct audit_context.mq_getsetattr *) Abi 72 8 [
    ("mqdes", 0, 32); ("mqstat", 64, 512)];
  (* struct audit_context.mq_notify *) Abi 8 4 [
    ("mqdes", 0, 32); ("sigev_signo", 32, 32)];
  (* struct audit_context.mq_sendrecv *) Abi 40 8 [
    ("mqdes", 0, 32); ("msg_len", 64, 64); ("msg_prio", 128, 32); ("abs_timeout", 192, 128)];
  (* struct audit_context.mq_open *) Abi 72 8 [
    ("oflag", 0, 32); ("mode", 32, 16); ("attr", 64, 512)];
  (* struct audit_context.capset *) Abi 48 8 [
    ("pid", 0, 32); ("cap", 64, 320)];
  (* struct audit_context.mmap *) Abi 8 4 [
    ("fd", 0, 32); ("flags", 32, 32)];
  (* struct audit_context.execve *) Abi 4 4 [
    ("argc", 0, 32)];
  (* struct audit_context.module *) Abi 8 8 [
    ("name", 0, 64)];
  (* struct audit_context.time *) Abi 112 8 [
    ("ntp_data", 0, 768); ("tk_injoffset", 768, 128)];
  (* union futex_key.shared *) Abi 24 8 [
    ("i_seq", 0, 64); ("pgoff", 64, 64); ("offset", 128, 32)];
  (* union futex_key.private *) Abi 24 8 [
    ("mm", 0, 64); ("__tmp", 0, 64); ("address", 64, 64); ("offset", 128, 32)];
  (* union futex_key.both *) Abi 24 8 [
    ("ptr", 0, 64); ("word", 64, 64); ("offset", 128, 32); ("node", 160, 32)];
  (* struct mempolicy.w *) Abi 8 8 [
    ("cpuset_mems_allowed", 0, 64); ("user_nodemask", 0, 64)];
  (* struct mm_struct.lru_gen *) Abi 32 8 [
    ("list", 0, 128); ("bitmap", 128, 64); ("memcg", 192, 64)]].

(** The rows of all the types. *)
Definition abi_table : list abi_row := abi_vmsock ++ abi_vmtcp ++ abi_vmtask ++ abi_vmnet ++ abi_vmsockrefs ++ abi_vmtaskrefs ++ abi_inline.
