(* ===== verification/VmLayout.v ===== *)
(** * Layout of the kernel types the probe is compiled against

    Theorems over every type transcribed from vmlinux.h: member accesses stay
    inside their object and are aligned, members do not overlap, and the
    accesses of probe.c designate the bytes they are meant to. *)
From S2P Require Import Prelude CTypes VmSock VmTcp VmTask VmNet VmSockRefs VmTaskRefs VmTable.
From stdpp Require Import base list strings.
From Stdlib Require Import ZArith Lia Bool.
Local Open Scope string_scope.
Local Open Scope Z_scope.

(** Every transcribed type. *)
Definition vmlinux_types : list ctype :=
  vmsock_types ++ vmtcp_types ++ vmtask_types ++ vmnet_types ++ vmsockrefs_types ++ vmtaskrefs_types.

Lemma vmlinux_types_wf_b : forallb wf_ctype vmlinux_types = true.
Proof. vm_compute. reflexivity. Qed.

Lemma vmlinux_types_wf t : t ∈ vmlinux_types -> wf_ctype t = true.
Proof.
  intros Ht. pose proof vmlinux_types_wf_b as H. rewrite forallb_forall in H.
  by apply H, list_elem_of_In.
Qed.

(** The types that have no name of their own: those of members declared with an
    untagged struct or union. *)
Definition member_type (t : ctype) (n : string) : ctype := match find_member t n with Some p => pl_type p | None => t end.

Definition inline_types : list ctype := [
  member_type struct_in6_addr "in6_u";
  member_type struct_sock "sk_backlog";
  member_type union_flowi_uli "ports";
  member_type union_flowi_uli "icmpt";
  member_type union_flowi_uli "mht";
  member_type struct_flowi "u";
  member_type struct_inet_connection_sock "icsk_ack";
  member_type struct_inet_connection_sock "icsk_mtup";
  member_type struct_tcp_sock "rcv_rtt_est";
  member_type struct_tcp_sock "rcvq_space";
  member_type struct_tcp_sock "mtu_probe";
  member_type union_rcu_special "b";
  member_type struct_restart_block "futex";
  member_type struct_restart_block "nanosleep";
  member_type struct_restart_block "poll";
  member_type struct_netns_ipv4 "__cacheline_group_pad__icmp";
  member_type struct_netns_ipv6 "ip6addrlbl_table";
  member_type struct_sk_buff "headers";
  member_type struct_cgroup "__empty_ancestors";
  member_type struct_cgroup "__empty__low_ancestors";
  member_type struct_proto "h";
  member_type union___sifields "_kill";
  member_type union___sifields "_timer";
  member_type union___sifields "_rt";
  member_type union___sifields "_sigchld";
  member_type union___sifields "_sigfault";
  member_type (member_type union___sifields "_sigfault") "_addr_bnd";
  member_type (member_type union___sifields "_sigfault") "_addr_pkey";
  member_type (member_type union___sifields "_sigfault") "_perf";
  member_type union___sifields "_sigpoll";
  member_type union___sifields "_sigsys";
  member_type struct_audit_context "socketcall";
  member_type struct_audit_context "ipc";
  member_type struct_audit_context "mq_getsetattr";
  member_type struct_audit_context "mq_notify";
  member_type struct_audit_context "mq_sendrecv";
  member_type struct_audit_context "mq_open";
  member_type struct_audit_context "capset";
  member_type struct_audit_context "mmap";
  member_type struct_audit_context "execve";
  member_type struct_audit_context "module";
  member_type struct_audit_context "time";
  member_type union_futex_key "shared";
  member_type union_futex_key "private";
  member_type union_futex_key "both";
  member_type struct_mempolicy "w";
  member_type struct_mm_struct "lru_gen"].

(** All of them, in the order of the table. *)
Definition layout_types : list ctype := vmlinux_types ++ inline_types.

Lemma member_type_wf t n : wf_ctype t = true -> wf_ctype (member_type t n) = true.
Proof.
  intros Ht. unfold member_type. destruct (find_member t n) as [p|] eqn:Hp; [|done]. by apply (find_member_sound t n p).
Qed.

Lemma layout_types_wf t : t ∈ layout_types -> wf_ctype t = true.
Proof.
  unfold layout_types. rewrite elem_of_app. intros [?|Ht]; [by apply vmlinux_types_wf|].
  assert (forallb wf_ctype inline_types = true) as Hb by (vm_compute; reflexivity).
  rewrite forallb_forall in Hb. by apply Hb, list_elem_of_In.
Qed.

(** What the transcription gives for a row of the table. *)
Definition layout_row (t : ctype) : abi_row := Abi (sizeof t) (alignof t) (named_members t).

Lemma layout_rows : layout_row <$> layout_types = abi_table.
Proof. vm_compute. reflexivity. Qed.

(** C39: Each of the transcribed kernel types, untagged inner ones included, has the
    layout that the compiler gives the header itself: its size and alignment are
    those of its row of [abi_table], and naming a member, any name on any type,
    finds the first bit and the width that the row has for that name, bit-fields
    included, or nothing when the row has none, so no member is missing, added or
    elsewhere.  Every longer access path that is valid C and does not end in a
    bit-field stays within that size and is aligned for its type. *)
Theorem vmlinux_layout_is_abi (i : nat) (t : ctype) :
  layout_types !! i = Some t ->
  exists r, abi_table !! i = Some r /\ sizeof t = ab_size r /\ alignof t = ab_align r /\
    (forall n, extent <$> find_member t n = member_at n (ab_members r)) /\
    (forall path p, access_path t path = Some p -> pl_width p = None ->
       exists o, offsetof t path = Some o /\ 0 <= o /\ o + sizeof (pl_type p) <= ab_size r /\ (alignof (pl_type p) | o)).
Proof.
  intros Hi. exists (layout_row t). split; [by rewrite <- layout_rows, list_lookup_fmap, Hi|]. split; [done|]. split; [done|]. split.
  - intros n. apply find_member_named.
  - intros path p Hp Hw. destruct (offsetof_sound t path p) as (o & Ho & _ & ?); [|done|done|by exists o].
    by apply layout_types_wf, (list_elem_of_lookup_2 _ i).
Qed.

(** The command name of the current task. *)
Lemma vmlinux_layout_is_abi_witness :
  sizeof struct_task_struct = 4032 /\ extent <$> find_member struct_task_struct "comm" = Some (8 * 2488, 8 * 16) /\
  exists o, offsetof struct_task_struct [AField "comm"; AIndex 15] = Some o /\ 0 <= o /\ o + 1 <= 4032.
Proof.
  destruct (vmlinux_layout_is_abi (length vmsock_types + length vmtcp_types + pred (length vmtask_types)) struct_task_struct)
    as (r & Hr & Hs & _ & Hm & Hp); [reflexivity|].
  vm_compute in Hr. injection Hr as <-. cbn [ab_size] in Hs, Hp. split; [exact Hs|]. split; [rewrite Hm; vm_compute; reflexivity|].
  destruct (Hp [AField "comm"; AIndex 15] (Place (8 * 2503) c_char None)) as (o & Ho & H0 & H1 & _); [vm_compute; reflexivity|reflexivity|].
  exists o. split; [exact Ho|]. split; [exact H0|exact H1].
Defined.

(** In every transcribed struct the members are laid out in declaration
    order without sharing a bit, bit-fields and padding included, and none
    reaches past the end of the struct. *)
Theorem vmlinux_members_disjoint (tag : string) (ms : members) (i j : nat) n1 s1 b1 n2 s2 b2 :
  CStruct tag ms ∈ vmlinux_types -> (i < j)%nat ->
  member_spans ms 0 !! i = Some (n1, s1, b1) -> member_spans ms 0 !! j = Some (n2, s2, b2) ->
  0 <= s1 /\ s1 + b1 <= s2 /\ s2 + b2 <= 8 * sizeof (CStruct tag ms).
Proof.
  intros Ht%vmlinux_types_wf Hij Hi Hj. simpl in Ht.
  pose proof (member_spans_ordered ms 0 i j _ _ _ _ _ _ Ht ltac:(lia) Hij Hi Hj).
  pose proof (member_spans_ge ms 0 i _ _ _ Ht ltac:(lia) Hi).
  pose proof (member_spans_ge ms 0 j _ _ _ Ht ltac:(lia) Hj).
  pose proof (bytes_of_bits_spec (struct_end ms 0)).
  pose proof (round_up_ge (bytes_of_bits (struct_end ms 0)) (members_align ms) (members_align_pos ms Ht)).
  simpl. lia.
Qed.

(** The first bit-fields of struct sock_common: skc_reuse (4 bits) ends where
    skc_reuseport starts. *)
Lemma vmlinux_members_disjoint_witness : 0 <= 152 /\ 152 + 4 <= 156 /\ 156 + 1 <= 8 * sizeof struct_sock_common.
Proof.
  assert (struct_sock_common ∈ vmlinux_types) as Ht.
  { unfold vmlinux_types. rewrite !elem_of_app. left. unfold vmsock_types.
    repeat (apply list_elem_of_here || apply list_elem_of_further). }
  eapply (vmlinux_members_disjoint "sock_common" _ 5 6 "skc_reuse" 152 4 "skc_reuseport" 156 1 Ht);
    [lia|vm_compute; reflexivity|vm_compute; reflexivity].
Defined.

(** ** The socket and the object it is embedded in *)

Lemma access_path_app t path1 path2 p :
  access_path t path1 = Some p -> pl_width p = None ->
  access_path t (path1 ++ path2) = shift_place (pl_bit p) <$> access_path (pl_type p) path2.
Proof.
  revert t p. induction path1 as [|a path1 IH]; intros t p Hp Hw; simpl in *.
  - simplify_eq/=. destruct (access_path _ path2) as [[? ? ?]|]; simpl; [|done]. by unfold shift_place.
  - destruct (access t a) as [q|]; [|done]. simpl in *. destruct (pl_width q) as [w|] eqn:Hq.
    + destruct path1; simplify_eq/=; congruence.
    + apply fmap_Some in Hp as (p' & Hp' & ->). simpl in *. rewrite (IH _ _ Hp' Hw).
      destruct (access_path (pl_type p') path2) as [r|]; simpl; [|by destruct path1, path2].
      destruct path1, path2; unfold shift_place; simpl; do 2 f_equal; lia.
Qed.

(** C40: tcp_v4_connect is called on the [struct sock] embedded in a
    [struct tcp_sock]; the embedding is at offset 0, so every access path of
    [struct sock] designates the same bytes when the pointer is read as a
    [struct tcp_sock]. *)
Theorem tcp_sock_embeds_sock (path : list accessor) :
  offsetof struct_tcp_sock (AField "inet_conn" :: AField "icsk_inet" :: AField "sk" :: path)
  = offsetof struct_sock path.
Proof.
  pose proof (access_path_app struct_tcp_sock [AField "inet_conn"; AField "icsk_inet"; AField "sk"] path
                (Place 0 struct_sock None) ltac:(vm_compute; reflexivity) eq_refl) as H.
  simpl app in H. unfold offsetof. rewrite H.
  change (pl_type (Place 0 struct_sock None)) with struct_sock.
  destruct (access_path struct_sock path) as [[b t [w|]]|]; reflexivity.
Qed.
