(* ===== verification/Models.v ===== *)
(** * Shared data: Go values, events, strings

    internal/models/event.go, and the Go notions the components share: dynamic
    values of a [map[string]any], byte strings, decimal printing and dotted-quad
    addresses (fmt, net, strings of the Go standard library). *)
From S2P Require Import Prelude.
From stdpp Require Import base list strings gmap pretty.
From Stdlib Require Import ZArith Lia Bool Ascii SpecFloat.
Local Open Scope string_scope.
Local Open Scope Z_scope.

(** ** Go values *)

(** The dynamic values the program stores in a [map[string]any]: strings,
    booleans, [int] and [int64], the other integer types, [float64], slices, and nested maps (their entries in key
    order). *)
Inductive gany :=
| VString (s : string)
| VBool (b : bool)
| VInt (n : Z)
| VUint (n : Z)
| VFloat (x : spec_float)
| VStrings (l : list string)
| VInts (l : list Z)
| VList (l : list gany)
| VMap (l : list (string * gany))
| VNil.

(** [string(b)] for a byte slice. *)
Definition byte_ascii (b : Z) : ascii := ascii_of_N (Z.to_N b).
Fixpoint go_string (bs : bytes) : string :=
  match bs with
  | [] => EmptyString
  | b :: bs' => String (byte_ascii b) (go_string bs')
  end.
Fixpoint go_bytes (s : string) : bytes :=
  match s with
  | EmptyString => []
  | String c s' => Z.of_N (N_of_ascii c) :: go_bytes s'
  end.

(** [fmt.Sprintf("%d", n)]. *)
Definition fmt_d (n : Z) : string := pretty n.

(** [bytes.TrimRight(b, "\x00")]. *)
Fixpoint trim_right_nul (bs : bytes) : bytes :=
  match bs with
  | [] => []
  | b :: bs' =>
      match trim_right_nul bs' with
      | [] => if b =? 0 then [] else [b]
      | t => b :: t
      end
  end.

(** [net.IP(b).String()] of a four-byte address. *)
Definition ip_string (ip : bytes) : string :=
  match ip with
  | [a; b; c; d] => fmt_d a +:+ "." +:+ fmt_d b +:+ "." +:+ fmt_d c +:+ "." +:+ fmt_d d
  | _ => "<nil>"
  end.

(** Lower-case hexadecimal, encoding/hex. *)
Definition hex_digit (n : Z) : ascii :=
  if n <? 10 then ascii_of_N (Z.to_N (48 + n)) else ascii_of_N (Z.to_N (87 + n)).
Fixpoint hex_EncodeToString (b : bytes) : string :=
  match b with
  | [] => ""
  | x :: b' => String (hex_digit (x / 16)) (String (hex_digit (x mod 16)) (hex_EncodeToString b'))
  end.

(** Times are nanoseconds since the zero [time.Time]; [IsZero] is [t = 0]. *)
Abbreviation gotime := Z (only parsing).
Definition time_IsZero (t : gotime) : bool := t =? 0.

(** [json.Marshal] and [json.Unmarshal] at one Go type.  [json_ok] are the values
    that survive the trip: strings in valid UTF-8, times with a four-digit
    year. *)
Class JSON (A : Type) := {
  Marshal : A -> option bytes;
  Unmarshal : bytes -> option A;
  json_ok : A -> Prop;
}.
Class JSONLaws (A : Type) `{JSON A} :=
  json_roundtrip : forall a b, json_ok a -> Marshal a = Some b -> Unmarshal b = Some a.

(** ** Events *)

Inductive EventType :=
| EventDNS | EventPortScan | EventARP | EventPhysical | EventAlert
| EventProxy | EventVM | EventCompliance | EventTor | EventCanary
| EventOther (s : string).

(** The string constants behind the event types. *)
Definition event_type_string (t : EventType) : string :=
  match t with
  | EventDNS => "DNS"
  | EventPortScan => "PORT_SCAN"
  | EventARP => "ARP"
  | EventPhysical => "PHYSICAL"
  | EventAlert => "THREAT_ALERT"
  | EventProxy => "PROXY"
  | EventVM => "VM"
  | EventCompliance => "COMPLIANCE"
  | EventTor => "TOR"
  | EventCanary => "CANARY"
  | EventOther s => s
  end.

Record NetworkEvent := mkNetworkEvent {
  ne_ID : string;
  ne_Type : EventType;
  ne_Source : string;
  ne_Destination : string;
  ne_Metadata : gmap string gany;
  ne_Timestamp : gotime;
  ne_Signature : bytes;
  ne_SignerKeyID : string;
}.

(** [CanonicalBytes]: JSON of the event with the signature fields cleared; the
    encoder is an argument. *)
Definition clear_signature (e : NetworkEvent) : NetworkEvent :=
  mkNetworkEvent (ne_ID e) (ne_Type e) (ne_Source e) (ne_Destination e) (ne_Metadata e)
    (ne_Timestamp e) [] "".

Definition CanonicalBytes (marshal : NetworkEvent -> option bytes) (e : NetworkEvent) : option bytes :=
  marshal (clear_signature e).

Definition IsSigned (e : NetworkEvent) : bool :=
  negb (bool_decide (ne_Signature e = [])) && negb (bool_decide (ne_SignerKeyID e = "")).

(** ** Assets *)

Record Asset := mkAsset {
  as_ID : string; as_IP : string; as_MAC : string; as_Hostname : string; as_OS : string; as_Ports : list Z;
  as_FirstSeen : gotime; as_LastSeen : gotime }.

(** ** Facts on strings *)

Lemma go_string_bytes bs : Forall byte_ok bs -> go_bytes (go_string bs) = bs.
Proof.
  induction 1 as [|b bs [Hb1 Hb2] _ IH]; [done|]. simpl. rewrite IH. f_equal.
  unfold byte_ascii. rewrite N_ascii_embedding by lia. lia.
Qed.

Lemma go_bytes_string s : go_string (go_bytes s) = s.
Proof.
  induction s as [|c s IH]; [done|]. simpl. rewrite IH. f_equal.
  unfold byte_ascii. rewrite N2Z.id. apply ascii_N_embedding.
Qed.

(** [TrimRight] removes trailing NULs and nothing else. *)
Lemma trim_right_nul_spec bs :
  exists k, bs = (trim_right_nul bs ++ repeat 0 k)%list /\ last (trim_right_nul bs) <> Some 0.
Proof.
  induction bs as [|b bs (k & Hk & Hl)]; [by exists 0%nat|]. simpl.
  destruct (trim_right_nul bs) as [|x t].
  - destruct (Z.eqb_spec b 0) as [->|Hb].
    + exists (S k). simpl in *. by rewrite <- Hk.
    + exists k. simpl in *. split; [by rewrite <- Hk|]. naive_solver.
  - exists k. simpl in *. split; [by rewrite <- Hk|]. done.
Qed.

Lemma string_app_assoc s1 s2 s3 : s1 +:+ (s2 +:+ s3) = (s1 +:+ s2) +:+ s3.
Proof.
  induction s1 as [|c s1 IH]; [done|].
  change (String c (s1 +:+ (s2 +:+ s3)) = String c ((s1 +:+ s2) +:+ s3)). by rewrite IH.
Qed.

Lemma string_app_nil_r s : s +:+ "" = s.
Proof. induction s as [|c s IH]; [done|]. change (String c (s +:+ "") = String c s). by rewrite IH. Qed.

Lemma go_bytes_inj s t : go_bytes s = go_bytes t -> s = t.
Proof. intros Heq. by rewrite <- (go_bytes_string s), <- (go_bytes_string t), Heq. Qed.

Lemma go_bytes_ok s : Forall byte_ok (go_bytes s).
Proof.
  induction s as [|c s IH]; constructor; [|done]. unfold byte_ok. pose proof (N_ascii_bounded c). lia.
Qed.

(** Hexadecimal text determines the bytes. *)
Lemma hex_inj : forall a b, Forall byte_ok a -> Forall byte_ok b -> hex_EncodeToString a = hex_EncodeToString b -> a = b.
Proof.
  assert (forall x y, 0 <= x < 16 -> 0 <= y < 16 -> hex_digit x = hex_digit y -> x = y) as Hd.
  { intros x y Hx Hy. unfold hex_digit. intros Heq%(f_equal N_of_ascii).
    destruct (Z.ltb_spec x 10), (Z.ltb_spec y 10); rewrite !N_ascii_embedding in Heq by lia; lia. }
  induction a as [|x a IH]; intros [|y b] Ha Hb Heq; try done.
  apply Forall_cons in Ha as [Hx Ha]. apply Forall_cons in Hb as [Hy Hb]. unfold byte_ok in *.
  injection Heq as H1%Hd H2%Hd Heq; [| | | |].
  - f_equal; [|by apply IH]. pose proof (Z.div_mod x 16). pose proof (Z.div_mod y 16). lia.
  - apply Z.mod_pos_bound. lia.
  - apply Z.mod_pos_bound. lia.
  - split; [apply Z.div_pos; lia|apply Z.div_lt_upper_bound; lia].
  - split; [apply Z.div_pos; lia|apply Z.div_lt_upper_bound; lia].
Qed.
