(* ===== verification/GoStrings.v ===== *)
(** * Go's strings package

    The functions of the Go standard library's [strings], [encoding/base64] the
    identity packages call, on byte strings. *)
From stdpp Require Import base list strings.
From Stdlib Require Import ZArith Lia Bool Ascii.
From S2P Require Import Prelude Models.
Local Open Scope string_scope.
Local Open Scope list_scope.

(** [strip_prefix p s] is the rest of [s] after [p]. *)
Fixpoint strip_prefix (p s : string) : option string :=
  match p, s with
  | EmptyString, _ => Some s
  | String a p', String b s' => if Ascii.eqb a b then strip_prefix p' s' else None
  | String _ _, EmptyString => None
  end.

Definition HasPrefix (s prefix : string) : bool :=
  match strip_prefix prefix s with Some _ => true | None => false end.
Definition TrimPrefix (s prefix : string) : string := default s (strip_prefix prefix s).

(** The UTF-8 encodings of the code points [unicode.IsSpace] accepts. *)
Definition space_encodings : list string :=
  map go_string
    [[9]; [10]; [11]; [12]; [13]; [32]; [194; 133]; [194; 160]; [225; 154; 128];
     [226; 128; 128]; [226; 128; 129]; [226; 128; 130]; [226; 128; 131]; [226; 128; 132]; [226; 128; 133];
     [226; 128; 134]; [226; 128; 135]; [226; 128; 136]; [226; 128; 137]; [226; 128; 138]; [226; 128; 168];
     [226; 128; 169]; [226; 128; 175]; [226; 129; 159]; [227; 128; 128]]%Z.

Fixpoint first_some {A B} (f : A -> option B) (l : list A) : option B :=
  match l with
  | [] => None
  | x :: l' => match f x with Some y => Some y | None => first_some f l' end
  end.

Definition strip_space (s : string) : option string := first_some (fun e => strip_prefix e s) space_encodings.

(** Every step removes at least one byte, so the length is enough fuel. *)
Fixpoint trim_left (fuel : nat) (s : string) : string :=
  match fuel with
  | O => s
  | S fuel' => match strip_space s with Some s' => trim_left fuel' s' | None => s end
  end.

Fixpoint rev_string (s : string) : string :=
  match s with EmptyString => EmptyString | String a s' => rev_string s' +:+ String a EmptyString end.

Definition strip_space_end (s : string) : option string :=
  rev_string <$> first_some (fun e => strip_prefix (rev_string e) (rev_string s)) space_encodings.

Fixpoint trim_right (fuel : nat) (s : string) : string :=
  match fuel with
  | O => s
  | S fuel' => match strip_space_end s with Some s' => trim_right fuel' s' | None => s end
  end.

Definition TrimSpace (s : string) : string :=
  let s := trim_left (String.length s) s in trim_right (String.length s) s.

(** The part before the first separator byte and the part after it. *)
Fixpoint Cut (sep : ascii) (s : string) : option (string * string) :=
  match s with
  | EmptyString => None
  | String a s' =>
      if Ascii.eqb a sep then Some (EmptyString, s')
      else match Cut sep s' with Some (b, r) => Some (String a b, r) | None => None end
  end.

(** [strings.SplitN(s, sep, 2)] for a one-byte separator. *)
Definition SplitN2 (s : string) (sep : ascii) : list string :=
  match Cut sep s with Some (b, r) => [b; r] | None => [s] end.

(** [strings.Split(s, sep)] for a one-byte separator. *)
Fixpoint Split (s : string) (sep : ascii) : list string :=
  match s with
  | EmptyString => [EmptyString]
  | String a s' =>
      if Ascii.eqb a sep then EmptyString :: Split s' sep
      else match Split s' sep with p :: ps => String a p :: ps | [] => [String a EmptyString] end
  end.

(** [strings.TrimSuffix(s, ".")]. *)
Fixpoint trim_suffix_dot (s : string) : string :=
  match s with
  | EmptyString => EmptyString
  | String c EmptyString => if Ascii.eqb c "." then EmptyString else s
  | String c s' => String c (trim_suffix_dot s')
  end.

(** [strings.Contains(s, sub)]. *)
Fixpoint Contains (s sub : string) : bool :=
  HasPrefix s sub || match s with EmptyString => false | String _ s' => Contains s' sub end.

Fixpoint Join (l : list string) (sep : string) : string :=
  match l with
  | [] => EmptyString
  | [s] => s
  | s :: l' => s +:+ sep +:+ Join l' sep
  end.

Definition ascii_lower (a : ascii) : ascii :=
  let n := N_of_ascii a in if ((65 <=? n) && (n <=? 90))%N then ascii_of_N (n + 32) else a.
Definition is_ascii (a : ascii) : bool := (N_of_ascii a <? 128)%N.
Fixpoint string_map (f : ascii -> ascii) (s : string) : string :=
  match s with EmptyString => EmptyString | String a s' => String (f a) (string_map f s') end.
Fixpoint string_forallb (f : ascii -> bool) (s : string) : bool :=
  match s with EmptyString => true | String a s' => f a && string_forallb f s' end.

(** [strings.ToLower]; [unicode_lower] is the Unicode case table, consulted for
    strings with a byte above 127. *)
Definition ToLower (unicode_lower : string -> string) (s : string) : string :=
  if string_forallb is_ascii s then string_map ascii_lower s else unicode_lower s.

(** [strings.EqualFold(s, t)] for an ASCII [t] without the letters k and s, the
    only ones with a non-ASCII case variant. *)
Definition EqualFold (s t : string) : bool := bool_decide (string_map ascii_lower s = string_map ascii_lower t).

(** [base64.RawURLEncoding.EncodeToString]. *)
Definition base64_digit (n : Z) : ascii :=
  byte_ascii
    (if n <? 26 then 65 + n else if n <? 52 then 71 + n else if n <? 62 then n - 4 else if n =? 62 then 45 else 95)%Z.
Fixpoint base64_RawURL (b : bytes) : string :=
  match b with
  | x :: y :: z :: b' =>
      let n := (x * 65536 + y * 256 + z)%Z in
      String (base64_digit (n / 262144)) (String (base64_digit (n / 4096 mod 64))
        (String (base64_digit (n / 64 mod 64)) (String (base64_digit (n mod 64)) (base64_RawURL b'))))
  | [x; y] =>
      let n := (x * 65536 + y * 256)%Z in
      String (base64_digit (n / 262144)) (String (base64_digit (n / 4096 mod 64)) (String (base64_digit (n / 64 mod 64)) ""))
  | [x] =>
      let n := (x * 65536)%Z in String (base64_digit (n / 262144)) (String (base64_digit (n / 4096 mod 64)) "")
  | [] => ""
  end.

Example base64_demo : base64_RawURL (go_bytes "light work.") = "bGlnaHQgd29yay4".
Proof. vm_compute. reflexivity. Qed.
Example trim_demo : TrimSpace (" " +:+ go_string [194; 160]%Z +:+ "a b" +:+ go_string [9; 226; 128; 168]%Z) = "a b".
Proof. vm_compute. reflexivity. Qed.
Example split_demo : SplitN2 "Bearer a b" " " = ["Bearer"; "a b"] /\ Split "x,,y" "," = ["x"; ""; "y"].
Proof. split; reflexivity. Qed.

(** ** Lemmas *)

Lemma strip_prefix_app p s : strip_prefix p (p +:+ s) = Some s.
Proof. induction p as [|a p IH]; [done|]. change (strip_prefix (String a p) (String a (p +:+ s)) = Some s). simpl. by rewrite Ascii.eqb_refl. Qed.

Lemma strip_prefix_Some p s r : strip_prefix p s = Some r <-> s = p +:+ r.
Proof.
  split; [|intros ->; apply strip_prefix_app]. revert s. induction p as [|a p IH]; intros s; [by intros [= ->]|].
  destruct s as [|b s]; [done|]. simpl. destruct (Ascii.eqb_spec a b) as [->|]; [|done].
  intros ->%IH. done.
Qed.

Lemma rev_string_app s t : rev_string (s +:+ t) = rev_string t +:+ rev_string s.
Proof.
  induction s as [|c s IH]; [cbn [rev_string]; by rewrite string_app_nil_r|].
  change (String c s +:+ t) with (String c (s +:+ t)). cbn [rev_string]. by rewrite IH, string_app_assoc.
Qed.
Lemma rev_string_involutive s : rev_string (rev_string s) = s.
Proof. induction s as [|c s IH]; [done|]. cbn [rev_string]. rewrite rev_string_app, IH. done. Qed.

(** No occurrence of the separator. *)
Definition free_of (sep : ascii) (s : string) : Prop := string_forallb (fun a => negb (Ascii.eqb a sep)) s = true.

Lemma Cut_app sep p s : free_of sep p -> Cut sep (p +:+ String sep s) = Some (p, s).
Proof.
  induction p as [|a p IH]; intros Hf.
  - change (Cut sep (String sep s) = Some (EmptyString, s)). simpl. by rewrite Ascii.eqb_refl.
  - change (Cut sep (String a (p +:+ String sep s)) = Some (String a p, s)). unfold free_of in Hf. simpl in *.
    apply andb_true_iff in Hf as [Ha Hf]. apply negb_true_iff in Ha. by rewrite Ha, IH.
Qed.

Lemma Cut_Some sep s p r : Cut sep s = Some (p, r) -> s = p +:+ String sep r /\ free_of sep p.
Proof.
  revert p. induction s as [|a s IH]; intros p; [done|]. simpl.
  destruct (Ascii.eqb_spec a sep) as [->|Hne]; [intros [= <- <-]; done|].
  destruct (Cut sep s) as [[b r']|]; [|done]. intros [= <- <-]. destruct (IH b eq_refl) as [-> Hf].
  split; [done|]. unfold free_of. simpl. rewrite (proj2 (Ascii.eqb_neq _ _) Hne). exact Hf.
Qed.

Lemma hex_free_of b : Forall byte_ok b -> free_of "_" (hex_EncodeToString b).
Proof.
  assert (forall n, (0 <= n < 16)%Z -> Ascii.eqb (hex_digit n) "_" = false) as Hd.
  { intros n Hn. assert (exists k : nat, (k < 16)%nat /\ n = Z.of_nat k) as (k & Hk & ->) by (exists (Z.to_nat n); lia).
    do 16 (destruct k as [|k]; [reflexivity|]). lia. }
  induction 1 as [|x b Hx Hb IH]; [done|]. unfold free_of, byte_ok in *. cbn [hex_EncodeToString string_forallb].
  rewrite !Hd; [exact IH| |].
  - apply Z.mod_pos_bound. lia.
  - split; [apply Z.div_pos; lia|apply Z.div_lt_upper_bound; lia].
Qed.

Lemma HasPrefix_iff s p : HasPrefix s p = true <-> exists r, s = p +:+ r.
Proof.
  unfold HasPrefix. destruct (strip_prefix p s) as [r|] eqn:Hp; split; try done.
  - intros _. exists r. by apply strip_prefix_Some.
  - intros [r ->]. by rewrite strip_prefix_app in Hp.
Qed.

Lemma Contains_iff s sub : Contains s sub = true <-> exists p r, s = p +:+ (sub +:+ r).
Proof.
  induction s as [|a s IH]; cbn [Contains]; rewrite orb_true_iff, HasPrefix_iff.
  - split.
    + intros [[r Hr]|]; [|done]. by exists "", r.
    + intros (p & r & Hs). left. exists r. by destruct p.
  - rewrite IH. split.
    + intros [[r Hr]|(p & r & ->)]; [by exists "", r|]. by exists (String a p), r.
    + intros ([|b p] & r & Hs); [left; by exists r|right]. exists p, r. by injection Hs.
Qed.

Lemma trim_suffix_dot_app p z :
  trim_suffix_dot (p +:+ String "." z) = match z with EmptyString => p | _ => p +:+ String "." (trim_suffix_dot z) end.
Proof.
  induction p as [|a p IH]; [by destruct z|].
  change (trim_suffix_dot (String a (p +:+ String "." z)) =
            match z with EmptyString => String a p | _ => String a (p +:+ String "." (trim_suffix_dot z)) end).
  cbn [trim_suffix_dot]. rewrite IH. by destruct p, z.
Qed.

Lemma Split_free sep s : free_of sep s -> Split s sep = [s].
Proof.
  induction s as [|a s IH]; [done|]. unfold free_of. simpl. intros [Ha Hf]%andb_true_iff. apply negb_true_iff in Ha.
  by rewrite Ha, IH.
Qed.

Lemma Split_ne s sep : Split s sep <> [].
Proof. destruct s as [|a s]; [done|]. simpl. destruct (Ascii.eqb a sep); [done|]. by destruct (Split s sep). Qed.

Lemma Split_app sep s t : Split (s +:+ String sep t) sep = Split s sep ++ Split t sep.
Proof.
  induction s as [|a s IH].
  - change (Split (String sep t) sep = Split "" sep ++ Split t sep). simpl. by rewrite Ascii.eqb_refl.
  - change (String a s +:+ String sep t) with (String a (s +:+ String sep t)). cbn [Split]. rewrite IH.
    destruct (Ascii.eqb a sep); [done|]. by destruct (Split s sep) eqn:Hs; [apply Split_ne in Hs|].
Qed.
