(* ===== verification/GoFloat.v ===== *)
(** * Go's float64 and the default format

    IEEE 754 binary64 numbers and the conversions of the Go standard library
    the program uses: [float64(n)], [strconv.ParseFloat] (correct rounding of
    decimal and hexadecimal text), the shortest text of a float, and [%v] of
    the dynamic values of Models.v. *)
From stdpp Require Import base list strings.
From Stdlib Require Import ZArith Lia Bool Ascii SpecFloat.
From S2P Require Import Prelude Models GoStrings.
Local Open Scope string_scope.
Local Open Scope list_scope.
Local Open Scope Z_scope.

Abbreviation float64 := spec_float (only parsing).

(** ** Arithmetic *)

(** [float64(n)] of an integer, rounded to nearest even. *)
Definition float_of_Z (n : Z) : float64 := binary_normalize 53 1024 n 0 false.
Definition fzero : float64 := S754_zero false.

Definition flt (x y : float64) : bool := SFltb x y.
Definition fle (x y : float64) : bool := SFleb x y.
Definition fadd (x y : float64) : float64 := SFadd 53 1024 x y.
Definition fsub (x y : float64) : float64 := SFsub 53 1024 x y.
Definition fmul (x y : float64) : float64 := SFmul 53 1024 x y.
Definition fdiv (x y : float64) : float64 := SFdiv 53 1024 x y.

(** The float nearest to [m * 2 ^ e], [m] with 66 bits or exact; the quotient of
    [n / d] is computed to 66 bits with the remainder folded into the last. *)
Definition round_pos (neg : bool) (m e : Z) : float64 :=
  match m with Zpos p => binary_round 53 1024 neg p e | _ => S754_zero neg end.
Definition round_quotient (neg : bool) (n d : Z) : float64 :=
  let k := Z.max 0 (66 + Z.log2 d - Z.log2 n) in
  let q := n * 2 ^ k / d in
  let sticky := if (n * 2 ^ k) mod d =? 0 then 0 else 1 in
  round_pos neg (2 * q + sticky) (- k - 1).

(** The float nearest to [m * 10 ^ e]. *)
Definition float_of_decimal (neg : bool) (m e : Z) : float64 :=
  if m =? 0 then S754_zero neg
  else if 0 <=? e then round_pos neg (m * 10 ^ e) 0
  else round_quotient neg m (10 ^ (- e)).

(** ** strconv.ParseFloat *)

Definition lower (c : ascii) : ascii := ascii_lower c.
Definition digit_val (hex : bool) (c : ascii) : option Z :=
  let n := Z.of_N (N_of_ascii (lower c)) in
  if (48 <=? n) && (n <=? 57) then Some (n - 48)
  else if hex && (97 <=? n) && (n <=? 102) then Some (n - 87)
  else None.

(** Mantissa digits: the value, the digits after the point, whether a point and
    any digit was seen, and the rest of the text. *)
Record mantissa := mkMantissa { m_val : Z; m_frac : Z; m_dot : bool; m_digits : bool; m_rest : list ascii }.

Fixpoint scan_mantissa (hex : bool) (v frac : Z) (dot digits : bool) (s : list ascii) : mantissa :=
  match s with
  | [] => mkMantissa v frac dot digits []
  | c :: s' =>
      if bool_decide (c = "_"%char) then scan_mantissa hex v frac dot digits s'
      else if bool_decide (c = "."%char) then
        if dot then mkMantissa v frac dot digits s else scan_mantissa hex v frac true digits s'
      else
        match digit_val hex c with
        | Some d => scan_mantissa hex (v * (if hex then 16 else 10) + d) (if dot then frac + 1 else frac) dot true s'
        | None => mkMantissa v frac dot digits s
        end
  end.

(** The digits of an exponent, capped like the source caps them. *)
Fixpoint scan_exponent (e : Z) (s : list ascii) : Z * list ascii :=
  match s with
  | [] => (e, [])
  | c :: s' =>
      if bool_decide (c = "_"%char) then scan_exponent e s'
      else match digit_val false c with
           | Some d => scan_exponent (if e <? 10000 then e * 10 + d else e) s'
           | None => (e, s)
           end
  end.

(** [underscoreOK]: underscores separate digits. *)
Inductive seen := SawStart | SawDigit | SawUnderscore | SawOther.
Fixpoint underscores_ok (hex : bool) (saw : seen) (s : list ascii) : bool :=
  match s with
  | [] => match saw with SawUnderscore => false | _ => true end
  | c :: s' =>
      match digit_val hex c with
      | Some _ => underscores_ok hex SawDigit s'
      | None =>
          if bool_decide (c = "_"%char) then match saw with SawDigit => underscores_ok hex SawUnderscore s' | _ => false end
          else match saw with SawUnderscore => false | _ => underscores_ok hex SawOther s' end
      end
  end.

Definition strip_sign (s : list ascii) : bool * list ascii :=
  match s with
  | "-"%char :: s' => (true, s')
  | "+"%char :: s' => (false, s')
  | _ => (false, s)
  end.

(** The optional exponent after the mantissa; [None] is a syntax error. *)
Definition read_exponent (mark : ascii) (required : bool) (s : list ascii) : option Z :=
  match s with
  | [] => if required then None else Some 0
  | c :: s' =>
      if bool_decide (lower c = mark) then
        let '(neg, s'') := strip_sign s' in
        match s'' with
        | d :: _ =>
            if bool_decide (d = "_"%char) then None
            else match digit_val false d with
                 | None => None
                 | Some _ => match scan_exponent 0 s'' with (e, []) => Some (if neg then - e else e) | _ => None end
                 end
        | [] => None
        end
      else None
  end.

Definition is_prefix_0x (s : list ascii) : bool :=
  match s with "0"%char :: x :: _ :: _ => bool_decide (lower x = "x"%char) | _ => false end.

Definition read_number (s : list ascii) : option float64 :=
  let '(neg, s') := strip_sign s in
  let hex := is_prefix_0x s' in
  let m := scan_mantissa hex 0 0 false false (if hex then drop 2 s' else s') in
  if negb (m_digits m) then None
  else
    match read_exponent (if hex then "p" else "e")%char hex (m_rest m) with
    | None => None
    | Some e =>
        if existsb (fun c => bool_decide (c = "_"%char)) s &&
           negb (underscores_ok hex (if hex then SawDigit else SawStart) (if hex then drop 2 s' else s')) then None
        else if hex then Some (let k := e - 4 * m_frac m in
                               if m_val m =? 0 then S754_zero neg
                               else round_pos neg (m_val m) k)
        else Some (float_of_decimal neg (m_val m) (e - m_frac m))
    end.

(** The value of [strconv.ParseFloat(s, 64)], [0] with a syntax error and an
    infinity with a range error. *)
Definition ParseFloat (s : string) : float64 :=
  let l := Stdlib.Strings.String.list_ascii_of_string s in
  let '(neg, l') := strip_sign l in
  let name := Stdlib.Strings.String.string_of_list_ascii (map lower l') in
  if bool_decide (name = "inf") || bool_decide (name = "infinity") then S754_infinity neg
  else if bool_decide (Stdlib.Strings.String.string_of_list_ascii (map lower l) = "nan") then S754_nan
  else default fzero (read_number l).

(** ** The shortest text of a float *)

(** The value of a finite float is [m * 2 ^ e]; its decimal scale is found from
    an estimate of the logarithm. *)
Definition pow10_le (m : positive) (e k : Z) : bool :=
  (** [10 ^ k <= m * 2 ^ e] *)
  let num := Zpos m * 2 ^ Z.max e 0 * 10 ^ Z.max (- k) 0 in
  let den := 10 ^ Z.max k 0 * 2 ^ Z.max (- e) 0 in den <=? num.

Fixpoint find_scale (fuel : nat) (m : positive) (e k : Z) : Z :=
  match fuel with
  | O => k
  | S fuel' => if pow10_le m e k then k else find_scale fuel' m e (k - 1)
  end.

(** The [n] leading decimal digits of [m * 2 ^ e] as a floor, the remainder and
    the divisor; [k] is the exponent of the first digit. *)
Definition leading_digits (m : positive) (e k : Z) (n : Z) : Z * Z * Z :=
  let s := k - n + 1 in
  let num := Zpos m * 2 ^ Z.max e 0 * 10 ^ Z.max (- s) 0 in
  let den := 10 ^ Z.max s 0 * 2 ^ Z.max (- e) 0 in
  (num / den, num mod den, den).

Definition same_float (x y : float64) : bool := match SFcompare x y with Some Eq => true | _ => false end.

(** The shortest digits that read back as the float, the nearest of them when
    rounding down and up both do; [n] digits are tried from one upwards. *)
Fixpoint shortest_from (fuel : nat) (n : Z) (m : positive) (e k : Z) : Z * Z :=
  let '(f, r, den) := leading_digits m e k n in
  let s := k - n + 1 in
  let x := S754_finite false m e in
  let down := same_float (float_of_decimal false f s) x in
  let up := same_float (float_of_decimal false (f + 1) s) x in
  let nearest := if (2 * r <? den) || ((2 * r =? den) && Z.even f) then f else f + 1 in
  match fuel with
  | O => (nearest, s)
  | S fuel' =>
      if down && up then (nearest, s) else if down then (f, s) else if up then (f + 1, s) else shortest_from fuel' (n + 1) m e k
  end.

(** The digits of a positive number, without trailing zeros. *)
Fixpoint strip_zeros_10 (fuel : nat) (m s : Z) : Z * Z :=
  match fuel with
  | O => (m, s)
  | S fuel' => if (m mod 10 =? 0) && negb (m =? 0) then strip_zeros_10 fuel' (m / 10) (s + 1) else (m, s)
  end.

Fixpoint repeat_char (n : nat) (c : ascii) : string := match n with O => "" | S n' => String c (repeat_char n' c) end.

(** [%e] with all digits: one digit, a point, the rest, and an exponent of at
    least two digits. *)
Definition format_e (digits : string) (exp : Z) : string :=
  let head := String.substring 0 1 digits in
  let rest := String.substring 1 (String.length digits - 1) digits in
  head +:+ (if bool_decide (rest = "") then "" else "." +:+ rest) +:+ "e" +:+ (if exp <? 0 then "-" else "+")
    +:+ (if Z.abs exp <? 10 then "0" else "") +:+ fmt_d (Z.abs exp).

(** [%f] of [digits * 10 ^ s]. *)
Definition format_f (digits : string) (s : Z) : string :=
  let nd := Z.of_nat (String.length digits) in
  if 0 <=? s then digits +:+ repeat_char (Z.to_nat s) "0"
  else if 0 <? nd + s then String.substring 0 (Z.to_nat (nd + s)) digits +:+ "." +:+ String.substring (Z.to_nat (nd + s)) (Z.to_nat (- s)) digits
  else "0." +:+ repeat_char (Z.to_nat (- (nd + s))) "0" +:+ digits.

(** [fmt.Sprint] of a float64. *)
Definition format_float (x : float64) : string :=
  match x with
  | S754_nan => "NaN"
  | S754_infinity neg => if neg then "-Inf" else "+Inf"
  | S754_zero neg => if neg then "-0" else "0"
  | S754_finite neg m e =>
      let k := find_scale 4 m e (Z.log2 (Zpos m) * 30103 / 100000 + e * 30103 / 100000 + 2) in
      let '(d, s) := shortest_from 17 1 m e k in
      let '(d, s) := strip_zeros_10 20 d s in
      let digits := fmt_d d in
      let exp := Z.of_nat (String.length digits) + s - 1 in
      (if neg then "-" else "") +:+ (if (exp <? -4) || (6 <=? exp) then format_e digits exp else format_f digits s)
  end.

(** ** fmt.Sprint *)

(** [fmt.Sprint] of a dynamic value, and [%v] of a string slice. *)
Fixpoint join_space (l : list string) : string :=
  match l with [] => "" | [s] => s | s :: l' => s +:+ " " +:+ join_space l' end.
Definition fmt_strings (l : list string) : string := "[" +:+ join_space l +:+ "]".
Fixpoint fmt_Sprint (v : gany) : string :=
  match v with
  | VString s => s
  | VBool b => if b then "true" else "false"
  | VInt n | VUint n => fmt_d n
  | VFloat x => format_float x
  | VStrings l => fmt_strings l
  | VInts l => fmt_strings (map fmt_d l)
  | VList l => fmt_strings (map fmt_Sprint l)
  | VMap l => "map" +:+ fmt_strings (map (fun kv => fst kv +:+ ":" +:+ fmt_Sprint (snd kv)) l)
  | VNil => "<nil>"
  end.
(** ** Integers are exact *)

Lemma digits2_bounds p : 2 ^ (Zpos (digits2_pos p) - 1) <= Zpos p < 2 ^ Zpos (digits2_pos p).
Proof.
  induction p as [p IH|p IH|]; cbn [digits2_pos]; [| |done]; rewrite Pos2Z.inj_succ;
    replace (Z.succ (Zpos (digits2_pos p)) - 1) with (Z.succ (Zpos (digits2_pos p) - 1)) by lia; rewrite !Z.pow_succ_r by lia; lia.
Qed.

Lemma shift_digits m d : digits2_pos (Pos.iter xO m d) = (digits2_pos m + d)%positive /\ Zpos (Pos.iter xO m d) = Zpos m * 2 ^ Zpos d.
Proof.
  induction d as [|d [IH1 IH2]] using Pos.peano_ind; [cbn; split; [lia|lia]|].
  rewrite !Pos.iter_succ. cbn [digits2_pos]. split; [rewrite IH1; lia|]. rewrite Pos2Z.inj_xO, IH2, Pos2Z.inj_succ, Z.pow_succ_r by lia. lia.
Qed.

(** A mantissa of 53 bits needs no rounding. *)
Lemma round_exact neg p e : digits2_pos p = 53%positive -> -1074 <= e <= 971 -> binary_round_aux 53 1024 neg (Zpos p) e loc_Exact = S754_finite neg p e.
Proof.
  intros Hd He. assert (forall l, l = loc_Exact -> shr_fexp 53 1024 (Zpos p) e l = (Build_shr_record (Zpos p) false false, e)) as Hs.
  { intros l ->. unfold shr_fexp. cbn [Zdigits2]. rewrite Hd.
    replace (fexp 53 1024 (Zpos 53 + e) - e) with 0 by (unfold fexp, SpecFloat.emin; lia). reflexivity. }
  unfold binary_round_aux. rewrite Hs by done. cbn [shr_m loc_of_shr_record round_nearest_even]. rewrite Hs by done. cbn [shr_m].
  destruct (Z.leb_spec e (1024 - 53)); [done|lia].
Qed.

(** [float64(n)] below [2 ^ 53] in normal form. *)
Lemma float_of_pos p : Zpos p < 2 ^ 53 -> exists q, float_of_Z (Zpos p) = S754_finite false q (Zpos (digits2_pos p) - 53) /\
  digits2_pos q = 53%positive /\ Zpos q = Zpos p * 2 ^ (53 - Zpos (digits2_pos p)).
Proof.
  intros Hp. pose proof (digits2_bounds p) as [Hlo _].
  assert (Zpos (digits2_pos p) <= 53).
  { destruct (Z.le_gt_cases (Zpos (digits2_pos p)) 53); [done|].
    pose proof (Z.pow_le_mono_r 2 53 (Zpos (digits2_pos p) - 1) ltac:(lia) ltac:(lia)). lia. }
  unfold float_of_Z, binary_normalize, binary_round, shl_align.
  replace (fexp 53 1024 (Zpos (digits2_pos p) + 0)) with (Zpos (digits2_pos p) - 53) by (unfold fexp, SpecFloat.emin; lia).
  rewrite Z.sub_0_r. destruct (Zpos (digits2_pos p) - 53) as [|k|k] eqn:Hk; [|lia|].
  - exists p. rewrite round_exact by lia. split; [done|]. split; [lia|]. replace (53 - _) with 0 by lia. lia.
  - destruct (shift_digits p k) as [Hd Hv]. exists (Pos.iter xO p k). rewrite round_exact by lia. split; [done|]. split; [lia|].
    rewrite Hv. do 2 f_equal. lia.
Qed.

(** Conversion keeps the order of the integers a [float64] holds exactly. *)
Lemma float_of_Z_lt m n : 0 <= m < 2 ^ 53 -> 0 <= n < 2 ^ 53 -> flt (float_of_Z m) (float_of_Z n) = (m <? n).
Proof.
  intros Hm Hn. destruct m as [|p|p]; [|destruct n as [|r|r]|]; try lia.
  - destruct n as [|r|r]; [done| |lia]. destruct (float_of_pos r ltac:(lia)) as (q & -> & _). done.
  - destruct (float_of_pos p ltac:(lia)) as (q & -> & _). done.
  - destruct (float_of_pos p ltac:(lia)) as (q & -> & _ & Hq), (float_of_pos r ltac:(lia)) as (q' & -> & _ & Hq').
    pose proof (digits2_bounds p) as Hp. pose proof (digits2_bounds r) as Hr.
    unfold flt, SFltb, SFcompare. destruct (Z.compare_spec (Zpos (digits2_pos p) - 53) (Zpos (digits2_pos r) - 53)) as [He|He|He].
    + replace (digits2_pos r) with (digits2_pos p) in Hq' by lia. change (Pos.compare_cont Eq q q') with (Zpos q ?= Zpos q').
      set (s := 2 ^ (53 - Zpos (digits2_pos p))) in *. assert (0 < s).
      { apply Z.pow_pos_nonneg; [lia|]. pose proof (Z.pow_le_mono_r 2 53 (Zpos (digits2_pos p) - 1) ltac:(lia)). lia. }
      destruct (Z.compare_spec (Zpos q) (Zpos q')) as [Hc|Hc|Hc], (Z.ltb_spec (Zpos p) (Zpos r)); try done; nia.
    + pose proof (Z.pow_le_mono_r 2 (Zpos (digits2_pos p)) (Zpos (digits2_pos r) - 1) ltac:(lia) ltac:(lia)).
      destruct (Z.ltb_spec (Zpos p) (Zpos r)); [done|lia].
    + pose proof (Z.pow_le_mono_r 2 (Zpos (digits2_pos r)) (Zpos (digits2_pos p) - 1) ltac:(lia) ltac:(lia)).
      destruct (Z.ltb_spec (Zpos p) (Zpos r)); [lia|done].
Qed.
