(* ===== verification/TorExitList.v ===== *)
(** * The Tor exit-node list

    internal/network/tor/exitlist.go and the lookup of service.go: a set of
    known exit/relay addresses, replaced as a whole from a local file or a
    fetched document.  JSON decoding is an argument. *)
From S2P Require Import Prelude Models.
From stdpp Require Import base list strings gmap.
From Stdlib Require Import ZArith Lia Bool.
Local Open Scope string_scope.
Local Open Scope Z_scope.

(** [ExitNodeList]: [nodes map[string]bool], a Go map read with the zero value
    for missing keys. *)
Record ExitNodeList := mkExitNodeList { nodes : gmap string bool }.

Definition NewExitNodeList : ExitNodeList := mkExitNodeList ∅.

Definition Contains (l : ExitNodeList) (ip : string) : bool :=
  if bool_decide (ip = "") then false else default false (nodes l !! ip).

Definition Size (l : ExitNodeList) : nat := size (nodes l).

(** [replace]: builds the next map from the non-empty addresses and swaps it in. *)
Definition replace_step (next : gmap string bool) (ip : string) : gmap string bool :=
  if bool_decide (ip = "") then next else <[ip := true]> next.
Definition replace (l : ExitNodeList) (ips : list string) : ExitNodeList :=
  mkExitNodeList (foldl replace_step ∅ ips).

(** The outcome of [os.ReadFile]. *)
Inductive read_result := ReadData (data : bytes) | ReadNotExist | ReadError.

Inductive tor_error := ErrReadList | ErrParseList | ErrRequest | ErrFetch | ErrStatus (code : Z) | ErrBody.

Section Json.
(** [json.Unmarshal] into [exitNodeFile], and [json.Marshal] of it. *)
Context (unmarshal : bytes -> option (list string)).

Definition LoadFile (l : ExitNodeList) (r : read_result) : ExitNodeList * option tor_error :=
  match r with
  | ReadNotExist => (l, None)
  | ReadError => (l, Some ErrReadList)
  | ReadData data =>
      match unmarshal data with
      | None => (l, Some ErrParseList)
      | Some ips => (replace l ips, None)
      end
  end.

(** What the HTTP client produced: a request error, a transport error, or a
    response with a status and a body that may fail to read. *)
Inductive http_result := ReqError | DoError | Response (status : Z) (body : option bytes).

Definition Fetch (l : ExitNodeList) (r : http_result) : ExitNodeList * option tor_error :=
  match r with
  | ReqError => (l, Some ErrRequest)
  | DoError => (l, Some ErrFetch)
  | Response status body =>
      if negb (status =? 200) then (l, Some (ErrStatus status))
      else match body with
           | None => (l, Some ErrBody)
           | Some body =>
               match unmarshal body with
               | None => (l, Some ErrParseList)
               | Some ips => (replace l ips, None)
               end
           end
  end.

(** [refresh]: a failed fetch keeps the stale list. *)
Definition refresh (l : ExitNodeList) (r : http_result) : ExitNodeList := (Fetch l r).1.
End Json.

(** [SaveFile] writes the keys of the map (in map order). *)
Definition SaveFile (l : ExitNodeList) : list string := (map_to_list (nodes l)).*1.

(** ** Facts *)

Lemma replace_fold_lookup ips : forall m ip,
  foldl replace_step m ips !! ip =
    if bool_decide (ip ∈ ips /\ ip <> "") then Some true else m !! ip.
Proof.
  induction ips as [|i ips IH]; intros m ip; cbn [foldl].
  - rewrite bool_decide_eq_false_2; [done|]. intros [H _]. by apply not_elem_of_nil in H.
  - rewrite IH. unfold replace_step.
    destruct (decide (i = "")) as [->|Hi].
    + rewrite (bool_decide_eq_true_2 ("" = "")) by done. repeat case_bool_decide; set_solver.
    + rewrite (bool_decide_eq_false_2 (i = "")) by done.
      destruct (decide (i = ip)) as [->|Hip].
      * rewrite lookup_insert_eq. repeat case_bool_decide; set_solver.
      * rewrite lookup_insert_ne by done. repeat case_bool_decide; set_solver.
Qed.

Lemma contains_replace l ips ip : Contains (replace l ips) ip = bool_decide (ip ∈ ips /\ ip <> "").
Proof.
  unfold Contains, replace. simpl. rewrite replace_fold_lookup, lookup_empty.
  repeat case_bool_decide; naive_solver.
Qed.

(** After a successful refresh the list holds exactly the non-empty
    addresses of the fetched document, nothing of the previous list; after any
    failure (request, transport, status, body or JSON) it is unchanged. *)
Theorem exit_list_refresh (unmarshal : bytes -> option (list string)) (l : ExitNodeList) (r : http_result) (ip : string) :
  match r with
  | Response 200 (Some body) =>
      match unmarshal body with
      | Some ips => Contains (refresh unmarshal l r) ip = bool_decide (ip ∈ ips /\ ip <> "")
      | None => refresh unmarshal l r = l
      end
  | _ => refresh unmarshal l r = l
  end.
Proof.
  unfold refresh, Fetch. destruct r as [| |status [body|]]; try done.
  - destruct (Z.eqb_spec status 200) as [->|Hs]; simpl.
    + destruct (unmarshal body); [apply contains_replace|done].
    + repeat case_match; done.
  - destruct (Z.eqb_spec status 200) as [->|Hs]; simpl; [done|]. repeat case_match; done.
Qed.

(** Saving a list and loading it back gives the same membership. *)
Lemma save_load_contains l l' ip :
  (forall k v, nodes l !! k = Some v -> v = true /\ k <> "") ->
  Contains (replace l' (SaveFile l)) ip = Contains l ip.
Proof.
  intros Hl. rewrite contains_replace. unfold SaveFile, Contains.
  destruct (nodes l !! ip) as [v|] eqn:Hv.
  - destruct (Hl _ _ Hv) as [-> Hne]. rewrite bool_decide_eq_true_2.
    + by rewrite bool_decide_eq_false_2.
    + split; [|done]. apply list_elem_of_fmap. exists (ip, true). by rewrite elem_of_map_to_list.
  - rewrite bool_decide_eq_false_2; [by case_bool_decide|]. intros [H _].
    apply list_elem_of_fmap in H as ([k v] & -> & H). apply elem_of_map_to_list in H. simpl in *. congruence.
Qed.

(** The lists the program can hold: only [true] entries, no empty address. *)
Definition exit_list_wf (l : ExitNodeList) : Prop :=
  forall k v, nodes l !! k = Some v -> v = true /\ k <> "".

Lemma replace_wf l ips : exit_list_wf (replace l ips).
Proof.
  intros k v. unfold replace. simpl. rewrite replace_fold_lookup, lookup_empty.
  case_bool_decide; naive_solver.
Qed.
