(* ===== verification/Probe.v ===== *)
(** * probe.c: the connect() tap

    internal/network/ebpf/bpf/probe.c attaches to tcp_v4_connect and writes one
    [struct connect_event] per call into a ring buffer.  The BPF helpers, the
    CO-RE relocation and the kprobe calling convention are not part of the
    repository: they are the fields of [bpf_env], and [bpf_laws] states what
    their documentation promises.  Kernel memory is a function from addresses to
    bytes; the kernel's own [struct sock] is a parameter, because CO-RE rewrites
    the member offsets at load time for the kernel that runs. *)
From S2P Require Import Prelude CTypes VmSock VmTask.
From stdpp Require Import base list strings.
From Stdlib Require Import ZArith Lia Bool.
Local Open Scope cdecl_scope.
Local Open Scope string_scope.
Local Open Scope Z_scope.

(** ** Data *)

Definition struct_connect_event : ctype := CStruct "connect_event" (
  field "pid" td___u32 ,,
  field "comm" (CArr c_char 16) ,,
  field "daddr" td___u32 ,,
  field "dport" td___u16 ,,
  fin).

(** The [.maps] declaration: [__uint(type, BPF_MAP_TYPE_RINGBUF)] and
    [__uint(max_entries, 1 << 16)]. *)
Record bpf_map_decl := BpfMapDecl { map_type : Z; max_entries : Z }.

Definition enumerator (t : ctype) (n : string) : option Z :=
  match t with
  | CEnum _ es => snd <$> List.find (fun e => String.eqb e.1 n) es
  | _ => None
  end.

Definition events : bpf_map_decl :=
  BpfMapDecl (default 0 (enumerator enum_bpf_map_type "BPF_MAP_TYPE_RINGBUF")) (Z.shiftl 1 16).

(** ** The kernel side, as parameters *)

Definition memory := Z -> Z.

Definition load (m : memory) (a : Z) (n : nat) : bytes := (fun i => m (a + Z.of_nat i)) <$> seq 0 n.

Lemma length_load m a n : length (load m a n) = n.
Proof. unfold load. by rewrite length_fmap, length_seq. Qed.

(** The bytes of member [path] of an object of type [t] at address [a]. *)
Definition load_member (m : memory) (t : ctype) (a : Z) (path : list accessor) : option bytes :=
  p ← access_path t path;
  o ← offsetof t path;
  Some (load m (a + o) (Z.to_nat (sizeof (pl_type p)))).

(** What probe.c calls. [R] is the state of the ring buffer; a reservation
    yields the bytes of the reserved record as they happen to be. A helper that
    writes through a pointer maps the old bytes of its target to its return code
    and the new bytes; probe.c ignores the return codes. *)
Record bpf_env (R : Type) := BpfEnv {
  bpf_ringbuf_reserve : R -> Z -> option (R * bytes);
  bpf_ringbuf_submit : R -> bytes -> R;
  bpf_get_current_pid_tgid : Z;
  bpf_get_current_comm : bytes -> Z * bytes;
  bpf_probe_read_kernel : Z -> bytes -> Z * bytes;
  preserve_access_index : list accessor -> Z;
  PT_REGS_PARM1 : Z -> Z;
}.
Arguments bpf_ringbuf_reserve {R} _ _ _.
Arguments bpf_ringbuf_submit {R} _ _ _.
Arguments bpf_get_current_pid_tgid {R} _.
Arguments bpf_get_current_comm {R} _ _.
Arguments bpf_probe_read_kernel {R} _ _ _.
Arguments preserve_access_index {R} _ _.
Arguments PT_REGS_PARM1 {R} _ _.

(** [t] has a member at [path] that is not a bit-field and has [n] bytes. *)
Definition has_member (t : ctype) (path : list accessor) (n : Z) : bool :=
  match access_path t path with
  | Some (Place _ u None) => sizeof u =? n
  | _ => false
  end.

Lemma has_member_spec t path n :
  has_member t path n = true ->
  exists p o, access_path t path = Some p /\ offsetof t path = Some o /\ sizeof (pl_type p) = n.
Proof.
  unfold has_member, offsetof. destruct (access_path t path) as [[b u [w|]]|]; try done.
  intros H. breflect. by eexists _, _.
Qed.

(** ** The program *)

Definition event_offset (n : string) : nat :=
  Z.to_nat (default 0 (offsetof struct_connect_event [AField n])).

(** [&e->n] as a buffer: the bytes of member [n] of the record. *)
Definition event_member (n : string) (len : nat) (e : bytes) : bytes := slice (event_offset n) len e.
Definition set_event_member (n : string) (d e : bytes) : bytes := write (event_offset n) d e.

Definition daddr_path := [AField "__sk_common"; AField "skc_daddr"].
Definition dport_path := [AField "__sk_common"; AField "skc_dport"].

Section Program.
Context {R : Type} (env : bpf_env R).

(** [BPF_CORE_READ_INTO(&e->n, sk, path)]: read [sizeof(e->n)] bytes of kernel
    memory at the relocated address of the member into [e->n]. *)
Definition core_read_into (n : string) (len : nat) (sk : Z) (path : list accessor) (e : bytes) : bytes :=
  set_event_member n
    (bpf_probe_read_kernel env (sk + preserve_access_index env path) (event_member n len e)).2 e.

Definition emit_connect_event (rb : R) (sk : Z) : Z * R :=
  match bpf_ringbuf_reserve env rb (sizeof struct_connect_event) with
  | None => (0, rb)
  | Some (rb, e) =>
      let e := set_event_member "pid"
                 (le_encode 4 (wrap 32 (Z.shiftr (bpf_get_current_pid_tgid env) 32))) e in
      let e := set_event_member "comm" (bpf_get_current_comm env (event_member "comm" 16 e)).2 e in
      let e := core_read_into "daddr" 4 sk daddr_path e in
      let e := core_read_into "dport" 2 sk dport_path e in
      (0, bpf_ringbuf_submit env rb e)
  end.

(** [BPF_KPROBE(trace_tcp_v4_connect, struct sock *sk)]: the socket is the
    first argument register of the probed call. *)
Definition trace_tcp_v4_connect (rb : R) (ctx : Z) : Z * R :=
  emit_connect_event rb (PT_REGS_PARM1 env ctx).
End Program.

Definition _license : bytes := [71; 80; 76; 0].

(** ** What the kernel promises *)

Section Laws.
Context {R : Type} (env : bpf_env R).
(** Kernel memory, the [struct sock] of the running kernel, the address of the
    current task, and the records a consumer will see in a ring buffer. *)
Context (mem : memory) (ksock : ctype) (current : Z) (committed : R -> list bytes).

Class bpf_laws : Prop := {
  mem_bytes : forall a, byte_ok (mem a);
  (** A reservation has the requested size and is invisible until submitted. *)
  reserve_size : forall rb n rb' e,
    0 <= n -> bpf_ringbuf_reserve env rb n = Some (rb', e) -> Z.of_nat (length e) = n;
  reserve_committed : forall rb n rb' e,
    bpf_ringbuf_reserve env rb n = Some (rb', e) -> committed rb' = committed rb;
  submit_committed : forall rb e, committed (bpf_ringbuf_submit env rb e) = (committed rb ++ [e])%list;
  (** [current->tgid << 32 | current->pid]. *)
  pid_tgid_spec : exists tgid pid,
    load_member mem struct_task_struct current [AField "tgid"] = Some tgid /\
    load_member mem struct_task_struct current [AField "pid"] = Some pid /\
    bpf_get_current_pid_tgid env = Z.lor (Z.shiftl (le_decode tgid) 32) (le_decode pid);
  (** The helpers write exactly their buffer; on success it holds the comm of
      the current task, or the kernel memory at the address. *)
  comm_length : forall old, length (bpf_get_current_comm env old).2 = length old;
  comm_spec : forall old, length old = 16%nat -> (bpf_get_current_comm env old).1 = 0 ->
    load_member mem struct_task_struct current [AField "comm"] = Some (bpf_get_current_comm env old).2;
  probe_read_length : forall a old, length (bpf_probe_read_kernel env a old).2 = length old;
  probe_read_spec : forall a old, (bpf_probe_read_kernel env a old).1 = 0 ->
    (bpf_probe_read_kernel env a old).2 = load mem a (length old);
  (** CO-RE: the offset of the same member path in the running kernel's type. *)
  relocation_spec : forall path o, offsetof ksock path = Some o -> preserve_access_index env path = o;
  (** System V calling convention: the first argument is in rdi. *)
  parm1_spec : forall ctx,
    load_member mem struct_pt_regs ctx [AField "di"] = Some (le_encode 8 (PT_REGS_PARM1 env ctx));
}.
End Laws.

(** ** The record layout *)

(** Layout facts used by rewriting. *)
Lemma sizeof_connect_event : sizeof struct_connect_event = 28. Proof. reflexivity. Qed.
Lemma off_pid : event_offset "pid" = 0%nat. Proof. reflexivity. Qed.
Lemma off_comm : event_offset "comm" = 4%nat. Proof. reflexivity. Qed.
Lemma off_daddr : event_offset "daddr" = 20%nat. Proof. reflexivity. Qed.
Lemma off_dport : event_offset "dport" = 24%nat. Proof. reflexivity. Qed.

Create Rewrite HintDb event_layout.
#[export] Hint Rewrite off_pid off_comm off_daddr off_dport : event_layout.

(** Solve a length or offset side condition on event records. *)
Ltac event_len :=
  unfold event_member, set_event_member in *; autorewrite with event_layout in *;
  autorewrite with owasaka_len; rewrite ?length_slice; autorewrite with owasaka_len; try lia.

Lemma event_member_set n len d e :
  length d = len -> (event_offset n + len <= length e)%nat ->
  event_member n len (set_event_member n d e) = d.
Proof. intros <-. apply slice_write_same. Qed.

Lemma event_member_other n n' len d e :
  (event_offset n' + length d <= length e)%nat ->
  (event_offset n + len <= event_offset n' \/ event_offset n' + length d <= event_offset n)%nat ->
  event_member n len (set_event_member n' d e) = event_member n len e.
Proof. apply slice_write_disjoint. Qed.

Lemma length_set_event_member n d e : length (set_event_member n d e) = length e.
Proof. apply length_write. Qed.

#[export] Hint Rewrite length_set_event_member : owasaka_len.

(** The four writes of [emit_connect_event], on a record of the right size:
    each member holds what was written to it. *)
Lemma four_members pid comm daddr dport e :
  length e = 28%nat -> length pid = 4%nat -> length comm = 16%nat ->
  length daddr = 4%nat -> length dport = 2%nat ->
  let e' := set_event_member "dport" dport (set_event_member "daddr" daddr
              (set_event_member "comm" comm (set_event_member "pid" pid e))) in
  event_member "pid" 4 e' = pid /\ event_member "comm" 16 e' = comm /\
  event_member "daddr" 4 e' = daddr /\ event_member "dport" 2 e' = dport /\ length e' = 28%nat.
Proof.
  intros He Hp Hc Hda Hdp e'. subst e'.
  repeat split; [| | | |by autorewrite with owasaka_len].
  all: repeat (rewrite event_member_other by (autorewrite with event_layout owasaka_len; lia)).
  all: apply event_member_set; [done|]; autorewrite with event_layout owasaka_len; lia.
Qed.

(** ** Correctness of the tap *)

Section Correct.
Context {R : Type} {env : bpf_env R} {mem : memory} {ksock : ctype} {current : Z}.
Context {committed : R -> list bytes} {laws : bpf_laws env mem ksock current committed}.

Lemma load_bytes a n : Forall byte_ok (load mem a n).
Proof. apply Forall_forall. intros b (i & -> & _)%list_elem_of_fmap. destruct laws; auto. Qed.

Lemma load_member_bytes t a path bs :
  load_member mem t a path = Some bs -> Forall byte_ok bs.
Proof.
  unfold load_member. destruct (access_path t path); [|done]. simpl.
  destruct (offsetof t path); [|done]. simpl. intros. simplify_eq. apply load_bytes.
Qed.

(** The upper half of [bpf_get_current_pid_tgid] is the thread group id. *)
Lemma tgid_of_pid_tgid :
  load_member mem struct_task_struct current [AField "tgid"] =
    Some (le_encode 4 (wrap 32 (Z.shiftr (bpf_get_current_pid_tgid env) 32))).
Proof.
  destruct (pid_tgid_spec env mem ksock current committed) as (tgid & pid & Ht & Hp & ->).
  assert (length tgid = 4%nat /\ length pid = 4%nat) as [Hlt Hlp].
  { unfold load_member in Ht, Hp. vm_compute access_path in Ht, Hp. vm_compute offsetof in Ht, Hp.
    simpl in Ht, Hp. simplify_eq. by rewrite !length_load. }
  pose proof (le_decode_range _ (load_member_bytes _ _ _ _ Hp)) as Hrp.
  pose proof (le_decode_range _ (load_member_bytes _ _ _ _ Ht)) as Hrt.
  rewrite Hlp in Hrp. rewrite Hlt in Hrt.
  change (256 ^ Z.of_nat 4) with (2 ^ 32) in *.
  rewrite Ht, Z.shiftr_lor, Z.shiftr_shiftl_l, Z.shiftl_0_r by lia.
  rewrite (Z.shiftr_div_pow2 (le_decode pid)), (Z.div_small (le_decode pid)), Z.lor_0_r by lia.
  rewrite wrap_small by lia. rewrite <- Hlt, le_encode_decode by eauto using load_member_bytes. done.
Qed.

(** [BPF_CORE_READ_INTO] of a member that exists in the running kernel and has
    the size of its destination. *)
Lemma core_read_spec n len sk path e :
  has_member ksock path (Z.of_nat len) = true ->
  (event_offset n + len <= length e)%nat ->
  (bpf_probe_read_kernel env (sk + preserve_access_index env path) (event_member n len e)).1 = 0 ->
  Some (bpf_probe_read_kernel env (sk + preserve_access_index env path) (event_member n len e)).2
    = load_member mem ksock sk path.
Proof.
  intros (p & o & Hp & Ho & Hlen)%has_member_spec He Hret. rewrite (probe_read_spec env mem ksock current committed _ _ Hret), (relocation_spec env mem ksock current committed _ _ Ho).
  unfold load_member. rewrite Hp, Ho. simpl. unfold event_member. by rewrite length_slice, Hlen, Nat2Z.id.
Qed.

(** The record written when the reservation succeeds. *)
Definition written_event (sk : Z) (e0 : bytes) : bytes :=
  let e := set_event_member "pid"
             (le_encode 4 (wrap 32 (Z.shiftr (bpf_get_current_pid_tgid env) 32))) e0 in
  let e := set_event_member "comm" (bpf_get_current_comm env (event_member "comm" 16 e)).2 e in
  let e := core_read_into env "daddr" 4 sk daddr_path e in
  core_read_into env "dport" 2 sk dport_path e.

Lemma event_member_length n len e :
  (event_offset n + len <= length e)%nat -> length (event_member n len e) = len.
Proof. apply length_slice. Qed.

Lemma length_written_event sk e0 : length (written_event sk e0) = length e0.
Proof. unfold written_event, core_read_into. by rewrite !length_set_event_member. Qed.

Lemma written_event_spec sk e0 :
  length e0 = 28%nat ->
  has_member ksock daddr_path 4 = true -> has_member ksock dport_path 2 = true ->
  (forall old, (bpf_get_current_comm env old).1 = 0) ->
  (forall old, (bpf_probe_read_kernel env (sk + preserve_access_index env daddr_path) old).1 = 0) ->
  (forall old, (bpf_probe_read_kernel env (sk + preserve_access_index env dport_path) old).1 = 0) ->
  let e := written_event sk e0 in
  load_member mem struct_task_struct current [AField "tgid"] = Some (event_member "pid" 4 e) /\
  load_member mem struct_task_struct current [AField "comm"] = Some (event_member "comm" 16 e) /\
  load_member mem ksock sk daddr_path = Some (event_member "daddr" 4 e) /\
  load_member mem ksock sk dport_path = Some (event_member "dport" 2 e).
Proof.
  intros He Hda Hdp Hcomm Hrda Hrdp e. subst e. unfold written_event, core_read_into.
  set (pid := le_encode 4 _). set (e1 := set_event_member "pid" pid e0).
  set (comm := (bpf_get_current_comm env _).2). set (e2 := set_event_member "comm" comm e1).
  set (daddr := (bpf_probe_read_kernel env _ (event_member "daddr" 4 e2)).2).
  set (e3 := set_event_member "daddr" daddr e2).
  set (dport := (bpf_probe_read_kernel env _ (event_member "dport" 2 e3)).2).
  assert (length e1 = 28%nat /\ length e2 = 28%nat /\ length e3 = 28%nat) as (H1 & H2 & H3)
    by (subst e1 e2 e3; by rewrite !length_set_event_member).
  assert (length (event_member "comm" 16 e1) = 16%nat) as Hlc by (apply event_member_length; rewrite off_comm; lia).
  pose proof (four_members pid comm daddr dport e0) as H4. cbv zeta in H4.
  fold e1 in H4. fold e2 in H4. fold e3 in H4.
  destruct H4 as (-> & -> & -> & -> & _); try done.
  - subst comm. by rewrite (comm_length env mem ksock current committed).
  - subst daddr. rewrite (probe_read_length env mem ksock current committed).
    apply event_member_length. rewrite off_daddr. lia.
  - subst dport. rewrite (probe_read_length env mem ksock current committed).
    apply event_member_length. rewrite off_dport. lia.
  - split; [apply tgid_of_pid_tgid|]. split; [by apply (comm_spec env mem ksock current committed)|].
    split; symmetry; apply core_read_spec; try done; rewrite ?off_daddr, ?off_dport; lia.
Qed.
End Correct.

(** The probe never fails: it always returns 0. When the ring buffer is full
    the connection is dropped silently and the committed records are untouched;
    otherwise exactly one 28-byte record is committed, after all earlier ones. *)
Theorem trace_commits_at_most_one {R} (env : bpf_env R) mem ksock current committed
    (laws : bpf_laws env mem ksock current committed) (rb : R) (ctx : Z) :
  (trace_tcp_v4_connect env rb ctx).1 = 0 /\
  match bpf_ringbuf_reserve env rb (sizeof struct_connect_event) with
  | None => (trace_tcp_v4_connect env rb ctx).2 = rb
  | Some _ => exists e, committed (trace_tcp_v4_connect env rb ctx).2 = (committed rb ++ [e])%list /\
                length e = 28%nat
  end.
Proof.
  unfold trace_tcp_v4_connect, emit_connect_event.
  destruct (bpf_ringbuf_reserve env rb (sizeof struct_connect_event)) as [[rb1 e0]|] eqn:Hres; [|done].
  pose proof (reserve_size env mem ksock current committed _ (sizeof struct_connect_event) _ _ ltac:(done) Hres) as Hlen.
  split; [done|]. exists (written_event (env := env) (PT_REGS_PARM1 env ctx) e0). split.
  - simpl. rewrite (submit_committed env mem ksock current committed).
    by rewrite (reserve_committed env mem ksock current committed _ _ _ _ Hres).
  - rewrite length_written_event. rewrite sizeof_connect_event in Hlen. lia.
Qed.

(** C1: When a record is reserved and the kernel reads succeed, the committed
    record holds, in the layout of struct connect_event, the thread-group id and
    comm of the calling task and the destination address and port stored in the
    socket passed in rdi, byte for byte as they are in kernel memory, whatever
    the layout of struct sock in the running kernel. *)
Theorem trace_records_connection {R} (env : bpf_env R) mem ksock current committed
    (laws : bpf_laws env mem ksock current committed) (rb rb1 : R) (e0 : bytes) (ctx : Z) :
  let sk := PT_REGS_PARM1 env ctx in
  bpf_ringbuf_reserve env rb (sizeof struct_connect_event) = Some (rb1, e0) ->
  has_member ksock daddr_path 4 = true -> has_member ksock dport_path 2 = true ->
  (forall old, (bpf_get_current_comm env old).1 = 0) ->
  (forall path old, (bpf_probe_read_kernel env (sk + preserve_access_index env path) old).1 = 0) ->
  exists e, committed (trace_tcp_v4_connect env rb ctx).2 = (committed rb ++ [e])%list /\
    load_member mem struct_pt_regs ctx [AField "di"] = Some (le_encode 8 sk) /\
    load_member mem struct_task_struct current [AField "tgid"] = Some (event_member "pid" 4 e) /\
    load_member mem struct_task_struct current [AField "comm"] = Some (event_member "comm" 16 e) /\
    load_member mem ksock sk daddr_path = Some (event_member "daddr" 4 e) /\
    load_member mem ksock sk dport_path = Some (event_member "dport" 2 e).
Proof.
  intros sk Hres Hda Hdp Hcomm Hread. exists (written_event (env := env) sk e0).
  pose proof (reserve_size env mem ksock current committed _ (sizeof struct_connect_event) _ _ ltac:(done) Hres) as Hlen.
  rewrite sizeof_connect_event in Hlen. split.
  - unfold trace_tcp_v4_connect, emit_connect_event. rewrite Hres. simpl.
    rewrite (submit_committed env mem ksock current committed).
    by rewrite (reserve_committed env mem ksock current committed _ _ _ _ Hres).
  - split; [apply (parm1_spec env mem ksock current committed)|].
    apply (written_event_spec (env := env) (committed := committed)); try done. lia.
Qed.

(** ** A concrete kernel *)

Module Demo.
(** The socket at 4096 has destination 93.184.216.34:9050 (network byte
    order), the current task at 16384 is tgid 4242 "curl"; rdi of the probed
    call is saved at 256 + 112. *)
Definition image : list (Z * bytes) := [
  (4096, [93; 184; 216; 34]); (4096 + 12, [35; 90]);
  (16384 + 1952, le_encode 4 4243); (16384 + 1956, le_encode 4 4242);
  (16384 + 2488, [99; 117; 114; 108; 0]); (256 + 112, le_encode 8 4096)].

Definition mem (a : Z) : Z :=
  match List.find (fun r => (r.1 <=? a) && (a <? r.1 + Z.of_nat (length r.2))) image with
  | Some r => default 0 (r.2 !! Z.to_nat (a - r.1)) mod 256
  | None => 0
  end.

Definition current := 16384.
Definition task_member (n : string) := default [] (load_member mem struct_task_struct current [AField n]).

(** A ring buffer that holds two records. *)
Definition env : bpf_env (list bytes) := {|
  bpf_ringbuf_reserve rb n := if (length rb <? 2)%nat then Some (rb, repeat 170 (Z.to_nat n)) else None;
  bpf_ringbuf_submit rb e := (rb ++ [e])%list;
  bpf_get_current_pid_tgid :=
    Z.lor (Z.shiftl (le_decode (task_member "tgid")) 32) (le_decode (task_member "pid"));
  bpf_get_current_comm old :=
    (0, if decide (length old = 16%nat) then task_member "comm" else old);
  bpf_probe_read_kernel a old := (0, load mem a (length old));
  preserve_access_index path := default 0 (offsetof struct_sock path);
  PT_REGS_PARM1 ctx := le_decode (load mem (ctx + 112) 8);
|}.

Lemma mem_ok a : byte_ok (mem a).
Proof.
  unfold mem, byte_ok. destruct (List.find _ image); [|lia]. apply Z.mod_pos_bound. lia.
Qed.

Lemma laws : bpf_laws env mem struct_sock current (fun rb => rb).
Proof.
  split; cbn -[le_encode load load_member].
  - apply mem_ok.
  - intros rb n rb' e Hn. case_match; [|done]. intros. simplify_eq. rewrite repeat_length. lia.
  - intros rb n rb' e. case_match; [|done]. intros. by simplify_eq.
  - done.
  - exists (task_member "tgid"), (task_member "pid"). split; [|split]; vm_compute; reflexivity.
  - intros old. case_decide as Hold; [|done]. rewrite Hold. vm_compute. reflexivity.
  - intros old Hold _. rewrite decide_True by done. vm_compute. reflexivity.
  - intros. apply length_load.
  - done.
  - intros path o Ho. by rewrite Ho.
  - intros ctx. change 8%nat with (length (load mem (ctx + 112) 8)) at 1.
    rewrite le_encode_decode; [reflexivity|].
    apply Forall_forall. intros b (i & -> & _)%list_elem_of_fmap. apply mem_ok.
Qed.
End Demo.

Lemma trace_commits_at_most_one_witness :
  (trace_tcp_v4_connect Demo.env [[]; []] 256).1 = 0 /\ (trace_tcp_v4_connect Demo.env [[]; []] 256).2 = [[]; []].
Proof.
  exact (trace_commits_at_most_one Demo.env Demo.mem struct_sock Demo.current (fun rb => rb) Demo.laws [[]; []] 256).
Defined.

Lemma trace_records_connection_witness :
  exists e, (trace_tcp_v4_connect Demo.env [] 256).2 = [e] /\
    load_member Demo.mem struct_sock 4096 daddr_path = Some (event_member "daddr" 4 e) /\
    load_member Demo.mem struct_sock 4096 daddr_path = Some [93; 184; 216; 34].
Proof.
  destruct (trace_records_connection Demo.env Demo.mem struct_sock Demo.current (fun rb => rb) Demo.laws
              [] [] (repeat 170 28) 256) as (e & He & _ & _ & _ & Hd & _);
    [reflexivity|vm_compute; reflexivity|vm_compute; reflexivity|reflexivity|reflexivity|].
  exists e. split; [exact He|]. split; [exact Hd|vm_compute; reflexivity].
Defined.
