(* ===== verification/EbpfService.v ===== *)
(** * The userspace half of the eBPF monitor

    internal/network/ebpf/service.go: the life cycle of the kprobe, the link and
    the ring-buffer reader, the read loop, the decoding of [connectEvent] and
    the Tor filter of [handleEvent].  The ring-buffer reader and the loader are
    third-party (cilium/ebpf): the loop consumes a sequence of read outcomes and
    [Start] the outcomes of the loading steps. *)
From S2P Require Import Prelude CTypes VmSock VmTask Models TorExitList Probe.
From stdpp Require Import base list strings gmap pretty.
From Stdlib Require Import ZArith Lia Bool.
Local Open Scope string_scope.
Local Open Scope Z_scope.

(** ** Data *)

Record connectEvent := mkConnectEvent { PID : Z; Comm : bytes; DAddr : Z; DPort : Z }.

Record EBPFConfig := mkEBPFConfig { Enabled : bool; TorPorts : list Z; WatchAllEgress : bool }.

(** [exitNodeChecker]: the one method of the Tor component this package uses. *)
Class ExitNodeChecker (A : Type) := IsExitNode : A -> string -> bool.

#[export] Instance exit_list_checker : ExitNodeChecker ExitNodeList := Contains.

(** ** Decoding *)

(** [binary.Read(r, binary.LittleEndian, &ev)]: 26 bytes, fields in order
    without padding; an error when fewer are available. *)
Definition binary_Read (raw : bytes) : option connectEvent :=
  if (length raw <? 26)%nat then None
  else Some (mkConnectEvent (le_decode (slice 0 4 raw)) (slice 4 16 raw)
               (le_decode (slice 20 4 raw)) (le_decode (slice 24 2 raw))).

Definition ntohs (n : Z) : Z := Z.lor (wrap 16 (Z.shiftl n 8)) (Z.shiftr n 8).

Fixpoint containsInt (haystack : list Z) (needle : Z) : bool :=
  match haystack with
  | [] => false
  | v :: haystack' => if v =? needle then true else containsInt haystack' needle
  end.

(** ** Handling one event *)

Section Handler.
Context {A : Type} `{!ExitNodeChecker A}.
Context (cfg : EBPFConfig) (torNodes : option A).

(** The address bytes [handleEvent] prints and looks up:
    [binary.BigEndian.PutUint32(destIP, ev.DAddr)]. *)
Definition destIP (ev : connectEvent) : bytes := be_encode 4 (DAddr ev).
Definition destPort (ev : connectEvent) : Z := ntohs (DPort ev).
Definition isTorPort (ev : connectEvent) : bool := containsInt (TorPorts cfg) (destPort ev).
Definition isTorExitNode (ev : connectEvent) : bool :=
  match torNodes with None => false | Some s => IsExitNode s (ip_string (destIP ev)) end.

(** The events pushed into the pipeline for one connection (none or one). *)
Definition handleEvent (ev : connectEvent) : list NetworkEvent :=
  if negb (WatchAllEgress cfg) && negb (isTorPort ev) && negb (isTorExitNode ev) then []
  else
    let comm := go_string (trim_right_nul (Comm ev)) in
    [ {| ne_ID := "";
         ne_Type := EventTor;
         ne_Source := "pid:" +:+ fmt_d (PID ev) +:+ ":" +:+ comm;
         ne_Destination := ip_string (destIP ev) +:+ ":" +:+ fmt_d (destPort ev);
         ne_Metadata := <["local_process" := VString comm]> (<["pid" := VUint (PID ev)]>
                         (<["tor_exit_node" := VBool (isTorExitNode ev)]>
                         (<["tor_port" := VBool (isTorPort ev)]> ∅)));
         ne_Timestamp := 0; ne_Signature := []; ne_SignerKeyID := "" |} ].

(** What [reader.Read()] can return. *)
Inductive read_outcome := Record_ (raw : bytes) | ErrClosed | ErrOther.

(** [readLoop] over the outcomes of successive reads: it returns on ErrClosed,
    skips other errors and undecodable samples, and otherwise handles the
    event. The result is the sequence of pushed events and whether the loop
    has returned. *)
Fixpoint readLoop (reads : list read_outcome) : list NetworkEvent * bool :=
  match reads with
  | [] => ([], false)
  | ErrClosed :: _ => ([], true)
  | ErrOther :: reads' => readLoop reads'
  | Record_ raw :: reads' =>
      let '(evs, stopped) := readLoop reads' in
      match binary_Read raw with
      | None => (evs, stopped)
      | Some ev => ((handleEvent ev ++ evs)%list, stopped)
      end
  end.
End Handler.

(** ** Life cycle *)

(** A handle field of the service: nil, open, or closed. *)
Inductive handle := HNil | HOpen | HClosed.

#[export] Instance handle_eq_dec : EqDecision handle.
Proof. solve_decision. Defined.

Record Service := mkService { objs : handle; link : handle; reader : handle; looping : bool }.

Definition NewService : Service := mkService HNil HNil HNil false.

Inductive start_error := ErrLoad | ErrAttach | ErrReader.

#[export] Instance start_error_eq_dec : EqDecision start_error.
Proof. solve_decision. Defined.

(** [Start], given whether loading, attaching and opening the reader succeed. *)
Definition Start (cfg : EBPFConfig) (load_ok attach_ok reader_ok : bool) (s : Service)
  : Service * option start_error :=
  if negb (Enabled cfg) then (s, None)
  else if negb load_ok then (s, Some ErrLoad)
  else
    let s := mkService HOpen (link s) (reader s) (looping s) in
    if negb attach_ok then (mkService HClosed (link s) (reader s) (looping s), Some ErrAttach)
    else
      let s := mkService (objs s) HOpen (reader s) (looping s) in
      if negb reader_ok then (mkService HClosed HClosed (reader s) (looping s), Some ErrReader)
      else (mkService (objs s) (link s) HOpen true, None).

Definition close_if_set (h : handle) : handle := match h with HNil => HNil | _ => HClosed end.

(** [Stop]; closing the reader makes the next [Read] return ErrClosed, which
    ends the loop. *)
Definition Stop (s : Service) : Service :=
  mkService HClosed (close_if_set (link s)) (close_if_set (reader s)) (looping s).

(** ** Decoding agrees with the record probe.c writes *)

Lemma event_members_of_sample e :
  event_member "pid" 4 e = slice 0 4 e /\ event_member "comm" 16 e = slice 4 16 e /\
  event_member "daddr" 4 e = slice 20 4 e /\ event_member "dport" 2 e = slice 24 2 e.
Proof. unfold event_member. by rewrite off_pid, off_comm, off_daddr, off_dport. Qed.

Lemma binary_Read_short raw : (length raw < 26)%nat -> binary_Read raw = None.
Proof. intros H. unfold binary_Read. by rewrite (proj2 (Nat.ltb_lt _ _) H). Qed.

Lemma binary_Read_event e :
  length e = 28%nat ->
  binary_Read e = Some (mkConnectEvent (le_decode (event_member "pid" 4 e)) (event_member "comm" 16 e)
                          (le_decode (event_member "daddr" 4 e)) (le_decode (event_member "dport" 2 e))).
Proof.
  intros H. unfold binary_Read. rewrite H. simpl.
  by destruct (event_members_of_sample e) as (-> & -> & -> & ->).
Qed.

(** [ntohs] of a port read little-endian is the port in network byte order. *)
Lemma ntohs_le_decode h l : byte_ok h -> byte_ok l -> ntohs (le_decode [h; l]) = 256 * h + l.
Proof.
  intros Hh Hl. unfold byte_ok in *. unfold ntohs, wrap. simpl le_decode.
  replace (h + 256 * (l + 256 * 0)) with (h + l * 2 ^ 8) by lia.
  rewrite Z.shiftl_mul_pow2, Z.shiftr_div_pow2 by lia.
  rewrite Z.div_add, Z.div_small, Z.add_0_l by lia.
  replace ((h + l * 2 ^ 8) * 2 ^ 8) with (h * 2 ^ 8 + l * 2 ^ 16) by lia.
  rewrite Z.mod_add, Z.mod_small by lia.
  rewrite lor_shifted_low; lia.
Qed.

Lemma containsInt_spec l x : containsInt l x = bool_decide (x ∈ l).
Proof.
  induction l as [|v l IH]; simpl; [done|]. destruct (Z.eqb_spec v x) as [->|Hv].
  - symmetry. apply bool_decide_eq_true_2. constructor.
  - rewrite IH. apply bool_decide_ext. set_solver.
Qed.

(** A four-byte address read little-endian and written big-endian. *)
Lemma destIP_reversed pid comm bs dport :
  Forall byte_ok bs -> length bs = 4%nat ->
  destIP (mkConnectEvent pid comm (le_decode bs) dport) = rev bs.
Proof. intros Hb Hl. unfold destIP. simpl. rewrite <- Hl. by apply be_encode_le_decode. Qed.

Section Theorems.
Context {A : Type} `{!ExitNodeChecker A} (cfg : EBPFConfig) (torNodes : option A).

Lemma handleEvent_pushes ev :
  handleEvent cfg torNodes ev <> [] <->
  WatchAllEgress cfg = true \/ isTorPort cfg ev = true \/ isTorExitNode torNodes ev = true.
Proof.
  unfold handleEvent.
  destruct (WatchAllEgress cfg), (isTorPort cfg ev), (isTorExitNode torNodes ev); simpl; naive_solver.
Qed.

Lemma handleEvent_at_most_one ev : (length (handleEvent cfg torNodes ev) <= 1)%nat.
Proof. unfold handleEvent. case_match; simpl; lia. Qed.
End Theorems.

(** A kernel record decodes to the thread-group id and comm the probe wrote,
    and the destination port is correctly converted from network byte order. *)
Theorem sample_decodes (e : bytes) (h l : Z) :
  length e = 28%nat -> Forall byte_ok e -> event_member "dport" 2 e = [h; l] ->
  exists ev, binary_Read e = Some ev /\
    le_encode 4 (PID ev) = event_member "pid" 4 e /\ Comm ev = event_member "comm" 16 e /\
    destPort ev = 256 * h + l.
Proof.
  intros Hlen Hb Hp. eexists. split; [by apply binary_Read_event|]. simpl.
  assert (forall n len, (event_offset n + len <= 28)%nat ->
            Forall byte_ok (event_member n len e) /\ length (event_member n len e) = len) as Hm.
  { intros n len Hn. split; [by apply Forall_take, Forall_drop|].
    apply length_slice. lia. }
  destruct (Hm "pid" 4%nat) as [Hpid Hpl]; [rewrite off_pid; lia|].
  destruct (Hm "dport" 2%nat) as [Hdp _]; [rewrite off_dport; lia|].
  split; [|split; [done|]].
  - pose proof (le_encode_decode _ Hpid) as Henc. rewrite Hpl in Henc. exact Henc.
  - unfold destPort. simpl. rewrite Hp in *. inversion Hdp as [|? ? ? Hdp2]. inversion Hdp2. by apply ntohs_le_decode.
Qed.

Lemma sample_decodes_witness :
  exists ev, binary_Read ([146; 16; 0; 0] ++ repeat 97 16 ++ [93; 184; 216; 34; 35; 90; 0; 0])%list = Some ev /\
    le_encode 4 (PID ev) = [146; 16; 0; 0] /\ Comm ev = repeat 97 16 /\ destPort ev = 9050.
Proof.
  destruct (sample_decodes ([146; 16; 0; 0] ++ repeat 97 16 ++ [93; 184; 216; 34; 35; 90; 0; 0])%list 35 90)
    as (ev & H1 & H2 & H3 & H4);
    [reflexivity|repeat constructor; unfold byte_ok; lia|vm_compute; reflexivity|].
  exists ev. split; [exact H1|]. split; [rewrite H2; reflexivity|]. split; [rewrite H3; reflexivity|exact H4].
Defined.

(** The destination address is reported with its octets reversed: for a
    socket whose destination is a.b.c.d (network byte order in skc_daddr), the
    pushed event names d.c.b.a, and that is also the address looked up in the
    exit-node list. *)
Theorem destination_octets_reversed {A} `{!ExitNodeChecker A} (cfg : EBPFConfig) (torNodes : option A)
    (e : bytes) (a b c d : Z) (ev : connectEvent) (ne : NetworkEvent) :
  length e = 28%nat -> Forall byte_ok e -> event_member "daddr" 4 e = [a; b; c; d] ->
  binary_Read e = Some ev -> ne ∈ handleEvent cfg torNodes ev ->
  ne_Destination ne = ip_string [d; c; b; a] +:+ ":" +:+ fmt_d (destPort ev) /\
  isTorExitNode torNodes ev =
    match torNodes with None => false | Some s => IsExitNode s (ip_string [d; c; b; a]) end.
Proof.
  intros Hlen Hb Hd Hev Hne. rewrite (binary_Read_event e Hlen) in Hev. simplify_eq.
  assert (Forall byte_ok [a; b; c; d]) as Habcd by (rewrite <- Hd; by apply Forall_take, Forall_drop).
  assert (forall pid comm dport, destIP (mkConnectEvent pid comm (le_decode (event_member "daddr" 4 e)) dport)
            = [d; c; b; a]) as Hip by (intros; rewrite Hd; by apply destIP_reversed).
  split.
  - unfold handleEvent in Hne. destruct (_ && _ && _); [by apply not_elem_of_nil in Hne|].
    apply list_elem_of_singleton in Hne as ->. cbn [ne_Destination]. by rewrite Hip.
  - unfold isTorExitNode. by rewrite Hip.
Qed.

(** A connection to 93.184.216.34 is reported as 34.216.184.93, and misses an
    exit-node list that contains it. *)
Lemma destination_octets_reversed_witness :
  let e := ([146; 16; 0; 0] ++ repeat 97 16 ++ [93; 184; 216; 34; 35; 90; 0; 0])%list in
  let nodes := replace NewExitNodeList ["93.184.216.34"] in
  exists ev ne, binary_Read e = Some ev /\ handleEvent (mkEBPFConfig true [] true) (Some nodes) ev = [ne] /\
    ne_Destination ne = "34.216.184.93:9050" /\ isTorExitNode (Some nodes) ev = false.
Proof.
  intros e nodes. eexists _, _. split; [reflexivity|]. split; [reflexivity|].
  destruct (destination_octets_reversed (mkEBPFConfig true [] true) (Some nodes) e 93 184 216 34
              (mkConnectEvent 4242 (repeat 97 16) (le_decode [93; 184; 216; 34]) (le_decode [35; 90]))
              (hd (mkNetworkEvent "" EventTor "" "" ∅ 0 [] "")
                 (handleEvent (mkEBPFConfig true [] true) (Some nodes)
                   (mkConnectEvent 4242 (repeat 97 16) (le_decode [93; 184; 216; 34]) (le_decode [35; 90])))))
    as [H1 H2];
    [reflexivity|repeat constructor; unfold byte_ok; lia|vm_compute; reflexivity|vm_compute; reflexivity|
     apply list_elem_of_singleton; reflexivity|].
  split; [|exact H2].
  etransitivity; [exact H1|vm_compute; reflexivity].
Defined.

(** A connection is reported exactly when all egress is watched, or its port
    is a configured Tor port, or the (printed) destination is a known exit
    node; a reported connection yields one event of type TOR whose flags tell
    which condition held. *)
Theorem tor_filter_spec (cfg : EBPFConfig) (nodes : option ExitNodeList) (ev : connectEvent) :
  let port_hit := bool_decide (destPort ev ∈ TorPorts cfg) in
  let node_hit := match nodes with None => false | Some l => Contains l (ip_string (destIP ev)) end in
  if WatchAllEgress cfg || port_hit || node_hit
  then exists ne, handleEvent cfg nodes ev = [ne] /\ ne_Type ne = EventTor /\
         ne_Metadata ne !! "tor_port" = Some (VBool port_hit) /\
         ne_Metadata ne !! "tor_exit_node" = Some (VBool node_hit) /\
         ne_Metadata ne !! "pid" = Some (VUint (PID ev))
  else handleEvent cfg nodes ev = [].
Proof.
  intros port_hit node_hit.
  assert (isTorPort cfg ev = port_hit) as Hp by apply containsInt_spec.
  assert (isTorExitNode nodes ev = node_hit) as Hn by reflexivity.
  unfold handleEvent. rewrite Hp, Hn.
  destruct (WatchAllEgress cfg), port_hit, node_hit; simpl; try done;
    eexists; (split; [reflexivity|]); repeat split; simpl; by simplify_map_eq.
Qed.

(** ** The read loop *)

(** The reads the loop sees before the reader is closed. *)
Fixpoint until_closed (reads : list read_outcome) : list read_outcome :=
  match reads with
  | [] => []
  | ErrClosed :: _ => []
  | r :: reads' => r :: until_closed reads'
  end.

(** The events one read outcome leads to. *)
Definition outcome_events {A} `{!ExitNodeChecker A} cfg (torNodes : option A) (r : read_outcome) : list NetworkEvent :=
  match r with
  | Record_ raw => match binary_Read raw with Some ev => handleEvent cfg torNodes ev | None => [] end
  | _ => []
  end.

(** The read loop handles every decodable sample that arrives before the
    reader is closed, in order and exactly once; read errors and samples shorter
    than the 26 bytes of connectEvent are skipped without stopping it, and it
    returns if and only if the reader reports ErrClosed. *)
Theorem readLoop_spec {A} `{!ExitNodeChecker A} (cfg : EBPFConfig) (torNodes : option A) (reads : list read_outcome) :
  (readLoop cfg torNodes reads).1 = concat (outcome_events cfg torNodes <$> until_closed reads) /\
  ((readLoop cfg torNodes reads).2 = true <-> ErrClosed ∈ reads).
Proof.
  induction reads as [|r reads [IH1 IH2]]; simpl.
  - split; [done|]. split; [done|]. by intros ?%not_elem_of_nil.
  - destruct r as [raw| |]; simpl.
    + destruct (readLoop cfg torNodes reads) as [evs stopped]. simpl in *.
      destruct (binary_Read raw); csimpl; (split; [by rewrite IH1|set_solver]).
    + split; [done|]. split; [intros _; constructor|done].
    + split; [done|]. set_solver.
Qed.

(** ** Life cycle *)

Definition holds_kernel_resource (s : Service) : bool :=
  bool_decide (objs s = HOpen \/ link s = HOpen \/ reader s = HOpen).

(** Start on a fresh service either leaves nothing allocated in the kernel
    (monitor disabled, or any loading step failed, in which case the steps
    already done are undone) or ends with program, link and reader open and the
    read loop running; Stop afterwards releases all of them. *)
Theorem start_stop_resources (cfg : EBPFConfig) (load_ok attach_ok reader_ok : bool) :
  let '(s, err) := Start cfg load_ok attach_ok reader_ok NewService in
  holds_kernel_resource s = bool_decide (err = None /\ Enabled cfg = true) /\
  looping s = holds_kernel_resource s /\
  (looping s = true -> objs s = HOpen /\ link s = HOpen /\ reader s = HOpen) /\
  holds_kernel_resource (Stop s) = false.
Proof. destruct (Enabled cfg) eqn:He, load_ok, attach_ok, reader_ok; unfold Start; rewrite He; vm_compute; naive_solver. Qed.
