(* ===== verification/Sha256.v ===== *)
(** * SHA-256

    crypto/sha256, which every hash of the program goes through (transparency
    log, audit log, Merkle tree of snapshots): FIPS 180-4 on bytes, executable.
    Words are 32-bit, kept as [Z] with the wrap-around written out. *)
From S2P Require Import Prelude.
From stdpp Require Import base list.
From Stdlib Require Import ZArith Lia Bool.
Local Open Scope Z_scope.

Definition w32 (x : Z) : Z := wrap 32 x.
Definition add32 (x y : Z) : Z := w32 (x + y).
Definition not32 (x : Z) : Z := Z.lxor x (2 ^ 32 - 1).
Definition rotr (n x : Z) : Z := Z.lor (Z.shiftr x n) (w32 (Z.shiftl x (32 - n))).

Definition ch (x y z : Z) : Z := Z.lxor (Z.land x y) (Z.land (not32 x) z).
Definition maj (x y z : Z) : Z := Z.lxor (Z.lxor (Z.land x y) (Z.land x z)) (Z.land y z).
Definition bsig0 (x : Z) : Z := Z.lxor (Z.lxor (rotr 2 x) (rotr 13 x)) (rotr 22 x).
Definition bsig1 (x : Z) : Z := Z.lxor (Z.lxor (rotr 6 x) (rotr 11 x)) (rotr 25 x).
Definition ssig0 (x : Z) : Z := Z.lxor (Z.lxor (rotr 7 x) (rotr 18 x)) (Z.shiftr x 3).
Definition ssig1 (x : Z) : Z := Z.lxor (Z.lxor (rotr 17 x) (rotr 19 x)) (Z.shiftr x 10).

(** The constants of the standard are the first 32 fractional bits of cube and
    square roots of the first primes; they are computed from that description. *)
Definition is_prime (p : Z) : bool := forallb (fun d => negb (p mod d =? 0)) (seqZ 2 (p - 2)).
Definition first_primes (n : nat) : list Z := take n (filter (fun p => is_prime p = true) (seqZ 2 400)).

(** Integer cube root, from its highest bit down. *)
Fixpoint cube_root (bits : nat) (acc n : Z) : Z :=
  match bits with
  | O => acc
  | S bits' =>
      let try_ := acc + 2 ^ Z.of_nat bits' in
      cube_root bits' (if try_ * try_ * try_ <=? n then try_ else acc) n
  end.

Definition round_constants : list Z :=
  Eval vm_compute in (fun p => w32 (cube_root 36 0 (p * 2 ^ 96))) <$> first_primes 64.

(** The eight working words. *)
Record hstate := HState { wa : Z; wb : Z; wc : Z; wd : Z; we : Z; wf : Z; wg : Z; wh : Z }.

Definition initial_words : list Z := Eval vm_compute in (fun p => w32 (Z.sqrt (p * 2 ^ 64))) <$> first_primes 8.

Definition initial_state : hstate :=
  let w i := nth i initial_words 0 in
  HState (w 0%nat) (w 1%nat) (w 2%nat) (w 3%nat) (w 4%nat) (w 5%nat) (w 6%nat) (w 7%nat).

Definition state_words (s : hstate) : list Z := [wa s; wb s; wc s; wd s; we s; wf s; wg s; wh s].

(** Message schedule, kept reversed: the next word is built from the words 2, 7,
    15 and 16 positions back. *)
Fixpoint extend_schedule (n : nat) (rw : list Z) : list Z :=
  match n with
  | O => rw
  | S n' =>
      let w i := nth i rw 0 in
      extend_schedule n'
        (w32 (ssig1 (w 1%nat) + w 6%nat + ssig0 (w 14%nat) + w 15%nat) :: rw)
  end.

Fixpoint words (bs : bytes) : list Z :=
  match bs with
  | b0 :: b1 :: b2 :: b3 :: bs' => be_decode [b0; b1; b2; b3] :: words bs'
  | _ => []
  end.

Definition schedule (block : bytes) : list Z := rev (extend_schedule 48 (rev (words block))).

Definition round (s : hstate) (kw : Z * Z) : hstate :=
  let t1 := w32 (wh s + bsig1 (we s) + ch (we s) (wf s) (wg s) + kw.1 + kw.2) in
  let t2 := w32 (bsig0 (wa s) + maj (wa s) (wb s) (wc s)) in
  HState (add32 t1 t2) (wa s) (wb s) (wc s) (add32 (wd s) t1) (we s) (wf s) (wg s).

Definition compress (s : hstate) (block : bytes) : hstate :=
  let r := foldl round s (zip round_constants (schedule block)) in
  HState (add32 (wa s) (wa r)) (add32 (wb s) (wb r)) (add32 (wc s) (wc r)) (add32 (wd s) (wd r))
         (add32 (we s) (we r)) (add32 (wf s) (wf r)) (add32 (wg s) (wg r)) (add32 (wh s) (wh r)).

(** Padding to a multiple of 64 bytes: 0x80, zeros, the bit length on 8 bytes. *)
Definition padding (len : nat) : bytes :=
  [128] ++ repeat 0 (Z.to_nat ((55 - Z.of_nat len) mod 64)) ++ be_encode 8 (8 * Z.of_nat len).

Fixpoint blocks (n : nat) (bs : bytes) : list bytes :=
  match n with
  | O => []
  | S n' => take 64 bs :: blocks n' (drop 64 bs)
  end.

Definition sha256 (msg : bytes) : bytes :=
  let padded := msg ++ padding (length msg) in
  let final := foldl compress initial_state (blocks (Nat.div (length padded) 64) padded) in
  concat (be_encode 4 <$> state_words final).

(** FIPS test vectors. *)
Example sha256_empty : sha256 [] =
  be_encode 32 0xe3b0c44298fc1c149afbf4c8996fb92427ae41e4649b934ca495991b7852b855.
Proof. vm_compute. reflexivity. Qed.

Example sha256_abc : sha256 [97; 98; 99] =
  be_encode 32 0xba7816bf8f01cfea414140de5dae2223b00361a396177a9cb410ff61f20015ad.
Proof. vm_compute. reflexivity. Qed.

Example sha256_two_blocks : sha256 (repeat 97 100) =
  be_encode 32 0x2816597888e4a0d3a36b82b83316ab32680eb8f00f8cd3b904d681246d285a0e.
Proof. vm_compute. reflexivity. Qed.

Lemma length_sha256 msg : length (sha256 msg) = 32%nat.
Proof.
  unfold sha256, state_words. cbn [fmap list_fmap concat].
  by rewrite !length_app, !length_be_encode.
Qed.

Lemma sha256_bytes msg : Forall byte_ok (sha256 msg).
Proof.
  unfold sha256, state_words. cbn [fmap list_fmap concat].
  rewrite !Forall_app. repeat split; try apply be_encode_bytes. constructor.
Qed.

#[global] Opaque sha256.
#[export] Hint Resolve sha256_bytes : owasaka.
