(* ===== verification/MerkleHash.v ===== *)
(** * RFC 6962 hashing

    internal/storage/transparency/hash.go: leaf and inner hashes, the split
    point of a tree and the Merkle tree hash. A slice has fewer than [2 ^ 63]
    elements ([slice_ok]), as Go guarantees. *)
From S2P Require Import Prelude Sha256.
From stdpp Require Import base list.
From Stdlib Require Import ZArith Lia Bool.
Local Open Scope Z_scope.

(** [RootHash] is [[32]byte]. *)
Abbreviation RootHash := bytes (only parsing).
Definition hash_ok (h : RootHash) : Prop := length h = 32%nat.

Definition HashLeaf (payload : bytes) : RootHash := sha256 (0 :: payload).
Definition HashChildren (left right : RootHash) : RootHash := sha256 (1 :: left ++ right).
Definition EmptyRoot : RootHash := sha256 [].

(** The doubling loop on [uint64]; 64 iterations are more than it ever needs. *)
Fixpoint pow2_loop (fuel : nat) (k n : Z) : Z :=
  match fuel with
  | O => k
  | S fuel' => if wrap 64 (k * 2) <? n then pow2_loop fuel' (wrap 64 (k * 2)) n else k
  end.

Definition largestPowerOfTwoLessThan (n : Z) : Z :=
  if n <=? 1 then 0 else pow2_loop 64 1 n.

(** The split point of a slice of [n] elements. *)
Definition split_point (n : nat) : nat := Z.to_nat (largestPowerOfTwoLessThan (Z.of_nat n)).

Fixpoint mth (fuel : nat) (leafHashes : list RootHash) : RootHash :=
  match fuel with
  | O => EmptyRoot
  | S fuel' =>
      match leafHashes with
      | [] => EmptyRoot
      | [h] => h
      | _ =>
          let k := split_point (length leafHashes) in
          HashChildren (mth fuel' (take k leafHashes)) (mth fuel' (drop k leafHashes))
      end
  end.

(** Both halves are shorter than the slice, so its length is enough fuel. *)
Definition MerkleTreeHash (leafHashes : list RootHash) : RootHash :=
  mth (S (length leafHashes)) leafHashes.

Definition slice_ok {A} (l : list A) : Prop := Z.of_nat (length l) < 2 ^ 63.

(** ** The split point *)

Lemma pow2_loop_spec fuel : forall i n,
  0 <= i -> 2 ^ i < n -> n < 2 ^ 63 -> (63 - i <= Z.of_nat fuel) ->
  exists j, i <= j /\ pow2_loop fuel (2 ^ i) n = 2 ^ j /\ 2 ^ j < n <= 2 ^ (j + 1).
Proof.
  induction fuel as [|fuel IH]; intros i n Hi Hlt Hn Hf.
  - assert (2 ^ 63 <= 2 ^ i) by (apply Z.pow_le_mono_r; lia). lia.
  - assert (i < 63) as Hi63 by (apply (Z.pow_lt_mono_r_iff 2); lia).
    assert (2 ^ i * 2 = 2 ^ (i + 1)) as Hd by (rewrite Z.pow_add_r by lia; lia).
    simpl. rewrite Hd, wrap_small by (split; [lia|apply Z.pow_lt_mono_r; lia]).
    destruct (Z.ltb_spec (2 ^ (i + 1)) n).
    + destruct (IH (i + 1) n) as (j & Hj & Hloop & Hb); [lia..|]. exists j. split; [lia|]. by split.
    + exists i. by repeat split; try lia.
Qed.

(** For 2 <= n < 2^63 the loop terminates with the RFC 6962 split point:
    the power of two [k] with [k < n <= 2k]. *)
Theorem largestPowerOfTwoLessThan_spec (n : Z) :
  1 < n < 2 ^ 63 ->
  exists j, 0 <= j /\ largestPowerOfTwoLessThan n = 2 ^ j /\ 2 ^ j < n <= 2 ^ (j + 1).
Proof.
  intros Hn. unfold largestPowerOfTwoLessThan. rewrite (proj2 (Z.leb_gt n 1)) by lia.
  apply (pow2_loop_spec 64 0); simpl; lia.
Qed.

Lemma largestPowerOfTwoLessThan_spec_witness :
  exists j, 0 <= j /\ largestPowerOfTwoLessThan 6 = 2 ^ j /\ 2 ^ j < 6 <= 2 ^ (j + 1).
Proof. apply (largestPowerOfTwoLessThan_spec 6). lia. Defined.

Lemma split_point_spec n :
  (1 < n)%nat -> Z.of_nat n < 2 ^ 63 ->
  exists j, 0 <= j /\ Z.of_nat (split_point n) = 2 ^ j /\ 2 ^ j < Z.of_nat n <= 2 ^ (j + 1).
Proof.
  intros Hn Hs. unfold split_point, largestPowerOfTwoLessThan.
  rewrite (proj2 (Z.leb_gt (Z.of_nat n) 1)) by lia.
  destruct (pow2_loop_spec 64 0 (Z.of_nat n)) as (j & Hj & Hl & Hb); [simpl; lia..|].
  exists j. change (2 ^ 0) with 1 in Hl. rewrite Hl.
  assert (0 <= 2 ^ j) by (apply Z.pow_nonneg; lia). split; [lia|]. split; [lia|done].
Qed.

Lemma split_point_bounds n : (1 < n)%nat -> Z.of_nat n < 2 ^ 63 -> (0 < split_point n < n)%nat.
Proof.
  intros Hn Hs. destruct (split_point_spec n Hn Hs) as (j & Hj & Hk & Hb).
  assert (0 < 2 ^ j) by (apply Z.pow_pos_nonneg; lia). lia.
Qed.

(** The split point is determined by the bounds. *)
Lemma split_point_unique n j :
  Z.of_nat n < 2 ^ 63 -> 0 <= j -> 2 ^ j < Z.of_nat n <= 2 ^ (j + 1) -> Z.of_nat (split_point n) = 2 ^ j.
Proof.
  intros Hs Hj Hb. assert (0 < 2 ^ j) by (apply Z.pow_pos_nonneg; lia).
  destruct (split_point_spec n) as (i & Hi & -> & Hb'); [lia|done|]. f_equal.
  assert (i < j + 1) by (apply (Z.pow_lt_mono_r_iff 2); lia).
  assert (j < i + 1) by (apply (Z.pow_lt_mono_r_iff 2); lia). lia.
Qed.

(** ** The tree hash *)

Lemma mth_fuel fuel : forall fuel' d,
  slice_ok d -> (length d < fuel)%nat -> (length d < fuel')%nat -> mth fuel d = mth fuel' d.
Proof.
  induction fuel as [|fuel IH]; intros fuel' d Hs Hf Hf'; [lia|].
  destruct fuel' as [|fuel']; [lia|]. simpl. destruct d as [|a [|b d]]; [done|done|].
  pose proof (split_point_bounds (length (a :: b :: d)) ltac:(simpl; lia) Hs) as Hk.
  set (k := split_point _) in *. unfold slice_ok in *.
  f_equal; apply IH; rewrite ?length_take, ?length_drop; simpl in *; lia.
Qed.

Lemma MTH_single h : MerkleTreeHash [h] = h.
Proof. done. Qed.

(** MTH(D[n]) = H(0x01 || MTH(D[0:k]) || MTH(D[k:n])). *)
Lemma MTH_split d :
  slice_ok d -> (1 < length d)%nat ->
  MerkleTreeHash d = HashChildren (MerkleTreeHash (take (split_point (length d)) d))
                                  (MerkleTreeHash (drop (split_point (length d)) d)).
Proof.
  intros Hs Hl. pose proof (split_point_bounds (length d) Hl Hs) as Hk.
  unfold MerkleTreeHash at 1. destruct d as [|a [|b d]]; [simpl in *; lia..|].
  remember (a :: b :: d) as l eqn:Hd. cbn [mth]. rewrite Hd at 1.
  unfold MerkleTreeHash, slice_ok in *.
  f_equal; apply mth_fuel; unfold slice_ok; rewrite ?length_take, ?length_drop; lia.
Qed.

Lemma length_HashLeaf p : hash_ok (HashLeaf p).
Proof. apply length_sha256. Qed.

Lemma length_HashChildren l r : hash_ok (HashChildren l r).
Proof. apply length_sha256. Qed.

Lemma MTH_hash_ok d : slice_ok d -> Forall hash_ok d -> hash_ok (MerkleTreeHash d).
Proof.
  intros Hs Hd. destruct d as [|a [|b d]].
  - apply length_sha256.
  - by inversion Hd.
  - rewrite MTH_split by (done || (simpl; lia)). apply length_HashChildren.
Qed.

Lemma slice_ok_take {A} n (l : list A) : slice_ok l -> slice_ok (take n l).
Proof. unfold slice_ok. rewrite length_take. lia. Qed.

Lemma slice_ok_drop {A} n (l : list A) : slice_ok l -> slice_ok (drop n l).
Proof. unfold slice_ok. rewrite length_drop. lia. Qed.

#[export] Hint Resolve length_HashLeaf length_HashChildren MTH_hash_ok slice_ok_take slice_ok_drop : owasaka.
