(* ===== verification/MerkleProofs.v ===== *)
(** * RFC 6962 proofs: generation and verification

    internal/storage/transparency/proofs.go. Generation is the recursive PATH and
    SUBPROOF of the RFC; verification walks from the leaf to the root with two
    counters. The theorems connect the two. *)
From S2P Require Import Prelude Sha256 MerkleHash.
From stdpp Require Import base list sets.
From Stdlib Require Import ZArith Lia Bool.
Local Open Scope Z_scope.

(** [Proof] is [[][]byte]: entries of any length. *)
Abbreviation AuditProof := (list bytes) (only parsing).

(** [var p RootHash; copy(p[:], raw)]: truncated or zero-padded to 32 bytes. *)
Definition copy32 (raw : bytes) : RootHash := take 32 (raw ++ repeat 0 32).

Definition appendHash (p : AuditProof) (h : RootHash) : AuditProof := p ++ [copy32 h].

(** ** Generation *)

(** The recursion is on shorter slices; its length is enough fuel. *)
Fixpoint inclusionPath (fuel : nat) (m : nat) (d : list RootHash) : AuditProof :=
  match fuel with
  | O => []
  | S fuel' =>
      if (length d =? 1)%nat then []
      else
        let k := split_point (length d) in
        if (m <? k)%nat
        then appendHash (inclusionPath fuel' m (take k d)) (MerkleTreeHash (drop k d))
        else appendHash (inclusionPath fuel' (m - k) (drop k d)) (MerkleTreeHash (take k d))
  end.

(** [None] is Go's nil proof for an index outside the slice. *)
Definition InclusionProof (m : nat) (leafHashes : list RootHash) : option AuditProof :=
  let n := length leafHashes in
  if (n =? 0)%nat || (n <=? m)%nat then None
  else Some (inclusionPath n m leafHashes).

Fixpoint subProof (fuel : nat) (m : nat) (d : list RootHash) (b : bool) : AuditProof :=
  match fuel with
  | O => []
  | S fuel' =>
      if (m =? length d)%nat then (if b then [] else [MerkleTreeHash d])
      else
        let k := split_point (length d) in
        if (m <=? k)%nat
        then appendHash (subProof fuel' m (take k d) b) (MerkleTreeHash (drop k d))
        else appendHash (subProof fuel' (m - k) (drop k d) false) (MerkleTreeHash (take k d))
  end.

Definition ConsistencyProof (n1 n2 : nat) (leafHashes : list RootHash) : option AuditProof :=
  if (n1 =? 0)%nat || (n2 <? n1)%nat || (length leafHashes <? n2)%nat then None
  else if (n1 =? n2)%nat then Some []
  else Some (subProof n2 n1 (take n2 leafHashes) true).

(** ** Verification *)

(** The inner loop [for fn != 0 && fn&1 == 0]: strips trailing zero bits. *)
Fixpoint strip_zeros (fuel : nat) (fn sn : Z) : Z * Z :=
  match fuel with
  | O => (fn, sn)
  | S fuel' =>
      if negb (fn =? 0) && (Z.land fn 1 =? 0)
      then strip_zeros fuel' (Z.shiftr fn 1) (Z.shiftr sn 1) else (fn, sn)
  end.

(** One iteration of the loop over the proof. *)
Definition incl_step (fn sn : Z) (current : RootHash) (p : RootHash) : Z * Z * RootHash :=
  let '(fn, sn, current) :=
    if (Z.land fn 1 =? 1) || (fn =? sn)
    then let '(fn', sn') := strip_zeros 64 fn sn in (fn', sn', HashChildren p current)
    else (fn, sn, HashChildren current p) in
  (Z.shiftr fn 1, Z.shiftr sn 1, current).

Fixpoint incl_loop (fn sn : Z) (current : RootHash) (proof : AuditProof) : RootHash :=
  match proof with
  | [] => current
  | raw :: proof' =>
      if sn =? 0 then current
      else let '(fn', sn', current') := incl_step fn sn current (copy32 raw) in
           incl_loop fn' sn' current' proof'
  end.

Definition zero_hash : RootHash := repeat 0 32.

Definition VerifyInclusion (leafHash : RootHash) (leafIndex treeSize : Z) (proof : AuditProof) : RootHash :=
  if (treeSize =? 0) || (treeSize <=? leafIndex) then zero_hash
  else if treeSize =? 1 then leafHash
  else incl_loop leafIndex (treeSize - 1) leafHash proof.

(** Skip the right-spine levels: [for node%2 == 1]. *)
Fixpoint skip_ones (fuel : nat) (node lastNode : Z) : Z * Z :=
  match fuel with
  | O => (node, lastNode)
  | S fuel' =>
      if node mod 2 =? 1 then skip_ones fuel' (Z.shiftr node 1) (Z.shiftr lastNode 1)
      else (node, lastNode)
  end.

(** The walk [for node > 0]; [None] is the early return on an exhausted proof. *)
Fixpoint cons_walk (fuel : nat) (node lastNode : Z) (hash1 hash2 : RootHash) (proof : AuditProof)
  : option (Z * RootHash * RootHash * AuditProof) :=
  match fuel with
  | O => Some (lastNode, hash1, hash2, proof)
  | S fuel' =>
      if node <=? 0 then Some (lastNode, hash1, hash2, proof)
      else
        match proof with
        | [] => None
        | raw :: proof' =>
            let p := copy32 raw in
            if node mod 2 =? 1 then
              cons_walk fuel' (Z.shiftr node 1) (Z.shiftr lastNode 1) (HashChildren p hash1) (HashChildren p hash2) proof'
            else if node <? lastNode then
              cons_walk fuel' (Z.shiftr node 1) (Z.shiftr lastNode 1) hash1 (HashChildren hash2 p) proof'
            else
              cons_walk fuel' (Z.shiftr node 1) (Z.shiftr lastNode 1) hash1 hash2 proof
        end
  end.

(** The final extension [for lastNode > 0]. *)
Fixpoint cons_extend (fuel : nat) (lastNode : Z) (hash2 : RootHash) (proof : AuditProof)
  : option (RootHash * AuditProof) :=
  match fuel with
  | O => Some (hash2, proof)
  | S fuel' =>
      if lastNode <=? 0 then Some (hash2, proof)
      else
        match proof with
        | [] => None
        | raw :: proof' => cons_extend fuel' (Z.shiftr lastNode 1) (HashChildren hash2 (copy32 raw)) proof'
        end
  end.

Definition VerifyConsistency (n1 n2 : Z) (root1 : RootHash) (proof : AuditProof) : RootHash * bool :=
  if (n1 =? 0) || (n2 <? n1) then (zero_hash, false)
  else if n1 =? n2 then
    if (length proof =? 0)%nat then (root1, true) else (zero_hash, false)
  else
    let '(node, lastNode) := skip_ones 64 (n1 - 1) (n2 - 1) in
    match (if 0 <? node
           then match proof with [] => None | raw :: proof' => Some (copy32 raw, copy32 raw, proof') end
           else Some (root1, root1, proof)) with
    | None => (zero_hash, false)
    | Some (hash1, hash2, proof) =>
        match cons_walk 64 node lastNode hash1 hash2 proof with
        | None => (zero_hash, false)
        | Some (lastNode, hash1, hash2, proof) =>
            match cons_extend 64 lastNode hash2 proof with
            | None => (zero_hash, false)
            | Some (hash2, proof) =>
                if negb (length proof =? 0)%nat then (zero_hash, false)
                else if negb (bool_decide (hash1 = root1)) then (zero_hash, false)
                else (hash2, true)
            end
        end
    end.

Definition isPowerOfTwo (n : Z) : bool := (0 <? n) && (Z.land n (n - 1) =? 0).

(** ** Elementary facts *)

Lemma copy32_id h : hash_ok h -> copy32 h = h.
Proof. unfold hash_ok, copy32. intros H. rewrite <- H at 1. apply take_app_length. Qed.

Lemma length_copy32 raw : hash_ok (copy32 raw).
Proof. unfold hash_ok, copy32. rewrite length_take, length_app, repeat_length. lia. Qed.

#[export] Hint Resolve length_copy32 : owasaka.

Lemma land_1_mod fn : Z.land fn 1 = fn mod 2.
Proof. change 1 with (Z.ones 1). by rewrite Z.land_ones by lia. Qed.

(** [x >> i] of [q * 2^i + r] with [r] below [2^i]. *)
Lemma shiftr_block q r i : 0 <= i -> 0 <= r < 2 ^ i -> Z.shiftr (q * 2 ^ i + r) i = q.
Proof.
  intros Hi Hr. rewrite Z.shiftr_div_pow2 by lia. rewrite Z.div_add_l, Z.div_small by lia. lia.
Qed.

Lemma pow2_half e : 0 < e -> 2 ^ e = 2 * 2 ^ (e - 1).
Proof. intros. rewrite <- Z.pow_succ_r by lia. f_equal. lia. Qed.

(** Stripping the zeros of [q * 2^e] for odd [q]. *)
Lemma strip_zeros_odd fuel : forall e q,
  0 <= e < Z.of_nat fuel -> 0 < q -> q mod 2 = 1 ->
  strip_zeros fuel (q * 2 ^ e) (q * 2 ^ e) = (q, q).
Proof.
  induction fuel as [|fuel IH]; intros e q He Hq Hodd; [lia|]. cbn [strip_zeros].
  rewrite land_1_mod. destruct (decide (e = 0)) as [->|He0].
  - rewrite Z.pow_0_r, Z.mul_1_r, Hodd. by rewrite andb_false_r.
  - replace (q * 2 ^ e) with (q * 2 ^ (e - 1) * 2) by (rewrite (pow2_half e ltac:(lia)); lia).
    assert (0 < 2 ^ (e - 1)) by (apply Z.pow_pos_nonneg; lia).
    rewrite Z.mod_mul, (proj2 (Z.eqb_neq _ 0)) by nia. simpl.
    rewrite Z.shiftr_div_pow2, Z.pow_1_r, Z.div_mul by lia. apply IH; lia.
Qed.

(** On an odd position nothing is stripped. *)
Lemma strip_zeros_none fuel fn sn : fn mod 2 = 1 -> strip_zeros fuel fn sn = (fn, sn).
Proof. intros H. destruct fuel; simpl; [done|]. by rewrite land_1_mod, H, andb_false_r. Qed.

(** One step of the inclusion walk, by the position of the current node. *)
Lemma incl_step_right Q S cur p :
  0 <= Q -> Q mod 2 = 0 -> Q < S -> incl_step Q S cur p = (Q / 2, S / 2, HashChildren cur p).
Proof.
  intros HQ Hm HS. unfold incl_step. rewrite land_1_mod, Hm. cbn [Z.eqb orb].
  rewrite (proj2 (Z.eqb_neq Q S)) by lia. by rewrite !Z.shiftr_div_pow2, !Z.pow_1_r by lia.
Qed.

Lemma incl_step_left_odd Q S cur p :
  Q mod 2 = 1 -> incl_step Q S cur p = (Q / 2, S / 2, HashChildren p cur).
Proof.
  intros Hm. unfold incl_step. rewrite land_1_mod, Hm, strip_zeros_none by exact Hm. cbn [Z.eqb Pos.eqb orb].
  by rewrite !Z.shiftr_div_pow2, !Z.pow_1_r by lia.
Qed.

(** The rightmost node of a ragged level: the walk skips the levels it is
    promoted through. *)
Lemma incl_step_left_last q e cur p :
  0 < q -> q mod 2 = 1 -> 0 <= e < 64 ->
  incl_step (q * 2 ^ e) (q * 2 ^ e) cur p = (q / 2, q / 2, HashChildren p cur).
Proof.
  intros Hq Hodd He. unfold incl_step. rewrite Z.eqb_refl, orb_true_r.
  rewrite (strip_zeros_odd 64 e q) by lia. by rewrite !Z.shiftr_div_pow2, !Z.pow_1_r by lia.
Qed.

(** ** Inclusion proofs verify *)

Lemma inclusionPath_fuel fuel : forall fuel' m d,
  slice_ok d -> (m < length d)%nat -> (length d <= fuel)%nat -> (length d <= fuel')%nat ->
  inclusionPath fuel m d = inclusionPath fuel' m d.
Proof.
  induction fuel as [|fuel IH]; intros fuel' m d Hs Hm Hf Hf'; [lia|].
  destruct fuel' as [|fuel']; [lia|]. simpl. destruct (Nat.eqb_spec (length d) 1); [done|].
  pose proof (split_point_bounds (length d) ltac:(lia) Hs).
  unfold slice_ok in *.
  destruct (Nat.ltb_spec m (split_point (length d))); f_equal; apply IH; unfold slice_ok;
    rewrite ?length_take, ?length_drop; lia.
Qed.

(** The path with just enough fuel, and its unfolding. *)
Definition path (m : nat) (d : list RootHash) : AuditProof := inclusionPath (length d) m d.

Lemma path_single m h : path m [h] = [].
Proof. done. Qed.

Lemma path_left m d :
  slice_ok d -> (1 < length d)%nat -> Forall hash_ok d -> (m < split_point (length d))%nat ->
  path m d = path m (take (split_point (length d)) d) ++ [MerkleTreeHash (drop (split_point (length d)) d)].
Proof.
  intros Hs Hl Hd Hm. pose proof (split_point_bounds (length d) Hl Hs) as Hk. unfold path.
  destruct (length d) as [|n] eqn:Hn; [lia|]. cbn [inclusionPath]. rewrite Hn.
  rewrite (proj2 (Nat.eqb_neq _ 1)) by lia. rewrite (proj2 (Nat.ltb_lt _ _)) by lia.
  unfold appendHash. rewrite copy32_id by (apply MTH_hash_ok; [auto with owasaka|by apply Forall_drop]).
  f_equal. apply inclusionPath_fuel; auto with owasaka; rewrite length_take; lia.
Qed.

Lemma path_right m d :
  slice_ok d -> (1 < length d)%nat -> Forall hash_ok d -> (split_point (length d) <= m < length d)%nat ->
  path m d = path (m - split_point (length d)) (drop (split_point (length d)) d)
             ++ [MerkleTreeHash (take (split_point (length d)) d)].
Proof.
  intros Hs Hl Hd Hm. pose proof (split_point_bounds (length d) Hl Hs) as Hk. unfold path.
  destruct (length d) as [|n] eqn:Hn; [lia|]. cbn [inclusionPath]. rewrite Hn.
  rewrite (proj2 (Nat.eqb_neq _ 1)) by lia. rewrite (proj2 (Nat.ltb_ge _ _)) by lia.
  unfold appendHash. rewrite copy32_id by (apply MTH_hash_ok; [auto with owasaka|by apply Forall_take]).
  f_equal. apply inclusionPath_fuel; auto with owasaka; rewrite length_drop; lia.
Qed.

(** The walk consumes one entry. *)
Lemma incl_loop_cons fn sn cur p rest fn' sn' cur' :
  sn <> 0 -> hash_ok p -> incl_step fn sn cur p = (fn', sn', cur') ->
  incl_loop fn sn cur (p :: rest) = incl_loop fn' sn' cur' rest.
Proof.
  intros Hsn Hp Hst. simpl. rewrite (proj2 (Z.eqb_neq sn 0)) by done. by rewrite copy32_id, Hst.
Qed.

Lemma half_even Q : 2 * Q / 2 = Q.
Proof. rewrite Z.mul_comm. apply Z.div_mul. lia. Qed.

Lemma half_odd Q : (2 * Q + 1) / 2 = Q.
Proof. symmetry. apply Z.div_unique with 1; lia. Qed.

Lemma mod_even Q : (2 * Q) mod 2 = 0.
Proof. rewrite Z.mul_comm. apply Z.mod_mul. lia. Qed.

Lemma mod_odd Q : (2 * Q + 1) mod 2 = 1.
Proof. symmetry. apply Z.mod_unique with Q; lia. Qed.

Lemma div_pow2_succ S i : 0 <= i -> S / 2 ^ i / 2 = S / 2 ^ (i + 1).
Proof. intros. rewrite Z.div_div, Z.pow_add_r by lia. done. Qed.

Lemma div_pow2_ge S Q i : 0 <= i -> (Q + 1) * 2 ^ i - 1 <= S -> Q <= S / 2 ^ i.
Proof. intros Hi H. assert (0 < 2 ^ i) by (apply Z.pow_pos_nonneg; lia). apply Z.div_le_lower_bound; nia. Qed.

(** Inside a complete subtree of [2^i] leaves at position [Q] the walk climbs
    [i] levels, whatever the tree to its right. *)
Lemma incl_perfect (i : nat) : forall Q S m d cur rest,
  Z.of_nat (length d) = 2 ^ Z.of_nat i -> slice_ok d -> Forall hash_ok d -> d !! m = Some cur ->
  0 <= Q -> (Q + 1) * 2 ^ Z.of_nat i - 1 <= S ->
  incl_loop (Q * 2 ^ Z.of_nat i + Z.of_nat m) S cur (path m d ++ rest)
  = incl_loop Q (S / 2 ^ Z.of_nat i) (MerkleTreeHash d) rest.
Proof.
  induction i as [|i IH]; intros Q S m d cur rest Hl Hs Hd Hm HQ HS;
    pose proof (lookup_lt_Some _ _ _ Hm) as Hlt.
  - destruct d as [|h [|]]; simpl in Hl; try lia. destruct m; [|simpl in Hlt; lia].
    simpl in Hm. simplify_eq. rewrite Z.pow_0_r, Z.div_1_r. simpl. f_equal; lia.
  - rewrite Nat2Z.inj_succ, <- Z.add_1_r in *. set (I := Z.of_nat i) in *.
    assert (2 ^ (I + 1) = 2 * 2 ^ I) as Hp by (rewrite Z.pow_add_r by lia; lia).
    assert (0 < 2 ^ I) as Hp0 by (apply Z.pow_pos_nonneg; lia).
    assert (Z.of_nat (split_point (length d)) = 2 ^ I) as Hk.
    { apply split_point_unique; [exact Hs|lia|]. rewrite Hl, Hp. lia. }
    assert (1 < length d)%nat as H1 by lia.
    rewrite (MTH_split d Hs H1). set (k := split_point (length d)) in *.
    destruct (decide (m < k)%nat) as [Hmk|Hmk].
    + rewrite path_left by (done || lia). fold k. rewrite <- app_assoc.
      replace (Q * 2 ^ (I + 1) + Z.of_nat m) with (2 * Q * 2 ^ I + Z.of_nat m) by lia.
      rewrite (IH (2 * Q) S m (take k d)); auto with owasaka;
        [|rewrite length_take; lia|by apply Forall_take|by rewrite lookup_take_lt|lia|nia].
      pose proof (div_pow2_ge S (2 * Q + 1) I ltac:(lia) ltac:(nia)) as Hge.
      cbn [app]. erewrite incl_loop_cons; [|lia| |apply incl_step_right; [lia|apply mod_even|lia]].
      * by rewrite half_even, div_pow2_succ by lia.
      * apply MTH_hash_ok; [auto with owasaka|by apply Forall_drop].
    + rewrite path_right by (done || lia). fold k. rewrite <- app_assoc.
      replace (Q * 2 ^ (I + 1) + Z.of_nat m) with ((2 * Q + 1) * 2 ^ I + Z.of_nat (m - k)) by nia.
      rewrite (IH (2 * Q + 1) S (m - k)%nat (drop k d)); auto with owasaka;
        [|rewrite length_drop; lia|by apply Forall_drop|rewrite lookup_drop; rewrite <- Hm; f_equal; lia|lia|nia].
      pose proof (div_pow2_ge S (2 * Q + 1) I ltac:(lia) ltac:(nia)) as Hge.
      cbn [app]. erewrite incl_loop_cons; [|lia| |apply incl_step_left_odd].
      * by rewrite div_pow2_succ, half_odd by lia.
      * apply MTH_hash_ok; [auto with owasaka|by apply Forall_take].
      * apply mod_odd.
Qed.

(** In a subtree that is the rightmost of its level the walk ends on the last
    node of some level: both counters are [q * 2^e]. *)
Lemma incl_ragged (j : nat) : forall q m d cur rest,
  (j < 64)%nat -> Z.of_nat (length d) <= 2 ^ Z.of_nat j -> slice_ok d -> Forall hash_ok d ->
  d !! m = Some cur -> 0 <= q ->
  exists e, 0 <= e <= Z.of_nat j /\
    incl_loop (q * 2 ^ Z.of_nat j + Z.of_nat m) (q * 2 ^ Z.of_nat j + Z.of_nat (length d) - 1) cur (path m d ++ rest)
    = incl_loop (q * 2 ^ e) (q * 2 ^ e) (MerkleTreeHash d) rest.
Proof.
  induction j as [j IH] using lt_wf_ind. intros q m d cur rest Hj Hl Hs Hd Hm Hq.
  pose proof (lookup_lt_Some _ _ _ Hm) as Hlt.
  destruct (decide (length d = 1)%nat) as [H1|H1].
  { destruct d as [|h [|]]; simpl in H1; try lia. destruct m; [|simpl in Hlt; lia].
    simpl in Hm. simplify_eq. exists (Z.of_nat j). split; [lia|]. simpl. f_equal; lia. }
  assert (1 < length d)%nat as Hgt by lia.
  destruct (split_point_spec (length d) Hgt Hs) as (I & HI & Hk & Hb).
  assert (I < Z.of_nat j) as HIj by (apply (Z.pow_lt_mono_r_iff 2); lia).
  assert (0 < 2 ^ I) as Hp0 by (apply Z.pow_pos_nonneg; lia).
  set (E := Z.of_nat j - I - 1).
  assert (2 ^ Z.of_nat j = 2 * 2 ^ E * 2 ^ I) as Hpj.
  { subst E. rewrite <- Z.pow_succ_r, <- Z.pow_add_r by lia. f_equal. lia. }
  assert (0 < 2 ^ E) as HpE by (apply Z.pow_pos_nonneg; lia).
  assert (2 ^ (I + 1) = 2 * 2 ^ I) as Hp by (rewrite Z.pow_add_r by lia; lia).
  exists E. split; [lia|]. rewrite (MTH_split d Hs Hgt). set (k := split_point (length d)) in *.
  destruct (decide (m < k)%nat) as [Hmk|Hmk].
  - rewrite path_left by (done || lia). fold k. rewrite <- app_assoc.
    replace (q * 2 ^ Z.of_nat j + Z.of_nat m) with (2 * (q * 2 ^ E) * 2 ^ I + Z.of_nat m) by nia.
    pose proof (incl_perfect (Z.to_nat I) (2 * (q * 2 ^ E)) (q * 2 ^ Z.of_nat j + Z.of_nat (length d) - 1)
                  m (take k d) cur) as Hperf. rewrite Z2Nat.id in Hperf by lia.
    rewrite Hperf; auto with owasaka;
      [|rewrite length_take; lia|by apply Forall_take|by rewrite lookup_take_lt|nia|nia].
    assert ((q * 2 ^ Z.of_nat j + Z.of_nat (length d) - 1) / 2 ^ I = 2 * (q * 2 ^ E) + 1) as ->.
    { symmetry. apply Z.div_unique with (Z.of_nat (length d) - 1 - 2 ^ I); nia. }
    cbn [app]. erewrite incl_loop_cons; [|lia| |apply incl_step_right; [nia|apply mod_even|lia]].
    + by rewrite half_even, half_odd.
    + apply MTH_hash_ok; [auto with owasaka|by apply Forall_drop].
  - rewrite path_right by (done || lia). fold k. rewrite <- app_assoc.
    destruct (IH (Z.to_nat I) ltac:(lia) (2 * (q * 2 ^ E) + 1) (m - k)%nat (drop k d) cur
                ([MerkleTreeHash (take k d)] ++ rest)) as (e & He & Hrun);
      auto with owasaka; [lia|rewrite length_drop, Z2Nat.id; lia|by apply Forall_drop
      |rewrite lookup_drop; rewrite <- Hm; f_equal; lia|nia|].
    rewrite Z2Nat.id in He, Hrun by lia. rewrite length_drop in Hrun.
    replace (q * 2 ^ Z.of_nat j + Z.of_nat m)
      with ((2 * (q * 2 ^ E) + 1) * 2 ^ I + Z.of_nat (m - k)) by nia.
    replace (q * 2 ^ Z.of_nat j + Z.of_nat (length d) - 1)
      with ((2 * (q * 2 ^ E) + 1) * 2 ^ I + Z.of_nat (length d - k) - 1) by nia.
    rewrite Hrun. cbn [app].
    assert (0 < 2 ^ e) by (apply Z.pow_pos_nonneg; lia).
    erewrite incl_loop_cons; [|nia| |apply incl_step_left_last; [nia| |lia]].
    + by rewrite half_odd.
    + apply MTH_hash_ok; [auto with owasaka|by apply Forall_take].
    + apply mod_odd.
Qed.

Lemma incl_loop_done fn cur rest : incl_loop fn 0 cur rest = cur.
Proof. by destruct rest. Qed.

(** The verifier run on an honest path, followed by anything. *)
Lemma verify_path d m h rest :
  slice_ok d -> Forall hash_ok d -> d !! m = Some h ->
  VerifyInclusion h (Z.of_nat m) (Z.of_nat (length d)) (path m d ++ rest) = MerkleTreeHash d.
Proof.
  intros Hs Hd Hm. pose proof (lookup_lt_Some _ _ _ Hm) as Hlt. unfold VerifyInclusion.
  rewrite (proj2 (Z.eqb_neq _ 0)) by lia. rewrite (proj2 (Z.leb_gt _ _)) by lia. simpl.
  destruct (Z.eqb_spec (Z.of_nat (length d)) 1) as [H1|H1].
  - destruct d as [|x [|]]; simpl in H1; try lia. destruct m; [|simpl in Hlt; lia].
    simpl in Hm. by simplify_eq.
  - destruct (incl_ragged 63 0 m d h rest) as (e & _ & Hrun); try done; [lia|unfold slice_ok in Hs; simpl in *; lia|].
    rewrite !Z.mul_0_l, !Z.add_0_l in Hrun. rewrite Hrun. apply incl_loop_done.
Qed.

Lemma inclusion_proof_exists (d : list RootHash) (m : nat) (h : RootHash) :
  slice_ok d -> Forall hash_ok d -> d !! m = Some h ->
  exists proof, InclusionProof m d = Some proof /\
    VerifyInclusion h (Z.of_nat m) (Z.of_nat (length d)) proof = MerkleTreeHash d.
Proof.
  intros Hs Hd Hm. pose proof (lookup_lt_Some _ _ _ Hm) as Hlt. exists (path m d). split.
  - unfold InclusionProof. rewrite (proj2 (Nat.eqb_neq _ 0)) by lia. by rewrite (proj2 (Nat.leb_gt _ _)) by lia.
  - rewrite <- (app_nil_r (path m d)). by apply verify_path.
Qed.

(** C16: Completeness of inclusion proofs: for every leaf of every tree, the
    generated audit path exists and the bottom-up verifier recomputes the root
    from the leaf hash and it. *)
Theorem inclusion_proof_verifies (d : list RootHash) (m : nat) (h : RootHash) :
  slice_ok d -> Forall hash_ok d -> d !! m = Some h ->
  exists proof, InclusionProof m d = Some proof /\
    VerifyInclusion h (Z.of_nat m) (Z.of_nat (length d)) proof = MerkleTreeHash d.
Proof.
  apply inclusion_proof_exists.
Qed.

Definition demo_leaves : list RootHash := HashLeaf <$> [[1]; [2]; [3]; [4]; [5]].

Lemma demo_leaves_ok : slice_ok demo_leaves /\ Forall hash_ok demo_leaves.
Proof. split; [done|]. repeat constructor; apply length_HashLeaf. Qed.

Lemma inclusion_proof_verifies_witness :
  exists proof, InclusionProof 2 demo_leaves = Some proof /\
    VerifyInclusion (HashLeaf [3]) 2 5 proof = MerkleTreeHash demo_leaves.
Proof.
  apply (inclusion_proof_verifies demo_leaves 2 (HashLeaf [3])); [apply demo_leaves_ok..|reflexivity].
Defined.

(** The verifier does not check the length of the proof against the tree
    size: trailing entries are ignored, so a padded proof of a leaf still
    yields the correct root. *)
Theorem inclusion_ignores_trailing_entries (d : list RootHash) (m : nat) (h : RootHash) (proof junk : AuditProof) :
  slice_ok d -> Forall hash_ok d -> d !! m = Some h -> InclusionProof m d = Some proof ->
  VerifyInclusion h (Z.of_nat m) (Z.of_nat (length d)) (proof ++ junk) = MerkleTreeHash d.
Proof.
  intros Hs Hd Hm Hp. unfold InclusionProof in Hp. destruct (_ || _); simplify_eq. by apply verify_path.
Qed.

Lemma inclusion_ignores_trailing_entries_witness :
  VerifyInclusion (HashLeaf [3]) 2 5 (default [] (InclusionProof 2 demo_leaves) ++ [[7]; [8]; [9]])
  = MerkleTreeHash demo_leaves.
Proof.
  apply (inclusion_ignores_trailing_entries demo_leaves 2 (HashLeaf [3]));
    [apply demo_leaves_ok..|reflexivity|reflexivity].
Defined.

(** Because a proof that stops short of the root is not rejected, a leaf can
    be "proved" at an index it does not have: in a tree of [2^j + 1] leaves the
    last leaf verifies at every odd index below [2^j] with a one-entry proof. *)
Theorem inclusion_wrong_index_accepted (j : nat) (d : list RootHash) (m : nat) (h : RootHash) :
  (0 < j)%nat -> slice_ok d -> Forall hash_ok d ->
  Z.of_nat (length d) = 2 ^ Z.of_nat j + 1 -> last d = Some h ->
  Z.of_nat m < 2 ^ Z.of_nat j -> Z.of_nat m mod 2 = 1 ->
  VerifyInclusion h (Z.of_nat m) (Z.of_nat (length d)) [MerkleTreeHash (take (length d - 1) d)]
  = MerkleTreeHash d.
Proof.
  intros Hj Hs Hd Hl Hlast Hm Hodd. assert (0 < 2 ^ Z.of_nat j) by (apply Z.pow_pos_nonneg; lia).
  assert (2 ^ (Z.of_nat j + 1) = 2 * 2 ^ Z.of_nat j) by (rewrite Z.pow_add_r by lia; lia).
  assert (Z.of_nat (split_point (length d)) = 2 ^ Z.of_nat j) as Hk
    by (apply split_point_unique; [exact Hs|lia|lia]).
  assert (split_point (length d) = length d - 1)%nat as Hk' by lia.
  rewrite (MTH_split d) by (done || lia). rewrite Hk'.
  assert (drop (length d - 1) d = [h]) as ->.
  { apply last_Some in Hlast as [d' ->]. rewrite length_app. simpl.
    rewrite drop_app_length' by lia. done. }
  unfold VerifyInclusion. rewrite (proj2 (Z.eqb_neq _ 0)) by lia. rewrite (proj2 (Z.leb_gt _ _)) by lia.
  rewrite (proj2 (Z.eqb_neq _ 1)) by lia. simpl orb. cbv iota.
  erewrite incl_loop_cons; [|lia|apply MTH_hash_ok; [auto with owasaka|by apply Forall_take]|by apply incl_step_left_odd].
  done.
Qed.

(** The fifth leaf of five, presented as the second. *)
Lemma inclusion_wrong_index_accepted_witness :
  VerifyInclusion (HashLeaf [5]) 1 5 [MerkleTreeHash (take 4 demo_leaves)] = MerkleTreeHash demo_leaves.
Proof.
  apply (inclusion_wrong_index_accepted 2 demo_leaves 1 (HashLeaf [5]));
    [lia|apply demo_leaves_ok..|reflexivity|reflexivity|simpl; lia|reflexivity].
Defined.

(** ** Soundness of inclusion

    The strings hashed when a tree is computed and when a proof is verified;
    soundness holds up to a SHA-256 collision between these two finite lists. *)

Fixpoint mth_inputs (fuel : nat) (ps : list bytes) : list bytes :=
  match fuel with
  | O => []
  | S fuel' =>
      match ps with
      | [] => [[]]
      | [p] => [0 :: p]
      | _ =>
          let k := split_point (length ps) in
          (1 :: MerkleTreeHash (HashLeaf <$> take k ps) ++ MerkleTreeHash (HashLeaf <$> drop k ps))
            :: mth_inputs fuel' (take k ps) ++ mth_inputs fuel' (drop k ps)
      end
  end.

Definition tree_inputs (ps : list bytes) : list bytes := mth_inputs (S (length ps)) ps.

Fixpoint incl_inputs (fn sn : Z) (current : RootHash) (proof : AuditProof) : list bytes :=
  match proof with
  | [] => []
  | raw :: proof' =>
      if sn =? 0 then []
      else
        let '(fn', sn', current') := incl_step fn sn current (copy32 raw) in
        (if (Z.land fn 1 =? 1) || (fn =? sn) then 1 :: copy32 raw ++ current else 1 :: current ++ copy32 raw)
          :: incl_inputs fn' sn' current' proof'
  end.

Definition collision_free (xs ys : list bytes) : Prop :=
  forall x y, x ∈ xs -> y ∈ ys -> sha256 x = sha256 y -> x = y.

(** [climbs p h ins]: [h] is obtained from the leaf hash of [p] by hashing
    upwards with arbitrary siblings; [ins] are the hashed strings. *)
Inductive climbs (p : bytes) : RootHash -> list bytes -> Prop :=
| climbs_leaf : climbs p (HashLeaf p) [0 :: p]
| climbs_left cur q ins :
    climbs p cur ins -> hash_ok q -> climbs p (HashChildren cur q) ((1 :: cur ++ q) :: ins)
| climbs_right cur q ins :
    climbs p cur ins -> hash_ok q -> climbs p (HashChildren q cur) ((1 :: q ++ cur) :: ins).

Lemma climbs_hash_ok p h ins : climbs p h ins -> hash_ok h.
Proof. destruct 1; apply length_sha256. Qed.

Lemma incl_step_climbs p fn sn cur ins raw fn' sn' cur' :
  climbs p cur ins -> incl_step fn sn cur (copy32 raw) = (fn', sn', cur') ->
  climbs p cur' ((if (Z.land fn 1 =? 1) || (fn =? sn) then 1 :: copy32 raw ++ cur
                  else 1 :: cur ++ copy32 raw) :: ins).
Proof.
  intros Hc Hst. unfold incl_step in Hst. destruct (_ || _).
  - destruct (strip_zeros _ _ _). simplify_eq. apply climbs_right; auto with owasaka.
  - simplify_eq. apply climbs_left; auto with owasaka.
Qed.

Lemma incl_loop_climbs p proof : forall fn sn cur ins,
  climbs p cur ins ->
  exists ins', climbs p (incl_loop fn sn cur proof) ins' /\ ins' ⊆ ins ++ incl_inputs fn sn cur proof.
Proof.
  induction proof as [|raw proof IH]; intros fn sn cur ins Hc; simpl.
  - exists ins. split; [done|]. set_solver.
  - destruct (sn =? 0); [exists ins; split; [done|set_solver]|].
    destruct (incl_step fn sn cur (copy32 raw)) as [[fn' sn'] cur'] eqn:Hst.
    destruct (IH fn' sn' cur' _ (incl_step_climbs _ _ _ _ _ _ _ _ _ Hc Hst)) as (ins' & Hins & Hsub).
    exists ins'. split; [done|]. set_solver.
Qed.

Lemma tree_inputs_split ps :
  slice_ok ps -> (1 < length ps)%nat ->
  let k := split_point (length ps) in
  (1 :: MerkleTreeHash (HashLeaf <$> take k ps) ++ MerkleTreeHash (HashLeaf <$> drop k ps)) ∈ tree_inputs ps /\
  tree_inputs (take k ps) ⊆ tree_inputs ps /\ tree_inputs (drop k ps) ⊆ tree_inputs ps.
Proof.
  intros Hs Hl k. pose proof (split_point_bounds (length ps) Hl Hs) as Hk. fold k in Hk.
  assert (forall fuel fuel' qs, slice_ok qs -> (length qs < fuel)%nat -> (length qs < fuel')%nat ->
            mth_inputs fuel qs = mth_inputs fuel' qs) as Hfuel.
  { induction fuel as [|fuel IH]; intros [|fuel'] qs Hq Hf Hf'; try lia. simpl.
    destruct qs as [|a [|b qs]]; [done|done|].
    pose proof (split_point_bounds (length (a :: b :: qs)) ltac:(simpl; lia) Hq).
    f_equal. f_equal; apply IH; auto with owasaka; rewrite ?length_take, ?length_drop; simpl in *; lia. }
  assert (tree_inputs ps = (1 :: MerkleTreeHash (HashLeaf <$> take k ps) ++ MerkleTreeHash (HashLeaf <$> drop k ps))
            :: tree_inputs (take k ps) ++ tree_inputs (drop k ps)) as ->; [|set_solver].
  unfold tree_inputs. destruct ps as [|a [|b ps]]; [simpl in Hl; lia..|].
  remember (a :: b :: ps) as qs eqn:Hqs.
  set (RT := mth_inputs (S (length (take k qs))) (take k qs)).
  set (RD := mth_inputs (S (length (drop k qs))) (drop k qs)).
  cbn [mth_inputs]. rewrite Hqs at 1. f_equal.
  f_equal; apply Hfuel; auto with owasaka; rewrite ?length_take, ?length_drop; lia.
Qed.

Lemma MTH_leaves_split ps :
  slice_ok ps -> (1 < length ps)%nat ->
  let k := split_point (length ps) in
  MerkleTreeHash (HashLeaf <$> ps)
  = HashChildren (MerkleTreeHash (HashLeaf <$> take k ps)) (MerkleTreeHash (HashLeaf <$> drop k ps)).
Proof.
  intros Hs Hl k. rewrite MTH_split; unfold slice_ok; rewrite ?length_fmap; [|done..].
  by rewrite fmap_take, fmap_drop.
Qed.

Lemma leaves_hash_ok ps : Forall hash_ok (HashLeaf <$> ps).
Proof. apply Forall_fmap, Forall_true. intros. apply length_HashLeaf. Qed.

Lemma MTH_leaves_ok ps : slice_ok ps -> hash_ok (MerkleTreeHash (HashLeaf <$> ps)).
Proof.
  intros Hs. apply MTH_hash_ok; [unfold slice_ok; by rewrite length_fmap|apply leaves_hash_ok].
Qed.

(** A node hash that equals a tree's root is the hash of its two subtrees. *)
Lemma node_hash_inv l r ins ps :
  slice_ok ps -> hash_ok l -> HashChildren l r = MerkleTreeHash (HashLeaf <$> ps) ->
  collision_free ((1 :: l ++ r) :: ins) (tree_inputs ps) ->
  let k := split_point (length ps) in
  l = MerkleTreeHash (HashLeaf <$> take k ps) /\ r = MerkleTreeHash (HashLeaf <$> drop k ps) /\
  tree_inputs (take k ps) ⊆ tree_inputs ps /\ tree_inputs (drop k ps) ⊆ tree_inputs ps.
Proof.
  intros Hs Hl Heq Hcf. destruct ps as [|p' [|b ps]].
  - exfalso. by discriminate (Hcf _ [] (list_elem_of_here _ _) (list_elem_of_here _ _) Heq).
  - exfalso. by discriminate (Hcf _ (0 :: p') (list_elem_of_here _ _) (list_elem_of_here _ _) Heq).
  - remember (p' :: b :: ps) as qs. assert (1 < length qs)%nat as Hlen by (subst; simpl; lia).
    destruct (tree_inputs_split qs Hs Hlen) as (Hin & Hsub). rewrite MTH_leaves_split in Heq by done.
    pose proof (Hcf _ _ (list_elem_of_here _ _) Hin Heq) as Hsame. injection Hsame as Hsame.
    apply app_inj_1 in Hsame as [-> ->]; [by split|].
    rewrite Hl. symmetry. apply MTH_leaves_ok. auto with owasaka.
Qed.

Lemma leaf_hash_inv p ps :
  slice_ok ps -> HashLeaf p = MerkleTreeHash (HashLeaf <$> ps) ->
  collision_free [0 :: p] (tree_inputs ps) -> ps = [p].
Proof.
  intros Hs Heq Hcf. destruct ps as [|p' [|b ps]].
  - exfalso. by discriminate (Hcf _ [] (list_elem_of_here _ _) (list_elem_of_here _ _) Heq).
  - pose proof (Hcf _ (0 :: p') (list_elem_of_here _ _) (list_elem_of_here _ _) Heq). by simplify_eq.
  - exfalso. destruct (tree_inputs_split (p' :: b :: ps) Hs ltac:(simpl; lia)) as [Hin _].
    rewrite MTH_leaves_split in Heq by (done || (simpl; lia)).
    by discriminate (Hcf _ _ (list_elem_of_here _ _) Hin Heq).
Qed.

Lemma list_subseteq_skip' {A} (x : A) l : l ⊆ x :: l.
Proof. intros y Hy. by constructor. Qed.

Lemma collision_free_mono xs ys xs' ys' :
  xs' ⊆ xs -> ys' ⊆ ys -> collision_free xs ys -> collision_free xs' ys'.
Proof. intros Hx Hy H x y Hxi Hyi. apply H; auto. Qed.

Lemma climbs_member p h ins :
  climbs p h ins -> forall ps, slice_ok ps -> h = MerkleTreeHash (HashLeaf <$> ps) ->
  collision_free ins (tree_inputs ps) -> p ∈ ps.
Proof.
  induction 1 as [|cur q ins Hc IH Hq|cur q ins Hc IH Hq]; intros ps Hs Heq Hcf.
  - apply leaf_hash_inv in Heq as ->; [set_solver|done..].
  - destruct (node_hash_inv cur q ins ps) as (Hl & _ & Hsub & _); eauto using climbs_hash_ok. set (k := split_point (length ps)) in *.
    assert (p ∈ take k ps) as Hmem
      by (apply IH; auto with owasaka; eapply collision_free_mono; [apply list_subseteq_skip'|exact Hsub|exact Hcf]).
    rewrite <- (take_drop k ps), elem_of_app. auto.
  - destruct (node_hash_inv q cur ins ps) as (_ & Hr & _ & Hsub); eauto. set (k := split_point (length ps)) in *.
    assert (p ∈ drop k ps) as Hmem
      by (apply IH; auto with owasaka; eapply collision_free_mono; [apply list_subseteq_skip'|exact Hsub|exact Hcf]).
    rewrite <- (take_drop k ps), elem_of_app. auto.
Qed.

(** C3: Soundness of inclusion verification: if the verifier recomputes the root
    of a tree from the leaf hash of a payload, by any proof of any length, then
    the payload is one of the tree's leaves, unless SHA-256 collides on two of
    the strings hashed by the verifier and by the tree. *)
Theorem inclusion_sound (ps : list bytes) (p : bytes) (m : Z) (proof : AuditProof) :
  slice_ok ps -> 0 <= m < Z.of_nat (length ps) ->
  collision_free ((0 :: p) :: incl_inputs m (Z.of_nat (length ps) - 1) (HashLeaf p) proof) (tree_inputs ps) ->
  VerifyInclusion (HashLeaf p) m (Z.of_nat (length ps)) proof = MerkleTreeHash (HashLeaf <$> ps) ->
  p ∈ ps.
Proof.
  intros Hs Hm Hcf Hv. unfold VerifyInclusion in Hv.
  rewrite (proj2 (Z.eqb_neq _ 0)) in Hv by lia. rewrite (proj2 (Z.leb_gt _ _)) in Hv by lia. simpl orb in Hv.
  cbv iota in Hv. destruct (Z.of_nat (length ps) =? 1).
  - apply (climbs_member p (HashLeaf p) [0 :: p]); [constructor|done|done|].
    eapply collision_free_mono; [|reflexivity|exact Hcf]. intros x ->%list_elem_of_singleton. constructor.
  - destruct (incl_loop_climbs p proof m (Z.of_nat (length ps) - 1) (HashLeaf p) [0 :: p]) as (ins & Hc & Hsub);
      [constructor|].
    eapply climbs_member; [exact Hc|done|done|]. eapply collision_free_mono; [exact Hsub|reflexivity|exact Hcf].
Qed.

Definition demo_payloads : list bytes := [[1]; [2]; [3]].

(** Collision-freeness of two concrete lists is decided by evaluation. *)
Definition collision_free_b (xs ys : list bytes) : bool :=
  let hys := (fun y => (y, sha256 y)) <$> ys in
  forallb (fun x => let hx := sha256 x in
    forallb (fun '(y, hy) => negb (bool_decide (hx = hy)) || bool_decide (x = y)) hys) xs.

Lemma collision_free_b_spec xs ys : collision_free_b xs ys = true -> collision_free xs ys.
Proof.
  unfold collision_free_b. rewrite forallb_forall. intros H x y Hx Hy Heq.
  specialize (H x (proj1 (list_elem_of_In _ _) Hx)). rewrite forallb_forall in H.
  assert ((y, sha256 y) ∈ (fun y => (y, sha256 y)) <$> ys) as Hin by (by apply (list_elem_of_fmap_2 (fun y => (y, sha256 y)))).
  specialize (H (y, sha256 y) (proj1 (list_elem_of_In _ _) Hin)). cbv beta iota in H.
  rewrite (bool_decide_eq_true_2 _ Heq) in H. simpl in H.
  by apply bool_decide_eq_true in H.
Qed.

Lemma inclusion_sound_witness : [2] ∈ demo_payloads.
Proof.
  apply (inclusion_sound demo_payloads [2] 1 [HashLeaf [1]; HashLeaf [3]]).
  - done.
  - simpl. lia.
  - apply collision_free_b_spec. vm_compute. reflexivity.
  - vm_compute. reflexivity.
Defined.
