(* ===== verification/MerkleConsistency.v ===== *)
(** * Consistency proofs

    The completeness of [VerifyConsistency] on the output of [ConsistencyProof]
    (internal/storage/transparency/proofs.go).  The verifier's two loops are one
    walk up the tree, stated as a step relation; a proof of the recursive
    SUBPROOF drives that walk from the boundary of the smaller tree to the
    root. *)
From S2P Require Import Prelude Sha256 MerkleHash MerkleProofs.
From stdpp Require Import base list relations.
From Stdlib Require Import ZArith Lia Bool.
Local Open Scope Z_scope.

(** ** The walk as a relation on positions *)

(** From a boundary node and the last node of its level to those of a higher
    level; a proof entry is consumed as a left sibling of both trees ([true]), as
    a right sibling of the larger tree ([false]), or not at all on a level where
    the boundary is the last node and has no sibling. *)
Inductive run : list bool -> Z * Z -> Z * Z -> Prop :=
| run_nil pos : run [] pos pos
| run_left node last ds pos : node mod 2 = 1 -> run ds (node / 2, last / 2) pos -> run (true :: ds) (node, last) pos
| run_right node last ds pos :
    node mod 2 = 0 -> node < last -> run ds (node / 2, last / 2) pos -> run (false :: ds) (node, last) pos
| run_skip node ds pos : 0 < node -> node mod 2 = 0 -> run ds (node / 2, node / 2) pos -> run ds (node, node) pos.

Lemma run_app ds ds' p q r : run ds p q -> run ds' q r -> run (ds ++ ds') p r.
Proof. induction 1; intros; [done|constructor; auto..]. Qed.

Lemma run_last d ds p node last : run ds p (node, last) ->
  node mod 2 = (if d : bool then 1 else 0) -> (d = false -> node < last) -> run (ds ++ [d]) p (node / 2, last / 2).
Proof. intros Hr Hm Hl. eapply run_app; [exact Hr|]. destruct d; constructor; auto using run_nil. Qed.

(** A walk to the root from an inner level consumes an entry. *)
Lemma run_nonempty ds p q : run ds p q -> 0 < p.1 -> q.1 = 0 -> ds <> [].
Proof.
  induction 1 as [pos| | |node ds pos Hn Hm Hr IH]; intros Hp Hq; [lia|done|done|].
  apply IH; [|done]. simpl. pose proof (Z.div_mod node 2 ltac:(lia)). lia.
Qed.

(** The two running hashes after the entries [ps]. *)
Fixpoint replay (ds : list bool) (h1 h2 : RootHash) (ps : AuditProof) : RootHash * RootHash :=
  match ds, ps with
  | d :: ds', p :: ps' => if d : bool then replay ds' (HashChildren p h1) (HashChildren p h2) ps' else replay ds' h1 (HashChildren h2 p) ps'
  | _, _ => (h1, h2)
  end.

Lemma replay_snoc ds : forall d h1 h2 ps p, length ps = length ds ->
  replay (ds ++ [d]) h1 h2 (ps ++ [p]) =
  let '(g1, g2) := replay ds h1 h2 ps in if d : bool then (HashChildren p g1, HashChildren p g2) else (g1, HashChildren g2 p).
Proof.
  induction ds as [|e ds IH]; intros d h1 h2 [|q ps] p Hl; simpl in Hl; try lia; [by destruct d|].
  simpl. destruct e; apply IH; lia.
Qed.

(** The two loops of the verifier, and its check that the proof is used up. *)
Definition finish (fuel : nat) (node last : Z) (h1 h2 : RootHash) (ps : AuditProof) : option (RootHash * RootHash) :=
  match cons_walk fuel node last h1 h2 ps with
  | None => None
  | Some (last', h1', h2', ps') =>
      match cons_extend 64 last' h2' ps' with
      | Some (h2'', []) => Some (h1', h2'')
      | _ => None
      end
  end.

Lemma shiftr_1 x : Z.shiftr x 1 = x / 2.
Proof. by rewrite Z.shiftr_div_pow2 by lia. Qed.

Lemma extend_of_run (fuel : nat) : forall last ds ps h1 h2,
  0 <= last < 2 ^ Z.of_nat fuel -> run ds (0, last) (0, 0) ->
  match cons_extend fuel last h2 ps with
  | Some (h2', []) => length ps = length ds /\ replay ds h1 h2 (copy32 <$> ps) = (h1, h2')
  | _ => length ps <> length ds
  end.
Proof.
  induction fuel as [|fuel IH]; intros last ds ps h1 h2 Hl Hr.
  - simpl in Hl. assert (last = 0) as -> by lia. inversion Hr; simplify_eq; [|lia..]. by destruct ps.
  - rewrite Nat2Z.inj_succ, Z.pow_succ_r in Hl by lia. cbn [cons_extend]. destruct (Z.leb_spec last 0).
    + assert (last = 0) as -> by lia. inversion Hr; simplify_eq; [|lia..]. by destruct ps.
    + inversion Hr as [| |? ? ds' ? Hm Hlt Hr'|]; simplify_eq; [lia|..|lia]. destruct ps as [|p ps]; [done|].
      cbn [fmap list_fmap length replay]. rewrite shiftr_1. change (0 / 2) with 0 in Hr'.
      specialize (IH (last / 2) ds' ps h1 (HashChildren h2 (copy32 p))).
      assert (0 <= last / 2 < 2 ^ Z.of_nat fuel) as Hl' by (split; [apply Z.div_pos; lia|apply Z.div_lt_upper_bound; lia]).
      specialize (IH Hl' Hr'). destruct (cons_extend fuel _ _ _) as [[h2' [|q rest]]|]; [|lia..].
      destruct IH as [Hlen Hrep]. split; [lia|done].
Qed.

(** The loops accept exactly the proofs of the walk's length, and replay them. *)
Lemma finish_of_run (fuel : nat) : forall node last ds ps h1 h2,
  (fuel <= 64)%nat -> 0 <= node <= last -> last < 2 ^ Z.of_nat fuel -> run ds (node, last) (0, 0) ->
  finish fuel node last h1 h2 ps
  = if (length ps =? length ds)%nat then Some (replay ds h1 h2 (copy32 <$> ps)) else None.
Proof.
  assert (forall last ds ps h1 h2, 0 <= last < 2 ^ 64 -> run ds (0, last) (0, 0) ->
    match cons_extend 64 last h2 ps with Some (h2'', []) => Some (h1, h2'') | _ => None end
    = if (length ps =? length ds)%nat then Some (replay ds h1 h2 (copy32 <$> ps)) else None) as Hroot.
  { intros last ds ps h1 h2 Hl Hr. pose proof (extend_of_run 64 last ds ps h1 h2 Hl Hr) as He.
    destruct (cons_extend 64 last h2 ps) as [[h2' [|q rest]]|];
      [destruct He as [-> ->]; by rewrite Nat.eqb_refl|by rewrite (proj2 (Nat.eqb_neq _ _))..]. }
  induction fuel as [|fuel IH]; intros node last ds ps h1 h2 Hf Hn Hl Hr; unfold finish; cbn [cons_walk].
  - simpl in Hl. assert (last = 0) as -> by lia. assert (node = 0) as -> by lia. by apply Hroot.
  - destruct (Z.leb_spec node 0).
    { assert (node = 0) as -> by lia. apply Hroot; [|done]. split; [lia|].
      eapply Z.lt_le_trans; [exact Hl|apply Z.pow_le_mono_r; lia]. }
    pose proof (run_nonempty _ _ _ Hr ltac:(done) eq_refl) as Hne.
    destruct ps as [|p ps]; [by destruct ds|].
    rewrite Nat2Z.inj_succ, Z.pow_succ_r in Hl by lia.
    assert (0 <= node / 2 <= last / 2) by (split; [apply Z.div_pos|apply Z.div_le_mono]; lia).
    assert (last / 2 < 2 ^ Z.of_nat fuel) by (apply Z.div_lt_upper_bound; lia).
    inversion Hr as [|? ? ds' ? Hm Hr'|? ? ds' ? Hm Hlt Hr'|? ? ? Hpos Hm Hr']; simplify_eq; rewrite Hm, !shiftr_1.
    + change (1 =? 1) with true. cbv iota. cbn [length Nat.eqb fmap list_fmap replay].
      by apply (IH (node / 2) (last / 2) ds' ps (HashChildren (copy32 p) h1) (HashChildren (copy32 p) h2)); [lia|..].
    + change (0 =? 1) with false. rewrite (proj2 (Z.ltb_lt _ _)) by done. cbv iota. cbn [length Nat.eqb fmap list_fmap replay].
      by apply (IH (node / 2) (last / 2) ds' ps h1 (HashChildren h2 (copy32 p))); [lia|..].
    + rewrite Z.ltb_irrefl. change (0 =? 1) with false. cbv iota.
      by apply (IH (last / 2) (last / 2) ds (p :: ps) h1 h2); [lia|..].
Qed.

(** ** SUBPROOF with enough fuel *)

Definition subproof (m : nat) (d : list RootHash) (b : bool) : AuditProof := subProof (length d) m d b.

Lemma subProof_fuel fuel : forall fuel' m d b,
  slice_ok d -> (0 < m <= length d)%nat -> (length d <= fuel)%nat -> (length d <= fuel')%nat ->
  subProof fuel m d b = subProof fuel' m d b.
Proof.
  induction fuel as [|fuel IH]; intros fuel' m d b Hs Hm Hf Hf'; [lia|].
  destruct fuel' as [|fuel']; [lia|]. simpl. destruct (Nat.eqb_spec m (length d)); [done|].
  pose proof (split_point_bounds (length d) ltac:(lia) Hs). unfold slice_ok in *.
  destruct (Nat.leb_spec m (split_point (length d))); f_equal; apply IH; unfold slice_ok;
    rewrite ?length_take, ?length_drop; lia.
Qed.

Lemma subproof_full d b : (0 < length d)%nat -> subproof (length d) d b = if b then [] else [MerkleTreeHash d].
Proof. intros H. unfold subproof. destruct (length d) eqn:Hl; [lia|]. simpl. by rewrite Hl, Nat.eqb_refl. Qed.

Lemma subproof_left m d b :
  slice_ok d -> Forall hash_ok d -> (0 < m < length d)%nat -> (m <= split_point (length d))%nat ->
  subproof m d b = subproof m (take (split_point (length d)) d) b
                   ++ [MerkleTreeHash (drop (split_point (length d)) d)].
Proof.
  intros Hs Hd Hm Hk. pose proof (split_point_bounds (length d) ltac:(lia) Hs) as Hb. unfold subproof.
  destruct (length d) as [|n] eqn:Hn; [lia|]. cbn [subProof]. rewrite Hn.
  rewrite (proj2 (Nat.eqb_neq _ _)) by lia. rewrite (proj2 (Nat.leb_le _ _)) by lia.
  unfold appendHash. rewrite copy32_id by (apply MTH_hash_ok; [auto with owasaka|by apply Forall_drop]).
  f_equal. apply subProof_fuel; auto with owasaka; rewrite length_take; lia.
Qed.

Lemma subproof_right m d b :
  slice_ok d -> Forall hash_ok d -> (m < length d)%nat -> (split_point (length d) < m)%nat ->
  subproof m d b = subproof (m - split_point (length d)) (drop (split_point (length d)) d) false
                   ++ [MerkleTreeHash (take (split_point (length d)) d)].
Proof.
  intros Hs Hd Hm Hk. pose proof (split_point_bounds (length d) ltac:(lia) Hs) as Hb. unfold subproof.
  destruct (length d) as [|n] eqn:Hn; [lia|]. cbn [subProof]. rewrite Hn.
  rewrite (proj2 (Nat.eqb_neq _ _)) by lia. rewrite (proj2 (Nat.leb_gt _ _)) by lia.
  unfold appendHash. rewrite copy32_id by (apply MTH_hash_ok; [auto with owasaka|by apply Forall_take]).
  f_equal. apply subProof_fuel; auto with owasaka; rewrite length_drop; lia.
Qed.

(** A prefix that crosses the split point has the same left half. *)
Lemma MTH_take_split d m I :
  slice_ok d -> 0 <= I -> 2 ^ I < Z.of_nat m <= 2 ^ (I + 1) -> (m <= length d)%nat ->
  MerkleTreeHash (take m d)
  = HashChildren (MerkleTreeHash (take (Z.to_nat (2 ^ I)) d))
                 (MerkleTreeHash (take (m - Z.to_nat (2 ^ I)) (drop (Z.to_nat (2 ^ I)) d))).
Proof.
  intros Hs HI Hm Hl. assert (0 < 2 ^ I) by (apply Z.pow_pos_nonneg; lia).
  rewrite MTH_split by (auto with owasaka; rewrite length_take; lia).
  rewrite length_take, Nat.min_l by lia.
  assert (split_point m = Z.to_nat (2 ^ I)) as ->.
  { pose proof (split_point_unique m I). unfold slice_ok in Hs. lia. }
  f_equal; f_equal.
  - rewrite take_take, Nat.min_l by lia. done.
  - by rewrite skipn_firstn_comm.
Qed.

(** ** The level of the boundary *)

(** [2 ^ t] is the largest power of two that divides [m]. *)
Definition val2 (m t : Z) : Prop := 0 <= t /\ exists c, m = (2 * c + 1) * 2 ^ t.

Lemma val2_exists (n : nat) : forall m, 0 < m < 2 ^ Z.of_nat n -> exists t, t < Z.of_nat n /\ val2 m t.
Proof.
  induction n as [|n IH]; intros m Hm; [simpl in Hm; lia|].
  rewrite Nat2Z.inj_succ, Z.pow_succ_r in Hm by lia.
  pose proof (Z.div_mod m 2 ltac:(lia)) as Hdm. pose proof (Z.mod_pos_bound m 2 ltac:(lia)).
  destruct (Z.eq_dec (m mod 2) 1).
  - exists 0. split; [lia|]. split; [lia|]. exists (m / 2). lia.
  - destruct (IH (m / 2)) as (t & Ht & Ht0 & c & Hc); [lia|].
    exists (t + 1). split; [lia|]. split; [lia|]. exists c. rewrite Z.pow_add_r by lia. lia.
Qed.

(** A smaller power of two than [m] keeps the level. *)
Lemma val2_sub m t I : val2 m t -> 0 <= I -> 2 ^ I < m < 2 ^ (I + 1) -> val2 (m - 2 ^ I) t.
Proof.
  intros [Ht [c ->]] HI Hm. assert (0 < 2 ^ t) by (apply Z.pow_pos_nonneg; lia). split; [done|].
  rewrite Z.pow_add_r in Hm by lia.
  assert (t < I) as HtI.
  { destruct (Z.lt_ge_cases t I) as [|Hge]; [done|exfalso].
    replace (2 ^ t) with (2 ^ (t - I) * 2 ^ I) in Hm by (rewrite <- Z.pow_add_r by lia; f_equal; lia).
    assert (0 < 2 ^ I) by (apply Z.pow_pos_nonneg; lia).
    set (y := (2 * c + 1) * 2 ^ (t - I)). assert (1 < y < 2); [|lia].
    replace ((2 * c + 1) * (2 ^ (t - I) * 2 ^ I)) with (y * 2 ^ I) in Hm by (subst y; ring).
    split; apply (Z.mul_lt_mono_pos_r (2 ^ I)); lia. }
  exists (c - 2 ^ (I - t - 1)).
  replace (2 ^ I) with (2 * 2 ^ (I - t - 1) * 2 ^ t); [lia|].
  rewrite <- Z.pow_succ_r, <- Z.pow_add_r by lia. f_equal. lia.
Qed.

Lemma val2_pow2 i t : 0 <= i -> val2 (2 ^ i) t -> t = i.
Proof.
  intros Hi [Ht [c Hc]]. destruct (Z.lt_trichotomy t i) as [Hlt|[|Hlt]]; [exfalso|done|exfalso].
  - replace (2 ^ i) with (2 * 2 ^ (i - t - 1) * 2 ^ t) in Hc
      by (rewrite <- Z.pow_succ_r, <- Z.pow_add_r by lia; f_equal; lia).
    assert (0 < 2 ^ t) by (apply Z.pow_pos_nonneg; lia). apply Z.mul_cancel_r in Hc; lia.
  - replace (2 ^ t) with (2 * 2 ^ (t - i - 1) * 2 ^ i) in Hc
      by (rewrite <- Z.pow_succ_r, <- Z.pow_add_r by lia; f_equal; lia).
    assert (0 < 2 ^ i) by (apply Z.pow_pos_nonneg; lia).
    assert (1 = 2 * ((2 * c + 1) * 2 ^ (t - i - 1))); [|lia]. apply (Z.mul_cancel_r _ _ (2 ^ i)); lia.
Qed.

(** ** The shape of a walk *)

(** The directions of the entries of a proof between the first [m] leaves and all
    [n]: [true] when the entry is a left sibling that both trees share, [false]
    when it is a right sibling of the larger tree only.  Entries are consumed from
    the boundary up, so the split of the whole tree comes last. *)
Inductive shape : nat -> nat -> list bool -> Prop :=
| shape_full n : (0 < n)%nat -> shape n n []
| shape_left m n ds : (0 < m < n)%nat -> (m <= split_point n)%nat -> shape m (split_point n) ds -> shape m n (ds ++ [false])
| shape_right m n ds :
    (m < n)%nat -> (split_point n < m)%nat -> shape (m - split_point n) (n - split_point n) ds -> shape m n (ds ++ [true]).

(** The entries of the shape take the walk from [start] to [final]. *)
Definition drives (m n : nat) (start final : Z * Z) : Prop := exists ds, shape m n ds /\ run ds start final.

Lemma drives_full n start : (0 < n)%nat -> drives n n start start.
Proof. intros Hl. exists []. split; by constructor. Qed.

(** The boundary is in the left half: only the larger tree takes the sibling. *)
Lemma drives_left m n start node last :
  (0 < m < n)%nat -> (m <= split_point n)%nat -> node mod 2 = 0 -> node < last ->
  drives m (split_point n) start (node, last) -> drives m n start (node / 2, last / 2).
Proof. intros Hm Hk Hev Hlt (ds & Hsh & Hrun). exists (ds ++ [false]). split; [by constructor|by apply run_last]. Qed.

(** The boundary is in the right half: both trees take the left half. *)
Lemma drives_right m n start mid node last :
  (split_point n < m < n)%nat -> node mod 2 = 1 -> run [] mid (node, last) ->
  drives (m - split_point n) (n - split_point n) start mid -> drives m n start (node / 2, last / 2).
Proof.
  intros Hm Hodd Hskip (ds & Hsh & Hrun). exists (ds ++ [true]). split; [constructor; [lia|lia|done]|].
  apply run_last; [|done|done]. rewrite <- (app_nil_r ds). by eapply run_app.
Qed.

(** Inside a complete subtree of [2^i] leaves at position [Q]. *)
Lemma cons_perfect (i : nat) : forall Q S m t n,
  Z.of_nat n = 2 ^ Z.of_nat i -> Z.of_nat n < 2 ^ 63 ->
  (0 < m <= n)%nat -> val2 (Z.of_nat m) t -> 0 <= Q -> (Q + 1) * 2 ^ Z.of_nat i - 1 <= S ->
  drives m n ((Q * 2 ^ Z.of_nat i + Z.of_nat m - 1) / 2 ^ t, S / 2 ^ t) (Q, S / 2 ^ Z.of_nat i).
Proof.
  induction i as [|i IH]; intros Q S m t n Hl Hs Hm Ht HQ HS;
    (destruct (decide (m = n)) as [->|Hne];
     [rewrite Hl in *; apply val2_pow2 in Ht as ->; [|lia];
      replace ((Q * _ + _ - 1) / _) with Q; [apply drives_full; lia|];
      eapply Z.div_unique with (2 ^ _ - 1); [|ring]; lia|]).
  - simpl in Hl. lia.
  - rewrite Nat2Z.inj_succ, <- Z.add_1_r in *. set (I := Z.of_nat i) in *.
    assert (2 ^ (I + 1) = 2 * 2 ^ I) as Hp by (rewrite Z.pow_add_r by lia; lia).
    assert (0 < 2 ^ I) as Hp0 by (apply Z.pow_pos_nonneg; lia).
    assert (Z.of_nat (split_point n) = 2 ^ I) as Hk by (apply split_point_unique; [exact Hs|lia|]; rewrite Hl, Hp; lia).
    rewrite <- div_pow2_succ by lia.
    destruct (decide (m <= split_point n)%nat) as [Hmk|Hmk].
    + rewrite <- (half_even Q) at 2.
      pose proof (div_pow2_ge S (2 * Q + 1) I ltac:(lia) ltac:(nia)) as Hge.
      apply drives_left; [lia|done|apply mod_even|lia|].
      replace (Q * 2 ^ (I + 1)) with (2 * Q * 2 ^ I) by lia. apply IH; [lia|lia|lia|done|lia|nia].
    + rewrite <- (half_odd Q) at 2.
      apply (drives_right m n _ (2 * Q + 1, S / 2 ^ I)); [lia|apply mod_odd|apply run_nil|].
      replace (Q * 2 ^ (I + 1) + Z.of_nat m - 1)
        with ((2 * Q + 1) * 2 ^ I + Z.of_nat (m - split_point n) - 1) by nia.
      apply IH; [lia|lia|lia| |lia|nia]. rewrite Nat2Z.inj_sub, Hk by lia. apply val2_sub; [done|lia|lia].
Qed.

(** The verifier strips the levels through which the last node is promoted. *)
Lemma skip_steps (e : nat) q : 0 < q -> run [] (q * 2 ^ Z.of_nat e, q * 2 ^ Z.of_nat e) (q, q).
Proof.
  intros Hq. induction e as [|e IH]; [simpl; rewrite Z.mul_1_r; apply run_nil|].
  assert (0 < 2 ^ Z.of_nat e) by (apply Z.pow_pos_nonneg; lia).
  rewrite Nat2Z.inj_succ, Z.pow_succ_r by lia. replace (q * (2 * 2 ^ Z.of_nat e)) with (2 * (q * 2 ^ Z.of_nat e)) by lia.
  apply run_skip; [nia|apply mod_even|]. by rewrite half_even.
Qed.

(** In a subtree that is the rightmost of its level. *)
Lemma cons_ragged (j : nat) : forall q m t n,
  Z.of_nat n <= 2 ^ Z.of_nat j -> Z.of_nat n < 2 ^ 63 -> (0 < m < n)%nat -> val2 (Z.of_nat m) t -> 0 <= q ->
  exists e : nat, drives m n ((q * 2 ^ Z.of_nat j + Z.of_nat m - 1) / 2 ^ t, (q * 2 ^ Z.of_nat j + Z.of_nat n - 1) / 2 ^ t)
                             (q * 2 ^ Z.of_nat e, q * 2 ^ Z.of_nat e).
Proof.
  induction j as [j IH] using lt_wf_ind. intros q m t n Hl Hs Hm Ht Hq.
  destruct (split_point_spec n ltac:(lia) Hs) as (I & HI & Hk & Hb).
  assert (I < Z.of_nat j) as HIj by (apply (Z.pow_lt_mono_r_iff 2); lia).
  assert (0 < 2 ^ I) as Hp0 by (apply Z.pow_pos_nonneg; lia).
  set (E := Z.of_nat j - I - 1).
  assert (2 ^ Z.of_nat j = 2 * 2 ^ E * 2 ^ I) as Hpj.
  { subst E. rewrite <- Z.pow_succ_r, <- Z.pow_add_r by lia. f_equal. lia. }
  assert (0 < 2 ^ E) as HpE by (apply Z.pow_pos_nonneg; lia).
  assert (2 ^ (I + 1) = 2 * 2 ^ I) as Hp by (rewrite Z.pow_add_r by lia; lia).
  exists (Z.to_nat E). rewrite (Z2Nat.id E) by lia. set (S := q * 2 ^ Z.of_nat j + Z.of_nat n - 1).
  destruct (decide (m <= split_point n)%nat) as [Hmk|Hmk].
  - rewrite <- (half_even (q * 2 ^ E)) at 1. rewrite <- (half_odd (q * 2 ^ E)) at 2.
    apply drives_left; [lia|done|apply mod_even|lia|].
    pose proof (cons_perfect (Z.to_nat I) (2 * (q * 2 ^ E)) S m t (split_point n)) as Hperf.
    rewrite Z2Nat.id in Hperf by lia.
    assert (S / 2 ^ I = 2 * (q * 2 ^ E) + 1) as HS by (symmetry; apply Z.div_unique with (Z.of_nat n - 1 - 2 ^ I); nia).
    rewrite HS in Hperf. replace (q * 2 ^ Z.of_nat j) with (2 * (q * 2 ^ E) * 2 ^ I) by nia.
    apply Hperf; [lia|lia|lia|done|nia|nia].
  - rewrite <- (half_odd (q * 2 ^ E)) at 1 2.
    destruct (IH (Z.to_nat I) ltac:(lia) (2 * (q * 2 ^ E) + 1) (m - split_point n)%nat t (n - split_point n)%nat) as (e & Hdr);
      [rewrite Z2Nat.id; lia|lia|lia| |nia|].
    { rewrite Nat2Z.inj_sub, Hk by lia. apply val2_sub; [done|lia|lia]. }
    rewrite Z2Nat.id in Hdr by lia.
    replace (q * 2 ^ Z.of_nat j + Z.of_nat m - 1)
      with ((2 * (q * 2 ^ E) + 1) * 2 ^ I + Z.of_nat (m - split_point n) - 1) by nia.
    replace S with ((2 * (q * 2 ^ E) + 1) * 2 ^ I + Z.of_nat (n - split_point n) - 1) by nia.
    eapply drives_right; [lia|apply mod_odd| |exact Hdr]. apply skip_steps. nia.
Qed.

(** From the boundary to the root: the walk of every pair of sizes. *)
Lemma walk_shape (m n : nat) :
  (0 < m < n)%nat -> Z.of_nat n < 2 ^ 63 ->
  exists ds t c, shape m n ds /\ 0 <= t < 64 /\ 0 <= c /\ Z.of_nat m = (2 * c + 1) * 2 ^ t /\
    0 <= 2 * c <= (Z.of_nat n - 1) / 2 ^ t /\ (Z.of_nat n - 1) / 2 ^ t < 2 ^ 64 /\ run ds (2 * c, (Z.of_nat n - 1) / 2 ^ t) (0, 0).
Proof.
  intros Hm Hs. destruct (val2_exists 63 (Z.of_nat m)) as (t & Ht & Ht0 & c & Hc); [simpl; lia|].
  assert (0 < 2 ^ t) by (apply Z.pow_pos_nonneg; lia).
  destruct (cons_ragged 63 0 m t n) as (e & ds & Hsh & Hrun); [simpl; lia|done|lia|by split; eauto|lia|].
  exists ds, t, c. split; [done|]. split; [lia|]. split; [nia|]. split; [done|].
  rewrite !Z.mul_0_l, !Z.add_0_l in Hrun.
  replace ((Z.of_nat m - 1) / 2 ^ t) with (2 * c) in Hrun by (apply Z.div_unique with (2 ^ t - 1); lia).
  split; [split; [nia|]|split; [|done]].
  - apply Z.div_le_lower_bound; nia.
  - apply Z.div_lt_upper_bound; [done|]. nia.
Qed.

Lemma copy32_all ps : Forall hash_ok ps -> copy32 <$> ps = ps.
Proof. induction 1; [done|]. cbn [fmap list_fmap]. rewrite copy32_id by done. f_equal. done. Qed.

Lemma snoc_inv {A} (l : list A) n : length l = S n -> exists l' x, l = l' ++ [x] /\ length l' = n.
Proof.
  intros Hl. destruct l as [|x l _] using rev_ind; [done|]. exists l, x. rewrite length_app in Hl. simpl in Hl. split; [done|lia].
Qed.

(** SUBPROOF has the shape, and replaying it gives the two roots. *)
Lemma subproof_replay m n ds : shape m n ds -> forall d,
  length d = n -> slice_ok d -> Forall hash_ok d ->
  exists base steps, subproof m d false = base :: steps /\ hash_ok base /\ length steps = length ds /\ Forall hash_ok steps /\
    replay ds base base steps = (MerkleTreeHash (take m d), MerkleTreeHash d).
Proof.
  induction 1 as [n Hn|m n ds Hm Hk Hsh IH|m n ds Hm Hk Hsh IH]; intros d Hl Hs Hd; subst.
  - exists (MerkleTreeHash d), []. rewrite subproof_full, take_ge by lia. split; [done|]; split; [by apply MTH_hash_ok|]; done.
  - destruct (IH (take (split_point (length d)) d)) as (base & steps & Hsub & Hb & Hlen & Hok & Hrep); auto with owasaka;
      [pose proof (split_point_bounds (length d) ltac:(lia) Hs); rewrite length_take; lia|by apply Forall_take|].
    exists base, (steps ++ [MerkleTreeHash (drop (split_point (length d)) d)]).
    split; [by rewrite subproof_left, Hsub|]. split; [done|]. rewrite !length_app, Hlen. split; [done|].
    split; [apply Forall_app; split; [done|]; apply Forall_singleton, MTH_hash_ok; [auto with owasaka|by apply Forall_drop]|].
    rewrite replay_snoc, Hrep, (MTH_split d), take_take, Nat.min_l by (done || lia). done.
  - destruct (IH (drop (split_point (length d)) d)) as (base & steps & Hsub & Hb & Hlen & Hok & Hrep); auto with owasaka;
      [by rewrite length_drop|by apply Forall_drop|].
    destruct (split_point_spec (length d) ltac:(lia) Hs) as (I & HI & Hk' & Hb').
    exists base, (steps ++ [MerkleTreeHash (take (split_point (length d)) d)]).
    split; [by rewrite subproof_right, Hsub by (done || lia)|]. split; [done|]. rewrite !length_app, Hlen. split; [done|].
    split; [apply Forall_app; split; [done|]; apply Forall_singleton, MTH_hash_ok; [auto with owasaka|by apply Forall_take]|].
    rewrite replay_snoc, Hrep, (MTH_split d), (MTH_take_split d m I) by (done || lia).
    by assert (Z.to_nat (2 ^ I) = split_point (length d)) as -> by lia.
Qed.

(** ** The verifier's starting point *)

Lemma skip_ones_spec fuel : forall t c last,
  0 <= t < Z.of_nat fuel -> skip_ones fuel ((2 * c + 1) * 2 ^ t - 1) last = (2 * c, last / 2 ^ t).
Proof.
  induction fuel as [|fuel IH]; intros t c last Ht; [lia|]. cbn [skip_ones].
  destruct (decide (t = 0)) as [->|Ht0].
  - rewrite Z.pow_0_r, Z.mul_1_r, Z.div_1_r. replace (2 * c + 1 - 1) with (2 * c) by lia. by rewrite mod_even.
  - rewrite (pow2_half t) by lia. set (T := 2 ^ (t - 1)).
    replace ((2 * c + 1) * (2 * T) - 1) with (2 * ((2 * c + 1) * T - 1) + 1) by lia.
    rewrite mod_odd. cbn [Z.eqb Pos.eqb]. rewrite !shiftr_1, half_odd. subst T. rewrite IH by lia.
    f_equal. rewrite Z.div_div by lia. done.
Qed.

(** A prefix that is a complete tree is not repeated in the proof. *)
Lemma subproof_complete_prefix (n : nat) : forall m i d,
  length d = n -> slice_ok d -> Forall hash_ok d -> 0 <= i -> Z.of_nat m = 2 ^ i -> (0 < m <= length d)%nat ->
  subproof m d false = MerkleTreeHash (take m d) :: subproof m d true.
Proof.
  induction n as [n IH] using lt_wf_ind. intros m i d Hn Hs Hd Hi Hm Hl.
  destruct (decide (m = length d)) as [->|Hne].
  - rewrite !subproof_full, take_ge by lia. done.
  - destruct (split_point_spec (length d) ltac:(lia) Hs) as (I & HI & Hk & Hb).
    assert (i <= I) by (assert (i < I + 1); [apply (Z.pow_lt_mono_r_iff 2); lia|lia]).
    assert (2 ^ i <= 2 ^ I) by (apply Z.pow_le_mono_r; lia).
    rewrite (subproof_left m d true), (subproof_left m d false) by (done || lia).
    rewrite (IH (split_point (length d)) ltac:(lia) m i (take (split_point (length d)) d));
      auto with owasaka; [|rewrite length_take; lia|by apply Forall_take|rewrite length_take; lia].
    rewrite take_take, Nat.min_l by lia. done.
Qed.

Lemma subproof_other_prefix (n : nat) : forall m d,
  length d = n -> slice_ok d -> Forall hash_ok d -> (forall i, 0 <= i -> Z.of_nat m <> 2 ^ i) ->
  (0 < m < length d)%nat -> subproof m d true = subproof m d false.
Proof.
  induction n as [n IH] using lt_wf_ind. intros m d Hn Hs Hd Hm Hl.
  destruct (split_point_spec (length d) ltac:(lia) Hs) as (I & HI & Hk & Hb).
  pose proof (Hm I HI). destruct (decide (m <= split_point (length d))%nat) as [Hmk|Hmk].
  - rewrite (subproof_left m d true), (subproof_left m d false) by (done || lia). f_equal.
    apply (IH (split_point (length d))); auto with owasaka; [lia|rewrite length_take; lia|by apply Forall_take|rewrite length_take; lia].
  - by rewrite (subproof_right m d true), (subproof_right m d false) by (done || lia).
Qed.

(** The hash the verifier starts from, and what is left of the proof. *)
Definition seed (node : Z) (root1 : RootHash) (proof : AuditProof) : option (RootHash * AuditProof) :=
  if 0 <? node then match proof with [] => None | raw :: proof' => Some (copy32 raw, proof') end
  else Some (root1, proof).

(** Between trees of different sizes the verifier is its walk from the seed. *)
Lemma verify_finish n1 n2 root1 proof :
  0 < n1 < n2 ->
  VerifyConsistency n1 n2 root1 proof =
  let '(node, last) := skip_ones 64 (n1 - 1) (n2 - 1) in
  match seed node root1 proof with
  | None => (zero_hash, false)
  | Some (h, ps) =>
      match finish 64 node last h h ps with
      | Some (h1, h2) => if bool_decide (h1 = root1) then (h2, true) else (zero_hash, false)
      | None => (zero_hash, false)
      end
  end.
Proof.
  intros H. unfold VerifyConsistency, seed, finish.
  rewrite (proj2 (Z.eqb_neq _ 0)), (proj2 (Z.ltb_ge _ _)), (proj2 (Z.eqb_neq n1 n2)) by lia. unfold orb. cbv iota.
  generalize 64%nat as fuel. intros fuel. destruct (skip_ones _ _ _) as [node last].
  destruct (0 <? node); [destruct proof as [|raw proof]; [done|]|];
    (destruct (cons_walk _ _ _ _ _ _) as [[[[last' h1'] h2'] ps']|]; [|done]);
    (destruct (cons_extend _ _ _ _) as [[h2'' [|q rest]]|]; [by case_bool_decide|done..]).
Qed.

Lemma subproof_start m d c t base steps :
  slice_ok d -> Forall hash_ok d -> (0 < m < length d)%nat -> 0 <= t -> Z.of_nat m = (2 * c + 1) * 2 ^ t ->
  subproof m d false = base :: steps -> hash_ok base ->
  seed (2 * c) (MerkleTreeHash (take m d)) (subproof m d true) = Some (base, steps).
Proof.
  intros Hs Hd Hm Ht Hc Hsub Hb. assert (0 < 2 ^ t) by (apply Z.pow_pos_nonneg; lia). unfold seed.
  destruct (Z.ltb_spec 0 (2 * c)) as [Hpos|Hneg].
  - rewrite (subproof_other_prefix (length d)), Hsub, copy32_id; [done..| |done]. intros i Hi Hpow.
    assert (val2 (2 ^ i) t) as Hv by (split; [done|exists c; lia]).
    apply val2_pow2 in Hv as ->; [nia|done].
  - assert (c = 0) as -> by nia.
    rewrite (subproof_complete_prefix (length d) m t) in Hsub by (done || lia). by simplify_eq.
Qed.

(** The verifier accepts when the walk from its starting point ends at the
    roots of the two trees. *)
Lemma verify_of_walk m d :
  slice_ok d -> Forall hash_ok d -> (0 < m < length d)%nat ->
  VerifyConsistency (Z.of_nat m) (Z.of_nat (length d)) (MerkleTreeHash (take m d)) (subproof m d true)
  = (MerkleTreeHash d, true).
Proof.
  intros Hs Hd Hm. rewrite verify_finish by lia.
  destruct (walk_shape m (length d) Hm Hs) as (ds & t & c & Hsh & Ht & Hc0 & Hc & Hb & Hb' & Hrun).
  destruct (subproof_replay m _ ds Hsh d eq_refl Hs Hd) as (base & steps & Hsub & Hbase & Hlen & Hok & Hrep).
  rewrite Hc, skip_ones_spec, (subproof_start m d c t base steps) by (done || lia). cbv beta iota.
  rewrite (finish_of_run 64 _ _ ds), Hlen, Nat.eqb_refl, copy32_all, Hrep by (done || lia). by rewrite bool_decide_eq_true_2.
Qed.

Lemma consistency_proof_exists (d : list RootHash) (n1 n2 : nat) :
  slice_ok d -> Forall hash_ok d -> (0 < n1 <= n2)%nat -> (n2 <= length d)%nat ->
  exists proof, ConsistencyProof n1 n2 d = Some proof /\
    VerifyConsistency (Z.of_nat n1) (Z.of_nat n2) (MerkleTreeHash (take n1 d)) proof
    = (MerkleTreeHash (take n2 d), true).
Proof.
  intros Hs Hd H1 H2. unfold ConsistencyProof.
  rewrite (proj2 (Nat.eqb_neq _ 0)), (proj2 (Nat.ltb_ge _ _)), (proj2 (Nat.ltb_ge _ _)) by lia. cbn [orb].
  assert (length (take n2 d) = n2) as HD by (rewrite length_take; lia).
  destruct (Nat.eqb_spec n1 n2) as [->|Hne].
  - exists []. split; [done|]. unfold VerifyConsistency.
    rewrite (proj2 (Z.eqb_neq _ 0)), Z.ltb_irrefl, Z.eqb_refl by lia. done.
  - exists (subproof n1 (take n2 d) true). split; [unfold subproof; by rewrite HD|].
    rewrite <- HD at 1. replace (take n1 d) with (take n1 (take n2 d)) by (by rewrite take_take, Nat.min_l by lia).
    apply verify_of_walk; [auto with owasaka|by apply Forall_take|lia].
Qed.

(** C5: Completeness of consistency proofs: for every pair of sizes of every
    tree the generated proof exists, and the verifier accepts it against the
    root of the first [n1] leaves and recomputes the root of the first [n2]. *)
Theorem consistency_proof_verifies (d : list RootHash) (n1 n2 : nat) :
  slice_ok d -> Forall hash_ok d -> (0 < n1 <= n2)%nat -> (n2 <= length d)%nat ->
  exists proof, ConsistencyProof n1 n2 d = Some proof /\
    VerifyConsistency (Z.of_nat n1) (Z.of_nat n2) (MerkleTreeHash (take n1 d)) proof
    = (MerkleTreeHash (take n2 d), true).
Proof.
  apply consistency_proof_exists.
Qed.

Lemma consistency_proof_verifies_witness :
  exists proof, ConsistencyProof 3 5 demo_leaves = Some proof /\
    VerifyConsistency 3 5 (MerkleTreeHash (take 3 demo_leaves)) proof = (MerkleTreeHash (take 5 demo_leaves), true).
Proof.
  apply (consistency_proof_verifies demo_leaves 3 5); [apply demo_leaves_ok..|lia|simpl; lia].
Defined.
