(* ===== verification/ConsistencySound.v ===== *)
(** * Consistency proofs commit to the earlier tree

    The soundness of [VerifyConsistency]
    (internal/storage/transparency/proofs.go): a proof that is accepted against
    the root of the larger tree pins the root of the smaller one.  The strings
    the verifier hashes towards the larger root are listed by an executable
    mirror of its loops, and a collision of SHA-256 between one of them and one
    of the strings hashed by the tree is the only way out. *)
From S2P Require Import Prelude Sha256 MerkleHash MerkleProofs MerkleConsistency.
From stdpp Require Import base list sets.
From Stdlib Require Import ZArith Lia Bool.
Local Open Scope Z_scope.

(** ** The strings the verifier hashes *)

Fixpoint extend_inputs (fuel : nat) (last : Z) (h2 : RootHash) (proof : AuditProof) : list bytes :=
  match fuel with
  | O => []
  | S fuel' =>
      if last <=? 0 then []
      else
        match proof with
        | [] => []
        | raw :: proof' => (1 :: h2 ++ copy32 raw) :: extend_inputs fuel' (Z.shiftr last 1) (HashChildren h2 (copy32 raw)) proof'
        end
  end.

Fixpoint walk_inputs (fuel : nat) (node last : Z) (h2 : RootHash) (proof : AuditProof) : list bytes :=
  match fuel with
  | O => extend_inputs 64 last h2 proof
  | S fuel' =>
      if node <=? 0 then extend_inputs 64 last h2 proof
      else
        match proof with
        | [] => []
        | raw :: proof' =>
            let p := copy32 raw in
            if node mod 2 =? 1
            then (1 :: p ++ h2) :: walk_inputs fuel' (Z.shiftr node 1) (Z.shiftr last 1) (HashChildren p h2) proof'
            else if node <? last
            then (1 :: h2 ++ p) :: walk_inputs fuel' (Z.shiftr node 1) (Z.shiftr last 1) (HashChildren h2 p) proof'
            else walk_inputs fuel' (Z.shiftr node 1) (Z.shiftr last 1) h2 proof
        end
  end.

(** All of them, for a call of the verifier. *)
Definition cons_inputs (n1 n2 : Z) (root1 : RootHash) (proof : AuditProof) : list bytes :=
  if n1 =? n2 then []
  else
    let '(node, last) := skip_ones 64 (n1 - 1) (n2 - 1) in
    match seed node root1 proof with
    | None => []
    | Some (h, ps) => walk_inputs 64 node last h ps
    end.

(** ** The same strings along a walk *)

Definition step_input (d : bool) (h2 p : RootHash) : bytes := if d then 1 :: p ++ h2 else 1 :: h2 ++ p.

Fixpoint replay_inputs (ds : list bool) (h2 : RootHash) (ps : AuditProof) : list bytes :=
  match ds, ps with
  | d :: ds', p :: ps' => step_input d h2 p :: replay_inputs ds' (if d then HashChildren p h2 else HashChildren h2 p) ps'
  | _, _ => []
  end.

Lemma replay_inputs_snoc ds : forall d h1 h2 ps p, length ps = length ds ->
  replay_inputs (ds ++ [d]) h2 (ps ++ [p]) = replay_inputs ds h2 ps ++ [step_input d (replay ds h1 h2 ps).2 p].
Proof.
  induction ds as [|e ds IH]; intros d h1 h2 [|q ps] p Hl; simpl in Hl; try lia; [done|].
  cbn [app replay_inputs replay]. destruct e; f_equal; apply IH; lia.
Qed.

Lemma replay_hash_ok ds : forall h1 h2 ps, hash_ok h1 -> hash_ok h2 ->
  hash_ok (replay ds h1 h2 ps).1 /\ hash_ok (replay ds h1 h2 ps).2.
Proof. induction ds as [|[] ds IH]; intros h1 h2 [|p ps] H1 H2; try done; cbn [replay]; apply IH; auto using length_HashChildren. Qed.

Lemma seed_hash_ok node root1 proof h rest : hash_ok root1 -> seed node root1 proof = Some (h, rest) -> hash_ok h.
Proof. unfold seed. intros Hr Hs. destruct (0 <? node); [destruct proof|]; simplify_eq; auto with owasaka. Qed.

Lemma extend_inputs_run (fuel : nat) : forall last ds ps h2,
  0 <= last < 2 ^ Z.of_nat fuel -> run ds (0, last) (0, 0) -> length ps = length ds ->
  extend_inputs fuel last h2 ps = replay_inputs ds h2 (copy32 <$> ps).
Proof.
  induction fuel as [|fuel IH]; intros last ds ps h2 Hl Hr Hlen.
  - simpl in Hl. assert (last = 0) as -> by lia. by inversion Hr; simplify_eq; [|lia..].
  - rewrite Nat2Z.inj_succ, Z.pow_succ_r in Hl by lia. cbn [extend_inputs]. destruct (Z.leb_spec last 0).
    + assert (last = 0) as -> by lia. by inversion Hr; simplify_eq; [|lia..].
    + inversion Hr as [| |? ? ds' ? Hm Hlt Hr'|]; simplify_eq; [lia|..|lia]. destruct ps as [|p ps]; [done|].
      cbn [fmap list_fmap replay_inputs step_input]. rewrite shiftr_1. f_equal.
      apply IH; [split; [apply Z.div_pos; lia|apply Z.div_lt_upper_bound; lia]|done|simpl in Hlen; lia].
Qed.

Lemma walk_inputs_run (fuel : nat) : forall node last ds ps h2,
  (fuel <= 64)%nat -> 0 <= node <= last -> last < 2 ^ Z.of_nat fuel -> run ds (node, last) (0, 0) -> length ps = length ds ->
  walk_inputs fuel node last h2 ps = replay_inputs ds h2 (copy32 <$> ps).
Proof.
  induction fuel as [|fuel IH]; intros node last ds ps h2 Hf Hn Hl Hr Hlen; cbn [walk_inputs].
  - simpl in Hl. assert (last = 0) as -> by lia. assert (node = 0) as -> by lia. by apply extend_inputs_run.
  - destruct (Z.leb_spec node 0).
    { assert (node = 0) as -> by lia. apply extend_inputs_run; [|done|done]. split; [lia|].
      eapply Z.lt_le_trans; [exact Hl|apply Z.pow_le_mono_r; lia]. }
    pose proof (run_nonempty _ _ _ Hr ltac:(done) eq_refl) as Hne.
    destruct ps as [|p ps]; [by destruct ds|]. 
    rewrite Nat2Z.inj_succ, Z.pow_succ_r in Hl by lia.
    assert (0 <= node / 2 <= last / 2) by (split; [apply Z.div_pos|apply Z.div_le_mono]; lia).
    assert (last / 2 < 2 ^ Z.of_nat fuel) by (apply Z.div_lt_upper_bound; lia).
    inversion Hr as [|? ? ds' ? Hm Hr'|? ? ds' ? Hm Hlt Hr'|? ? ? Hpos Hm Hr']; simplify_eq; rewrite Hm, !shiftr_1.
    + change (1 =? 1) with true. cbv iota. cbn [fmap list_fmap replay_inputs step_input]. f_equal. apply IH; [lia..|done|simpl in Hlen; lia].
    + change (0 =? 1) with false. rewrite (proj2 (Z.ltb_lt _ _)) by done. cbv iota.
      cbn [fmap list_fmap replay_inputs step_input]. f_equal. apply IH; [lia..|done|simpl in Hlen; lia].
    + rewrite Z.ltb_irrefl. change (0 =? 1) with false. cbv iota. by apply (IH (last / 2) (last / 2) ds (p :: ps) h2); [lia|..].
Qed.

(** ** The larger root pins the smaller one *)

Lemma replay_sound m n ds : shape m n ds -> forall qs h ps,
  length qs = n -> slice_ok qs -> hash_ok h -> Forall hash_ok ps -> length ps = length ds ->
  collision_free (replay_inputs ds h ps) (tree_inputs qs) ->
  (replay ds h h ps).2 = MerkleTreeHash (HashLeaf <$> qs) ->
  (replay ds h h ps).1 = MerkleTreeHash (HashLeaf <$> take m qs).
Proof.
  induction 1 as [n Hn|m n ds Hm Hk Hsh IH|m n ds Hm Hk Hsh IH]; intros qs h ps Hl Hs Hh Hps Hlen Hcf Heq; subst.
  - rewrite take_ge by lia. by destruct ps.
  - rewrite length_app, Nat.add_1_r in Hlen. apply snoc_inv in Hlen as (ps' & p & -> & Hlen).
    apply Forall_app in Hps as [Hps' [Hp _]%Forall_cons].
    rewrite (replay_inputs_snoc _ _ h) in Hcf by done. rewrite replay_snoc in * by done.
    destruct (replay_hash_ok ds h h ps' Hh Hh) as [Hg1 Hg2]. specialize (IH (take (split_point (length qs)) qs) h ps').
    destruct (replay ds h h ps') as [g1 g2]. cbn [fst snd step_input] in *.
    destruct (node_hash_inv g2 p [] qs) as (Hleft & _ & Hsub & _); [done..| |].
    { eapply collision_free_mono; [|reflexivity|exact Hcf]. set_solver. }
    pose proof (split_point_bounds (length qs) ltac:(lia) Hs).
    rewrite IH, take_take, Nat.min_l; auto with owasaka; [rewrite length_take; lia|].
    eapply collision_free_mono; [|exact Hsub|exact Hcf]. set_solver.
  - rewrite length_app, Nat.add_1_r in Hlen. apply snoc_inv in Hlen as (ps' & p & -> & Hlen).
    apply Forall_app in Hps as [Hps' [Hp _]%Forall_cons].
    rewrite (replay_inputs_snoc _ _ h) in Hcf by done. rewrite replay_snoc in * by done.
    destruct (replay_hash_ok ds h h ps' Hh Hh) as [Hg1 Hg2]. specialize (IH (drop (split_point (length qs)) qs) h ps').
    destruct (replay ds h h ps') as [g1 g2]. cbn [fst snd step_input] in *.
    destruct (node_hash_inv p g2 [] qs) as (Hleft & Hright & _ & Hsub); [done..| |].
    { eapply collision_free_mono; [|reflexivity|exact Hcf]. set_solver. }
    destruct (split_point_spec (length qs) ltac:(lia) Hs) as (I & HI & Hk' & Hb').
    rewrite IH; auto with owasaka; [|by rewrite length_drop|].
    2: { eapply collision_free_mono; [|exact Hsub|exact Hcf]. set_solver. }
    rewrite !fmap_take, fmap_drop, Hleft, fmap_take.
    rewrite (MTH_take_split (HashLeaf <$> qs) m I); [|unfold slice_ok; by rewrite length_fmap|done|lia|rewrite length_fmap; lia].
    by assert (Z.to_nat (2 ^ I) = split_point (length qs)) as -> by lia.
Qed.

(** C4: Soundness of consistency verification: an accepted proof that recomputes
    the root of the larger tree was given the root of that tree's first [n1]
    leaves, unless SHA-256 collides on a string hashed by the verifier and one
    hashed by the tree.  An operator cannot present a different past. *)
Theorem consistency_sound (ps : list bytes) (n1 : nat) (root1 : RootHash) (proof : AuditProof) :
  slice_ok ps -> (0 < n1 <= length ps)%nat -> hash_ok root1 ->
  collision_free (cons_inputs (Z.of_nat n1) (Z.of_nat (length ps)) root1 proof) (tree_inputs ps) ->
  VerifyConsistency (Z.of_nat n1) (Z.of_nat (length ps)) root1 proof = (MerkleTreeHash (HashLeaf <$> ps), true) ->
  root1 = MerkleTreeHash (HashLeaf <$> take n1 ps).
Proof.
  intros Hs Hn Hr1 Hcf Hv. destruct (decide (n1 = length ps)) as [->|Hne].
  - rewrite take_ge by done. unfold VerifyConsistency in Hv. rewrite Z.ltb_irrefl, Z.eqb_refl, (proj2 (Z.eqb_neq _ 0)) in Hv by lia.
    cbn [orb] in Hv. cbv iota in Hv. destruct (_ =? _)%nat in Hv; congruence.
  - destruct (walk_shape n1 (length ps) ltac:(lia) Hs) as (ds & t & c & Hsh & Ht & Hc0 & Hc & Hb & Hb' & Hrun).
    rewrite verify_finish in Hv by lia. unfold cons_inputs in Hcf. rewrite (proj2 (Z.eqb_neq _ _)) in Hcf by lia.
    rewrite Hc, skip_ones_spec in Hv, Hcf by lia.
    destruct (seed (2 * c) root1 proof) as [[h raws]|] eqn:Hseed; [|congruence].
    assert (hash_ok h) as Hh by by eapply seed_hash_ok.
    rewrite (finish_of_run 64 _ _ ds) in Hv by (done || lia).
    destruct (Nat.eqb_spec (length raws) (length ds)) as [Hlen|]; [|congruence].
    rewrite (walk_inputs_run 64 _ _ ds) in Hcf by (done || lia).
    pose proof (replay_sound n1 _ ds Hsh ps h (copy32 <$> raws) eq_refl Hs Hh) as Hsound.
    destruct (replay ds h h (copy32 <$> raws)) as [h1 h2]. case_bool_decide; [subst|congruence]. cbn [fst snd] in Hsound.
    apply Hsound; [|by rewrite length_fmap|done|congruence]. apply Forall_fmap, Forall_true. intros. apply length_copy32.
Qed.

Lemma consistency_sound_witness :
  MerkleTreeHash (HashLeaf <$> [[1]; [2]]) = MerkleTreeHash (HashLeaf <$> take 2 demo_payloads).
Proof.
  apply (consistency_sound demo_payloads 2 (MerkleTreeHash (HashLeaf <$> [[1]; [2]])) [HashLeaf [3]]).
  - done.
  - simpl. lia.
  - vm_compute. reflexivity.
  - apply collision_free_b_spec. vm_compute. reflexivity.
  - vm_compute. reflexivity.
Defined.
