(* ===== verification/Bolt.v ===== *)
(** * The embedded key-value store

    The storage packages keep their state in BoltDB (go.etcd.io/bbolt), a
    third-party library.  It appears here as an interface: a class of the
    operations the program calls and a class of their documented behaviour.
    The components are proved against the interface; [MapBolt] is a concrete
    instance on which they can be run. *)
From S2P Require Import Prelude.
From stdpp Require Import base list strings gmap sorting.
From Stdlib Require Import ZArith Lia Bool.
Local Open Scope Z_scope.

(** ** Byte order of keys *)

Fixpoint bytes_ltb (a b : bytes) : bool :=
  match a, b with
  | _, [] => false
  | [], _ :: _ => true
  | x :: a', y :: b' => (x <? y) || ((x =? y) && bytes_ltb a' b')
  end.

Definition bytes_lt (a b : bytes) : Prop := bytes_ltb a b = true.

Lemma bytes_lt_irrefl a : ~ bytes_lt a a.
Proof.
  unfold bytes_lt. induction a as [|x a IH]; simpl; [done|].
  by rewrite Z.ltb_irrefl, Z.eqb_refl, (not_true_is_false _ IH).
Qed.

Lemma bytes_lt_cons x a y b : bytes_lt (x :: a) (y :: b) <-> x < y \/ (x = y /\ bytes_lt a b).
Proof. unfold bytes_lt. simpl. rewrite orb_true_iff, andb_true_iff, Z.ltb_lt, Z.eqb_eq. done. Qed.

Lemma bytes_lt_trans a : forall b c, bytes_lt a b -> bytes_lt b c -> bytes_lt a c.
Proof.
  induction a as [|x a IH]; intros [|y b] [|z c] Hab Hbc; try done.
  rewrite bytes_lt_cons in *. destruct Hab as [?|[-> ?]], Hbc as [?|[-> ?]]; [left; lia|by left|by left|].
  right. split; [done|]. by eapply IH.
Qed.

Lemma bytes_lt_total a : forall b, bytes_lt a b \/ a = b \/ bytes_lt b a.
Proof.
  induction a as [|x a IH]; intros [|y b]; [auto|by left|by right; right|].
  rewrite !bytes_lt_cons. destruct (Z.lt_trichotomy x y) as [|[->|]]; [auto| |auto].
  destruct (IH b) as [|[->|]]; auto.
Qed.

(** Equal-length codes compare at the first differing byte. *)
Lemma bytes_lt_app p a b : bytes_lt (p ++ a) (p ++ b) <-> bytes_lt a b.
Proof.
  induction p as [|x p IH]; [done|]. simpl. rewrite bytes_lt_cons, IH.
  split; [intros [|[_ ?]]; [lia|done]|auto].
Qed.

(** Big-endian codes of the same width are ordered as the numbers. *)
Lemma be_encode_lt n : forall a b, 0 <= a < b -> b < 256 ^ Z.of_nat n -> bytes_lt (be_encode n a) (be_encode n b).
Proof.
  assert (forall a b x y, length a = length b -> bytes_lt a b -> bytes_lt (a ++ x) (b ++ y)) as Happ.
  { induction a as [|u a IH]; intros [|v b] x y Hl; simpl in Hl; try lia; [done|].
    simpl. rewrite !bytes_lt_cons. intros [?|[-> ?]]; [by left|right]. split; [done|apply IH; [lia|done]]. }
  induction n as [|n IH]; intros a b Hab Hb; [simpl in Hb; lia|].
  rewrite Nat2Z.inj_succ, Z.pow_succ_r in Hb by lia. unfold be_encode in *. simpl.
  pose proof (Z.div_mod a 256 ltac:(lia)). pose proof (Z.div_mod b 256 ltac:(lia)).
  pose proof (Z.mod_pos_bound a 256 ltac:(lia)). pose proof (Z.mod_pos_bound b 256 ltac:(lia)).
  destruct (Z.eq_dec (a / 256) (b / 256)) as [He|He].
  - rewrite He. apply bytes_lt_app, bytes_lt_cons. left. lia.
  - apply Happ; [by rewrite !length_rev, !length_le_encode|]. apply IH; [split; [apply Z.div_pos; lia|lia]|].
    apply Z.div_lt_upper_bound; lia.
Qed.

(** ** Buckets *)

(** A bucket's content in cursor order. *)
Abbreviation entries := (list (bytes * bytes)) (only parsing).

Fixpoint kv_get (k : bytes) (l : entries) : option bytes :=
  match l with
  | [] => None
  | (k', v) :: l' => if bool_decide (k = k') then Some v else kv_get k l'
  end.

Lemma kv_get_In k v (l : entries) : kv_get k l = Some v -> (k, v) ∈ l.
Proof.
  induction l as [|[k' v'] l IH]; simpl; [done|].
  destruct (bool_decide_reflect (k = k')) as [->|]; intros; simplify_eq; [constructor|constructor; auto].
Qed.

Lemma kv_get_elem k v (l : entries) : NoDup (l.*1) -> (k, v) ∈ l -> kv_get k l = Some v.
Proof.
  induction l as [|[k' v'] l IH]; simpl; intros Hnd Hin; [by apply elem_of_nil in Hin|].
  apply NoDup_cons in Hnd as [Hni Hnd]. destruct (bool_decide_reflect (k = k')) as [->|].
  - apply elem_of_cons in Hin as [|Hin]; [by simplify_eq|].
    exfalso. apply Hni. by apply (list_elem_of_fmap_2 fst _ (k', v)).
  - apply elem_of_cons in Hin as [|Hin]; [by simplify_eq|auto].
Qed.

Lemma kv_get_keys k (l : entries) : is_Some (kv_get k l) <-> k ∈ l.*1.
Proof.
  induction l as [|[k' v'] l IH]; simpl; [split; [by intros []|by intros ?%elem_of_nil]|].
  rewrite elem_of_cons, <- IH. destruct (bool_decide_reflect (k = k')); naive_solver.
Qed.

(** The operations the program calls, inside a transaction on a store.
    [bucket] is [tx.Bucket] with the entries in cursor order, [None] for nil;
    [Put] and [Delete] are called on an existing bucket; [None] is an error. *)
Class Bolt (store : Type) := {
  bucket : store -> string -> option entries;
  CreateBucketIfNotExists : store -> string -> option store;
  Put : store -> string -> bytes -> bytes -> option store;
  Delete : store -> string -> bytes -> option store;
  Commit : store -> option store;
}.

(** What bbolt documents of them. *)
Class BoltLaws (store : Type) `{Bolt store} := {
  bucket_sorted : forall s n l, bucket s n = Some l -> StronglySorted bytes_lt (l.*1);
  create_spec : forall s n s', CreateBucketIfNotExists s n = Some s' ->
    bucket s' n = Some (default [] (bucket s n)) /\ forall n', n' <> n -> bucket s' n' = bucket s n';
  put_spec : forall s n k v s' l, Put s n k v = Some s' -> bucket s n = Some l ->
    (exists l', bucket s' n = Some l' /\
       forall k', kv_get k' l' = if bool_decide (k' = k) then Some v else kv_get k' l) /\
    forall n', n' <> n -> bucket s' n' = bucket s n';
  delete_spec : forall s n k s' l, Delete s n k = Some s' -> bucket s n = Some l ->
    (exists l', bucket s' n = Some l' /\
       forall k', kv_get k' l' = if bool_decide (k' = k) then None else kv_get k' l) /\
    forall n', n' <> n -> bucket s' n' = bucket s n';
  commit_spec : forall s s', Commit s = Some s' -> forall n, bucket s' n = bucket s n;
}.

Section Transactions.
Context {store : Type} `{Bolt store}.

(** [db.Update(f)]: the body's writes are committed when it returns nil and the
    commit succeeds; otherwise the store is left as it was.  [err_commit] is the
    error of a failed commit. *)
Definition Update {E A} (err_commit : E) (db : store) (f : store -> res E (store * A)) : store * res E A :=
  match f db with
  | ROk (s, a) =>
      match Commit s with
      | Some s' => (s', ROk a)
      | None => (db, RErr err_commit)
      end
  | RErr e => (db, RErr e)
  | RPanic => (db, RPanic)
  end.

(** [b := tx.Bucket(n); b.Get(k)], [b.Put(k, v)], [b.Delete(k)]: a nil bucket
    panics. *)
Definition bkt_Get {E} (s : store) (n : string) (k : bytes) : res E (option bytes) :=
  match bucket s n with None => RPanic | Some l => ROk (kv_get k l) end.
Definition bkt_Put {E} (e : E) (s : store) (n : string) (k v : bytes) : res E store :=
  match bucket s n with
  | None => RPanic
  | Some _ => match Put s n k v with Some s' => ROk s' | None => RErr e end
  end.
Definition bkt_Delete {E} (e : E) (s : store) (n : string) (k : bytes) : res E store :=
  match bucket s n with
  | None => RPanic
  | Some _ => match Delete s n k with Some s' => ROk s' | None => RErr e end
  end.
Definition bkt_entries {E} (s : store) (n : string) : res E entries :=
  match bucket s n with None => RPanic | Some l => ROk l end.

Context `{!BoltLaws store}.

(** The content of a bucket as a lookup function ([None] also for a missing
    bucket). *)
Definition content (s : store) (n : string) (k : bytes) : option bytes :=
  match bucket s n with None => None | Some l => kv_get k l end.

Lemma bucket_nodup s n l : bucket s n = Some l -> NoDup (l.*1).
Proof.
  intros Hb%bucket_sorted. induction Hb as [|k ks _ IH Hall]; constructor; [|done].
  intros Hin. rewrite Forall_forall in Hall. by apply (bytes_lt_irrefl k), Hall.
Qed.

(** A sorted bucket is determined by its key set: it is the list of its keys in
    byte order. *)
Lemma bucket_keys_unique s n l (ks : list bytes) :
  bucket s n = Some l -> StronglySorted bytes_lt ks -> (forall k, k ∈ l.*1 <-> k ∈ ks) -> l.*1 = ks.
Proof.
  intros Hb%bucket_sorted Hks Hiff.
  assert (forall xs, StronglySorted bytes_lt xs -> forall ys, StronglySorted bytes_lt ys ->
            (forall k, k ∈ xs <-> k ∈ ys) -> xs = ys) as Huniq; [|by apply Huniq].
  induction 1 as [|x xs Hxs IH Hx]; intros ys Hys Hxy.
  - destruct ys as [|y ys]; [done|]. exfalso. apply (not_elem_of_nil (A := bytes) y), Hxy. constructor.
  - destruct Hys as [|y ys Hys Hy].
    { exfalso. apply (not_elem_of_nil (A := bytes) x), Hxy. constructor. }
    rewrite Forall_forall in Hx, Hy.
    assert (x = y) as ->.
    { destruct (proj1 (elem_of_cons ys x y) (proj1 (Hxy x) (list_elem_of_here _ _))) as [|H1]; [done|].
      destruct (proj1 (elem_of_cons xs y x) (proj2 (Hxy y) (list_elem_of_here _ _))) as [|H2]; [done|].
      exfalso. apply (bytes_lt_irrefl x). eapply bytes_lt_trans; [by apply Hx|by apply Hy]. }
    f_equal. apply IH; [done|]. intros k. specialize (Hxy k). rewrite !elem_of_cons in Hxy.
    split; intros Hk.
    + destruct (proj1 Hxy (or_intror Hk)) as [->|]; [|done]. exfalso. by apply (bytes_lt_irrefl y), Hx.
    + destruct (proj2 Hxy (or_intror Hk)) as [->|]; [|done]. exfalso. by apply (bytes_lt_irrefl y), Hy.
Qed.
End Transactions.

(** ** A concrete store *)

Module MapBolt.
Abbreviation t := (gmap string (gmap bytes bytes)) (only parsing).

Definition key_le (a b : bytes * bytes) : Prop := bytes_ltb b.1 a.1 = false.
#[export] Instance key_le_dec a b : Decision (key_le a b).
Proof. unfold key_le. apply _. Defined.

(** Limits of bbolt on keys and values. *)
Definition MaxKeySize : Z := 32768.
Definition MaxValueSize : Z := 2 ^ 31 - 2.

#[export] Instance ops : Bolt t := {
  bucket s n := (fun m : gmap bytes bytes => merge_sort key_le (map_to_list m)) <$> (s !! n);
  CreateBucketIfNotExists s n :=
    if bool_decide (n = ""%string) then None else Some (<[n := default ∅ (s !! n)]> s);
  Put s n k v :=
    if bool_decide (k = []) || (MaxKeySize <? Z.of_nat (length k)) || (MaxValueSize <? Z.of_nat (length v)) then None
    else Some (<[n := <[k := v]> (default ∅ (s !! n))]> s);
  Delete s n k := Some (<[n := delete k (default ∅ (s !! n))]> s);
  Commit s := Some s;
}.

#[export] Instance key_le_total : Total key_le.
Proof.
  intros [a ?] [b ?]. unfold key_le. simpl. destruct (bytes_ltb b a) eqn:H1; [|by left]. right.
  apply not_true_is_false. intros H2. apply (bytes_lt_irrefl a). by eapply bytes_lt_trans.
Qed.

#[export] Instance key_le_trans : Transitive key_le.
Proof.
  intros [a ?] [b ?] [c ?]. unfold key_le. simpl. intros H1 H2. apply not_true_is_false. intros H3.
  destruct (bytes_lt_total a b) as [Hab|[->|Hab]]; [|by rewrite H3 in H2|by rewrite Hab in H1].
  assert (bytes_lt c b) as Hcb by (by eapply bytes_lt_trans). by rewrite Hcb in H2.
Qed.

Lemma sorted_keys (l : entries) : NoDup (l.*1) -> StronglySorted key_le l -> StronglySorted bytes_lt (l.*1).
Proof.
  intros Hnd Hs. induction Hs as [|[k v] l Hs IH Hall]; simpl in *; [constructor|].
  apply NoDup_cons in Hnd as [Hni Hnd]. constructor; [by apply IH|].
  apply Forall_fmap, Forall_forall. intros [k' v'] Hin. rewrite Forall_forall in Hall.
  specialize (Hall _ Hin). unfold key_le in Hall. simpl in *.
  destruct (bytes_lt_total k k') as [|[->|Hlt]]; [done| |by rewrite Hlt in Hall].
  exfalso. apply Hni. by apply (list_elem_of_fmap_2 fst _ (k', v')).
Qed.

Lemma sorted_nodup (m : gmap bytes bytes) : NoDup ((merge_sort key_le (map_to_list m)).*1).
Proof. rewrite (merge_sort_Permutation key_le (map_to_list m)). apply NoDup_fst_map_to_list. Qed.

Lemma kv_get_map (m : gmap bytes bytes) k : kv_get k (merge_sort key_le (map_to_list m)) = m !! k.
Proof.
  destruct (m !! k) as [v|] eqn:Hk.
  - apply kv_get_elem; [apply sorted_nodup|].
    rewrite (merge_sort_Permutation key_le (map_to_list m)). by apply elem_of_map_to_list.
  - apply eq_None_not_Some. rewrite kv_get_keys, (merge_sort_Permutation key_le (map_to_list m)).
    intros ([k' v] & -> & Hin)%list_elem_of_fmap. apply elem_of_map_to_list in Hin. simpl in Hk. congruence.
Qed.

#[export] Instance laws : BoltLaws t.
Proof.
  split; simpl.
  - intros s n l Hb. apply fmap_Some in Hb as (m & _ & ->).
    apply sorted_keys; [apply sorted_nodup|]. apply (StronglySorted_merge_sort key_le).
  - intros s n s' Hc. case_bool_decide; simplify_eq. split.
    + rewrite lookup_insert_eq. by destruct (s !! n).
    + intros n' Hn. by rewrite lookup_insert_ne.
  - intros s n k v s' l Hp Hb. destruct (_ || _); simplify_eq. apply fmap_Some in Hb as (m & Hm & ->). split.
    + eexists. split; [by rewrite lookup_insert_eq|]. intros k'. rewrite !kv_get_map, Hm. simpl.
      case_bool_decide as Hk; [subst; by rewrite lookup_insert_eq|by rewrite lookup_insert_ne].
    + intros n' Hn. by rewrite lookup_insert_ne.
  - intros s n k s' l Hp Hb. simplify_eq. apply fmap_Some in Hb as (m & Hm & ->). split.
    + eexists. split; [by rewrite lookup_insert_eq|]. intros k'. rewrite !kv_get_map, Hm. simpl.
      case_bool_decide as Hk; [subst; by rewrite lookup_delete_eq|by rewrite lookup_delete_ne].
    + intros n' Hn. by rewrite lookup_insert_ne.
  - intros s s' Hc n. by simplify_eq.
Qed.
End MapBolt.
