(* ===== verification/TransparencyLog.v ===== *)
(** * The transparency log

    internal/storage/transparency/tree.go and types.go: an append-only Merkle
    log persisted in BoltDB with the leaf hashes cached in memory.  The
    abstract log is a list of leaves; [represents] relates a [Tree] to it. *)
From S2P Require Import Prelude Models Bolt Sha256 MerkleHash MerkleProofs MerkleConsistency.
From stdpp Require Import base list strings gmap sorting.
From Stdlib Require Import ZArith Lia Bool.
Local Open Scope string_scope.
Local Open Scope Z_scope.

Definition BucketLeaves := "transparency.leaves".
Definition BucketNodes := "transparency.nodes".
Definition BucketSTH := "transparency.sth".
Definition BucketSTHHistory := "transparency.sth.history".
Definition LatestSTHKey := "latest".

Record Leaf := mkLeaf { Kind : string; Timestamp : gotime; Payload : bytes }.

Inductive terror :=
| ErrLeafIndexOutOfRange | ErrTreeSizeMismatch | ErrConsistencyRange | ErrNoSTHSigningKey | ErrCorruptedTree
| ErrNilDB | ErrBootstrap | ErrMarshal | ErrUnmarshal | ErrStore | ErrCommit | ErrOther (msg : string).

(** [LeafIndex] and [TreeSize] are [uint64]. *)
Definition uint64_ok (x : Z) : Prop := 0 <= x < 2 ^ 64.

Definition encodeIndex (idx : Z) : bytes := be_encode 8 idx.

Record Tree (store : Type) := mkTree { tdb : store; hashes : list RootHash }.
Arguments mkTree {store} tdb hashes.
Arguments tdb {store} t.
Arguments hashes {store} t.

Section Tree.
Context {store : Type} `{Bolt store} `{JSON Leaf}.

Fixpoint create_buckets (s : store) (names : list string) : res terror store :=
  match names with
  | [] => ROk s
  | n :: names' =>
      match CreateBucketIfNotExists s n with
      | None => RErr ErrStore
      | Some s' => create_buckets s' names'
      end
  end.

(** The [ForEach] callback of [rehydrate], entry by entry. *)
Fixpoint rehydrate_loop (l : entries) (hs : list RootHash) : res terror (list RootHash) :=
  match l with
  | [] => ROk hs
  | (_, v) :: l' =>
      match Unmarshal v with
      | None => RErr ErrCorruptedTree
      | Some leaf => rehydrate_loop l' (hs ++ [HashLeaf (Payload leaf)])
      end
  end.

Definition rehydrate (t : Tree store) : res terror (Tree store) :=
  let! l := bkt_entries (tdb t) BucketLeaves in
  let! hs := rehydrate_loop l [] in
  ROk (mkTree (tdb t) hs).

Definition Open (db : option store) : res terror (Tree store) :=
  match db with
  | None => RErr ErrNilDB
  | Some db =>
      match Update ErrCommit db (fun tx =>
              let! tx := create_buckets tx [BucketLeaves; BucketNodes; BucketSTH; BucketSTHHistory] in
              ROk (tx, tt)) with
      | (db, ROk _) => rehydrate (mkTree db [])
      | (_, RErr _) => RErr ErrBootstrap
      | (_, RPanic) => RPanic
      end
  end.

Definition Append (t : Tree store) (leaf : Leaf) : Tree store * res terror Z :=
  let idx := Z.of_nat (length (hashes t)) in
  let key := encodeIndex idx in
  match Marshal leaf with
  | None => (t, RErr ErrMarshal)
  | Some payload =>
      match Update ErrCommit (tdb t) (fun tx => let! tx := bkt_Put ErrStore tx BucketLeaves key payload in ROk (tx, tt)) with
      | (db, ROk _) => (mkTree db (hashes t ++ [HashLeaf (Payload leaf)])%list, ROk idx)
      | (db, RErr e) => (mkTree db (hashes t), RErr e)
      | (db, RPanic) => (mkTree db (hashes t), RPanic)
      end
  end.

Definition Size (t : Tree store) : Z := Z.of_nat (length (hashes t)).

Definition Root (t : Tree store) : RootHash :=
  if (length (hashes t) =? 0)%nat then EmptyRoot else MerkleTreeHash (hashes t).

Definition RootAt (t : Tree store) (size : Z) : res terror RootHash :=
  if Z.of_nat (length (hashes t)) <? size then RErr ErrTreeSizeMismatch
  else if size =? 0 then ROk EmptyRoot
  else ROk (MerkleTreeHash (take (Z.to_nat size) (hashes t))).

Definition LeafAt (t : Tree store) (idx : Z) : res terror Leaf :=
  if Z.of_nat (length (hashes t)) <=? idx then RErr ErrLeafIndexOutOfRange
  else
    let! raw := bkt_Get (tdb t) BucketLeaves (encodeIndex idx) in
    match raw with
    | None => RErr ErrLeafIndexOutOfRange
    | Some raw => match Unmarshal raw with None => RErr ErrUnmarshal | Some leaf => ROk leaf end
    end.

(** A nil proof, which the guards exclude, is the empty list. *)
Definition Tree_InclusionProof (t : Tree store) (m n : Z) : res terror AuditProof :=
  if Z.of_nat (length (hashes t)) <? n then RErr ErrTreeSizeMismatch
  else if n <=? m then RErr ErrLeafIndexOutOfRange
  else ROk (default [] (InclusionProof (Z.to_nat m) (take (Z.to_nat n) (hashes t)))).

Definition Tree_ConsistencyProof (t : Tree store) (first second : Z) : res terror AuditProof :=
  if (Z.of_nat (length (hashes t)) <? second) || (second <? first) || (first =? 0) then RErr ErrConsistencyRange
  else ROk (default [] (ConsistencyProof (Z.to_nat first) (Z.to_nat second) (take (Z.to_nat second) (hashes t)))).

(** [now] is [time.Now()] at the call. *)
Definition AppendBytes (t : Tree store) (kind payload : bytes) (timestamp now : gotime) : Tree store * res terror unit :=
  let timestamp := if time_IsZero timestamp then now else timestamp in
  let '(t, r) := Append t (mkLeaf (go_string kind) timestamp payload) in
  (t, let! _ := r in ROk tt).

(** ** The abstract log *)

(** The tree holds exactly the leaves [ls]: their hashes are cached in order,
    and the bucket maps the code of each index to its leaf and nothing else. *)
Definition represents (t : Tree store) (ls : list Leaf) : Prop :=
  Z.of_nat (length ls) < 2 ^ 63 /\
  hashes t = (fun leaf => HashLeaf (Payload leaf)) <$> ls /\
  exists l, bucket (tdb t) BucketLeaves = Some l /\
    (forall i leaf, ls !! i = Some leaf ->
       exists v, kv_get (encodeIndex (Z.of_nat i)) l = Some v /\ Unmarshal v = Some leaf) /\
    (forall k, is_Some (kv_get k l) -> exists i, (i < length ls)%nat /\ k = encodeIndex (Z.of_nat i)).

Context `{!BoltLaws store} `{!JSONLaws Leaf}.

Lemma encodeIndex_lt a b : 0 <= a < b -> b < 2 ^ 64 -> bytes_lt (encodeIndex a) (encodeIndex b).
Proof. intros. apply be_encode_lt; [done|]. change (256 ^ Z.of_nat 8) with (2 ^ 64). lia. Qed.

Lemma encodeIndex_inj a b : uint64_ok a -> uint64_ok b -> encodeIndex a = encodeIndex b -> a = b.
Proof.
  unfold uint64_ok. intros Ha Hb Heq.
  destruct (Z.lt_trichotomy a b) as [Hlt|[|Hlt]]; [exfalso|done|exfalso];
    apply (bytes_lt_irrefl (encodeIndex a)); [rewrite Heq at 2|rewrite Heq at 1]; apply encodeIndex_lt; lia.
Qed.

Lemma represents_length t ls : represents t ls -> length (hashes t) = length ls.
Proof. intros (_ & -> & _). by rewrite length_fmap. Qed.

Lemma represents_hashes t ls : represents t ls -> slice_ok (hashes t) /\ Forall hash_ok (hashes t).
Proof.
  intros (Hl & -> & _). split; [unfold slice_ok; by rewrite length_fmap|].
  apply Forall_fmap, Forall_true. intros. apply length_HashLeaf.
Qed.

(** The stored leaves in cursor order are the log in order. *)
Lemma represents_entries t ls l :
  represents t ls -> bucket (tdb t) BucketLeaves = Some l ->
  Forall2 (fun e leaf => Unmarshal e.2 = Some leaf) l ls.
Proof.
  intros (Hlen & _ & l' & Hb & Hget & Hkeys) Hb'. assert (l' = l) as -> by congruence.
  set (ks := (fun i => encodeIndex (Z.of_nat i)) <$> seq 0 (length ls)).
  assert (l.*1 = ks) as Hks.
  { eapply bucket_keys_unique; [exact Hb| |].
    - subst ks. assert (forall n a, Z.of_nat a + Z.of_nat n < 2 ^ 63 ->
        StronglySorted bytes_lt ((fun i => encodeIndex (Z.of_nat i)) <$> seq a n)) as Hs.
      { induction n as [|n IH]; intros a Ha; simpl; constructor; [apply IH; lia|].
        apply Forall_fmap, Forall_forall. intros i [Hi1 Hi2]%elem_of_seq. apply encodeIndex_lt; lia. }
      apply Hs. lia.
    - intros k. rewrite <- kv_get_keys. subst ks. rewrite list_elem_of_fmap. split.
      + intros (i & Hi & ->)%Hkeys. exists i. split; [done|]. apply elem_of_seq. lia.
      + intros (i & -> & [_ Hi]%elem_of_seq). destruct (lookup_lt_is_Some_2 ls i ltac:(lia)) as [leaf Hleaf].
        destruct (Hget i leaf Hleaf) as (v & Hv & _). by eexists. }
  assert (length l = length ls) as Hll.
  { rewrite <- (length_fmap fst l), Hks. subst ks. by rewrite length_fmap, length_seq. }
  apply Forall2_same_length_lookup_2; [done|]. intros i [k v] leaf He Hleaf.
  destruct (Hget i leaf Hleaf) as (v' & Hv' & Hu).
  assert (k = encodeIndex (Z.of_nat i)) as ->.
  { assert (l.*1 !! i = Some k) as Hk by (by rewrite list_lookup_fmap, He). rewrite Hks in Hk. subst ks.
    rewrite list_lookup_fmap, lookup_seq_lt in Hk by (apply lookup_lt_Some in Hleaf; lia). simpl in Hk. by simplify_eq. }
  rewrite (kv_get_elem _ v) in Hv'; [by simplify_eq|by eapply bucket_nodup|by eapply list_elem_of_lookup_2].
Qed.

Lemma rehydrate_loop_spec (l : entries) ls hs :
  Forall2 (fun e leaf => Unmarshal e.2 = Some leaf) l ls ->
  rehydrate_loop l hs = ROk (hs ++ ((fun leaf => HashLeaf (Payload leaf)) <$> ls))%list.
Proof.
  intros Hf. revert hs. induction Hf as [|[k v] leaf l ls Hu Hf IH]; intros hs; simpl; [by rewrite app_nil_r|].
  simpl in Hu. rewrite Hu, IH, <- app_assoc. done.
Qed.

(** ** Append *)

(** A successful write of one key. *)
Lemma put_represents t ls leaf payload db :
  represents t ls -> Z.of_nat (length ls) + 1 < 2 ^ 63 -> json_ok leaf -> Marshal leaf = Some payload ->
  (exists s, bkt_Put (E := terror) ErrStore (tdb t) BucketLeaves (encodeIndex (Z.of_nat (length ls))) payload = ROk s /\
             Commit s = Some db) ->
  represents (mkTree db (hashes t ++ [HashLeaf (Payload leaf)])%list) (ls ++ [leaf])%list.
Proof.
  intros (Hl & Hh & l & Hb & Hget & Hkeys) Hlen Hok Hm (s & Hp & Hc). unfold bkt_Put in Hp. rewrite Hb in Hp.
  destruct (Put _ _ _ _) as [s'|] eqn:Hput; simplify_eq.
  destruct (put_spec _ _ _ _ _ _ Hput Hb) as [(l' & Hb' & Hassoc) _].
  split; [rewrite length_app; simpl; lia|]. split; [simpl; by rewrite fmap_app, <- Hh|].
  exists l'. simpl. split; [by rewrite (commit_spec _ _ Hc)|]. split.
  - intros i leaf' Hi. rewrite Hassoc. apply lookup_app_Some in Hi as [Hi|[Hge Hi]].
    + rewrite bool_decide_eq_false_2; [by apply Hget|].
      pose proof (lookup_lt_Some _ _ _ Hi) as Hlt. intros Heq%encodeIndex_inj; [lia| |]; unfold uint64_ok; lia.
    + apply list_lookup_singleton_Some in Hi as [Hi <-].
      rewrite bool_decide_eq_true_2 by (f_equal; lia). exists payload. split; [done|]. by eapply json_roundtrip.
  - intros k. rewrite Hassoc, length_app. simpl. case_bool_decide as Hk.
    + intros _. exists (length ls). split; [lia|done].
    + intros (i & Hi & ->)%Hkeys. exists i. split; [lia|done].
Qed.

(** Append, step by step. *)
Lemma append_step (t t' : Tree store) ls leaf r :
  represents t ls -> Z.of_nat (length ls) + 1 < 2 ^ 63 -> json_ok leaf -> Append t leaf = (t', r) ->
  match r with
  | ROk idx => idx = Z.of_nat (length ls) /\ represents t' (ls ++ [leaf])
  | RErr _ => represents t' ls
  | RPanic => False
  end.
Proof.
  intros Hrep Hlen Hok Happ. pose proof (represents_length _ _ Hrep) as Hhl. unfold Append in Happ.
  rewrite Hhl in Happ. destruct (Marshal leaf) as [payload|] eqn:Hm; [|by simplify_eq].
  unfold Update in Happ. destruct (bkt_Put _ _ _ _ _) as [s| |] eqn:Hp; simpl in Happ.
  - destruct (Commit s) as [db|] eqn:Hc; simplify_eq; [|by destruct t].
    split; [done|]. eapply put_represents; eauto.
  - simplify_eq. by destruct t.
  - exfalso. destruct Hrep as (_ & _ & l & Hb & _). unfold bkt_Put in Hp. rewrite Hb in Hp. by destruct (Put _ _ _ _).
Qed.

(** C15: Append refines the abstract log: it never panics; on success the new
    leaf is the last of the log, in memory and on disk, and its index is the old
    size; on any error (marshalling, write, commit) the log is unchanged. *)
Theorem append_refines (t t' : Tree store) (ls : list Leaf) (leaf : Leaf) (r : res terror Z) :
  represents t ls -> Z.of_nat (length ls) + 1 < 2 ^ 63 -> json_ok leaf -> Append t leaf = (t', r) ->
  match r with
  | ROk idx => idx = Z.of_nat (length ls) /\ represents t' (ls ++ [leaf])
  | RErr _ => represents t' ls
  | RPanic => False
  end.
Proof.
  apply append_step.
Qed.

(** ** Restart *)

Lemma create_buckets_spec names : forall s s', create_buckets s names = ROk s' ->
  forall n l, bucket s n = Some l -> bucket s' n = Some l.
Proof.
  induction names as [|n' names IH]; simpl; intros s s' Hc n l Hb; [by simplify_eq|].
  destruct (CreateBucketIfNotExists s n') as [s1|] eqn:Hcr; [|done].
  apply create_spec in Hcr as [H1 H2]. eapply IH; [done|].
  destruct (decide (n = n')) as [->|Hne]; [by rewrite H1, Hb|by rewrite H2].
Qed.

Lemma reopen_log (t : Tree store) (ls : list Leaf) :
  represents t ls ->
  match Open (Some (tdb t)) with
  | ROk t' => hashes t' = hashes t /\ represents t' ls
  | RErr e => e = ErrBootstrap
  | RPanic => False
  end.
Proof.
  intros Hrep. unfold Open, Update.
  destruct (create_buckets (tdb t) _) as [s| |] eqn:Hc; simpl; [|done|].
  - destruct (Commit s) as [db|] eqn:Hcm; [|done].
    assert (represents (mkTree db (hashes t)) ls) as Hrep'.
    { destruct Hrep as (Hl & Hh & l & Hb & Hget & Hkeys). split; [done|]. split; [done|]. exists l. simpl.
      rewrite (commit_spec _ _ Hcm). split; [by eapply create_buckets_spec|done]. }
    pose proof Hrep' as (_ & Hh & l & Hb & _). simpl in *.
    unfold rehydrate, bkt_entries. simpl. rewrite Hb. simpl.
    rewrite (rehydrate_loop_spec l ls []) by (by eapply represents_entries). simpl.
    rewrite <- Hh. done.
  - exfalso. clear -Hc. revert Hc. generalize (tdb t). generalize [BucketLeaves; BucketNodes; BucketSTH; BucketSTHHistory].
    intros names. induction names as [|n names IH]; simpl; intros s Hc; [done|].
    destruct (CreateBucketIfNotExists s n); [by eapply IH|done].
Qed.

(** C33: Reopening the store gives back the same log: the cache rebuilt from the
    bucket is the one the writers kept, so sizes, roots and proofs survive a
    restart; the only possible failure is that of the bootstrap transaction. *)
Theorem reopen_same_log (t : Tree store) (ls : list Leaf) :
  represents t ls ->
  match Open (Some (tdb t)) with
  | ROk t' => hashes t' = hashes t /\ represents t' ls
  | RErr e => e = ErrBootstrap
  | RPanic => False
  end.
Proof.
  apply reopen_log.
Qed.

(** ** Roots and proofs *)

Lemma Root_represents t ls : represents t ls -> Root t = MerkleTreeHash (hashes t).
Proof. intros Hrep. unfold Root. destruct (hashes t); [done|]. done. Qed.

Lemma RootAt_take t n :
  0 <= n <= Size t -> RootAt t n = ROk (MerkleTreeHash (take (Z.to_nat n) (hashes t))).
Proof.
  unfold RootAt, Size. intros Hn. rewrite (proj2 (Z.ltb_ge _ _)) by lia.
  destruct (Z.eqb_spec n 0) as [->|]; [|done]. simpl. done.
Qed.

(** Serving an inclusion query. *)
Lemma served_inclusion (t : Tree store) (ls : list Leaf) (m n : Z) :
  represents t ls -> 0 <= m < n -> n <= Size t ->
  exists leaf proof root,
    ls !! Z.to_nat m = Some leaf /\ LeafAt t m = ROk leaf /\
    Tree_InclusionProof t m n = ROk proof /\ RootAt t n = ROk root /\
    VerifyInclusion (HashLeaf (Payload leaf)) m n proof = root.
Proof.
  intros Hrep Hm Hn. pose proof (represents_length _ _ Hrep) as Hlen.
  destruct (represents_hashes _ _ Hrep) as [Hs Hh]. pose proof Hrep as (_ & Hhs & l & Hb & Hget & _).
  unfold Size in Hn. destruct (lookup_lt_is_Some_2 ls (Z.to_nat m) ltac:(lia)) as [leaf Hleaf].
  destruct (Hget _ _ Hleaf) as (v & Hv & Hu). rewrite Z2Nat.id in Hv by lia.
  destruct (inclusion_proof_exists (take (Z.to_nat n) (hashes t)) (Z.to_nat m) (HashLeaf (Payload leaf)))
    as (proof & Hp & Hver); [auto with owasaka|by apply Forall_take| |].
  { rewrite lookup_take_lt, Hhs, list_lookup_fmap, Hleaf by lia. done. }
  exists leaf, proof, (MerkleTreeHash (take (Z.to_nat n) (hashes t))). split; [done|]. split; [|split; [|split]].
  - unfold LeafAt, bkt_Get. rewrite (proj2 (Z.leb_gt _ _)), Hb by lia. simpl. by rewrite Hv, Hu.
  - unfold Tree_InclusionProof. by rewrite (proj2 (Z.ltb_ge _ _)), (proj2 (Z.leb_gt _ _)), Hp by lia.
  - apply RootAt_take. unfold Size. lia.
  - rewrite length_take, Nat.min_l, !Z2Nat.id in Hver by lia. done.
Qed.

(** Every inclusion query in range is served: the log returns the leaf and
    an audit path that verifies from the leaf's payload to the root of the tree
    of the requested size. *)
Theorem served_inclusion_verifies (t : Tree store) (ls : list Leaf) (m n : Z) :
  represents t ls -> 0 <= m < n -> n <= Size t ->
  exists leaf proof root,
    ls !! Z.to_nat m = Some leaf /\ LeafAt t m = ROk leaf /\
    Tree_InclusionProof t m n = ROk proof /\ RootAt t n = ROk root /\
    VerifyInclusion (HashLeaf (Payload leaf)) m n proof = root.
Proof.
  apply served_inclusion.
Qed.

(** A run of appends; failed ones leave the log alone. *)
Definition append_all (t : Tree store) (leaves : list Leaf) : Tree store :=
  foldl (fun t leaf => (Append t leaf).1) t leaves.

Lemma append_all_represents leaves : forall t ls,
  represents t ls -> Forall json_ok leaves -> Z.of_nat (length ls + length leaves) < 2 ^ 63 ->
  exists ls', represents (append_all t leaves) (ls ++ ls').
Proof.
  induction leaves as [|leaf leaves IH]; intros t ls Hrep Hok Hlen; simpl in *.
  - exists []. by rewrite app_nil_r.
  - apply Forall_cons in Hok as [Hok1 Hok]. destruct (Append t leaf) as [t' r] eqn:Ha. simpl.
    assert (exists ls1, represents t' (ls ++ ls1) /\ (length ls1 <= 1)%nat) as (ls1 & Hrep1 & Hl1).
    { pose proof (append_step t t' ls leaf r Hrep ltac:(lia) Hok1 Ha) as Hr. destruct r as [idx|e|].
      - exists [leaf]. by destruct Hr.
      - exists []. rewrite app_nil_r. split; [done|simpl; lia].
      - done. }
    destruct (IH t' (ls ++ ls1)%list) as (ls2 & Hrep2); [done|done|rewrite length_app; lia|].
    exists (ls1 ++ ls2)%list. by rewrite app_assoc.
Qed.

(** C2: The log is append-only: whatever is appended later, the root at every
    earlier size stays what it was, and the served consistency proof convinces
    the verifier, from the old root, of the new one. *)
Theorem log_append_only (t : Tree store) (ls leaves : list Leaf) :
  represents t ls -> Forall json_ok leaves -> Z.of_nat (length ls + length leaves) < 2 ^ 63 ->
  let t' := append_all t leaves in
  (forall n, 0 <= n <= Size t -> RootAt t' n = RootAt t n) /\
  (0 < Size t ->
   exists proof, Tree_ConsistencyProof t' (Size t) (Size t') = ROk proof /\
     VerifyConsistency (Size t) (Size t') (Root t) proof = (Root t', true)).
Proof.
  intros Hrep Hok Hlen t'. destruct (append_all_represents leaves t ls Hrep Hok Hlen) as (ls' & Hrep').
  fold t' in Hrep'. clearbody t'. pose proof Hrep as (_ & Hh & _). pose proof Hrep' as (_ & Hh' & _).
  destruct (represents_hashes _ _ Hrep') as [Hs' Hf'].
  assert (hashes t' = (hashes t ++ ((fun leaf => HashLeaf (Payload leaf)) <$> ls'))%list) as Happ
    by (by rewrite Hh', fmap_app, <- Hh).
  assert (Size t <= Size t') as Hle by (unfold Size; rewrite Happ, length_app; lia).
  split.
  - intros n Hn. rewrite !RootAt_take by lia. rewrite Happ, take_app_le by (unfold Size in Hn; lia). done.
  - intros Hpos. unfold Size in *.
    destruct (consistency_proof_exists (hashes t') (length (hashes t)) (length (hashes t'))) as (proof & Hp & Hv);
      [done|done|lia|lia|].
    exists proof. unfold Tree_ConsistencyProof. rewrite !Z.ltb_irrefl, (proj2 (Z.ltb_ge _ _)) by lia.
    rewrite (proj2 (Z.eqb_neq _ 0)), !Nat2Z.id, (take_ge (hashes t') (length (hashes t'))), Hp by lia. split; [done|].
    rewrite (Root_represents _ _ Hrep), (Root_represents _ _ Hrep').
    rewrite (take_ge (hashes t') (length (hashes t'))) in Hv by lia. rewrite <- Hv. f_equal. rewrite Happ, take_app_length. done.
Qed.
End Tree.

(** ** A running log *)

(** A length-prefixed code of a leaf, standing for its JSON. *)
Module Demo.
Import MapBolt.
Definition enc (leaf : Leaf) : bytes :=
  (be_encode 8 (Z.of_nat (length (go_bytes (Kind leaf)))) ++ be_encode 8 (Timestamp leaf)
   ++ go_bytes (Kind leaf) ++ Payload leaf)%list.
Definition dec (b : bytes) : option Leaf :=
  let n := Z.to_nat (be_decode (take 8 b)) in
  Some (mkLeaf (go_string (slice 16 n b)) (be_decode (slice 8 8 b)) (drop (16 + n) b)).

#[export] Instance leaf_json : JSON Leaf := {
  Marshal leaf := Some (enc leaf);
  Unmarshal := dec;
  json_ok leaf := Z.of_nat (length (go_bytes (Kind leaf))) < 2 ^ 64 /\ 0 <= Timestamp leaf < 2 ^ 64;
}.

#[export] Instance leaf_json_laws : JSONLaws Leaf.
Proof.
  intros [k ts p] b [Hk Ht] Hm. injection Hm as <-. cbn [Unmarshal leaf_json]. unfold dec, enc.
  cbn [Kind Timestamp Payload] in *. cbv zeta.
  set (kb := go_bytes k) in *.
  rewrite take_app_length' by (by rewrite length_be_encode).
  rewrite be_decode_encode, Z.mod_small, Nat2Z.id by (change (256 ^ Z.of_nat 8) with (2 ^ 64); lia).
  unfold slice.
  assert (forall n (x y z : bytes), length x = 8%nat -> length y = 8%nat -> drop (16 + n) (x ++ y ++ z) = drop n z) as Hd.
  { intros n x y z Hx Hy. rewrite drop_app_ge, drop_app_ge by lia. f_equal. lia. }
  rewrite Hd by (by rewrite length_be_encode). change 16%nat with (16 + 0)%nat.
  rewrite Hd by (by rewrite length_be_encode).
  rewrite (drop_app_length' (be_encode 8 _)) by (by rewrite length_be_encode).
  rewrite (take_app_length' (be_encode 8 ts)) by (by rewrite length_be_encode).
  rewrite be_decode_encode, (Z.mod_small ts) by (change (256 ^ Z.of_nat 8) with (2 ^ 64); lia).
  rewrite drop_app_length, drop_0, take_app_length. subst kb. by rewrite go_bytes_string.
Qed.

Definition leaves : list Leaf :=
  [mkLeaf "alert.high" 10 [1; 2]; mkLeaf "key.rotation" 20 [3]; mkLeaf "backup" 30 []].
Definition tree0 : Tree MapBolt.t :=
  match Open (Some ∅) with ROk t => t | _ => mkTree ∅ [] end.
Definition tree3 : Tree MapBolt.t := append_all tree0 leaves.

Lemma tree0_represents : represents tree0 [].
Proof.
  split; [done|]. split; [done|]. exists []. split; [reflexivity|]. split; [done|].
  intros k [v Hv]. done.
Qed.

Ltac leaf_ok := vm_compute; split; [reflexivity|split; [discriminate|reflexivity]].

Lemma leaves_ok : Forall json_ok leaves.
Proof. repeat apply Forall_cons_2; [leaf_ok..|apply Forall_nil_2]. Qed.

(** Three leaves are appended. *)
Lemma tree3_represents : represents tree3 leaves.
Proof.
  assert (forall ls t leaf, represents t ls -> Z.of_nat (length ls) + 1 < 2 ^ 63 -> json_ok leaf ->
            (exists n, (Append t leaf).2 = ROk n) -> represents (Append t leaf).1 (ls ++ [leaf])) as Hstep.
  { intros ls t leaf Hr Hl Hok [n Hn]. destruct (Append t leaf) as [t' r] eqn:Ha. simpl in *. subst r.
    by destruct (append_step t t' ls leaf _ Hr Hl Hok Ha). }
  unfold tree3, append_all. cbn [leaves foldl].
  apply (Hstep [_; _]); [apply (Hstep [_]); [apply (Hstep [])|..]|..];
    [apply tree0_represents|done|leaf_ok|by eexists; vm_compute|done|leaf_ok
    |by eexists; vm_compute|done|leaf_ok|by eexists; vm_compute].
Qed.

Lemma append_refines_witness :
  represents (append_all tree0 (take 1 leaves)) [mkLeaf "alert.high" 10 [1; 2]].
Proof.
  destruct (Append tree0 (mkLeaf "alert.high" 10 [1; 2])) as [t' r] eqn:Ha.
  pose proof (append_refines tree0 t' [] (mkLeaf "alert.high" 10 [1; 2]) r tree0_represents eq_refl
                ltac:(leaf_ok) Ha) as Hr.
  assert (r = ROk 0) as -> by (transitivity (Append tree0 (mkLeaf "alert.high" 10 [1; 2])).2;
    [by rewrite Ha|vm_compute; reflexivity]).
  destruct Hr as [_ Hr]. unfold append_all. cbn [take leaves foldl]. rewrite Ha. exact Hr.
Defined.

Lemma reopen_same_log_witness :
  match Open (Some (tdb tree3)) with
  | ROk t' => hashes t' = hashes tree3 /\ represents t' leaves
  | RErr e => e = ErrBootstrap
  | RPanic => False
  end.
Proof. apply (reopen_same_log tree3 leaves). apply tree3_represents. Defined.

Lemma served_inclusion_verifies_witness :
  exists leaf proof root,
    leaves !! 1%nat = Some leaf /\ LeafAt tree3 1 = ROk leaf /\
    Tree_InclusionProof tree3 1 3 = ROk proof /\ RootAt tree3 3 = ROk root /\
    VerifyInclusion (HashLeaf (Payload leaf)) 1 3 proof = root.
Proof.
  apply (served_inclusion_verifies tree3 leaves 1 3); [apply tree3_represents|lia|vm_compute; discriminate].
Defined.

Lemma log_append_only_witness :
  (forall n, 0 <= n <= Size tree3 -> RootAt (append_all tree3 leaves) n = RootAt tree3 n) /\
  (0 < Size tree3 ->
   exists proof, Tree_ConsistencyProof (append_all tree3 leaves) (Size tree3) (Size (append_all tree3 leaves)) = ROk proof /\
     VerifyConsistency (Size tree3) (Size (append_all tree3 leaves)) (Root tree3) proof
     = (Root (append_all tree3 leaves), true)).
Proof.
  apply (log_append_only tree3 leaves leaves); [apply tree3_represents|apply leaves_ok|reflexivity].
Defined.
End Demo.
