(* ===== verification/Pki.v ===== *)
(** * Key management

    internal/storage/pki: types.go (key pairs and their life cycle),
    keystore.go (the [KeyStore] interface and its in-memory implementation) and
    authority.go.  [Authority]'s operations are proved against the laws of the
    [KeyStore] interface, which [MemoryKeyStore] satisfies for every iteration
    order of Go's maps.  Ed25519 is an interface with its correctness law. *)
From S2P Require Import Prelude Models Sha256.
From stdpp Require Import base list strings gmap.
From Stdlib Require Import ZArith Lia Bool Ascii.
Local Open Scope string_scope.
Local Open Scope Z_scope.

(** ** Types *)

Abbreviation Purpose := string (only parsing).
Definition PurposeCA : Purpose := "ca".
Definition PurposeJWTSigning : Purpose := "jwt-signing".
Definition PurposeServiceCert : Purpose := "service-cert".
Definition PurposeEventSigning : Purpose := "event-signing".
Definition PurposeTransparencyLogSTH : Purpose := "transparency-sth".

Inductive KeyStatus := StatusKeyActive | StatusKeyRotating | StatusKeyRetired.

#[export] Instance KeyStatus_eq_dec : EqDecision KeyStatus.
Proof. solve_decision. Defined.

Record KeyPair := mkKeyPair {
  kp_ID : string;
  kp_Purpose : Purpose;
  kp_Public : bytes;
  kp_Private : bytes;
  kp_Status : KeyStatus;
  kp_CreatedAt : gotime;
  kp_NotBefore : gotime;
  kp_NotAfter : gotime;
}.

Definition set_Status (k : KeyPair) (s : KeyStatus) : KeyPair :=
  mkKeyPair (kp_ID k) (kp_Purpose k) (kp_Public k) (kp_Private k) s (kp_CreatedAt k) (kp_NotBefore k) (kp_NotAfter k).

(** The receiver may be nil. *)
Definition IsUsable (k : option KeyPair) (at_ : gotime) : bool :=
  match k with
  | None => false
  | Some k =>
      if negb (bool_decide (kp_Status k = StatusKeyActive)) then false
      else if (at_ <? kp_NotBefore k) || (kp_NotAfter k <? at_) then false
      else true
  end.

Definition IsVerifyable (k : option KeyPair) (at_ : gotime) : bool :=
  match k with
  | None => false
  | Some k => if bool_decide (kp_Status k = StatusKeyRetired) then false else negb (kp_NotAfter k <? at_)
  end.

Inductive perror :=
| ErrKeyNotFound | ErrNoActiveKey | ErrKeyExpired | ErrInvalidPurpose | ErrAuthorityNoRoot
| ErrGenerate | ErrStoreSave.

#[export] Instance perror_eq_dec : EqDecision perror.
Proof. solve_decision. Defined.

(** ** Ed25519 *)

(** crypto/ed25519: key generation from entropy, signing and verification. *)
Class Ed25519 := {
  GenerateKey : bytes -> option (bytes * bytes);
  Sign : bytes -> bytes -> bytes;
  Verify : bytes -> bytes -> bytes -> bool;
}.
Class Ed25519Laws `{Ed25519} := {
  ed_correct : forall entropy pub priv msg, GenerateKey entropy = Some (pub, priv) -> Verify pub msg (Sign priv msg) = true;
  ed_nonempty : forall priv msg, Sign priv msg <> [];
}.

(** A key pair that [GenerateKey] produced. *)
Definition genuine `{Ed25519} (k : KeyPair) : Prop :=
  exists entropy, GenerateKey entropy = Some (kp_Public k, kp_Private k).

(** ** The KeyStore interface *)

Class KeyStore (S : Type) := {
  ks_Get : S -> string -> res perror KeyPair;
  ks_FindByPurpose : S -> Purpose -> res perror (list KeyPair);
  ks_ActiveByPurpose : S -> Purpose -> res perror KeyPair;
  ks_Save : S -> KeyPair -> S * res perror unit;
  ks_UpdateStatus : S -> string -> KeyStatus -> S * res perror unit;
}.

(** Its contract, over the map from key ids to keys that a store holds. *)
Class KeyStoreLaws (S : Type) `{KeyStore S} := {
  ks_keys : S -> gmap string KeyPair;
  ks_Get_spec : forall s id, ks_Get s id = match ks_keys s !! id with Some k => ROk k | None => RErr ErrKeyNotFound end;
  ks_Find_spec : forall s p, exists l, ks_FindByPurpose s p = ROk l /\
    forall k, k ∈ l <-> kp_Purpose k = p /\ exists id, ks_keys s !! id = Some k;
  ks_Active_spec : forall s p,
    match ks_ActiveByPurpose s p with
    | ROk k => kp_Purpose k = p /\ kp_Status k = StatusKeyActive /\ exists id, ks_keys s !! id = Some k
    | RErr e => e = ErrNoActiveKey /\
        forall id k, ks_keys s !! id = Some k -> kp_Purpose k = p -> kp_Status k <> StatusKeyActive
    | RPanic => False
    end;
  ks_Save_spec : forall s k, kp_ID k <> "" ->
    (ks_Save s k).2 = ROk tt /\ ks_keys (ks_Save s k).1 = <[kp_ID k := k]> (ks_keys s);
  ks_Update_spec : forall s id st k, ks_keys s !! id = Some k ->
    (ks_UpdateStatus s id st).2 = ROk tt /\ ks_keys (ks_UpdateStatus s id st).1 = <[id := set_Status k st]> (ks_keys s);
  ks_Update_missing : forall s id st, ks_keys s !! id = None -> ks_UpdateStatus s id st = (s, RErr ErrKeyNotFound);
}.

(** ** MemoryKeyStore *)

(** The map of pointers; a key is mutated in place by [UpdateStatus].
    [range_keys] is the order in which Go ranges over the map, any permutation
    of its entries. *)
Module MemoryKeyStore.
Record t := mk { keys : gmap string KeyPair }.

Definition NewMemoryKeyStore : t := mk ∅.

Section Ops.
Context (range_keys : gmap string KeyPair -> list KeyPair).

Definition Get (s : t) (id : string) : res perror KeyPair :=
  match keys s !! id with Some kp => ROk kp | None => RErr ErrKeyNotFound end.

Definition FindByPurpose (s : t) (purpose : Purpose) : res perror (list KeyPair) :=
  ROk (filter (fun kp => kp_Purpose kp = purpose) (range_keys (keys s))).

Fixpoint first_active (l : list KeyPair) (purpose : Purpose) : res perror KeyPair :=
  match l with
  | [] => RErr ErrNoActiveKey
  | kp :: l' =>
      if bool_decide (kp_Purpose kp = purpose) && bool_decide (kp_Status kp = StatusKeyActive) then ROk kp
      else first_active l' purpose
  end.
Definition ActiveByPurpose (s : t) (purpose : Purpose) : res perror KeyPair :=
  first_active (range_keys (keys s)) purpose.

Definition Save (s : t) (kp : KeyPair) : t * res perror unit :=
  if bool_decide (kp_ID kp = "") then (s, RErr ErrKeyNotFound)
  else (mk (<[kp_ID kp := kp]> (keys s)), ROk tt).

Definition UpdateStatus (s : t) (id : string) (status : KeyStatus) : t * res perror unit :=
  match keys s !! id with
  | None => (s, RErr ErrKeyNotFound)
  | Some kp => (mk (<[id := set_Status kp status]> (keys s)), ROk tt)
  end.

Definition ops : KeyStore t := {|
  ks_Get := Get; ks_FindByPurpose := FindByPurpose; ks_ActiveByPurpose := ActiveByPurpose;
  ks_Save := Save; ks_UpdateStatus := UpdateStatus |}.

Context (range_perm : forall m, range_keys m ≡ₚ (map_to_list m).*2).

Lemma range_elem m k : k ∈ range_keys m <-> exists id, m !! id = Some k.
Proof.
  rewrite (range_perm m), list_elem_of_fmap. split.
  - intros ([id k'] & -> & Hin%elem_of_map_to_list). eauto.
  - intros [id Hid]. exists (id, k). split; [done|]. by apply elem_of_map_to_list.
Qed.

Lemma first_active_spec l purpose :
  match first_active l purpose with
  | ROk k => kp_Purpose k = purpose /\ kp_Status k = StatusKeyActive /\ k ∈ l
  | RErr e => e = ErrNoActiveKey /\ forall k, k ∈ l -> kp_Purpose k = purpose -> kp_Status k <> StatusKeyActive
  | RPanic => False
  end.
Proof.
  induction l as [|kp l IH]; simpl; [split; [done|by intros k ?%elem_of_nil]|].
  destruct (bool_decide_reflect (kp_Purpose kp = purpose)) as [Hp|Hp];
    destruct (bool_decide_reflect (kp_Status kp = StatusKeyActive)) as [Hs|Hs]; simpl;
    [split; [done|]; split; [done|constructor]|..];
    (destruct (first_active l purpose) as [k|e|]; [|destruct IH as [-> IH]|done];
     [destruct IH as (? & ? & ?); split; [done|]; split; [done|by constructor]
     |split; [done|]; intros k [->|Hk]%elem_of_cons; naive_solver]).
Qed.

#[export] Instance laws : @KeyStoreLaws t ops.
Proof.
  unshelve econstructor; [exact keys|..]; simpl.
  - done.
  - intros s p. eexists. split; [done|]. intros k. rewrite list_elem_of_filter, range_elem. done.
  - intros s p. unfold ActiveByPurpose. pose proof (first_active_spec (range_keys (keys s)) p) as Hf.
    destruct (first_active _ _) as [k|e|]; [by rewrite range_elem in Hf| |done].
    destruct Hf as [-> Hf]. split; [done|]. intros id k Hk. apply Hf, range_elem. eauto.
  - intros s k Hk. unfold Save. by rewrite bool_decide_eq_false_2.
  - intros s id st k Hk. unfold UpdateStatus. by rewrite Hk.
  - intros s id st Hk. unfold UpdateStatus. by rewrite Hk.
Defined.
End Ops.
End MemoryKeyStore.

(** ** Authority *)

(** [strings.Join] of the two-character chunks with colons. *)
Fixpoint colon_pairs (s : string) : string :=
  match s with
  | String a (String b EmptyString) => String a (String b EmptyString)
  | String a (String b s') => String a (String b (String ":"%char (colon_pairs s')))
  | _ => s
  end.
Definition Fingerprint (pub : bytes) : string := colon_pairs (hex_EncodeToString (sha256 pub)).

Section Authority.
Context {S : Type} `{KeyStore S} `{Ed25519}.

(** [entropy] is what [a.random] yields, [id] what [uuid.NewString] returns,
    [now] what [a.clock] reads. *)
Definition GenerateKeyPair (s : S) (purpose : Purpose) (ttl : Z) (entropy : bytes) (id : string) (now : gotime)
  : S * res perror KeyPair :=
  if bool_decide (purpose = "") then (s, RErr ErrInvalidPurpose)
  else
    match GenerateKey entropy with
    | None => (s, RErr ErrGenerate)
    | Some (pub, priv) =>
        let kp := mkKeyPair id purpose pub priv StatusKeyActive now now (now + ttl) in
        match ks_Save s kp with
        | (s, ROk _) => (s, ROk kp)
        | (s, RErr e) => (s, RErr e)
        | (s, RPanic) => (s, RPanic)
        end
    end.

Definition ActiveKey (s : S) (purpose : Purpose) : res perror KeyPair := ks_ActiveByPurpose s purpose.
Definition GetKey (s : S) (id : string) : res perror KeyPair := ks_Get s id.
Definition KeysForPurpose (s : S) (purpose : Purpose) : res perror (list KeyPair) := ks_FindByPurpose s purpose.

Definition Rotate (s : S) (purpose : Purpose) (newTTL : Z) (entropy : bytes) (id : string) (now : gotime)
  : S * res perror KeyPair :=
  match ks_ActiveByPurpose s purpose with
  | ROk current =>
      match ks_UpdateStatus s (kp_ID current) StatusKeyRotating with
      | (s, ROk _) => GenerateKeyPair s purpose newTTL entropy id now
      | (s, RErr e) => (s, RErr e)
      | (s, RPanic) => (s, RPanic)
      end
  | RErr e =>
      if bool_decide (e = ErrNoActiveKey) then GenerateKeyPair s purpose newTTL entropy id now
      else (s, RErr e)
  | RPanic => (s, RPanic)
  end.

Definition Retire (s : S) (id : string) : S * res perror unit := ks_UpdateStatus s id StatusKeyRetired.

Definition EnsureRootCA (s : S) (ttl : Z) (entropy : bytes) (id : string) (now : gotime) : S * res perror KeyPair :=
  match ks_ActiveByPurpose s PurposeCA with
  | ROk kp => (s, ROk kp)
  | RErr e =>
      if negb (bool_decide (e = ErrNoActiveKey)) then (s, RErr e)
      else GenerateKeyPair s PurposeCA ttl entropy id now
  | RPanic => (s, RPanic)
  end.

Definition RootFingerprint (s : S) : res perror string :=
  match ks_ActiveByPurpose s PurposeCA with
  | ROk kp => ROk (Fingerprint (kp_Public kp))
  | RErr e => if bool_decide (e = ErrNoActiveKey) then RErr ErrAuthorityNoRoot else RErr e
  | RPanic => RPanic
  end.

(** ** Well-formed key sets *)

Context `{!KeyStoreLaws S}.

(** Keys are stored under their ids, and a purpose has at most one active key. *)
Record keys_wf (m : gmap string KeyPair) : Prop := {
  wf_ids : forall id k, m !! id = Some k -> kp_ID k = id;
  wf_single : forall id1 id2 k1 k2, m !! id1 = Some k1 -> m !! id2 = Some k2 ->
    kp_Purpose k1 = kp_Purpose k2 -> kp_Status k1 = StatusKeyActive -> kp_Status k2 = StatusKeyActive -> id1 = id2;
}.

(** The effect of a rotation on the keys already there. *)
Definition demote (purpose : Purpose) (k : KeyPair) : KeyPair :=
  if bool_decide (kp_Purpose k = purpose /\ kp_Status k = StatusKeyActive) then set_Status k StatusKeyRotating else k.

Lemma demote_active (m : gmap string KeyPair) purpose k :
  keys_wf m -> m !! kp_ID k = Some k -> kp_Purpose k = purpose -> kp_Status k = StatusKeyActive ->
  <[kp_ID k := set_Status k StatusKeyRotating]> m = demote purpose <$> m.
Proof.
  intros Hwf Hk Hp Hs. apply map_eq. intros id. rewrite lookup_fmap.
  destruct (decide (id = kp_ID k)) as [->|Hne].
  - rewrite lookup_insert_eq, Hk. simpl. unfold demote. by rewrite bool_decide_eq_true_2.
  - rewrite lookup_insert_ne by done. destruct (m !! id) as [k'|] eqn:Hk'; [|done]. simpl. f_equal.
    unfold demote. rewrite bool_decide_eq_false_2; [done|]. intros [Hp' Hs']. apply Hne.
    eapply (wf_single m Hwf); [exact Hk'|exact Hk|congruence..].
Qed.

Lemma demote_none (m : gmap string KeyPair) purpose :
  (forall id k, m !! id = Some k -> kp_Purpose k = purpose -> kp_Status k <> StatusKeyActive) -> demote purpose <$> m = m.
Proof.
  intros Hn. apply map_eq. intros id. rewrite lookup_fmap. destruct (m !! id) as [k|] eqn:Hk; [|done]. simpl. f_equal.
  unfold demote. rewrite bool_decide_eq_false_2; [done|]. intros [Hp Hs]. by eapply Hn.
Qed.

Lemma demote_status purpose k : kp_Status (demote purpose k) = StatusKeyActive -> kp_Purpose (demote purpose k) <> purpose.
Proof. unfold demote. case_bool_decide as Hd; simpl; [done|]. naive_solver. Qed.

Lemma demote_same purpose k : kp_ID (demote purpose k) = kp_ID k /\ kp_Purpose (demote purpose k) = kp_Purpose k.
Proof. unfold demote. by case_bool_decide. Qed.

Lemma demote_active_inv purpose k : kp_Status (demote purpose k) = StatusKeyActive -> demote purpose k = k.
Proof. unfold demote. by case_bool_decide. Qed.

(** A new active key over a demoted key set keeps it well formed. *)
Lemma rotate_wf (m : gmap string KeyPair) purpose k :
  keys_wf m -> kp_Purpose k = purpose -> keys_wf (<[kp_ID k := k]> (demote purpose <$> m)).
Proof.
  intros [Hids Hsingle] Hp. split.
  - intros id k'. rewrite lookup_insert_Some, lookup_fmap, fmap_Some. intros [[<- <-]|[_ (k0 & Hk0 & ->)]]; [done|].
    rewrite (proj1 (demote_same _ _)). by apply Hids.
  - intros id1 id2 k1 k2. rewrite !lookup_insert_Some, !lookup_fmap, !fmap_Some.
    intros [[<- <-]|[Hn1 (k01 & Hk1 & ->)]] [[<- <-]|[Hn2 (k02 & Hk2 & ->)]] Hpp Hs1 Hs2; [done|exfalso|exfalso|].
    + apply demote_status in Hs2. congruence.
    + apply demote_status in Hs1. congruence.
    + pose proof (demote_active_inv _ _ Hs1) as E1. pose proof (demote_active_inv _ _ Hs2) as E2.
      rewrite E1 in Hpp, Hs1. rewrite E2 in Hpp, Hs2. by eapply (Hsingle id1 id2 k01 k02).
Qed.

(** With a well-formed key set the active key does not depend on the store's
    iteration order. *)
Lemma active_unique s purpose id k :
  keys_wf (ks_keys s) -> ks_keys s !! id = Some k -> kp_Purpose k = purpose -> kp_Status k = StatusKeyActive ->
  ActiveKey s purpose = ROk k.
Proof.
  intros Hwf Hk Hp Hs. unfold ActiveKey. pose proof (ks_Active_spec s purpose) as Ha.
  destruct (ks_ActiveByPurpose s purpose) as [k'|e|].
  - destruct Ha as (Hp' & Hs' & id' & Hk'). assert (id' = id) as -> by (eapply (wf_single _ Hwf); eauto; congruence).
    f_equal. congruence.
  - destruct Ha as [_ Ha]. exfalso. by eapply Ha.
  - done.
Qed.

(** The status updates that precede the generation of the new key. *)
Lemma rotate_demotes s purpose newTTL entropy id now :
  keys_wf (ks_keys s) ->
  exists s1, ks_keys s1 = demote purpose <$> ks_keys s /\
    Rotate s purpose newTTL entropy id now = GenerateKeyPair s1 purpose newTTL entropy id now.
Proof.
  intros Hwf. unfold Rotate. pose proof (ks_Active_spec s purpose) as Ha.
  destruct (ks_ActiveByPurpose s purpose) as [k|e|]; [| |done].
  - destruct Ha as (Hp & Hs & id' & Hk'). rewrite <- (wf_ids _ Hwf _ _ Hk') in Hk'.
    destruct (ks_Update_spec s _ StatusKeyRotating k Hk') as [Hr Hkeys].
    destruct (ks_UpdateStatus s (kp_ID k) StatusKeyRotating) as [s1 r]. simpl in *. subst r.
    exists s1. rewrite Hkeys. split; [by apply demote_active|done].
  - destruct Ha as [-> Hnone]. exists s. rewrite demote_none by done. by rewrite bool_decide_eq_true_2.
Qed.

Lemma rotate_keys (s : S) (purpose : Purpose) (newTTL : Z) (entropy pub priv : bytes) (id : string) (now : gotime) :
  keys_wf (ks_keys s) -> purpose <> "" -> id <> "" -> GenerateKey entropy = Some (pub, priv) ->
  let kp := mkKeyPair id purpose pub priv StatusKeyActive now now (now + newTTL) in
  let r := Rotate s purpose newTTL entropy id now in
  ks_keys r.1 = <[id := kp]> (demote purpose <$> ks_keys s) /\ r.2 = ROk kp.
Proof.
  intros Hwf Hp Hid Hgen kp r. destruct (rotate_demotes s purpose newTTL entropy id now Hwf) as (s1 & Hs1 & Hrot).
  subst r. rewrite Hrot. unfold GenerateKeyPair. rewrite bool_decide_eq_false_2, Hgen by done.
  fold kp. destruct (ks_Save_spec s1 kp Hid) as [Hr Hk]. rewrite <- Hs1.
  change (<[id := kp]> (ks_keys s1)) with (<[kp_ID kp := kp]> (ks_keys s1)). rewrite <- Hk.
  destruct (ks_Save s1 kp) as [s2 r2]. simpl in *. by subst r2.
Qed.

(** Key rotation: from a well-formed key set, [Rotate] stores a fresh active
    key for the purpose, moves the previous active key to rotating and touches
    nothing else; the set stays well formed and the new key is the one every
    later [ActiveKey] returns, whatever order the store iterates in. *)
Theorem rotate_spec (s : S) (purpose : Purpose) (newTTL : Z) (entropy pub priv : bytes) (id : string) (now : gotime) :
  keys_wf (ks_keys s) -> purpose <> "" -> id <> "" -> GenerateKey entropy = Some (pub, priv) ->
  let kp := mkKeyPair id purpose pub priv StatusKeyActive now now (now + newTTL) in
  let r := Rotate s purpose newTTL entropy id now in
  r.2 = ROk kp /\ ks_keys r.1 = <[id := kp]> (demote purpose <$> ks_keys s) /\
  keys_wf (ks_keys r.1) /\ ActiveKey r.1 purpose = ROk kp.
Proof.
  intros Hwf Hp Hid Hgen kp r.
  destruct (rotate_keys s purpose newTTL entropy pub priv id now Hwf Hp Hid Hgen) as [Hkeys Hr]. fold kp r in Hkeys, Hr.
  assert (keys_wf (ks_keys r.1)) as Hwf' by (rewrite Hkeys; by apply (rotate_wf _ purpose kp)).
  split; [done|]. split; [done|]. split; [done|].
  eapply (active_unique _ _ id); [done|by rewrite Hkeys, lookup_insert_eq|done..].
Qed.

(** A rotation whose key generation fails is not atomic: it reports the
    error after the previous key was demoted, so the purpose is left without an
    active key and signing stops until a later rotation succeeds. *)
Theorem rotate_failure_leaves_no_active (s : S) (purpose : Purpose) (newTTL : Z) (entropy : bytes) (id : string) (now : gotime) :
  keys_wf (ks_keys s) -> purpose <> "" -> GenerateKey entropy = None ->
  let r := Rotate s purpose newTTL entropy id now in
  r.2 = RErr ErrGenerate /\ ActiveKey r.1 purpose = RErr ErrNoActiveKey.
Proof.
  intros Hwf Hp Hgen r. destruct (rotate_demotes s purpose newTTL entropy id now Hwf) as (s1 & Hs1 & Hrot).
  subst r. rewrite Hrot. unfold GenerateKeyPair. rewrite bool_decide_eq_false_2, Hgen by done. simpl.
  split; [done|]. unfold ActiveKey. pose proof (ks_Active_spec s1 purpose) as Ha.
  destruct (ks_ActiveByPurpose s1 purpose) as [k|e|]; [exfalso|by destruct Ha as [-> _]|done].
  destruct Ha as (Hp' & Hs' & id' & Hk'). rewrite Hs1, lookup_fmap, fmap_Some in Hk'.
  destruct Hk' as (k0 & _ & ->). by apply demote_status in Hs'.
Qed.
End Authority.

(** ** A running authority *)

Module PkiDemo.
(** A toy signature scheme that satisfies the laws: the key is the entropy and
    a signature is the key followed by the message. *)
#[export] Instance toy : Ed25519 := {
  GenerateKey entropy := match entropy with [] => None | _ => Some (entropy, entropy) end;
  Sign priv msg := 0 :: priv ++ msg;
  Verify pub msg sig := bool_decide (sig = 0 :: pub ++ msg);
}.
#[export] Instance toy_laws : Ed25519Laws.
Proof.
  split; [|done]. intros entropy pub priv msg Hg. simpl in *. destruct entropy; simplify_eq.
  by apply bool_decide_eq_true_2.
Qed.

Definition range_keys (m : gmap string KeyPair) : list KeyPair := (map_to_list m).*2.
#[export] Instance mem : KeyStore MemoryKeyStore.t := MemoryKeyStore.ops range_keys.
#[export] Instance mem_laws : KeyStoreLaws MemoryKeyStore.t := MemoryKeyStore.laws range_keys (fun m => reflexivity _).

Definition key1 : KeyPair := mkKeyPair "k1" PurposeEventSigning [7] [7] StatusKeyActive 100 100 200.
Definition store1 : MemoryKeyStore.t := MemoryKeyStore.mk {[ "k1" := key1 ]}.

Lemma store1_wf : keys_wf (ks_keys store1).
Proof.
  change (ks_keys store1) with ({[ "k1" := key1 ]} : gmap string KeyPair). split.
  - intros id k [<- <-]%lookup_singleton_Some. done.
  - intros id1 id2 k1 k2 [<- <-]%lookup_singleton_Some [<- <-]%lookup_singleton_Some. done.
Qed.

Lemma rotate_spec_witness :
  let kp := mkKeyPair "k2" PurposeEventSigning [9] [9] StatusKeyActive 150 150 250 in
  let r := Rotate store1 PurposeEventSigning 100 [9] "k2" 150 in
  r.2 = ROk kp /\ ks_keys r.1 = <["k2" := kp]> (demote PurposeEventSigning <$> ks_keys store1) /\
  keys_wf (ks_keys r.1) /\ ActiveKey r.1 PurposeEventSigning = ROk kp.
Proof.
  apply (rotate_spec store1 PurposeEventSigning 100 [9] [9] [9] "k2" 150); [apply store1_wf|done|done|done].
Defined.

Lemma rotate_failure_leaves_no_active_witness :
  let r := Rotate store1 PurposeEventSigning 100 [] "k2" 150 in
  r.2 = RErr ErrGenerate /\ ActiveKey r.1 PurposeEventSigning = RErr ErrNoActiveKey.
Proof.
  apply (rotate_failure_leaves_no_active store1 PurposeEventSigning 100 [] "k2" 150); [apply store1_wf|done|done].
Defined.
End PkiDemo.
