(* ===== verification/EventSigning.v ===== *)
(** * Event provenance

    internal/events/signer.go and verifier.go: every event is signed with the
    active event-signing key over its canonical bytes, and verified against the
    key its [SignerKeyID] names. *)
From S2P Require Import Prelude Models Pki.
From stdpp Require Import base list strings gmap.
From Stdlib Require Import ZArith Lia Bool.
Local Open Scope string_scope.
Local Open Scope Z_scope.

Inductive sigerror :=
| ErrNilEvent | ErrSignerNoActiveKey | ErrSignatureMissing | ErrSignatureInvalid | ErrSignerKeyUnknown
| ErrSignerKeyRetired | ErrLookupKey (e : perror) | ErrCanonicalBytes.

Definition set_signature (e : NetworkEvent) (sig : bytes) (kid : string) : NetworkEvent :=
  mkNetworkEvent (ne_ID e) (ne_Type e) (ne_Source e) (ne_Destination e) (ne_Metadata e) (ne_Timestamp e) sig kid.

(** [SignerErrorIs]: the category of a sentinel error. *)
Definition SignerErrorIs (err : sigerror) : option string :=
  match err with
  | ErrSignatureMissing => Some "missing"
  | ErrSignatureInvalid => Some "invalid"
  | ErrSignerKeyUnknown => Some "unknown_key"
  | ErrSignerKeyRetired => Some "retired_key"
  | ErrSignerNoActiveKey => Some "no_active_key"
  | _ => None
  end.

Section Signing.
Context {S : Type} `{KeyStore S} `{Ed25519} `{JSON NetworkEvent}.

(** [Sign] mutates the event it is given; the event and the error returned. *)
Definition Signer_Sign (s : S) (e : option NetworkEvent) : option NetworkEvent * option sigerror :=
  match e with
  | None => (None, Some ErrNilEvent)
  | Some e =>
      match ActiveKey s PurposeEventSigning with
      | RErr err =>
          (Some e, Some (if bool_decide (err = ErrNoActiveKey) then ErrSignerNoActiveKey else ErrLookupKey err))
      | RPanic => (Some e, None)
      | ROk kp =>
          let e := set_signature e [] "" in
          match CanonicalBytes Marshal e with
          | None => (Some e, Some ErrCanonicalBytes)
          | Some canonical => (Some (set_signature e (Sign (kp_Private kp) canonical) (kp_ID kp)), None)
          end
      end
  end.

(** [None] is a nil error: the event verifies. *)
Definition Verifier_Verify (s : S) (now : gotime) (e : NetworkEvent) : option sigerror :=
  if negb (IsSigned e) then Some ErrSignatureMissing
  else
    match GetKey s (ne_SignerKeyID e) with
    | RErr err => Some (if bool_decide (err = ErrKeyNotFound) then ErrSignerKeyUnknown else ErrLookupKey err)
    | RPanic => Some ErrSignerKeyUnknown
    | ROk kp =>
        if negb (IsVerifyable (Some kp) now) then Some ErrSignerKeyRetired
        else if negb (bool_decide (kp_Purpose kp = PurposeEventSigning)) then Some ErrSignerKeyUnknown
        else
          match CanonicalBytes Marshal e with
          | None => Some ErrCanonicalBytes
          | Some canonical =>
              if negb (Verify (kp_Public kp) canonical (ne_Signature e)) then Some ErrSignatureInvalid
              else None
          end
    end.

Context `{!KeyStoreLaws S} `{!Ed25519Laws}.

(** The signature fields are not part of what is signed. *)
Lemma canonical_set_signature e sig kid :
  CanonicalBytes Marshal (set_signature e sig kid) = CanonicalBytes Marshal e.
Proof. done. Qed.

(** A rejecting branch contradicts the conditions for acceptance. *)
Ltac reject := split; [done|intros (_ & ? & ? & ? & ? & ? & ? & ? & ?); simplify_eq; first [done|lia|congruence]].

(** The verifier accepts exactly the signed events whose key is known, not
    retired and not expired, is an event-signing key, and validates the
    signature over the canonical bytes; no other event passes. *)
Theorem verify_accepts_iff (s : S) (now : gotime) (e : NetworkEvent) :
  Verifier_Verify s now e = None <->
  IsSigned e = true /\
  exists kp canonical, ks_keys s !! ne_SignerKeyID e = Some kp /\
    kp_Status kp <> StatusKeyRetired /\ now <= kp_NotAfter kp /\ kp_Purpose kp = PurposeEventSigning /\
    CanonicalBytes Marshal e = Some canonical /\ Verify (kp_Public kp) canonical (ne_Signature e) = true.
Proof.
  unfold Verifier_Verify, GetKey, IsVerifyable. destruct (IsSigned e); simpl; [|by split; [|intros []]].
  rewrite ks_Get_spec. destruct (ks_keys s !! ne_SignerKeyID e) as [kp|]; [|reject].
  destruct (bool_decide_reflect (kp_Status kp = StatusKeyRetired)); simpl; [reject|].
  destruct (Z.ltb_spec (kp_NotAfter kp) now); simpl; [reject|].
  destruct (bool_decide_reflect (kp_Purpose kp = PurposeEventSigning)); simpl; [|reject].
  destruct (CanonicalBytes Marshal e) as [c|]; [|reject].
  destruct (Verify (kp_Public kp) c (ne_Signature e)) eqn:Hv; simpl; [|reject].
  split; [|done]. intros _. split; [done|]. by exists kp, c.
Qed.

Lemma verify_accepts_inv s now e : Verifier_Verify s now e = None -> IsSigned e = true.
Proof. unfold Verifier_Verify. by destruct (IsSigned e). Qed.

(** What a successful signature looks like. *)
Lemma sign_inv s e e' :
  Signer_Sign s (Some e) = (Some e', None) -> (ActiveKey s PurposeEventSigning <> RPanic) ->
  exists kp canonical, ActiveKey s PurposeEventSigning = ROk kp /\ CanonicalBytes Marshal e = Some canonical /\
    e' = set_signature e (Sign (kp_Private kp) canonical) (kp_ID kp).
Proof.
  unfold Signer_Sign. intros Hs Hp. destruct (ActiveKey s PurposeEventSigning) as [kp|err|] eqn:Ha; [|done|done].
  rewrite canonical_set_signature in Hs. destruct (CanonicalBytes Marshal e) as [c|] eqn:Hc; simplify_eq.
  by exists kp, c.
Qed.

(** A signed event verifies in any later store that still has the signer's key
    unexpired and not retired. *)
Lemma signed_verifies s s' e e' kp kp' now :
  keys_wf (ks_keys s) -> ActiveKey s PurposeEventSigning = ROk kp -> genuine kp -> kp_ID kp <> "" ->
  Signer_Sign s (Some e) = (Some e', None) ->
  ks_keys s' !! kp_ID kp = Some kp' -> kp_Public kp' = kp_Public kp -> kp_Purpose kp' = PurposeEventSigning ->
  kp_Status kp' <> StatusKeyRetired -> now <= kp_NotAfter kp' ->
  ne_SignerKeyID e' = kp_ID kp /\ Verifier_Verify s' now e' = None.
Proof.
  intros Hwf Ha [entropy Hgen] Hid Hs Hk' Hpub Hpurp Hst Hnow.
  apply sign_inv in Hs as (kp0 & c & Ha' & Hc & ->); [|by rewrite Ha]. rewrite Ha in Ha'. simplify_eq.
  split; [done|]. unfold Verifier_Verify, GetKey, IsVerifyable. simpl.
  assert (IsSigned (set_signature e (Sign (kp_Private kp0) c) (kp_ID kp0)) = true) as ->.
  { unfold IsSigned. simpl. rewrite !bool_decide_eq_false_2; [done|done|apply ed_nonempty]. }
  simpl. rewrite ks_Get_spec, Hk'. rewrite bool_decide_eq_false_2, (proj2 (Z.ltb_ge _ _)) by done. simpl.
  rewrite bool_decide_eq_true_2 by done. simpl. rewrite canonical_set_signature, Hc, Hpub.
  by rewrite (ed_correct entropy) by done.
Qed.

(** C35: Provenance survives rotation: an event signed with the active key
    verifies, and still verifies after any purpose is rotated (its own
    included) until the key expires; once the key is retired the event is
    refused. *)
Theorem signed_event_survives_rotation (s : S) (e e' : NetworkEvent) (kp : KeyPair) (now : gotime)
    (purpose : Purpose) (ttl : Z) (entropy pub priv : bytes) (id : string) :
  keys_wf (ks_keys s) -> ActiveKey s PurposeEventSigning = ROk kp -> genuine kp -> kp_ID kp <> "" ->
  Signer_Sign s (Some e) = (Some e', None) -> now <= kp_NotAfter kp ->
  purpose <> "" -> id <> "" -> id <> kp_ID kp -> GenerateKey entropy = Some (pub, priv) ->
  let s' := (Rotate s purpose ttl entropy id now).1 in
  Verifier_Verify s now e' = None /\ Verifier_Verify s' now e' = None /\
  Verifier_Verify (Retire s' (ne_SignerKeyID e')).1 now e' = Some ErrSignerKeyRetired.
Proof.
  intros Hwf Ha Hgen Hid Hs Hnow Hp Hid' Hne Hg s'.
  assert (ks_keys s !! kp_ID kp = Some kp /\ kp_Purpose kp = PurposeEventSigning /\ kp_Status kp = StatusKeyActive)
    as (Hk & Hpurp & Hst).
  { pose proof (ks_Active_spec s PurposeEventSigning) as Hact. unfold ActiveKey in Ha. rewrite Ha in Hact.
    destruct Hact as (? & ? & id0 & Hid0). by rewrite (wf_ids _ Hwf _ _ Hid0). }
  assert (ks_keys s' !! kp_ID kp = Some (demote purpose kp)) as Hk'.
  { destruct (rotate_keys s purpose ttl entropy pub priv id now Hwf Hp Hid' Hg) as [Hkeys _].
    fold s' in Hkeys. rewrite Hkeys, lookup_insert_ne, lookup_fmap, Hk by done. done. }
  assert (kp_Public (demote purpose kp) = kp_Public kp /\ kp_Purpose (demote purpose kp) = PurposeEventSigning /\
          kp_Status (demote purpose kp) <> StatusKeyRetired /\ kp_NotAfter (demote purpose kp) = kp_NotAfter kp)
    as (Hd1 & Hd2 & Hd3 & Hd4) by (unfold demote; case_bool_decide; simpl; rewrite ?Hst; done).
  destruct (signed_verifies s s e e' kp kp now) as [Hkid Hv1]; try done; [by rewrite Hst|].
  destruct (signed_verifies s s' e e' kp (demote purpose kp) now) as [_ Hv2]; try done; [by rewrite Hd4|].
  split; [done|]. split; [done|]. rewrite Hkid. unfold Retire.
  destruct (ks_Update_spec s' _ StatusKeyRetired _ Hk') as [_ Hkeys'].
  unfold Verifier_Verify, GetKey, IsVerifyable.
  assert (IsSigned e' = true) as -> by (by apply verify_accepts_inv in Hv1). simpl.
  rewrite ks_Get_spec, Hkeys', Hkid, lookup_insert_eq. simpl. done.
Qed.
End Signing.

(** ** A signed event *)

Module SigningDemo.
Import PkiDemo.
#[export] Instance event_json : JSON NetworkEvent := {
  Marshal e := Some (go_bytes (ne_ID e +:+ "|" +:+ event_type_string (ne_Type e) +:+ "|" +:+ ne_Source e));
  Unmarshal _ := None;
  json_ok _ := False;
}.
Definition event1 : NetworkEvent := mkNetworkEvent "e1" EventDNS "10.0.0.5" "8.8.8.8" ∅ 120 [] "".
Definition signed1 : NetworkEvent := default event1 (Signer_Sign store1 (Some event1)).1.

Lemma signed_event_survives_rotation_witness :
  let s' := (Rotate store1 PurposeEventSigning 100 [9] "k2" 150).1 in
  Verifier_Verify store1 150 signed1 = None /\ Verifier_Verify s' 150 signed1 = None /\
  Verifier_Verify (Retire s' (ne_SignerKeyID signed1)).1 150 signed1 = Some ErrSignerKeyRetired.
Proof.
  apply (signed_event_survives_rotation store1 event1 signed1 key1 150 PurposeEventSigning 100 [9] [9] [9] "k2");
    [apply store1_wf|vm_compute; reflexivity|by exists [7]|done|vm_compute; reflexivity|vm_compute; discriminate
    |done|done|done|reflexivity].
Defined.
End SigningDemo.
