(* ===== verification/Sth.v ===== *)
(** * Signed tree heads

    internal/storage/transparency/sth.go: the log's commitments, signed over a
    fixed-width code of size, root and time, and kept in two buckets. *)
From S2P Require Import Prelude Models Bolt Pki Sha256 MerkleHash MerkleProofs TransparencyLog.
From stdpp Require Import base list strings gmap.
From Stdlib Require Import ZArith Lia Bool.
Local Open Scope string_scope.
Local Open Scope Z_scope.

(** [sth_Timestamp] is [UnixNano()], an [int64]. *)
Record STH := mkSTH {
  sth_TreeSize : Z;
  sth_RootHash : bytes;
  sth_Timestamp : Z;
  sth_Signature : bytes;
  sth_SignerKeyID : string;
}.

Definition int64_ok (x : Z) : Prop := - 2 ^ 63 <= x < 2 ^ 63.

(** [buf] is filled field by field; the time goes through [uint64]. *)
Definition canonicalSTHBytes (size : Z) (root : RootHash) (ts : Z) : bytes :=
  let buf := repeat 0 48 in
  let buf := write 0 (be_encode 8 size) buf in
  let buf := write 8 root buf in
  write 40 (be_encode 8 (wrap 64 ts)) buf.

Section Sth.
Context {S : Type} `{KeyStore S} `{Ed25519}.

Definition SignSTH (s : S) (ts : Z) (size : Z) (root : RootHash) : res terror STH :=
  match ActiveKey s PurposeTransparencyLogSTH with
  | RErr e => RErr (if bool_decide (e = ErrNoActiveKey) then ErrNoSTHSigningKey else ErrOther "lookup STH key")
  | RPanic => RPanic
  | ROk kp =>
      let canonical := canonicalSTHBytes size root ts in
      ROk (mkSTH size root ts (Sign (kp_Private kp) canonical) (kp_ID kp))
  end.

(** [None] is a nil error. *)
Definition VerifySTH (s : S) (sth : STH) (now : gotime) : option terror :=
  if negb (length (sth_RootHash sth) =? 32)%nat then Some (ErrOther "STH RootHash must be 32 bytes")
  else if (length (sth_Signature sth) =? 0)%nat || bool_decide (sth_SignerKeyID sth = "") then Some (ErrOther "STH has no signature")
  else
    match GetKey s (sth_SignerKeyID sth) with
    | RErr e => Some (if bool_decide (e = ErrKeyNotFound) then ErrOther "STH signer key not found" else ErrOther "lookup")
    | RPanic => Some (ErrOther "panic")
    | ROk kp =>
        if negb (IsVerifyable (Some kp) now) then Some (ErrOther "STH signer key retired")
        else if negb (bool_decide (kp_Purpose kp = PurposeTransparencyLogSTH)) then Some (ErrOther "STH signer key has wrong purpose")
        else
          let root := copy32 (sth_RootHash sth) in
          let canonical := canonicalSTHBytes (sth_TreeSize sth) root (sth_Timestamp sth) in
          if negb (Verify (kp_Public kp) canonical (sth_Signature sth)) then Some (ErrOther "STH signature invalid")
          else None
    end.

(** ** The signed bytes *)

Lemma canonicalSTHBytes_app size root ts :
  hash_ok root -> canonicalSTHBytes size root ts = (be_encode 8 size ++ root ++ be_encode 8 (wrap 64 ts))%list.
Proof.
  intros Hr. unfold hash_ok in Hr. unfold canonicalSTHBytes.
  change (repeat 0 48) with ([] ++ repeat 0 8 ++ (repeat 0 32 ++ repeat 0 8))%list.
  rewrite write_app by (rewrite ?length_be_encode; done). cbn [app].
  rewrite write_app by (rewrite ?length_be_encode, ?Hr; done).
  rewrite (app_assoc (be_encode 8 size) root), <- (app_nil_r (repeat 0 8)).
  rewrite write_app by (rewrite ?length_app, ?length_be_encode, ?Hr; done).
  by rewrite app_nil_r, <- app_assoc.
Qed.

(** The signed byte string determines the commitment: tree heads that agree
    on the 48 bytes agree on size, root and timestamp. *)
Theorem canonicalSTHBytes_inj (size1 size2 ts1 ts2 : Z) (root1 root2 : RootHash) :
  uint64_ok size1 -> uint64_ok size2 -> int64_ok ts1 -> int64_ok ts2 -> hash_ok root1 -> hash_ok root2 ->
  canonicalSTHBytes size1 root1 ts1 = canonicalSTHBytes size2 root2 ts2 ->
  size1 = size2 /\ root1 = root2 /\ ts1 = ts2.
Proof.
  intros Hs1 Hs2 Ht1 Ht2 Hr1 Hr2. rewrite !canonicalSTHBytes_app by done. intros Heq.
  apply app_inj_1 in Heq as [Hsz Heq]; [|by rewrite !length_be_encode].
  apply app_inj_1 in Heq as [-> Hts]; [|by rewrite Hr1, Hr2].
  assert (forall x, 0 <= wrap 64 x < 2 ^ 64) as Hw by (intros; apply wrap_range; lia).
  apply (f_equal be_decode) in Hsz, Hts. rewrite !be_decode_encode in Hsz, Hts.
  change (256 ^ Z.of_nat 8) with (2 ^ 64) in *. unfold uint64_ok, int64_ok in *.
  rewrite !Z.mod_small in Hsz by done. rewrite !Z.mod_small in Hts by apply Hw.
  split; [done|]. split; [done|]. unfold wrap in Hts.
  pose proof (Z.div_mod ts1 (2 ^ 64) ltac:(lia)). pose proof (Z.div_mod ts2 (2 ^ 64) ltac:(lia)). lia.
Qed.

Context `{!KeyStoreLaws S} `{!Ed25519Laws}.

(** A tree head signed with the active STH key verifies while that key is
    unexpired; a key of any other purpose is never used to accept one. *)
Theorem signed_sth_verifies (s : S) (kp : KeyPair) (size ts : Z) (root : RootHash) (now : gotime) :
  keys_wf (ks_keys s) -> ActiveKey s PurposeTransparencyLogSTH = ROk kp -> genuine kp -> kp_ID kp <> "" ->
  hash_ok root -> now <= kp_NotAfter kp ->
  exists sth, SignSTH s ts size root = ROk sth /\ sth_TreeSize sth = size /\ sth_RootHash sth = root /\
    VerifySTH s sth now = None.
Proof.
  intros Hwf Ha [entropy Hgen] Hid Hroot Hnow. unfold SignSTH. rewrite Ha. eexists. split; [done|].
  split; [done|]. split; [done|]. unfold VerifySTH, GetKey, IsVerifyable. simpl.
  pose proof (ks_Active_spec s PurposeTransparencyLogSTH) as Hact. unfold ActiveKey in Ha. rewrite Ha in Hact.
  destruct Hact as (Hp & Hst & id & Hk). rewrite Hroot. simpl.
  rewrite (proj2 (Nat.eqb_neq _ 0)) by (rewrite length_zero_iff_nil; apply ed_nonempty).
  rewrite bool_decide_eq_false_2 by done. simpl.
  rewrite ks_Get_spec, (wf_ids _ Hwf _ _ Hk), Hk, Hst. simpl.
  rewrite (proj2 (Z.ltb_ge _ _)), bool_decide_eq_true_2 by done. simpl.
  by rewrite copy32_id, (ed_correct entropy).
Qed.
End Sth.

(** ** Persistence *)

Section Persist.
Context {store : Type} `{Bolt store} `{JSON STH}.

Definition PersistSTH (db : option store) (sth : STH) : option store * res terror unit :=
  match db with
  | None => (None, RErr ErrNilDB)
  | Some db =>
      match Marshal sth with
      | None => (Some db, RErr ErrMarshal)
      | Some raw =>
          let '(db, r) := Update ErrCommit db (fun tx =>
            let! tx := bkt_Put ErrStore tx BucketSTH (go_bytes LatestSTHKey) raw in
            let! tx := bkt_Put ErrStore tx BucketSTHHistory (encodeIndex (sth_TreeSize sth)) raw in
            ROk (tx, tt)) in
          (Some db, r)
      end
  end.

(** The pointer result: [None] is nil. *)
Definition read_sth (db : store) (bkt : string) (key : bytes) : res terror (option STH) :=
  let! raw := bkt_Get db bkt key in
  match raw with
  | None => ROk None
  | Some raw => match Unmarshal raw with None => RErr ErrUnmarshal | Some sth => ROk (Some sth) end
  end.
Definition LatestSTH (db : store) : res terror (option STH) := read_sth db BucketSTH (go_bytes LatestSTHKey).
Definition STHAt (db : store) (size : Z) : res terror (option STH) := read_sth db BucketSTHHistory (encodeIndex size).

Context `{!BoltLaws store} `{!JSONLaws STH}.

Lemma bkt_Put_inv {E} (e : E) s n k v s' :
  bkt_Put e s n k v = ROk s' ->
  exists l l', bucket s n = Some l /\ bucket s' n = Some l' /\
    (forall k', kv_get k' l' = if bool_decide (k' = k) then Some v else kv_get k' l) /\
    forall n', n' <> n -> bucket s' n' = bucket s n'.
Proof.
  unfold bkt_Put. destruct (bucket s n) as [l|] eqn:Hb; [|done]. destruct (Put s n k v) as [s1|] eqn:Hp; [|done].
  intros [= <-]. destruct (put_spec _ _ _ _ _ _ Hp Hb) as [(l' & ? & ?) ?]. by exists l, l'.
Qed.

Lemma read_sth_hit db bkt key l raw sth :
  bucket db bkt = Some l -> kv_get key l = Some raw -> Unmarshal raw = Some sth -> read_sth db bkt key = ROk (Some sth).
Proof. intros Hb Hk Hu. unfold read_sth, bkt_Get. rewrite Hb. simpl. by rewrite Hk, Hu. Qed.

(** A persisted tree head is the latest one and the one recorded for its
    size; the heads of all other sizes are untouched, so the timeline is kept.
    On an error nothing changes. *)
Theorem persist_sth_spec (db : store) (sth : STH) (db' : option store) (r : res terror unit) :
  json_ok sth -> uint64_ok (sth_TreeSize sth) -> PersistSTH (Some db) sth = (db', r) ->
  match r with
  | ROk _ => exists db1, db' = Some db1 /\ LatestSTH db1 = ROk (Some sth) /\
      STHAt db1 (sth_TreeSize sth) = ROk (Some sth) /\
      forall size, uint64_ok size -> size <> sth_TreeSize sth -> STHAt db1 size = STHAt db size
  | _ => db' = Some db
  end.
Proof.
  intros Hok Hsz. unfold PersistSTH, Update. destruct (Marshal sth) as [raw|] eqn:Hm; [|by intros [= <- <-]].
  pose proof (json_roundtrip _ _ Hok Hm) as Hu.
  destruct (bkt_Put ErrStore db BucketSTH _ raw) as [s1|e|] eqn:H1; simpl; [|by intros [= <- <-]..].
  destruct (bkt_Put ErrStore s1 BucketSTHHistory _ raw) as [s2|e|] eqn:H2; simpl; [|by intros [= <- <-]..].
  destruct (Commit s2) as [s3|] eqn:Hc; [|by intros [= <- <-]]. intros [= <- <-].
  destruct (bkt_Put_inv _ _ _ _ _ _ H1) as (l1 & l1' & Hb1 & Hb1' & Hg1 & Ho1).
  destruct (bkt_Put_inv _ _ _ _ _ _ H2) as (l2 & l2' & Hb2 & Hb2' & Hg2 & Ho2).
  assert (BucketSTH <> BucketSTHHistory) as Hne by done.
  pose proof (commit_spec _ _ Hc) as Hcs.
  exists s3. split; [done|]. split; [|split].
  - apply (read_sth_hit _ _ _ l1' raw); [by rewrite Hcs, Ho2|by rewrite Hg1, bool_decide_eq_true_2|done].
  - apply (read_sth_hit _ _ _ l2' raw); [by rewrite Hcs|by rewrite Hg2, bool_decide_eq_true_2|done].
  - intros size Hsize Hne'. unfold STHAt, read_sth, bkt_Get. rewrite Hcs, Hb2', <- (Ho1 BucketSTHHistory), Hb2 by done.
    simpl. rewrite Hg2, bool_decide_eq_false_2; [done|]. by intros ->%encodeIndex_inj.
Qed.
End Persist.

(** ** Runs *)

Module SthDemo.
Import MapBolt PkiDemo.
(** A fixed-width code standing for the JSON of a tree head with a 32-byte
    root. *)
Definition enc (sth : STH) : bytes :=
  (be_encode 8 (sth_TreeSize sth) ++ be_encode 8 (sth_Timestamp sth) ++ [Z.of_nat (length (sth_RootHash sth))]
   ++ [Z.of_nat (length (sth_Signature sth))] ++ sth_RootHash sth ++ sth_Signature sth ++ go_bytes (sth_SignerKeyID sth))%list.
Definition dec (b : bytes) : option STH :=
  let r := Z.to_nat (nth 16 b 0) in
  let g := Z.to_nat (nth 17 b 0) in
  Some (mkSTH (be_decode (slice 0 8 b)) (slice 18 r b) (be_decode (slice 8 8 b)) (slice (18 + r) g b)
          (go_string (drop (18 + r + g) b))).

Definition key_sth : KeyPair := mkKeyPair "s1" PurposeTransparencyLogSTH [5] [5] StatusKeyActive 100 100 200.
Definition keys_sth : MemoryKeyStore.t := MemoryKeyStore.mk {[ "s1" := key_sth ]}.
Definition sth3 : STH :=
  match SignSTH keys_sth 150 3 (Root TransparencyLog.Demo.tree3) with ROk s => s | _ => mkSTH 0 [] 0 [] "" end.

#[export] Instance sth_json : JSON STH := { Marshal s := Some (enc s); Unmarshal := dec; json_ok s := s = sth3 }.
#[export] Instance sth_json_laws : JSONLaws STH.
Proof. intros a b -> [= <-]. vm_compute. reflexivity. Qed.

Lemma canonicalSTHBytes_inj_witness : 3 = 3 /\ zero_hash = zero_hash /\ 7 = 7.
Proof.
  apply (canonicalSTHBytes_inj 3 3 7 7 zero_hash zero_hash); [split; [lia|reflexivity]..|reflexivity|reflexivity|reflexivity].
Defined.

Lemma signed_sth_verifies_witness :
  exists sth, SignSTH keys_sth 150 3 (Root TransparencyLog.Demo.tree3) = ROk sth /\ sth_TreeSize sth = 3 /\
    sth_RootHash sth = Root TransparencyLog.Demo.tree3 /\ VerifySTH keys_sth sth 160 = None.
Proof.
  apply (signed_sth_verifies keys_sth key_sth 3 150 (Root TransparencyLog.Demo.tree3) 160).
  - change (ks_keys keys_sth) with ({[ "s1" := key_sth ]} : gmap string KeyPair). split.
    + intros id k [<- <-]%lookup_singleton_Some. done.
    + intros id1 id2 k1 k2 [<- <-]%lookup_singleton_Some [<- <-]%lookup_singleton_Some. done.
  - vm_compute. reflexivity.
  - by exists [5].
  - done.
  - vm_compute. reflexivity.
  - vm_compute. discriminate.
Defined.

Definition persisted : option MapBolt.t * res terror unit := PersistSTH (Some (tdb TransparencyLog.Demo.tree3)) sth3.

Lemma persist_sth_spec_witness :
  exists db1, persisted.1 = Some db1 /\ LatestSTH db1 = ROk (Some sth3) /\ STHAt db1 3 = ROk (Some sth3).
Proof.
  pose proof (persist_sth_spec (tdb TransparencyLog.Demo.tree3) sth3 persisted.1 persisted.2 eq_refl
                ltac:(vm_compute; split; [discriminate|reflexivity]) (surjective_pairing _)) as Hp.
  assert (persisted.2 = ROk tt) as Hr by (vm_compute; reflexivity). rewrite Hr in Hp.
  destruct Hp as (db1 & H1 & H2 & H3 & _). exists db1. split; [exact H1|]. split; [exact H2|].
  assert (sth_TreeSize sth3 = 3) as Hs by (vm_compute; reflexivity). rewrite Hs in H3. exact H3.
Defined.
End SthDemo.
