(* ===== verification/TransparencyHttp.v ===== *)
(** * The transparency log's HTTP surface

    internal/storage/transparency/http.go: the four read endpoints.  A request
    is its query (the first value of a parameter, empty when missing); a
    response is a status and the value that is encoded as JSON. *)
From stdpp Require Import base list strings gmap pretty.
From Stdlib Require Import ZArith Lia Bool Ascii.
From S2P Require Import Prelude Models Bolt Sha256 MerkleHash MerkleProofs TransparencyLog Sth.
Local Open Scope string_scope.
Local Open Scope Z_scope.

Record STHResponse := mkSTHResponse {
  sr_TreeSize : Z; sr_RootHash : string; sr_Timestamp : Z; sr_Signature : string; sr_SignerKeyID : string }.
Record ProofResponse := mkProofResponse {
  pr_TreeSize : Z; pr_LeafIndex : option Z; pr_FirstSize : option Z; pr_SecondSize : option Z; pr_AuditPath : list string }.
Record LeafResponse := mkLeafResponse {
  lr_Index : Z; lr_Kind : string; lr_Timestamp : Z; lr_Payload : string; lr_LeafHash : string }.

Inductive body := BError (msg : string) | BSTH (r : STHResponse) | BProof (r : ProofResponse) | BLeaf (r : LeafResponse).
Record response := mkResponse { status : Z; resp_body : body }.

(** ** Parameters *)

(** [strconv.ParseUint(s, 10, 64)]: decimal digits only, rejecting overflow. *)
Definition digit_val (c : ascii) : option Z :=
  let n := Z.of_N (N_of_ascii c) in if (48 <=? n) && (n <=? 57) then Some (n - 48) else None.
Fixpoint parse_digits (s : string) (acc : Z) : option Z :=
  match s with
  | "" => Some acc
  | String c s' =>
      match digit_val c with
      | None => None
      | Some d => let n := acc * 10 + d in if 2 ^ 64 <=? n then None else parse_digits s' n
      end
  end.
Definition ParseUint (s : string) : option Z := if bool_decide (s = "") then None else parse_digits s 0.

(** [paramError.Error()]. *)
Definition paramError (name reason : string) : string := "parameter " +:+ name +:+ ": " +:+ reason.

Definition parseUintParam (query : string -> string) (name : string) : string + Z :=
  let raw := query name in
  if bool_decide (raw = "") then inl (paramError name "missing")
  else match ParseUint raw with
       | None => inl (paramError name "must be a non-negative integer")
       | Some v => inr v
       end.

Definition hexProof (p : AuditProof) : list string := hex_EncodeToString <$> p.

(** ** Handlers *)

(** [err.Error()] of the package's errors. *)
Definition terror_string (e : terror) : string :=
  match e with
  | ErrLeafIndexOutOfRange => "transparency: leaf index out of range"
  | ErrTreeSizeMismatch => "transparency: requested tree size larger than current"
  | ErrConsistencyRange => "transparency: first must be ≤ second and both must be ≤ current size"
  | ErrNoSTHSigningKey => "transparency: no active PurposeTransparencyLogSTH key"
  | ErrCorruptedTree => "transparency: stored tree state is corrupt"
  | ErrOther m => m
  | _ => "error"
  end.

Section Handlers.
Context {store : Type} `{Bolt store} `{JSON Leaf} `{JSON STH}.

(** A handler either answers or panics. *)
Definition STHHandler (db : store) : option response :=
  match LatestSTH db with
  | RErr e => Some (mkResponse 500 (BError ("sth read: " +:+ terror_string e)))
  | RPanic => None
  | ROk None => Some (mkResponse 503 (BError "no STH yet — log is empty"))
  | ROk (Some sth) =>
      Some (mkResponse 200 (BSTH (mkSTHResponse (sth_TreeSize sth) (hex_EncodeToString (sth_RootHash sth))
        (sth_Timestamp sth) (hex_EncodeToString (sth_Signature sth)) (sth_SignerKeyID sth))))
  end.

Definition InclusionHandler (t : Tree store) (query : string -> string) : option response :=
  match parseUintParam query "leaf_index" with
  | inl e => Some (mkResponse 400 (BError e))
  | inr leafIdx =>
      match parseUintParam query "tree_size" with
      | inl e => Some (mkResponse 400 (BError e))
      | inr treeSize =>
          match Tree_InclusionProof t leafIdx treeSize with
          | ROk proof => Some (mkResponse 200 (BProof (mkProofResponse treeSize (Some leafIdx) None None (hexProof proof))))
          | RErr (ErrLeafIndexOutOfRange as e) | RErr (ErrTreeSizeMismatch as e) =>
              Some (mkResponse 404 (BError (terror_string e)))
          | RErr e => Some (mkResponse 500 (BError (terror_string e)))
          | RPanic => None
          end
      end
  end.

Definition ConsistencyHandler (t : Tree store) (query : string -> string) : option response :=
  match parseUintParam query "first" with
  | inl e => Some (mkResponse 400 (BError e))
  | inr first =>
      match parseUintParam query "second" with
      | inl e => Some (mkResponse 400 (BError e))
      | inr second =>
          match Tree_ConsistencyProof t first second with
          | ROk proof =>
              Some (mkResponse 200 (BProof (mkProofResponse second None (Some first) (Some second) (hexProof proof))))
          | RErr (ErrConsistencyRange as e) | RErr (ErrTreeSizeMismatch as e) =>
              Some (mkResponse 404 (BError (terror_string e)))
          | RErr e => Some (mkResponse 500 (BError (terror_string e)))
          | RPanic => None
          end
      end
  end.

Definition LeafHandler (t : Tree store) (query : string -> string) : option response :=
  match parseUintParam query "index" with
  | inl e => Some (mkResponse 400 (BError e))
  | inr idx =>
      match LeafAt t idx with
      | RErr ErrLeafIndexOutOfRange => Some (mkResponse 404 (BError (terror_string ErrLeafIndexOutOfRange)))
      | RErr e => Some (mkResponse 500 (BError (terror_string e)))
      | RPanic => None
      | ROk leaf =>
          Some (mkResponse 200 (BLeaf (mkLeafResponse idx (Kind leaf) (Timestamp leaf)
            (hex_EncodeToString (Payload leaf)) (hex_EncodeToString (HashLeaf (Payload leaf))))))
      end
  end.

(** ** An external auditor *)

(** encoding/hex's decoder on lower-case digits, as an auditor would use it. *)
Definition hex_val (c : ascii) : option Z :=
  let n := Z.of_N (N_of_ascii c) in
  if (48 <=? n) && (n <=? 57) then Some (n - 48) else if (97 <=? n) && (n <=? 102) then Some (n - 87) else None.
Fixpoint hex_decode (s : string) : option bytes :=
  match s with
  | "" => Some []
  | String a (String b s') =>
      match hex_val a, hex_val b, hex_decode s' with
      | Some x, Some y, Some r => Some (x * 16 + y :: r)
      | _, _, _ => None
      end
  | _ => None
  end.

Lemma hex_val_digit n : 0 <= n < 16 -> hex_val (hex_digit n) = Some n.
Proof.
  intros Hn.
  assert (forallb (fun n => bool_decide (hex_val (hex_digit n) = Some n)) (seqZ 0 16) = true) as Hall
    by (vm_compute; reflexivity).
  rewrite forallb_forall in Hall. specialize (Hall n). apply bool_decide_eq_true in Hall; [done|].
  apply list_elem_of_In, elem_of_seqZ. lia.
Qed.

Lemma hex_roundtrip b : Forall byte_ok b -> hex_decode (hex_EncodeToString b) = Some b.
Proof.
  induction 1 as [|x b Hx _ IH]; [done|]. unfold byte_ok in Hx. simpl.
  rewrite !hex_val_digit, IH; [|apply Z.mod_pos_bound; lia|].
  - do 2 f_equal. pose proof (Z.div_mod x 16). lia.
  - split; [apply Z.div_pos; lia|apply Z.div_lt_upper_bound; lia].
Qed.

Lemma parse_digits_range s : forall acc v, 0 <= acc < 2 ^ 64 -> parse_digits s acc = Some v -> 0 <= v < 2 ^ 64.
Proof.
  induction s as [|c s IH]; simpl; intros acc v Ha Hp; [by simplify_eq|].
  unfold digit_val in Hp. destruct ((48 <=? _) && _) eqn:Hd; [|done]. apply andb_true_iff in Hd as [Hd1 Hd2].
  apply Z.leb_le in Hd1, Hd2. destruct (Z.leb_spec (2 ^ 64) (acc * 10 + (Z.of_N (N_of_ascii c) - 48))); [done|].
  eapply IH; [|done]. lia.
Qed.

Lemma parseUintParam_range query name v : parseUintParam query name = inr v -> uint64_ok v.
Proof.
  unfold parseUintParam, ParseUint. case_bool_decide; [done|].
  destruct (parse_digits (query name) 0) eqn:Hp; [|done]. intros [= <-]. by eapply (parse_digits_range _ 0).
Qed.

Lemma MTH_bytes (d : list RootHash) : slice_ok d -> Forall (Forall byte_ok) d -> Forall byte_ok (MerkleTreeHash d).
Proof.
  intros Hs Hd. destruct d as [|a [|b d]]; [apply sha256_bytes|by inversion Hd|].
  rewrite MTH_split by (done || (simpl; lia)). apply sha256_bytes.
Qed.

Lemma inclusionPath_bytes fuel : forall m (d : list RootHash),
  slice_ok d -> Forall hash_ok d -> Forall (Forall byte_ok) d -> Forall (Forall byte_ok) (inclusionPath fuel m d).
Proof.
  induction fuel as [|fuel IH]; intros m d Hs Hh Hd; simpl; [constructor|].
  destruct (length d =? 1)%nat; [constructor|].
  set (k := split_point (length d)). unfold appendHash.
  destruct (m <? k)%nat; (apply Forall_app; split;
    [apply IH; auto using Forall_take, Forall_drop with owasaka
    |apply Forall_singleton; rewrite copy32_id by (apply MTH_hash_ok; auto using Forall_take, Forall_drop with owasaka);
     apply MTH_bytes; auto using Forall_take, Forall_drop with owasaka]).
Qed.

Lemma hexProof_decode proof : Forall (Forall byte_ok) proof -> mapM hex_decode (hexProof proof) = Some proof.
Proof.
  intros Hp. apply mapM_Some_2. unfold hexProof. induction Hp as [|h proof Hh _ IH]; constructor; [|done].
  by apply hex_roundtrip.
Qed.

Context `{!BoltLaws store} `{!JSONLaws Leaf}.

Lemma proof_bytes t ls m n proof : represents t ls -> Tree_InclusionProof t m n = ROk proof -> Forall (Forall byte_ok) proof.
Proof.
  intros Hrep. unfold Tree_InclusionProof, InclusionProof. destruct (_ <? _); [done|]. destruct (_ <=? _); [done|].
  intros [= <-]. destruct (_ || _); simpl; [constructor|].
  destruct (represents_hashes _ _ Hrep) as [Hs Hh]. apply inclusionPath_bytes; auto using Forall_take with owasaka.
  apply Forall_take. destruct Hrep as (_ & -> & _). apply Forall_fmap, Forall_true. intros. apply sha256_bytes.
Qed.

(** The inclusion endpoint, as an outside auditor sees it: it always
    answers; malformed parameters give 400 and out-of-range ones 404; exactly
    the queries with [m < n <= size] give 200, and then the hexadecimal audit
    path decodes to a proof that takes the leaf at [m] to the root at size
    [n]. *)
Theorem inclusion_endpoint_spec (t : Tree store) (ls : list Leaf) (query : string -> string) :
  represents t ls ->
  exists r, InclusionHandler t query = Some r /\
    match parseUintParam query "leaf_index", parseUintParam query "tree_size" with
    | inr m, inr n =>
        if (m <? n) && (n <=? Size t) then
          status r = 200 /\
          exists leaf path proof root,
            resp_body r = BProof (mkProofResponse n (Some m) None None path) /\ mapM hex_decode path = Some proof /\
            ls !! Z.to_nat m = Some leaf /\ RootAt t n = ROk root /\
            VerifyInclusion (HashLeaf (Payload leaf)) m n proof = root
        else status r = 404
    | _, _ => status r = 400
    end.
Proof.
  intros Hrep. unfold InclusionHandler.
  destruct (parseUintParam query "leaf_index") as [e|m] eqn:Hm; [by eexists|].
  destruct (parseUintParam query "tree_size") as [e|n] eqn:Hn; [by eexists|].
  apply parseUintParam_range in Hm, Hn. unfold uint64_ok in *.
  destruct (Z.ltb_spec m n) as [Hmn|Hmn]; destruct (Z.leb_spec n (Size t)) as [Hns|Hns]; cbn [andb].
  - destruct (served_inclusion t ls m n Hrep) as (leaf & proof & root & Hleaf & _ & Hp & Hr & Hv); [lia|lia|].
    rewrite Hp. eexists. split; [done|]. split; [done|]. exists leaf, (hexProof proof), proof, root.
    split; [done|]. split; [|done]. apply hexProof_decode. by eapply proof_bytes.
  - unfold Tree_InclusionProof, Size in *. rewrite (proj2 (Z.ltb_lt _ _)) by lia. by eexists.
  - unfold Tree_InclusionProof, Size in *. rewrite (proj2 (Z.ltb_ge _ _)), (proj2 (Z.leb_le _ _)) by lia. by eexists.
  - unfold Tree_InclusionProof, Size in *. rewrite (proj2 (Z.ltb_lt _ _)) by lia. by eexists.
Qed.
End Handlers.

Module HttpDemo.
Import MapBolt TransparencyLog.Demo.
Definition query (name : string) : string :=
  if bool_decide (name = "leaf_index") then "2" else if bool_decide (name = "tree_size") then "3" else "".

Lemma inclusion_endpoint_spec_witness :
  exists r leaf path proof root, InclusionHandler tree3 query = Some r /\ status r = 200 /\
    resp_body r = BProof (mkProofResponse 3 (Some 2) None None path) /\ mapM hex_decode path = Some proof /\
    leaves !! 2%nat = Some leaf /\ RootAt tree3 3 = ROk root /\
    VerifyInclusion (HashLeaf (Payload leaf)) 2 3 proof = root.
Proof.
  destruct (inclusion_endpoint_spec tree3 leaves query tree3_represents) as (r & Hr & Hspec).
  assert (parseUintParam query "leaf_index" = inr 2) as Hm by (vm_compute; reflexivity).
  assert (parseUintParam query "tree_size" = inr 3) as Hn by (vm_compute; reflexivity).
  rewrite Hm, Hn in Hspec.
  assert ((2 <? 3) && (3 <=? Size tree3) = true) as Hc by (vm_compute; reflexivity).
  cbv beta iota in Hspec. rewrite Hc in Hspec. destruct Hspec as (Hst & leaf & path & proof & root & Hrest).
  exists r, leaf, path, proof, root. split; [exact Hr|]. split; [exact Hst|exact Hrest].
Defined.
End HttpDemo.
