(* ===== verification/GoTime.v ===== *)
(** * Civil time

    [time.Time.Format(time.RFC3339Nano)] for a time and a zone offset, from the nanoseconds
    since 0001-01-01T00:00:00Z that represent a [time.Time] here (package time
    of the Go standard library). *)
From S2P Require Import Prelude Models.
From stdpp Require Import base list strings.
From Stdlib Require Import ZArith Lia Bool Ascii.
Local Open Scope string_scope.
Local Open Scope Z_scope.

Definition ns_per_s : Z := 1000000000.
Definition s_per_day : Z := 86400.

(** Year, month and day of a day number (0 is 0001-01-01), by 400-year eras of
    years that start in March. *)
Definition civil (days : Z) : Z * Z * Z :=
  let z := days + 306 in
  let era := z / 146097 in
  let doe := z mod 146097 in
  let yoe := (doe - doe / 1460 + doe / 36524 - doe / 146096) / 365 in
  let doy := doe - (365 * yoe + yoe / 4 - yoe / 100) in
  let mp := (5 * doy + 2) / 153 in
  let d := doy - (153 * mp + 2) / 5 + 1 in
  let m := if mp <? 10 then mp + 3 else mp - 9 in
  let y := yoe + era * 400 + (if m <=? 2 then 1 else 0) in
  (y, m, d).

(** A decimal number padded with zeros to [n] digits. *)
Fixpoint digits (n : nat) (v : Z) : string :=
  match n with
  | O => ""
  | S n' => digits n' (v / 10) +:+ String (ascii_of_N (Z.to_N (48 + v mod 10))) ""
  end.

(** The fraction of [RFC3339Nano]: nine digits without trailing zeros, absent
    when zero. *)
Fixpoint trim_zeros (s : string) : string :=
  match s with
  | "" => ""
  | String c s' =>
      match trim_zeros s' with
      | "" => if bool_decide (c = "0"%char) then "" else String c ""
      | t => String c t
      end
  end.
Definition fraction (ns : Z) : string := if ns =? 0 then "" else "." +:+ trim_zeros (digits 9 ns).

(** The zone at the end, for an offset in seconds. *)
Definition zone_text (offset : Z) : string :=
  if offset =? 0 then "Z"
  else let m := Z.quot offset 60 in
       (if m <? 0 then "-" else "+") +:+ digits 2 (Z.abs m / 60) +:+ ":" +:+ digits 2 (Z.abs m mod 60).

(** The instant [t] in the zone of that offset; UTC is offset 0. *)
Definition RFC3339Nano (t : gotime) (offset : Z) : string :=
  let t := t + offset * ns_per_s in
  let s := t / ns_per_s in
  let '(y, m, d) := civil (s / s_per_day) in
  let r := s mod s_per_day in
  digits 4 y +:+ "-" +:+ digits 2 m +:+ "-" +:+ digits 2 d +:+ "T" +:+ digits 2 (r / 3600) +:+ ":"
    +:+ digits 2 (r / 60 mod 60) +:+ ":" +:+ digits 2 (r mod 60) +:+ fraction (t mod ns_per_s) +:+ zone_text offset.

(** The zero time, the Unix epoch and a leap day. *)
Example zero_time : RFC3339Nano 0 0 = "0001-01-01T00:00:00Z".
Proof. vm_compute. reflexivity. Qed.
Example unix_epoch : RFC3339Nano (62135596800 * ns_per_s) 0 = "1970-01-01T00:00:00Z".
Proof. vm_compute. reflexivity. Qed.
Example in_a_zone : RFC3339Nano (62135596800 * ns_per_s) (-12600) = "1969-12-31T20:30:00-03:30".
Proof. vm_compute. reflexivity. Qed.
Example leap_day : RFC3339Nano ((62135596800 + 1709208000) * ns_per_s + 120000000) 0 = "2024-02-29T12:00:00.12Z".
Proof. vm_compute. reflexivity. Qed.

(** No bar can occur in a formatted time. *)
Fixpoint has_char (c : ascii) (s : string) : bool :=
  match s with "" => false | String c' s' => bool_decide (c = c') || has_char c s' end.

Lemma has_char_app c s t : has_char c (s +:+ t) = has_char c s || has_char c t.
Proof. induction s as [|x s IH]; simpl; [done|]. rewrite IH. apply orb_assoc. Qed.

Lemma digit_char_no_bar v : 0 <= v < 10 -> bool_decide ("|"%char = ascii_of_N (Z.to_N (48 + v))) = false.
Proof.
  intros Hv. assert (v ∈ seqZ 0 10) as Hin by (apply elem_of_seqZ; lia).
  assert (forallb (fun v => negb (bool_decide ("|"%char = ascii_of_N (Z.to_N (48 + v))))) (seqZ 0 10) = true) as Hall
    by (vm_compute; reflexivity).
  rewrite forallb_forall in Hall. specialize (Hall v (proj1 (list_elem_of_In _ _) Hin)). by apply negb_true_iff.
Qed.

Lemma digits_no_bar n : forall v, has_char "|" (digits n v) = false.
Proof.
  induction n as [|n IH]; intros v; [done|]. cbn [digits]. rewrite has_char_app, IH. cbn [has_char].
  rewrite digit_char_no_bar by (apply Z.mod_pos_bound; lia). done.
Qed.

Lemma trim_zeros_no_bar s : has_char "|" s = false -> has_char "|" (trim_zeros s) = false.
Proof.
  induction s as [|c s IH]; simpl; [done|]. intros [Hc Hs]%orb_false_iff. specialize (IH Hs).
  destruct (trim_zeros s); [|cbn [has_char]; rewrite Hc; exact IH].
  destruct (bool_decide (c = _)); [done|]. cbn [has_char]. rewrite Hc. done.
Qed.

Lemma zone_no_bar offset : has_char "|" (zone_text offset) = false.
Proof.
  unfold zone_text. destruct (_ =? _); [done|]. cbv zeta. rewrite !has_char_app, !digits_no_bar. by destruct (_ <? _).
Qed.

Lemma RFC3339Nano_no_bar t offset : has_char "|" (RFC3339Nano t offset) = false.
Proof.
  unfold RFC3339Nano, fraction. cbv zeta. destruct (civil _) as [[y m] d].
  rewrite !has_char_app, !digits_no_bar, zone_no_bar. destruct (_ =? 0); [done|].
  rewrite has_char_app, trim_zeros_no_bar by apply digits_no_bar. done.
Qed.
