(* ===== verification/AuditLog.v ===== *)
(** * The hash-chained audit log

    internal/storage/integrity/auditlog.go: JSON lines, each carrying the hash
    of its fields and of the previous entry's hash. *)
From stdpp Require Import base list strings gmap sets pretty.
From Stdlib Require Import ZArith Lia Bool Ascii.
From S2P Require Import Prelude Models GoTime Sha256 MerkleProofs.
Local Open Scope string_scope.
Local Open Scope Z_scope.

(** The timestamp is an instant and the zone offset it was read with, in seconds;
    the log writes UTC, offset 0. *)
Record AuditEntry := mkAuditEntry {
  ae_Sequence : Z;
  ae_Timestamp : gotime * Z;
  ae_Action : string;
  ae_Subject : string;
  ae_Details : string;
  ae_PrevHash : string;
  ae_Hash : string;
}.

(** [al_file] is the content of the file behind [file]. *)
Record AuditLog := mkAuditLog { al_file : bytes; lastHash : string; seq : Z }.

Inductive aerror :=
| ErrOpen | ErrRead | ErrMarshalEntry | ErrWriteEntry | ErrSync | ErrCorruptEntry
| ErrChainBroken (seq : Z) | ErrTamperedEntry (seq : Z).

Definition genesis : string := "genesis".

(** The hashed text. *)
Definition entry_payload (e : AuditEntry) : string :=
  fmt_d (ae_Sequence e) +:+ "|" +:+ RFC3339Nano (ae_Timestamp e).1 (ae_Timestamp e).2 +:+ "|" +:+ ae_Action e +:+ "|"
    +:+ ae_Subject e +:+ "|" +:+ ae_Details e +:+ "|" +:+ ae_PrevHash e.

Definition computeEntryHash (e : AuditEntry) : string := hex_EncodeToString (sha256 (go_bytes (entry_payload e))).

(** [cur] is [data[start:i]]. *)
Fixpoint split_loop (data cur : bytes) : list bytes :=
  match data with
  | [] => if (0 <? length cur)%nat then [cur] else []
  | b :: data' => if b =? 10 then cur :: split_loop data' [] else split_loop data' (cur ++ [b])
  end.
Definition splitLines (data : bytes) : list bytes := split_loop data [].

Fixpoint verify_chain (prevHash : string) (es : list AuditEntry) : option aerror :=
  match es with
  | [] => None
  | e :: es' =>
      if negb (bool_decide (ae_PrevHash e = prevHash)) then Some (ErrChainBroken (ae_Sequence e))
      else if negb (bool_decide (ae_Hash e = computeEntryHash e)) then Some (ErrTamperedEntry (ae_Sequence e))
      else verify_chain (ae_Hash e) es'
  end.

Section Log.
Context `{JSON AuditEntry}.

(** [Verify]'s parse: blank lines are skipped, a bad line is an error. *)
Fixpoint parse_lines (lines : list bytes) : option (list AuditEntry) :=
  match lines with
  | [] => Some []
  | line :: lines' =>
      if (length line =? 0)%nat then parse_lines lines'
      else match Unmarshal line with
           | None => None
           | Some e => (cons e) <$> parse_lines lines'
           end
  end.

(** The file's content, or [None] when it cannot be read; the result [None] is
    a nil error. *)
Definition Verify (data : option bytes) : option aerror :=
  match data with
  | None => Some ErrRead
  | Some data =>
      match parse_lines (splitLines data) with
      | None => Some ErrCorruptEntry
      | Some es => verify_chain genesis es
      end
  end.

(** [recoverState]: bad lines are skipped. *)
Fixpoint recover_loop (lines : list bytes) (st : string * Z) : string * Z :=
  match lines with
  | [] => st
  | line :: lines' =>
      if (length line =? 0)%nat then recover_loop lines' st
      else match Unmarshal line with
           | None => recover_loop lines' st
           | Some e => recover_loop lines' (ae_Hash e, ae_Sequence e)
           end
  end.
Definition recoverState (al : AuditLog) (read_ok : bool) : AuditLog :=
  if read_ok then
    let '(h, n) := recover_loop (splitLines (al_file al)) (lastHash al, seq al) in mkAuditLog (al_file al) h n
  else al.

(** [content] is the existing content, empty for a new file. *)
Definition NewAuditLog (open_ok read_ok : bool) (content : bytes) : aerror + AuditLog :=
  if open_ok then inr (recoverState (mkAuditLog content genesis 0) read_ok) else inl ErrOpen.

(** [written] is how many bytes [file.Write] wrote (fewer than asked is an
    error), [sync_ok] whether [file.Sync] succeeded. *)
Definition Append (al : AuditLog) (action subject details : string) (now : gotime) (written : nat) (sync_ok : bool)
  : AuditLog * option aerror :=
  let n := wrap 64 (seq al + 1) in
  let entry0 := mkAuditEntry n (now, 0) action subject details (lastHash al) "" in
  let hash := computeEntryHash entry0 in
  let entry := mkAuditEntry n (now, 0) action subject details (lastHash al) hash in
  match Marshal entry with
  | None => (mkAuditLog (al_file al) hash n, Some ErrMarshalEntry)
  | Some data =>
      let line := (data ++ [10])%list in
      let al := mkAuditLog (al_file al ++ take written line)%list hash n in
      if (written <? length line)%nat then (al, Some ErrWriteEntry)
      else if sync_ok then (al, None) else (al, Some ErrSync)
  end.

(** ** Lines *)

(** What the log relies on of the encoder: an entry is one non-empty line. *)
Class LineJSON := {
  line_roundtrip :: JSONLaws AuditEntry;
  line_nonempty : forall (e : AuditEntry) b, Marshal e = Some b -> b <> [];
  line_no_newline : forall (e : AuditEntry) b, Marshal e = Some b -> 10 ∉ b;
}.

Definition encodes (line : bytes) (e : AuditEntry) : Prop := json_ok e /\ Marshal e = Some line.

Lemma split_loop_line line rest : forall cur, 10 ∉ line ->
  split_loop (line ++ 10 :: rest) cur = (cur ++ line)%list :: split_loop rest [].
Proof.
  induction line as [|b line IH]; intros cur Hn; simpl; [by rewrite app_nil_r|].
  apply not_elem_of_cons in Hn as [Hb Hn]. rewrite (proj2 (Z.eqb_neq b 10)) by congruence.
  rewrite IH by done. by rewrite <- app_assoc.
Qed.

Definition file_of (lines : list bytes) : bytes := foldr (fun l acc => l ++ 10 :: acc)%list [] lines.

Lemma splitLines_file lines : Forall (fun l => 10 ∉ l) lines -> splitLines (file_of lines) = lines.
Proof.
  induction 1 as [|line lines Hl _ IH]; [done|]. unfold splitLines, file_of in *. simpl.
  by rewrite split_loop_line, IH.
Qed.

Context `{!LineJSON}.

Lemma lines_no_newline lines es : Forall2 encodes lines es -> Forall (fun l => 10 ∉ l) lines.
Proof. induction 1 as [|l e lines es [_ Hm] _ IH]; constructor; [by eapply line_no_newline|done]. Qed.

Lemma parse_lines_spec lines es : Forall2 encodes lines es -> parse_lines lines = Some es.
Proof.
  induction 1 as [|line e lines es [Hok Hm] _ IH]; simpl; [done|].
  pose proof (line_nonempty _ _ Hm) as Hne. destruct line; [done|]. cbn [length Nat.eqb].
  by rewrite (json_roundtrip _ _ Hok Hm), IH.
Qed.

Lemma recover_loop_spec lines es : Forall2 encodes lines es -> forall st,
  recover_loop lines st = foldl (fun _ e => (ae_Hash e, ae_Sequence e)) st es.
Proof.
  induction 1 as [|line e lines es [Hok Hm] _ IH]; intros st; simpl; [done|].
  pose proof (line_nonempty _ _ Hm) as Hne. destruct line; [done|]. cbn [length Nat.eqb].
  rewrite (json_roundtrip _ _ Hok Hm). apply IH.
Qed.

(** ** The chain *)

Definition final_hash (es : list AuditEntry) : string := foldl (fun _ e => ae_Hash e) genesis es.
Definition final_seq (es : list AuditEntry) : Z := foldl (fun _ e => ae_Sequence e) 0 es.

Lemma final_hash_app es e : final_hash (es ++ [e]) = ae_Hash e.
Proof. unfold final_hash. by rewrite foldl_app. Qed.

Lemma verify_chain_app es e : forall prev,
  verify_chain prev (es ++ [e]) = None <->
  verify_chain prev es = None /\ ae_PrevHash e = foldl (fun _ e => ae_Hash e) prev es /\ ae_Hash e = computeEntryHash e.
Proof.
  induction es as [|e' es IH]; intros prev; simpl.
  - destruct (bool_decide_reflect (ae_PrevHash e = prev)) as [H1|H1];
      destruct (bool_decide_reflect (ae_Hash e = computeEntryHash e)) as [H2|H2]; simpl; split;
      (intros; destruct_and?; by try split).
  - destruct (negb _); [split; [done|by intros []]|]. destruct (negb _); [split; [done|by intros []]|]. apply IH.
Qed.

(** The log in memory and on disk is a verified chain of the entries [es]. *)
Definition consistent (al : AuditLog) (es : list AuditEntry) : Prop :=
  exists lines, al_file al = file_of lines /\ Forall2 encodes lines es /\ verify_chain genesis es = None /\
    lastHash al = final_hash es /\ seq al = final_seq es.

Lemma consistent_verifies al es :
  consistent al es -> Verify (Some (al_file al)) = None /\ parse_lines (splitLines (al_file al)) = Some es.
Proof.
  intros (lines & Hf & Henc & Hv & _ & _). unfold Verify.
  rewrite Hf, splitLines_file by (by eapply lines_no_newline). by rewrite (parse_lines_spec _ _ Henc).
Qed.

Lemma file_of_app lines line : file_of (lines ++ [line]) = (file_of lines ++ line ++ [10])%list.
Proof.
  unfold file_of. induction lines as [|l lines IH]; simpl; [done|]. by rewrite IH, <- app_assoc.
Qed.

(** The entry that [Append] builds. *)
Definition next_entry (al : AuditLog) (action subject details : string) (now : gotime) : AuditEntry :=
  let n := wrap 64 (seq al + 1) in
  mkAuditEntry n (now, 0) action subject details (lastHash al)
    (computeEntryHash (mkAuditEntry n (now, 0) action subject details (lastHash al) "")).

Lemma append_consistent al es action subject details now written sync_ok line :
  consistent al es -> encodes line (next_entry al action subject details now) -> (length line < written)%nat ->
  consistent (Append al action subject details now written sync_ok).1 (es ++ [next_entry al action subject details now]).
Proof.
  intros (lines & Hf & Henc & Hv & Hh & Hs) [Hok Hm] Hw. unfold Append. fold (next_entry al action subject details now).
  rewrite Hm. rewrite (proj2 (Nat.ltb_ge _ _)) by (rewrite length_app; simpl; lia).
  assert (consistent (mkAuditLog (al_file al ++ take written (line ++ [10]))%list
    (ae_Hash (next_entry al action subject details now)) (ae_Sequence (next_entry al action subject details now)))
    (es ++ [next_entry al action subject details now])) as Hc.
  { exists (lines ++ [line])%list. simpl al_file. split; [|split; [|split; [|split]]].
    - rewrite take_ge by (rewrite length_app; simpl; lia). by rewrite file_of_app, Hf.
    - apply Forall2_app; [done|]. by constructor.
    - apply verify_chain_app. split; [done|]. split; [exact Hh|done].
    - by rewrite final_hash_app.
    - unfold final_seq. by rewrite foldl_app. }
  destruct sync_ok; exact Hc.
Qed.

(** The file alone is a verified chain of the entries [es]. *)
Definition file_chain (content : bytes) (es : list AuditEntry) : Prop :=
  exists lines, content = file_of lines /\ Forall2 encodes lines es /\ verify_chain genesis es = None.

Lemma recovered content es : file_chain content es ->
  recoverState (mkAuditLog content genesis 0) true = mkAuditLog content (final_hash es) (final_seq es).
Proof.
  intros (lines & -> & Henc & _). unfold recoverState. cbn [al_file lastHash seq].
  rewrite splitLines_file by (by eapply lines_no_newline). rewrite (recover_loop_spec _ _ Henc).
  assert (foldl (fun _ e => (ae_Hash e, ae_Sequence e)) (genesis, 0) es = (final_hash es, final_seq es)) as ->; [|done].
  clear. induction es as [|e es IH] using rev_ind; [done|]. unfold final_hash, final_seq in *. by rewrite !foldl_app.
Qed.

(** ** Histories *)

(** Appends and restarts of the process.  [written] is how many bytes of the line
    the write stored before it failed, [None] when it went through. *)
Inductive aop :=
| OpAppend (action subject details : string) (now : gotime) (written : option nat) (sync_ok : bool)
| OpRestart (open_ok read_ok : bool).

(** A process without a log, the file being left, after a failed [NewAuditLog]. *)
Inductive astate := Running (al : AuditLog) | Stopped (content : bytes).
Definition content (st : astate) : bytes := match st with Running al => al_file al | Stopped content => content end.

(** The line of an append, and how much of it the write stores. *)
Definition line_of (al : AuditLog) (a s d : string) (now : gotime) : bytes :=
  match Marshal (next_entry al a s d now) with Some line => (line ++ [10])%list | None => [] end.
Definition stored (line : bytes) (written : option nat) : nat := match written with None => length line | Some k => k end.

Definition astep (st : astate) (op : aop) : astate :=
  match op with
  | OpAppend a s d now written sync_ok =>
      match st with
      | Running al => Running (Append al a s d now (stored (line_of al a s d now) written) sync_ok).1
      | Stopped _ => st
      end
  | OpRestart open_ok read_ok =>
      match NewAuditLog open_ok read_ok (content st) with inr al => Running al | inl _ => Stopped (content st) end
  end.

(** The records whose lines were stored whole. *)
Definition kept (st : astate) (op : aop) : list (string * string * string * (gotime * Z)) :=
  match st, op with
  | Running al, OpAppend a s d now written _ =>
      let line := line_of al a s d now in if (length line <=? stored line written)%nat then [(a, s, d, (now, 0))] else []
  | _, _ => []
  end.
Fixpoint kept_all (st : astate) (ops : list aop) : list (string * string * string * (gotime * Z)) :=
  match ops with [] => [] | op :: ops' => (kept st op ++ kept_all (astep st op) ops')%list end.

(** The memory of the log is what a restart would read from its file. *)
Definition in_step (al : AuditLog) : Prop := recoverState (mkAuditLog (al_file al) genesis 0) true = al.

(** No write is torn, and no line is stored while the memory is ahead of the file or
    behind it: after a failed write, or a restart that could not read the file, a
    restart that reads it comes before the next stored append. *)
Fixpoint orderly (st : astate) (ops : list aop) : Prop :=
  match ops with
  | [] => True
  | op :: ops' =>
      match st, op with
      | Running al, OpAppend a s d now written _ =>
          let line := line_of al a s d now in
          if (length line <=? stored line written)%nat then in_step al else stored line written = O
      | _, _ => True
      end /\ orderly (astep st op) ops'
  end.

(** A disk that works. *)
Definition op_works (op : aop) : Prop :=
  match op with OpAppend _ _ _ _ written sync_ok => written = None /\ sync_ok = true | OpRestart open_ok read_ok => open_ok = true /\ read_ok = true end.

(** The hashes an entry can carry: text, whatever the entry. *)
Definition hash_text (h : string) : Prop := h = genesis \/ exists b, h = hex_EncodeToString (sha256 b).

Lemma final_hash_text es : verify_chain genesis es = None -> hash_text (final_hash es).
Proof.
  destruct es as [|e es _] using rev_ind; [by left|]. intros (_ & _ & He)%verify_chain_app.
  rewrite final_hash_app, He. right. by eexists.
Qed.

(** Entries with these fields can be encoded, whatever sequence number and
    hashes they get. *)
Definition op_ok (op : aop) : Prop :=
  match op with
  | OpAppend a s d now _ _ =>
      forall n p h, 0 <= n < 2 ^ 64 -> hash_text p -> hash_text h -> exists line, encodes line (mkAuditEntry n (now, 0) a s d p h)
  | OpRestart _ _ => True
  end.

Definition op_fields (op : aop) : list (string * string * string * (gotime * Z)) :=
  match op with OpAppend a s d now _ _ => [(a, s, d, (now, 0))] | OpRestart _ _ => [] end.
Definition entry_fields (e : AuditEntry) : string * string * string * (gotime * Z) :=
  (ae_Action e, ae_Subject e, ae_Details e, ae_Timestamp e).

(** A state of a history: the file is the chain [es], the memory holds a hash. *)
Definition sound_state (st : astate) (es : list AuditEntry) : Prop :=
  file_chain (content st) es /\ match st with Running al => hash_text (lastHash al) | Stopped _ => True end.

Lemma in_step_consistent al es : in_step al -> file_chain (al_file al) es -> consistent al es.
Proof.
  intros Hin Hc. pose proof (recovered _ _ Hc) as Hr. unfold in_step in Hin. rewrite Hin in Hr. destruct Hc as (lines & Hf & Henc & Hv).
  rewrite Hr. exists lines. by split_and!.
Qed.

Lemma consistent_sound al es : consistent al es -> sound_state (Running al) es /\ in_step al.
Proof.
  intros (lines & Hf & Henc & Hv & Hh & Hs). assert (file_chain (al_file al) es) as Hc by (by exists lines).
  split; [split; [done|]; rewrite Hh; by apply final_hash_text|].
  unfold in_step. rewrite (recovered _ _ Hc), <- Hh, <- Hs. by destruct al.
Qed.

Lemma restart_sound st es open_ok read_ok : sound_state st es ->
  sound_state (astep st (OpRestart open_ok read_ok)) es /\
  (read_ok = true -> match astep st (OpRestart open_ok read_ok) with Running al => in_step al | Stopped _ => open_ok = false end).
Proof.
  intros [Hc _]. cbn [astep]. unfold NewAuditLog. destruct open_ok; [|by split].
  destruct read_ok; [|split; [split; [done|by left]|done]]. rewrite (recovered _ _ Hc).
  assert (consistent (mkAuditLog (content st) (final_hash es) (final_seq es)) es) as Hcons.
  { destruct Hc as (lines & Hf & Henc & Hv). exists lines. by split_and!. }
  destruct (consistent_sound _ _ Hcons) as [Hs Hi]. by split.
Qed.

(** An append that stores its line, the memory being in step. *)
Lemma append_sound al es a s d now written sync_ok : sound_state (Running al) es -> in_step al -> op_ok (OpAppend a s d now written sync_ok) ->
  (length (line_of al a s d now) <= stored (line_of al a s d now) written)%nat ->
  exists e, consistent (Append al a s d now (stored (line_of al a s d now) written) sync_ok).1 (es ++ [e]) /\ entry_fields e = (a, s, d, (now, 0)).
Proof.
  intros [Hc Hh] Hin Hok Hw. pose proof (in_step_consistent _ _ Hin Hc) as Hcons.
  destruct (Hok (wrap 64 (seq al + 1)) (lastHash al) (ae_Hash (next_entry al a s d now))) as [line Henc];
    [apply wrap_range; lia|done|right; by eexists|].
  exists (next_entry al a s d now). split; [|done]. eapply append_consistent; [done|exact Henc|].
  destruct Henc as [_ Hm]. change (Marshal (next_entry al a s d now) = Some line) in Hm. unfold line_of in *. rewrite Hm in *.
  rewrite length_app in Hw. simpl in Hw. lia.
Qed.

(** One that stores nothing. *)
Lemma lost_sound al es a s d now sync_ok : sound_state (Running al) es ->
  sound_state (Running (Append al a s d now 0 sync_ok).1) es.
Proof.
  intros [Hc _]. unfold Append. fold (next_entry al a s d now). destruct (Marshal (next_entry al a s d now)) as [line|].
  - cbn [take]. rewrite app_nil_r. destruct (_ <? _)%nat; [|destruct sync_ok]; (split; [exact Hc|right; by eexists]).
  - split; [exact Hc|right; by eexists].
Qed.

Lemma history_sound ops : forall st es, sound_state st es -> orderly st ops -> Forall op_ok ops ->
  exists es', sound_state (foldl astep st ops) (es ++ es') /\ (entry_fields <$> es') = kept_all st ops.
Proof.
  induction ops as [|op ops IH]; intros st es Hs; cbn [orderly kept_all foldl].
  { intros _ _. exists []. by rewrite app_nil_r. }
  intros [Hop Hord] [Hok Hoks]%Forall_cons.
  assert (exists es1, sound_state (astep st op) (es ++ es1) /\ (entry_fields <$> es1) = kept st op) as (es1 & Hs1 & Hk1).
  { destruct op as [a s d now written sync_ok|open_ok read_ok]; destruct st as [al|c]; cbn [kept astep].
    2: exists []; by rewrite app_nil_r.
    2, 3: exists []; rewrite app_nil_r; split; [by apply restart_sound|done].
    cbv zeta in Hop. destruct (Nat.leb_spec (length (line_of al a s d now)) (stored (line_of al a s d now) written)) as [Hw|Hw].
    - destruct (append_sound _ _ _ _ _ _ _ _ Hs Hop Hok Hw) as (e & Hc & He). exists [e]. split; [by apply consistent_sound|simpl; by rewrite He].
    - exists []. rewrite Hop, app_nil_r. split; [by apply lost_sound|done]. }
  destruct (IH _ _ Hs1 Hord Hoks) as (es2 & Hs2 & Hk2). exists (es1 ++ es2)%list. rewrite app_assoc. split; [done|].
  by rewrite fmap_app, Hk1, Hk2.
Qed.

(** On a disk that works every history is orderly, and keeps every record. *)
Lemma working_orderly ops : forall al es, sound_state (Running al) es -> in_step al -> Forall op_ok ops -> Forall op_works ops ->
  orderly (Running al) ops /\ kept_all (Running al) ops = concat (op_fields <$> ops).
Proof.
  induction ops as [|op ops IH]; intros al es Hs Hin; [done|]. intros [Hok Hoks]%Forall_cons [Hw Hws]%Forall_cons.
  cbn [orderly kept_all fmap list_fmap concat]. destruct op as [a s d now written sync_ok|open_ok read_ok]; destruct Hw as [-> ->]; cbn [kept astep op_fields].
  - cbv zeta. cbn [stored]. rewrite Nat.leb_refl.
    destruct (append_sound _ _ a s d now None true Hs Hin Hok ltac:(done)) as (e & Hc & _). apply consistent_sound in Hc as [Hs' Hin'].
    destruct (IH _ _ Hs' Hin' Hoks Hws) as [Ho Hk]. cbn [stored] in *. rewrite Hk. by split.
  - destruct (restart_sound _ _ true true Hs) as [Hs' Hin']. cbn [astep] in Hs', Hin'. specialize (Hin' eq_refl). unfold NewAuditLog in *.
    destruct (IH _ _ Hs' Hin' Hoks Hws) as [Ho Hk]. by rewrite Hk.
Qed.

(** C38: A history of appends and restarts of a fresh log, in which writes, syncs,
    opens and reads may fail, leaves a file that verifies and that holds exactly
    the records whose lines were stored, in order, as long as it is orderly: no
    write stores part of a line, and after a write that failed, or a restart that
    could not read the file, no line is stored before a restart that reads it
    ([lost_write_breaks_chain] has what happens otherwise).  On a disk that works
    every history is orderly and every appended record is there.  The records are
    those JSON gives back as they are, valid UTF-8 that is. *)
Theorem audit_history_verifies (ops : list aop) :
  Forall op_ok ops ->
  let fresh := Running (mkAuditLog [] genesis 0) in
  let st := foldl astep fresh ops in
  (orderly fresh ops ->
     Verify (Some (content st)) = None /\
     exists es, parse_lines (splitLines (content st)) = Some es /\ (entry_fields <$> es) = kept_all fresh ops) /\
  (Forall op_works ops -> orderly fresh ops /\ kept_all fresh ops = concat (op_fields <$> ops)).
Proof.
  intros Hok fresh st. assert (consistent (mkAuditLog [] genesis 0) []) as Hc by (exists []; by repeat split).
  apply consistent_sound in Hc as [Hs Hin]. split; [|intros Hw; by eapply working_orderly].
  intros Hord. destruct (history_sound ops _ _ Hs Hord Hok) as (es & [(lines & Hf & Henc & Hv) _] & Hk). fold fresh st in Hf, Hk.
  unfold Verify. rewrite Hf, splitLines_file by (by eapply lines_no_newline). rewrite (parse_lines_spec _ _ Henc).
  split; [done|]. by exists es.
Qed.
End Log.

(** ** Tamper evidence *)

Lemma hex_length b : String.length (hex_EncodeToString b) = (2 * length b)%nat.
Proof. induction b as [|x b IH]; [done|]. simpl. rewrite IH. lia. Qed.

Lemma hash_not_genesis e : computeEntryHash e <> genesis.
Proof. unfold computeEntryHash. intros Heq%(f_equal String.length). rewrite hex_length, length_sha256 in Heq. done. Qed.

(** The strings hashed along a chain. *)
Definition payloads (es : list AuditEntry) : list bytes := (fun e => go_bytes (entry_payload e)) <$> es.

Definition same_text (e1 e2 : AuditEntry) : Prop :=
  entry_payload e1 = entry_payload e2 /\ ae_PrevHash e1 = ae_PrevHash e2 /\ ae_Hash e1 = ae_Hash e2.


(** The chained hash is the end of the text: two texts that agree carry the same
    one, since hashes have one length and the genesis marker is no hash. *)
Lemma string_app_length s t : String.length (s +:+ t) = (String.length s + String.length t)%nat.
Proof. induction s as [|c s IH]; simpl; [done|]. by rewrite IH. Qed.

Lemma string_app_suffix s1 : forall s2 t1 t2, s1 +:+ t1 = s2 +:+ t2 -> (String.length t1 <= String.length t2)%nat ->
  exists u, t2 = u +:+ t1.
Proof.
  induction s1 as [|c s1 IH]; intros [|c' s2] t1 t2 Heq Hl.
  - by exists "".
  - change (t1 = String c' (s2 +:+ t2)) in Heq. subst t1. cbn [String.length] in Hl. rewrite string_app_length in Hl. lia.
  - change (String c s1 +:+ t1 = t2) in Heq. subst t2. by exists (String c s1).
  - change (String c (s1 +:+ t1) = String c' (s2 +:+ t2)) in Heq. injection Heq as _ Heq. by eapply IH.
Qed.

Lemma string_app_inj_r s1 s2 t1 t2 : s1 +:+ t1 = s2 +:+ t2 -> String.length t1 = String.length t2 -> t1 = t2.
Proof.
  intros Heq Hl. destruct (string_app_suffix _ _ _ _ Heq ltac:(lia)) as [u ->].
  rewrite string_app_length in Hl. destruct u; [done|simpl in Hl; lia].
Qed.

Lemma hex_no_s b : Forall byte_ok b -> has_char "s" (hex_EncodeToString b) = false.
Proof.
  assert (forall x, 0 <= x < 16 -> bool_decide ("s"%char = hex_digit x) = false) as Hd.
  { intros x Hx. assert (forallb (fun x => negb (bool_decide ("s"%char = hex_digit x))) (seqZ 0 16) = true) as Hall
      by (vm_compute; reflexivity).
    rewrite forallb_forall in Hall. apply negb_true_iff, Hall, list_elem_of_In, elem_of_seqZ. lia. }
  induction 1 as [|x b Hx _ IH]; [done|]. unfold byte_ok in Hx. cbn [hex_EncodeToString has_char].
  rewrite !Hd, IH; [done|apply Z.mod_pos_bound; lia|].
  split; [apply Z.div_pos; lia|apply Z.div_lt_upper_bound; lia].
Qed.

Lemma genesis_not_suffix s1 s2 b : Forall byte_ok b -> length b = 32%nat -> s1 +:+ genesis <> s2 +:+ hex_EncodeToString b.
Proof.
  intros Hb Hl Heq. apply string_app_suffix in Heq as [u Hu]; [|rewrite hex_length, Hl; simpl; lia].
  pose proof (hex_no_s b Hb) as Hs. rewrite Hu, has_char_app in Hs. by apply orb_false_iff in Hs as [_ Hs].
Qed.

Lemma payload_prev e1 e2 : hash_text (ae_PrevHash e1) -> hash_text (ae_PrevHash e2) ->
  entry_payload e1 = entry_payload e2 -> ae_PrevHash e1 = ae_PrevHash e2.
Proof.
  assert (forall e, exists s, entry_payload e = s +:+ ae_PrevHash e) as Hsplit.
  { intros e. unfold entry_payload. rewrite !string_app_assoc. by eexists. }
  destruct (Hsplit e1) as [s1 ->], (Hsplit e2) as [s2 ->].
  intros [->|[b1 ->]] [->|[b2 ->]] Heq; [done| | |].
  - by apply genesis_not_suffix in Heq; [|apply sha256_bytes|apply length_sha256].
  - symmetry in Heq. by apply genesis_not_suffix in Heq; [|apply sha256_bytes|apply length_sha256].
  - apply (string_app_inj_r s1 s2); [done|]. by rewrite !hex_length, !length_sha256.
Qed.

(** C17: The last hash commits to the whole history: two verified chains that end
    in the same hash have the same number of entries and hash the same text
    entry by entry, unless SHA-256 collides on two of these texts. *)
Theorem final_hash_commits (es1 es2 : list AuditEntry) :
  verify_chain genesis es1 = None -> verify_chain genesis es2 = None -> final_hash es1 = final_hash es2 ->
  collision_free (payloads es1) (payloads es2) ->
  Forall2 same_text es1 es2.
Proof.
  revert es2. induction es1 as [|e1 es1 IH] using rev_ind; intros es2 Hv1 Hv2 Hfin Hcf;
    destruct es2 as [|e2 es2 _] using rev_ind.
  - constructor.
  - exfalso. apply verify_chain_app in Hv2 as (_ & _ & He2). rewrite final_hash_app, He2 in Hfin.
    by eapply hash_not_genesis.
  - exfalso. apply verify_chain_app in Hv1 as (_ & _ & He1). rewrite final_hash_app, He1 in Hfin.
    by eapply hash_not_genesis.
  - apply verify_chain_app in Hv1 as (Hv1 & Hp1 & He1). apply verify_chain_app in Hv2 as (Hv2 & Hp2 & He2).
    rewrite !final_hash_app in Hfin. unfold payloads in Hcf. rewrite !fmap_app in Hcf. simpl in Hcf.
    assert (entry_payload e1 = entry_payload e2) as Hpay.
    { apply go_bytes_inj, Hcf; [set_solver..|]. rewrite He1, He2 in Hfin. by apply hex_inj in Hfin; [|apply sha256_bytes..]. }
    assert (ae_PrevHash e1 = ae_PrevHash e2) as Hprev 
      by (apply payload_prev; [rewrite Hp1|rewrite Hp2|done]; by apply final_hash_text).
    apply Forall2_app; [|by constructor].
    apply IH; [done|done| |eapply collision_free_mono; [| |exact Hcf]; set_solver].
    unfold final_hash. congruence.
Qed.

(** The delimiter of the hashed text is not escaped: text moved across a bar
    from the subject of any entry into its action (or back) leaves every hash
    and the verdict of the chain unchanged. *)
Theorem field_shift_undetected (pre post : list AuditEntry) (n : Z) (ts : gotime * Z) (a b s d prev h : string) :
  verify_chain genesis (pre ++ mkAuditEntry n ts (a +:+ "|" +:+ b) s d prev h :: post) =
  verify_chain genesis (pre ++ mkAuditEntry n ts a (b +:+ "|" +:+ s) d prev h :: post).
Proof.
  generalize genesis. induction pre as [|e pre IH]; intros g; simpl.
  - assert (computeEntryHash (mkAuditEntry n ts (a +:+ "|" +:+ b) s d prev h) =
            computeEntryHash (mkAuditEntry n ts a (b +:+ "|" +:+ s) d prev h)) as ->; [|done].
    unfold computeEntryHash, entry_payload. simpl. do 3 f_equal. by rewrite <- !string_app_assoc.
  - by rewrite IH.
Qed.

Lemma verify_chain_bad_prev es e : forall prev,
  verify_chain prev es = None -> ae_PrevHash e <> foldl (fun _ e => ae_Hash e) prev es ->
  verify_chain prev (es ++ [e]) = Some (ErrChainBroken (ae_Sequence e)).
Proof.
  induction es as [|e' es IH]; intros prev Hv Hne; simpl in *; [by rewrite bool_decide_eq_false_2|].
  destruct (negb _); [done|]. destruct (negb _); [done|]. by apply IH.
Qed.

Section LostWrite.
Context `{JSON AuditEntry} `{!LineJSON}.

(** [Append] advances the in-memory chain before the write: after a write
    that fails without storing anything, the next successful append is chained
    to an entry that is not in the file, and verification reports a broken
    chain although nothing was tampered with. *)
Theorem lost_write_breaks_chain (al : AuditLog) (es : list AuditEntry) (a1 s1 d1 a2 s2 d2 : string) (t1 t2 : gotime)
    (line2 : bytes) (w : nat) :
  consistent al es ->
  let lost := next_entry al a1 s1 d1 t1 in
  let al1 := (Append al a1 s1 d1 t1 0 true).1 in
  encodes line2 (next_entry al1 a2 s2 d2 t2) -> (length line2 < w)%nat -> ae_Hash lost <> lastHash al ->
  let '(al2, err) := Append al1 a2 s2 d2 t2 w true in
  err = None /\ Verify (Some (al_file al2)) = Some (ErrChainBroken (seq al2)).
Proof.
  intros (lines & Hf & Henc & Hv & Hh & Hs) lost al1 Henc2 Hw Hne.
  assert (al_file al1 = al_file al /\ lastHash al1 = ae_Hash lost) as [Hf1 Hh1].
  { subst al1. unfold Append. fold lost. destruct (Marshal _); simpl; [|done].
    rewrite app_nil_r. destruct (_ <? _)%nat; done. }
  clearbody al1. pose proof Henc2 as [_ Hm2]. unfold Append.
  fold (next_entry al1 a2 s2 d2 t2). rewrite Hm2, (proj2 (Nat.ltb_ge _ _)) by (rewrite length_app; simpl; lia).
  split; [done|]. simpl al_file. simpl seq.
  rewrite take_ge by (rewrite length_app; simpl; lia). rewrite Hf1, Hf, <- file_of_app. unfold Verify.
  assert (Forall2 encodes (lines ++ [line2]) (es ++ [next_entry al1 a2 s2 d2 t2])) as Henc'
    by (apply Forall2_app; [done|by constructor]).
  rewrite splitLines_file by (by eapply lines_no_newline). rewrite (parse_lines_spec _ _ Henc').
  apply verify_chain_bad_prev; [done|]. simpl. rewrite Hh1. by rewrite Hh in Hne.
Qed.
End LostWrite.

(** ** A running log *)

(** A newline-free code of an entry standing for its JSON: two bytes per byte
    and a zero after each field. *)
Module AuditDemo.
Fixpoint enc_field (b : bytes) : bytes :=
  match b with [] => [0] | x :: b' => 20 + x / 16 :: 40 + x mod 16 :: enc_field b' end.
Fixpoint dec_field (b : bytes) : option (bytes * bytes) :=
  match b with
  | 0 :: rest => Some ([], rest)
  | h :: l :: rest => (fun p => ((h - 20) * 16 + (l - 40) :: p.1, p.2)) <$> dec_field rest
  | _ => None
  end.

Definition enc (e : AuditEntry) : bytes :=
  (enc_field (be_encode 8 (ae_Sequence e)) ++ enc_field (be_encode 16 (ae_Timestamp e).1) ++ enc_field (go_bytes (ae_Action e))
   ++ enc_field (go_bytes (ae_Subject e)) ++ enc_field (go_bytes (ae_Details e)) ++ enc_field (go_bytes (ae_PrevHash e))
   ++ enc_field (go_bytes (ae_Hash e)))%list.
Definition dec (b : bytes) : option AuditEntry :=
  '(n, b) ← dec_field b; '(t, b) ← dec_field b; '(a, b) ← dec_field b; '(s, b) ← dec_field b;
  '(d, b) ← dec_field b; '(p, b) ← dec_field b; '(h, b) ← dec_field b;
  Some (mkAuditEntry (be_decode n) (be_decode t, 0) (go_string a) (go_string s) (go_string d) (go_string p) (go_string h)).

Lemma dec_enc_field b rest : Forall byte_ok b -> dec_field (enc_field b ++ rest) = Some (b, rest).
Proof.
  induction 1 as [|x b Hx _ IH]; [done|]. unfold byte_ok in Hx. cbn [enc_field app dec_field].
  pose proof (Z.div_pos x 16 ltac:(lia) ltac:(lia)). destruct (20 + x / 16) eqn:Hz; [lia| |lia].
  rewrite <- Hz, IH. simpl. do 3 f_equal. pose proof (Z.div_mod x 16). lia.
Qed.

Lemma enc_field_pos b : (0 < length (enc_field b))%nat.
Proof. destruct b; simpl; lia. Qed.

Lemma enc_field_no_newline b : Forall byte_ok b -> 10 ∉ enc_field b.
Proof.
  induction 1 as [|x b Hx _ IH]; cbn [enc_field]; rewrite ?not_elem_of_cons; [split; [lia|apply not_elem_of_nil]|].
  unfold byte_ok in Hx. pose proof (Z.div_pos x 16 ltac:(lia) ltac:(lia)). pose proof (Z.mod_pos_bound x 16 ltac:(lia)).
  split; [lia|]. split; [lia|done].
Qed.


Lemma dec_fields f1 f2 f3 f4 f5 f6 f7 :
  Forall byte_ok f1 -> Forall byte_ok f2 -> Forall byte_ok f3 -> Forall byte_ok f4 -> Forall byte_ok f5 ->
  Forall byte_ok f6 -> Forall byte_ok f7 ->
  dec (enc_field f1 ++ enc_field f2 ++ enc_field f3 ++ enc_field f4 ++ enc_field f5 ++ enc_field f6 ++ enc_field f7)
  = Some (mkAuditEntry (be_decode f1) (be_decode f2, 0) (go_string f3) (go_string f4) (go_string f5) (go_string f6) (go_string f7)).
Proof.
  intros. unfold dec. do 6 (rewrite dec_enc_field by done; cbn [mbind option_bind]).
  rewrite <- (app_nil_r (enc_field f7)), dec_enc_field by done. done.
Qed.

Lemma dec_enc e : 0 <= ae_Sequence e < 256 ^ Z.of_nat 8 -> 0 <= (ae_Timestamp e).1 < 256 ^ Z.of_nat 16 -> (ae_Timestamp e).2 = 0 -> dec (enc e) = Some e.
Proof.
  intros Hn Ht Hz. unfold enc. rewrite dec_fields by (apply be_encode_bytes || apply go_bytes_ok).
  rewrite !be_decode_encode, !go_bytes_string, !Z.mod_small by done. destruct e as [? [t z] ? ? ? ? ?]. cbn in Hz. by subst z.
Qed.

Lemma enc_nonempty e : enc e <> [].
Proof.
  unfold enc. intros Heq%(f_equal (@length Z)). rewrite length_app in Heq.
  pose proof (enc_field_pos (be_encode 8 (ae_Sequence e))). change (length []) with 0%nat in Heq. lia.
Qed.

Lemma enc_no_newline e : 10 ∉ enc e.
Proof.
  unfold enc. rewrite !elem_of_app. intros Hin; destruct_or! Hin;
    (eapply enc_field_no_newline; [|exact Hin]); first [apply be_encode_bytes|apply go_bytes_ok].
Qed.

#[export] Instance entry_json : JSON AuditEntry := {
  Marshal e := Some (enc e);
  Unmarshal := dec;
  json_ok e := 0 <= ae_Sequence e < 256 ^ Z.of_nat 8 /\ 0 <= (ae_Timestamp e).1 < 256 ^ Z.of_nat 16 /\ (ae_Timestamp e).2 = 0;
}.

#[export] Instance entry_line : LineJSON.
Proof.
  split.
  - intros e b (Hn & Ht & Hz) [= <-]. by apply dec_enc.
  - intros e b [= <-]. apply enc_nonempty.
  - intros e b [= <-]. apply enc_no_newline.
Qed.

(** A login, a write that fails, a restart, another login whose sync fails. *)
Definition ops : list aop :=
  [OpAppend "login" "alice" "ok" 63870000000000000000 None true; OpAppend "login" "eve" "" 63870000000000000001 (Some O) true;
   OpRestart true true; OpAppend "snapshot" "merkle_tree" "ab12" 63870000001000000000 None false].

Lemma op_encodes a s d now w b : 0 <= now < 256 ^ Z.of_nat 16 -> op_ok (OpAppend a s d now w b).
Proof. intros Ht n p h Hn _ _. exists (enc (mkAuditEntry n (now, 0) a s d p h)). split; [|done]. split; [exact Hn|split; [exact Ht|reflexivity]]. Qed.

Lemma ops_ok : Forall op_ok ops.
Proof. repeat apply Forall_cons_2; [..|apply Forall_nil_2]; try exact I; apply op_encodes; split; (discriminate || reflexivity). Qed.

Lemma audit_history_verifies_witness :
  let st := foldl astep (Running (mkAuditLog [] genesis 0)) ops in
  Verify (Some (content st)) = None /\
  exists es, parse_lines (splitLines (content st)) = Some es /\
    (entry_fields <$> es) =
      [("login", "alice", "ok", (63870000000000000000, 0)); ("snapshot", "merkle_tree", "ab12", (63870000001000000000, 0))].
Proof.
  destruct (audit_history_verifies ops ops_ok) as [Hv _]. destruct Hv as (Hv & es & Hp & Hk).
  - split; [vm_compute; reflexivity|]. split; [vm_compute; reflexivity|]. split; [exact I|]. split; [vm_compute; reflexivity|exact I].
  - split; [exact Hv|]. exists es. split; [exact Hp|]. rewrite Hk. vm_compute. reflexivity.
Defined.

(** Two chains with the same last hash: an entry and its shifted copy. *)
Definition chain_a : list AuditEntry :=
  [mkAuditEntry 1 (63870000000000000000, 0) "role|grant" "bob" "" genesis
     (computeEntryHash (mkAuditEntry 1 (63870000000000000000, 0) "role|grant" "bob" "" genesis ""))].
Definition chain_b : list AuditEntry :=
  [mkAuditEntry 1 (63870000000000000000, 0) "role" "grant|bob" "" genesis
     (computeEntryHash (mkAuditEntry 1 (63870000000000000000, 0) "role|grant" "bob" "" genesis ""))].

Lemma final_hash_commits_witness : Forall2 same_text chain_a chain_b.
Proof.
  apply (final_hash_commits chain_a chain_b);
    [vm_compute; reflexivity|vm_compute; reflexivity|reflexivity|].
  apply collision_free_b_spec. vm_compute. reflexivity.
Defined.

Definition al0 : AuditLog := mkAuditLog [] genesis 0.
Definition al_lost : AuditLog := (Append al0 "login" "alice" "" 63870000000000000000 0 true).1.

Lemma lost_write_breaks_chain_witness :
  let '(al2, err) := Append al_lost "login" "bob" "" 63870000001000000000 4000 true in
  err = None /\ Verify (Some (al_file al2)) = Some (ErrChainBroken (seq al2)).
Proof.
  apply (lost_write_breaks_chain al0 [] "login" "alice" "" "login" "bob" "" 63870000000000000000 63870000001000000000
           (enc (next_entry al_lost "login" "bob" "" 63870000001000000000)) 4000).
  - exists []. split; [reflexivity|]. split; [constructor|]. split; [reflexivity|]. split; reflexivity.
  - split; [|reflexivity]. split; [vm_compute; split; [discriminate|reflexivity]|split; [split; [discriminate|reflexivity]|reflexivity]].
  - apply Nat.ltb_lt. vm_compute. reflexivity.
  - exact (hash_not_genesis (mkAuditEntry (wrap 64 (seq al0 + 1)) (63870000000000000000, 0) "login" "alice" "" (lastHash al0) "")).
Defined.
End AuditDemo.
