(* ===== verification/IntegrityMerkle.v ===== *)
(** * Asset snapshots: the pairwise Merkle tree

    internal/storage/integrity/merkle.go and service.go: a Merkle tree over the
    stored assets whose root is compared from one snapshot to the next. *)
From stdpp Require Import base list strings gmap sets.
From Stdlib Require Import ZArith Lia Bool.
From S2P Require Import Prelude Models Sha256 MerkleProofs AuditLog.
Local Open Scope string_scope.
Local Open Scope list_scope.
Local Open Scope Z_scope.

(** A nil [Root] is [None]. *)
Record MerkleTree := mkMerkleTree { mt_Leaves : list bytes; mt_Nodes : list bytes; mt_Root : option bytes }.

(** One level: [nodes[i+1]] past the end panics. *)
Fixpoint combine_level (nodes : list bytes) : option (list bytes) :=
  match nodes with
  | [] => Some []
  | [_] => None
  | a :: b :: nodes' => cons (sha256 (a ++ b)) <$> combine_level nodes'
  end.

(** [append(level, level[len(level)-1])]. *)
Definition dup_last (l : list bytes) : list bytes := l ++ option_list (last l).

Fixpoint build_loop (fuel : nat) (nodes allNodes : list bytes) : option (list bytes * list bytes) :=
  match fuel with
  | O => None
  | S fuel' =>
      if (1 <? length nodes)%nat then
        match combine_level nodes with
        | None => None
        | Some level =>
            let allNodes := allNodes ++ level in
            let level := if (1 <? length level)%nat && negb (length level mod 2 =? 0)%nat then dup_last level else level in
            build_loop fuel' level allNodes
        end
      else Some (nodes, allNodes)
  end.

Definition pad_even (nodes : list bytes) : list bytes :=
  if negb (length nodes mod 2 =? 0)%nat then dup_last nodes else nodes.

(** [None] is a panic; every level is at most as long as half the one below
    plus one, so the number of leaves plus one is enough fuel. *)
Definition BuildTree (blocks : list bytes) : option MerkleTree :=
  if (length blocks =? 0)%nat then Some (mkMerkleTree [] [] None)
  else
    let leaves := sha256 <$> blocks in
    let nodes := pad_even leaves in
    match build_loop (S (length nodes)) nodes nodes with
    | Some (root :: _, allNodes) => Some (mkMerkleTree leaves allNodes (Some root))
    | _ => None
    end.

Definition RootHex (t : MerkleTree) : string :=
  match mt_Root t with None => "" | Some r => hex_EncodeToString r end.

Definition VerifyLeaf (t : MerkleTree) (index : Z) (data : bytes) : bool :=
  if (index <? 0) || (Z.of_nat (length (mt_Leaves t)) <=? index) then false
  else match mt_Leaves t !! Z.to_nat index with
       | Some leaf => bool_decide (hex_EncodeToString (sha256 data) = hex_EncodeToString leaf)
       | None => false
       end.

Definition HashBlock (data : bytes) : string := hex_EncodeToString (sha256 data).

(** ** The loop *)

(** Levels on which the loop runs: a single node or an even number. *)
Definition level_ok (nodes : list bytes) : Prop := (length nodes = 1 \/ (0 < length nodes /\ length nodes mod 2 = 0))%nat.

Lemma even_SS n : (S (S n) mod 2 = 0 -> n mod 2 = 0)%nat.
Proof. replace (S (S n)) with (n + 1 * 2)%nat by lia. by rewrite Nat.Div0.mod_add. Qed.

Lemma combine_level_some nodes :
  (length nodes mod 2 = 0)%nat -> exists level, combine_level nodes = Some level /\ (2 * length level = length nodes)%nat.
Proof.
  remember (length nodes) as n eqn:Hn. revert nodes Hn. induction n as [n IH] using lt_wf_ind. intros nodes Hn He.
  destruct nodes as [|a [|b nodes]]; [exists []; split; [done|simpl in *; lia]|by subst|].
  cbn [length] in Hn. subst n. apply even_SS in He.
  destruct (IH (length nodes) ltac:(lia) nodes eq_refl He) as (level & Hl & Hlen).
  exists (sha256 (a ++ b) :: level). cbn [combine_level]. rewrite Hl. split; [done|simpl; lia].
Qed.

Lemma length_dup_last (l : list bytes) : l <> [] -> length (dup_last l) = S (length l).
Proof.
  intros Hl. unfold dup_last. rewrite length_app. destruct (last l) eqn:Hlast; simpl; [lia|].
  by apply last_None in Hlast.
Qed.

Lemma parity n : (n mod 2 = 0 \/ n mod 2 = 1)%nat.
Proof. pose proof (Nat.mod_upper_bound n 2 ltac:(lia)). lia. Qed.

Lemma odd_succ n : (n mod 2 <> 0 -> S n mod 2 = 0)%nat.
Proof.
  intros Hn. destruct (parity n) as [|H1]; [done|].
  rewrite <- Nat.add_1_r, Nat.Div0.add_mod, H1. done.
Qed.

Lemma pad_even_ok l : l <> [] -> level_ok (pad_even l).
Proof.
  intros Hl. unfold pad_even, level_ok. destruct (Nat.eqb_spec (length l mod 2) 0) as [He|Ho]; cbn [negb].
  - right. destruct l; [done|]. simpl in *. split; [lia|done].
  - rewrite length_dup_last by done. right. split; [lia|]. by apply odd_succ.
Qed.

(** The next level, padded. *)
Definition next_level (level : list bytes) : list bytes :=
  if (1 <? length level)%nat && negb (length level mod 2 =? 0)%nat then dup_last level else level.

Lemma next_level_ok level : (0 < length level)%nat -> level_ok (next_level level) /\ (length (next_level level) <= S (length level))%nat.
Proof.
  intros Hl. unfold next_level, level_ok. destruct (Nat.ltb_spec 1 (length level)); cbn [andb]; [|split; [left; lia|lia]].
  destruct (Nat.eqb_spec (length level mod 2) 0) as [He|Ho]; cbn [negb]; [split; [right; split; [lia|done]|lia]|].
  rewrite length_dup_last by (by intros ->). split; [right; split; [lia|by apply odd_succ]|lia].
Qed.

Lemma next_level_single level : length level = 1%nat -> next_level level = level.
Proof. intros Hl. unfold next_level. by rewrite Hl. Qed.

(** One iteration on two or more nodes. *)
Lemma build_loop_step fuel nodes all :
  level_ok nodes -> (1 < length nodes)%nat ->
  exists level, combine_level nodes = Some level /\ (2 * length level = length nodes)%nat /\
    build_loop (S fuel) nodes all = build_loop fuel (next_level level) (all ++ level).
Proof.
  intros Hok Hl. destruct (combine_level_some nodes) as (level & Hc & Hlen); [unfold level_ok in Hok; lia|].
  exists level. split; [done|]. split; [done|]. cbn [build_loop]. rewrite (proj2 (Nat.ltb_lt _ _)) by lia. by rewrite Hc.
Qed.

Lemma next_level_shorter (nodes level : list bytes) :
  (1 < length nodes)%nat -> (2 * length level = length nodes)%nat -> (length (next_level level) < length nodes)%nat.
Proof.
  intros Hn Hl. destruct (decide (length level = 1)%nat) as [H1|H1]; [rewrite next_level_single by done; lia|].
  destruct (next_level_ok level ltac:(lia)) as [_ ?].
  unfold next_level in *. destruct (Nat.ltb_spec 1 (length level)); cbn [andb] in *; [|lia].
  destruct (Nat.eqb_spec (length level mod 2) 0); cbn [negb] in *; [lia|].
  rewrite length_dup_last in * by (by intros ->). destruct (decide (length level = 2)%nat) as [H2|]; [by rewrite H2 in *|lia].
Qed.

(** The loop ends at one node, whatever the accumulated list and the fuel. *)
Lemma build_loop_total fuel : forall nodes,
  level_ok nodes -> (length nodes < fuel)%nat ->
  exists root, forall fuel' all, (length nodes < fuel')%nat -> exists all', build_loop fuel' nodes all = Some ([root], all').
Proof.
  induction fuel as [|fuel IH]; intros nodes Hok Hf; [lia|].
  destruct (decide (length nodes = 1)%nat) as [H1|H1].
  - destruct nodes as [|r [|]]; simpl in H1; try lia. exists r. intros [|fuel'] all Hf'; [simpl in Hf'; lia|].
    exists all. done.
  - assert (1 < length nodes)%nat as Hl by (unfold level_ok in Hok; lia).
    destruct (build_loop_step 0 nodes [] Hok Hl) as (level & Hc & Hlen & _).
    pose proof (next_level_shorter nodes level Hl Hlen).
    destruct (IH (next_level level)) as (root & Hroot); [apply next_level_ok; lia|lia|].
    exists root. intros [|fuel'] all Hf'; [lia|].
    destruct (build_loop_step fuel' nodes all Hok Hl) as (level' & Hc' & _ & ->). rewrite Hc in Hc'. injection Hc' as <-.
    apply Hroot. lia.
Qed.

(** The root reached from a level. *)
Lemma BuildTree_root blocks :
  blocks <> [] ->
  exists t root, BuildTree blocks = Some t /\ mt_Root t = Some root /\ mt_Leaves t = (sha256 <$> blocks) /\
    forall fuel all, (length (pad_even (sha256 <$> blocks)) < fuel)%nat ->
      exists all', build_loop fuel (pad_even (sha256 <$> blocks)) all = Some ([root], all').
Proof.
  intros Hne. assert (sha256 <$> blocks <> []) as Hne' by (by destruct blocks).
  destruct (build_loop_total _ (pad_even (sha256 <$> blocks)) (pad_even_ok _ Hne') (Nat.lt_succ_diag_r _)) as (root & Hroot).
  unfold BuildTree. rewrite (proj2 (Nat.eqb_neq _ 0)) by (by destruct blocks).
  destruct (Hroot (S (length (pad_even (sha256 <$> blocks)))) (pad_even (sha256 <$> blocks)) ltac:(lia)) as (all' & Hl).
  rewrite Hl. by do 2 eexists.
Qed.

(** ** What a root commits to *)

Lemma odd_of_last_dup blocks b : last blocks = Some b -> (length blocks mod 2 <> 0)%nat ->
  pad_even (sha256 <$> blocks) = pad_even (sha256 <$> (blocks ++ [b])).
Proof.
  intros Hl Ho. unfold pad_even. rewrite !length_fmap, length_app. cbn [length]. rewrite Nat.add_1_r.
  rewrite (odd_succ _ Ho). rewrite (proj2 (Nat.eqb_neq _ 0)) by done. cbn [negb Nat.eqb].
  unfold dup_last. by rewrite fmap_app, fmap_last, Hl.
Qed.

(** A snapshot of an odd number of assets has the same root as the snapshot
    with its last asset recorded twice: the padding makes the two
    indistinguishable. *)
Theorem odd_tail_same_root (blocks : list bytes) (b : bytes) :
  last blocks = Some b -> (length blocks mod 2 <> 0)%nat ->
  exists t1 t2 root, BuildTree blocks = Some t1 /\ BuildTree (blocks ++ [b]) = Some t2 /\
    mt_Root t1 = Some root /\ mt_Root t2 = Some root.
Proof.
  intros Hl Ho. destruct (BuildTree_root blocks) as (t1 & r1 & Ht1 & Hr1 & _ & H1); [by intros ->|].
  destruct (BuildTree_root (blocks ++ [b])) as (t2 & r2 & Ht2 & Hr2 & _ & H2); [by destruct blocks|].
  rewrite <- (odd_of_last_dup _ _ Hl Ho) in H2.
  destruct (H1 _ [] (Nat.lt_succ_diag_r _)) as (a1 & E1). destruct (H2 _ [] (Nat.lt_succ_diag_r _)) as (a2 & E2).
  rewrite E1 in E2. simplify_eq. by exists t1, t2, r2.
Qed.

Lemma odd_tail_same_root_witness :
  exists t1 t2 root, BuildTree [[1]; [2]; [3]] = Some t1 /\ BuildTree [[1]; [2]; [3]; [3]] = Some t2 /\
    mt_Root t1 = Some root /\ mt_Root t2 = Some root.
Proof. apply (odd_tail_same_root [[1]; [2]; [3]] [3]); [reflexivity|discriminate]. Defined.

(** The strings hashed by the loop. *)
Fixpoint pair_inputs (nodes : list bytes) : list bytes :=
  match nodes with
  | a :: b :: nodes' => (a ++ b) :: pair_inputs nodes'
  | _ => []
  end.
Fixpoint loop_inputs (fuel : nat) (nodes : list bytes) : list bytes :=
  match fuel with
  | O => []
  | S fuel' =>
      if (1 <? length nodes)%nat then
        pair_inputs nodes ++ match combine_level nodes with Some level => loop_inputs fuel' (next_level level) | None => [] end
      else []
  end.
Definition tree_hashed (blocks : list bytes) : list bytes :=
  blocks ++ loop_inputs (S (length (pad_even (sha256 <$> blocks)))) (pad_even (sha256 <$> blocks)).

Definition node32 (n : bytes) : Prop := length n = 32%nat.

Lemma combine_level_32 nodes : forall level, combine_level nodes = Some level -> Forall node32 level.
Proof.
  remember (length nodes) as n eqn:Hn. revert nodes Hn. induction n as [n IH] using lt_wf_ind. intros nodes Hn level.
  destruct nodes as [|a [|b nodes]]; cbn [combine_level]; [intros [= <-]; constructor|done|].
  destruct (combine_level nodes) as [l|] eqn:Hc; [|done]. intros [= <-]. constructor; [apply length_sha256|].
  eapply (IH (length nodes)); [subst; simpl; lia|done|done].
Qed.

Lemma combine_level_inj n : forall n1 n2 level, length n1 = n -> length n2 = n -> Forall node32 n1 -> Forall node32 n2 ->
  combine_level n1 = Some level -> combine_level n2 = Some level ->
  collision_free (pair_inputs n1) (pair_inputs n2) -> n1 = n2.
Proof.
  induction n as [n IH] using lt_wf_ind. intros n1 n2 level Hl1 Hl2 H1 H2 Hc1 Hc2 Hcf.
  destruct n1 as [|a1 [|b1 n1]], n2 as [|a2 [|b2 n2]]; cbn [length] in *; try lia; [done|done|].
  cbn [combine_level pair_inputs] in *.
  destruct (combine_level n1) as [l1|] eqn:E1; [|done]. destruct (combine_level n2) as [l2|] eqn:E2; [|done].
  assert (sha256 (a1 ++ b1) = sha256 (a2 ++ b2) /\ l1 = l2) as [Hsha <-].
  { revert Hc1 Hc2. generalize (sha256 (a1 ++ b1)) (sha256 (a2 ++ b2)). intros h1 h2 [= <-] [= -> ->]. done. }
  apply Forall_cons in H1 as [Ha1 [Hb1 H1]%Forall_cons].
  apply Forall_cons in H2 as [Ha2 [Hb2 H2]%Forall_cons]. unfold node32 in *.
  assert (a1 ++ b1 = a2 ++ b2) as Hab by (apply Hcf; [constructor..|done]).
  apply app_inj_1 in Hab as [-> ->]; [|congruence]. do 2 f_equal.
  eapply (IH (length n1)); [lia|done|lia|done|done|exact E1|exact E2|].
  eapply collision_free_mono; [| |exact Hcf]; apply list_subseteq_skip'.
Qed.

Lemma dup_last_inj l1 l2 : length l1 = length l2 -> dup_last l1 = dup_last l2 -> l1 = l2.
Proof. unfold dup_last. intros Hl Heq. by apply app_inj_1 in Heq as [-> _]. Qed.

Lemma next_level_inj l1 l2 : length l1 = length l2 -> next_level l1 = next_level l2 -> l1 = l2.
Proof. unfold next_level. intros Hl. rewrite Hl. destruct (_ && _); [by apply dup_last_inj|done]. Qed.

Lemma dup_last_32 l : Forall node32 l -> Forall node32 (dup_last l).
Proof.
  intros Hl. unfold dup_last. apply Forall_app. split; [done|]. destruct (last l) as [x|] eqn:Hx; [|constructor].
  apply Forall_singleton. rewrite Forall_forall in Hl. apply Hl. apply last_Some in Hx as [l' ->]. set_solver.
Qed.

Lemma build_loop_inj fuel : forall n1 n2 root a1 a2 a1' a2',
  level_ok n1 -> length n1 = length n2 -> Forall node32 n1 -> Forall node32 n2 ->
  build_loop fuel n1 a1 = Some ([root], a1') -> build_loop fuel n2 a2 = Some ([root], a2') ->
  collision_free (loop_inputs fuel n1) (loop_inputs fuel n2) -> n1 = n2.
Proof.
  induction fuel as [|fuel IH]; intros n1 n2 root a1 a2 a1' a2' Hok Hl H1 H2 Hb1 Hb2 Hcf; [done|].
  destruct (decide (1 < length n1)%nat) as [Hgt|Hgt].
  - assert (level_ok n2) as Hok2 by (unfold level_ok in *; by rewrite <- Hl).
    destruct (build_loop_step fuel n1 a1 Hok Hgt) as (l1 & Hc1 & Hl1 & E1).
    destruct (build_loop_step fuel n2 a2 Hok2 ltac:(lia)) as (l2 & Hc2 & Hl2 & E2).
    rewrite E1 in Hb1. rewrite E2 in Hb2. cbn [loop_inputs] in Hcf.
    rewrite !(proj2 (Nat.ltb_lt _ _)), Hc1, Hc2 in Hcf by lia.
    assert (Forall node32 (next_level l1) /\ Forall node32 (next_level l2)) as [H1' H2'].
    { unfold next_level. split; (destruct (_ && _); [apply dup_last_32|]); by eapply combine_level_32. }
    assert (l1 = l2) as <-.
    { apply next_level_inj; [lia|]. eapply (IH _ _ root (a1 ++ l1) (a2 ++ l2)); [apply next_level_ok; lia| |done|done|done|done|].
      - unfold next_level. assert (length l1 = length l2) as -> by lia. destruct (_ && _); [|lia].
        rewrite !length_dup_last; [lia|by intros ->; simpl in *; lia..].
      - eapply collision_free_mono; [| |exact Hcf]; set_solver. }
    eapply combine_level_inj; [reflexivity|done|done|done|done|done|].
    eapply collision_free_mono; [| |exact Hcf]; set_solver.
  - cbn [build_loop] in Hb1, Hb2. rewrite (proj2 (Nat.ltb_ge _ _)) in Hb1 by lia.
    rewrite (proj2 (Nat.ltb_ge _ _)) in Hb2 by lia. congruence.
Qed.

Lemma map_sha_inj bs1 : forall bs2, (sha256 <$> bs1) = (sha256 <$> bs2) -> collision_free bs1 bs2 -> bs1 = bs2.
Proof.
  induction bs1 as [|b1 bs1 IH]; intros [|b2 bs2] Heq Hcf; try done.
  assert (sha256 b1 = sha256 b2 /\ (sha256 <$> bs1) = (sha256 <$> bs2)) as [Hb Heq'].
  { revert Heq. cbn [fmap list_fmap]. generalize (sha256 b1) (sha256 b2). intros h1 h2 [= -> ->]. done. }
  f_equal.
  - apply Hcf; [constructor|constructor|done].
  - apply IH; [exact Heq'|]. eapply collision_free_mono; [| |exact Hcf]; apply list_subseteq_skip'.
Qed.

Lemma leaves_32 blocks : Forall node32 (pad_even (sha256 <$> blocks)).
Proof.
  assert (Forall node32 (sha256 <$> blocks)) as Hl by (apply Forall_fmap, Forall_true; intros; apply length_sha256).
  unfold pad_even. destruct (negb _); [by apply dup_last_32|done].
Qed.

Lemma combine_level_bytes nodes : forall level, combine_level nodes = Some level -> Forall (Forall byte_ok) level.
Proof.
  remember (length nodes) as n eqn:Hn. revert nodes Hn. induction n as [n IH] using lt_wf_ind. intros nodes Hn level.
  destruct nodes as [|a [|b nodes]]; cbn [combine_level]; [intros [= <-]; constructor|done|].
  destruct (combine_level nodes) as [l|] eqn:Hc; [|done]. intros [= <-]. constructor; [apply sha256_bytes|].
  eapply (IH (length nodes)); [subst; simpl; lia|done|done].
Qed.

Lemma dup_last_bytes l : Forall (Forall byte_ok) l -> Forall (Forall byte_ok) (dup_last l).
Proof.
  intros Hl. unfold dup_last. apply Forall_app. split; [done|]. destruct (last l) as [x|] eqn:Hx; [|constructor].
  apply Forall_singleton. rewrite Forall_forall in Hl. apply Hl. apply last_Some in Hx as [l' ->]. set_solver.
Qed.

Lemma build_loop_bytes fuel : forall nodes all res all',
  Forall (Forall byte_ok) nodes -> build_loop fuel nodes all = Some (res, all') -> Forall (Forall byte_ok) res.
Proof.
  induction fuel as [|fuel IH]; intros nodes all res all' Hn; [done|]. cbn [build_loop].
  destruct (1 <? length nodes)%nat; [|intros [= <- _]; done].
  destruct (combine_level nodes) as [level|] eqn:Hc; [|done]. apply IH.
  destruct (_ && _); [apply dup_last_bytes|]; by eapply combine_level_bytes.
Qed.

Lemma root_bytes fuel blocks all root all' :
  build_loop fuel (pad_even (sha256 <$> blocks)) all = Some ([root], all') -> Forall byte_ok root.
Proof.
  intros Hb. apply build_loop_bytes in Hb; [by inversion Hb|].
  assert (Forall (Forall byte_ok) (sha256 <$> blocks)) as Hl by (apply Forall_fmap, Forall_true; intros; apply sha256_bytes).
  unfold pad_even. destruct (negb _); [by apply dup_last_bytes|done].
Qed.

Lemma build_loop_32 fuel : forall nodes all root all',
  Forall node32 nodes -> build_loop fuel nodes all = Some ([root], all') -> node32 root.
Proof.
  induction fuel as [|fuel IH]; intros nodes all root all' Hn; [done|]. cbn [build_loop].
  destruct (1 <? length nodes)%nat; [|intros [= -> _]; by inversion Hn].
  destruct (combine_level nodes) as [level|] eqn:Hc; [|done]. apply IH.
  destruct (_ && _); [apply dup_last_32|]; by eapply combine_level_32.
Qed.

Lemma root_nonempty fuel blocks all root all' :
  build_loop fuel (pad_even (sha256 <$> blocks)) all = Some ([root], all') -> root <> [].
Proof. intros Hb ->. by apply build_loop_32 in Hb; [|apply leaves_32]. Qed.

(** Equal roots of equally many blocks. *)
Lemma same_size_binding (bs1 bs2 : list bytes) (t1 t2 : MerkleTree) :
  length bs1 = length bs2 -> BuildTree bs1 = Some t1 -> BuildTree bs2 = Some t2 -> RootHex t1 = RootHex t2 ->
  collision_free (tree_hashed bs1) (tree_hashed bs2) -> bs1 = bs2.
Proof.
  intros Hl Ht1 Ht2 Hr Hcf. destruct (decide (bs1 = [])) as [->|Hne1]; [by destruct bs2|].
  assert (bs2 <> []) as Hne2 by (intros ->; by destruct bs1).
  destruct (BuildTree_root bs1 Hne1) as (t1' & r1 & E1 & Hr1 & _ & H1). rewrite Ht1 in E1. injection E1 as <-.
  destruct (BuildTree_root bs2 Hne2) as (t2' & r2 & E2 & Hr2 & _ & H2). rewrite Ht2 in E2. injection E2 as <-.
  set (p1 := pad_even (sha256 <$> bs1)) in *. set (p2 := pad_even (sha256 <$> bs2)) in *.
  assert (length p1 = length p2) as Hpl.
  { subst p1 p2. unfold pad_even. rewrite !length_fmap, Hl. destruct (negb _); [|by rewrite !length_fmap].
    rewrite !length_dup_last; [by rewrite !length_fmap, Hl|by destruct bs2|by destruct bs1]. }
  destruct (H1 (S (length p1)) [] ltac:(lia)) as (a1 & L1). destruct (H2 (S (length p1)) [] ltac:(lia)) as (a2 & L2).
  assert (r1 = r2) as <-.
  { unfold RootHex in Hr. rewrite Hr1, Hr2 in Hr.
    apply hex_inj in Hr; [done|eapply root_bytes; exact L1|eapply root_bytes; exact L2]. }
  apply map_sha_inj; [|eapply collision_free_mono; [| |exact Hcf]; set_solver].
  assert (p1 = p2) as Hp.
  { eapply (build_loop_inj (S (length p1))); [apply pad_even_ok; by destruct bs1|done|apply leaves_32|apply leaves_32|exact L1|exact L2|].
    eapply collision_free_mono; [| |exact Hcf]; unfold tree_hashed; fold p1 p2; rewrite <- ?Hpl; set_solver. }
  subst p1 p2. unfold pad_even in Hp. rewrite !length_fmap, Hl in Hp. destruct (negb _); [|done].
  apply dup_last_inj in Hp; [done|]. by rewrite !length_fmap.
Qed.

(** Between snapshots of the same number of assets the root is binding: if
    the roots agree, the serialized assets are the same, one by one, unless
    SHA-256 collides on two of the strings hashed by the two trees. *)
Theorem same_size_root_binding (bs1 bs2 : list bytes) (t1 t2 : MerkleTree) :
  length bs1 = length bs2 -> BuildTree bs1 = Some t1 -> BuildTree bs2 = Some t2 -> RootHex t1 = RootHex t2 ->
  collision_free (tree_hashed bs1) (tree_hashed bs2) -> bs1 = bs2.
Proof.
  apply same_size_binding.
Qed.

Definition demo_blocks : list bytes := [[1]; [2]; [3]].
Definition demo_tree : MerkleTree := default (mkMerkleTree [] [] None) (BuildTree demo_blocks).

Lemma same_size_root_binding_witness : demo_blocks = [[1]; [2]; [3]].
Proof.
  apply (same_size_root_binding demo_blocks [[1]; [2]; [3]] demo_tree demo_tree);
    [reflexivity|vm_compute; reflexivity|vm_compute; reflexivity|reflexivity|].
  apply collision_free_b_spec. vm_compute. reflexivity.
Defined.

(** The tree of any set of blocks is built without panicking, and its leaf
    check accepts exactly what hashes like the block at that index. *)
Theorem buildtree_leaves (blocks : list bytes) :
  exists t, BuildTree blocks = Some t /\
    forall (i : Z) (data : bytes),
      VerifyLeaf t i data = true <->
      0 <= i /\ exists b, blocks !! Z.to_nat i = Some b /\ sha256 data = sha256 b.
Proof.
  assert (exists t, BuildTree blocks = Some t /\ mt_Leaves t = (sha256 <$> blocks)) as (t & Ht & Hl).
  { destruct (decide (blocks = [])) as [->|Hne]; [by eexists|].
    destruct (BuildTree_root blocks Hne) as (t & r & Ht & _ & Hl & _). by exists t. }
  exists t. split; [done|]. intros i data. unfold VerifyLeaf. rewrite Hl, length_fmap, list_lookup_fmap.
  destruct (Z.ltb_spec i 0), (Z.leb_spec (Z.of_nat (length blocks)) i); cbn [orb].
  - split; [done|]. lia.
  - split; [done|]. lia.
  - split; [done|]. intros (_ & b & Hb & _). apply lookup_lt_Some in Hb. lia.
  - destruct (blocks !! Z.to_nat i) as [b|] eqn:Hb; simpl.
    + rewrite bool_decide_eq_true. split.
      * intros Heq%hex_inj; [|apply sha256_bytes..]. split; [done|]. by exists b.
      * intros (_ & b' & Hb' & Heq). injection Hb' as <-. by rewrite Heq.
    + split; [done|]. by intros (_ & b' & Hb' & _).
Qed.

(** ** The service *)

(** [auditLog] is nil when no path is configured. *)
Record Service := mkService {
  sv_Enabled : bool; sv_MerkleTree : bool; sv_AuditLogPath : string;
  sv_auditLog : option AuditLog; sv_lastRoot : string; sv_hasPipeline : bool }.

(** What a snapshot logs. *)
Inductive snapshot_log := SnapDisabled | SnapListFailed | SnapDrift (prev new : string) | SnapTaken (root : string) | SnapPanic.

Section Service.
Context `{JSON AuditEntry}.

(** [assets] is [ListAssets] with each asset serialized, or its error; [now],
    [written] and [sync_ok] are those of the audit write. *)
Definition takeSnapshot (s : Service) (assets : option (list bytes)) (now : gotime) (written : nat) (sync_ok : bool)
  : Service * snapshot_log :=
  if negb (sv_MerkleTree s) then (s, SnapDisabled)
  else
    match assets with
    | None => (s, SnapListFailed)
    | Some blocks =>
        match BuildTree blocks with
        | None => (s, SnapPanic)
        | Some tree =>
            let root := RootHex tree in
            let log := if negb (bool_decide (sv_lastRoot s = "")) && negb (bool_decide (sv_lastRoot s = root))
                       then SnapDrift (sv_lastRoot s) root else SnapTaken root in
            let al := (fun al => (Append al "snapshot" "merkle_tree" root now written sync_ok).1) <$> sv_auditLog s in
            (mkService (sv_Enabled s) (sv_MerkleTree s) (sv_AuditLogPath s) al root (sv_hasPipeline s), log)
        end
    end.

Definition LogAction (s : Service) (action subject details : string) (now : gotime) (written : nat) (sync_ok : bool) : Service :=
  match sv_auditLog s with
  | None => s
  | Some al =>
      mkService (sv_Enabled s) (sv_MerkleTree s) (sv_AuditLogPath s)
        (Some (Append al action subject details now written sync_ok).1) (sv_lastRoot s) (sv_hasPipeline s)
  end.

(** The alert pushed when the chain does not verify; [err_text] renders the
    error. *)
Definition verifyAuditLog (err_text : aerror -> string) (s : Service) (data : option bytes) (now : gotime) : option NetworkEvent :=
  if bool_decide (sv_AuditLogPath s = "") then None
  else
    match Verify data with
    | None => None
    | Some e =>
        if sv_hasPipeline s then
          Some (mkNetworkEvent "" EventAlert "integrity-verifier" "audit-log"
            (<["error" := VString (err_text e)]> (<["severity" := VString "critical"]>
              (<["log_path" := VString (sv_AuditLogPath s)]> ∅))) now [] "")
        else None
    end.

(** Successive snapshots: drift is reported exactly when the previous root
    is known and differs; for asset sets of one size, "no drift" means the
    assets are unchanged (up to a SHA-256 collision); each snapshot's root goes
    into the audit log. *)
Theorem snapshot_drift (s : Service) (bs1 bs2 : list bytes) (now1 now2 : gotime) (w1 w2 : nat) :
  sv_MerkleTree s = true -> bs1 <> [] -> length bs1 = length bs2 ->
  let '(s1, log1) := takeSnapshot s (Some bs1) now1 w1 true in
  let '(s2, log2) := takeSnapshot s1 (Some bs2) now2 w2 true in
  exists r1 r2, sv_lastRoot s1 = r1 /\ sv_lastRoot s2 = r2 /\
    log2 = (if bool_decide (r1 = r2) then SnapTaken r2 else SnapDrift r1 r2) /\
    (collision_free (tree_hashed bs1) (tree_hashed bs2) -> r1 = r2 -> bs1 = bs2) /\
    sv_auditLog s2 = (fun al => (Append (Append al "snapshot" "merkle_tree" r1 now1 w1 true).1
                                        "snapshot" "merkle_tree" r2 now2 w2 true).1) <$> sv_auditLog s.
Proof.
  intros Hm Hne Hl. assert (bs2 <> []) as Hne2 by (intros ->; by destruct bs1).
  destruct (BuildTree_root bs1 Hne) as (t1 & r1 & Ht1 & Hr1 & _ & H1).
  destruct (BuildTree_root bs2 Hne2) as (t2 & r2 & Ht2 & Hr2 & _ & _).
  unfold takeSnapshot. rewrite Hm, Ht1. cbn [negb sv_MerkleTree]. rewrite Ht2. cbn [sv_lastRoot sv_auditLog].
  exists (RootHex t1), (RootHex t2). split; [done|]. split; [done|]. split; [|split].
  - assert (RootHex t1 <> "") as Hnz.
    { unfold RootHex. rewrite Hr1. destruct (H1 _ [] (Nat.lt_succ_diag_r _)) as (a & Hb).
      assert (r1 <> []) as Hr by (eapply root_nonempty; exact Hb). by destruct r1. }
    rewrite (bool_decide_eq_false_2 (RootHex t1 = "")) by done. by case_bool_decide.
  - intros Hcf Hr. by eapply same_size_binding.
  - by destruct (sv_auditLog s).
Qed.
End Service.

Module IntegrityDemo.
Import AuditDemo.
Definition service0 : Service := mkService true true "audit.log" (Some al0) "" true.

Lemma snapshot_drift_witness :
  let '(s1, log1) := takeSnapshot service0 (Some [[1]; [2]]) 10 4000 true in
  let '(s2, log2) := takeSnapshot s1 (Some [[1]; [3]]) 20 4000 true in
  exists r1 r2, sv_lastRoot s1 = r1 /\ sv_lastRoot s2 = r2 /\
    log2 = (if bool_decide (r1 = r2) then SnapTaken r2 else SnapDrift r1 r2) /\
    (collision_free (tree_hashed [[1]; [2]]) (tree_hashed [[1]; [3]]) -> r1 = r2 -> [[1]; [2]] = [[1]; [3]]) /\
    sv_auditLog s2 = (fun al => (Append (Append al "snapshot" "merkle_tree" r1 10 4000 true).1
                                        "snapshot" "merkle_tree" r2 20 4000 true).1) <$> sv_auditLog service0.
Proof.
  apply (snapshot_drift service0 [[1]; [2]] [[1]; [3]] 10 20 4000 4000); [reflexivity|discriminate|reflexivity].
Defined.
End IntegrityDemo.
