(* ===== verification/Identity.v ===== *)
(** * Identities

    internal/identity: principal.go, roles.go, credential.go and
    memory_store.go.  The stores keep Go pointers to principals, so that a change
    of status is seen through every copy of the pointer; principals live in a
    [heap] and the stores hold locations.  The concrete credentials of the package
    (password_totp.go, apikey.go, mtls.go) are the constructors of
    [Credential]. *)
From stdpp Require Import base list strings gmap.
From Stdlib Require Import ZArith Lia Bool Ascii.
From S2P Require Import Prelude Models GoStrings.
Local Open Scope string_scope.
Local Open Scope list_scope.

(** ** Principals *)

Definition PrincipalHuman := "human".
Definition PrincipalService := "service".
Definition PrincipalAgent := "agent".
Definition StatusActive := "active".
Definition StatusSuspended := "suspended".
Definition StatusRevoked := "revoked".

(** [Claims] may be nil, [LastSeenAt] is a pointer. *)
Record Principal := mkPrincipal {
  ID : string; Type_ : string; Subject : string; DisplayName : string; Status : string;
  Roles : list string; Claims : option (gmap string gany); CreatedAt : gotime; LastSeenAt : option gotime }.

Definition IsActive (p : option Principal) : bool :=
  match p with None => false | Some p => bool_decide (Status p = StatusActive) end.

Definition Claim (p : option Principal) (name : string) : string :=
  match p with
  | None => ""
  | Some p =>
      match Claims p with
      | None => ""
      | Some m => match m !! name with Some (VString v) => v | _ => "" end
      end
  end.

Definition HasRole (p : option Principal) (name : string) : bool :=
  match p with None => false | Some p => existsb (String.eqb name) (Roles p) end.

Definition set_Roles (p : Principal) (r : list string) : Principal :=
  mkPrincipal (ID p) (Type_ p) (Subject p) (DisplayName p) (Status p) r (Claims p) (CreatedAt p) (LastSeenAt p).
Definition set_Status (p : Principal) (s : string) : Principal :=
  mkPrincipal (ID p) (Type_ p) (Subject p) (DisplayName p) s (Roles p) (Claims p) (CreatedAt p) (LastSeenAt p).
Definition set_LastSeenAt (p : Principal) (t : gotime) : Principal :=
  mkPrincipal (ID p) (Type_ p) (Subject p) (DisplayName p) (Status p) (Roles p) (Claims p) (CreatedAt p) (Some t).

(** ** Roles *)

(** [None] for a nil certificate; otherwise its Subject's OU entries. *)
Definition RolesFromCert (cert : option (list string)) : list string :=
  match cert with
  | None => []
  | Some ous =>
      omap (fun ou =>
        if negb (HasPrefix ou "role:") then None
        else let name := TrimSpace (TrimPrefix ou "role:") in
             if bool_decide (name = "") then None else Some name) ous
  end.

Fixpoint assign_loop (seen : gset string) (names : list string) : list string :=
  match names with
  | [] => []
  | n :: names' =>
      let n := TrimSpace n in
      if bool_decide (n = "") || bool_decide (n ∈ seen) then assign_loop seen names'
      else n :: assign_loop ({[n]} ∪ seen) names'
  end.

Definition AssignRoles (p : option Principal) (names : list string) : option Principal :=
  match p with None => None | Some p => Some (set_Roles p (assign_loop ∅ names)) end.

(** ** Credentials *)

Inductive CredentialKind := CredentialPassword | CredentialWebAuthn | CredentialAPIKey | CredentialMTLS | CredentialOIDC.

Record AuthFactor := mkAuthFactor {
  f_Kind : CredentialKind; f_Subject : string; f_Proof : bytes; f_Extra : gmap string gany }.

Inductive iderror :=
| ErrPrincipalNotFound | ErrPrincipalInactive | ErrCredentialNotFound | ErrCredentialInvalid | ErrInsufficientFactor
| ErrUnsupportedFactor | ErrRequired | ErrRandom | ErrBcrypt.

(** The credentials of password_totp.go, apikey.go and mtls.go with their
    fields. *)
Inductive Credential :=
| PasswordTOTPCredential (principalID subject : string) (passwordHash : bytes) (totpSecret issuer : string)
| APIKeyCredential (principalID keyID : string) (hash : bytes) (label : string)
| MTLSCredential (principalID subject fingerprint : string).

Definition Kind (c : Credential) : CredentialKind :=
  match c with
  | PasswordTOTPCredential _ _ _ _ _ => CredentialPassword
  | APIKeyCredential _ _ _ _ => CredentialAPIKey
  | MTLSCredential _ _ _ => CredentialMTLS
  end.

Definition PrincipalID (c : Credential) : string :=
  match c with
  | PasswordTOTPCredential principalID _ _ _ _ => principalID
  | APIKeyCredential principalID _ _ _ => principalID
  | MTLSCredential principalID _ _ => principalID
  end.

(** The subject a credential is indexed under: a certificate by its
    fingerprint. *)
Definition cred_Subject (c : Credential) : string :=
  match c with
  | PasswordTOTPCredential _ subject _ _ _ => subject
  | APIKeyCredential _ keyID _ _ => keyID
  | MTLSCredential _ _ fingerprint => fingerprint
  end.

#[export] Instance CredentialKind_eq_dec : EqDecision CredentialKind.
Proof. solve_decision. Defined.
#[export] Instance Credential_eq_dec : EqDecision Credential.
Proof. solve_decision. Defined.
Definition kind_code (k : CredentialKind) : nat :=
  match k with
  | CredentialPassword => 0 | CredentialWebAuthn => 1 | CredentialAPIKey => 2 | CredentialMTLS => 3 | CredentialOIDC => 4
  end.
Definition kind_of_code (n : nat) : CredentialKind :=
  match n with
  | 0%nat => CredentialPassword | 1%nat => CredentialWebAuthn | 2%nat => CredentialAPIKey | 3%nat => CredentialMTLS
  | _ => CredentialOIDC
  end.
#[export] Instance CredentialKind_countable : Countable CredentialKind.
Proof. refine (inj_countable' kind_code kind_of_code _). by intros []. Defined.

(** ** Stores *)

Abbreviation loc := nat (only parsing).
Abbreviation heap := (gmap nat Principal) (only parsing).

Module MemoryPrincipalStore.
Record t := mk { byID : gmap string loc; bySubject : gmap string string }.

Definition New : t := mk ∅ ∅.

Definition Get (s : t) (id : string) : iderror + loc :=
  match byID s !! id with None => inl ErrPrincipalNotFound | Some p => inr p end.

(** A subject whose id is unknown gives the nil pointer. *)
Definition FindBySubject (s : t) (subject : string) : iderror + option loc :=
  match bySubject s !! subject with None => inl ErrPrincipalNotFound | Some id => inr (byID s !! id) end.

(** [p] is a pointer; a dangling one cannot occur in Go ([None]). *)
Definition Save (s : t) (h : heap) (p : option loc) : option (t * option iderror) :=
  match p with
  | None => Some (s, Some ErrPrincipalNotFound)
  | Some l =>
      match h !! l with
      | None => None
      | Some p =>
          if bool_decide (ID p = "") then Some (s, Some ErrPrincipalNotFound)
          else
            let byID' := <[ID p := l]> (byID s) in
            Some (mk byID' (if bool_decide (Subject p = "") then bySubject s else <[Subject p := ID p]> (bySubject s)), None)
      end
  end.

Definition UpdateStatus (s : t) (h : heap) (id status : string) : heap * option iderror :=
  match byID s !! id with
  | None => (h, Some ErrPrincipalNotFound)
  | Some l => (alter (fun p => set_Status p status) l h, None)
  end.

Definition UpdateLastSeen (s : t) (h : heap) (id : string) (at_ : gotime) : heap * option iderror :=
  match byID s !! id with
  | None => (h, Some ErrPrincipalNotFound)
  | Some l => (alter (fun p => set_LastSeenAt p at_) l h, None)
  end.
End MemoryPrincipalStore.

Module MemoryCredentialStore.
Abbreviation credentialKey := (CredentialKind * string)%type (only parsing).
Record t := mk { credentials : gmap credentialKey Credential; byPrincipal : gmap string (list credentialKey) }.

Definition New : t := mk ∅ ∅.

Definition appendUnique (slice : list credentialKey) (k : credentialKey) : list credentialKey :=
  if existsb (fun existing => bool_decide (existing = k)) slice then slice else slice ++ [k].

Definition removeKey (slice : list credentialKey) (k : credentialKey) : list credentialKey :=
  filter (fun existing => existing <> k) slice.

Definition Lookup (s : t) (principalID : string) : list Credential :=
  omap (fun k => credentials s !! k) (default [] (byPrincipal s !! principalID)).

Definition FindBySubject (s : t) (kind : CredentialKind) (subject : string) : iderror + Credential :=
  match credentials s !! (kind, subject) with None => inl ErrCredentialNotFound | Some c => inr c end.

Definition Save (s : t) (c : Credential) : t :=
  let key := (Kind c, cred_Subject c) in
  mk (<[key := c]> (credentials s))
     (<[PrincipalID c := appendUnique (default [] (byPrincipal s !! PrincipalID c)) key]> (byPrincipal s)).

Definition Revoke (s : t) (kind : CredentialKind) (subject : string) : t * option iderror :=
  let key := (kind, subject) in
  match credentials s !! key with
  | None => (s, Some ErrCredentialNotFound)
  | Some c =>
      (mk (delete key (credentials s))
          (if bool_decide (PrincipalID c = "") then byPrincipal s
           else <[PrincipalID c := removeKey (default [] (byPrincipal s !! PrincipalID c)) key]> (byPrincipal s)), None)
  end.
End MemoryCredentialStore.

(** ** Invariant of the credential store *)
Section CredentialIndex.
Import MemoryCredentialStore.

(** The states the operations can produce. *)
Inductive reachable : t -> Prop :=
| reachable_New : reachable New
| reachable_Save s c : reachable s -> reachable (Save s c)
| reachable_Revoke s kind subject : reachable s -> reachable (Revoke s kind subject).1.

(** Credentials are stored under their own key and listed under their
    principal. *)
Definition indexed (s : t) : Prop := forall k c, credentials s !! k = Some c ->
  k = (Kind c, cred_Subject c) /\ k ∈ default [] (byPrincipal s !! PrincipalID c).

Lemma elem_of_appendUnique l k x : x ∈ appendUnique l k <-> x ∈ l \/ x = k.
Proof.
  unfold appendUnique. destruct (existsb _ l) eqn:He; [|set_solver].
  apply existsb_exists in He as (y & Hy & Hd). apply bool_decide_eq_true_1 in Hd as ->.
  apply list_elem_of_In in Hy. naive_solver.
Qed.

Lemma elem_of_removeKey l k x : x ∈ removeKey l k <-> x ∈ l /\ x <> k.
Proof. unfold removeKey. rewrite list_elem_of_filter. tauto. Qed.

Lemma save_indexed s c : indexed s -> indexed (Save s c).
Proof.
  intros Hi k c' Hk. unfold Save in *. simpl in *. destruct (decide (k = (Kind c, cred_Subject c))) as [->|Hne].
  - rewrite lookup_insert_eq in Hk. injection Hk as <-. split; [done|]. rewrite lookup_insert_eq. simpl.
    apply elem_of_appendUnique. by right.
  - rewrite lookup_insert_ne in Hk by done. destruct (Hi k c' Hk) as [? Hin]. split; [done|].
    destruct (decide (PrincipalID c' = PrincipalID c)) as [He|].
    + rewrite He, lookup_insert_eq. simpl. apply elem_of_appendUnique. left. by rewrite He in Hin.
    + by rewrite lookup_insert_ne.
Qed.

Lemma revoke_indexed s kind subject : indexed s -> indexed (Revoke s kind subject).1.
Proof.
  intros Hi. unfold Revoke. destruct (credentials s !! (kind, subject)) as [c|] eqn:Hc; [|done].
  intros k c' Hk. simpl in *. apply lookup_delete_Some in Hk as [Hne Hk]. destruct (Hi k c' Hk) as [? Hin].
  split; [done|]. case_bool_decide; [done|].
  destruct (decide (PrincipalID c' = PrincipalID c)) as [He|].
  - rewrite He, lookup_insert_eq. simpl. apply elem_of_removeKey. rewrite He in Hin. done.
  - by rewrite lookup_insert_ne.
Qed.

Lemma reachable_indexed s : reachable s -> indexed s.
Proof. induction 1; [intros k c Hk; unfold New in Hk; simpl in Hk; by rewrite lookup_empty in Hk|by apply save_indexed|by apply revoke_indexed]. Qed.

Lemma elem_of_Lookup s pid c :
  c ∈ Lookup s pid <-> exists k, k ∈ default [] (byPrincipal s !! pid) /\ credentials s !! k = Some c.
Proof. unfold Lookup. by rewrite list_elem_of_omap. Qed.

(** The credential store keeps its two maps in step: in every state the
    operations can produce, a credential found by kind and subject carries that
    kind and subject and is among those listed for its principal; once revoked it
    is found neither way, and nothing else disappears. *)
Theorem credential_store_spec (s : t) (kind : CredentialKind) (subject : string) (c : Credential) :
  reachable s -> FindBySubject s kind subject = inr c ->
  Kind c = kind /\ cred_Subject c = subject /\ c ∈ Lookup s (PrincipalID c) /\
  exists s', Revoke s kind subject = (s', None) /\ reachable s' /\
    FindBySubject s' kind subject = inl ErrCredentialNotFound /\ (forall pid, c ∉ Lookup s' pid) /\
    forall kind' subject', (kind', subject') <> (kind, subject) ->
      FindBySubject s' kind' subject' = FindBySubject s kind' subject'.
Proof.
  intros Hr Hf. pose proof (reachable_indexed _ Hr) as Hi. unfold FindBySubject in Hf.
  destruct (credentials s !! (kind, subject)) as [c0|] eqn:Hc; [|done]. injection Hf as ->.
  destruct (Hi _ _ Hc) as [[= Hk Hs] Hin]. split_and!; [done|done|apply elem_of_Lookup; eauto|].
  pose proof (reachable_Revoke s kind subject Hr) as Hr'. pose proof (reachable_indexed _ Hr') as Hi'.
  exists (Revoke s kind subject).1. unfold Revoke, FindBySubject in *. rewrite Hc in *. cbn [fst] in *.
  split_and!; [done|done| | |].
  - simpl. by rewrite lookup_delete_eq.
  - intros pid. rewrite elem_of_Lookup. intros (k & _ & Hk'). destruct (Hi' _ _ Hk') as [-> _]. simpl in Hk'.
    rewrite <- Hk, <- Hs, lookup_delete_eq in Hk'. done.
  - intros k' s' Hne. simpl. by rewrite lookup_delete_ne by done.
Qed.

(** Saving a credential under another principal does not remove it from the
    previous owner's index, so [Lookup] of the previous owner returns a credential
    that is not bound to it. *)
Theorem reassigned_credential_listed_twice (s : t) (c c' : Credential) :
  Kind c' = Kind c -> cred_Subject c' = cred_Subject c -> PrincipalID c' <> PrincipalID c ->
  c' ∈ Lookup (Save (Save s c) c') (PrincipalID c).
Proof.
  intros Hk Hs Hp. apply elem_of_Lookup. exists (Kind c, cred_Subject c). unfold Save. simpl. rewrite Hk, Hs. split.
  - rewrite lookup_insert_ne, lookup_insert_eq by done. simpl. apply elem_of_appendUnique. by right.
  - by rewrite lookup_insert_eq.
Qed.
End CredentialIndex.

(** ** Roles of a principal *)

Lemma elem_of_assign_loop names : forall seen r,
  r ∈ assign_loop seen names <-> r <> "" /\ r ∉ seen /\ r ∈ map TrimSpace names.
Proof.
  induction names as [|n names IH]; intros seen r; cbn [assign_loop map]; [set_solver|].
  destruct (bool_decide (TrimSpace n = "")) eqn:H1; cbn [orb].
  { apply bool_decide_eq_true_1 in H1. rewrite IH, H1. set_solver. }
  apply bool_decide_eq_false_1 in H1. destruct (bool_decide (TrimSpace n ∈ seen)) eqn:H2.
  { apply bool_decide_eq_true_1 in H2. rewrite IH. set_solver. }
  apply bool_decide_eq_false_1 in H2. rewrite elem_of_cons, IH.
  destruct (decide (r = TrimSpace n)) as [->|]; set_solver.
Qed.

Lemma NoDup_assign_loop names : forall seen, NoDup (assign_loop seen names).
Proof.
  induction names as [|n names IH]; intros seen; cbn [assign_loop]; [constructor|].
  destruct (_ || _); [apply IH|]. constructor; [|apply IH]. rewrite elem_of_assign_loop. set_solver.
Qed.

(** Role assignment replaces the role set by exactly the trimmed non-empty
    names, each once; nothing else of the principal changes. *)
Theorem assign_roles_spec (p : Principal) (names : list string) :
  exists p', AssignRoles (Some p) names = Some p' /\ NoDup (Roles p') /\
    (forall r, HasRole (Some p') r = true <-> r <> "" /\ r ∈ map TrimSpace names) /\
    p' = set_Roles p (Roles p').
Proof.
  exists (set_Roles p (assign_loop ∅ names)). split_and!; [done|apply NoDup_assign_loop| |done].
  intros r. simpl. rewrite existsb_exists. split.
  - intros (x & Hx & ->%String.eqb_eq). apply list_elem_of_In, elem_of_assign_loop in Hx. set_solver.
  - intros [Hne Hin]. exists r. rewrite String.eqb_refl. split; [|done]. apply list_elem_of_In, elem_of_assign_loop.
    set_solver.
Qed.

Module IdentityDemo.
Import MemoryCredentialStore.
Definition key1 : Credential := APIKeyCredential "agent-1" "k1" [1]%Z "ci".
Definition key2 : Credential := APIKeyCredential "agent-2" "k1" [2]%Z "ci".
Definition s1 : t := Save New key1.

Lemma credential_store_spec_witness : key1 ∈ Lookup s1 "agent-1" /\
  exists s', Revoke s1 CredentialAPIKey "k1" = (s', None) /\
    FindBySubject s' CredentialAPIKey "k1" = inl ErrCredentialNotFound.
Proof.
  destruct (credential_store_spec s1 CredentialAPIKey "k1" key1) as (_ & _ & Hin & s' & Hr & _ & Hf & _).
  - apply reachable_Save, reachable_New.
  - vm_compute. reflexivity.
  - split; [exact Hin|]. exists s'. split; [exact Hr|exact Hf].
Defined.

Lemma reassigned_credential_listed_twice_witness : key2 ∈ Lookup (Save s1 key2) "agent-1".
Proof. apply (reassigned_credential_listed_twice New key1 key2); [reflexivity|reflexivity|discriminate]. Defined.

Example roles_demo : RolesFromCert (Some ["role:service"; "unit"; "role: "; "role:rule-author"]) = ["service"; "rule-author"].
Proof. vm_compute. reflexivity. Qed.
End IdentityDemo.
