(* ===== verification/Authn.v ===== *)
(** * Authentication

    internal/identity: apikey.go, password_totp.go, mtls.go and
    authenticator.go.  bcrypt, TOTP validation, X.509 chain verification and the
    Unicode case table are arguments.  The authenticator is written, as in the
    code, against the two store interfaces. *)
From stdpp Require Import base list strings gmap.
From Stdlib Require Import ZArith Lia Bool Ascii.
From S2P Require Import Prelude Models GoStrings Sha256 Identity.
Local Open Scope string_scope.
Local Open Scope list_scope.

(** What the authenticator calls of [PrincipalStore] and [CredentialStore]
    (credential.go).  A principal is a pointer, nil when [None]. *)
Class PrincipalStore (S : Type) := ps_Get : S -> string -> iderror + option loc.
Class CredentialStore (S : Type) := cs_FindBySubject : S -> CredentialKind -> string -> iderror + Credential.

#[export] Instance memory_principals : PrincipalStore MemoryPrincipalStore.t :=
  fun s id => match MemoryPrincipalStore.Get s id with inl e => inl e | inr l => inr (Some l) end.
#[export] Instance memory_credentials : CredentialStore MemoryCredentialStore.t := MemoryCredentialStore.FindBySubject.

(** The libraries the credentials call. *)
Class Libraries := {
  CompareHashAndPassword : bytes -> bytes -> bool;
  totp_Validate : string -> string -> bool;
  unicode_lower : string -> string;
}.

Section Authn.
Context `{Libraries}.

(** ** API keys *)

Definition APIKeyPrefix := "oswk_".

(** [rand1], [rand2] are the two reads of the random source, [generate] is
    [bcrypt.GenerateFromPassword] at the package's cost. *)
Definition NewAPIKey (rand1 rand2 : option bytes) (generate : bytes -> option bytes) (principalID label : string)
  : iderror + Credential * string :=
  if bool_decide (principalID = "") then inl ErrRequired
  else
    match rand1 with
    | None => inl ErrRandom
    | Some keyIDBytes =>
        match rand2 with
        | None => inl ErrRandom
        | Some secretBytes =>
            let keyID := hex_EncodeToString keyIDBytes in
            let secret := base64_RawURL secretBytes in
            match generate (go_bytes secret) with
            | None => inl ErrBcrypt
            | Some hash =>
                inr (APIKeyCredential principalID keyID hash label, APIKeyPrefix +:+ keyID +:+ "_" +:+ secret)
            end
        end
    end.

Definition LoadAPIKey (principalID keyID : string) (hash : bytes) (label : string) : Credential :=
  APIKeyCredential principalID keyID hash label.

Definition ParseAPIKey (presented : string) : iderror + string * string :=
  if negb (HasPrefix presented APIKeyPrefix) then inl ErrCredentialInvalid
  else
    match SplitN2 (TrimPrefix presented APIKeyPrefix) "_" with
    | [keyID; secret] =>
        if bool_decide (keyID = "") || bool_decide (secret = "") then inl ErrCredentialInvalid else inr (keyID, secret)
    | _ => inl ErrCredentialInvalid
    end.

(** ** Password and TOTP *)

Definition NewPasswordTOTPCredential (generate : bytes -> option bytes)
    (principalID subject plaintextPassword totpSecret issuer : string) : iderror + Credential :=
  if bool_decide (principalID = "") || bool_decide (subject = "") then inl ErrRequired
  else if bool_decide (plaintextPassword = "") then inl ErrRequired
  else if bool_decide (totpSecret = "") then inl ErrRequired
  else
    match generate (go_bytes plaintextPassword) with
    | None => inl ErrBcrypt
    | Some hash =>
        inr (PasswordTOTPCredential principalID subject hash totpSecret
              (if bool_decide (issuer = "") then "OWASAKA" else issuer))
    end.

Definition LoadPasswordTOTPCredential (principalID subject : string) (passwordHash : bytes) (totpSecret issuer : string)
  : Credential :=
  PasswordTOTPCredential principalID subject passwordHash totpSecret (if bool_decide (issuer = "") then "OWASAKA" else issuer).

(** ** Client certificates *)

Definition normalizeFingerprint (s : string) : string := ToLower unicode_lower (TrimSpace s).

Fixpoint hex_parts (s : string) : list string :=
  match s with
  | String a (String b s') => String a (String b "") :: hex_parts s'
  | String a EmptyString => [String a ""]
  | EmptyString => []
  end.

(** A certificate by its [RawSubjectPublicKeyInfo]. *)
Definition SPKIFingerprint (spki : bytes) : string := Join (hex_parts (hex_EncodeToString (sha256 spki))) ":".

Definition NewMTLSCredential (principalID subject : string) (leaf : option bytes) : iderror + Credential :=
  if bool_decide (principalID = "") || bool_decide (subject = "") then inl ErrRequired
  else match leaf with
       | None => inl ErrRequired
       | Some spki => inr (MTLSCredential principalID subject (SPKIFingerprint spki))
       end.

Definition LoadMTLSCredential (principalID subject fingerprint : string) : Credential :=
  MTLSCredential principalID subject (normalizeFingerprint fingerprint).

(** [verify] is [leaf.Verify] with the client-authentication key usage, the
    validator's roots and the current time. *)
Definition MTLSValidator_Validate (verify : bytes -> bool) (leaf : option bytes) : iderror + string :=
  match leaf with
  | None => inl ErrCredentialInvalid
  | Some spki => if negb (verify spki) then inl ErrCredentialInvalid else inr (SPKIFingerprint spki)
  end.

(** ** Verification of one factor *)

Definition verify_password (passwordHash : bytes) (totpSecret : string) (factor : AuthFactor) : option iderror :=
  if negb (bool_decide (f_Kind factor = CredentialPassword)) then Some ErrUnsupportedFactor
  else if negb (CompareHashAndPassword passwordHash (f_Proof factor)) then Some ErrCredentialInvalid
  else
    let code := match f_Extra factor !! "totp" with Some (VString code) => code | _ => "" end in
    if bool_decide (code = "") then Some ErrInsufficientFactor
    else if negb (totp_Validate code totpSecret) then Some ErrCredentialInvalid
    else None.

Definition verify_apikey (hash : bytes) (factor : AuthFactor) : option iderror :=
  if negb (bool_decide (f_Kind factor = CredentialAPIKey)) then Some ErrUnsupportedFactor
  else if negb (CompareHashAndPassword hash (f_Proof factor)) then Some ErrCredentialInvalid
  else None.

Definition verify_mtls (fingerprint : string) (factor : AuthFactor) : option iderror :=
  if negb (bool_decide (f_Kind factor = CredentialMTLS)) then Some ErrUnsupportedFactor
  else
    let presented := normalizeFingerprint (f_Subject factor) in
    if bool_decide (presented = "") || negb (bool_decide (presented = fingerprint)) then Some ErrCredentialInvalid
    else None.

Definition Verify (c : Credential) (factor : AuthFactor) : option iderror :=
  match c with
  | PasswordTOTPCredential _ _ passwordHash totpSecret _ => verify_password passwordHash totpSecret factor
  | APIKeyCredential _ _ hash _ => verify_apikey hash factor
  | MTLSCredential _ _ fingerprint => verify_mtls fingerprint factor
  end.

(** ** The authenticator *)

Fixpoint verify_all (c : Credential) (factors : list AuthFactor) : option iderror :=
  match factors with
  | [] => None
  | f :: factors' => match Verify c f with Some e => Some e | None => verify_all c factors' end
  end.

(** The factor-count policy per principal type. *)
Definition factor_policy (p : Principal) (kind : CredentialKind) (factors : list AuthFactor) : option iderror :=
  if bool_decide (Type_ p = PrincipalHuman) then
    if bool_decide (kind = CredentialPassword) then
      if negb (length factors =? 1)%nat then Some ErrInsufficientFactor else None
    else if (length factors <? 2)%nat then Some ErrInsufficientFactor else None
  else if bool_decide (Type_ p = PrincipalService) then
    if negb (bool_decide (kind = CredentialMTLS)) then Some ErrUnsupportedFactor else None
  else if bool_decide (Type_ p = PrincipalAgent) then None
  else Some ErrUnsupportedFactor.

Context {PS CS : Type} `{PrincipalStore PS} `{CredentialStore CS}.

Definition Authenticate (principals : PS) (h : heap) (creds : CS) (factors : list AuthFactor) : iderror + loc :=
  match factors with
  | [] => inl ErrInsufficientFactor
  | f0 :: _ =>
      let kind := f_Kind f0 in
      let subject := f_Subject f0 in
      match cs_FindBySubject creds kind subject with
      | inl ErrCredentialNotFound => inl ErrCredentialInvalid
      | inl e => inl e
      | inr cred =>
          match verify_all cred factors with
          | Some e => inl e
          | None =>
              match ps_Get principals (PrincipalID cred) with
              | inl e => inl e
              | inr pl =>
                  let p := match pl with Some l => h !! l | None => None end in
                  if negb (IsActive p) then inl ErrPrincipalInactive
                  else
                    match pl, p with
                    | Some l, Some p => match factor_policy p kind factors with Some e => inl e | None => inr l end
                    | _, _ => inl ErrPrincipalInactive
                    end
              end
          end
      end
  end.

(** ** What acceptance means *)

(** The factors a principal of each type needs. *)
Definition enough_factors (p : Principal) (kind : CredentialKind) (n : nat) : Prop :=
  (Type_ p = PrincipalHuman /\ (if decide (kind = CredentialPassword) then n = 1%nat else (2 <= n)%nat)) \/
  (Type_ p = PrincipalService /\ kind = CredentialMTLS) \/ Type_ p = PrincipalAgent.

Lemma verify_all_None c fs : verify_all c fs = None <-> forall f, f ∈ fs -> Verify c f = None.
Proof.
  induction fs as [|f fs IH]; cbn [verify_all]; [set_solver|]. destruct (Verify c f) eqn:Hv.
  - split; [done|]. intros Hall. specialize (Hall f ltac:(left)). by rewrite Hv in Hall.
  - rewrite IH. split; [intros Hall g [->|]%elem_of_cons; [done|by apply Hall]|]. intros Hall g Hg. apply Hall. by right.
Qed.

Lemma factor_policy_None p kind fs : factor_policy p kind fs = None <-> enough_factors p kind (length fs).
Proof.
  unfold factor_policy, enough_factors. destruct (decide (Type_ p = PrincipalHuman)) as [Hh|Hh].
  { rewrite bool_decide_eq_true_2 by done. rewrite Hh. unfold PrincipalHuman, PrincipalService, PrincipalAgent.
    destruct (decide (kind = CredentialPassword)) as [->|Hk].
    - rewrite bool_decide_eq_true_2 by done. destruct (Nat.eqb_spec (length fs) 1); simpl; naive_solver.
    - rewrite bool_decide_eq_false_2 by done. destruct (Nat.ltb_spec (length fs) 2); split; try done; [|by left].
      intros [[_ ?]|[[? ?]|?]]; [lia|done|done]. }
  rewrite bool_decide_eq_false_2 by done. destruct (decide (Type_ p = PrincipalService)) as [Hs|Hs].
  { rewrite bool_decide_eq_true_2 by done. rewrite Hs. unfold PrincipalHuman, PrincipalService, PrincipalAgent.
    destruct (decide (kind = CredentialMTLS)); [rewrite bool_decide_eq_true_2 by done|rewrite bool_decide_eq_false_2 by done]; naive_solver. }
  rewrite bool_decide_eq_false_2 by done. case_bool_decide; naive_solver.
Qed.

(** The credential, principal and policy an accepted attempt rests on. *)
Definition accepted (principals : PS) (h : heap) (creds : CS) (factors : list AuthFactor) (l : loc) : Prop :=
  exists f0 cred p, head factors = Some f0 /\
    cs_FindBySubject creds (f_Kind f0) (f_Subject f0) = inr cred /\
    (forall f, f ∈ factors -> Verify cred f = None) /\
    ps_Get principals (PrincipalID cred) = inr (Some l) /\ h !! l = Some p /\ Status p = StatusActive /\
    enough_factors p (f_Kind f0) (length factors).

Lemma authenticate_iff principals h creds factors l :
  Authenticate principals h creds factors = inr l <-> accepted principals h creds factors l.
Proof.
  unfold Authenticate, accepted. destruct factors as [|f0 fs]; [naive_solver|].
  set (factors := f0 :: fs). split.
  - destruct (cs_FindBySubject creds (f_Kind f0) (f_Subject f0)) as [[]|cred] eqn:Hc; try done.
    destruct (verify_all cred factors) eqn:Hv; [done|]. destruct (ps_Get principals (PrincipalID cred)) as [|[l'|]] eqn:Hg; [done| |done].
    destruct (h !! l') as [p|] eqn:Hp; [|done]. simpl. case_bool_decide; [|done]. simpl.
    destruct (factor_policy p (f_Kind f0) factors) eqn:Hf; [done|]. intros [= <-].
    exists f0, cred, p. split_and!; try done; [by apply verify_all_None|by apply (factor_policy_None p (f_Kind f0) factors)].
  - intros (f & cred & p & [= <-] & Hc & Hv & Hg & Hp & Hs & He). rewrite Hc.
    rewrite (proj2 (verify_all_None cred factors) Hv), Hg, Hp. simpl. rewrite bool_decide_eq_true_2 by done. simpl.
    by rewrite (proj2 (factor_policy_None p (f_Kind f0) factors) He).
Qed.

(** An attempt is accepted, with the principal returned, exactly when the
    first factor names a stored credential, every factor verifies against that
    credential, its principal exists and is active, and the number and kind of
    factors satisfy the policy of the principal's type. *)
Theorem authenticate_accepts_iff principals h creds factors l :
  Authenticate principals h creds factors = inr l <-> accepted principals h creds factors l.
Proof. apply authenticate_iff. Qed.

(** For a human with a credential other than a password the policy asks for
    two factors but accepts the same factor presented twice: an attempt refused
    for want of a second factor is accepted when the single factor is repeated. *)
Theorem repeated_factor_passes_mfa principals h creds f cred l p :
  cs_FindBySubject creds (f_Kind f) (f_Subject f) = inr cred -> Verify cred f = None ->
  ps_Get principals (PrincipalID cred) = inr (Some l) -> h !! l = Some p -> Status p = StatusActive ->
  Type_ p = PrincipalHuman -> f_Kind f <> CredentialPassword ->
  Authenticate principals h creds [f] = inl ErrInsufficientFactor /\ Authenticate principals h creds [f; f] = inr l.
Proof.
  intros Hc Hv Hg Hp Hs Ht Hk. split.
  - unfold Authenticate. rewrite Hc. cbn [verify_all]. rewrite Hv, Hg, Hp. simpl. rewrite bool_decide_eq_true_2 by done. simpl.
    unfold factor_policy. rewrite Ht. simpl. by rewrite bool_decide_eq_false_2.
  - apply authenticate_iff. exists f, cred, p. split_and!; try done; [set_solver|]. left. split; [done|].
    by rewrite decide_False.
Qed.
End Authn.

(** ** With the in-memory stores *)
Section Memory.
Context `{Libraries}.
Implicit Types (ps : MemoryPrincipalStore.t) (cs : MemoryCredentialStore.t).

Lemma set_Status_lookup (h : heap) l l' st :
  alter (fun p => set_Status p st) l h !! l' = if decide (l' = l) then (fun p => set_Status p st) <$> h !! l' else h !! l'.
Proof. destruct (decide (l' = l)) as [->|]; [by rewrite lookup_alter_eq|by rewrite lookup_alter_ne]. Qed.

(** Suspending or revoking a principal takes effect at once and on nobody
    else: after the status change, an attempt succeeds exactly when it would have
    succeeded before and resolves to another principal. *)
Theorem suspension_is_immediate ps cs (h h' : heap) (id st : string) (factors : list AuthFactor) (l : loc) :
  MemoryPrincipalStore.UpdateStatus ps h id st = (h', None) -> st <> StatusActive ->
  Authenticate ps h' cs factors = inr l <->
  Authenticate ps h cs factors = inr l /\ MemoryPrincipalStore.byID ps !! id <> Some l.
Proof.
  unfold MemoryPrincipalStore.UpdateStatus. destruct (MemoryPrincipalStore.byID ps !! id) as [l0|]; [|done].
  intros [= <-] Hst. rewrite !authenticate_iff. unfold accepted. setoid_rewrite set_Status_lookup.
  destruct (decide (l = l0)) as [->|Hne].
  - split; [|naive_solver]. intros (f0 & cred & p & _ & _ & _ & _ & Hp & Hs & _).
    destruct (h !! l0); [|done]. injection Hp as <-. done.
  - split; [intros Ha; split; [exact Ha|congruence]|by intros [Ha _]].
Qed.

Lemma base64_nonempty b : b <> [] -> base64_RawURL b <> "".
Proof. destruct b as [|x [|y [|z b]]]; done. Qed.

Lemma hex_nonempty b : b <> [] -> hex_EncodeToString b <> "".
Proof. by destruct b. Qed.

(** The presented form of a key splits into its parts again. *)
Lemma parse_issued keyID secret : free_of "_" keyID -> keyID <> "" -> secret <> "" ->
  ParseAPIKey (APIKeyPrefix +:+ keyID +:+ "_" +:+ secret) = inr (keyID, secret).
Proof.
  intros Hf Hk Hs. unfold ParseAPIKey, HasPrefix, TrimPrefix. rewrite strip_prefix_app. simpl.
  unfold SplitN2. change ("_" +:+ secret) with (String "_" secret). rewrite Cut_app by done.
  by rewrite !bool_decide_eq_false_2.
Qed.

(** An issued API key works: the string shown to the operator parses into
    the public id and the secret, and once the credential is saved, presenting
    them authenticates the agent it was issued to, whatever else the store
    holds; this rests on bcrypt accepting the password it hashed. *)
Theorem issued_key_authenticates (generate : bytes -> option bytes) (idBytes secretBytes : bytes)
    (principalID label presented : string) (cred : Credential) ps cs (h : heap) (l : loc) (p : Principal) :
  (forall pw hash, generate pw = Some hash -> CompareHashAndPassword hash pw = true) ->
  Forall byte_ok idBytes -> idBytes <> [] -> secretBytes <> [] ->
  NewAPIKey (Some idBytes) (Some secretBytes) generate principalID label = inr (cred, presented) ->
  MemoryPrincipalStore.Get ps principalID = inr l -> h !! l = Some p -> Type_ p = PrincipalAgent -> Status p = StatusActive ->
  exists keyID secret, ParseAPIKey presented = inr (keyID, secret) /\
    Authenticate ps h (MemoryCredentialStore.Save cs cred)
      [mkAuthFactor CredentialAPIKey keyID (go_bytes secret) ∅] = inr l.
Proof.
  intros Hbc Hok Hid Hsec Hnew Hget Hp Ht Hs. unfold NewAPIKey in Hnew. case_bool_decide; [done|].
  destruct (generate _) as [hash|] eqn:Hg; [|done]. injection Hnew as <- <-.
  exists (hex_EncodeToString idBytes), (base64_RawURL secretBytes). split.
  - apply parse_issued; [by apply hex_free_of|by apply hex_nonempty|by apply base64_nonempty].
  - apply authenticate_iff. eexists _, _, p. split_and!; [done| | | |exact Hp|done|by right; right].
    + unfold cs_FindBySubject, memory_credentials, MemoryCredentialStore.FindBySubject, MemoryCredentialStore.Save.
      simpl. by rewrite lookup_insert_eq.
    + intros f ->%list_elem_of_singleton. simpl. unfold verify_apikey. simpl. by rewrite (Hbc _ _ Hg).
    + unfold ps_Get, memory_principals. simpl. by rewrite Hget.
Qed.
End Memory.

(** ** An authenticated agent and a human *)
Module AuthnDemo.
(** A stand-in for bcrypt that stores the password after one salt byte. *)
#[local] Instance demo : Libraries := {|
  CompareHashAndPassword hash pw := bool_decide (hash = 7%Z :: pw);
  totp_Validate code secret := bool_decide (code = "123456");
  unicode_lower s := s |}.
Definition generate (pw : bytes) : option bytes := Some (7%Z :: pw).

Definition agent : Principal := mkPrincipal "agent-1" PrincipalAgent "ci" "" StatusActive [] None 0 None.
Definition alice : Principal := mkPrincipal "alice" PrincipalHuman "alice" "" StatusActive [] None 0 None.
Definition h : heap := <[1%nat := agent]> (<[2%nat := alice]> ∅).
Definition ps : MemoryPrincipalStore.t := MemoryPrincipalStore.mk (<["agent-1" := 1%nat]> (<["alice" := 2%nat]> ∅)) ∅.
Definition cs : MemoryCredentialStore.t :=
  MemoryCredentialStore.Save MemoryCredentialStore.New (APIKeyCredential "alice" "k9" (7 :: go_bytes "s3cret")%Z "laptop").
Definition fac : AuthFactor := mkAuthFactor CredentialAPIKey "k9" (go_bytes "s3cret") ∅.

Lemma issued_key_authenticates_witness : exists keyID secret,
  ParseAPIKey "oswk_00ff_BWNA" = inr (keyID, secret) /\
  Authenticate ps h (MemoryCredentialStore.Save cs (APIKeyCredential "agent-1" "00ff" (7 :: go_bytes "BWNA")%Z "ci"))
    [mkAuthFactor CredentialAPIKey keyID (go_bytes secret) ∅] = inr 1%nat.
Proof.
  apply (issued_key_authenticates generate [0; 255]%Z [5; 99; 64]%Z "agent-1" "ci") with (p := agent).
  - intros pw hash [= <-]. apply bool_decide_eq_true_2. reflexivity.
  - repeat constructor; discriminate.
  - discriminate.
  - discriminate.
  - vm_compute. reflexivity.
  - vm_compute. reflexivity.
  - reflexivity.
  - reflexivity.
  - reflexivity.
Defined.

Lemma repeated_factor_passes_mfa_witness :
  Authenticate ps h cs [fac] = inl ErrInsufficientFactor /\ Authenticate ps h cs [fac; fac] = inr 2%nat.
Proof.
  apply (repeated_factor_passes_mfa ps h cs fac (APIKeyCredential "alice" "k9" (7 :: go_bytes "s3cret")%Z "laptop") 2%nat alice);
    vm_compute; [reflexivity|reflexivity|reflexivity|reflexivity|reflexivity|reflexivity|discriminate].
Defined.

Lemma suspension_is_immediate_witness :
  Authenticate ps (MemoryPrincipalStore.UpdateStatus ps h "alice" StatusSuspended).1 cs [fac; fac] = inr 2%nat <->
  Authenticate ps h cs [fac; fac] = inr 2%nat /\ MemoryPrincipalStore.byID ps !! "alice" <> Some 2%nat.
Proof. apply (suspension_is_immediate ps cs h _ "alice" StatusSuspended); [reflexivity|discriminate]. Defined.
End AuthnDemo.
