(* ===== verification/Jwt.v ===== *)
(** * Access and refresh tokens

    internal/identity/jwt: issuer.go, verifier.go and jwks.go.  The JWT library
    (golang-jwt) is an interface: signing, and parsing with a key callback; its
    laws are what the library documents of both. *)
From stdpp Require Import base list strings gmap.
From Stdlib Require Import ZArith Lia Bool Ascii.
From S2P Require Import Prelude Models GoStrings Pki Identity.
Local Open Scope string_scope.
Local Open Scope list_scope.
Local Open Scope Z_scope.

Definition IssuerName := "owasaka".
Definition AudienceAccess := "owasaka-api".
Definition AudienceRefresh := "owasaka-refresh".
Definition DefaultAccessTTL : Z := 15 * 60 * 1000000000.
Definition DefaultRefreshTTL : Z := 24 * 3600 * 1000000000.
Definition TypeAccess := "access".
Definition TypeRefresh := "refresh".

(** The registered claims and the principal context; a registered date a token
    does not carry is nil. *)
Record TokenClaims := mkClaims {
  cl_Issuer : string; cl_Subject : string; cl_Audience : list string; cl_IssuedAt : option gotime;
  cl_NotBefore : option gotime; cl_ExpiresAt : option gotime; cl_ID : string; cl_PrincipalType : string; cl_PrincipalSubject : string; cl_TokenType : string }.

Record TokenPair := mkTokenPair {
  AccessToken : string; RefreshToken : string; AccessJTI : string; RefreshJTI : string; AccessExp : gotime;
  RefreshExp : gotime; SigningKeyID : string }.

Inductive jwterror :=
| ErrInvalidSignature | ErrTokenExpired | ErrTokenMalformed | ErrUnknownKey | ErrWrongAudience | ErrWrongTokenType
| ErrTokenKeyExpired | ErrIdentity (e : iderror) | ErrPki (e : perror) | ErrSign | ErrRevocationLookup.

(** ** The library *)

Record Header := mkHeader { h_Alg : string; h_Kid : option gany }.

(** Which sentinels [errors.Is] finds in a parse error, and the error of the key
    callback it may wrap. *)
Record ParseError := mkParseError { is_Expired : bool; is_SignatureInvalid : bool; is_Malformed : bool; callback : option jwterror }.

Class JwtLib := {
  NewNumericDate : gotime -> gotime;
  SignedString : Header -> TokenClaims -> bytes -> option string;
  ParseWithClaims : gotime -> string -> (Header -> jwterror + bytes) -> ParseError + TokenClaims * bool;
}.

(** The library compares the dates a token carries with the clock.  Without
    WithExpirationRequired, which the verifier does not pass, a date that is
    absent is not checked: a token without exp never expires. *)
Definition within_period (claims : TokenClaims) (now : gotime) : Prop :=
  (forall nbf, cl_NotBefore claims = Some nbf -> nbf <= now) /\
  (forall exp, cl_ExpiresAt claims = Some exp -> now < exp).

Definition within_period_b (claims : TokenClaims) (now : gotime) : bool :=
  match cl_NotBefore claims with Some nbf => nbf <=? now | None => true end &&
  match cl_ExpiresAt claims with Some exp => now <? exp | None => true end.

Lemma within_period_spec claims now : within_period_b claims now = true <-> within_period claims now.
Proof.
  unfold within_period_b, within_period. rewrite andb_true_iff.
  destruct (cl_NotBefore claims), (cl_ExpiresAt claims); rewrite ?Z.leb_le, ?Z.ltb_lt; naive_solver.
Qed.

(** A token's header, claims, signed bytes and signature.  A token parses as
    valid exactly when its algorithm is allowed, the callback finds a key, the
    signature verifies and no date it carries is against it; a signed token has
    the parts it was signed with. *)
Class JwtLaws `{JwtLib} `{Ed25519} := {
  token_parts : string -> option (Header * TokenClaims * bytes * bytes);
  numeric_date : forall t, t - 1000000000 < NewNumericDate t <= t;
  parse_valid : forall now raw keyfunc claims,
    ParseWithClaims now raw keyfunc = inr (claims, true) <->
    exists hdr input sig pub, token_parts raw = Some (hdr, claims, input, sig) /\ h_Alg hdr = "EdDSA" /\
      keyfunc hdr = inr pub /\ Verify pub input sig = true /\ within_period claims now;
  signed_parts : forall hdr claims priv raw, SignedString hdr claims priv = Some raw ->
    exists input, token_parts raw = Some (hdr, claims, input, Sign priv input);
}.

Section Jwt.
Context {S : Type} `{KeyStore S} `{Ed25519} `{JwtLib}.

(** ** Issuing *)

Definition buildClaims (p : Principal) (jti : string) (now exp : gotime) (audience tt : string) : TokenClaims :=
  mkClaims IssuerName (ID p) [audience] (Some (NewNumericDate now)) (Some (NewNumericDate now)) (Some (NewNumericDate exp)) jti
    (Type_ p) (Subject p) tt.

Definition signClaims (claims : TokenClaims) (kp : KeyPair) : option string :=
  SignedString (mkHeader "EdDSA" (Some (VString (kp_ID kp)))) claims (kp_Private kp).

(** [jti1] and [jti2] are the two fresh UUIDs. *)
Definition Issue (s : S) (accessTTL refreshTTL : Z) (now : gotime) (jti1 jti2 : string) (p : option Principal)
  : jwterror + TokenPair :=
  match p with
  | None => inl (ErrIdentity ErrPrincipalNotFound)
  | Some p' =>
      if negb (IsActive p) then inl (ErrIdentity ErrPrincipalInactive)
      else
        match ActiveKey s PurposeJWTSigning with
        | RErr e => inl (ErrPki e)
        | RPanic => inl (ErrPki ErrNoActiveKey)
        | ROk signingKey =>
            let accessExp := now + accessTTL in
            let refreshExp := now + refreshTTL in
            match signClaims (buildClaims p' jti1 now accessExp AudienceAccess TypeAccess) signingKey with
            | None => inl ErrSign
            | Some access =>
                match signClaims (buildClaims p' jti2 now refreshExp AudienceRefresh TypeRefresh) signingKey with
                | None => inl ErrSign
                | Some refresh => inr (mkTokenPair access refresh jti1 jti2 accessExp refreshExp (kp_ID signingKey))
                end
            end
        end
  end.

(** ** Verifying *)

(** The key callback of [Verify]. *)
Definition keyfunc (s : S) (now : gotime) (hdr : Header) : jwterror + bytes :=
  if negb (bool_decide (h_Alg hdr = "EdDSA")) then inl ErrInvalidSignature
  else
    match h_Kid hdr with
    | Some (VString kid) =>
        if bool_decide (kid = "") then inl ErrUnknownKey
        else
          match GetKey s kid with
          | ROk kp => if negb (IsVerifyable (Some kp) now) then inl ErrTokenKeyExpired else inr (kp_Public kp)
          | _ => inl ErrUnknownKey
          end
    | _ => inl ErrUnknownKey
    end.

(** The error [Verify] reports for a parse error. *)
Definition map_parse_error (e : ParseError) : jwterror :=
  if is_Expired e then ErrTokenExpired
  else if is_SignatureInvalid e then ErrInvalidSignature
  else if is_Malformed e then ErrTokenMalformed
  else match callback e with
       | Some ErrUnknownKey => ErrUnknownKey
       | Some ErrTokenKeyExpired => ErrTokenKeyExpired
       | Some ErrInvalidSignature => ErrInvalidSignature
       | _ => ErrTokenMalformed
       end.

Definition assertAudience (claims : TokenClaims) (tt : string) : bool :=
  if bool_decide (tt = "") then true
  else
    let want := if bool_decide (tt = TypeRefresh) then AudienceRefresh else AudienceAccess in
    existsb (String.eqb want) (cl_Audience claims).

(** [revocations] is the denylist, [None] when no checker is wired; a lookup
    answers [None] on error. *)
Definition Verify_token (s : S) (now : gotime) (revocations : option (string -> option bool)) (raw expectedType : string)
  : jwterror + TokenClaims :=
  match ParseWithClaims now raw (keyfunc s now) with
  | inl e => inl (map_parse_error e)
  | inr (claims, valid) =>
      if negb valid then inl ErrInvalidSignature
      else if negb (bool_decide (expectedType = "")) && negb (bool_decide (cl_TokenType claims = expectedType))
      then inl ErrWrongTokenType
      else if negb (assertAudience claims expectedType) then inl ErrWrongAudience
      else
        match revocations with
        | None => inr claims
        | Some check =>
            match check (cl_ID claims) with
            | None => inl ErrRevocationLookup
            | Some revoked => if revoked then inl ErrInvalidSignature else inr claims
            end
        end
  end.

(** ** Published keys *)

Record JWK := mkJWK { Kty : string; Crv : string; X : string; Use : string; Alg : string; Kid : string; JWK_Purpose : string }.

Definition publishedPurposes : list string := [PurposeJWTSigning; PurposeEventSigning].

Definition jwk_of (purpose : string) (kp : KeyPair) : JWK :=
  mkJWK "OKP" "Ed25519" (base64_RawURL (kp_Public kp)) "sig" "EdDSA" (kp_ID kp) purpose.

Fixpoint publish_loop (s : S) (purposes : list string) (now : gotime) : res perror (list JWK) :=
  match purposes with
  | [] => ROk []
  | purpose :: purposes' =>
      let! keys := KeysForPurpose s purpose in
      let! rest := publish_loop s purposes' now in
      ROk (((jwk_of purpose) <$> filter (fun kp => IsVerifyable (Some kp) now = true) keys) ++ rest)
  end.

Definition PublishKeys (s : S) (now : gotime) : res perror (list JWK) := publish_loop s publishedPurposes now.

(** ** What verification accepts *)
Context `{!KeyStoreLaws S} `{!JwtLaws} `{!Ed25519Laws}.

Lemma keyfunc_iff s now hdr pub : keyfunc s now hdr = inr pub <->
  h_Alg hdr = "EdDSA" /\ exists kid kp, h_Kid hdr = Some (VString kid) /\ kid <> "" /\ ks_keys s !! kid = Some kp /\
    kp_Status kp <> StatusKeyRetired /\ now <= kp_NotAfter kp /\ pub = kp_Public kp.
Proof.
  unfold keyfunc, GetKey, IsVerifyable. case_bool_decide as Ha; simpl; [|by split; [|intros [? _]]].
  destruct (h_Kid hdr) as [[kid| | | | | | | | |]|]; try (split; [done|intros (_ & ? & ? & ? & _); done]).
  case_bool_decide as Hk; [split; [done|naive_solver]|]. rewrite ks_Get_spec.
  destruct (ks_keys s !! kid) as [kp|] eqn:Hg; [|split; [done|intros (_ & ? & ? & [= ->] & _ & ? & _); congruence]].
  case_bool_decide as Hr; simpl.
  { split; [done|]. intros (_ & ? & ? & [= <-] & _ & Hg' & ? & _). congruence. }
  destruct (Z.ltb_spec (kp_NotAfter kp) now); simpl.
  { split; [done|]. intros (_ & ? & ? & [= <-] & _ & Hg' & _ & ? & _). rewrite Hg in Hg'. injection Hg' as <-. lia. }
  split; [intros [= <-]; split; [done|]; by exists kid, kp|].
  intros (_ & ? & ? & [= <-] & _ & Hg' & _ & _ & ->). rewrite Hg in Hg'. by injection Hg' as <-.
Qed.

(** The type and audience the consumer asked for. *)
Definition right_kind (claims : TokenClaims) (expectedType : string) : Prop :=
  expectedType = "" \/
  (cl_TokenType claims = expectedType /\
   (if decide (expectedType = TypeRefresh) then AudienceRefresh else AudienceAccess) ∈ cl_Audience claims).

Lemma kind_checks claims tt :
  negb (bool_decide (tt = "")) && negb (bool_decide (cl_TokenType claims = tt)) = false /\ assertAudience claims tt = true <->
  right_kind claims tt.
Proof.
  unfold assertAudience, right_kind. destruct (decide (tt = "")) as [->|Hne]; [simpl; naive_solver|].
  rewrite !(bool_decide_eq_false_2 (tt = "")) by done. simpl. rewrite negb_false_iff, bool_decide_eq_true, existsb_exists.
  assert (forall want, (exists x, In x (cl_Audience claims) /\ String.eqb want x = true) <-> want ∈ cl_Audience claims) as Hw.
  { intros want. split; [intros (x & ? & ->%String.eqb_eq); by apply list_elem_of_In|].
    intros Hin. exists want. rewrite String.eqb_refl. by apply list_elem_of_In in Hin. }
  rewrite Hw. destruct (decide (tt = TypeRefresh)) as [->|]; [rewrite bool_decide_eq_true_2 by done|rewrite bool_decide_eq_false_2 by done];
    naive_solver.
Qed.

(** An issued token carries both dates. *)
Lemma within_built p jti t0 exp aud tt now :
  within_period (buildClaims p jti t0 exp aud tt) now <-> NewNumericDate t0 <= now < NewNumericDate exp.
Proof. unfold within_period, buildClaims. simpl. naive_solver. Qed.

Definition not_denied (revocations : option (string -> option bool)) (jti : string) : Prop :=
  match revocations with None => True | Some check => check jti = Some false end.

Lemma verify_token_iff s now revocations raw tt claims :
  Verify_token s now revocations raw tt = inr claims <->
  ParseWithClaims now raw (keyfunc s now) = inr (claims, true) /\ right_kind claims tt /\ not_denied revocations (cl_ID claims).
Proof.
  unfold Verify_token, not_denied. rewrite <- (kind_checks claims tt).
  destruct (ParseWithClaims now raw (keyfunc s now)) as [e|[c []]]; simpl; [naive_solver| |naive_solver].
  split.
  - destruct (negb _ && negb _) eqn:E1; [done|]. destruct (assertAudience c tt) eqn:E2; [|done]. simpl.
    destruct revocations as [check|]; [destruct (check (cl_ID c)) as [[]|] eqn:E3; try done|]; intros [= <-]; by rewrite E1, E2.
  - intros ([= ->] & [E1 E2] & E3). rewrite E1, E2. simpl. destruct revocations as [check|]; [by rewrite E3|done].
Qed.
(** The token names a key of the authority that may still verify, and that key
    signed it. *)
Definition signed_by_authority (s : S) (now : gotime) (raw : string) (claims : TokenClaims) : Prop :=
  exists kid kp input sig,
    token_parts raw = Some (mkHeader "EdDSA" (Some (VString kid)), claims, input, sig) /\ kid <> "" /\
    ks_keys s !! kid = Some kp /\ kp_Status kp <> StatusKeyRetired /\ now <= kp_NotAfter kp /\
    Verify (kp_Public kp) input sig = true.

Lemma parse_authority_iff s now raw claims :
  ParseWithClaims now raw (keyfunc s now) = inr (claims, true) <->
  signed_by_authority s now raw claims /\ within_period claims now.
Proof.
  rewrite parse_valid. split.
  - intros ([alg k] & input & sig & pub & Hp & Ha & Hk & Hv & Ht). apply keyfunc_iff in Hk as (_ & kid & kp & Hkid & ? & ? & ? & ? & ->).
    simpl in *. subst alg k. split; [|done]. by exists kid, kp, input, sig.
  - intros [(kid & kp & input & sig & Hp & ? & ? & ? & ? & ?) Ht].
    exists (mkHeader "EdDSA" (Some (VString kid))), input, sig, (kp_Public kp). split; [done|]. split; [done|]. split; [|by split].
    apply keyfunc_iff. split; [done|]. by exists kid, kp.
Qed.

(** C18: a token is accepted, and its claims returned, exactly when a key the
    authority knows, not retired and not expired, signed it, none of the dates
    it carries is against it (not before its nbf, before its exp), it has the type and audience the consumer expects, and the
    denylist does not hold its identifier.  A token without exp is accepted as
    long as its key is. *)
Theorem jwt_verify_iff (s : S) (now : gotime) (revocations : option (string -> option bool)) (raw tt : string) (claims : TokenClaims) :
  Verify_token s now revocations raw tt = inr claims <->
  signed_by_authority s now raw claims /\ within_period claims now /\ right_kind claims tt /\
  not_denied revocations (cl_ID claims).
Proof. rewrite verify_token_iff, parse_authority_iff. tauto. Qed.

(** A token signed with a key of the store. *)
Lemma signed_token_parses s now raw claims kp id :
  ks_keys s !! id = Some kp -> kp_ID kp = id -> id <> "" -> genuine kp -> kp_Status kp <> StatusKeyRetired -> now <= kp_NotAfter kp ->
  signClaims claims kp = Some raw -> within_period claims now ->
  ParseWithClaims now raw (keyfunc s now) = inr (claims, true).
Proof.
  intros Hk Hid Hne [entropy Hgen] Hst Hna Hs Ht. apply parse_authority_iff. split; [|done].
  apply signed_parts in Hs as [input Hp]. exists id, kp, input, (Sign (kp_Private kp) input). rewrite <- Hid at 1.
  split_and!; try done. by apply (ed_correct entropy).
Qed.

(** The verifier does not look at the purpose of the key: a token with the
    right claims signed by any usable key of the authority, an event-signing or
    tree-head key included, is accepted as an access token. *)
Theorem jwt_key_purpose_unchecked (s : S) (now : gotime) (raw : string) (claims : TokenClaims) (kp : KeyPair) (id : string) :
  ks_keys s !! id = Some kp -> kp_ID kp = id -> id <> "" -> kp_Purpose kp <> PurposeJWTSigning -> genuine kp ->
  kp_Status kp <> StatusKeyRetired -> now <= kp_NotAfter kp ->
  signClaims claims kp = Some raw -> within_period claims now -> right_kind claims TypeAccess ->
  Verify_token s now None raw TypeAccess = inr claims.
Proof.
  intros Hk Hid Hne _ Hg Hst Hna Hs Ht Hr. apply verify_token_iff. split_and!; [|done|done].
  by eapply signed_token_parses.
Qed.

(** The later store still lets the signing key verify. *)
Definition key_verifies (s' : S) (kp : KeyPair) (now : gotime) : Prop :=
  exists kp', ks_keys s' !! kp_ID kp = Some kp' /\ kp_Public kp' = kp_Public kp /\ kp_Status kp' <> StatusKeyRetired /\
    now <= kp_NotAfter kp'.

Lemma issued_parses s' now kp claims raw :
  genuine kp -> kp_ID kp <> "" -> signClaims claims kp = Some raw -> key_verifies s' kp now ->
  within_period claims now -> ParseWithClaims now raw (keyfunc s' now) = inr (claims, true).
Proof.
  intros [entropy Hg] Hid Hs (kp' & Hk & Hpub & Hst & Hna) Ht. apply parse_authority_iff. split; [|done].
  apply signed_parts in Hs as [input Hp]. exists (kp_ID kp), kp', input, (Sign (kp_Private kp) input).
  split_and!; try done. rewrite Hpub. by apply (ed_correct entropy).
Qed.

(** An issued pair works as intended: until a second before its expiry, and
    as long as the signing key may verify (rotations included), the access token
    is accepted as an access token with the principal as subject, is refused as a
    refresh token, and is refused once the denylist holds its identifier; the
    refresh token is accepted as a refresh token only. *)
Theorem issued_pair_spec (s s' : S) (a r : Z) (now now' : gotime) (j1 j2 : string) (p : Principal) (pair : TokenPair) (kp : KeyPair) :
  Issue s a r now j1 j2 (Some p) = inr pair -> ActiveKey s PurposeJWTSigning = ROk kp -> genuine kp -> kp_ID kp <> "" ->
  key_verifies s' kp now' -> now <= now' -> now' + 1000000000 <= now + a -> now' + 1000000000 <= now + r ->
  (exists ca, Verify_token s' now' None (AccessToken pair) TypeAccess = inr ca /\ cl_Subject ca = ID p /\ cl_ID ca = j1) /\
  Verify_token s' now' None (AccessToken pair) TypeRefresh = inl ErrWrongTokenType /\
  (forall check, check j1 = Some true -> Verify_token s' now' (Some check) (AccessToken pair) TypeAccess = inl ErrInvalidSignature) /\
  (exists cr, Verify_token s' now' None (RefreshToken pair) TypeRefresh = inr cr /\ cl_Subject cr = ID p /\ cl_ID cr = j2) /\
  Verify_token s' now' None (RefreshToken pair) TypeAccess = inl ErrWrongTokenType.
Proof.
  intros Hi Hk Hg Hid Hkv Hn Ha Hr. unfold Issue in Hi. destruct (IsActive (Some p)); [|done]. simpl in Hi. rewrite Hk in Hi.
  set (ca := buildClaims p j1 now (now + a) AudienceAccess TypeAccess) in *.
  set (cr := buildClaims p j2 now (now + r) AudienceRefresh TypeRefresh) in *.
  destruct (signClaims ca kp) as [ta|] eqn:Hsa; [|done]. destruct (signClaims cr kp) as [tr|] eqn:Hsr; [|done].
  injection Hi as <-. simpl.
  pose proof (numeric_date now). pose proof (numeric_date (now + a)). pose proof (numeric_date (now + r)).
  assert (ParseWithClaims now' ta (keyfunc s' now') = inr (ca, true)) as Hpa by (eapply issued_parses; try done; apply within_built; lia).
  assert (ParseWithClaims now' tr (keyfunc s' now') = inr (cr, true)) as Hpr by (eapply issued_parses; try done; apply within_built; lia).
  split_and!.
  - exists ca. split_and!; [|done|done]. apply verify_token_iff. split_and!; [done| |done]. right. split; [done|]. simpl. set_solver.
  - unfold Verify_token. rewrite Hpa. done.
  - intros check Hc. unfold Verify_token. rewrite Hpa. simpl. by rewrite Hc.
  - exists cr. split_and!; [|done|done]. apply verify_token_iff. split_and!; [done| |done]. right. split; [done|]. simpl. set_solver.
  - unfold Verify_token. rewrite Hpr. done.
Qed.

(** ** Published keys *)

Lemma publish_loop_spec s now purposes : exists l, publish_loop s purposes now = ROk l /\
  forall j, j ∈ l <-> exists kp id, kp_Purpose kp ∈ purposes /\ ks_keys s !! id = Some kp /\ kp_Status kp <> StatusKeyRetired /\
    now <= kp_NotAfter kp /\ j = jwk_of (kp_Purpose kp) kp.
Proof.
  induction purposes as [|purpose purposes (rest & Hr & IH)]; cbn [publish_loop].
  { exists []. split; [done|]. intros j. set_solver. }
  unfold KeysForPurpose. destruct (ks_Find_spec s purpose) as (keys & -> & Hkeys). cbn [res_bind]. rewrite Hr. cbn [res_bind].
  eexists. split; [done|]. intros j. rewrite elem_of_app, IH, list_elem_of_fmap. setoid_rewrite elem_of_cons.
  assert (forall kp, IsVerifyable (Some kp) now = true <-> kp_Status kp <> StatusKeyRetired /\ now <= kp_NotAfter kp) as Hver.
  { intros kp. unfold IsVerifyable. case_bool_decide; [naive_solver|]. rewrite negb_true_iff, Z.ltb_ge. naive_solver. }
  split.
  - intros [(kp & -> & Hin)|(kp & id & ? & ? & ? & ? & ->)]; [|exists kp, id; naive_solver].
    apply list_elem_of_filter in Hin as [Hv [Hp [id Hid]]%Hkeys]. exists kp, id. apply Hver in Hv as [? ?]. subst purpose. naive_solver.
  - intros (kp & id & [Hp|Hp] & Hid & ? & ? & ->); [left|right; exists kp, id; naive_solver].
    exists kp. split; [by rewrite Hp|]. apply list_elem_of_filter. split; [by apply Hver|]. apply Hkeys. eauto.
Qed.

(** The key-set endpoint publishes exactly the JWT-signing and event-signing
    keys that may still verify, active or rotating, under their own ids. *)
Theorem published_keys_spec (s : S) (now : gotime) : exists l, PublishKeys s now = ROk l /\
  forall j, j ∈ l <-> exists kp id, (kp_Purpose kp = PurposeJWTSigning \/ kp_Purpose kp = PurposeEventSigning) /\
    ks_keys s !! id = Some kp /\ kp_Status kp <> StatusKeyRetired /\ now <= kp_NotAfter kp /\ j = jwk_of (kp_Purpose kp) kp.
Proof.
  destruct (publish_loop_spec s now publishedPurposes) as (l & Hl & Hspec). exists l. split; [done|]. intros j.
  rewrite Hspec. unfold publishedPurposes. setoid_rewrite elem_of_cons. setoid_rewrite list_elem_of_singleton. done.
Qed.
End Jwt.

(** ** A concrete token format *)

(** Tokens as strings of binary digits of an encoded header, claims and
    signature. *)
Module ToyJwt.
Abbreviation parts := (string * (string * string * list string * (option Z * option Z * option Z) * (string * string * string * string)) * bytes)%type
  (only parsing).

Definition tuple (c : TokenClaims) :=
  (cl_Issuer c, cl_Subject c, cl_Audience c, (cl_IssuedAt c, cl_NotBefore c, cl_ExpiresAt c),
   (cl_ID c, cl_PrincipalType c, cl_PrincipalSubject c, cl_TokenType c)).
Definition untuple (t : string * string * list string * (option Z * option Z * option Z) * (string * string * string * string)) : TokenClaims :=
  let '(iss, sub, aud, (iat, nbf, exp), (jti, pt, psub, ty)) := t in mkClaims iss sub aud iat nbf exp jti pt psub ty.

Fixpoint digits (p : positive) : string :=
  match p with xH => "" | xO p' => String "0"%char (digits p') | xI p' => String "1"%char (digits p') end.
Fixpoint undigits (s : string) : positive :=
  match s with EmptyString => xH | String a s' => if Ascii.eqb a "0"%char then xO (undigits s') else xI (undigits s') end.

Lemma undigits_digits p : undigits (digits p) = p.
Proof. by induction p as [p IH|p IH|]; simpl; [rewrite IH|rewrite IH|]. Qed.

(** The toy signs the identifier only. *)
Definition signing_input (kid : string) (c : TokenClaims) : bytes := go_bytes (cl_ID c).

Definition unpack (raw : string) : option (Header * TokenClaims * bytes * bytes) :=
  match decode (undigits raw) : option parts with
  | None => None
  | Some (kid, t, sig) => Some (mkHeader "EdDSA" (Some (VString kid)), untuple t, signing_input kid (untuple t), sig)
  end.

#[export] Instance lib `{Ed25519} : JwtLib := {|
  NewNumericDate t := t - t mod 1000000000;
  SignedString hdr c priv :=
    match hdr with
    | mkHeader alg (Some (VString kid)) =>
        if bool_decide (alg = "EdDSA")
        then Some (digits (encode ((kid, tuple c, Sign priv (signing_input kid c)) : parts))) else None
    | _ => None
    end;
  ParseWithClaims now raw keyfunc :=
    match unpack raw with
    | None => inl (mkParseError false false true None)
    | Some (hdr, c, input, sig) =>
        match keyfunc hdr with
        | inl e => inl (mkParseError false false false (Some e))
        | inr pub =>
            if negb (Verify pub input sig) then inl (mkParseError false true false None)
            else if within_period_b c now then inr (c, true)
            else inl (mkParseError true false false None)
        end
    end |}.

Lemma untuple_tuple c : untuple (tuple c) = c.
Proof. by destruct c. Qed.

Lemma unpack_eddsa raw hdr c input sig : unpack raw = Some (hdr, c, input, sig) -> h_Alg hdr = "EdDSA".
Proof. unfold unpack. destruct (decode (undigits raw) : option parts) as [[[? ?] ?]|]; [|done]. by intros [= <- <- <- <-]. Qed.

#[export] Instance laws `{Ed25519} : JwtLaws.
Proof.
  refine {| token_parts := unpack |}.
  - intros t. simpl. pose proof (Z.mod_pos_bound t 1000000000 ltac:(lia)). lia.
  - intros now raw kf claims. cbn [ParseWithClaims lib]. split.
    + destruct (unpack raw) as [[[[hdr c] input] sig]|] eqn:Hu; [|done]. destruct (kf hdr) as [|pub] eqn:Hk; [done|].
      destruct (Verify pub input sig) eqn:Hv; [|done]. cbn [negb]. destruct (within_period_b c now) eqn:Ht; [|done]. intros [= <-].
      apply within_period_spec in Ht. exists hdr, input, sig, pub.
      split_and!; try done. by eapply unpack_eddsa.
    + intros (hdr & input & sig & pub & -> & _ & -> & -> & Ht). cbn [negb].
      by rewrite (proj2 (within_period_spec _ _) Ht).
  - intros [alg [[kid| | | | | | | | |]|]] c priv raw; cbn [SignedString lib]; try done. case_bool_decide as Ha; [|done].
    intros [= <-]. subst alg. exists (signing_input kid c). unfold unpack. rewrite undigits_digits, decode_encode.
    cbn zeta. by rewrite untuple_tuple.
Qed.
End ToyJwt.

Module JwtDemo.
Import PkiDemo ToyJwt.
Definition sec : Z := 1000000000.
Definition jwt_key : KeyPair := mkKeyPair "j1" PurposeJWTSigning [4] [4] StatusKeyActive 0 0 (100 * sec).
Definition event_key : KeyPair := mkKeyPair "k1" PurposeEventSigning [7] [7] StatusKeyActive 0 0 (100 * sec).
Definition store : MemoryKeyStore.t := MemoryKeyStore.mk (<["j1" := jwt_key]> {[ "k1" := event_key ]}).
Definition alice : Principal := mkPrincipal "u1" PrincipalHuman "alice" "" StatusActive [] None 0 None.

Definition pair1 : TokenPair :=
  match Issue store (30 * sec) (60 * sec) (10 * sec) "t1" "t2" (Some alice) with inr q => q | inl _ => mkTokenPair "" "" "" "" 0 0 "" end.

Lemma pair1_issued : Issue store (30 * sec) (60 * sec) (10 * sec) "t1" "t2" (Some alice) = inr pair1.
Proof. vm_compute. reflexivity. Qed.

Lemma issued_pair_spec_witness :
  (exists ca, Verify_token store (20 * sec) None (AccessToken pair1) TypeAccess = inr ca /\ cl_Subject ca = "u1" /\ cl_ID ca = "t1") /\
  Verify_token store (20 * sec) None (AccessToken pair1) TypeRefresh = inl ErrWrongTokenType.
Proof.
  destruct (issued_pair_spec store store (30 * sec) (60 * sec) (10 * sec) (20 * sec) "t1" "t2" alice pair1 jwt_key)
    as (Ha & Hb & _).
  - exact pair1_issued.
  - vm_compute. reflexivity.
  - exists [4]. reflexivity.
  - discriminate.
  - exists jwt_key. split_and!; [reflexivity|reflexivity|discriminate|vm_compute; discriminate].
  - vm_compute. discriminate.
  - vm_compute. discriminate.
  - vm_compute. discriminate.
  - split; [exact Ha|exact Hb].
Defined.

(** An access token signed with the event-signing key. *)
Definition forged : TokenClaims := buildClaims alice "t9" (10 * sec) (40 * sec) AudienceAccess TypeAccess.
Definition forged_token : string := default "" (signClaims forged event_key).

Lemma jwt_key_purpose_unchecked_witness : Verify_token store (20 * sec) None forged_token TypeAccess = inr forged.
Proof.
  apply (jwt_key_purpose_unchecked store (20 * sec) forged_token forged event_key "k1").
  - reflexivity.
  - reflexivity.
  - discriminate.
  - discriminate.
  - exists [7]. reflexivity.
  - discriminate.
  - vm_compute. discriminate.
  - vm_compute. reflexivity.
  - apply within_period_spec. vm_compute. reflexivity.
  - right. split; [reflexivity|]. left.
Defined.
End JwtDemo.
