(* ===== verification/Authz.v ===== *)
(** * Authorization

    internal/authz: types.go, loader.go (roles with inheritance, expanded and
    validated at load time) and engine.go (the decision procedure).

    YAML decoding is an argument.  Go's map iteration order is an explicit
    argument ([order]) wherever the loader ranges over a map. *)
From S2P Require Import Prelude Models Identity GoFloat.
From stdpp Require Import base list strings gmap sorting relations.
From Stdlib Require Import ZArith Lia Bool.
Local Open Scope string_scope.
Local Open Scope Z_scope.

(** ** Types *)

Definition Wildcard := "*".
Definition ActionAdmin := "admin".
Definition ValueNotSelf := "not-self".

Record Condition := mkCondition { c_Key : string; c_Value : string }.
Record Permission := mkPermission { p_Resource : string; p_Action : string; p_Conditions : list Condition }.
Record Role := mkRole { r_Name : string; r_Description : string; r_Inherits : list string; r_Permissions : list Permission }.
Record Policy := mkPolicy { pol_Version : Z; pol_Roles : gmap string Role }.

#[export] Instance Condition_eq_dec : EqDecision Condition.
Proof. solve_decision. Defined.
#[export] Instance Permission_eq_dec : EqDecision Permission.
Proof. solve_decision. Defined.

Inductive azerror :=
| ErrPolicyMalformed | ErrPolicyNoAdmin | ErrPolicyInheritsCycle | ErrPolicyInheritsUnknown | ErrPolicyEmptyRoleName
| ErrPolicyEmptyPermission | ErrPolicyWildcardOnNonAdmin | ErrEngineNotInitialized | ErrRoleNotFound.

Record Decision := mkDecision { d_Allowed : bool; d_Role : string; d_Permission : option Permission; d_Reason : string }.

(** ** The decision procedure *)

Definition matchesResource (policy request : string) : bool :=
  if bool_decide (policy = Wildcard) then true else bool_decide (policy = request).

Definition matchesAction (policy request : string) : bool :=
  if bool_decide (policy = ActionAdmin) then true
  else if bool_decide (policy = Wildcard) then true
  else bool_decide (policy = request).

(** The reason of the first failing condition, or [None] when all hold. *)
Fixpoint evaluateConditions (conditions : list Condition) (attrs : gmap string gany) : option string :=
  match conditions with
  | [] => None
  | c :: rest =>
      match attrs !! c_Key c with
      | None => Some ("condition " +:+ c_Key c +:+ " missing")
      | Some got =>
          let gotStr := fmt_Sprint got in
          if bool_decide (c_Value c = ValueNotSelf) then
            match attrs !! "principal_id" with
            | None => Some "principal_id missing for not-self check"
            | Some pidRaw =>
                if bool_decide (fmt_Sprint pidRaw = gotStr)
                then Some ("condition " +:+ c_Key c +:+ "=not-self failed (self)")
                else evaluateConditions rest attrs
            end
          else if negb (bool_decide (gotStr = c_Value c))
          then Some ("condition " +:+ c_Key c +:+ "=" +:+ c_Value c +:+ " not satisfied (got " +:+ gotStr +:+ ")")
          else evaluateConditions rest attrs
      end
  end.

(** The non-empty strings of a decoded list. *)
Definition claim_strings (l : list gany) : list string :=
  omap (fun v => match v with VString s => if bool_decide (s = "") then None else Some s | _ => None end) l.

Definition principalRoles (p : option Principal) : list string :=
  match p with
  | None => []
  | Some p =>
      if (0 <? length (Roles p))%nat then Roles p
      else
        match Claims p with
        | None => []
        | Some claims =>
            match claims !! "roles" with
            | None => []
            | Some (VStrings v) => v
            | Some (VString v) => if bool_decide (v = "") then [] else [v]
            | Some (VList v) => claim_strings v
            | Some _ => []
            end
        end
  end.

(** The inner loop over one role's permissions. *)
Fixpoint match_permissions (perms : list Permission) (resource action : string) (attrs : gmap string gany) : option Permission :=
  match perms with
  | [] => None
  | perm :: perms' =>
      if negb (matchesResource (p_Resource perm) resource) then match_permissions perms' resource action attrs
      else if negb (matchesAction (p_Action perm) action) then match_permissions perms' resource action attrs
      else match evaluateConditions (p_Conditions perm) attrs with
           | Some _ => match_permissions perms' resource action attrs
           | None => Some perm
           end
  end.

(** The outer loop over the principal's roles; unknown roles are skipped. *)
Fixpoint match_roles (policy : Policy) (roles : list string) (resource action : string) (attrs : gmap string gany)
  : option (string * Permission) :=
  match roles with
  | [] => None
  | roleName :: roles' =>
      match pol_Roles policy !! roleName with
      | None => match_roles policy roles' resource action attrs
      | Some role =>
          match match_permissions (r_Permissions role) resource action attrs with
          | Some perm => Some (roleName, perm)
          | None => match_roles policy roles' resource action attrs
          end
      end
  end.

Definition denied (reason : string) : Decision := mkDecision false "" None reason.

(** The caller's attribute map is updated in place; it is returned with the
    decision. *)
Definition Allowed (policy : option Policy) (p : option Principal) (resource action : string) (attrs : option (gmap string gany))
  : option (gmap string gany) * res azerror Decision :=
  match policy with
  | None => (attrs, RErr ErrEngineNotInitialized)
  | Some policy =>
      match p with
      | None => (attrs, ROk (denied "denied: nil principal"))
      | Some principal =>
          let roles := principalRoles p in
          if (length roles =? 0)%nat then (attrs, ROk (denied "denied: principal has no roles"))
          else
            let m := default ∅ attrs in
            let m := match m !! "principal_id" with
                     | Some _ => m
                     | None => <["principal_id" := VString (ID principal)]> m
                     end in
            (match attrs with Some _ => Some m | None => None end,
             match match_roles policy roles resource action m with
             | Some (roleName, perm) =>
                 ROk (mkDecision true roleName (Some perm)
                   ("matched " +:+ roleName +:+ ":" +:+ p_Resource perm +:+ ":" +:+ p_Action perm))
             | None =>
                 ROk (denied ("denied: no grant for " +:+ resource +:+ ":" +:+ action +:+ " under roles " +:+ fmt_strings roles))
             end)
      end
  end.

Definition Explain := Allowed.

(** ** The loader *)

Record yamlPermission := mkYamlPermission { yp_Resource : string; yp_Action : string; yp_Conditions : gmap string string }.
Record yamlRole := mkYamlRole { yr_Description : string; yr_Inherits : list string; yr_Permissions : list yamlPermission }.
Record yamlPolicy := mkYamlPolicy { y_Version : Z; y_Roles : gmap string yamlRole }.

(** Conditions in the byte order of their keys. *)
Definition sorted_conditions (m : gmap string string) : list Condition :=
  (fun k => mkCondition k (default "" (m !! k))) <$> merge_sort String.le ((map_to_list m).*1).

Definition hydrate_permission (yp : yamlPermission) : Permission :=
  mkPermission (yp_Resource yp) (yp_Action yp) (sorted_conditions (yp_Conditions yp)).

Fixpoint hydrate_permissions (yps : list yamlPermission) : res azerror (list Permission) :=
  match yps with
  | [] => ROk []
  | yp :: yps' =>
      if bool_decide (yp_Resource yp = "") || bool_decide (yp_Action yp = "") then RErr ErrPolicyEmptyPermission
      else let! rest := hydrate_permissions yps' in ROk (hydrate_permission yp :: rest)
  end.

(** Pass 1, over the roles in [order]. *)
Fixpoint hydrate_roles (raw : gmap string yamlRole) (order : list string) (acc : gmap string Role) : res azerror (gmap string Role) :=
  match order with
  | [] => ROk acc
  | name :: order' =>
      match raw !! name with
      | None => hydrate_roles raw order' acc
      | Some yr =>
          if bool_decide (name = "") then RErr ErrPolicyEmptyRoleName
          else
            let! perms := hydrate_permissions (yr_Permissions yr) in
            hydrate_roles raw order' (<[name := mkRole name (yr_Description yr) (yr_Inherits yr) perms]> acc)
      end
  end.

(** [expandInherits]; [seen] is the visit stack.  [RPanic] is only reached
    without fuel. *)
Fixpoint expandInherits (fuel : nat) (roles : gmap string Role) (inherits : list string) (seen : gset string)
  : res azerror (list Permission) :=
  match fuel with
  | O => RPanic
  | S fuel' =>
      (fix loop (parents : list string) : res azerror (list Permission) :=
         match parents with
         | [] => ROk []
         | parent :: parents' =>
             if bool_decide (parent ∈ seen) then RErr ErrPolicyInheritsCycle
             else
               match roles !! parent with
               | None => RErr ErrPolicyInheritsUnknown
               | Some pr =>
                   let! grand := expandInherits fuel' roles (r_Inherits pr) ({[parent]} ∪ seen) in
                   let! rest := loop parents' in
                   ROk (r_Permissions pr ++ grand ++ rest)%list
               end
         end) inherits
  end.

Fixpoint conditions_key (cs : list Condition) : string :=
  match cs with [] => "" | c :: cs' => ";" +:+ c_Key c +:+ "=" +:+ c_Value c +:+ conditions_key cs' end.
Definition permissionKey (p : Permission) : string := p_Resource p +:+ ":" +:+ p_Action p +:+ conditions_key (p_Conditions p).

Fixpoint dedup_loop (seen : gset string) (perms : list Permission) : list Permission :=
  match perms with
  | [] => []
  | p :: perms' =>
      let key := permissionKey p in
      if bool_decide (key ∈ seen) then dedup_loop seen perms'
      else p :: dedup_loop ({[key]} ∪ seen) perms'
  end.
Definition dedupPermissions (perms : list Permission) : list Permission := dedup_loop ∅ perms.

(** Pass 2, over the roles in [order]; each role is updated in place.  A chain
    of distinct roles is at most as long as their number. *)
Fixpoint expand_roles (order : list string) (roles : gmap string Role) : res azerror (gmap string Role) :=
  match order with
  | [] => ROk roles
  | name :: order' =>
      match roles !! name with
      | None => expand_roles order' roles
      | Some role =>
          let! expanded := expandInherits (S (size roles)) roles (r_Inherits role) {[r_Name role]} in
          expand_roles order' (<[name := mkRole (r_Name role) (r_Description role) (r_Inherits role)
                                           (dedupPermissions (r_Permissions role ++ expanded))]> roles)
      end
  end.

(** [validate] on one role: [Some true] when it grants [*:admin]. *)
Definition validate_role (role : Role) : res azerror bool :=
  if existsb (fun p => bool_decide (p_Resource p = Wildcard) && negb (bool_decide (p_Action p = ActionAdmin))) (r_Permissions role)
  then RErr ErrPolicyWildcardOnNonAdmin
  else ROk (existsb (fun p => bool_decide (p_Resource p = Wildcard) && bool_decide (p_Action p = ActionAdmin)
                              && (length (p_Conditions p) =? 0)%nat) (r_Permissions role)).

Fixpoint validate_roles (order : list string) (roles : gmap string Role) (hasAdmin : bool) : res azerror unit :=
  match order with
  | [] => if hasAdmin then ROk tt else RErr ErrPolicyNoAdmin
  | name :: order' =>
      match roles !! name with
      | None => validate_roles order' roles hasAdmin
      | Some role => let! a := validate_role role in validate_roles order' roles (hasAdmin || a)
      end
  end.

(** [order1], [order2], [order3]: the orders in which the three passes visit the
    role names. *)
Definition load_policy (order1 order2 order3 : list string) (raw : yamlPolicy) : res azerror Policy :=
  let! roles := hydrate_roles (y_Roles raw) order1 ∅ in
  let! roles := expand_roles order2 roles in
  let! _ := validate_roles order3 roles false in
  ROk (mkPolicy (y_Version raw) roles).

Definition LoadBytes (yaml : bytes -> option yamlPolicy) (order1 order2 order3 : list string) (data : bytes) : res azerror Policy :=
  match yaml data with
  | None => RErr ErrPolicyMalformed
  | Some raw => load_policy order1 order2 order3 raw
  end.

(** ** What a decision means *)

(** A condition holds on the attributes; a missing attribute fails. *)
Definition condition_holds (attrs : gmap string gany) (c : Condition) : Prop :=
  exists got, attrs !! c_Key c = Some got /\
    if bool_decide (c_Value c = ValueNotSelf)
    then exists pid, attrs !! "principal_id" = Some pid /\ fmt_Sprint pid <> fmt_Sprint got
    else fmt_Sprint got = c_Value c.

Lemma evaluateConditions_spec cs attrs : evaluateConditions cs attrs = None <-> Forall (condition_holds attrs) cs.
Proof.
  induction cs as [|c cs IH]; simpl; [by split|]. rewrite Forall_cons, <- IH. clear IH. unfold condition_holds.
  destruct (attrs !! c_Key c) as [got|]; [|split; [done|by intros [(? & ? & _) _]]].
  case_bool_decide as Hns.
  - destruct (attrs !! "principal_id") as [pid|]; [|split; [done|by intros [(? & _ & ? & ? & _) _]]].
    case_bool_decide as Heq; split; try done; [by intros [(g & [= <-] & q & [= <-] & Hne) _]|eauto 10|by intros [_ ?]].
  - case_bool_decide as Heq; simpl; split; try done; [eauto|by intros [_ ?]|by intros [(g & [= <-] & ?) _]].
Qed.

(** A permission grants an action on a resource under the attributes. *)
Definition grants (perm : Permission) (resource action : string) (attrs : gmap string gany) : Prop :=
  (p_Resource perm = Wildcard \/ p_Resource perm = resource) /\
  (p_Action perm = ActionAdmin \/ p_Action perm = Wildcard \/ p_Action perm = action) /\
  Forall (condition_holds attrs) (p_Conditions perm).

Lemma matchesResource_spec a b : matchesResource a b = true <-> a = Wildcard \/ a = b.
Proof. unfold matchesResource. repeat case_bool_decide; naive_solver. Qed.

Lemma matchesAction_spec a b : matchesAction a b = true <-> a = ActionAdmin \/ a = Wildcard \/ a = b.
Proof. unfold matchesAction. repeat case_bool_decide; naive_solver. Qed.

Lemma match_permissions_spec perms resource action attrs :
  match match_permissions perms resource action attrs with
  | Some perm => perm ∈ perms /\ grants perm resource action attrs
  | None => forall perm, perm ∈ perms -> ~ grants perm resource action attrs
  end.
Proof.
  induction perms as [|perm perms IH]; simpl; [by intros ? ?%elem_of_nil|].
  assert (forall (P : Prop), ~ grants perm resource action attrs ->
    match match_permissions perms resource action attrs with
    | Some q => q ∈ perm :: perms /\ grants q resource action attrs
    | None => forall q, q ∈ perm :: perms -> ~ grants q resource action attrs
    end) as Hskip.
  { intros _ Hno. destruct (match_permissions perms resource action attrs) as [q|].
    - destruct IH as [Hin Hg]. split; [by constructor|done].
    - intros q [->|Hq]%elem_of_cons; [done|by apply IH]. }
  destruct (matchesResource (p_Resource perm) resource) eqn:Hr; simpl.
  - destruct (matchesAction (p_Action perm) action) eqn:Ha; simpl.
    + destruct (evaluateConditions (p_Conditions perm) attrs) eqn:He.
      * apply (Hskip True). intros (_ & _ & Hc). apply evaluateConditions_spec in Hc. congruence.
      * split; [constructor|]. split; [by apply matchesResource_spec|]. split; [by apply matchesAction_spec|].
        by apply evaluateConditions_spec.
    + apply (Hskip True). intros (_ & Hact & _). apply matchesAction_spec in Hact. congruence.
  - apply (Hskip True). intros (Hres & _ & _). apply matchesResource_spec in Hres. congruence.
Qed.

Lemma match_roles_spec policy roles resource action attrs :
  is_Some (match_roles policy roles resource action attrs) <->
  exists name role perm, name ∈ roles /\ pol_Roles policy !! name = Some role /\ perm ∈ r_Permissions role /\
    grants perm resource action attrs.
Proof.
  induction roles as [|n roles IH]; simpl.
  { split; [by intros []|intros (? & ? & ? & []%elem_of_nil & _)]. }
  destruct (pol_Roles policy !! n) as [role|] eqn:Hn.
  - pose proof (match_permissions_spec (r_Permissions role) resource action attrs) as Hm.
    destruct (match_permissions _ _ _ _) as [perm|].
    + split; [|by eexists]. intros _. exists n, role, perm. split; [constructor|]. naive_solver.
    + rewrite IH. split.
      * intros (n' & r' & p' & Hin & Hrest). exists n', r', p'. split; [by constructor|done].
      * intros (n' & r' & p' & [->|Hin]%elem_of_cons & Hr' & Hp' & Hg); [|by exists n', r', p'].
        rewrite Hn in Hr'. simplify_eq. exfalso. by eapply Hm.
  - rewrite IH. split.
    + intros (n' & r' & p' & Hin & Hrest). exists n', r', p'. split; [by constructor|done].
    + intros (n' & r' & p' & [->|Hin]%elem_of_cons & Hr' & Hrest); [congruence|by exists n', r', p'].
Qed.

(** The attributes a decision is taken on. *)
Definition effective_attrs (p : Principal) (attrs : option (gmap string gany)) : gmap string gany :=
  let m := default ∅ attrs in
  match m !! "principal_id" with Some _ => m | None => <["principal_id" := VString (ID p)]> m end.

Lemma allowed_iff_grant policy p resource action attrs :
  (exists d, (Allowed (Some policy) (Some p) resource action attrs).2 = ROk d /\ d_Allowed d = true) <->
  exists name role perm, name ∈ principalRoles (Some p) /\ pol_Roles policy !! name = Some role /\
    perm ∈ r_Permissions role /\ grants perm resource action (effective_attrs p attrs).
Proof.
  rewrite <- match_roles_spec. unfold Allowed. fold (effective_attrs p attrs).
  destruct (principalRoles (Some p)) as [|n roles]; simpl length; cbn [Nat.eqb].
  - simpl. split; [by intros (? & [= <-] & ?)|by intros []].
  - cbn [snd]. destruct (match_roles policy (n :: roles) resource action (effective_attrs p attrs)) as [[rn perm]|].
    + split; [|by eexists]. intros _. by eexists.
    + split; [by intros (? & [= <-] & ?)|by intros []].
Qed.

(** ** Inheritance *)

(** The recursion of [expandInherits] over its parents, as equations. *)
Lemma expandInherits_nil fuel roles seen : expandInherits (S fuel) roles [] seen = ROk [].
Proof. done. Qed.

Lemma expandInherits_cons fuel roles m inh seen :
  expandInherits (S fuel) roles (m :: inh) seen =
    if bool_decide (m ∈ seen) then RErr ErrPolicyInheritsCycle
    else match roles !! m with
         | None => RErr ErrPolicyInheritsUnknown
         | Some pr =>
             let! grand := expandInherits fuel roles (r_Inherits pr) ({[m]} ∪ seen) in
             let! rest := expandInherits (S fuel) roles inh seen in
             ROk (r_Permissions pr ++ grand ++ rest)%list
         end.
Proof. done. Qed.

(** With more fuel than roles off the stack, the recursion ends. *)
Lemma expandInherits_fuel fuel : forall roles inh seen,
  (size (dom roles ∖ seen) < fuel)%nat -> expandInherits fuel roles inh seen <> RPanic.
Proof.
  induction fuel as [|fuel IH]; intros roles inh seen Hf; [lia|].
  induction inh as [|m inh IHi]; [done|]. rewrite expandInherits_cons. case_bool_decide as Hseen; [done|].
  destruct (roles !! m) as [pr|] eqn:Hm; [|done].
  assert (size (dom roles ∖ ({[m]} ∪ seen)) < size (dom roles ∖ seen))%nat as Hlt.
  { apply subset_size. apply elem_of_dom_2 in Hm. set_solver. }
  pose proof (IH roles (r_Inherits pr) ({[m]} ∪ seen) ltac:(lia)) as Hg.
  destruct (expandInherits fuel roles (r_Inherits pr) ({[m]} ∪ seen)); cbn [res_bind]; [|done|done].
  by destruct (expandInherits (S fuel) roles inh seen).
Qed.

(** More fuel does not change an answer. *)
Lemma expandInherits_more fuel : forall fuel' roles inh seen,
  (fuel <= fuel')%nat -> expandInherits fuel roles inh seen <> RPanic ->
  expandInherits fuel' roles inh seen = expandInherits fuel roles inh seen.
Proof.
  induction fuel as [|fuel IH]; intros [|fuel'] roles inh seen Hle; [by lia || done..|].
  induction inh as [|m inh IHi]; [done|]. rewrite !expandInherits_cons. case_bool_decide; [done|].
  destruct (roles !! m) as [pr|]; [|done]. intros Hne.
  assert (expandInherits fuel roles (r_Inherits pr) ({[m]} ∪ seen) <> RPanic) as Hg by (intros Hg; by rewrite Hg in Hne).
  rewrite (IH fuel') by (lia || done).
  destruct (expandInherits fuel roles (r_Inherits pr) ({[m]} ∪ seen)) as [grand| |]; cbn [res_bind] in *; [|done|done].
  rewrite IHi; [done|]. intros Hi. by rewrite Hi in Hne.
Qed.

Lemma expandInherits_enough fuel roles inh seen : (size roles < fuel)%nat ->
  expandInherits fuel roles inh seen = expandInherits (S (size roles)) roles inh seen /\
  expandInherits fuel roles inh seen <> RPanic.
Proof.
  intros Hf. assert (dom roles ∖ seen ⊆ dom roles) as Hsub by set_solver. apply subseteq_size in Hsub. rewrite size_dom in Hsub.
  split; [apply expandInherits_more; [lia|]|]; apply expandInherits_fuel; lia.
Qed.

Section Inheritance.
(** The roles as hydrated by pass 1. *)
Context (R0 : gmap string Role).
Context (R0_names : forall n r, R0 !! n = Some r -> r_Name r = n).

Definition parent (n m : string) : Prop := exists r, R0 !! n = Some r /\ m ∈ r_Inherits r.

(** The permissions of a role and of all its ancestors. *)
Definition closure (n : string) (p : Permission) : Prop :=
  exists m r, rtc parent n m /\ R0 !! m = Some r /\ p ∈ r_Permissions r.

Lemma closure_step n m p : parent n m -> closure m p -> closure n p.
Proof. intros Hp (k & r & Hr & Hrest). exists k, r. split; [by eapply rtc_l|done]. Qed.

Lemma closure_cases n r p : R0 !! n = Some r -> closure n p -> p ∈ r_Permissions r \/ exists m, m ∈ r_Inherits r /\ closure m p.
Proof.
  intros Hr (k & rk & Hreach & Hk & Hp). inversion Hreach as [|? m ? [r' [Hr' Hm]] Hrest]; simplify_eq.
  - by left.
  - right. exists m. split; [done|]. by exists k, rk.
Qed.

(** The list holds a permission with the key of [p].  Deduplication keeps the
    keys, not the permissions: two permissions may share one. *)
Definition keyed (p : Permission) (ps : list Permission) : Prop := exists q, q ∈ ps /\ permissionKey q = permissionKey p.

Lemma keyed_in p ps : p ∈ ps -> keyed p ps.
Proof. intros Hp. by exists p. Qed.

Lemma keyed_app p l k : keyed p (l ++ k)%list <-> keyed p l \/ keyed p k.
Proof.
  split.
  - intros (q & [Hq|Hq]%elem_of_app & He); [left|right]; by exists q.
  - intros [(q & Hq & He)|(q & Hq & He)]; exists q; (split; [apply elem_of_app; by auto|done]).
Qed.

(** What holds of the roles while pass 2 rewrites them. *)
Definition expanding (roles : gmap string Role) : Prop :=
  forall n, match R0 !! n, roles !! n with
            | Some r0, Some r => r_Name r = n /\ r_Inherits r = r_Inherits r0 /\
                (forall p, p ∈ r_Permissions r0 -> keyed p (r_Permissions r)) /\
                (forall p, p ∈ r_Permissions r -> closure n p)
            | None, None => True
            | _, _ => False
            end.

Lemma expanding_initial : expanding R0.
Proof.
  intros n. destruct (R0 !! n) as [r|] eqn:Hr; [|done]. split; [by apply R0_names|]. split; [done|].
  split; [by intros; apply keyed_in|]. intros p Hp. exists n, r. split; [apply rtc_refl|done].
Qed.

Lemma expanding_lookup roles n r : expanding roles -> roles !! n = Some r ->
  exists r0, R0 !! n = Some r0 /\ r_Name r = n /\ r_Inherits r = r_Inherits r0 /\
    (forall p, p ∈ r_Permissions r0 -> keyed p (r_Permissions r)) /\ (forall p, p ∈ r_Permissions r -> closure n p).
Proof. intros Hex Hr. specialize (Hex n). rewrite Hr in Hex. destruct (R0 !! n); [eauto|done]. Qed.

(** A successful expansion collects permissions of the closures of the parents,
    one of each key, and none of their ancestors is on the visit stack. *)
Lemma expandInherits_sound fuel : forall roles inh seen out,
  expanding roles -> expandInherits fuel roles inh seen = ROk out ->
  (forall p, p ∈ out -> exists m, m ∈ inh /\ closure m p) /\
  (forall m p, m ∈ inh -> closure m p -> keyed p out) /\
  (forall m k, m ∈ inh -> rtc parent m k -> k ∉ seen) /\
  (forall m k, m ∈ inh -> rtc parent m k -> is_Some (R0 !! k)).
Proof.
  induction fuel as [|fuel IH]; intros roles inh seen out Hex He; [done|].
  revert out He. induction inh as [|m inh IHi]; intros out He.
  { rewrite expandInherits_nil in He. simplify_eq. repeat split; [by intros ? ?%elem_of_nil|by intros ? ? ?%elem_of_nil..]. }
  rewrite expandInherits_cons in He. case_bool_decide as Hseen; [done|].
  destruct (roles !! m) as [pr|] eqn:Hm; [|done].
  destruct (expandInherits fuel roles (r_Inherits pr) ({[m]} ∪ seen)) as [grand| |] eqn:Hg; cbn [res_bind] in He; [|done|done].
  destruct (expandInherits (S fuel) roles inh seen) as [rest| |] eqn:Hr; cbn [res_bind] in He; [|done|done]. simplify_eq.
  destruct (expanding_lookup _ _ _ Hex Hm) as (r0 & Hr0 & Hname & Hinh & Hown & Hcl).
  destruct (IH _ _ _ _ Hex Hg) as (Hg0 & Hg1 & Hg2 & Hg3). destruct (IHi _ eq_refl) as (Hi0 & Hi1 & Hi2 & Hi3).
  assert (forall k, k ∈ r_Inherits pr <-> parent m k) as Hpar
    by (intros k; rewrite Hinh; unfold parent; rewrite Hr0; naive_solver).
  split; [|split; [|split]].
  - intros p. rewrite !elem_of_app. intros [Hp|[Hp|Hp]].
    + exists m. split; [constructor|]. by apply Hcl.
    + destruct (Hg0 _ Hp) as (k & Hk & Hc). exists m. split; [constructor|]. eapply closure_step; [by apply Hpar|done].
    + destruct (Hi0 _ Hp) as (k & Hk & Hc). exists k. split; [by constructor|done].
  - intros k p Hk Hc. rewrite !keyed_app. apply elem_of_cons in Hk as [->|Hk]; [|by eauto].
    destruct (closure_cases _ _ _ Hr0 Hc) as [Hp|(k' & Hk' & Hc')]; [by auto|]. rewrite <- Hinh in Hk'. by eauto.
  - intros k k' [->|Hk]%elem_of_cons Hreach; [|by eapply Hi2].
    inversion Hreach as [|? x ? Hx Hrest]; simplify_eq; [done|].
    apply Hpar in Hx. specialize (Hg2 _ _ Hx Hrest). set_solver.
  - intros k k' [->|Hk]%elem_of_cons Hreach; [|by eapply Hi3].
    inversion Hreach as [|? x ? Hx Hrest]; simplify_eq; [by eexists|]. apply Hpar in Hx. by eapply Hg3.
Qed.

(** A refusal names its reason: a cycle, or a parent nobody defines. *)
Definition acyclic : Prop := forall n, ~ tc parent n n.
Definition closed : Prop := forall n m, parent n m -> is_Some (R0 !! m).
Definition refusal_reason (e : azerror) : Prop :=
  match e with
  | ErrPolicyInheritsCycle => exists n, tc parent n n
  | ErrPolicyInheritsUnknown => exists n m, parent n m /\ R0 !! m = None
  | _ => False
  end.

Lemma expandInherits_refusal fuel : forall roles inh seen e,
  expanding roles -> (forall m, m ∈ inh -> exists n, parent n m) ->
  (forall s m, s ∈ seen -> m ∈ inh -> tc parent s m) ->
  expandInherits fuel roles inh seen = RErr e -> refusal_reason e.
Proof.
  induction fuel as [|fuel IH]; intros roles inh seen e Hex Hin Hst; [done|].
  induction inh as [|m inh IHi]; [done|]. rewrite expandInherits_cons. case_bool_decide as Hseen.
  { intros [= <-]. exists m. apply Hst; [done|constructor]. }
  destruct (roles !! m) as [pr|] eqn:Hm.
  2: { intros [= <-]. destruct (Hin m (list_elem_of_here _ _)) as [n Hn]. exists n, m. split; [done|].
       specialize (Hex m). rewrite Hm in Hex. by destruct (R0 !! m). }
  destruct (expanding_lookup _ _ _ Hex Hm) as (r0 & Hr0 & _ & Hinh & _).
  assert (forall k, k ∈ r_Inherits pr -> parent m k) as Hpar by (intros k Hk; rewrite Hinh in Hk; by exists r0).
  assert (forall e', expandInherits fuel roles (r_Inherits pr) ({[m]} ∪ seen) = RErr e' -> refusal_reason e') as Hg.
  { intros e'. apply IH; [done|intros k Hk; exists m; by apply Hpar|].
    intros s k Hs Hk. apply elem_of_union in Hs as [->%elem_of_singleton|Hs]; [by apply tc_once, Hpar|].
    eapply tc_r; [apply Hst; [done|constructor]|by apply Hpar]. }
  assert (expandInherits (S fuel) roles inh seen = RErr e -> refusal_reason e) as Hi.
  { apply IHi; [intros k Hk; apply Hin; by constructor|intros s k Hs Hk; apply Hst; [done|by constructor]]. }
  destruct (expandInherits fuel roles (r_Inherits pr) ({[m]} ∪ seen)); cbn [res_bind]; [|intros [= <-]; by apply Hg|done].
  destruct (expandInherits (S fuel) roles inh seen); cbn [res_bind]; [done|intros [= <-]; by apply Hi|done].
Qed.

Lemma tc_head n k : tc parent n k -> exists m, parent n m /\ rtc parent m k.
Proof. destruct 1 as [x y Hxy|x y z Hxy Hyz]; [by exists y; split; [|apply rtc_refl]|by exists y; split; [|apply tc_rtc]]. Qed.

(** The permissions of the file; one whose key no other of them has. *)
Definition file_permission (p : Permission) : Prop := exists n r, R0 !! n = Some r /\ p ∈ r_Permissions r.
Definition key_unique (p : Permission) : Prop :=
  forall q, file_permission q -> permissionKey q = permissionKey p -> q = p.

Lemma closure_file n p : closure n p -> file_permission p.
Proof. intros (m & r & _ & Hm & Hp). by exists m, r. Qed.

Lemma dedup_loop_keyed perms : forall seen p,
  permissionKey p ∉ seen -> keyed p perms -> keyed p (dedup_loop seen perms).
Proof.
  induction perms as [|q perms IH]; intros seen p Hn (x & Hx & Hk); [by apply elem_of_nil in Hx|]. simpl.
  apply elem_of_cons in Hx as [->|Hx]; case_bool_decide as Hq.
  - by rewrite Hk in Hq.
  - exists q. split; [constructor|done].
  - apply IH; [done|by exists x].
  - destruct (decide (permissionKey p = permissionKey q)) as [Heq|Hne]; [exists q; split; [constructor|done]|].
    destruct (IH ({[permissionKey q]} ∪ seen) p) as (y & Hy & Hyk); [set_solver|by exists x|].
    exists y. split; [by constructor|done].
Qed.

Lemma dedup_loop_sub perms : forall seen p, p ∈ dedup_loop seen perms -> p ∈ perms.
Proof.
  induction perms as [|q perms IH]; intros seen p; simpl; [done|]. case_bool_decide.
  - intros Hp. constructor. by eapply IH.
  - intros [->|Hp]%elem_of_cons; [constructor|constructor; by eapply IH].
Qed.

(** A role that has been expanded: it holds every key of its closure. *)
Definition complete (roles : gmap string Role) (n : string) : Prop :=
  forall r p, roles !! n = Some r -> closure n p -> keyed p (r_Permissions r).

Lemma expand_one roles name role expanded :
  expanding roles -> roles !! name = Some role ->
  expandInherits (S (size roles)) roles (r_Inherits role) {[r_Name role]} = ROk expanded ->
  let roles' := <[name := mkRole (r_Name role) (r_Description role) (r_Inherits role)
                     (dedupPermissions (r_Permissions role ++ expanded))]> roles in
  expanding roles' /\ complete roles' name /\ (forall n, complete roles n -> complete roles' n) /\
  ~ tc parent name name /\ (forall k, tc parent name k -> is_Some (R0 !! k)).
Proof.
  intros Hex Hr He roles'. destruct (expanding_lookup _ _ _ Hex Hr) as (r0 & Hr0 & Hname & Hinh & Hown & Hcl).
  destruct (expandInherits_sound _ _ _ _ _ Hex He) as (Hout & Hkeys & Hst & Hkn).
  assert (forall k, k ∈ r_Inherits role <-> parent name k) as Hpar
    by (intros k; rewrite Hinh; unfold parent; rewrite Hr0; naive_solver).
  set (ded := dedupPermissions (r_Permissions role ++ expanded)).
  assert (forall p, p ∈ ded -> closure name p) as Hded.
  { intros p Hp%dedup_loop_sub. apply elem_of_app in Hp as [Hp|Hp]; [by apply Hcl|].
    destruct (Hout _ Hp) as (m & Hm & Hc). eapply closure_step; [by apply Hpar|done]. }
  assert (forall p, closure name p -> keyed p ded) as Hall.
  { intros p Hc. apply dedup_loop_keyed; [set_solver|]. rewrite keyed_app.
    destruct (closure_cases _ _ _ Hr0 Hc) as [Hp|(m & Hm & Hc')]; [by left; apply Hown|].
    right. rewrite <- Hinh in Hm. by eapply Hkeys. }
  split; [|split; [|split; [|split]]].
  - intros n. subst roles'. destruct (decide (n = name)) as [->|Hne]; [|rewrite lookup_insert_ne by done; apply Hex].
    rewrite lookup_insert_eq, Hr0. simpl. split; [done|]. split; [done|]. split; [|done].
    intros p Hp. apply Hall. exists name, r0. split; [apply rtc_refl|done].
  - intros r p Hrr Hc. subst roles'. rewrite lookup_insert_eq in Hrr. simplify_eq. simpl. by apply Hall.
  - intros n Hcomp r p Hrr Hc. subst roles'. destruct (decide (n = name)) as [->|Hne].
    + rewrite lookup_insert_eq in Hrr. simplify_eq. simpl. by apply Hall.
    + rewrite lookup_insert_ne in Hrr by done. by eapply Hcomp.
  - intros Htc. apply tc_head in Htc as (m & Hm%Hpar & Hrest). apply (Hst _ _ Hm Hrest). rewrite Hname. set_solver.
  - intros k Htc. apply tc_head in Htc as (m & Hm%Hpar & Hrest). by apply (Hkn _ _ Hm Hrest).
Qed.

Lemma expand_roles_sound order : forall roles roles',
  expanding roles -> expand_roles order roles = ROk roles' ->
  expanding roles' /\ (forall n, n ∈ order \/ complete roles n -> complete roles' n) /\
  (forall n, n ∈ order -> is_Some (R0 !! n) -> ~ tc parent n n /\ (forall k, tc parent n k -> is_Some (R0 !! k))).
Proof.
  induction order as [|name order IH]; intros roles roles' Hex He; cbn [expand_roles] in He.
  { simplify_eq. split; [done|]. split; [by intros n [[]%elem_of_nil|Hc]|by intros n []%elem_of_nil]. }
  destruct (roles !! name) as [role|] eqn:Hr.
  - destruct (expandInherits (S (size roles)) roles (r_Inherits role) {[r_Name role]}) as [expanded| |] eqn:Hei; cbn [res_bind] in He; [|done|done].
    destruct (expand_one _ _ _ _ Hex Hr Hei) as (Hex1 & Hc1 & Hmono & Hac & Hkn).
    destruct (IH _ _ Hex1 He) as (Hex2 & Hc2 & Hac2). split; [done|]. split.
    + intros n [[->|Hn]%elem_of_cons|Hc]; apply Hc2; auto.
    + intros n [->|Hn]%elem_of_cons Hkn'; [done|by apply Hac2].
  - destruct (IH _ _ Hex He) as (Hex2 & Hc2 & Hac2). split; [done|]. split.
    + intros n [[->|Hn]%elem_of_cons|Hc]; [|by apply Hc2; auto..].
      intros r p Hrr. exfalso. specialize (Hex name). rewrite Hr in Hex. specialize (Hex2 name). rewrite Hrr in Hex2.
      by destruct (R0 !! name).
    + intros n [->|Hn]%elem_of_cons Hkn; [|by apply Hac2]. exfalso. specialize (Hex name). rewrite Hr in Hex.
      by destruct Hkn as [? Hkn]; rewrite Hkn in Hex.
Qed.

(** Pass 2 never runs on: it answers, or names a real cycle or a parent nobody
    defines. *)
Lemma expand_roles_refusal order : forall roles, expanding roles ->
  match expand_roles order roles with ROk _ => True | RErr e => refusal_reason e | RPanic => False end.
Proof.
  induction order as [|name order IH]; intros roles Hex; cbn [expand_roles]; [done|].
  destruct (roles !! name) as [role|] eqn:Hr; [|by apply IH].
  destruct (expanding_lookup _ _ _ Hex Hr) as (r0 & Hr0 & Hname & Hinh & _).
  assert (forall m, m ∈ r_Inherits role -> parent name m) as Hpar by (intros m Hm; rewrite Hinh in Hm; by exists r0).
  destruct (expandInherits (S (size roles)) roles (r_Inherits role) {[r_Name role]}) as [out|e|] eqn:He; cbn [res_bind].
  - apply IH. by eapply (expand_one _ _ _ _ Hex Hr He).
  - eapply expandInherits_refusal, He; [done|intros m Hm; exists name; by apply Hpar|].
    intros s m ->%elem_of_singleton Hm. rewrite Hname. by apply tc_once, Hpar.
  - by destruct (expandInherits_enough (S (size roles)) roles (r_Inherits role) {[r_Name role]} ltac:(lia)).
Qed.
End Inheritance.

(** ** Loading *)

Definition hydrated_role (n : string) (yr : yamlRole) : Role :=
  mkRole n (yr_Description yr) (yr_Inherits yr) (hydrate_permission <$> yr_Permissions yr).

Lemma hydrate_permissions_ok yps perms : hydrate_permissions yps = ROk perms -> perms = hydrate_permission <$> yps.
Proof.
  revert perms. induction yps as [|yp yps IH]; simpl; intros perms H; [by simplify_eq|]. destruct (_ || _); [done|].
  destruct (hydrate_permissions yps) as [rest| |]; simpl in H; simplify_eq. by rewrite (IH rest).
Qed.

Lemma hydrate_roles_ok raw order : forall acc roles, hydrate_roles raw order acc = ROk roles ->
  forall n, roles !! n = if bool_decide (n ∈ order) then
                           match raw !! n with Some yr => Some (hydrated_role n yr) | None => acc !! n end
                         else acc !! n.
Proof.
  induction order as [|name order IH]; simpl; intros acc roles Hh n; [by simplify_eq|].
  destruct (raw !! name) as [yr|] eqn:Hraw.
  - case_bool_decide as Hempty; [done|].
    destruct (hydrate_permissions (yr_Permissions yr)) as [perms| |] eqn:Hp; cbn [res_bind] in Hh; [|done|done].
    rewrite (IH _ _ Hh). apply hydrate_permissions_ok in Hp as ->.
    destruct (decide (n = name)) as [->|Hne].
    + rewrite (bool_decide_eq_true_2 (name ∈ name :: order)) by constructor. rewrite Hraw. case_bool_decide; [done|].
      by rewrite lookup_insert_eq.
    + rewrite lookup_insert_ne by done. rewrite (bool_decide_ext (n ∈ name :: order) (n ∈ order)); [done|]. set_solver.
  - rewrite (IH _ _ Hh). destruct (decide (n = name)) as [->|Hne].
    + rewrite Hraw. by repeat case_bool_decide.
    + rewrite (bool_decide_ext (n ∈ name :: order) (n ∈ order)); [done|]. set_solver.
Qed.

(** The roles of a file before expansion. *)
Definition file_roles (raw : yamlPolicy) : gmap string Role := map_imap (fun n yr => Some (hydrated_role n yr)) (y_Roles raw).

(** An iteration order visits every key of the map. *)
Definition visits (order : list string) (raw : yamlPolicy) : Prop := forall n, is_Some (y_Roles raw !! n) -> n ∈ order.

Lemma hydrate_file raw order roles :
  visits order raw -> hydrate_roles (y_Roles raw) order ∅ = ROk roles -> roles = file_roles raw.
Proof.
  intros Hv Hh. apply map_eq. intros n. rewrite (hydrate_roles_ok _ _ _ _ Hh). unfold file_roles.
  rewrite map_lookup_imap, lookup_empty. destruct (y_Roles raw !! n) as [yr|] eqn:Hn; [|by case_bool_decide].
  rewrite bool_decide_eq_true_2; [done|]. apply Hv. by eexists.
Qed.

Lemma file_roles_names raw n r : file_roles raw !! n = Some r -> r_Name r = n.
Proof.
  unfold file_roles. rewrite map_lookup_imap. destruct (y_Roles raw !! n); [|done]. intros [= <-]. done.
Qed.

(** [name] inherits from [m], directly or not, in the file. *)
Definition inherits_from (raw : yamlPolicy) : string -> string -> Prop := rtc (parent (file_roles raw)).

Lemma load_policy_inv o1 o2 o3 raw policy :
  visits o1 raw -> load_policy o1 o2 o3 raw = ROk policy ->
  expand_roles o2 (file_roles raw) = ROk (pol_Roles policy) /\ validate_roles o3 (pol_Roles policy) false = ROk tt.
Proof.
  intros Hv1 Hl. unfold load_policy in Hl. apply res_bind_ok in Hl as (r1 & Hh & Hl).
  apply res_bind_ok in Hl as (r2 & He & Hl). apply res_bind_ok in Hl as ([] & Hval & Hl).
  apply hydrate_file in Hh as ->; [|done]. by simplify_eq.
Qed.

(** The file grants the request through [perm]: one of the principal's roles,
    or a role it inherits from, lists it, and it matches. *)
Definition file_grants (raw : yamlPolicy) (p : Principal) (resource action : string) (attrs : option (gmap string gany))
    (perm : Permission) : Prop :=
  exists name m yr yp, name ∈ principalRoles (Some p) /\ inherits_from raw name m /\ y_Roles raw !! m = Some yr /\
    yp ∈ yr_Permissions yr /\ perm = hydrate_permission yp /\ grants perm resource action (effective_attrs p attrs).

(** C7: The engine decides what the policy file says, whatever orders Go
    iterates its maps in while loading.  For every file that loads: what is
    allowed, the file grants, to one of the principal's roles or to a role it
    inherits from (transitively), by a permission that matches the resource
    and action and whose conditions all hold; and what the file grants is
    allowed, except that a grant counts only when no other permission of the
    file has its deduplication key, since deduplication keeps the first of
    two permissions with one key ([dedup_conflates]). *)
Theorem decision_is_declarative (raw : yamlPolicy) (o1 o2 o3 : list string) (policy : Policy)
    (p : Principal) (resource action : string) (attrs : option (gmap string gany)) :
  load_policy o1 o2 o3 raw = ROk policy -> visits o1 raw -> visits o2 raw ->
  ((exists d, (Allowed (Some policy) (Some p) resource action attrs).2 = ROk d /\ d_Allowed d = true) ->
     exists perm, file_grants raw p resource action attrs perm) /\
  (forall perm, file_grants raw p resource action attrs perm -> key_unique (file_roles raw) perm ->
     exists d, (Allowed (Some policy) (Some p) resource action attrs).2 = ROk d /\ d_Allowed d = true).
Proof.
  intros Hl Hv1 Hv2. destruct (load_policy_inv _ _ _ _ _ Hv1 Hl) as [He _].
  pose proof (file_roles_names raw) as Hnames.
  destruct (expand_roles_sound (file_roles raw) Hnames o2 _ _ (expanding_initial _ Hnames) He) as (Hex & Hcomp & _).
  rewrite allowed_iff_grant. split.
  - intros (name & role & perm & Hin & Hr & Hp & Hg).
    destruct (expanding_lookup _ _ _ _ Hex Hr) as (_ & _ & _ & _ & _ & Hcl).
    destruct (Hcl _ Hp) as (m & r & Hreach & Hm & Hpm). unfold file_roles in Hm. rewrite map_lookup_imap in Hm.
    destruct (y_Roles raw !! m) as [yr|] eqn:Hyr; [|done]. injection Hm as <-. simpl in Hpm.
    apply list_elem_of_fmap in Hpm as (yp & -> & Hyp). exists (hydrate_permission yp), name, m, yr, yp. by split_and!.
  - intros perm (name & m & yr & yp & Hin & Hreach & Hyr & Hyp & -> & Hg) Huniq.
    assert (file_roles raw !! m = Some (hydrated_role m yr)) as Hm by (unfold file_roles; by rewrite map_lookup_imap, Hyr).
    assert (is_Some (file_roles raw !! name)) as [r0 Hr0].
    { inversion Hreach as [|? ? ? [r [Hr _]]]; subst; by eexists. }
    assert (is_Some (y_Roles raw !! name)) as Hy0.
    { unfold file_roles in Hr0. rewrite map_lookup_imap in Hr0. destruct (y_Roles raw !! name); [by eexists|done]. }
    pose proof (Hex name) as Hexn. rewrite Hr0 in Hexn. destruct (pol_Roles policy !! name) as [role|] eqn:Hr; [|done].
    assert (closure (file_roles raw) name (hydrate_permission yp)) as Hc.
    { exists m, (hydrated_role m yr). split; [done|]. split; [done|]. simpl. by apply list_elem_of_fmap_2. }
    destruct (Hcomp name (or_introl (Hv2 _ Hy0)) _ _ Hr Hc) as (q & Hq & Hk).
    destruct (expanding_lookup _ _ _ _ Hex Hr) as (_ & _ & _ & _ & _ & Hcl).
    apply allowed_iff_grant. rewrite (Huniq q) in Hq; [|by eapply closure_file, Hcl|done].
    by exists name, role, (hydrate_permission yp).
Qed.

(** C34: Expansion of inheritance terminates and its cycle detection is exact.
    Any fuel above the number of roles gives the same answer, which is never
    the one of a recursion that ran out (first part).  So pass 2, in any order
    that visits every role, answers: it succeeds, and then no role inherits
    from itself and every inherited role is defined; or it refuses with the
    cycle error, and then some role does inherit from itself; or with the
    unknown-role error, and then some inherited role is not defined.  There is
    no fourth outcome, so an acyclic file with defined parents is accepted. *)
Theorem inheritance_accepted_iff (raw : yamlPolicy) (order : list string) :
  (forall fuel roles inherits seen, (size roles < fuel)%nat ->
     expandInherits fuel roles inherits seen = expandInherits (S (size roles)) roles inherits seen /\
     expandInherits fuel roles inherits seen <> RPanic) /\
  (visits order raw ->
   match expand_roles order (file_roles raw) with
   | ROk _ => acyclic (file_roles raw) /\ closed (file_roles raw)
   | RErr ErrPolicyInheritsCycle => exists n, tc (parent (file_roles raw)) n n
   | RErr ErrPolicyInheritsUnknown => exists n m, parent (file_roles raw) n m /\ file_roles raw !! m = None
   | _ => False
   end).
Proof.
  split; [intros; by eapply expandInherits_enough|]. intros Hv. pose proof (file_roles_names raw) as Hnames.
  pose proof (expanding_initial _ Hnames) as Hex.
  pose proof (expand_roles_refusal (file_roles raw) Hnames order _ Hex) as Href.
  destruct (expand_roles order (file_roles raw)) as [roles|[]|] eqn:He; try done.
  destruct (expand_roles_sound (file_roles raw) Hnames order _ _ Hex He) as (_ & _ & Hac).
  assert (forall n, is_Some (file_roles raw !! n) -> n ∈ order) as Hin.
  { intros n [r Hr]. apply Hv. unfold file_roles in Hr. rewrite map_lookup_imap in Hr.
    destruct (y_Roles raw !! n); [by eexists|done]. }
  split.
  - intros n Htc. destruct (tc_head _ _ _ Htc) as (m & (r & Hr & _) & _).
    destruct (Hac n) as [Hno _]; [apply Hin; by eexists|by eexists|]. by apply Hno.
  - intros n m Hp. pose proof Hp as (r & Hr & _). destruct (Hac n) as [_ Hkn]; [apply Hin; by eexists|by eexists|].
    by apply Hkn, tc_once.
Qed.

Lemma validate_roles_admin order : forall roles h, validate_roles order roles h = ROk tt ->
  h = true \/ exists n role, roles !! n = Some role /\ validate_role role = ROk true.
Proof.
  induction order as [|n order IH]; simpl; intros roles h Hv; [destruct h; [by left|done]|].
  destruct (roles !! n) as [role|] eqn:Hr; [|by apply IH].
  destruct (validate_role role) as [a| |] eqn:Ha; cbn [res_bind] in Hv; [|done|done].
  destruct (IH _ _ Hv) as [Hh|]; [|by right]. apply orb_true_iff in Hh as [->| ->]; [by left|]. right. eauto.
Qed.

(** Lockout protection: every policy that loads has a role whose holders are
    allowed every action on every resource, with any attributes. *)
Theorem loaded_policy_has_admin (raw : yamlPolicy) (o1 o2 o3 : list string) (policy : Policy) :
  load_policy o1 o2 o3 raw = ROk policy -> visits o1 raw ->
  exists name, forall (p : Principal) (resource action : string) (attrs : option (gmap string gany)),
    name ∈ principalRoles (Some p) ->
    exists d, (Allowed (Some policy) (Some p) resource action attrs).2 = ROk d /\ d_Allowed d = true.
Proof.
  intros Hl Hv. destruct (load_policy_inv _ _ _ _ _ Hv Hl) as [_ Hval].
  destruct (validate_roles_admin _ _ _ Hval) as [|(n & role & Hr & Hrole)]; [done|]. exists n.
  intros p resource action attrs Hin. apply allowed_iff_grant.
  unfold validate_role in Hrole. destruct (existsb _ (r_Permissions role)) in Hrole; [done|]. injection Hrole as Hrole.
  apply existsb_exists in Hrole as (perm & Hperm%list_elem_of_In & Hp).
  apply andb_true_iff in Hp as [[Hres Hact]%andb_true_iff Hc]. apply bool_decide_eq_true in Hres, Hact. apply Nat.eqb_eq in Hc.
  exists n, role, perm. split; [done|]. split; [done|]. split; [done|]. split; [by left|]. split; [by left|].
  by destruct (p_Conditions perm).
Qed.

(** The deduplication key is ambiguous: a permission with two conditions and
    one whose single condition value spells both have the same key, and the
    later of the two is dropped from the role. *)
Theorem dedup_conflates (resource action k1 v1 k2 v2 : string) :
  let one := mkPermission resource action [mkCondition k1 (v1 +:+ ";" +:+ k2 +:+ "=" +:+ v2)] in
  let two := mkPermission resource action [mkCondition k1 v1; mkCondition k2 v2] in
  one <> two /\ dedupPermissions [one; two] = [one] /\ dedupPermissions [two; one] = [two].
Proof.
  intros one two. assert (permissionKey one = permissionKey two) as Hk.
  { unfold permissionKey. simpl. do 2 f_equal. by rewrite ?string_app_nil_r, <- ?string_app_assoc. }
  split; [discriminate|]. unfold dedupPermissions. cbn [dedup_loop]. rewrite Hk.
  rewrite (bool_decide_eq_false_2 (permissionKey two ∈ (∅ : gset string))) by set_solver.
  rewrite (bool_decide_eq_true_2 (permissionKey two ∈ ({[permissionKey two]} ∪ ∅ : gset string))) by set_solver. done.
Qed.

(** ** A policy *)

Module AuthzDemo.
Definition raw : yamlPolicy := mkYamlPolicy 1
  (<["admin" := mkYamlRole "" [] [mkYamlPermission "*" "admin" ∅]]>
  (<["viewer" := mkYamlRole "" [] [mkYamlPermission "events" "read" ∅]]>
  (<["auditor" := mkYamlRole "" ["viewer"] [mkYamlPermission "audit" "read" {["subject" := "not-self"]}]]> ∅))).
Definition order : list string := ["auditor"; "admin"; "viewer"].
Definition policy : Policy :=
  match load_policy order order order raw with ROk p => p | _ => mkPolicy 0 ∅ end.
Definition carol : Principal := mkPrincipal "u-carol" PrincipalHuman "carol" "" StatusActive ["auditor"] None 0 None.

Lemma order_visits : visits order raw.
Proof.
  intros n [yr Hn]. unfold raw in Hn. cbn [y_Roles] in Hn. rewrite !lookup_insert_Some, lookup_empty in Hn. unfold order.
  destruct Hn as [[<- _]|[_ [[<- _]|[_ [[<- _]|[_ Hn]]]]]]; [| | |done]; rewrite !elem_of_cons; auto.
Qed.

(** The keys of the file's permissions are pairwise distinct. *)
Definition all_permissions (R : gmap string Role) : list Permission := concat ((fun nr => r_Permissions nr.2) <$> map_to_list R).

Lemma all_permissions_spec R p : file_permission R p -> p ∈ all_permissions R.
Proof.
  intros (n & r & Hn & Hp). unfold all_permissions. apply list_elem_of_In, in_concat. exists (r_Permissions r).
  split; [|by apply list_elem_of_In]. apply list_elem_of_In, (list_elem_of_fmap_2 (fun nr => r_Permissions nr.2) _ (n, r)).
  by apply elem_of_map_to_list.
Qed.

Lemma key_unique_b R p :
  forallb (fun q => negb (bool_decide (permissionKey q = permissionKey p)) || bool_decide (q = p)) (all_permissions R) = true ->
  key_unique R p.
Proof.
  intros Hb q Hq%all_permissions_spec Hk. rewrite forallb_forall in Hb.
  specialize (Hb q (proj1 (list_elem_of_In _ _) Hq)). rewrite (bool_decide_eq_true_2 _ Hk) in Hb.
  by apply bool_decide_eq_true in Hb.
Qed.

Definition read_events : Permission := mkPermission "events" "read" [].

Lemma auditor_reads : file_grants raw carol "events" "read" None read_events.
Proof.
  exists "auditor", "viewer", (mkYamlRole "" [] [mkYamlPermission "events" "read" ∅]), (mkYamlPermission "events" "read" ∅).
  split; [vm_compute; constructor|]. split.
  { apply rtc_once. exists (hydrated_role "auditor" (mkYamlRole "" ["viewer"]
      [mkYamlPermission "audit" "read" {["subject" := "not-self"]}])). split; [reflexivity|simpl; constructor]. }
  split; [reflexivity|]. split; [constructor|]. split; [reflexivity|]. split; [right; reflexivity|]. split; [right; right; reflexivity|].
  constructor.
Qed.

(** The auditor reads events through the viewer role. *)
Lemma decision_is_declarative_witness :
  exists d, (Allowed (Some policy) (Some carol) "events" "read" None).2 = ROk d /\ d_Allowed d = true.
Proof.
  refine (proj2 (decision_is_declarative raw order order order policy carol "events" "read" None _ _ _) read_events _ _);
    [vm_compute; reflexivity|apply order_visits|apply order_visits|apply auditor_reads|].
  apply key_unique_b. vm_compute. reflexivity.
Defined.

(** The demo file, and one with two roles that inherit from each other. *)
Definition looping : yamlPolicy := mkYamlPolicy 1
  (<["a" := mkYamlRole "" ["b"] []]> (<["b" := mkYamlRole "" ["a"] []]> ∅)).

Lemma looping_visits : visits ["b"; "a"] looping.
Proof.
  intros n [yr Hn]. unfold looping in Hn. cbn [y_Roles] in Hn. rewrite !lookup_insert_Some, lookup_empty in Hn.
  destruct Hn as [[<- _]|[_ [[<- _]|[_ Hn]]]]; [| |done]; rewrite !elem_of_cons; auto.
Qed.

Lemma inheritance_accepted_iff_witness :
  (acyclic (file_roles raw) /\ closed (file_roles raw)) /\ exists n, tc (parent (file_roles looping)) n n.
Proof.
  split.
  - pose proof (proj2 (inheritance_accepted_iff raw order) order_visits) as Ha.
    assert (expand_roles order (file_roles raw) = ROk (pol_Roles policy)) as He by (vm_compute; reflexivity).
    rewrite He in Ha. exact Ha.
  - pose proof (proj2 (inheritance_accepted_iff looping ["b"; "a"]) looping_visits) as Ha.
    assert (expand_roles ["b"; "a"] (file_roles looping) = RErr ErrPolicyInheritsCycle) as He by (vm_compute; reflexivity).
    rewrite He in Ha. exact Ha.
Defined.

Lemma loaded_policy_has_admin_witness :
  exists name, forall (p : Principal) (resource action : string) (attrs : option (gmap string gany)),
    name ∈ principalRoles (Some p) ->
    exists d, (Allowed (Some policy) (Some p) resource action attrs).2 = ROk d /\ d_Allowed d = true.
Proof.
  apply (loaded_policy_has_admin raw order order order policy); [vm_compute; reflexivity|apply order_visits].
Defined.
End AuthzDemo.
