(* ===== verification/AuthHttp.v ===== *)
(** * Request authentication and authorization

    internal/identity/middleware/middleware.go (bearer tokens and the development
    token), internal/authz/middleware.go (permission checks and their audit
    trail), internal/authz/reload.go and admin.go (hot reload of the policy).

    A request carries the fields the handlers read.  A handler's outcome is a
    response or the call of the next handler; audit events are collected in
    order. *)
From stdpp Require Import base list strings gmap sorting.
From Stdlib Require Import ZArith Lia Bool Ascii.
From S2P Require Import Prelude Models GoStrings Pki Identity Authn Jwt Authz GoFloat.
Local Open Scope string_scope.
Local Open Scope list_scope.
Local Open Scope Z_scope.

(** [rq_Subject] is the first [subject] query parameter, [rq_PeerCN] the common
    name of the TLS peer; [rq_Principal] the pointer [RequireAuth] put in the
    context; [rq_Body] is [None] when reading fails. *)
Record Request := mkRequest {
  rq_Method : string; rq_Authorization : string; rq_Protocol : string; rq_ContentType : string; rq_Subject : string;
  rq_PeerCN : option string; rq_Body : option bytes; rq_Principal : option loc }.

Definition WithPrincipal (r : Request) (p : loc) : Request :=
  mkRequest (rq_Method r) (rq_Authorization r) (rq_Protocol r) (rq_ContentType r) (rq_Subject r) (rq_PeerCN r) (rq_Body r) (Some p).

Inductive outcome := Respond (status : Z) (body : string) | Next (r : Request).

Inductive autherror :=
| ErrMissingAuthHeader | ErrMalformedAuthHeader | ErrAuthIdentity (e : iderror) | ErrAuthToken (e : jwterror).

(** ** Authentication of a request *)

Fixpoint bearer_protocol (parts : list string) : autherror + string :=
  match parts with
  | [] => inl ErrMissingAuthHeader
  | part :: parts' =>
      let p := TrimSpace part in
      if HasPrefix p "bearer." then inr (TrimPrefix p "bearer.") else bearer_protocol parts'
  end.

Definition extractBearer (r : Request) : autherror + string :=
  if bool_decide (rq_Authorization r = "") then
    if bool_decide (rq_Protocol r = "") then inl ErrMissingAuthHeader
    else bearer_protocol (Split (rq_Protocol r) ",")
  else
    match SplitN2 (rq_Authorization r) " " with
    | [scheme; token] =>
        if negb (EqualFold scheme "Bearer") || bool_decide (token = "") then inl ErrMalformedAuthHeader else inr token
    | _ => inl ErrMalformedAuthHeader
    end.

(** The warning of development mode: the new time of the last warning and
    whether one is logged.  [cadence] is [devWarningRate / time.Second]. *)
Definition maybeWarnDevMode (now last cadence : Z) : Z * bool :=
  let cadence := if cadence <? 1 then 1 else cadence in
  if now - last <? cadence then (last, false) else (now, true).

Section Middleware.
Context {KS PS : Type} `{KeyStore KS} `{PrincipalStore PS} `{Ed25519} `{JwtLib}.

(** The configuration of [New] with its options: the verifier's authority and
    denylist, the principals, the development token and principal. *)
Record Middleware := mkMiddleware {
  mw_authority : KS; mw_revocations : option (string -> option bool); mw_principals : PS;
  mw_devToken : string; mw_devPrincipal : option loc }.

Definition New_middleware (authority : KS) (revocations : option (string -> option bool)) (principals : PS) : Middleware :=
  mkMiddleware authority revocations principals "" None.
Definition WithDevMode (token : string) (principal : option loc) (m : Middleware) : Middleware :=
  mkMiddleware (mw_authority m) (mw_revocations m) (mw_principals m) token principal.

Definition deref (h : heap) (p : option loc) : option Principal := match p with Some l => h !! l | None => None end.

(** An active pointer or [ErrPrincipalInactive]. *)
Definition active_or_refuse (h : heap) (p : option loc) : autherror + loc :=
  match p with
  | Some l => if IsActive (deref h p) then inr l else inl (ErrAuthIdentity ErrPrincipalInactive)
  | None => inl (ErrAuthIdentity ErrPrincipalInactive)
  end.

Definition Authenticate_request (m : Middleware) (h : heap) (now : gotime) (r : Request) : autherror + loc :=
  match extractBearer r with
  | inl e => inl e
  | inr raw =>
      if negb (bool_decide (mw_devToken m = "")) && bool_decide (raw = mw_devToken m) then active_or_refuse h (mw_devPrincipal m)
      else
        match Verify_token (mw_authority m) now (mw_revocations m) raw TypeAccess with
        | inl e => inl (ErrAuthToken e)
        | inr claims =>
            match ps_Get (mw_principals m) (cl_Subject claims) with
            | inl e => inl (ErrAuthIdentity e)
            | inr p => active_or_refuse h p
            end
        end
  end.

(** Status and body of a refused request. *)
Definition writeAuthError (e : autherror) : outcome :=
  match e with
  | ErrAuthIdentity ErrPrincipalInactive => Respond 403 "principal inactive"
  | _ => Respond 401 "authentication required"
  end.

Definition RequireAuth (m : Middleware) (h : heap) (now : gotime) (r : Request) : outcome :=
  match Authenticate_request m h now r with
  | inl e => writeAuthError e
  | inr p => Next (WithPrincipal r p)
  end.

(** ** Permission checks *)

Record AuditEvent := mkAuditEvent {
  ae_PrincipalID : string; ae_Roles : list string; ae_Resource : string; ae_Action : string; ae_Decision : string;
  ae_Reason : string; ae_Attrs : option (gmap string gany) }.

Definition set_if {A} (b : bool) (k : string) (v : A) (m : gmap string A) : gmap string A := if b then <[k := v]> m else m.

Definition AttrsFromRequest (h : heap) (r : Request) : gmap string gany :=
  let out := ∅ in
  let out := match deref h (rq_Principal r) with Some p => <["principal_id" := VString (ID p)]> out | None => out end in
  let out := match rq_PeerCN r with Some cn => <["cn" := VString cn]> out | None => out end in
  set_if (negb (bool_decide (rq_Subject r = ""))) "subject" (VString (rq_Subject r)) out.

(** [err_text] is the text of the engine's errors. *)
Definition RequirePermission (err_text : azerror -> string) (policy : option Policy) (resource action : string)
    (h : heap) (r : Request) : list AuditEvent * outcome :=
  match deref h (rq_Principal r) with
  | None => ([], Respond 401 "authentication required")
  | Some principal =>
      let '(attrs, decision) := Allowed policy (Some principal) resource action (Some (AttrsFromRequest h r)) in
      let ev d reason := mkAuditEvent (ID principal) (principalRoles (Some principal)) resource action d reason attrs in
      match decision with
      | RErr e => ([ev "deny" ("engine error: " +:+ err_text e)], Respond 500 "authorization unavailable")
      | RPanic => ([], Respond 500 "")
      | ROk decision =>
          if negb (d_Allowed decision) then ([ev "deny" (d_Reason decision)], Respond 403 "permission denied")
          else ([ev "allow" (d_Reason decision)], Next r)
      end
  end.

(** [RequireAuth(RequirePermission(...)(handler))], the stacking the package
    documents. *)
Definition protect (err_text : azerror -> string) (m : Middleware) (policy : option Policy) (resource action : string)
    (h : heap) (now : gotime) (r : Request) : list AuditEvent * outcome :=
  match RequireAuth m h now r with
  | Respond status body => ([], Respond status body)
  | Next r => RequirePermission err_text policy resource action h r
  end.

(** The variant for code outside HTTP. *)
Definition PrincipalAllowed (err_text : azerror -> string) (policy : option Policy) (p : option Principal) (resource action : string)
    (attrs : option (gmap string gany)) : list AuditEvent * (azerror + bool) :=
  let '(attrs', decision) := Allowed policy p resource action attrs in
  let id := match p with Some p => ID p | None => "" end in
  let roles := match p with Some _ => principalRoles p | None => [] end in
  let ev d reason := mkAuditEvent id roles resource action d reason attrs' in
  match decision with
  | RErr e => ([ev "deny" ("engine error: " +:+ err_text e)], inl e)
  | RPanic => ([], inr false)
  | ROk decision =>
      ([ev (if d_Allowed decision then "allow" else "deny") (d_Reason decision)], inr (d_Allowed decision))
  end.

(** ** Who gets through *)

Lemma active_or_refuse_iff h p l : active_or_refuse h p = inr l <->
  p = Some l /\ exists pr, h !! l = Some pr /\ Status pr = StatusActive.
Proof.
  unfold active_or_refuse. destruct p as [l'|]; [|naive_solver]. simpl. destruct (h !! l') as [pr|] eqn:Hl; simpl; [|naive_solver].
  case_bool_decide; [|naive_solver]. split; [intros [= <-]; eauto|by intros [[= ->] _]].
Qed.

(** Whose request it is: the development principal for the exact development
    token, otherwise the subject of a valid access token; active either way. *)
Definition authenticated_as (m : Middleware) (h : heap) (now : gotime) (r : Request) (l : loc) (p : Principal) : Prop :=
  exists raw, extractBearer r = inr raw /\ h !! l = Some p /\ Status p = StatusActive /\
    ((mw_devToken m <> "" /\ raw = mw_devToken m /\ mw_devPrincipal m = Some l) \/
     ((mw_devToken m = "" \/ raw <> mw_devToken m) /\ exists claims,
        Verify_token (mw_authority m) now (mw_revocations m) raw TypeAccess = inr claims /\
        ps_Get (mw_principals m) (cl_Subject claims) = inr (Some l))).

Lemma authenticate_request_iff m h now r l :
  Authenticate_request m h now r = inr l <-> exists p, authenticated_as m h now r l p.
Proof.
  unfold Authenticate_request, authenticated_as. destruct (extractBearer r) as [e|raw]; [naive_solver|].
  destruct (negb (bool_decide (mw_devToken m = "")) && bool_decide (raw = mw_devToken m)) eqn:Hd.
  - apply andb_true_iff in Hd as [Hd1%negb_true_iff%bool_decide_eq_false_1 Hd2%bool_decide_eq_true_1].
    rewrite active_or_refuse_iff. naive_solver.
  - assert (mw_devToken m = "" \/ raw <> mw_devToken m) as Hnd.
    { apply andb_false_iff in Hd as [Hd|Hd]; [left; by apply negb_false_iff, bool_decide_eq_true_1 in Hd|right; by apply bool_decide_eq_false_1 in Hd]. }
    destruct (Verify_token (mw_authority m) now (mw_revocations m) raw TypeAccess) as [e|claims] eqn:Hv.
    { split; [done|]. intros (p & raw0 & [= <-] & _ & _ & [(? & ? & _)|(_ & claims & ? & _)]); [tauto|congruence]. }
    destruct (ps_Get (mw_principals m) (cl_Subject claims)) as [e|pl] eqn:Hg.
    { split; [done|]. intros (p & raw0 & [= <-] & _ & _ & [(? & ? & _)|(_ & c & Hc & Hg')]); [tauto|].
      rewrite Hv in Hc. injection Hc as <-. congruence. }
    rewrite active_or_refuse_iff. split.
    + intros (-> & p & Hp & Hs). exists p, raw. split_and!; try done. right. split; [done|]. by exists claims.
    + intros (p & raw0 & [= <-] & Hp & Hs & [(? & ? & _)|(_ & c & Hc & Hg')]); [tauto|].
      rewrite Hv in Hc. injection Hc as <-. rewrite Hg in Hg'. injection Hg' as ->. eauto.
Qed.

Lemma allowed_never_errs policy p resource action attrs attrs' e :
  Allowed (Some policy) (Some p) resource action attrs <> (attrs', RErr e) /\
  Allowed (Some policy) (Some p) resource action attrs <> (attrs', RPanic).
Proof.
  unfold Allowed. generalize (principalRoles (Some p)). intros roles. destruct (length roles =? 0)%nat; [done|].
  generalize (match default ∅ attrs !! "principal_id" with Some _ => default ∅ attrs | None => <["principal_id":=VString (ID p)]> (default ∅ attrs) end).
  intros a. by destruct (match_roles policy roles resource action a) as [[? ?]|].
Qed.

Lemma require_permission_spec err_text policy resource action h r p :
  deref h (rq_Principal r) = Some p ->
  let res := RequirePermission err_text (Some policy) resource action h r in
  let granted := exists name role perm, name ∈ principalRoles (Some p) /\ pol_Roles policy !! name = Some role /\
    perm ∈ r_Permissions role /\ grants perm resource action (effective_attrs p (Some (AttrsFromRequest h r))) in
  exists ev, res.1 = [ev] /\ ae_PrincipalID ev = ID p /\
    ((granted /\ res.2 = Next r /\ ae_Decision ev = "allow") \/
     (~ granted /\ res.2 = Respond 403 "permission denied" /\ ae_Decision ev = "deny")).
Proof.
  intros Hp res granted. subst res. unfold RequirePermission. rewrite Hp.
  pose proof (allowed_iff_grant policy p resource action (Some (AttrsFromRequest h r))) as Hiff. fold granted in Hiff.
  destruct (Allowed (Some policy) (Some p) resource action (Some (AttrsFromRequest h r))) as [attrs [d|e|]] eqn:Ha; simpl in *.
  - destruct (d_Allowed d) eqn:Hd; simpl; eexists; (split; [done|]); (split; [done|]).
    + left. split_and!; [apply Hiff; eauto|done|done].
    + right. split_and!; [|done|done]. intros Hg. apply Hiff in Hg as (d' & [= <-] & ?). congruence.
  - by destruct (allowed_never_errs policy p resource action (Some (AttrsFromRequest h r)) attrs e).
  - by destruct (allowed_never_errs policy p resource action (Some (AttrsFromRequest h r)) attrs ErrRoleNotFound).
Qed.

(** C6: a protected handler runs exactly for authenticated, authorized requests:
    the bearer token is the development token or a valid access token of an
    active principal, and one of the principal's roles holds a permission for the
    resource and action whose conditions hold on the request's attributes.  Every
    authenticated request leaves exactly one audit event, allow when the handler
    runs and deny when it does not; an unauthenticated one gets 401 or 403 and no
    event. *)
Theorem protected_handler_iff (err_text : azerror -> string) (m : Middleware) (policy : Policy) (resource action : string)
    (h : heap) (now : gotime) (r : Request) :
  let res := protect err_text m (Some policy) resource action h now r in
  (forall r', res.2 = Next r' <-> exists l p name role perm, authenticated_as m h now r l p /\ r' = WithPrincipal r l /\
     name ∈ principalRoles (Some p) /\ pol_Roles policy !! name = Some role /\ perm ∈ r_Permissions role /\
     grants perm resource action (effective_attrs p (Some (AttrsFromRequest h r')))) /\
  ((exists l p ev, authenticated_as m h now r l p /\ res.1 = [ev] /\ ae_PrincipalID ev = ID p /\
      (ae_Decision ev = "allow" /\ (exists r', res.2 = Next r') \/ ae_Decision ev = "deny" /\ res.2 = Respond 403 "permission denied")) \/
   ((forall l p, ~ authenticated_as m h now r l p) /\ res.1 = [] /\
      (res.2 = Respond 401 "authentication required" \/ res.2 = Respond 403 "principal inactive"))).
Proof.
  intros res. subst res. unfold protect, RequireAuth.
  destruct (Authenticate_request m h now r) as [e|l] eqn:Ha.
  - assert (forall l p, ~ authenticated_as m h now r l p) as Hno.
    { intros l p Hau. assert (Authenticate_request m h now r = inr l) by (apply authenticate_request_iff; eauto). congruence. }
    assert (exists s b, writeAuthError e = Respond s b /\
      ((s, b) = (401, "authentication required") \/ (s, b) = (403, "principal inactive"))) as (s & b & -> & Hsb)
      by (destruct e as [| |[]|]; simpl; eauto).
    simpl. split; [intros r'; split; [done|naive_solver]|]. right. split_and!; [done|done|]. destruct Hsb as [[= -> ->]|[= -> ->]]; auto.
  - pose proof (proj1 (authenticate_request_iff m h now r l) Ha) as [p Hau].
    assert (h !! l = Some p) as Hl by (by destruct Hau as (? & _ & ? & _)).
    destruct (require_permission_spec err_text policy resource action h (WithPrincipal r l) p Hl) as (ev & He & Hid & Hcase).
    assert (forall l' p', authenticated_as m h now r l' p' -> l' = l /\ p' = p) as Huniq.
    { intros l' p' Hau'. assert (Authenticate_request m h now r = inr l') as Ha' by (apply authenticate_request_iff; eauto).
      rewrite Ha in Ha'. injection Ha' as <-. destruct Hau' as (_ & _ & Hl' & _). split; congruence. }
    split.
    + intros r'. split.
      * intros Hn. destruct Hcase as [((name & role & perm & ?) & Hn' & _)|(_ & Hn' & _)]; [|congruence].
        rewrite Hn in Hn'. injection Hn' as ->. exists l, p, name, role, perm. naive_solver.
      * intros (l' & p' & name & role & perm & [-> ->]%Huniq & -> & ? & ? & ? & ?).
        destruct Hcase as [(_ & Hn' & _)|(Hng & _ & _)]; [done|]. destruct Hng. eauto 10.
    + left. exists l, p, ev. split_and!; try done. destruct Hcase as [(_ & ? & ?)|(_ & ? & ?)]; eauto.
Qed.
End Middleware.

(** ** The Authorization header *)

(** When an Authorization header is present, the token extracted is what
    follows the first space, provided the scheme before it is "Bearer" in any
    case and the token is not empty; every other header is refused as
    malformed, even if a WebSocket sub-protocol carries a token. *)
Theorem extract_bearer_iff (r : Request) (token : string) : rq_Authorization r <> "" ->
  (extractBearer r = inr token <->
   exists scheme, rq_Authorization r = scheme +:+ " " +:+ token /\ EqualFold scheme "Bearer" = true /\ token <> "" /\ free_of " " scheme) /\
  (extractBearer r = inr token \/ extractBearer r = inl ErrMalformedAuthHeader \/ exists t, t <> token /\ extractBearer r = inr t).
Proof.
  intros Hne. unfold extractBearer. rewrite bool_decide_eq_false_2 by done. unfold SplitN2.
  destruct (Cut " " (rq_Authorization r)) as [[scheme t]|] eqn:Hc.
  - apply Cut_Some in Hc as [Heq Hfree].
    assert (forall s' t', scheme +:+ String " " t = s' +:+ " " +:+ t' -> free_of " " s' -> s' = scheme /\ t' = t) as Hu.
    { intros s' t' He Hf. change (" " +:+ t') with (String " " t') in He. pose proof (Cut_app " " s' t' Hf) as Hc'.
      rewrite <- He, Cut_app in Hc' by done. by injection Hc' as -> ->. }
    destruct (EqualFold scheme "Bearer") eqn:Hf; simpl; [case_bool_decide as Ht; simpl|].
    + split; [|auto]. split; [done|]. intros (s' & Hs & _ & Hnt & Hfs). rewrite Heq in Hs. apply Hu in Hs as [_ ->]; [by subst t|done].
    + split.
      * split; [intros [= <-]; by exists scheme|]. intros (s' & Hs & _ & _ & Hfs). rewrite Heq in Hs. by apply Hu in Hs as [_ ->].
      * destruct (decide (t = token)) as [->|]; [auto|right; right; eauto].
    + split; [|auto]. split; [done|]. intros (s' & Hs & Hb & _ & Hfs). rewrite Heq in Hs. apply Hu in Hs as [-> _]; congruence.
  - split; [|auto]. split; [done|]. intros (s' & Hs & _ & _ & Hfs). rewrite Hs in Hc.
    change (" " +:+ token) with (String " " token) in Hc. by rewrite Cut_app in Hc.
Qed.

(** ** Hot reload *)

Record Diff := mkDiff { Added : list string; Removed : list string; Modified : list string }.

Definition Diff_IsEmpty (d : Diff) : bool :=
  (length (Added d) =? 0)%nat && (length (Removed d) =? 0)%nat && (length (Modified d) =? 0)%nat.

Fixpoint join_parts (out sep : string) (parts : list string) : string :=
  match parts with
  | [] => out
  | p :: parts' =>
      if bool_decide (p = "") then join_parts out sep parts'
      else join_parts ((if bool_decide (out = "") then out else out +:+ sep) +:+ p) sep parts'
  end.
Definition joinNonEmpty (parts : list string) (sep : string) : string := join_parts "" sep parts.

Definition Diff_String (d : Diff) : string :=
  if Diff_IsEmpty d then "no changes"
  else joinNonEmpty
    ((if (0 <? length (Added d))%nat then ["added=" +:+ fmt_strings (Added d)] else []) ++
     (if (0 <? length (Removed d))%nat then ["removed=" +:+ fmt_strings (Removed d)] else []) ++
     (if (0 <? length (Modified d))%nat then ["modified=" +:+ fmt_strings (Modified d)] else [])) " ".

Definition sort_Strings (l : list string) : list string := merge_sort String.le l.

Definition permissionKeys (perms : list Permission) : list string := sort_Strings (permissionKey <$> perms).

Definition rolePermsEqual (a b : Role) : bool :=
  if negb (length (r_Permissions a) =? length (r_Permissions b))%nat then false
  else bool_decide (permissionKeys (r_Permissions a) = permissionKeys (r_Permissions b)).

(** The names of a policy's roles in some map order; the results are sorted. *)
Definition role_names (p : Policy) : list string := (map_to_list (pol_Roles p)).*1.

Definition role_modified (prev next : Policy) (n : string) : bool :=
  match pol_Roles prev !! n, pol_Roles next !! n with
  | Some old, Some role => negb (rolePermsEqual old role)
  | _, _ => false
  end.

(** [None] is the nil dereference of a nil next policy. *)
Definition diffPolicies (prev next : option Policy) : option Diff :=
  match prev, next with
  | None, None => Some (mkDiff [] [] [])
  | None, Some next => Some (mkDiff (sort_Strings (role_names next)) [] [])
  | Some prev, Some next =>
      Some (mkDiff
        (sort_Strings (filter (fun n => pol_Roles prev !! n = None) (role_names next)))
        (sort_Strings (filter (fun n => pol_Roles next !! n = None) (role_names prev)))
        (sort_Strings (filter (fun n => role_modified prev next n = true) (role_names next))))
  | Some _, None => None
  end.

Section Reload.
(** The YAML decoder and the orders in which the loader visits the roles. *)
Context (yaml : bytes -> option yamlPolicy) (order1 order2 order3 : list string) (err_text : azerror -> string).

(** The policy in force afterwards, and the difference. *)
Definition ReloadBytes (current : option Policy) (data : bytes) : option Policy * res azerror Diff :=
  match LoadBytes yaml order1 order2 order3 data with
  | RErr e => (current, RErr e)
  | RPanic => (current, RPanic)
  | ROk next =>
      (Some next, match diffPolicies current (Some next) with Some d => ROk d | None => RPanic end)
  end.

(** [file] is the content of the policy file, [None] when it cannot be read;
    a read error is a reload error of its own. *)
Definition ReloadFrom (current : option Policy) (file : option bytes) : option Policy * res (option azerror) Diff :=
  match file with
  | None => (current, RErr None)
  | Some data =>
      match ReloadBytes current data with
      | (p, ROk d) => (p, ROk d)
      | (p, RErr e) => (p, RErr (Some e))
      | (p, RPanic) => (p, RPanic)
      end
  end.

Inductive reload_response := Failed (status : Z) (body : string) | Reloaded (version : Z) (diff : Diff) (summary : string) | Crashed.

Definition reload_text (e : option azerror) : string :=
  match e with Some e => err_text e | None => "authz: reload read" end.

Definition is_yaml (ct : string) : bool :=
  bool_decide (ct = "application/x-yaml") || bool_decide (ct = "text/yaml") || bool_decide (ct = "application/yaml").

(** The end of the handler: audit event and response. *)
Definition reload_finish (p : option Policy) (r : res (option azerror) Diff) : option Policy * list AuditEvent * reload_response :=
  let ev d reason := mkAuditEvent "" [] "config" "admin" d reason None in
  match r with
  | RErr e => (p, [ev "deny" ("reload failed: " +:+ reload_text e)], Failed 400 (reload_text e))
  | RPanic => (p, [], Crashed)
  | ROk diff =>
      (p, [ev "allow" ("reload: " +:+ Diff_String diff)],
       match p with Some p => Reloaded (pol_Version p) diff (Diff_String diff) | None => Crashed end)
  end.

Definition ReloadHandler (policyPath : string) (file : option bytes) (current : option Policy) (r : Request)
  : option Policy * list AuditEvent * reload_response :=
  if negb (bool_decide (rq_Method r = "POST")) then (current, [], Failed 405 "method not allowed")
  else if is_yaml (rq_ContentType r) then
    match rq_Body r with
    | None => (current, [], Failed 400 "read body")
    | Some body =>
        match ReloadBytes current body with
        | (p, ROk d) => reload_finish p (ROk d)
        | (p, RErr e) => reload_finish p (RErr (Some e))
        | (p, RPanic) => reload_finish p RPanic
        end
    end
  else if bool_decide (policyPath = "") then (current, [], Failed 500 "no policy path configured for inline reload")
  else let '(p, d) := ReloadFrom current file in reload_finish p d.

(** ** What a reload reports *)

Lemma elem_of_sort l x : x ∈ sort_Strings l <-> x ∈ l.
Proof. unfold sort_Strings. by rewrite merge_sort_Permutation. Qed.

Lemma elem_of_role_names p n : n ∈ role_names p <-> is_Some (pol_Roles p !! n).
Proof.
  unfold role_names. rewrite list_elem_of_fmap. split.
  - intros ([n' r] & -> & Hin%elem_of_map_to_list). eauto.
  - intros [r Hr]. exists (n, r). split; [done|]. by apply elem_of_map_to_list.
Qed.

(** Two roles compare equal when their permissions have the same keys with the
    same multiplicities. *)
Lemma rolePermsEqual_iff a b :
  rolePermsEqual a b = true <-> (permissionKey <$> r_Permissions a) ≡ₚ (permissionKey <$> r_Permissions b).
Proof.
  unfold rolePermsEqual, permissionKeys, sort_Strings. split.
  - destruct (negb _); [done|]. intros He%bool_decide_eq_true_1.
    by rewrite <- (merge_sort_Permutation String.le (permissionKey <$> r_Permissions a)), He, merge_sort_Permutation.
  - intros Hp. pose proof (Permutation_length Hp) as Hl. rewrite !length_fmap in Hl. rewrite Hl, Nat.eqb_refl. simpl.
    apply bool_decide_eq_true_2. eapply (StronglySorted_unique String.le); try apply StronglySorted_merge_sort; try apply _.
    by rewrite !merge_sort_Permutation.
Qed.

(** What the difference says of two policies. *)
Definition describes (prev next : Policy) (d : Diff) : Prop :=
  (forall n, n ∈ Added d <-> is_Some (pol_Roles next !! n) /\ pol_Roles prev !! n = None) /\
  (forall n, n ∈ Removed d <-> is_Some (pol_Roles prev !! n) /\ pol_Roles next !! n = None) /\
  (forall n, n ∈ Modified d <-> exists old new, pol_Roles prev !! n = Some old /\ pol_Roles next !! n = Some new /\
     ~ (permissionKey <$> r_Permissions old) ≡ₚ (permissionKey <$> r_Permissions new)).

Lemma diff_describes prev next : exists d, diffPolicies (Some prev) (Some next) = Some d /\ describes prev next d.
Proof.
  eexists. split; [done|]. split_and!; intros n; simpl; rewrite elem_of_sort, list_elem_of_filter, elem_of_role_names.
  - tauto.
  - tauto.
  - unfold role_modified. destruct (pol_Roles prev !! n) as [old|], (pol_Roles next !! n) as [new|];
      try (split; [intros [? ?]|intros (? & ? & ? & ? & _)]; done).
    rewrite negb_true_iff. split.
    + intros [Hf _]. exists old, new. split_and!; [done|done|]. intros Hp%rolePermsEqual_iff. congruence.
    + intros (? & ? & [= <-] & [= <-] & Hn). split; [|eauto]. apply not_true_is_false. by rewrite rolePermsEqual_iff.
Qed.

(** Posting a policy to the reload endpoint either installs it or keeps the
    one in force: a document the loader rejects leaves the policy unchanged, is
    answered with 400 and audited as denied; an accepted one is in force
    afterwards, audited as allowed, and the answer lists exactly the roles that
    were added, removed, or whose permissions changed. *)
Theorem reload_handler_spec (policyPath : string) (file : option bytes) (prev : Policy) (r : Request) (data : bytes) :
  rq_Method r = "POST" -> is_yaml (rq_ContentType r) = true -> rq_Body r = Some data ->
  match LoadBytes yaml order1 order2 order3 data with
  | RErr e => exists ev, ReloadHandler policyPath file (Some prev) r = (Some prev, [ev], Failed 400 (err_text e)) /\ ae_Decision ev = "deny"
  | ROk next => exists ev d, ReloadHandler policyPath file (Some prev) r =
        (Some next, [ev], Reloaded (pol_Version next) d (Diff_String d)) /\ ae_Decision ev = "allow" /\ describes prev next d
  | RPanic => ReloadHandler policyPath file (Some prev) r = (Some prev, [], Crashed)
  end.
Proof.
  intros Hm Hy Hb. unfold ReloadHandler, ReloadBytes. rewrite Hm, Hy, Hb. cbn -[diffPolicies LoadBytes].
  destruct (LoadBytes yaml order1 order2 order3 data) as [next|e|]; [|by eexists|done].
  destruct (diff_describes prev next) as (d & Hd & Hdesc). rewrite Hd. by eexists _, d.
Qed.
End Reload.

(** ** A guarded endpoint *)
Module AuthHttpDemo.
Import PkiDemo ToyJwt JwtDemo.
Definition h : heap := {[ 1%nat := mkPrincipal "u1" PrincipalHuman "alice" "" StatusActive ["auditor"] None 0 None ]}.
Definition principals : MemoryPrincipalStore.t := MemoryPrincipalStore.mk {[ "u1" := 1%nat ]} ∅.
Definition m : Middleware := New_middleware store None principals.
Definition get_audit (auth : string) : Request := mkRequest "GET" auth "" "" "" None None None.

Example allowed_request :
  (protect (fun _ => "") m (Some AuthzDemo.policy) "events" "read" h (20 * sec) (get_audit ("Bearer " +:+ AccessToken pair1))).2
  = Next (WithPrincipal (get_audit ("Bearer " +:+ AccessToken pair1)) 1).
Proof. vm_compute. reflexivity. Qed.
Example refused_request :
  (protect (fun _ => "") m (Some AuthzDemo.policy) "rules" "write" h (20 * sec) (get_audit ("bearer " +:+ AccessToken pair1))).2
  = Respond 403 "permission denied".
Proof. vm_compute. reflexivity. Qed.
Example no_token : protect (fun _ => "") m (Some AuthzDemo.policy) "events" "read" h (20 * sec) (get_audit "Basic x")
  = ([], Respond 401 "authentication required").
Proof. vm_compute. reflexivity. Qed.

Lemma extract_bearer_iff_witness : extractBearer (get_audit "bEARER t.o.k") = inr "t.o.k".
Proof.
  destruct (extract_bearer_iff (get_audit "bEARER t.o.k") "t.o.k") as [Hiff _]; [discriminate|].
  apply Hiff. exists "bEARER". split; [reflexivity|]. split; [reflexivity|]. split; [discriminate|reflexivity].
Defined.

Definition yaml (b : bytes) : option yamlPolicy := match b with [1] => Some AuthzDemo.raw | _ => None end.
Definition post (b : bytes) : Request := mkRequest "POST" "" "" "text/yaml" "" None (Some b) None.
Definition empty_policy : Policy := mkPolicy 0 ∅.

Lemma reload_handler_spec_witness :
  exists ev, ReloadHandler yaml AuthzDemo.order AuthzDemo.order AuthzDemo.order (fun _ => "bad") "" None (Some empty_policy) (post [2])
    = (Some empty_policy, [ev], Failed 400 "bad") /\ ae_Decision ev = "deny".
Proof.
  apply (reload_handler_spec yaml AuthzDemo.order AuthzDemo.order AuthzDemo.order (fun _ => "bad") "" None empty_policy (post [2]) [2]);
    reflexivity.
Defined.
End AuthHttpDemo.
