(* ===== verification/Revocation.v ===== *)
(** * Token revocation

    internal/identity/revocation/store.go: the denylist of revoked token ids,
    persisted in BoltDB with an in-memory cache that answers every check. *)
From S2P Require Import Prelude Models Bolt.
From stdpp Require Import base list strings gmap sets.
From Stdlib Require Import ZArith Lia Bool.
Local Open Scope string_scope.
Local Open Scope Z_scope.

Definition RevokedBucket := "auth.revoked".

Record Entry := mkEntry {
  JTI : string; Reason : string; RevokedAt : gotime; RevokedBy : string; ExpiresAt : gotime }.

Inductive rverror := ErrNilBolt | ErrBootstrapCache | ErrJTIRequired | ErrMarshalEntry | ErrPersist | ErrDecodeEntry | ErrStoreWrite.

Record BoltStore (store : Type) := mkBoltStore { bs_db : store; bs_cache : gset string }.
Arguments mkBoltStore {store} bs_db bs_cache.
Arguments bs_db {store} b.
Arguments bs_cache {store} b.

Section Store.
Context {store : Type} `{Bolt store} `{JSON Entry}.

Definition Open (db : option store) : res rverror (BoltStore store) :=
  match db with
  | None => RErr ErrNilBolt
  | Some db =>
      match Update ErrStoreWrite db (fun tx =>
              match CreateBucketIfNotExists tx RevokedBucket with
              | None => RErr ErrStoreWrite
              | Some tx => let! l := bkt_entries tx RevokedBucket in ROk (tx, list_to_set (C := gset string) (go_string <$> l.*1))
              end) with
      | (db, ROk cache) => ROk (mkBoltStore db cache)
      | (_, RErr _) => RErr ErrBootstrapCache
      | (_, RPanic) => RPanic
      end
  end.

(** [now] is [time.Now()], used when the caller left the time unset. *)
Definition Revoke (s : BoltStore store) (entry : Entry) (now : gotime) : BoltStore store * res rverror unit :=
  if bool_decide (JTI entry = "") then (s, RErr ErrJTIRequired)
  else
    let entry := if time_IsZero (RevokedAt entry)
                 then mkEntry (JTI entry) (Reason entry) now (RevokedBy entry) (ExpiresAt entry) else entry in
    if bool_decide (JTI entry ∈ bs_cache s) then (s, ROk tt)
    else
      match Marshal entry with
      | None => (s, RErr ErrMarshalEntry)
      | Some data =>
          match Update ErrPersist (bs_db s) (fun tx =>
                  let! existing := bkt_Get tx RevokedBucket (go_bytes (JTI entry)) in
                  match existing with
                  | Some _ => ROk (tx, tt)
                  | None => let! tx := bkt_Put ErrPersist tx RevokedBucket (go_bytes (JTI entry)) data in ROk (tx, tt)
                  end) with
          | (db, ROk _) => (mkBoltStore db ({[JTI entry]} ∪ bs_cache s), ROk tt)
          | (db, RErr e) => (mkBoltStore db (bs_cache s), RErr e)
          | (db, RPanic) => (mkBoltStore db (bs_cache s), RPanic)
          end
      end.

Definition IsRevoked (s : BoltStore store) (jti : string) : bool :=
  if bool_decide (jti = "") then false else bool_decide (jti ∈ bs_cache s).

Fixpoint decode_all (l : entries) : res rverror (list Entry) :=
  match l with
  | [] => ROk []
  | (_, v) :: l' =>
      match Unmarshal v with
      | None => RErr ErrDecodeEntry
      | Some e => let! rest := decode_all l' in ROk (e :: rest)
      end
  end.
Definition List_ (s : BoltStore store) : res rverror (list Entry) :=
  let! l := bkt_entries (bs_db s) RevokedBucket in decode_all l.

Definition expired (now : gotime) (e : Entry) : bool := negb (time_IsZero (ExpiresAt e)) && (ExpiresAt e <? now).

(** The keys whose entry has expired, in key order. *)
Fixpoint expired_keys (now : gotime) (l : entries) : res rverror (list string) :=
  match l with
  | [] => ROk []
  | (k, v) :: l' =>
      match Unmarshal v with
      | None => RErr ErrDecodeEntry
      | Some e =>
          let! rest := expired_keys now l' in
          ROk (if expired now e then go_string k :: rest else rest)
      end
  end.

Fixpoint delete_all (tx : store) (ks : list string) : res rverror store :=
  match ks with
  | [] => ROk tx
  | k :: ks' => let! tx := bkt_Delete ErrStoreWrite tx RevokedBucket (go_bytes k) in delete_all tx ks'
  end.

Definition GC (s : BoltStore store) (now : gotime) : BoltStore store * res rverror Z :=
  match (let! l := bkt_entries (bs_db s) RevokedBucket in expired_keys now l) with
  | RErr e => (s, RErr e)
  | RPanic => (s, RPanic)
  | ROk toDelete =>
      if (length toDelete =? 0)%nat then (s, ROk 0)
      else
        match Update ErrStoreWrite (bs_db s) (fun tx => let! tx := delete_all tx toDelete in ROk (tx, tt)) with
        | (db, ROk _) =>
            (mkBoltStore db (bs_cache s ∖ list_to_set toDelete), ROk (Z.of_nat (length toDelete)))
        | (db, RErr e) => (mkBoltStore db (bs_cache s), RErr e)
        | (db, RPanic) => (mkBoltStore db (bs_cache s), RPanic)
        end
  end.

(** ** The cache mirrors the denylist *)

Context `{!BoltLaws store} `{!JSONLaws Entry}.

Definition denied_keys (db : store) (jti : string) : Prop := is_Some (content db RevokedBucket (go_bytes jti)).

(** Every stored key is a token id, and the cache holds exactly these ids. *)
Definition mirrors (s : BoltStore store) : Prop :=
  exists l, bucket (bs_db s) RevokedBucket = Some l /\
    (forall k, is_Some (kv_get k l) -> Forall byte_ok k) /\
    (forall jti, jti ∈ bs_cache s <-> is_Some (kv_get (go_bytes jti) l)).

Lemma go_string_of_key k jti : Forall byte_ok k -> go_string k = jti <-> k = go_bytes jti.
Proof. intros Hk. split; [intros <-; by rewrite go_string_bytes|intros ->; apply go_bytes_string]. Qed.

Lemma cache_of_keys (l : entries) jti :
  (forall k, is_Some (kv_get k l) -> Forall byte_ok k) ->
  jti ∈ (list_to_set (go_string <$> l.*1) : gset string) <-> is_Some (kv_get (go_bytes jti) l).
Proof.
  intros Hk. rewrite elem_of_list_to_set, list_elem_of_fmap, kv_get_keys. split.
  - intros (k & Hjti & Hin). symmetry in Hjti. apply go_string_of_key in Hjti as ->; [done|]. by apply Hk, kv_get_keys.
  - intros Hin. exists (go_bytes jti). by rewrite go_bytes_string.
Qed.

(** Restart: reopening a store whose cache mirrors the bucket gives the same
    cache, so every check answers as before; the only failure is that of the
    bootstrap transaction. *)
Theorem reopen_same_denylist (s : BoltStore store) :
  mirrors s ->
  match Open (Some (bs_db s)) with
  | ROk s' => mirrors s' /\ forall jti, IsRevoked s' jti = IsRevoked s jti
  | RErr e => e = ErrBootstrapCache
  | RPanic => False
  end.
Proof.
  intros (l & Hb & Hk & Hc). unfold Open, Update.
  destruct (CreateBucketIfNotExists (bs_db s) RevokedBucket) as [tx|] eqn:Hcr; [|done].
  destruct (create_spec _ _ _ Hcr) as [Hb' _]. rewrite Hb in Hb'. simpl in Hb'.
  unfold bkt_entries. rewrite Hb'. cbn [res_bind]. destruct (Commit tx) as [db|] eqn:Hcm; [|done].
  assert (forall jti, jti ∈ (list_to_set (go_string <$> l.*1) : gset string) <-> jti ∈ bs_cache s) as Heq
    by (intros jti; by rewrite cache_of_keys, Hc).
  split.
  - exists l. simpl. split; [by rewrite (commit_spec _ _ Hcm)|]. split; [done|]. intros jti. by apply cache_of_keys.
  - intros jti. unfold IsRevoked. simpl. case_bool_decide; [done|]. apply bool_decide_ext, Heq.
Qed.

(** The effect of [Revoke]. *)
Lemma revoke_step (s s' : BoltStore store) (entry : Entry) (now : gotime) (r : res rverror unit) :
  mirrors s -> Revoke s entry now = (s', r) ->
  match r with
  | ROk _ => mirrors s' /\ JTI entry <> "" /\ IsRevoked s' (JTI entry) = true /\
      (forall jti, jti <> JTI entry -> IsRevoked s' jti = IsRevoked s jti) /\
      (forall jti v, content (bs_db s) RevokedBucket (go_bytes jti) = Some v ->
                     content (bs_db s') RevokedBucket (go_bytes jti) = Some v)
  | RErr _ => s' = s
  | RPanic => False
  end.
Proof.
  intros (l & Hb & Hk & Hc). unfold Revoke. case_bool_decide as Hne; [intros [= <- <-]; done|].
  set (e' := if time_IsZero (RevokedAt entry) then _ else entry).
  assert (JTI e' = JTI entry) as He' by (subst e'; by destruct (time_IsZero _)). rewrite He'.
  assert (forall jti : string, jti <> "" -> bool_decide (jti = "") = false) as Hnz
    by (intros; by rewrite bool_decide_eq_false_2).
  case_bool_decide as Hin.
  { intros [= <- <-]. split; [by exists l|]. split; [done|]. split; [|done].
    unfold IsRevoked. rewrite Hnz, bool_decide_eq_true_2 by done. done. }
  destruct (Marshal e') as [data|] eqn:Hm; [|by intros [= <- <-]].
  unfold Update, bkt_Get. rewrite Hb. cbn [res_bind].
  destruct (kv_get (go_bytes (JTI entry)) l) as [v|] eqn:Hex.
  { exfalso. apply Hin, Hc. by eexists. }
  destruct (bkt_Put ErrPersist (bs_db s) RevokedBucket (go_bytes (JTI entry)) data) as [tx|e|] eqn:Hp; cbn [res_bind].
  - destruct (Commit tx) as [db|] eqn:Hcm; intros [= <- <-]; [|by destruct s].
    unfold bkt_Put in Hp. rewrite Hb in Hp. destruct (Put _ _ _ _) as [tx'|] eqn:Hput; [|done]. injection Hp as ->.
    destruct (put_spec _ _ _ _ _ _ Hput Hb) as [(l' & Hb' & Hget) _].
    assert (bucket db RevokedBucket = Some l') as Hbd by (by rewrite (commit_spec _ _ Hcm)).
    split; [exists l'; simpl; split; [done|split]|split; [done|split; [|split]]].
    + intros k. rewrite Hget. case_bool_decide as Hkk; [intros _; subst k; apply go_bytes_ok|apply Hk].
    + intros jti. rewrite elem_of_union, elem_of_singleton, Hget, Hc. case_bool_decide as Hkk.
      * apply go_bytes_inj in Hkk as ->. split; [by eexists|by left].
      * split; [intros [->|?]; [done|done]|by right].
    + unfold IsRevoked. simpl. rewrite Hnz, bool_decide_eq_true_2 by (done || set_solver). done.
    + intros jti Hj. unfold IsRevoked. simpl. case_bool_decide; [done|]. apply bool_decide_ext. set_solver.
    + intros jti v0. unfold content. simpl. rewrite Hb, Hbd, Hget. intros Hv. case_bool_decide as Hkk; [|done].
      apply go_bytes_inj in Hkk as ->. congruence.
  - intros [= <- <-]. by destruct s.
  - exfalso. unfold bkt_Put in Hp. rewrite Hb in Hp. by destruct (Put _ _ _ _).
Qed.

(** Revocation: after a successful [Revoke] the token is denied, in memory
    and on disk, and no other token's status changes; revoking again keeps the
    first record; on an error nothing changes. *)
Theorem revoke_spec (s s' : BoltStore store) (entry : Entry) (now : gotime) (r : res rverror unit) :
  mirrors s -> Revoke s entry now = (s', r) ->
  match r with
  | ROk _ => mirrors s' /\ JTI entry <> "" /\ IsRevoked s' (JTI entry) = true /\
      (forall jti, jti <> JTI entry -> IsRevoked s' jti = IsRevoked s jti) /\
      (forall jti v, content (bs_db s) RevokedBucket (go_bytes jti) = Some v ->
                     content (bs_db s') RevokedBucket (go_bytes jti) = Some v)
  | RErr _ => s' = s
  | RPanic => False
  end.
Proof.
  apply revoke_step.
Qed.

(** ** Garbage collection *)

Lemma expired_keys_ok now (l : entries) : forall ks, expired_keys now l = ROk ks ->
  (forall k v, (k, v) ∈ l -> exists e, Unmarshal v = Some e) /\
  (forall j, j ∈ ks <-> exists k v e, (k, v) ∈ l /\ Unmarshal v = Some e /\ expired now e = true /\ j = go_string k).
Proof.
  induction l as [|[k v] l IH]; simpl; intros ks He.
  { simplify_eq. split; [by intros ? ? ?%elem_of_nil|]. intros j. split; [by intros ?%elem_of_nil|intros (? & ? & ? & []%elem_of_nil & _)]. }
  destruct (Unmarshal v) as [e|] eqn:Hu; [|done].
  destruct (expired_keys now l) as [rest| |]; cbn [res_bind] in He; [|done|done]. injection He as <-.
  destruct (IH _ eq_refl) as [Hdec Hks]. split.
  - intros k' v' [[= -> ->]|Hin]%elem_of_cons; [by eexists|by eapply Hdec].
  - intros j. assert (j ∈ rest <-> exists k' v' e', (k', v') ∈ l /\ Unmarshal v' = Some e' /\ expired now e' = true /\ j = go_string k') as Hj by done.
    destruct (expired now e) eqn:Hx.
    + rewrite elem_of_cons, Hj. split.
      * intros [->|(k' & v' & e' & Hin & Hrest)]; [exists k, v, e; split; [constructor|done]|].
        exists k', v', e'. split; [by constructor|done].
      * intros (k' & v' & e' & [[= -> ->]|Hin]%elem_of_cons & Hu' & Hx' & ->); [by left|]. right. by exists k', v', e'.
    + rewrite Hj. split.
      * intros (k' & v' & e' & Hin & Hrest). exists k', v', e'. split; [by constructor|done].
      * intros (k' & v' & e' & [[= -> ->]|Hin]%elem_of_cons & Hu' & Hx' & ->); [congruence|]. by exists k', v', e'.
Qed.

Lemma delete_all_ok ks : forall tx tx' l, bucket tx RevokedBucket = Some l -> delete_all tx ks = ROk tx' ->
  exists l', bucket tx' RevokedBucket = Some l' /\
    forall k, kv_get k l' = if bool_decide (k ∈ go_bytes <$> ks) then None else kv_get k l.
Proof.
  induction ks as [|j ks IH]; cbn [delete_all]; intros tx tx' l Hb Hd.
  { simplify_eq. by exists l. }
  unfold bkt_Delete in Hd. rewrite Hb in Hd. destruct (Bolt.Delete tx RevokedBucket (go_bytes j)) as [tx1|] eqn:Hdel; [|done].
  cbn [res_bind] in Hd. destruct (delete_spec _ _ _ _ _ Hdel Hb) as [(l1 & Hb1 & Hg1) _].
  destruct (IH _ _ _ Hb1 Hd) as (l' & Hb' & Hg'). exists l'. split; [done|]. intros k. rewrite Hg', Hg1, fmap_cons.
  destruct (decide (k = go_bytes j)) as [->|Hne].
  - rewrite (bool_decide_eq_true_2 (go_bytes j ∈ go_bytes j :: _)) by constructor.
    rewrite (bool_decide_eq_true_2 (go_bytes j = go_bytes j)) by done. by case_bool_decide.
  - rewrite (bool_decide_eq_false_2 (k = go_bytes j)) by done.
    by rewrite (bool_decide_ext (k ∈ go_bytes j :: (go_bytes <$> ks)) (k ∈ go_bytes <$> ks)) by (rewrite elem_of_cons; naive_solver).
Qed.

Lemma delete_all_no_panic ks : forall tx l, bucket tx RevokedBucket = Some l -> delete_all tx ks <> RPanic.
Proof.
  induction ks as [|j ks IH]; simpl; intros tx l Hb; [done|]. unfold bkt_Delete. rewrite Hb.
  destruct (Bolt.Delete tx RevokedBucket (go_bytes j)) as [tx1|] eqn:Hdel; [|done]. cbn [res_bind].
  destruct (delete_spec _ _ _ _ _ Hdel Hb) as [(l1 & Hb1 & _) _]. by eapply IH.
Qed.

Lemma expired_keys_no_panic now (l : entries) : expired_keys now l <> RPanic.
Proof. induction l as [|[k v] l IH]; simpl; [done|]. destruct (Unmarshal v); [|done]. by destruct (expired_keys now l). Qed.

(** The stored record of a token. *)
Definition record_of (s : BoltStore store) (jti : string) : option Entry :=
  v ← content (bs_db s) RevokedBucket (go_bytes jti); Unmarshal v.

(** Deleting the listed keys from a mirrored store. *)
Lemma gc_mirrors s db l l' ks :
  bucket (bs_db s) RevokedBucket = Some l -> bucket db RevokedBucket = Some l' ->
  (forall k, is_Some (kv_get k l) -> Forall byte_ok k) -> (forall jti, jti ∈ bs_cache s <-> is_Some (kv_get (go_bytes jti) l)) ->
  (forall k, kv_get k l' = if bool_decide (k ∈ go_bytes <$> ks) then None else kv_get k l) ->
  mirrors (mkBoltStore db (bs_cache s ∖ list_to_set ks)).
Proof.
  intros Hb Hb' Hk Hc Hg. exists l'. split; [done|]. split.
  - intros k. rewrite Hg. case_bool_decide; [by intros []|apply Hk].
  - intros jti. simpl. rewrite elem_of_difference, elem_of_list_to_set, Hc, Hg.
    assert (go_bytes jti ∈ go_bytes <$> ks <-> jti ∈ ks) as Hmem.
    { rewrite list_elem_of_fmap. split; [intros (j & Hj%go_bytes_inj & Hin); by subst|intros Hin; by exists jti]. }
    case_bool_decide as Hd; [split; [naive_solver|by intros []]|naive_solver].
Qed.

(** Garbage collection forgets exactly the revocations whose token has
    expired: every other token keeps its status, a record without an expiry
    date is never dropped, and on an error nothing changes. *)
Theorem gc_forgets_exactly_expired (s s' : BoltStore store) (now : gotime) (r : res rverror Z) :
  mirrors s -> GC s now = (s', r) ->
  match r with
  | ROk _ => mirrors s' /\ forall jti, jti ∈ bs_cache s' <->
      jti ∈ bs_cache s /\ exists e, record_of s jti = Some e /\ expired now e = false
  | RErr _ => s' = s
  | RPanic => False
  end.
Proof.
  intros (l & Hb & Hk & Hc). unfold GC, bkt_entries. rewrite Hb. cbn [res_bind].
  destruct (expired_keys now l) as [ks|e|] eqn:He; [|by intros [= <- <-]|by apply expired_keys_no_panic in He].
  destruct (expired_keys_ok _ _ _ He) as [Hdec Hks].
  assert (forall jti, jti ∈ bs_cache s -> exists e, record_of s jti = Some e /\ (jti ∈ ks <-> expired now e = true)) as Hrec.
  { intros jti [v Hv]%Hc. pose proof (kv_get_In _ _ _ Hv) as Hin. destruct (Hdec _ _ Hin) as [e Hu].
    exists e. unfold record_of, content. rewrite Hb. split; [simpl; by rewrite Hv|]. rewrite Hks. split.
    - intros (k & v' & e' & Hin' & Hu' & Hx & Hj).
      assert (k = go_bytes jti) as ->.
      { apply go_string_of_key; [|done]. apply Hk. apply kv_get_keys. by apply (list_elem_of_fmap_2 fst _ (k, v')). }
      rewrite (kv_get_elem _ v') in Hv; [simplify_eq; congruence|by eapply bucket_nodup|done].
    - intros Hx. exists (go_bytes jti), v, e. by rewrite go_bytes_string. }
  assert (forall jti, jti ∈ bs_cache s ∖ list_to_set ks <->
            jti ∈ bs_cache s /\ exists e, record_of s jti = Some e /\ expired now e = false) as Hiff.
  { intros jti. rewrite elem_of_difference, elem_of_list_to_set. split; intros [Hin Hx]; (split; [done|]).
    - destruct (Hrec _ Hin) as (e & Hr & Hiff). exists e. split; [done|]. apply not_true_is_false. naive_solver.
    - destruct (Hrec _ Hin) as (e & Hr & Hiff'). destruct Hx as (e' & Hr' & Hx). simplify_eq. rewrite Hiff'. congruence. }
  destruct (Nat.eqb_spec (length ks) 0) as [Hz|Hz].
  { intros [= <- <-]. destruct ks; [|done]. split; [by exists l|]. intros jti. rewrite <- Hiff. set_solver. }
  unfold Update. destruct (delete_all (bs_db s) ks) as [tx|e|] eqn:Hd; cbn [res_bind].
  - destruct (delete_all_ok _ _ _ _ Hb Hd) as (l' & Hb' & Hg').
    destruct (Commit tx) as [db|] eqn:Hcm; intros [= <- <-]; [|by destruct s].
    split; [|exact Hiff]. eapply gc_mirrors; [done|by rewrite (commit_spec _ _ Hcm)|done|done|done].
  - intros [= <- <-]. by destruct s.
  - by eapply delete_all_no_panic in Hd.
Qed.
End Store.

(** ** A denylist *)

Module RevocationDemo.
Import MapBolt.
(** A record code: the expiry on 16 bytes (records without text fields). *)
#[export] Instance entry_json : JSON Entry := {
  Marshal e := Some (be_encode 16 (ExpiresAt e));
  Unmarshal b := Some (mkEntry "" "" 0 "" (be_decode b));
  json_ok e := e = mkEntry "" "" 0 "" (ExpiresAt e) /\ 0 <= ExpiresAt e < 256 ^ Z.of_nat 16;
}.
#[export] Instance entry_json_laws : JSONLaws Entry.
Proof.
  intros e b [He Hx] Hm. injection Hm as <-. cbn [Unmarshal entry_json]. rewrite be_decode_encode, Z.mod_small by done. by rewrite He.
Qed.

Definition s0 : BoltStore MapBolt.t := match Open (Some ∅) with ROk s => s | _ => mkBoltStore ∅ ∅ end.
Definition s1 : BoltStore MapBolt.t := (Revoke s0 (mkEntry "tok-1" "leaked" 5 "alice" 100) 10).1.
Definition s2 : BoltStore MapBolt.t := (Revoke s1 (mkEntry "tok-2" "leaked" 5 "alice" 0) 11).1.

Lemma s0_mirrors : mirrors s0.
Proof.
  exists []. split; [reflexivity|]. split; [by intros k []|]. intros jti.
  assert (bs_cache s0 = ∅) as -> by (vm_compute; reflexivity). split; [set_solver|by intros []].
Qed.

Lemma revoke_spec_witness : mirrors s1 /\ IsRevoked s1 "tok-1" = true.
Proof.
  pose proof (revoke_spec s0 s1 (mkEntry "tok-1" "leaked" 5 "alice" 100) 10
    (Revoke s0 (mkEntry "tok-1" "leaked" 5 "alice" 100) 10).2 s0_mirrors (surjective_pairing _)) as Hr.
  assert ((Revoke s0 (mkEntry "tok-1" "leaked" 5 "alice" 100) 10).2 = ROk tt) as Hok by (vm_compute; reflexivity).
  rewrite Hok in Hr. destruct Hr as (Hm & _ & Hrev & _). split; [exact Hm|exact Hrev].
Defined.

Lemma mirrors_step s entry now : mirrors s -> (Revoke s entry now).2 = ROk tt -> mirrors (Revoke s entry now).1.
Proof.
  intros Hm Hok. destruct (Revoke s entry now) as [s' r] eqn:Hr. simpl in *. subst r.
  by destruct (revoke_step s s' entry now _ Hm Hr).
Qed.

Lemma s2_mirrors : mirrors s2.
Proof.
  apply mirrors_step; [|vm_compute; reflexivity]. apply mirrors_step; [apply s0_mirrors|vm_compute; reflexivity].
Qed.

Lemma reopen_same_denylist_witness :
  match Open (Some (bs_db s2)) with
  | ROk s' => mirrors s' /\ forall jti, IsRevoked s' jti = IsRevoked s2 jti
  | RErr e => e = ErrBootstrapCache
  | RPanic => False
  end.
Proof. apply (reopen_same_denylist s2). apply s2_mirrors. Defined.

Definition s3 : BoltStore MapBolt.t := (GC s2 200).1.

Lemma gc_forgets_exactly_expired_witness :
  mirrors s3 /\ forall jti, jti ∈ bs_cache s3 <->
    jti ∈ bs_cache s2 /\ exists e, record_of s2 jti = Some e /\ expired 200 e = false.
Proof.
  pose proof (gc_forgets_exactly_expired s2 s3 200 (GC s2 200).2 s2_mirrors (surjective_pairing _)) as Hg.
  assert ((GC s2 200).2 = ROk 1) as Hok by (vm_compute; reflexivity). rewrite Hok in Hg. exact Hg.
Defined.
End RevocationDemo.
