(* ===== verification/Migrations.v ===== *)
(** * Schema migrations

    internal/storage/migrations: migrations.go (registry and status) and
    runner.go (up, down, boot gate).  A migration's [Up] and [Down] are
    arbitrary functions on the transaction's store; [None] is an error. *)
From stdpp Require Import base list strings gmap sorting.
From Stdlib Require Import ZArith Lia Bool.
From S2P Require Import Prelude Models Bolt.
Local Open Scope string_scope.
Local Open Scope list_scope.
Local Open Scope Z_scope.

Definition BucketSchema := "schema_version".
Definition keyAppliedID := "applied".
Definition keyAppliedAt := "applied_at".

(** [ID] is a [uint32]; [Up] or [Down] may be nil. *)
Record Migration (store : Type) := mkMigration {
  m_ID : Z; m_Description : string; m_Up : option (store -> option store); m_Down : option (store -> option store) }.
Arguments mkMigration {store} m_ID m_Description m_Up m_Down.
Arguments m_ID {store} m.
Arguments m_Description {store} m.
Arguments m_Up {store} m.
Arguments m_Down {store} m.

Record Status (store : Type) := mkStatus { st_Applied : Z; st_Available : Z; st_Pending : list (Migration store) }.
Arguments mkStatus {store} st_Applied st_Available st_Pending.
Arguments st_Applied {store} s.
Arguments st_Available {store} s.
Arguments st_Pending {store} s.

Inductive merror :=
| ErrNilDB | ErrWrongLength (n : Z) | ErrPendingMigrations | ErrDowngradeDetected | ErrUnknownMigration
| ErrNoUp (id : Z) | ErrUp (id : Z) | ErrDown (id : Z) | ErrNoApplied | ErrIrreversible (id : Z) | ErrBucket.

Section Migrations.
Context {store : Type} `{Bolt store}.
Abbreviation Migration := (Migration store) (only parsing).

(** The package registry; a duplicate ID panics ([None]). *)
Definition Register (registry : list Migration) (m : Migration) : option (list Migration) :=
  if existsb (fun existing => m_ID existing =? m_ID m) registry then None else Some (registry ++ [m]).

Definition id_le (a b : Migration) : Prop := m_ID a <= m_ID b.
#[local] Instance id_le_dec a b : Decision (id_le a b).
Proof. unfold id_le. apply _. Defined.
#[local] Instance id_le_total : Total id_le.
Proof. intros a b. unfold id_le. lia. Qed.
#[local] Instance id_le_trans : Transitive id_le.
Proof. intros a b c. unfold id_le. lia. Qed.

Definition All (registry : list Migration) : list Migration := merge_sort id_le registry.

(** A stored ID of the wrong length is an error; a missing bucket or key is 0. *)
Definition AppliedID (db : option store) : merror + Z :=
  match db with
  | None => inl ErrNilDB
  | Some db =>
      match bucket db BucketSchema with
      | None => inr 0
      | Some l =>
          match kv_get (go_bytes keyAppliedID) l with
          | None => inr 0
          | Some raw =>
              if negb (length raw =? 4)%nat then inl (ErrWrongLength (Z.of_nat (length raw)))
              else inr (be_decode raw)
          end
      end
  end.

Definition AvailableID (registry : list Migration) : Z :=
  match last (All registry) with None => 0 | Some m => m_ID m end.

Definition CurrentStatus (registry : list Migration) (db : option store) : merror + Status store :=
  match AppliedID db with
  | inl e => inl e
  | inr applied =>
      inr (mkStatus applied (AvailableID registry) (filter (fun m => applied < m_ID m) (All registry)))
  end.

(** A write transaction whose body fails with [None]. *)
Definition db_update (db : store) (e : merror) (f : store -> option store) : store * option merror :=
  match f db with
  | None => (db, Some e)
  | Some tx => match Commit tx with None => (db, Some e) | Some db' => (db', None) end
  end.

Definition EnsureBucket (db : store) : store * option merror :=
  db_update db ErrBucket (fun tx => CreateBucketIfNotExists tx BucketSchema).

(** The first [Put]'s error is dropped, the second one's is returned. *)
Definition writeAppliedID (tx : store) (id : Z) : option store :=
  match (match bucket tx BucketSchema with Some _ => Some tx | None => CreateBucketIfNotExists tx BucketSchema end) with
  | None => None
  | Some tx =>
      let tx := default tx (Put tx BucketSchema (go_bytes keyAppliedAt) []) in
      Put tx BucketSchema (go_bytes keyAppliedID) (be_encode 4 id)
  end.

(** One migration in its own transaction. *)
Definition apply_one (db : store) (m : Migration) (up : store -> option store) : store * option merror :=
  db_update db (ErrUp (m_ID m)) (fun tx =>
    match up tx with
    | None => None
    | Some tx => writeAppliedID tx (m_ID m)
    end).

(** The loop of [RunUp]: the ID returned beside an error is that of the last
    migration this call applied. *)
Fixpoint run_pending (db : store) (pending : list Migration) (lastApplied : Z) : store * (Z * option merror) :=
  match pending with
  | [] => (db, (lastApplied, None))
  | m :: pending' =>
      match m_Up m with
      | None => (db, (lastApplied, Some (ErrNoUp (m_ID m))))
      | Some up =>
          match apply_one db m up with
          | (db, Some e) => (db, (lastApplied, Some e))
          | (db, None) => run_pending db pending' (m_ID m)
          end
      end
  end.

Definition RunUp (registry : list Migration) (db : option store) : option store * (Z * option merror) :=
  match db with
  | None => (None, (0, Some ErrNilDB))
  | Some db =>
      match EnsureBucket db with
      | (db, Some e) => (Some db, (0, Some e))
      | (db, None) =>
          match CurrentStatus registry (Some db) with
          | inl e => (Some db, (0, Some e))
          | inr status =>
              if st_Available status <? st_Applied status then (Some db, (0, Some ErrDowngradeDetected))
              else if (length (st_Pending status) =? 0)%nat then (Some db, (st_Applied status, None))
              else let '(db, r) := run_pending db (st_Pending status) 0 in (Some db, r)
          end
      end
  end.

(** The highest registered ID below the target. *)
Definition previous_id (all : list Migration) (target : Z) : Z :=
  foldl (fun newApplied m => if (m_ID m <? target) && (newApplied <? m_ID m) then m_ID m else newApplied) 0 all.

Definition RunDown (registry : list Migration) (db : option store) : option store * (Z * option merror) :=
  match db with
  | None => (None, (0, Some ErrNilDB))
  | Some db =>
      match CurrentStatus registry (Some db) with
      | inl e => (Some db, (0, Some e))
      | inr status =>
          if st_Applied status =? 0 then (Some db, (0, Some ErrNoApplied))
          else
            match list_find (fun m => m_ID m = st_Applied status) (All registry) with
            | None => (Some db, (st_Applied status, Some ErrUnknownMigration))
            | Some (_, target) =>
                match m_Down target with
                | None => (Some db, (st_Applied status, Some (ErrIrreversible (m_ID target))))
                | Some down =>
                    let newApplied := previous_id (All registry) (m_ID target) in
                    match db_update db (ErrDown (m_ID target)) (fun tx =>
                      match down tx with
                      | None => None
                      | Some tx => writeAppliedID tx newApplied
                      end) with
                    | (db, Some e) => (Some db, (st_Applied status, Some e))
                    | (db, None) => (Some db, (newApplied, None))
                    end
                end
            end
      end
  end.

Definition CheckBoot (registry : list Migration) (db : option store) (autoMigrate : bool) : option store * option merror :=
  match db with
  | None => (None, Some ErrNilDB)
  | Some db =>
      match EnsureBucket db with
      | (db, Some e) => (Some db, Some e)
      | (db, None) =>
          match CurrentStatus registry (Some db) with
          | inl e => (Some db, Some e)
          | inr status =>
              if st_Available status <? st_Applied status then (Some db, Some ErrDowngradeDetected)
              else if (length (st_Pending status) =? 0)%nat then (Some db, None)
              else if negb autoMigrate then (Some db, Some ErrPendingMigrations)
              else let '(db, (_, err)) := RunUp registry (Some db) in (db, err)
          end
      end
  end.

(** 0001_initial.go: the buckets of the foundation schema. *)
Definition initialBuckets : list string :=
  ["assets"; "events"; "auth.revoked"; "audit.api.access"; "transparency.leaves"; "transparency.nodes";
   "transparency.sth"; "transparency.sth.history"].

Fixpoint create_buckets (tx : store) (names : list string) : option store :=
  match names with
  | [] => Some tx
  | name :: names' =>
      match CreateBucketIfNotExists tx name with None => None | Some tx => create_buckets tx names' end
  end.

Definition initial_migration : Migration :=
  mkMigration 1 "initial schema — events, assets, identity, transparency log"
    (Some (fun tx => create_buckets tx initialBuckets)) None.

(** ** The applied ID *)

Context `{!BoltLaws store}.

Definition id_ok (m : Migration) : Prop := 0 < m_ID m < 2 ^ 32.

Lemma put_get s n k v s' l : Put s n k v = Some s' -> bucket s n = Some l ->
  exists l', bucket s' n = Some l' /\ kv_get k l' = Some v.
Proof.
  intros Hp Hb. destruct (put_spec _ _ _ _ _ _ Hp Hb) as [(l' & Hb' & Hg) _]. exists l'. split; [done|].
  by rewrite Hg, bool_decide_eq_true_2.
Qed.

Lemma writeAppliedID_read tx id tx' db :
  0 <= id < 2 ^ 32 -> writeAppliedID tx id = Some tx' -> Commit tx' = Some db -> AppliedID (Some db) = inr id.
Proof.
  intros Hid Hw Hc. unfold writeAppliedID in Hw.
  destruct (match bucket tx BucketSchema with Some _ => Some tx | None => _ end) as [tx0|] eqn:H0; [|done].
  assert (exists l, bucket tx0 BucketSchema = Some l) as [l0 Hb0].
  { destruct (bucket tx BucketSchema) as [l|] eqn:Hb; [injection H0 as <-; by exists l|].
    apply create_spec in H0 as [Hb0 _]. by eexists. }
  assert (exists l, bucket (default tx0 (Put tx0 BucketSchema (go_bytes keyAppliedAt) [])) BucketSchema = Some l) as [l1 Hb1].
  { destruct (Put tx0 BucketSchema (go_bytes keyAppliedAt) []) as [tx1|] eqn:Hp; [|by exists l0].
    destruct (put_get _ _ _ _ _ _ Hp Hb0) as (l1 & Hb1 & _). by exists l1. }
  destruct (put_get _ _ _ _ _ _ Hw Hb1) as (l2 & Hb2 & Hg2).
  unfold AppliedID. rewrite (commit_spec _ _ Hc), Hb2, Hg2, length_be_encode. cbn [Nat.eqb negb].
  rewrite be_decode_encode, Z.mod_small; [done|]. change (256 ^ Z.of_nat 4) with (2 ^ 32). done.
Qed.

(** ** Runs of migrations *)

(** The migrations of the list were applied one after the other, each with
    its ID in a committed transaction of its own. *)
Inductive migrated : store -> list Migration -> store -> Prop :=
| migrated_nil db : migrated db [] db
| migrated_cons db m up tx tx' db1 ms db2 :
    m_Up m = Some up -> up db = Some tx -> writeAppliedID tx (m_ID m) = Some tx' -> Commit tx' = Some db1 ->
    migrated db1 ms db2 -> migrated db (m :: ms) db2.

Lemma apply_one_cases db m up db' err : apply_one db m up = (db', err) ->
  (err = None /\ exists tx tx', up db = Some tx /\ writeAppliedID tx (m_ID m) = Some tx' /\ Commit tx' = Some db') \/
  (err <> None /\ db' = db).
Proof.
  unfold apply_one, db_update. destruct (up db) as [tx|]; [|intros [= <- <-]; by right].
  destruct (writeAppliedID tx (m_ID m)) as [tx'|] eqn:Hw; [|intros [= <- <-]; by right].
  destruct (Commit tx') as [s|] eqn:Hc; intros [= <- <-]; [left|by right]. split; [done|]. exists tx, tx'. done.
Qed.

Definition last_id (d : Z) (ms : list Migration) : Z := match last ms with Some m => m_ID m | None => d end.

Lemma last_id_cons d m ms : last_id d (m :: ms) = last_id (m_ID m) ms.
Proof. unfold last_id. rewrite last_cons. by destruct (last ms). Qed.

Lemma run_pending_spec pending : forall db d db' id err,
  run_pending db pending d = (db', (id, err)) ->
  exists k, (k <= length pending)%nat /\ migrated db (take k pending) db' /\ id = last_id d (take k pending) /\
            (err = None <-> k = length pending).
Proof.
  induction pending as [|m pending IH]; intros db d db' id err; cbn [run_pending].
  { intros Hr. injection Hr as <- <- <-. exists 0%nat. split_and!; [done|constructor|done|done]. }
  assert (forall e : merror, exists k, (k <= length (m :: pending))%nat /\ migrated db (take k (m :: pending)) db /\
    d = last_id d (take k (m :: pending)) /\ (Some e = None <-> k = length (m :: pending))) as Hstop.
  { intros e. exists 0%nat. split_and!; [lia|constructor|done|done]. }
  destruct (m_Up m) as [up|] eqn:Hup; [|intros Hr; injection Hr as <- <- <-; apply Hstop].
  destruct (apply_one db m up) as [db1 err1] eqn:Ha.
  destruct (apply_one_cases _ _ _ _ _ Ha) as [[-> (tx & tx' & ? & ? & ?)]|[? ->]].
  - intros Hr. destruct (IH _ _ _ _ _ Hr) as (k & Hk & Hm & -> & He). exists (S k). cbn [length take].
    split_and!; [lia|by econstructor|by rewrite last_id_cons|rewrite He; lia].
  - destruct err1; [|done]. intros Hr. injection Hr as <- <- <-. apply Hstop.
Qed.

Lemma migrated_applied db ms db' : migrated db ms db' -> Forall id_ok ms -> forall d,
  AppliedID (Some db) = inr d -> AppliedID (Some db') = inr (last_id d ms).
Proof.
  induction 1 as [|db m up tx tx' db1 ms db2 _ _ Hw Hc _ IH]; [done|]. intros Hok d Hd.
  apply Forall_cons in Hok as [Hm Hok]. rewrite last_id_cons. apply (IH Hok).
  unfold id_ok in Hm. eapply writeAppliedID_read; [lia|done|done].
Qed.

(** ** The registry in ID order *)

Definition registry_ok (registry : list Migration) : Prop := Forall id_ok registry /\ NoDup (m_ID <$> registry).

Definition id_lt (a b : Migration) : Prop := m_ID a < m_ID b.

Lemma all_strictly_sorted registry : registry_ok registry -> StronglySorted id_lt (All registry).
Proof.
  intros [_ Hnd]. unfold All.
  assert (NoDup (m_ID <$> merge_sort id_le registry)) as Hnd' by by rewrite merge_sort_Permutation.
  pose proof (StronglySorted_merge_sort id_le registry) as Hs. revert Hnd'.
  induction Hs as [|m l Hl IH Hm]; intros Hnd'; [constructor|]. rewrite fmap_cons, NoDup_cons in Hnd'.
  destruct Hnd' as [Hni ?]. constructor; [by apply IH|]. rewrite Forall_forall in Hm |- *. intros x Hx.
  specialize (Hm x Hx). unfold id_le in Hm. unfold id_lt. destruct (decide (m_ID m = m_ID x)) as [He|]; [|lia].
  destruct Hni. rewrite He. apply list_elem_of_fmap. eauto.
Qed.

Lemma filter_keep {A} (P : A -> Prop) `{!forall x, Decision (P x)} l : Forall P l -> filter P l = l.
Proof. induction 1; [done|]. rewrite filter_cons_True by done. by f_equal. Qed.

Lemma filter_none {A} (P : A -> Prop) `{!forall x, Decision (P x)} l : Forall (fun x => ~ P x) l -> filter P l = [].
Proof. induction 1; [done|]. by rewrite filter_cons_False. Qed.

(** The migrations above an ID are a suffix of the registry. *)
Lemma above_suffix l a : StronglySorted id_lt l ->
  exists pre, l = pre ++ filter (fun m => a < m_ID m) l /\ Forall (fun m => m_ID m <= a) pre.
Proof.
  induction 1 as [|m l Hl (pre & Hpre & Hle) Hm]; [by exists []|]. destruct (decide (a < m_ID m)).
  - exists []. split; [|done]. rewrite filter_cons_True by done. simpl. f_equal. symmetry.
    apply filter_keep. eapply Forall_impl; [exact Hm|]. unfold id_lt. simpl. lia.
  - exists (m :: pre). rewrite filter_cons_False by done. simpl. split; [by f_equal|]. constructor; [lia|done].
Qed.

Lemma above_split l pre ms m post : StronglySorted id_lt l -> l = pre ++ ms ++ m :: post ->
  filter (fun x => m_ID m < m_ID x) l = post.
Proof.
  intros Hs ->. rewrite app_assoc in *. apply StronglySorted_app in Hs as (Hlt & _ & Hs).
  rewrite filter_app, filter_cons_False by lia.
  rewrite (filter_none _ (pre ++ ms)).
  - apply filter_keep. inversion Hs as [|? ? ? Hm]; subst. eapply Forall_impl; [exact Hm|]. done.
  - apply Forall_forall. intros x Hx. specialize (Hlt x m Hx ltac:(left)). unfold id_lt in Hlt. lia.
Qed.
Lemma ensure_applied db db' err : EnsureBucket db = (db', err) -> AppliedID (Some db') = AppliedID (Some db).
Proof.
  unfold EnsureBucket, db_update. destruct (CreateBucketIfNotExists db BucketSchema) as [tx|] eqn:Hc; [|by intros [= <- _]].
  destruct (Commit tx) as [db1|] eqn:Hm; [|by intros [= <- _]]. intros [= <- _].
  destruct (create_spec _ _ _ Hc) as [Hb _]. unfold AppliedID. rewrite (commit_spec _ _ Hm), Hb.
  by destruct (bucket db BucketSchema).
Qed.

(** The status of a database whose applied ID is known. *)
Lemma status_of_applied registry db a : AppliedID (Some db) = inr a ->
  CurrentStatus registry (Some db) =
    inr (mkStatus a (AvailableID registry) (filter (fun m => a < m_ID m) (All registry))).
Proof. intros Ha. unfold CurrentStatus. by rewrite Ha. Qed.

Lemma status_inv registry db st : CurrentStatus registry (Some db) = inr st ->
  AppliedID (Some db) = inr (st_Applied st) /\ st_Available st = AvailableID registry /\
  st_Pending st = filter (fun m => st_Applied st < m_ID m) (All registry).
Proof. unfold CurrentStatus. destruct (AppliedID (Some db)); [done|]. by intros [= <-]. Qed.

(** After a prefix of the pending migrations, the rest is pending. *)
Lemma pending_after registry a k : registry_ok registry ->
  let pending := filter (fun m => a < m_ID m) (All registry) in
  filter (fun m => last_id a (take k pending) < m_ID m) (All registry) = drop k pending.
Proof.
  intros Hok pending. pose proof (all_strictly_sorted _ Hok) as Hs.
  destruct (above_suffix _ a Hs) as (pre & Hpre & _). fold pending in Hpre.
  unfold last_id. destruct (last (take k pending)) as [m|] eqn:Hl.
  - apply last_Some in Hl as [ms Hms]. eapply (above_split _ pre ms); [done|].
    rewrite Hpre at 1. f_equal. rewrite <- (take_drop k pending) at 1. by rewrite Hms, <- app_assoc.
  - apply last_None in Hl. fold pending. by rewrite <- (take_drop k pending) at 1; rewrite Hl.
Qed.

(** The highest registered ID is applied when nothing is pending. *)
Lemma none_pending_available registry a : 0 <= a <= AvailableID registry ->
  filter (fun m => a < m_ID m) (All registry) = [] -> a = AvailableID registry.
Proof.
  unfold AvailableID. intros Ha Hf. destruct (last (All registry)) as [m|] eqn:Hl; [|lia].
  apply last_Some in Hl as [l Hl]. rewrite Hl, filter_app in Hf. apply app_nil in Hf as [_ Hf].
  destruct (decide (a < m_ID m)) as [Hlt|]; [|lia]. by rewrite filter_cons_True in Hf.
Qed.

Lemma last_id_above d (ms : list Migration) : Forall (fun m => d < m_ID m) ms -> d <= last_id d ms.
Proof.
  intros Hf. unfold last_id. destruct (last ms) as [m|] eqn:Hl; [|lia]. apply last_Some in Hl as [l ->].
  apply Forall_app in Hf as [_ Hf]. rewrite Forall_singleton in Hf. cbn beta in Hf. lia.
Qed.

(** No registered ID is above the available one. *)
Lemma available_max registry m : registry_ok registry -> In m (All registry) -> m_ID m <= AvailableID registry.
Proof.
  intros Hok Hin. pose proof (all_strictly_sorted _ Hok) as Hs. unfold AvailableID.
  destruct (last (All registry)) as [z|] eqn:Hl; [|apply last_None in Hl; by rewrite Hl in Hin].
  apply last_Some in Hl as [l Hl]. rewrite Hl in Hin, Hs. apply in_app_iff in Hin as [Hin|[->|[]]]; [|lia].
  apply StronglySorted_app in Hs as (Hlt & _ & _). apply list_elem_of_In in Hin.
  specialize (Hlt m z Hin ltac:(left)). unfold id_lt in Hlt. lia.
Qed.
(** What a run leaves behind after the first [k] pending migrations. *)
Definition resumed (registry : list Migration) (db db' : store) (st : Status store) (k : nat) : Prop :=
  (k <= length (st_Pending st))%nat /\ migrated (EnsureBucket db).1 (take k (st_Pending st)) db' /\
  CurrentStatus registry (Some db') =
    inr (mkStatus (last_id (st_Applied st) (take k (st_Pending st))) (st_Available st) (drop k (st_Pending st))).

Lemma pending_incl registry st db m : CurrentStatus registry (Some db) = inr st -> In m (st_Pending st) ->
  In m (All registry) /\ st_Applied st < m_ID m.
Proof.
  intros (_ & _ & ->)%status_inv Hin. apply list_elem_of_In, list_elem_of_filter in Hin as [? ?].
  split; [by apply list_elem_of_In|done].
Qed.

Lemma registry_ids_ok registry m : registry_ok registry -> In m (All registry) -> id_ok m.
Proof.
  intros [Hok _] Hin. rewrite Forall_forall in Hok. apply Hok. unfold All in Hin. apply list_elem_of_In in Hin.
  by rewrite merge_sort_Permutation in Hin.
Qed.

Lemma resumed_of_migrated registry db db' st k :
  registry_ok registry -> CurrentStatus registry (Some db) = inr st -> (k <= length (st_Pending st))%nat ->
  migrated (EnsureBucket db).1 (take k (st_Pending st)) db' -> resumed registry db db' st k.
Proof.
  intros Hok Hst Hk Hm. split_and!; [done|done|]. pose proof (status_inv _ _ _ Hst) as (Ha & Hav & Hp).
  assert (Forall id_ok (take k (st_Pending st))) as Hids.
  { apply Forall_take, Forall_forall. intros m Hin. apply list_elem_of_In in Hin.
    eapply registry_ids_ok; [done|]. by eapply pending_incl. }
  destruct (EnsureBucket db) as [db0 err0] eqn:He.
  pose proof (migrated_applied _ _ _ Hm Hids (st_Applied st)) as Hm'. cbn [fst] in Hm'.
  rewrite (ensure_applied _ _ _ He) in Hm'. specialize (Hm' Ha).
  rewrite (status_of_applied _ _ _ Hm'), Hav. do 2 f_equal. rewrite Hp. by apply pending_after.
Qed.

(** A run that left nothing pending ends at the highest available ID. *)
Lemma resumed_all registry db db' st :
  registry_ok registry -> CurrentStatus registry (Some db) = inr st -> 0 <= st_Applied st <= st_Available st ->
  resumed registry db db' st (length (st_Pending st)) -> last_id (st_Applied st) (st_Pending st) = st_Available st.
Proof.
  intros Hok Hst Ha (_ & _ & Hst'). rewrite firstn_all, drop_all in Hst'.
  pose proof (status_inv _ _ _ Hst) as (_ & Hav & _). apply status_inv in Hst' as (_ & _ & Hp). cbn [st_Applied st_Pending] in Hp.
  rewrite Hav. apply none_pending_available; [|done]. split.
  - transitivity (st_Applied st); [lia|]. apply last_id_above, Forall_forall. intros m Hin. apply list_elem_of_In in Hin.
    by eapply pending_incl.
  - unfold last_id. destruct (last (st_Pending st)) as [m|] eqn:Hl; [|lia]. apply available_max; [done|].
    eapply pending_incl; [exact Hst|]. apply last_Some in Hl as [l ->]. apply in_app_iff. right. by left.
Qed.

(** C20: whatever happens during an upgrade — every branch of [RunUp], errors of
    any migration, of a write or of a commit included — the database ends with
    exactly the first [k] pending migrations applied in ID order, each in its own
    transaction with its ID, and the remaining ones still pending, so that a later
    run resumes there.  The run reports success exactly when it applied them all,
    the database is then at the highest available ID, which is the ID returned. *)
Theorem run_up_resumable registry db db' st id err :
  registry_ok registry -> CurrentStatus registry (Some db) = inr st -> 0 <= st_Applied st <= st_Available st ->
  RunUp registry (Some db) = (Some db', (id, err)) ->
  exists k, resumed registry db db' st k /\
    (err = None -> k = length (st_Pending st) /\ id = st_Available st /\ AppliedID (Some db') = inr (st_Available st)) /\
    (err <> None -> st_Pending st = [] \/ (k < length (st_Pending st))%nat).
Proof.
  intros Hok Hst Ha Hrun. unfold RunUp in Hrun.
  destruct (EnsureBucket db) as [db0 err0] eqn:He.
  assert (resumed registry db db0 st 0) as H0.
  { apply resumed_of_migrated; [done|done|lia|]. rewrite He. constructor. }
  destruct err0 as [e|].
  { injection Hrun as <- <- <-. exists 0%nat. split_and!; [done|done|].
    intros _. destruct (st_Pending st); [by left|right; simpl; lia]. }
  assert (CurrentStatus registry (Some db0) = inr st) as Hst0.
  { unfold CurrentStatus in *. by rewrite (ensure_applied _ _ _ He). }
  rewrite Hst0, (proj2 (Z.ltb_ge _ _)) in Hrun by lia.
  assert (forall k, k = length (st_Pending st) -> resumed registry db db' st k ->
    last_id (st_Applied st) (st_Pending st) = st_Available st /\ AppliedID (Some db') = inr (st_Available st)) as Hdone.
  { intros k -> Hr. pose proof (resumed_all _ _ _ _ Hok Hst Ha Hr) as Hl. split; [done|].
    destruct Hr as (_ & _ & Hst'). apply status_inv in Hst' as (-> & _ & _). cbn. by rewrite firstn_all, Hl. }
  destruct (length (st_Pending st) =? 0)%nat eqn:Hz.
  - apply Nat.eqb_eq in Hz. injection Hrun as <- <- <-. exists 0%nat. split_and!; [done| |done]. intros _.
    destruct (Hdone 0%nat (eq_sym Hz) H0) as [Hl ?]. split_and!; [done| |done].
    apply nil_length_inv in Hz. by rewrite Hz in Hl.
  - destruct (run_pending db0 (st_Pending st) 0) as [db1 [id1 err1]] eqn:Hr. injection Hrun as <- <- <-.
    destruct (run_pending_spec _ _ _ _ _ _ Hr) as (k & Hk & Hm & -> & Herr).
    assert (resumed registry db db1 st k) as Hres by (apply resumed_of_migrated; [done|done|done|by rewrite He]).
    exists k. split_and!; [done| |].
    + intros Hn. apply Herr in Hn. destruct (Hdone k Hn Hres) as [Hl ?]. split_and!; [done| |done].
      rewrite <- Hl, Hn, firstn_all. unfold last_id. apply Nat.eqb_neq in Hz.
      destruct (last (st_Pending st)) eqn:Hlast; [done|]. apply last_None in Hlast. by rewrite Hlast in Hz.
    + intros Hn. right. destruct (decide (k = length (st_Pending st))); [|lia]. tauto.
Qed.
(** ** Reverting *)

Lemma previous_pre (pre : list Migration) t : forall acc, StronglySorted id_lt pre ->
  Forall (fun m => acc < m_ID m < t) pre ->
  foldl (fun acc m => if (m_ID m <? t) && (acc <? m_ID m) then m_ID m else acc) acc pre = last_id acc pre.
Proof.
  induction pre as [|m pre IH]; intros acc Hs Hf; [done|]. cbn [foldl].
  apply StronglySorted_cons in Hs as [Hm Hs]. apply Forall_cons in Hf as [Hm0 Hf].
  rewrite (proj2 (Z.ltb_lt _ _)), (proj2 (Z.ltb_lt _ _)) by lia. cbn [andb]. rewrite last_id_cons. apply IH; [done|].
  rewrite Forall_forall in *. intros x Hx. specialize (Hm x Hx). specialize (Hf x Hx). unfold id_lt in Hm. lia.
Qed.

Lemma previous_post (post : list Migration) t : forall acc, Forall (fun m => t <= m_ID m) post ->
  foldl (fun acc m => if (m_ID m <? t) && (acc <? m_ID m) then m_ID m else acc) acc post = acc.
Proof.
  induction post as [|m post IH]; intros acc Hf; [done|]. cbn [foldl]. apply Forall_cons in Hf as [Hm Hf].
  rewrite (proj2 (Z.ltb_ge _ _)) by lia. by apply IH.
Qed.

(** The scan of [RunDown] finds the migration before the target. *)
Lemma previous_id_spec registry pre m post : registry_ok registry -> All registry = pre ++ m :: post ->
  previous_id (All registry) (m_ID m) = last_id 0 pre.
Proof.
  intros Hok Hall. pose proof (all_strictly_sorted _ Hok) as Hs. unfold previous_id.
  assert (Forall (fun x => 0 < m_ID x) (All registry)) as Hpos.
  { apply Forall_forall. intros x Hx. apply list_elem_of_In in Hx. by apply (registry_ids_ok _ _ Hok). }
  rewrite Hall in *. apply StronglySorted_app in Hs as (Hlt & Hpre & [Hm _]%StronglySorted_cons).
  apply Forall_app in Hpos as [Hpos _]. rewrite foldl_app, (previous_pre pre); [|done|].
  - apply previous_post. constructor; [lia|]. eapply Forall_impl; [exact Hm|]. unfold id_lt. simpl. lia.
  - rewrite Forall_forall in *. intros x Hx. specialize (Hlt x m Hx ltac:(left)). unfold id_lt in Hlt.
    specialize (Hpos x Hx). simpl in Hpos. lia.
Qed.

Lemma pending_from_previous registry pre m post : registry_ok registry -> All registry = pre ++ m :: post ->
  filter (fun x => last_id 0 pre < m_ID x) (All registry) = m :: post.
Proof.
  intros Hok Hall. pose proof (all_strictly_sorted _ Hok) as Hs. unfold last_id.
  destruct (last pre) as [z|] eqn:Hl.
  - apply last_Some in Hl as [l ->]. eapply (above_split _ l []); [done|]. rewrite Hall. by rewrite <- app_assoc.
  - apply last_None in Hl as ->. simpl in Hall. rewrite <- Hall. apply filter_keep, Forall_forall.
    intros x Hx. apply list_elem_of_In in Hx. by apply (registry_ids_ok _ _ Hok).
Qed.

(** A revert either fails and leaves the database as it was, or undoes
    exactly the highest applied migration: that migration is registered under the
    applied ID, it is pending again in front of what was pending before, and the
    ID returned is the new applied one. *)
Theorem run_down_spec registry db db' st id err :
  registry_ok registry -> CurrentStatus registry (Some db) = inr st -> RunDown registry (Some db) = (Some db', (id, err)) ->
  match err with
  | Some _ => db' = db
  | None => exists target down tx, In target registry /\ m_ID target = st_Applied st /\ m_Down target = Some down /\
      down db = Some tx /\
      CurrentStatus registry (Some db') = inr (mkStatus id (st_Available st) (target :: st_Pending st))
  end.
Proof.
  intros Hok Hst Hrun. unfold RunDown in Hrun. rewrite Hst in Hrun.
  destruct (st_Applied st =? 0); [by injection Hrun as <- <- <-|].
  destruct (list_find _ (All registry)) as [[i m]|] eqn:Hf; [|by injection Hrun as <- <- <-].
  apply list_find_Some in Hf as (Hi & Hid & _).
  destruct (m_Down m) as [down|] eqn:Hd; [|by injection Hrun as <- <- <-].
  unfold db_update in Hrun. destruct (down db) as [tx|] eqn:Hdn; [|by injection Hrun as <- <- <-].
  destruct (writeAppliedID tx _) as [tx'|] eqn:Hw; [|by injection Hrun as <- <- <-].
  destruct (Commit tx') as [db1|] eqn:Hc; [|by injection Hrun as <- <- <-]. injection Hrun as <- <- <-.
  pose proof (list_elem_of_lookup_2 _ _ _ Hi) as Hin. exists m, down, tx.
  apply take_drop_middle in Hi. symmetry in Hi. set (pre := take i (All registry)) in *. set (post := drop (S i) (All registry)) in *.
  rewrite (previous_id_spec _ _ _ _ Hok Hi) in *.
  pose proof (status_inv _ _ _ Hst) as (_ & Hav & Hp).
  split_and!; [|done|done|done|].
  - apply list_elem_of_In. unfold All in Hin. by rewrite merge_sort_Permutation in Hin.
  - rewrite (status_of_applied _ _ (last_id 0 pre)).
    + rewrite (pending_from_previous _ _ _ _ Hok Hi), Hav, Hp. do 3 f_equal. symmetry. rewrite <- Hid.
      by eapply (above_split _ pre [] m); [apply all_strictly_sorted|].
    + eapply writeAppliedID_read; [|done|done]. unfold last_id. destruct (last pre) as [z|] eqn:Hl; [|lia].
      assert (id_ok z) as Hz; [|unfold id_ok in Hz; lia]. apply (registry_ids_ok _ _ Hok). rewrite Hi.
      apply last_Some in Hl as [l ->]. apply in_app_iff. left. apply in_app_iff. right. by left.
Qed.
End Migrations.

(** ** A migrated database *)
Module MigrationsDemo.
Import MapBolt.

Definition add_index : Migration MapBolt.t :=
  mkMigration 2 "index bucket" (Some (fun tx => CreateBucketIfNotExists tx "index")) (Some (fun tx => Some tx)).
Definition broken : Migration MapBolt.t := mkMigration 5 "broken" (Some (fun _ => None)) None.
Definition registry : list (Migration MapBolt.t) := [broken; add_index; initial_migration].
Definition empty_db : MapBolt.t := ∅.
Definition db1 : MapBolt.t := default empty_db (RunUp registry (Some empty_db)).1.

Example registered : (let! a := from_option ROk RPanic (Register [broken; add_index] initial_migration) in ROk (length a))
  = @ROk unit _ 3%nat.
Proof. vm_compute. reflexivity. Qed.
Example stops_at_broken : (RunUp registry (Some empty_db)).2 = (2, Some (ErrUp 5)).
Proof. vm_compute. reflexivity. Qed.

Lemma registry_is_ok : registry_ok registry.
Proof.
  split; [repeat constructor; vm_compute; done|]. vm_compute. repeat constructor; set_solver.
Qed.
Lemma all_registry : All registry = [initial_migration; add_index; broken].
Proof. reflexivity. Qed.

Lemma applied_empty : AppliedID (Some empty_db) = inr 0.
Proof. vm_compute. reflexivity. Qed.

Lemma status_empty : CurrentStatus registry (Some empty_db) = inr (mkStatus 0 5 [initial_migration; add_index; broken]).
Proof. rewrite (status_of_applied _ _ 0 applied_empty). unfold AvailableID. rewrite all_registry. reflexivity. Qed.

Lemma applied_db1 : AppliedID (Some db1) = inr 2.
Proof. vm_compute. reflexivity. Qed.

Lemma status_db1 : CurrentStatus registry (Some db1) = inr (mkStatus 2 5 [broken]).
Proof. rewrite (status_of_applied _ _ 2 applied_db1). unfold AvailableID. rewrite all_registry. reflexivity. Qed.

(** The store component of a run that returns one. *)
Lemma run_result {A B} (r : option A * B) (d : A) b :
  (match r.1 with Some _ => true | None => false end) = true -> r.2 = b -> r = (Some (default d r.1), b).
Proof. destruct r as [[x|] y]; [|done]. by intros _ <-. Qed.

(** The interrupted upgrade: the broken migration is left pending. *)
Lemma run_up_resumable_witness : exists k,
  resumed registry empty_db db1 (mkStatus 0 5 [initial_migration; add_index; broken]) k /\ (k < 3)%nat.
Proof.
  destruct (run_up_resumable registry empty_db db1 (mkStatus 0 5 [initial_migration; add_index; broken]) 2 (Some (ErrUp 5)))
    as (k & Hr & _ & Hlt).
  - exact registry_is_ok.
  - exact status_empty.
  - cbn. lia.
  - apply run_result; [vm_compute; reflexivity|exact stops_at_broken].
  - exists k. split; [exact Hr|]. destruct (Hlt ltac:(discriminate)) as [He|]; [discriminate|assumption].
Defined.

(** Reverting the second migration makes it pending again. *)
Lemma run_down_spec_witness : exists target down tx,
  In target registry /\ m_ID target = 2 /\ m_Down target = Some down /\ down db1 = Some tx /\
  CurrentStatus registry (Some (default db1 (RunDown registry (Some db1)).1)) =
    inr (mkStatus 1 5 (target :: [broken])).
Proof.
  apply (run_down_spec registry db1 _ (mkStatus 2 5 [broken]) 1 None).
  - exact registry_is_ok.
  - exact status_db1.
  - apply run_result; vm_compute; reflexivity.
Defined.
End MigrationsDemo.
