(* ===== verification/Retention.v ===== *)
(** * Retention sweeps

    internal/storage/retention/retention.go: expiry of events, alerts and
    assets, and the compaction of the database file.

    Compaction concerns the file system: the database handle writes to an inode,
    and the path it was opened from names one.  The decoders of the two JSON
    views the sweep reads are arguments. *)
From stdpp Require Import base list strings gmap sorting.
From Stdlib Require Import ZArith Lia Bool.
From S2P Require Import Prelude Models Bolt.
Local Open Scope string_scope.
Local Open Scope list_scope.
Local Open Scope Z_scope.

(** ** Configuration *)

Record Config := mkConfig {
  EventsDefaultTTL : Z; AlertsTTL : Z; AssetsStaleTTL : Z; SweepInterval : Z; CompactionFreelistThreshold : Z }.

Definition Hour : Z := 3600 * 1000000000.

Definition EnsureDefaults (c : Config) : Config :=
  mkConfig
    (if EventsDefaultTTL c =? 0 then 90 * 24 * Hour else EventsDefaultTTL c)
    (if AlertsTTL c =? 0 then 365 * 24 * Hour else AlertsTTL c)
    (if AssetsStaleTTL c =? 0 then 30 * 24 * Hour else AssetsStaleTTL c)
    (if SweepInterval c =? 0 then 24 * Hour else SweepInterval c)
    (CompactionFreelistThreshold c).

(** ** The database and its file *)

(** [inodes] holds file contents, [handle] is the inode the open database writes
    to, [at_path] the one its path names. *)
Record DB (store : Type) := mkDB { inodes : gmap nat store; handle : nat; at_path : nat }.
Arguments mkDB {store} inodes handle at_path.
Arguments inodes {store} d.
Arguments handle {store} d.
Arguments at_path {store} d.

Record Report := mkReport {
  EventsRemoved : Z; AlertsRemoved : Z; AssetsRemoved : Z; CompactionRan : bool; FreelistPagesAfter : Z;
  StartedAt : gotime; FinishedAt : gotime }.

Inductive rterror := ErrNilDB | ErrContext | ErrEventsSweep | ErrAssetsSweep | ErrWriteCopy | ErrRename.

(** [t.Sub(u)] saturates at the range of [time.Duration]. *)
Definition time_Sub (t u : gotime) : Z := Z.max (- 2 ^ 63) (Z.min (2 ^ 63 - 1) (t - u)).

Section Sweep.
Context {store : Type} `{Bolt store}.
(** The [type] and [timestamp] of an event, the [last_seen] of an asset; [None]
    when the value does not decode. *)
Context (decode_event : bytes -> option (string * gotime)) (decode_asset : bytes -> option gotime).

Definition NewEngine (cfg : Config) (db : option (DB store)) : rterror + Config :=
  match db with None => inl ErrNilDB | Some _ => inr (EnsureDefaults cfg) end.

(** ** What expires *)

Definition shouldDropEvent (cfg : Config) (raw : bytes) (now : gotime) : bool * bool :=
  match decode_event raw with
  | None => (false, false)
  | Some (type, timestamp) =>
      let isAlert := bool_decide (type = "THREAT_ALERT") in
      let ttl := if isAlert then AlertsTTL cfg else EventsDefaultTTL cfg in
      if (ttl =? 0) || time_IsZero timestamp then (false, isAlert)
      else (ttl <? time_Sub now timestamp, isAlert)
  end.

Definition assetIsStale (raw : bytes) (cutoff : gotime) : bool :=
  match decode_asset raw with
  | None => false
  | Some lastSeen => if time_IsZero lastSeen then false else lastSeen <? cutoff
  end.

(** ** One pass over a bucket *)

Fixpoint scan_events (cfg : Config) (now : gotime) (l : entries) : list bytes * (Z * Z) :=
  match l with
  | [] => ([], (0, 0))
  | (k, v) :: l' =>
      let '(toDelete, (events, alerts)) := scan_events cfg now l' in
      let '(drop, isAlert) := shouldDropEvent cfg v now in
      if drop then (k :: toDelete, if isAlert then (events, 1 + alerts) else (1 + events, alerts))
      else (toDelete, (events, alerts))
  end.

Fixpoint scan_assets (cutoff : gotime) (l : entries) : list bytes :=
  match l with
  | [] => []
  | (k, v) :: l' => if assetIsStale v cutoff then k :: scan_assets cutoff l' else scan_assets cutoff l'
  end.

(** The deletion loop: the store and how many keys went before an error. *)
Fixpoint delete_keys (tx : store) (n : string) (ks : list bytes) : Z * option store :=
  match ks with
  | [] => (0, Some tx)
  | k :: ks' =>
      match Bolt.Delete tx n k with
      | None => (0, None)
      | Some tx => let '(c, r) := delete_keys tx n ks' in (1 + c, r)
      end
  end.

(** [db.Update]: commit on success, roll back otherwise. *)
Definition commit_or_rollback (db : store) (r : option store) : store * bool :=
  match r with
  | None => (db, false)
  | Some tx => match Commit tx with Some db' => (db', true) | None => (db, false) end
  end.

Definition sweep_events (cfg : Config) (now : gotime) (db : store) : store * (Z * Z) * bool :=
  match bucket db "events" with
  | None => let '(db, ok) := commit_or_rollback db (Some db) in (db, (0, 0), ok)
  | Some l =>
      let '(toDelete, counts) := scan_events cfg now l in
      let '(db, ok) := commit_or_rollback db (delete_keys db "events" toDelete).2 in (db, counts, ok)
  end.

Definition sweep_assets (cfg : Config) (now : gotime) (db : store) : store * Z * bool :=
  match bucket db "assets" with
  | None => let '(db, ok) := commit_or_rollback db (Some db) in (db, 0, ok)
  | Some l =>
      let '(removed, r) := delete_keys db "assets" (scan_assets (now + - AssetsStaleTTL cfg) l) in
      let '(db, ok) := commit_or_rollback db r in (db, removed, ok)
  end.

(** ** Compaction *)

(** [copied], [renamed]: whether the two file operations succeed; [fresh] is the
    inode of the new file. *)
Definition compact (d : DB store) (copied renamed : bool) (fresh : nat) : DB store * option rterror :=
  match inodes d !! handle d with
  | None => (d, Some ErrWriteCopy)
  | Some live =>
      if negb copied then (d, Some ErrWriteCopy)
      else
        let d := mkDB (<[fresh := live]> (inodes d)) (handle d) (at_path d) in
        if negb renamed then (d, Some ErrRename) else (mkDB (inodes d) (handle d) fresh, None)
  end.

Definition write_live (d : DB store) (s : store) : DB store := mkDB (<[handle d := s]> (inodes d)) (handle d) (at_path d).

(** [pages] is the freelist size after the passes, [finished] the second reading
    of the clock. *)
Definition Sweep (cfg : Config) (d : DB store) (cancelled : bool) (now finished : gotime) (pages : Z)
    (copied renamed : bool) (fresh : nat) : option (DB store * Report * option rterror) :=
  if cancelled then Some (d, mkReport 0 0 0 false 0 0 0, Some ErrContext)
  else
    match inodes d !! handle d with
    | None => None
    | Some db =>
        let '(db, (events, alerts), ok) := sweep_events cfg now db in
        let d := write_live d db in
        if negb ok then Some (d, mkReport events alerts 0 false 0 now 0, Some ErrEventsSweep)
        else
          let '(db, assets, ok) := sweep_assets cfg now db in
          let d := write_live d db in
          if negb ok then Some (d, mkReport events alerts assets false 0 now 0, Some ErrAssetsSweep)
          else if 0 <? CompactionFreelistThreshold cfg then
            let '(d, ran) :=
              if CompactionFreelistThreshold cfg <? pages
              then let '(d, err) := compact d copied renamed fresh in (d, match err with None => true | Some _ => false end)
              else (d, false) in
            Some (d, mkReport events alerts assets ran pages now finished, None)
          else Some (d, mkReport events alerts assets false 0 now finished, None)
    end.

(** ** What a sweep removes *)

Context `{!BoltLaws store}.

(** The value has an age beyond the time to live of its kind. *)
Definition event_expired (cfg : Config) (now : gotime) (v : bytes) : Prop :=
  exists type timestamp, decode_event v = Some (type, timestamp) /\ timestamp <> 0 /\
    let ttl := if decide (type = "THREAT_ALERT") then AlertsTTL cfg else EventsDefaultTTL cfg in
    ttl <> 0 /\ ttl < now - timestamp.

Definition asset_expired (cfg : Config) (now : gotime) (v : bytes) : Prop :=
  exists lastSeen, decode_asset v = Some lastSeen /\ lastSeen <> 0 /\ lastSeen < now - AssetsStaleTTL cfg.

Definition ttl_ok (ttl : Z) : Prop := 0 <= ttl < 2 ^ 63 - 1.
Definition cfg_ok (cfg : Config) : Prop := ttl_ok (EventsDefaultTTL cfg) /\ ttl_ok (AlertsTTL cfg).

Lemma time_Sub_lt ttl t u : ttl_ok ttl -> ttl < time_Sub t u <-> ttl < t - u.
Proof. unfold ttl_ok, time_Sub. lia. Qed.

Lemma shouldDropEvent_iff cfg v now : cfg_ok cfg -> (shouldDropEvent cfg v now).1 = true <-> event_expired cfg now v.
Proof.
  intros [He Ha]. unfold shouldDropEvent, event_expired. destruct (decode_event v) as [[type ts]|]; [|naive_solver].
  destruct (decide (type = "THREAT_ALERT")) as [Ht|Ht]; [rewrite bool_decide_eq_true_2 by done|rewrite bool_decide_eq_false_2 by done].
  all: match goal with |- context [(?ttl =? 0) || _] => destruct (Z.eqb_spec ttl 0), (Z.eqb_spec ts 0) end;
       unfold time_IsZero; rewrite ?(proj2 (Z.eqb_eq ts 0)), ?(proj2 (Z.eqb_neq ts 0)) by done; simpl.
  all: try (split; [done|intros (? & ? & [= <- <-] & ? & ?); repeat case_decide; naive_solver]).
  all: rewrite Z.ltb_lt, time_Sub_lt by done; split;
       [intros; exists type, ts; rewrite ?decide_True, ?decide_False by done; done|intros (? & ? & [= <- <-] & ? & ?); repeat case_decide; naive_solver].
Qed.

Lemma assetIsStale_iff cfg v now : assetIsStale v (now + - AssetsStaleTTL cfg) = true <-> asset_expired cfg now v.
Proof.
  unfold assetIsStale, asset_expired. destruct (decode_asset v) as [ls|]; [|naive_solver]. unfold time_IsZero.
  destruct (Z.eqb_spec ls 0); [naive_solver|]. rewrite Z.ltb_lt. split; [intros; exists ls; split_and!; [done|done|lia]|].
  intros (? & [= <-] & _ & ?). lia.
Qed.

Lemma scan_events_elem cfg now l k : k ∈ (scan_events cfg now l).1 <-> exists v, (k, v) ∈ l /\ (shouldDropEvent cfg v now).1 = true.
Proof.
  induction l as [|[k' v'] l IH]; simpl; [set_solver|]. destruct (scan_events cfg now l) as [ks [e a]]. simpl in IH.
  destruct (shouldDropEvent cfg v' now) as [[] isAlert] eqn:Hd; simpl; setoid_rewrite elem_of_cons.
  - rewrite IH. split; [intros [->|(v & ? & ?)]; [exists v'; rewrite Hd; auto|eauto]|].
    intros (v & [[= -> ->]|?] & ?); eauto.
  - rewrite IH. split; [intros (v & ? & ?); eauto|]. intros (v & [[= -> ->]|?] & ?); [by rewrite Hd in *|eauto].
Qed.

Lemma scan_assets_elem cutoff l k : k ∈ scan_assets cutoff l <-> exists v, (k, v) ∈ l /\ assetIsStale v cutoff = true.
Proof.
  induction l as [|[k' v'] l IH]; simpl; [set_solver|]. setoid_rewrite elem_of_cons.
  destruct (assetIsStale v' cutoff) eqn:Hd; rewrite ?elem_of_cons, IH.
  - split; [intros [->|(v & ? & ?)]; eauto|]. intros (v & [[= -> ->]|?] & ?); eauto.
  - split; [intros (v & ? & ?); eauto|]. intros (v & [[= -> ->]|?] & ?); [congruence|eauto].
Qed.

Lemma delete_keys_ok n ks : forall tx c tx' l, bucket tx n = Some l -> delete_keys tx n ks = (c, Some tx') ->
  c = Z.of_nat (length ks) /\ (forall n', n' <> n -> bucket tx' n' = bucket tx n') /\
  exists l', bucket tx' n = Some l' /\ forall k, kv_get k l' = if decide (k ∈ ks) then None else kv_get k l.
Proof.
  induction ks as [|j ks IH]; cbn [delete_keys]; intros tx c tx' l Hb Hd.
  { injection Hd as <- <-. split_and!; [done|done|]. exists l. split; [done|]. intros k. by rewrite decide_False by set_solver. }
  destruct (Bolt.Delete tx n j) as [tx1|] eqn:Hdel; [|done].
  destruct (delete_keys tx1 n ks) as [c1 r1] eqn:Hd1. injection Hd as <- ->.
  destruct (delete_spec _ _ _ _ _ Hdel Hb) as [(l1 & Hb1 & Hg1) Hf1].
  destruct (IH _ _ _ _ Hb1 Hd1) as (-> & Hf & l' & Hb' & Hg'). split_and!.
  - simpl. lia.
  - intros n' Hn. rewrite Hf, Hf1 by done. done.
  - exists l'. split; [done|]. intros k. rewrite Hg', Hg1. destruct (decide (k = j)) as [->|Hne].
    + rewrite (decide_True (P := j ∈ j :: ks)) by set_solver. rewrite bool_decide_eq_true_2 by done. by case_decide.
    + rewrite bool_decide_eq_false_2 by done.
      destruct (decide (k ∈ ks)); [rewrite decide_True by set_solver|rewrite decide_False by set_solver]; done.
Qed.

(** A pass over one bucket keeps exactly the entries that are not selected and
    touches no other bucket. *)
Definition pruned (db db' : store) (n : string) (expired : bytes -> Prop) : Prop :=
  (forall n', n' <> n -> bucket db' n' = bucket db n') /\
  (forall k v, content db' n k = Some v <-> content db n k = Some v /\ ~ expired v).

Lemma pass_pruned db db' n l ks (expired : bytes -> Prop) c r :
  bucket db n = Some l -> (forall k, k ∈ ks <-> exists v, (k, v) ∈ l /\ expired v) ->
  delete_keys db n ks = (c, r) -> commit_or_rollback db r = (db', true) ->
  pruned db db' n expired /\ c = Z.of_nat (length ks).
Proof.
  intros Hb Hks Hd Hc. destruct r as [tx|]; [|done]. simpl in Hc. destruct (Commit tx) as [db1|] eqn:Hcm; [|done].
  injection Hc as <-. destruct (delete_keys_ok _ _ _ _ _ _ Hb Hd) as (-> & Hf & l' & Hb' & Hg). split; [|done]. split.
  - intros n' Hn. by rewrite (commit_spec _ _ Hcm), Hf.
  - intros k v. unfold content. rewrite (commit_spec _ _ Hcm), Hb', Hb, Hg. destruct (decide (k ∈ ks)) as [Hin|Hni].
    + split; [done|]. intros [Hv Hn]. apply Hks in Hin as (v' & Hin & He). destruct Hn.
      rewrite (kv_get_elem _ v') in Hv; [by injection Hv as <-|by eapply bucket_nodup|done].
    + split; [|by intros [? _]]. intros Hv. split; [done|]. intros He. apply Hni, Hks. exists v. split; [by apply kv_get_In|done].
Qed.

Lemma no_bucket_pruned db db' n (expired : bytes -> Prop) :
  bucket db n = None -> commit_or_rollback db (Some db) = (db', true) -> pruned db db' n expired.
Proof.
  intros Hb Hc. simpl in Hc. destruct (Commit db) as [db1|] eqn:Hcm; [|done]. injection Hc as <-. split.
  - intros n' _. apply (commit_spec _ _ Hcm).
  - intros k v. unfold content. rewrite (commit_spec _ _ Hcm), Hb. naive_solver.
Qed.

Lemma sweep_events_pruned cfg now db db' counts : cfg_ok cfg -> sweep_events cfg now db = (db', counts, true) ->
  pruned db db' "events" (event_expired cfg now).
Proof.
  intros Hcfg. unfold sweep_events. destruct (bucket db "events") as [l|] eqn:Hb.
  - destruct (scan_events cfg now l) as [ks cs] eqn:Hs. destruct (delete_keys db "events" ks) as [c r] eqn:Hd. cbn [snd].
    destruct (commit_or_rollback db r) as [db1 ok] eqn:Hc. intros [= <- _ ->].
    eapply pass_pruned; [exact Hb| |exact Hd|exact Hc]. intros k. pose proof (scan_events_elem cfg now l k) as He. rewrite Hs in He. simpl in He.
    rewrite He. by setoid_rewrite shouldDropEvent_iff.
  - destruct (commit_or_rollback db (Some db)) as [db1 ok] eqn:Hc. intros [= <- _ ->]. by apply no_bucket_pruned.
Qed.

Lemma sweep_assets_pruned cfg now db db' c : sweep_assets cfg now db = (db', c, true) ->
  pruned db db' "assets" (asset_expired cfg now).
Proof.
  unfold sweep_assets. destruct (bucket db "assets") as [l|] eqn:Hb.
  - destruct (delete_keys db "assets" _) as [c1 r] eqn:Hd. destruct (commit_or_rollback db r) as [db1 ok] eqn:Hc.
    intros [= <- _ ->]. eapply pass_pruned; [exact Hb| |exact Hd|exact Hc]. intros k. rewrite scan_assets_elem.
    by setoid_rewrite assetIsStale_iff.
  - destruct (commit_or_rollback db (Some db)) as [db1 ok] eqn:Hc. intros [= <- _ ->]. by apply no_bucket_pruned.
Qed.

(** The two passes together. *)
Definition swept (cfg : Config) (now : gotime) (db db' : store) : Prop :=
  (forall n, n <> "events" -> n <> "assets" -> bucket db' n = bucket db n) /\
  (forall k v, content db' "events" k = Some v <-> content db "events" k = Some v /\ ~ event_expired cfg now v) /\
  (forall k v, content db' "assets" k = Some v <-> content db "assets" k = Some v /\ ~ asset_expired cfg now v).

Lemma pruned_content db db' n m (expired : bytes -> Prop) k : pruned db db' n expired -> m <> n -> content db' m k = content db m k.
Proof. intros [Hf _] Hne. unfold content. by rewrite Hf. Qed.

Lemma swept_passes cfg now db db1 db2 :
  pruned db db1 "events" (event_expired cfg now) -> pruned db1 db2 "assets" (asset_expired cfg now) -> swept cfg now db db2.
Proof.
  intros He Ha. split_and!.
  - intros n Hn1 Hn2. by rewrite (proj1 Ha n Hn2), (proj1 He n Hn1).
  - intros k v. by rewrite (pruned_content _ _ _ _ _ k Ha), (proj2 He).
  - intros k v. by rewrite (proj2 Ha), (pruned_content _ _ _ _ _ k He).
Qed.

Lemma compact_handle d copied renamed fresh d' err :
  compact d copied renamed fresh = (d', err) -> inodes d !! fresh = None ->
  handle d' = handle d /\ inodes d' !! handle d = inodes d !! handle d /\
  (err = None -> at_path d' = fresh /\ inodes d' !! fresh = inodes d !! handle d).
Proof.
  unfold compact. intros Hc Hf. destruct (inodes d !! handle d) as [live|] eqn:Hl; [|by injection Hc as <- <-].
  assert (fresh <> handle d) as Hne by congruence.
  destruct copied; simpl in Hc; [|by injection Hc as <- <-].
  destruct renamed; injection Hc as <- <-; simpl; rewrite lookup_insert_ne by done; split_and!; try done.
  intros _. by rewrite lookup_insert_eq.
Qed.

(** A successful sweep, up to the compaction. *)
Lemma sweep_inv cfg d cancelled now finished pages copied renamed fresh d' rep db :
  cfg_ok cfg -> inodes d !! handle d = Some db -> inodes d !! fresh = None ->
  Sweep cfg d cancelled now finished pages copied renamed fresh = Some (d', rep, None) ->
  exists db', swept cfg now db db' /\ handle d' = handle d /\ inodes d' !! handle d = Some db' /\
    (CompactionRan rep = true -> at_path d' = fresh /\ inodes d' !! fresh = Some db').
Proof.
  intros Hcfg Hl Hf. unfold Sweep. destruct cancelled; [done|]. rewrite Hl.
  destruct (sweep_events cfg now db) as [[db1 [ev al]] ok1] eqn:He. destruct ok1; [|done]. cbn [negb].
  destruct (sweep_assets cfg now db1) as [[db2 as_] ok2] eqn:Ha. destruct ok2; [|done]. cbn [negb].
  pose proof (swept_passes _ _ _ _ _ (sweep_events_pruned _ _ _ _ _ Hcfg He) (sweep_assets_pruned _ _ _ _ _ Ha)) as Hsw.
  set (d2 := write_live (write_live d db1) db2).
  assert (inodes d2 !! handle d = Some db2 /\ inodes d2 !! fresh = None /\ handle d2 = handle d) as (Hl2 & Hf2 & Hh2).
  { assert (handle d <> fresh) by congruence. simpl. rewrite lookup_insert_eq, !lookup_insert_ne by done. done. }
  destruct (0 <? CompactionFreelistThreshold cfg); [|intros [= <- <-]; exists db2; split_and!; done].
  destruct (CompactionFreelistThreshold cfg <? pages).
  - destruct (compact d2 copied renamed fresh) as [d3 err] eqn:Hc. intros [= <- <-]. simpl.
    destruct (compact_handle _ _ _ _ _ _ Hc Hf2) as (Hh & Hi & Hp). rewrite Hh2, Hl2 in *.
    exists db2. split_and!; [done|done|done|]. destruct err; [done|]. intros _. by apply Hp.
  - intros [= <- <-]. exists db2. split_and!; done.
Qed.

(** C27: a sweep that reports success removes exactly what has expired: events
    and alerts older than the time to live of their kind and assets not seen for
    longer than theirs; everything else, undated and undecodable entries and all
    other buckets included, is kept. *)
Theorem sweep_removes_exactly_expired cfg d cancelled now finished pages copied renamed fresh d' rep db :
  cfg_ok cfg -> inodes d !! handle d = Some db -> inodes d !! fresh = None ->
  Sweep cfg d cancelled now finished pages copied renamed fresh = Some (d', rep, None) ->
  exists db', inodes d' !! handle d' = Some db' /\ swept cfg now db db'.
Proof.
  intros Hcfg Hl Hf Hs. destruct (sweep_inv _ _ _ _ _ _ _ _ _ _ _ _ Hcfg Hl Hf Hs) as (db' & ? & Hh & ? & _).
  exists db'. by rewrite Hh.
Qed.

(** After a compaction the open handle no longer writes to the file its path
    names: whatever is written later, the file that a restart opens holds the
    database as it was when the compaction ran. *)
Theorem compaction_loses_later_writes cfg d cancelled now finished pages copied renamed fresh d' rep db (later : list store) :
  cfg_ok cfg -> inodes d !! handle d = Some db -> inodes d !! fresh = None ->
  Sweep cfg d cancelled now finished pages copied renamed fresh = Some (d', rep, None) -> CompactionRan rep = true ->
  let d'' := foldl write_live d' later in
  exists db', swept cfg now db db' /\ inodes d'' !! at_path d'' = Some db'.
Proof.
  intros Hcfg Hl Hf Hs Hran. destruct (sweep_inv _ _ _ _ _ _ _ _ _ _ _ _ Hcfg Hl Hf Hs) as (db' & Hsw & Hh & _ & Hp).
  destruct (Hp Hran) as [Hat Hfr]. assert (handle d' <> fresh) as Hne by (rewrite Hh; congruence).
  exists db'. split; [done|]. clear Hh Hs Hran Hp.
  revert d' Hat Hfr Hne. induction later as [|x later IH]; intros d' Hat Hfr Hne; simpl; [by rewrite Hat|].
  apply IH; simpl; [done| |done]. by rewrite lookup_insert_ne.
Qed.
End Sweep.

(** ** A swept database *)
Module RetentionDemo.
Import MapBolt.
(** Values [kind :: time]: an event is an alert when its kind is 1. *)
Definition decode_event (v : bytes) : option (string * gotime) :=
  match v with [k; t] => Some (if k =? 1 then "THREAT_ALERT" else "DNS_QUERY", t) | _ => None end.
Definition decode_asset (v : bytes) : option gotime := match v with [t] => Some t | _ => None end.
Definition cfg : Config := mkConfig 10 100 20 1 5.
Definition db : MapBolt.t :=
  <["events" := <[[1] := [0; 80]]> (<[[2] := [1; 80]]> (<[[3] := [0; 99]]> {[ [4] := [9] ]}))]>
  {[ "assets" := <[[1] := [70]]> {[ [2] := [95] ]} ]}.
Definition d : DB MapBolt.t := mkDB {[ 1%nat := db ]} 1 1.
Definition result := Sweep decode_event decode_asset cfg d false 100 101 9 true true 2.
Definition d' : DB MapBolt.t := match result with Some (x, _, _) => x | None => d end.
Definition rep : Report := match result with Some (_, r, _) => r | None => mkReport 0 0 0 false 0 0 0 end.

Example counts : (EventsRemoved rep, AlertsRemoved rep, AssetsRemoved rep, CompactionRan rep) = (1, 0, 1, true).
Proof. vm_compute. reflexivity. Qed.

Lemma sweep_removes_exactly_expired_witness :
  exists db', inodes d' !! handle d' = Some db' /\ swept decode_event decode_asset cfg 100 db db'.
Proof.
  apply (sweep_removes_exactly_expired decode_event decode_asset cfg d false 100 101 9 true true 2 d' rep db).
  - repeat split; vm_compute; congruence.
  - reflexivity.
  - reflexivity.
  - vm_compute. reflexivity.
Defined.

Lemma compaction_loses_later_writes_witness :
  let d'' := foldl write_live d' [∅] in
  exists db', swept decode_event decode_asset cfg 100 db db' /\ inodes d'' !! at_path d'' = Some db'.
Proof.
  apply (compaction_loses_later_writes decode_event decode_asset cfg d false 100 101 9 true true 2 d' rep db [∅]).
  - repeat split; vm_compute; congruence.
  - reflexivity.
  - reflexivity.
  - vm_compute. reflexivity.
  - vm_compute. reflexivity.
Defined.
End RetentionDemo.
