(* ===== verification/Stream.v ===== *)
(** * Stream analytics

    internal/analytics/stream: buffer.go (a ring buffer with two overflow
    policies) and window.go (per-minute counters over a ring of fifteen
    buckets).  The clock is an argument of [record]. *)
From stdpp Require Import base list strings gmap sorting.
From Stdlib Require Import ZArith Lia Bool.
From S2P Require Import Prelude Models.
Local Open Scope string_scope.
Local Open Scope list_scope.

(** ** The ring buffer *)

Definition PolicyDropOldest := "drop_oldest".
Definition PolicyDropNewest := "drop_newest".

Record circularBuffer (A : Type) := mkBuffer {
  data : list A; head : nat; count : nat; capacity : nat; policy : string; dropped : Z }.
Arguments mkBuffer {A} data head count capacity policy dropped.
Arguments data {A} c.
Arguments head {A} c.
Arguments count {A} c.
Arguments capacity {A} c.
Arguments policy {A} c.
Arguments dropped {A} c.

Section Buffer.
Context {A : Type} (zero : A).
Open Scope nat_scope.

Definition newCircularBuffer (cap : Z) (pol : string) : circularBuffer A :=
  let cap := if (cap <=? 0)%Z then 10000 else Z.to_nat cap in
  let pol := if bool_decide (pol <> PolicyDropNewest) then PolicyDropOldest else pol in
  mkBuffer (replicate cap zero) 0 0 cap pol 0.

(** The buffer after the push, and whether the event was accepted. *)
Definition push (b : circularBuffer A) (e : A) : circularBuffer A * bool :=
  let store d := mkBuffer (<[head b := e]> (data b)) ((head b + 1) mod capacity b)
                   (if count b <? capacity b then count b + 1 else count b) (capacity b) (policy b) d in
  if count b =? capacity b then
    let d := wrap 64 (dropped b + 1) in
    if bool_decide (policy b = PolicyDropNewest)
    then (mkBuffer (data b) (head b) (count b) (capacity b) (policy b) d, false)
    else (store d, true)
  else (store (dropped b), true).

Definition buf_len (b : circularBuffer A) : nat := count b.

(** Reading a slot; slots in use are always inside [data]. *)
Definition slot (b : circularBuffer A) (i : nat) : A := default zero (data b !! i).

Definition snapshot (b : circularBuffer A) : list A :=
  let start := (head b + capacity b - count b) mod capacity b in
  (fun i => slot b ((start + i) mod capacity b)) <$> seq 0 (count b).

(** ** Refinement of a bounded queue *)

Record buffer_wf (b : circularBuffer A) : Prop := {
  wf_len : length (data b) = capacity b;
  wf_cap : 0 < capacity b;
  wf_head : head b < capacity b;
  wf_count : count b <= capacity b;
}.

(** The queue the buffer stands for, and its push. *)
Definition queue_push (cap : nat) (pol : string) (q : list A) (e : A) : list A :=
  if decide (length q = cap) then
    if decide (pol = PolicyDropNewest) then q else tail q ++ [e]
  else q ++ [e].

Lemma mod_small_2 x c : x < c -> x mod c = x.
Proof. apply Nat.mod_small. Qed.

Lemma mod_wrap x c : c <= x < c + c -> x mod c = x - c.
Proof. intros Hx. replace x with (x - c + 1 * c) at 1 by lia. rewrite Nat.Div0.mod_add. apply Nat.mod_small. lia. Qed.

(** Case analysis on [x mod c] for [x] below [2 c]. *)
Ltac split_mod x c :=
  let H := fresh in
  destruct (Nat.lt_ge_cases x c) as [H|H]; [rewrite (mod_small_2 x c) by lia|rewrite (mod_wrap x c) by lia].

Lemma length_snapshot b : length (snapshot b) = count b.
Proof. unfold snapshot. by rewrite length_fmap, length_seq. Qed.

Lemma snapshot_lookup b i : i < count b -> snapshot b !! i =
  Some (slot b (((head b + capacity b - count b) mod capacity b + i) mod capacity b)).
Proof. intros Hi. unfold snapshot. rewrite list_lookup_fmap, lookup_seq_lt by done. done. Qed.

Lemma slot_insert b i j e h c p d : length (data b) = capacity b -> i < capacity b ->
  slot (mkBuffer (<[i := e]> (data b)) h c (capacity b) p d) j = if decide (i = j) then e else slot b j.
Proof.
  intros Hl Hi. unfold slot. simpl. destruct (decide (i = j)) as [->|Hne].
  - by rewrite list_lookup_insert_eq by lia.
  - by rewrite list_lookup_insert_ne.
Qed.

Lemma length_tail' {B} (l : list B) : length (tail l) = Nat.pred (length l).
Proof. by destruct l. Qed.

Lemma push_wf b e : buffer_wf b -> buffer_wf (push b e).1.
Proof.
  intros [Hl Hc Hh Hn]. pose proof (Nat.mod_upper_bound (head b + 1) (capacity b) ltac:(lia)).
  unfold push. destruct (Nat.eqb_spec (count b) (capacity b)); [case_bool_decide|]; split; simpl; rewrite ?length_insert; try done;
    destruct (Nat.ltb_spec (count b) (capacity b)); lia.
Qed.

Lemma push_refines b e : buffer_wf b -> snapshot (push b e).1 = queue_push (capacity b) (policy b) (snapshot b) e.
Proof.
  intros [Hl Hc Hh Hn]. unfold push, queue_push. rewrite length_snapshot.
  destruct (Nat.eqb_spec (count b) (capacity b)) as [Hf|Hf]; [rewrite decide_True by done|rewrite decide_False by done].
  - case_bool_decide as Hp; [by rewrite decide_True by done|]. rewrite decide_False by done. cbn [fst].
    rewrite (proj2 (Nat.ltb_ge _ _)) by lia. apply list_eq. intros i.
    destruct (Nat.lt_ge_cases i (count b)) as [Hi|Hi].
    2: { rewrite !lookup_ge_None_2; [done| |]; rewrite ?length_app, ?length_tail', length_snapshot; simpl; lia. }
    rewrite snapshot_lookup by done. cbn [head count capacity]. rewrite slot_insert by done.
    assert ((((head b + 1) mod capacity b + capacity b - count b) mod capacity b + i) mod capacity b =
            (head b + 1 + i) mod capacity b) as ->.
    { replace ((head b + 1) mod capacity b + capacity b - count b) with ((head b + 1) mod capacity b) by lia.
      rewrite Nat.Div0.mod_mod, Nat.Div0.add_mod_idemp_l. done. }
    destruct (Nat.eq_dec i (capacity b - 1)) as [->|Hlast].
    + rewrite decide_True by (rewrite mod_wrap by lia; lia).
      rewrite lookup_app_r by (rewrite length_tail', length_snapshot; lia). rewrite length_tail', length_snapshot.
      by replace (capacity b - 1 - Nat.pred (count b)) with 0 by lia.
    + rewrite decide_False by (split_mod (head b + 1 + i) (capacity b); lia).
      rewrite lookup_app_l by (rewrite length_tail', length_snapshot; lia).
      rewrite lookup_tail, snapshot_lookup by lia. do 2 f_equal.
      replace (head b + capacity b - count b) with (head b) by lia. rewrite (Nat.mod_small (head b)) by done. f_equal. lia.
  - cbn [fst]. rewrite (proj2 (Nat.ltb_lt _ _)) by lia. apply list_eq. intros i.
    destruct (Nat.lt_ge_cases i (count b + 1)) as [Hi|Hi].
    2: { rewrite !lookup_ge_None_2; [done| |]; rewrite ?length_app, length_snapshot; simpl; lia. }
    rewrite snapshot_lookup by done. cbn [head count capacity]. rewrite slot_insert by done.
    assert (((head b + 1) mod capacity b + capacity b - (count b + 1)) mod capacity b =
            (head b + capacity b - count b) mod capacity b) as ->.
    { split_mod (head b + 1) (capacity b).
      - f_equal. lia.
      - split_mod (head b + capacity b - count b) (capacity b); [lia|]. rewrite mod_small_2 by lia. lia. }
    assert (head b = ((head b + capacity b - count b) mod capacity b + i) mod capacity b <-> i = count b) as Hidx.
    { split_mod (head b + capacity b - count b) (capacity b);
        match goal with |- context [?x mod ?c] => split_mod x c end; lia. }
    destruct (Nat.eq_dec i (count b)) as [->|Hne].
    + rewrite decide_True, lookup_app_r by (rewrite ?length_snapshot; tauto || lia).
      by rewrite length_snapshot, Nat.sub_diag.
    + rewrite decide_False, lookup_app_l, snapshot_lookup by (rewrite ?length_snapshot; tauto || lia). done.
Qed.

Definition push_all (b : circularBuffer A) (es : list A) : circularBuffer A := foldl (fun b e => (push b e).1) b es.

Lemma push_static b e : capacity (push b e).1 = capacity b /\ policy (push b e).1 = policy b.
Proof. unfold push. destruct (count b =? capacity b); [case_bool_decide|]; done. Qed.

Lemma push_dropped b e : dropped (push b e).1 = if count b =? capacity b then wrap 64 (dropped b + 1) else dropped b.
Proof. unfold push. destruct (count b =? capacity b); [case_bool_decide|]; done. Qed.

(** What the queue keeps of a sequence of pushes. *)
Definition kept (cap : nat) (pol : string) (es : list A) : list A :=
  if decide (pol = PolicyDropNewest) then take cap es else drop (length es - cap) es.

Lemma queue_push_kept cap pol es e : 0 < cap -> queue_push cap pol (kept cap pol es) e = kept cap pol (es ++ [e]).
Proof.
  intros Hc. unfold queue_push, kept. destruct (decide (pol = PolicyDropNewest)) as [Hp|Hp].
  - rewrite length_take. destruct (decide _) as [Hl|Hl].
    + rewrite take_app_le by lia. done.
    + rewrite !take_ge by (rewrite ?length_app; simpl; lia). done.
  - rewrite length_drop. destruct (decide _) as [Hl|Hl]; rewrite length_app; simpl.
    + replace (length es + 1 - cap) with (S (length es - cap)) by lia.
      rewrite drop_app_le by lia. f_equal. destruct (drop (length es - cap) es) as [|x l] eqn:Hd.
      * apply (f_equal length) in Hd. rewrite length_drop in Hd. simpl in Hd. lia.
      * simpl. change (S (length es - cap)) with (1 + (length es - cap)). rewrite Nat.add_comm, <- drop_drop, Hd. done.
    + replace (length es + 1 - cap) with 0 by lia. by replace (length es - cap) with 0 by lia.
Qed.

Lemma push_all_spec b es : buffer_wf b -> count b = 0 -> dropped b = 0%Z ->
  buffer_wf (push_all b es) /\ capacity (push_all b es) = capacity b /\ policy (push_all b es) = policy b /\
  snapshot (push_all b es) = kept (capacity b) (policy b) es /\
  dropped (push_all b es) = wrap 64 (Z.of_nat (length es - capacity b)).
Proof.
  intros Hwf Hc Hd. unfold push_all. induction es as [|e es IH] using rev_ind.
  - simpl. split_and!; try done.
    + transitivity (@nil A); [apply nil_length_inv; by rewrite length_snapshot|].
      unfold kept. case_decide; by rewrite ?take_nil, ?drop_nil.
  - rewrite foldl_app. simpl. set (b' := foldl _ b es) in *. destruct IH as (Hwf' & Hcap & Hpol & Hs & Hdr).
    destruct (push_static b' e) as [Hc1 Hp1]. split_and!; [by apply push_wf|congruence|congruence| |].
    + rewrite push_refines, Hs, Hcap, Hpol by done. apply queue_push_kept. apply Hwf.
    + rewrite push_dropped, Hdr, Hcap, length_app. simpl.
      assert (count b' = length (kept (capacity b) (policy b) es)) as -> by (by rewrite <- Hs, length_snapshot).
      assert (length (kept (capacity b) (policy b) es) = Nat.min (capacity b) (length es)) as ->.
      { unfold kept. case_decide; rewrite ?length_take, ?length_drop; lia. }
      destruct (Nat.eqb_spec (Nat.min (capacity b) (length es)) (capacity b)).
      * unfold wrap. rewrite Zplus_mod_idemp_l. f_equal. lia.
      * f_equal. lia.
Qed.

(** C32: the ring buffer implements a bounded queue: whatever is pushed into a new
    buffer, its snapshot is, oldest first, the last [capacity] events under the
    drop-oldest policy and the first [capacity] under drop-newest, and the drop
    counter is the number of events lost (modulo 2^64). *)
Theorem buffer_keeps (cap : Z) (pol : string) (es : list A) :
  let b := push_all (newCircularBuffer cap pol) es in
  let n := if (cap <=? 0)%Z then 10000 else Z.to_nat cap in
  snapshot b = (if decide (pol = PolicyDropNewest) then take n es else drop (length es - n) es) /\
  buf_len b = Nat.min n (length es) /\ dropped b = wrap 64 (Z.of_nat (length es - n)).
Proof.
  intros b n. set (b0 := newCircularBuffer cap pol).
  assert (0 < n) as Hn 
    by (unfold n; destruct (Z.leb_spec cap 0); [by apply Nat.ltb_lt|lia]).
  assert (buffer_wf b0) as Hwf by (split; [apply length_replicate|exact Hn|exact Hn|simpl; lia]).
  destruct (push_all_spec b0 es Hwf eq_refl eq_refl) as (_ & _ & _ & Hs & Hd). change (push_all b0 es) with b in Hs, Hd.
  assert (capacity b0 = n) as Hcap by done.
  assert (snapshot b = if decide (pol = PolicyDropNewest) then take n es else drop (length es - n) es) as Hs'.
  { rewrite Hs, Hcap. unfold kept, b0, newCircularBuffer. cbn [policy]. destruct (decide (pol = PolicyDropNewest)) as [->|Hp].
    - rewrite bool_decide_eq_false_2 by (intros Hx; by apply Hx). done.
    - by rewrite bool_decide_eq_true_2 by done. }
  split; [done|]. split; [|by rewrite Hd].
  unfold buf_len. rewrite <- (length_snapshot b), Hs'. case_decide; rewrite ?length_take, ?length_drop; lia.
Qed.
End Buffer.

(** ** Sliding windows *)

Definition totalBuckets : nat := 15.

(** One minute of counts: address, event type, number.  [b_ts] is the minute. *)
Record bucket := mkBucket { b_ts : gotime; b_counts : gmap string (gmap string Z) }.

Definition newBucket (ts : gotime) : bucket := mkBucket ts ∅.

Definition bucket_record (b : bucket) (ip : string) (t : EventType) : bucket :=
  let m := default ∅ (b_counts b !! ip) in
  let ty := event_type_string t in
  mkBucket (b_ts b) (<[ip := <[ty := (default 0 (m !! ty) + 1)%Z]> m]> (b_counts b)).

Record windower := mkWindower { buckets : list bucket; current : nat }.

(** [now] is the current time truncated to the minute. *)
Definition newWindower (now : gotime) : windower := mkWindower (replicate totalBuckets (newBucket now)) 0.

Definition bucket_at (w : windower) (i : nat) : bucket := default (newBucket 0) (buckets w !! i).

Definition record (w : windower) (now : gotime) (ip : string) (t : EventType) : windower :=
  let cur := bucket_at w (current w) in
  let w :=
    if (b_ts cur <? now)%Z then
      let c := ((current w + 1) mod totalBuckets)%nat in mkWindower (<[c := newBucket now]> (buckets w)) c
    else w in
  mkWindower (<[current w := bucket_record (bucket_at w (current w)) ip t]> (buckets w)) (current w).

Definition bucket_total (b : bucket) (ip : string) : Z :=
  match b_counts b !! ip with
  | None => 0
  | Some typeCounts => map_fold (fun _ n total => total + n)%Z 0%Z typeCounts
  end.

(** [Rate1m] is the float64 quotient of the pair. *)
Record WindowStats := mkWindowStats { IP : string; Count1m : Z; Count5m : Z; Count15m : Z; Rate1m : Z * Z }.

Definition stats_step (w : windower) (ip : string) (acc : Z * Z * Z) (i : nat) : Z * Z * Z :=
  let '(c1, c5, c15) := acc in
  let idx := ((current w + totalBuckets - i) mod totalBuckets)%nat in
  let total := bucket_total (bucket_at w idx) ip in
  (if (i <? 1)%nat then c1 + total else c1, if (i <? 5)%nat then c5 + total else c5, c15 + total)%Z.

Definition stats (w : windower) (ip : string) : WindowStats :=
  let '(c1, c5, c15) := foldl (stats_step w ip) (0, 0, 0)%Z (seq 0 totalBuckets) in
  mkWindowStats ip c1 c5 c15 (c1, 60%Z).

(** ** The ring as a list of minutes, newest first *)

Definition window_wf (w : windower) : Prop := length (buckets w) = totalBuckets /\ (current w < totalBuckets)%nat.

Definition recent (w : windower) : list bucket :=
  (fun i => bucket_at w ((current w + totalBuckets - i) mod totalBuckets)%nat) <$> seq 0 totalBuckets.

Definition recent_record (l : list bucket) (now : gotime) (ip : string) (t : EventType) : list bucket :=
  match l with
  | [] => []
  | b :: l' =>
      if (b_ts b <? now)%Z then bucket_record (newBucket now) ip t :: take (length l') (b :: l')
      else bucket_record b ip t :: l'
  end.

Lemma record_wf w now ip t : window_wf w -> window_wf (record w now ip t).
Proof.
  intros [Hl Hc]. unfold record, window_wf. destruct (_ <? _)%Z; cbn [buckets current]; rewrite ?length_insert; split; try done.
  by apply Nat.mod_upper_bound.
Qed.

(** Ring states are determined by fifteen slots and an index: both sides are
    lists of fifteen slots, compared slot by slot for each index. *)
Lemma recent_record_refines w now ip t : window_wf w -> recent (record w now ip t) = recent_record (recent w) now ip t.
Proof.
  destruct w as [bs c]. intros [Hl Hc]. simpl in Hl, Hc. unfold totalBuckets in *.
  do 15 (destruct bs as [|? bs]; [done|]). destruct bs; [|done]. clear Hl.
  do 15 (destruct c as [|c];
    [unfold record, recent, recent_record, bucket_at; cbn -[Z.ltb bucket_record newBucket];
     match goal with |- context [(?x <? ?y)%Z] => destruct (x <? y)%Z end; reflexivity|]).
  lia.
Qed.

Definition sum_totals (l : list bucket) (ip : string) : Z := foldl (fun a b => a + bucket_total b ip)%Z 0%Z l.

Lemma stats_fold w ip l : forall c1 c5 c15,
  let f i := bucket_total (bucket_at w ((current w + totalBuckets - i) mod totalBuckets)%nat) ip in
  foldl (stats_step w ip) (c1, c5, c15) l =
  (foldl (fun a i => if (i <? 1)%nat then a + f i else a) c1 l, foldl (fun a i => if (i <? 5)%nat then a + f i else a) c5 l,
   foldl (fun a i => a + f i) c15 l)%Z.
Proof. induction l as [|i l IH]; intros c1 c5 c15 f; cbn [foldl]; [done|]. unfold stats_step at 2. apply IH. Qed.

Lemma stats_recent w ip : stats w ip =
  mkWindowStats ip (sum_totals (take 1 (recent w)) ip) (sum_totals (take 5 (recent w)) ip) (sum_totals (recent w) ip)
    (sum_totals (take 1 (recent w)) ip, 60%Z).
Proof.
  unfold stats. rewrite stats_fold. cbn zeta. unfold recent, sum_totals, totalBuckets.
  cbn [seq foldl Nat.ltb Nat.leb fmap list_fmap take]. reflexivity.
Qed.

(** One event of the address in each of the given minutes. *)
Definition record_minutes (t0 : gotime) (ip : string) (t : EventType) (ts : list gotime) : windower :=
  foldl (fun w now => record w now ip t) (newWindower t0) ts.

Definition one_event (ip : string) (t : EventType) (now : gotime) : bucket := bucket_record (newBucket now) ip t.

Lemma record_minutes_wf t0 ip t ts : window_wf (record_minutes t0 ip t ts).
Proof.
  unfold record_minutes. induction ts as [|x ts IH] using rev_ind.
  - split; [reflexivity|]. change (0 < 15)%nat. lia.
  - rewrite foldl_app. cbn [foldl]. by apply record_wf.
Qed.

Lemma record_minutes_recent t0 ip t ts : StronglySorted Z.lt (t0 :: ts) ->
  recent (record_minutes t0 ip t ts) = take totalBuckets ((one_event ip t <$> rev ts) ++ replicate totalBuckets (newBucket t0)).
Proof.
  unfold record_minutes. induction ts as [|x ts IH] using rev_ind; intros Hs; [reflexivity|].
  change (t0 :: ts ++ [x]) with ((t0 :: ts) ++ [x]) in Hs. apply StronglySorted_app in Hs as (Hlt & Hs & _).
  rewrite foldl_app. cbn [foldl]. rewrite recent_record_refines, (IH Hs) by apply record_minutes_wf.
  rewrite rev_app_distr. cbn [rev app fmap list_fmap]. destruct (rev ts) as [|y ys] eqn:Hr.
  - cbn -[Z.ltb one_event newBucket]. change (b_ts (newBucket t0)) with t0. rewrite (proj2 (Z.ltb_lt t0 x)) by (apply Hlt; [left|left]). reflexivity.
  - assert (y < x)%Z as Hyx.
    { apply Hlt; [|left]. right. apply list_elem_of_In, in_rev. rewrite Hr. left. done. }
    cbn [fmap list_fmap app]. unfold totalBuckets. cbn [take recent_record].
    change (b_ts (one_event ip t y)) with y. rewrite (proj2 (Z.ltb_lt y x)) by done. f_equal.
    set (l := (one_event ip t <$> ys) ++ replicate 15 (newBucket t0)).
    assert (15 <= length l)%nat by (unfold l; rewrite length_app, length_replicate; lia).
    rewrite length_take_le by lia. change (take 14 (one_event ip t y :: take 14 l)) with (one_event ip t y :: take 13 (take 14 l)).
    cbn [take]. f_equal. rewrite take_take. done.
Qed.

Lemma sum_totals_app l1 l2 ip : sum_totals (l1 ++ l2) ip = (sum_totals l1 ip + sum_totals l2 ip)%Z.
Proof.
  unfold sum_totals. rewrite foldl_app. generalize (foldl (fun a b => a + bucket_total b ip)%Z 0%Z l1). intros a.
  revert a. induction l2 as [|b l2 IH]; intros a; cbn [foldl]; [lia|]. rewrite (IH (a + _)%Z), (IH (0 + _)%Z). lia.
Qed.

Lemma sum_totals_const l ip n : (forall b, In b l -> bucket_total b ip = n) -> sum_totals l ip = (n * Z.of_nat (length l))%Z.
Proof.
  induction l as [|b l IH]; intros Hall; [unfold sum_totals; simpl; lia|].
  change (b :: l) with ([b] ++ l). rewrite sum_totals_app, IH by (intros; apply Hall; by right).
  unfold sum_totals. cbn [foldl length app]. rewrite (Hall b) by (by left). lia.
Qed.

Lemma one_event_total ip t now : bucket_total (one_event ip t now) ip = 1%Z.
Proof.
  unfold one_event, bucket_record, bucket_total. simpl. rewrite lookup_empty, lookup_insert_eq. cbn [default].
  rewrite lookup_empty. cbn [default]. rewrite insert_empty. by rewrite map_fold_singleton.
Qed.

Lemma take_minutes_total t0 ip t (ts : list gotime) k : (k <= totalBuckets)%nat ->
  sum_totals (take k (take totalBuckets ((one_event ip t <$> rev ts) ++ replicate totalBuckets (newBucket t0)))) ip
  = Z.of_nat (Nat.min k (length ts)).
Proof.
  intros Hk. rewrite take_take, Nat.min_l, take_app by done. rewrite sum_totals_app.
  rewrite (sum_totals_const (take k _) ip 1), (sum_totals_const (take _ (replicate _ _)) ip 0).
  - rewrite length_take, length_fmap, length_rev. lia.
  - intros b Hb. apply list_elem_of_In, elem_of_take in Hb as (i & Hi & _). apply lookup_replicate in Hi as [-> _]. reflexivity.
  - intros b Hb. apply list_elem_of_In, elem_of_take in Hb as (i & Hi & _). apply list_lookup_fmap_Some in Hi as (x & -> & _).
    apply one_event_total.
Qed.

(** The windows count minutes with events, not minutes of time: with one event
    in each of [k] strictly increasing minutes, however far apart, the counts are
    the minimum of [k] and 1, 5 and 15; fifteen events spread over as many hours or
    days are reported as the events of the last fifteen minutes. *)
Theorem windows_ignore_gaps (t0 : gotime) (ip : string) (t : EventType) (ts : list gotime) : StronglySorted Z.lt (t0 :: ts) ->
  let s := stats (record_minutes t0 ip t ts) ip in
  Count1m s = Z.of_nat (Nat.min 1 (length ts)) /\ Count5m s = Z.of_nat (Nat.min 5 (length ts)) /\
  Count15m s = Z.of_nat (Nat.min 15 (length ts)).
Proof.
  intros Hs s. subst s. rewrite stats_recent. cbn [Count1m Count5m Count15m]. rewrite (record_minutes_recent _ _ _ _ Hs).
  split_and!.
  - apply take_minutes_total. unfold totalBuckets. lia.
  - apply take_minutes_total. unfold totalBuckets. lia.
  - rewrite <- (take_minutes_total t0 ip t ts 15) by done. f_equal. rewrite take_take. done.
Qed.

Module StreamDemo.
Definition hour : Z := 3600 * 1000000000.

(** One event per hour for five hours: a five-minute count of five. *)
Lemma windows_ignore_gaps_witness :
  let s := stats (record_minutes 0 "10.0.0.5" EventDNS [hour; 2 * hour; 3 * hour; 4 * hour; 5 * hour]%Z) "10.0.0.5" in
  Count5m s = 5%Z.
Proof.
  apply (windows_ignore_gaps 0 "10.0.0.5" EventDNS [hour; 2 * hour; 3 * hour; 4 * hour; 5 * hour]%Z).
  unfold hour. repeat constructor; lia.
Defined.

Example ring_demo : snapshot 0%Z (push_all (newCircularBuffer 0%Z 2 PolicyDropOldest) [1; 2; 3]%Z) = [2; 3]%Z.
Proof. reflexivity. Qed.
End StreamDemo.
