(* ===== verification/Correlation.v ===== *)
(** * Kill-chain correlation

    internal/analytics/correlation/temporal.go: ordered sequences of events from
    one source within a time window.

    A window is a Go slice.  [Observe] keeps a slice [trimmed] while
    [fireChainAlert] filters the stored slice in place; both share one backing
    array, so the state of the rule loop is the array and the length of the stored
    slice. *)
From stdpp Require Import base list strings gmap.
From Stdlib Require Import ZArith Lia Bool.
From S2P Require Import Prelude Models.
Local Open Scope string_scope.
Local Open Scope list_scope.
Local Open Scope Z_scope.

Record ChainRule := mkChainRule {
  Name : string; Tactic : string; Severity : string; Window : Z; Sequence : list EventType }.

Record stampedEvent := mkStamped { ev_ID : string; ev_Type : EventType; ev_Timestamp : gotime }.

(** [maxAge] is the longest window; [hasCallback] whether an alert callback is
    set. *)
Record TemporalCorrelator := mkCorrelator {
  windows : gmap string (list stampedEvent); chains : list ChainRule; hasCallback : bool; maxAge : Z }.

Definition Minute : Z := 60 * 1000000000.

Definition DefaultChains : list ChainRule :=
  [mkChainRule "RECON_TO_PORTSCAN" "TA0043" "HIGH" (10 * Minute) [EventARP; EventPortScan];
   mkChainRule "TOR_EVASION_SCAN" "TA0005" "CRITICAL" (5 * Minute) [EventTor; EventPortScan];
   mkChainRule "TOR_EVASION_DNS" "TA0011" "HIGH" (5 * Minute) [EventTor; EventDNS];
   mkChainRule "CANARY_THEN_SCAN" "TA0007" "CRITICAL" (15 * Minute) [EventCanary; EventPortScan];
   mkChainRule "PROXY_TO_SCAN" "TA0003" "HIGH" (5 * Minute) [EventProxy; EventPortScan]].

Definition NewTemporalCorrelator (cs : list ChainRule) : TemporalCorrelator :=
  mkCorrelator ∅ cs false (foldl (fun m c => if m <? Window c then Window c else m) Minute cs).

Definition SetAlertCallback (t : TemporalCorrelator) : TemporalCorrelator :=
  mkCorrelator (windows t) (chains t) true (maxAge t).

(** Event types are strings in the code. *)
Definition type_eqb (a b : EventType) : bool := bool_decide (event_type_string a = event_type_string b).

(** ** Matching *)

(** The loop of [matchChain]: the types still to be seen and the identifiers
    collected. *)
Fixpoint match_loop (cutoff : gotime) (seq : list EventType) (ids : list string) (window : list stampedEvent) : option (list string) :=
  match window with
  | [] => None
  | ev :: window' =>
      if ev_Timestamp ev <? cutoff then match_loop cutoff seq ids window'
      else
        match seq with
        | [] => None
        | t :: seq' =>
            if type_eqb (ev_Type ev) t then
              let ids := ids ++ [ev_ID ev] in
              if (length seq' =? 0)%nat then Some ids else match_loop cutoff seq' ids window'
            else match_loop cutoff seq ids window'
        end
  end.

Definition matchChain (window : list stampedEvent) (chain : ChainRule) (now : gotime) : option (list string) :=
  if (length (Sequence chain) =? 0)%nat then None
  else match_loop (now + - Window chain) (Sequence chain) [] window.

(** ** Firing *)

(** [uuid], [clock] and [dur_string] are the fresh identifier, the time and the
    printed window of the alert. *)
Definition chain_alert (dur_string : Z -> string) (trigger : NetworkEvent) (chain : ChainRule) (chainIDs : list string)
    (uuid : string) (clock : gotime) : NetworkEvent :=
  let severity := if bool_decide (Severity chain = "") then "HIGH" else Severity chain in
  mkNetworkEvent uuid EventAlert "TemporalCorrelator" (ne_Source trigger)
    (<["rule" := VString (Name chain)]>
    (<["description" := VString ("Kill-chain sequence detected: " +:+ Name chain)]>
    (<["severity" := VString severity]>
    (<["mitre_tactic" := VString (Tactic chain)]>
    (<["chain_events" := VStrings chainIDs]>
    (<["trigger_id" := VString (ne_ID trigger)]>
    (<["window" := VString (dur_string (Window chain))]> ∅))))))) clock [] "".

(** The stored slice filtered in place: its elements are written to the front of
    the array. *)
Definition clear_matched (arr : list stampedEvent) (len : nat) (chainIDs : list string) : list stampedEvent * nat :=
  let filtered := filter (fun ev => ev_ID ev ∉ chainIDs) (take len arr) in
  (filtered ++ drop (length filtered) arr, length filtered).

(** The rule loop of [Observe]: the array [trimmed] views in full and the length
    of the stored slice; [fresh] supplies the identifier and time of each
    alert. *)
Fixpoint fire_loop (dur_string : Z -> string) (callback : bool) (e : NetworkEvent) (now : gotime) (cs : list ChainRule)
    (fresh : nat -> string * gotime) (arr : list stampedEvent) (len : nat) (alerts : list NetworkEvent)
  : list stampedEvent * nat * list NetworkEvent :=
  match cs with
  | [] => (arr, len, alerts)
  | chain :: cs' =>
      match matchChain arr chain now with
      | None => fire_loop dur_string callback e now cs' fresh arr len alerts
      | Some ids =>
          if negb callback then fire_loop dur_string callback e now cs' fresh arr len alerts
          else
            let '(uuid, clock) := fresh (length alerts) in
            let alert := chain_alert dur_string e chain ids uuid clock in
            let '(arr, len) := clear_matched arr len ids in
            fire_loop dur_string callback e now cs' fresh arr len (alerts ++ [alert])
      end
  end.

(** The window of the source after eviction, with the new event. *)
Definition trimmed_window (t : TemporalCorrelator) (e : NetworkEvent) (now : gotime) : list stampedEvent :=
  let cutoff := now + - maxAge t in
  filter (fun ev => cutoff < ev_Timestamp ev) (default [] (windows t !! ne_Source e)) ++
  [mkStamped (ne_ID e) (ne_Type e) now].

(** [clock] is the current time, used for an event without a timestamp. *)
Definition Observe (dur_string : Z -> string) (t : TemporalCorrelator) (e : NetworkEvent) (clock : gotime)
    (fresh : nat -> string * gotime) : TemporalCorrelator * list NetworkEvent :=
  if bool_decide (ne_Source e = "") || type_eqb (ne_Type e) EventAlert then (t, [])
  else
    let now := if time_IsZero (ne_Timestamp e) then clock else ne_Timestamp e in
    let trimmed := trimmed_window t e now in
    let '(arr, len, alerts) := fire_loop dur_string (hasCallback t) e now (chains t) fresh trimmed (length trimmed) [] in
    (mkCorrelator (<[ne_Source e := take len arr]> (windows t)) (chains t) (hasCallback t) (maxAge t), alerts).

(** ** Greedy matching finds a subsequence whenever there is one *)

Definition type_matches (ev : stampedEvent) (t : EventType) : Prop := event_type_string (ev_Type ev) = event_type_string t.

(** The events of the window not older than the cutoff. *)
Definition in_time (cutoff : gotime) (window : list stampedEvent) : list stampedEvent :=
  filter (fun ev => cutoff <= ev_Timestamp ev) window.

Lemma match_loop_sound cutoff window : forall seq ids r, seq <> [] -> match_loop cutoff seq ids window = Some r ->
  exists evs, evs `sublist_of` in_time cutoff window /\ Forall2 type_matches evs seq /\ r = ids ++ (ev_ID <$> evs).
Proof.
  induction window as [|ev window IH]; intros seq ids r Hne; cbn [match_loop]; [done|]. unfold in_time.
  destruct (Z.ltb_spec (ev_Timestamp ev) cutoff).
  { rewrite filter_cons_False by lia. by apply IH. }
  rewrite filter_cons_True by lia. destruct seq as [|t seq']; [done|]. unfold type_eqb. case_bool_decide as Ht.
  - destruct (Nat.eqb_spec (length seq') 0) as [Hz|Hz].
    + intros [= <-]. apply nil_length_inv in Hz as ->. exists [ev]. split_and!; [|by repeat constructor|done].
      apply sublist_skip, sublist_nil_l.
    + intros Hm. destruct (IH seq' _ _ ltac:(by intros ->) Hm) as (evs & Hs & Hf & ->). exists (ev :: evs).
      split_and!; [by apply sublist_skip|by constructor|]. by rewrite <- app_assoc.
  - intros Hm. destruct (IH (t :: seq') _ _ ltac:(done) Hm) as (evs & Hs & Hf & ->). exists evs.
    split_and!; [by apply sublist_cons|done|done].
Qed.

Lemma match_loop_complete cutoff window : forall seq ids evs, seq <> [] ->
  evs `sublist_of` in_time cutoff window -> Forall2 type_matches evs seq -> is_Some (match_loop cutoff seq ids window).
Proof.
  induction window as [|ev window IH]; intros seq ids evs Hne Hs Hf; cbn [match_loop]; unfold in_time in Hs.
  { apply sublist_nil_r in Hs as ->. inversion Hf; subst. done. }
  destruct (Z.ltb_spec (ev_Timestamp ev) cutoff).
  { rewrite filter_cons_False in Hs by lia. by eapply IH. }
  rewrite filter_cons_True in Hs by lia. destruct seq as [|t seq']; [done|].
  inversion Hf as [|e0 ? evs' ? Ht Hf']; subst. unfold type_eqb. case_bool_decide as Hev.
  - destruct (Nat.eqb_spec (length seq') 0) as [|Hz]; [done|]. eapply (IH seq' _ evs'); [by intros ->| |done].
    inversion Hs as [|? ? ? Hs'|? ? ? Hs']; subst; [done|]. etransitivity; [|exact Hs']. by apply sublist_cons.
  - eapply (IH (t :: seq') _ (e0 :: evs')); [done| |done].
    inversion Hs as [|? ? ? Hs'|? ? ? Hs']; subst; [|done]. destruct Hev. exact Ht.
Qed.

Lemma match_chain_sound window chain now ids : matchChain window chain now = Some ids ->
  exists evs, evs `sublist_of` in_time (now - Window chain) window /\ Forall2 type_matches evs (Sequence chain) /\ ids = ev_ID <$> evs.
Proof.
  unfold matchChain. destruct (Nat.eqb_spec (length (Sequence chain)) 0) as [|Hz]; [done|].
  intros (evs & Hs & Hf & ->)%match_loop_sound; [|by intros Hn; rewrite Hn in Hz]. by exists evs.
Qed.

(** C31: the single greedy pass over a window detects a kill chain exactly when
    its sequence of types occurs in order, not necessarily adjacent, among the
    events inside the time window; the identifiers returned are those of such an
    occurrence. *)
Theorem match_chain_iff (window : list stampedEvent) (chain : ChainRule) (now : gotime) :
  (is_Some (matchChain window chain now) <->
   Sequence chain <> [] /\
   exists evs, evs `sublist_of` in_time (now - Window chain) window /\ Forall2 type_matches evs (Sequence chain)) /\
  (forall ids, matchChain window chain now = Some ids ->
   exists evs, evs `sublist_of` in_time (now - Window chain) window /\ Forall2 type_matches evs (Sequence chain) /\ ids = ev_ID <$> evs).
Proof.
  split; [|apply match_chain_sound]. split.
  - intros [ids Hm]. split; [intros Hn; unfold matchChain in Hm; by rewrite Hn in Hm|].
    destruct (match_chain_sound _ _ _ _ Hm) as (evs & ? & ? & _). eauto.
  - intros (Hne & evs & Hs & Hf). unfold matchChain.
    destruct (Nat.eqb_spec (length (Sequence chain)) 0) as [Hz|]; [by apply nil_length_inv in Hz|].
    by eapply match_loop_complete.
Qed.

(** ** What [Observe] reports and keeps *)

Lemma fire_loop_alerts dur cb e now cs fresh arr len : forall alerts, exists more,
  (fire_loop dur cb e now cs fresh arr len alerts).2 = alerts ++ more.
Proof.
  revert arr len. induction cs as [|c cs IH]; intros arr len alerts; cbn [fire_loop]; [exists []; by rewrite app_nil_r|].
  destruct (matchChain arr c now) as [ids|]; [|apply IH]. destruct (negb cb); [apply IH|].
  destruct (fresh (length alerts)) as [u k]. destruct (clear_matched arr len ids) as [arr' len'].
  destruct (IH arr' len' (alerts ++ [chain_alert dur e c ids u k])) as [more ->]. exists (chain_alert dur e c ids u k :: more).
  by rewrite <- app_assoc.
Qed.

(** The first alert comes from the first rule that matches the window. *)
Lemma fire_loop_first dur e now cs fresh arr len :
  match list_find (fun c => is_Some (matchChain arr c now)) cs with
  | None => (fire_loop dur true e now cs fresh arr len []).2 = []
  | Some (_, c) => exists ids more, matchChain arr c now = Some ids /\
      (fire_loop dur true e now cs fresh arr len []).2 = chain_alert dur e c ids (fresh 0%nat).1 (fresh 0%nat).2 :: more
  end.
Proof.
  induction cs as [|c cs IH]; cbn [list_find fire_loop]; [done|]. destruct (decide (is_Some (matchChain arr c now))) as [[ids Hm]|Hn].
  - rewrite Hm. cbn [negb length]. destruct (fresh 0%nat) as [u k]. destruct (clear_matched arr len ids) as [arr' len'].
    destruct (fire_loop_alerts dur true e now cs fresh arr' len' ([] ++ [chain_alert dur e c ids u k])) as [more ->].
    by exists ids, more.
  - apply eq_None_not_Some in Hn. rewrite Hn. destruct (list_find _ cs) as [[i c']|]; simpl; exact IH.
Qed.

(** The stored slice only ever loses events. *)
Lemma clear_matched_sublist arr len ids : let r := clear_matched arr len ids in take r.2 r.1 `sublist_of` take len arr.
Proof. unfold clear_matched. simpl. rewrite take_app_length. apply sublist_filter. Qed.

Lemma fire_loop_sublist dur cb e now cs fresh : forall arr len alerts,
  let r := fire_loop dur cb e now cs fresh arr len alerts in take r.1.2 r.1.1 `sublist_of` take len arr.
Proof.
  induction cs as [|c cs IH]; intros arr len alerts; cbn [fire_loop]; [done|].
  destruct (matchChain arr c now) as [ids|]; [|apply IH]. destruct (negb cb); [apply IH|].
  destruct (fresh (length alerts)) as [u k]. pose proof (clear_matched_sublist arr len ids) as Hc.
  destruct (clear_matched arr len ids) as [arr' len']. cbn [fst snd] in Hc. etransitivity; [apply IH|exact Hc].
Qed.

(** An observation of an event with a source raises an alert exactly when
    some rule's sequence occurs in the source's window with the event; the first
    alert is that of the first such rule and names the events of an occurrence.
    The stored window keeps only events that were in it and are younger than the
    longest rule window, and other sources are untouched. *)
Theorem observe_spec (dur : Z -> string) (t : TemporalCorrelator) (e : NetworkEvent) (clock : gotime) (fresh : nat -> string * gotime) :
  ne_Source e <> "" -> event_type_string (ne_Type e) <> "THREAT_ALERT" -> hasCallback t = true ->
  let now := if time_IsZero (ne_Timestamp e) then clock else ne_Timestamp e in
  let window := trimmed_window t e now in
  let r := Observe dur t e clock fresh in
  match list_find (fun c => is_Some (matchChain window c now)) (chains t) with
  | None => r.2 = []
  | Some (_, c) => exists ids more, matchChain window c now = Some ids /\
      r.2 = chain_alert dur e c ids (fresh 0%nat).1 (fresh 0%nat).2 :: more
  end /\
  (exists w, windows r.1 !! ne_Source e = Some w /\ w `sublist_of` window) /\
  (forall src, src <> ne_Source e -> windows r.1 !! src = windows t !! src).
Proof.
  intros Hs Ht Hcb now window r. subst r. unfold Observe. rewrite bool_decide_eq_false_2 by done.
  unfold type_eqb. rewrite bool_decide_eq_false_2 by done. cbn [orb]. fold now. fold window. rewrite Hcb.
  pose proof (fire_loop_first dur e now (chains t) fresh window (length window)) as Hf.
  pose proof (fire_loop_sublist dur true e now (chains t) fresh window (length window) []) as Hsub.
  destruct (fire_loop dur true e now (chains t) fresh window (length window) []) as [[arr len] alerts].
  cbn [fst snd windows] in *. rewrite firstn_all in Hsub. split_and!; [done| |].
  - exists (take len arr). by rewrite lookup_insert_eq.
  - intros src Hne. by rewrite lookup_insert_ne.
Qed.

Module CorrelationDemo.
Definition dur (_ : Z) : string := "10m0s".
Definition fresh (n : nat) : string * gotime := (pretty.pretty (N.of_nat n), 999).
Definition ev (id : string) (t : EventType) (at_ : gotime) : NetworkEvent := mkNetworkEvent id t "10.0.0.5" "" ∅ at_ [] "".
Definition observe_all (t : TemporalCorrelator) (es : list NetworkEvent) : TemporalCorrelator * list NetworkEvent :=
  foldl (fun acc e => let '(t, alerts) := Observe dur acc.1 e 0 fresh in (t, acc.2 ++ alerts)) (t, []) es.
Definition alert_ids (a : NetworkEvent) : option gany := ne_Metadata a !! "chain_events".

Definition defaults : TemporalCorrelator := SetAlertCallback (NewTemporalCorrelator DefaultChains).
Definition t1 : TemporalCorrelator := (observe_all defaults [ev "a" EventARP 1000; ev "d" EventDNS 1001]).1.

Example scan_after_arp : alert_ids <$> (Observe dur t1 (ev "s" EventPortScan 1002) 0 fresh).2 = [Some (VStrings ["a"; "s"])].
Proof. vm_compute. reflexivity. Qed.

Lemma observe_spec_witness :
  let r := Observe dur t1 (ev "s" EventPortScan 1002) 0 fresh in
  exists w, windows r.1 !! "10.0.0.5" = Some w /\ w `sublist_of` trimmed_window t1 (ev "s" EventPortScan 1002) 1002.
Proof.
  destruct (observe_spec dur t1 (ev "s" EventPortScan 1002) 0 fresh) as (_ & Hw & _);
    [discriminate|discriminate|reflexivity|exact Hw].
Defined.

(** Two rules: a scan after an ARP event, and two Tor events. *)
Definition rules : list ChainRule :=
  [mkChainRule "SCAN" "T1" "HIGH" 1000 [EventARP; EventPortScan]; mkChainRule "TWICE" "T2" "HIGH" 1000 [EventTor; EventTor]].
Definition t2 : TemporalCorrelator := SetAlertCallback (NewTemporalCorrelator rules).
End CorrelationDemo.

(** The rules share one backing array: after a rule fires, the array the next
    rules read has been overwritten, and a single event can be matched twice.  Of
    three events with distinct identifiers, one of them a Tor event, the rule that
    asks for two Tor events fires and names the one event twice. *)
Theorem shared_window_duplicates_event :
  let es := [CorrelationDemo.ev "a" EventARP 100; CorrelationDemo.ev "t" EventTor 101; CorrelationDemo.ev "s" EventPortScan 102] in
  CorrelationDemo.alert_ids <$> (CorrelationDemo.observe_all CorrelationDemo.t2 es).2
  = [Some (VStrings ["a"; "s"]); Some (VStrings ["t"; "t"])].
Proof. vm_compute. reflexivity. Qed.
