(* ===== verification/Pipeline.v ===== *)
(** * The event pipeline

    internal/events/pipeline.go: what [PushNetworkEvent] does with an event, in
    order.  An event's [Metadata] is a Go map, shared by every copy of the event,
    so maps live in a heap and an event in flight holds a location.  What the
    pipeline hands to its sinks is a list of effects; the sinks that run later
    (the WebSocket hub, topology, correlation, observers) receive the event with
    its location. *)
From stdpp Require Import base list strings gmap.
From Stdlib Require Import ZArith Lia Bool.
From S2P Require Import Prelude Models Bolt Sha256 MerkleHash MerkleProofs TransparencyLog Pki EventSigning.
Local Open Scope string_scope.
Local Open Scope list_scope.
Local Open Scope Z_scope.

(** An event in flight; [pe_Metadata] is [None] for a nil map, which reads as the
    empty one. *)
Record pevent := mkPEvent {
  pe_ID : string; pe_Type : EventType; pe_Source : string; pe_Destination : string; pe_Metadata : option nat;
  pe_Timestamp : gotime; pe_Signature : bytes; pe_SignerKeyID : string }.

Abbreviation maps := (gmap nat (gmap string gany)) (only parsing).

(** The event as a reader sees it now. *)
Definition view (h : maps) (e : pevent) : NetworkEvent :=
  mkNetworkEvent (pe_ID e) (pe_Type e) (pe_Source e) (pe_Destination e)
    (default ∅ (match pe_Metadata e with Some l => h !! l | None => None end))
    (pe_Timestamp e) (pe_Signature e) (pe_SignerKeyID e).

(** ** Classification *)

Definition meta_string (m : gmap string gany) (k : string) : string := match m !! k with Some (VString s) => s | _ => "" end.
Definition meta_bool (m : gmap string gany) (k : string) : bool := match m !! k with Some (VBool b) => b | _ => false end.

Definition isCriticalEvent (e : NetworkEvent) : bool :=
  let t := event_type_string (ne_Type e) in
  if bool_decide (t = "THREAT_ALERT") then true
  else if bool_decide (t = "COMPLIANCE") then
    let sev := meta_string (ne_Metadata e) "compliance_severity" in
    let passed := meta_bool (ne_Metadata e) "compliance_passed" in
    negb passed && (bool_decide (sev = "block") || bool_decide (sev = "critical") || bool_decide (sev = "high"))
  else false.

Definition transparencyKind (t : EventType) : string :=
  let s := event_type_string t in
  if bool_decide (s = "THREAT_ALERT") then "alert.high"
  else if bool_decide (s = "COMPLIANCE") then "compliance.violation"
  else "event." +:+ s.

Definition spectreNetworkSubject (t : EventType) : string :=
  let s := event_type_string t in
  if bool_decide (s = "DNS") then "network.dns.query.v1"
  else if bool_decide (s = "PORT_SCAN") || bool_decide (s = "PROXY") then "network.service.detected.v1"
  else if bool_decide (s = "THREAT_ALERT") then "network.dns.threat.v1"
  else if bool_decide (s = "COMPLIANCE") then "neotron.compliance.siem.v1"
  else "network.asset.discovered.v1".

(** ** Effects *)

(** The NATS envelope. *)
Record Envelope := mkEnvelope {
  EventID : string; en_EventType : string; en_Timestamp : gotime; SourceService : string; Payload_ : gmap string gany }.

Inductive effect :=
| Persisted (e : NetworkEvent)
| Broadcast (e : pevent)
| Published (subject : string) (env : Envelope)
| ToTopology (e : pevent)
| ToEngine (e : pevent)
| ToObserver (e : pevent)
| ToChains (e : pevent).

(** Asset effects, in the order of the calls. *)
Inductive asset_effect :=
| SaveAsset (a : Asset)
| BroadcastAsset (kind : string) (a : Asset) (now : gotime)
| OnAsset (a : Asset)
| PublishAsset (subject id kind : string) (now : gotime) (a : Asset).

Definition when {A} (b : bool) (x : A) : list A := if b then [x] else [].

Section Pipeline.
Context {S store : Type} `{KeyStore S} `{Ed25519} `{JSON NetworkEvent} `{Bolt store} `{JSON Leaf}.

(** The installed sinks; [enrich] may update the map of the event it is given. *)
Record Pipeline := mkPipeline {
  p_stream : option (maps -> pevent -> maps * pevent); p_signer : option S; p_transparency : bool; p_repo : bool; p_hub : bool;
  p_pub : bool; p_topology : bool; p_engine : bool; p_observer : bool; p_chains : bool }.

Definition hydrate (e : pevent) (uuid : string) (now : gotime) : pevent :=
  mkPEvent (if bool_decide (pe_ID e = "") then uuid else pe_ID e) (pe_Type e) (pe_Source e) (pe_Destination e) (pe_Metadata e)
    (if time_IsZero (pe_Timestamp e) then now else pe_Timestamp e) (pe_Signature e) (pe_SignerKeyID e).

(** [signer.Sign(&e)]: only the signature fields of the event change. *)
Definition sign_in_place (s : S) (h : maps) (e : pevent) : pevent :=
  match Signer_Sign s (Some (view h e)) with
  | (Some e', _) =>
      mkPEvent (pe_ID e) (pe_Type e) (pe_Source e) (pe_Destination e) (pe_Metadata e) (pe_Timestamp e)
        (ne_Signature e') (ne_SignerKeyID e')
  | (None, _) => e
  end.

(** The append of a critical event; errors are logged only. *)
Definition append_critical (t : Tree store) (h : maps) (e : pevent) (now : gotime) : Tree store :=
  if isCriticalEvent (view h e) then
    match CanonicalBytes Marshal (view h e) with
    | None => t
    | Some canonical => (AppendBytes t (go_bytes (transparencyKind (pe_Type e))) canonical (pe_Timestamp e) now).1
    end
  else t.

(** The payload of the envelope is the event's own map, or a new one when it is
    nil; source and destination are written into it. *)
Definition publish (h : maps) (e : pevent) (fresh : nat) : maps * effect :=
  let l := match pe_Metadata e with Some l => l | None => fresh end in
  let m := match pe_Metadata e with Some l => default ∅ (h !! l) | None => ∅ end in
  let m := <["destination" := VString (pe_Destination e)]> (<["source" := VString (pe_Source e)]> m) in
  (<[l := m]> h, Published (spectreNetworkSubject (pe_Type e))
     (mkEnvelope (pe_ID e) (event_type_string (pe_Type e)) (pe_Timestamp e) "SIEM" m)).

(** Steps 1 and 1b: defaults, then the enricher. *)
Definition prepare (p : Pipeline) (h : maps) (e : pevent) (uuid : string) (now : gotime) : maps * pevent :=
  let e := hydrate e uuid now in
  match p_stream p with Some enrich => enrich h e | None => (h, e) end.

Definition PushNetworkEvent (p : Pipeline) (h : maps) (t : Tree store) (e : pevent) (uuid : string) (now : gotime) (fresh : nat)
  : maps * Tree store * list effect :=
  let '(h, e) := prepare p h e uuid now in
  let e := match p_signer p with Some s => sign_in_place s h e | None => e end in
  let t := if p_transparency p then append_critical t h e now else t in
  let e1 := when (p_repo p) (Persisted (view h e)) in
  let e2 := when (p_hub p) (Broadcast e) in
  let '(h, e3) := if p_pub p then let '(h, x) := publish h e fresh in (h, [x]) else (h, []) in
  let notAlert := negb (bool_decide (event_type_string (pe_Type e) = "THREAT_ALERT")) in
  (h, t, e1 ++ e2 ++ e3 ++ when (p_topology p && notAlert) (ToTopology e) ++ when (p_engine p && notAlert) (ToEngine e) ++
         when (p_observer p && notAlert) (ToObserver e) ++ when (p_chains p && notAlert) (ToChains e)).

(** [PushAsset]: the asset saved, broadcast, given to topology and published. *)
Definition hydrate_asset (a : Asset) (uuid : string) (now : gotime) : Asset :=
  mkAsset (if bool_decide (as_ID a = "") then uuid else as_ID a) (as_IP a) (as_MAC a) (as_Hostname a) (as_OS a) (as_Ports a)
    (if time_IsZero (as_FirstSeen a) then now else as_FirstSeen a) now.

Definition PushAsset (p : Pipeline) (a : Asset) (uuid : string) (now : gotime) : list asset_effect :=
  let a := hydrate_asset a uuid now in
  when (p_repo p) (SaveAsset a) ++ when (p_hub p) (BroadcastAsset "ASSET_DISCOVERY" a now) ++
  when (p_topology p) (OnAsset a) ++ when (p_pub p) (PublishAsset "network.topology.updated.v1" (as_ID a) "TOPOLOGY_UPDATE" now a).

(** ** What is recorded *)

Context `{!KeyStoreLaws S} `{!Ed25519Laws} `{!BoltLaws store} `{!JSONLaws Leaf}.

Lemma view_sign_in_place s h e :
  view h (sign_in_place s h e) =
  match Signer_Sign s (Some (view h e)) with
  | (Some e', _) => set_signature (view h e) (ne_Signature e') (ne_SignerKeyID e')
  | (None, _) => view h e
  end.
Proof. unfold sign_in_place. by destruct (Signer_Sign s _) as [[e'|] ?]. Qed.

Lemma sign_in_place_type s h e : pe_Type (sign_in_place s h e) = pe_Type e.
Proof. unfold sign_in_place. by destruct (Signer_Sign s _) as [[e'|] ?]. Qed.

Lemma sign_in_place_time s h e : pe_Timestamp (sign_in_place s h e) = pe_Timestamp e.
Proof. unfold sign_in_place. by destruct (Signer_Sign s _) as [[e'|] ?]. Qed.

Lemma sign_in_place_meta s h e : pe_Metadata (sign_in_place s h e) = pe_Metadata e.
Proof. unfold sign_in_place. by destruct (Signer_Sign s _) as [[e'|] ?]. Qed.

(** The signer succeeds when a key is active and the event can be encoded. *)
Lemma sign_succeeds s e kp canonical :
  ActiveKey s PurposeEventSigning = ROk kp -> CanonicalBytes Marshal e = Some canonical ->
  Signer_Sign s (Some e) = (Some (set_signature e (Sign (kp_Private kp) canonical) (kp_ID kp)), None).
Proof. intros Ha Hc. unfold Signer_Sign. by rewrite Ha, canonical_set_signature, Hc. Qed.

(** Signing in place is the signer's result, seen through the heap. *)
Lemma view_signed s h e kp canonical :
  ActiveKey s PurposeEventSigning = ROk kp -> CanonicalBytes Marshal (view h e) = Some canonical ->
  Signer_Sign s (Some (view h e)) = (Some (view h (sign_in_place s h e)), None).
Proof. intros Ha Hc. rewrite view_sign_in_place. by rewrite (sign_succeeds _ _ _ _ Ha Hc). Qed.

Lemma active_key_inv s kp :
  keys_wf (ks_keys s) -> ActiveKey s PurposeEventSigning = ROk kp ->
  ks_keys s !! kp_ID kp = Some kp /\ kp_Purpose kp = PurposeEventSigning /\ kp_Status kp = StatusKeyActive.
Proof.
  intros Hwf Ha. pose proof (ks_Active_spec s PurposeEventSigning) as Hact. unfold ActiveKey in Ha. rewrite Ha in Hact.
  destruct Hact as (? & ? & id0 & Hid0). by rewrite (wf_ids _ Hwf _ _ Hid0).
Qed.

(** Classification does not look at the signature. *)
Lemma critical_signed s h e : isCriticalEvent (view h (sign_in_place s h e)) = isCriticalEvent (view h e).
Proof. rewrite view_sign_in_place. by destruct (Signer_Sign s _) as [[e'|] ?]. Qed.

Lemma canonical_signed s h e : CanonicalBytes Marshal (view h (sign_in_place s h e)) = CanonicalBytes Marshal (view h e).
Proof. rewrite view_sign_in_place. by destruct (Signer_Sign s _) as [[e'|] ?]. Qed.

(** The leaf of a critical event. *)
Definition critical_leaf (e : pevent) (canonical : bytes) (now : gotime) : Leaf :=
  mkLeaf (transparencyKind (pe_Type e)) (if time_IsZero (pe_Timestamp e) then now else pe_Timestamp e) canonical.

(** The append of a critical event: one leaf more, or the log as it was. *)
Lemma append_critical_step t ls h e canonical now :
  represents t ls -> Z.of_nat (length ls) + 1 < 2 ^ 63 -> json_ok (critical_leaf e canonical now) ->
  isCriticalEvent (view h e) = true -> CanonicalBytes Marshal (view h e) = Some canonical ->
  represents (append_critical t h e now) (ls ++ [critical_leaf e canonical now]) \/
  represents (append_critical t h e now) ls /\
    exists err, (AppendBytes t (go_bytes (transparencyKind (pe_Type e))) canonical (pe_Timestamp e) now).2 = RErr err.
Proof.
  intros Hr Hl Hok Hcrit Hc. unfold append_critical. rewrite Hcrit, Hc. unfold AppendBytes. rewrite go_bytes_string.
  destruct (Append t _) as [t' r] eqn:Ha. simpl. pose proof (append_step _ _ _ _ _ Hr Hl Hok Ha) as Hs.
  destruct r as [idx|err|]; [left; by destruct Hs|right; split; [done|by exists err]|done].
Qed.

(** A log that gained a leaf serves an inclusion proof of it under its new root. *)
Lemma last_leaf_included t ls leaf :
  represents t (ls ++ [leaf]) ->
  exists proof, Tree_InclusionProof t (Z.of_nat (length ls)) (Z.of_nat (length ls) + 1) = ROk proof /\
    VerifyInclusion (HashLeaf (Payload leaf)) (Z.of_nat (length ls)) (Z.of_nat (length ls) + 1) proof = Root t.
Proof.
  intros Hr. pose proof (represents_length _ _ Hr) as Hlen. rewrite length_app in Hlen. simpl in Hlen.
  destruct (served_inclusion t (ls ++ [leaf]) (Z.of_nat (length ls)) (Z.of_nat (length ls) + 1) Hr)
    as (leaf' & proof & root & Hleaf & _ & Hp & Hroot & Hv); [lia|unfold Size; lia|].
  rewrite Nat2Z.id, list_lookup_middle in Hleaf by done. assert (leaf' = leaf) as -> by congruence.
  exists proof. split; [done|]. rewrite Hv. rewrite (Root_represents _ _ Hr).
  rewrite RootAt_take in Hroot by (unfold Size; lia). rewrite take_ge in Hroot by lia. congruence.
Qed.

(** C8: A critical event is accounted for end to end: what is written to the event
    store verifies against the signing key, and the transparency log either
    gains one leaf carrying exactly the bytes that were signed, with an
    inclusion proof that verifies under the new root, or, when the write to the
    log failed (the error is only logged), is unchanged. *)
Theorem critical_event_accounted (p : Pipeline) (s : S) (h h1 h2 : maps) (t t' : Tree store) (ls : list Leaf)
    (e e1 : pevent) (uuid : string) (now : gotime) (fresh : nat) (kp : KeyPair) (canonical : bytes) (effs : list effect) :
  p_signer p = Some s -> p_transparency p = true -> p_repo p = true ->
  keys_wf (ks_keys s) -> ActiveKey s PurposeEventSigning = ROk kp -> genuine kp -> kp_ID kp <> "" -> now <= kp_NotAfter kp ->
  represents t ls -> Z.of_nat (length ls) + 1 < 2 ^ 63 ->
  prepare p h e uuid now = (h1, e1) -> isCriticalEvent (view h1 e1) = true ->
  CanonicalBytes Marshal (view h1 e1) = Some canonical -> json_ok (critical_leaf e1 canonical now) ->
  PushNetworkEvent p h t e uuid now fresh = (h2, t', effs) ->
  (exists stored rest, effs = Persisted stored :: rest /\ Verifier_Verify s now stored = None /\
     CanonicalBytes Marshal stored = Some canonical) /\
  ((represents t' (ls ++ [critical_leaf e1 canonical now]) /\
    exists proof, Tree_InclusionProof t' (Z.of_nat (length ls)) (Z.of_nat (length ls) + 1) = ROk proof /\
      VerifyInclusion (HashLeaf canonical) (Z.of_nat (length ls)) (Z.of_nat (length ls) + 1) proof = Root t') \/
   (represents t' ls /\ exists err,
      (AppendBytes t (go_bytes (transparencyKind (pe_Type e1))) canonical (pe_Timestamp e1) now).2 = RErr err)).
Proof.
  intros Hsig Htr Hrepo Hwf Ha Hgen Hid Hnow Hr Hl Hprep Hcrit Hc Hok Hpush.
  unfold PushNetworkEvent in Hpush. rewrite Hprep, Hsig, Htr, Hrepo in Hpush.
  set (e2 := sign_in_place s h1 e1) in *.
  assert (t' = append_critical t h1 e2 now /\ exists rest, effs = Persisted (view h1 e2) :: rest) as [-> [rest ->]].
  { destruct (p_pub p); [destruct (publish h1 e2 fresh) as [h3 x]|]; injection Hpush as <- <- <-; (split; [done|by eexists]). }
  split.
  - exists (view h1 e2), rest. split; [done|]. subst e2. rewrite canonical_signed. split; [|done].
    destruct (active_key_inv s kp Hwf Ha) as (Hk & Hp & Hst).
    eapply (signed_verifies s s (view h1 e1)); [done|done|done|done|by eapply view_signed|done|done|done| |done].
    by rewrite Hst.
  - assert (critical_leaf e2 canonical now = critical_leaf e1 canonical now) as Hleaf.
    { unfold critical_leaf. subst e2. by rewrite sign_in_place_type, sign_in_place_time. }
    destruct (append_critical_step t ls h1 e2 canonical now) as [Hn|Hn]; try done;
      [by rewrite Hleaf|subst e2; by rewrite critical_signed|subst e2; by rewrite canonical_signed|left|right].
    + rewrite Hleaf in Hn. split; [done|]. apply (last_leaf_included _ _ (critical_leaf e1 canonical now) Hn).
    + subst e2. by rewrite sign_in_place_type, sign_in_place_time in Hn.
Qed.

(** ** What later sinks see *)

(** Publishing writes into the map that the event shares with every sink: once
    the push returns, the event queued for the WebSocket clients and the one
    given to the correlation engine read with a source and a destination entry
    in their metadata, while the event store and the signature have the metadata
    without them. *)
Theorem publishing_rewrites_shared_event (p : Pipeline) (h h1 h2 : maps) (t t' : Tree store)
    (e e1 : pevent) (uuid : string) (now : gotime) (fresh l : nat) (m : gmap string gany) (effs : list effect) :
  p_repo p = true -> p_hub p = true -> p_pub p = true -> p_engine p = true ->
  prepare p h e uuid now = (h1, e1) -> pe_Metadata e1 = Some l -> h1 !! l = Some m -> m !! "source" = None ->
  event_type_string (pe_Type e1) <> "THREAT_ALERT" ->
  PushNetworkEvent p h t e uuid now fresh = (h2, t', effs) ->
  exists stored shared,
    Persisted stored ∈ effs /\ Broadcast shared ∈ effs /\ ToEngine shared ∈ effs /\
    ne_Metadata stored = m /\ ne_Signature (view h2 shared) = ne_Signature stored /\
    ne_Metadata (view h2 shared) =
      <["destination" := VString (pe_Destination shared)]> (<["source" := VString (pe_Source shared)]> m) /\
    view h2 shared <> stored.
Proof.
  intros Hrepo Hhub Hpub Heng Hprep Hm Hl Hsrc Hty Hpush.
  unfold PushNetworkEvent in Hpush. rewrite Hprep, Hrepo, Hhub, Hpub, Heng in Hpush.
  set (e2 := match p_signer p with Some s => sign_in_place s h1 e1 | None => e1 end) in *.
  assert (pe_Metadata e2 = Some l) as Hm2 by (subst e2; destruct (p_signer p); [by rewrite sign_in_place_meta|done]).
  assert (pe_Type e2 = pe_Type e1) as Ht2 by (subst e2; destruct (p_signer p); [by rewrite sign_in_place_type|done]).
  clearbody e2. unfold publish in Hpush. rewrite Hm2, Hl, Ht2, bool_decide_eq_false_2 in Hpush by done.
  cbn [default negb andb when from_option id app] in Hpush. simplify_eq.
  exists (view h1 e2), e2. rewrite !elem_of_cons, !elem_of_app.
  assert (forall h', h' !! l = Some m -> ne_Metadata (view h' e2) = m) as Hread.
  { intros h' Hh'. unfold view. simpl. by rewrite Hm2, Hh'. }
  set (m' := <["destination" := _]> _).
  assert (ne_Metadata (view (<[l:=m']> h1) e2) = m') as Hnew.
  { unfold view. simpl. by rewrite Hm2, lookup_insert_eq. }
  split_and!; [by left|by right; left| |by apply Hread|done|done|].
  - right. right. right. destruct (p_topology p); simpl; set_solver.
  - intros Heq. rewrite Heq, (Hread h1 Hl) in Hnew. subst m'. rewrite Hnew in Hsrc.
    rewrite lookup_insert_ne, lookup_insert_eq in Hsrc by done. done.
Qed.
End Pipeline.

(** ** A threat alert and a DNS event *)

Module PipelineDemo.
Import MapBolt TransparencyLog.Demo PkiDemo.

(** An encoding that carries the metadata keys, standing for JSON. *)
#[local] Instance event_json : JSON NetworkEvent := {
  Marshal e := Some (go_bytes (ne_ID e +:+ "|" +:+ event_type_string (ne_Type e) +:+ "|" +:+ ne_Source e +:+ "|" +:+
                               String.concat "," (map_to_list (ne_Metadata e)).*1));
  Unmarshal _ := None;
  json_ok _ := False;
}.

Definition all_sinks : Pipeline := mkPipeline None (Some store1) true true true true true true true true.
Definition heap0 : gmap nat (gmap string gany) := {[ 0%nat := {[ "query" := VString "example.org" ]} ]}.
Definition alert : pevent := mkPEvent "" EventAlert "10.0.0.5" "8.8.8.8" (Some 0%nat) 0 [] "".
Definition dns : pevent := mkPEvent "d1" EventDNS "10.0.0.5" "8.8.8.8" (Some 0%nat) 120 [] "".
Definition pushed (e : pevent) := PushNetworkEvent all_sinks heap0 tree0 e "u1" 150 1.
Definition alert1 : pevent := hydrate alert "u1" 150.
Definition alert_bytes : bytes := default [] (CanonicalBytes Marshal (view heap0 alert1)).

Lemma critical_event_accounted_witness :
  (exists stored rest, (pushed alert).2 = Persisted stored :: rest /\ Verifier_Verify store1 150 stored = None /\
     CanonicalBytes Marshal stored = Some alert_bytes) /\
  ((represents (pushed alert).1.2 ([] ++ [critical_leaf alert1 alert_bytes 150]) /\
    exists proof, Tree_InclusionProof (pushed alert).1.2 0 1 = ROk proof /\
      VerifyInclusion (HashLeaf alert_bytes) 0 1 proof = Root (pushed alert).1.2) \/
   (represents (pushed alert).1.2 [] /\ exists err,
      (AppendBytes tree0 (go_bytes (transparencyKind EventAlert)) alert_bytes 150 150).2 = RErr err)).
Proof.
  apply (critical_event_accounted all_sinks store1 heap0 heap0 (pushed alert).1.1 tree0 (pushed alert).1.2 []
           alert alert1 "u1" 150 1 key1 alert_bytes (pushed alert).2);
    [done|done|done|apply store1_wf|vm_compute; reflexivity|by exists [7]|done|done|apply tree0_represents|done
    |reflexivity|reflexivity|reflexivity| |].
  - vm_compute. split; [reflexivity|split; [discriminate|reflexivity]].
  - fold (pushed alert). by destruct (pushed alert) as [[? ?] ?].
Defined.

(** The log does gain the leaf. *)
Example alert_logged : length (hashes (pushed alert).1.2) = 1%nat.
Proof. vm_compute. reflexivity. Qed.

Lemma publishing_rewrites_shared_event_witness :
  exists stored shared,
    Persisted stored ∈ (pushed dns).2 /\ Broadcast shared ∈ (pushed dns).2 /\ ToEngine shared ∈ (pushed dns).2 /\
    ne_Metadata stored = {[ "query" := VString "example.org" ]} /\
    ne_Signature (view (pushed dns).1.1 shared) = ne_Signature stored /\
    ne_Metadata (view (pushed dns).1.1 shared) =
      <["destination" := VString (pe_Destination shared)]>
        (<["source" := VString (pe_Source shared)]> {[ "query" := VString "example.org" ]}) /\
    view (pushed dns).1.1 shared <> stored.
Proof.
  apply (publishing_rewrites_shared_event all_sinks heap0 heap0 (pushed dns).1.1 tree0 (pushed dns).1.2
           dns dns "u1" 150 1 0 _ (pushed dns).2);
    [done|done|done|done|reflexivity|reflexivity|reflexivity|reflexivity|done|].
  fold (pushed dns). by destruct (pushed dns) as [[? ?] ?].
Defined.

(** A client that verifies the broadcast event rejects it, although the stored
    copy verifies. *)
Example broadcast_fails_verification :
  match (pushed dns).2 with
  | Persisted stored :: Broadcast e :: _ =>
      Verifier_Verify store1 150 stored = None /\
      Verifier_Verify store1 150 (view (pushed dns).1.1 e) = Some ErrSignatureInvalid
  | _ => False
  end.
Proof. vm_compute. split; reflexivity. Qed.
End PipelineDemo.
