(* ===== verification/Reliability.v ===== *)
(** * Retries with backoff

    internal/reliability/backoff.go: the delay generator and the retry loop, and
    the error classification of breaker.go.  An execution of the environment is
    a function from the round number to what the loop observes in that round:
    the context's error, the result of the wrapped call, the random draw and
    whether the context ends during the sleep.  The loop takes fuel; the theorems
    say when and with how much fuel it returns. *)
From stdpp Require Import base list strings.
From Stdlib Require Import ZArith Lia Bool.
From S2P Require Import Prelude.
Local Open Scope string_scope.
Local Open Scope Z_scope.

(** ** Errors *)

Inductive goerror :=
| ErrCanceled                          (* context.Canceled *)
| ErrDeadlineExceeded                  (* context.DeadlineExceeded *)
| ErrRetryBudgetExhausted
| ErrOther (msg : string)
| ErrWrapped (msg : string) (inner : goerror)    (* fmt.Errorf with %w *)
| retryError (last : goerror).

(** [errors.Is]: the error itself or one it unwraps to; [retryError] also
    answers to its own sentinel. *)
Fixpoint errors_Is (e target : goerror) : bool :=
  match e, target with
  | ErrCanceled, ErrCanceled | ErrDeadlineExceeded, ErrDeadlineExceeded
  | ErrRetryBudgetExhausted, ErrRetryBudgetExhausted => true
  | ErrWrapped _ inner, _ => errors_Is inner target
  | retryError last, ErrRetryBudgetExhausted => true
  | retryError last, _ => errors_Is last target
  | _, _ => false
  end.

(** breaker.go: the errors that do not count as failures. *)
Definition IsExcluded (e : goerror) : bool := errors_Is e ErrCanceled || errors_Is e ErrDeadlineExceeded.

(** ** Delays *)

(** The default factor, 2.0; durations below 2^53 ns, which [float64] holds
    exactly, so the product with a power of two is exact too. *)
Record Backoff := mkBackoff { base : Z; cap : Z; attempt : Z }.

(** [None] is the panic. *)
Definition NewBackoff (base cap : Z) : option Backoff :=
  if (base <=? 0) || (cap <=? 0) || (cap <? base) then None else Some (mkBackoff base cap 0).

(** [rand.Int63n]: the accepted draw modulo the bound. *)
Definition Int63n (draw n : Z) : Z := draw mod n.

Definition sampleJitter (draw max : Z) : Z := if max <=? 0 then 0 else Int63n draw max.

Definition Next (b : Backoff) (draw : Z) : Backoff * Z :=
  let exp := base b * 2 ^ attempt b in
  let exp := if cap b <? exp then cap b else exp in
  (mkBackoff (base b) (cap b) (attempt b + 1), sampleJitter draw exp).

Definition Reset (b : Backoff) : Backoff := mkBackoff (base b) (cap b) 0.
Definition Attempt (b : Backoff) : Z := attempt b.

(** ** The retry loop *)

(** What one round observes; [r_done] is the context's error if it ends before
    the timer does. *)
Record round := mkRound { r_ctx : option goerror; r_fn : option goerror; r_draw : Z; r_done : option goerror }.

Definition wait (d : Z) (done_ : option goerror) : option goerror := if d <=? 0 then None else done_.

(** The loop returns in this branch. *)
Ltac ends := eexists; split; [intros; reflexivity|]; simpl; split; [lia|split; [done|by split; [|intros []]]].

Section Retry.
Context (env : nat -> round).

(** The loop from round [i]: the backoff after it, the number of calls made and
    the result; no answer when the fuel runs out. *)
Fixpoint retry_loop (fuel : nat) (b : Backoff) (attempts : Z) (i : nat) (lastErr : option goerror)
  : option (Backoff * nat * option goerror) :=
  match fuel with
  | O => None
  | S fuel =>
      let budget := Some (b, i, Some match lastErr with None => ErrRetryBudgetExhausted | Some e => retryError e end) in
      if (attempts =? 0) || (Z.of_nat i <? attempts) then
        match r_ctx (env i) with
        | Some err => Some (b, i, Some err)
        | None =>
            match r_fn (env i) with
            | None => Some (b, S i, None)
            | Some e =>
                if errors_Is e ErrCanceled then Some (b, S i, Some e)
                else if (0 <? attempts) && (Z.of_nat i =? attempts - 1) then Some (b, S i, Some (retryError e))
                else
                  let '(b, d) := Next b (r_draw (env i)) in
                  match wait d (r_done (env i)) with
                  | Some err => Some (b, S i, Some err)
                  | None => retry_loop fuel b attempts (S i) (Some e)
                  end
            end
        end
      else budget
  end.

Definition Retry (fuel : nat) (b : Backoff) (attempts : Z) : option (Backoff * nat * option goerror) :=
  retry_loop fuel b attempts 0 None.

(** ** Facts *)

Definition backoff_wf (b : Backoff) : Prop := 0 < base b <= cap b /\ 0 <= attempt b.

(** Round [i] fails in a way that is retried: the context is alive, the call
    fails with an error that is not a cancellation, and the sleep that follows,
    from backoff [b], is not interrupted. *)
Definition retried (b : Backoff) (i : nat) : Prop :=
  r_ctx (env i) = None /\ (exists e, r_fn (env i) = Some e /\ errors_Is e ErrCanceled = false) /\
  wait (Next b (r_draw (env i))).2 (r_done (env i)) = None.

(** The backoff after [n] retried rounds. *)
Definition after (b : Backoff) (n : nat) : Backoff := mkBackoff (base b) (cap b) (attempt b + Z.of_nat n).

Lemma next_after b n d : (Next (after b n) d).1 = after b (S n).
Proof. unfold Next, after. simpl. f_equal. lia. Qed.

Lemma after_0 b : after b 0 = b.
Proof. destruct b. unfold after. simpl. f_equal. lia. Qed.

(** A retried round that is not the last of the budget continues. *)
Lemma retry_loop_continue fuel b attempts i e last :
  retried b i -> (attempts = 0 \/ Z.of_nat i + 1 < attempts) -> r_fn (env i) = Some e ->
  retry_loop (S fuel) b attempts i last = retry_loop fuel (Next b (r_draw (env i))).1 attempts (S i) (Some e).
Proof.
  intros (Hc & (e' & He & Hn) & Hw) Hin Hf. assert (e' = e) as -> by congruence. cbn [retry_loop].
  rewrite (proj2 (orb_true_iff _ _)) by (destruct Hin; [left; by apply Z.eqb_eq|right; by apply Z.ltb_lt; lia]).
  rewrite Hc, Hf, Hn. rewrite (proj2 (andb_false_iff _ _)).
  2:{ destruct Hin; [left; by apply Z.ltb_ge; lia|right; by apply Z.eqb_neq; lia]. }
  destruct (Next b (r_draw (env i))) as [b' d]. simpl in Hw. by rewrite Hw.
Qed.

(** A round inside the budget that is not retried, or that is the last of the
    budget, ends the loop, whatever the fuel and whatever failed before. *)
Lemma retry_loop_stop b attempts i :
  (attempts = 0 \/ Z.of_nat i < attempts) -> ~ retried b i \/ Z.of_nat i = attempts - 1 ->
  exists r, (forall fuel last, retry_loop (S fuel) b attempts i last = Some r) /\ (r.1.2 <= S i)%nat /\
    (r_ctx (env i) <> None -> r.1.2 = i) /\ (r.2 = None <-> r_ctx (env i) = None /\ r_fn (env i) = None).
Proof.
  intros Hin Hstop. cbn [retry_loop].
  assert ((attempts =? 0) || (Z.of_nat i <? attempts) = true) as ->.
  { apply orb_true_iff. destruct Hin; [left; by apply Z.eqb_eq|right; by apply Z.ltb_lt]. }
  destruct (r_ctx (env i)) as [c|] eqn:Hc; [ends|].
  destruct (r_fn (env i)) as [e|] eqn:Hf; [|ends].
  destruct (errors_Is e ErrCanceled) eqn:He; [ends|].
  destruct (_ && _) eqn:Hlast; [ends|].
  destruct (Next b (r_draw (env i))) as [b' d] eqn:Hnext.
  destruct (wait d (r_done (env i))) as [w|] eqn:Hw; [ends|].
  exfalso. destruct Hstop as [Hr|Hl].
  - destruct Hr. split; [done|]. split; [by exists e|]. by rewrite Hnext.
  - apply andb_false_iff in Hlast as [?%Z.ltb_ge|?%Z.eqb_neq]; lia.
Qed.

(** Whether a round is retried can be decided. *)
Lemma retried_dec b i : Decision (retried b i).
Proof.
  unfold retried. destruct (r_ctx (env i)) as [c|]; [right; by intros []|].
  destruct (r_fn (env i)) as [e|]; [|right; by intros (_ & (? & ? & _) & _)].
  destruct (errors_Is e ErrCanceled) eqn:He; [right; intros (_ & (? & ? & ?) & _); congruence|].
  destruct (wait _ _) as [w|]; [right; by intros (_ & _ & ?)|]. left. split; [done|]. split; [|done]. by exists e.
Qed.

Lemma retried_fails b i : retried b i -> exists e, r_fn (env i) = Some e.
Proof. intros (_ & (e & ? & _) & _). by exists e. Qed.

(** After [n] retried rounds inside the budget the loop is at round [n]. *)
Lemma retry_loop_skip attempts n : forall fuel b i last,
  (forall k, (k < n)%nat -> retried (after b k) (i + k)) ->
  (attempts = 0 \/ Z.of_nat (i + n) < attempts) ->
  exists last', retry_loop (n + fuel) b attempts i last = retry_loop fuel (after b n) attempts (i + n) last'.
Proof.
  induction n as [|n IH]; intros fuel b i last Hr Hin.
  - exists last. rewrite Nat.add_0_r, after_0. done.
  - pose proof (Hr 0%nat ltac:(lia)) as H0. rewrite Nat.add_0_r, after_0 in H0.
    destruct (retried_fails _ _ H0) as [e He]. cbn [plus].
    assert (attempts = 0 \/ Z.of_nat i + 1 < attempts) as Hin0 by (destruct Hin; [by left|right; lia]).
    rewrite (retry_loop_continue _ _ _ _ e) by done.
    destruct (IH fuel (Next b (r_draw (env i))).1 (S i) (Some e)) as [last' Hl].
    + intros k Hk. replace (S i + k)%nat with (i + S k)%nat by lia.
      replace (after (Next b (r_draw (env i))).1 k) with (after b (S k)); [apply Hr; lia|].
      unfold after, Next. simpl. f_equal. lia.
    + destruct Hin; [by left|right; lia].
    + exists last'. rewrite Hl. f_equal; [|lia]. unfold after, Next. simpl. f_equal. lia.
Qed.

(** The first of [n] rounds that is not retried, if there is one. *)
Lemma first_stop b n :
  (forall k, (k < n)%nat -> retried (after b k) k) \/
  exists m, (m < n)%nat /\ (forall k, (k < m)%nat -> retried (after b k) k) /\ ~ retried (after b m) m.
Proof.
  induction n as [|n [Hall|(m & Hm & Hk & Hs)]]; [left; lia| |right; exists m; split; [lia|done]].
  destruct (retried_dec (after b n) n) as [Hr|Hr]; [left|right; exists n; split; [lia|done]].
  intros k Hk. destruct (decide (k = n)) as [->|]; [done|]. apply Hall. lia.
Qed.

(** The loop reaches its stopping round and returns there. *)
Lemma retry_stops_at b attempts n :
  (attempts = 0 \/ Z.of_nat n < attempts) -> (forall k, (k < n)%nat -> retried (after b k) k) ->
  ~ retried (after b n) n \/ Z.of_nat n = attempts - 1 ->
  exists r, (forall fuel, (n < fuel)%nat -> Retry fuel b attempts = Some r) /\ (r.1.2 <= S n)%nat /\
    (r_ctx (env n) <> None -> r.1.2 = n) /\ (r.2 = None <-> r_ctx (env n) = None /\ r_fn (env n) = None).
Proof.
  intros Hin Hk Hstop. destruct (retry_loop_stop (after b n) attempts n Hin Hstop) as (r & Hr & Hc & Hc' & Hnil).
  exists r. split; [|done]. intros fuel Hf. unfold Retry.
  replace fuel with (n + S (fuel - n - 1))%nat by lia.
  destruct (retry_loop_skip attempts n (S (fuel - n - 1)) b 0 None) as [last ->]; [done|done|]. apply Hr.
Qed.

(** A call that succeeds is not retried. *)
Lemma retried_not_ok b i : retried b i -> r_fn (env i) <> None.
Proof. intros (_ & (e & ? & _) & _). congruence. Qed.

(** With a budget of [attempts] calls the retry loop always returns, within
    [attempts] rounds, having made at most [attempts] calls; it succeeds exactly
    when some call inside the budget succeeds and every earlier round was a
    retryable failure with a live context. *)
Theorem retry_within_budget (b : Backoff) (attempts : Z) :
  0 < attempts ->
  exists r, (forall fuel, (Z.to_nat attempts <= fuel)%nat -> Retry fuel b attempts = Some r) /\
    Z.of_nat r.1.2 <= attempts /\
    (r.2 = None <-> exists n, Z.of_nat n < attempts /\ (forall k, (k < n)%nat -> retried (after b k) k) /\
                      r_ctx (env n) = None /\ r_fn (env n) = None).
Proof.
  intros Ha.
  assert (exists n, Z.of_nat n < attempts /\ (forall k, (k < n)%nat -> retried (after b k) k) /\
            (~ retried (after b n) n \/ Z.of_nat n = attempts - 1)) as (n & Hn & Hk & Hstop).
  { destruct (first_stop b (Z.to_nat attempts)) as [Hall|(m & Hm & Hk & Hs)].
    - exists (Z.to_nat attempts - 1)%nat. split; [lia|]. split; [|right; lia]. intros k ?. apply Hall. lia.
    - exists m. split; [lia|]. by split; [|left]. }
  destruct (retry_stops_at b attempts n) as (r & Hr & Hc & Hc' & Hnil); [by right|done|done|].
  exists r. split; [intros fuel Hf; apply Hr; lia|]. split; [lia|]. rewrite Hnil. split.
  - intros []. by exists n.
  - intros (m & Hm & Hkm & Hok). destruct (Nat.lt_trichotomy m n) as [Hlt|[->|Hgt]]; [|done|].
    + destruct Hok as [_ Hok]. by destruct (retried_not_ok _ _ (Hk m Hlt)).
    + destruct Hstop as [Hs|Hl]; [|lia]. by destruct (Hs (Hkm n Hgt)).
Qed.

(** Retrying forever: the loop returns exactly when some round is not a
    retryable failure.  In particular it returns once the context has ended for
    good, or once a call succeeds; and while neither happens, nor a cancellation
    is returned, it keeps retrying. *)
Theorem retry_forever_returns_iff (b : Backoff) :
  (exists fuel r, Retry fuel b 0 = Some r) <-> exists n, ~ retried (after b n) n.
Proof.
  split.
  - intros (fuel & r & Hr). destruct (first_stop b fuel) as [Hall|(m & _ & _ & Hs)]; [|by exists m].
    exfalso. unfold Retry in Hr.
    destruct (retry_loop_skip 0 fuel 0 b 0 None) as [last Hl]; [done|by left|].
    rewrite Nat.add_0_r in Hl. rewrite Hl in Hr. done.
  - intros [n Hn]. destruct (first_stop b (S n)) as [Hall|(m & _ & Hk & Hs)]; [by destruct (Hn (Hall n ltac:(lia)))|].
    destruct (retry_stops_at b 0 m) as (r & Hr & _); [by left|done|by left|]. exists (S m), r. apply Hr. lia.
Qed.

(** Shutdown is prompt: when the context has ended by round [n], a loop without
    budget returns after at most [n] calls. *)
Theorem retry_forever_stops_on_cancel (b : Backoff) (n : nat) :
  r_ctx (env n) <> None ->
  exists r, (forall fuel, (n < fuel)%nat -> Retry fuel b 0 = Some r) /\ (r.1.2 <= n)%nat.
Proof.
  intros Hc. assert (~ retried (after b n) n) as Hn by (by intros [? _]).
  destruct (first_stop b (S n)) as [Hall|(m & Hm & Hk & Hs)]; [by destruct (Hn (Hall n ltac:(lia)))|].
  destruct (retry_stops_at b 0 m) as (r & Hr & Hcalls & Hcalls' & _); [by left|done|by left|].
  exists r. split; [intros fuel Hf; apply Hr; lia|].
  destruct (decide (m = n)) as [->|]; [by rewrite Hcalls'|lia].
Qed.
End Retry.

(** Every delay lies below both the cap and the exponential curve. *)
Lemma next_bounds (b : Backoff) (draw : Z) :
  backoff_wf b -> 0 <= (Next b draw).2 < Z.min (cap b) (base b * 2 ^ attempt b) /\ backoff_wf (Next b draw).1.
Proof.
  intros [Hb Ha]. assert (0 < 2 ^ attempt b) by (apply Z.pow_pos_nonneg; lia).
  split; [|unfold backoff_wf, Next; simpl; lia]. unfold Next, sampleJitter, Int63n. simpl.
  destruct (Z.ltb_spec (cap b) (base b * 2 ^ attempt b)); rewrite (proj2 (Z.leb_gt _ _)) by nia.
  - rewrite Z.min_l by lia. apply Z.mod_pos_bound. lia.
  - rewrite Z.min_r by lia. apply Z.mod_pos_bound. nia.
Qed.

(** ** A call that succeeds the third time, and one that is cancelled *)

Module ReliabilityDemo.
Definition flaky (i : nat) : round :=
  mkRound None (if (i <? 2)%nat then Some (ErrOther "connection refused") else None) 12345 None.
Definition down (i : nat) : round :=
  mkRound (if (i <? 4)%nat then None else Some ErrCanceled) (Some (ErrWrapped "dial" ErrDeadlineExceeded)) 7 None.
Definition b0 : Backoff := mkBackoff 100 1000 0.

Lemma retry_within_budget_witness :
  exists r, (forall fuel, (5 <= fuel)%nat -> Retry flaky fuel b0 5 = Some r) /\ Z.of_nat r.1.2 <= 5 /\
    (r.2 = None <-> exists n, Z.of_nat n < 5 /\ (forall k, (k < n)%nat -> retried flaky (after b0 k) k) /\
                      r_ctx (flaky n) = None /\ r_fn (flaky n) = None).
Proof. apply (retry_within_budget flaky b0 5). lia. Defined.

Lemma retry_forever_stops_on_cancel_witness :
  exists r, (forall fuel, (4 < fuel)%nat -> Retry down fuel b0 0 = Some r) /\ (r.1.2 <= 4)%nat.
Proof. apply (retry_forever_stops_on_cancel down b0 4). done. Defined.

Example flaky_result : Retry flaky 5 b0 5 = Some (mkBackoff 100 1000 2, 3%nat, None).
Proof. reflexivity. Qed.
Example down_budget : Retry down 3 b0 2 = Some (mkBackoff 100 1000 1, 2%nat, Some (retryError (ErrWrapped "dial" ErrDeadlineExceeded))).
Proof. reflexivity. Qed.
Example down_forever : Retry down 9 b0 0 = Some (mkBackoff 100 1000 4, 4%nat, Some ErrCanceled).
Proof. reflexivity. Qed.

(** An upstream that hangs until its deadline is retried, but does not count
    against the breaker. *)
Example hang_excluded : IsExcluded (ErrWrapped "dial" ErrDeadlineExceeded) = true.
Proof. reflexivity. Qed.
End ReliabilityDemo.
