(* ===== verification/Base64.v ===== *)
(** * base64 and HMAC

    [base64.RawURLEncoding.DecodeString] of Go's standard library, with the
    round trip against [base64_RawURL], and HMAC-SHA256. *)
From stdpp Require Import base list strings.
From Stdlib Require Import ZArith Lia Bool Ascii.
From S2P Require Import Prelude Models GoStrings Sha256.
Local Open Scope string_scope.
Local Open Scope list_scope.
Local Open Scope Z_scope.

(** ** Decoding *)

Definition base64_value (c : Z) : option Z :=
  if (65 <=? c) && (c <=? 90) then Some (c - 65)
  else if (97 <=? c) && (c <=? 122) then Some (c - 71)
  else if (48 <=? c) && (c <=? 57) then Some (c + 4)
  else if c =? 45 then Some 62
  else if c =? 95 then Some 63
  else None.

(** Groups of four; two or three digits at the end are fine, one is not, and the
    unused low bits are ignored. *)
Fixpoint base64_groups (l : list Z) : option bytes :=
  match l with
  | a :: b :: c :: d :: l' =>
      let n := a * 262144 + b * 4096 + c * 64 + d in
      (fun r => n / 65536 :: n / 256 mod 256 :: n mod 256 :: r) <$> base64_groups l'
  | [a; b; c] => let n := a * 262144 + b * 4096 + c * 64 in Some [n / 65536; n / 256 mod 256]
  | [a; b] => let n := a * 262144 + b * 4096 in Some [n / 65536]
  | [_] => None
  | [] => Some []
  end.

Definition is_newline (c : Z) : bool := (c =? 10) || (c =? 13).

(** Newlines are skipped. *)
Definition base64_DecodeString (s : string) : option bytes :=
  mapM base64_value (List.filter (fun c => negb (is_newline c)) (go_bytes s)) ≫= base64_groups.

(** ** HMAC *)

Definition hmac_pad (key : bytes) (x : Z) : bytes :=
  map (fun i => Z.lxor (nth i key 0) x) (seq 0 64).

(** RFC 2104 with SHA-256: keys longer than a block are hashed first. *)
Definition hmac_sha256 (key msg : bytes) : bytes :=
  let key := if (64 <? length key)%nat then sha256 key else key in
  sha256 (hmac_pad key 92 ++ sha256 (hmac_pad key 54 ++ msg)).

(** ** Round trip *)

(** The digits of an encoding. *)
Fixpoint base64_digits (b : bytes) : list Z :=
  match b with
  | x :: y :: z :: b' =>
      let n := x * 65536 + y * 256 + z in n / 262144 :: n / 4096 mod 64 :: n / 64 mod 64 :: n mod 64 :: base64_digits b'
  | [x; y] => let n := x * 65536 + y * 256 in [n / 262144; n / 4096 mod 64; n / 64 mod 64]
  | [x] => let n := x * 65536 in [n / 262144; n / 4096 mod 64]
  | [] => []
  end.

Definition digit_byte (n : Z) : Z :=
  if n <? 26 then 65 + n else if n <? 52 then 71 + n else if n <? 62 then n - 4 else if n =? 62 then 45 else 95.

Lemma digit_cases n : 0 <= n < 64 ->
  base64_value (digit_byte n) = Some n /\ is_newline (digit_byte n) = false /\ 45 <= digit_byte n < 128 /\ digit_byte n <> 46.
Proof.
  intros Hn. assert (n ∈ seqZ 0 64) as Hin by (apply elem_of_seqZ; lia). clear Hn.
  revert n Hin. apply Forall_forall. vm_compute. repeat constructor; discriminate.
Qed.

(** Bytes in threes. *)
Lemma bytes_ind3 (P : bytes -> Prop) :
  P [] -> (forall x, P [x]) -> (forall x y, P [x; y]) -> (forall x y z b, P b -> P (x :: y :: z :: b)) -> forall b, P b.
Proof.
  intros H0 H1 H2 H3 b. remember (length b) as n eqn:Hn. revert b Hn.
  induction n as [n IH] using lt_wf_ind. intros [|x [|y [|z b]]] ->; auto. apply H3. eapply IH; [|done]. simpl. lia.
Qed.

Lemma base64_digits_range b : Forall byte_ok b -> Forall (fun n => 0 <= n < 64) (base64_digits b).
Proof.
  induction b as [|x|x y|x y z b IH] using bytes_ind3; intros Hb; cbn [base64_digits]; [constructor|..];
    repeat apply Forall_cons in Hb as [? Hb]; unfold byte_ok in *;
    repeat constructor; try (apply IH; done); Z.to_euclidean_division_equations; lia.
Qed.

Lemma base64_groups_digits b : Forall byte_ok b -> base64_groups (base64_digits b) = Some b.
Proof.
  induction b as [|x|x y|x y z b IH] using bytes_ind3; intros Hb; cbn [base64_digits base64_groups]; [done|..];
    repeat apply Forall_cons in Hb as [? Hb]; unfold byte_ok in *; cbv zeta.
  - do 2 f_equal. Z.to_euclidean_division_equations; lia.
  - f_equal. f_equal; [|f_equal]; Z.to_euclidean_division_equations; lia.
  - set (n := x * 65536 + y * 256 + z).
    replace (n / 262144 * 262144 + n / 4096 mod 64 * 4096 + n / 64 mod 64 * 64 + n mod 64) with n
      by (subst n; Z.to_euclidean_division_equations; lia).
    rewrite IH by done. simpl. f_equal. subst n. f_equal; [|f_equal; [|f_equal]]; Z.to_euclidean_division_equations; lia.
Qed.

Lemma base64_encode_digits b : base64_RawURL b = go_string (map digit_byte (base64_digits b)).
Proof.
  induction b as [|x|x y|x y z b IH] using bytes_ind3; [done|done|done|].
  change (base64_RawURL (x :: y :: z :: b)) with
    (String (base64_digit ((x * 65536 + y * 256 + z) / 262144)) (String (base64_digit ((x * 65536 + y * 256 + z) / 4096 mod 64))
      (String (base64_digit ((x * 65536 + y * 256 + z) / 64 mod 64)) (String (base64_digit ((x * 65536 + y * 256 + z) mod 64)) (base64_RawURL b))))).
  rewrite IH. reflexivity.
Qed.

Lemma base64_encode_bytes b : Forall byte_ok b -> go_bytes (base64_RawURL b) = map digit_byte (base64_digits b).
Proof.
  intros Hb. rewrite base64_encode_digits. apply go_string_bytes, List.Forall_map.
  eapply List.Forall_impl; [|by apply base64_digits_range]. intros n Hn. simpl in Hn.
  destruct (digit_cases n Hn) as (_ & _ & ? & _). unfold byte_ok. lia.
Qed.

Lemma base64_roundtrip b : Forall byte_ok b -> base64_DecodeString (base64_RawURL b) = Some b.
Proof.
  intros Hb. unfold base64_DecodeString. rewrite base64_encode_bytes by done.
  pose proof (base64_digits_range b Hb) as Hd.
  assert (mapM base64_value (List.filter (fun c => negb (is_newline c)) (map digit_byte (base64_digits b))) = Some (base64_digits b)) as ->.
  { induction Hd as [|n l Hn _ IH]; [done|]. destruct (digit_cases n Hn) as (Hv & Hnl & _). simpl.
    rewrite Hnl. simpl. rewrite Hv. simpl. by rewrite IH. }
  simpl. by apply base64_groups_digits.
Qed.

(** An encoding has no full stop. *)
Lemma base64_free_of_dot b : Forall byte_ok b -> free_of "." (base64_RawURL b).
Proof.
  intros Hb. rewrite base64_encode_digits. pose proof (base64_digits_range b Hb) as Hd.
  induction Hd as [|n l Hn _ IH]; [done|]. destruct (digit_cases n Hn) as (_ & _ & Hr & Hdot).
  unfold free_of in *. cbn [map go_string string_forallb]. rewrite IH, andb_true_r. apply negb_true_iff, Ascii.eqb_neq.
  intros Heq. apply (f_equal N_of_ascii) in Heq. unfold byte_ascii in Heq. rewrite N_ascii_embedding in Heq by lia.
  change (N_of_ascii ".") with 46%N in Heq. lia.
Qed.

Lemma hmac_bytes key msg : Forall byte_ok (hmac_sha256 key msg).
Proof. unfold hmac_sha256. auto with owasaka. Qed.

(** RFC 4231, test case 2, and a key longer than a block, test case 6. *)
Example hmac_rfc4231_2 :
  hex_EncodeToString (hmac_sha256 (go_bytes "Jefe") (go_bytes "what do ya want for nothing?"))
  = "5bdcc146bf60754e6a042426089575c75a003f089d2739839dec58b964ec3843".
Proof. vm_compute. reflexivity. Qed.
Example hmac_rfc4231_6 :
  hex_EncodeToString (hmac_sha256 (repeat 170 131) (go_bytes "Test Using Larger Than Block-Size Key - Hash Key First"))
  = "60e431591ee0b67f0d8a26aacbf5b77f8e0bc6213728c5140546040f0ee37f54".
Proof. vm_compute. reflexivity. Qed.
Example base64_newline : base64_DecodeString (go_string [65; 10; 65; 66]) = base64_DecodeString "AAB".
Proof. vm_compute. reflexivity. Qed.
