(* ===== verification/Oidc.v ===== *)
(** * OIDC login

    internal/identity/oidc: config.go, state.go, mapping.go, handlers.go and the
    parts of client.go that are not network calls.  The exchange of a code with
    the identity provider, including the verification of the ID token, and the
    URL of its authorization endpoint are arguments. *)
From stdpp Require Import base list strings gmap.
From Stdlib Require Import ZArith Lia Bool Ascii.
From S2P Require Import Prelude Models GoStrings Sha256 Base64 Pki Identity Jwt.
Local Open Scope string_scope.
Local Open Scope list_scope.
Local Open Scope Z_scope.

Inductive oerror :=
| ErrDisabled | ErrConfig (field : string) | ErrInvalidState | ErrInvalidIDToken | ErrPrincipalUnknown | ErrMissingClaims
| ErrStore (e : iderror).

(** ** Configuration *)

Record Config := mkConfig {
  Enabled : bool; IssuerURL : string; ClientID : string; ClientSecret : string; RedirectURL : string; Scopes : list string;
  AutoProvision : bool; LoginStateTTL : Z; GroupRoleMap : gmap string string }.

Definition Validate (c : Config) : option oerror :=
  if negb (Enabled c) then Some ErrDisabled
  else if bool_decide (IssuerURL c = "") then Some (ErrConfig "IssuerURL")
  else if bool_decide (ClientID c = "") then Some (ErrConfig "ClientID")
  else if bool_decide (ClientSecret c = "") then Some (ErrConfig "ClientSecret")
  else if bool_decide (RedirectURL c = "") then Some (ErrConfig "RedirectURL")
  else None.

Definition ScopeOpenID := "openid".

Fixpoint merge_loop (seen : gset string) (l : list string) : list string * gset string :=
  match l with
  | [] => ([], seen)
  | s :: l' =>
      if bool_decide (s = "") || bool_decide (s ∈ seen) then merge_loop seen l'
      else let '(out, seen') := merge_loop ({[s]} ∪ seen) l' in (s :: out, seen')
  end.

Definition mergeScopes (l : list string) : list string :=
  let '(out, seen) := merge_loop ∅ l in
  if bool_decide (ScopeOpenID ∈ seen) then out else ScopeOpenID :: out.

(** ** State tokens *)

Record stateClaims := mkState { Nonce : string; st_RedirectURL : string; IssuedAt : Z; ExpiresAt : Z }.

(** [t.Unix()]. *)
Definition Unix (t : gotime) : Z := t / 1000000000 - 62135596800.

Record stateCodec := mkCodec { key : bytes; ttl : Z }.

(** [None] is the panic on an empty key. *)
Definition newStateCodec (k : bytes) (t : Z) : option stateCodec :=
  match k with
  | [] => None
  | _ => Some (mkCodec k (if t <=? 0 then 5 * 60 * 1000000000 else t))
  end.

Section State.
Context `{JSON stateClaims}.

Definition Encode (c : stateCodec) (now : gotime) (nonce redirect : string) : option string :=
  match Marshal (mkState nonce redirect (Unix now) (Unix (now + ttl c))) with
  | None => None
  | Some payload => Some (base64_RawURL payload +:+ "." +:+ base64_RawURL (hmac_sha256 (key c) payload))
  end.

Definition Decode (c : stateCodec) (now : gotime) (token : string) : oerror + stateClaims :=
  match Cut "." token with
  | None => inl ErrInvalidState
  | Some (p, s) =>
      match base64_DecodeString p with
      | None => inl ErrInvalidState
      | Some payload =>
          match base64_DecodeString s with
          | None => inl ErrInvalidState
          | Some sig =>
              if negb (bool_decide (hmac_sha256 (key c) payload = sig)) then inl ErrInvalidState
              else
                match Unmarshal payload with
                | None => inl ErrInvalidState
                | Some claims => if ExpiresAt claims <? Unix now then inl ErrInvalidState else inr claims
                end
          end
      end
  end.
End State.

(** ** Claim mapping *)

Record IDClaims := mkIDClaims {
  id_Subject : string; Email : string; EmailVerified : bool; Name : string; PreferredUsername : string;
  Groups : list string; Issuer : string }.

Definition PrincipalSubject (claims : IDClaims) : string := "oidc:" +:+ Issuer claims +:+ ":" +:+ id_Subject claims.

Definition set_if (b : bool) (k : string) (v : gany) (m : gmap string gany) : gmap string gany := if b then <[k := v]> m else m.

Definition nonempty (s : string) : bool := negb (bool_decide (s = "")).

Definition enrichClaims (base : option (gmap string gany)) (c : IDClaims) : gmap string gany :=
  let m := <["oidc_iss" := VString (Issuer c)]> (<["oidc_sub" := VString (id_Subject c)]> (default ∅ base)) in
  let m := set_if (nonempty (Email c)) "email_verified" (VBool (EmailVerified c)) (set_if (nonempty (Email c)) "email" (VString (Email c)) m) in
  let m := set_if (nonempty (Name c)) "name" (VString (Name c)) m in
  let m := set_if (nonempty (PreferredUsername c)) "preferred_username" (VString (PreferredUsername c)) m in
  set_if (negb (bool_decide (Groups c = []))) "groups" (VStrings (Groups c)) m.

Definition rolesForGroups (m : gmap string string) (groups : list string) : list string :=
  omap (fun g => match m !! g with Some role => if nonempty role then Some role else None | None => None end) groups.

Definition set_Claims (p : Principal) (m : gmap string gany) : Principal :=
  mkPrincipal (ID p) (Type_ p) (Subject p) (DisplayName p) (Status p) (Roles p) (Some m) (CreatedAt p) (LastSeenAt p).

Definition assigned (p : Principal) (names : list string) : Principal := default p (AssignRoles (Some p) names).

(** The principal provisioned at a first login. *)
Definition new_principal (m : gmap string string) (claims : IDClaims) (uuid : string) (now : gotime) : Principal :=
  let display := if bool_decide (Name claims = "") then PreferredUsername claims else Name claims in
  assigned (mkPrincipal uuid PrincipalHuman (PrincipalSubject claims) display StatusActive [] (Some (enrichClaims None claims)) now None)
    (rolesForGroups m (Groups claims)).

(** [DefaultMapper.Map] over the in-memory store; [fresh] is the address of the
    principal it may allocate.  A nil principal is not active. *)
Definition Map (autoProvision : bool) (m : gmap string string) (s : MemoryPrincipalStore.t) (h : gmap nat Principal)
    (claims : IDClaims) (uuid : string) (now : gotime) (fresh : nat)
  : MemoryPrincipalStore.t * gmap nat Principal * (oerror + nat) :=
  if bool_decide (id_Subject claims = "") || bool_decide (Issuer claims = "") then (s, h, inl ErrMissingClaims)
  else
    match MemoryPrincipalStore.FindBySubject s (PrincipalSubject claims) with
    | inr None => (s, h, inl (ErrStore ErrPrincipalInactive))
    | inr (Some l) =>
        match h !! l with
        | None => (s, h, inl (ErrStore ErrPrincipalInactive))
        | Some p =>
            if negb (IsActive (Some p)) then (s, h, inl (ErrStore ErrPrincipalInactive))
            else
              let h := <[l := assigned (set_Claims p (enrichClaims (Claims p) claims)) (rolesForGroups m (Groups claims))]> h in
              (match MemoryPrincipalStore.Save s h (Some l) with Some (s', _) => s' | None => s end, h, inr l)
        end
    | inl ErrPrincipalNotFound =>
        if negb autoProvision then (s, h, inl ErrPrincipalUnknown)
        else
          let h := <[fresh := new_principal m claims uuid now]> h in
          match MemoryPrincipalStore.Save s h (Some fresh) with
          | Some (s', None) => (s', h, inr fresh)
          | Some (s', Some err) => (s', h, inl (ErrStore err))
          | None => (s, h, inl (ErrStore ErrPrincipalNotFound))
          end
    | inl err => (s, h, inl (ErrStore err))
    end.

(** ** HTTP handlers *)

Record Cookie := mkCookie {
  ck_Name : string; ck_Value : string; ck_HttpOnly : bool; ck_Secure : bool; ck_Lax : bool; ck_Expires : option gotime; ck_MaxAge : Z }.

(** [location] is the address given to http.Redirect; what that function does to a
    relative one (joining it to the request's directory and cleaning it) and its
    HTML body are left out. *)
Record Response := mkResponse { code_ : Z; cookies : list Cookie; location : option string; body : string }.

Definition http_Error (msg : string) (status : Z) : Response := mkResponse status [] None msg.

Definition state_cookie := "owasaka_oidc_state".

(** A branch that answers with an error and no cookie. *)
Ltac refused H :=
  injection H as <- <- <-; split;
  [split; [by intros [?|?]
          |intros (? & ? & ? & ? & ? & ? & ? & ? & ? & ? & ? & ? & ? & ? & ?); exfalso; congruence]
  |intros ? ? (? & ? & ? & ? & ? & ? & ? & ? & ? & ? & ? & ? & ?); exfalso; congruence].

Section Handlers.
Context {S : Type} `{KeyStore S} `{Ed25519} `{JwtLib} `{JSON stateClaims}.

(** [rand] is the read of sixteen random bytes. *)
Definition AuthURL (authCodeURL : string -> string) (c : stateCodec) (rand : option bytes) (now : gotime) (redirectAfter : string)
  : option (string * string) :=
  match rand with
  | None => None
  | Some b =>
      match Encode c now (base64_RawURL b) redirectAfter with
      | None => None
      | Some state => Some (authCodeURL state, state)
      end
  end.

Definition Login (authCodeURL : string -> string) (c : stateCodec) (rand : option bytes) (now clock : gotime) (returnTo : string) : Response :=
  match AuthURL authCodeURL c rand now returnTo with
  | None => http_Error "login failed" 500
  | Some (authURL, state) =>
      mkResponse 302 [mkCookie state_cookie state true true true (Some (clock + 10 * 60 * 1000000000)) 0] (Some authURL) ""
  end.

Definition coerceIssuer (cfg : Config) (iss : string) : string := if bool_decide (iss <> "") then iss else IssuerURL cfg.

Definition setSessionCookies (toks : TokenPair) : list Cookie :=
  [mkCookie "owasaka_access" (AccessToken toks) true true true (Some (AccessExp toks)) 0;
   mkCookie "owasaka_refresh" (RefreshToken toks) true true true (Some (RefreshExp toks)) 0].

Definition set_Issuer (c : IDClaims) (iss : string) : IDClaims :=
  mkIDClaims (id_Subject c) (Email c) (EmailVerified c) (Name c) (PreferredUsername c) (Groups c) iss.

(** The query parameters, the state cookie and what the outside world answers. *)
Record Request := mkRequest {
  q_error : string; q_code : string; q_state : string; r_cookie : option string; r_now : gotime; r_uuid : string; r_fresh : nat;
  r_jti1 : string; r_jti2 : string }.

Definition map_error (err : oerror) : Response :=
  match err with
  | ErrPrincipalUnknown => http_Error "user not provisioned" 403
  | ErrStore ErrPrincipalInactive => http_Error "user inactive" 403
  | _ => http_Error "principal mapping failed" 500
  end.

Definition Callback (cfg : Config) (c : stateCodec) (exchange : string -> option IDClaims) (ks : S) (accessTTL refreshTTL : Z)
    (s : MemoryPrincipalStore.t) (h : gmap nat Principal) (r : Request)
  : MemoryPrincipalStore.t * gmap nat Principal * Response :=
  if bool_decide (q_error r <> "") then (s, h, http_Error ("idp error: " +:+ q_error r) 400)
  else if bool_decide (q_code r = "") || bool_decide (q_state r = "") then (s, h, http_Error "missing code or state" 400)
  else if bool_decide (r_cookie r <> Some (q_state r)) then (s, h, http_Error "state mismatch" 400)
  else
    match Decode c (r_now r) (q_state r) with
    | inl _ => (s, h, http_Error "invalid state" 400)
    | inr info =>
        match exchange (q_code r) with
        | None => (s, h, http_Error "exchange failed" 401)
        | Some claims =>
            let claims := set_Issuer claims (coerceIssuer cfg (Issuer claims)) in
            match Map (AutoProvision cfg) (GroupRoleMap cfg) s h claims (r_uuid r) (r_now r) (r_fresh r) with
            | (s, h, inl err) => (s, h, map_error err)
            | (s, h, inr l) =>
                match Issue ks accessTTL refreshTTL (r_now r) (r_jti1 r) (r_jti2 r) (h !! l) with
                | inl _ => (s, h, http_Error "session issuance failed" 500)
                | inr toks =>
                    let redirect := if bool_decide (st_RedirectURL info = "") then "/" else st_RedirectURL info in
                    (s, h, mkResponse 302 (mkCookie state_cookie "" true true false None (-1) :: setSessionCookies toks) (Some redirect) "")
                end
            end
        end
    end.

(** ** State tokens survive the round trip *)

Context `{!JSONLaws stateClaims}.
(** JSON is a byte sequence. *)
Hypothesis marshal_bytes : forall (c : stateClaims) b, Marshal c = Some b -> Forall byte_ok b.

Lemma decode_encoded c now nonce redirect token now' c' :
  json_ok (mkState nonce redirect (Unix now) (Unix (now + ttl c))) -> Encode c now nonce redirect = Some token ->
  Decode c' now' token =
    (let claims := mkState nonce redirect (Unix now) (Unix (now + ttl c)) in
     if negb (bool_decide (hmac_sha256 (key c') (default [] (Marshal claims)) = hmac_sha256 (key c) (default [] (Marshal claims))))
     then inl ErrInvalidState else if Unix (now + ttl c) <? Unix now' then inl ErrInvalidState else inr claims).
Proof.
  intros Hok Henc. unfold Encode in Henc. destruct (Marshal _) as [payload|] eqn:Hm; [|done]. injection Henc as <-.
  pose proof (marshal_bytes _ _ Hm) as Hb. unfold Decode.
  change ("." +:+ base64_RawURL (hmac_sha256 (key c) payload)) with (String "." (base64_RawURL (hmac_sha256 (key c) payload))).
  rewrite Cut_app by (by apply base64_free_of_dot). rewrite !base64_roundtrip by (done || apply hmac_bytes).
  cbv zeta. rewrite Hm. cbn [default from_option id]. destruct (negb _); [done|]. by rewrite (json_roundtrip _ _ Hok Hm).
Qed.

(** A state token decodes, until it expires and not a second longer, to the
    nonce and return address it was made from. *)
Theorem state_roundtrip (c : stateCodec) (now now' : gotime) (nonce redirect token : string) :
  json_ok (mkState nonce redirect (Unix now) (Unix (now + ttl c))) -> Encode c now nonce redirect = Some token ->
  Decode c now' token =
    if Unix now' <=? Unix (now + ttl c) then inr (mkState nonce redirect (Unix now) (Unix (now + ttl c))) else inl ErrInvalidState.
Proof.
  intros Hok Henc. rewrite (decode_encoded _ _ _ _ _ _ _ Hok Henc). cbv zeta. rewrite bool_decide_eq_true_2 by done. simpl.
  rewrite Z.leb_antisym. by destruct (_ <? _).
Qed.

(** ** The session *)

(** What must hold for a callback to end in a session. *)
Definition session_conditions cfg c exchange (ks : S) accessTTL refreshTTL s h (r : Request) s' h' toks info : Prop :=
  q_error r = "" /\ q_code r <> "" /\ q_state r <> "" /\ r_cookie r = Some (q_state r) /\
  Decode c (r_now r) (q_state r) = inr info /\
  exists claims l p, exchange (q_code r) = Some claims /\
    Map (AutoProvision cfg) (GroupRoleMap cfg) s h (set_Issuer claims (coerceIssuer cfg (Issuer claims))) (r_uuid r) (r_now r) (r_fresh r)
      = (s', h', inr l) /\ h' !! l = Some p /\ IsActive (Some p) = true /\
    Issue ks accessTTL refreshTTL (r_now r) (r_jti1 r) (r_jti2 r) (Some p) = inr toks.

Lemma issue_active (ks : S) a b now j1 j2 p toks :
  Issue ks a b now j1 j2 p = inr toks -> exists p', p = Some p' /\ IsActive (Some p') = true.
Proof.
  unfold Issue. destruct p as [p'|]; [|done]. intros Hi. exists p'. split; [done|].
  by destruct (IsActive (Some p')).
Qed.

(** C19: The callback starts a session exactly when the identity provider reported
    no error, a code and a state are present, the state equals the cookie's and
    is a current token of this server, the code is exchanged for verified claims,
    the claims map to an active principal, and tokens can be issued for it; the
    cookies then carry exactly those tokens, and the redirect goes to the address
    in the state. *)
Theorem callback_session_iff cfg c exchange (ks : S) accessTTL refreshTTL s h (r : Request) s' h' resp :
  Callback cfg c exchange ks accessTTL refreshTTL s h r = (s', h', resp) ->
  (code_ resp = 302 \/ cookies resp <> [] <-> exists toks info, session_conditions cfg c exchange ks accessTTL refreshTTL s h r s' h' toks info) /\
  (forall toks info, session_conditions cfg c exchange ks accessTTL refreshTTL s h r s' h' toks info ->
     resp = mkResponse 302 (mkCookie state_cookie "" true true false None (-1) :: setSessionCookies toks)
              (Some (if bool_decide (st_RedirectURL info = "") then "/" else st_RedirectURL info)) "").
Proof.
  unfold Callback, session_conditions. intros Hc.
  case_bool_decide as Herr; [by refused Hc|].
  destruct (bool_decide_reflect (q_code r = "")) as [|Hcode]; cbn [orb] in Hc; [by refused Hc|].
  destruct (bool_decide_reflect (q_state r = "")) as [|Hst]; [by refused Hc|].
  case_bool_decide as Hck; [by refused Hc|].
  destruct (Decode c (r_now r) (q_state r)) as [|info]; [by refused Hc|].
  destruct (exchange (q_code r)) as [claims|]; [|by refused Hc].
  destruct (Map _ _ _ _ _ _ _ _) as [[s1 h1] [err|l]] eqn:Hmap.
  { destruct err as [| | | | | |[]]; by refused Hc. }
  destruct (Issue _ _ _ _ _ _ (h1 !! l)) as [|toks] eqn:Hi; [by refused Hc|].
  injection Hc as <- <- <-. destruct (issue_active _ _ _ _ _ _ _ _ Hi) as (p & Hp & Hact). rewrite Hp in Hi. split.
  - split; [intros _|by intros; left]. exists toks, info. split_and!; try done. by exists claims, l, p.
  - intros toks' info' (_ & _ & _ & _ & [= <-] & claims' & l' & p' & [= <-] & Hm' & Hp' & _ & Hi').
    rewrite Hmap in Hm'. injection Hm' as <-. rewrite Hp in Hp'. injection Hp' as <-. rewrite Hi in Hi'. by injection Hi' as <-.
Qed.

(** C36: A login followed by its callback: the browser that brings back the cookie
    and the state of its own login, in time, ends at the address it asked for,
    whatever that address is, with the session of the mapped principal. *)
Theorem login_roundtrip cfg c exchange (ks : S) accessTTL refreshTTL s h s' h' authCodeURL rand now clock returnTo state claims l p toks r :
  json_ok (mkState (base64_RawURL rand) returnTo (Unix now) (Unix (now + ttl c))) ->
  AuthURL authCodeURL c (Some rand) now returnTo = Some (authCodeURL state, state) ->
  q_error r = "" -> q_code r <> "" -> q_state r = state -> state <> "" -> Unix (r_now r) <= Unix (now + ttl c) ->
  r_cookie r = ck_Value <$> head (cookies (Login authCodeURL c (Some rand) now clock returnTo)) ->
  exchange (q_code r) = Some claims ->
  Map (AutoProvision cfg) (GroupRoleMap cfg) s h (set_Issuer claims (coerceIssuer cfg (Issuer claims))) (r_uuid r) (r_now r) (r_fresh r)
    = (s', h', inr l) -> h' !! l = Some p ->
  Issue ks accessTTL refreshTTL (r_now r) (r_jti1 r) (r_jti2 r) (Some p) = inr toks ->
  Callback cfg c exchange ks accessTTL refreshTTL s h r =
    (s', h', mkResponse 302 (mkCookie state_cookie "" true true false None (-1) :: setSessionCookies toks)
               (Some (if bool_decide (returnTo = "") then "/" else returnTo)) "").
Proof.
  intros Hok Hauth Herr Hcode Hst Hne Hnow Hck Hex Hmap Hp Hi. unfold Login in Hck. rewrite Hauth in Hck. simpl in Hck.
  unfold AuthURL in Hauth. destruct (Encode c now _ returnTo) as [st|] eqn:Henc; [|done].
  assert (st = state) as -> by congruence.
  unfold Callback. rewrite Herr, Hst, Hck, bool_decide_eq_false_2 by (intros Hf; by apply Hf).
  rewrite !bool_decide_eq_false_2 by done. cbn [orb]. rewrite bool_decide_eq_false_2 by (intros Hf; by apply Hf).
  rewrite (decode_encoded _ _ _ _ _ _ _ Hok Henc). cbv zeta. rewrite bool_decide_eq_true_2 by done. cbn [negb].
  rewrite (proj2 (Z.ltb_ge _ _)) by done. rewrite Hex, Hmap, Hp, Hi. done.
Qed.
End Handlers.

(** ** The mapped principal *)

(** The roles of a mapped principal are exactly those its groups map to. *)
Definition roles_from_groups (m : gmap string string) (groups : list string) (p : Principal) : Prop :=
  NoDup (Roles p) /\
  forall r, HasRole (Some p) r = true <-> r <> "" /\ exists g role, g ∈ groups /\ m !! g = Some role /\ TrimSpace role = r.

Lemma assigned_roles m groups p : roles_from_groups m groups (assigned p (rolesForGroups m groups)).
Proof.
  destruct (assign_roles_spec p (rolesForGroups m groups)) as (p' & [= <-] & Hnd & Hr & _). split; [done|]. intros r.
  unfold assigned. cbn [AssignRoles default from_option id]. rewrite Hr. split.
  - intros [Hne Hin]. split; [done|]. apply list_elem_of_In, in_map_iff in Hin as (role & <- & Hin).
    apply list_elem_of_In in Hin. unfold rolesForGroups in Hin. apply list_elem_of_omap in Hin as (g & Hg & Hm).
    exists g, role. destruct (m !! g) as [role'|]; [|done]. destruct (nonempty role'); by simplify_eq.
  - intros (Hne & g & role & Hg & Hm & <-). split; [done|]. apply list_elem_of_In, in_map_iff. exists role. split; [done|].
    apply list_elem_of_In, list_elem_of_omap. exists g. split; [done|]. rewrite Hm. unfold nonempty.
    case_bool_decide as He; [by subst role|done].
Qed.

(** What a login leaves of an existing principal: its identity, type, status and
    dates. *)
Definition same_identity (p p' : Principal) : Prop :=
  ID p' = ID p /\ Type_ p' = Type_ p /\ Subject p' = Subject p /\ DisplayName p' = DisplayName p /\ Status p' = Status p /\
  CreatedAt p' = CreatedAt p /\ LastSeenAt p' = LastSeenAt p.

(** Mapping verified claims: a known active principal keeps its identity and its
    roles become exactly those its groups map to; a known inactive one is
    refused; an unknown one is refused unless provisioning is on, and then a new
    active human principal with exactly the mapped roles is stored under the
    subject.  A refusal changes nothing. *)
Theorem oidc_map_spec (auto : bool) (m : gmap string string) (s s' : MemoryPrincipalStore.t) (h h' : gmap nat Principal)
    (claims : IDClaims) (uuid : string) (now : gotime) (fresh : nat) (res : oerror + nat) :
  id_Subject claims <> "" -> Issuer claims <> "" -> uuid <> "" ->
  Map auto m s h claims uuid now fresh = (s', h', res) ->
  match MemoryPrincipalStore.bySubject s !! PrincipalSubject claims with
  | Some id =>
      match MemoryPrincipalStore.byID s !! id ≫= (fun l => h !! l) with
      | Some p =>
          if IsActive (Some p) then
            exists l p', res = inr l /\ MemoryPrincipalStore.byID s !! id = Some l /\ h' = <[l := p']> h /\ same_identity p p' /\
              roles_from_groups m (Groups claims) p'
          else res = inl (ErrStore ErrPrincipalInactive) /\ s' = s /\ h' = h
      | None => res = inl (ErrStore ErrPrincipalInactive) /\ s' = s /\ h' = h
      end
  | None =>
      if auto then
        exists p', res = inr fresh /\ h' = <[fresh := p']> h /\ ID p' = uuid /\ Type_ p' = PrincipalHuman /\ IsActive (Some p') = true /\
          roles_from_groups m (Groups claims) p' /\
          MemoryPrincipalStore.FindBySubject s' (PrincipalSubject claims) = inr (Some fresh)
      else res = inl ErrPrincipalUnknown /\ s' = s /\ h' = h
  end.
Proof.
  intros Hsub Hiss Huuid. unfold Map. rewrite !bool_decide_eq_false_2 by done. cbn [orb].
  unfold MemoryPrincipalStore.FindBySubject.
  destruct (MemoryPrincipalStore.bySubject s !! PrincipalSubject claims) as [id|] eqn:Hs.
  - destruct (MemoryPrincipalStore.byID s !! id) as [l|] eqn:Hid; cbn [mbind option_bind]; [|by intros [= <- <- <-]].
    destruct (h !! l) as [p|] eqn:Hp; [|by intros [= <- <- <-]].
    destruct (IsActive (Some p)); cbn [negb]; [|by intros [= <- <- <-]].
    intros [= _ <- <-]. eexists l, _. split; [done|]. split; [done|]. split; [done|]. split; [by split_and!|apply assigned_roles].
  - destruct auto; cbn [negb]; [|by intros [= <- <- <-]].
    unfold MemoryPrincipalStore.Save. rewrite lookup_insert_eq.
    assert (ID (new_principal m claims uuid now) = uuid) as -> by done. rewrite (bool_decide_eq_false_2 (uuid = "")) by done.
    assert (Subject (new_principal m claims uuid now) = PrincipalSubject claims) as -> by done.
    rewrite bool_decide_eq_false_2 by done.
    intros [= <- <- <-]. exists (new_principal m claims uuid now).
    split; [done|]. split; [done|]. split; [done|]. split; [done|]. split; [done|]. split; [apply assigned_roles|].
    cbn [MemoryPrincipalStore.bySubject MemoryPrincipalStore.byID]. by rewrite !lookup_insert_eq.
Qed.

(** Without a group mapping every login removes the roles an operator assigned. *)
Lemma login_clears_assigned_roles auto s h claims uuid now fresh pid l p :
  id_Subject claims <> "" -> Issuer claims <> "" ->
  MemoryPrincipalStore.bySubject s !! PrincipalSubject claims = Some pid -> MemoryPrincipalStore.byID s !! pid = Some l ->
  h !! l = Some p -> IsActive (Some p) = true ->
  exists p', (Map auto ∅ s h claims uuid now fresh).1.2 !! l = Some p' /\ Roles p' = [].
Proof.
  intros Hsub Hiss Hs Hid Hp Hact. unfold Map. rewrite !bool_decide_eq_false_2 by done. cbn [orb].
  unfold MemoryPrincipalStore.FindBySubject. rewrite Hs, Hid, Hp, Hact. cbn [negb fst snd]. rewrite lookup_insert_eq.
  eexists. split; [done|]. unfold assigned. cbn [AssignRoles default from_option id set_Roles Roles].
  assert (rolesForGroups ∅ (Groups claims) = []) as ->; [|done].
  unfold rolesForGroups. induction (Groups claims) as [|g gs IH]; [done|]. simpl. by rewrite lookup_empty.
Qed.

(** Two identities of different issuers can have one subject. *)
Example subjects_collide :
  PrincipalSubject (mkIDClaims "8443:bob" "" false "" "" [] "https://idp") =
  PrincipalSubject (mkIDClaims "bob" "" false "" "" [] "https://idp:8443").
Proof. reflexivity. Qed.

(** ** A login, its callback and the mapped principal *)

Module OidcDemo.
Import PkiDemo ToyJwt JwtDemo.

(** A length-prefixed code, standing for JSON. *)
Definition enc (c : stateClaims) : bytes :=
  be_encode 8 (Z.of_nat (length (go_bytes (Nonce c)))) ++ be_encode 8 (IssuedAt c) ++ be_encode 8 (ExpiresAt c) ++
  go_bytes (Nonce c) ++ go_bytes (st_RedirectURL c).
Definition dec (b : bytes) : option stateClaims :=
  let n := Z.to_nat (be_decode (take 8 b)) in
  Some (mkState (go_string (take n (drop 24 b))) (go_string (drop (24 + n) b)) (be_decode (take 8 (drop 8 b))) (be_decode (take 8 (drop 16 b)))).

#[export] Instance state_json : JSON stateClaims := {
  Marshal c := Some (enc c);
  Unmarshal := dec;
  json_ok c := Z.of_nat (length (go_bytes (Nonce c))) < 2 ^ 64 /\ 0 <= IssuedAt c < 2 ^ 64 /\ 0 <= ExpiresAt c < 2 ^ 64;
}.

#[export] Instance state_json_laws : JSONLaws stateClaims.
Proof.
  intros [n r i e] b (Hn & Hi & He) Hm. injection Hm as <-. cbn [Unmarshal state_json]. unfold dec, enc. cbv zeta.
  cbn [Nonce st_RedirectURL IssuedAt ExpiresAt] in *.
  assert (forall v l, take 8 (be_encode 8 v ++ l) = be_encode 8 v) as Ht by (intros; by rewrite take_app_length' by (by rewrite length_be_encode)).
  assert (forall k v l, drop (8 + k) (be_encode 8 v ++ l) = drop k l) as Hd.
  { intros. rewrite drop_app_ge by (rewrite length_be_encode; lia). f_equal. rewrite length_be_encode. lia. }
  rewrite Ht. change 24%nat with (8 + (8 + (8 + 0)))%nat. change 16%nat with (8 + (8 + 0))%nat.
  replace (8 + (8 + (8 + 0)) + Z.to_nat (be_decode (be_encode 8 (Z.of_nat (length (go_bytes n))))))%nat
    with (8 + (8 + (8 + Z.to_nat (be_decode (be_encode 8 (Z.of_nat (length (go_bytes n))))))))%nat by lia.
  assert (forall v l, drop 8 (be_encode 8 v ++ l) = l) as Hd0 by (intros; apply drop_app_length'; by rewrite length_be_encode).
  rewrite !Hd, !Hd0, !drop_0, !Ht, !be_decode_encode. change (256 ^ Z.of_nat 8) with (2 ^ 64). rewrite !Z.mod_small by lia.
  rewrite Nat2Z.id, take_app_length, drop_app_length, !go_bytes_string. done.
Qed.

Lemma state_bytes (c : stateClaims) b : Marshal c = Some b -> Forall byte_ok b.
Proof. intros Hm. injection Hm as <-. unfold enc. rewrite !Forall_app. auto using be_encode_bytes, go_bytes_ok. Qed.

Definition cfg : Config := mkConfig true "https://idp" "c" "s" "https://siem/cb" [] true 0 {[ "siem-admins" := "admin" ]}.
Definition codec : stateCodec := mkCodec (go_bytes "secret") (300 * sec).
Definition t0 : gotime := 63000000000 * sec.
Definition url (st : string) : string := "https://idp/authorize?state=" +:+ st.
Definition token : string := default "" (Encode codec t0 (base64_RawURL [1; 2; 3]) "/alerts").
Definition bob : IDClaims := mkIDClaims "bob" "bob@example.org" true "Bob" "" ["siem-admins"; "payroll"] "".
Definition bob' : IDClaims := set_Issuer bob "https://idp".
Definition no_principals : MemoryPrincipalStore.t := MemoryPrincipalStore.New.
Definition req : Request := mkRequest "" "xyz" token (Some token) (t0 + 20 * sec) "p1" 1 "j1" "j2".
Definition mapped := Map true (GroupRoleMap cfg) no_principals ∅ bob' "p1" (t0 + 20 * sec) 1.
Definition bob_principal : Principal := new_principal (GroupRoleMap cfg) bob' "p1" (t0 + 20 * sec).
Definition jwt_key : KeyPair := mkKeyPair "j1" PurposeJWTSigning [4] [4] StatusKeyActive 0 0 (t0 + 1000 * sec).
Definition keys : MemoryKeyStore.t := MemoryKeyStore.mk {[ "j1" := jwt_key ]}.
Definition bob_tokens : TokenPair :=
  match Issue keys (30 * sec) (60 * sec) (t0 + 20 * sec) "j1" "j2" (Some bob_principal) with
  | inr q => q
  | inl _ => mkTokenPair "" "" "" "" 0 0 ""
  end.

Lemma state_ok : json_ok (mkState (base64_RawURL [1; 2; 3]) "/alerts" (Unix t0) (Unix (t0 + ttl codec))).
Proof. vm_compute. split; [reflexivity|split; split; (reflexivity || discriminate)]. Qed.

Lemma state_roundtrip_witness : Decode codec (t0 + 20 * sec) token = inr (mkState "AQID" "/alerts" (Unix t0) (Unix (t0 + ttl codec))).
Proof.
  transitivity (if Unix (t0 + 20 * sec) <=? Unix (t0 + ttl codec)
                then inr (mkState (base64_RawURL [1; 2; 3]) "/alerts" (Unix t0) (Unix (t0 + ttl codec))) else inl ErrInvalidState);
    [apply (state_roundtrip state_bytes codec t0 (t0 + 20 * sec) (base64_RawURL [1; 2; 3]) "/alerts" token);
       [apply state_ok|vm_compute; reflexivity]
    |vm_compute; reflexivity].
Defined.

Lemma oidc_map_spec_witness :
  exists p', (mapped.2 = inr 1%nat) /\ mapped.1.2 = <[1%nat := p']> ∅ /\ ID p' = "p1" /\ Type_ p' = PrincipalHuman /\ IsActive (Some p') = true /\
    roles_from_groups (GroupRoleMap cfg) ["siem-admins"; "payroll"] p' /\
    MemoryPrincipalStore.FindBySubject mapped.1.1 (PrincipalSubject bob') = inr (Some 1%nat).
Proof.
  exact (oidc_map_spec true (GroupRoleMap cfg) no_principals mapped.1.1 ∅ mapped.1.2 bob' "p1" (t0 + 20 * sec) 1 mapped.2
           ltac:(discriminate) ltac:(discriminate) ltac:(discriminate) eq_refl).
Defined.

Lemma tokens_issued : Issue keys (30 * sec) (60 * sec) (t0 + 20 * sec) "j1" "j2" (Some bob_principal) = inr bob_tokens.
Proof. vm_compute. reflexivity. Qed.

Lemma login_roundtrip_witness :
  Callback cfg codec (fun _ => Some bob) keys (30 * sec) (60 * sec) no_principals ∅ req =
    (mapped.1.1, mapped.1.2, mkResponse 302 (mkCookie state_cookie "" true true false None (-1) :: setSessionCookies bob_tokens)
       (Some "/alerts") "").
Proof.
  apply (login_roundtrip state_bytes cfg codec (fun _ => Some bob) keys (30 * sec) (60 * sec) no_principals ∅ mapped.1.1 mapped.1.2
           url [1; 2; 3] t0 t0 "/alerts" token bob 1 bob_principal bob_tokens req).
  - apply state_ok.
  - vm_compute. reflexivity.
  - reflexivity.
  - discriminate.
  - reflexivity.
  - vm_compute. discriminate.
  - vm_compute. discriminate.
  - vm_compute. reflexivity.
  - reflexivity.
  - reflexivity.
  - reflexivity.
  - apply tokens_issued.
Defined.

Lemma callback_result :
  Callback cfg codec (fun _ => Some bob) keys (30 * sec) (60 * sec) no_principals ∅ req =
    (mapped.1.1, mapped.1.2, mkResponse 302 (mkCookie state_cookie "" true true false None (-1) :: setSessionCookies bob_tokens)
       (Some "/alerts") "").
Proof. vm_compute. reflexivity. Qed.

Lemma callback_session_iff_witness :
  let resp := mkResponse 302 (mkCookie state_cookie "" true true false None (-1) :: setSessionCookies bob_tokens) (Some "/alerts") "" in
  exists toks info, session_conditions cfg codec (fun _ => Some bob) keys (30 * sec) (60 * sec) no_principals ∅ req mapped.1.1 mapped.1.2 toks info.
Proof.
  intros resp.
  apply (callback_session_iff cfg codec (fun _ => Some bob) keys (30 * sec) (60 * sec) no_principals ∅ req mapped.1.1 mapped.1.2 resp);
    [exact callback_result|left; reflexivity].
Defined.
End OidcDemo.
