(* ===== verification/Repository.v ===== *)
(** * The event repository

    internal/storage/db (bolt.go, repository.go) and models/alert.go,
    canary.go: assets, events, canary tokens and alerts in four BoltDB buckets,
    keyed by identifier.  The four groups of methods share their bodies in the
    code up to the type; here they share the definitions of [Table]. *)
From stdpp Require Import base list strings gmap.
From Stdlib Require Import ZArith Lia Bool.
From S2P Require Import Prelude Models GoStrings Bolt.
Local Open Scope string_scope.
Local Open Scope list_scope.
Local Open Scope Z_scope.

Definition BucketAssets := "assets".
Definition BucketEvents := "events".
Definition BucketCanaryTokens := "canary_tokens".
Definition BucketAlerts := "alerts".

(** ** Alerts and canary tokens *)

Definition AlertStatusNew := "NEW".
Definition AlertStatusTriaging := "TRIAGING".
Definition AlertStatusContained := "CONTAINED".
Definition AlertStatusClosed := "CLOSED".

Record Alert := mkAlert {
  al_ID : string; RuleName : string; Severity : string; al_Status : string; al_Source : string; al_Destination : string;
  MitreTactic : string; ChainEvents : list string; Note : string; TriggeredAt : gotime; UpdatedAt : gotime }.

Definition meta_str (m : gmap string gany) (k : string) : string := match m !! k with Some (VString s) => s | _ => "" end.

Definition AlertFromEvent (e : NetworkEvent) : Alert :=
  let m := ne_Metadata e in
  let chain := match m !! "chain_events" with
               | Some (VStrings l) => l
               | Some (VList raw) => omap (fun item => match item with VString s => Some s | _ => None end) raw
               | _ => []
               end in
  mkAlert (ne_ID e) (meta_str m "rule") (meta_str m "severity") AlertStatusNew (ne_Source e) (ne_Destination e)
    (meta_str m "mitre_tactic") chain "" (ne_Timestamp e) (ne_Timestamp e).

Definition CanaryDNS := "DNS".
Definition CanaryHTTP := "HTTP".

Record CanaryToken := mkCanary {
  ct_ID : string; Token : string; ct_Type : string; Label : string; Subdomain : string; URL : string; ct_CreatedAt : gotime;
  ct_TriggeredAt : option gotime; TriggerCount : Z; LastTriggerSource : string }.

(** ** A bucket of JSON records *)

Inductive dberror := ErrMarshalRecord | ErrPut | ErrTx | ErrNotFound | ErrUnmarshalRecord | ErrCreateBucket.

Section Table.
Context {store : Type} `{Bolt store} {A : Type} `{JSON A}.
Variable (name : string) (key_of : A -> string).

Definition save (db : store) (a : A) : store * res dberror unit :=
  Update ErrTx db (fun tx =>
    match bucket tx name with
    | None => match Marshal a with None => RErr ErrMarshalRecord | Some _ => RPanic end
    | Some _ =>
        match Marshal a with
        | None => RErr ErrMarshalRecord
        | Some data => let! tx := bkt_Put ErrPut tx name (go_bytes (key_of a)) data in ROk (tx, tt)
        end
    end).

Definition get (db : store) (id : string) : res dberror A :=
  let! data := bkt_Get db name (go_bytes id) in
  match data with
  | None => RErr ErrNotFound
  | Some data => match Unmarshal data with None => RErr ErrUnmarshalRecord | Some a => ROk a end
  end.

(** Corrupt entries are skipped. *)
Definition list_all (db : store) : res dberror (list A) :=
  let! l := bkt_entries db name in ROk (omap (fun '(_, v) => Unmarshal v) l).

(** The cursor scan from the last key, with its break at the limit. *)
Fixpoint scan (keep : A -> bool) (limit : nat) (l : list (bytes * bytes)) (out : list A) : list A :=
  match l with
  | [] => out
  | (_, v) :: l' =>
      if (limit <=? length out)%nat then out
      else match Unmarshal v with
           | None => scan keep limit l' out
           | Some a => if keep a then scan keep limit l' (out ++ [a]) else scan keep limit l' out
           end
  end.

Definition list_last (default_limit : nat) (limit : Z) (keep : A -> bool) (db : store) : res dberror (list A) :=
  let limit := if limit <=? 0 then default_limit else Z.to_nat limit in
  let! l := bkt_entries db name in ROk (scan keep limit (reverse l) []).

(** ** The table as a map *)

(** The bucket holds exactly the records of [m], each under its identifier. *)
Definition holds (db : store) (m : gmap string A) : Prop :=
  exists l, bucket db name = Some l /\
    forall k, match kv_get k l with
              | None => forall id, k = go_bytes id -> m !! id = None
              | Some v => exists id a, k = go_bytes id /\ m !! id = Some a /\ Unmarshal v = Some a
              end.

Context `{!BoltLaws store} `{!JSONLaws A}.

Lemma holds_lookup db m : holds db m -> exists l, bucket db name = Some l /\
  forall id, match m !! id with
             | Some a => exists v, kv_get (go_bytes id) l = Some v /\ Unmarshal v = Some a
             | None => kv_get (go_bytes id) l = None
             end.
Proof.
  intros (l & Hb & Hk). exists l. split; [done|]. intros id. specialize (Hk (go_bytes id)).
  destruct (kv_get (go_bytes id) l) as [v|].
  - destruct Hk as (id' & a & ->%go_bytes_inj & -> & Hu). by exists v.
  - by rewrite (Hk id eq_refl).
Qed.

(** Reading: exactly the record stored under the identifier. *)
Lemma get_holds db m id : holds db m -> get db id = match m !! id with Some a => ROk a | None => RErr ErrNotFound end.
Proof.
  intros (l & Hb & Hk)%holds_lookup. unfold get, bkt_Get. rewrite Hb. cbn [res_bind]. specialize (Hk id).
  destruct (m !! id); [destruct Hk as (v & -> & ->)|rewrite Hk]; done.
Qed.

(** One record written under its identifier. *)
Lemma put_holds db m id a data db1 db2 :
  holds db m -> json_ok a -> Marshal a = Some data -> Put db name (go_bytes id) data = Some db1 -> Commit db1 = Some db2 ->
  holds db2 (<[id := a]> m) /\ forall n, n <> name -> bucket db2 n = bucket db n.
Proof.
  intros (l & Hb & Hk) Hok Hm Hp Hc. destruct (put_spec _ _ _ _ _ _ Hp Hb) as [(l' & Hb' & Hget) Hother].
  split; [|intros n Hn; rewrite (commit_spec _ _ Hc); by apply Hother].
  exists l'. split; [by rewrite (commit_spec _ _ Hc)|]. intros k. rewrite Hget. case_bool_decide as Heq.
  - subst k. exists id, a. split; [done|]. rewrite lookup_insert_eq. split; [done|]. by eapply json_roundtrip.
  - specialize (Hk k). destruct (kv_get k l) as [v|].
    + destruct Hk as (id' & a' & -> & Hm' & Hu). exists id', a'. rewrite lookup_insert_ne by congruence. done.
    + intros id' ->. rewrite lookup_insert_ne by congruence. by apply Hk.
Qed.

(** Saving is an insertion, or fails and changes nothing. *)
Lemma save_holds db m a db' r : holds db m -> json_ok a -> save db a = (db', r) ->
  match r with
  | ROk _ => holds db' (<[key_of a := a]> m) /\ forall n, n <> name -> bucket db' n = bucket db n
  | RErr _ => db' = db
  | RPanic => False
  end.
Proof.
  intros Hh Hok Hs. pose proof Hh as (l & Hb & _). unfold save, Update, bkt_Put in Hs. rewrite Hb in Hs.
  destruct (Marshal a) as [data|] eqn:Hm; [|by simplify_eq].
  destruct (Put db name (go_bytes (key_of a)) data) as [db1|] eqn:Hp; cbn [res_bind] in Hs; [|by simplify_eq].
  destruct (Commit db1) as [db2|] eqn:Hc; simplify_eq; [|done]. by eapply put_holds.
Qed.

(** Listing a table whose records know their identifiers: every record once. *)
Lemma list_all_holds db m : holds db m -> (forall id a, m !! id = Some a -> key_of a = id) ->
  exists l, list_all db = ROk l /\ NoDup (key_of <$> l) /\ forall a, a ∈ l <-> m !! key_of a = Some a.
Proof.
  intros (l & Hb & Hk) Hkey. unfold list_all, bkt_entries. rewrite Hb. cbn [res_bind]. eexists. split; [done|].
  pose proof (bucket_nodup _ _ _ Hb) as Hnd.
  assert (forall k v, (k, v) ∈ l -> exists a, Unmarshal v = Some a /\ k = go_bytes (key_of a) /\ m !! key_of a = Some a) as Hrec.
  { intros k v Hin. specialize (Hk k). rewrite (kv_get_elem _ _ _ Hnd Hin) in Hk. destruct Hk as (id & a & -> & Hm & Hu).
    exists a. by rewrite (Hkey id a Hm). }
  split.
  - clear Hk Hb. induction l as [|[k v] l IH]; [constructor|]. cbn [omap list_omap]. cbn [fmap list_fmap] in Hnd.
    apply NoDup_cons in Hnd as [Hni Hnd]. destruct (Hrec k v ltac:(constructor)) as (a & -> & -> & _). cbn [fmap list_fmap].
    apply NoDup_cons. split; [|apply IH; [done|intros; apply Hrec; by right]].
    intros (b & Hab & Hin)%list_elem_of_fmap. apply list_elem_of_omap in Hin as ([k' v'] & Hin & Hb).
    destruct (Hrec k' v' ltac:(by right)) as (b' & Hb' & -> & _). assert (b' = b) as -> by congruence. apply Hni. rewrite Hab.
    by apply (list_elem_of_fmap_2 fst _ (go_bytes (key_of b), v')).
  - intros a. rewrite list_elem_of_omap. split.
    + intros ([k v] & Hin & Hu). destruct (Hrec k v Hin) as (a' & Hu' & _ & Hm). by assert (a' = a) as -> by congruence.
    + intros Hm. destruct (holds_lookup db m) as (l' & Hb' & Hl'); [by exists l|]. rewrite Hb in Hb'. injection Hb' as <-.
      specialize (Hl' (key_of a)). rewrite Hm in Hl'. destruct Hl' as (v & Hv & Hu). exists (go_bytes (key_of a), v). split; [by apply kv_get_In|done].
Qed.

(** The scan is the first matches in reverse key order. *)
Lemma scan_spec keep limit l : forall out, (length out <= limit)%nat ->
  scan keep limit l out = take limit (out ++ List.filter keep (omap (fun '(_, v) => Unmarshal v) l)).
Proof.
  induction l as [|[k v] l IH]; intros out Hlen; cbn [scan omap list_omap].
  - rewrite app_nil_r, take_ge; done.
  - destruct (Nat.leb_spec limit (length out)).
    { rewrite take_app_le, take_ge by lia. done. }
    destruct (Unmarshal v) as [a|]; [|by apply IH]. cbn [List.filter].
    destruct (keep a); [|by apply IH]. rewrite IH by (rewrite length_app; simpl; lia). by rewrite <- app_assoc.
Qed.
End Table.

(** ** The repository *)

Section Repository.
Context {store : Type} `{Bolt store} `{JSON NetworkEvent} `{JSON CanaryToken} `{JSON Alert} `{JSON Asset}.

(** The buckets [New] creates in one transaction. *)
Definition New (db : store) : store * res dberror unit :=
  Update ErrTx db (fun tx =>
    let create tx n := match CreateBucketIfNotExists tx n with Some tx => ROk tx | None => RErr ErrCreateBucket end in
    let! tx := create tx BucketAssets in
    let! tx := create tx BucketEvents in
    let! tx := create tx BucketCanaryTokens in
    let! tx := create tx BucketAlerts in
    ROk (tx, tt)).

Definition SaveAsset (db : store) (a : Asset) : store * res dberror unit := save BucketAssets as_ID db a.
Definition GetAsset (db : store) (id : string) : res dberror Asset := get BucketAssets db id.
Definition ListAssets (db : store) : res dberror (list Asset) := list_all BucketAssets db.
Definition GetEvent (db : store) (id : string) : res dberror NetworkEvent := get BucketEvents db id.
Definition LogEvent (db : store) (e : NetworkEvent) : store * res dberror unit := save BucketEvents ne_ID db e.
Definition SaveCanaryToken (db : store) (t : CanaryToken) : store * res dberror unit := save BucketCanaryTokens ct_ID db t.
Definition GetCanaryToken (db : store) (id : string) : res dberror CanaryToken := get BucketCanaryTokens db id.
Definition ListCanaryTokens (db : store) : res dberror (list CanaryToken) := list_all BucketCanaryTokens db.
Definition SaveAlert (db : store) (a : Alert) : store * res dberror unit := save BucketAlerts al_ID db a.
Definition GetAlert (db : store) (id : string) : res dberror Alert := get BucketAlerts db id.

(** The patch of [UpdateAlert]. *)
Definition patch_alert (a : Alert) (status note : string) (now : gotime) : Alert :=
  mkAlert (al_ID a) (RuleName a) (Severity a) (if bool_decide (status <> "") then status else al_Status a) (al_Source a)
    (al_Destination a) (MitreTactic a) (ChainEvents a) (if bool_decide (note <> "") then note else Note a) (TriggeredAt a) now.

Definition UpdateAlert (db : store) (id status note : string) (now : gotime) : store * res dberror Alert :=
  Update ErrTx db (fun tx =>
    let! data := bkt_Get tx BucketAlerts (go_bytes id) in
    match data with
    | None => RErr ErrNotFound
    | Some data =>
        match Unmarshal data with
        | None => RErr ErrUnmarshalRecord
        | Some a =>
            let updated := patch_alert a status note now in
            match Marshal updated with
            | None => RErr ErrMarshalRecord
            | Some out => let! tx := bkt_Put ErrPut tx BucketAlerts (go_bytes id) out in ROk (tx, updated)
            end
        end
    end).

Record AlertFilter := mkFilter { f_Status : string; f_Severity : string; f_Limit : Z }.

(** [strings.EqualFold] on ASCII strings; [unicode_fold] answers for the others. *)
Definition equal_fold (unicode_fold : string -> string -> bool) (s t : string) : bool :=
  if string_forallb is_ascii s && string_forallb is_ascii t then EqualFold s t else unicode_fold s t.

Definition alert_kept (unicode_fold : string -> string -> bool) (f : AlertFilter) (a : Alert) : bool :=
  (bool_decide (f_Status f = "") || bool_decide (al_Status a = f_Status f)) &&
  (bool_decide (f_Severity f = "") || equal_fold unicode_fold (Severity a) (f_Severity f)).

Definition ListAlerts (unicode_fold : string -> string -> bool) (db : store) (f : AlertFilter) : res dberror (list Alert) :=
  list_last BucketAlerts 50 (f_Limit f) (alert_kept unicode_fold f) db.

Definition event_kept (eventType : string) (since : gotime) (e : NetworkEvent) : bool :=
  (bool_decide (eventType = "") || bool_decide (event_type_string (ne_Type e) = eventType)) &&
  (time_IsZero since || negb (ne_Timestamp e <? since)).

Definition ListEventsByType (db : store) (eventType : string) (since : gotime) (limit : Z) : res dberror (list NetworkEvent) :=
  list_last BucketEvents 100 limit (event_kept eventType since) db.

(** The last match in key order. *)
Definition FindCanaryTokenByToken (db : store) (token : string) : res dberror CanaryToken :=
  let! l := bkt_entries db BucketCanaryTokens in
  match foldl (fun found '(_, v) => match Unmarshal v with
                                    | Some t => if bool_decide (Token t = token) then Some t else found
                                    | None => found
                                    end) None l with
  | None => RErr ErrNotFound
  | Some t => ROk t
  end.

Context `{!BoltLaws store} `{!JSONLaws NetworkEvent} `{!JSONLaws CanaryToken} `{!JSONLaws Alert}.

(** Triage of an alert: an update changes the status and the note exactly when
    they are given, refreshes the time of the update and leaves every other field,
    every other alert and every other bucket alone; an unknown identifier is
    reported; on any failure the store is unchanged.  The status is not
    restricted to the four of the lifecycle. *)
Theorem update_alert_spec (db db' : store) (m : gmap string Alert) (id status note : string) (now : gotime) (r : res dberror Alert) :
  holds BucketAlerts db m -> (forall a, m !! id = Some a -> json_ok (patch_alert a status note now)) ->
  UpdateAlert db id status note now = (db', r) ->
  match r with
  | ROk a' => exists a, m !! id = Some a /\ a' = patch_alert a status note now /\ holds BucketAlerts db' (<[id := a']> m) /\
                GetAlert db' id = ROk a' /\ forall n, n <> BucketAlerts -> bucket db' n = bucket db n
  | RErr e => db' = db /\ (e = ErrNotFound <-> m !! id = None)
  | RPanic => False
  end.
Proof.
  intros Hh Hok Hu. pose proof Hh as (l & Hb & Hk)%holds_lookup. specialize (Hk id).
  unfold UpdateAlert, Update, bkt_Get, bkt_Put in Hu. rewrite Hb in Hu. cbn [res_bind] in Hu.
  destruct (m !! id) as [a|] eqn:Hm; [destruct Hk as (v & Hv & Hun); rewrite Hv, Hun in Hu|rewrite Hk in Hu; by simplify_eq].
  destruct (Marshal (patch_alert a status note now)) as [out|] eqn:Hmar; [|by simplify_eq].
  destruct (Put db BucketAlerts (go_bytes id) out) as [db1|] eqn:Hp; cbn [res_bind] in Hu; [|by simplify_eq].
  destruct (Commit db1) as [db2|] eqn:Hc; simplify_eq; [|done].
  destruct (put_holds BucketAlerts db m id _ out db1 db' Hh (Hok a eq_refl) Hmar Hp Hc) as [Hh' Ho].
  exists a. split; [done|]. split; [done|]. split; [done|]. split; [|done].
  unfold GetAlert. rewrite (get_holds _ _ _ id Hh'), lookup_insert_eq. done.
Qed.

(** Listing alerts returns, among the stored alerts in reverse key order, the
    first ones that pass both filters, up to the limit (fifty by default). *)
Theorem list_alerts_spec (unicode_fold : string -> string -> bool) (db : store) (f : AlertFilter) (l : list (bytes * bytes)) :
  bucket db BucketAlerts = Some l ->
  ListAlerts unicode_fold db f =
    ROk (take (if f_Limit f <=? 0 then 50 else Z.to_nat (f_Limit f))
           (List.filter (alert_kept unicode_fold f) (omap (fun '(_, v) => Unmarshal v) (reverse l)))).
Proof.
  intros Hb. unfold ListAlerts, list_last, bkt_entries. rewrite Hb. cbn [res_bind].
  by rewrite scan_spec by (simpl; lia).
Qed.
End Repository.

(** ** Two alerts *)

Module RepositoryDemo.
Import MapBolt.
Definition a1 : Alert := mkAlert "a1" "PORT_SWEEP" "High" AlertStatusNew "10.0.0.5" "" "TA0043" [] "" 10 10.
Definition a2 : Alert := mkAlert "a2" "DNS_TUNNEL" "LOW" AlertStatusNew "10.0.0.6" "" "" [] "" 20 20.
Definition a1' : Alert := patch_alert a1 AlertStatusTriaging "looking" 30.

(** A code for these alerts, standing for JSON. *)
#[local] Instance alert_json : JSON Alert := {
  Marshal a := Some [UpdatedAt a];
  Unmarshal b := match b with [10] => Some a1 | [20] => Some a2 | [30] => Some a1' | _ => None end;
  json_ok a := a = a1 \/ a = a2 \/ a = a1' }.
#[local] Instance alert_laws : JSONLaws Alert.
Proof. intros a b [->|[->| ->]] Hm; injection Hm as <-; reflexivity. Qed.

Definition db1 : MapBolt.t := {[ BucketAlerts := {[ go_bytes "a1" := [10] ]} ]}.
Definition db2 : MapBolt.t := (SaveAlert db1 a2).1.

Lemma db1_holds : holds BucketAlerts db1 {[ "a1" := a1 ]}.
Proof.
  exists [(go_bytes "a1", [10])]. split; [reflexivity|]. intros k. cbn [kv_get]. case_bool_decide as Hk.
  - exists "a1", a1. split; [done|]. rewrite lookup_singleton_eq. done.
  - intros id ->. apply lookup_singleton_ne. congruence.
Qed.

Lemma update_alert_spec_witness :
  match (UpdateAlert db1 "a1" AlertStatusTriaging "looking" 30).2 with
  | ROk a' => exists a, ({[ "a1" := a1 ]} : gmap string Alert) !! "a1" = Some a /\ a' = patch_alert a AlertStatusTriaging "looking" 30 /\
                GetAlert (UpdateAlert db1 "a1" AlertStatusTriaging "looking" 30).1 "a1" = ROk a'
  | RErr e => (e = ErrNotFound <-> ({[ "a1" := a1 ]} : gmap string Alert) !! "a1" = None)
  | RPanic => False
  end.
Proof.
  pose proof (update_alert_spec db1 (UpdateAlert db1 "a1" AlertStatusTriaging "looking" 30).1 {[ "a1" := a1 ]} "a1" AlertStatusTriaging
                "looking" 30 (UpdateAlert db1 "a1" AlertStatusTriaging "looking" 30).2 db1_holds) as Hu.
  destruct (UpdateAlert db1 "a1" AlertStatusTriaging "looking" 30) as [db' r]. cbn [fst snd] in *.
  assert (forall a, ({[ "a1" := a1 ]} : gmap string Alert) !! "a1" = Some a -> json_ok (patch_alert a AlertStatusTriaging "looking" 30)) as Hok.
  { intros a Ha. rewrite lookup_singleton_eq in Ha. injection Ha as <-. right. right. reflexivity. }
  specialize (Hu Hok eq_refl). destruct r as [a'|e|]; [|exact (proj2 Hu)|exact Hu].
  destruct Hu as (a & Ha & Hp & _ & Hg & _). exists a. split; [exact Ha|]. split; [exact Hp|exact Hg].
Defined.

Lemma list_alerts_spec_witness :
  ListAlerts (fun _ _ => false) db2 (mkFilter "" "HIGH" 0) = ROk [a1].
Proof.
  transitivity (ROk (E := dberror) (take 50 (List.filter (alert_kept (fun _ _ => false) (mkFilter "" "HIGH" 0))
     (omap (fun '(_, v) => Unmarshal v) (reverse [(go_bytes "a1", [10]); (go_bytes "a2", [20])])))));
    [apply (list_alerts_spec (fun _ _ => false) db2 (mkFilter "" "HIGH" 0)); vm_compute; reflexivity|vm_compute; reflexivity].
Defined.

(** Any status is accepted. *)
Example any_status : (al_Status <$> (match (UpdateAlert db1 "a1" "REOPENED?" "" 30).2 with ROk a => Some a | _ => None end)) = Some "REOPENED?".
Proof. vm_compute. reflexivity. Qed.
End RepositoryDemo.
