(* ===== verification/Canary.v ===== *)
(** * Canary tokens

    internal/canary: token.go, http_token.go and trigger.go over the
    [Repository].  A token is a planted subdomain or URL; when a correlation rule
    reports that one was touched, its bookkeeping is updated. *)
From stdpp Require Import base list strings gmap.
From Stdlib Require Import ZArith Lia Bool Ascii.
From S2P Require Import Prelude Models GoStrings Bolt Repository.
Local Open Scope string_scope.
Local Open Scope list_scope.
Local Open Scope Z_scope.

(** ** Strings *)

(** [strings.TrimLeft(s, "/")], [TrimRight] and [Trim]. *)
Fixpoint trim_left_slash (s : string) : string :=
  match s with String c s' => if Ascii.eqb c "/" then trim_left_slash s' else s | EmptyString => EmptyString end.
Definition trim_right_slash (s : string) : string := rev_string (trim_left_slash (rev_string s)).
Definition trim_slash (s : string) : string := trim_right_slash (trim_left_slash s).

(** The part of a queried name before its first dot. *)
Definition dnsTokenFromQueryName (name : string) : string :=
  let name := trim_suffix_dot name in
  match Cut "." name with None => name | Some (slug, _) => slug end.

(** ** Planting *)

Inductive cterror := ErrRandomSlug | ErrSaveToken (e : dberror).

(** [rand] is the read of eight random bytes. *)
Definition randomSlug (rand : option bytes) : cterror + string :=
  match rand with None => inl ErrRandomSlug | Some b => inr (hex_EncodeToString b) end.

(** Two's complement wrap-around of [int]. *)
Definition int64 (x : Z) : Z := (x + 2 ^ 63) mod 2 ^ 64 - 2 ^ 63.

Section Canary.
Context {store : Type} `{Bolt store} `{JSON NetworkEvent} `{JSON CanaryToken}.

Definition plant (db : store) (t : CanaryToken) : store * res cterror CanaryToken :=
  match SaveCanaryToken db t with
  | (db, ROk _) => (db, ROk t)
  | (db, RErr e) => (db, RErr (ErrSaveToken e))
  | (db, RPanic) => (db, RPanic)
  end.

Definition GenerateDNSToken (db : store) (zone label : string) (rand : option bytes) (uuid : string) (now : gotime)
  : store * res cterror CanaryToken :=
  match randomSlug rand with
  | inl e => (db, RErr e)
  | inr slug => plant db (mkCanary uuid slug CanaryDNS label (slug +:+ "." +:+ zone) "" now None 0 "")
  end.

Definition GenerateHTTPToken (db : store) (baseURL webhookPath label : string) (rand : option bytes) (uuid : string) (now : gotime)
  : store * res cterror CanaryToken :=
  match randomSlug rand with
  | inl e => (db, RErr e)
  | inr slug =>
      let url := trim_right_slash baseURL +:+ "/" +:+ trim_slash webhookPath +:+ "/" +:+ slug in
      plant db (mkCanary uuid slug CanaryHTTP label "" url now None 0 "")
  end.

(** ** Triggering *)

Definition triggered (t : CanaryToken) (now : gotime) (source : string) : CanaryToken :=
  mkCanary (ct_ID t) (Token t) (ct_Type t) (Label t) (Subdomain t) (URL t) (ct_CreatedAt t) (Some now)
    (int64 (TriggerCount t + 1)) source.

Definition trigger_token (rule : string) (orig : NetworkEvent) : string :=
  if bool_decide (rule = "DNS_CANARY_TRIGGERED") then dnsTokenFromQueryName (meta_str (ne_Metadata orig) "name")
  else meta_str (ne_Metadata orig) "canary_token".

(** Errors are dropped: the store is then as it was. *)
Definition RecordTrigger (db : store) (alert : NetworkEvent) (now : gotime) : option store :=
  let rule := meta_str (ne_Metadata alert) "rule" in
  if negb (bool_decide (rule = "DNS_CANARY_TRIGGERED")) && negb (bool_decide (rule = "HTTP_CANARY_TRIGGERED")) then Some db
  else
    match GetEvent db (meta_str (ne_Metadata alert) "trigger_id") with
    | RPanic => None
    | RErr _ => Some db
    | ROk orig =>
        let token := trigger_token rule orig in
        if bool_decide (token = "") then Some db
        else
          match FindCanaryTokenByToken db token with
          | RPanic => None
          | RErr _ => Some db
          | ROk ct =>
              match SaveCanaryToken db (triggered ct now (ne_Destination alert)) with
              | (_, RPanic) => None
              | (db, _) => Some db
              end
          end
    end.

Context `{!BoltLaws store} `{!JSONLaws NetworkEvent} `{!JSONLaws CanaryToken}.

(** ** A touched token is counted *)

(** The search returns a stored token with that slug, if there is one. *)
Lemma find_token_unique db m token id t :
  holds BucketCanaryTokens db m -> m !! id = Some t -> Token t = token ->
  (forall id' t', m !! id' = Some t' -> Token t' = token -> t' = t) ->
  FindCanaryTokenByToken db token = ROk t.
Proof.
  intros Hh Hm Ht Huniq. pose proof Hh as (l & Hb & Hk). unfold FindCanaryTokenByToken, bkt_entries. rewrite Hb. cbn [res_bind].
  pose proof (bucket_nodup _ _ _ Hb) as Hnd.
  assert (exists v, (go_bytes id, v) ∈ l /\ Unmarshal v = Some t) as (v & Hin & Hv).
  { apply holds_lookup in Hh as (l0 & Hb0 & Hk0). rewrite Hb in Hb0. injection Hb0 as <-. specialize (Hk0 id). rewrite Hm in Hk0.
    destruct Hk0 as (v & Hv & Hu). exists v. split; [by apply kv_get_In|done]. }
  assert (forall k v' t', (k, v') ∈ l -> Unmarshal v' = Some t' -> Token t' = token -> t' = t) as Hall.
  { intros k v' t' Hin' Hu Htok. specialize (Hk k). rewrite (kv_get_elem _ _ _ Hnd Hin') in Hk.
    destruct Hk as (id' & a & _ & Hma & Hua). apply (Huniq id'); [congruence|done]. }
  clear Hk Hb Hnd Hh.
  set (f := fun (found : option CanaryToken) '((_, v') : bytes * bytes) => _).
  assert (forall acc, (acc = None \/ acc = Some t) -> (acc = Some t \/ (go_bytes id, v) ∈ l) -> foldl f acc l = Some t) as Hfold.
  { clear Hin. induction l as [|[k v'] l IH]; intros acc Hacc Hor; cbn [foldl].
    - destruct Hor as [|Hin%elem_of_nil]; done.
    - assert (f acc (k, v') = None \/ f acc (k, v') = Some t) as Hf.
      { unfold f. destruct (Unmarshal v') as [t'|] eqn:Hu; [|done]. case_bool_decide; [|done]. right. f_equal.
        eapply Hall; [constructor|done|done]. }
      apply IH; [intros; eapply Hall; [by right|done|done]|done|].
      destruct Hor as [->|Hin%elem_of_cons].
      + left. destruct Hf as [Hf|]; [|done]. exfalso. revert Hf. unfold f. destruct (Unmarshal v'); [by case_bool_decide|done].
      + destruct Hin as [[= -> ->]|]; [left|by right]. unfold f. by rewrite Hv, bool_decide_eq_true_2. }
  rewrite Hfold; [done|by left|by right].
Qed.

Lemma Cut_free sep s : free_of sep s -> Cut sep s = None.
Proof.
  destruct (Cut sep s) as [[p r]|] eqn:Hc; [|done]. apply Cut_Some in Hc as [-> _]. unfold free_of. intros Hf. exfalso.
  induction p as [|a p IH].
  - change (string_forallb (fun a => negb (Ascii.eqb a sep)) (String sep r) = true) in Hf. simpl in Hf. by rewrite Ascii.eqb_refl in Hf.
  - change (string_forallb (fun a => negb (Ascii.eqb a sep)) (String a (p +:+ String sep r)) = true) in Hf. simpl in Hf.
    apply andb_true_iff in Hf as [_ Hf]. by apply IH.
Qed.

(** The slug is recovered from any name that starts with it and a dot, with or
    without the dot of the root. *)
Lemma dns_token_slug slug z : free_of "." slug -> dnsTokenFromQueryName (slug +:+ String "." z) = slug.
Proof.
  intros Hf. unfold dnsTokenFromQueryName.
  rewrite trim_suffix_dot_app. destruct z as [|c z]; [by rewrite Cut_free|]. by rewrite Cut_app.
Qed.

Lemma hex_free_dot b : Forall byte_ok b -> free_of "." (hex_EncodeToString b).
Proof.
  assert (forall n, 0 <= n < 16 -> Ascii.eqb (hex_digit n) "." = false) as Hd.
  { intros n Hn. assert (n ∈ seqZ 0 16) as Hin by (apply elem_of_seqZ; lia). clear Hn. revert n Hin.
    apply Forall_forall. vm_compute. repeat constructor. }
  induction 1 as [|x b Hx _ IH]; [done|]. unfold free_of, byte_ok in *. cbn [hex_EncodeToString string_forallb].
  rewrite !Hd, IH; [done| |]; Z.to_euclidean_division_equations; lia.
Qed.

(** A canary alert that refers to a stored event for a token triggers exactly that
    token. *)
Lemma record_trigger_counts db m events id t orig alert now (rule := meta_str (ne_Metadata alert) "rule") :
  holds BucketCanaryTokens db m -> m !! id = Some t -> ct_ID t = id -> Token t <> "" ->
  (forall id' t', m !! id' = Some t' -> Token t' = Token t -> t' = t) ->
  holds BucketEvents db events -> events !! ne_ID orig = Some orig -> trigger_token rule orig = Token t ->
  rule = "DNS_CANARY_TRIGGERED" \/ rule = "HTTP_CANARY_TRIGGERED" -> meta_str (ne_Metadata alert) "trigger_id" = ne_ID orig ->
  json_ok (triggered t now (ne_Destination alert)) ->
  exists db' r, RecordTrigger db alert now = Some db' /\ SaveCanaryToken db (triggered t now (ne_Destination alert)) = (db', r) /\
    match r with
    | ROk _ => holds BucketCanaryTokens db' (<[id := triggered t now (ne_Destination alert)]> m) /\
               forall n, n <> BucketCanaryTokens -> bucket db' n = bucket db n
    | RErr _ => db' = db
    | RPanic => False
    end.
Proof.
  intros Hh Hm Hid Hne Huniq Hev Horig Htok Hrule Htrig Hok.
  destruct (SaveCanaryToken db (triggered t now (ne_Destination alert))) as [db' r] eqn:Hs.
  pose proof (save_holds _ _ _ _ _ _ _ Hh Hok Hs) as Hsave. change (ct_ID (triggered t now _)) with (ct_ID t) in Hsave. rewrite Hid in Hsave.
  exists db', r. split; [|split; [done|by destruct r]].
  unfold RecordTrigger, GetEvent. fold rule. rewrite Htrig, (get_holds _ _ _ _ Hev), Horig, Htok.
  rewrite (bool_decide_eq_false_2 (Token t = "")) by done.
  rewrite (find_token_unique db m (Token t) id t Hh Hm eq_refl Huniq), Hs.
  destruct Hrule as [Hr|Hr]; rewrite Hr; cbn -[SaveCanaryToken]; by destruct r.
Qed.

(** A planted DNS token that is touched is counted: after the token is planted
    and a query for a name under its subdomain is logged as an event, the alert of
    the canary rule that refers to the event marks the token as triggered once, by
    the alert's destination, unless the write of the token itself fails, and then
    the store is as it was. *)
Theorem planted_canary_trips (db db1 db2 : store) (m : gmap string CanaryToken) (events : gmap string NetworkEvent)
    (zone label uuid rest : string) (rand : bytes) (created now : gotime) (t : CanaryToken) (orig alert : NetworkEvent) :
  holds BucketCanaryTokens db m -> Forall byte_ok rand -> rand <> [] ->
  (forall id' t', m !! id' = Some t' -> Token t' = hex_EncodeToString rand -> id' = uuid) ->
  json_ok (mkCanary uuid (hex_EncodeToString rand) CanaryDNS label (hex_EncodeToString rand +:+ "." +:+ zone) "" created None 0 "") ->
  GenerateDNSToken db zone label (Some rand) uuid created = (db1, ROk t) ->
  LogEvent db1 orig = (db2, ROk tt) -> holds BucketEvents db1 events -> json_ok orig ->
  meta_str (ne_Metadata orig) "name" = Token t +:+ String "." rest ->
  meta_str (ne_Metadata alert) "rule" = "DNS_CANARY_TRIGGERED" -> meta_str (ne_Metadata alert) "trigger_id" = ne_ID orig ->
  json_ok (triggered t now (ne_Destination alert)) ->
  exists db3 r, RecordTrigger db2 alert now = Some db3 /\
    SaveCanaryToken db2 (triggered t now (ne_Destination alert)) = (db3, r) /\
    match r with
    | ROk _ => GetCanaryToken db3 uuid = ROk (triggered t now (ne_Destination alert)) /\
               TriggerCount (triggered t now (ne_Destination alert)) = 1
    | RErr _ => db3 = db2
    | RPanic => False
    end.
Proof.
  intros Hh Hrand Hne Huniq Hok Hgen Hlog Hev Hoke Hname Hrule Htrig Hok'.
  unfold GenerateDNSToken, randomSlug, plant in Hgen. set (t0 := mkCanary _ _ _ _ _ _ _ _ _ _) in *.
  destruct (SaveCanaryToken db t0) as [db1' r1] eqn:Hs1. destruct r1; try discriminate. injection Hgen as -> <-. unfold SaveCanaryToken in Hs1.
  destruct (save_holds _ _ _ _ _ _ _ Hh Hok Hs1) as [Hh1 _]. change (ct_ID t0) with uuid in Hh1.
  unfold LogEvent in Hlog. destruct (save_holds _ _ _ _ _ _ _ Hev Hoke Hlog) as [Hev2 Hother].
  assert (holds BucketCanaryTokens db2 (<[uuid := t0]> m)) as Hh2.
  { destruct Hh1 as (l & Hb & Hk). exists l. split; [|done]. by rewrite Hother. }
  change (Token t0) with (hex_EncodeToString rand) in Hname.
  assert (hex_EncodeToString rand <> "") as Hslug by (by destruct rand).
  destruct (record_trigger_counts db2 (<[uuid := t0]> m) (<[ne_ID orig := orig]> events) uuid t0 orig alert now) as (db3 & r & Hr & Hs & Hres);
    try done; try (by apply lookup_insert_eq); try (by left); [|unfold trigger_token; rewrite Hrule, bool_decide_eq_true_2, Hname by done; by apply dns_token_slug, hex_free_dot|].
  { intros id' t' Hid' Htok. destruct (decide (id' = uuid)) as [->|Hn]; [rewrite lookup_insert_eq in Hid'; congruence|].
    rewrite lookup_insert_ne in Hid' by done. by destruct (Hn (Huniq _ _ Hid' Htok)). }
  exists db3, r. split; [done|]. split; [done|]. destruct r as [u|e|]; [|done|done]. destruct Hres as [Hh3 _]. split; [|done].
  unfold GetCanaryToken. by rewrite (get_holds _ _ _ _ Hh3), lookup_insert_eq.
Qed.
End Canary.

(** ** A planted and touched token *)

Module CanaryDemo.
Import MapBolt.
Definition slug : bytes := [161; 178].
Definition planted : CanaryToken := mkCanary "c1" "a1b2" CanaryDNS "honey" "a1b2.canary.internal" "" 10 None 0 "".
Definition touched : CanaryToken := triggered planted 30 "10.0.0.9".
Definition query : NetworkEvent :=
  mkNetworkEvent "e1" EventDNS "10.0.0.9" "" {[ "name" := VString "a1b2.canary.internal." ]} 20 [] "".
Definition alert : NetworkEvent :=
  mkNetworkEvent "a1" EventAlert "CorrelationEngine" "10.0.0.9"
    (<["rule" := VString "DNS_CANARY_TRIGGERED"]> {[ "trigger_id" := VString "e1" ]}) 25 [] "".

(** Codes for the records of this example, standing for JSON. *)
#[local] Instance event_json : JSON NetworkEvent := {
  Marshal e := Some (go_bytes (ne_ID e)); Unmarshal b := if bool_decide (b = go_bytes "e1") then Some query else None;
  json_ok e := e = query }.
#[local] Instance event_laws : JSONLaws NetworkEvent.
Proof. intros e b -> [= <-]. reflexivity. Qed.
#[local] Instance token_json : JSON CanaryToken := {
  Marshal t := Some [TriggerCount t];
  Unmarshal b := match b with [0] => Some planted | [1] => Some touched | _ => None end;
  json_ok t := t = planted \/ t = touched }.
#[local] Instance token_laws : JSONLaws CanaryToken.
Proof. intros t b [->| ->] Hm; injection Hm as <-; reflexivity. Qed.

Definition db0 : MapBolt.t := <[BucketEvents := ∅]> {[ BucketCanaryTokens := ∅ ]}.
Definition db1 : MapBolt.t := (GenerateDNSToken db0 "canary.internal" "honey" (Some slug) "c1" 10).1.
Definition db2 : MapBolt.t := (LogEvent db1 query).1.

Lemma empty_holds {A} `{JSON A} (db : MapBolt.t) n : bucket db n = Some [] -> holds n db (∅ : gmap string A).
Proof. intros Hb. exists []. split; [done|]. intros k. simpl. intros id _. apply lookup_empty. Qed.

Lemma planted_canary_trips_witness :
  exists db3 r, RecordTrigger db2 alert 30 = Some db3 /\ SaveCanaryToken db2 touched = (db3, r) /\
    match r with
    | ROk _ => GetCanaryToken db3 "c1" = ROk touched /\ TriggerCount touched = 1
    | RErr _ => db3 = db2
    | RPanic => False
    end.
Proof.
  apply (planted_canary_trips db0 db1 db2 ∅ ∅ "canary.internal" "honey" "c1" "canary.internal." slug 10 30 planted query alert).
  - apply empty_holds. reflexivity.
  - repeat constructor; discriminate.
  - discriminate.
  - intros id' t' Hl. rewrite lookup_empty in Hl. discriminate.
  - left. reflexivity.
  - vm_compute. reflexivity.
  - vm_compute. reflexivity.
  - apply empty_holds. vm_compute. reflexivity.
  - reflexivity.
  - vm_compute. reflexivity.
  - reflexivity.
  - reflexivity.
  - right. reflexivity.
Defined.

Example touched_counted : GetCanaryToken (default db2 (RecordTrigger db2 alert 30)) "c1" = ROk touched.
Proof. vm_compute. reflexivity. Qed.
End CanaryDemo.
