(* ===== verification/Fs.v ===== *)
(** * Files

    What the storage packages use of the Go standard library's [os] and
    [path/filepath]: a disk of named files on which every call may fail, and
    the computation of names.

    A [Machine] fixes which system calls fail and what the clock reads.  The
    theorems about file operations hold for every machine, so a crash is
    covered as well: a program that stops after [n] calls leaves the disk of a
    machine on which no later call has an effect.  Two spellings of one file
    (links, relative names) are different files of the model. *)
From stdpp Require Import base list strings gmap sorting.
From Stdlib Require Import ZArith Lia Bool Ascii.
From S2P Require Import Prelude Models Bolt GoStrings.
Local Open Scope string_scope.
Local Open Scope list_scope.
Local Open Scope Z_scope.

(** ** Names *)

Fixpoint clean_loop (rooted : bool) (out comps : list string) : list string :=
  match comps with
  | [] => out
  | c :: comps' =>
      if bool_decide (c = "") || bool_decide (c = ".") then clean_loop rooted out comps'
      else if bool_decide (c = "..") then
        match out with
        | [] => clean_loop rooted (if rooted then [] else [".."]) comps'
        | top :: rest => clean_loop rooted (if bool_decide (top = "..") then ".." :: out else rest) comps'
        end
      else clean_loop rooted (c :: out) comps'
  end.

(** [filepath.Clean]; the output buffer is the stack of kept components. *)
Definition Clean (p : string) : string :=
  let rooted := HasPrefix p "/" in
  let out := Join (rev (clean_loop rooted [] (Split p "/"))) "/" in
  if rooted then "/" +:+ out else if bool_decide (out = "") then "." else out.

(** [filepath.Join(dir, name)] for a non-empty directory. *)
Definition JoinPath (dir name : string) : string := Clean (dir +:+ "/" +:+ name).

(** [filepath.Dir]: the name up to the last slash, cleaned. *)
Definition Dir (p : string) : string :=
  match rev (Split p "/") with
  | _ :: (_ :: _) as rest => Clean (Join (rev rest) "/" +:+ "/")
  | _ => "."
  end.

Definition base (p : string) : string := List.last (Split p "/") "".

(** [filepath.Ext] of a name without slashes. *)
Definition Ext (name : string) : string :=
  match rev (Split name ".") with e :: _ :: _ => "." +:+ e | _ => "" end.

Example clean_demo : map Clean ["a//b/./c"; "/../a/../b/"; "../x"; ""; "a/.."] = ["a/b/c"; "/b"; "../x"; "."; "."].
Proof. reflexivity. Qed.
Example dir_demo : map Dir ["/var/lib/x.db"; "x.db"; "/x"; "a/b/"] = ["/var/lib"; "."; "/"; "a/b"].
Proof. reflexivity. Qed.
Example ext_demo : map Ext ["backup.db.age"; "backup.db.age.sha256"; "x"] = [".age"; ".sha256"; ""].
Proof. reflexivity. Qed.

(** Go's [<] on strings. *)
Definition name_lt (a b : string) : Prop := bytes_lt (go_bytes a) (go_bytes b).
Definition name_ltb (a b : string) : bool := bytes_ltb (go_bytes a) (go_bytes b).
Definition name_le (a b : string) : Prop := name_ltb b a = false.
#[export] Instance name_le_dec a b : Decision (name_le a b).
Proof. unfold name_le. apply _. Defined.

(** ** The disk *)

Record file := mkFile { body : bytes; mtime : gotime }.
Record disk := mkDisk { files : gmap string file; calls : nat }.

(** A failing write leaves the file alone or leaves the first bytes of the new
    content; any other failing call changes nothing. *)
Inductive outcome := Works | Fails (torn : option nat).

Class Machine := {
  outcome_at : nat -> outcome;
  time_at : nat -> gotime;
  canceled_at : nat -> bool;
}.

Inductive oserr := ErrNotExist | ErrExist | ErrIO | ErrCanceled.

(** Computations on the disk that return a value, an error or panic. *)
Definition M (E A : Type) : Type := disk -> disk * res E A.
Definition ret {E A} (a : A) : M E A := fun d => (d, ROk a).
Definition fail {E A} (e : E) : M E A := fun d => (d, RErr e).
Definition bind {E A B} (m : M E A) (k : A -> M E B) : M E B :=
  fun d => let '(d, r) := m d in
           match r with ROk a => k a d | RErr e => (d, RErr e) | RPanic => (d, RPanic) end.
(** [if err != nil { ... }]: the handler runs and its result is returned. *)
Definition on_error {E E' A} (m : M E A) (h : E -> M E' A) : M E' A :=
  fun d => let '(d, r) := m d in
           match r with ROk a => (d, ROk a) | RErr e => h e d | RPanic => (d, RPanic) end.
Definition wrap_error {E E' A} (f : E -> E') (m : M E A) : M E' A := on_error m (fun e => fail (f e)).
(** [_ = m]: the error is dropped. *)
Definition ignore {E E' A} (m : M E A) : M E' unit := on_error (bind m (fun _ => ret tt)) (fun _ => ret tt).

Declare Scope io_scope.
Delimit Scope io_scope with io.
Notation "'do!' x '<-' m ';' k" := (bind m (fun x => k))
  (at level 200, x pattern, m at level 100, k at level 200, right associativity) : io_scope.
Open Scope io_scope.

Section Calls.
Context `{Machine}.

Definition tick (d : disk) : disk := mkDisk (files d) (S (calls d)).
Definition set_files (d : disk) (f : gmap string file) : disk := mkDisk f (S (calls d)).

(** A call with effect [f] when it works. *)
Definition call {A} (f : disk -> disk * res oserr A) : M oserr A :=
  fun d => match outcome_at (calls d) with Works => f d | Fails _ => (tick d, RErr ErrIO) end.

(** [ctx.Err()] and [time.Now()]. *)
Definition ctx_Err {E} (e : E) : M E unit := fun d => if canceled_at (calls d) then (d, RErr e) else (d, ROk tt).
Definition Now {E} : M E gotime := fun d => (d, ROk (time_at (calls d))).

Definition ReadFile (p : string) : M oserr bytes :=
  call (fun d => match files d !! p with Some f => (tick d, ROk (body f)) | None => (tick d, RErr ErrNotExist) end).

Definition Stat (p : string) : M oserr gotime :=
  call (fun d => match files d !! p with Some f => (tick d, ROk (mtime f)) | None => (tick d, RErr ErrNotExist) end).

(** [if _, err := os.Stat(p); err == nil]: any error counts as absence. *)
Definition found {E} (p : string) : M E bool := on_error (bind (Stat p) (fun _ => ret true)) (fun _ => ret false).

(** Truncates or creates, then writes. *)
Definition WriteFile (p : string) (b : bytes) : M oserr unit := fun d =>
  let put c := set_files d (<[p := mkFile c (time_at (calls d))]> (files d)) in
  match outcome_at (calls d) with
  | Works => (put b, ROk tt)
  | Fails (Some k) => (put (take k b), RErr ErrIO)
  | Fails None => (tick d, RErr ErrIO)
  end.

Definition Rename (p q : string) : M oserr unit :=
  call (fun d => match files d !! p with
                 | Some f => (set_files d (<[q := f]> (delete p (files d))), ROk tt)
                 | None => (tick d, RErr ErrNotExist)
                 end).

Definition Remove (p : string) : M oserr unit :=
  call (fun d => match files d !! p with
                 | Some _ => (set_files d (delete p (files d)), ROk tt)
                 | None => (tick d, RErr ErrNotExist)
                 end).

(** [MkdirAll]: directories are not files of the model. *)
Definition MkdirAll (dir : string) : M oserr unit := call (fun d => (tick d, ROk tt)).

(** The names of the files of a directory, sorted. *)
Definition names_in (dir : string) (f : gmap string file) : list string :=
  merge_sort name_le
    (omap (fun p => let name := base p in if bool_decide (JoinPath dir name = p) then Some name else None)
       (map_to_list f).*1).
Definition ReadDir (dir : string) : M oserr (list string) := call (fun d => (tick d, ROk (names_in dir (files d)))).

(** [os.CreateTemp(dir, prefix + "*" + suffix)]: the first of the random names
    that is not taken; the new file is empty. *)
Definition temp_name (dir prefix rnd suffix : string) : string :=
  (if HasPrefix (rev_string dir) "/" then dir else dir +:+ "/") +:+ prefix +:+ rnd +:+ suffix.
Definition CreateTemp (dir prefix suffix : string) (rnds : list string) : M oserr string :=
  call (fun d =>
    match list_find (fun r => files d !! temp_name dir prefix r suffix = None) rnds with
    | Some (_, r) => let p := temp_name dir prefix r suffix in
                     (set_files d (<[p := mkFile [] (time_at (calls d))]> (files d)), ROk p)
    | None => (tick d, RErr ErrExist)
    end).

(** Closing a written file can report a late write error. *)
Definition Close (p : string) : M oserr unit := call (fun d => (tick d, ROk tt)).
End Calls.

(** ** Lemmas on computations *)

Lemma bind_ROk {E A B} (m : M E A) (k : A -> M E B) d d' b :
  bind m k d = (d', ROk b) -> exists d1 a, m d = (d1, ROk a) /\ k a d1 = (d', ROk b).
Proof. unfold bind. destruct (m d) as [d1 [a| |]]; [eauto|congruence..]. Qed.

Lemma bind_run {E A B} (m : M E A) (k : A -> M E B) d d1 a : m d = (d1, ROk a) -> bind m k d = k a d1.
Proof. unfold bind. by intros ->. Qed.

Lemma bind_fail {E A B} (m : M E A) (k : A -> M E B) d d1 e : m d = (d1, RErr e) -> bind m k d = (d1, RErr e).
Proof. unfold bind. by intros ->. Qed.

(** ** Reasoning about computations

    [triple d m Q R]: run from [d], [m] does not panic; it returns a value
    satisfying [Q] or an error satisfying [R]. *)
Definition triple {E A} (d : disk) (m : M E A) (Q : disk -> A -> Prop) (R : disk -> E -> Prop) : Prop :=
  match m d with
  | (d', ROk a) => Q d' a
  | (d', RErr e) => R d' e
  | (_, RPanic) => False
  end.

Section Rules.
Context {E E' A B : Type}.
Implicit Types (m : M E A) (Q : disk -> A -> Prop) (R : disk -> E -> Prop).

Lemma triple_ret d (a : A) Q R : Q d a -> triple d (ret a) Q R.
Proof. done. Qed.

Lemma triple_fail d (e : E) Q R : R d e -> triple d (fail e) Q R.
Proof. done. Qed.

Lemma triple_bind d m (k : A -> M E B) (Q : disk -> B -> Prop) R :
  triple d m (fun d' a => triple d' (k a) Q R) R -> triple d (bind m k) Q R.
Proof. unfold triple, bind. by destruct (m d) as [d' [a|e|]]. Qed.

Lemma triple_on_error d m (h : E -> M E' A) Q (R' : disk -> E' -> Prop) :
  triple d m Q (fun d' e => triple d' (h e) Q R') -> triple d (on_error m h) Q R'.
Proof. unfold triple, on_error. by destruct (m d) as [d' [a|e|]]. Qed.

Lemma triple_wrap d m (f : E -> E') Q (R' : disk -> E' -> Prop) :
  triple d m Q (fun d' e => R' d' (f e)) -> triple d (wrap_error f m) Q R'.
Proof. unfold triple, wrap_error, on_error, fail. by destruct (m d) as [d' [a|e|]]. Qed.

Lemma triple_weaken d m Q R (Q' : disk -> A -> Prop) (R' : disk -> E -> Prop) :
  triple d m Q R -> (forall d' a, Q d' a -> Q' d' a) -> (forall d' e, R d' e -> R' d' e) -> triple d m Q' R'.
Proof. unfold triple. destruct (m d) as [d' [a|e|]]; auto. Qed.

Lemma triple_run d m Q R d' r :
  triple d m Q R -> m d = (d', r) -> match r with ROk a => Q d' a | RErr e => R d' e | RPanic => False end.
Proof. unfold triple. intros Ht Hm. rewrite Hm in Ht. by destruct r. Qed.
End Rules.

(** Only [p] may have changed. *)
Definition only (p : string) (d d' : disk) : Prop := forall q, q <> p -> files d' !! q = files d !! q.

Lemma only_refl p d : only p d d.
Proof. done. Qed.
Lemma only_trans p d1 d2 d3 : only p d1 d2 -> only p d2 d3 -> only p d1 d3.
Proof. intros H12 H23 q Hq. by rewrite H23, H12. Qed.
Lemma only_same p d d' : files d' = files d -> only p d d'.
Proof. by intros Hf q _; rewrite Hf. Qed.
#[export] Hint Resolve only_refl only_trans only_same : owasaka.

Section CallRules.
Context `{Machine}.

Lemma triple_WriteFile p b d Q R :
  (forall d' t, only p d d' -> files d' !! p = Some (mkFile b t) -> Q d' tt) -> (forall d' e, only p d d' -> R d' e) ->
  triple d (WriteFile p b) Q R.
Proof.
  intros HQ HR. unfold triple, WriteFile. destruct (outcome_at _) as [|[k|]]; [eapply HQ|apply HR|apply HR]; try by apply only_same.
  - intros q Hq. cbn [files set_files]. by rewrite lookup_insert_ne.
  - cbn [files set_files]. by rewrite lookup_insert_eq.
  - intros q Hq. cbn [files set_files]. by rewrite lookup_insert_ne.
Qed.

Lemma triple_Rename p q d Q R :
  (forall d' f, files d !! p = Some f -> files d' = <[q := f]> (delete p (files d)) -> Q d' tt) ->
  (forall d' e, files d' = files d -> R d' e) -> triple d (Rename p q) Q R.
Proof. intros HQ HR. unfold triple, Rename, call. destruct (outcome_at _), (files d !! p) eqn:Hp; eauto. Qed.

Lemma triple_ReadFile p d Q R :
  (forall d' f, files d' = files d -> files d !! p = Some f -> Q d' (body f)) ->
  (forall d' e, files d' = files d -> R d' e) -> triple d (ReadFile p) Q R.
Proof. intros HQ HR. unfold triple, ReadFile, call. destruct (outcome_at _), (files d !! p) eqn:Hp; eauto. Qed.

Lemma triple_Stat p d Q R :
  (forall d' f, files d' = files d -> files d !! p = Some f -> Q d' (mtime f)) ->
  (forall d' e, files d' = files d -> R d' e) -> triple d (Stat p) Q R.
Proof. intros HQ HR. unfold triple, Stat, call. destruct (outcome_at _), (files d !! p) eqn:Hp; eauto. Qed.

Lemma triple_found {E} p d Q R :
  (forall b : bool, (b = true -> is_Some (files d !! p)) ->
     (outcome_at (calls d) = Works -> is_Some (files d !! p) -> b = true) -> Q (tick d) b) ->
  triple d (found (E := E) p) Q R.
Proof.
  intros HQ. unfold triple, found, on_error, bind, Stat, call.
  destruct (outcome_at (calls d)) eqn:Ho, (files d !! p) as [f|] eqn:Hp; cbn; apply HQ; try done; try (by eexists); by intros _ [].
Qed.

Lemma triple_ReadDir dir d Q R :
  (forall d', files d' = files d -> Q d' (names_in dir (files d))) -> (forall d' e, files d' = files d -> R d' e) ->
  triple d (ReadDir dir) Q R.
Proof. intros HQ HR. unfold triple, ReadDir, call. destruct (outcome_at _); eauto. Qed.

Lemma triple_Close p d Q R :
  (forall d', files d' = files d -> Q d' tt) -> (forall d' e, files d' = files d -> R d' e) -> triple d (Close p) Q R.
Proof. intros HQ HR. unfold triple, Close, call. destruct (outcome_at _); eauto. Qed.

Lemma triple_ctx_Err {E} (e : E) d (Q : disk -> unit -> Prop) R : Q d tt -> R d e -> triple d (ctx_Err e) Q R.
Proof. intros HQ HR. unfold triple, ctx_Err. by destruct (canceled_at _). Qed.

Lemma triple_Now {E} d (Q : disk -> gotime -> Prop) (R : disk -> E -> Prop) : Q d (time_at (calls d)) -> triple d Now Q R.
Proof. done. Qed.

Lemma triple_CreateTemp dir prefix suffix rnds d Q R :
  (forall d' rnd t, let p := temp_name dir prefix rnd suffix in
     rnd ∈ rnds -> files d !! p = None -> files d' = <[p := mkFile [] t]> (files d) -> Q d' p) ->
  (forall d' e, files d' = files d -> R d' e) -> triple d (CreateTemp dir prefix suffix rnds) Q R.
Proof.
  intros HQ HR. unfold triple, CreateTemp, call. destruct (outcome_at _); [|eauto].
  destruct (list_find _ _) as [[i s]|] eqn:Hf; [|eauto]. apply list_find_Some in Hf as (Hi & Hn & _).
  eapply HQ; [by eapply list_elem_of_lookup_2|done|done].
Qed.

(** The removal of a file whose failure is ignored. *)
Lemma triple_ignore_Remove {E} p d Q R :
  (forall d', only p d d' -> (files d' !! p = files d !! p \/ files d' !! p = None) ->
     (outcome_at (calls d) = Works -> files d' !! p = None) -> Q d' tt) ->
  triple d (ignore (E' := E) (Remove p)) Q R.
Proof.
  intros HQ. unfold triple, ignore, on_error, bind, Remove, call.
  destruct (outcome_at (calls d)), (files d !! p) as [f|] eqn:Hp; cbn; apply HQ; unfold only; cbn [files tick set_files];
    rewrite ?lookup_delete_eq; auto; try done; intros; by rewrite lookup_delete_ne.
Qed.
End CallRules.

(** On a machine where every call works. *)
Definition works `{Machine} : Prop := forall n, outcome_at n = Works /\ canceled_at n = false.

(** [m] returns [a] and leaves [d']. *)
Definition runs {E A} (d : disk) (m : M E A) (d' : disk) (a : A) : Prop := m d = (d', ROk a).

Lemma runs_bind {E A B} (m : M E A) (k : A -> M E B) d d1 d2 a b :
  runs d m d1 a -> runs d1 (k a) d2 b -> runs d (bind m k) d2 b.
Proof. unfold runs, bind. by intros ->. Qed.

Lemma runs_on_error {E E' A} (m : M E A) (h : E -> M E' A) d d1 a : runs d m d1 a -> runs d (on_error m h) d1 a.
Proof. unfold runs, on_error. by intros ->. Qed.

Section Working.
Context `{Machine} (Hw : works).

Lemma runs_ctx_Err {E} (e : E) d : runs d (ctx_Err e) d tt.
Proof. unfold runs, ctx_Err. by rewrite (proj2 (Hw _)). Qed.

Lemma runs_call {A} (f : disk -> disk * res oserr A) d d' a : f d = (d', ROk a) -> runs d (call f) d' a.
Proof. unfold runs, call. by rewrite (proj1 (Hw _)). Qed.

Lemma runs_ReadFile p f d : files d !! p = Some f -> runs d (ReadFile p) (tick d) (body f).
Proof. intros Hp. apply runs_call. by rewrite Hp. Qed.

Lemma runs_Stat p f d : files d !! p = Some f -> runs d (Stat p) (tick d) (mtime f).
Proof. intros Hp. apply runs_call. by rewrite Hp. Qed.

Lemma runs_WriteFile p b d : exists d' t, runs d (WriteFile p b) d' tt /\ files d' = <[p := mkFile b t]> (files d).
Proof. unfold runs, WriteFile. rewrite (proj1 (Hw _)). do 2 eexists. split; reflexivity. Qed.

Lemma runs_Rename p q f d : files d !! p = Some f ->
  exists d', runs d (Rename p q) d' tt /\ files d' = <[q := f]> (delete p (files d)).
Proof. intros Hp. eexists. split; [apply runs_call; by rewrite Hp|done]. Qed.

Lemma runs_found {E} p d : runs (E := E) d (found p) (tick d) (bool_decide (is_Some (files d !! p))).
Proof.
  unfold runs, found, on_error, bind, Stat, call. rewrite (proj1 (Hw _)). by destruct (files d !! p).
Qed.

Lemma runs_CreateTemp dir prefix suffix rnds d :
  (exists rnd, rnd ∈ rnds /\ files d !! temp_name dir prefix rnd suffix = None) ->
  exists d' rnd t, let p := temp_name dir prefix rnd suffix in
    rnd ∈ rnds /\ runs d (CreateTemp dir prefix suffix rnds) d' p /\ files d' = <[p := mkFile [] t]> (files d).
Proof.
  intros (rnd & Hrnd & Hfree).
  destruct (list_find (fun r => files d !! temp_name dir prefix r suffix = None) rnds) as [[i s]|] eqn:Hf.
  - pose proof Hf as (Hi & _ & _)%list_find_Some. do 3 eexists. split; [by eapply list_elem_of_lookup_2|].
    split; [apply runs_call; by rewrite Hf|done].
  - exfalso. apply list_find_None in Hf. rewrite Forall_forall in Hf. by apply (Hf rnd).
Qed.
End Working.

(** ** Lemmas on names *)

Lemma name_lt_irrefl a : ~ name_lt a a.
Proof. apply bytes_lt_irrefl. Qed.

#[export] Instance name_lt_trans : Transitive name_lt.
Proof. intros a b c. apply bytes_lt_trans. Qed.

Lemma name_lt_total a b : name_lt a b \/ a = b \/ name_lt b a.
Proof. destruct (bytes_lt_total (go_bytes a) (go_bytes b)) as [|[?%go_bytes_inj|]]; unfold name_lt; auto. Qed.

Lemma name_le_lt a b : name_le a b <-> a = b \/ name_lt a b.
Proof.
  unfold name_le, name_ltb. destruct (name_lt_total a b) as [Hlt|[->|Hlt]]; unfold name_lt, bytes_lt in *.
  - split; [auto|intros _]. apply not_true_is_false. intros Hba. apply (name_lt_irrefl a). by eapply bytes_lt_trans.
  - split; [auto|intros _]. apply not_true_is_false, bytes_lt_irrefl.
  - rewrite Hlt. split; [done|]. intros [->|Hab]; exfalso; [by eapply name_lt_irrefl|].
    apply (name_lt_irrefl a). by eapply bytes_lt_trans.
Qed.

#[export] Instance name_le_total : Total name_le.
Proof. intros a b. rewrite !name_le_lt. destruct (name_lt_total a b) as [|[|]]; auto. Qed.

#[export] Instance name_le_trans : Transitive name_le.
Proof.
  intros a b c. rewrite !name_le_lt. intros [->|H1] [->|H2]; auto. right. by etrans.
Qed.

#[export] Instance name_le_antisymm : AntiSymm (=) name_le.
Proof.
  intros a b. rewrite !name_le_lt. intros [|Hab] [|Hba]; auto. exfalso. apply (name_lt_irrefl a). by etrans.
Qed.

(** A name that is one component of a path. *)
Definition good_name (name : string) : Prop := free_of "/" name /\ name <> "" /\ name <> "." /\ name <> "..".

Lemma base_app s name : free_of "/" name -> base (s +:+ String "/" name) = name.
Proof. intros Hf. unfold base. by rewrite Split_app, (Split_free _ name), last_last by done. Qed.

Lemma Join_snoc l x : exists s, Join (l ++ [x]) "/" = x \/ Join (l ++ [x]) "/" = s +:+ String "/" x.
Proof.
  induction l as [|y l [s IH]]; [exists ""; by left|].
  assert (Join ((y :: l) ++ [x]) "/" = y +:+ "/" +:+ Join (l ++ [x]) "/") as -> by (by destruct l).
  destruct IH as [->| ->]; [exists y; by right|]. exists (y +:+ "/" +:+ s). right. by rewrite <- !string_app_assoc.
Qed.

Lemma clean_loop_app rooted out a b : clean_loop rooted out (a ++ b) = clean_loop rooted (clean_loop rooted out a) b.
Proof.
  revert out. induction a as [|c a IH]; intros out; [done|]. cbn [app clean_loop].
  destruct (_ || _); [done|]. destruct (bool_decide _); [destruct out; apply IH|apply IH].
Qed.

(** Joining a directory and a name gives a path whose last component is the name. *)
Lemma base_JoinPath dir name : good_name name -> base (JoinPath dir name) = name.
Proof.
  intros (Hf & H1 & H2 & H3). unfold JoinPath, Clean. change ("/" +:+ name) with (String "/" name).
  rewrite Split_app, (Split_free _ name), clean_loop_app by done. cbn [clean_loop].
  rewrite !bool_decide_eq_false_2 by done. cbn [orb]. generalize (clean_loop (HasPrefix (dir +:+ String "/" name) "/") [] (Split dir "/")).
  intros out. cbn [rev]. destruct (Join_snoc (rev out) name) as [s Hs].
  destruct (HasPrefix _ _); [|rewrite bool_decide_eq_false_2]; destruct Hs as [->| ->]; try done.
  - by apply (base_app "").
  - change ("/" +:+ s +:+ String "/" name) with (("/" +:+ s) +:+ String "/" name). by apply base_app.
  - unfold base. by rewrite Split_free.
  - by apply base_app.
  - by destruct s.
Qed.

Lemma JoinPath_inj dir a b : good_name a -> good_name b -> JoinPath dir a = JoinPath dir b -> a = b.
Proof. intros Ha Hb Heq. by rewrite <- (base_JoinPath dir a), Heq, base_JoinPath. Qed.

(** A directory lists exactly its files, in strictly increasing order. *)
Lemma elem_of_names_in dir f name : name ∈ names_in dir f <-> base (JoinPath dir name) = name /\ is_Some (f !! JoinPath dir name).
Proof.
  unfold names_in. rewrite merge_sort_Permutation, list_elem_of_omap. split.
  - intros (p & Hp & Hn). cbv beta zeta in Hn. case_bool_decide as Heq; simplify_eq. rewrite Heq. split; [done|].
    apply list_elem_of_fmap in Hp as ([p' x] & -> & Hin). apply elem_of_map_to_list in Hin. by eexists.
  - intros [Hb [x Hx]]. exists (JoinPath dir name). split.
    + apply list_elem_of_fmap. exists (JoinPath dir name, x). split; [done|]. by apply elem_of_map_to_list.
    + cbv beta zeta. rewrite Hb. by rewrite bool_decide_eq_true_2.
Qed.

Lemma names_in_sorted dir f : StronglySorted name_lt (names_in dir f).
Proof.
  assert (NoDup (names_in dir f)) as Hnd.
  { unfold names_in. rewrite merge_sort_Permutation. generalize (NoDup_fst_map_to_list f). generalize (map_to_list f).*1.
    intros ps Hps. induction Hps as [|p ps Hp Hps IH]; [constructor|]. cbn [omap list_omap]. case_bool_decide as Heq; [|done].
    constructor; [|done]. intros (q & Hq & Hn)%list_elem_of_omap. cbv beta zeta in Hn. case_bool_decide as Heq'; simplify_eq.
    apply Hp. congruence. }
  assert (StronglySorted name_le (names_in dir f)) as Hs by (apply StronglySorted_merge_sort; apply _).
  revert Hnd. induction Hs as [|x l Hs IH Hall]; intros Hnd; [constructor|]. apply NoDup_cons in Hnd as [Hx Hnd].
  constructor; [by apply IH|]. rewrite Forall_forall in *. intros y Hy.
  destruct (proj1 (name_le_lt x y) (Hall y Hy)) as [->|]; [done|done].
Qed.
