(* ===== verification/Civil.v ===== *)
(** * The calendar is monotone

    Later days have later civil dates, and fixed-width decimal dates compare as
    strings the way they compare as dates.  The 400 years of an era and the 366
    days of a year are checked by evaluation, the rest is their composition. *)
From stdpp Require Import base list strings.
From Stdlib Require Import ZArith Lia Bool Ascii.
From S2P Require Import Prelude Models Bolt GoTime Fs.
Local Open Scope string_scope.
Local Open Scope Z_scope.

(** ** Dates *)

(** The order of year, month and day. *)
Definition date_lt (a b : Z * Z * Z) : Prop :=
  a.1.1 < b.1.1 \/ a.1.1 = b.1.1 /\ (a.1.2 < b.1.2 \/ a.1.2 = b.1.2 /\ a.2 < b.2).

#[export] Instance date_lt_trans : Transitive date_lt.
Proof. intros [[y1 m1] d1] [[y2 m2] d2] [[y3 m3] d3]. unfold date_lt. simpl. lia. Qed.

Definition date_ok (a : Z * Z * Z) : Prop := 1 <= a.1.2 <= 12 /\ 1 <= a.2 <= 31.

(** Years of an era start in March; [year_start] of year 400 is the next era. *)
Definition era : Z := 146097.
Definition yoe (doe : Z) : Z := (doe - doe / 1460 + doe / 36524 - doe / 146096) / 365.
Definition year_start (y : Z) : Z := if y =? 400 then era else 365 * y + y / 4 - y / 100.

(** Month and day of a day of such a year; the calendar year changes in January. *)
Definition month_day (doy : Z) : Z * Z * Z :=
  let mp := (5 * doy + 2) / 153 in
  let m := if mp <? 10 then mp + 3 else mp - 9 in
  (if m <=? 2 then 1 else 0, m, doy - (153 * mp + 2) / 5 + 1).

Definition date_of (y doy : Z) : Z * Z * Z := let '(c, m, d) := month_day doy in (y + c, m, d).

Lemma all_below (P : Z -> bool) (n : nat) :
  forallb P (Z.of_nat <$> seq 0 n) = true -> forall x, 0 <= x < Z.of_nat n -> P x = true.
Proof.
  rewrite forallb_forall. intros Hall x Hx. apply Hall, list_elem_of_In, list_elem_of_fmap.
  exists (Z.to_nat x). split; [lia|]. apply elem_of_seq. lia.
Qed.

Lemma yoe_mono a b : 0 <= a <= b -> b < era -> yoe a <= yoe b.
Proof. unfold yoe, era. intros. apply Z.div_le_mono; [lia|]. Z.to_euclidean_division_equations. lia. Qed.

Definition year_checks (y : Z) : bool :=
  (yoe (year_start y) =? y) && (yoe (year_start (y + 1) - 1) =? y)
  && ((year_start (y + 1) - year_start y =? 365) || (year_start (y + 1) - year_start y =? 366)).

Lemma years_check y : 0 <= y < 400 -> year_checks y = true.
Proof. apply (all_below year_checks 400). vm_compute. reflexivity. Qed.

Lemma year_exists (n : nat) doe : 0 <= doe < year_start (Z.of_nat n) -> (n <= 400)%nat ->
  exists y, 0 <= y < Z.of_nat n /\ year_start y <= doe < year_start (y + 1).
Proof.
  induction n as [|n IH]; intros Hd Hn; [change (year_start (Z.of_nat 0)) with 0 in Hd; lia|].
  destruct (decide (doe < year_start (Z.of_nat n))) as [Hlt|Hge].
  - destruct (IH ltac:(lia) ltac:(lia)) as (y & Hy & Hr). exists y. split; [lia|done].
  - exists (Z.of_nat n). replace (Z.of_nat n + 1) with (Z.of_nat (S n)) by lia. split; lia.
Qed.

(** The year of a day of an era. *)
Lemma yoe_spec doe : 0 <= doe < era ->
  0 <= yoe doe < 400 /\ year_start (yoe doe) <= doe < year_start (yoe doe + 1).
Proof.
  intros Hd. destruct (year_exists 400 doe Hd ltac:(lia)) as (y & Hy & Hr).
  pose proof (years_check y ltac:(lia)) as Hc. unfold year_checks in Hc. rewrite !andb_true_iff, !Z.eqb_eq in Hc.
  assert (0 <= year_start y /\ year_start (y + 1) <= era) as [H0 H1]
    by (unfold year_start, era; split; repeat case_match; Z.to_euclidean_division_equations; lia).
  pose proof (yoe_mono (year_start y) doe ltac:(lia) ltac:(lia)). pose proof (yoe_mono doe (year_start (y + 1) - 1) ltac:(lia) ltac:(lia)).
  assert (yoe doe = y) as -> by lia. done.
Qed.

Lemma civil_date z : civil z =
  let doe := (z + 306) mod era in date_of (yoe doe + (z + 306) / era * 400) (doe - year_start (yoe doe)).
Proof.
  unfold civil, date_of, month_day. cbv zeta.
  pose proof (yoe_spec ((z + 306) mod era) (Z.mod_pos_bound (z + 306) era eq_refl)) as [Hy _].
  unfold year_start, yoe in *. change era with 146097 in *. rewrite (proj2 (Z.eqb_neq _ 400)) by lia.
  destruct (_ <=? 2); repeat f_equal; lia.
Qed.

Definition day_checks (doy : Z) : bool :=
  let '(c, m, d) := month_day doy in
  let '(c', m', d') := month_day (doy + 1) in
  ((1 <=? m) && (m <=? 12) && (1 <=? d) && (d <=? 31)) &&
  ((doy =? 365) || (c <? c') || ((c =? c') && ((m <? m') || ((m =? m') && (d <? d'))))).

Lemma days_check doy : 0 <= doy < 366 -> day_checks doy = true.
Proof. apply (all_below day_checks 366). vm_compute. reflexivity. Qed.

Lemma date_of_ok y doy : 0 <= doy < 366 -> date_ok (date_of y doy).
Proof.
  intros Hd. pose proof (days_check doy Hd) as Hc. unfold day_checks in Hc. unfold date_of, date_ok.
  destruct (month_day doy) as [[c m] d], (month_day (doy + 1)) as [[c' m'] d']. cbn [fst snd].
  rewrite !andb_true_iff, !Z.leb_le in Hc. lia.
Qed.

Lemma date_of_next y doy : 0 <= doy < 365 -> date_lt (date_of y doy) (date_of y (doy + 1)).
Proof.
  intros Hd. pose proof (days_check doy ltac:(lia)) as Hc. unfold day_checks in Hc. unfold date_of, date_lt.
  destruct (month_day doy) as [[c m] d], (month_day (doy + 1)) as [[c' m'] d']. cbn [fst snd].
  rewrite !andb_true_iff, !orb_true_iff, !andb_true_iff, !orb_true_iff, !andb_true_iff, !Z.ltb_lt, !Z.eqb_eq in Hc. lia.
Qed.

(** The last day of a year is the 28th or 29th of February. *)
Lemma date_of_new_year y doy : doy = 364 \/ doy = 365 -> date_lt (date_of y doy) (date_of (y + 1) 0).
Proof.
  intros Hd. unfold date_lt, date_of. change (month_day 0) with (0, 3, 1).
  destruct Hd as [-> | ->]; [change (month_day 364) with (1, 2, 28)|change (month_day 365) with (1, 2, 29)]; cbn [fst snd]; lia.
Qed.

Lemma civil_step z : date_lt (civil z) (civil (z + 1)) /\ date_ok (civil z).
Proof.
  rewrite !civil_date. cbv zeta. set (q := (z + 306) / era). set (r := (z + 306) mod era).
  assert (z + 306 = era * q + r /\ 0 <= r < era) as [Hz Hr] by (split; [by apply Z.div_mod|by apply Z.mod_pos_bound]).
  destruct (yoe_spec r Hr) as [Hy Hs]. pose proof (years_check _ Hy) as Hc.
  unfold year_checks in Hc. rewrite !andb_true_iff, orb_true_iff, !Z.eqb_eq in Hc. split; [|apply date_of_ok; lia].
  destruct (decide (r = era - 1)) as [Hlast|Hlast].
  - assert ((z + 1 + 306) / era = q + 1 /\ (z + 1 + 306) mod era = 0) as [-> ->]
      by (split; [symmetry; apply Z.div_unique with 0|symmetry; apply Z.mod_unique with (q + 1)]; unfold era in *; lia).
    rewrite Hlast. change (yoe (era - 1)) with 399. change (yoe 0) with 0. change (era - 1 - year_start 399) with 365.
    change (0 - year_start 0) with 0. replace (0 + (q + 1) * 400) with (399 + q * 400 + 1) by lia. apply date_of_new_year. by right.
  - assert ((z + 1 + 306) / era = q /\ (z + 1 + 306) mod era = r + 1) as [-> ->]
      by (split; [symmetry; apply Z.div_unique with (r + 1)|symmetry; apply Z.mod_unique with q]; unfold era in *; lia).
    destruct (yoe_spec (r + 1) ltac:(lia)) as [Hy' Hs'].
    destruct (decide (r + 1 = year_start (yoe r + 1))) as [Hnext|Hnext].
    + assert (yoe r + 1 < 400) as Hlt by (destruct (decide (yoe r = 399)) as [He|]; [rewrite He in Hnext; change (year_start (399 + 1)) with era in Hnext; lia|lia]).
      pose proof (years_check (yoe r + 1) ltac:(lia)) as Hc'. unfold year_checks in Hc'. rewrite !andb_true_iff, !Z.eqb_eq in Hc'.
      rewrite Hnext. assert (yoe (year_start (yoe r + 1)) = yoe r + 1) as -> by lia. rewrite Z.sub_diag.
      replace (yoe r + 1 + q * 400) with (yoe r + q * 400 + 1) by lia. apply date_of_new_year. lia.
    + assert (yoe (r + 1) = yoe r) as ->.
      { pose proof (yoe_mono r (r + 1) ltac:(lia) ltac:(lia)).
        assert (forall y, 0 <= y < 400 -> 0 <= year_start (y + 1) <= era) as Hys
          by (intros y ?; unfold year_start, era; repeat case_match; Z.to_euclidean_division_equations; lia).
        pose proof (Hys _ Hy). pose proof (yoe_mono (r + 1) (year_start (yoe r + 1) - 1) ltac:(lia) ltac:(lia)). lia. }
      replace (r + 1 - year_start (yoe r)) with (r - year_start (yoe r) + 1) by lia. apply date_of_next. lia.
Qed.

Lemma civil_mono a b : a < b -> date_lt (civil a) (civil b).
Proof.
  intros Hab. replace b with (a + 1 + Z.of_nat (Z.to_nat (b - a - 1))) by lia. generalize (Z.to_nat (b - a - 1)). clear.
  intros n. induction n as [|n IH]; [rewrite Z.add_0_r; apply civil_step|].
  etrans; [exact IH|]. replace (a + 1 + Z.of_nat (S n)) with (a + 1 + Z.of_nat n + 1) by lia. apply civil_step.
Qed.

(** Days of the years 1 to 9999. *)
Definition last_day : Z := 3652058.

Lemma civil_year z : 0 <= z <= last_day -> 1 <= (civil z).1.1 <= 9999.
Proof.
  intros Hz. split.
  - destruct (decide (z = 0)) as [->|]; [done|]. pose proof (civil_mono 0 z ltac:(lia)) as Hm. unfold date_lt in Hm.
    change (civil 0) with (1, 1, 1) in Hm. cbn [fst snd] in Hm. lia.
  - destruct (decide (z = last_day)) as [->|]; [done|]. pose proof (civil_mono z last_day ltac:(lia)) as Hm. unfold date_lt in Hm.
    change (civil last_day) with (9999, 12, 31) in Hm. cbn [fst snd] in Hm. lia.
Qed.

(** ** Decimal fields compare as numbers *)

Lemma go_bytes_app s t : go_bytes (s +:+ t) = (go_bytes s ++ go_bytes t)%list.
Proof. induction s as [|a s IH]; [done|]. change (String a s +:+ t) with (String a (s +:+ t)). cbn [go_bytes app]. by rewrite IH. Qed.

Lemma bytes_lt_app_l a : forall b x y, length a = length b -> bytes_lt a b -> bytes_lt (a ++ x)%list (b ++ y)%list.
Proof.
  induction a as [|u a IH]; intros [|v b] x y Hl; simpl in Hl; try lia; [done|]. simpl. rewrite !bytes_lt_cons.
  intros [?|[-> ?]]; [by left|right]. split; [done|apply IH; [lia|done]].
Qed.

Lemma literal_lt s t t' : name_lt t t' -> name_lt (s +:+ t) (s +:+ t').
Proof. unfold name_lt. rewrite !go_bytes_app. apply bytes_lt_app. Qed.

Lemma digits_length n : forall v, length (go_bytes (digits n v)) = n.
Proof. induction n as [|n IH]; intros v; [done|]. cbn [digits]. rewrite go_bytes_app, length_app, IH. simpl. lia. Qed.

Lemma digit_byte v : 0 <= v < 10 -> go_bytes (String (ascii_of_N (Z.to_N (48 + v))) "") = [48 + v].
Proof. intros Hv. cbn [go_bytes]. rewrite N_ascii_embedding by lia. f_equal. lia. Qed.

Lemma digits_lt n : forall v w, 0 <= v < w -> w < 10 ^ Z.of_nat n -> name_lt (digits n v) (digits n w).
Proof.
  induction n as [|n IH]; intros v w Hvw Hw; [simpl in Hw; lia|]. rewrite Nat2Z.inj_succ, Z.pow_succ_r in Hw by lia.
  pose proof (Z.div_mod v 10 ltac:(lia)). pose proof (Z.div_mod w 10 ltac:(lia)).
  pose proof (Z.mod_pos_bound v 10 ltac:(lia)). pose proof (Z.mod_pos_bound w 10 ltac:(lia)).
  unfold name_lt in *. cbn [digits]. rewrite !go_bytes_app, !digit_byte by done.
  destruct (decide (v / 10 = w / 10)) as [He|].
  - rewrite He. apply bytes_lt_app, bytes_lt_cons. left. lia.
  - apply bytes_lt_app_l; [by rewrite !digits_length|]. apply IH; [split; [apply Z.div_pos; lia|lia]|].
    apply Z.div_lt_upper_bound; lia.
Qed.

(** A field decides the order, or leaves it to the rest. *)
Lemma field_lt n v w t t' :
  0 <= v -> w < 10 ^ Z.of_nat n -> v < w \/ v = w /\ name_lt t t' -> name_lt (digits n v +:+ t) (digits n w +:+ t').
Proof.
  intros Hv Hw [Hlt|[-> Ht]]; [|by apply literal_lt]. unfold name_lt. rewrite !go_bytes_app.
  apply bytes_lt_app_l; [by rewrite !digits_length|]. by apply digits_lt.
Qed.
