(* ===== verification/Backup.v ===== *)
(** * Backup and restore

    internal/storage/backup: the engine that copies the database into an
    encrypted artifact with a digest beside it, the sinks that keep and rotate
    artifacts, and the restore that verifies one and swaps it in.

    The age encryption and the BoltDB file format are interfaces.  The database
    that is being backed up keeps changing while the backup runs: its state is a
    function of the number of system calls made so far. *)
From stdpp Require Import base list strings gmap sorting.
From Stdlib Require Import ZArith Lia Bool Ascii.
From S2P Require Import Prelude Models Bolt GoTime GoStrings Sha256 MerkleHash MerkleProofs TransparencyLog Sth Fs.
Local Open Scope string_scope.
Local Open Scope list_scope.
Local Open Scope Z_scope.

(** ** Interfaces *)

(** [age.Encrypt] and [age.Decrypt] over whole messages; [seed] is the
    randomness of the envelope, [matches] the pairing of keys. *)
Class Age (Recipient Identity : Type) := {
  age_Encrypt : bytes -> list Recipient -> bytes -> option bytes;
  age_Decrypt : list Identity -> bytes -> option bytes;
  matches : Identity -> Recipient -> Prop;
}.
Class AgeLaws (Recipient Identity : Type) `{Age Recipient Identity} :=
  age_roundtrip : forall seed rs m c ids i r,
    age_Encrypt seed rs m = Some c -> r ∈ rs -> i ∈ ids -> matches i r -> age_Decrypt ids c = Some m.

(** [tx.WriteTo] writes the image of a database, [bolt.Open] reads one. *)
Class BoltFile (store : Type) := {
  image : store -> bytes;
  open_image : bytes -> option store;
}.
Class BoltFileLaws (store : Type) `{BoltFile store} :=
  open_image_spec : forall s : store, open_image (image s) = Some s.

(** ** Types *)

Record Artifact := mkArtifact {
  Filename : string; Encrypted : bytes; Sidecar : bytes; CreatedAt : gotime; TreeSize : Z; RootHashHex : string }.

Definition no_artifact : Artifact := mkArtifact "" [] [] 0 0 "".

Inductive berr :=
| ErrNoSinks | ErrNoSource | ErrNoRecipients | ErrBackupCanceled | ErrSTHMismatch
| ErrNoDir | ErrNoPaths | ErrNoDB | ErrEncrypt | ErrDecrypt | ErrEmptySidecar | ErrSidecarMismatch
| ErrOs (e : oserr) | ErrStaged (e : option terror) | ErrRotate (e : oserr) | ErrSink (name : string) (e : berr).

(** A source and, when it implements [MetadataProvider], its metadata. *)
Record Source := mkSource { WriteTo : M berr bytes; BackupMetadata : option (M berr (Z * string)) }.

Record Sink := mkSink { Name : string; Write : Artifact -> M berr unit }.

(** [formatFilename]; the second 'Z' of the layout is a literal. *)
Definition stamp (t : gotime) : string :=
  let s := t / ns_per_s in
  let '(y, m, d) := civil (s / s_per_day) in
  let r := s mod s_per_day in
  digits 4 y +:+ "-" +:+ digits 2 m +:+ "-" +:+ digits 2 d +:+ "T" +:+ digits 2 (r / 3600) +:+ "-"
    +:+ digits 2 (r / 60 mod 60) +:+ "-" +:+ digits 2 (r mod 60) +:+ "Z".
Definition formatFilename (t : gotime) (treeSize : Z) : string :=
  "backup-" +:+ stamp t +:+ "-tree" +:+ fmt_d treeSize +:+ ".db.age".

(** ** The sidecar *)

Definition sidecar_of (encrypted : bytes) : bytes := go_bytes (hex_EncodeToString (sha256 encrypted) +:+ go_string [10]).

(** [None] is a nil error. *)
Definition VerifySidecar (encrypted sidecar : bytes) : option berr :=
  let gotHex := hex_EncodeToString (sha256 encrypted) in
  let expectedHex := TrimSpace (go_string sidecar) in
  if bool_decide (expectedHex = "") then Some ErrEmptySidecar
  else if negb (EqualFold expectedHex gotHex) then Some ErrSidecarMismatch
  else None.

Section Backup.
Context {store Recipient Identity : Type} `{Machine} `{Bolt store} `{JSON Leaf} `{BoltFile store} `{Age Recipient Identity}.

(** ** Sources *)

Definition hex_root (t : Tree store) : string := hex_EncodeToString (Root t).

(** [BoltSource]: the read transaction sees the database at one moment, the
    metadata is read at a later one. *)
Definition BoltSource (db : option (nat -> store)) (tree : option (nat -> Tree store)) : Source :=
  mkSource
    (match db with
     | None => fail ErrNoDB
     | Some db => do! _ <- ctx_Err ErrBackupCanceled;
                  wrap_error ErrOs (call (fun d => (tick d, ROk (image (db (calls d))))))
     end)
    (Some (fun d => (d, ROk match tree with None => (0, "") | Some tree => (Size (tree (calls d)), hex_root (tree (calls d))) end))).

(** ** Sinks *)

Definition atomicWrite (path : string) (b : bytes) : M oserr unit :=
  let tmp := path +:+ ".tmp" in
  do! _ <- WriteFile tmp b;
  Rename tmp path.

Definition side_name (name : string) : string := name +:+ ".sha256".

(** The complete pairs among the listed names; a failing [os.Stat] skips one. *)
Fixpoint collect_pairs (dir : string) (names : list string) : M oserr (list string) :=
  match names with
  | [] => ret []
  | name :: names' =>
      if negb (bool_decide (Ext name = ".age")) then collect_pairs dir names'
      else
        do! ok <- found (JoinPath dir (side_name name));
        do! rest <- collect_pairs dir names';
        ret (if ok : bool then name :: rest else rest)
  end.

Fixpoint remove_pairs (dir : string) (names : list string) : M oserr unit :=
  match names with
  | [] => ret tt
  | name :: names' =>
      do! _ <- ignore (E' := oserr) (Remove (JoinPath dir name));
      do! _ <- ignore (E' := oserr) (Remove (JoinPath dir (side_name name)));
      remove_pairs dir names'
  end.

(** [keepLast] is positive. *)
Definition rotate (dir : string) (keepLast : Z) : M oserr unit :=
  do! entries <- ReadDir dir;
  do! pairs <- collect_pairs dir entries;
  if Z.of_nat (length pairs) <=? keepLast then ret tt
  else remove_pairs dir (take (length pairs - Z.to_nat keepLast) (merge_sort name_le pairs)).

Definition LocalSink_Write (dir : string) (keepLast : Z) (art : Artifact) : M berr unit :=
  do! _ <- ctx_Err ErrBackupCanceled;
  let encPath := JoinPath dir (Filename art) in
  let sidePath := encPath +:+ ".sha256" in
  do! _ <- wrap_error ErrOs (atomicWrite encPath (Encrypted art));
  do! _ <- on_error (atomicWrite sidePath (Sidecar art))
             (fun e => do! _ <- ignore (Remove encPath); fail (ErrOs e));
  if 0 <? keepLast then wrap_error ErrRotate (rotate dir keepLast) else ret tt.

Definition NewLocalSink (dir : string) (keepLast : Z) : M berr Sink :=
  if bool_decide (dir = "") then fail ErrNoDir
  else do! _ <- wrap_error ErrOs (MkdirAll dir);
       ret (mkSink ("local:" +:+ dir) (LocalSink_Write dir keepLast)).

Fixpoint MultiSink_Write (sinks : list Sink) (art : Artifact) : M berr unit :=
  match sinks with
  | [] => ret tt
  | s :: sinks' =>
      do! _ <- ctx_Err ErrBackupCanceled;
      do! _ <- wrap_error (ErrSink (Name s)) (Write s art);
      MultiSink_Write sinks' art
  end.

Definition NewMultiSink (sinks : list Sink) : res berr Sink :=
  match sinks with
  | [] => RErr ErrNoSinks
  | _ => ROk (mkSink ("multi[" +:+ Join (Name <$> sinks) "," +:+ "]") (MultiSink_Write sinks))
  end.

(** ** The engine *)

Record Engine := mkEngine { source : Source; sinks : list Sink; recipients : list Recipient }.

Definition NewEngine (source : option Source) (sinks : list Sink) (recipients : list Recipient) : res berr Engine :=
  match source with
  | None => RErr ErrNoSource
  | Some source =>
      match sinks, recipients with
      | [], _ => RErr ErrNoSinks
      | _, [] => RErr ErrNoRecipients
      | _, _ => ROk (mkEngine source sinks recipients)
      end
  end.

(** The loop over the sinks; the error carries the artifact. *)
Fixpoint write_sinks (l : list Sink) (art : Artifact) : M (Artifact * berr) unit :=
  match l with
  | [] => ret tt
  | s :: l' =>
      do! _ <- wrap_error (fun e => (art, ErrSink (Name s) e)) (Write s art);
      write_sinks l' art
  end.

(** Metadata that cannot be read is left out. *)
Definition metadata (s : Source) : M (Artifact * berr) (Z * string) :=
  match BackupMetadata s with
  | None => ret (0, "")
  | Some m => on_error m (fun _ => ret (0, ""))
  end.

Definition Run (seed : bytes) (e : Engine) : M (Artifact * berr) Artifact :=
  do! _ <- ctx_Err (no_artifact, ErrBackupCanceled);
  do! now <- Now;
  do! raw <- wrap_error (fun e => (no_artifact, e)) (WriteTo (source e));
  match age_Encrypt seed (recipients e) raw with
  | None => fail (no_artifact, ErrEncrypt)
  | Some encrypted =>
      do! md <- metadata (source e);
      let artifact := mkArtifact (formatFilename now md.1) encrypted (sidecar_of encrypted) now md.1 md.2 in
      do! _ <- write_sinks (sinks e) artifact;
      ret artifact
  end.

Definition DecryptArtifact (encrypted : bytes) (identities : list Identity) : berr + bytes :=
  match identities with
  | [] => inl ErrNoRecipients
  | _ => match age_Decrypt identities encrypted with None => inl ErrDecrypt | Some out => inr out end
  end.

(** ** Restore *)

Record RestoreInput := mkRestoreInput {
  EncryptedPath : string; SidecarPath : string; Identities : list Identity; TargetPath : string;
  ExpectedSTH : option STH; AllowSTHMismatch : bool }.

(** [STHMismatchNote] is kept as the three cases of its text. *)
Inductive note := NoNote | Mismatch (want_size : Z) (want_root : string) (got_size : Z) (got_root : string) | NotCompared.

Record RestoreReport := mkReport {
  BackupCreatedAt : gotime; BackupTreeSize : Z; BackupRootHex : string; SwappedAt : gotime;
  OldDBBackupPath : string; NewDBPath : string; STHMatch : bool; STHMismatchNote : note }.

Definition no_report : RestoreReport := mkReport 0 0 "" 0 "" "" false NoNote.

(** [inspectStaged] opens the file read-write: [transparency.Open] commits the
    missing buckets to it. *)
Definition inspectStaged (path : string) : M berr (Z * string * gotime) :=
  do! createdAt <- wrap_error ErrOs (Stat path);
  do! content <- wrap_error ErrOs (ReadFile path);
  match open_image content with
  | None => fail (ErrStaged None)
  | Some db =>
      match Open (Some db) with
      | ROk tree =>
          do! _ <- wrap_error ErrOs (WriteFile path (image (tdb tree)));
          ret (Size tree, hex_root tree, createdAt)
      | RErr e => fail (ErrStaged (Some e))
      | RPanic => fun d => (d, RPanic)
      end
  end.

(** An error after the staging file exists removes it. *)
Definition cleanup {A} (staging : string) (report : RestoreReport) (m : M berr A) : M (RestoreReport * berr) A :=
  on_error m (fun e => do! _ <- ignore (Remove staging); fail (report, e)).

(** The comparison with the operator's record; [inl] is the refusal. *)
Definition check_sth (sth : option STH) (allow : bool) (report : RestoreReport) : RestoreReport + RestoreReport :=
  match sth with
  | Some sth =>
      let gotHex := BackupRootHex report in
      let wantHex := hex_EncodeToString (sth_RootHash sth) in
      let ok := (sth_TreeSize sth =? BackupTreeSize report) && bool_decide (wantHex = gotHex) in
      let n := if ok then NoNote else Mismatch (sth_TreeSize sth) wantHex (BackupTreeSize report) gotHex in
      let report := mkReport (BackupCreatedAt report) (BackupTreeSize report) (BackupRootHex report) (SwappedAt report)
                      (OldDBBackupPath report) (NewDBPath report) ok n in
      if ok || allow then inr report else inl report
  | None =>
      inr (mkReport (BackupCreatedAt report) (BackupTreeSize report) (BackupRootHex report) (SwappedAt report)
             (OldDBBackupPath report) (NewDBPath report) true NotCompared)
  end.

Definition with_swap (r : RestoreReport) (at_ : gotime) (old : string) : RestoreReport :=
  mkReport (BackupCreatedAt r) (BackupTreeSize r) (BackupRootHex r) at_ old (NewDBPath r) (STHMatch r) (STHMismatchNote r).

Definition bak_path (target : string) (t : gotime) : string := target +:+ ".bak." +:+ stamp t.

(** The rename of the live file aside, when [os.Stat] finds one, and of the
    staging file into its place. *)
Definition swap (staging target : string) (report : RestoreReport) : M (RestoreReport * berr) RestoreReport :=
  do! swapTime <- Now;
  let report := with_swap report swapTime "" in
  do! present <- found target;
  do! report <-
    (if present : bool then
       let bakPath := bak_path target swapTime in
       do! _ <- cleanup staging report (wrap_error ErrOs (Rename target bakPath));
       ret (with_swap report swapTime bakPath)
     else ret report);
  do! _ <- cleanup staging report (wrap_error ErrOs (Rename staging target));
  ret report.

(** The artifact, read, checked against its sidecar and decrypted. *)
Definition read_verified (inp : RestoreInput) : M berr bytes :=
  let sidePath := if bool_decide (SidecarPath inp = "") then EncryptedPath inp +:+ ".sha256" else SidecarPath inp in
  do! enc <- wrap_error ErrOs (ReadFile (EncryptedPath inp));
  do! side <- wrap_error ErrOs (ReadFile sidePath);
  match VerifySidecar enc side with
  | Some e => fail e
  | None => match DecryptArtifact enc (Identities inp) with inl e => fail e | inr plain => ret plain end
  end.

(** The staging file, its inspection and the comparison with the record. *)
Definition stage (rnds : list string) (inp : RestoreInput) (plain : bytes) : M (RestoreReport * berr) (string * RestoreReport) :=
  do! staging <- wrap_error (fun e => (no_report, ErrOs e)) (CreateTemp (Dir (TargetPath inp)) "restore-" ".db" rnds);
  do! _ <- cleanup staging no_report (wrap_error ErrOs (WriteFile staging plain));
  do! _ <- cleanup staging no_report (wrap_error ErrOs (Close staging));
  do! st <- cleanup staging no_report (inspectStaged staging);
  let report := mkReport st.2 st.1.1 st.1.2 0 "" (TargetPath inp) false NoNote in
  match check_sth (ExpectedSTH inp) (AllowSTHMismatch inp) report with
  | inl report => do! _ <- ignore (Remove staging); fail (report, ErrSTHMismatch)
  | inr report => ret (staging, report)
  end.

Definition Restore (rnds : list string) (inp : RestoreInput) : M (RestoreReport * berr) RestoreReport :=
  do! _ <- ctx_Err (no_report, ErrBackupCanceled);
  if bool_decide (EncryptedPath inp = "") || bool_decide (TargetPath inp = "") then fail (no_report, ErrNoPaths)
  else if (length (Identities inp) =? 0)%nat then fail (no_report, ErrNoRecipients)
  else
    do! plain <- wrap_error (fun e => (no_report, e)) (read_verified inp);
    do! staged <- stage rnds inp plain;
    swap staged.1 (TargetPath inp) staged.2.
End Backup.
