(* ===== verification/BackupThm.v ===== *)
(** * Backup and restore: correctness

    What the definitions of [Backup] guarantee, whatever system call fails:
    atomic replacement of files, a rotation that only removes the oldest pairs,
    a restore that leaves the old database or installs the verified one; and the
    round trip from a running log to a restored one. *)
From stdpp Require Import base list strings gmap sorting.
From Stdlib Require Import ZArith Lia Bool Ascii.
From S2P Require Import Prelude Models Bolt GoTime GoStrings Sha256 MerkleHash MerkleProofs TransparencyLog Sth Fs Civil Backup.
Local Open Scope string_scope.
Local Open Scope list_scope.
Local Open Scope Z_scope.

(** ** Names are chronological *)

(** The times of the years 1 to 9999. *)
Definition time_ok (t : gotime) : Prop := 0 <= t / ns_per_s / s_per_day <= last_day.

(** Hours, minutes and seconds of two seconds of the day. *)
Lemma clock_fields r1 r2 : 0 <= r1 < 86400 -> 0 <= r2 < 86400 ->
  (r1 < r2 -> r1 / 3600 < r2 / 3600 \/ r1 / 3600 = r2 / 3600 /\
    (r1 / 60 mod 60 < r2 / 60 mod 60 \/ r1 / 60 mod 60 = r2 / 60 mod 60 /\ r1 mod 60 < r2 mod 60)) /\
  0 <= r1 / 3600 < 24 /\ 0 <= r2 / 3600 < 24 /\ 0 <= r1 / 60 mod 60 < 60 /\ 0 <= r2 / 60 mod 60 < 60 /\
  0 <= r1 mod 60 < 60 /\ 0 <= r2 mod 60 < 60.
Proof.
  intros H1 H2. assert (forall r, r / 3600 = r / 60 / 60) as Hh by (intros; by rewrite Z.div_div). rewrite !Hh.
  pose proof (Z.div_mod r1 60 ltac:(done)). pose proof (Z.div_mod r2 60 ltac:(done)).
  pose proof (Z.mod_pos_bound r1 60 ltac:(done)). pose proof (Z.mod_pos_bound r2 60 ltac:(done)).
  set (a1 := r1 / 60) in *. set (a2 := r2 / 60) in *. pose proof (Z.div_mod a1 60 ltac:(done)). pose proof (Z.div_mod a2 60 ltac:(done)).
  pose proof (Z.mod_pos_bound a1 60 ltac:(done)). pose proof (Z.mod_pos_bound a2 60 ltac:(done)). lia.
Qed.

Lemma stamp_lt t1 t2 rest1 rest2 :
  time_ok t1 -> time_ok t2 -> t1 / ns_per_s < t2 / ns_per_s -> name_lt (stamp t1 +:+ rest1) (stamp t2 +:+ rest2).
Proof.
  unfold time_ok, stamp. intros H1 H2 Hlt. set (s1 := t1 / ns_per_s) in *. set (s2 := t2 / ns_per_s) in *.
  pose proof (civil_step (s1 / s_per_day)) as [_ Hok1]. pose proof (civil_step (s2 / s_per_day)) as [_ Hok2].
  pose proof (civil_year _ H1) as Hy1. pose proof (civil_year _ H2) as Hy2.
  assert (date_lt (civil (s1 / s_per_day)) (civil (s2 / s_per_day)) \/
          civil (s1 / s_per_day) = civil (s2 / s_per_day) /\ s1 mod s_per_day < s2 mod s_per_day) as Hd.
  { pose proof (Z.div_mod s1 s_per_day ltac:(done)). pose proof (Z.div_mod s2 s_per_day ltac:(done)).
    pose proof (Z.div_le_mono s1 s2 s_per_day ltac:(done) ltac:(lia)).
    destruct (decide (s1 / s_per_day = s2 / s_per_day)) as [He|]; [right|left; apply civil_mono; lia]. rewrite He in *. split; [done|lia]. }
  pose proof (Z.mod_pos_bound s1 s_per_day ltac:(done)) as Hr1. pose proof (Z.mod_pos_bound s2 s_per_day ltac:(done)) as Hr2.
  destruct (civil (s1 / s_per_day)) as [[y1 m1] d1], (civil (s2 / s_per_day)) as [[y2 m2] d2].
  set (r1 := s1 mod s_per_day) in *. set (r2 := s2 mod s_per_day) in *. unfold date_lt, date_ok, s_per_day in *. cbn [fst snd] in *.
  assert ((r1 < r2 -> r1 / 3600 < r2 / 3600 \/ r1 / 3600 = r2 / 3600 /\
    (r1 / 60 mod 60 < r2 / 60 mod 60 \/ r1 / 60 mod 60 = r2 / 60 mod 60 /\ r1 mod 60 < r2 mod 60)) /\
    0 <= r1 / 3600 < 24 /\ 0 <= r2 / 3600 < 24 /\ 0 <= r1 / 60 mod 60 < 60 /\ 0 <= r2 / 60 mod 60 < 60 /\
    0 <= r1 mod 60 < 60 /\ 0 <= r2 mod 60 < 60) as (Htime & Hb) by (by apply clock_fields).
  assert ((y1 = y2 /\ m1 = m2 /\ d1 = d2 /\ r1 < r2) \/ y1 < y2 \/ y1 = y2 /\ (m1 < m2 \/ m1 = m2 /\ d1 < d2)) as Hd'
    by (destruct Hd as [|[[= -> -> ->] ?]]; auto). clear Hd.
  rewrite <- !string_app_assoc.
  apply field_lt; [lia|simpl; lia|]. destruct (Z.lt_trichotomy y1 y2) as [|[->|]]; [by left|right; split; [done|]|lia].
  apply literal_lt, field_lt; [lia|simpl; lia|]. destruct (Z.lt_trichotomy m1 m2) as [|[->|]]; [by left|right; split; [done|]|lia].
  apply literal_lt, field_lt; [lia|simpl; lia|]. destruct (Z.lt_trichotomy d1 d2) as [|[->|]]; [by left|right; split; [done|]|lia].
  specialize (Htime ltac:(lia)).
  apply literal_lt, field_lt; [lia|simpl; lia|]. destruct Htime as [|[-> Htime]]; [by left|right; split; [done|]].
  apply literal_lt, field_lt; [lia|simpl; lia|]. destruct Htime as [|[-> Htime]]; [by left|right; split; [done|]].
  apply literal_lt, field_lt; [lia|simpl; lia|]. by left.
Qed.

(** Backup names sort chronologically: of two artifacts created in different
    seconds, whatever their tree sizes, the earlier one has the smaller name. *)
Theorem filenames_chronological (t1 t2 : gotime) (n1 n2 : Z) :
  time_ok t1 -> time_ok t2 -> t1 / ns_per_s < t2 / ns_per_s -> name_lt (formatFilename t1 n1) (formatFilename t2 n2).
Proof. intros H1 H2 Hlt. apply literal_lt. by apply stamp_lt. Qed.

(** Within one second they sort by the text of the tree size: the later, larger
    log of ten leaves sorts before the log of nine. *)
Theorem same_second_misordered (t : gotime) : name_lt (formatFilename t 10) (formatFilename t 9).
Proof. unfold formatFilename. do 3 apply literal_lt. vm_compute. reflexivity. Qed.

(** ** The sidecar *)

Definition hex_chars : list ascii := ["0"; "1"; "2"; "3"; "4"; "5"; "6"; "7"; "8"; "9"; "a"; "b"; "c"; "d"; "e"; "f"]%char.

Inductive hex_text : string -> Prop :=
| hex_nil : hex_text ""
| hex_cons c s : c ∈ hex_chars -> hex_text s -> hex_text (String c s).

Lemma hex_digit_char n : 0 <= n < 16 -> hex_digit n ∈ hex_chars.
Proof.
  intros Hn. assert (forallb (fun n => bool_decide (hex_digit (Z.of_nat n) ∈ hex_chars)) (seq 0 16) = true) as Hall by (vm_compute; reflexivity).
  rewrite forallb_forall in Hall. specialize (Hall (Z.to_nat n)). rewrite Z2Nat.id in Hall by lia.
  eapply bool_decide_eq_true, Hall, in_seq. lia.
Qed.

Lemma hex_text_encode b : Forall byte_ok b -> hex_text (hex_EncodeToString b).
Proof.
  induction 1 as [|x b Hx Hb IH]; [constructor|]. unfold byte_ok in Hx. cbn [hex_EncodeToString].
  apply hex_cons; [|apply hex_cons; [|done]]; apply hex_digit_char; [|apply Z.mod_pos_bound; lia].
  split; [apply Z.div_pos; lia|apply Z.div_lt_upper_bound; lia].
Qed.

Lemma hex_text_app s t : hex_text s -> hex_text t -> hex_text (s +:+ t).
Proof. induction 1 as [|c s Hc Hs IH]; [done|]. change (String c s +:+ t) with (String c (s +:+ t)). by constructor; auto. Qed.

Lemma hex_text_rev s : hex_text s -> hex_text (rev_string s).
Proof. induction 1 as [|c s Hc Hs IH]; [constructor|]. cbn [rev_string]. apply hex_text_app; [done|]. by apply hex_cons; [|constructor]. Qed.

(** Case analysis on a hexadecimal digit. *)
Ltac hex_cases Hc := unfold hex_chars in Hc; repeat (apply elem_of_cons in Hc as [->|Hc]); [..|by apply elem_of_nil in Hc].

(** Such a text neither begins nor ends with white space. *)
Lemma hex_no_space s : hex_text s -> strip_space s = None /\ strip_space_end s = None.
Proof.
  intros Hs. split.
  - destruct Hs as [|c s Hc Hs]; [done|]. unfold strip_space. hex_cases Hc; reflexivity.
  - unfold strip_space_end. destruct (hex_text_rev s Hs) as [|c t Hc Ht]; [done|]. hex_cases Hc; reflexivity.
Qed.

Lemma hex_lower s : hex_text s -> string_map ascii_lower s = s.
Proof. induction 1 as [|c s Hc Hs IH]; [done|]. cbn [string_map]. rewrite IH. f_equal. hex_cases Hc; reflexivity. Qed.

Lemma TrimSpace_hex_line s : hex_text s -> TrimSpace (s +:+ go_string [10]) = s.
Proof.
  intros Hs. destruct (hex_no_space s Hs) as [Hl He].
  assert (forall n, trim_right n s = s) as Hstop by (intros [|n]; [done|]; cbn [trim_right]; by rewrite He).
  assert (strip_space_end (s +:+ go_string [10]) = Some s) as Hend.
  { unfold strip_space_end. rewrite rev_string_app. change (rev_string (go_string [10])) with (go_string [10]).
    change (go_string [10] +:+ rev_string s) with (String (byte_ascii 10) (rev_string s)).
    assert (forall r, first_some (fun e => strip_prefix (rev_string e) (String (byte_ascii 10) r)) space_encodings = Some r) as -> by reflexivity.
    cbn [fmap option_fmap option_map]. by rewrite rev_string_involutive. }
  unfold TrimSpace. assert (forall n, trim_left n (s +:+ go_string [10]) = s +:+ go_string [10] \/ s = "") as Hleft.
  { destruct Hs as [|c s Hc Hs]; [by right|]. intros n. left. destruct n as [|n]; [done|]. cbn [trim_left]. unfold strip_space.
    change (String c s +:+ go_string [10]) with (String c (s +:+ go_string [10])). hex_cases Hc; reflexivity. }
  destruct (Hleft (String.length (s +:+ go_string [10]))) as [->| ->]; [|reflexivity].
  assert (exists n, String.length (s +:+ go_string [10]) = S n) as [n ->] by (destruct s; by eexists).
  cbn [trim_right]. rewrite Hend. apply Hstop.
Qed.

Lemma VerifySidecar_iff enc enc' : VerifySidecar enc (sidecar_of enc') = None <-> sha256 enc = sha256 enc'.
Proof.
  assert (forall b, hex_text (hex_EncodeToString (sha256 b))) as Hhex by (intros; apply hex_text_encode, sha256_bytes).
  unfold VerifySidecar, sidecar_of. rewrite go_bytes_string, TrimSpace_hex_line by apply Hhex. unfold EqualFold.
  rewrite !hex_lower by apply Hhex.
  rewrite bool_decide_eq_false_2 by (intros He; pose proof (length_sha256 enc') as Hl; by destruct (sha256 enc')).
  destruct (bool_decide_reflect (hex_EncodeToString (sha256 enc') = hex_EncodeToString (sha256 enc))) as [He|He]; cbn [negb].
  - split; [|done]. intros _. apply hex_inj in He; [done|apply sha256_bytes..].
  - split; [done|]. intros Hs. by rewrite Hs in He.
Qed.

(** A sidecar accepts the artifact it was written for, and any other bytes it
    accepts collide with them under SHA-256. *)
Theorem sidecar_commits (enc enc' : bytes) : VerifySidecar enc (sidecar_of enc') = None <-> sha256 enc = sha256 enc'.
Proof. apply VerifySidecar_iff. Qed.

(** ** Atomic replacement *)

Lemma app_ne_self s t : t <> "" -> s +:+ t <> s.
Proof.
  intros Ht Heq. apply (f_equal String.length) in Heq.
  assert (String.length (s +:+ t) = String.length s + String.length t)%nat as Hl
    by (clear; induction s as [|a s IH]; [done|]; change (String a s +:+ t) with (String a (s +:+ t)); simpl; by rewrite IH).
  rewrite Hl in Heq. destruct t; [done|]. simpl in Heq. lia.
Qed.

Section Theorems.
Context {store Recipient Identity : Type} `{Machine} `{BoltLaws store} `{JSON Leaf} `{BoltFileLaws store} `{AgeLaws Recipient Identity}.

(** A reader of [path] sees the old file or the whole new one. *)
Lemma triple_atomicWrite (p : string) (b : bytes) (d : disk) Q R :
  let others d' := forall q, q <> p -> q <> p +:+ ".tmp" -> files d' !! q = files d !! q in
  (forall d' t, others d' -> files d' !! p = Some (mkFile b t) -> Q d' tt) ->
  (forall d' e, others d' -> files d' !! p = files d !! p -> R d' e) ->
  triple d (atomicWrite p b) Q R.
Proof.
  intros others HQ HR. pose proof (app_ne_self p ".tmp" ltac:(done)) as Hne. unfold atomicWrite, others, only in *.
  apply triple_bind, triple_WriteFile; [intros d1 t Hd1 Ht|intros d1 e Hd1; apply HR; auto].
  apply triple_Rename; [intros d2 f Hf Hfs|intros d2 e Hfs; apply HR; intros; rewrite ?Hfs; auto].
  rewrite Ht in Hf. injection Hf as <-. eapply HQ; rewrite Hfs.
  - intros q Hq1 Hq2. rewrite lookup_insert_ne, lookup_delete_ne by done. auto.
  - by rewrite lookup_insert_eq.
Qed.

(** ** Rotation *)

(** The names of the complete pairs of a directory, oldest first. *)
Definition complete (dir : string) (f : gmap string file) (name : string) : Prop :=
  Ext name = ".age" /\ is_Some (f !! JoinPath dir (side_name name)).
#[local] Instance complete_dec dir f name : Decision (complete dir f name).
Proof. unfold complete. apply _. Defined.
Definition pairs_in (dir : string) (f : gmap string file) : list string := filter (complete dir f) (names_in dir f).

Lemma sorted_sublist (l k : list string) : StronglySorted name_lt l -> k `sublist_of` l -> StronglySorted name_lt k.
Proof.
  intros Hs Hsub. induction Hsub as [|x k l Hsub IH|x k l Hsub IH]; [constructor| |]; inversion_clear Hs as [|? ? Hl Hx]; [|auto].
  constructor; [auto|]. eapply Forall_forall. intros y Hy. rewrite Forall_forall in Hx. apply Hx.
  eapply elem_of_submseteq; [exact Hy|by apply sublist_submseteq].
Qed.

(** What is collected is complete, in order; nothing is missed when no call fails. *)
Lemma triple_collect_pairs dir names : forall d Q R,
  (forall d' ps, files d' = files d -> ps `sublist_of` filter (complete dir (files d)) names ->
     ((forall n, outcome_at n = Works) -> ps = filter (complete dir (files d)) names) -> Q d' ps) ->
  triple d (collect_pairs dir names) Q R.
Proof.
  induction names as [|name names IH]; intros d Q R HQ; cbn [collect_pairs]; [by apply triple_ret, HQ|].
  rewrite filter_cons in HQ. destruct (bool_decide_reflect (Ext name = ".age")) as [Hext|Hext]; cbn [negb].
  2: { rewrite decide_False in HQ by (by intros []). by apply IH. }
  apply triple_bind, triple_found. intros b Htrue Hworks. apply triple_bind, IH. intros d' ps Hfs Hsub Hall.
  apply triple_ret, HQ; [done|..]; destruct (decide (complete dir (files d) name)) as [Hc|Hc].
  - destruct b; by constructor.
  - destruct b; [exfalso; apply Hc; split; [done|by apply Htrue]|done].
  - intros Hw. rewrite (Hworks (Hw _) (proj2 Hc)). f_equal. by apply Hall.
  - intros Hw. destruct b; [exfalso; apply Hc; split; [done|by apply Htrue]|by apply Hall].
Qed.

(** Both files of a pair are removed, as far as the calls work. *)
Definition of_pair (dir name q : string) : Prop := q = JoinPath dir name \/ q = JoinPath dir (side_name name).

Lemma triple_remove_pairs dir names : forall d Q R,
  (forall d', (forall q, (files d' !! q = files d !! q \/ files d' !! q = None /\ exists name, name ∈ names /\ of_pair dir name q) /\
    ((forall n, outcome_at n = Works) -> (exists name, name ∈ names /\ of_pair dir name q) -> files d' !! q = None)) -> Q d' tt) ->
  triple d (remove_pairs dir names) Q R.
Proof.
  induction names as [|name names IH]; intros d Q R HQ; cbn [remove_pairs].
  { apply triple_ret, HQ. intros q. split; [auto|]. by intros _ (name & ?%elem_of_nil & _). }
  apply triple_bind, triple_ignore_Remove. intros d1 Hne1 Hp1 Hw1. apply triple_bind, triple_ignore_Remove. intros d2 Hne2 Hp2 Hw2.
  apply IH. intros d3 Hq. apply HQ. intros q. specialize (Hq q) as [Hq Hall]. unfold only in *.
  assert (files d2 !! q = files d !! q \/ files d2 !! q = None /\ of_pair dir name q) as Hstep.
  { unfold of_pair. destruct (decide (q = JoinPath dir (side_name name))) as [->|Hq2].
    - destruct Hp2 as [->| ->]; [|auto].
      destruct (decide (JoinPath dir (side_name name) = JoinPath dir name)) as [->|]; [destruct Hp1; auto|rewrite Hne1 by done; auto].
    - rewrite Hne2 by done. destruct (decide (q = JoinPath dir name)) as [->|]; [destruct Hp1; auto|rewrite Hne1 by done; auto]. }
  split.
  - destruct Hq as [->|[-> (n & Hn & Hof)]]; [|right; split; [done|]; exists n; split; [by constructor|done]].
    destruct Hstep as [->|[-> Hof]]; [by left|]. right. split; [done|]. exists name. split; [constructor|done].
  - intros Hw (n & [->|Hn]%elem_of_cons & Hof); [|apply Hall; eauto].
    assert (files d2 !! q = None) as Hnone; [|destruct Hq as [->|[-> _]]; done].
    destruct (decide (q = JoinPath dir (side_name name))) as [->|Hq2]; [by apply Hw2|]. rewrite Hne2 by done.
    destruct Hof as [->|]; [by apply Hw1|done].
Qed.

(** The oldest pairs beyond [keepLast]. *)
Definition surplus (dir : string) (keepLast : Z) (f : gmap string file) : list string :=
  take (length (pairs_in dir f) - Z.to_nat keepLast) (pairs_in dir f).

Lemma merge_sort_sorted (l : list string) : StronglySorted name_lt l -> merge_sort name_le l = l.
Proof.
  intros Hs. apply (StronglySorted_unique name_le); [apply StronglySorted_merge_sort; apply _| |apply merge_sort_Permutation].
  induction Hs as [|x l Hs IH Hx]; constructor; [done|]. eapply Forall_impl; [exact Hx|]. intros y Hy. apply name_le_lt. by right.
Qed.

Lemma sublist_surplus {A} (k l : list A) n x :
  k `sublist_of` l -> x ∈ take (length k - n) k -> x ∈ take (length l - n) l.
Proof.
  intros Hsub Hx. pose proof (take_drop (length k - n) k) as Hk. rewrite <- Hk in Hsub.
  apply sublist_app_l in Hsub as (l1 & l2 & -> & Hl1 & Hl2). apply sublist_length in Hl2. rewrite length_drop in Hl2.
  assert (x ∈ l1) as Hx1 by (by eapply sublist_subseteq).
  assert (length k - n <> 0)%nat by (intros He; rewrite He in Hx; by apply elem_of_nil in Hx).
  rewrite take_app_ge by (rewrite length_app; lia). apply elem_of_app. by left.
Qed.

Lemma rotate_trims (dir : string) (keepLast : Z) (d d' : disk) (r : res oserr unit) :
  0 < keepLast -> rotate dir keepLast d = (d', r) ->
  forall q,
  (files d' !! q = files d !! q \/
   files d' !! q = None /\ exists name, name ∈ surplus dir keepLast (files d) /\ of_pair dir name q) /\
  ((forall n, outcome_at n = Works) -> (exists name, name ∈ surplus dir keepLast (files d) /\ of_pair dir name q) ->
   files d' !! q = None).
Proof.
  intros Hk Hr q.
  set (post := fun d' : disk =>
    (files d' !! q = files d !! q \/
     files d' !! q = None /\ exists name, name ∈ surplus dir keepLast (files d) /\ of_pair dir name q) /\
    ((forall n, outcome_at n = Works) -> (exists name, name ∈ surplus dir keepLast (files d) /\ of_pair dir name q) ->
     files d' !! q = None)).
  assert (triple d (rotate dir keepLast) (fun d' _ => post d') (fun d' _ => post d')) as Ht;
    [|pose proof (triple_run _ _ _ _ _ _ Ht Hr); by destruct r].
  unfold rotate. apply triple_bind. unfold triple, ReadDir, call. destruct (outcome_at (calls d)) eqn:Ho.
  2: { split; [by left|]. intros Hw. by rewrite Hw in Ho. }
  apply triple_bind, triple_collect_pairs. intros d1 ps Hfs Hsub Hall. cbn [files tick] in *. fold (pairs_in dir (files d)) in Hsub, Hall.
  assert (StronglySorted name_lt ps) as Hsorted.
  { eapply sorted_sublist; [apply (names_in_sorted dir (files d))|]. etrans; [exact Hsub|]. apply sublist_filter. }
  destruct (Z.leb_spec (Z.of_nat (length ps)) keepLast) as [Hle|Hgt].
  - apply triple_ret. unfold post. rewrite Hfs. split; [by left|]. intros Hw (name & Hn & _). exfalso. unfold surplus in Hn.
    rewrite <- (Hall Hw) in Hn. replace (length ps - Z.to_nat keepLast)%nat with 0%nat in Hn by lia. by apply elem_of_nil in Hn.
  - rewrite merge_sort_sorted by done. apply triple_remove_pairs. intros d2 Hq. specialize (Hq q) as [Hq Hwq]. rewrite Hfs in Hq.
    unfold post, surplus. split.
    + destruct Hq as [|(? & name & Hn & Hof)]; [by left|]. right. split; [done|]. exists name. split; [|done].
      by eapply sublist_surplus.
    + intros Hw (name & Hn & Hof). apply Hwq; [done|]. exists name. split; [|done]. by rewrite (Hall Hw).
Qed.

(** The pairs a rotation keeps are none of those it may remove. *)
Lemma Split_pieces sep s : Forall (free_of sep) (Split s sep).
Proof.
  induction s as [|a s IH]; [by repeat constructor|]. cbn [Split]. destruct (Ascii.eqb a sep) eqn:Ha; [by constructor|].
  destruct (Split s sep) as [|p ps]; [by repeat constructor; unfold free_of; simpl; rewrite Ha|].
  inversion_clear IH as [|? ? Hp Hps]. constructor; [|done]. unfold free_of in *. simpl. by rewrite Ha.
Qed.

Lemma base_free p : free_of "/" (base p).
Proof.
  unfold base. pose proof (Split_pieces "/" p) as Hf. induction Hf as [|x l Hx Hl IH]; [done|]. by destruct l.
Qed.

Lemma Ext_side_name name : Ext (side_name name) = ".sha256".
Proof.
  unfold Ext, side_name. change ".sha256" with (String "." "sha256"). rewrite Split_app, rev_app_distr.
  destruct (rev (Split name ".")) eqn:He; [|done].
  apply (f_equal (@rev _)) in He. rewrite rev_involutive in He. by apply Split_ne in He.
Qed.

Lemma free_of_app sep s t : free_of sep s -> free_of sep t -> free_of sep (s +:+ t).
Proof.
  unfold free_of. intros Hs Ht. induction s as [|a s IH]; [done|]. change (String a s +:+ t) with (String a (s +:+ t)). simpl in *.
  apply andb_true_iff in Hs as [Ha Hs]. rewrite Ha. by apply IH.
Qed.

Lemma pair_names_good dir f name : name ∈ pairs_in dir f -> good_name name /\ good_name (side_name name).
Proof.
  unfold pairs_in. rewrite list_elem_of_filter, elem_of_names_in. intros ((Hext & _) & Hb & _).
  assert (free_of "/" name) as Hf by (rewrite <- Hb; apply base_free).
  split; (split; [|split_and!]).
  - done.
  - by intros ->.
  - by intros ->.
  - by intros ->.
  - by apply free_of_app.
  - by destruct name.
  - by destruct name as [|? []].
  - by destruct name as [|? [|? []]].
Qed.

Lemma of_pair_unique dir f a b q : a ∈ pairs_in dir f -> b ∈ pairs_in dir f -> of_pair dir a q -> of_pair dir b q -> a = b.
Proof.
  intros Ha Hb. destruct (pair_names_good _ _ _ Ha) as [Hga Hgsa], (pair_names_good _ _ _ Hb) as [Hgb Hgsb].
  unfold pairs_in in Ha, Hb. apply list_elem_of_filter in Ha as [[Hea _] _]. apply list_elem_of_filter in Hb as [[Heb _] _].
  intros [-> | ->] [Heq|Heq]; apply JoinPath_inj in Heq; try done; [..|].
  - rewrite Heq, Ext_side_name in Hea. done.
  - rewrite <- Heq, Ext_side_name in Heb. done.
  - unfold side_name in Heq. apply (f_equal go_bytes) in Heq. rewrite !go_bytes_app in Heq. by apply app_inv_tail, go_bytes_inj in Heq.
Qed.

(** Rotation: whatever calls fail, only files of complete pairs older than the
    [keepLast] newest ones disappear, no other file changes, and every pair kept
    is newer than every pair removed; when all calls work, exactly the surplus is
    gone. *)
Theorem rotation_removes_surplus (dir : string) (keepLast : Z) (d d' : disk) (r : res oserr unit) :
  0 < keepLast -> rotate dir keepLast d = (d', r) ->
  let kept := drop (length (surplus dir keepLast (files d))) (pairs_in dir (files d)) in
  (forall q, files d' !! q = files d !! q \/
     files d' !! q = None /\ exists name, name ∈ surplus dir keepLast (files d) /\ of_pair dir name q) /\
  (forall name q, name ∈ kept -> of_pair dir name q -> files d' !! q = files d !! q) /\
  (forall old new, old ∈ surplus dir keepLast (files d) -> new ∈ kept -> name_lt old new) /\
  ((forall n, outcome_at n = Works) -> length kept = Nat.min (Z.to_nat keepLast) (length (pairs_in dir (files d))) /\
     forall name q, name ∈ surplus dir keepLast (files d) -> of_pair dir name q -> files d' !! q = None).
Proof.
  intros Hk Hr kept. set (sur := surplus dir keepLast (files d)) in *.
  assert (pairs_in dir (files d) = sur ++ kept) as Hsplit.
  { subst sur kept. unfold surplus at 1. rewrite <- (take_drop (length (pairs_in dir (files d)) - Z.to_nat keepLast) (pairs_in dir (files d))) at 1.
    f_equal. f_equal. unfold surplus. rewrite length_take. lia. }
  assert (StronglySorted name_lt (sur ++ kept)) as Hsorted
    by (rewrite <- Hsplit; eapply sorted_sublist; [apply (names_in_sorted dir (files d))|apply sublist_filter]).
  assert (NoDup (sur ++ kept)) as Hnd.
  { clear -Hsorted. induction Hsorted as [|x l Hs IH Hx]; constructor; [|done]. intros Hin. rewrite Forall_forall in Hx.
    by apply (name_lt_irrefl x), Hx. }
  pose proof (rotate_trims dir keepLast d d' r Hk Hr) as Hq. split_and!.
  - intros q. apply Hq.
  - intros name q Hn Hof. destruct (Hq q) as [[|(_ & n & Hn' & Hof')] _]; [done|]. exfalso.
    assert (name = n) as -> by (eapply of_pair_unique; [| |exact Hof|exact Hof']; rewrite Hsplit; apply elem_of_app; auto).
    apply NoDup_app in Hnd as (_ & Hnd & _). by apply (Hnd n).
  - intros old new Ho Hn. eapply StronglySorted_app_1_elem_of; eauto.
  - intros Hw. split; [|intros name q Hn Hof; apply Hq; eauto]. subst kept. rewrite length_drop. subst sur. unfold surplus. rewrite length_take. lia.
Qed.

(** ** Restore *)

(** A step of the restore: when it fails the staging file is removed. *)
Lemma triple_cleanup {A} p report (m : M berr A) d0 d Q R :
  only p d0 d ->
  triple d m (fun d' a => Q d' a) (fun d' _ => only p d0 d') ->
  (forall d' e, only p d0 d' -> R d' (report, e)) -> triple d (cleanup p report m) Q R.
Proof.
  intros Hd Hm HR. apply triple_on_error. eapply triple_weaken; [exact Hm|done|]. intros d1 e Hd1.
  apply triple_bind, triple_ignore_Remove. intros d2 Hd2 _ _. apply triple_fail, HR. by apply (only_trans p d0 d1).
Qed.

(** What a verified artifact is. *)
Definition verified (inp : RestoreInput) (f : gmap string file) (plain : bytes) : Prop :=
  exists enc side,
    f !! EncryptedPath inp = Some enc /\
    f !! (if bool_decide (SidecarPath inp = "") then EncryptedPath inp +:+ ".sha256" else SidecarPath inp) = Some side /\
    VerifySidecar (body enc) (body side) = None /\ DecryptArtifact (body enc) (Identities inp) = inr plain.

Lemma triple_read_verified (inp : RestoreInput (Identity := Identity)) d Q R :
  (forall d' plain, files d' = files d -> verified inp (files d) plain -> Q d' plain) ->
  (forall d' e, files d' = files d -> R d' e) -> triple d (read_verified inp) Q R.
Proof.
  intros HQ HR. unfold read_verified. cbv zeta. set (sp := if bool_decide (SidecarPath inp = "") then _ else _).
  apply triple_bind, triple_wrap, triple_ReadFile; [intros d1 fe Hf1 He|auto].
  apply triple_bind, triple_wrap, triple_ReadFile; rewrite Hf1; [intros d2 fs Hf2 Hs|auto].
  destruct (VerifySidecar (body fe) (body fs)) eqn:Hv; [by apply triple_fail, HR|].
  destruct (DecryptArtifact (body fe) (Identities inp)) eqn:Hd; [by apply triple_fail, HR|].
  apply triple_ret, HQ; [done|]. by exists fe, fs.
Qed.

(** [transparency.Open] does not panic on any database file. *)
Lemma Open_no_panic (db : store) : Open (Some db) <> RPanic.
Proof.
  unfold Open, Update. assert (forall names s, create_buckets s names <> RPanic) as Hnp.
  { induction names as [|n names IH]; intros s; simpl; [done|]. by destruct (CreateBucketIfNotExists s n). }
  destruct (create_buckets db _) as [s| |] eqn:Hc; simpl; [|done|by apply Hnp in Hc].
  destruct (Commit s) as [s'|] eqn:Hcm; [|done]. unfold rehydrate, bkt_entries. cbn [tdb].
  assert (exists l, bucket s BucketLeaves = Some l) as [l Hl].
  { simpl in Hc. destruct (CreateBucketIfNotExists db BucketLeaves) as [s1|] eqn:Hcr; [|done].
    change (create_buckets s1 [BucketNodes; BucketSTH; BucketSTHHistory] = ROk s) in Hc.
    apply create_spec in Hcr as [Hcr _]. eexists. by eapply (create_buckets_spec _ _ _ Hc). }
  rewrite (commit_spec _ _ Hcm), Hl. simpl. generalize (@nil RootHash). clear.
  induction l as [|[k v] l IH]; intros hs; simpl; [done|]. destruct (Unmarshal v); [apply IH|done].
Qed.

(** The staged file is the database the inspection opened, buckets included. *)
Lemma triple_inspectStaged p plain t d d0 Q :
  files d !! p = Some (mkFile plain t) -> only p d0 d ->
  (forall d' db tree t', open_image plain = Some db -> Open (Some db) = ROk tree -> only p d0 d' ->
     files d' !! p = Some (mkFile (image (tdb tree)) t') -> Q d' (Size tree, hex_root tree, t)) ->
  triple d (inspectStaged p) Q (fun d' _ => only p d0 d').
Proof.
  intros Hp Hd HQ. unfold inspectStaged.
  apply triple_bind, triple_wrap, triple_Stat; [intros d1 f Hf1 Hf|eauto with owasaka].
  apply triple_bind, triple_wrap, triple_ReadFile; [intros d2 f2 Hf2 Hff|eauto with owasaka].
  rewrite Hf1, Hp in Hff. rewrite Hp in Hf. simplify_eq. cbn [body mtime].
  assert (only p d0 d2) as Hd2 by eauto with owasaka.
  destruct (open_image plain) as [db|] eqn:Ho; [|by apply triple_fail].
  destruct (Open (Some db)) as [tree|e|] eqn:Hop; [|by apply triple_fail|by apply Open_no_panic in Hop].
  apply triple_bind, triple_wrap, triple_WriteFile; [intros d3 t' Hd3 Hw|eauto with owasaka].
  apply triple_ret. by eapply HQ; eauto with owasaka.
Qed.

(** The STH check lets only matching backups pass, unless told otherwise. *)
Definition sth_accepts (inp : RestoreInput (Identity := Identity)) (tree : Tree store) : Prop :=
  match ExpectedSTH inp with
  | Some sth => AllowSTHMismatch inp = true \/ (sth_TreeSize sth = Size tree /\ hex_EncodeToString (sth_RootHash sth) = hex_root tree)
  | None => True
  end.

Lemma check_sth_spec (inp : RestoreInput (Identity := Identity)) (tree : Tree store) report :
  BackupTreeSize report = Size tree -> BackupRootHex report = hex_root tree -> OldDBBackupPath report = "" ->
  match check_sth (ExpectedSTH inp) (AllowSTHMismatch inp) report with
  | inl report' => OldDBBackupPath report' = ""
  | inr report' => sth_accepts inp tree /\ BackupTreeSize report' = Size tree /\ BackupRootHex report' = hex_root tree
  end.
Proof.
  intros Hs Hr Ho. unfold check_sth, sth_accepts. destruct (ExpectedSTH inp) as [sth|]; [|done]. rewrite Hs, Hr.
  destruct (Z.eqb_spec (sth_TreeSize sth) (Size tree)), (bool_decide_reflect (hex_EncodeToString (sth_RootHash sth) = hex_root tree)),
    (AllowSTHMismatch inp); simpl; auto.
Qed.

(** [staging] is a name the restore may give its temporary file. *)
Definition staging_name (rnds : list string) (inp : RestoreInput (Identity := Identity)) (staging : string) : Prop :=
  exists rnd, rnd ∈ rnds /\ staging = temp_name (Dir (TargetPath inp)) "restore-" rnd ".db".

Lemma triple_stage rnds (inp : RestoreInput (Identity := Identity)) plain d Q (R : disk -> RestoreReport * berr -> Prop) :
  (forall d' staging report db tree t, staging_name rnds inp staging -> files d !! staging = None -> only staging d d' ->
     open_image plain = Some db -> Open (Some db) = ROk tree -> files d' !! staging = Some (mkFile (image (tdb tree)) t) ->
     sth_accepts inp tree -> BackupTreeSize report = Size tree -> BackupRootHex report = hex_root tree -> Q d' (staging, report)) ->
  (forall d' report e, files d' = files d \/ (exists staging, staging_name rnds inp staging /\ only staging d d') ->
     OldDBBackupPath report = "" -> R d' (report, e)) ->
  triple d (stage rnds inp plain) Q R.
Proof.
  intros HQ HR. unfold stage.
  apply triple_bind, triple_wrap, triple_CreateTemp; [intros d1 rnd t1 p Hrnd Hnew Hf1|intros d1 e Hf1; apply HR; auto].
  assert (only p d d1) as Hd1 by (intros q Hq; by rewrite Hf1, lookup_insert_ne).
  assert (staging_name rnds inp p) as Hp by (by exists rnd).
  assert (forall d' e, only p d d' -> R d' (no_report, e)) as HR' by (intros d' e Hd'; apply HR; [right; by exists p|done]).
  apply triple_bind, (triple_cleanup _ _ _ d); [done| |done]. apply triple_wrap, triple_WriteFile; [intros d2 t2 Hd2 Hf2|eauto with owasaka].
  assert (only p d d2) as Hd2' by eauto with owasaka.
  apply triple_bind, (triple_cleanup _ _ _ d); [done| |done]. apply triple_wrap, triple_Close; [intros d3 Hf3|eauto with owasaka].
  assert (only p d d3) as Hd3 by eauto with owasaka.
  apply triple_bind, (triple_cleanup _ _ _ d); [done| |done]. eapply triple_inspectStaged; [by rewrite Hf3|done|].
  intros d4 db tree t4 Hdb Hopen Hd4 Hf4. cbv zeta. cbn [fst snd].
  set (report := mkReport t2 (Size tree) (hex_root tree) 0 "" (TargetPath inp) false NoNote).
  pose proof (check_sth_spec inp tree report eq_refl eq_refl eq_refl) as Hcheck.
  destruct (check_sth _ _ report) as [rep|rep].
  - apply triple_bind, triple_ignore_Remove. intros d5 Hd5 _ _. apply triple_fail, HR; [right; exists p; eauto with owasaka|done].
  - destruct Hcheck as (Hacc & Hsize & Hroot). apply triple_ret. by eapply HQ.
Qed.

(** A staging file and a moved-aside database have different names. *)
Lemma last_byte s c : last (go_bytes (s +:+ String c "")) = Some (Z.of_N (N_of_ascii c)).
Proof. rewrite go_bytes_app. apply last_snoc. Qed.

Lemma staging_not_bak rnds (inp : RestoreInput (Identity := Identity)) p t : staging_name rnds inp p -> p <> bak_path (TargetPath inp) t.
Proof.
  intros (rnd & _ & ->) Heq. apply (f_equal (fun s => last (go_bytes s))) in Heq.
  assert (exists s, bak_path (TargetPath inp) t = s +:+ "Z") as [s Hs].
  { unfold bak_path, stamp. destruct (civil _) as [[y m] dd]. eexists. rewrite !string_app_assoc. reflexivity. }
  assert (exists s, temp_name (Dir (TargetPath inp)) "restore-" rnd ".db" = s +:+ "b") as [s' Hs'].
  { unfold temp_name. change ".db" with (".d" +:+ "b"). eexists. rewrite !string_app_assoc. reflexivity. }
  rewrite Hs, Hs', !last_byte in Heq. discriminate Heq.
Qed.

Lemma bak_not_target target t : bak_path target t <> target.
Proof. unfold bak_path. apply app_ne_self. done. Qed.

(** What became of the old database: it is at the reported name, one of the swap
    time; or no name is reported, and then there was none, or the call that looked
    for it, the last but one of the run, failed. *)
Definition old_kept (target : string) (d d' : disk) (report : RestoreReport) : Prop :=
  (OldDBBackupPath report = bak_path target (SwappedAt report) /\ is_Some (files d !! target) /\
   files d' !! OldDBBackupPath report = files d !! target) \/
  (OldDBBackupPath report = "" /\ (files d !! target = None \/ outcome_at (calls d' - 2) <> Works)).

(** Nothing else changes: the target, the staging file and the reported name. *)
Definition others_kept (target : string) (staging : string -> Prop) (report : RestoreReport) (d d' : disk) : Prop :=
  forall q, q <> target -> ~ staging q -> (OldDBBackupPath report <> "" -> q <> OldDBBackupPath report) -> files d' !! q = files d !! q.

(** A failure with no name reported left all files but the staging file; the only
    other is that of the last rename, the old database being at the reported name. *)
Definition kept_on_error (target : string) (staging : string -> Prop) (d d' : disk) (report : RestoreReport) : Prop :=
  (OldDBBackupPath report = "" /\ forall q, ~ staging q -> files d' !! q = files d !! q) \/
  (OldDBBackupPath report = bak_path target (SwappedAt report) /\ is_Some (files d !! target) /\ files d' !! target = None /\
   files d' !! OldDBBackupPath report = files d !! target /\ others_kept target staging report d d').

Lemma triple_Rename_calls p q d (Q : disk -> unit -> Prop) (R : disk -> oserr -> Prop) :
  (forall d' f, files d !! p = Some f -> files d' = <[q := f]> (delete p (files d)) -> calls d' = S (calls d) -> Q d' tt) ->
  (forall d' e, files d' = files d -> R d' e) -> triple d (Rename p q) Q R.
Proof. intros HQ HR. unfold triple, Rename, call. destruct (outcome_at _), (files d !! p) eqn:Hp; eauto. Qed.

(** The swap: the staged file becomes the target. *)
Lemma triple_swap staging target report f d Q (R : disk -> RestoreReport * berr -> Prop) :
  files d !! staging = Some f -> staging <> target -> (forall t, staging <> bak_path target t) ->
  (forall d' report', files d' !! target = Some f ->
     BackupTreeSize report' = BackupTreeSize report -> BackupRootHex report' = BackupRootHex report ->
     old_kept target d d' report' -> others_kept target (eq staging) report' d d' -> Q d' report') ->
  (forall d' report' e, kept_on_error target (eq staging) d d' report' -> R d' (report', e)) ->
  triple d (swap staging target report) Q R.
Proof.
  intros Hst Hne Hbak HQ HR. unfold swap. apply triple_bind, triple_Now.
  set (now := time_at (calls d)). apply triple_bind, triple_found. intros present Hold Hworks. cbn [files tick] in *.
  assert (forall d' e old, only staging d d' -> old = "" -> R d' (with_swap report now old, e)) as Hquit.
  { intros d' e old Hd' ->. apply HR. left. split; [done|]. intros q Hq. by apply Hd', not_eq_sym. }
  destruct present.
  - apply triple_bind, triple_bind, (triple_cleanup _ _ _ d); [by apply only_same| |by intros; apply Hquit].
    apply triple_wrap, triple_Rename; [intros d1 g Hg Hf1|intros d1 e Hf1; by apply only_same]. cbn [files tick] in *.
    apply triple_ret, triple_bind.
    assert (files d1 !! staging = Some f) as Hst1 by (rewrite Hf1, lookup_insert_ne, lookup_delete_ne by done; done).
    assert (files d1 !! target = None) as Ht1 by (rewrite Hf1, lookup_insert_ne, lookup_delete_eq by apply bak_not_target; done).
    assert (files d1 !! bak_path target now = files d !! target) as Hb1 by (rewrite Hf1, lookup_insert_eq; done).
    assert (others_kept target (eq staging) (with_swap report now (bak_path target now)) d d1) as Ho1.
    { intros q Hq1 Hq2 Hq3. rewrite Hf1, lookup_insert_ne, lookup_delete_ne; [done|by apply not_eq_sym|].
      apply not_eq_sym, Hq3. unfold bak_path. by destruct target. }
    apply (triple_cleanup _ _ _ d1); [done| |].
    2: { intros d2 e Hd2. apply HR. right. split; [done|]. split; [by apply Hold|]. cbn [OldDBBackupPath with_swap].
         rewrite !Hd2 by (first [done|apply Hbak|by apply not_eq_sym|by apply not_eq_sym, Hbak]). split; [done|]. split; [done|].
         intros q Hq1 Hq2 Hq3. rewrite Hd2 by (by apply not_eq_sym). by apply Ho1. }
    apply triple_wrap, triple_Rename; [intros d2 g2 Hg2 Hf2|intros d2 e Hf2; by apply only_same].
    rewrite Hst1 in Hg2. injection Hg2 as <-. apply triple_ret, HQ; cbn [BackupTreeSize BackupRootHex with_swap]; [by rewrite Hf2, lookup_insert_eq|done|done|..].
    + left. split; [done|]. split; [by apply Hold|]. cbn [OldDBBackupPath with_swap].
      rewrite Hf2, lookup_insert_ne, lookup_delete_ne by (first [done|apply Hbak|apply not_eq_sym, bak_not_target]). done.
    + intros q Hq1 Hq2 Hq3. rewrite Hf2, lookup_insert_ne, lookup_delete_ne by (first [done|by apply not_eq_sym]). by apply Ho1.
  - apply triple_bind, triple_ret, triple_bind, (triple_cleanup _ _ _ d); [by apply only_same| |by intros; apply Hquit].
    apply triple_wrap, triple_Rename_calls; [intros d1 g Hg Hf1 Hcalls|intros d1 e Hf1; by apply only_same]. cbn [files tick calls] in *.
    rewrite Hst in Hg. injection Hg as <-. apply triple_ret, HQ; cbn [BackupTreeSize BackupRootHex with_swap]; [by rewrite Hf1, lookup_insert_eq|done|done|..].
    + right. split; [done|]. rewrite Hcalls. replace (S (S (calls d)) - 2)%nat with (calls d) by lia.
      destruct (files d !! target) as [x|]; [right|by left]. intros Ho. by discriminate (Hworks Ho ltac:(by eexists)).
    + intros q Hq1 Hq2 _. by rewrite Hf1, lookup_insert_ne, lookup_delete_ne by (first [done|by apply not_eq_sym]).
Qed.

(** The outcome of a successful restore: the target is the database carried by an
    artifact that passed its sidecar and decrypted, that opened, and that the STH
    check accepted, and the report is of that database. *)
Definition installed (inp : RestoreInput (Identity := Identity)) (d d' : disk) (report : RestoreReport) : Prop :=
  exists plain db (tree : Tree store) t,
    verified inp (files d) plain /\ open_image plain = Some db /\ Open (Some db) = ROk tree /\ sth_accepts inp tree /\
    files d' !! TargetPath inp = Some (mkFile (image (tdb tree)) t) /\
    BackupTreeSize report = Size tree /\ BackupRootHex report = hex_root tree.

Lemma triple_Restore rnds (inp : RestoreInput (Identity := Identity)) d :
  ~ staging_name rnds inp (TargetPath inp) ->
  triple d (Restore rnds inp)
    (fun d' report => installed inp d d' report /\ old_kept (TargetPath inp) d d' report /\
       others_kept (TargetPath inp) (staging_name rnds inp) report d d')
    (fun d' err => kept_on_error (TargetPath inp) (staging_name rnds inp) d d' err.1).
Proof.
  intros Hnst.
  assert (forall d1 rep e, files d1 = files d -> OldDBBackupPath rep = "" ->
    kept_on_error (TargetPath inp) (staging_name rnds inp) d d1 (rep, e : berr).1) as Hquit.
  { intros d1 rep e Hf Hr. left. split; [done|]. intros q _. by rewrite Hf. }
  unfold Restore. apply triple_bind, triple_ctx_Err; [|by apply Hquit].
  destruct (_ || _); [by apply triple_fail, Hquit|]. destruct (_ =? _)%nat; [by apply triple_fail, Hquit|].
  apply triple_bind, triple_wrap, triple_read_verified; [intros d1 plain Hf1 Hv|intros; by apply Hquit].
  apply triple_bind, triple_stage.
  2: { intros d2 report e [Hf|(p & Hp & Hd2)] Hold; [by apply Hquit; [rewrite Hf|]|]. left. split; [done|].
       intros q Hq. rewrite Hd2, Hf1; [done|]. by intros ->. }
  intros d2 p report db tree t Hp Hnew Hd2 Hdb Hopen Hf2 Hacc Hsize Hroot. cbn [fst snd].
  assert (forall q, ~ staging_name rnds inp q -> files d2 !! q = files d !! q /\ p <> q) as Hd.
  { intros q Hq. assert (p <> q) by (by intros ->). split; [|done]. by rewrite Hd2, Hf1 by (by apply not_eq_sym). }
  destruct (Hd _ Hnst) as [Ht Hpt]. apply (triple_swap _ _ _ _ _ _ _ Hf2 Hpt); [intros; by eapply staging_not_bak|..].
  - intros d3 report' Htgt Hs Hr Hb Ho. split; [exists plain, db, tree, t; rewrite Hs, Hr; by split_and!|].
    split; [unfold old_kept in *; by rewrite <- Ht|]. intros q Hq1 Hq2 Hq3. destruct (Hd q Hq2) as [<- Hpq]. by apply Ho.
  - intros d3 report' e [[Hr Ho]|(Hr & Hs & Hn & Hb & Ho)].
    + left. split; [done|]. intros q Hq. destruct (Hd q Hq) as [<- Hpq]. by apply Ho.
    + right. rewrite <- Ht. split_and!; try done. intros q Hq1 Hq2 Hq3. destruct (Hd q Hq2) as [<- Hpq]. by apply Ho.
Qed.

(** C10: Restore is all or nothing, whatever system calls fail and wherever it is
    cut short.  A restore that succeeds has installed the database of the artifact,
    verified, opened and accepted; the database it replaced is at the reported .bak
    name; no name is reported only if there was none to keep or the call that
    looked for it failed, and then it is lost ([failed_stat_loses_old]).  A restore
    that fails and reports no .bak name, as every failure before the swap does, has
    left every file, the target included, as it was, apart from its own staging
    file; the one other failure is that of the last rename, after which the
    database is at the reported name and nothing is at the target.  No other file
    changes in either case, and nothing panics. *)
Theorem restore_all_or_nothing (rnds : list string) (inp : RestoreInput (Identity := Identity)) (d d' : disk) r :
  ~ staging_name rnds inp (TargetPath inp) -> Restore rnds inp d = (d', r) ->
  match r with
  | ROk report => installed inp d d' report /\ old_kept (TargetPath inp) d d' report /\
      others_kept (TargetPath inp) (staging_name rnds inp) report d d'
  | RErr (report, _) => kept_on_error (TargetPath inp) (staging_name rnds inp) d d' report
  | RPanic => False
  end.
Proof.
  intros Hnst Hr. pose proof (triple_run _ _ _ _ _ _ (triple_Restore rnds inp d Hnst) Hr) as Hpost.
  destruct r as [report|[report e]|]; exact Hpost || done.
Qed.

(** ** The round trip *)

(** The artifact and its sidecar at [p]. *)
Definition pair_at (p : string) (art : Artifact) (f : gmap string file) : Prop :=
  (exists t, f !! p = Some (mkFile (Encrypted art) t)) /\ (exists t, f !! (p +:+ ".sha256") = Some (mkFile (Sidecar art) t)).

(** Both files were in the directory, and of its files only those of pairs that the
    rotation counts as surplus are gone since. *)
Definition stored (dir : string) (keepLast : Z) (art : Artifact) (f' : gmap string file) : Prop :=
  exists f, pair_at (JoinPath dir (Filename art)) art f /\
    forall q, f' !! q = f !! q \/
      f' !! q = None /\ 0 < keepLast /\ exists name, name ∈ surplus dir keepLast f /\ of_pair dir name q.

Lemma triple_LocalSink dir keepLast art d (Q : disk -> unit -> Prop) (R : disk -> berr -> Prop) :
  (forall d', stored dir keepLast art (files d') -> Q d' tt) -> (forall d' e, R d' e) -> triple d (LocalSink_Write dir keepLast art) Q R.
Proof.
  intros HQ HR. unfold LocalSink_Write. set (p := JoinPath dir (Filename art)).
  pose proof (app_ne_self p ".sha256" ltac:(done)) as Hne1. pose proof (app_ne_self p (".sha256" +:+ ".tmp") ltac:(done)) as Hne2.
  apply triple_bind, triple_ctx_Err; [|apply HR]. cbv zeta.
  apply triple_bind, triple_wrap, triple_atomicWrite; [intros d1 t1 _ Hp1|by intros; apply HR].
  apply triple_bind, triple_on_error, triple_atomicWrite.
  2: { intros d2 e _ _. apply triple_bind, triple_ignore_Remove. intros. apply triple_fail, HR. }
  intros d2 t2 Ho Hs. assert (pair_at p art (files d2)) as Hpair.
  { split; [exists t1|by exists t2]. rewrite string_app_assoc in Hne2. rewrite Ho; [done|by apply not_eq_sym..]. }
  destruct (Z.ltb_spec 0 keepLast) as [Hk|Hk].
  - apply triple_wrap. unfold triple. destruct (rotate dir keepLast d2) as [d3 res] eqn:Hr.
    pose proof (rotate_trims dir keepLast d2 d3 res Hk Hr) as Hq.
    assert (rotate dir keepLast d2 = (d3, res) -> match res with RPanic => False | _ => True end) as Hnp.
    { intros _. assert (triple d2 (rotate dir keepLast) (fun _ _ => True) (fun _ _ => True)) as Ht.
      { unfold rotate. apply triple_bind, triple_ReadDir; [intros d4 _|done]. apply triple_bind, triple_collect_pairs. intros d5 ps _ _ _.
        destruct (_ <=? _); [by apply triple_ret|]. by apply triple_remove_pairs. }
      unfold triple in Ht. rewrite Hr in Ht. by destruct res. }
    specialize (Hnp Hr). destruct res as [[]|e|]; [|by apply HR|done]. apply HQ. exists (files d2). split; [done|].
    intros q. destruct (Hq q) as [[Hsame|(Hgone & name & Hn & Hof)] _]; [by left|right]. split; [done|]. split; [done|]. by exists name.
  - apply triple_ret, HQ. exists (files d2). split; [done|]. intros q. by left.
Qed.

(** A backup that reports success: the artifact is the encryption of the database
    as it was at the copying call, and the sink has stored it. *)
Lemma triple_Run_local (db : nat -> store) (tree : nat -> Tree store) name dir keepLast rs seed d (R : disk -> Artifact * berr -> Prop) :
  (forall d' e, R d' e) ->
  triple d (Run seed (mkEngine (BoltSource (Some db) (Some tree)) [mkSink name (LocalSink_Write dir keepLast)] rs))
    (fun d' art => age_Encrypt seed rs (image (db (calls d))) = Some (Encrypted art) /\ Sidecar art = sidecar_of (Encrypted art) /\
       TreeSize art = Size (tree (S (calls d))) /\ stored dir keepLast art (files d')) R.
Proof.
  intros HR. unfold Run. apply triple_bind, triple_ctx_Err; [|apply HR]. apply triple_bind, triple_Now. apply triple_bind, triple_wrap.
  cbn [WriteTo source BoltSource]. apply triple_bind, triple_ctx_Err; [|apply HR]. apply triple_wrap. unfold triple at 1, call.
  destruct (outcome_at (calls d)); [|apply HR]. cbn [recipients]. destruct (age_Encrypt seed rs (image (db (calls d)))) as [enc|] eqn:He; [|apply triple_fail, HR].
  apply triple_bind. change (triple (tick d) (metadata _) ?Q R) with (Q (tick d) (Size (tree (S (calls d))), hex_root (tree (S (calls d))))).
  cbv beta zeta. cbn [sinks write_sinks Name Write]. apply triple_bind, triple_bind, triple_wrap, triple_LocalSink; [|by intros; apply HR].
  intros d' Hst. apply triple_ret, triple_ret. by split_and!.
Qed.

Section RoundTrip.
Context (Hw : works).

Lemma runs_cleanup {A} p report (m : M berr A) d d1 a : runs d m d1 a -> runs d (cleanup p report m) d1 a.
Proof. apply runs_on_error. Qed.

Lemma runs_wrap {E E' A} (f : E -> E') (m : M E A) d d1 a : runs d m d1 a -> runs d (wrap_error f m) d1 a.
Proof. apply runs_on_error. Qed.

(** A verified artifact that opens and is accepted gets installed. *)
Lemma Restore_progress rnds (inp : RestoreInput (Identity := Identity)) d plain db (tree : Tree store) :
  ~ staging_name rnds inp (TargetPath inp) ->
  EncryptedPath inp <> "" -> TargetPath inp <> "" -> Identities inp <> [] -> verified inp (files d) plain ->
  open_image plain = Some db -> Open (Some db) = ROk tree -> sth_accepts inp tree ->
  (exists rnd, rnd ∈ rnds /\ files d !! temp_name (Dir (TargetPath inp)) "restore-" rnd ".db" = None) ->
  exists d' report, Restore rnds inp d = (d', ROk report).
Proof.
  intros Hnst He Ht Hids (enc & side & Henc & Hside & Hver & Hdec) Hdb Hopen Hacc Hfree.
  destruct (runs_CreateTemp Hw (Dir (TargetPath inp)) "restore-" ".db" rnds (tick (tick d)) Hfree) as (d1 & rnd & t1 & Hrnd & Hr1 & Hf1).
  set (p := temp_name _ _ _ _) in *.
  destruct (runs_WriteFile Hw p plain d1) as (d2 & t2 & Hr2 & Hf2). rewrite Hf1, insert_insert_eq in Hf2.
  set (d3 := tick d2). assert (files d3 !! p = Some (mkFile plain t2)) as Hf3 by (cbn; by rewrite Hf2, lookup_insert_eq).
  destruct (runs_WriteFile Hw p (image (tdb tree)) (tick (tick d3))) as (d4 & t4 & Hr4 & Hf4).
  assert (runs d3 (inspectStaged p) d4 (Size tree, hex_root tree, t2)) as Hr5.
  { unfold inspectStaged. eapply runs_bind; [eapply runs_wrap, (runs_Stat Hw), Hf3|].
    eapply runs_bind; [eapply runs_wrap, (runs_ReadFile Hw), Hf3|]. cbn [body mtime]. rewrite Hdb, Hopen.
    eapply runs_bind; [apply runs_wrap, Hr4|]. done. }
  set (report := mkReport t2 (Size tree) (hex_root tree) 0 "" (TargetPath inp) false NoNote).
  destruct (check_sth (ExpectedSTH inp) (AllowSTHMismatch inp) report) as [rep|rep] eqn:Hcheck.
  { exfalso. unfold check_sth, sth_accepts in *. destruct (ExpectedSTH inp) as [sth|]; [|done]. cbn in Hcheck.
    destruct (Z.eqb_spec (sth_TreeSize sth) (Size tree)), (bool_decide_reflect (hex_EncodeToString (sth_RootHash sth) = hex_root tree)),
      (AllowSTHMismatch inp); try done; by destruct Hacc as [|[]]. }
  assert (runs (tick (tick d)) (stage rnds inp plain) d4 (p, rep)) as Hstage.
  { unfold stage. eapply runs_bind; [apply runs_wrap, Hr1|]. eapply runs_bind; [apply runs_cleanup, runs_wrap, Hr2|].
    eapply runs_bind; [apply runs_cleanup, runs_wrap; by apply (runs_call Hw)|].
    eapply runs_bind; [apply runs_cleanup, Hr5|]. cbn [fst snd]. fold report. by rewrite Hcheck. }
  assert (files d4 !! p = Some (mkFile (image (tdb tree)) t4)) as Hp4 by (by rewrite Hf4, lookup_insert_eq).
  assert (staging_name rnds inp p) as Hp by (by exists rnd).
  assert (p <> TargetPath inp) as Hpt by (by intros ->).
  assert (exists d5 report', runs d4 (swap p (TargetPath inp) rep) d5 report') as (d5 & report' & Hswap).
  { unfold swap. set (now := time_at (calls d4)). pose proof (runs_found (E := RestoreReport * berr) Hw (TargetPath inp) d4) as Hfound.
    destruct (bool_decide_reflect (is_Some (files d4 !! TargetPath inp))) as [[old Hold]|Hnone].
    - destruct (runs_Rename Hw (TargetPath inp) (bak_path (TargetPath inp) now) old (tick d4) Hold) as (d6 & Hr6 & Hf6).
      destruct (runs_Rename Hw p (TargetPath inp) (mkFile (image (tdb tree)) t4) d6) as (d7 & Hr7 & Hf7).
      { rewrite Hf6, lookup_insert_ne, lookup_delete_ne; [done|by apply not_eq_sym|]. apply not_eq_sym. by eapply staging_not_bak. }
      do 2 eexists. eapply runs_bind; [done|]. eapply runs_bind; [exact Hfound|]. cbv zeta. fold now.
      eapply runs_bind; [eapply runs_bind; [apply runs_cleanup, runs_wrap, Hr6|done]|].
      eapply runs_bind; [apply runs_cleanup, runs_wrap, Hr7|done].
    - destruct (runs_Rename Hw p (TargetPath inp) (mkFile (image (tdb tree)) t4) (tick d4)) as (d7 & Hr7 & Hf7); [done|].
      do 2 eexists. eapply runs_bind; [done|]. eapply runs_bind; [exact Hfound|]. cbv zeta. fold now.
      eapply runs_bind; [done|]. eapply runs_bind; [apply runs_cleanup, runs_wrap, Hr7|done]. }
  exists d5, report'. unfold Restore. change (Restore rnds inp d = (d5, ROk report')) with (runs d (Restore rnds inp) d5 report').
  eapply runs_bind; [apply runs_ctx_Err, Hw|]. rewrite !bool_decide_eq_false_2 by done. cbn [orb].
  destruct (Nat.eqb_spec (length (Identities inp)) 0) as [Hz|_]; [by destruct (Identities inp)|].
  eapply runs_bind; [|eapply runs_bind; [exact Hstage|exact Hswap]]. apply runs_wrap. unfold read_verified. cbv zeta.
  eapply runs_bind; [apply runs_wrap, (runs_ReadFile Hw), Henc|]. eapply runs_bind; [apply runs_wrap, (runs_ReadFile Hw), Hside|].
  by rewrite Hver, Hdec.
Qed.

Lemma verified_unique (inp : RestoreInput (Identity := Identity)) f p1 p2 : verified inp f p1 -> verified inp f p2 -> p1 = p2.
Proof. intros (e1 & s1 & He1 & _ & _ & Hd1) (e2 & s2 & He2 & _ & _ & Hd2). congruence. Qed.

Lemma JoinPath_ne dir name : JoinPath dir name <> "".
Proof. unfold JoinPath, Clean. destruct (HasPrefix _ _); [done|]. by case_bool_decide. Qed.

End RoundTrip.
End Theorems.

Section BackupRestores.
Context {store Recipient Identity : Type} `{BoltLaws store} `{JSON Leaf} `{BoltFileLaws store} `{AgeLaws Recipient Identity}.

(** C21: Backup and restore round trip.  Take a backup to a local directory, on a
    machine where calls may fail, that reports success.  Its artifact and sidecar
    have been stored in the directory, and are there unless the rotation of this
    sink has already counted the pair as surplus and removed it; its tree size is
    the one read a call after the copy, and can be larger.  From the pair, wherever
    it is kept and on any machine, with a matching identity: a restore that reports
    success has installed a database whose transparency log is the one that was
    live when the backup read it, and reports that log's size and root; and on a
    machine where every call works the restore does succeed, if the tree head asked
    for accepts it, and keeps the file it replaced. *)
Theorem backup_restores (m1 m2 : Machine) (db : nat -> store) (tree : nat -> Tree store) (dir name : string) (keepLast : Z)
    (d d1 : disk) (seed : bytes) (rs : list Recipient) (ids : list Identity) (rec : Recipient) (id : Identity)
    (live : Tree store) (ls : list Leaf) (art : Artifact) :
  represents live ls -> tdb live = db (calls d) -> rec ∈ rs -> id ∈ ids -> matches id rec ->
  Run (H := m1) seed (mkEngine (BoltSource (H := m1) (Some db) (Some tree)) [mkSink name (LocalSink_Write (H := m1) dir keepLast)] rs) d = (d1, ROk art) ->
  stored dir keepLast art (files d1) /\ TreeSize art = Size (tree (S (calls d))) /\
  forall rnds path target sth allow d2,
    let inp := mkRestoreInput path "" ids target sth allow in
    pair_at path art (files d2) -> ~ staging_name rnds inp target ->
    (forall d3 report, Restore (H := m2) rnds inp d2 = (d3, ROk report) ->
       exists restored t, files d3 !! target = Some (mkFile (image (tdb restored)) t) /\ represents restored ls /\
         BackupTreeSize report = Z.of_nat (length ls) /\ BackupRootHex report = hex_EncodeToString (MerkleTreeHash (hashes live))) /\
    (@works m2 -> forall restored, Open (Some (tdb live)) = ROk restored -> path <> "" -> target <> "" -> sth_accepts inp restored ->
       (exists rnd, rnd ∈ rnds /\ files d2 !! temp_name (Dir target) "restore-" rnd ".db" = None) ->
       exists d3 report, Restore (H := m2) rnds inp d2 = (d3, ROk report) /\
         (is_Some (files d2 !! target) -> files d3 !! OldDBBackupPath report = files d2 !! target)).
Proof.
  intros Hrep Hlive Hrec Hid Hmatch Hrun.
  pose proof (triple_run _ _ _ _ _ _ (triple_Run_local (H := m1) db tree name dir keepLast rs seed d (fun _ _ => True) ltac:(done)) Hrun) as (Henc & Hside & Hts & Hst).
  rewrite <- Hlive in Henc. split; [done|]. split; [done|]. intros rnds path target sth allow d2 inp [[t1 Hp] [t2 Hs]] Hnst.
  assert (verified inp (files d2) (image (tdb live))) as Hver.
  { eexists _, _. cbn [inp EncryptedPath SidecarPath Identities]. rewrite bool_decide_eq_true_2 by done.
    split; [exact Hp|]. split; [exact Hs|]. cbn [body]. rewrite Hside. split; [by apply VerifySidecar_iff|].
    unfold DecryptArtifact. destruct ids as [|i ids]; [by apply elem_of_nil in Hid|]. by rewrite (age_roundtrip _ _ _ _ _ _ _ Henc Hrec Hid Hmatch). }
  split.
  - intros d3 report Hr. destruct (triple_run _ _ _ _ _ _ (triple_Restore (H := m2) rnds inp d2 Hnst) Hr) as
      ((plain & db' & tree' & t & Hv & Hdb' & Hopen' & _ & Hft & Hsize & Hroot) & _ & _).
    apply (verified_unique _ _ _ _ Hver) in Hv as <-. rewrite open_image_spec in Hdb'. injection Hdb' as <-.
    pose proof (reopen_log live ls Hrep) as Hre. rewrite Hopen' in Hre. destruct Hre as [Hhs Hrep'].
    exists tree', t. split; [done|]. split; [done|]. split; [rewrite Hsize; unfold Size; by rewrite (represents_length _ _ Hrep')|].
    rewrite Hroot. unfold hex_root. by rewrite (Root_represents _ _ Hrep'), Hhs.
  - intros Hw restored Hopen Hpath Ht Hacc Hfree.
    destruct (Restore_progress (H := m2) Hw rnds inp d2 (image (tdb live)) (tdb live) restored) as (d3 & report & Hr);
      [done|done|done|intros He; cbn in He; subst; by apply elem_of_nil in Hid|done|apply open_image_spec|done|done|done|].
    exists d3, report. split; [done|]. intros [old Hold].
    destruct (triple_run _ _ _ _ _ _ (triple_Restore (H := m2) rnds inp d2 Hnst) Hr) as (_ & [(_ & _ & Hk)|(_ & [Hn|Hn])] & _).
    + exact Hk.
    + cbn [inp TargetPath] in Hn. by rewrite Hold in Hn.
    + by destruct Hn, (Hw (calls d3 - 2)%nat).
Qed.
End BackupRestores.

(** ** Concrete runs *)

Module Demo.
Import MapBolt TransparencyLog.Demo.

(** A toy envelope that lists its recipients, and database files that hold the
    code of the store. *)
Fixpoint split_at (n : nat) (l : bytes) : bytes * bytes :=
  match n, l with S n', x :: l' => let '(a, b) := split_at n' l' in (x :: a, b) | _, _ => ([], l) end.
#[local] Instance toy_age : Age Z Z := {
  age_Encrypt seed rs m := Some (Z.of_nat (length rs) :: rs ++ m);
  age_Decrypt ids c :=
    match c with
    | n :: c => let '(rs, m) := split_at (Z.to_nat n) c in if existsb (fun i => existsb (Z.eqb i) rs) ids then Some m else None
    | [] => None
    end;
  matches i r := i = r;
}.

#[local] Instance toy_age_laws : AgeLaws Z Z.
Proof.
  intros seed rs m c ids i r Henc Hr Hi ->. cbn in Henc. injection Henc as <-. cbn [age_Decrypt toy_age].
  rewrite Nat2Z.id. assert (split_at (length rs) (rs ++ m) = (rs, m)) as ->.
  { clear. induction rs as [|x rs IH]; [by destruct m|]. cbn [length app split_at]. by rewrite IH. }
  assert (existsb (fun i => existsb (Z.eqb i) rs) ids = true) as ->; [|done].
  apply existsb_exists. exists r. split; [by apply list_elem_of_In|]. apply existsb_exists. exists r.
  split; [by apply list_elem_of_In|apply Z.eqb_refl].
Qed.

#[local] Instance toy_file : BoltFile MapBolt.t := {
  image s := [Zpos (encode s)];
  open_image b := match b with [Zpos p] => decode p | _ => None end;
}.
#[local] Instance toy_file_laws : BoltFileLaws MapBolt.t.
Proof. intros s. cbn [open_image image toy_file]. apply decode_encode. Qed.

(** A machine on which everything works, and one whose fourteenth call fails. *)
Definition epoch : gotime := 63913881600 * ns_per_s.
Definition good : Machine := Build_Machine (fun _ => Works) (fun n => epoch + Z.of_nat n * ns_per_s) (fun _ => false).
Definition failing_at (n : nat) : Machine :=
  Build_Machine (fun k => if (k =? n)%nat then Fails None else Works) (fun n => epoch + Z.of_nat n * ns_per_s) (fun _ => false).

Lemma good_works : @works good.
Proof. done. Qed.

Definition target := "/data/owasaka.db".
Definition disk0 : disk := mkDisk {[ target := mkFile (image (∅ : MapBolt.t)) epoch ]} 0.
Section On.
Context {m : Machine}.
Definition engine : Engine (Recipient := Z) :=
  mkEngine (BoltSource (Some (fun _ => tdb tree3)) (Some (fun _ => tree3))) [mkSink "local" (LocalSink_Write "/backups" 0)] [7].
Definition input (sth : option STH) : RestoreInput (Identity := Z) :=
  mkRestoreInput (JoinPath "/backups" (formatFilename epoch 3)) "" [7; 9] target sth false.
Definition backed_up := Run (Identity := Z) [] engine disk0.
Definition restored (sth : option STH) := Restore ["1"; "2"] (input sth) (backed_up).1.
End On.

(** The sixteenth call is the second rename of the swap: no database is left at
    the target, the old one is under the reported name. *)
Theorem failed_swap_leaves_no_target :
  match restored (m := failing_at 15) None with
  | (d, RErr (report, ErrOs ErrIO)) =>
      files d !! target = None /\ files d !! OldDBBackupPath report = files disk0 !! target
  | _ => False
  end.
Proof. vm_compute. split; reflexivity. Qed.

(** The fourteenth is [os.Stat]: its failure is taken for absence, and the old
    database is overwritten without being kept. *)
Theorem failed_stat_loses_old :
  match restored (m := failing_at 13) None with
  | (d, ROk report) =>
      OldDBBackupPath report = "" /\ forallb (fun f => negb (bool_decide (Some (body f) = body <$> files disk0 !! target))) (map_to_list (files d)).*2 = true
  | _ => False
  end.
Proof. vm_compute. split; reflexivity. Qed.

(** The reported time of the backup is that of the restore. *)
Theorem created_at_is_restore_time :
  match (backed_up (m := good)).2, (restored (m := good) None).2 with
  | ROk art, ROk report => CreatedAt art = epoch /\ epoch < BackupCreatedAt report <= SwappedAt report
  | _, _ => False
  end.
Proof. vm_compute. split; [reflexivity|split; [reflexivity|discriminate]]. Qed.

Lemma filenames_chronological_witness : name_lt (formatFilename epoch 10) (formatFilename (epoch + ns_per_s) 9).
Proof. apply filenames_chronological; [vm_compute; split; discriminate|vm_compute; split; discriminate|vm_compute; reflexivity]. Defined.

Definition pairs_disk : disk :=
  mkDisk (list_to_map ((fun p => (p, mkFile [] 0)) <$> ["/b/1.age"; "/b/1.age.sha256"; "/b/2.age"; "/b/2.age.sha256"; "/b/3.age"])) 0.

Lemma rotation_removes_surplus_witness :
  files (rotate (H := good) "/b" 1 pairs_disk).1 !! "/b/2.age" = Some (mkFile [] 0) /\
  files (rotate (H := good) "/b" 1 pairs_disk).1 !! "/b/1.age.sha256" = None.
Proof.
  destruct (rotate (H := good) "/b" 1 pairs_disk) as [d' r] eqn:Hr.
  destruct (rotation_removes_surplus (H := good) "/b" 1 pairs_disk d' r ltac:(reflexivity) Hr) as (_ & Hkept & _ & Hgone). split.
  - cbn [fst]. rewrite (Hkept "2.age" "/b/2.age"); [reflexivity| |by left]. vm_compute. constructor.
  - apply (Hgone ltac:(done)) with (name := "1.age"); [vm_compute; constructor|by right].
Defined.

Lemma target_not_staging {m : Machine} sth : ~ staging_name ["1"; "2"] (input sth) target.
Proof. intros (rnd & Hrnd & Heq). repeat (apply elem_of_cons in Hrnd as [->|Hrnd]); [done..|]. by apply elem_of_nil in Hrnd. Qed.

Lemma restore_all_or_nothing_witness :
  let d := (backed_up (m := failing_at 15)).1 in
  match restored (m := failing_at 15) None with
  | (d', RErr (report, _)) => kept_on_error target (staging_name ["1"; "2"] (input None)) d d' report
  | _ => False
  end.
Proof.
  destruct (restored (m := failing_at 15) None) as [d' r] eqn:Hr. cbv zeta.
  pose proof (restore_all_or_nothing (H := failing_at 15) _ _ _ _ _ (target_not_staging (m := failing_at 15) None) Hr) as Hres.
  assert (match (restored (m := failing_at 15) None).2 with RErr _ => True | _ => False end) as Hfails by (vm_compute; exact I).
  rewrite Hr in Hfails. destruct r as [report|[report e]|]; [done| |done]. exact Hres.
Defined.

Definition reopened : Tree MapBolt.t := match Open (Some (tdb tree3)) with ROk t => t | _ => tree3 end.

(** The pair of a backup restores. *)
Lemma backup_restores_witness :
  exists d1 art, backed_up (m := good) = (d1, ROk art) /\ stored "/backups" 0 art (files d1) /\
    exists d2 report, restored (m := good) None = (d2, ROk report) /\
      BackupTreeSize report = 3 /\ BackupRootHex report = hex_EncodeToString (MerkleTreeHash (hashes tree3)).
Proof.
  destruct (backed_up (m := good)) as [d1 res] eqn:Hb. destruct res as [art|e|] eqn:Hres.
  2,3: exfalso; assert (match (backed_up (m := good)).2 with ROk _ => True | _ => False end) as Hok by (vm_compute; exact I);
    by rewrite Hb in Hok.
  destruct (backup_restores good good (fun _ => tdb tree3) (fun _ => tree3) "/backups" "local" 0 disk0 d1 [] [7] [7; 9] 7 7 tree3 leaves art)
    as (Hst & _ & Hrestore); [apply tree3_represents|done|constructor|constructor|done|exact Hb|].
  assert (Filename art = formatFilename epoch 3) as Hf.
  { change art with (match @ROk (Artifact * berr) _ art with ROk a => a | _ => art end).
    change (@ROk (Artifact * berr) _ art) with (d1, @ROk (Artifact * berr) _ art).2. rewrite <- Hb. vm_compute. reflexivity. }
  exists d1, art. split; [done|]. split; [done|].
  assert (pair_at (JoinPath "/backups" (formatFilename epoch 3)) art (files d1)) as Hpair.
  { rewrite <- Hf. destruct Hst as (f & [Hp Hs] & Hq). split.
    - destruct (Hq (JoinPath "/backups" (Filename art))) as [->|(_ & Hk & _)]; [exact Hp|lia].
    - destruct (Hq (JoinPath "/backups" (Filename art) +:+ ".sha256")) as [->|(_ & Hk & _)]; [exact Hs|lia]. }
  destruct (Hrestore ["1"; "2"] (JoinPath "/backups" (formatFilename epoch 3)) target None false d1 Hpair (target_not_staging (m := good) None)) as [Hthen Hwhen].
  destruct (Hwhen good_works reopened) as (d2 & report & Hr & _); [vm_compute; reflexivity|apply JoinPath_ne|done|exact I| |].
  { exists "1". split; [constructor|]. change d1 with (d1, @ROk (Artifact * berr) _ art).1. rewrite <- Hb. vm_compute. reflexivity. }
  destruct (Hthen d2 report Hr) as (restored & t & _ & _ & Hsize & Hroot).
  exists d2, report. split; [|by split]. unfold Demo.restored. rewrite Hb. exact Hr.
Defined.
End Demo.
