(* ===== verification/Topology.v ===== *)
(** * The topology graph

    internal/network/topology: the graph of observed hosts and connections, the
    builder that feeds it from assets and events, the difference of two
    snapshots and the view for the front end.  Go ranges over maps in any order:
    [orders] gives the keys of a graph in the order a snapshot visits them. *)
From stdpp Require Import base list strings gmap.
From Stdlib Require Import ZArith Lia Bool.
From S2P Require Import Prelude Models.
Local Open Scope string_scope.
Local Open Scope list_scope.
Local Open Scope Z_scope.

(** ** Data *)

Inductive NodeType := NodeTypeHost | NodeTypeRouter | NodeTypeContainer | NodeTypeVM | NodeTypeUnknown.
#[export] Instance NodeType_eq_dec : EqDecision NodeType.
Proof. solve_decision. Defined.

Record Node := mkNode {
  n_ID : string; n_Label : string; n_Type : NodeType; n_MAC : string; n_OS : string; n_Ports : list Z; n_LastSeen : gotime }.
Record Edge := mkEdge { e_Source : string; e_Target : string; e_Count : Z; e_Protocol : string }.
Record GraphSnapshot := mkSnapshot { s_Nodes : list Node; s_Edges : list Edge }.
Record Graph := mkGraph { nodes : gmap string Node; edges : gmap string Edge }.

Definition NewGraph : Graph := mkGraph ∅ ∅.

Definition edge_key (src dst : string) : string := src +:+ "->" +:+ dst.

(** ** Operations *)

(** [if v != "" && v != old { old = v; changed = true }]. *)
Definition set_string (v old : string) : string * bool :=
  if negb (bool_decide (v = "")) && negb (bool_decide (v = old)) then (v, true) else (old, false).

(** The update of an existing node. *)
Definition merge_node (n existing : Node) : Node * bool :=
  let '(label, c1) := set_string (n_Label n) (n_Label existing) in
  let '(mac, c2) := set_string (n_MAC n) (n_MAC existing) in
  let '(os, c3) := set_string (n_OS n) (n_OS existing) in
  let '(ports, c4) := if (0 <? length (n_Ports n))%nat then (n_Ports n, true) else (n_Ports existing, false) in
  let '(ty, c5) :=
    if negb (bool_decide (n_Type n = NodeTypeUnknown)) && negb (bool_decide (n_Type n = n_Type existing))
    then (n_Type n, true) else (n_Type existing, false) in
  (mkNode (n_ID existing) label ty mac os ports (n_LastSeen n), c1 || c2 || c3 || c4 || c5).

Definition UpsertNode (g : Graph) (n : Node) : Graph * bool :=
  match nodes g !! n_ID n with
  | None => (mkGraph (<[n_ID n := n]> (nodes g)) (edges g), true)
  | Some existing =>
      let '(n', changed) := merge_node n existing in
      (mkGraph (<[n_ID n := n']> (nodes g)) (edges g), changed)
  end.

Definition UpsertEdge (g : Graph) (src dst protocol : string) : Graph * bool :=
  if bool_decide (src = dst) || bool_decide (src = "") || bool_decide (dst = "") then (g, false)
  else
    let key := edge_key src dst in
    match edges g !! key with
    | Some e => (mkGraph (nodes g) (<[key := mkEdge (e_Source e) (e_Target e) (e_Count e + 1) (e_Protocol e)]> (edges g)), false)
    | None => (mkGraph (nodes g) (<[key := mkEdge src dst 1 protocol]> (edges g)), true)
    end.

Definition NodeCount (g : Graph) : Z := Z.of_nat (size (nodes g)).

(** ** Differences of snapshots *)

Inductive Change := ChangeNodeAdded (id : string) | ChangeNodeRemoved (id : string) | ChangeEdgeAdded (e : Edge).

Definition node_ids (s : GraphSnapshot) : list string := n_ID <$> s_Nodes s.
Definition edge_keys (s : GraphSnapshot) : list string := (fun e => edge_key (e_Source e) (e_Target e)) <$> s_Edges s.

Definition Diff (prev next : GraphSnapshot) : list Change :=
  omap (fun n => if bool_decide (n_ID n ∈ node_ids prev) then None else Some (ChangeNodeAdded (n_ID n))) (s_Nodes next) ++
  omap (fun n => if bool_decide (n_ID n ∈ node_ids next) then None else Some (ChangeNodeRemoved (n_ID n))) (s_Nodes prev) ++
  omap (fun e => if bool_decide (edge_key (e_Source e) (e_Target e) ∈ edge_keys prev) then None else Some (ChangeEdgeAdded e))
    (s_Edges next).

(** ** The front end's view *)

Record D3Node := mkD3Node { d_ID : string; d_Label : string; d_Type : NodeType; d_OS : string; d_Ports : list Z }.
Record D3Link := mkD3Link { l_Source : string; l_Target : string; l_Count : Z }.
Record D3Graph := mkD3Graph { d_Nodes : list D3Node; d_Links : list D3Link }.

Definition ToD3 (snap : GraphSnapshot) : D3Graph :=
  mkD3Graph ((fun n => mkD3Node (n_ID n) (n_Label n) (n_Type n) (n_OS n) (n_Ports n)) <$> s_Nodes snap)
            ((fun e => mkD3Link (e_Source e) (e_Target e) (e_Count e)) <$> s_Edges snap).

Section Builder.
(** The orders in which a snapshot visits the nodes and the edges. *)
Context (orders : Graph -> list string * list string).

Definition Snapshot (g : Graph) : GraphSnapshot :=
  mkSnapshot (omap (fun k => nodes g !! k) (orders g).1) (omap (fun k => edges g !! k) (orders g).2).

(** The builder is its graph; the result lists the snapshots given to the
    change callback, [cb] tells whether one is registered. *)
Definition asset_label (a : Asset) : string :=
  let label := as_Hostname a in
  let label := if bool_decide (label = "") then as_MAC a else label in
  if bool_decide (label = "") then as_IP a else label.

Definition asset_node (a : Asset) : Node :=
  mkNode (as_IP a) (asset_label a) NodeTypeHost (as_MAC a) (as_OS a) (as_Ports a) (as_LastSeen a).

Definition OnAsset (cb : bool) (g : Graph) (a : Asset) : Graph * list GraphSnapshot :=
  let '(g, changed) := UpsertNode g (asset_node a) in
  (g, if changed && cb then [Snapshot g] else []).

Definition endpoint (id : string) (t : gotime) : Node := mkNode id id NodeTypeUnknown "" "" [] t.

Definition OnEvent (cb : bool) (g : Graph) (e : NetworkEvent) : Graph * list GraphSnapshot :=
  if bool_decide (ne_Source e = "") || bool_decide (ne_Destination e = "") then (g, [])
  else
    let '(g, _) := UpsertNode g (endpoint (ne_Source e) (ne_Timestamp e)) in
    let '(g, _) := UpsertNode g (endpoint (ne_Destination e) (ne_Timestamp e)) in
    let '(g, isNew) := UpsertEdge g (ne_Source e) (ne_Destination e) (event_type_string (ne_Type e)) in
    (g, if isNew && cb then [Snapshot g] else []).

(** A stream of assets and events. *)
Definition feed (cb : bool) (g : Graph) (x : Asset + NetworkEvent) : Graph * list GraphSnapshot :=
  match x with inl a => OnAsset cb g a | inr e => OnEvent cb g e end.
Definition run (cb : bool) (g : Graph) (xs : list (Asset + NetworkEvent)) : Graph := foldl (fun g x => (feed cb g x).1) g xs.
End Builder.

(** ** The graph invariant *)

(** Nodes and edges sit under their keys; an edge joins two different nodes of the
    graph and has been seen. *)
Record graph_wf (g : Graph) : Prop := {
  wf_node : forall k n, nodes g !! k = Some n -> n_ID n = k;
  wf_edge : forall k e, edges g !! k = Some e ->
    k = edge_key (e_Source e) (e_Target e) /\ e_Source e <> e_Target e /\ e_Source e <> "" /\ e_Target e <> "" /\ 1 <= e_Count e /\
    is_Some (nodes g !! e_Source e) /\ is_Some (nodes g !! e_Target e);
}.

(** Nodes are never removed and keep their keys. *)
Definition nodes_grow (g g' : Graph) : Prop := forall k, is_Some (nodes g !! k) -> is_Some (nodes g' !! k).

Lemma merge_node_ID n existing : n_ID (merge_node n existing).1 = n_ID existing.
Proof.
  unfold merge_node. destruct (set_string _ _), (set_string _ _), (set_string _ _), (0 <? _)%nat; repeat case_match; simplify_eq; done.
Qed.

Lemma UpsertNode_spec g n : let g' := (UpsertNode g n).1 in
  edges g' = edges g /\ (forall k, k <> n_ID n -> nodes g' !! k = nodes g !! k) /\
  exists n', nodes g' !! n_ID n = Some n' /\
    match nodes g !! n_ID n with Some existing => n' = (merge_node n existing).1 | None => n' = n end.
Proof.
  unfold UpsertNode. destruct (nodes g !! n_ID n) as [existing|] eqn:He; [destruct (merge_node n existing) as [n' c] eqn:Hm|]; cbn [fst nodes edges];
    (split; [done|]; split; [intros; by rewrite lookup_insert_ne|]; eexists; split; [by rewrite lookup_insert_eq|done]).
Qed.

Lemma UpsertNode_grow g n : nodes_grow g (UpsertNode g n).1 /\ is_Some (nodes (UpsertNode g n).1 !! n_ID n).
Proof.
  destruct (UpsertNode_spec g n) as (_ & Hne & n' & Hn' & _). split; [|by eexists].
  intros k Hk. destruct (decide (k = n_ID n)) as [->|]; [by eexists|by rewrite Hne].
Qed.

Lemma UpsertNode_wf g n : graph_wf g -> graph_wf (UpsertNode g n).1.
Proof.
  intros [Hn He]. destruct (UpsertNode_spec g n) as (Hed & Hne & n' & Hn' & Hm). destruct (UpsertNode_grow g n) as [Hgrow _]. split.
  - intros k m Hk. destruct (decide (k = n_ID n)) as [->|Hkn]; [|rewrite Hne in Hk by done; by apply Hn].
    assert (m = n') as -> by congruence. destruct (nodes g !! n_ID n) as [existing|] eqn:Hex; subst; [|done].
    rewrite merge_node_ID. by apply Hn.
  - intros k e Hk. rewrite Hed in Hk. destruct (He k e Hk) as (H1 & H2 & H3 & H4 & H5 & H6 & H7). split_and!; auto.
Qed.

Lemma UpsertEdge_spec g src dst protocol : let '(g', isNew) := UpsertEdge g src dst protocol in
  nodes g' = nodes g /\
  (isNew = true <-> src <> dst /\ src <> "" /\ dst <> "" /\ edges g !! edge_key src dst = None).
Proof.
  unfold UpsertEdge. destruct (bool_decide_reflect (src = dst)), (bool_decide_reflect (src = "")), (bool_decide_reflect (dst = "")); simpl;
    try (split; [done|]; split; [done|]; by intros (? & ? & ? & ?)).
  destruct (edges g !! edge_key src dst) as [e|]; (split; [done|]); [|done]. split; [done|]. by intros (_ & _ & _ & ?).
Qed.

Lemma UpsertEdge_wf g src dst protocol :
  graph_wf g -> is_Some (nodes g !! src) -> is_Some (nodes g !! dst) -> graph_wf (UpsertEdge g src dst protocol).1.
Proof.
  intros [Hn He] Hs Hd. unfold UpsertEdge.
  destruct (bool_decide_reflect (src = dst)), (bool_decide_reflect (src = "")), (bool_decide_reflect (dst = "")); try done. cbn [orb].
  destruct (edges g !! edge_key src dst) as [e0|] eqn:He0; cbn [fst]; (split; [done|]); cbn [nodes edges]; intros k e [[<- <-]|[Hk Hke]]%lookup_insert_Some;
    try by apply He.
  - destruct (He _ _ He0) as (H1 & H2 & H3 & H4 & H5 & H6 & H7). cbn [e_Source e_Target e_Count]. split_and!; try done; lia.
  - cbn [e_Source e_Target e_Count]. split_and!; try done; lia.
Qed.

Section Theorems.
Context (orders : Graph -> list string * list string).

Lemma feed_wf cb g x : graph_wf g -> graph_wf (feed orders cb g x).1 /\ nodes_grow g (feed orders cb g x).1.
Proof.
  intros Hwf. destruct x as [a|e]; cbn [feed].
  - unfold OnAsset. pose proof (UpsertNode_wf g (asset_node a) Hwf). pose proof (proj1 (UpsertNode_grow g (asset_node a))).
    destruct (UpsertNode g (asset_node a)) as [g' c]. cbn [fst] in *. by split.
  - unfold OnEvent. destruct (_ || _); [split; [done|by intros k]|].
    set (n1 := endpoint (ne_Source e) (ne_Timestamp e)). set (n2 := endpoint (ne_Destination e) (ne_Timestamp e)).
    pose proof (UpsertNode_wf g n1 Hwf) as Hwf1. destruct (UpsertNode_grow g n1) as [Hg1 Hs1]. destruct (UpsertNode g n1) as [g1 c1].
    pose proof (UpsertNode_wf g1 n2 Hwf1) as Hwf2. destruct (UpsertNode_grow g1 n2) as [Hg2 Hs2]. destruct (UpsertNode g1 n2) as [g2 c2].
    pose proof (UpsertEdge_spec g2 (ne_Source e) (ne_Destination e) (event_type_string (ne_Type e))) as Hspec.
    pose proof (UpsertEdge_wf g2 (ne_Source e) (ne_Destination e) (event_type_string (ne_Type e)) Hwf2 (Hg2 _ Hs1) Hs2) as Hwf3.
    destruct (UpsertEdge g2 _ _ _) as [g3 isNew]. cbn [fst] in *. split; [done|]. destruct Hspec as [Hn _].
    intros k Hk. rewrite Hn. auto.
Qed.

Lemma run_wf cb xs : forall g, graph_wf g -> graph_wf (run orders cb g xs) /\ nodes_grow g (run orders cb g xs).
Proof.
  induction xs as [|x xs IH]; intros g Hg; [split; [done|by intros k]|]. cbn [run foldl]. destruct (feed_wf cb g x Hg) as [Hw Hgr].
  destruct (IH _ Hw) as [Hw' Hgr']. split; [done|]. intros k Hk. auto.
Qed.

(** Both ends of an event are in the graph afterwards. *)
Lemma event_endpoints cb g e : ne_Source e <> "" -> ne_Destination e <> "" ->
  is_Some (nodes (OnEvent orders cb g e).1 !! ne_Source e) /\ is_Some (nodes (OnEvent orders cb g e).1 !! ne_Destination e).
Proof.
  intros Hs Hd. unfold OnEvent. rewrite !bool_decide_eq_false_2 by done. cbn [orb].
  destruct (UpsertNode_grow g (endpoint (ne_Source e) (ne_Timestamp e))) as [_ H1]. destruct (UpsertNode g _) as [g1 c1].
  destruct (UpsertNode_grow g1 (endpoint (ne_Destination e) (ne_Timestamp e))) as [Hg H2]. destruct (UpsertNode g1 _) as [g2 c2].
  pose proof (UpsertEdge_spec g2 (ne_Source e) (ne_Destination e) (event_type_string (ne_Type e))) as Hspec.
  destruct (UpsertEdge g2 _ _ _) as [g3 c3]. destruct Hspec as [Hn _]. cbn [fst] in *. rewrite Hn. by split; [apply Hg|].
Qed.

Lemma NewGraph_wf : graph_wf NewGraph.
Proof. split; intros k ? Hk; cbn [nodes edges NewGraph] in Hk; by rewrite lookup_empty in Hk. Qed.

(** Whatever assets and events are fed to the builder, nodes and edges sit
    under their keys and every edge joins two distinct nodes of the graph. *)
Theorem graph_well_formed (cb : bool) (xs : list (Asset + NetworkEvent)) : graph_wf (run orders cb NewGraph xs).
Proof. apply run_wf, NewGraph_wf. Qed.

(** ** What the edges count *)

Definition connects (k : string) (x : Asset + NetworkEvent) : bool :=
  match x with
  | inl _ => false
  | inr e => bool_decide (edge_key (ne_Source e) (ne_Destination e) = k) && negb (bool_decide (ne_Source e = ne_Destination e))
             && negb (bool_decide (ne_Source e = "")) && negb (bool_decide (ne_Destination e = ""))
  end.

(** The edge that a sequence of connections with one key amounts to. *)
Definition edge_of (xs : list (Asset + NetworkEvent)) : option Edge :=
  match xs with
  | inr e :: _ => Some (mkEdge (ne_Source e) (ne_Destination e) (Z.of_nat (length xs)) (event_type_string (ne_Type e)))
  | _ => None
  end.

Lemma feed_edges cb g x k :
  edges (feed orders cb g x).1 !! k =
  match x with
  | inr e =>
      if connects k x then
        Some (match edges g !! k with
              | Some e0 => mkEdge (e_Source e0) (e_Target e0) (e_Count e0 + 1) (e_Protocol e0)
              | None => mkEdge (ne_Source e) (ne_Destination e) 1 (event_type_string (ne_Type e))
              end)
      else edges g !! k
  | inl _ => edges g !! k
  end.
Proof.
  destruct x as [a|e]; cbn [feed].
  - unfold OnAsset. destruct (UpsertNode_spec g (asset_node a)) as (He & _). destruct (UpsertNode g _). cbn [fst] in *. by rewrite He.
  - unfold OnEvent, connects. destruct (bool_decide_reflect (ne_Source e = "")) as [Hs|Hs], (bool_decide_reflect (ne_Destination e = "")) as [Hd|Hd];
      cbn [orb negb]; rewrite ?andb_false_r, ?andb_true_r; try done.
    destruct (UpsertNode_spec g (endpoint (ne_Source e) (ne_Timestamp e))) as (He1 & _). destruct (UpsertNode g _) as [g1 c1]. cbn [fst] in He1.
    destruct (UpsertNode_spec g1 (endpoint (ne_Destination e) (ne_Timestamp e))) as (He2 & _). destruct (UpsertNode g1 _) as [g2 c2]. cbn [fst] in He2.
    rewrite <- He1, <- He2. unfold UpsertEdge. rewrite (bool_decide_eq_false_2 _ Hs), (bool_decide_eq_false_2 _ Hd), !orb_false_r.
    destruct (bool_decide_reflect (ne_Source e = ne_Destination e)) as [Heq|Heq]; cbn [negb]; rewrite ?andb_false_r, ?andb_true_r; [done|].
    destruct (bool_decide_reflect (edge_key (ne_Source e) (ne_Destination e) = k)) as [<-|Hk].
    + destruct (edges g2 !! _); cbn [fst edges]; by rewrite lookup_insert_eq.
    + destruct (edges g2 !! edge_key _ _); cbn [fst edges]; by rewrite lookup_insert_ne.
Qed.

(** Edges count connections: after any stream of assets and events the edge
    under a key has the endpoints and protocol of the first valid event with that
    key and the number of such events; there is none when there was no event. *)
Theorem edges_count_connections (cb : bool) (xs : list (Asset + NetworkEvent)) (k : string) :
  edges (run orders cb NewGraph xs) !! k = edge_of (filter (connects k) xs).
Proof.
  induction xs as [|x xs IH] using rev_ind; [done|]. unfold run in *. rewrite foldl_app, filter_app. cbn [foldl].
  rewrite feed_edges, IH, filter_cons, filter_nil. destruct x as [a|e].
  - rewrite decide_False by (intros []). by rewrite app_nil_r.
  - destruct (connects k (inr e)) eqn:Hc; [|rewrite decide_False by (intros []); by rewrite app_nil_r].
    rewrite decide_True by done. assert (Forall (fun x => connects k x = true) (filter (connects k) xs)) as Hall.
    { apply Forall_forall. intros y [Hy _]%list_elem_of_filter. by apply Is_true_eq_true. }
    destruct (filter (connects k) xs) as [|[a|e0] l]; cbn [edge_of app]; [done|by inversion_clear Hall|].
    cbn [length]. rewrite length_app. cbn [length e_Source e_Target e_Count e_Protocol]. repeat f_equal. lia.
Qed.

(** ** Differences *)

(** A snapshot visits every node and every edge once. *)
Definition orders_ok : Prop := forall g,
  (orders g).1 ≡ₚ (map_to_list (nodes g)).*1 /\ (orders g).2 ≡ₚ (map_to_list (edges g)).*1.

Lemma elem_of_keys {A} (m : gmap string A) k : k ∈ (map_to_list m).*1 <-> is_Some (m !! k).
Proof.
  rewrite list_elem_of_fmap. split.
  - intros ([k' x] & -> & Hin). apply elem_of_map_to_list in Hin. by eexists.
  - intros [x Hx]. exists (k, x). split; [done|]. by apply elem_of_map_to_list.
Qed.

Context (Hok : orders_ok).

Lemma snapshot_nodes g n : graph_wf g -> n ∈ s_Nodes (Snapshot orders g) <-> nodes g !! n_ID n = Some n.
Proof.
  intros Hwf. cbn [s_Nodes Snapshot]. rewrite list_elem_of_omap. destruct (Hok g) as [Hn _]. split.
  - intros (k & _ & Hk). by rewrite (wf_node g Hwf _ _ Hk).
  - intros Hk. exists (n_ID n). split; [|done]. rewrite Hn, elem_of_keys. by eexists.
Qed.

Lemma snapshot_ids g id : graph_wf g -> id ∈ node_ids (Snapshot orders g) <-> is_Some (nodes g !! id).
Proof.
  intros Hwf. unfold node_ids. rewrite list_elem_of_fmap. split.
  - intros (n & -> & Hn%snapshot_nodes); [by eexists|done].
  - intros [n Hn]. exists n. pose proof (wf_node g Hwf _ _ Hn) as <-. split; [done|]. by apply snapshot_nodes.
Qed.

Lemma snapshot_edges g e : graph_wf g -> e ∈ s_Edges (Snapshot orders g) <-> edges g !! edge_key (e_Source e) (e_Target e) = Some e.
Proof.
  intros Hwf. cbn [s_Edges Snapshot]. rewrite list_elem_of_omap. destruct (Hok g) as [_ He]. split.
  - intros (k & _ & Hk). destruct (wf_edge g Hwf _ _ Hk) as (<- & _). done.
  - intros Hk. eexists. split; [|exact Hk]. rewrite He, elem_of_keys. by eexists.
Qed.

Lemma snapshot_keys g k : graph_wf g -> k ∈ edge_keys (Snapshot orders g) <-> is_Some (edges g !! k).
Proof.
  intros Hwf. unfold edge_keys. rewrite list_elem_of_fmap. split.
  - intros (e & -> & He%snapshot_edges); [by eexists|done].
  - intros [e He]. exists e. destruct (wf_edge g Hwf _ _ He) as (Hk & _). split; [done|]. apply snapshot_edges; [done|]. by rewrite <- Hk.
Qed.

Lemma elem_of_Diff prev next c : c ∈ Diff prev next <->
  match c with
  | ChangeNodeAdded id => id ∈ node_ids next /\ id ∉ node_ids prev
  | ChangeNodeRemoved id => id ∈ node_ids prev /\ id ∉ node_ids next
  | ChangeEdgeAdded e => e ∈ s_Edges next /\ edge_key (e_Source e) (e_Target e) ∉ edge_keys prev
  end.
Proof.
  unfold Diff. rewrite !elem_of_app, !list_elem_of_omap. split.
  - intros [(n & Hn & Hc)|[(n & Hn & Hc)|(e & He & Hc)]]; case_bool_decide as Hin; simplify_eq; (split; [|done]);
      [by apply list_elem_of_fmap_2..|done].
  - destruct c as [id|id|e].
    + intros [(n & -> & Hn)%list_elem_of_fmap Hp]. left. exists n. by rewrite bool_decide_eq_false_2.
    + intros [(n & -> & Hn)%list_elem_of_fmap Hp]. right; left. exists n. by rewrite bool_decide_eq_false_2.
    + intros [He Hp]. right; right. exists e. by rewrite bool_decide_eq_false_2.
Qed.

(** C37: The difference between two moments of a stream is exact, in any map order:
    it lists exactly the nodes and edges that are new, and never a removal. *)
Theorem topology_diff_exact (cb : bool) (before later : list (Asset + NetworkEvent)) (c : Change) :
  let g := run orders cb NewGraph before in
  let g' := run orders cb g later in
  c ∈ Diff (Snapshot orders g) (Snapshot orders g') <->
  match c with
  | ChangeNodeAdded id => is_Some (nodes g' !! id) /\ nodes g !! id = None
  | ChangeNodeRemoved _ => False
  | ChangeEdgeAdded e =>
      let k := edge_key (e_Source e) (e_Target e) in edges g' !! k = Some e /\ edges g !! k = None
  end.
Proof.
  intros g g'. destruct (run_wf cb before NewGraph NewGraph_wf) as [Hwf _]. fold g in Hwf.
  destruct (run_wf cb later g Hwf) as [Hwf' Hgrow]. fold g' in Hwf', Hgrow. rewrite elem_of_Diff. destruct c as [id|id|e].
  - rewrite !snapshot_ids by done. by rewrite eq_None_not_Some.
  - rewrite !snapshot_ids by done. split; [|done]. intros [Hs Hn]. by apply Hn, Hgrow.
  - cbv zeta. rewrite snapshot_edges, snapshot_keys by done. by rewrite eq_None_not_Some.
Qed.

(** ** Notifications *)

(** A new edge is always announced, with a snapshot that contains it. *)
Theorem new_edge_announced (g : Graph) (e : NetworkEvent) :
  graph_wf g -> ne_Source e <> ne_Destination e -> ne_Source e <> "" -> ne_Destination e <> "" ->
  edges g !! edge_key (ne_Source e) (ne_Destination e) = None ->
  exists snap, (OnEvent orders true g e).2 = [snap] /\
    mkEdge (ne_Source e) (ne_Destination e) 1 (event_type_string (ne_Type e)) ∈ s_Edges snap /\
    ne_Source e ∈ node_ids snap /\ ne_Destination e ∈ node_ids snap.
Proof.
  intros Hwf Hne Hs Hd Hnew. pose proof (feed_wf true g (inr e) Hwf) as [Hwf' _]. pose proof (feed_edges true g (inr e)) as Hed.
  cbn [feed] in *. set (k := edge_key (ne_Source e) (ne_Destination e)) in *. specialize (Hed k).
  unfold connects in Hed. fold k in Hed. rewrite !bool_decide_eq_true_2, !bool_decide_eq_false_2 in Hed by done. cbn [negb andb] in Hed. rewrite Hnew in Hed.
  assert ((OnEvent orders true g e).2 = [Snapshot orders (OnEvent orders true g e).1]) as Hsnap.
  { unfold OnEvent. rewrite !bool_decide_eq_false_2 by done. cbn [orb].
    destruct (UpsertNode_spec g (endpoint (ne_Source e) (ne_Timestamp e))) as (He1 & _). destruct (UpsertNode g _) as [g1 c1]. cbn [fst] in He1.
    destruct (UpsertNode_spec g1 (endpoint (ne_Destination e) (ne_Timestamp e))) as (He2 & _). destruct (UpsertNode g1 _) as [g2 c2]. cbn [fst] in He2.
    pose proof (UpsertEdge_spec g2 (ne_Source e) (ne_Destination e) (event_type_string (ne_Type e))) as Hspec.
    destruct (UpsertEdge g2 _ _ _) as [g3 isNew]. destruct Hspec as [_ Hnew']. rewrite He2, He1 in Hnew'.
    by rewrite (proj2 Hnew') by done. }
  eexists. split; [exact Hsnap|]. split; [by apply snapshot_edges|].
  destruct (wf_edge _ Hwf' _ _ Hed) as (_ & _ & _ & _ & _ & Hns & Hnd). split; by apply snapshot_ids.
Qed.

(** An event that talks to itself adds a node that no callback announces. *)
Theorem self_event_is_silent (g : Graph) (e : NetworkEvent) :
  ne_Source e <> "" -> ne_Destination e = ne_Source e -> nodes g !! ne_Source e = None ->
  is_Some (nodes (OnEvent orders true g e).1 !! ne_Source e) /\ (OnEvent orders true g e).2 = [].
Proof.
  intros Hs Hd Hn. unfold OnEvent. rewrite Hd, !bool_decide_eq_false_2 by done. cbn [orb].
  set (n := endpoint (ne_Source e) (ne_Timestamp e)). destruct (UpsertNode_grow g n) as [_ Hg]. destruct (UpsertNode g n) as [g1 c1].
  destruct (UpsertNode_grow g1 n) as [Hgrow _]. destruct (UpsertNode g1 n) as [g2 c2]. cbn [fst] in *.
  unfold UpsertEdge. rewrite bool_decide_eq_true_2 by done. cbn [orb fst snd andb]. split; [by apply Hgrow|done].
Qed.

(** A discovered host loses its name: after an asset gave a node its host name,
    the next event from that address sets the label back to the address, without a
    notification when the connection is already known. *)
Theorem event_relabels_host (g : Graph) (a : Asset) (e : NetworkEvent) :
  graph_wf g -> as_IP a <> "" -> as_Hostname a <> "" -> as_Hostname a <> as_IP a ->
  ne_Source e = as_IP a -> ne_Destination e <> "" -> ne_Destination e <> as_IP a ->
  is_Some (edges g !! edge_key (ne_Source e) (ne_Destination e)) ->
  let g1 := (OnAsset orders true g a).1 in
  let '(g2, announced) := OnEvent orders true g1 e in
  (n_Label <$> nodes g1 !! as_IP a) = Some (as_Hostname a) /\ (n_Label <$> nodes g2 !! as_IP a) = Some (as_IP a) /\ announced = [].
Proof.
  intros Hwf Hip Hh Hne Hs Hd Hdne Hedge g1. pose proof (feed_wf true g (inl a) Hwf) as [Hwf1 _]. cbn [feed] in Hwf1. fold g1 in Hwf1.
  assert (nodes g1 = nodes (UpsertNode g (asset_node a)).1 /\ edges g1 = edges (UpsertNode g (asset_node a)).1) as [Hn1 He1]
    by (unfold g1, OnAsset; by destruct (UpsertNode g (asset_node a))).
  assert (asset_label a = as_Hostname a) as Hlabel by (unfold asset_label; by rewrite !(bool_decide_eq_false_2 (as_Hostname a = ""))).
  destruct (UpsertNode_spec g (asset_node a)) as (Hed & _ & n & Hn & Hm). rewrite <- Hn1 in Hn. rewrite <- He1 in Hed. cbn [n_ID asset_node] in Hn, Hm.
  assert (n_Label n = as_Hostname a) as Hl.
  { destruct (nodes g !! as_IP a) as [ex|]; subst n; [|exact Hlabel]. unfold merge_node, set_string. cbn [n_Label asset_node]. rewrite Hlabel.
    rewrite (bool_decide_eq_false_2 (as_Hostname a = "")) by done. cbn [negb andb].
    destruct (bool_decide_reflect (as_Hostname a = n_Label ex)) as [->|]; cbn [negb]; repeat case_match; simplify_eq; done. }
  destruct (OnEvent orders true g1 e) as [g2 announced] eqn:Ho. split; [by rewrite Hn; simpl; rewrite Hl|].
  unfold OnEvent in Ho. rewrite Hs, (bool_decide_eq_false_2 (as_IP a = "")), (bool_decide_eq_false_2 (ne_Destination e = "")) in Ho by done. cbn [orb] in Ho.
  set (n1 := endpoint (as_IP a) (ne_Timestamp e)) in Ho. set (n2 := endpoint (ne_Destination e) (ne_Timestamp e)) in Ho.
  destruct (UpsertNode_spec g1 n1) as (He2 & _ & m & Hm1 & Hmm). destruct (UpsertNode g1 n1) as [g3 c3]. cbn [fst n_ID n1 endpoint] in *.
  rewrite Hn in Hmm. destruct (UpsertNode_spec g3 n2) as (He3 & Hne3 & _). destruct (UpsertNode g3 n2) as [g4 c4]. cbn [fst n_ID n2 endpoint] in *.
  pose proof (UpsertEdge_spec g4 (as_IP a) (ne_Destination e) (event_type_string (ne_Type e))) as Hspec.
  destruct (UpsertEdge g4 _ _ _) as [g5 isNew]. destruct Hspec as [Hn5 Hnew]. rewrite He3, He2, Hed in Hnew. rewrite Hs in Hedge.
  destruct isNew; [exfalso; destruct Hnew as [Hnew _]; destruct (Hnew eq_refl) as (_ & _ & _ & Hnone); rewrite Hnone in Hedge; by destruct Hedge|].
  injection Ho as <- <-. split; [|done]. rewrite Hn5, Hne3 by done. rewrite Hm1. simpl. f_equal. subst m.
  unfold merge_node, set_string. cbn [n_Label endpoint n1]. rewrite (bool_decide_eq_false_2 (as_IP a = "")) by done. rewrite Hl.
  rewrite (bool_decide_eq_false_2 (as_IP a = as_Hostname a)) by done. cbn [negb andb]. repeat case_match; simplify_eq; done.
Qed.

(** Assets without an address (physical devices, stopped containers) all share
    the node with the empty identifier. *)
Theorem assets_without_address_collapse (a b : Asset) :
  as_IP a = "" -> as_IP b = "" -> as_Hostname b <> "" ->
  let g := run orders true NewGraph [inl a; inl b] in
  NodeCount g = 1 /\ (n_Label <$> nodes g !! "") = Some (as_Hostname b).
Proof.
  intros Ha Hb Hh g.
  assert (forall h x, (OnAsset orders true h x).1 = (UpsertNode h (asset_node x)).1) as Hup
    by (intros h x; unfold OnAsset; by destruct (UpsertNode h _)).
  assert (g = mkGraph {[ "" := (merge_node (asset_node b) (asset_node a)).1 ]} ∅) as ->.
  { unfold g, run. cbn [foldl feed]. rewrite !Hup. unfold UpsertNode at 2. cbn [n_ID asset_node NewGraph nodes edges].
    rewrite Ha, lookup_empty. cbn [fst]. unfold UpsertNode. cbn [n_ID asset_node nodes edges]. rewrite Hb, lookup_insert_eq.
    destruct (merge_node (asset_node b) (asset_node a)) as [n c]. cbn [fst]. by rewrite insert_insert_eq. }
  split; [unfold NodeCount; cbn [nodes]; by rewrite map_size_singleton|]. cbn [nodes]. rewrite lookup_singleton_eq. cbn. f_equal.
  assert (asset_label b = as_Hostname b) as Hlabel by (unfold asset_label; by rewrite !(bool_decide_eq_false_2 (as_Hostname b = ""))).
  unfold merge_node, set_string. cbn [n_Label asset_node]. rewrite Hlabel, (bool_decide_eq_false_2 (as_Hostname b = "")) by done. cbn [negb andb].
  destruct (bool_decide_reflect (as_Hostname b = asset_label a)) as [->|]; cbn [negb]; repeat case_match; simplify_eq; done.
Qed.
End Theorems.

(** Keys of edges are ambiguous for names that contain an arrow. *)
Example edge_key_ambiguous : edge_key "a" "b->c" = edge_key "a->b" "c".
Proof. reflexivity. Qed.

(** ** A concrete stream *)

Module TopologyDemo.
Definition key_orders (g : Graph) : list string * list string := ((map_to_list (nodes g)).*1, (map_to_list (edges g)).*1).
Lemma key_orders_ok : orders_ok key_orders.
Proof. by intros g. Qed.

Definition ev (src dst : string) : NetworkEvent := mkNetworkEvent "" EventDNS src dst ∅ 7 [] "".
Definition host : Asset := mkAsset "a1" "10.0.0.1" "" "web" "linux" [80] 1 5.

Lemma topology_diff_exact_witness :
  let g := run key_orders true NewGraph [inr (ev "10.0.0.1" "10.0.0.2")] in
  ChangeNodeAdded "10.0.0.3" ∈ Diff (Snapshot key_orders g) (Snapshot key_orders (run key_orders true g [inr (ev "10.0.0.1" "10.0.0.3")])).
Proof.
  intros g. apply (topology_diff_exact key_orders key_orders_ok true [inr (ev "10.0.0.1" "10.0.0.2")] [inr (ev "10.0.0.1" "10.0.0.3")]
    (ChangeNodeAdded "10.0.0.3")). vm_compute. split; [by eexists|done].
Defined.

Lemma event_relabels_host_witness :
  let g := (OnAsset key_orders true (run key_orders true NewGraph [inr (ev "10.0.0.1" "10.0.0.2")]) host).1 in
  (n_Label <$> nodes g !! "10.0.0.1") = Some "web" /\
  (n_Label <$> nodes (OnEvent key_orders true g (ev "10.0.0.1" "10.0.0.2")).1 !! "10.0.0.1") = Some "10.0.0.1".
Proof.
  pose proof (event_relabels_host key_orders (run key_orders true NewGraph [inr (ev "10.0.0.1" "10.0.0.2")]) host (ev "10.0.0.1" "10.0.0.2")) as H.
  cbv zeta in H. destruct (OnEvent key_orders true _ (ev "10.0.0.1" "10.0.0.2")) as [g2 ann].
  destruct H as (H1 & H2 & _); [apply run_wf, NewGraph_wf|done|done|done|done|done|done|vm_compute; by eexists|]. by split.
Defined.
End TopologyDemo.
