(* ===== verification/Reconciliation.v ===== *)
(** * Reconciliation of the asset inventory

    internal/discovery/reconciliation: the difference of two listings of the
    asset repository (diff.go) and the engine that reports it (engine.go).  Go
    ranges over maps in any order: [order] gives the order in which a range visits
    an index.  [ListAssets] is the repository's; the events the engine pushes into
    the pipeline are returned in order. *)
From stdpp Require Import base list strings gmap fin_sets fin_map_dom.
From Stdlib Require Import ZArith Lia Bool SpecFloat.
From S2P Require Import Prelude Models Bolt Repository Topology.
Local Open Scope string_scope.
Local Open Scope list_scope.
Local Open Scope Z_scope.

(** ** Data *)

Inductive ChangeType := ChangeAdded | ChangeRemoved | ChangeModified.
#[export] Instance ChangeType_eq_dec : EqDecision ChangeType.
Proof. solve_decision. Defined.

Definition change_string (t : ChangeType) : string :=
  match t with ChangeAdded => "ASSET_ADDED" | ChangeRemoved => "ASSET_REMOVED" | ChangeModified => "ASSET_MODIFIED" end.

(** [Fields] lists the entries of the map in key order; a nil map is empty. *)
Record Change := mkChange { ch_Type : ChangeType; ch_AssetID : string; ch_Fields : list (string * gany) }.

(** ** diff.go *)

(** Later assets win over earlier ones with the same identifier. *)
Definition indexAssets (assets : list Asset) : gmap string Asset := foldl (fun m a => <[as_ID a := a]> m) ∅ assets.

Definition portsEqual (a b : list Z) : bool :=
  if negb (length a =? length b)%nat then false else forallb (fun p => bool_decide (p ∈ a)) b.

Definition old_new (old new : gany) : gany := VMap [("new", new); ("old", old)].
Definition string_field (k old new : string) : list (string * gany) :=
  if negb (bool_decide (old = new)) then [(k, old_new (VString old) (VString new))] else [].

Definition diffAsset (prev curr : Asset) : list (string * gany) :=
  string_field "hostname" (as_Hostname prev) (as_Hostname curr) ++
  string_field "ip" (as_IP prev) (as_IP curr) ++
  string_field "mac" (as_MAC prev) (as_MAC curr) ++
  string_field "os" (as_OS prev) (as_OS curr) ++
  (if negb (portsEqual (as_Ports prev) (as_Ports curr))
   then [("ports", old_new (VInts (as_Ports prev)) (VInts (as_Ports curr)))] else []).

Definition added (a : Asset) : Change :=
  mkChange ChangeAdded (as_ID a)
    [("hostname", VString (as_Hostname a)); ("ip", VString (as_IP a)); ("os", VString (as_OS a))].

Section Diff.
Context (order : gmap string Asset -> list string).

Definition arrival (prevMap currMap : gmap string Asset) (id : string) : option Change :=
  ca ← currMap !! id;
  match prevMap !! id with
  | None => Some (mkChange ChangeAdded id (ch_Fields (added ca)))
  | Some pa => let fields := diffAsset pa ca in
               if (0 <? length fields)%nat then Some (mkChange ChangeModified id fields) else None
  end.
Definition removal (currMap : gmap string Asset) (id : string) : option Change :=
  match currMap !! id with None => Some (mkChange ChangeRemoved id []) | Some _ => None end.

Definition Diff (prev curr : list Asset) : list Change :=
  let prevMap := indexAssets prev in
  let currMap := indexAssets curr in
  omap (arrival prevMap currMap) (order currMap) ++ omap (removal currMap) (order prevMap).

(** ** engine.go *)

Record ReconciliationConfig := mkRConfig { Enabled : bool; CheckIntervalMinutes : Z; AlertOnChange : bool; TrackHistory : bool }.

Definition countByType (changes : list Change) (ct : ChangeType) : nat :=
  foldl (fun n c => if bool_decide (ch_Type c = ct) then S n else n) O changes.

Definition severityFor (ct : ChangeType) : string :=
  match ct with ChangeRemoved => "high" | ChangeModified => "medium" | ChangeAdded => "low" end.

Definition alert_event (ch : Change) (now : gotime) : NetworkEvent :=
  mkNetworkEvent "" EventAlert "reconciliation" (ch_AssetID ch)
    (list_to_map [("change_type", VString (change_string (ch_Type ch))); ("asset_id", VString (ch_AssetID ch));
                  ("fields", VMap (ch_Fields ch)); ("severity", VString (severityFor (ch_Type ch)))]) now [] "".

Definition vint (n : nat) : gany := VInt (Z.of_nat n).
Definition summary_event (changes : list Change) (assets : nat) (now : gotime) : NetworkEvent :=
  mkNetworkEvent "" EventVM "reconciliation" "drift-summary"
    (list_to_map [("total_changes", vint (length changes)); ("added", vint (countByType changes ChangeAdded));
                  ("removed", vint (countByType changes ChangeRemoved)); ("modified", vint (countByType changes ChangeModified));
                  ("total_assets", vint assets)]) now [] "".

(** The alerts of a list of changes, each stamped when it is pushed. *)
Fixpoint alert_events (changes : list Change) (clock : nat -> gotime) (n : nat) : list NetworkEvent :=
  match changes with
  | [] => []
  | ch :: changes' => alert_event ch (clock n) :: alert_events changes' clock (S n)
  end.

(** One reconciliation: the new snapshot and the events pushed. *)
Definition reconcile {E} (cfg : ReconciliationConfig) (prev : list Asset) (listing : res E (list Asset)) (clock : nat -> gotime)
  : list Asset * list NetworkEvent :=
  match listing with
  | ROk curr =>
      let changes := Diff prev curr in
      if (length changes =? 0)%nat then (curr, [])
      else
        (curr, (if AlertOnChange cfg then alert_events changes clock 0 else []) ++
               (if TrackHistory cfg then [summary_event changes (length curr) (clock (length changes))] else []))
  | _ => (prev, [])
  end.

(** The baseline of [Start]. *)
Definition baseline {E} (listing : res E (list Asset)) : list Asset := match listing with ROk assets => assets | _ => [] end.

(** The ticks after the baseline. *)
Fixpoint ticks {E} (cfg : ReconciliationConfig) (prev : list Asset) (listings : list (res E (list Asset) * (nat -> gotime)))
  : list Asset * list NetworkEvent :=
  match listings with
  | [] => (prev, [])
  | (listing, clock) :: rest =>
      let '(prev', evs) := reconcile cfg prev listing clock in
      let '(last, evs') := ticks cfg prev' rest in (last, evs ++ evs')
  end.

Definition Start {E} (cfg : ReconciliationConfig) (first : res E (list Asset)) (listings : list (res E (list Asset) * (nat -> gotime)))
  : list NetworkEvent :=
  if Enabled cfg then (ticks cfg (baseline first) listings).2 else [].

(** ** What a difference reports *)

Definition order_ok : Prop := forall m, order m ≡ₚ (map_to_list m).*1.
Context (Hok : order_ok).

(** The change between two values of one identifier. *)
Definition change_of (id : string) (before after : option Asset) : list Change :=
  match before, after with
  | None, Some a => [mkChange ChangeAdded id (ch_Fields (added a))]
  | Some _, None => [mkChange ChangeRemoved id []]
  | Some pa, Some ca => if decide (diffAsset pa ca = []) then [] else [mkChange ChangeModified id (diffAsset pa ca)]
  | None, None => []
  end.

Lemma order_spec m id : NoDup (order m) /\ (id ∈ order m <-> is_Some (m !! id)).
Proof.
  rewrite (Hok m). split; [apply NoDup_fst_map_to_list|]. rewrite list_elem_of_fmap. split.
  - intros ([k x] & -> & Hin). apply elem_of_map_to_list in Hin. by eexists.
  - intros [x Hx]. exists (id, x). split; [done|]. by apply elem_of_map_to_list.
Qed.

(** A list without duplicates contributes to one identifier at most once. *)
Lemma omap_about (f : string -> option Change) l id :
  (forall k c, f k = Some c -> ch_AssetID c = k) -> NoDup l ->
  filter (fun c => ch_AssetID c = id) (omap f l) = if decide (id ∈ l) then option_list (f id) else [].
Proof.
  intros Hid. induction 1 as [|k l Hk Hnd IH]; [done|]. cbn [omap list_omap].
  destruct (f k) as [c|] eqn:Hf.
  - rewrite filter_cons, (Hid k c Hf), IH. destruct (decide (k = id)) as [->|Hne].
    + rewrite decide_False by done. rewrite decide_True by (apply elem_of_cons; by left). by rewrite Hf.
    + destruct (decide (id ∈ l)) as [Hin|Hin]; [rewrite decide_True by (apply elem_of_cons; by right); done|].
      rewrite decide_False; [done|]. by intros [->|?]%elem_of_cons.
  - rewrite IH. destruct (decide (k = id)) as [->|Hne].
    + rewrite decide_False by done. rewrite decide_True by (apply elem_of_cons; by left). by rewrite Hf.
    + destruct (decide (id ∈ l)) as [Hin|Hin]; [rewrite decide_True by (apply elem_of_cons; by right); done|].
      rewrite decide_False; [done|]. by intros [->|?]%elem_of_cons.
Qed.

Lemma arrival_about prevMap currMap k c : arrival prevMap currMap k = Some c -> ch_AssetID c = k.
Proof.
  unfold arrival. destruct (currMap !! k) as [ca|]; cbn [mbind option_bind]; [|done].
  destruct (prevMap !! k) as [pa|]; [destruct (0 <? length (diffAsset pa ca))%nat|]; by intros [= <-].
Qed.
Lemma removal_about currMap k c : removal currMap k = Some c -> ch_AssetID c = k.
Proof. unfold removal. destruct (currMap !! k); [done|]. by intros [= <-]. Qed.

Lemma Diff_about prev curr id :
  filter (fun c => ch_AssetID c = id) (Diff prev curr) = change_of id (indexAssets prev !! id) (indexAssets curr !! id).
Proof.
  unfold Diff. set (pm := indexAssets prev). set (cm := indexAssets curr).
  destruct (order_spec cm id) as [Hnc Hec], (order_spec pm id) as [Hnp Hep].
  rewrite filter_app, (omap_about _ _ id (arrival_about pm cm) Hnc), (omap_about _ _ id (removal_about cm) Hnp).
  unfold arrival, removal, change_of.
  destruct (decide (id ∈ order cm)) as [Hc|Hc]; rewrite Hec in Hc; [destruct Hc as [ca Hc]|apply eq_None_not_Some in Hc];
    (destruct (decide (id ∈ order pm)) as [Hp|Hp]; rewrite Hep in Hp; [destruct Hp as [pa Hp]|apply eq_None_not_Some in Hp]);
    rewrite Hc, Hp; cbn [mbind option_bind option_list app]; try done.
  destruct (decide (diffAsset pa ca = [])) as [Hd|Hd]; [by rewrite Hd|]. by destruct (diffAsset pa ca).
Qed.

(** The last asset of a listing with an identifier. *)
Definition latest (l : list Asset) (id : string) : option Asset := last (filter (fun a => as_ID a = id) l).

Lemma indexAssets_latest l id : indexAssets l !! id = latest l id.
Proof.
  unfold indexAssets, latest. induction l as [|a l IH] using rev_ind; [by apply lookup_empty|].
  rewrite foldl_app, filter_app. cbn [foldl]. rewrite filter_cons, filter_nil. destruct (decide (as_ID a = id)) as [<-|Hne].
  - by rewrite lookup_insert_eq, last_snoc.
  - by rewrite lookup_insert_ne, app_nil_r.
Qed.

(** A difference reports the drift of every asset exactly once, whatever the
    map order: per identifier it lists nothing, one addition, one removal or one
    modification with the differing fields, according to the last asset with
    that identifier in each listing. *)
Theorem drift_reported_once (prev curr : list Asset) (id : string) :
  filter (fun c => ch_AssetID c = id) (Diff prev curr) = change_of id (latest prev id) (latest curr id).
Proof. by rewrite Diff_about, !indexAssets_latest. Qed.

(** ** Counting *)

Lemma countByType_filter cs ct : countByType cs ct = length (filter (fun c => ch_Type c = ct) cs).
Proof.
  unfold countByType. enough (forall n, foldl (fun n c => if bool_decide (ch_Type c = ct) then S n else n) n cs =
    (n + length (filter (fun c => ch_Type c = ct) cs))%nat) as -> by done.
  induction cs as [|c cs IH]; intros n; [simpl; lia|]. cbn [foldl]. rewrite IH, filter_cons.
  case_bool_decide as Hc; [rewrite decide_True by done; simpl; lia|by rewrite decide_False].
Qed.

(** The keys of [m] that are not in [m'], in the order of a range. *)
Lemma length_missing (m m' : gmap string Asset) : length (filter (fun k => m' !! k = None) (order m)) = size (m ∖ m').
Proof.
  rewrite <- length_map_to_list, <- (length_fmap fst).
  apply Permutation_length, NoDup_Permutation.
  - apply NoDup_filter. by destruct (order_spec m "").
  - apply NoDup_fst_map_to_list.
  - intros k. destruct (order_spec m k) as [_ Hk]. rewrite list_elem_of_filter, Hk, list_elem_of_fmap. split.
    + intros [Hn [a Ha]]. exists (k, a). split; [done|]. apply elem_of_map_to_list, lookup_difference_Some. done.
    + intros ([k' a] & -> & Ha). apply elem_of_map_to_list, lookup_difference_Some in Ha as [Ha Hn]. split; [done|by eexists].
Qed.

Lemma count_omap (f : string -> option Change) ct (P : string -> Prop) `{!forall k, Decision (P k)} l :
  (forall k, k ∈ l -> P k <-> exists c, f k = Some c /\ ch_Type c = ct) ->
  length (filter (fun c => ch_Type c = ct) (omap f l)) = length (filter P l).
Proof.
  induction l as [|k l IH]; intros HP; [done|]. cbn [omap list_omap]. rewrite (filter_cons P).
  pose proof (HP k ltac:(apply elem_of_cons; by left)) as Hk. assert (length (filter (fun c => ch_Type c = ct) (omap f l)) = length (filter P l)) as IH'.
  { apply IH. intros k' Hk'. apply HP, elem_of_cons. by right. }
  destruct (f k) as [c|].
  2: { rewrite decide_False; [done|]. by intros (? & [=] & _)%Hk. }
  rewrite filter_cons. destruct (decide (ch_Type c = ct)) as [Hc|Hc]; [rewrite decide_True by (apply Hk; by exists c); cbn [length]; by f_equal|].
  rewrite decide_False; [done|]. intros (c' & [= <-] & ?)%Hk. done.
Qed.

Lemma no_omap (f : string -> option Change) ct l :
  (forall k c, f k = Some c -> ch_Type c <> ct) -> filter (fun c => ch_Type c = ct) (omap f l) = [].
Proof.
  intros Hf. induction l as [|k l IH]; [done|]. cbn [omap list_omap]. destruct (f k) as [c|] eqn:Hk; [|done].
  rewrite filter_cons, decide_False by eauto. done.
Qed.

Lemma Diff_counts prev curr :
  countByType (Diff prev curr) ChangeAdded = size (indexAssets curr ∖ indexAssets prev) /\
  countByType (Diff prev curr) ChangeRemoved = size (indexAssets prev ∖ indexAssets curr).
Proof.
  unfold Diff. set (pm := indexAssets prev). set (cm := indexAssets curr). rewrite !countByType_filter, !filter_app, !length_app.
  split.
  - rewrite (no_omap (removal cm)), Nat.add_0_r, <- length_missing.
    + apply count_omap. intros k Hk. destruct (order_spec cm k) as [_ He]. apply He in Hk as [ca Hca].
      unfold arrival. rewrite Hca. cbn [mbind option_bind]. destruct (pm !! k); [case_match|]; naive_solver.
    + intros k c. unfold removal. destruct (cm !! k); [done|]. by intros [= <-].
  - rewrite (no_omap (arrival pm cm)).
    + rewrite <- length_missing. apply count_omap. intros k _. unfold removal. destruct (cm !! k); naive_solver.
    + intros k c. unfold arrival. destruct (cm !! k); cbn [mbind option_bind]; [|done]. destruct (pm !! k); [case_match|]; by intros [= <-].
Qed.

(** Additions and removals account for the change in the number of assets. *)
Lemma Diff_balance prev curr :
  Z.of_nat (countByType (Diff prev curr) ChangeAdded) - Z.of_nat (countByType (Diff prev curr) ChangeRemoved) =
  Z.of_nat (size (indexAssets curr)) - Z.of_nat (size (indexAssets prev)).
Proof.
  destruct (Diff_counts prev curr) as [-> ->]. set (pm := indexAssets prev). set (cm := indexAssets curr).
  rewrite <- !(size_dom (D:=gset string)), !dom_difference_L.
  set (P := dom pm). set (C := dom cm). rewrite (size_difference_alt C P), (size_difference_alt P C). assert (P ∩ C = C ∩ P) as -> by set_solver.
  pose proof (subseteq_size (C ∩ P) C ltac:(set_solver)). pose proof (subseteq_size (C ∩ P) P ltac:(set_solver)). lia.
Qed.

(** ** The events of a run *)

Definition metadata_int (k : string) (e : NetworkEvent) : Z := match ne_Metadata e !! k with Some (VInt n) => n | _ => 0 end.
Definition net_growth (evs : list NetworkEvent) : Z :=
  foldr (fun e n => metadata_int "added" e - metadata_int "removed" e + n) 0 evs.

(** The identifiers a listener ends up with who follows the alerts alone. *)
Definition follow_alert (ids : gset string) (e : NetworkEvent) : gset string :=
  let '(ty, id) := (meta_str (ne_Metadata e) "change_type", meta_str (ne_Metadata e) "asset_id") in
  if bool_decide (ty = change_string ChangeAdded) then {[ id ]} ∪ ids
  else if bool_decide (ty = change_string ChangeRemoved) then ids ∖ {[ id ]} else ids.
Definition follow (ids : gset string) (evs : list NetworkEvent) : gset string := foldl follow_alert ids evs.

Definition follow_change (ids : gset string) (c : Change) : gset string :=
  match ch_Type c with
  | ChangeAdded => {[ ch_AssetID c ]} ∪ ids
  | ChangeRemoved => ids ∖ {[ ch_AssetID c ]}
  | ChangeModified => ids
  end.

Lemma follow_alerts cs clock : forall n ids, follow ids (alert_events cs clock n) = foldl follow_change ids cs.
Proof.
  induction cs as [|[ty id fs] cs IH]; intros n ids; [done|]. cbn [alert_events follow foldl]. rewrite <- IH with (n := S n). unfold follow. f_equal.
  by destruct ty.
Qed.

Lemma follow_summary ids cs n now : follow_alert ids (summary_event cs n now) = ids.
Proof. done. Qed.

Lemma follow_about id cs : forall ids, id ∈ foldl follow_change ids cs <-> id ∈ foldl follow_change ids (filter (fun c => ch_AssetID c = id) cs).
Proof.
  enough (forall ids ids', (id ∈ ids <-> id ∈ ids') ->
    id ∈ foldl follow_change ids cs <-> id ∈ foldl follow_change ids' (filter (fun c => ch_AssetID c = id) cs)) by (intros; by apply H).
  induction cs as [|c cs IH]; intros ids ids' Hi; [done|]. rewrite filter_cons. cbn [foldl].
  destruct (decide (ch_AssetID c = id)) as [Hc|Hc]; apply IH; unfold follow_change; destruct (ch_Type c); set_solver.
Qed.

Lemma follow_Diff prev curr : foldl follow_change (dom (indexAssets prev)) (Diff prev curr) = dom (indexAssets curr).
Proof.
  apply set_eq. intros id. rewrite follow_about, Diff_about, elem_of_dom. unfold change_of.
  destruct (indexAssets prev !! id) as [pa|] eqn:Hp, (indexAssets curr !! id) as [ca|] eqn:Hc.
  - apply elem_of_dom_2 in Hp. rewrite is_Some_alt. destruct (decide (diffAsset pa ca = [])); simpl; done.
  - cbn [foldl follow_change ch_Type ch_AssetID]. rewrite is_Some_alt. set_solver.
  - cbn [foldl follow_change ch_Type ch_AssetID]. rewrite is_Some_alt. set_solver.
  - apply not_elem_of_dom in Hp. rewrite is_Some_alt. simpl. done.
Qed.

Section Run.
Context {E : Type}.
Implicit Types (listing : res E (list Asset)) (listings : list (res E (list Asset) * (nat -> gotime))).

Lemma reconcile_follow cfg prev listing clock : AlertOnChange cfg = true ->
  follow (dom (indexAssets prev)) (reconcile cfg prev listing clock).2 = dom (indexAssets (reconcile cfg prev listing clock).1).
Proof.
  intros Ha. destruct listing as [curr|e|]; [|done|done]. cbn [reconcile]. rewrite Ha. pose proof (follow_Diff prev curr) as Hf.
  destruct (Diff prev curr) as [|c cs]; cbn [length Nat.eqb fst snd]; [done|]. rewrite <- Hf.
  rewrite <- follow_alerts with (clock := clock) (n := O). unfold follow. rewrite foldl_app. by destruct (TrackHistory cfg).
Qed.

(** C28: The alerts tell the whole story: a listener that starts from the
    baseline and follows the added and removed alerts alone holds, after any run
    with failed listings in between, exactly the identifiers of the last listing
    the engine read. *)
Theorem alerts_determine_inventory (cfg : ReconciliationConfig) (prev : list Asset) (listings : list (res E (list Asset) * (nat -> gotime))) :
  AlertOnChange cfg = true ->
  follow (dom (indexAssets prev)) (ticks cfg prev listings).2 = dom (indexAssets (ticks cfg prev listings).1).
Proof.
  intros Ha. revert prev. induction listings as [|[listing clock] rest IH]; intros prev; [done|]. cbn [ticks].
  pose proof (reconcile_follow cfg prev listing clock Ha) as Hr. destruct (reconcile cfg prev listing clock) as [prev' evs].
  specialize (IH prev'). destruct (ticks cfg prev' rest) as [final evs']. cbn [fst snd] in *. unfold follow in *. by rewrite foldl_app, Hr.
Qed.

Lemma net_growth_app evs evs' : net_growth (evs ++ evs') = net_growth evs + net_growth evs'.
Proof. unfold net_growth. induction evs as [|e evs IH]; [done|]. simpl. lia. Qed.

Lemma net_growth_alerts cs clock n : net_growth (alert_events cs clock n) = 0.
Proof. revert n. induction cs as [|c cs IH]; intros n; [done|]. unfold net_growth in *. cbn [alert_events foldr]. by rewrite IH. Qed.

Lemma summary_counts cs n now :
  metadata_int "added" (summary_event cs n now) = Z.of_nat (countByType cs ChangeAdded) /\
  metadata_int "removed" (summary_event cs n now) = Z.of_nat (countByType cs ChangeRemoved).
Proof. done. Qed.

Lemma reconcile_growth cfg prev listing clock : TrackHistory cfg = true ->
  net_growth (reconcile cfg prev listing clock).2 =
  Z.of_nat (size (indexAssets (reconcile cfg prev listing clock).1)) - Z.of_nat (size (indexAssets prev)).
Proof.
  intros Ht. destruct listing as [curr|e|]; cbn [reconcile]; [|simpl; lia|simpl; lia].
  pose proof (Diff_balance prev curr) as Hb. rewrite Ht. destruct (Diff prev curr) as [|c cs] eqn:Hd; cbn [length Nat.eqb fst snd].
  - unfold countByType in Hb. cbn [foldl] in Hb. unfold net_growth. cbn [foldr]. lia.
  - rewrite net_growth_app. replace (net_growth (if AlertOnChange cfg then _ else [])) with 0
      by (destruct (AlertOnChange cfg); [by rewrite net_growth_alerts|done]).
    unfold net_growth. cbn [foldr]. destruct (summary_counts (c :: cs) (length curr) (clock (S (length cs)))) as [-> ->]. lia.
Qed.

(** The history adds up: over any run the additions minus the removals of the
    summaries are the growth of the inventory. *)
Theorem summaries_balance (cfg : ReconciliationConfig) (prev : list Asset) (listings : list (res E (list Asset) * (nat -> gotime))) :
  TrackHistory cfg = true ->
  net_growth (ticks cfg prev listings).2 =
  Z.of_nat (size (indexAssets (ticks cfg prev listings).1)) - Z.of_nat (size (indexAssets prev)).
Proof.
  intros Ht. revert prev. induction listings as [|[listing clock] rest IH]; intros prev; [simpl; lia|]. cbn [ticks].
  pose proof (reconcile_growth cfg prev listing clock Ht) as Hr. destruct (reconcile cfg prev listing clock) as [prev' evs].
  specialize (IH prev'). destruct (ticks cfg prev' rest) as [final evs']. cbn [fst snd] in *. rewrite net_growth_app. lia.
Qed.
End Run.
End Diff.


(** ** Ports *)

(** On port lists without duplicates the comparison is equality up to order; *)
Lemma portsEqual_iff a b : NoDup a -> NoDup b -> portsEqual a b = true <-> a ≡ₚ b.
Proof.
  intros Ha Hb. unfold portsEqual. destruct (Nat.eqb_spec (length a) (length b)) as [Hl|Hl]; cbn [negb].
  - rewrite forallb_forall. split.
    + intros Hin. symmetry. apply submseteq_length_Permutation; [|lia]. apply NoDup_submseteq; [done|].
      intros p Hp. by apply list_elem_of_In, Hin in Hp as ?%bool_decide_eq_true.
    + intros Hp p ?%list_elem_of_In. apply bool_decide_eq_true. by rewrite Hp.
  - split; [done|]. by intros ?%Permutation_length.
Qed.

(** with duplicates it is not even symmetric. *)
Example portsEqual_duplicates : portsEqual [22; 80] [22; 22] = true /\ portsEqual [22; 22] [22; 80] = false.
Proof. split; reflexivity. Qed.

Lemma string_field_nil k old new : string_field k old new = [] <-> old = new.
Proof. unfold string_field. case_bool_decide; simpl; naive_solver. Qed.

(** An asset drifts silently exactly when its addresses, names and system are
    the same and its open ports are a permutation of the old ones; identifier
    and times do not count.  Port lists must be free of duplicates: otherwise
    a changed port can go unreported. *)
Theorem silent_drift_iff (pa ca : Asset) :
  NoDup (as_Ports pa) -> NoDup (as_Ports ca) ->
  diffAsset pa ca = [] <->
  as_IP pa = as_IP ca /\ as_MAC pa = as_MAC ca /\ as_Hostname pa = as_Hostname ca /\ as_OS pa = as_OS ca /\ as_Ports pa ≡ₚ as_Ports ca.
Proof.
  intros Hp Hc. unfold diffAsset. rewrite !app_nil, !string_field_nil, <- portsEqual_iff by done.
  destruct (portsEqual (as_Ports pa) (as_Ports ca)); simpl; naive_solver.
Qed.

(** ** With the repository *)

Lemma filter_everything {A} (P : A -> Prop) `{!forall x, Decision (P x)} l : Forall P l -> filter P l = l.
Proof. induction 1 as [|x l Hx _ IH]; [done|]. by rewrite filter_cons, decide_True, IH. Qed.


Section Composition.
Context (order : gmap string Asset -> list string) (Hok : order_ok order).
Context {store : Type} `{Bolt store} `{!BoltLaws store} `{JSON Asset} `{!JSONLaws Asset}.

(** Assets stored under their identifiers. *)
Definition keyed (m : gmap string Asset) : Prop := forall id a, m !! id = Some a -> as_ID a = id.

Lemma index_listing db m : holds BucketAssets db m -> keyed m ->
  exists l, ListAssets db = ROk l /\ indexAssets l = m /\ length l = size m.
Proof.
  intros Hh Hm. destruct (list_all_holds BucketAssets as_ID db m Hh Hm) as (l & Hl & Hnd & Hin). exists l. split; [done|].
  assert (indexAssets l = m) as Hi.
  { apply map_eq. intros id. rewrite indexAssets_latest. unfold latest.
    destruct (last (filter (fun a => as_ID a = id) l)) as [a|] eqn:Ha.
    - apply last_Some_elem_of, list_elem_of_filter in Ha as [<- Ha]. by apply Hin in Ha.
    - apply last_None in Ha. destruct (m !! id) as [a|] eqn:Hma; [|done]. pose proof (Hm id a Hma) as Hid.
      assert (a ∈ filter (fun a => as_ID a = id) l) as Hf.
      { apply list_elem_of_filter. split; [done|]. apply Hin. by rewrite Hid. }
      rewrite Ha in Hf. by apply elem_of_nil in Hf. }
  split; [done|]. rewrite <- length_map_to_list, <- (length_fmap as_ID), <- (length_fmap fst (map_to_list m)).
  apply Permutation_length, NoDup_Permutation; [done|apply NoDup_fst_map_to_list|]. intros id. rewrite !list_elem_of_fmap. split.
  - intros (a & -> & Ha%Hin). exists (as_ID a, a). split; [done|]. by apply elem_of_map_to_list.
  - intros ([k a] & -> & Ha%elem_of_map_to_list). cbn [fst]. pose proof (Hm k a Ha) as <-. exists a. split; [done|]. by apply Hin.
Qed.

(** A saved asset is reported: after an asset is saved into the repository the
    next reconciliation pushes exactly what its drift against the stored one
    calls for, an addition, a modification with the differing fields or nothing,
    and the engine's snapshot is then the new inventory. *)
Theorem saved_asset_reported (cfg : ReconciliationConfig) (db db' : store) (m : gmap string Asset) (a : Asset) (clock : nat -> gotime) :
  holds BucketAssets db m -> keyed m -> json_ok a -> SaveAsset db a = (db', ROk tt) ->
  let m' := <[as_ID a := a]> m in
  let cs := change_of (as_ID a) (m !! as_ID a) (Some a) in
  let '(snapshot, evs) := reconcile order cfg (baseline (ListAssets db)) (ListAssets db') clock in
  indexAssets snapshot = m' /\
  evs = if decide (cs = []) then []
        else (if AlertOnChange cfg then alert_events cs clock 0 else []) ++
             (if TrackHistory cfg then [summary_event cs (size m') (clock (length cs))] else []).
Proof.
  intros Hh Hm Hja Hs m' cs. unfold SaveAsset in Hs. destruct (save_holds _ _ _ _ _ _ _ Hh Hja Hs) as [Hh' _]. fold m' in Hh'.
  assert (keyed m') as Hm' by (intros id b [[<- <-]|[_ Hb]]%lookup_insert_Some; [done|by apply Hm]).
  destruct (index_listing db m Hh Hm) as (l & Hl & Hil & _), (index_listing db' m' Hh' Hm') as (l' & Hl' & Hil' & Hlen).
  rewrite Hl, Hl'. cbn [baseline reconcile].
  assert (Diff order l l' = cs) as ->.
  { assert (forall id, filter (fun c => ch_AssetID c = id) (Diff order l l') = if decide (id = as_ID a) then cs else []) as Hf.
    { intros id. rewrite (Diff_about order Hok), Hil, Hil'. unfold m'. destruct (decide (id = as_ID a)) as [->|Hn].
      - by rewrite lookup_insert_eq.
      - rewrite lookup_insert_ne by done. destruct (m !! id) as [b|]; [|done]. cbn [change_of]. rewrite decide_True; [done|].
        unfold diffAsset, string_field, portsEqual. rewrite !bool_decide_eq_true_2, Nat.eqb_refl by done. cbn [negb app].
        replace (forallb _ _) with true; [done|]. symmetry. apply forallb_forall. intros p ?%list_elem_of_In. by apply bool_decide_eq_true. }
    pose proof (Hf (as_ID a)) as Ha. rewrite decide_True in Ha by done. rewrite <- Ha. symmetry.
    apply filter_everything, Forall_forall. intros c Hc. destruct (decide (ch_AssetID c = as_ID a)) as [|Hn]; [done|].
    specialize (Hf (ch_AssetID c)). rewrite decide_False in Hf by done.
    assert (c ∈ filter (fun c' => ch_AssetID c' = ch_AssetID c) (Diff order l l')) as Hin by (by apply list_elem_of_filter).
    rewrite Hf in Hin. by apply elem_of_nil in Hin. }
  rewrite Hlen. destruct cs; [by rewrite decide_True|]. by rewrite decide_False.
Qed.
End Composition.

(** ** What the rest of the system makes of the events *)

(** The history event is an ordinary event for the topology: it becomes two hosts
    and a connection between them. *)
Theorem summary_enters_topology (orders : Graph -> list string * list string) (cb : bool) (g : Graph)
    (changes : list Change) (n : nat) (now : gotime) :
  let g' := (OnEvent orders cb g (summary_event changes n now)).1 in
  is_Some (nodes g' !! "reconciliation") /\ is_Some (nodes g' !! "drift-summary").
Proof. by apply (event_endpoints orders cb g (summary_event changes n now)). Qed.

(** A drift alert turned into an alert record names no rule. *)
Lemma drift_alert_has_no_rule (c : Change) (now : gotime) : RuleName (AlertFromEvent (alert_event c now)) = "".
Proof. reflexivity. Qed.

(** Without a baseline everything is an addition, although the first reading is
    only meant to capture one. *)
Lemma failed_baseline_alerts {E} (order : gmap string Asset -> list string) (Hok : order_ok order) (e : E) (curr : list Asset) (c : Change) :
  c ∈ Diff order (baseline (RErr e : res E (list Asset))) curr -> ch_Type c = ChangeAdded.
Proof.
  intros Hc. assert (c ∈ filter (fun c' => ch_AssetID c' = ch_AssetID c) (Diff order [] curr)) as Hf by (by apply list_elem_of_filter).
  rewrite (Diff_about order Hok) in Hf. change (indexAssets [] !! ch_AssetID c) with (@None Asset) in Hf. cbn [change_of] in Hf.
  destruct (indexAssets curr !! ch_AssetID c) as [a|]; [|by apply elem_of_nil in Hf]. by apply list_elem_of_singleton in Hf as ->.
Qed.

(** ** A small inventory *)

Module ReconciliationDemo.
Import MapBolt.
Definition key_order (m : gmap string Asset) : list string := (map_to_list m).*1.
Lemma key_order_ok : order_ok key_order.
Proof. by intros m. Qed.

Definition web : Asset := mkAsset "a1" "10.0.0.1" "aa:bb" "web" "linux" [80; 443] 1 5.
Definition web' : Asset := mkAsset "a1" "10.0.0.7" "aa:bb" "web" "linux" [443; 80] 1 9.
Definition cam : Asset := mkAsset "a2" "10.0.0.2" "cc:dd" "cam" "" [] 2 5.
Definition cfg : ReconciliationConfig := mkRConfig true 15 true true.
Definition clock (n : nat) : gotime := 100 + Z.of_nat n.

(** Codes for these assets, standing for JSON. *)
#[local] Instance asset_json : JSON Asset := {
  Marshal a := Some [as_LastSeen a];
  Unmarshal b := match b with [5] => Some web | [9] => Some web' | _ => None end;
  json_ok a := a = web \/ a = web' }.
#[local] Instance asset_laws : JSONLaws Asset.
Proof. intros a b [->| ->] Hm; injection Hm as <-; reflexivity. Qed.

Definition db1 : MapBolt.t := {[ BucketAssets := {[ go_bytes "a1" := [5] ]} ]}.

Lemma inventory_holds : holds BucketAssets db1 {[ "a1" := web ]}.
Proof.
  exists [(go_bytes "a1", [5])]. split; [reflexivity|]. intros k. cbn [kv_get]. case_bool_decide as Hk.
  - exists "a1", web. split; [done|]. rewrite lookup_singleton_eq. done.
  - intros id ->. apply lookup_singleton_ne. congruence.
Qed.

Lemma drift_reported_once_witness :
  filter (fun c => ch_AssetID c = "a1") (Diff key_order [web; cam] [web']) = change_of "a1" (Some web) (Some web').
Proof. apply (drift_reported_once key_order key_order_ok [web; cam] [web'] "a1"). Defined.

Lemma alerts_determine_inventory_witness :
  follow ({["a1"]} : gset string) (ticks key_order cfg [web] [(ROk [web; cam], clock); (RErr tt, clock); (ROk [cam], clock)]).2 = {["a2"]}.
Proof.
  pose proof (alerts_determine_inventory key_order key_order_ok cfg [web]
    [(ROk [web; cam], clock); (RErr tt, clock); (ROk [cam], clock)] eq_refl) as Ht.
  replace (dom (indexAssets [web])) with ({["a1"]} : gset string) in Ht by (vm_compute; reflexivity). rewrite Ht. vm_compute. reflexivity.
Defined.

Lemma silent_drift_iff_witness : diffAsset web (mkAsset "a1" "10.0.0.1" "aa:bb" "web" "linux" [443; 80] 3 9) = [].
Proof.
  apply (silent_drift_iff web (mkAsset "a1" "10.0.0.1" "aa:bb" "web" "linux" [443; 80] 3 9)).
  - apply (bool_decide_unpack (NoDup [80; 443])). vm_compute. exact I.
  - apply (bool_decide_unpack (NoDup [443; 80])). vm_compute. exact I.
  - repeat split. apply Permutation_swap.
Defined.

Lemma saved_asset_reported_witness :
  let cs := change_of "a1" (Some web) (Some web') in
  (reconcile key_order cfg (baseline (ListAssets db1)) (ListAssets (SaveAsset db1 web').1) clock).2 =
  alert_events cs clock 0 ++ [summary_event cs 1 (clock 1)].
Proof.
  assert (keyed {[ "a1" := web ]}) as Hk.
  { intros id a Ha. apply lookup_singleton_Some in Ha as [<- <-]. reflexivity. }
  pose proof (saved_asset_reported key_order key_order_ok cfg db1 (SaveAsset db1 web').1 {[ "a1" := web ]} web' clock inventory_holds Hk
    (or_intror eq_refl)) as Ht.
  replace (SaveAsset db1 web') with ((SaveAsset db1 web').1, ROk tt : res dberror unit) in Ht at 1 by (vm_compute; reflexivity).
  specialize (Ht eq_refl). destruct (reconcile _ _ _ _ _) as [snapshot evs]. exact (proj2 Ht).
Defined.

Lemma failed_baseline_alerts_witness : ch_Type (mkChange ChangeAdded "a1" (ch_Fields (added web))) = ChangeAdded.
Proof.
  apply (failed_baseline_alerts key_order key_order_ok tt [web]). vm_compute. constructor.
Defined.
End ReconciliationDemo.
