(* ===== verification/Rules.v ===== *)
(** * Single-event detection rules

    internal/analytics/correlation: rules.go (the DGA heuristic), yaml_rule.go
    (rules as field conditions, and their files), engine.go (the engine that runs
    an event through all rules) and the rules embedded in the binary
    (rules/*.yaml).  Decoding YAML is a third-party library, an argument; the
    order in which Go visits a map and the platform's [math.Log2] are arguments
    of the entropy. *)
From stdpp Require Import base list strings gmap.
From Stdlib Require Import ZArith Lia Bool Ascii SpecFloat.
From S2P Require Import Prelude Models GoStrings GoFloat Bolt Fs.
Local Open Scope string_scope.
Local Open Scope list_scope.
Local Open Scope Z_scope.

(** ** Rules of field conditions *)

Record Condition := mkCondition { Field : string; Operator : string; Value : string }.
Record YAMLRuleSpec := mkSpec {
  RuleName : string; Description : string; Severity : string; EventType_ : string; Logic : string; Conditions : list Condition }.

(** A missing field is nil. *)
Definition resolveField (field : string) (e : NetworkEvent) : gany :=
  if bool_decide (field = "source") then VString (ne_Source e)
  else if bool_decide (field = "destination") then VString (ne_Destination e)
  else if bool_decide (field = "type") then VString (event_type_string (ne_Type e))
  else default VNil (ne_Metadata e !! field).

Definition toFloat (v : gany) : float64 :=
  match v with
  | VFloat x => x
  | VInt n => float_of_Z n
  | VString s => ParseFloat s
  | _ => fzero
  end.

Definition is_nil (v : gany) : bool := match v with VNil => true | _ => false end.

Definition evalCondition (c : Condition) (e : NetworkEvent) : bool :=
  let raw := resolveField (Field c) e in
  let op := Operator c in
  if bool_decide (op = "exists") then negb (is_nil raw)
  else if bool_decide (op = "equals") then bool_decide (fmt_Sprint raw = Value c)
  else if bool_decide (op = "contains") then
    Contains (match raw with VString s => s | _ => fmt_Sprint raw end) (Value c)
  else if bool_decide (op = "gt") then flt (toFloat (VString (Value c))) (toFloat raw)
  else if bool_decide (op = "lt") then flt (toFloat raw) (toFloat (VString (Value c)))
  else false.

(** The counting loop, left at the first match when one is enough. *)
Fixpoint count_matches (useOr : bool) (conds : list Condition) (e : NetworkEvent) (matched : nat) : nat :=
  match conds with
  | [] => matched
  | c :: conds' =>
      if evalCondition c e
      then if useOr then S matched else count_matches useOr conds' e (S matched)
      else count_matches useOr conds' e matched
  end.

Definition uses_or (r : YAMLRuleSpec) : bool := EqualFold (Logic r) "or".
Definition rule_severity (r : YAMLRuleSpec) : string := if bool_decide (Severity r = "") then "MEDIUM" else Severity r.

(** The alert event of a rule with further metadata. *)
Definition alert_of (e : NetworkEvent) (name description severity : string) (extra : list (string * gany)) (uuid : string) (now : gotime)
  : NetworkEvent :=
  mkNetworkEvent uuid EventAlert "CorrelationEngine" (ne_Source e)
    (list_to_map ([("rule", VString name); ("description", VString description); ("severity", VString severity);
                   ("trigger_id", VString (ne_ID e))] ++ extra)) now [] "".

Definition YAMLRule_Evaluate (r : YAMLRuleSpec) (e : NetworkEvent) (uuid : string) (now : gotime) : option NetworkEvent :=
  if negb (bool_decide (EventType_ r = "")) && negb (bool_decide (event_type_string (ne_Type e) = EventType_ r)) then None
  else if (length (Conditions r) =? 0)%nat then None
  else
    let matched := count_matches (uses_or r) (Conditions r) e 0 in
    let fire := if uses_or r then (0 <? matched)%nat else (matched =? length (Conditions r))%nat in
    if fire then Some (alert_of e (RuleName r) (Description r) (rule_severity r) [] uuid now) else None.

(** ** The DGA heuristic *)

Definition continuation (lo hi b : Z) : bool := (lo <=? b) && (b <=? hi).

(** The runes of a [range] over a string: UTF-8, with U+FFFD for each byte that
    starts no valid encoding. *)
Fixpoint runes (l : bytes) : list Z :=
  match l with
  | [] => []
  | a :: l1 =>
      if a <? 128 then a :: runes l1
      else
        match l1 with
        | b :: l2 =>
            if (194 <=? a) && (a <=? 223) && continuation 128 191 b then ((a - 192) * 64 + (b - 128)) :: runes l2
            else
              match l2 with
              | c :: l3 =>
                  if (224 <=? a) && (a <=? 239) && continuation (if a =? 224 then 160 else 128) (if a =? 237 then 159 else 191) b
                     && continuation 128 191 c
                  then ((a - 224) * 4096 + (b - 128) * 64 + (c - 128)) :: runes l3
                  else
                    match l3 with
                    | d :: l4 =>
                        if (240 <=? a) && (a <=? 244) && continuation (if a =? 240 then 144 else 128) (if a =? 244 then 143 else 191) b
                           && continuation 128 191 c && continuation 128 191 d
                        then ((a - 240) * 262144 + (b - 128) * 4096 + (c - 128) * 64 + (d - 128)) :: runes l4
                        else 65533 :: runes l1
                    | [] => 65533 :: runes l1
                    end
              | [] => 65533 :: runes l1
              end
        | [] => 65533 :: runes l1
        end
  end.

Definition vowels : list Z := [97; 101; 105; 111; 117; 65; 69; 73; 79; 85].
Definition countVowels (s : string) : Z := Z.of_nat (length (filter (fun c => c ∈ vowels) (runes (go_bytes s)))).

Definition frequencies (l : list Z) : gmap Z Z := foldl (fun m c => <[c := default 0 (m !! c) + 1]> m) ∅ l.

Section Entropy.
Context (log2 : float64 -> float64) (order : gmap Z Z -> list Z).

Definition shannonEntropy (s : string) : float64 :=
  if (String.length s =? 0)%nat then fzero
  else
    let freq := frequencies (runes (go_bytes s)) in
    let n := float_of_Z (Z.of_nat (String.length s)) in
    foldl (fun h c => let p := fdiv (float_of_Z (default 0 (freq !! c))) n in fsub h (fmul p (log2 p))) fzero (order freq).

Record DGADetectionRule := mkDGA { EntropyThreshold : float64; MinLength : Z }.
Definition DGA_Name := "DGA_DOMAIN_DETECTED".
Definition max_vowel_ratio : float64 := float_of_decimal false 38 (-2).
Definition vowel_ratio (label : string) : float64 := fdiv (float_of_Z (countVowels label)) (float_of_Z (Z.of_nat (String.length label))).

Definition DGA_Evaluate (r : DGADetectionRule) (e : NetworkEvent) (uuid : string) (now : gotime) : option NetworkEvent :=
  if negb (bool_decide (event_type_string (ne_Type e) = event_type_string EventDNS)) then None
  else
    match ne_Metadata e !! "name" with
    | Some (VString name) =>
        if Z.of_nat (String.length name) <? MinLength r then None
        else
          match Split (trim_suffix_dot name) "." with
          | label :: _ :: _ =>
              if Z.of_nat (String.length label) <? MinLength r then None
              else
                let entropy := shannonEntropy label in
                if flt entropy (EntropyThreshold r) then None
                else
                  let vowelRatio := vowel_ratio label in
                  if flt max_vowel_ratio vowelRatio then None
                  else Some (alert_of e DGA_Name "DNS query to high-entropy domain consistent with DGA-generated C2" "HIGH"
                               [("domain", VString name); ("label", VString label); ("entropy", VFloat entropy); ("vowel_ratio", VFloat vowelRatio)]
                               uuid now)
          | _ => None
          end
    | _ => None
    end.

(** ** The engine *)

Inductive Rule := DGA (r : DGADetectionRule) | YAML (spec : YAMLRuleSpec).

Definition Name (r : Rule) : string := match r with DGA _ => DGA_Name | YAML s => RuleName s end.
Definition Evaluate (r : Rule) (e : NetworkEvent) (uuid : string) (now : gotime) : option NetworkEvent :=
  match r with DGA d => DGA_Evaluate d e uuid now | YAML s => YAMLRule_Evaluate s e uuid now end.

Definition DefaultRules : list Rule := [DGA (mkDGA (float_of_decimal false 38 (-1)) 10)].

(** The engine; [onAlert] tells whether a callback is set. *)
Record Engine := mkEngine { Enabled : bool; rules : list Rule; onAlert : bool }.

(** The alerts given to the callback, in rule order; identifiers and times are
    drawn per rule. *)
Fixpoint analyze_rules (rs : list Rule) (e : NetworkEvent) (uuid : nat -> string) (clock : nat -> gotime) (i : nat) : list NetworkEvent :=
  match rs with
  | [] => []
  | r :: rs' =>
      match Evaluate r e (uuid i) (clock i) with
      | Some alert => alert :: analyze_rules rs' e uuid clock (S i)
      | None => analyze_rules rs' e uuid clock (S i)
      end
  end.

Definition Analyze (g : Engine) (e : NetworkEvent) (uuid : nat -> string) (clock : nat -> gotime) : list NetworkEvent :=
  if negb (Enabled g) || bool_decide (event_type_string (ne_Type e) = event_type_string EventAlert) then []
  else if onAlert g then analyze_rules (rules g) e uuid clock 0 else [].

(** ** Rule files *)

Inductive loaderr := ErrReadingDir | ErrReadingFile (name : string) | ErrParsingFile (name : string).

Definition is_rule_file (name : string) : bool :=
  let ext := string_map ascii_lower (Ext name) in bool_decide (ext = ".yaml") || bool_decide (ext = ".yml").

Section Loading.
Context (yaml_Unmarshal : bytes -> option YAMLRuleSpec).

Definition load_file (name : string) (data : bytes) : res loaderr (list Rule) :=
  match yaml_Unmarshal data with
  | None => RErr (ErrParsingFile name)
  | Some spec => ROk (if bool_decide (RuleName spec = "") then [] else [YAML spec])
  end.

(** The files embedded in the binary, which always read. *)
Fixpoint LoadRulesFromFS (files : list (string * bytes)) : res loaderr (list Rule) :=
  match files with
  | [] => ROk []
  | (name, data) :: files' =>
      if is_rule_file name then let! r := load_file name data in let! rs := LoadRulesFromFS files' in ROk (r ++ rs)
      else LoadRulesFromFS files'
  end.

Section Disk.
Context `{Machine}.
Local Open Scope io_scope.

Fixpoint load_entries (dir : string) (names : list string) : M loaderr (list Rule) :=
  match names with
  | [] => ret []
  | name :: names' =>
      if is_rule_file name then
        do! data <- wrap_error (fun _ => ErrReadingFile name) (ReadFile (JoinPath dir name));
        do! r <- (fun d => (d, load_file name data));
        do! rs <- load_entries dir names'; ret (r ++ rs)
      else load_entries dir names'
  end.

Definition LoadRulesFromDir (dir : string) : M loaderr (list Rule) :=
  do! names <- on_error (bind (ReadDir dir) (fun l => ret (Some l)))
                 (fun e => match e with ErrNotExist => ret None | _ => fail ErrReadingDir end);
  match names with None => ret [] | Some names => load_entries dir names end.

(** Load errors are logged; the engine runs with what it has. *)
Definition NewEngine (enabled : bool) (embedded : list (string * bytes)) (rulesDir : string) : M loaderr Engine := fun d =>
  let rs := DefaultRules ++ match LoadRulesFromFS embedded with ROk builtIn => builtIn | _ => [] end in
  if bool_decide (rulesDir = "") then (d, ROk (mkEngine enabled rs false))
  else
    match LoadRulesFromDir rulesDir d with
    | (d, ROk custom) => (d, ROk (mkEngine enabled (rs ++ custom) false))
    | (d, _) => (d, ROk (mkEngine enabled rs false))
    end.
End Disk.
End Loading.

Definition SetAlertCallback (g : Engine) : Engine := mkEngine (Enabled g) (rules g) true.
End Entropy.

(** ** The embedded rules *)

Definition anomalous_volume : YAMLRuleSpec :=
  mkSpec "ANOMALOUS_TRAFFIC_VOLUME" "Abnormally high event volume from a single source (>1000 events in 15 minutes)"
    "MEDIUM" "" "and"
    [mkCondition "stream.count_15m" "gt" "1000"].
Definition arp_spoofing : YAMLRuleSpec :=
  mkSpec "ARP_SPOOF_SUSPECT" "ARP event with gratuitous flag or suspicious source"
    "CRITICAL" "ARP" "and"
    [mkCondition "gratuitous" "equals" "true"].
Definition brute_force : YAMLRuleSpec :=
  mkSpec "BRUTE_FORCE_ATTEMPT" "Excessive connection attempts from a single source (>100 events/min)"
    "CRITICAL" "" "and"
    [mkCondition "stream.count_1m" "gt" "100"].
Definition dns_canary_trigger : YAMLRuleSpec :=
  mkSpec "DNS_CANARY_TRIGGERED" "DNS query touched a canary decoy subdomain — first occurrence is an alert-worthy tripwire"
    "CRITICAL" "DNS" "and"
    [mkCondition "name" "contains" ".canary."].
Definition dns_malicious_tld : YAMLRuleSpec :=
  mkSpec "DNS_MALICIOUS_TLD" "DNS query to known malicious or suspicious top-level domains"
    "HIGH" "DNS" "or"
    [mkCondition "name" "contains" ".top.";
     mkCondition "name" "contains" ".buzz.";
     mkCondition "name" "contains" ".tk.";
     mkCondition "name" "contains" ".xyz."].
Definition dns_tunneling : YAMLRuleSpec :=
  mkSpec "DNS_TUNNELING_SUSPECT" "DNS query with unusually long subdomain chains indicative of DNS tunneling"
    "HIGH" "DNS" "and"
    [mkCondition "name" "contains" "......"].
Definition http_canary_trigger : YAMLRuleSpec :=
  mkSpec "HTTP_CANARY_TRIGGERED" "A planted decoy URL was accessed — first occurrence is an alert-worthy tripwire"
    "CRITICAL" "CANARY" "and"
    [mkCondition "canary_type" "equals" "HTTP"].
Definition lateral_movement : YAMLRuleSpec :=
  mkSpec "LATERAL_MOVEMENT" "Port scanning targeting internal RFC1918 address ranges"
    "HIGH" "PORT_SCAN" "or"
    [mkCondition "destination" "contains" "192.168.";
     mkCondition "destination" "contains" "10.";
     mkCondition "destination" "contains" "172.16."].
Definition port_scan_detection : YAMLRuleSpec :=
  mkSpec "PORT_SCAN_FLOOD" "High-rate port scanning from a single source (>50 events/min)"
    "HIGH" "PORT_SCAN" "and"
    [mkCondition "stream.count_1m" "gt" "50"].
Definition proxy_suspicious : YAMLRuleSpec :=
  mkSpec "PROXY_SUSPICIOUS_AGENT" "Proxy traffic with suspicious user-agent or tool signature"
    "MEDIUM" "PROXY" "or"
    [mkCondition "user_agent" "contains" "sqlmap";
     mkCondition "user_agent" "contains" "nikto";
     mkCondition "user_agent" "contains" "nmap";
     mkCondition "user_agent" "contains" "masscan";
     mkCondition "path" "contains" "../"].
Definition service_enumeration : YAMLRuleSpec :=
  mkSpec "SERVICE_ENUMERATION" "Rapid port scanning indicative of service discovery/enumeration"
    "MEDIUM" "PORT_SCAN" "and"
    [mkCondition "stream.count_5m" "gt" "200"].
Definition tor_dns_detection : YAMLRuleSpec :=
  mkSpec "TOR_ONION_DNS_LOOKUP" "DNS query for a .onion address — indicates a local asset attempting Tor hidden service resolution"
    "HIGH" "DNS" "or"
    [mkCondition "name" "contains" ".onion.";
     mkCondition "name" "contains" ".onion"].
Definition tor_exit_node_traffic : YAMLRuleSpec :=
  mkSpec "TOR_EXIT_NODE_TRAFFIC" "Outbound connection to a known Tor exit/relay node"
    "HIGH" "PROXY" "and"
    [mkCondition "tor_exit_node" "equals" "true"].
Definition vm_escape_indicator : YAMLRuleSpec :=
  mkSpec "VM_ESCAPE_INDICATOR" "VM event with privilege escalation or escape indicators"
    "CRITICAL" "VM" "or"
    [mkCondition "privileged" "equals" "true";
     mkCondition "capabilities" "contains" "SYS_ADMIN";
     mkCondition "capabilities" "contains" "NET_RAW"].

(** In the order of the directory. *)
Definition embedded_specs : list YAMLRuleSpec :=
  [anomalous_volume; arp_spoofing; brute_force; dns_canary_trigger;
   dns_malicious_tld; dns_tunneling; http_canary_trigger; lateral_movement;
   port_scan_detection; proxy_suspicious; service_enumeration; tor_dns_detection;
   tor_exit_node_traffic; vm_escape_indicator].

Definition builtin_rules : list Rule := DefaultRules ++ (YAML <$> embedded_specs).

(** ** When a rule fires *)

Definition right_type (r : YAMLRuleSpec) (e : NetworkEvent) : Prop := EventType_ r = "" \/ event_type_string (ne_Type e) = EventType_ r.

(** The conditions as a formula. *)
Definition conditions_hold (r : YAMLRuleSpec) (e : NetworkEvent) : Prop :=
  if uses_or r then Exists (fun c => evalCondition c e = true) (Conditions r)
  else Forall (fun c => evalCondition c e = true) (Conditions r).

Lemma count_or conds e n : (n <? count_matches true conds e n)%nat = true <-> Exists (fun c => evalCondition c e = true) conds.
Proof.
  induction conds as [|c conds IH]; cbn [count_matches]; [rewrite Nat.ltb_irrefl; split; [done|by intros ?%Exists_nil]|].
  rewrite Exists_cons. destruct (evalCondition c e); [|rewrite IH; naive_solver].
  split; [by left|]. intros _. apply Nat.ltb_lt. lia.
Qed.

Lemma count_and conds e : forall n, (count_matches false conds e n <= n + length conds)%nat /\
  (count_matches false conds e n = (n + length conds)%nat <-> Forall (fun c => evalCondition c e = true) conds).
Proof.
  induction conds as [|c conds IH]; intros n; cbn [count_matches length].
  { split; [lia|]. split; [by constructor|lia]. }
  rewrite Forall_cons. destruct (evalCondition c e).
  - destruct (IH (S n)) as [Hle Hiff]. split; [lia|]. rewrite <- Hiff. split; [intros; split; [done|lia]|intros [_ ?]; lia].
  - destruct (IH n) as [Hle _]. split; [lia|]. split; [lia|by intros [? _]].
Qed.

Lemma fires_iff r e uuid now : Conditions r <> [] ->
  is_Some (YAMLRule_Evaluate r e uuid now) <-> right_type r e /\ conditions_hold r e.
Proof.
  intros Hne. unfold YAMLRule_Evaluate, right_type, conditions_hold.
  destruct (bool_decide_reflect (EventType_ r = "")), (bool_decide_reflect (event_type_string (ne_Type e) = EventType_ r)); cbn [negb andb];
    try (split; [by intros []|naive_solver]);
    (destruct (Conditions r) as [|c0 cs0] eqn:Hc; [done|]; rewrite <- Hc in *; replace (length (Conditions r) =? 0)%nat with false by (by rewrite Hc));
    destruct (uses_or r); [destruct (_ <? _)%nat eqn:Hf|destruct (_ =? _)%nat eqn:Hf|destruct (_ <? _)%nat eqn:Hf|destruct (_ =? _)%nat eqn:Hf
                          |destruct (_ <? _)%nat eqn:Hf|destruct (_ =? _)%nat eqn:Hf];
    first [apply count_or in Hf; split; [by split; [auto|]|by eexists]
          |apply not_true_iff_false in Hf; rewrite count_or in Hf; split; [by intros []|by intros [_ ?]]
          |apply Nat.eqb_eq, (proj2 (count_and _ e 0)) in Hf; split; [by split; [auto|]|by eexists]
          |apply Nat.eqb_neq in Hf; rewrite (proj2 (count_and _ e 0)) in Hf; split; [by intros []|by intros [_ ?]]].
Qed.

(** A rule fires exactly on events of its type, or of any type if it names none,
    for which all its conditions hold, or at least one when its logic is "or" in
    any case; a rule without conditions never fires.  The alert carries the
    rule's name, description and severity, MEDIUM by default, names the event
    that triggered it and is addressed to the event's source. *)
Theorem rule_fires_iff (r : YAMLRuleSpec) (e alert : NetworkEvent) (uuid : string) (now : gotime) :
  YAMLRule_Evaluate r e uuid now = Some alert <->
  Conditions r <> [] /\ right_type r e /\ conditions_hold r e /\
  alert = alert_of e (RuleName r) (Description r) (rule_severity r) [] uuid now.
Proof.
  assert (forall a, YAMLRule_Evaluate r e uuid now = Some a -> Conditions r <> [] /\ a = alert_of e (RuleName r) (Description r) (rule_severity r) [] uuid now) as Hval.
  { intros a. unfold YAMLRule_Evaluate. destruct (_ && _); [done|]. destruct (Conditions r); [done|]. cbn [length Nat.eqb].
    destruct (if uses_or r then _ else _); [|done]. by intros [= <-]. }
  split.
  - intros He. destruct (Hval _ He) as [Hne ->]. destruct (proj1 (fires_iff r e uuid now Hne)) as [Ht Hc]; [by eexists|]. done.
  - intros (Hne & Ht & Hc & ->). destruct (proj2 (fires_iff r e uuid now Hne)) as [a Ha]; [done|].
    destruct (Hval _ Ha) as [_ ->]. done.
Qed.

(** ** Thresholds *)

(** The comparison with a whole threshold is that of the integers, as far as a
    [float64] holds them exactly. *)
Lemma gt_threshold field v k e n :
  ne_Metadata e !! field = Some (VInt n) -> field <> "source" -> field <> "destination" -> field <> "type" ->
  ParseFloat v = float_of_Z k -> 0 <= k < 2 ^ 53 -> 0 <= n < 2 ^ 53 ->
  evalCondition (mkCondition field "gt" v) e = (k <? n).
Proof.
  intros Hf H1 H2 H3 Hv Hk Hn. unfold evalCondition, resolveField. cbn [Field Operator Value].
  rewrite !(bool_decide_eq_false_2 (field = _)) by done. rewrite Hf.
  change (flt (ParseFloat v) (float_of_Z n) = (k <? n)). rewrite Hv. by apply float_of_Z_lt.
Qed.

(** A field an event does not have counts as zero, as the text "<nil>" and as
    text in every other comparison. *)
Lemma missing_field field v e :
  ne_Metadata e !! field = None -> field <> "source" -> field <> "destination" -> field <> "type" ->
  evalCondition (mkCondition field "gt" v) e = flt (ParseFloat v) fzero /\
  evalCondition (mkCondition field "lt" v) e = flt fzero (ParseFloat v) /\
  evalCondition (mkCondition field "equals" v) e = bool_decide ("<nil>" = v) /\
  evalCondition (mkCondition field "contains" v) e = Contains "<nil>" v /\
  evalCondition (mkCondition field "exists" v) e = false.
Proof.
  intros Hf H1 H2 H3. unfold evalCondition, resolveField. cbn [Field Operator Value].
  rewrite !(bool_decide_eq_false_2 (field = _)) by done. by rewrite Hf.
Qed.

(** The operators of an event with that field. *)
Lemma contains_string field v e s :
  resolveField field e = VString s -> evalCondition (mkCondition field "contains" v) e = Contains s v.
Proof. intros Hf. unfold evalCondition. cbn [Field Operator Value]. by rewrite Hf. Qed.

(** ** The engine *)

Section EngineFacts.
Context (log2 : float64 -> float64) (order : gmap Z Z -> list Z).
Local Abbreviation Evaluate := (Evaluate log2 order).
Local Abbreviation analyze_rules := (analyze_rules log2 order).
Local Abbreviation Analyze := (Analyze log2 order).

Lemma alert_of_meta e name d sev extra uuid now (m := ne_Metadata (alert_of e name d sev extra uuid now)) :
  m !! "rule" = Some (VString name) /\ m !! "trigger_id" = Some (VString (ne_ID e)) /\ m !! "severity" = Some (VString sev).
Proof.
  unfold m, alert_of. cbn [ne_Metadata app list_to_map foldr curry_uncurry fst snd]. rewrite lookup_insert_eq.
  rewrite !(lookup_insert_ne _ "rule"), !(lookup_insert_ne _ "description"), (lookup_insert_ne _ "severity" "trigger_id") by done.
  by rewrite !lookup_insert_eq.
Qed.

Lemma Evaluate_alert r e uuid now a : Evaluate r e uuid now = Some a ->
  ne_Type a = EventAlert /\ ne_ID a = uuid /\ ne_Timestamp a = now /\ ne_Destination a = ne_Source e /\
  ne_Metadata a !! "rule" = Some (VString (Name r)) /\ ne_Metadata a !! "trigger_id" = Some (VString (ne_ID e)).
Proof.
  destruct r as [d|spec]; cbn [Evaluate Name].
  - unfold Rules.Evaluate, DGA_Evaluate. intros Ha. repeat case_match; simplify_eq.
    destruct (alert_of_meta e DGA_Name "DNS query to high-entropy domain consistent with DGA-generated C2" "HIGH"
      [("domain", VString s); ("label", VString s0); ("entropy", VFloat (shannonEntropy log2 order s0)); ("vowel_ratio", VFloat (vowel_ratio s0))] uuid now) as (? & ? & _).
    by split_and!.
  - unfold Rules.Evaluate, YAMLRule_Evaluate. intros Ha. repeat case_match; simplify_eq;
      (destruct (alert_of_meta e (RuleName spec) (Description spec) (rule_severity spec) [] uuid now) as (? & ? & _); by split_and!).
Qed.

(** Whether a rule fires does not depend on the identifier and time drawn. *)
Lemma Evaluate_fires r e uuid now uuid' now' : is_Some (Evaluate r e uuid now) <-> is_Some (Evaluate r e uuid' now').
Proof.
  destruct r as [d|spec]; unfold Rules.Evaluate.
  - unfold DGA_Evaluate. repeat case_match; split; intros [? ?]; done || by eexists.
  - unfold YAMLRule_Evaluate. repeat case_match; split; intros [? ?]; done || by eexists.
Qed.

Definition fires (e : NetworkEvent) (r : Rule) : bool := bool_decide (is_Some (Evaluate r e "" 0)).

Lemma analyze_rules_names rs e uuid clock i :
  (fun a => ne_Metadata a !! "rule") <$> analyze_rules rs e uuid clock i = (fun r => Some (VString (Name r))) <$> List.filter (fires e) rs.
Proof.
  revert i. induction rs as [|r rs IH]; intros i; [done|]. cbn [Rules.analyze_rules List.filter].
  pose proof (Evaluate_fires r e (uuid i) (clock i) "" 0) as Hf. unfold fires at 1.
  destruct (Evaluate r e (uuid i) (clock i)) as [a|] eqn:Ha.
  - rewrite bool_decide_eq_true_2 by (apply Hf; by eexists). cbn [fmap list_fmap]. rewrite IH. f_equal.
    by destruct (Evaluate_alert _ _ _ _ _ Ha) as (_ & _ & _ & _ & -> & _).
  - rewrite bool_decide_eq_false_2 by (rewrite <- Hf; by intros []). apply IH.
Qed.

Lemma elem_of_analyze rs e uuid clock i a : a ∈ analyze_rules rs e uuid clock i ->
  exists r u t, r ∈ rs /\ Evaluate r e u t = Some a.
Proof.
  revert i. induction rs as [|r rs IH]; intros i; cbn [Rules.analyze_rules]; [by intros ?%elem_of_nil|].
  destruct (Evaluate r e (uuid i) (clock i)) as [b|] eqn:Hb.
  - intros [->|Hin]%elem_of_cons; [exists r, (uuid i), (clock i); split; [constructor|done]|].
    destruct (IH _ Hin) as (r' & u & t & Hr & Ha). exists r', u, t. split; [by right|done].
  - intros Hin. destruct (IH _ Hin) as (r' & u & t & Hr & Ha). exists r', u, t. split; [by right|done].
Qed.

(** The engine raises, in rule order, exactly one alert for every rule that
    fires and none for the others; every alert is of the alert type, names its
    rule and its event and is addressed to the event's source.  A disabled
    engine and alerts themselves raise nothing, so alerts fed back into the
    pipeline end the recursion. *)
Theorem analyze_exact (g : Engine) (e : NetworkEvent) (uuid : nat -> string) (clock : nat -> gotime) :
  let alerts := Analyze g e uuid clock in
  ((fun a => ne_Metadata a !! "rule") <$> alerts =
     if Enabled g && onAlert g && negb (bool_decide (event_type_string (ne_Type e) = "THREAT_ALERT"))
     then (fun r => Some (VString (Name r))) <$> List.filter (fires e) (rules g) else []) /\
  Forall (fun a => ne_Destination a = ne_Source e /\ ne_Metadata a !! "trigger_id" = Some (VString (ne_ID e)) /\
                   forall g' uuid' clock', Analyze g' a uuid' clock' = []) alerts.
Proof.
  unfold Rules.Analyze. change (event_type_string EventAlert) with "THREAT_ALERT".
  destruct (Enabled g); cbn [negb orb andb]; [|by split; [|constructor]].
  destruct (bool_decide _); cbn [negb]; [rewrite andb_false_r; by split; [|constructor]|].
  destruct (onAlert g); cbn [andb]; [|by split; [|constructor]]. split; [apply analyze_rules_names|].
  apply Forall_forall. intros a (r & u & t & _ & Ha)%elem_of_analyze. apply Evaluate_alert in Ha as (Ht & _ & _ & Hd & _ & Htr).
  split; [done|]. split; [done|]. intros g' uuid' clock'. rewrite Ht. by rewrite orb_true_r.
Qed.
End EngineFacts.

(** ** What the embedded rules catch *)

(** The rate rules compare exactly: with a one-minute count [n] the
    brute-force rule fires on any event iff [n] exceeds 100, the flood rule on
    a port scan iff it exceeds 50, and likewise for the five- and
    fifteen-minute counts, for every count up to [2 ^ 53]. *)
Theorem rate_rules_exact (e : NetworkEvent) (c1 c5 c15 : Z) :
  ne_Metadata e !! "stream.count_1m" = Some (VInt c1) -> ne_Metadata e !! "stream.count_5m" = Some (VInt c5) ->
  ne_Metadata e !! "stream.count_15m" = Some (VInt c15) ->
  0 <= c1 < 2 ^ 53 -> 0 <= c5 < 2 ^ 53 -> 0 <= c15 < 2 ^ 53 ->
  let scan := event_type_string (ne_Type e) = "PORT_SCAN" in
  let raises r := is_Some (YAMLRule_Evaluate r e "" 0) in
  (raises brute_force <-> 100 < c1) /\ (raises port_scan_detection <-> scan /\ 50 < c1) /\
  (raises service_enumeration <-> scan /\ 200 < c5) /\ (raises anomalous_volume <-> 1000 < c15).
Proof.
  intros H1 H5 H15 Hc1 Hc5 Hc15 scan raises.
  assert (forall field v k n, ParseFloat v = float_of_Z k -> ne_Metadata e !! field = Some (VInt n) ->
    field <> "source" -> field <> "destination" -> field <> "type" -> 0 <= k < 2 ^ 53 -> 0 <= n < 2 ^ 53 ->
    Forall (fun c => evalCondition c e = true) [mkCondition field "gt" v] <-> k < n) as Hgt.
  { intros field v k n Hv Hf ? ? ? Hk Hn. rewrite Forall_singleton, (gt_threshold field v k e n), Z.ltb_lt by done. done. }
  unfold raises. rewrite !fires_iff by done. unfold right_type, conditions_hold.
  change (uses_or brute_force) with false. change (uses_or port_scan_detection) with false.
  change (uses_or service_enumeration) with false. change (uses_or anomalous_volume) with false.
  cbn [Conditions EventType_ brute_force port_scan_detection service_enumeration anomalous_volume].
  rewrite (Hgt "stream.count_1m" "100" 100 c1), (Hgt "stream.count_1m" "50" 50 c1), (Hgt "stream.count_5m" "200" 200 c5),
    (Hgt "stream.count_15m" "1000" 1000 c15) by (done || (vm_compute; reflexivity)).
  unfold scan. naive_solver.
Qed.

(** The labels of a domain name are not empty: no two dots in a row. *)
Definition dns_name (name : string) : Prop := Contains name ".." = false.

Lemma Contains_trans s t u : Contains s t = true -> Contains t u = true -> Contains s u = true.
Proof.
  rewrite !Contains_iff. intros (p & r & ->) (p' & r' & ->). exists (p +:+ p'), (r' +:+ r). by rewrite !string_app_assoc.
Qed.

(** The tunnelling rule is dead: it waits for six dots in a row, which no domain
    name contains, so no DNS query ever raises it. *)
Theorem tunneling_rule_never_fires (e : NetworkEvent) (name uuid : string) (now : gotime) :
  ne_Metadata e !! "name" = Some (VString name) -> dns_name name -> YAMLRule_Evaluate dns_tunneling e uuid now = None.
Proof.
  intros Hn Hd. apply eq_None_not_Some. rewrite fires_iff by done. intros [_ Hc]. unfold conditions_hold in Hc.
  change (uses_or dns_tunneling) with false in Hc. cbn [Conditions dns_tunneling] in Hc. rewrite Forall_singleton in Hc.
  rewrite (contains_string "name" "......" e name) in Hc by (unfold resolveField; cbn; by rewrite Hn).
  unfold dns_name in Hd. by rewrite (Contains_trans name "......" ".." Hc eq_refl) in Hd.
Qed.

(** Only the leftmost label is measured, although it is meant to be the registered
    domain: a short host name in front hides any generated domain. *)
Theorem dga_sees_leftmost_label (log2 : float64 -> float64) (order : gmap Z Z -> list Z) (r : DGADetectionRule) (e : NetworkEvent)
    (label rest uuid : string) (now : gotime) :
  ne_Metadata e !! "name" = Some (VString (label +:+ String "." rest)) -> free_of "." label ->
  Z.of_nat (String.length label) < MinLength r -> DGA_Evaluate log2 order r e uuid now = None.
Proof.
  intros Hn Hf Hl. unfold DGA_Evaluate. destruct (negb _); [done|]. rewrite Hn. destruct (_ <? MinLength r); [done|].
  rewrite trim_suffix_dot_app. destruct rest as [|c rest]; [by rewrite Split_free|]. rewrite Split_app, Split_free by done.
  cbn [app]. destruct (Split _ _); [done|]. destruct (Z.ltb_spec (Z.of_nat (String.length label)) (MinLength r)); [done|lia].
Qed.

(** ** Loading rule files *)

Section LoadFacts.
Context (yaml_Unmarshal : bytes -> option YAMLRuleSpec) `{Machine}.

(** The files of a directory with their contents, in the order of the listing. *)
Definition contents (dir : string) (names : list string) (d : disk) : list (string * bytes) :=
  omap (fun name => (fun f => (name, body f)) <$> files d !! JoinPath dir name) names.

Lemma load_entries_triple dir names : forall d d0, files d = files d0 ->
  triple d (load_entries yaml_Unmarshal dir names)
    (fun d' rs => files d' = files d0 /\ LoadRulesFromFS yaml_Unmarshal (contents dir names d0) = ROk rs)
    (fun d' _ => files d' = files d0).
Proof.
  induction names as [|name names IH]; intros d d0 Hd; [by apply triple_ret|].
  cbn [load_entries contents omap list_omap]. destruct (is_rule_file name) eqn:Hr.
  - apply triple_bind, triple_wrap, triple_ReadFile; [|intros d1 e Hd1; by rewrite Hd1].
    intros d1 f Hd1 Hf. rewrite Hd in Hf. rewrite Hf. cbn [fmap option_fmap option_map LoadRulesFromFS]. rewrite Hr.
    unfold load_file. apply triple_bind. unfold triple at 1. destruct (yaml_Unmarshal (body f)) as [spec|]; [|by rewrite Hd1].
    cbn [res_bind]. apply triple_bind. eapply triple_weaken; [apply (IH d1 d0); by rewrite Hd1| |done].
    intros d2 rs [Hd2 Hrs]. apply triple_ret. split; [done|]. unfold contents in Hrs. by rewrite Hrs.
  - eapply triple_weaken; [apply (IH d d0 Hd)| |done]. intros d' rs [Hd' Hrs]. split; [done|].
    destruct (files d0 !! JoinPath dir name); [|done]. cbn [fmap option_fmap option_map LoadRulesFromFS]. by rewrite Hr.
Qed.

(** Rules on disk load like the embedded ones: on any machine, a load of the
    rules directory either yields exactly the rules that the same files would
    yield embedded, in name order, or fails as a whole when a file cannot be
    read or decoded; it changes no file, and on failure the engine starts with
    the embedded rules alone. *)
Theorem custom_rules_load (enabled : bool) (embedded : list (string * bytes)) (dir : string) (d d' : disk) (g : Engine) :
  dir <> "" -> NewEngine yaml_Unmarshal enabled embedded dir d = (d', ROk g) ->
  files d' = files d /\ Enabled g = enabled /\
  let base := DefaultRules ++ match LoadRulesFromFS yaml_Unmarshal embedded with ROk rs => rs | _ => [] end in
  rules g = base \/
  exists rs, LoadRulesFromFS yaml_Unmarshal (contents dir (names_in dir (files d)) d) = ROk rs /\ rules g = base ++ rs.
Proof.
  intros Hdir. unfold NewEngine. rewrite bool_decide_eq_false_2 by done.
  assert (triple d (LoadRulesFromDir yaml_Unmarshal dir)
    (fun d' rs => files d' = files d /\ (rs = [] \/ LoadRulesFromFS yaml_Unmarshal (contents dir (names_in dir (files d)) d) = ROk rs))
    (fun d' _ => files d' = files d)) as Ht.
  { unfold LoadRulesFromDir. apply triple_bind, triple_on_error, triple_bind, triple_ReadDir.
    - intros d1 Hd1. apply triple_ret. eapply triple_weaken; [by apply (load_entries_triple dir (names_in dir (files d)) d1 d)| |done].
      intros d2 rs [Hd2 Hrs]. by split; [|right].
    - intros d1 e Hd1. destruct e; (by apply triple_fail) || (apply triple_ret, triple_ret; by split; [|left]). }
  unfold triple in Ht. destruct (LoadRulesFromDir yaml_Unmarshal dir d) as [d1 [rs|e|]]; [|intros [= <- <-]; cbn; by auto|done].
  destruct Ht as [Hf Hrs]. intros [= <- <-]. cbn [Enabled rules]. split; [done|]. split; [done|].
  destruct Hrs as [->|Hrs]; [left; by rewrite app_nil_r|right; by exists rs].
Qed.
End LoadFacts.

(** ** Some events *)

Module RulesDemo.
Definition ev (t : EventType) (dst : string) (m : list (string * gany)) : NetworkEvent :=
  mkNetworkEvent "e1" t "10.0.0.9" dst (list_to_map m) 20 [] "".
Definition dns (name : string) : NetworkEvent := ev EventDNS "SIEM_DNS" [("name", VString name)].
Definition raised (r : YAMLRuleSpec) (e : NetworkEvent) : bool := match YAMLRule_Evaluate r e "a1" 30 with Some _ => true | None => false end.

(** Substrings are not address ranges: "10." occurs in public addresses, and most of
    172.16.0.0/12 does not contain "172.16.". *)
Example lateral_movement_ranges :
  map (fun ip => raised lateral_movement (ev EventPortScan ip [])) ["192.168.1.7"; "10.1.2.3"; "172.16.0.1"; "172.20.0.1"; "203.0.110.5"] =
  [true; true; true; false; true].
Proof. vm_compute. reflexivity. Qed.

(** Names compare with their case, which resolvers may vary at will. *)
Example mixed_case_evades :
  map (fun n => raised dns_canary_trigger (dns n)) ["a1b2.canary.internal."; "a1b2.Canary.internal."] = [true; false].
Proof. vm_compute. reflexivity. Qed.

(** A listed top-level domain is found anywhere in the name. *)
Example tld_inside_name : map (fun n => raised dns_malicious_tld (dns n)) ["shop.top."; "www.top.example.com."; "shop.top"] = [true; true; false].
Proof. vm_compute. reflexivity. Qed.

(** A below-threshold rule fires on events that lack the field. *)
Example below_fires_on_missing :
  evalCondition (mkCondition "stream.count_1m" "lt" "5") (dns "x.") = true /\ evalCondition (mkCondition "port" "equals" "<nil>") (dns "x.") = true.
Proof. split; vm_compute; reflexivity. Qed.

Definition burst : NetworkEvent :=
  ev EventPortScan "10.0.0.1" [("stream.count_1m", VInt 101); ("stream.count_5m", VInt 150); ("stream.count_15m", VInt 150)].

Lemma rate_rules_exact_witness :
  is_Some (YAMLRule_Evaluate brute_force burst "" 0) /\ is_Some (YAMLRule_Evaluate port_scan_detection burst "" 0) /\
  ~ is_Some (YAMLRule_Evaluate service_enumeration burst "" 0).
Proof.
  destruct (rate_rules_exact burst 101 150 150) as (Hb & Hp & Hs & _); try reflexivity; try lia.
  rewrite Hb, Hp, Hs. split; [lia|]. split; [split; [reflexivity|lia]|]. intros [_ ?]. lia.
Defined.

Lemma tunneling_rule_never_fires_witness :
  YAMLRule_Evaluate dns_tunneling (dns "a.very.long.chain.of.labels.example.com.") "a1" 30 = None.
Proof. apply (tunneling_rule_never_fires _ "a.very.long.chain.of.labels.example.com."); reflexivity. Defined.

Lemma dga_sees_leftmost_label_witness :
  DGA_Evaluate (fun x => x) (fun m => (map_to_list m).*1) (mkDGA (float_of_decimal false 38 (-1)) 10)
    (dns "www.xq7zk3vj9pl2wr8t.com.") "a1" 30 = None.
Proof. apply (dga_sees_leftmost_label _ _ _ _ "www" "xq7zk3vj9pl2wr8t.com."); reflexivity. Defined.

(** A directory with one rule, one file that is not a rule, on a machine whose
    calls all work. *)
#[local] Instance machine : Machine := { outcome_at _ := Works; time_at n := Z.of_nat n; canceled_at _ := false }.
Definition decode (b : bytes) : option YAMLRuleSpec := match b with [1] => Some brute_force | [2] => Some lateral_movement | _ => None end.
Definition d0 : disk :=
  mkDisk (<["/etc/rules/b.YAML" := mkFile [2] 5]> {[ "/etc/rules/readme.txt" := mkFile [9] 5 ]}) 0.

Lemma custom_rules_load_witness :
  exists g, (NewEngine decode true [("a.yaml", [1])] "/etc/rules" d0).2 = ROk g /\ Enabled g = true /\
    rules g = DefaultRules ++ [YAML brute_force; YAML lateral_movement].
Proof.
  destruct (NewEngine decode true [("a.yaml", [1])] "/etc/rules" d0) as [d' r] eqn:Hg.
  assert (r = ROk (mkEngine true (DefaultRules ++ [YAML brute_force; YAML lateral_movement]) false)) as ->.
  { pose proof (f_equal snd Hg) as Hs. cbn [snd] in Hs. rewrite <- Hs. vm_compute. reflexivity. }
  pose proof (custom_rules_load decode true [("a.yaml", [1])] "/etc/rules" d0 d' _ ltac:(discriminate) Hg) as (_ & He & _).
  eexists. split; [reflexivity|]. split; [exact He|reflexivity].
Defined.
End RulesDemo.
