(* ===== verification/NetAddr.v ===== *)
(** * Addresses

    What the program uses of the Go package [net]: [SplitHostPort], [ParseIP]
    (the parser of net/netip) and the text of an IP address. *)
From stdpp Require Import base list strings pretty.
From Stdlib Require Import ZArith Lia Bool Ascii.
From S2P Require Import Prelude Models GoStrings.
Local Open Scope string_scope.
Local Open Scope list_scope.
Local Open Scope Z_scope.

(** ** Host and port *)

Definition lacks (c : ascii) (s : string) : bool := string_forallb (fun a => negb (Ascii.eqb a c)) s.

(** [SplitHostPort]; [None] is an error.  The port follows the last colon, the host
    has no colon unless it is bracketed. *)
Definition SplitHostPort (s : string) : option (string * string) :=
  let bracketed := match s with String c _ => Ascii.eqb c "[" | EmptyString => false end in
  if bracketed then
    match Cut "]" (TrimPrefix s "[") with
    | Some (h, String c port) =>
        if Ascii.eqb c ":" && lacks ":" port && lacks "[" h && lacks "[" port && lacks "]" port then Some (h, port) else None
    | _ => None
    end
  else
    match Cut ":" s with
    | Some (h, port) => if lacks ":" port && lacks "[" s && lacks "]" s then Some (h, port) else None
    | None => None
    end.

(** ** Parsing *)

Definition code (c : ascii) : Z := Z.of_N (N_of_ascii c).
Definition is_digit (c : ascii) : bool := (48 <=? code c) && (code c <=? 57).

(** The loop of [parseIPv4Fields]: the fields read, the value and the number of
    digits of the current one, whether the last byte was a dot (or the text has
    not begun). *)
Fixpoint ipv4_fields (s : string) (fields : list Z) (val digits : Z) (dot : bool) : option (list Z) :=
  match s with
  | EmptyString => if (length fields =? 3)%nat then Some (fields ++ [val]) else None
  | String c s' =>
      if is_digit c then
        if (digits =? 1) && (val =? 0) then None
        else
          let val := val * 10 + (code c - 48) in
          if 255 <? val then None else ipv4_fields s' fields val (digits + 1) false
      else if Ascii.eqb c "." then
        if dot || bool_decide (s' = "") || (length fields =? 3)%nat then None
        else ipv4_fields s' (fields ++ [val]) 0 0 true
      else None
  end.
Definition parseIPv4 (s : string) : option (list Z) := ipv4_fields s [] 0 0 true.

Definition hex_value (c : ascii) : option Z :=
  let n := code c in
  if is_digit c then Some (n - 48)
  else if (97 <=? n) && (n <=? 102) then Some (n - 87)
  else if (65 <=? n) && (n <=? 70) then Some (n - 55) else None.

(** The hexadecimal digits at the front: the value, their number and the rest;
    more than four are an error. *)
Fixpoint hex_group (s : string) (acc : Z) (off : nat) : option (Z * nat * string) :=
  match s with
  | EmptyString => Some (acc, off, s)
  | String c s' =>
      match hex_value c with
      | None => Some (acc, off, s)
      | Some d => if (3 <? off)%nat then None else hex_group s' (acc * 16 + d) (S off)
      end
  end.

(** The loop of [parseIPv6]: the bytes so far and the position of the ellipsis;
    each round reads a group, at most eight rounds. *)
Fixpoint ipv6_groups (fuel : nat) (s : string) (ip : list Z) (ellipsis : option nat) : option (list Z * option nat * string) :=
  match fuel with
  | O => Some (ip, ellipsis, s)
  | S fuel' =>
      match hex_group s 0 0 with
      | None | Some (_, O, _) => None
      | Some (acc, _, rest) =>
          match rest with
          | String "." _ =>
              if (negb (bool_decide (is_Some ellipsis)) && negb (length ip =? 12)%nat) || (12 <? length ip)%nat then None
              else match parseIPv4 s with Some f => Some (ip ++ f, ellipsis, "") | None => None end
          | _ =>
              let ip := ip ++ [acc / 256; acc mod 256] in
              match rest with
              | EmptyString => Some (ip, ellipsis, "")
              | String ":" EmptyString => None
              | String ":" (String ":" s'') =>
                  match ellipsis with
                  | Some _ => None
                  | None => if bool_decide (s'' = "") then Some (ip, Some (length ip), "") else ipv6_groups fuel' s'' ip (Some (length ip))
                  end
              | String ":" s' => ipv6_groups fuel' s' ip ellipsis
              | _ => None
              end
          end
      end
  end.

(** Zeros fill the place of the ellipsis. *)
Definition expand (ip : list Z) (ellipsis : option nat) : option (list Z) :=
  if (length ip <? 16)%nat then
    match ellipsis with
    | None => None
    | Some k => Some (take k ip ++ replicate (16 - length ip) 0 ++ drop k ip)
    end
  else match ellipsis with Some _ => None | None => Some ip end.

(** [parseIPv6] of a text without a zone. *)
Definition parseIPv6 (s : string) : option (list Z) :=
  match s with
  | String ":" (String ":" EmptyString) => Some (replicate 16 0)
  | String ":" (String ":" s') =>
      match ipv6_groups 8 s' [] (Some O) with Some (ip, e, "") => expand ip e | _ => None end
  | _ => match ipv6_groups 8 s [] None with Some (ip, e, "") => expand ip e | _ => None end
  end.

(** [netip.ParseAddr] decides by the first dot, colon or percent sign. *)
Fixpoint addr_kind (s : string) : option ascii :=
  match s with
  | EmptyString => None
  | String c s' => if Ascii.eqb c "." || Ascii.eqb c ":" || Ascii.eqb c "%" then Some c else addr_kind s'
  end.

(** [net.ParseIP]: sixteen bytes, those of an IPv4 address after the prefix of
    mapped addresses; an address with a zone is no address. *)
Definition v4_prefix : list Z := replicate 10 0 ++ [255; 255].
Definition ParseIP (s : string) : option (list Z) :=
  match addr_kind s with
  | Some "."%char => f ← parseIPv4 s; Some (v4_prefix ++ f)
  | Some ":"%char => if lacks "%" s then parseIPv6 s else None
  | _ => None
  end.

(** ** Printing *)

(** [To4]: the IPv4 address of a mapped one. *)
Definition To4 (ip : list Z) : option (list Z) :=
  if bool_decide (take 12 ip = v4_prefix) && (length ip =? 16)%nat then Some (drop 12 ip) else None.

Fixpoint words (ip : list Z) : list Z := match ip with a :: b :: ip' => a * 256 + b :: words ip' | _ => [] end.

(** A group in hexadecimal without leading zeros. *)
Definition hex_word (w : Z) : string :=
  let d n := String (hex_digit (w / n mod 16)) EmptyString in
  (if 4096 <=? w then d 4096 else "") +:+ (if 256 <=? w then d 256 else "") +:+ (if 16 <=? w then d 16 else "") +:+ d 1.

Fixpoint zero_run (ws : list Z) : nat := match ws with w :: ws' => if w =? 0 then S (zero_run ws') else O | [] => O end.

(** The first longest run of at least two zero groups: start and length. *)
Fixpoint longest_run (ws : list Z) (i : nat) (best : nat * nat) : nat * nat :=
  match ws with
  | [] => best
  | _ :: ws' => let l := zero_run ws in longest_run ws' (S i) (if (2 <=? l)%nat && (snd best <? l)%nat then (i, l) else best)
  end.

Definition ip6_string (ws : list Z) : string :=
  let '(start, len) := longest_run ws 0 (0%nat, 0%nat) in
  if (len =? 0)%nat then Join (map hex_word ws) ":"
  else Join (map hex_word (take start ws)) ":" +:+ "::" +:+ Join (map hex_word (drop (start + len) ws)) ":".

(** [IP.String] of sixteen bytes. *)
Definition IP_String (ip : list Z) : string := match To4 ip with Some f => ip_string f | None => ip6_string (words ip) end.

(** [IP.IsMulticast], which covers the link-local groups. *)
Definition IsMulticast (ip : list Z) : bool :=
  match To4 ip with
  | Some (a :: _) => Z.land a 240 =? 224
  | _ => match ip with a :: _ => a =? 255 | [] => false end
  end.

(** [net.IP.String] of a byte slice of any length. *)
Definition IP_text (ip : list Z) : string :=
  if (length ip =? 0)%nat then "<nil>"
  else if (length ip =? 4)%nat then ip_string ip
  else if (length ip =? 16)%nat then IP_String ip
  else "?" +:+ hex_EncodeToString ip.

(** [net.JoinHostPort], and [TCPAddr.String] and [UDPAddr.String]. *)
Definition JoinHostPort (host port : string) : string :=
  if lacks ":" host then host +:+ ":" +:+ port else "[" +:+ host +:+ "]:" +:+ port.
Definition Addr_String (ip : list Z) (zone : string) (port : Z) : string :=
  let host := if (length ip =? 0)%nat then "" else IP_text ip in
  JoinHostPort (if bool_decide (zone = "") then host else host +:+ "%" +:+ zone) (fmt_d port).

Example addr_examples :
  [Addr_String [10; 0; 0; 5] "" 53; Addr_String ([254; 128] ++ replicate 13 0 ++ [1]) "eth0" 443; Addr_String [] "" 0; IP_text [10; 0]] =
  ["10.0.0.5:53"; "[fe80::1%eth0]:443"; ":0"; "?0a00"].
Proof. vm_compute. reflexivity. Qed.

Example parse_examples :
  map (fun s => match ParseIP s with Some ip => IP_String ip | None => "-" end)
    ["10.0.0.1"; "010.0.0.1"; "1.2.3"; "1.2.3.4."; "256.1.1.1"; "::"; "::1"; "2001:DB8:0:0:1:0:0:1"; "fe80::1%eth0"; "1:2:3:4:5:6:7:8"; "::ffff:10.0.0.1"; "1::2::3"; "12345::"; "1:2:3:4:5:6:7::"; "0:0:0:1::"; "64:ff9b::1.2.3.4"; ":1::"; "host"]
  = ["10.0.0.1"; "-"; "-"; "-"; "-"; "::"; "::1"; "2001:db8::1:0:0:1"; "-"; "1:2:3:4:5:6:7:8"; "10.0.0.1"; "-"; "-"; "1:2:3:4:5:6:7:0"; "0:0:0:1::"; "64:ff9b::102:304"; "-"; "-"].
Proof. vm_compute. reflexivity. Qed.
Example split_examples : map SplitHostPort ["10.0.0.1:53"; "[::1]:80"; "::1"; "host"; "[::1]"; "a:b:c"; ":80"] =
  [Some ("10.0.0.1", "53"); Some ("::1", "80"); None; None; None; None; Some ("", "80")].
Proof. vm_compute. reflexivity. Qed.

(** ** IPv4 texts *)

(** Digits read as in a field. *)
Fixpoint scan_digits (s : string) (val digits : Z) : option (Z * Z) :=
  match s with
  | EmptyString => Some (val, digits)
  | String c s' =>
      if is_digit c then
        if (digits =? 1) && (val =? 0) then None
        else let val := val * 10 + (code c - 48) in if 255 <? val then None else scan_digits s' val (digits + 1)
      else None
  end.

Lemma scan_fields s t : forall fields val digits dot v n, scan_digits s val digits = Some (v, n) ->
  ipv4_fields (s +:+ t) fields val digits dot = ipv4_fields t fields v n (dot && bool_decide (s = "")).
Proof.
  induction s as [|c s IH]; intros fields val digits dot v n; cbn [scan_digits].
  - intros [= -> ->]. by rewrite andb_true_r.
  - change (String c s +:+ t) with (String c (s +:+ t)). cbn [ipv4_fields]. destruct (is_digit c); [|done].
    destruct (_ && _); [done|]. destruct (255 <? _); [done|]. intros Hs. rewrite (IH _ _ _ _ _ _ Hs).
    f_equal. by rewrite andb_false_l, andb_false_r.
Qed.

Definition digit_text (s : string) : bool := string_forallb is_digit s.

(** The decimal of a natural number is made of digits. *)
Lemma pretty_N_go_digits x : forall s, digit_text s = true -> digit_text (pretty_N_go x s) = true.
Proof.
  induction (N.lt_wf_0 x) as [x _ IH]. intros s Hs. destruct (decide (x = 0%N)) as [->|Hx]; [by rewrite pretty_N_go_0|].
  rewrite pretty_N_go_step by lia. apply IH; [by apply N.div_lt; lia|]. unfold digit_text in *. cbn [string_forallb].
  rewrite Hs, andb_true_r. pose proof (N.mod_lt x 10 ltac:(lia)). remember (x mod 10)%N as m. clear -H.
  assert (m = 0 \/ m = 1 \/ m = 2 \/ m = 3 \/ m = 4 \/ m = 5 \/ m = 6 \/ m = 7 \/ m = 8 \/ m = 9)%N as Hm by lia.
  repeat destruct Hm as [->|Hm]; try subst m; reflexivity.
Qed.

Lemma fmt_d_digits n : 0 <= n -> digit_text (fmt_d n) = true.
Proof.
  intros Hn. destruct n as [|p|p]; [reflexivity| |lia]. unfold fmt_d, pretty, pretty_Z. unfold pretty, pretty_positive, pretty, pretty_N.
  destruct (decide _); [done|]. by apply pretty_N_go_digits.
Qed.

(** The decimal text of every byte value reads back. *)
Definition octet_ok (a : Z) : bool :=
  negb (String.length (fmt_d a) =? 0)%nat && digit_text (fmt_d a) && match scan_digits (fmt_d a) 0 0 with Some (v, n) => v =? a | None => false end.
Lemma octets_ok : forallb octet_ok (seqZ 0 256) = true.
Proof. vm_compute. reflexivity. Qed.

Lemma octet_text a : byte_ok a -> digit_text (fmt_d a) = true /\ fmt_d a <> "" /\ exists n, scan_digits (fmt_d a) 0 0 = Some (a, n).
Proof.
  intros Ha. assert (a ∈ seqZ 0 256) as Hin by (apply elem_of_seqZ; unfold byte_ok in Ha; lia). apply list_elem_of_In in Hin.
  pose proof (proj1 (forallb_forall _ _) octets_ok a Hin) as Hok. unfold octet_ok in Hok. apply andb_true_iff in Hok as [[Hne Hd]%andb_true_iff Hs].
  split; [done|]. destruct (scan_digits (fmt_d a) 0 0) as [[v n]|] eqn:Hscan; [|done]. apply Z.eqb_eq in Hs as ->.
  split; [|by exists n]. intros He. by rewrite He in Hne.
Qed.

Lemma lacks_app c s t : lacks c (s +:+ t) = lacks c s && lacks c t.
Proof. unfold lacks. induction s as [|a s IH]; [done|]. change (String a s +:+ t) with (String a (s +:+ t)). cbn [string_forallb]. by rewrite IH, andb_assoc. Qed.

Lemma digits_lack c s : is_digit c = false -> digit_text s = true -> lacks c s = true.
Proof.
  intros Hc. unfold digit_text, lacks. induction s as [|a s IH]; [done|]. cbn [string_forallb]. intros [Ha Hs]%andb_true_iff. rewrite IH by done.
  destruct (Ascii.eqb_spec a c); [congruence|done].
Qed.

Lemma ip_string_parts a b c d : ip_string [a; b; c; d] = fmt_d a +:+ String "." (fmt_d b +:+ String "." (fmt_d c +:+ String "." (fmt_d d))).
Proof. reflexivity. Qed.

Lemma field_step a t fields : byte_ok a -> t <> "" -> (length fields < 3)%nat ->
  ipv4_fields (fmt_d a +:+ String "." t) fields 0 0 true = ipv4_fields t (fields ++ [a]) 0 0 true.
Proof.
  intros Ha Ht Hl. destruct (octet_text a Ha) as (_ & Hne & n & Hs). rewrite (scan_fields _ _ _ _ _ _ _ _ Hs).
  rewrite bool_decide_eq_false_2 by done. cbn [ipv4_fields andb]. change (is_digit ".") with false. change (Ascii.eqb "." ".") with true.
  rewrite bool_decide_eq_false_2 by done. destruct (Nat.eqb_spec (length fields) 3); [lia|done].
Qed.

Lemma parse_ip_string a b c d : byte_ok a -> byte_ok b -> byte_ok c -> byte_ok d -> parseIPv4 (ip_string [a; b; c; d]) = Some [a; b; c; d].
Proof.
  intros Ha Hb Hc Hd. rewrite ip_string_parts. unfold parseIPv4.
  assert (forall x (t : string), x +:+ String "." t <> "") as Hne by (intros [|x0 x] t; discriminate).
  destruct (octet_text d Hd) as (_ & Hd0 & n & Hs).
  rewrite !field_step by (done || (simpl; lia)). rewrite <- (string_app_nil_r (fmt_d d)), (scan_fields _ _ _ _ _ _ _ _ Hs). done.
Qed.

Lemma addr_kind_digits s t : digit_text s = true -> addr_kind (s +:+ String "." t) = Some "."%char.
Proof.
  unfold digit_text. induction s as [|a s IH]; [done|]. change (String a s +:+ String "." t) with (String a (s +:+ String "." t)).
  cbn [string_forallb addr_kind]. intros [Ha Hs]%andb_true_iff.
  destruct (Ascii.eqb_spec a "."), (Ascii.eqb_spec a ":"), (Ascii.eqb_spec a "%"); subst; try done. by apply IH.
Qed.

(** A printed IPv4 address parses to itself. *)
Lemma ParseIP_string a b c d : byte_ok a -> byte_ok b -> byte_ok c -> byte_ok d ->
  ParseIP (ip_string [a; b; c; d]) = Some (v4_prefix ++ [a; b; c; d]).
Proof.
  intros Ha Hb Hc Hd. unfold ParseIP. rewrite parse_ip_string by done. rewrite ip_string_parts.
  rewrite addr_kind_digits by (by apply octet_text). done.
Qed.

Lemma To4_v4 a b c d : To4 (v4_prefix ++ [a; b; c; d]) = Some [a; b; c; d].
Proof. reflexivity. Qed.

(** No character of an IPv4 address but digits and dots. *)
Lemma ip_string_lacks c a b x d : byte_ok a -> byte_ok b -> byte_ok x -> byte_ok d -> is_digit c = false -> c <> "."%char ->
  lacks c (ip_string [a; b; x; d]) = true.
Proof.
  intros Ha Hb Hx Hd Hc Hdot. rewrite ip_string_parts.
  assert (forall y t, byte_ok y -> lacks c t = true -> lacks c (fmt_d y +:+ String "." t) = true) as Hstep.
  { intros y t Hy Ht. rewrite lacks_app, digits_lack by (done || by apply octet_text). unfold lacks in *. cbn [string_forallb]. rewrite Ht.
    by destruct (Ascii.eqb_spec "." c). }
  apply Hstep, Hstep, Hstep; [done|done|done|]. apply digits_lack; [done|by apply octet_text].
Qed.

Lemma SplitHostPort_join h port : lacks ":" h = true -> lacks "[" h = true -> lacks "]" h = true ->
  lacks ":" port = true -> lacks "[" port = true -> lacks "]" port = true -> SplitHostPort (h +:+ String ":" port) = Some (h, port).
Proof.
  intros H1 H2 H3 H4 H5 H6. unfold SplitHostPort.
  assert (match h +:+ String ":" port with String c _ => Ascii.eqb c "[" | EmptyString => false end = false) as ->.
  { destruct h as [|c h]; [done|]. change (String c h +:+ String ":" port) with (String c (h +:+ String ":" port)). cbv iota.
    unfold lacks in H2. cbn [string_forallb] in H2. apply andb_true_iff in H2 as [H2 _]. by apply negb_true_iff in H2. }
  rewrite Cut_app by done. rewrite !lacks_app. change (lacks "[" (String ":" port)) with (lacks "[" port). change (lacks "]" (String ":" port)) with (lacks "]" port).
  by rewrite H2, H3, H4, H5, H6.
Qed.

Lemma SplitHostPort_no_colon s : lacks ":" s = true -> lacks "[" s = true -> SplitHostPort s = None.
Proof.
  intros H1 H2. unfold SplitHostPort. destruct s as [|c s]; [done|].
  destruct (Ascii.eqb c "[") eqn:Hc; [unfold lacks in H2; cbn [string_forallb] in H2; by rewrite Hc in H2|].
  assert (forall t, lacks ":" t = true -> Cut ":" t = None) as Hcut; [|by rewrite Hcut].
  clear. induction t as [|a t IH]; [done|]. unfold lacks. cbn [string_forallb Cut]. intros [Ha Ht]%andb_true_iff. apply negb_true_iff in Ha.
  rewrite Ha. by rewrite IH.
Qed.

(** ** Nothing to trim *)

Lemma strip_space_digit c s : is_digit c = true -> strip_space (String c s) = None.
Proof.
  intros Hc. destruct c as [[|] [|] [|] [|] [|] [|] [|] [|]]; vm_compute in Hc; try discriminate; reflexivity.
Qed.

Lemma TrimSpace_digits c s c' s' : is_digit c = true -> is_digit c' = true -> rev_string (String c s) = String c' s' -> TrimSpace (String c s) = String c s.
Proof.
  intros Hc Hc' Hr. unfold TrimSpace. cbn [String.length trim_left]. rewrite strip_space_digit by done. cbn [String.length trim_right].
  assert (strip_space_end (String c s) = None) as ->; [|done]. unfold strip_space_end. rewrite Hr.
  destruct c' as [[|] [|] [|] [|] [|] [|] [|] [|]]; vm_compute in Hc'; try discriminate; reflexivity.
Qed.

Lemma rev_digits s : digit_text s = true -> digit_text (rev_string s) = true.
Proof.
  unfold digit_text. assert (forall x y, string_forallb is_digit (x +:+ y) = string_forallb is_digit x && string_forallb is_digit y) as Happ.
  { induction x as [|a x IH]; intros y; [done|]. change (String a x +:+ y) with (String a (x +:+ y)). cbn [string_forallb]. by rewrite IH, andb_assoc. }
  induction s as [|a s IH]; [done|]. cbn [string_forallb rev_string]. intros [Ha Hs]%andb_true_iff. rewrite Happ, IH by done. cbn [string_forallb]. by rewrite Ha.
Qed.

Lemma TrimSpace_ip a b c d : byte_ok a -> byte_ok b -> byte_ok c -> byte_ok d -> TrimSpace (ip_string [a; b; c; d]) = ip_string [a; b; c; d].
Proof.
  intros Ha Hb Hc Hd. rewrite ip_string_parts. destruct (octet_text a Ha) as (Hta & Hna & _), (octet_text d Hd) as (Htd & Hnd & _).
  destruct (fmt_d a) as [|x xs]; [done|]. pose proof (rev_digits _ Htd) as Hrd.
  assert (rev_string (fmt_d d) <> "") as Hnr.
  { intros He. destruct (fmt_d d) as [|y ys]; [done|]. cbn [rev_string] in He. by destruct (rev_string ys). }
  destruct (rev_string (fmt_d d)) as [|y ys] eqn:Hrev; [done|].
  unfold digit_text in Hta, Hrd. cbn [string_forallb] in Hta, Hrd. apply andb_true_iff in Hta as [Hx _], Hrd as [Hy _].
  set (mid := fmt_d b +:+ String "." (fmt_d c +:+ String "." (fmt_d d))).
  change (String x xs +:+ String "." mid) with (String x (xs +:+ String "." mid)).
  assert (exists m, String x (xs +:+ String "." mid) = m +:+ fmt_d d) as [m Hm].
  { exists (String x xs +:+ String "." (fmt_d b +:+ String "." (fmt_d c +:+ "."))). unfold mid.
    change (fmt_d c +:+ ".") with (fmt_d c +:+ String "." "").
    assert (forall u v w, (u +:+ String "." v) +:+ w = u +:+ String "." (v +:+ w)) as Hs by (intros u v w; by rewrite <- string_app_assoc).
    rewrite !Hs. done. }
  apply (TrimSpace_digits x _ y (ys +:+ rev_string m)); [done|done|]. rewrite Hm, rev_string_app, Hrev. done.
Qed.

(** ** The characters of a printed address *)

(** Lower-case hexadecimal digits, the separators and a sign. *)
Definition addr_char (c : ascii) : bool :=
  is_digit c || ((97 <=? code c) && (code c <=? 102)) || Ascii.eqb c ":" || Ascii.eqb c "." || Ascii.eqb c "-".
Definition addr_chars (s : string) : bool := string_forallb addr_char s.

Lemma addr_chars_app s t : addr_chars (s +:+ t) = addr_chars s && addr_chars t.
Proof.
  unfold addr_chars. induction s as [|a s IH]; [done|]. change (String a s +:+ t) with (String a (s +:+ t)). cbn [string_forallb].
  by rewrite IH, andb_assoc.
Qed.

Lemma fmt_d_chars n : addr_chars (fmt_d n) = true.
Proof.
  assert (forall s, digit_text s = true -> addr_chars s = true) as Hd.
  { unfold digit_text, addr_chars. induction s as [|c s IH]; [done|]. cbn [string_forallb]. intros [Hc Hs]%andb_true_iff.
    rewrite (IH Hs), andb_true_r. unfold addr_char. by rewrite Hc. }
  destruct (Z.leb_spec 0 n); [by apply Hd, fmt_d_digits|]. destruct n as [|p|p]; [lia|lia|].
  change (fmt_d (Z.neg p)) with ("-" +:+ fmt_d (Z.pos p)). rewrite addr_chars_app, (Hd (fmt_d (Z.pos p))) by (apply fmt_d_digits; lia). done.
Qed.

Lemma hex_digit_addr_char k : 0 <= k < 16 -> addr_char (hex_digit k) = true.
Proof.
  intros Hk. assert (k ∈ seqZ 0 16) as Hin by (apply elem_of_seqZ; lia). clear Hk. revert k Hin.
  apply Forall_forall. vm_compute. repeat constructor.
Qed.

Lemma hex_word_chars w : addr_chars (hex_word w) = true.
Proof.
  assert (forall n, addr_chars (String (hex_digit (w / n mod 16)) EmptyString) = true) as Hd.
  { intros n. unfold addr_chars. cbn [string_forallb]. rewrite hex_digit_addr_char; [done|]. apply Z.mod_pos_bound. lia. }
  unfold hex_word. rewrite !addr_chars_app, Hd. destruct (4096 <=? w), (256 <=? w), (16 <=? w); by rewrite ?Hd.
Qed.

Lemma groups_chars ws : addr_chars (Join (map hex_word ws) ":") = true.
Proof.
  induction ws as [|w [|w' ws] IH]; [done|apply hex_word_chars|].
  change (Join (map hex_word (w :: w' :: ws)) ":") with (hex_word w +:+ ":" +:+ Join (map hex_word (w' :: ws)) ":").
  rewrite !addr_chars_app, hex_word_chars, IH. done.
Qed.

(** What [IP.String] prints of an IPv4 or IPv6 address. *)
Lemma IP_String_chars ip : IP_String ip = "<nil>" \/ addr_chars (IP_String ip) = true.
Proof.
  unfold IP_String. destruct (To4 ip) as [f|].
  - unfold ip_string. destruct f as [|a [|b [|c [|d [|x f]]]]]; try by left. right.
    rewrite !addr_chars_app, !fmt_d_chars. done.
  - right. unfold ip6_string. destruct (longest_run _ _ _) as [start len]. destruct (len =? 0)%nat; [apply groups_chars|].
    rewrite !addr_chars_app, !groups_chars. done.
Qed.

(** What it prints of a slice of any length. *)
Lemma IP_text_form ip : IP_text ip = "<nil>" \/ addr_chars (IP_text ip) = true \/ exists t, IP_text ip = String "?" t.
Proof.
  unfold IP_text. destruct (length ip =? 0)%nat; [by left|]. destruct (length ip =? 4)%nat.
  { unfold ip_string. destruct ip as [|a [|b [|c [|d [|x f]]]]]; try by left. right; left. rewrite !addr_chars_app, !fmt_d_chars. done. }
  destruct (length ip =? 16)%nat; [destruct (IP_String_chars ip); auto|right; right; by eexists].
Qed.
