(* ===== verification/StreamProcessor.v ===== *)
(** * The stream processor

    internal/analytics/stream: normalizer.go (addresses), processor.go (every event
    is normalised, buffered, counted and annotated with the counts of its source)
    and the ranking of addresses of window.go.  An event's metadata map is shared
    with whoever holds the event, so it lives in the heap of the pipeline; [now] is
    the current minute and [fresh] the address of a new map. *)
From stdpp Require Import base list strings gmap sorting.
From Stdlib Require Import ZArith Lia Bool Ascii SpecFloat.
From S2P Require Import Prelude Models GoStrings GoFloat NetAddr Stream Pipeline.
Local Open Scope string_scope.
Local Open Scope list_scope.
Local Open Scope Z_scope.

(** ** normalizer.go *)

Definition normalizeIP (raw : string) : string :=
  if bool_decide (raw = "") then ""
  else
    let host := match SplitHostPort raw with Some (h, _) => h | None => raw end in
    match ParseIP (TrimSpace host) with
    | None => raw
    | Some ip => if IsMulticast ip then "" else IP_String ip
    end.

Definition Normalize (e : pevent) : pevent :=
  mkPEvent (pe_ID e) (pe_Type e) (normalizeIP (pe_Source e)) (normalizeIP (pe_Destination e)) (pe_Metadata e) (pe_Timestamp e)
    (pe_Signature e) (pe_SignerKeyID e).

(** ** processor.go *)

Record Processor := mkProcessor { buf : circularBuffer pevent; win : windower }.

Definition NewProcessor (bufferSize : Z) (backpressure : string) (now : gotime) : Processor :=
  let bufSize := if bufferSize <=? 0 then 10000 else bufferSize in
  let policy := if bool_decide (backpressure <> PolicyDropNewest) then PolicyDropOldest else backpressure in
  mkProcessor (newCircularBuffer (mkPEvent "" (EventOther "") "" "" None 0 [] "") bufSize policy) (newWindower now).

(** The four annotations. *)
Definition annotate (m : gmap string gany) (s : WindowStats) : gmap string gany :=
  <["stream.rate_1m" := VFloat (fdiv (float_of_Z (Rate1m s).1) (float_of_Z (Rate1m s).2))]>
  (<["stream.count_15m" := VInt (Count15m s)]> (<["stream.count_5m" := VInt (Count5m s)]> (<["stream.count_1m" := VInt (Count1m s)]> m))).

Definition set_metadata (e : pevent) (l : nat) : pevent :=
  mkPEvent (pe_ID e) (pe_Type e) (pe_Source e) (pe_Destination e) (Some l) (pe_Timestamp e) (pe_Signature e) (pe_SignerKeyID e).

(** The flag tells whether the buffer took the event. *)
Definition TryEnrich (p : Processor) (now : gotime) (fresh : nat) (h : maps) (e : pevent) : Processor * maps * pevent * bool :=
  let e := Normalize e in
  let '(b, accepted) := push (buf p) e in
  let src := pe_Source e in
  let w := if bool_decide (src = "") then win p else record (win p) now src (pe_Type e) in
  let p := mkProcessor b w in
  let '(h, e, l) := match pe_Metadata e with Some l => (h, e, l) | None => (<[fresh := ∅]> h, set_metadata e fresh, fresh) end in
  if bool_decide (src = "") then (p, h, e, accepted)
  else (p, <[l := annotate (default ∅ (h !! l)) (stats w src)]> h, e, accepted).

Definition Enrich (p : Processor) (now : gotime) (fresh : nat) (h : maps) (e : pevent) : Processor * maps * pevent :=
  (TryEnrich p now fresh h e).1.

(** ** The ranking of addresses *)

(** Moving a new element left past the smaller ones; the prefix is kept in
    reverse, so its last element comes first. *)
Fixpoint sift (rprefix : list WindowStats) (x : WindowStats) : list WindowStats :=
  match rprefix with
  | [] => [x]
  | y :: r => if Count5m y <? Count5m x then y :: sift r x else x :: y :: r
  end.
Definition insertion_sort (l : list WindowStats) : list WindowStats := rev (foldl sift [] l).

(** The addresses in the five newest buckets. *)
Definition five_minute_ips (w : windower) : gset string :=
  ⋃ ((fun i => dom (b_counts (bucket_at w ((current w + totalBuckets - i) mod totalBuckets)))) <$> seq 0 5).

Section Ranking.
(** The order in which Go visits the set of addresses. *)
Context (order : gset string -> list string).

Definition topIPs (w : windower) (n : Z) : list WindowStats :=
  let result := insertion_sort (stats w <$> order (five_minute_ips w)) in
  if (0 <? n) && (n <? Z.of_nat (length result)) then take (Z.to_nat n) result else result.

Record ProcessorStats := mkProcessorStats { BufferedEvents : nat; DroppedEvents : Z; Policy : string; TopIPs : list WindowStats }.
Definition Stats (p : Processor) : ProcessorStats :=
  mkProcessorStats (buf_len (buf p)) (dropped (buf p)) (policy (buf p)) (topIPs (win p) 10).
End Ranking.

(** ** Addresses *)

Lemma normalizeIP_v4 a b c d : byte_ok a -> byte_ok b -> byte_ok c -> byte_ok d ->
  normalizeIP (ip_string [a; b; c; d]) = if Z.land a 240 =? 224 then "" else ip_string [a; b; c; d].
Proof.
  intros Ha Hb Hc Hd. unfold normalizeIP. rewrite bool_decide_eq_false_2.
  2: { rewrite ip_string_parts. intros He. destruct (octet_text a Ha) as (_ & Hn & _). by destruct (fmt_d a). }
  rewrite SplitHostPort_no_colon by (apply ip_string_lacks; done). rewrite TrimSpace_ip, ParseIP_string by done.
  unfold IsMulticast, IP_String. by rewrite To4_v4.
Qed.

Lemma normalizeIP_v4_port a b c d port : byte_ok a -> byte_ok b -> byte_ok c -> byte_ok d ->
  lacks ":" port = true -> lacks "[" port = true -> lacks "]" port = true ->
  normalizeIP (ip_string [a; b; c; d] +:+ ":" +:+ port) = if Z.land a 240 =? 224 then "" else ip_string [a; b; c; d].
Proof.
  intros Ha Hb Hc Hd H1 H2 H3. unfold normalizeIP. rewrite bool_decide_eq_false_2.
  2: { rewrite ip_string_parts. intros He. destruct (octet_text a Ha) as (_ & Hn & _). by destruct (fmt_d a). }
  change (ip_string [a; b; c; d] +:+ ":" +:+ port) with (ip_string [a; b; c; d] +:+ String ":" port).
  rewrite SplitHostPort_join by (done || (apply ip_string_lacks; done)). rewrite TrimSpace_ip, ParseIP_string by done.
  unfold IsMulticast, IP_String. by rewrite To4_v4.
Qed.

(** A source is dropped, kept, or printed as an address. *)
Lemma normalizeIP_cases raw : normalizeIP raw = "" \/ normalizeIP raw = raw \/ exists ip, normalizeIP raw = IP_String ip.
Proof.
  unfold normalizeIP. case_bool_decide; [by left|]. destruct (ParseIP _) as [ip|]; [|by right; left].
  destruct (IsMulticast ip); [by left|]. right; right. by exists ip.
Qed.

(** The endpoint of an IPv4 connection normalises to its bare address: the port
    goes, multicast addresses become empty, a second pass changes nothing; so all
    the traffic of a host counts under one source. *)
Theorem normalize_v4_endpoint (a b c d : Z) (port : string) :
  byte_ok a -> byte_ok b -> byte_ok c -> byte_ok d -> lacks ":" port = true -> lacks "[" port = true -> lacks "]" port = true ->
  let ip := ip_string [a; b; c; d] in
  normalizeIP (ip +:+ ":" +:+ port) = (if Z.land a 240 =? 224 then "" else ip) /\ normalizeIP ip = normalizeIP (ip +:+ ":" +:+ port) /\
  normalizeIP (normalizeIP ip) = normalizeIP ip.
Proof.
  intros Ha Hb Hc Hd H1 H2 H3 ip.
  unfold ip. rewrite normalizeIP_v4_port, normalizeIP_v4 by done. split; [done|]. split; [done|].
  destruct (_ =? 224) eqn:Hm; [done|]. by rewrite normalizeIP_v4, Hm.
Qed.

(** The comment promises an empty string for broadcasts and for what does not parse;
    both come back as they are. *)
Example not_normalised : normalizeIP "255.255.255.255:9" = "255.255.255.255" /\ normalizeIP "pid:12:curl" = "pid:12:curl".
Proof. split; vm_compute; reflexivity. Qed.

(** ** The counts of an event *)

Definition total_of (m : gmap string Z) : Z := map_fold (fun _ n total => total + n) 0 m.

Lemma total_insert m k v : total_of (<[k := v]> m) = total_of (delete k m) + v.
Proof.
  unfold total_of. rewrite <- insert_delete_eq. apply (map_fold_insert_L (fun (_ : string) (n total : Z) => total + n)).
  - intros. lia.
  - apply lookup_delete_eq.
Qed.

Lemma bucket_total_record b ip t : bucket_total (bucket_record b ip t) ip = bucket_total b ip + 1.
Proof.
  unfold bucket_total, bucket_record. cbn [b_counts]. rewrite lookup_insert_eq. fold total_of.
  set (m := default ∅ (b_counts b !! ip)). set (ty := event_type_string t).
  assert (total_of (<[ty := default 0 (m !! ty) + 1]> m) = total_of m + 1) as He.
  { rewrite total_insert. destruct (m !! ty) as [x|] eqn:Hx; cbn [default].
    - rewrite <- (insert_id m ty x Hx) at 2. rewrite total_insert. cbn. lia.
    - rewrite delete_id by done. cbn. lia. }
  unfold total_of in *. rewrite He. unfold m. by destruct (b_counts b !! ip).
Qed.

Definition newest (w : windower) : bucket := hd (newBucket 0) (recent w).

Lemma recent_cons w : exists l, recent w = newest w :: l.
Proof. unfold newest, recent. simpl. eauto. Qed.

Lemma newest_record w now ip t : window_wf w ->
  newest (record w now ip t) = bucket_record (if b_ts (newest w) <? now then newBucket now else newest w) ip t.
Proof.
  intros Hwf. unfold newest at 1. rewrite recent_record_refines by done. destruct (recent_cons w) as [l ->]. cbn [recent_record].
  by destruct (_ <? now).
Qed.

Lemma Count1m_newest w ip : Count1m (stats w ip) = bucket_total (newest w) ip.
Proof. rewrite stats_recent. cbn [Count1m]. destruct (recent_cons w) as [l ->].
  change (take 1 (newest w :: l)) with [newest w]. by rewrite (sum_totals_const [newest w] ip (bucket_total (newest w) ip)), Z.mul_1_r by (by intros b [->|[]]).
Qed.

(** Recording an event in the current minute adds one to the minute's count, the
    first event of a new minute starts at one. *)
Lemma Count1m_record w now ip t : window_wf w ->
  Count1m (stats (record w now ip t) ip) = (if b_ts (newest w) <? now then 1 else Count1m (stats w ip) + 1).
Proof.
  intros Hwf. rewrite !Count1m_newest, newest_record, bucket_total_record by done. destruct (_ <? now); [|done].
  unfold bucket_total, newBucket. cbn [b_counts]. by rewrite lookup_empty.
Qed.

(** Recording for one address leaves the counts of the others. *)
Lemma annotate_lookup m s :
  annotate m s !! "stream.count_1m" = Some (VInt (Count1m s)) /\ annotate m s !! "stream.count_5m" = Some (VInt (Count5m s)) /\
  annotate m s !! "stream.count_15m" = Some (VInt (Count15m s)) /\
  forall k, k ∉ ["stream.count_1m"; "stream.count_5m"; "stream.count_15m"; "stream.rate_1m"] -> annotate m s !! k = m !! k.
Proof.
  unfold annotate. split_and!; [| | |intros k Hk; rewrite !lookup_insert_ne; [done|intros <-; apply Hk; set_solver..]];
    rewrite ?(lookup_insert_ne _ "stream.rate_1m"), ?(lookup_insert_ne _ "stream.count_15m" "stream.count_1m"),
      ?(lookup_insert_ne _ "stream.count_15m" "stream.count_5m"), ?(lookup_insert_ne _ "stream.count_5m" "stream.count_1m") by done;
    by rewrite lookup_insert_eq.
Qed.

(** What enriching does to an event with a source. *)
Lemma TryEnrich_spec p now fresh h e p' h' e' accepted : TryEnrich p now fresh h e = (p', h', e', accepted) ->
  let src := normalizeIP (pe_Source e) in
  let w := if bool_decide (src = "") then win p else record (win p) now src (pe_Type e) in
  win p' = w /\ buf p' = (push (buf p) (Normalize e)).1 /\ accepted = (push (buf p) (Normalize e)).2 /\
  pe_ID e' = pe_ID e /\ pe_Type e' = pe_Type e /\ pe_Source e' = src /\ pe_Destination e' = normalizeIP (pe_Destination e) /\
  ne_Metadata (view h' e') = (if bool_decide (src = "") then ne_Metadata (view h e) else annotate (ne_Metadata (view h e)) (stats w src)).
Proof.
  unfold TryEnrich. cbn [Normalize pe_Source pe_Type pe_Metadata]. destruct (push (buf p) _) as [b acc].
  intros He. set (src := normalizeIP (pe_Source e)) in *. cbn zeta. fold src in He.
  destruct (bool_decide (src = "")) eqn:Hs.
  - destruct e as [id ty s d [l|] t sg k]; injection He as <- <- <- <-; cbn; [done|]. unfold view. cbn. by rewrite lookup_insert_eq.
  - destruct e as [id ty s d [l|] t sg k]; injection He as <- <- <- <-; cbn; unfold view; cbn; rewrite !lookup_insert_eq; done.
Qed.

(** ** A run of events *)

(** Events enriched one after the other within a minute, each as the pipeline
    sees it then. *)
Fixpoint enrich_all (p : Processor) (now : gotime) (h : maps) (es : list (pevent * nat)) : list NetworkEvent :=
  match es with
  | [] => []
  | (e, fresh) :: es' => let '(p, h, e) := Enrich p now fresh h e in view h e :: enrich_all p now h es'
  end.

Definition counts_from (k : Z) (n : nat) : list (option gany) := (fun i => Some (VInt (k + Z.of_nat i))) <$> seq 1 n.

Lemma counts_from_cons k n : counts_from k (S n) = Some (VInt (k + 1)) :: counts_from (k + 1) n.
Proof.
  unfold counts_from. cbn [seq fmap list_fmap]. f_equal. rewrite <- seq_shift. change (map S (seq 1 n)) with (S <$> seq 1 n).
  rewrite <- list_fmap_compose. apply list_fmap_ext. intros i x _. cbn. do 2 f_equal. lia.
Qed.

Lemma burst_counts now src es : src <> "" -> Forall (fun e => normalizeIP (pe_Source e.1) = src) es ->
  forall p h, window_wf (win p) -> b_ts (newest (win p)) = now ->
  (fun v => ne_Metadata v !! "stream.count_1m") <$> enrich_all p now h es = counts_from (Count1m (stats (win p) src)) (length es).
Proof.
  intros Hsrc. induction 1 as [|[e fresh] es He _ IH]; intros p h Hwf Hts; [done|]. cbn [enrich_all length].
  unfold Enrich. destruct (TryEnrich p now fresh h e) as [[[p' h'] e'] acc] eqn:Ht. cbn [fst].
  destruct (TryEnrich_spec _ _ _ _ _ _ _ _ _ Ht) as (Hw & _ & _ & _ & _ & _ & _ & Hm). cbn [fst] in He. rewrite He in Hw, Hm.
  rewrite bool_decide_eq_false_2 in Hw, Hm by done. cbn [fmap list_fmap]. rewrite Hm, counts_from_cons.
  destruct (annotate_lookup (ne_Metadata (view h e)) (stats (record (win p) now src (pe_Type e)) src)) as (-> & _).
  pose proof (Count1m_record (win p) now src (pe_Type e) Hwf) as Hc. rewrite Hts, Z.ltb_irrefl in Hc. rewrite Hc. f_equal.
  rewrite IH; [by rewrite Hw, Hc|rewrite Hw; by apply record_wf|]. rewrite Hw, newest_record by done. rewrite Hts, Z.ltb_irrefl. done.
Qed.

Lemma counts_in_minute (size : Z) (pol src : string) (boot now : gotime) (h : maps) (es : list (pevent * nat)) :
  boot <= now -> src <> "" -> Forall (fun e => normalizeIP (pe_Source e.1) = src) es ->
  (fun v => ne_Metadata v !! "stream.count_1m") <$> enrich_all (NewProcessor size pol boot) now h es = counts_from 0 (length es).
Proof.
  intros Hboot Hsrc Hall. set (p := NewProcessor size pol boot).
  assert (window_wf (win p)) as Hwf by (split; [reflexivity|change (0 < 15)%nat; lia]).
  destruct (Z.eq_dec boot now) as [<-|Hne]; [by rewrite (burst_counts boot src es Hsrc Hall p h Hwf eq_refl)|].
  destruct Hall as [|[e fresh] es He Hall]; [done|]. cbn [enrich_all length].
  unfold Enrich. destruct (TryEnrich p now fresh h e) as [[[p' h'] e'] acc] eqn:Ht. cbn [fst].
  destruct (TryEnrich_spec _ _ _ _ _ _ _ _ _ Ht) as (Hw & _ & _ & _ & _ & _ & _ & Hm). cbn [fst] in He. rewrite He in Hw, Hm.
  rewrite bool_decide_eq_false_2 in Hw, Hm by done. cbn [fmap list_fmap]. rewrite Hm, counts_from_cons.
  destruct (annotate_lookup (ne_Metadata (view h e)) (stats (record (win p) now src (pe_Type e)) src)) as (-> & _).
  pose proof (Count1m_record (win p) now src (pe_Type e) Hwf) as Hc. change (b_ts (newest (win p))) with boot in Hc.
  rewrite (proj2 (Z.ltb_lt boot now)) in Hc by lia. rewrite Hc. f_equal.
  rewrite (burst_counts now src es Hsrc Hall); [by rewrite Hw, Hc|rewrite Hw; by apply record_wf|].
  rewrite Hw, newest_record by done. change (b_ts (newest (win p))) with boot. rewrite (proj2 (Z.ltb_lt boot now)) by lia. done.
Qed.

(** Within a minute the processor counts every event: of a run of events whose
    sources normalise to one address, the first in that minute carries the count
    one and each later one exactly one more, whatever ports, types, maps and buffer
    policy; a full buffer that refuses the event still counts it. *)
Theorem minute_counts_every_event (size : Z) (pol src : string) (boot now : gotime) (h : maps) (es : list (pevent * nat)) :
  boot <= now -> src <> "" -> Forall (fun e => normalizeIP (pe_Source e.1) = src) es ->
  (fun v => ne_Metadata v !! "stream.count_1m") <$> enrich_all (NewProcessor size pol boot) now h es = counts_from 0 (length es).
Proof. apply counts_in_minute. Qed.

(** ** Ranking *)

Definition busier (x y : WindowStats) : Prop := Count5m y <= Count5m x.

Lemma sift_perm x l : sift l x ≡ₚ x :: l.
Proof. induction l as [|y l IH]; [done|]. cbn [sift]. destruct (_ <? _); [|done]. by rewrite IH, Permutation_swap. Qed.

(** The reversed prefix is sorted upwards. *)
Lemma sift_sorted x l : StronglySorted (fun a b => busier b a) l -> StronglySorted (fun a b => busier b a) (sift l x).
Proof.
  induction 1 as [|y l Hs IH Hy]; [by repeat constructor|]. cbn [sift]. destruct (Z.ltb_spec (Count5m y) (Count5m x)) as [Hlt|Hge].
  - constructor; [done|]. rewrite sift_perm. constructor; [unfold busier; lia|done].
  - constructor; [by constructor|]. constructor; [done|]. eapply Forall_impl; [exact Hy|]. unfold busier. intros z Hz. lia.
Qed.

Lemma insertion_sort_spec l : insertion_sort l ≡ₚ l /\ StronglySorted busier (insertion_sort l).
Proof.
  unfold insertion_sort. assert (forall l acc, StronglySorted (fun a b => busier b a) acc ->
    foldl sift acc l ≡ₚ acc ++ l /\ StronglySorted (fun a b => busier b a) (foldl sift acc l)) as Hf.
  { clear. induction l as [|x l IH]; intros acc Hacc; cbn [foldl]; [by rewrite app_nil_r|].
    destruct (IH (sift acc x) (sift_sorted x acc Hacc)) as [Hp Hs]. split; [|done]. rewrite Hp, sift_perm. by apply Permutation_middle. }
  destruct (Hf l []) as [Hp Hs]; [constructor|]. split.
  - transitivity (foldl sift [] l); [symmetry; apply Permutation_rev|done].
  - clear -Hs. induction Hs as [|x r Hs IH Hx]; [constructor|]. cbn [rev]. apply StronglySorted_app; split_and!; [|done|repeat constructor].
    intros a b Ha Hb. apply list_elem_of_singleton in Hb as ->. rewrite Forall_forall in Hx. apply Hx, list_elem_of_In, in_rev, list_elem_of_In. done.
Qed.

(** The ranking is the true top of the addresses seen in the five newest minutes,
    in any map order: busiest first, no address left out is busier than one
    listed, each is listed once with its own counts, and there are as many as
    asked for. *)
Theorem top_ips_ranked (order : gset string -> list string) (w : windower) (n : Z) :
  (forall s, order s ≡ₚ elements s) -> 0 < n ->
  let top := topIPs order w n in
  exists rest, top ++ rest ≡ₚ stats w <$> elements (five_minute_ips w) /\ StronglySorted busier top /\
    (forall x y, x ∈ top -> y ∈ rest -> busier x y) /\ length top = Nat.min (Z.to_nat n) (size (five_minute_ips w)).
Proof.
  intros Hord Hn top. set (l := stats w <$> order (five_minute_ips w)). destruct (insertion_sort_spec l) as [Hp Hs].
  assert (l ≡ₚ stats w <$> elements (five_minute_ips w)) as Hl by (unfold l; by rewrite Hord).
  assert (length (insertion_sort l) = size (five_minute_ips w)) as Hlen by (rewrite Hp, Hl, length_fmap; done).
  assert (top = take (Z.to_nat n) (insertion_sort l)) as ->.
  { unfold top, topIPs. fold l. destruct (Z.ltb_spec 0 n); [|lia]. cbn [andb].
    destruct (Z.ltb_spec n (Z.of_nat (length (insertion_sort l)))); [done|]. by rewrite take_ge by lia. }
  exists (drop (Z.to_nat n) (insertion_sort l)). rewrite take_drop. split; [by rewrite Hp|].
  rewrite <- (take_drop (Z.to_nat n) (insertion_sort l)) in Hs. apply StronglySorted_app in Hs as (Hcross & Ht & _).
  split; [done|]. split; [intros x y Hx Hy; by apply Hcross|]. by rewrite length_take, Hlen.
Qed.

Module ProcessorDemo.
Definition ev (src : string) (t : EventType) : pevent := mkPEvent "e" t src "SIEM_DNS" None 7 [] "".

Lemma normalize_v4_endpoint_witness : normalizeIP "192.168.1.20:53211" = "192.168.1.20" /\ normalizeIP "224.0.0.251:5353" = "".
Proof.
  split; [apply (normalize_v4_endpoint 192 168 1 20 "53211")|apply (normalize_v4_endpoint 224 0 0 251 "5353")];
    first [reflexivity|split; [discriminate|reflexivity]].
Defined.

Lemma minute_counts_every_event_witness :
  (fun v => ne_Metadata v !! "stream.count_1m") <$>
    enrich_all (NewProcessor 1 PolicyDropNewest 0) 60 ∅ [(ev "10.0.0.5:1" EventDNS, 1%nat); (ev "10.0.0.5:2" EventProxy, 2%nat); (ev "10.0.0.5" EventDNS, 3%nat)] =
  [Some (VInt 1); Some (VInt 2); Some (VInt 3)].
Proof.
  apply (minute_counts_every_event 1 PolicyDropNewest "10.0.0.5"); [lia|discriminate|]. repeat constructor; vm_compute; reflexivity.
Defined.

Definition busy : windower := record (record (record (newWindower 0) 0 "a" EventDNS) 0 "b" EventDNS) 0 "b" EventARP.
Lemma top_ips_ranked_witness : exists rest,
  topIPs elements busy 1 ++ rest ≡ₚ stats busy <$> elements (five_minute_ips busy) /\ length (topIPs elements busy 1) = 1%nat.
Proof.
  destruct (top_ips_ranked elements busy 1) as (rest & Hp & _ & _ & Hl); [done|lia|]. exists rest. split; [exact Hp|].
  rewrite Hl. vm_compute. reflexivity.
Defined.

Example busiest : map IP (topIPs elements busy 1) = ["b"].
Proof. vm_compute. reflexivity. Qed.
End ProcessorDemo.
