(* ===== verification/Sources.v ===== *)
(** * Where events come from

    The events the observers push into the pipeline: DNS queries
    (network/dns/resolver.go), ARP sightings (network/discovery/arp.go), open ports
    (discovery/attack_surface/service.go), requests through the proxy
    (network/proxy: interceptor.go, protocol.go, dpi.go) and touched decoy URLs
    (api/canary_webhook.go).  Sockets, the DNS and HTTP parsers are the callers';
    the kernel's connections are in EbpfService.v. *)
From stdpp Require Import base list strings gmap.
From Stdlib Require Import ZArith Lia Bool Ascii.
From S2P Require Import Prelude Models GoStrings NetAddr Bolt Repository.
Local Open Scope string_scope.
Local Open Scope list_scope.
Local Open Scope Z_scope.

Definition event (t : EventType) (id source destination : string) (meta : gmap string gany) (now : gotime) : NetworkEvent :=
  mkNetworkEvent id t source destination meta now [] "".

(** ** Queries, sightings, open ports *)

Definition dns_event (uuid remote qtype name : string) (now : gotime) : NetworkEvent :=
  event EventDNS uuid remote "SIEM_DNS" (<["type" := VString qtype]> {[ "name" := VString name ]}) now.

(** The operation of the ARP packet by name: request 1, reply 2. *)
Definition arp_operation (operation : Z) : string :=
  if operation =? 1 then "Request" else if operation =? 2 then "Reply" else "Unknown".
Definition arp_event (uuid srcIP srcMAC : string) (operation : Z) (now : gotime) : NetworkEvent :=
  event EventARP uuid srcIP "SIEM_DISCOVERY"
    (<["ip" := VString srcIP]> (<["mac" := VString srcMAC]> {[ "operation" := VString (arp_operation operation) ]})) now.

(** [scanTarget], for one result. *)
Definition scan_event (host : string) (port : Z) (is_open : bool) (banner : string) : NetworkEvent :=
  event EventPortScan "" "attack_surface_scanner" host
    (<["port" := VInt port]> (<["open" := VBool is_open]> {[ "banner" := VString banner ]})) 0.

(** [resolveTargets]: the known addresses, each once, or the host itself. *)
Fixpoint distinct_ips (assets : list Asset) (seen : list string) : list string :=
  match assets with
  | [] => []
  | a :: assets' =>
      if negb (bool_decide (as_IP a = "")) && negb (bool_decide (as_IP a ∈ seen))
      then as_IP a :: distinct_ips assets' (as_IP a :: seen) else distinct_ips assets' seen
  end.
Definition resolveTargets {E} (listing : option (res E (list Asset))) : list string :=
  match listing with
  | Some (ROk assets) => match distinct_ips assets [] with [] => ["127.0.0.1"] | targets => targets end
  | _ => ["127.0.0.1"]
  end.

(** ** Requests through the proxy *)

(** What the proxy reads of an [*http.Request]; [Header] is [r.Header.Get] and [URL]
    is [r.URL.String()]. *)
Record http_Request := mkRequest {
  Method : string; Host : string; URL : string; Header : string -> string; ContentLength : Z; RemoteAddr : string }.

Definition ProtoHTTP := "HTTP".
Definition ProtoHTTPS := "HTTPS".
Definition ProtoWebSocket := "WebSocket".
Definition ProtoGRPC := "gRPC".

Section Proxy.
(** Case folding and lowering outside ASCII, and the exit-node list, if any. *)
Context (unicode_fold : string -> string -> bool) (unicode_lower : string -> string) (torNodes : option (string -> bool)).

Definition DetectProtocol (r : http_Request) (port : string) : string :=
  if equal_fold unicode_fold (Header r "Upgrade") "websocket" then ProtoWebSocket
  else if HasPrefix (Header r "Content-Type") "application/grpc" then ProtoGRPC
  else if bool_decide (Method r = "CONNECT") then ProtoHTTPS
  else if bool_decide (port = "443") || bool_decide (port = "8443") then ProtoHTTPS else ProtoHTTP.

Definition suspicious_patterns : list string :=
  ["/etc/passwd"; "/etc/shadow"; "..%2f"; "../../"; "<script"; "cmd.exe"; "powershell"; "/wp-admin"; "/phpmyadmin"].
Definition isSuspicious (r : http_Request) : bool :=
  let url := ToLower unicode_lower (URL r) in existsb (Contains url) suspicious_patterns.

Definition set_when (b : bool) (k : string) (v : gany) (m : gmap string gany) : gmap string gany := if b then <[k := v]> m else m.
Definition given (s : string) : bool := negb (bool_decide (s = "")).

Definition ExtractMetadata (r : http_Request) (proto : string) : gmap string gany :=
  let m := <["method" := VString (Method r)]> (<["host" := VString (Host r)]> (<["url" := VString (URL r)]> {[ "protocol" := VString proto ]})) in
  let m := set_when (given (Header r "User-Agent")) "user_agent" (VString (Header r "User-Agent")) m in
  let m := set_when (given (Header r "Content-Type")) "content_type" (VString (Header r "Content-Type")) m in
  let m := set_when (given (Header r "Referer")) "referer" (VString (Header r "Referer")) m in
  let auth := Header r "Authorization" in
  let m := set_when (given auth) "has_auth" (VBool true) m in
  let m := set_when (given auth) "auth_scheme" (VString (hd "" (SplitN2 auth " "))) m in
  let m := set_when (0 <? ContentLength r) "content_length" (VInt (ContentLength r)) m in
  set_when (isSuspicious r) "suspicious" (VBool true) m.

Definition tagTorExitNode (m : gmap string gany) (host : string) : gmap string gany :=
  match torNodes with
  | None => m
  | Some is_exit =>
      let h := match SplitHostPort host with Some (h, _) => h | None => host end in
      match ParseIP h with None => m | Some _ => set_when (is_exit h) "tor_exit_node" (VBool true) m end
  end.

Definition logRequest (r : http_Request) (port : string) (dur_ms statusCode : Z) (now : gotime) : NetworkEvent :=
  let m := ExtractMetadata r (DetectProtocol r port) in
  let m := <["duration_ms" := VInt dur_ms]> m in
  let m := set_when (0 <? statusCode) "status_code" (VInt statusCode) m in
  event EventProxy "" (RemoteAddr r) (Host r) (tagTorExitNode m (Host r)) now.

Definition logTunnel (clientAddr targetHost : string) (now : gotime) : NetworkEvent :=
  event EventProxy "" clientAddr targetHost
    (tagTorExitNode (<["method" := VString "CONNECT"]> (<["protocol" := VString ProtoHTTPS]> {[ "tunnel" := VBool true ]})) targetHost) now.
End Proxy.

(** ** Decoy URLs *)

Section Webhook.
Context {store : Type} `{Bolt store} `{JSON NetworkEvent} `{JSON CanaryToken} `{JSON Alert} `{JSON Asset}.

Definition canary_event (token remote userAgent referer : string) (now : gotime) : NetworkEvent :=
  event EventCanary "" remote token
    (<["canary_token" := VString token]> (<["canary_type" := VString "HTTP"]>
     (<["user_agent" := VString userAgent]> {[ "referer" := VString referer ]}))) now.

(** [CanaryWebhookHandler]: the status and the event pushed, if any; [None] is a
    panic of the store. *)
Definition CanaryWebhookHandler (db : store) (method path remote userAgent referer : string) (now : gotime) : option (Z * option NetworkEvent) :=
  if negb (bool_decide (method = "POST")) then Some (405, None)
  else
    let token := TrimPrefix path "/api/canary/webhook/" in
    if bool_decide (token = "") then Some (404, None)
    else
      match FindCanaryTokenByToken db token with
      | RPanic => None
      | RErr _ => Some (404, None)
      | ROk _ => Some (204, Some (canary_event token remote userAgent referer now))
      end.
End Webhook.

(** ** Facts on the metadata *)

Lemma set_when_ne b k k' v m : k <> k' -> set_when b k v m !! k' = m !! k'.
Proof. intros Hk. unfold set_when. destruct b; [|done]. by rewrite lookup_insert_ne. Qed.

(** Only the addresses in the list are tagged, and the tag is the only change. *)
Lemma tagTorExitNode_lookup torNodes m host k : k <> "tor_exit_node" -> tagTorExitNode torNodes m host !! k = m !! k.
Proof.
  intros Hk. unfold tagTorExitNode. destruct torNodes; [|done]. destruct (ParseIP _); [|done]. by apply set_when_ne.
Qed.

(** The scanner's targets are the distinct addresses known, in order of discovery. *)
Lemma distinct_ips_spec assets : forall seen,
  NoDup (distinct_ips assets seen) /\
  forall ip, ip ∈ distinct_ips assets seen <-> ip ∈ as_IP <$> assets /\ ip <> "" /\ ip ∉ seen.
Proof.
  induction assets as [|a assets IH]; intros seen; cbn [distinct_ips].
  - split; [constructor|]. set_solver.
  - destruct (bool_decide_reflect (as_IP a = "")) as [He|He]; [|destruct (bool_decide_reflect (as_IP a ∈ seen)) as [Hs|Hs]]; cbn [negb andb].
    + destruct (IH seen) as [Hn Hi]. split; [done|]. intros ip. rewrite Hi. set_solver.
    + destruct (IH seen) as [Hn Hi]. split; [done|]. intros ip. rewrite Hi. set_solver.
    + destruct (IH (as_IP a :: seen)) as [Hn Hi]. split.
      * constructor; [|done]. rewrite Hi. set_solver.
      * intros ip. rewrite elem_of_cons, Hi. destruct (decide (ip = as_IP a)) as [->|]; set_solver.
Qed.
