(* ===== verification/Detection.v ===== *)
(** * Detection end to end

    How the parts of detection work together: the observers (Sources.v,
    EbpfService.v), the stream processor, the rules and the kill chains, the canary
    tokens and the repository, wired as in internal/app/app.go. *)
From stdpp Require Import base list strings gmap.
From Stdlib Require Import ZArith Lia Bool Ascii SpecFloat.
From S2P Require Import Prelude Models GoStrings GoFloat NetAddr Stream Correlation Pipeline StreamProcessor EbpfService Fs Rules Bolt Repository Canary Sources.
Local Open Scope string_scope.
Local Open Scope list_scope.
Local Open Scope Z_scope.

(** ** The alert callback *)

Section Callback.
Context {store : Type} `{Bolt store} `{JSON NetworkEvent} `{JSON CanaryToken} `{JSON Alert} `{JSON Asset}.
(** The alert event as the pipeline persists it, enriched and signed. *)
Context (finish : NetworkEvent -> NetworkEvent).



End Callback.

(** ** Canaries, from the touch to the count *)

Section CanaryLoop.
Context {store : Type} `{Bolt store} `{JSON NetworkEvent} `{JSON CanaryToken} `{JSON Alert} `{JSON Asset}.
Context `{!BoltLaws store} `{!JSONLaws NetworkEvent} `{!JSONLaws CanaryToken} `{!JSONLaws Alert}.
Context (finish : NetworkEvent -> NetworkEvent).











Section Engine.
Context (log2 : float64 -> float64) (order : gmap Z Z -> list Z).








End Engine.
End CanaryLoop.

(** ** Rules that never see what they wait for *)

Section Blind.
Context (log2 : float64 -> float64) (order : gmap Z Z -> list Z).

(** An event as the engine sees it: the processor added counts, the publisher the
    addresses. *)
Definition added_keys : list string :=
  ["stream.count_1m"; "stream.count_5m"; "stream.count_15m"; "stream.rate_1m"; "source"; "destination"].
Definition seen_as (e e' : NetworkEvent) : Prop :=
  ne_Type e' = ne_Type e /\ forall k, k ∉ added_keys -> ne_Metadata e' !! k = ne_Metadata e !! k.

(** The steps before the engine make such an event: enriching, then publishing. *)
Lemma enrich_seen p now fresh h e p' h' e' : Enrich p now fresh h e = (p', h', e') -> seen_as (view h e) (view h' e').
Proof.
  unfold Enrich. destruct (TryEnrich p now fresh h e) as [[[p0 h0] e0] acc] eqn:Ht. intros [= -> -> ->].
  destruct (TryEnrich_spec _ _ _ _ _ _ _ _ _ Ht) as (_ & _ & _ & _ & Hty & _ & _ & Hm). split; [done|]. intros k Hk. rewrite Hm.
  destruct (bool_decide _); [done|]. apply annotate_lookup. unfold added_keys in Hk. set_solver.
Qed.

Lemma publish_seen h e fresh l h' x : pe_Metadata e = Some l -> publish h e fresh = (h', x) -> seen_as (view h e) (view h' e).
Proof.
  intros Hl. unfold publish. rewrite Hl. intros [= <- <-]. split; [done|]. intros k Hk. unfold view. cbn [ne_Metadata]. rewrite Hl, lookup_insert_eq.
  change (default ∅ (Some ?m)) with m. rewrite !lookup_insert_ne by (intros <-; apply Hk; unfold added_keys; set_solver). done.
Qed.

Lemma seen_trans e1 e2 e3 : seen_as e1 e2 -> seen_as e2 e3 -> seen_as e1 e3.
Proof. intros [Ht1 Hm1] [Ht2 Hm2]. split; [by rewrite Ht2|]. intros k Hk. by rewrite Hm2, Hm1. Qed.

(** The embedded rules for an event of a type no rule names. *)
Lemma untyped_rules e r : r ∈ builtin_rules -> fires log2 order e r = true ->
  event_type_string (ne_Type e) ∉ ["DNS"; "ARP"; "CANARY"; "PORT_SCAN"; "PROXY"; "VM"] ->
  r = YAML anomalous_volume \/ r = YAML brute_force.
Proof.
  intros Hr Hf Ht. unfold fires in Hf. apply bool_decide_eq_true in Hf.
  assert (forall spec, Conditions spec <> [] -> EventType_ spec ∈ ["DNS"; "ARP"; "CANARY"; "PORT_SCAN"; "PROXY"; "VM"] ->
    r = YAML spec -> False) as Hno.
  { intros spec Hc Hty ->. cbn [Evaluate] in Hf. apply fires_iff in Hf as [[Hx|Hx] _]; [|by rewrite Hx in Ht|done].
    rewrite Hx in Hty. clear -Hty. set_solver. }
  change builtin_rules with (DGA (mkDGA (float_of_decimal false 38 (-1)) 10) :: (YAML <$> embedded_specs)) in Hr.
  apply elem_of_cons in Hr as [->|(spec & -> & Hs)%list_elem_of_fmap].
  - exfalso. cbn [Evaluate] in Hf. unfold DGA_Evaluate in Hf. rewrite bool_decide_eq_false_2 in Hf; [by destruct Hf|].
    intros Hx. rewrite Hx in Ht. apply Ht. left.
  - unfold embedded_specs in Hs.
    repeat (apply elem_of_cons in Hs as [->|Hs]; [first [by left|by right|exfalso; eapply Hno; [| |done]; [done|cbn; set_solver]]|]).
    by apply elem_of_nil in Hs.
Qed.

(** The kernel monitor's connections are watched by no rule: whatever process
    connects to a known Tor exit node, the event the eBPF service pushes has a
    type no built-in rule names, the exit-node rule included (it waits for proxy
    events); below the thresholds of the two rate rules it raises no alert. *)
Theorem kernel_tor_connections_unwatched {A : Type} `{!ExitNodeChecker A} (cfg : EBPFConfig) (torNodes : option A) (ev : connectEvent) (e e' : NetworkEvent)
    (g : Engine) (uuid : nat -> string) (clock : nat -> gotime) (c1 c15 : Z) :
  e ∈ handleEvent cfg torNodes ev -> seen_as e e' -> rules g = builtin_rules ->
  ne_Metadata e' !! "stream.count_1m" = Some (VInt c1) -> ne_Metadata e' !! "stream.count_15m" = Some (VInt c15) ->
  0 <= c1 <= 100 -> 0 <= c15 <= 1000 ->
  Analyze log2 order g e' uuid clock = [].
Proof.
  intros He [Hty Hmeta] Hrules H1 H15 Hc1 Hc15.
  assert (ne_Type e = EventTor) as Htor.
  { unfold handleEvent in He. destruct (_ && _); [by apply elem_of_nil in He|]. by apply list_elem_of_singleton in He as ->. }
  assert (ne_Type e' = EventTor) as Htor' by congruence.
  assert (List.filter (fires log2 order e') builtin_rules = []) as Hnone.
  { destruct (List.filter _ _) as [|r l] eqn:Hl; [done|]. exfalso.
    assert (In r (List.filter (fires log2 order e') builtin_rules)) as [Hr Hf]%filter_In by (rewrite Hl; by left).
    apply list_elem_of_In in Hr. pose proof Hf as Hfires. unfold fires in Hfires. apply bool_decide_eq_true in Hfires.
    assert (event_type_string (ne_Type e') ∉ ["DNS"; "ARP"; "CANARY"; "PORT_SCAN"; "PROXY"; "VM"]) as Hty'
      by (rewrite Htor'; refine (bool_decide_eq_false_1 _ _); vm_compute; reflexivity).
    pose proof (untyped_rules e' r Hr Hf Hty') as Hcase. clear Hl Hr Hf Hty'.
    destruct Hcase as [->| ->]; cbn [Evaluate] in Hfires; apply fires_iff in Hfires as [_ Hc]; try discriminate; unfold conditions_hold in Hc.
    - change (uses_or anomalous_volume) with false in Hc. cbn [Conditions anomalous_volume] in Hc. rewrite Forall_singleton in Hc.
      rewrite (gt_threshold "stream.count_15m" "1000" 1000 e' c15), Z.ltb_lt in Hc; [lia|done|discriminate|discriminate|discriminate|vm_compute; reflexivity|lia|lia].
    - change (uses_or brute_force) with false in Hc. cbn [Conditions brute_force] in Hc. rewrite Forall_singleton in Hc.
      rewrite (gt_threshold "stream.count_1m" "100" 100 e' c1), Z.ltb_lt in Hc; [lia|done|discriminate|discriminate|discriminate|vm_compute; reflexivity|lia|lia]. }
  unfold Analyze. rewrite Hrules. destruct (_ || _); [done|]. destruct (onAlert g); [|done].
  pose proof (analyze_rules_names log2 order builtin_rules e' uuid clock 0) as Hn. rewrite Hnone in Hn. by apply fmap_nil_inv in Hn.
Qed.

(** Nobody sets the flag the spoofing rule waits for. *)
Lemma arp_rule_never_fires (uuid srcIP srcMAC u : string) (op now t : Z) (e' : NetworkEvent) :
  seen_as (arp_event uuid srcIP srcMAC op now) e' -> YAMLRule_Evaluate arp_spoofing e' u t = None.
Proof.
  intros [_ Hm]. apply eq_None_not_Some. rewrite fires_iff by done. intros [_ Hc]. unfold conditions_hold in Hc.
  change (uses_or arp_spoofing) with false in Hc. cbn [Conditions arp_spoofing] in Hc. rewrite Forall_singleton in Hc.
  destruct (missing_field "gratuitous" "true" e') as (_ & _ & He & _); try done; [|by rewrite He in Hc].
  rewrite Hm by (unfold added_keys; set_solver). done.
Qed.

(** Every result of the program's own scanner in 192.168.0.0/16 is a lateral-movement
    alert: the scanner is the only source of port-scan events. *)
Lemma own_scan_is_lateral_movement (host banner u : string) (port : Z) (is_open : bool) (t : Z) :
  Contains host "192.168." = true -> is_Some (YAMLRule_Evaluate lateral_movement (scan_event host port is_open banner) u t).
Proof.
  intros Hh. apply fires_iff; [done|]. split; [by right|]. unfold conditions_hold. change (uses_or lateral_movement) with true.
  cbn [Conditions lateral_movement]. apply Exists_cons_hd. by rewrite (contains_string "destination" "192.168." _ host).
Qed.
End Blind.

(** ** Kill chains across sources *)

(** *** The source of a kernel event stays what it is *)

Lemma strip_prefix_end s e r : strip_prefix (rev_string e) (rev_string s) = Some r -> s = rev_string r +:+ e.
Proof.
  intros Hs%strip_prefix_Some. by rewrite <- (rev_string_involutive s), Hs, rev_string_app, rev_string_involutive.
Qed.

Lemma trim_right_prefix n : forall s, exists t, s = trim_right n s +:+ t.
Proof.
  induction n as [|n IH]; intros s; [exists ""; by rewrite string_app_nil_r|]. cbn [trim_right].
  destruct (strip_space_end s) as [s'|] eqn:Hs; [|exists ""; by rewrite string_app_nil_r].
  unfold strip_space_end in Hs. destruct (first_some _ _) as [r|] eqn:Hr; [|done]. injection Hs as <-.
  assert (exists e, strip_prefix (rev_string e) (rev_string s) = Some r) as [e He].
  { clear -Hr. induction space_encodings as [|e l IH]; [done|]. cbn [first_some] in Hr.
    destruct (strip_prefix (rev_string e) (rev_string s)) eqn:Hp; [exists e; congruence|by apply IH]. }
  destruct (IH (rev_string r)) as [t Ht]. exists (t +:+ e). apply strip_prefix_end in He. rewrite string_app_assoc, <- Ht. done.
Qed.

Lemma not_an_address s : ParseIP (String "p" s) = None.
Proof.
  unfold ParseIP. destruct (addr_kind (String "p" s)) as [k|]; [|done].
  assert (parseIPv4 (String "p" s) = None) as H4 by reflexivity. assert (parseIPv6 (String "p" s) = None) as H6 by reflexivity.
  rewrite H4, H6. repeat case_match; reflexivity.
Qed.

Lemma kernel_source_kept (n comm : string) : normalizeIP ("pid:" +:+ n +:+ ":" +:+ comm) = "pid:" +:+ n +:+ ":" +:+ comm.
Proof.
  change ("pid:" +:+ n +:+ ":" +:+ comm) with (String "p" ("id:" +:+ n +:+ ":" +:+ comm)). set (raw := "id:" +:+ n +:+ ":" +:+ comm).
  unfold normalizeIP. rewrite bool_decide_eq_false_2 by done.
  assert (SplitHostPort (String "p" raw) = None) as ->.
  { unfold SplitHostPort. cbn [Ascii.eqb Bool.eqb]. change (Cut ":" (String "p" raw)) with (Some ("pid", n +:+ ":" +:+ comm)).
    cbv beta iota zeta. rewrite (lacks_app ":" n). change (lacks ":" (":" +:+ comm)) with false. by rewrite andb_false_r. }
  assert (exists t, TrimSpace (String "p" raw) = "" \/ TrimSpace (String "p" raw) = String "p" t) as [t [->| ->]]; [|done|by rewrite not_an_address].
  unfold TrimSpace. cbn [String.length trim_left]. change (strip_space (String "p" raw)) with (@None string). cbv beta iota zeta.
  destruct (trim_right_prefix (String.length (String "p" raw)) (String "p" raw)) as [t Ht].
  destruct (trim_right _ _) as [|c r]; [by exists ""; left|]. exists r. right. by injection Ht as <- _.
Qed.

(** *** What the observers emit *)

Section Chains.
Context {A : Type} `{!ExitNodeChecker A}.
Context (unicode_fold : string -> string -> bool) (unicode_lower : string -> string).

(** The remote endpoint of a connection as the Go servers report it, IPv4, IPv6 with
    or without a zone, or without an address; the proxy's intercepted requests,
    which http.ReadRequest makes, have none. *)
Definition endpoint_text (s : string) : Prop := s = "" \/ exists ip zone port, s = Addr_String ip zone port.

Definition chain_types : list string := ["ARP"; "PORT_SCAN"; "TOR"; "DNS"; "CANARY"; "PROXY"].

(** The events of the types the chains speak of, from every place that pushes them. *)
Inductive emitted : NetworkEvent -> Prop :=
| em_scan host port is_open banner : emitted (scan_event host port is_open banner)
| em_kernel cfg (torNodes : option A) ev e : e ∈ handleEvent cfg torNodes ev -> emitted e
| em_arp uuid ip mac op now : emitted (arp_event uuid (IP_text ip) mac op now)
| em_dns uuid remote qtype name now : endpoint_text remote -> emitted (dns_event uuid remote qtype name now)
| em_request torNodes r port dur status now : endpoint_text (RemoteAddr r) ->
    emitted (logRequest unicode_fold unicode_lower torNodes r port dur status now)
| em_tunnel torNodes client target now : endpoint_text client -> emitted (logTunnel torNodes client target now)
| em_canary token remote ua referer now : endpoint_text remote -> emitted (canary_event token remote ua referer now)
| em_other e : event_type_string (ne_Type e) ∉ chain_types -> emitted e.

(** The event the correlator is given: normalised source, the type kept. *)
Definition observed (e : NetworkEvent) : Prop := exists e0, emitted e0 /\ ne_Type e = ne_Type e0 /\ ne_Source e = normalizeIP (ne_Source e0).

(** Where events of a type live: port scans and kernel events have sources of their
    own, and what the others name is neither. *)
Definition elsewhere (src : string) : Prop := src <> "attack_surface_scanner" /\ HasPrefix src "pid:" = false.
Definition lives_in (ty : string) (src : string) : Prop :=
  (ty = "PORT_SCAN" -> src = "attack_surface_scanner") /\ (ty = "TOR" -> HasPrefix src "pid:" = true) /\
  (ty ∈ ["ARP"; "DNS"; "CANARY"; "PROXY"] -> elsewhere src).

Lemma elsewhere_chars s : addr_chars s = true -> elsewhere s.
Proof.
  intros Hs. split; [by intros ->|]. apply not_true_is_false. intros Hp%HasPrefix_iff. destruct Hp as [r ->].
  by rewrite addr_chars_app in Hs.
Qed.

Lemma elsewhere_head c s : c <> "a"%char -> c <> "p"%char -> elsewhere (String c s).
Proof.
  intros Ha Hp. split; [by intros [= -> _]|]. apply not_true_is_false. intros [r Hr]%HasPrefix_iff. by injection Hr as -> _.
Qed.

Lemma elsewhere_address ip : elsewhere (IP_text ip) /\ elsewhere (IP_String ip).
Proof.
  split.
  - destruct (IP_text_form ip) as [-> | [Hc|[t ->]]]; [by apply elsewhere_head|by apply elsewhere_chars|by apply elsewhere_head].
  - destruct (IP_String_chars ip) as [-> |Hc]; [by apply elsewhere_head|by apply elsewhere_chars].
Qed.

(** An endpoint is not the scanner, whose name has no colon, and does not start
    with the p of a process. *)
Lemma elsewhere_endpoint s : endpoint_text s -> elsewhere s.
Proof.
  intros [->|(ip & zone & port & ->)]; [done|]. unfold Addr_String.
  set (host := if (length ip =? 0)%nat then "" else IP_text ip). set (h := if bool_decide (zone = "") then host else host +:+ "%" +:+ zone).
  unfold JoinHostPort. destruct (lacks ":" h); [|by apply elsewhere_head]. split.
  - intros He%(f_equal (lacks ":")). rewrite !lacks_app in He. change (lacks ":" ":") with false in He.
    rewrite andb_false_l, andb_false_r in He. discriminate.
  - apply not_true_is_false. intros [r Hr]%HasPrefix_iff.
    assert (exists c t, c <> "p"%char /\ h +:+ ":" +:+ fmt_d port = host +:+ String c t) as (c & t & Hc & Ht).
    { unfold h. case_bool_decide; [by exists ":"%char, (fmt_d port)|]. exists "%"%char, (zone +:+ ":" +:+ fmt_d port).
      split; [done|]. by rewrite <- !string_app_assoc. }
    rewrite Ht in Hr. destruct host as [|x host'] eqn:Hhost; [by injection Hr as -> _|]. injection Hr as -> _.
    assert (IP_text ip = String "p" host') as Hip by (unfold host in Hhost; by destruct (length ip =? 0)%nat).
    destruct (IP_text_form ip) as [He|[He|[t' He]]]; rewrite Hip in He; done.
Qed.

Lemma elsewhere_normalised s : elsewhere s -> elsewhere (normalizeIP s).
Proof.
  intros Hs. destruct (normalizeIP_cases s) as [-> | [-> | [ip ->]]]; [done|done|apply elsewhere_address].
Qed.

Lemma observed_lives e : observed e -> lives_in (event_type_string (ne_Type e)) (ne_Source e).
Proof.
  intros (e0 & He & -> & ->). unfold lives_in. destruct He as [|cfg torNodes ev e1 Hin| | | | | |e1 Ht].
  - split_and!; [done|done|]. cbn. set_solver.
  - unfold handleEvent in Hin. destruct (_ && _); [by apply elem_of_nil in Hin|]. apply list_elem_of_singleton in Hin as ->.
    cbn [ne_Type ne_Source event_type_string]. split_and!; [done| |set_solver].
    intros _. rewrite kernel_source_kept. apply HasPrefix_iff. by eexists.
  - cbn [ne_Type ne_Source event_type_string arp_event event]. split_and!; [done|done|]. intros _. apply elsewhere_normalised, elsewhere_address.
  - cbn [ne_Type ne_Source event_type_string dns_event event]. split_and!; [done|done|]. intros _. by apply elsewhere_normalised, elsewhere_endpoint.
  - cbn [ne_Type ne_Source event_type_string logRequest event]. split_and!; [done|done|]. intros _. by apply elsewhere_normalised, elsewhere_endpoint.
  - cbn [ne_Type ne_Source event_type_string logTunnel event]. split_and!; [done|done|]. intros _. by apply elsewhere_normalised, elsewhere_endpoint.
  - cbn [ne_Type ne_Source event_type_string canary_event event]. split_and!; [done|done|]. intros _. by apply elsewhere_normalised, elsewhere_endpoint.
  - unfold chain_types in Ht. split_and!; [intros Hx; rewrite Hx in Ht; set_solver|intros Hx; rewrite Hx in Ht; set_solver|].
    intros Hx. exfalso. apply Ht. clear -Hx. set_solver.
Qed.

(** *** The windows of the default chains *)

Definition windows_home (t : TemporalCorrelator) : Prop := forall src w ev, windows t !! src = Some w -> ev ∈ w -> lives_in (event_type_string (ev_Type ev)) src.

(** Two event types that no source emits together. *)
Lemma no_common_source src ty1 ty2 : lives_in ty1 src -> lives_in ty2 src ->
  (ty1, ty2) ∉ [("ARP", "PORT_SCAN"); ("TOR", "PORT_SCAN"); ("TOR", "DNS"); ("CANARY", "PORT_SCAN"); ("PROXY", "PORT_SCAN")].
Proof.
  intros (Hs1 & Ht1 & Hn1) (Hs2 & Ht2 & Hn2) Hin.
  repeat (apply elem_of_cons in Hin as [[= -> ->]|Hin]); [| | | | |by apply elem_of_nil in Hin].
  - by apply (Hn1 ltac:(set_solver)), Hs2.
  - specialize (Ht1 eq_refl). by rewrite (Hs2 eq_refl) in Ht1.
  - destruct (Hn2 ltac:(set_solver)) as [_ Hp]. by rewrite Ht1 in Hp.
  - by apply (Hn1 ltac:(set_solver)), Hs2.
  - by apply (Hn1 ltac:(set_solver)), Hs2.
Qed.

Lemma default_chain_silent chain w now src : chain ∈ DefaultChains ->
  (forall ev, ev ∈ w -> lives_in (event_type_string (ev_Type ev)) src) -> matchChain w chain now = None.
Proof.
  intros Hc Hw. destruct (matchChain w chain now) as [ids|] eqn:Hm; [|done]. exfalso.
  destruct (match_chain_sound _ _ _ _ Hm) as (evs & Hsub & Hf & _).
  assert (forall ev, ev ∈ evs -> lives_in (event_type_string (ev_Type ev)) src) as Hev.
  { intros ev Hin. apply Hw. eapply (sublist_subseteq _ _ Hsub), list_elem_of_filter in Hin as [_ Hin]. done. }
  assert (exists t1 t2, Sequence chain = [t1; t2] /\
    (event_type_string t1, event_type_string t2) ∈ [("ARP", "PORT_SCAN"); ("TOR", "PORT_SCAN"); ("TOR", "DNS"); ("CANARY", "PORT_SCAN"); ("PROXY", "PORT_SCAN")])
    as (t1 & t2 & Hseq & Hpair).
  { unfold DefaultChains in Hc. repeat (apply elem_of_cons in Hc as [->|Hc]); [..|by apply elem_of_nil in Hc];
      (eexists _, _; split; [reflexivity|cbn; set_solver]). }
  rewrite Hseq in Hf. inversion Hf as [|e1 ? ? ? H1 Hf1]; subst. inversion Hf1 as [|e2 ? ? ? H2 Hf2]; subst. unfold type_matches in *.
  eapply (no_common_source src); [| |exact Hpair].
  - rewrite <- H1. apply Hev. left.
  - rewrite <- H2. apply Hev. right. left.
Qed.

Lemma fire_none dur cb e now cs fresh arr len alerts : (forall c, c ∈ cs -> matchChain arr c now = None) ->
  fire_loop dur cb e now cs fresh arr len alerts = (arr, len, alerts).
Proof.
  induction cs as [|c cs IH]; intros Hc; [done|]. cbn [fire_loop]. rewrite Hc by left. apply IH. intros c' Hin. apply Hc. by right.
Qed.

Lemma Observe_silent dur t e clock fresh : chains t = DefaultChains -> windows_home t -> lives_in (event_type_string (ne_Type e)) (ne_Source e) ->
  (Observe dur t e clock fresh).2 = [] /\ chains (Observe dur t e clock fresh).1 = DefaultChains /\ windows_home (Observe dur t e clock fresh).1.
Proof.
  intros Hch Hw Hl. unfold Observe. destruct (bool_decide_reflect (ne_Source e = "")) as [|Hne]; [done|]. cbn [orb].
  destruct (type_eqb _ _); [done|]. set (now := if time_IsZero _ then _ else _).
  assert (forall ev, ev ∈ trimmed_window t e now -> lives_in (event_type_string (ev_Type ev)) (ne_Source e)) as Htrim.
  { intros ev [Hin|Hin]%elem_of_app.
    - apply list_elem_of_filter in Hin as [_ Hin]. destruct (windows t !! ne_Source e) as [w|] eqn:Hws; [by apply (Hw _ w)|by apply elem_of_nil in Hin].
    - by apply list_elem_of_singleton in Hin as ->. }
  rewrite fire_none by (rewrite Hch; intros c Hc; by apply (default_chain_silent c _ now (ne_Source e))).
  cbn [fst snd chains]. split_and!; [done|done|]. intros src w ev. cbn [windows]. intros [[<- <-]|[_ Hs]]%lookup_insert_Some Hin; [|by apply (Hw src w)].
  apply Htrim. rewrite firstn_all in Hin. done.
Qed.

(** A run of the correlator; the clock and the fresh names of each observation. *)
Fixpoint observe_all (dur : Z -> string) (t : TemporalCorrelator) (es : list (NetworkEvent * gotime * (nat -> string * gotime)))
  : list NetworkEvent :=
  match es with
  | [] => []
  | (e, clock, fresh) :: es' => let '(t, alerts) := Observe dur t e clock fresh in alerts ++ observe_all dur t es'
  end.

(** C29: The default kill chains detect nothing: chains are matched per source, and no
    two types of a default chain are ever emitted from one source (port scans come
    only from the program's own scanner, Tor events from "pid:" sources, the
    others from addresses and endpoints, IPv4 or IPv6, which are neither), so no
    stream of events of the program's observers, in any order and at any times,
    raises an alert. *)
Theorem default_chains_never_fire (dur : Z -> string) (es : list (NetworkEvent * gotime * (nat -> string * gotime))) :
  Forall (fun x => observed x.1.1) es -> observe_all dur (Correlation.SetAlertCallback (NewTemporalCorrelator DefaultChains)) es = [].
Proof.
  intros Hall. assert (forall t, chains t = DefaultChains -> windows_home t -> observe_all dur t es = []) as Hrun.
  { induction Hall as [|[[e clock] fresh] es He _ IH]; intros t Hc Hw; [done|]. cbn [observe_all].
    destruct (Observe_silent dur t e clock fresh Hc Hw (observed_lives e He)) as (Ha & Hc' & Hw').
    destruct (Observe dur t e clock fresh) as [t' alerts]. cbn [fst snd] in *. subst alerts. by apply IH. }
  apply Hrun; [done|]. intros src w ev Hs. cbn in Hs. by rewrite lookup_empty in Hs.
Qed.
End Chains.

(** ** A burst *)

(** C30: A burst raises the brute-force alert from its hundred-and-first event on: of
    the events of one source within a minute, in the order they arrive, exactly
    those after the first hundred fire the rule, as the engine sees them. *)
Theorem burst_detected (size : Z) (pol src : string) (boot now : gotime) (h : maps) (es : list (pevent * nat)) (i : nat) (v : NetworkEvent) :
  boot <= now -> src <> "" -> Forall (fun e => normalizeIP (pe_Source e.1) = src) es -> Z.of_nat (length es) < 2 ^ 53 ->
  enrich_all (NewProcessor size pol boot) now h es !! i = Some v ->
  is_Some (YAMLRule_Evaluate brute_force v "" 0) <-> (100 <= i)%nat.
Proof.
  intros Hb Hs Hall Hlen Hi. pose proof (counts_in_minute size pol src boot now h es Hb Hs Hall) as Hc.
  assert (i < length es)%nat as Hil.
  { apply (f_equal length) in Hc. rewrite length_fmap in Hc. unfold counts_from in Hc. rewrite length_fmap, length_seq in Hc.
    apply lookup_lt_Some in Hi. lia. }
  assert (ne_Metadata v !! "stream.count_1m" = Some (VInt (Z.of_nat (S i)))) as Hv.
  { apply (f_equal (fun l => l !! i)) in Hc. rewrite list_lookup_fmap, Hi in Hc. unfold counts_from in Hc.
    rewrite list_lookup_fmap, lookup_seq_lt in Hc by done. cbn in Hc. injection Hc as ->. reflexivity. }
  rewrite fires_iff by done. unfold conditions_hold. change (uses_or brute_force) with false. cbn [Conditions brute_force].
  rewrite Forall_singleton, (gt_threshold "stream.count_1m" "100" 100 v (Z.of_nat (S i)));
    [rewrite Z.ltb_lt|done|discriminate|discriminate|discriminate|vm_compute; reflexivity|lia|lia].
  split; [intros [_ ?]; lia|intros ?; split; [by left|lia]].
Qed.

(** ** A planted token in a working store *)

Module DetectionDemo.
Import MapBolt.
Definition clk (n : nat) : gotime := 100 + Z.of_nat n.
Definition ids (n : nat) : string := pretty.pretty (N.of_nat n).
Definition stable_order (m : gmap Z Z) : list Z := (map_to_list m).*1.
Definition no_log (x : float64) : float64 := x.

Lemma burst_detected_witness :
  let v := default RulesDemo.burst (enrich_all (NewProcessor 1 PolicyDropNewest 0) 60 ∅ [(ProcessorDemo.ev "10.0.0.5:1" EventDNS, 1%nat)] !! 0%nat) in
  ~ is_Some (YAMLRule_Evaluate brute_force v "" 0).
Proof.
  intros v. rewrite (burst_detected 1 PolicyDropNewest "10.0.0.5" 0 60 ∅ [(ProcessorDemo.ev "10.0.0.5:1" EventDNS, 1%nat)] 0 v).
  - lia.
  - lia.
  - discriminate.
  - repeat constructor.
  - simpl. lia.
  - vm_compute. reflexivity.
Defined.

#[local] Instance exit_list : ExitNodeChecker (list string) := { IsExitNode l ip := bool_decide (ip ∈ l) }.
Definition tor_connection : connectEvent := mkConnectEvent 4242 (go_bytes "curl" ++ replicate 12 0) (le_decode [9; 9; 9; 185]) 47873.
Definition watch : EBPFConfig := mkEBPFConfig true [] false.
Definition builtin_engine : Engine := mkEngine true builtin_rules true.

Lemma kernel_tor_connections_unwatched_witness :
  exists e, handleEvent watch (Some ["185.9.9.9"]) tor_connection = [e] /\
    ne_Metadata e !! "tor_exit_node" = Some (VBool true) /\
    Analyze no_log stable_order builtin_engine
      (mkNetworkEvent "e1" EventTor (ne_Source e) (ne_Destination e)
         (<["stream.count_1m" := VInt 1]> (<["stream.count_15m" := VInt 1]> (ne_Metadata e))) 7 [] "") ids clk = [].
Proof.
  eexists. split; [vm_compute; reflexivity|]. split; [vm_compute; reflexivity|].
  eapply (kernel_tor_connections_unwatched no_log stable_order watch (Some ["185.9.9.9"]) tor_connection _ _ builtin_engine ids clk 1 1).
  - vm_compute. left.
  - split; [reflexivity|]. intros k Hk. cbn [ne_Metadata].
    assert ("stream.count_1m" ∈ added_keys /\ "stream.count_15m" ∈ added_keys) as [H1 H2] by (split; apply (bool_decide_unpack _); vm_compute; exact I).
    rewrite lookup_insert_ne by (intros <-; contradiction). rewrite lookup_insert_ne by (intros <-; contradiction). reflexivity.
  - reflexivity.
  - vm_compute. reflexivity.
  - vm_compute. reflexivity.
  - lia.
  - lia.
Defined.

Lemma default_chains_never_fire_witness :
  observe_all CorrelationDemo.dur (Correlation.SetAlertCallback (NewTemporalCorrelator DefaultChains))
    [(mkNetworkEvent "s1" EventARP "10.0.0.5" "SIEM_DISCOVERY" ∅ 1000 [] "", 0, CorrelationDemo.fresh);
     (mkNetworkEvent "s3" EventDNS "2001:db8::7" "SIEM_DNS" ∅ 1000 [] "", 0, CorrelationDemo.fresh);
     (mkNetworkEvent "s2" EventPortScan "attack_surface_scanner" "10.0.0.5" ∅ 1001 [] "", 0, CorrelationDemo.fresh)] = [].
Proof.
  apply (default_chains_never_fire (A := list string) (fun _ _ => false) (fun s => s)). repeat constructor.
  - exists (arp_event "s1" (IP_text [10; 0; 0; 5]) "aa" 1 1000). split; [apply em_arp|split; vm_compute; reflexivity].
  - exists (dns_event "s3" (Addr_String [32; 1; 13; 184; 0; 0; 0; 0; 0; 0; 0; 0; 0; 0; 0; 7] "" 5353) "A" "x." 1000).
    split; [apply em_dns; right; by eexists _, _, _|split; vm_compute; reflexivity].
  - exists (scan_event "10.0.0.5" 22 true ""). split; [apply em_scan|split; vm_compute; reflexivity].
Defined.

(** A query under a planted subdomain, its alert, and codes for the three records. *)
Definition canary_alert : NetworkEvent :=
  default CanaryDemo.query (Analyze no_log stable_order builtin_engine CanaryDemo.query ids clk !! 0%nat).
#[local] Instance event_json : JSON NetworkEvent := {
  Marshal e := Some (if bool_decide (ne_ID e = "e1") then [1] else [2]);
  Unmarshal b := match b with [1] => Some CanaryDemo.query | _ => Some canary_alert end;
  json_ok e := (ne_ID e = "e1" /\ e = CanaryDemo.query) \/ (ne_ID e <> "e1" /\ e = canary_alert) }.
#[local] Instance event_laws : JSONLaws NetworkEvent.
Proof.
  intros e b [[Hi He]|[Hi He]]; unfold Marshal, Unmarshal; cbn [event_json].
  - rewrite bool_decide_eq_true_2 by done. intros Hb. injection Hb as <-. by rewrite He.
  - rewrite bool_decide_eq_false_2 by done. intros Hb. injection Hb as <-. by rewrite He.
Qed.
#[local] Instance record_json : JSON Alert := {
  Marshal _ := Some [3]; Unmarshal _ := Some (AlertFromEvent canary_alert); json_ok a := a = AlertFromEvent canary_alert }.
#[local] Instance record_laws : JSONLaws Alert.
Proof. intros a b Ha _. unfold Unmarshal; cbn [record_json]. f_equal. symmetry. exact Ha. Qed.
#[local] Instance token_json : JSON CanaryToken := {
  Marshal t := Some [TriggerCount t];
  Unmarshal b := match b with [0] => Some CanaryDemo.planted | _ => Some CanaryDemo.touched end;
  json_ok t := t = CanaryDemo.planted \/ t = CanaryDemo.touched }.
#[local] Instance token_laws : JSONLaws CanaryToken.
Proof. intros t b [->| ->] Hm; injection Hm as <-; reflexivity. Qed.



End DetectionDemo.
