(* ===== verification/Dns.v ===== *)
(** * The DNS resolver

    internal/network/dns/resolver.go: the query handler with its cache in front of
    the first upstream server.  Messages are those of the DNS library; the parts of
    it the handler calls ([SetReply], [HandleFailed], [Exchange], [TypeToString])
    are arguments.  The evictor's ticker is the caller. *)
From stdpp Require Import base list strings gmap pretty.
From Stdlib Require Import ZArith Lia Bool Ascii.
From S2P Require Import Prelude Models GoStrings GoTime Canary NetAddr Sources.
Local Open Scope string_scope.
Local Open Scope list_scope.
Local Open Scope Z_scope.

Record Question := mkQuestion { q_Name : string; q_Qtype : Z; q_Qclass : Z }.

(** The fields of a message the resolver reads or sets; [RR] are records. *)
Record Msg {RR : Type} := mkMsg {
  m_Id : Z; m_Rcode : Z; m_Authoritative : bool; m_Compress : bool; m_Question : list Question;
  m_Answer : list RR; m_Ns : list RR; m_Extra : list RR }.
Arguments Msg : clear implicits.

Record DNSConfig := mkDNSConfig { UpstreamServers : list string; CacheSize : Z; CacheTTLSeconds : Z }.

(** [fmt.Sprintf("%s:%d", name, qtype)]. *)
Definition cacheKey (name : string) (qtype : Z) : string := name +:+ ":" +:+ fmt_d qtype.

Section Resolver.
Context {RR : Type}.
Abbreviation Msg := (Msg RR).

Record cacheEntry := mkEntry { ce_msg : Msg; ce_expires : gotime }.
Abbreviation cache := (gmap string cacheEntry).

(** ** The cache *)

Definition effective_ttl (cfg : DNSConfig) : Z := if CacheTTLSeconds cfg <=? 0 then 300 else CacheTTLSeconds cfg.
Definition max_size (cfg : DNSConfig) : Z := if CacheSize cfg <=? 0 then 10000 else CacheSize cfg.

Definition evictExpired (c : cache) (now : gotime) : cache := filter (fun kv => ~ (ce_expires kv.2 < now)) c.

Definition cacheLookup (c : cache) (name : string) (qtype : Z) (now : gotime) : option Msg :=
  match c !! cacheKey name qtype with
  | None => None
  | Some entry => if ce_expires entry <? now then None else Some (ce_msg entry)
  end.

Definition cacheStore (cfg : DNSConfig) (c : cache) (name : string) (qtype : Z) (m : Msg) (now : gotime) : cache :=
  if max_size cfg <=? Z.of_nat (size c) then c
  else <[cacheKey name qtype := mkEntry m (now + int64 (effective_ttl cfg * ns_per_s))]> c.

(** ** The handler *)

(** What the outside gives to one request: the client, identifiers, the times the
    handler reads for each question, and the answers of the upstream server
    ([None] an error, [Some None] a nil message). *)
Record env := mkEnv {
  remote : string; uuid : nat -> string; event_time : nat -> gotime; lookup_time : nat -> gotime; store_time : nat -> gotime;
  Exchange : nat -> Msg -> string -> option (option Msg) }.

Context (SetReply HandleFailed : Msg -> Msg) (TypeToString : Z -> string).

Definition forward (cfg : DNSConfig) (v : env) (i : nat) (req : Msg) : option (option Msg) :=
  match UpstreamServers cfg with [] => None | upstream :: _ => Exchange v i req upstream end.

Definition append_sections (msg m : Msg) : Msg :=
  mkMsg RR (m_Id msg) (m_Rcode msg) (m_Authoritative msg) (m_Compress msg) (m_Question msg)
    (m_Answer msg ++ m_Answer m) (m_Ns msg ++ m_Ns m) (m_Extra msg ++ m_Extra m).

(** The loop over the questions: the cache, the events pushed, the messages
    fetched with the time they are stored, and the reply, [None] when an upstream
    failure ends the loop. *)
Fixpoint answer_questions (cfg : DNSConfig) (v : env) (req : Msg) (qs : list Question) (i : nat) (c : cache) (msg : Msg)
  : cache * list NetworkEvent * list (Question * Msg * gotime) * option Msg :=
  match qs with
  | [] => (c, [], [], Some msg)
  | q :: qs' =>
      let evt := dns_event (uuid v i) (remote v) (TypeToString (q_Qtype q)) (q_Name q) (event_time v i) in
      match cacheLookup c (q_Name q) (q_Qtype q) (lookup_time v i) with
      | Some cached =>
          let '(c', evs, got, reply) := answer_questions cfg v req qs' (S i) c (append_sections msg cached) in
          (c', evt :: evs, got, reply)
      | None =>
          match forward cfg v i req with
          | None => (c, [evt], [], None)
          | Some None =>
              let '(c', evs, got, reply) := answer_questions cfg v req qs' (S i) c msg in (c', evt :: evs, got, reply)
          | Some (Some resp) =>
              let c := cacheStore cfg c (q_Name q) (q_Qtype q) resp (store_time v i) in
              let '(c', evs, got, reply) := answer_questions cfg v req qs' (S i) c (append_sections msg resp) in
              (c', evt :: evs, (q, resp, store_time v i) :: got, reply)
          end
      end
  end.

(** The reply the handler starts from. *)
Definition fresh_reply (req : Msg) : Msg :=
  let m := SetReply req in
  mkMsg RR (m_Id m) (m_Rcode m) true false (m_Question m) (m_Answer m) (m_Ns m) (m_Extra m).

(** [ServeDNS]: the reply is the one written to the client. *)
Definition ServeDNS (cfg : DNSConfig) (v : env) (c : cache) (req : Msg)
  : cache * list NetworkEvent * list (Question * Msg * gotime) * Msg :=
  let '(c', evs, got, reply) := answer_questions cfg v req (m_Question req) 0 c (fresh_reply req) in
  (c', evs, got, match reply with Some msg => msg | None => HandleFailed req end).

End Resolver.

(** ** Keys *)

(** A decimal has no colon, so a key names one question. *)
Lemma cacheKey_inj name name' t t' : 0 <= t -> 0 <= t' -> cacheKey name t = cacheKey name' t' -> name = name' /\ t = t'.
Proof.
  intros Ht Ht' Hk. unfold cacheKey in Hk.
  assert (forall d, 0 <= d -> free_of ":" (fmt_d d)) as Hfree by (intros d Hd; apply (digits_lack ":"); [done|by apply fmt_d_digits]).
  assert (forall n d, rev_string (n +:+ ":" +:+ fmt_d d) = rev_string (fmt_d d) +:+ String ":" (rev_string n)) as Hrev.
  { intros n d. change (":" +:+ fmt_d d) with (String ":" (fmt_d d)). rewrite rev_string_app. cbn [rev_string]. by rewrite <- string_app_assoc. }
  assert (forall n d, 0 <= d -> Cut ":" (rev_string (n +:+ ":" +:+ fmt_d d)) = Some (rev_string (fmt_d d), rev_string n)) as Hcut.
  { intros n d Hd. rewrite Hrev. apply Cut_app. by apply (digits_lack ":"), rev_digits, fmt_d_digits. }
  pose proof (Hcut name t Ht) as Hc. rewrite Hk, Hcut in Hc by done. injection Hc as Hd Hn.
  apply (f_equal rev_string) in Hd, Hn. rewrite !rev_string_involutive in Hd, Hn. split; [done|]. symmetry. exact (inj pretty _ _ Hd).
Qed.

Section Facts.
Context {RR : Type}.
Abbreviation Msg := (Msg RR).
Context (SetReply HandleFailed : Msg -> Msg) (TypeToString : Z -> string).
Abbreviation ServeDNS := (ServeDNS SetReply HandleFailed TypeToString).

(** ** Eviction *)

(** An eviction removes exactly the expired entries, so nobody who looks later can
    tell that it ran. *)
Theorem evict_invisible (c : gmap string cacheEntry) (now later : gotime) (name : string) (qtype : Z) :
  now <= later -> cacheLookup (RR := RR) (evictExpired c now) name qtype later = cacheLookup c name qtype later.
Proof.
  clear. intros Hle. unfold cacheLookup, evictExpired. destruct (c !! cacheKey name qtype) as [en|] eqn:He.
  - destruct (decide (ce_expires en < now)) as [Hx|Hx].
    + rewrite map_lookup_filter_None_2 by (right; intros x Hx'; rewrite He in Hx'; injection Hx' as <-; cbn [snd]; tauto).
      destruct (Z.ltb_spec (ce_expires en) later); [done|lia].
    + by rewrite (map_lookup_filter_Some_2 _ _ _ en).
  - by rewrite map_lookup_filter_None_2 by (left; exact He).
Qed.

(** ** What the cache holds *)

(** The caches a resolver can reach, with what it fetched so far. *)
Inductive reach (cfg : DNSConfig) : gmap string cacheEntry -> list (Question * Msg * gotime) -> Prop :=
| reach_new : reach cfg ∅ []
| reach_serve c log v req c' evs got reply :
    reach cfg c log -> Forall (fun q => 0 <= q_Qtype q) (m_Question req) -> ServeDNS cfg v c req = (c', evs, got, reply) -> reach cfg c' (log ++ got)
| reach_evict c log now : reach cfg c log -> reach cfg (evictExpired c now) log.

(** Every entry is a fetched message with the expiry of its fetch. *)
Definition entries_fetched (cfg : DNSConfig) (c : gmap string cacheEntry) (log : list (Question * Msg * gotime)) : Prop :=
  forall k en, c !! k = Some en -> exists q at_, (q, ce_msg en, at_) ∈ log /\ k = cacheKey (q_Name q) (q_Qtype q) /\
    0 <= q_Qtype q /\ ce_expires en = at_ + int64 (effective_ttl cfg * ns_per_s).
Definition within_size (cfg : DNSConfig) (c : gmap string (cacheEntry (RR := RR))) : Prop := Z.of_nat (size c) <= max_size cfg.

Lemma max_size_pos cfg : 0 < max_size cfg.
Proof. unfold max_size. destruct (Z.leb_spec (CacheSize cfg) 0); lia. Qed.

Lemma store_within cfg c name qtype m now : within_size cfg c -> within_size cfg (cacheStore cfg c name qtype m now).
Proof.
  unfold within_size, cacheStore. intros Hc. destruct (Z.leb_spec (max_size cfg) (Z.of_nat (size c))); [done|].
  destruct (decide (is_Some (c !! cacheKey name qtype))) as [He|Hn].
  - rewrite map_size_insert_Some by done. lia.
  - rewrite map_size_insert_None by by apply eq_None_not_Some. lia.
Qed.

Lemma store_fetched cfg c log q m now : 0 <= q_Qtype q -> entries_fetched cfg c log ->
  entries_fetched cfg (cacheStore cfg c (q_Name q) (q_Qtype q) m now) (log ++ [(q, m, now)]).
Proof.
  intros Hq Hc k en. unfold cacheStore. destruct (_ <=? _).
  - intros Hk. destruct (Hc k en Hk) as (q' & t & Hin & Hrest). exists q', t. rewrite elem_of_app. auto.
  - destruct (decide (k = cacheKey (q_Name q) (q_Qtype q))) as [->|Hne].
    + rewrite lookup_insert_eq. intros [= <-]. exists q, now. rewrite elem_of_app, list_elem_of_singleton. auto.
    + rewrite lookup_insert_ne by done. intros Hk. destruct (Hc k en Hk) as (q' & t & Hin & Hrest). exists q', t. rewrite elem_of_app. auto.
Qed.

Lemma answer_questions_inv cfg v req : forall qs i c msg c' evs got reply log,
  answer_questions TypeToString cfg v req qs i c msg = (c', evs, got, reply) ->
  Forall (fun q => 0 <= q_Qtype q) qs -> within_size cfg c -> entries_fetched cfg c log ->
  within_size cfg c' /\ entries_fetched cfg c' (log ++ got).
Proof.
  induction qs as [|q qs IH]; intros i c msg c' evs got reply log Ha Hqs Hw Hf; cbn [answer_questions] in Ha.
  { simplify_eq. by rewrite app_nil_r. }
  apply Forall_cons in Hqs as [Hq Hqs]. destruct (cacheLookup c _ _ _) as [cached|].
  - destruct (answer_questions _ _ _ _ qs _ c _) as [[[c1 evs1] got1] r1] eqn:Hr. simplify_eq. by eapply IH.
  - destruct (forward cfg v i req) as [[resp|]|].
    + destruct (answer_questions _ _ _ _ qs _ _ _) as [[[c1 evs1] got1] r1] eqn:Hr. simplify_eq.
      rewrite cons_middle, app_assoc. eapply IH; [exact Hr|done|by apply store_within|by apply store_fetched].
    + destruct (answer_questions _ _ _ _ qs _ c _) as [[[c1 evs1] got1] r1] eqn:Hr. simplify_eq. by eapply IH.
    + simplify_eq. by rewrite app_nil_r.
Qed.

Lemma reach_inv cfg c log : reach cfg c log -> within_size cfg c /\ entries_fetched cfg c log.
Proof.
  induction 1 as [|c log v req c' evs got reply _ [Hw Hf] Hqs Hs|c log now _ [Hw Hf]].
  - split; [|by intros k en Hk]. unfold within_size. rewrite map_size_empty. pose proof (max_size_pos cfg). lia.
  - unfold Dns.ServeDNS in Hs. destruct (answer_questions _ _ _ _ _ _ _ _) as [[[c1 evs1] got1] r1] eqn:Ha. simplify_eq.
    by eapply answer_questions_inv.
  - split.
    + unfold within_size in *. assert (size (evictExpired c now) <= size c)%nat; [|lia]. apply map_subseteq_size, map_filter_subseteq.
    + intros k en Hk. apply map_lookup_filter_Some in Hk as [Hk _]. by apply Hf.
Qed.

(** An answer out of the cache is one the upstream gave for the same name and
    type, no longer ago than the configured time to live, after any history of
    requests and evictions; and the cache never outgrows its bound. *)
Theorem cached_answers_fetched (cfg : DNSConfig) (c : gmap string cacheEntry) (log : list (Question * Msg * gotime))
    (name : string) (qtype : Z) (now : gotime) (m : Msg) :
  reach cfg c log -> 0 <= qtype -> cacheLookup c name qtype now = Some m ->
  Z.of_nat (size c) <= max_size cfg /\
  exists q at_, (q, m, at_) ∈ log /\ q_Name q = name /\ q_Qtype q = qtype /\ now <= at_ + int64 (effective_ttl cfg * ns_per_s).
Proof.
  intros Hr Hq Hl. destruct (reach_inv _ _ _ Hr) as [Hw Hf]. split; [exact Hw|]. unfold cacheLookup in Hl.
  destruct (c !! cacheKey name qtype) as [en|] eqn:He; [|done]. destruct (Z.ltb_spec (ce_expires en) now); [done|]. injection Hl as <-.
  destruct (Hf _ _ He) as (q & at_ & Hin & Hk & Hqq & Hx). apply cacheKey_inj in Hk as [-> ->]; [|done|done]. exists q, at_. split_and!; [done..|lia].
Qed.

(** ** What the client is told *)

Definition sections (m : Msg) : list RR * list RR * list RR := (m_Answer m, m_Ns m, m_Extra m).

(** What the DNS library documents of the two replies. *)
Definition reply_laws : Prop := forall req,
  m_Rcode (SetReply req) = 0 /\ sections (SetReply req) = ([], [], []) /\ m_Id (SetReply req) = m_Id req /\ m_Rcode (HandleFailed req) = 2.

(** One question: it is reported once, and answered from the cache when a fresh
    entry is there, without asking the upstream; otherwise with the upstream's
    sections, which are then cached unless the cache is full, or as a server
    failure.  Whatever the upstream's code was, the reply says that there was no
    error and that it is authoritative. *)
Theorem single_question_reply (cfg : DNSConfig) (v : env) (c : gmap string cacheEntry) (req : Msg) (q : Question) :
  reply_laws -> m_Question req = [q] ->
  let '(c', evs, got, reply) := ServeDNS cfg v c req in
  evs = [dns_event (uuid v 0) (remote v) (TypeToString (q_Qtype q)) (q_Name q) (event_time v 0)] /\
  match cacheLookup c (q_Name q) (q_Qtype q) (lookup_time v 0), forward cfg v 0 req with
  | Some m, _ => c' = c /\ got = [] /\ sections reply = sections m /\ m_Rcode reply = 0 /\ m_Authoritative reply = true
  | None, Some (Some m) =>
      c' = cacheStore cfg c (q_Name q) (q_Qtype q) m (store_time v 0) /\ got = [(q, m, store_time v 0)] /\ sections reply = sections m /\
      m_Rcode reply = 0 /\ m_Authoritative reply = true
  | None, Some None => c' = c /\ got = [] /\ sections reply = ([], [], []) /\ m_Rcode reply = 0
  | None, None => c' = c /\ got = [] /\ reply = HandleFailed req /\ m_Rcode reply = 2
  end.
Proof.
  intros Hlaws Hq. unfold Dns.ServeDNS. rewrite Hq. cbn [answer_questions]. destruct (Hlaws req) as (Hr & Hs & _ & Hfail).
  unfold sections in Hs. injection Hs as Ha Hn Hx.
  destruct (cacheLookup c _ _ _) as [m|]; [|destruct (forward cfg v 0 req) as [[m|]|]];
    unfold append_sections, fresh_reply, sections; cbn [m_Answer m_Ns m_Extra m_Rcode m_Authoritative];
    rewrite ?Ha, ?Hn, ?Hx, ?Hr, ?Hfail; by split_and!.
Qed.

(** While the cache is full nothing enters it, not even a fresh answer for a key it
    already holds: the keys stay as they are until an eviction. *)
Theorem full_cache_frozen (cfg : DNSConfig) (v : env) (c : gmap string cacheEntry) (req : Msg) :
  max_size cfg <= Z.of_nat (size c) -> (ServeDNS cfg v c req).1.1.1 = c.
Proof.
  intros Hfull. unfold Dns.ServeDNS.
  assert (forall qs i msg, (answer_questions TypeToString cfg v req qs i c msg).1.1.1 = c) as Hall.
  { induction qs as [|q qs IH]; intros i msg; [done|]. cbn [answer_questions]. destruct (cacheLookup c _ _ _) as [m|].
    - specialize (IH (S i) (append_sections msg m)). by destruct (answer_questions _ _ _ _ qs _ c _) as [[[? ?] ?] ?].
    - destruct (forward cfg v i req) as [[m|]|]; [|specialize (IH (S i) msg); by destruct (answer_questions _ _ _ _ qs _ c _) as [[[? ?] ?] ?]|done].
      assert (cacheStore cfg c (q_Name q) (q_Qtype q) m (store_time v i) = c) as -> by (unfold cacheStore; by rewrite (proj2 (Z.leb_le _ _) Hfull)).
      specialize (IH (S i) (append_sections msg m)). by destruct (answer_questions _ _ _ _ qs _ c _) as [[[? ?] ?] ?]. }
  specialize (Hall (m_Question req) 0%nat (fresh_reply SetReply req)). by destruct (answer_questions _ _ _ _ _ _ _ _) as [[[? ?] ?] ?].
Qed.
End Facts.

(** ** A resolver at work *)

Module DnsDemo.
Definition reply (req : Msg string) : Msg string := mkMsg string (m_Id req) 0 false true (m_Question req) [] [] [].
Definition failed (req : Msg string) : Msg string := mkMsg string (m_Id req) 2 false true (m_Question req) [] [] [].
Lemma demo_reply_laws : reply_laws reply failed.
Proof. done. Qed.
Definition types (t : Z) : string := if t =? 1 then "A" else "".

Definition cfg : DNSConfig := mkDNSConfig ["1.1.1.1:53"] 2 60.
Definition question (name : string) : Question := mkQuestion name 1 1.
Definition query (names : list string) : Msg string := mkMsg string 7 0 false false (question <$> names) [] [] [].
Definition found (rr : string) : Msg string := mkMsg string 7 0 false false [] [rr] [] [].
Definition nxdomain : Msg string := mkMsg string 7 3 false false [] [] ["soa"] [].
(** One request, [s] seconds into the day. *)
Definition at_ (s : Z) (upstream : option (option (Msg string))) : env (RR := string) :=
  mkEnv "10.0.0.5:40000" (fun _ => "u") (fun _ => s * ns_per_s) (fun _ => s * ns_per_s) (fun _ => s * ns_per_s) (fun _ _ _ => upstream).
Definition serve := ServeDNS (RR := string) reply failed types cfg.

Definition after_one : gmap string cacheEntry := (serve (at_ 10 (Some (Some (found "1.2.3.4")))) ∅ (query ["www.example."])).1.1.1.

Lemma cached_answers_fetched_witness :
  exists q t, (q, found "1.2.3.4", t) ∈ [(question "www.example.", found "1.2.3.4", 10 * ns_per_s)] /\ q_Name q = "www.example." /\
    30 * ns_per_s <= t + int64 (effective_ttl cfg * ns_per_s).
Proof.
  destruct (cached_answers_fetched reply failed types cfg after_one [(question "www.example.", found "1.2.3.4", 10 * ns_per_s)]
    "www.example." 1 (30 * ns_per_s) (found "1.2.3.4")) as (_ & q & t & Hin & Hn & _ & Ht).
  - eapply (reach_serve reply failed types cfg ∅ [] (at_ 10 (Some (Some (found "1.2.3.4")))) (query ["www.example."]) _ _ _ _ (reach_new _ _ _ cfg)).
    + repeat constructor. vm_compute. discriminate.
    + vm_compute. reflexivity.
  - lia.
  - vm_compute. reflexivity.
  - exists q, t. split; [exact Hin|]. split; [exact Hn|exact Ht].
Defined.

Lemma single_question_reply_witness :
  let '(_, _, _, r) := serve (at_ 10 (Some (Some nxdomain))) ∅ (query ["no.example."]) in m_Rcode r = 0.
Proof.
  pose proof (single_question_reply reply failed types cfg (at_ 10 (Some (Some nxdomain))) ∅ (query ["no.example."]) (question "no.example.") demo_reply_laws eq_refl) as Hs.
  unfold serve. destruct (ServeDNS reply failed types cfg _ ∅ _) as [[[c' evs] got] r]. destruct Hs as [_ Hs]. exact (proj1 (proj2 (proj2 (proj2 Hs)))).
Defined.

Lemma evict_invisible_witness : cacheLookup (evictExpired after_one (71 * ns_per_s)) "www.example." 1 (80 * ns_per_s) = cacheLookup after_one "www.example." 1 (80 * ns_per_s).
Proof. apply (evict_invisible after_one (71 * ns_per_s) (80 * ns_per_s) "www.example." 1). vm_compute. discriminate. Defined.

Definition full : gmap string cacheEntry := (serve (at_ 10 (Some (Some (found "1.2.3.4")))) ∅ (query ["a."; "b."])).1.1.1.
Lemma full_cache_frozen_witness : (serve (at_ 100 (Some (Some (found "9.9.9.9")))) full (query ["a."])).1.1.1 = full.
Proof. apply (full_cache_frozen reply failed types cfg (at_ 100 (Some (Some (found "9.9.9.9")))) full (query ["a."])). vm_compute. discriminate. Defined.

(** A name that does not exist is answered as an existing one without records. *)
Example nxdomain_lost : m_Rcode (serve (at_ 10 (Some (Some nxdomain))) ∅ (query ["no.example."])).2 = 0.
Proof. vm_compute. reflexivity. Qed.

(** The whole request is forwarded once per question and its reply cached under
    each: later queries get the answers of the other question. *)
Example questions_mixed :
  m_Answer (serve (at_ 20 None) (serve (at_ 10 (Some (Some (mkMsg string 7 0 false false [] ["a=1"; "b=2"] [] [])))) ∅ (query ["a."; "b."])).1.1.1 (query ["b."])).2
  = ["a=1"; "b=2"].
Proof. vm_compute. reflexivity. Qed.

(** Names are compared byte by byte, the cache misses on another spelling. *)
Example spelling_misses : cacheLookup after_one "WWW.example." 1 (30 * ns_per_s) = None.
Proof. vm_compute. reflexivity. Qed.
End DnsDemo.
