(* ===== verification/Vault.v ===== *)
(** * The vault and its master key

    internal/storage/crypto: vault.go (AES-GCM with the nonce in front),
    manager.go (the key file) and the random source of keygen.go.  The AEAD is an
    interface; the key file is a file of Fs.v. *)
From stdpp Require Import base list strings gmap.
From Stdlib Require Import ZArith Lia Bool Ascii.
From S2P Require Import Prelude Models GoStrings Fs.
Local Open Scope string_scope.
Local Open Scope list_scope.
Local Open Scope Z_scope.

(** AES in GCM mode under one key: [seal key nonce plain] and its inverse. *)
Class AEAD := {
  nonce_size : nat;
  seal : bytes -> bytes -> bytes -> bytes;
  unseal : bytes -> bytes -> bytes -> option bytes;
}.
Class AEADLaws `{AEAD} := unseal_iff key nonce c p : unseal key nonce c = Some p <-> c = seal key nonce p.

Inductive verr := ErrCipher | ErrNonce | ErrTooShort | ErrDecrypt.

Section Vault.
Context `{AEAD}.

(** [NewVault]: [aes.NewCipher] takes keys of 16, 24 or 32 bytes. *)
Definition NewVault (masterKey : bytes) : res verr bytes :=
  if (length masterKey =? 16)%nat || (length masterKey =? 24)%nat || (length masterKey =? 32)%nat then ROk masterKey else RErr ErrCipher.

(** [rnd] are the random bytes read, [None] when the source fails. *)
Definition Encrypt (vault : bytes) (rnd : option bytes) (plaintext : bytes) : res verr bytes :=
  match rnd with None => RErr ErrNonce | Some nonce => ROk (nonce ++ seal vault nonce plaintext) end.

Definition Decrypt (vault : bytes) (ciphertext : bytes) : res verr bytes :=
  if (length ciphertext <? nonce_size)%nat then RErr ErrTooShort
  else
    match unseal vault (take nonce_size ciphertext) (drop nonce_size ciphertext) with
    | None => RErr ErrDecrypt
    | Some plaintext => ROk plaintext
    end.
End Vault.

(** ** The key file *)

Inductive kerr := ErrDisabled | ErrKeyDir | ErrKeyLength (n : nat) | ErrRandom | ErrSave.
Record EncryptionConfig := mkEncryption { Enabled : bool; KeyFile : string }.

Section Manager.
Context `{Machine}.
Local Open Scope io_scope.

(** [GenerateRandomBytes] gives [rnd]. *)
Definition GetMasterKey (cfg : EncryptionConfig) (rnd : option bytes) : M kerr bytes :=
  if negb (Enabled cfg) then fail ErrDisabled
  else
    do! _ <- wrap_error (fun _ => ErrKeyDir) (MkdirAll (Dir (KeyFile cfg)));
    do! existing <- on_error (bind (ReadFile (KeyFile cfg)) (fun key => ret (Some key))) (fun _ => ret None);
    match existing with
    | Some key => if negb (length key =? 32)%nat then fail (ErrKeyLength (length key)) else ret key
    | None =>
        match rnd with
        | None => fail ErrRandom
        | Some key => do! _ <- wrap_error (fun _ => ErrSave) (WriteFile (KeyFile cfg) key); ret key
        end
    end.
End Manager.

(** ** What the vault promises *)

Section VaultFacts.
Context `{AEAD} `{!AEADLaws}.

(** A ciphertext decrypts exactly to what was sealed in it: decryption returns
    [plain] exactly for the texts encryption can produce from [plain] under the same
    key with a nonce of the right size; anything else is refused with an error. *)
Theorem decrypts_exactly_encrypted (vault c plain : bytes) :
  Decrypt vault c = ROk plain <-> exists nonce, length nonce = nonce_size /\ Encrypt vault (Some nonce) plain = ROk c.
Proof.
  unfold Decrypt, Encrypt. split.
  - destruct (Nat.ltb_spec (length c) nonce_size); [done|]. destruct (unseal _ _ _) as [p|] eqn:Hu; [|done]. intros [= ->].
    apply unseal_iff in Hu. exists (take nonce_size c). rewrite length_take, Nat.min_l by done. split; [done|]. by rewrite <- Hu, take_drop.
  - intros (nonce & Hn & [= <-]). rewrite length_app, Hn. destruct (Nat.ltb_spec (nonce_size + length (seal vault nonce plain)) nonce_size); [lia|].
    rewrite <- Hn, take_app_length, drop_app_length. by rewrite (proj2 (unseal_iff _ _ _ _) eq_refl).
Qed.
End VaultFacts.

Section KeyFacts.
Context `{Machine}.

(** The directory call works, so the outcome is decided by the read. *)
Lemma get_key_step cfg rnd d : Enabled cfg = true -> outcome_at (calls d) = Works ->
  GetMasterKey cfg rnd d =
    match ReadFile (KeyFile cfg) (tick d) with
    | (d1, ROk key) => if (length key =? 32)%nat then (d1, ROk key) else (d1, RErr (ErrKeyLength (length key)))
    | (d1, _) =>
        match rnd with
        | None => (d1, RErr ErrRandom)
        | Some key => match WriteFile (KeyFile cfg) key d1 with (d2, ROk _) => (d2, ROk key) | (d2, _) => (d2, RErr ErrSave) end
        end
    end.
Proof.
  intros He Hm. unfold GetMasterKey. rewrite He. cbn [negb]. unfold wrap_error, on_error, bind, MkdirAll, call, ret, fail. rewrite Hm.
  unfold ReadFile, call. destruct (outcome_at (calls (tick d))).
  - destruct (files (tick d) !! KeyFile cfg) as [f|]; [by destruct (_ =? 32)%nat|]. destruct rnd as [key|]; [|done].
    unfold WriteFile. by destruct (outcome_at (calls (tick (tick d)))) as [|[k|]].
  - destruct rnd as [key|]; [|done]. unfold WriteFile. by destruct (outcome_at (calls (tick (tick d)))) as [|[k|]].
Qed.

(** On a working machine the first call creates the key file and every later call
    returns the same key, whatever the random source would give then. *)
Theorem master_key_persists (cfg : EncryptionConfig) (key : bytes) (rnd : option bytes) (d d1 : disk) (r : res kerr bytes) :
  works -> Enabled cfg = true -> length key = 32%nat -> files d !! KeyFile cfg = None ->
  GetMasterKey cfg (Some key) d = (d1, r) ->
  r = ROk key /\ only (KeyFile cfg) d d1 /\
  forall d2, files d2 !! KeyFile cfg = files d1 !! KeyFile cfg ->
    (GetMasterKey cfg rnd d2).2 = ROk key /\ files (GetMasterKey cfg rnd d2).1 = files d2.
Proof.
  intros Hw He Hlen Hnone Hg. rewrite get_key_step in Hg; [|exact He|exact (proj1 (Hw (calls d)))]. unfold ReadFile, call in Hg.
  rewrite (proj1 (Hw _)) in Hg. change (files (tick d)) with (files d) in Hg. rewrite Hnone in Hg.
  destruct (runs_WriteFile Hw (KeyFile cfg) key (tick (tick d))) as (d' & t & Hr & Hf). unfold runs in Hr. rewrite Hr in Hg.
  injection Hg as <- <-. split; [done|]. split.
  { intros q Hq. rewrite Hf, lookup_insert_ne by done. done. }
  intros d2 Hd2. rewrite Hf, lookup_insert_eq in Hd2. rewrite get_key_step by (done || exact (proj1 (Hw _))). unfold ReadFile, call.
  rewrite (proj1 (Hw _)). change (files (tick d2)) with (files d2). rewrite Hd2. cbn [body]. by rewrite Hlen.
Qed.

(** A read that fails for any reason is taken for a missing file: the key that was
    there is overwritten by a fresh one and the call reports success. *)
Theorem read_failure_replaces_key (cfg : EncryptionConfig) (key : bytes) (d : disk) (torn : option nat) :
  Enabled cfg = true -> outcome_at (calls d) = Works -> outcome_at (S (calls d)) = Fails torn -> outcome_at (S (S (calls d))) = Works ->
  exists d' t, GetMasterKey cfg (Some key) d = (d', ROk key) /\ files d' !! KeyFile cfg = Some (mkFile key t).
Proof.
  intros He H0 H1 H2. rewrite get_key_step by done. unfold ReadFile, call. cbn [calls tick]. rewrite H1.
  unfold WriteFile. cbn [calls tick]. rewrite H2. do 2 eexists. split; [done|]. cbn [files set_files]. apply lookup_insert_eq.
Qed.

(** A torn first write is never repaired: every later call reports the length of
    the fragment. *)
Theorem torn_key_is_permanent (cfg : EncryptionConfig) (key : bytes) (rnd : option bytes) (d d2 : disk) (k : nat) :
  Enabled cfg = true -> files d !! KeyFile cfg = None -> length key = 32%nat -> (k < 32)%nat ->
  outcome_at (calls d) = Works -> outcome_at (S (calls d)) = Works -> outcome_at (S (S (calls d))) = Fails (Some k) ->
  files d2 = files (GetMasterKey cfg (Some key) d).1 -> outcome_at (calls d2) = Works -> outcome_at (S (calls d2)) = Works ->
  (GetMasterKey cfg (Some key) d).2 = RErr ErrSave /\ (GetMasterKey cfg rnd d2).2 = RErr (ErrKeyLength k) /\
  files (GetMasterKey cfg rnd d2).1 = files d2.
Proof.
  intros He Hnone Hlen Hk H0 H1 H2 Hd2 H3 H4. rewrite (get_key_step cfg (Some key) d) in * by done. unfold ReadFile, call in Hd2 |- *.
  cbn [calls tick files] in *. rewrite H1, Hnone in *. unfold WriteFile in Hd2 |- *. cbn [calls tick] in *. rewrite H2 in *.
  split; [done|]. cbn [fst files set_files] in Hd2. rewrite get_key_step by done. unfold ReadFile, call. cbn [calls tick files]. rewrite H4, Hd2.
  rewrite lookup_insert_eq. cbn [body]. rewrite length_take, Hlen, Nat.min_l by lia.
  destruct (Nat.eqb_spec k 32); [lia|]. split; [done|]. cbn [fst files tick]. done.
Qed.
End KeyFacts.

(** ** A toy AEAD and a failing disk *)

Module VaultDemo.
#[local] Instance toy : AEAD := {
  nonce_size := 2%nat; seal key nonce p := key ++ nonce ++ p;
  unseal key nonce c := if bool_decide (take (length (key ++ nonce)) c = key ++ nonce) then Some (drop (length (key ++ nonce)) c) else None }.
#[local] Instance toy_laws : AEADLaws.
Proof.
  intros key nonce c p. unfold unseal, seal. cbn [toy]. case_bool_decide as Hc; split.
  - intros [= <-]. rewrite app_assoc, <- Hc at 1. by rewrite take_drop.
  - intros ->. by rewrite app_assoc, drop_app_length.
  - done.
  - intros ->. exfalso. apply Hc. by rewrite app_assoc, take_app_length.
Qed.

Lemma decrypts_exactly_encrypted_witness : Decrypt [9] [1; 2; 9; 1; 2; 7] = ROk [7].
Proof. apply (decrypts_exactly_encrypted [9] [1; 2; 9; 1; 2; 7] [7]). exists [1; 2]. split; reflexivity. Defined.

Definition cfg : EncryptionConfig := mkEncryption true "/keys/master".
Definition key1 : bytes := replicate 32 7.
Definition key2 : bytes := replicate 32 8.
#[local] Instance machine (l : list outcome) : Machine :=
  { outcome_at n := nth n l Works; time_at n := Z.of_nat n; canceled_at _ := false }.
Definition blank : disk := mkDisk ∅ 0.
Definition keyed : disk := mkDisk {[ "/keys/master" := mkFile key1 0 ]} 0.

Lemma master_key_persists_witness :
  (GetMasterKey (H := machine []) cfg (Some key1) blank).2 = ROk key1 /\
  (GetMasterKey (H := machine []) cfg (Some key2) (GetMasterKey (H := machine []) cfg (Some key1) blank).1).2 = ROk key1.
Proof.
  destruct (GetMasterKey (H := machine []) cfg (Some key1) blank) as [d1 r] eqn:Hg.
  destruct (master_key_persists (H := machine []) cfg key1 (Some key2) blank d1 r) as (Hr & _ & Hlater).
  - intros n. split; [destruct n; reflexivity|reflexivity].
  - reflexivity.
  - reflexivity.
  - reflexivity.
  - exact Hg.
  - split; [exact Hr|]. exact (proj1 (Hlater d1 eq_refl)).
Defined.

Lemma read_failure_replaces_key_witness :
  exists d' t, GetMasterKey (H := machine [Works; Fails None]) cfg (Some key2) keyed = (d', ROk key2) /\
               files d' !! "/keys/master" = Some (mkFile key2 t).
Proof. apply (read_failure_replaces_key (H := machine [Works; Fails None]) cfg key2 keyed None); reflexivity. Defined.

Lemma torn_key_is_permanent_witness :
  let d := (GetMasterKey (H := machine [Works; Works; Fails (Some 5%nat)]) cfg (Some key1) blank).1 in
  (GetMasterKey (H := machine [Works; Works; Fails (Some 5%nat)]) cfg (Some key1) d).2 = RErr (ErrKeyLength 5).
Proof.
  intros d. apply (torn_key_is_permanent (H := machine [Works; Works; Fails (Some 5%nat)]) cfg key1 (Some key1) blank d 5);
    first [reflexivity | lia].
Defined.
End VaultDemo.
