(* ===== verification/Health.v ===== *)
(** * Health probes

    internal/health/health.go: the registry of probes and the three endpoints an
    orchestrator polls.  The mutex makes every operation atomic. *)
From stdpp Require Import base list strings gmap sorting.
From Stdlib Require Import ZArith Lia Bool Ascii.
From S2P Require Import Prelude Models Bolt GoStrings Fs.
Local Open Scope string_scope.
Local Open Scope list_scope.
Local Open Scope Z_scope.

Definition StatusHealthy := "healthy".
Definition StatusDegraded := "degraded".
Definition StatusUnhealthy := "unhealthy".
Definition StatusStarting := "starting".

Record Result := mkResult { r_Status : string; r_Message : string }.
(** [Check] is called at a moment. *)
Record Probe := mkProbe { p_Name : string; Required : bool; Check_ : gotime -> Result }.

Record Registry := mkRegistry { probes : gmap string Probe; startupComplete : bool; startupCompleteAt : gotime }.
Definition NewRegistry : Registry := mkRegistry ∅ false 0.

(** A nil probe is [None]. *)
Definition Register (r : Registry) (p : option Probe) : Registry :=
  match p with
  | None => r
  | Some p => if bool_decide (p_Name p = "") then r
              else mkRegistry (<[p_Name p := p]> (probes r)) (startupComplete r) (startupCompleteAt r)
  end.
Definition Deregister (r : Registry) (name : string) : Registry :=
  mkRegistry (delete name (probes r)) (startupComplete r) (startupCompleteAt r).
Definition MarkStartupComplete (r : Registry) (now : gotime) : Registry :=
  if startupComplete r then r else mkRegistry (probes r) true now.

(** ** Snapshots *)

Definition rank (s : string) : Z :=
  if bool_decide (s = StatusUnhealthy) then 3
  else if bool_decide (s = StatusDegraded) then 2
  else if bool_decide (s = StatusStarting) then 1 else 0.
Definition statusWorse (a b : string) : bool := rank b <? rank a.

Record SubsystemStatus := mkSubsystem { ss_Name : string; ss_Required : bool; ss_Status : string; ss_Message : string }.
Record Snapshot := mkSnapshot {
  OverallStatus : string; RequiredStatus : string; StartupComplete : bool; StartupCompleteAt : gotime; Subsystems : list SubsystemStatus }.

(** One probe of the loop. *)
Definition visit (now : gotime) (acc : list SubsystemStatus * string * string) (p : Probe) : list SubsystemStatus * string * string :=
  let '(out, worstRequired, worstOverall) := acc in
  let res := Check_ p now in
  let ss := mkSubsystem (p_Name p) (Required p) (r_Status res) (r_Message res) in
  (out ++ [ss],
   if Required p && statusWorse (r_Status res) worstRequired then r_Status res else worstRequired,
   if statusWorse (r_Status res) worstOverall then r_Status res else worstOverall).

(** The probes in the order of their names. *)
Definition in_order (r : Registry) : list Probe := omap (fun n => probes r !! n) (merge_sort name_le (map_to_list (probes r)).*1).

Definition snapshot (r : Registry) (now : gotime) : Snapshot :=
  let '(out, worstRequired, worstOverall) := foldl (visit now) ([], StatusHealthy, StatusHealthy) (in_order r) in
  mkSnapshot worstOverall worstRequired (startupComplete r) (startupCompleteAt r) out.

(** ** Endpoints, by their status code *)

Definition LivenessHandler (r : Registry) : Z := 200.
Definition ReadinessHandler (r : Registry) (now : gotime) : Z * Snapshot :=
  let s := snapshot r now in
  (if bool_decide (RequiredStatus s = StatusUnhealthy) || bool_decide (RequiredStatus s = StatusDegraded) then 503 else 200, s).
Definition StartupHandler (r : Registry) (now : gotime) : Z * option gotime :=
  let s := snapshot r now in if StartupComplete s then (200, Some (StartupCompleteAt s)) else (503, None).

(** ** Facts *)

(** Probes are registered under their names. *)
Definition registry_wf (r : Registry) : Prop := forall n p, probes r !! n = Some p -> p_Name p = n.

Lemma register_wf r p : registry_wf r -> registry_wf (Register r p).
Proof.
  intros Hr. destruct p as [p|]; [|done]. unfold Register. case_bool_decide; [done|]. intros n q. cbn [probes].
  destruct (decide (n = p_Name p)) as [->|]; [rewrite lookup_insert_eq; by intros [= <-]|rewrite lookup_insert_ne by done; apply Hr].
Qed.
Lemma deregister_wf r n : registry_wf r -> registry_wf (Deregister r n).
Proof. intros Hr m p. cbn [Deregister probes]. intros [_ Hp]%lookup_delete_Some. by apply Hr. Qed.

Lemma visit_spec now ps : forall out req all, foldl (visit now) (out, req, all) ps =
  (out ++ ((fun p => mkSubsystem (p_Name p) (Required p) (r_Status (Check_ p now)) (r_Message (Check_ p now))) <$> ps),
   foldl (fun w p => if Required p && statusWorse (r_Status (Check_ p now)) w then r_Status (Check_ p now) else w) req ps,
   foldl (fun w p => if statusWorse (r_Status (Check_ p now)) w then r_Status (Check_ p now) else w) all ps).
Proof.
  induction ps as [|p ps IH]; intros out req all; [by rewrite app_nil_r|]. cbn [foldl visit]. rewrite IH. cbn [fmap list_fmap].
  by rewrite <- app_assoc.
Qed.

(** The worst of the statuses of [ps], and which of them it can be. *)
Lemma worst_spec (now : gotime) (select : Probe -> bool) ps : forall w,
  let w' := foldl (fun w p => if select p && statusWorse (r_Status (Check_ p now)) w then r_Status (Check_ p now) else w) w ps in
  rank w <= rank w' /\ (forall p, p ∈ ps -> select p = true -> rank (r_Status (Check_ p now)) <= rank w') /\
  (w' = w \/ exists p, p ∈ ps /\ select p = true /\ w' = r_Status (Check_ p now)).
Proof.
  induction ps as [|p ps IH]; intros w; cbn [foldl]; [split_and!; [lia|by intros p ?%elem_of_nil|by left]|].
  set (w1 := if select p && statusWorse (r_Status (Check_ p now)) w then r_Status (Check_ p now) else w).
  destruct (IH w1) as (Hle & Hall & Hfrom).
  assert (rank w <= rank w1 /\ (select p = true -> rank (r_Status (Check_ p now)) <= rank w1)) as [Hw1 Hp1].
  { unfold w1, statusWorse. destruct (select p); cbn [andb]; [|by split; [lia|]]. destruct (Z.ltb_spec (rank w) (rank (r_Status (Check_ p now)))); split; intros; lia. }
  split_and!; [lia| |].
  - intros q [->|Hq]%elem_of_cons Hs; [specialize (Hp1 Hs); lia|by apply Hall].
  - destruct Hfrom as [Hf|(q & Hq & Hs & Hf)]; [|right; exists q; split_and!; [by right|done..]].
    rewrite Hf. unfold w1. destruct (select p) eqn:Hsel; cbn [andb]; [|by left]. destruct (statusWorse _ _); [right; exists p; split_and!; [left|done..]|by left].
Qed.

Lemma elem_of_in_order r p : registry_wf r -> p ∈ in_order r <-> probes r !! p_Name p = Some p.
Proof.
  intros Hr. unfold in_order. rewrite list_elem_of_omap. split.
  - intros (n & _ & Hn). by rewrite (Hr _ _ Hn).
  - intros Hp. exists (p_Name p). split; [|done]. rewrite merge_sort_Permutation, list_elem_of_fmap. exists (p_Name p, p). split; [done|]. by apply elem_of_map_to_list.
Qed.

(** Readiness refuses exactly while some required probe reports "unhealthy" or
    "degraded"; optional probes and any other word, "starting" included, leave it
    green. *)
Theorem readiness_refused_iff (r : Registry) (now : gotime) : registry_wf r ->
  ((ReadinessHandler r now).1 = 503 <->
   exists n p, probes r !! n = Some p /\ Required p = true /\ r_Status (Check_ p now) ∈ [StatusUnhealthy; StatusDegraded]) /\
  ((ReadinessHandler r now).1 = 503 \/ (ReadinessHandler r now).1 = 200).
Proof.
  intros Hr. unfold ReadinessHandler. cbn [fst]. split; [|destruct (_ || _); auto]. unfold snapshot. rewrite visit_spec. cbn [RequiredStatus].
  destruct (worst_spec now Required (in_order r) StatusHealthy) as (_ & Hall & Hfrom). set (w := foldl _ StatusHealthy (in_order r)) in *.
  assert (forall s, 2 <= rank s <-> s ∈ [StatusUnhealthy; StatusDegraded]) as Hrank.
  { intros s. unfold rank. repeat case_bool_decide; subst; split; intros; try lia; set_solver. }
  transitivity (2 <= rank w).
  - rewrite Hrank, elem_of_cons, list_elem_of_singleton. split.
    + destruct (_ || _) eqn:Hb; [|done]. rewrite orb_true_iff, !bool_decide_eq_true in Hb. done.
    + intros Hw. by rewrite (proj2 (orb_true_iff _ _)) by by rewrite !bool_decide_eq_true.
  - split.
    + intros Hw. destruct Hfrom as [Hf|(p & Hp & Hs & Hf)]; [rewrite Hf in Hw; by vm_compute in Hw|].
      apply elem_of_in_order in Hp; [|done]. exists (p_Name p), p. split_and!; [done..|]. apply Hrank. by rewrite <- Hf.
    + intros (n & p & Hp & Hs & Hin). apply Hrank in Hin. pose proof (Hr _ _ Hp) as <-. apply elem_of_in_order in Hp; [|done]. specialize (Hall p Hp Hs). lia.
Qed.

(** The report names every registered probe once, in the order of the names. *)
Theorem report_is_sorted (r : Registry) (now : gotime) : registry_wf r ->
  let names := ss_Name <$> Subsystems (snapshot r now) in
  StronglySorted name_le names /\ names ≡ₚ (map_to_list (probes r)).*1.
Proof.
  intros Hr names. assert (names = merge_sort name_le (map_to_list (probes r)).*1) as ->.
  { unfold names, snapshot. rewrite visit_spec. cbn [Subsystems app]. rewrite <- list_fmap_compose. unfold in_order.
    set (l := merge_sort name_le _). assert (forall n, n ∈ l -> exists p, probes r !! n = Some p /\ p_Name p = n) as Hl.
    { intros n Hn. unfold l in Hn. rewrite merge_sort_Permutation in Hn. apply list_elem_of_fmap in Hn as ([n' p] & -> & Hin).
      apply elem_of_map_to_list in Hin. exists p. split; [done|by apply Hr]. }
    clearbody l. induction l as [|n l IH]; [done|]. destruct (Hl n ltac:(left)) as (p & Hp & Hn). cbn [omap list_omap]. rewrite Hp.
    cbn [fmap list_fmap]. f_equal; [exact Hn|]. apply IH. intros m Hm. apply Hl. by right. }
  split; [apply StronglySorted_merge_sort; apply _|apply merge_sort_Permutation].
Qed.

(** What may happen to a registry. *)
Inductive registry_op := OpRegister (p : option Probe) | OpDeregister (name : string) | OpMark (t : gotime).
Definition apply_op (r : Registry) (o : registry_op) : Registry :=
  match o with OpRegister p => Register r p | OpDeregister n => Deregister r n | OpMark t => MarkStartupComplete r t end.

(** Once complete, the start stays complete with the time of the first mark,
    whatever happens to the registry afterwards. *)
Theorem startup_marked_once (r : Registry) (now later : gotime) (ops : list registry_op) :
  startupComplete r = false ->
  (StartupHandler r later).1 = 503 /\ StartupHandler (foldl apply_op (MarkStartupComplete r now) ops) later = (200, Some now).
Proof.
  intros Hc. unfold StartupHandler, snapshot. split.
  { rewrite visit_spec. cbn [StartupComplete]. by rewrite Hc. }
  assert (startupComplete (MarkStartupComplete r now) = true /\ startupCompleteAt (MarkStartupComplete r now) = now) as H.
  { unfold MarkStartupComplete. by rewrite Hc. }
  revert H. generalize (MarkStartupComplete r now). induction ops as [|o ops IH]; intros r' [H1 H2].
  { cbn [foldl]. rewrite visit_spec. cbn [StartupComplete StartupCompleteAt]. by rewrite H1, H2. }
  cbn [foldl]. apply IH. destruct o as [[p|]|n|t]; cbn [apply_op]; [|done..|].
  - unfold Register. by case_bool_decide.
  - unfold MarkStartupComplete. by rewrite H1.
Qed.

Module HealthDemo.
Definition probe (n : string) (req : bool) (s : string) : Probe := mkProbe n req (fun _ => mkResult s "").
Definition reg : Registry := Register (Register NewRegistry (Some (probe "nats" false StatusUnhealthy))) (Some (probe "boltdb" true StatusStarting)).
Lemma reg_wf : registry_wf reg.
Proof. apply register_wf, register_wf. intros n p Hp. cbn in Hp. by rewrite lookup_empty in Hp. Qed.

Lemma readiness_refused_iff_witness : (ReadinessHandler reg 5).1 = 200 /\
  (ReadinessHandler (Register reg (Some (probe "boltdb" true StatusDegraded))) 5).1 = 503.
Proof.
  split; [vm_compute; reflexivity|]. apply (readiness_refused_iff (Register reg (Some (probe "boltdb" true StatusDegraded))) 5).
  - apply register_wf, reg_wf.
  - exists "boltdb", (probe "boltdb" true StatusDegraded). split; [reflexivity|]. split; [reflexivity|]. apply (bool_decide_unpack _). vm_compute. exact I.
Defined.
Lemma report_is_sorted_witness : StronglySorted name_le (ss_Name <$> Subsystems (snapshot reg 5)).
Proof. apply (report_is_sorted reg 5 reg_wf). Defined.
Lemma startup_marked_once_witness : StartupHandler (MarkStartupComplete (MarkStartupComplete reg 7) 9) 10 = (200, Some 7).
Proof.
  apply (startup_marked_once reg 7 10 [OpMark 9] eq_refl).
Defined.
End HealthDemo.
