(* ===== verification/Neotron.v ===== *)
(** * Compliance events over NATS

    internal/events/neotron.go, the subscriber that turns Neotron's compliance
    messages into events, and what happens when it and the publisher of the pipeline
    (Pipeline.v) share one connection, as in app.go.  The connection and the JSON
    encoding of a message are arguments. *)
From stdpp Require Import base list strings gmap.
From Stdlib Require Import ZArith Lia Bool Ascii SpecFloat.
From S2P Require Import Prelude Models GoStrings GoFloat Bolt TransparencyLog Pki EventSigning Pipeline Stream StreamProcessor.
Local Open Scope string_scope.
Local Open Scope list_scope.
Local Open Scope Z_scope.

(** ** A message as a map of JSON values *)

Definition raw_string (raw : gmap string gany) (k : string) : string := match raw !! k with Some (VString s) => s | _ => "" end.
Definition raw_bool (raw : gmap string gany) (k : string) : bool := match raw !! k with Some (VBool b) => b | _ => false end.
Definition raw_float (raw : gmap string gany) (k : string) : float64 := match raw !! k with Some (VFloat x) => x | _ => fzero end.

Definition is_string (v : gany) : bool := match v with VString _ => true | _ => false end.
Definition is_float (v : gany) : bool := match v with VFloat _ => true | _ => false end.

Definition violation_subject := "neotron.compliance.violation.v1".
Definition subscription := "neotron.compliance.>".

Definition determineEventType (subject : string) (raw : gmap string gany) : EventType :=
  let severity := raw_string raw "severity" in
  let passed := raw_bool raw "passed" in
  if bool_decide (subject = violation_subject) then EventAlert
  else if passed then EventCompliance
  else if bool_decide (severity = "block") || bool_decide (severity = "critical") || bool_decide (severity = "high") then EventAlert
  else EventCompliance.

(** [int(f)]: towards zero; Go leaves a value outside the integers to the
    implementation, here [other]. *)
Definition int_of_float (other : float64 -> Z) (x : float64) : Z :=
  match x with
  | S754_zero _ => 0
  | S754_finite neg m e =>
      let v := if 0 <=? e then Zpos m * 2 ^ e else Zpos m / 2 ^ (- e) in
      let v := if neg then - v else v in
      if (- 2 ^ 63 <=? v) && (v <? 2 ^ 63) then v else other x
  | _ => other x
  end.

(** [if v, ok := raw[k].(T); ok { metadata[k'] = v }]. *)
Definition copy_field (has_type : gany -> bool) (raw : gmap string gany) (k k' : string) (m : gmap string gany) : gmap string gany :=
  match raw !! k with Some v => if has_type v then <[k' := v]> m else m | None => m end.

(** The keys the final loop skips. *)
Definition captured : list string :=
  ["guardrail_name"; "regulation"; "severity"; "passed"; "audit_id"; "timestamp"; "confidence"; "risk_score";
   "reputation"; "agent_id"; "agent_output_hash"; "details"; "subject"; "source"].

Section Convert.
Context (parse_RFC3339 : string -> option gotime) (other : float64 -> Z).

(** The fields written before the final loop. *)
Definition compliance_fields (subject : string) (raw : gmap string gany) : gmap string gany :=
  let m := <["compliance_guardrail" := VString (raw_string raw "guardrail_name")]> (∅ : gmap string gany) in
  let m := <["compliance_regulation" := VString (raw_string raw "regulation")]> m in
  let m := <["compliance_severity" := VString (raw_string raw "severity")]> m in
  let m := <["compliance_passed" := VBool (raw_bool raw "passed")]> m in
  let m := <["compliance_audit_id" := VInt (int_of_float other (raw_float raw "audit_id"))]> m in
  let m := <["nats_subject" := VString subject]> m in
  let m := <["source_service" := VString "neotron"]> m in
  let m := copy_field is_float raw "confidence" "compliance_confidence" m in
  let m := copy_field is_float raw "risk_score" "compliance_risk_score" m in
  let m := copy_field is_float raw "reputation" "compliance_reputation" m in
  let m := copy_field is_string raw "agent_id" "agent_id" m in
  let m := copy_field is_string raw "agent_output_hash" "output_hash" m in
  copy_field is_string raw "details" "details" m.

(** The final loop writes every other key of the message; the keys are distinct,
    so its order does not matter. *)
Definition metadata (subject : string) (raw : gmap string gany) : gmap string gany :=
  filter (fun kv => kv.1 ∉ captured) raw ∪ compliance_fields subject raw.

Definition convertToNetworkEvent (subject : string) (raw : gmap string gany) (uuid : string) (now : gotime) : NetworkEvent :=
  let ts := match raw !! "timestamp" with
            | Some (VString s) => match parse_RFC3339 s with Some parsed => parsed | None => now end
            | _ => now
            end in
  mkNetworkEvent uuid (determineEventType subject raw) "neotron" (raw_string raw "guardrail_name") (metadata subject raw) ts [] "".

(** [handleComplianceEvent]: the event pushed; a payload that is no JSON object is
    logged and dropped. *)
Definition handleComplianceEvent {wire : Type} (json_Unmarshal : wire -> option (gmap string gany)) (subject : string) (data : wire)
    (uuid : string) (now : gotime) : option NetworkEvent :=
  raw ← json_Unmarshal data; Some (convertToNetworkEvent subject raw uuid now).

(** ** What the conversion guarantees *)

(** The decision table of the mapping, on every message, malformed ones included. *)
Theorem event_type_table (subject : string) (raw : gmap string gany) :
  (determineEventType subject raw = EventAlert <->
     subject = violation_subject \/
     (raw_bool raw "passed" = false /\ raw_string raw "severity" ∈ ["block"; "critical"; "high"])) /\
  (determineEventType subject raw = EventAlert \/ determineEventType subject raw = EventCompliance).
Proof.
  unfold determineEventType. case_bool_decide as Hs; [split; [split; [by left|done]|by left]|].
  destruct (raw_bool raw "passed"); [split; [|by right]; split; [done|intros [?|[? _]]; congruence]|].
  destruct (_ || _) eqn:Hsev; (split; [|by auto]).
  - split; [intros _; right; split; [done|]|done]. rewrite !orb_true_iff, !bool_decide_eq_true in Hsev. set_solver.
  - split; [done|]. intros [?|[_ Hin]]; [congruence|]. rewrite !orb_false_iff, !bool_decide_eq_false in Hsev. set_solver.
Qed.

(** Any key of the message outside the list of captured ones ends in the metadata as
    it is, also when the conversion had just written that key itself. *)
Theorem message_overrides_metadata (subject k : string) (raw : gmap string gany) (v : gany) :
  raw !! k = Some v -> k ∉ captured -> metadata subject raw !! k = Some v.
Proof. intros Hk Hn. apply lookup_union_Some_l. by apply map_lookup_filter_Some. Qed.

Lemma copy_field_other has_type raw k k' m j : j <> k' -> copy_field has_type raw k k' m !! j = m !! j.
Proof. intros Hj. unfold copy_field. destruct (raw !! k) as [v|]; [|done]. destruct (has_type v); [by rewrite lookup_insert_ne|done]. Qed.

Lemma metadata_own subject raw k : raw !! k = None \/ k ∈ captured -> metadata subject raw !! k = compliance_fields subject raw !! k.
Proof.
  intros Hk. apply lookup_union_r. apply map_lookup_filter_None. destruct Hk as [Hk|Hk]; [by left|right]. intros x _ Hn. by apply Hn.
Qed.

Lemma severity_fields subject raw :
  compliance_fields subject raw !! "compliance_severity" = Some (VString (raw_string raw "severity")) /\
  compliance_fields subject raw !! "compliance_passed" = Some (VBool (raw_bool raw "passed")).
Proof. unfold compliance_fields. split; rewrite !copy_field_other by done; repeat (rewrite lookup_insert_ne by done); apply lookup_insert_eq. Qed.

(** For messages that do not carry the two derived keys, what enters the
    transparency log is exactly what is an alert. *)
Theorem critical_iff_alert (subject : string) (raw : gmap string gany) (uuid : string) (now : gotime) :
  raw !! "compliance_severity" = None -> raw !! "compliance_passed" = None ->
  isCriticalEvent (convertToNetworkEvent subject raw uuid now) = true <-> determineEventType subject raw = EventAlert.
Proof.
  intros H1 H2. destruct (severity_fields subject raw) as [Hs Hp]. unfold isCriticalEvent, convertToNetworkEvent. cbn [ne_Type ne_Metadata].
  destruct (event_type_table subject raw) as [Ht [Ha|Hc]]; [by rewrite Ha|]. rewrite Hc in *. cbn [event_type_string].
  rewrite bool_decide_eq_false_2, bool_decide_eq_true_2 by done. unfold meta_string, meta_bool. rewrite !metadata_own, Hs, Hp by auto.
  split; [|done]. intros [Hn Hsev]%andb_true_iff. apply negb_true_iff in Hn. apply Ht. right. split; [done|].
  rewrite !orb_true_iff, !bool_decide_eq_true in Hsev. set_solver.
Qed.

(** A passing message that carries the derived keys itself enters the log as a
    violation. *)
Theorem forged_violation_logged (subject : string) (raw : gmap string gany) (uuid : string) (now : gotime) :
  subject <> violation_subject -> raw_bool raw "passed" = true ->
  raw !! "compliance_severity" = Some (VString "block") -> raw !! "compliance_passed" = Some (VBool false) ->
  let e := convertToNetworkEvent subject raw uuid now in
  ne_Type e = EventCompliance /\ isCriticalEvent e = true /\ transparencyKind (ne_Type e) = "compliance.violation".
Proof.
  intros Hs Hp H1 H2 e. assert (ne_Type e = EventCompliance) as Ht.
  { subst e. cbn [convertToNetworkEvent ne_Type]. unfold determineEventType. by rewrite bool_decide_eq_false_2, Hp by done. }
  split; [done|]. rewrite Ht. split; [|done]. unfold isCriticalEvent. rewrite Ht. cbn [event_type_string].
  rewrite bool_decide_eq_false_2, bool_decide_eq_true_2 by done. subst e. cbn [convertToNetworkEvent ne_Metadata]. unfold meta_string, meta_bool.
  rewrite (message_overrides_metadata _ _ raw _ H1), (message_overrides_metadata _ _ raw _ H2) by (apply (bool_decide_unpack _); vm_compute; exact I).
  reflexivity.
Qed.
End Convert.

(** ** One connection for both directions

    The publisher sends every compliance event to [neotron.compliance.siem.v1], a
    subject of the subscription, and the subscriber uses the publisher's connection. *)

(** A value after [json.Marshal] and [json.Unmarshal] into [any]. *)
Fixpoint json_value (v : gany) : gany :=
  match v with
  | VInt n => VFloat (float_of_Z n)
  | VUint n => VFloat (float_of_Z n)
  | VStrings l => VList (VString <$> l)
  | VInts l => VList ((fun n => VFloat (float_of_Z n)) <$> l)
  | VList l => VList (map json_value l)
  | VMap l => VMap (map (fun kv => (kv.1, json_value kv.2)) l)
  | _ => v
  end.

(** NATS with the JSON encoding of the envelopes: [send] is [None] when the
    connection is down or the value does not encode; [matches] is the subscription
    rule of the server, which delivers a message to every matching subscription,
    the sender's own included. *)
Class Bus := {
  wire : Type;
  send : Envelope -> option wire;
  receive : wire -> option (gmap string gany);
  matches : string -> string -> bool;
}.

(** The object an envelope decodes to, with its payload nested. *)
Definition envelope_object (env : Envelope) (raw : gmap string gany) : Prop :=
  dom raw = list_to_set ["event_id"; "event_type"; "timestamp"; "source_service"; "correlation_id"; "payload"] /\
  exists l, raw !! "payload" = Some (VMap l) /\ NoDup l.*1 /\
    forall k, (list_to_map l : gmap string gany) !! k = json_value <$> (Payload_ env !! k).

Class BusLaws `{Bus} := {
  receive_sent env w : send env = Some w -> exists raw, receive w = Some raw /\ envelope_object env raw;
  full_wildcard pre rest : rest <> "" -> matches (pre +:+ ".>") (pre +:+ "." +:+ rest) = true;
}.

Section Echo.
Context {KS store : Type} `{KeyStore KS} `{Ed25519} `{JSON NetworkEvent} `{Bolt store} `{JSON Leaf} `{Bus}.
Context (parse_RFC3339 : string -> option gotime) (other : float64 -> Z).
(** The pipeline of each round, and what it draws: identifiers, times and the
    locations of new maps. *)
Context (p : nat -> Pipeline (S := KS)) (uuid : nat -> string) (clock : nat -> gotime) (map_at envelope_at : nat -> nat).

(** A message under way, with the state of the pipeline and the events stored. *)
Record flight := mkFlight {
  f_maps : gmap nat (gmap string gany); f_log : Tree store; f_subject : string; f_envelope : Envelope; f_stored : list NetworkEvent }.

Definition published (l : list effect) : option (string * Envelope) :=
  first_some (fun x => match x with Published s env => Some (s, env) | _ => None end) l.
Definition persisted (l : list effect) : list NetworkEvent :=
  omap (fun x => match x with Persisted e => Some e | _ => None end) l.

Definition in_flight (l : nat) (e : NetworkEvent) : pevent :=
  mkPEvent (ne_ID e) (ne_Type e) (ne_Source e) (ne_Destination e) (Some l) (ne_Timestamp e) (ne_Signature e) (ne_SignerKeyID e).

(** An event pushed, followed by what it publishes. *)
Definition push_event (i : nat) (h : gmap nat (gmap string gany)) (t : Tree store) (stored : list NetworkEvent) (e : pevent) : option flight :=
  let '(h, t, effs) := PushNetworkEvent (p i) h t e (uuid i) (clock i) (envelope_at i) in
  match published effs with Some (subject, env) => Some (mkFlight h t subject env (stored ++ persisted effs)) | None => None end.

(** One delivery: the message is sent, comes back to the subscription, is
    converted and pushed.  [None]: nothing is under way any more. *)
Definition bounce (i : nat) (s : flight) : option flight :=
  if matches subscription (f_subject s) then
    data ← send (f_envelope s);
    e ← handleComplianceEvent parse_RFC3339 other receive (f_subject s) data (uuid i) (clock i);
    push_event i (<[map_at i := ne_Metadata e]> (f_maps s)) (f_log s) (f_stored s) (in_flight (map_at i) e)
  else None.

Fixpoint bounces (i n : nat) (s : flight) : option flight :=
  match n with O => Some s | S n' => s' ← bounce i s; bounces (S i) n' s' end.

(** [n] levels of payload inside payload. *)
Fixpoint nested (n : nat) (m : gmap string gany) : Prop :=
  match n with
  | O => True
  | S n' => exists l, m !! "payload" = Some (VMap l) /\ NoDup l.*1 /\ nested n' (list_to_map l)
  end.

(** ** The echo *)

(** What the enricher may do to an event: it keeps its type and its payload. *)
Definition keeps_payload (f : gmap nat (gmap string gany) -> pevent -> gmap nat (gmap string gany) * pevent) : Prop :=
  forall h e h' e', f h e = (h', e') -> pe_Type e' = pe_Type e /\
    forall v, ne_Metadata (view h e) !! "payload" = Some v -> ne_Metadata (view h' e') !! "payload" = Some v.
Definition stores_and_publishes (q : Pipeline (S := KS)) : Prop :=
  p_repo q = true /\ p_pub q = true /\ match p_stream q with Some f => keeps_payload f | None => True end.

Lemma nested_json n : forall m m', (forall k, m' !! k = json_value <$> m !! k) -> nested n m -> nested n m'.
Proof.
  induction n as [|n IH]; intros m m' Hm; [done|]. intros (l & Hl & Hnd & Hn). exists (map (fun kv => (kv.1, json_value kv.2)) l).
  split; [rewrite Hm, Hl; done|]. split.
  - change (map (fun kv => (kv.1, json_value kv.2)) l) with ((fun kv => (kv.1, json_value kv.2)) <$> l). rewrite <- list_fmap_compose.
    erewrite list_fmap_ext; [exact Hnd|done].
  - apply (IH (list_to_map l)); [|done]. intros k. clear. induction l as [|[k0 v] l IHl]; [done|]. cbn [map fst snd]. rewrite !list_to_map_cons.
    destruct (decide (k = k0)) as [->|]; [by rewrite !lookup_insert_eq|]. by rewrite !lookup_insert_ne.
Qed.

Lemma sign_keeps q h e : let e' := match p_signer q with Some s => sign_in_place s h e | None => e end in
  pe_Type e' = pe_Type e /\ ne_Metadata (view h e') = ne_Metadata (view h e).
Proof. destruct (p_signer q) as [s|]; [|done]. unfold sign_in_place. by destruct (Signer_Sign s _) as [[e'|] ?]. Qed.

(** A pushed compliance event is stored once and published on the subject the
    subscription listens to, with its payload. *)
Lemma push_compliance i h t stored e v : stores_and_publishes (p i) -> pe_Type e = EventCompliance ->
  ne_Metadata (view h e) !! "payload" = v ->
  exists s, push_event i h t stored e = Some s /\ f_subject s = "neotron.compliance.siem.v1" /\
    length (f_stored s) = S (length stored) /\ (is_Some v -> Payload_ (f_envelope s) !! "payload" = v).
Proof.
  intros (Hr & Hp & Hs) Ht Hv. unfold push_event, PushNetworkEvent.
  destruct (prepare (p i) h e (uuid i) (clock i)) as [h1 e1] eqn:Hprep.
  assert (pe_Type e1 = EventCompliance /\ (is_Some v -> ne_Metadata (view h1 e1) !! "payload" = v)) as [Ht1 Hv1].
  { unfold prepare in Hprep. destruct (p_stream (p i)) as [f|].
    - destruct (Hs _ _ _ _ Hprep) as [Hft Hfv]. split; [by rewrite Hft|]. intros [x Hx]. rewrite Hx in Hv |- *. by apply Hfv.
    - simplify_eq. done. }
  destruct (sign_keeps (p i) h1 e1) as [Ht2 Hm2]. set (e2 := match p_signer (p i) with Some s => sign_in_place s h1 e1 | None => e1 end) in *.
  unfold publish. cbn [fst snd]. rewrite Hr, Hp. rewrite !Ht2, !Ht1.
  eexists. split; [by destruct (p_hub (p i))|]. cbn [f_subject f_stored f_envelope Payload_]. split; [done|]. split.
  - rewrite length_app. cut (forall b1 b2 b3 b4 b5 : bool, forall x y, length (persisted (when true (Persisted (view h1 e2)) ++ when b1 (Broadcast e2) ++
      [Published x y] ++ when b2 (ToTopology e2) ++ when b3 (ToEngine e2) ++ when b4 (ToObserver e2) ++ when b5 (ToChains e2))) = 1%nat).
    + intros Hlen. rewrite Hlen. lia.
    + by intros [] [] [] [] [].
  - intros Hv'. rewrite !lookup_insert_ne by done. rewrite <- (Hv1 Hv'), <- Hm2. unfold view. cbn [ne_Metadata]. by destruct (pe_Metadata e2).
Qed.

(** The object of an envelope is a routine compliance message: no guardrail, no
    severity, not passed. *)
Lemma object_is_routine env raw : envelope_object env raw -> determineEventType "neotron.compliance.siem.v1" raw = EventCompliance.
Proof.
  intros [Hd _]. assert (raw !! "severity" = None /\ raw !! "passed" = None) as [Hs1 Hs2].
  { split; apply not_elem_of_dom; rewrite Hd; set_solver. }
  unfold determineEventType, raw_string, raw_bool. by rewrite Hs1, Hs2.
Qed.

Context {bus_laws : BusLaws}.

Lemma bounce_step i s n : stores_and_publishes (p i) -> f_subject s = "neotron.compliance.siem.v1" -> nested n (Payload_ (f_envelope s)) ->
  is_Some (send (f_envelope s)) ->
  exists s', bounce i s = Some s' /\ f_subject s' = "neotron.compliance.siem.v1" /\ nested (S n) (Payload_ (f_envelope s')) /\
    length (f_stored s') = S (length (f_stored s)).
Proof.
  intros Hp Hsub Hn [w Hw]. destruct (receive_sent _ _ Hw) as (raw & Hr & Hobj). pose proof (object_is_routine _ _ Hobj) as Ht.
  destruct Hobj as (_ & l & Hl & Hnd & Hjson).
  unfold bounce. rewrite Hsub. assert (matches subscription "neotron.compliance.siem.v1" = true) as -> by by apply (full_wildcard "neotron.compliance" "siem.v1").
  rewrite Hw. cbn [mbind option_bind].
  unfold handleComplianceEvent. rewrite Hr. cbn [mbind option_bind]. set (e := convertToNetworkEvent _ _ _ raw _ _).
  assert (ne_Metadata e !! "payload" = Some (VMap l)) as Hm.
  { apply message_overrides_metadata; [done|]. apply (bool_decide_unpack _). vm_compute. exact I. }
  destruct (push_compliance i (<[map_at i := ne_Metadata e]> (f_maps s)) (f_log s) (f_stored s) (in_flight (map_at i) e) (Some (VMap l)) Hp Ht)
    as (s' & Hs' & Hsub' & Hlen & Hpay).
  { unfold view, in_flight. cbn [ne_Metadata pe_Metadata]. by rewrite lookup_insert_eq. }
  exists s'. split_and!; [done..| |done]. exists l. split; [apply Hpay; by eexists|]. split; [done|]. by apply (nested_json n (Payload_ (f_envelope s))).
Qed.

(** C24: The echo: once a compliance event has been pushed, its publication comes back
    as a new compliance event, and so on.  After any number [n] of rounds there is
    still a message under way, [n] further events have been stored and the payload
    is nested [n] deep, unless sending has failed on the way. *)
Theorem compliance_echo_never_ends (h : gmap nat (gmap string gany)) (t : Tree store) (stored : list NetworkEvent) (e : pevent) (i n : nat) :
  (forall j, stores_and_publishes (p j)) -> pe_Type e = EventCompliance ->
  exists s0, push_event i h t stored e = Some s0 /\
    ((exists s, bounces (S i) n s0 = Some s /\ length (f_stored s) = (length stored + S n)%nat /\ nested n (Payload_ (f_envelope s))) \/
     exists k s, (k < n)%nat /\ bounces (S i) k s0 = Some s /\ send (f_envelope s) = None).
Proof.
  intros Hp Ht. destruct (push_compliance i h t stored e _ (Hp i) Ht eq_refl) as (s0 & Hs0 & Hsub & Hlen & _).
  exists s0. split; [done|].
  assert (forall n j m s, f_subject s = "neotron.compliance.siem.v1" -> nested m (Payload_ (f_envelope s)) ->
    (exists s', bounces j n s = Some s' /\ length (f_stored s') = (length (f_stored s) + n)%nat /\ nested (m + n) (Payload_ (f_envelope s'))) \/
    exists k s', (k < n)%nat /\ bounces j k s = Some s' /\ send (f_envelope s') = None) as Hloop.
  { clear -p Hp bus_laws. induction n as [|n IH]; intros j m s Hsub Hm.
    { left. exists s. split_and!; [done|lia|]. by rewrite Nat.add_0_r. }
    destruct (send (f_envelope s)) as [w|] eqn:Hw.
    2: { right. exists 0%nat, s. split_and!; [lia|done..]. }
    destruct (bounce_step j s m (Hp j) Hsub Hm) as (s1 & Hb & Hsub1 & Hm1 & Hl1); [by rewrite Hw|].
    destruct (IH (S j) (S m) s1 Hsub1 Hm1) as [(s' & Hr & Hl & Hn)|(k & s' & Hk & Hr & Hx)].
    - left. exists s'. cbn [bounces]. rewrite Hb. cbn [mbind option_bind]. split_and!; [done|lia|]. by rewrite Nat.add_succ_r.
    - right. exists (S k), s'. cbn [bounces]. rewrite Hb. cbn [mbind option_bind]. split_and!; [lia|done..]. }
  destruct (Hloop n (S i) 0%nat s0 Hsub I) as [(s & Hr & Hl & Hn)|?]; [left|by right]. exists s. split_and!; [done|lia|done].
Qed.
End Echo.

(** The stream processor is such an enricher. *)
Definition enricher (q : Processor) (now : gotime) (fresh : nat) : gmap nat (gmap string gany) -> pevent -> gmap nat (gmap string gany) * pevent :=
  fun h e => let '(_, h, e) := Enrich q now fresh h e in (h, e).

Lemma enricher_keeps_payload q now fresh : keeps_payload (enricher q now fresh).
Proof.
  intros h e h' e' He. unfold enricher, Enrich in He. destruct (TryEnrich q now fresh h e) as [[[q' h1] e1] acc] eqn:Ht. cbn [fst] in He. injection He as <- <-.
  destruct (TryEnrich_spec _ _ _ _ _ _ _ _ _ Ht) as (_ & _ & _ & _ & Hty & _ & _ & Hm). split; [done|]. intros v Hv. rewrite Hm.
  case_bool_decide; [done|]. destruct (annotate_lookup (ne_Metadata (view h e)) (stats (if bool_decide (normalizeIP (pe_Source e) = "") then win q else
    record (win q) now (normalizeIP (pe_Source e)) (pe_Type e)) (normalizeIP (pe_Source e)))) as (_ & _ & _ & Hk).
  rewrite bool_decide_eq_false_2 in * by done. rewrite Hk; [done|]. apply (bool_decide_unpack _). vm_compute. exact I.
Qed.

(** ** A bus that works *)

Module NeotronDemo.
Import MapBolt TransparencyLog.Demo PkiDemo PipelineDemo.
#[local] Existing Instance PipelineDemo.event_json.

Definition object (env : Envelope) : gmap string gany :=
  list_to_map [("event_id", VString (EventID env)); ("event_type", VString (en_EventType env)); ("timestamp", VString "");
               ("source_service", VString (SourceService env)); ("correlation_id", VString "");
               ("payload", VMap ((fun kv => (kv.1, json_value kv.2)) <$> map_to_list (Payload_ env)))].

Definition tail_match (filter subject : string) : bool :=
  match strip_prefix ">." (rev_string filter) with
  | Some r => match strip_prefix (rev_string r +:+ ".") subject with Some (String _ _) => true | _ => false end
  | None => bool_decide (filter = subject)
  end.

#[local] Instance loopback : Bus := { wire := Envelope; send env := Some env; receive env := Some (object env); matches := tail_match }.
#[local] Instance loopback_laws : BusLaws.
Proof.
  constructor.
  - intros env w [= <-]. exists (object env). split; [done|]. split; [unfold object; rewrite dom_list_to_map_L; done|].
    exists ((fun kv => (kv.1, json_value kv.2)) <$> map_to_list (Payload_ env)). split; [reflexivity|]. split.
    + rewrite <- list_fmap_compose. erewrite list_fmap_ext; [apply (NoDup_fst_map_to_list (Payload_ env))|done].
    + intros k. rewrite <- lookup_fmap. f_equal. rewrite <- (list_to_map_to_list (Payload_ env)) at 2. rewrite <- list_to_map_fmap. f_equal.
  - intros pre rest Hr. unfold matches; cbn [loopback]. unfold tail_match. rewrite rev_string_app. change (rev_string ".>") with ">.".
    rewrite (strip_prefix_app ">." (rev_string pre)), rev_string_involutive, string_app_assoc, strip_prefix_app. by destruct rest.
Qed.

Definition node (i : nat) : Pipeline := mkPipeline (Some (enricher (NewProcessor 8 PolicyDropOldest 100) 120 9)) (Some store1) true true true true true true true true.
Definition routine : pevent := mkPEvent "n1" EventCompliance "neotron" "lgpd_art18" (Some 0%nat) 120 [] "".
Definition name (i : nat) : string := pretty.pretty (N.of_nat i).

Lemma compliance_echo_never_ends_witness :
  exists s0 s, push_event node name (fun _ => 150) (fun _ => 8%nat) 0 heap0 tree0 [] routine = Some s0 /\
    bounces (fun _ => None) (fun _ => 0) node name (fun _ => 150) (fun _ => 7%nat) (fun _ => 8%nat) 1 3 s0 = Some s /\
    length (f_stored s) = 4%nat /\ nested 3 (Payload_ (f_envelope s)).
Proof.
  destruct (compliance_echo_never_ends (fun _ => None) (fun _ => 0) node name (fun _ => 150) (fun _ => 7%nat) (fun _ => 8%nat)
    heap0 tree0 [] routine 0 3) as (s0 & Hs0 & [(s & Hb & Hl & Hn)|(k & s & _ & _ & Hsend)]).
  - intros j. split; [reflexivity|]. split; [reflexivity|]. apply enricher_keeps_payload.
  - reflexivity.
  - exists s0, s. split; [exact Hs0|]. split; [exact Hb|]. split; [exact Hl|exact Hn].
  - discriminate Hsend.
Defined.

Lemma message_overrides_metadata_witness :
  metadata (fun _ => 0) "neotron.compliance.siem.v1" {[ "nats_subject" := VString "forged" ]} !! "nats_subject" = Some (VString "forged").
Proof. apply message_overrides_metadata; [reflexivity|apply (bool_decide_unpack _); vm_compute; exact I]. Defined.

Definition forged : gmap string gany :=
  <["passed" := VBool true]> (<["compliance_severity" := VString "block"]> {[ "compliance_passed" := VBool false ]}).
Lemma forged_violation_logged_witness :
  isCriticalEvent (convertToNetworkEvent (fun _ => None) (fun _ => 0) "neotron.compliance.sentinel.v1" forged "u" 1) = true.
Proof. apply (forged_violation_logged (fun _ => None) (fun _ => 0) "neotron.compliance.sentinel.v1" forged "u" 1); first [discriminate|vm_compute; reflexivity]. Defined.

Lemma critical_iff_alert_witness :
  isCriticalEvent (convertToNetworkEvent (fun _ => None) (fun _ => 0) "neotron.compliance.sentinel.v1" {[ "severity" := VString "high" ]} "u" 1) = true.
Proof.
  apply (critical_iff_alert (fun _ => None) (fun _ => 0) "neotron.compliance.sentinel.v1" {[ "severity" := VString "high" ]} "u" 1); vm_compute; reflexivity.
Defined.
End NeotronDemo.
