(* ===== verification/Hub.v ===== *)
(** * The WebSocket hub

    internal/api/websocket.go: the hub that fans messages out to the connected
    clients.  [Run] is one goroutine that serves three channels; the methods that
    send on them are called from other goroutines.  A history is a sequence of
    steps in any order, each labelled with what it shows to the outside. *)
From stdpp Require Import base list gmap sets.
From Stdlib Require Import ZArith Lia.
From S2P Require Import Prelude.
Local Open Scope list_scope.

(** The capacity of the broadcast channel. *)
Definition broadcast_capacity : nat := 256.

Section Hub.
(** [encode] is [json.Marshal] on the messages. *)
Context {msg data : Type} (encode : msg -> option data).

(** Connections are pointers; [clients] is the key set of the map, [broadcast] the
    messages waiting in the channel.  [register] and [unregister] are unbuffered:
    sending on them is the step of [Run] that receives. *)
Record WSHub := mkHub { clients : gset nat; broadcast : list msg }.

Definition NewWSHub : WSHub := mkHub ∅ [].

(** What a step shows. *)
Inductive label :=
| Accepted (m : msg) | Dropped (m : msg)
| Joined (c : nat) | Closed (c : nat)
| Taken (m : msg) | Wrote (c : nat) (d : data).

Definition Broadcast (h : WSHub) (m : msg) : WSHub * list label :=
  if (length (broadcast h) <? broadcast_capacity)%nat then (mkHub (clients h) (broadcast h ++ [m]), [Accepted m])
  else (h, [Dropped m]).

Definition run_register (h : WSHub) (c : nat) : WSHub * list label := (mkHub ({[c]} ∪ clients h) (broadcast h), [Joined c]).

Definition run_unregister (h : WSHub) (c : nat) : WSHub * list label :=
  if decide (c ∈ clients h) then (mkHub (clients h ∖ {[c]}) (broadcast h), [Closed c]) else (h, []).

(** The inner loop over the clients; [ok] tells whose write succeeds. *)
Fixpoint write_all (ok : nat -> bool) (d : data) (order : list nat) (cs : gset nat) : gset nat * list label :=
  match order with
  | [] => (cs, [])
  | c :: order' =>
      if ok c then let '(cs', out) := write_all ok d order' cs in (cs', Wrote c d :: out)
      else let '(cs', out) := write_all ok d order' (cs ∖ {[c]}) in (cs', Closed c :: out)
  end.

(** One message taken from the channel; [order] is the order of the map. *)
Definition run_message (ok : nat -> bool) (order : list nat) (h : WSHub) : WSHub * list label :=
  match broadcast h with
  | [] => (h, [])
  | m :: rest =>
      match encode m with
      | None => (mkHub (clients h) rest, [Taken m])
      | Some d => let '(cs, out) := write_all ok d order (clients h) in (mkHub cs rest, Taken m :: out)
      end
  end.

(** The histories: the hub and what it has shown.  [Handler] registers each
    connection once, when it has been made. *)
Inductive history : WSHub -> list label -> Prop :=
| history_new : history NewWSHub []
| history_broadcast h tr m : history h tr -> history (Broadcast h m).1 (tr ++ (Broadcast h m).2)
| history_register h tr c : history h tr -> Joined c ∉ tr -> history (run_register h c).1 (tr ++ (run_register h c).2)
| history_unregister h tr c : history h tr -> history (run_unregister h c).1 (tr ++ (run_unregister h c).2)
| history_message h tr ok order : history h tr -> order ≡ₚ elements (clients h) ->
    history (run_message ok order h).1 (tr ++ (run_message ok order h).2).

(** ** Reading a history *)

Definition accepted (tr : list label) : list msg := omap (fun x => match x with Accepted m => Some m | _ => None end) tr.
Definition taken (tr : list label) : list msg := omap (fun x => match x with Taken m => Some m | _ => None end) tr.
Definition received (c : nat) (tr : list label) : list data :=
  omap (fun x => match x with Wrote c' d => if decide (c' = c) then Some d else None | _ => None end) tr.

Lemma accepted_app a b : accepted (a ++ b) = accepted a ++ accepted b.
Proof. apply omap_app. Qed.
Lemma taken_app a b : taken (a ++ b) = taken a ++ taken b.
Proof. apply omap_app. Qed.
Lemma received_app c a b : received c (a ++ b) = received c a ++ received c b.
Proof. apply omap_app. Qed.

(** The labels of one delivery: one write for each client that takes it. *)
Lemma write_all_spec ok d order : forall cs, NoDup order ->
  let '(cs', out) := write_all ok d order cs in
  cs' = cs ∖ list_to_set (filter (fun c => ok c = false) order) /\
  accepted out = [] /\ taken out = [] /\ (forall c, Joined c ∉ out) /\
  (forall c, Closed c ∈ out <-> c ∈ order /\ ok c = false) /\
  forall c, received c out = if decide (c ∈ order /\ ok c = true) then [d] else [].
Proof.
  induction order as [|c order IH]; intros cs Hnd; cbn [write_all].
  { split_and!; [set_solver|done|done|set_solver|set_solver|]. intros c. rewrite decide_False; [done|set_solver]. }
  apply NoDup_cons in Hnd as [Hc Hnd]. destruct (ok c) eqn:Hok.
  - specialize (IH cs Hnd). destruct (write_all ok d order cs) as [cs' out]. destruct IH as (-> & Ha & Ht & Hj & Hcl & Hr).
    split_and!.
    + rewrite filter_cons_False by congruence. done.
    + done.
    + done.
    + set_solver.
    + intros c'. rewrite elem_of_cons, Hcl, elem_of_cons. split; [intros [|]; [done|naive_solver]|]. intros [[->|] ?]; [congruence|naive_solver].
    + intros c'. change (received c' (Wrote c d :: out)) with (received c' ([Wrote c d] ++ out)). rewrite received_app, Hr. unfold received. cbn [omap list_omap].
      destruct (decide (c = c')) as [<-|Hne].
      * rewrite (decide_False (P := c ∈ order /\ _)) by naive_solver. rewrite decide_True by (split; [left|done]). done.
      * destruct (decide (c' ∈ order /\ ok c' = true)) as [[? ?]|Hn]; [by rewrite decide_True by (split; [by right|done])|].
        rewrite decide_False; [done|]. intros [[->|]%elem_of_cons ?]; [done|naive_solver].
  - specialize (IH (cs ∖ {[c]}) Hnd). destruct (write_all ok d order (cs ∖ {[c]})) as [cs' out]. destruct IH as (-> & Ha & Ht & Hj & Hcl & Hr).
    split_and!.
    + rewrite filter_cons_True by done. rewrite list_to_set_cons. set_solver.
    + done.
    + done.
    + set_solver.
    + intros c'. rewrite elem_of_cons, Hcl, elem_of_cons. naive_solver.
    + intros c'. change (received c' (Closed c :: out)) with (received c' out). rewrite Hr.
      destruct (decide (c' ∈ order /\ ok c' = true)) as [[? ?]|Hn]; [by rewrite decide_True by (split; [by right|done])|].
      rewrite decide_False; [done|]. intros [[->|]%elem_of_cons ?]; [congruence|naive_solver].
Qed.

(** Who is connected, and what they have been sent. *)
Definition well_served (h : WSHub) (tr : list label) : Prop :=
  (length (broadcast h) <= broadcast_capacity)%nat /\
  accepted tr = taken tr ++ broadcast h /\
  (forall c, c ∈ clients h <-> Joined c ∈ tr /\ Closed c ∉ tr) /\
  (forall c, Joined c ∉ tr -> received c tr = [] /\ Closed c ∉ tr) /\
  forall c, Joined c ∈ tr -> exists before after, tr = before ++ Joined c :: after /\ received c before = [] /\
    received c after `prefix_of` omap encode (taken after) /\ (Closed c ∉ tr -> received c after = omap encode (taken after)).

Lemma closed_dec c (tr : list label) : Closed c ∈ tr \/ Closed c ∉ tr.
Proof.
  induction tr as [|x tr [IH|IH]]; [right; apply not_elem_of_nil|left; by right|].
  destruct x as [m|m|c'|c'|m|c' d]; try (right; by intros [|]%elem_of_cons). destruct (decide (c' = c)) as [->|]; [left; left|].
  right. intros [[=]|]%elem_of_cons; done.
Qed.

(** Further labels for a client that has joined before them. *)
Lemma served_more c tr new : Joined c ∈ tr ->
  (exists before after, tr = before ++ Joined c :: after /\ received c before = [] /\
    received c after `prefix_of` omap encode (taken after) /\ (Closed c ∉ tr -> received c after = omap encode (taken after))) ->
  (Closed c ∈ tr -> received c new = []) ->
  received c new `prefix_of` omap encode (taken new) -> (Closed c ∉ tr -> Closed c ∉ new -> received c new = omap encode (taken new)) ->
  exists before after, tr ++ new = before ++ Joined c :: after /\ received c before = [] /\
    received c after `prefix_of` omap encode (taken after) /\ (Closed c ∉ tr ++ new -> received c after = omap encode (taken after)).
Proof.
  intros Hj (b & a & -> & Hb & Hp & He) Hcl Hpn Hen. exists b, (a ++ new). rewrite received_app, taken_app, omap_app.
  split_and!; [by rewrite <- (assoc_L (++))|done| |].
  - destruct (closed_dec c (b ++ Joined c :: a)) as [Hin|Hout].
    + rewrite (Hcl Hin), (right_id_L [] (++)). by apply prefix_app_r.
    + rewrite (He Hout). by apply prefix_app.
  - intros Hn. rewrite elem_of_app in Hn. rewrite He, Hen; [done|tauto..].
Qed.

(** Each step keeps the invariant when its labels agree with what it does. *)
Lemma served_step h h' tr new : well_served h tr ->
  (length (broadcast h') <= broadcast_capacity)%nat -> broadcast h ++ accepted new = taken new ++ broadcast h' ->
  (forall c, Joined c ∈ new -> new = [Joined c] /\ Joined c ∉ tr /\ clients h' = {[c]} ∪ clients h) ->
  (forall c, Closed c ∈ new -> c ∈ clients h) ->
  ((exists c, Joined c ∈ new) \/ forall c, c ∈ clients h' <-> c ∈ clients h /\ Closed c ∉ new) ->
  (forall c, c ∉ clients h -> received c new = []) ->
  (forall c, c ∈ clients h -> received c new `prefix_of` omap encode (taken new) /\ (Closed c ∉ new -> received c new = omap encode (taken new))) ->
  well_served h' (tr ++ new).
Proof.
  intros (Hlen & Hacc & Hcl & Hnot & Hserved) Hlen' Hq Hjoin Hclosed Hcl' Hout Hin. split; [done|].
  assert (forall c, Joined c ∈ new -> clients h' = {[c]} ∪ clients h /\ Joined c ∉ tr /\ Closed c ∉ tr ++ new /\ received c tr = [] /\ new = [Joined c]) as Hnew.
  { intros c Hc. destruct (Hjoin c Hc) as (Hn & Htr & Hh). destruct (Hnot c Htr) as [Hr Hx]. split_and!; [done..| |done|done].
    rewrite elem_of_app. intros [|Hx']; [done|]. rewrite Hn in Hx'. by apply list_elem_of_singleton in Hx'. }
  split_and!.
  - rewrite accepted_app, taken_app, Hacc, <- !(assoc_L (++)). f_equal. done.
  - intros c. rewrite !elem_of_app. destruct Hcl' as [[c0 Hc0]|Hcl'].
    + destruct (Hnew c0 Hc0) as (-> & Htr & Hx & _ & Hn). rewrite Hn, !list_elem_of_singleton, elem_of_union, elem_of_singleton, Hcl.
      rewrite elem_of_app in Hx. destruct (decide (c = c0)) as [->|]; [|naive_solver]. split; [|tauto]. intros _. split; [by right|]. intros [|]; [tauto|done].
    + rewrite Hcl', Hcl. split; [tauto|]. intros [[Hj|Hj] Hx]; [tauto|]. destruct (Hnew c Hj) as (Hh & Htr & Hcl0 & _).
      assert (c ∈ clients h') as Hc by (rewrite Hh; set_solver). apply Hcl' in Hc as [Hc _]. apply Hcl in Hc. tauto.
  - intros c Hn. rewrite elem_of_app in Hn. destruct (Hnot c) as [Hr Hx]; [tauto|]. rewrite received_app, Hr, elem_of_app.
    assert (c ∉ clients h) as Hc by (rewrite Hcl; tauto). rewrite (Hout c Hc). split; [done|]. intros [|Hy]; [done|]. by apply Hclosed in Hy.
  - intros c [Hj|Hj]%elem_of_app.
    + apply served_more; [done|by apply Hserved| | |].
      * intros Hx. apply Hout. rewrite Hcl. tauto.
      * destruct (closed_dec c tr) as [Hx|Hx]; [|apply Hin, Hcl; tauto]. rewrite Hout by (rewrite Hcl; tauto). apply prefix_nil.
      * intros Hx. apply Hin, Hcl. tauto.
    + destruct (Hnew c Hj) as (_ & Htr & Hx & Hr & ->). exists tr, []. split_and!; done.
Qed.

(** C12: Delivery: the channel never holds more than its capacity and passes the
    accepted messages on in order.  A client that has joined and was not closed is
    in the hub and has been sent, in order and once each, the encodings of exactly
    the messages taken since it joined, whatever the other clients do and in
    whatever order the map is walked; a closed one has been sent a first part of
    them; nobody is sent anything before joining. *)
Theorem hub_delivery (h : WSHub) (tr : list label) : history h tr -> well_served h tr.
Proof.
  induction 1 as [|h tr m Hh IH|h tr c Hh IH Hc|h tr c Hh IH|h tr ok order Hh IH Hord].
  - unfold well_served, NewWSHub. cbn [broadcast clients length]. split_and!; [lia|done|set_solver|set_solver|set_solver].
  - assert (Hl := proj1 IH). unfold Broadcast. destruct (Nat.ltb_spec (length (broadcast h)) broadcast_capacity) as [Hlt|Hge].
    all: cbn [fst snd]; apply served_step with (h := h); cbn [broadcast clients]; try done; try set_solver.
    + rewrite length_app. cbn. lia.
    + cbn. by rewrite (right_id_L [] (++)).
  - apply served_step with (h := h); cbn [run_register fst snd broadcast clients]; try done; try set_solver.
    + apply IH.
    + cbn. by rewrite (right_id_L [] (++)).
  - unfold run_unregister. destruct (decide (c ∈ clients h)) as [Hc|Hc].
    all: cbn [fst snd]; apply served_step with (h := h); cbn [broadcast clients]; try apply IH; try done; try set_solver.
    all: cbn; by rewrite (right_id_L [] (++)).
  - unfold run_message. assert (Hl := proj1 IH). destruct (broadcast h) as [|m rest] eqn:Hb.
    { cbn [fst snd]. apply served_step with (h := h); rewrite ?Hb; try done; try set_solver. }
    destruct (encode m) as [d|] eqn:He.
    2: { cbn [fst snd]. cbn [length] in Hl. apply served_step with (h := h); cbn [broadcast clients]; rewrite ?Hb; try done; try set_solver; try lia.
         - cbn. by rewrite (right_id_L [] (++)).
         - intros c _. cbn. rewrite He. done. }
    assert (NoDup order) as Hnd by (rewrite Hord; apply NoDup_elements).
    assert (forall c, c ∈ order <-> c ∈ clients h) as Hin by (intros c; rewrite Hord; apply elem_of_elements).
    pose proof (write_all_spec ok d order (clients h) Hnd) as Hw. destruct (write_all ok d order (clients h)) as [cs out].
    destruct Hw as (-> & Ha & Ht & Hj & Hcl & Hr). cbn [fst snd length] in *.
    assert (forall c, received c (Taken m :: out) = received c out) as Hr' by done.
    assert (taken (Taken m :: out) = [m]) as Ht' by (cbn; by rewrite <- Ht).
    apply served_step with (h := h); cbn [broadcast clients]; rewrite ?Hb; try done.
    + lia.
    + change (accepted (Taken m :: out)) with (accepted out). rewrite Ha, Ht', (right_id_L [] (++)). done.
    + intros c [|Hx]%elem_of_cons; [done|]. by apply Hj in Hx.
    + intros c [|Hx]%elem_of_cons; [done|]. apply Hcl in Hx as [Hx _]. by apply Hin.
    + right. intros c. rewrite elem_of_difference, elem_of_list_to_set, list_elem_of_filter, elem_of_cons, Hcl, Hin. naive_solver.
    + intros c Hc. rewrite Hr', Hr, decide_False; [done|]. intros [Ho _]. by apply Hc, Hin.
    + intros c Hc. rewrite Hr', Hr, Ht'. cbn [omap list_omap]. rewrite He. destruct (ok c) eqn:Hok.
      * rewrite decide_True by (split; [by apply Hin|done]). done.
      * rewrite decide_False by (by intros []). split; [apply prefix_nil|]. intros Hn. destruct Hn. right. apply Hcl. by rewrite Hin.
Qed.
End Hub.

(** ** A client that joins late, and one that goes away *)

Module HubDemo.
(** Negative numbers do not encode. *)
Definition encode (m : Z) : option Z := if (m <? 0)%Z then None else Some (m * 10)%Z.

Definition s1 := Broadcast (data := Z) (NewWSHub (msg := Z)) 1%Z.
Definition s2 := run_message (data := Z) encode (fun _ => true) [] s1.1.
Definition s3 := run_register (data := Z) s2.1 5%nat.
Definition s4 := run_register (data := Z) s3.1 6%nat.
Definition s5 := Broadcast (data := Z) s4.1 (-2)%Z.
Definition s6 := Broadcast (data := Z) s5.1 3%Z.
Definition s7 := run_message (data := Z) encode (fun _ => true) [6; 5]%nat s6.1.
Definition s8 := run_message (data := Z) encode (fun c => bool_decide (c = 5%nat)) [6; 5]%nat s7.1.
Definition shown : list (label (msg := Z) (data := Z)) := s1.2 ++ s2.2 ++ s3.2 ++ s4.2 ++ s5.2 ++ s6.2 ++ s7.2 ++ s8.2.

Lemma two_clients : [6; 5]%nat ≡ₚ elements ({[6%nat]} ∪ ({[5%nat]} ∪ ∅) : gset nat).
Proof. apply NoDup_Permutation; [apply (bool_decide_unpack _); vm_compute; exact I|apply NoDup_elements|]. intros x. rewrite elem_of_elements. set_solver. Qed.

Lemma hub_delivery_witness : well_served encode s8.1 shown /\ received 5 shown = [30%Z] /\ received 6 shown = [] /\ clients s8.1 = {[5%nat]}.
Proof.
  split; [|split; [reflexivity|split; [reflexivity|]]].
  - apply hub_delivery. unfold shown. rewrite !(assoc_L (++)).
    apply history_message; [|exact two_clients]. apply history_message; [|exact two_clients].
    apply history_broadcast, history_broadcast. apply history_register; [apply history_register|].
    + apply (history_message _ _ s1.2); [|done]. apply (history_broadcast _ _ []), history_new.
    + intros Hin. by repeat (apply elem_of_cons in Hin as [|Hin]; [done|]); apply elem_of_nil in Hin.
    + intros Hin. by repeat (apply elem_of_cons in Hin as [|Hin]; [done|]); apply elem_of_nil in Hin.
  - change (clients s8.1) with (({[6%nat]} ∪ ({[5%nat]} ∪ ∅) : gset nat) ∖ {[6%nat]}). set_solver.
Defined.
End HubDemo.
