(* ===== verification/Server.v ===== *)
(** * The HTTP server

    internal/api/server.go and middleware_otel.go, and the registrations of
    internal/app/app.go: which handler answers a request, behind which checks, with
    which headers, and what it means for the WebSocket endpoint that its response
    writer has been wrapped.  Paths are those without percent escapes. *)
From stdpp Require Import base list strings gmap.
From Stdlib Require Import ZArith Lia Bool Ascii.
From S2P Require Import Prelude Models GoStrings Fs Pki Identity Authn Jwt Authz AuthHttp Hub.
Local Open Scope string_scope.
Local Open Scope list_scope.
Local Open Scope Z_scope.

(** ** [http.ServeMux] *)

Definition ends_in_slash (s : string) : bool := HasPrefix (rev_string s) "/".

(** [cleanPath] of net/http. *)
Definition cleanPath (p : string) : string :=
  if bool_decide (p = "") then "/"
  else
    let p := if HasPrefix p "/" then p else "/" +:+ p in
    let np := Clean p in
    if ends_in_slash p && negb (bool_decide (np = "/")) then np +:+ "/" else np.

Section Mux.
Context {A : Type}.

(** Registered patterns: a path, or everything below one that ends in a slash. *)
Abbreviation mux := (list (string * A)).

Definition pattern_matches (path pat : string) : bool := bool_decide (pat = path) || (ends_in_slash pat && HasPrefix path pat).

(** The most specific match is the longest. *)
Definition longer (best : option (string * A)) (x : string * A) : option (string * A) :=
  match best with Some (pat, _) => if (String.length pat <? String.length x.1)%nat then Some x else best | None => Some x end.
Definition match_ (m : mux) (path : string) : option (string * A) := foldl longer None (filter (fun x => pattern_matches path x.1 = true) m).

Definition exact_match (n : option (string * A)) (path : string) : bool :=
  match n with Some (pat, _) => bool_decide (pat = path) | None => false end.

(** [Handle] panics on a pattern registered already.  Patterns start with a slash
    and have no wildcards. *)
Definition Handle (m : mux) (pat : string) (a : A) : option mux :=
  if existsb (fun x => bool_decide (x.1 = pat)) m then None else Some (m ++ [(pat, a)]).

Inductive found := Redirect (path : string) | NotFound | Found (a : A).

(** The redirect from [/tree] to [/tree/], and the match otherwise. *)
Definition slash_redirect (m : mux) (path : string) : bool :=
  negb (exact_match (match_ m path) path) && negb (ends_in_slash path) && negb (bool_decide (path = "")) &&
  exact_match (match_ m (path +:+ "/")) (path +:+ "/").
Definition match_only (m : mux) (path : string) : found := match match_ m path with Some (_, a) => Found a | None => NotFound end.

Definition findHandler (m : mux) (method path : string) : found :=
  if bool_decide (method = "CONNECT") then
    if slash_redirect m path then Redirect (cleanPath path +:+ "/") else match_only m path
  else
    let path' := cleanPath path in
    if slash_redirect m path' then Redirect (path' +:+ "/")
    else if bool_decide (path' = path) then match_only m path else Redirect path'.
End Mux.
Arguments found : clear implicits.

(** ** The routes of the program *)

Inductive endpoint :=
| EHealth | EMetrics | EHealthz | EReadyz | EStartupz | EBackup | ELogin | EJwks | EStats | ETopology | EWebhook
| ECanaryDNS | ECanaryHTTP | ECanaryList | EHoneypot | EAlertItem | EAlertList | EContainment | EEvents | EOnion | EWebSocket.
#[export] Instance endpoint_eq : EqDecision endpoint.
Proof. solve_decision. Defined.

(** What the registrations depend on: backup recipients, the hidden service, the
    WebSocket section, and whether an authentication middleware has been set. *)
Record ServerOptions := mkOptions { recipients : bool; hidden_service : bool; ws_enabled : bool; ws_path : string; auth_set : bool }.

(** A route and whether [RequireAuth] is around its handler. *)
Abbreviation route := (endpoint * bool)%type.
Definition RegisterHandler (m : list (string * route)) (path : string) (e : endpoint) : option (list (string * route)) := Handle m path (e, false).
Definition RegisterProtectedHandler (o : ServerOptions) (m : list (string * route)) (path : string) (e : endpoint)
  : option (list (string * route)) := Handle m path (e, auth_set o).

Inductive registration := Plain (path : string) (e : endpoint) | Protected (path : string) (e : endpoint).
Definition when_set {X} (b : bool) (x : X) : list X := if b then [x] else [].

(** The registrations in their order: those of [NewServer], of [App.Run] and of
    [Start]. *)
Definition registrations (o : ServerOptions) : list registration :=
  [Plain "/health" EHealth; Plain "/metrics" EMetrics; Plain "/healthz" EHealthz; Plain "/readyz" EReadyz; Plain "/startupz" EStartupz] ++
  when_set (recipients o) (Protected "/api/admin/backup" EBackup) ++
  [Plain "/auth/login" ELogin; Plain "/.well-known/jwks.json" EJwks;
   Protected "/api/stats" EStats; Protected "/api/topology" ETopology;
   Plain "/api/canary/webhook/" EWebhook;
   Protected "/api/admin/canary/dns" ECanaryDNS; Protected "/api/admin/canary/http" ECanaryHTTP; Protected "/api/admin/canary" ECanaryList;
   Protected "/api/admin/honeypot" EHoneypot;
   Protected "/api/alerts/" EAlertItem; Protected "/api/alerts" EAlertList; Protected "/api/incidents/containment" EContainment;
   Protected "/api/events" EEvents] ++
  when_set (hidden_service o) (Plain "/api/tor/onion" EOnion) ++
  when_set (ws_enabled o) (Plain (ws_path o) EWebSocket).

Definition register (o : ServerOptions) (m : option (list (string * route))) (r : registration) : option (list (string * route)) :=
  match m with
  | None => None
  | Some m => match r with Plain path e => RegisterHandler m path e | Protected path e => RegisterProtectedHandler o m path e end
  end.
Definition routes (o : ServerOptions) : option (list (string * route)) := foldl (register o) (Some []) (registrations o).

(** ** Response writers *)

(** The methods that handlers look for on a response writer.  A [responseWriter]
    embeds the interface [http.ResponseWriter] and so has the three methods of that
    interface, whatever it wraps. *)
Inductive wmethod := MHeader | MWrite | MWriteHeader | MFlush | MHijack.
#[export] Instance wmethod_eq : EqDecision wmethod.
Proof. solve_decision. Defined.
Definition writer := list wmethod.
Definition responseWriter (w : writer) : writer := [MHeader; MWrite; MWriteHeader].

Section Serve.
(** [X] is what the handlers read and write, [B] the bodies, [msg] the messages for
    the hub, [data] their encodings. *)
Context {KS PS : Type} `{KeyStore KS} `{PrincipalStore PS} `{Ed25519} `{JwtLib}.
Context {X B msg : Type} (text : string -> B).

Record http_req := mkHttp {
  hq_auth : Request; hq_path : string; hq_RawQuery : string; hq_query : gmap string string; hq_RequestID : string;
  hq_remote : string; hq_UserAgent : string; hq_Referer : string }.
Definition hq_method (r : http_req) : string := rq_Method (hq_auth r).
Definition as_principal (r : http_req) (a : Request) : http_req :=
  mkHttp a (hq_path r) (hq_RawQuery r) (hq_query r) (hq_RequestID r) (hq_remote r) (hq_UserAgent r) (hq_Referer r).

Record reply := mkReply { rp_status : Z; rp_headers : gmap string string; rp_body : B }.

(** What serving a request does: the state after it, the messages broadcast, a
    connection registered with the hub, the reply, and the handler that ran with
    the request it was given. *)
Record result := mkResult {
  r_state : X; r_msgs : list msg; r_joined : option nat; r_reply : reply; r_called : option (endpoint * http_req) }.

Definition http_handler := X -> writer -> http_req -> result.

(** [Upgrade]: the status of a refusal, or the connection. *)
Class WebSocketLib := upgrade : writer -> http_req -> Z + nat.
(** It takes the connection over through [http.Hijacker] and refuses without. *)
Class WebSocketLaws `{WebSocketLib} := upgrade_needs_hijack w r c : upgrade w r = inr c -> MHijack ∈ w.

Context `{WebSocketLib}.
(** The other handlers, which use nothing of the writer but its three methods. *)
Context (handlers : endpoint -> X -> http_req -> X * list msg * reply).

Definition respond (x : X) (status : Z) (body : string) : result := mkResult x [] None (mkReply status ∅ (text body)) None.

(** [WSHub.Handler]. *)
Definition WSHub_Handler (x : X) (w : writer) (r : http_req) : result :=
  match upgrade w r with
  | inl status => mkResult x [] None (mkReply status ∅ (text "")) (Some (EWebSocket, r))
  | inr c => mkResult x [] (Some c) (mkReply 101 ∅ (text "")) (Some (EWebSocket, r))
  end.

(** [Instrument] wraps the writer once more and counts the request. *)
Definition Instrument (h : http_handler) : http_handler := fun x w r => h x (responseWriter w) r.
Definition instrumented (e : endpoint) : bool := match e with EMetrics | EJwks | EWebSocket => false | _ => true end.

Definition handler_of (e : endpoint) : http_handler :=
  match e with
  | EWebSocket => WSHub_Handler
  | _ =>
      let h : http_handler := fun x _ r => let '(x, msgs, rep) := handlers e x r in mkResult x msgs None rep (Some (e, r)) in
      if instrumented e then Instrument h else h
  end.

Context (mw : Middleware (KS := KS) (PS := PS)) (h : heap) (now : gotime).

Definition require_auth (next : http_handler) : http_handler := fun x w r =>
  match RequireAuth mw h now (hq_auth r) with
  | Respond status body => respond x status body
  | Next a => next x w (as_principal r a)
  end.

(** The redirects of the mux are given by their Location; the HTML body that
    RedirectHandler adds is left out, and paths have no percent escapes. *)
Definition mux_ServeHTTP (m : list (string * route)) : http_handler := fun x w r =>
  match findHandler m (hq_method r) (hq_path r) with
  | Redirect p =>
      let location := p +:+ (if bool_decide (hq_RawQuery r = "") then "" else "?" +:+ hq_RawQuery r) in
      mkResult x [] None (mkReply 301 {[ "Location" := location ]} (text "")) None
  | NotFound => respond x 404 "404 page not found"
  | Found (e, protected) => (if protected then require_auth (handler_of e) else handler_of e) x w r
  end.

(** Headers set before the rest of the chain; a handler may set them again. *)
Definition with_headers (hs : gmap string string) (res : result) : result :=
  mkResult (r_state res) (r_msgs res) (r_joined res)
    (mkReply (rp_status (r_reply res)) (rp_headers (r_reply res) ∪ hs) (rp_body (r_reply res))) (r_called res).

Definition hstsMiddleware (next : http_handler) : http_handler := fun x w r =>
  with_headers {[ "Strict-Transport-Security" := "max-age=31536000" ]} (next x w r).

Definition cors_headers : gmap string string :=
  <["Access-Control-Allow-Origin" := "*"]> (<["Access-Control-Allow-Methods" := "GET, POST, OPTIONS"]>
    {[ "Access-Control-Allow-Headers" := "Authorization, Content-Type" ]}).
Definition corsMiddleware (next : http_handler) : http_handler := fun x w r =>
  with_headers cors_headers (if bool_decide (hq_method r = "OPTIONS") then respond x 204 "" else next x w r).

(** [minted] is the fresh identifier; the span is not modelled. *)
Definition observabilityMiddleware (minted : string) (next : http_handler) : http_handler := fun x w r =>
  let id := if bool_decide (hq_RequestID r = "") then minted else hq_RequestID r in
  with_headers {[ "X-Request-ID" := id ]} (next x (responseWriter w) r).

(** The handler of the server. *)
Definition serve (m : list (string * route)) (minted : string) : http_handler :=
  observabilityMiddleware minted (corsMiddleware (hstsMiddleware (mux_ServeHTTP m))).
End Serve.

(** ** Which handler *)

Section MuxFacts.
Context {A : Type}.
Implicit Types (m : list (string * A)) (path : string).

Lemma prefix_of_length (p s : string) : HasPrefix s p = true -> forall q, HasPrefix s q = true -> String.length p = String.length q -> p = q.
Proof.
  intros [r ->]%HasPrefix_iff q. revert p r. induction q as [|c q IH]; intros [|c' p] r [r' Hr]%HasPrefix_iff Hl; try done.
  change (String c' (p +:+ r) = String c (q +:+ r')) in Hr. injection Hr as -> Hr. f_equal. cbn in Hl.
  apply (IH p r); [|lia]. rewrite Hr. apply HasPrefix_iff. by exists r'.
Qed.

Lemma matches_prefix path pat : pattern_matches path pat = true -> HasPrefix path pat = true.
Proof.
  unfold pattern_matches. intros [->%bool_decide_eq_true_1|[_ ?]%andb_true_iff]%orb_true_iff; [|done].
  apply HasPrefix_iff. exists "". by rewrite string_app_nil_r.
Qed.

Lemma longest_spec (l : list (string * A)) : forall acc,
  match foldl longer acc l with
  | Some x => (x ∈ l \/ acc = Some x) /\ forall y, (y ∈ l \/ acc = Some y) -> (String.length y.1 <= String.length x.1)%nat
  | None => acc = None /\ l = []
  end.
Proof.
  induction l as [|z l IH]; intros acc; cbn [foldl].
  { destruct acc as [x|]; [|done]. split; [by right|]. intros y [Hy%elem_of_nil|[= ->]]; done. }
  specialize (IH (longer acc z)). destruct (foldl longer (longer acc z) l) as [x|].
  2: { destruct IH as [Hz _]. destruct acc as [[s a]|]; unfold longer in Hz; [|done]. by destruct (String.length s <? String.length z.1)%nat. }
  destruct IH as [Hin Hmax]. unfold longer in Hin, Hmax. destruct acc as [[pat a]|].
  - destruct (Nat.ltb_spec (String.length pat) (String.length z.1)) as [Hlt|Hge].
    + split; [left; apply elem_of_cons; naive_solver|]. intros y [[->|Hy]%elem_of_cons|[= <-]]; [by apply Hmax; right|by apply Hmax; left|].
      cbn. specialize (Hmax z ltac:(by right)). lia.
    + split; [destruct Hin as [Hi| ->]; [left; by right|by right]|]. intros y [[->|Hy]%elem_of_cons|Hy]; [|by apply Hmax; left|by apply Hmax; right].
      specialize (Hmax (pat, a) ltac:(by right)). cbn in *. lia.
  - split; [left; apply elem_of_cons; naive_solver|]. intros y [[->|Hy]%elem_of_cons|Hy]; [by apply Hmax; right|by apply Hmax; left|done].
Qed.

(** The match is the registered pattern, among those that match the path, with no
    longer one beside it. *)
Lemma match_spec m path pat a : NoDup m.*1 ->
  match_ m path = Some (pat, a) <-> (pat, a) ∈ m /\ pattern_matches path pat = true /\
    forall pat' a', (pat', a') ∈ m -> pattern_matches path pat' = true -> (String.length pat' <= String.length pat)%nat.
Proof.
  intros Hnd. unfold match_. pose proof (longest_spec (filter (fun x => pattern_matches path x.1 = true) m) None) as Hs.
  assert (forall y, y ∈ filter (fun x => pattern_matches path x.1 = true) m <-> pattern_matches path y.1 = true /\ y ∈ m) as Hf
    by (intros y; by rewrite list_elem_of_filter).
  destruct (foldl longer None _) as [[pat0 a0]|].
  - destruct Hs as [[Hin|Hin] Hmax]; [|done]. apply Hf in Hin as [Hm Hin]. cbn in Hm. split.
    + intros [= <- <-]. split_and!; [done..|]. intros pat' a' Hin' Hm'. apply (Hmax (pat', a')). left. by apply Hf.
    + intros (Hin' & Hm' & Hmax').
      assert (pat0 = pat) as ->.
      { apply (prefix_of_length pat0 path); [by apply matches_prefix..|].
        specialize (Hmax (pat, a) ltac:(left; by apply Hf)). specialize (Hmax' _ _ Hin Hm). cbn in Hmax. lia. }
      pose proof (elem_of_list_to_map_1 (M := gmap string) m pat a0 Hnd Hin) as Ha.
      pose proof (elem_of_list_to_map_1 (M := gmap string) m pat a Hnd Hin') as Ha'. congruence.
  - destruct Hs as [_ Hnil]. split; [done|]. intros (Hin & Hm & _). assert ((pat, a) ∈ filter (fun x => pattern_matches path x.1 = true) m) as Hx by (by apply Hf).
    rewrite Hnil in Hx. by apply elem_of_nil in Hx.
Qed.
End MuxFacts.

(** ** The route table *)

Section Routes.
Definition path_of (r : registration) : string := match r with Plain p _ | Protected p _ => p end.
Definition entry (o : ServerOptions) (r : registration) : string * route :=
  match r with Plain p e => (p, (e, false)) | Protected p e => (p, (e, auth_set o)) end.

Lemma register_cons o m r : register o (Some m) r = if decide (path_of r ∈ m.*1) then None else Some (m ++ [entry o r]).
Proof.
  assert (forall a, Handle m (path_of r) a = if decide (path_of r ∈ m.*1) then None else Some (m ++ [(path_of r, a)])) as Hh.
  { intros a. unfold Handle. destruct (existsb _ m) eqn:He.
    - apply existsb_exists in He as (x & Hx%list_elem_of_In & Hp%bool_decide_eq_true_1). rewrite decide_True; [done|].
      apply list_elem_of_fmap. by exists x.
    - rewrite decide_False; [done|]. intros (x & Hp & Hx)%list_elem_of_fmap. apply not_true_iff_false in He. apply He, existsb_exists.
      exists x. split; [by apply list_elem_of_In|by apply bool_decide_eq_true_2]. }
  by destruct r; apply Hh.
Qed.

(** Registration succeeds when the paths are distinct, and the table then holds the
    registrations in order. *)
Lemma routes_spec o : routes o = if decide (NoDup (path_of <$> registrations o)) then Some (entry o <$> registrations o) else None.
Proof.
  unfold routes. generalize (registrations o). intros rs.
  assert (forall m, NoDup m.*1 -> foldl (register o) (Some m) rs =
    if decide (NoDup (m.*1 ++ (path_of <$> rs))) then Some (m ++ (entry o <$> rs)) else None) as Hgen.
  { induction rs as [|r rs IH]; intros m Hm; cbn [foldl].
    { cbn [fmap list_fmap]. rewrite !app_nil_r, decide_True by done. done. }
    rewrite register_cons. destruct (decide (path_of r ∈ m.*1)) as [Hin|Hin].
    - rewrite decide_False; [clear; by induction rs|]. rewrite NoDup_app. intros (_ & Hd & _). apply (Hd _ Hin). rewrite fmap_cons. left.
    - assert ((m ++ [entry o r]).*1 = m.*1 ++ [path_of r]) as Hp by (rewrite fmap_app; by destruct r).
      rewrite IH, Hp, !fmap_cons, <- !(assoc_L (++)); [done|]. rewrite Hp. apply NoDup_app. split_and!; [done| |apply NoDup_singleton].
      intros x Hx ->%list_elem_of_singleton. done. }
  rewrite Hgen by constructor. done.
Qed.

(** The endpoints served without credentials. *)
Definition open_endpoint (e : endpoint) : bool :=
  match e with
  | EHealth | EMetrics | EHealthz | EReadyz | EStartupz | ELogin | EJwks | EWebhook | EOnion | EWebSocket => true
  | _ => false
  end.

Lemma entry_open o r : r ∈ registrations o -> (entry o r).2.2 = if open_endpoint (entry o r).2.1 then false else auth_set o.
Proof.
  assert (Forall (fun r => (entry o r).2.2 = if open_endpoint (entry o r).2.1 then false else auth_set o) (registrations o)) as Hall.
  { unfold registrations, when_set. repeat rewrite Forall_app.
    destruct (recipients o), (hidden_service o), (ws_enabled o); split_and!; by repeat constructor. }
  rewrite Forall_forall in Hall. apply Hall.
Qed.

Lemma routes_nodup o m : routes o = Some m -> NoDup m.*1 /\
  forall pat e prot, (pat, (e, prot)) ∈ m -> prot = if open_endpoint e then false else auth_set o.
Proof.
  rewrite routes_spec. destruct (decide _) as [Hnd|]; [|done]. intros <-%(inj Some). split.
  - eapply eq_ind; [exact Hnd|]. rewrite <- list_fmap_compose. apply list_fmap_ext. by intros ? [].
  - intros pat e prot (r & Hr & Hin)%list_elem_of_fmap. pose proof (entry_open o r Hin) as He. by rewrite <- Hr in He.
Qed.

(** The path of an endpoint; that of the WebSocket is configured. *)
Definition fixed_path (e : endpoint) : string :=
  match e with
  | EHealth => "/health" | EMetrics => "/metrics" | EHealthz => "/healthz" | EReadyz => "/readyz" | EStartupz => "/startupz"
  | EBackup => "/api/admin/backup" | ELogin => "/auth/login" | EJwks => "/.well-known/jwks.json" | EStats => "/api/stats"
  | ETopology => "/api/topology" | EWebhook => "/api/canary/webhook/" | ECanaryDNS => "/api/admin/canary/dns"
  | ECanaryHTTP => "/api/admin/canary/http" | ECanaryList => "/api/admin/canary" | EHoneypot => "/api/admin/honeypot"
  | EAlertItem => "/api/alerts/" | EAlertList => "/api/alerts" | EContainment => "/api/incidents/containment" | EEvents => "/api/events"
  | EOnion => "/api/tor/onion" | EWebSocket => ""
  end.

Lemma route_path o m pat e prot : routes o = Some m -> (pat, (e, prot)) ∈ m -> e <> EWebSocket -> pat = fixed_path e.
Proof.
  rewrite routes_spec. destruct (decide _) as [_|]; [|done]. intros <-%(inj Some) (r & Hr & Hin)%list_elem_of_fmap He.
  assert (Forall (fun r => (entry o r).2.1 <> EWebSocket -> (entry o r).1 = fixed_path (entry o r).2.1) (registrations o)) as Hall.
  { unfold registrations, when_set. repeat rewrite Forall_app.
    destruct (recipients o), (hidden_service o), (ws_enabled o); split_and!; by repeat constructor. }
  rewrite Forall_forall in Hall. specialize (Hall r Hin). rewrite <- Hr in Hall. by apply Hall.
Qed.

(** The only start-up panic: the WebSocket path is one of the other routes. *)
Lemma routes_none_iff o : routes o = None <->
  ws_enabled o = true /\ ws_path o ∈ path_of <$> registrations (mkOptions (recipients o) (hidden_service o) false "" (auth_set o)).
Proof.
  rewrite routes_spec. set (rs := registrations (mkOptions _ _ _ _ _)).
  assert (NoDup (path_of <$> rs)) as Hrs.
  { subst rs. unfold registrations, when_set. cbn [ws_enabled hidden_service recipients].
    destruct (recipients o), (hidden_service o); apply (bool_decide_unpack _); vm_compute; exact I. }
  assert (registrations o = rs ++ when_set (ws_enabled o) (Plain (ws_path o) EWebSocket)) as ->.
  { subst rs. unfold registrations. cbn [ws_enabled hidden_service recipients]. by destruct (recipients o), (hidden_service o), (ws_enabled o). }
  rewrite fmap_app. destruct (ws_enabled o); cbn [when_set fmap list_fmap path_of].
  - destruct (decide (NoDup _)) as [Hnd|Hnd].
    + split; [done|]. intros [_ Hin]. apply NoDup_app in Hnd as (_ & Hd & _). exfalso. apply (Hd _ Hin). left.
    + split; [|done]. intros _. split; [done|]. destruct (decide (ws_path o ∈ path_of <$> rs)) as [|Hni]; [done|].
      destruct Hnd. apply NoDup_app. split_and!; [done| |apply NoDup_singleton]. intros x Hx ->%list_elem_of_singleton. done.
  - rewrite (right_id_L [] (++)), decide_True by done. naive_solver.
Qed.

(** The path of a request is that of a route: it is clean, or the method is
    CONNECT, there is no redirect to a subtree, and the pattern is the longest of
    those that match. *)
Definition addressed_to (m : list (string * route)) (r : http_req) (e : endpoint) (protected : bool) : Prop :=
  slash_redirect m (hq_path r) = false /\ (hq_method r = "CONNECT" \/ cleanPath (hq_path r) = hq_path r) /\
  exists pat, (pat, (e, protected)) ∈ m /\ pattern_matches (hq_path r) pat = true /\
    forall pat' a, (pat', a) ∈ m -> pattern_matches (hq_path r) pat' = true -> (String.length pat' <= String.length pat)%nat.

Lemma findHandler_iff m r e protected : NoDup m.*1 ->
  findHandler m (hq_method r) (hq_path r) = Found (e, protected) <-> addressed_to m r e protected.
Proof.
  intros Hnd. unfold findHandler, addressed_to.
  assert (match_only m (hq_path r) = Found (e, protected) <-> exists pat, match_ m (hq_path r) = Some (pat, (e, protected))) as Hm.
  { unfold match_only. destruct (match_ m (hq_path r)) as [[pat [e' b]]|]; naive_solver. }
  assert ((exists pat, match_ m (hq_path r) = Some (pat, (e, protected))) <-> exists pat, (pat, (e, protected)) ∈ m /\
    pattern_matches (hq_path r) pat = true /\
    forall pat' a, (pat', a) ∈ m -> pattern_matches (hq_path r) pat' = true -> (String.length pat' <= String.length pat)%nat) as Hs
    by (split; intros [pat Hp]; exists pat; by apply match_spec).
  rewrite <- Hs, <- Hm. case_bool_decide as Hc.
  - destruct (slash_redirect m (hq_path r)); naive_solver.
  - case_bool_decide as Hp; [rewrite Hp|]; destruct (slash_redirect m _) eqn:Hsl; naive_solver.
Qed.

End Routes.

(** ** What a request meets *)

Section ServeFacts.
Context {KS PS : Type} `{KeyStore KS} `{PrincipalStore PS} `{Ed25519} `{JwtLib}.
Context {X B msg : Type} (text : string -> B) `{WebSocketLib}.
Context (handlers : endpoint -> X -> http_req -> X * list msg * reply (B := B)).
Context (mw : Middleware (KS := KS) (PS := PS)).

(** The reply headers of the outer layers do not touch anything else. *)
Lemma serve_called m minted h now x w r :
  r_called (serve text handlers mw h now m minted x w r) =
    if bool_decide (hq_method r = "OPTIONS") then None else r_called (mux_ServeHTTP text handlers mw h now m x (responseWriter w) r).
Proof. unfold serve, observabilityMiddleware, corsMiddleware, hstsMiddleware, with_headers. by case_bool_decide. Qed.

Lemma handler_of_called e x w r : r_called (handler_of text handlers e x w r) = Some (e, r).
Proof.
  unfold handler_of, WSHub_Handler, Instrument. destruct e; cbn; try (by destruct (handlers _ x r) as [[? ?] ?]).
  by destruct (upgrade w r).
Qed.

Lemma called_iff (o : ServerOptions) (m : list (string * route)) (minted : string) (h : heap) (now : gotime)
    (x : X) (w : writer) (r r' : http_req) (e : endpoint) :
  routes o = Some m -> auth_set o = true ->
  r_called (serve text handlers mw h now m minted x w r) = Some (e, r') <->
  hq_method r <> "OPTIONS" /\ addressed_to m r e (negb (open_endpoint e)) /\
  if open_endpoint e then r' = r
  else exists l p, authenticated_as mw h now (hq_auth r) l p /\ r' = as_principal r (WithPrincipal (hq_auth r) l).
Proof.
  intros Hm Ha. destruct (routes_nodup o m Hm) as [Hnd Hprot]. rewrite serve_called. case_bool_decide as Ho; [naive_solver|].
  assert (forall b, addressed_to m r e b -> b = negb (open_endpoint e)) as Hb.
  { intros b (_ & _ & pat & Hin & _). rewrite (Hprot _ _ _ Hin), Ha. by destruct (open_endpoint e). }
  unfold mux_ServeHTTP. destruct (findHandler m (hq_method r) (hq_path r)) as [p| |[e' b]] eqn:Hf; cbn.
  1,2: split; [done|]; intros (_ & Hadd & _); apply findHandler_iff in Hadd; [congruence|done].
  pose proof (proj1 (findHandler_iff m r e' b Hnd) Hf) as Hadd.
  assert (b = negb (open_endpoint e')) as ->.
  { destruct Hadd as (_ & _ & pat & Hin & _). rewrite (Hprot _ _ _ Hin), Ha. by destruct (open_endpoint e'). }
  assert (addressed_to m r e (negb (open_endpoint e)) -> e' = e) as He.
  { intros Hadd'. apply findHandler_iff in Hadd'; [|done]. congruence. }
  destruct (open_endpoint e') eqn:Hopen; cbn [negb].
  - rewrite handler_of_called. split; [intros [= <- <-]; rewrite Hopen; done|]. intros (_ & Hadd' & Hr). apply He in Hadd' as ->.
    rewrite Hopen in Hr. by subst.
  - unfold require_auth, RequireAuth. destruct (Authenticate_request mw h now (hq_auth r)) as [err|l] eqn:Hau.
    + split.
      * by destruct err as [| |[]|].
      * intros (_ & Hadd' & Hr). apply He in Hadd' as ->. rewrite Hopen in Hr. destruct Hr as (l & p & Hp & _).
        assert (Authenticate_request mw h now (hq_auth r) = inr l) by (apply authenticate_request_iff; eauto). congruence.
    + rewrite handler_of_called. pose proof (proj1 (authenticate_request_iff mw h now (hq_auth r) l) Hau) as [p Hp]. split.
      * intros [= <- <-]. rewrite Hopen. split_and!; [done..|]. by exists l, p.
      * intros (_ & Hadd' & Hr). apply He in Hadd' as ->. rewrite Hopen in Hr. destruct Hr as (l' & p' & Hp' & ->).
        assert (Authenticate_request mw h now (hq_auth r) = inr l') by (apply authenticate_request_iff; eauto). congruence.
Qed.

(** What a request changes is what the handler that ran has changed. *)
Lemma serve_effect m minted h now x w r :
  let res := serve text handlers mw h now m minted x w r in
  match r_called res with
  | None => r_state res = x /\ r_msgs res = []
  | Some (e, r') => e = EWebSocket /\ r_state res = x /\ r_msgs res = [] \/
      e <> EWebSocket /\ r_state res = (handlers e x r').1.1 /\ r_msgs res = (handlers e x r').1.2 /\
      rp_status (r_reply res) = rp_status (handlers e x r').2 /\ rp_body (r_reply res) = rp_body (handlers e x r').2
  end.
Proof.
  cbv zeta. unfold serve, observabilityMiddleware, corsMiddleware, hstsMiddleware, with_headers. cbn [r_called r_state r_msgs r_reply rp_status rp_body].
  destruct (bool_decide (hq_method r = "OPTIONS")); [done|]. cbn [r_called r_state r_msgs r_reply rp_status rp_body].
  assert (forall e r', let res := handler_of text handlers e x (responseWriter w) r' in r_called res = Some (e, r') /\
    (e = EWebSocket /\ r_state res = x /\ r_msgs res = [] \/
      e <> EWebSocket /\ r_state res = (handlers e x r').1.1 /\ r_msgs res = (handlers e x r').1.2 /\
      rp_status (r_reply res) = rp_status (handlers e x r').2 /\ rp_body (r_reply res) = rp_body (handlers e x r').2)) as Hh.
  { intros e r'. split; [apply handler_of_called|]. unfold handler_of, WSHub_Handler, Instrument.
    destruct e; cbn; try (by right; destruct (handlers _ x r') as [[? ?] ?]). left. by destruct (upgrade _ r'). }
  unfold mux_ServeHTTP. destruct (findHandler m (hq_method r) (hq_path r)) as [p| |[e prot]]; [done..|]. destruct prot.
  - unfold require_auth. destruct (RequireAuth mw h now (hq_auth r)) as [st b|a]; [done|]. destruct (Hh e (as_principal r a)) as [-> Hx]. exact Hx.
  - destruct (Hh e r) as [-> Hx]. exact Hx.
Qed.

(** C13: The handler of an endpoint runs exactly for requests addressed to it with
    another method than OPTIONS; an endpoint that is not open asks besides for the
    credentials of an active principal, who is then in the request's context.
    Nothing else is asked: no role and no permission. *)
Theorem handler_runs_iff (o : ServerOptions) (m : list (string * route)) (minted : string) (h : heap) (now : gotime)
    (x : X) (w : writer) (r r' : http_req) (e : endpoint) :
  routes o = Some m -> auth_set o = true ->
  r_called (serve text handlers mw h now m minted x w r) = Some (e, r') <->
  hq_method r <> "OPTIONS" /\ addressed_to m r e (negb (open_endpoint e)) /\
  if open_endpoint e then r' = r
  else exists l p, authenticated_as mw h now (hq_auth r) l p /\ r' = as_principal r (WithPrincipal (hq_auth r) l).
Proof. apply called_iff. Qed.

(** Roles do not matter: two states of the principals with the same accounts and
    the same account statuses, whatever roles they give, serve every request in the
    same way. *)
Theorem roles_never_matter (m : list (string * route)) (minted : string) (h h' : heap) (now : gotime) (x : X) (w : writer) (r : http_req) :
  (forall l, Status <$> h !! l = Status <$> h' !! l) ->
  serve text handlers mw h now m minted x w r = serve text handlers mw h' now m minted x w r.
Proof.
  intros Hh. assert (Authenticate_request mw h now (hq_auth r) = Authenticate_request mw h' now (hq_auth r)) as Ha.
  { assert (forall p, active_or_refuse h p = active_or_refuse h' p) as Hact.
    { intros [l|]; [|done]. unfold active_or_refuse, deref. specialize (Hh l). destruct (h !! l), (h' !! l); try done.
      cbn in Hh. injection Hh as Hs. unfold IsActive. by rewrite Hs. }
    unfold Authenticate_request. destruct (extractBearer (hq_auth r)); [done|]. rewrite !Hact.
    destruct (negb _ && _); [done|]. destruct (Verify_token _ _ _ _ _); [done|]. destruct (ps_Get _ _); [done|]. apply Hact. }
  unfold serve, observabilityMiddleware, corsMiddleware, hstsMiddleware, mux_ServeHTTP. destruct (bool_decide (hq_method r = "OPTIONS")); [done|].
  destruct (findHandler m (hq_method r) (hq_path r)) as [| |[e [|]]]; try done. unfold require_auth, RequireAuth. by rewrite Ha.
Qed.

(** Every reply allows any origin and names the request; the HSTS header is missing
    exactly from the replies to OPTIONS, and no preflight allows PATCH. *)
Theorem reply_headers (m : list (string * route)) (minted : string) (h : heap) (now : gotime) (x : X) (w : writer) (r : http_req) :
  let hs := rp_headers (r_reply (serve text handlers mw h now m minted x w r)) in
  is_Some (hs !! "X-Request-ID") /\ is_Some (hs !! "Access-Control-Allow-Origin") /\
  (hs !! "Strict-Transport-Security" = None <-> hq_method r = "OPTIONS") /\
  (hq_method r = "OPTIONS" -> hs !! "Access-Control-Allow-Methods" = Some "GET, POST, OPTIONS").
Proof.
  intros hs. subst hs. unfold serve, observabilityMiddleware, corsMiddleware, hstsMiddleware, with_headers, cors_headers.
  cbn [r_reply rp_headers]. split_and!.
  - apply lookup_union_is_Some. right. by eexists; apply lookup_singleton_eq.
  - apply lookup_union_is_Some. left. apply lookup_union_is_Some. right. by eexists; apply lookup_insert_eq.
  - destruct (bool_decide_reflect (hq_method r = "OPTIONS")) as [Ho|Ho]; cbn [rp_headers r_reply respond]; split; try done; intros Hn.
    apply lookup_union_None in Hn as [Hn _]. apply lookup_union_None in Hn as [Hn _]. by apply lookup_union_None in Hn as [_ Hn].
  - intros Ho. by rewrite bool_decide_eq_true_2 by done.
Qed.
End ServeFacts.

(** ** The hub behind the server *)

Section Deployed.
Context {KS PS : Type} `{KeyStore KS} `{PrincipalStore PS} `{Ed25519} `{JwtLib}.
Context {X B msg data : Type} (text : string -> B) `{WebSocketLib} (encode : msg -> option data).
Context (handlers : endpoint -> X -> http_req -> X * list msg * reply (B := B)).
Context (mw : Middleware (KS := KS) (PS := PS)) (m : list (string * route)).

Fixpoint broadcast_all (hub : WSHub) (tr : list label) (msgs : list msg) : WSHub * list (label (msg := msg) (data := data)) :=
  match msgs with
  | [] => (hub, tr)
  | x :: msgs' => broadcast_all (Broadcast (data := data) hub x).1 (tr ++ (Broadcast hub x).2) msgs'
  end.

(** What a served request does to the hub. *)
Definition apply_result (hub : WSHub) (tr : list label) (res : result (X := X) (B := B)) : WSHub * list (label (msg := msg) (data := data)) :=
  let '(hub, tr) := broadcast_all hub tr (r_msgs res) in
  match r_joined res with Some c => ((run_register (data := data) hub c).1, tr ++ (run_register hub c).2) | None => (hub, tr) end.

(** The program: requests served in any order, from writers of any kind, among
    broadcasts of other goroutines and iterations of the hub's loop. *)
Inductive deployed : X -> WSHub -> list (label (msg := msg) (data := data)) -> Prop :=
| deployed_start x : deployed x NewWSHub []
| deployed_request x hub tr minted h now w r : deployed x hub tr ->
    let res := serve text handlers mw h now m minted x w r in
    deployed (r_state res) (apply_result hub tr res).1 (apply_result hub tr res).2
| deployed_broadcast x hub tr a : deployed x hub tr -> deployed x (Broadcast (data := data) hub a).1 (tr ++ (Broadcast hub a).2)
| deployed_unregister x hub tr c : deployed x hub tr -> deployed x (run_unregister (data := data) hub c).1 (tr ++ (run_unregister hub c).2)
| deployed_message x hub tr ok order : deployed x hub tr -> order ≡ₚ elements (clients hub) ->
    deployed x (run_message encode ok order hub).1 (tr ++ (run_message encode ok order hub).2).

Definition reaches_nobody (hub : WSHub (msg := msg)) (tr : list (label (msg := msg) (data := data))) : Prop :=
  clients hub = ∅ /\ forall c, Joined c ∉ tr /\ forall d, Wrote c d ∉ tr.

Lemma broadcast_all_nobody msgs : forall hub tr, reaches_nobody hub tr ->
  reaches_nobody (broadcast_all hub tr msgs).1 (broadcast_all hub tr msgs).2.
Proof.
  induction msgs as [|a msgs IH]; intros hub tr Hn; [done|]. cbn [broadcast_all]. apply IH. destruct Hn as [Hc Hn].
  unfold Broadcast. destruct (_ <? _)%nat; cbn [fst snd]; (split; [done|]); intros c; destruct (Hn c) as [Hj Hw].
  all: split; [|intros d]; rewrite elem_of_app, list_elem_of_singleton; [by intros [|]|]; specialize (Hw d); by intros [|].
Qed.

Context {ws_laws : WebSocketLaws}.

Lemma serve_joins_nobody minted h now x w r : r_joined (serve text handlers mw h now m minted x w r) = None.
Proof.
  unfold serve, observabilityMiddleware, corsMiddleware, hstsMiddleware, with_headers, mux_ServeHTTP. cbn [r_joined].
  destruct (bool_decide (hq_method r = "OPTIONS")); [done|]. cbn [r_joined].
  assert (forall e r, r_joined (handler_of text handlers e x (responseWriter w) r) = None) as Hh.
  { intros e r'. unfold handler_of, WSHub_Handler, Instrument. destruct e; cbn; try (by destruct (handlers _ x r') as [[? ?] ?]).
    destruct (upgrade (responseWriter w) r') as [st|c] eqn:Hu; [done|]. apply upgrade_needs_hijack in Hu.
    exfalso. revert Hu. apply (bool_decide_unpack _). vm_compute. exact I. }
  destruct (findHandler m (hq_method r) (hq_path r)) as [| |[e prot]]; [done..|].
  destruct prot; [|apply Hh]. unfold require_auth. destruct (RequireAuth mw h now (hq_auth r)); [done|apply Hh].
Qed.

(** C14: The WebSocket endpoint works for nobody: the server's outermost wrapper hides
    the method by which a connection is taken over, so however many requests are
    served no client is ever connected, and no message ever reaches one. *)
Theorem websocket_never_connects (x : X) (hub : WSHub) (tr : list (label (msg := msg) (data := data))) : deployed x hub tr -> reaches_nobody hub tr.
Proof.
  induction 1 as [x|x hub tr minted h now w r Hd IH res|x hub tr a Hd IH|x hub tr c Hd IH|x hub tr ok order Hd IH Hord].
  - split; [done|]. set_solver.
  - unfold apply_result. pose proof (broadcast_all_nobody (r_msgs res) hub tr IH) as Hb.
    destruct (broadcast_all hub tr (r_msgs res)) as [hub' tr']. subst res. by rewrite serve_joins_nobody.
  - apply (broadcast_all_nobody [a] hub tr IH).
  - destruct IH as [Hc Hn]. unfold run_unregister. rewrite decide_False by (rewrite Hc; set_solver). cbn [fst snd].
    by rewrite (right_id_L [] (++)).
  - destruct IH as [Hc Hn]. rewrite Hc, elements_empty in Hord. apply Permutation_nil_r in Hord as ->.
    unfold run_message. destruct (broadcast hub) as [|a rest]; cbn [write_all fst snd]; [by rewrite (right_id_L [] (++))|].
    destruct (encode a); cbn [fst snd]; (split; [done|]); intros c; destruct (Hn c) as [Hj Hw].
    all: split; [|intros d']; rewrite elem_of_app, list_elem_of_singleton; [by intros [|]|]; specialize (Hw d'); by intros [|].
Qed.
End Deployed.

(** ** A small server *)

Module ServerDemo.
Import PkiDemo ToyJwt JwtDemo AuthHttpDemo.

Definition o : ServerOptions := mkOptions true false true "/ws" true.
Definition table : list (string * route) := default [] (routes o).
(** Gorilla's upgrader on a well-formed request. *)
#[local] Instance gorilla : WebSocketLib := fun w r => if decide (MHijack ∈ w) then inr 7%nat else inl 500.
Lemma gorilla_laws : WebSocketLaws.
Proof. intros w r c. unfold upgrade, gorilla. by destruct (decide (MHijack ∈ w)). Qed.
Definition http1 : writer := [MHeader; MWrite; MWriteHeader; MFlush; MHijack].
Definition get (method path auth : string) : http_req :=
  mkHttp (mkRequest method auth "" "" "" None None None) path "" ∅ "" "10.0.0.9:5000" "" "".
Definition handlers (e : endpoint) (x : nat) (r : http_req) : nat * list nat * reply (B := string) := (S x, [x], mkReply 200 ∅ "ok").
Definition ask (r : http_req) : result (X := nat) (B := string) (msg := nat) :=
  serve (fun s => s) handlers m h (20 * sec) table "id" 0%nat http1 r.
Definition token : string := "Bearer " +:+ AccessToken pair1.

(** An auditor plants canaries. *)
Lemma handler_runs_iff_witness : exists r', r_called (ask (get "POST" "/api/admin/canary/dns" token)) = Some (ECanaryDNS, r').
Proof.
  exists (as_principal (get "POST" "/api/admin/canary/dns" token) (WithPrincipal (hq_auth (get "POST" "/api/admin/canary/dns" token)) 1)).
  apply (handler_runs_iff (fun s => s) handlers m o table "id" h (20 * sec) 0%nat http1 (get "POST" "/api/admin/canary/dns" token)); [reflexivity..|].
  split; [discriminate|]. split; [apply findHandler_iff; [apply (routes_nodup o); reflexivity|vm_compute; reflexivity]|].
  exists 1%nat. assert (Authenticate_request m h (20 * sec) (hq_auth (get "POST" "/api/admin/canary/dns" token)) = inr 1%nat) as Ha by (vm_compute; reflexivity).
  apply authenticate_request_iff in Ha as [p Hp]. by exists p.
Defined.

Lemma roles_never_matter_witness :
  ask (get "POST" "/api/admin/backup" token) =
  serve (fun s => s) handlers m (<[1%nat := mkPrincipal "u1" PrincipalHuman "alice" "" StatusActive [] None 0 None]> h) (20 * sec) table "id" 0%nat http1
    (get "POST" "/api/admin/backup" token).
Proof.
  apply roles_never_matter. intros l. destruct (decide (l = 1%nat)) as [->|Hl]; [by rewrite lookup_insert_eq|by rewrite lookup_insert_ne].
Defined.

Lemma websocket_never_connects_witness : rp_status (r_reply (ask (get "GET" "/ws" token))) = 500 /\ upgrade http1 (get "GET" "/ws" token) = inr 7%nat /\
  clients (apply_result (data := nat) NewWSHub [] (ask (get "GET" "/ws" token))).1 = ∅.
Proof.
  split; [vm_compute; reflexivity|]. split; [reflexivity|].
  refine (proj1 (websocket_never_connects (ws_laws := gorilla_laws) (fun s => s) Some handlers m table _ _ _ _)).
  apply (deployed_request (fun s => s) Some handlers m table 0%nat NewWSHub [] "id" h (20 * sec) http1 (get "GET" "/ws" token)), deployed_start.
Defined.

(** Some addresses. *)
Example dispatch_demo : map (findHandler table "GET") ["/api/alerts"; "/api/alerts/a1"; "/api/canary/webhook"; "//api/alerts"; "/api/alerts/.."; "/apis"] =
  [Found (EAlertList, true); Found (EAlertItem, true); Redirect "/api/canary/webhook/"; Redirect "/api/alerts"; Redirect "/api"; NotFound].
Proof. reflexivity. Qed.
Example ws_clash : routes (mkOptions false false true "/health" true) = None.
Proof. reflexivity. Qed.
End ServerDemo.
