(* ===== verification/Boot.v ===== *)
(** * First boot and login

    The identity part of internal/app/app.go (the keys made at start-up, [seedAdmin],
    the development token) and the login endpoint of internal/api/login.go: from an
    empty program to a request served with a token of its own, and until when. *)
From stdpp Require Import base list strings gmap.
From Stdlib Require Import ZArith Lia Bool Ascii.
From S2P Require Import Prelude Models GoStrings GoTime Pki EventSigning Identity Authn Jwt Authz AuthHttp.
Local Open Scope string_scope.
Local Open Scope list_scope.
Local Open Scope Z_scope.

Definition hours (n : Z) : Z := n * 3600 * ns_per_s.

(** ** The keys *)

Section Keys.
Context {KS : Type} `{KeyStore KS} `{Ed25519}.

(** What one key generation draws and when. *)
Record draw := mkDraw { d_entropy : bytes; d_id : string; d_now : gotime }.
Definition generate (s : KS) (purpose : Purpose) (ttl : Z) (d : draw) : KS * res perror KeyPair :=
  GenerateKeyPair s purpose ttl (d_entropy d) (d_id d) (d_now d).

(** The keys for events and, when the log is open, tree heads; a failure is only
    logged. *)
Definition boot_event_key (s : KS) (event : draw) : KS := (generate s PurposeEventSigning (hours (7 * 24)) event).1.
Definition boot_sth_key (s : KS) (sth : draw) : KS := (generate s PurposeTransparencyLogSTH (hours (7 * 24)) sth).1.

(** The keys [App.Run] makes: the root and the token key are required, the others
    are not.  Nothing in the program makes or rotates a key afterwards. *)
Definition boot_keys (s : KS) (ca jwt event sth : draw) (log_open : bool) : KS * bool :=
  match EnsureRootCA s (hours (365 * 24)) (d_entropy ca) (d_id ca) (d_now ca) with
  | (s, ROk _) =>
      match generate s PurposeJWTSigning (hours 24) jwt with
      | (s, ROk _) =>
          let s := boot_event_key s event in
          (if log_open then boot_sth_key s sth else s, true)
      | (s, _) => (s, false)
      end
  | (s, _) => (s, false)
  end.
End Keys.

(** ** The first principal *)

Section Seed.
Context `{Libraries}.

Definition admin_id := "principal-admin-001".
Definition admin : Principal := mkPrincipal admin_id PrincipalHuman "admin" "OWASAKA Administrator" StatusActive ["admin"] None 0 None.

(** [OSWAKA_ADMIN_PASSWORD], empty when unset. *)
Definition admin_password (env : string) : string := if bool_decide (env = "") then "owasaka-admin" else env.

(** [secret] is the result of [GenerateTOTPSecret], [l] the new principal's
    location, [bcrypt] hashes, [rand1] and [rand2] are the API key's random reads. *)
Definition seedAdmin (ps : MemoryPrincipalStore.t) (h : heap) (cs : MemoryCredentialStore.t) (env : string) (secret : option string)
    (l : loc) (bcrypt : bytes -> option bytes) (rand1 rand2 : option bytes) : MemoryPrincipalStore.t * heap * MemoryCredentialStore.t :=
  match MemoryPrincipalStore.Get ps admin_id with
  | inr _ => (ps, h, cs)
  | inl _ =>
      match secret with
      | None => (ps, h, cs)
      | Some secret =>
          let h' := <[l := admin]> h in
          match MemoryPrincipalStore.Save ps h' (Some l) with
          | Some (ps, None) =>
              match NewPasswordTOTPCredential bcrypt admin_id "admin" (admin_password env) secret "OWASAKA" with
              | inl _ => (ps, h', cs)
              | inr cred =>
                  let cs := MemoryCredentialStore.Save cs cred in
                  match NewAPIKey rand1 rand2 bcrypt admin_id "default" with
                  | inl _ => (ps, h', cs)
                  | inr (key, _) => (ps, h', MemoryCredentialStore.Save cs key)
                  end
              end
          | _ => (ps, h', cs)
          end
      end
  end.

(** The middleware of [App.Run]: with [OSWAKA_ENV=development] a fixed token stands
    for the seeded principal; [l'] is the location of the stand-in made when there
    is none. *)
Definition app_middleware {KS} `{KeyStore KS} (authority : KS) (ps : MemoryPrincipalStore.t) (env token : string) (l' : loc)
  : Middleware (KS := KS) (PS := MemoryPrincipalStore.t) :=
  let mw := New_middleware authority None ps in
  if bool_decide (env = "development") then
    let token := if bool_decide (token = "") then "oswaka-dev" else token in
    WithDevMode token (Some (match MemoryPrincipalStore.Get ps admin_id with inr l => l | inl _ => l' end)) mw
  else mw.
End Seed.

(** ** Login *)

Section Login.
Context {KS : Type} `{KeyStore KS} `{Ed25519} `{JwtLib} `{Libraries}.

Inductive login_reply := LoginError (status : Z) (message : string) | LoggedIn (tokens : TokenPair) (expires_in : Z) (p : Principal).

Definition login_factors (username password totp : string) : list AuthFactor :=
  [mkAuthFactor CredentialPassword username (go_bytes password) {[ "totp" := VString totp ]}].

(** [body] is the decoded request.  The clock is read three times: by the issuer
    ([t_issue]), for the last-seen mark ([t_seen]) and by time.Until for the reply
    ([t_reply]), whose whole seconds are the float64 quotient truncated by int. *)
Definition LoginHandler (ps : MemoryPrincipalStore.t) (h : heap) (cs : MemoryCredentialStore.t) (s : KS)
    (t_issue t_seen t_reply : gotime) (jti1 jti2 : string)
    (method : string) (body : option (string * string * string)) : heap * login_reply :=
  if negb (bool_decide (method = "POST")) then (h, LoginError 405 "method not allowed")
  else
    match body with
    | None => (h, LoginError 400 "invalid request body")
    | Some (username, password, totp) =>
        if bool_decide (username = "") || bool_decide (password = "") || bool_decide (totp = "")
        then (h, LoginError 400 "username, password, and totp are required")
        else
          match Authenticate ps h cs (login_factors username password totp) with
          | inl _ => (h, LoginError 401 "authentication failed")
          | inr l =>
              match Issue s DefaultAccessTTL DefaultRefreshTTL t_issue jti1 jti2 (h !! l) with
              | inl _ => (h, LoginError 500 "token issuance failed")
              | inr tokens =>
                  match h !! l with
                  | None => (h, LoginError 500 "token issuance failed")
                  | Some p =>
                      let h := (MemoryPrincipalStore.UpdateLastSeen ps h (ID p) t_seen).1 in
                      (h, LoggedIn tokens (Z.quot (AccessExp tokens - t_reply) ns_per_s) (default p (h !! l)))
                  end
              end
          end
    end.

(** What the credentials of an accepted login are. *)
Definition password_accepted (ps : MemoryPrincipalStore.t) (h : heap) (cs : MemoryCredentialStore.t)
    (username password totp : string) (l : loc) (p : Principal) : Prop :=
  exists pid subject hash secret issuer,
    MemoryCredentialStore.FindBySubject cs CredentialPassword username = inr (PasswordTOTPCredential pid subject hash secret issuer) /\
    CompareHashAndPassword hash (go_bytes password) = true /\ totp_Validate totp secret = true /\
    MemoryPrincipalStore.Get ps pid = inr l /\ h !! l = Some p /\ Status p = StatusActive /\
    (Type_ p = PrincipalHuman \/ Type_ p = PrincipalAgent).

Lemma login_authenticates ps h cs username password totp l : totp <> "" ->
  Authenticate ps h cs (login_factors username password totp) = inr l <->
  exists p, password_accepted ps h cs username password totp l p.
Proof.
  intros Ht. rewrite authenticate_iff. unfold accepted, login_factors, password_accepted. split.
  - intros (f0 & cred & p & [= <-] & Hc & Hv & Hp & Hl & Hs & He). exists p.
    specialize (Hv _ ltac:(left)). cbn [f_Kind f_Subject length] in *.
    destruct cred as [pid subject hash secret issuer|pid keyID hash label|pid subject fp]; cbn in Hv; try done.
    unfold verify_password in Hv. cbn [f_Kind f_Proof f_Extra] in Hv. rewrite bool_decide_eq_true_2 in Hv by done. cbn [negb] in Hv.
    destruct (CompareHashAndPassword hash (go_bytes password)) eqn:Hcmp; [|done]. cbn [negb] in Hv.
    rewrite lookup_singleton_eq, bool_decide_eq_false_2 in Hv by done. destruct (totp_Validate totp secret) eqn:Htv; [|done].
    exists pid, subject, hash, secret, issuer. split_and!; try done.
    + unfold ps_Get, memory_principals in Hp. cbn [PrincipalID] in Hp. destruct (MemoryPrincipalStore.Get ps pid); congruence.
    + unfold enough_factors in He. destruct He as [[? _]|[[_ ?]|?]]; [by left|done|by right].
  - intros (p & pid & subject & hash & secret & issuer & Hc & Hcmp & Htv & Hp & Hl & Hs & Hty).
    eexists _, (PasswordTOTPCredential pid subject hash secret issuer), p. split_and!; [done|exact Hc| | |done|done|].
    + intros f ->%list_elem_of_singleton. cbn. unfold verify_password. cbn [f_Kind f_Proof f_Extra].
      rewrite bool_decide_eq_true_2 by done. cbn [negb]. rewrite Hcmp, lookup_singleton_eq, bool_decide_eq_false_2, Htv by done. done.
    + unfold ps_Get, memory_principals. cbn [PrincipalID]. by rewrite Hp.
    + unfold enough_factors. destruct Hty as [Hty|Hty]; [left|by right; right]. split; [done|]. by rewrite decide_True.
Qed.
End Login.

(** ** Until when *)

Section Sessions.
Context {KS : Type} `{KeyStore KS} `{Ed25519} `{JwtLib} `{!KeyStoreLaws KS} `{!JwtLaws} `{!Ed25519Laws}.

(** The token key of the store and no other: it ends at [until]. *)
Definition token_key_until (s : KS) (until : gotime) : Prop :=
  exists kp, ActiveKey s PurposeJWTSigning = ROk kp /\ kp_ID kp <> "" /\ genuine kp /\ kp_NotAfter kp = until /\
    ks_keys s !! kp_ID kp = Some kp /\ kp_Status kp = StatusKeyActive.

Lemma generate_spec (s s' : KS) purpose ttl d kp : d_id d <> "" -> generate s purpose ttl d = (s', ROk kp) ->
  kp = mkKeyPair (d_id d) purpose (kp_Public kp) (kp_Private kp) StatusKeyActive (d_now d) (d_now d) (d_now d + ttl) /\ genuine kp /\
  ks_keys s' = <[d_id d := kp]> (ks_keys s).
Proof.
  intros Hid. unfold generate, GenerateKeyPair. case_bool_decide; [done|]. destruct (GenerateKey (d_entropy d)) as [[pub priv]|] eqn:Hg; [|done].
  set (k := mkKeyPair _ _ _ _ _ _ _ _). destruct (ks_Save_spec s k Hid) as [Hok Hkeys]. destruct (ks_Save s k) as [s1 r]. cbn in Hok, Hkeys. subst r.
  intros [= <- <-]. split; [done|]. split; [by exists (d_entropy d)|done].
Qed.

Lemma generate_keys (s : KS) purpose ttl d : d_id d <> "" ->
  ks_keys (generate s purpose ttl d).1 = ks_keys s \/
  exists kp, kp_Purpose kp = purpose /\ kp_ID kp = d_id d /\ ks_keys (generate s purpose ttl d).1 = <[d_id d := kp]> (ks_keys s).
Proof.
  intros Hid. unfold generate, GenerateKeyPair. case_bool_decide; [by left|]. destruct (GenerateKey (d_entropy d)) as [[pub priv]|]; [|by left].
  set (k := mkKeyPair _ _ _ _ _ _ _ _). destruct (ks_Save_spec s k Hid) as [Hok Hkeys]. destruct (ks_Save s k) as [s1 r]. cbn in Hok, Hkeys. subst r.
  right. by exists k.
Qed.

(** The store after start-up: one token key, made for a day. *)
Lemma boot_token_key (s s' : KS) ca jwt event sth log_open :
  ks_keys s = ∅ -> NoDup [d_id ca; d_id jwt; d_id event; d_id sth] -> Forall (fun id => id <> "") [d_id ca; d_id jwt; d_id event; d_id sth] ->
  boot_keys s ca jwt event sth log_open = (s', true) -> token_key_until s' (d_now jwt + hours 24).
Proof.
  intros Hs Hnd Hne. rewrite !Forall_cons in Hne. destruct Hne as (Hca & Hjwt & Hev & Hsth & _).
  apply NoDup_cons in Hnd as [_ Hnd]. apply NoDup_cons in Hnd as [Hn2 _].
  assert (d_id jwt <> d_id event) as Hje by (intros He; apply Hn2; rewrite He; left).
  assert (d_id jwt <> d_id sth) as Hjs by (intros He; apply Hn2; rewrite He; right; left).
  unfold boot_keys, boot_event_key, boot_sth_key. destruct (EnsureRootCA s _ _ _ _) as [s1 [kca|e|]] eqn:Hroot; [|done..].
  assert (exists kp, kp_Purpose kp = PurposeCA /\ ks_keys s1 = <[d_id ca := kp]> ∅) as (k1 & Hp1 & Hk1).
  { unfold EnsureRootCA in Hroot. pose proof (ks_Active_spec s PurposeCA) as Ha. destruct (ks_ActiveByPurpose s PurposeCA) as [k|e|]; [| |done].
    - destruct Ha as (_ & _ & id & Hid). rewrite Hs in Hid. by rewrite lookup_empty in Hid.
    - destruct Ha as [-> _]. rewrite bool_decide_eq_true_2 in Hroot by done. cbn [negb] in Hroot.
      destruct (generate_spec s s1 PurposeCA (hours (365 * 24)) ca kca Hca Hroot) as (Hk & _ & Hkeys). exists kca. rewrite Hs in Hkeys.
      split; [by rewrite Hk|done]. }
  destruct (generate s1 PurposeJWTSigning (hours 24) jwt) as [s2 [kj|e|]] eqn:Hj; [|done..].
  destruct (generate_spec _ _ _ _ _ _ Hjwt Hj) as (Hkj & Hgj & Hk2). rewrite Hk1 in Hk2.
  intros Hb. injection Hb as Hs'.
  assert (exists s3, s3 = (generate s2 PurposeEventSigning (hours (7 * 24)) event).1) as [s3 Hs3] by eauto. rewrite <- Hs3 in Hs'.
  assert (ks_keys s' !! d_id jwt = Some kj /\ forall id k, ks_keys s' !! id = Some k -> kp_Purpose k = PurposeJWTSigning -> k = kj) as [Hin Huniq].
  { assert (ks_keys s3 !! d_id jwt = Some kj /\ forall id k, ks_keys s3 !! id = Some k -> kp_Purpose k = PurposeJWTSigning -> k = kj) as [Hi3 Hu3].
    { assert (ks_keys s2 !! d_id jwt = Some kj /\ forall id k, ks_keys s2 !! id = Some k -> kp_Purpose k = PurposeJWTSigning -> k = kj) as [Hi2 Hu2].
      { rewrite Hk2. split; [by rewrite lookup_insert_eq|]. intros id k [[<- <-]|[_ [[_ <-]|[_ Hx]]%lookup_insert_Some]]%lookup_insert_Some Hp; [done| |].
        - by rewrite Hp1 in Hp.
        - by rewrite lookup_empty in Hx. }
      rewrite Hs3. destruct (generate_keys s2 PurposeEventSigning (hours (7 * 24)) event Hev) as [->|(k & Hp & _ & ->)]; [done|].
      split; [by rewrite lookup_insert_ne|]. intros id k' [[<- <-]|[_ Hx]]%lookup_insert_Some Hp'; [by rewrite Hp in Hp'|by eapply Hu2]. }
    destruct log_open; subst s'; [|done].
    destruct (generate_keys s3 PurposeTransparencyLogSTH (hours (7 * 24)) sth Hsth) as [->|(k & Hp & _ & ->)]; [done|].
    split; [by rewrite lookup_insert_ne|]. intros id k' [[<- <-]|[_ Hx]]%lookup_insert_Some Hp'; [by rewrite Hp in Hp'|by eapply Hu3]. }
  exists kj. pose proof (ks_Active_spec s' PurposeJWTSigning) as Ha. unfold ActiveKey.
  assert (kp_ID kj = d_id jwt /\ kp_Purpose kj = PurposeJWTSigning /\ kp_Status kj = StatusKeyActive /\ kp_NotAfter kj = d_now jwt + hours 24) as (Hi & Hp & Hst & Hna)
    by (rewrite Hkj; done).
  destruct (ks_ActiveByPurpose s' PurposeJWTSigning) as [k|e|]; [| |done].
  - destruct Ha as (Hpk & _ & id & Hid). rewrite (Huniq _ _ Hid Hpk), Hi. done.
  - destruct Ha as [_ Ha]. by destruct (Ha _ _ Hin Hp).
Qed.

(** Every key of the process was made at start-up: the four identifiers, and the
    end of the event key. *)
Lemma boot_keys_made (s s' : KS) ca jwt event sth log_open running :
  ks_keys s = ∅ -> Forall (fun id => id <> "") [d_id ca; d_id jwt; d_id event; d_id sth] ->
  boot_keys s ca jwt event sth log_open = (s', running) ->
  forall id k, ks_keys s' !! id = Some k -> id ∈ [d_id ca; d_id jwt; d_id event; d_id sth] /\
    (kp_Purpose k = PurposeEventSigning -> kp_NotAfter k = d_now event + hours (7 * 24)).
Proof.
  intros Hs Hne. rewrite !Forall_cons in Hne. destruct Hne as (Hca & Hjwt & Hev & Hsth & _).
  set (made := fun s => forall id k, ks_keys s !! id = Some k -> id ∈ [d_id ca; d_id jwt; d_id event; d_id sth] /\
    (kp_Purpose k = PurposeEventSigning -> kp_NotAfter k = d_now event + hours (7 * 24))).
  assert (forall s purpose ttl d, d_id d ∈ [d_id ca; d_id jwt; d_id event; d_id sth] -> d_id d <> "" ->
    (purpose = PurposeEventSigning -> ttl = hours (7 * 24) /\ d = event) -> made s -> made (generate s purpose ttl d).1) as Hgen.
  { intros s0 purpose ttl d Hin Hid Hp Hm. unfold generate, GenerateKeyPair. case_bool_decide; [done|].
    destruct (GenerateKey (d_entropy d)) as [[pub priv]|]; [|done]. set (k := mkKeyPair _ _ _ _ _ _ _ _).
    destruct (ks_Save_spec s0 k Hid) as [Hok Hkeys]. destruct (ks_Save s0 k) as [s1 r]. cbn in Hok, Hkeys. subst r. cbn [fst].
    intros id k' Hk'. rewrite Hkeys in Hk'. apply lookup_insert_Some in Hk' as [[<- <-]|[_ Hk']]; [|by apply Hm].
    split; [done|]. cbn. intros Hpe. by destruct (Hp Hpe) as [-> ->]. }
  assert (made s) as Hm0 by (intros id k Hk; rewrite Hs in Hk; by rewrite lookup_empty in Hk).
  unfold boot_keys, boot_event_key, boot_sth_key. intros Hb id k. revert id k. change (made s').
  assert (made (EnsureRootCA s (hours (365 * 24)) (d_entropy ca) (d_id ca) (d_now ca)).1) as Hm1.
  { unfold EnsureRootCA. destruct (ks_ActiveByPurpose s PurposeCA) as [|e|]; [done| |done]. destruct (negb _); [done|].
    apply (Hgen s PurposeCA (hours (365 * 24)) ca); [left|done|done|done]. }
  destruct (EnsureRootCA _ _ _ _ _) as [s1 [kca|e|]]; cbn [fst] in Hm1; try (by injection Hb as <- _).
  assert (made (generate s1 PurposeJWTSigning (hours 24) jwt).1) as Hm2 by (apply Hgen; [right; left|done|done|done]).
  destruct (generate s1 PurposeJWTSigning (hours 24) jwt) as [s2 [kj|e|]]; cbn [fst] in Hm2; try (by injection Hb as <- _).
  assert (made (generate s2 PurposeEventSigning (hours (7 * 24)) event).1) as Hm3 by (apply Hgen; [right; right; left|done|done|done]).
  injection Hb as <- _. destruct log_open; [|done]. apply Hgen; [right; right; right; left|done|done|done].
Qed.

(** A token signed with the store's token key is refused after the key's end. *)
Lemma signed_refused_after (s : KS) (until now : gotime) kp claims raw revocations tt :
  ks_keys s !! kp_ID kp = Some kp -> kp_NotAfter kp = until -> signClaims claims kp = Some raw -> until < now ->
  exists e, Verify_token s now revocations raw tt = inl e.
Proof.
  intros Hk Hna Hs Hn. destruct (Verify_token s now revocations raw tt) as [e|c] eqn:Hv; [by exists e|]. exfalso.
  apply verify_token_iff in Hv as (Hp & _ & _). apply parse_authority_iff in Hp as [(kid & kp' & input & sig & Hparts & _ & Hk' & _ & Hna' & _) _].
  apply signed_parts in Hs as [input' Hs]. rewrite Hparts in Hs. injection Hs as -> _ _ _. rewrite Hk in Hk'. injection Hk' as <-. lia.
Qed.

Context `{Libraries}.

(** What a successful login has issued. *)
Lemma login_issued ps h h' cs s now t2 t3 j1 j2 method body tokens n p :
  LoginHandler (KS := KS) ps h cs s now t2 t3 j1 j2 method body = (h', LoggedIn tokens n p) ->
  exists l p0, h !! l = Some p0 /\ Issue s DefaultAccessTTL DefaultRefreshTTL now j1 j2 (Some p0) = inr tokens.
Proof.
  unfold LoginHandler. destruct (negb _); [done|]. destruct body as [[[u pw] code]|]; [|done]. destruct (_ || _ || _); [done|].
  destruct (Authenticate ps h cs _) as [|l]; [done|]. destruct (h !! l) as [p0|] eqn:Hl; [|by destruct (Issue _ _ _ _ _ _ _)].
  destruct (Issue s DefaultAccessTTL DefaultRefreshTTL now j1 j2 (Some p0)) as [|t] eqn:Hi; [done|]. intros [= _ -> _ _]. by exists l, p0.
Qed.

Lemma issue_signed s a r now j1 j2 p tokens kp : ActiveKey s PurposeJWTSigning = ROk kp -> Issue (S := KS) s a r now j1 j2 (Some p) = inr tokens ->
  signClaims (buildClaims p j1 now (now + a) AudienceAccess TypeAccess) kp = Some (AccessToken tokens) /\
  signClaims (buildClaims p j2 now (now + r) AudienceRefresh TypeRefresh) kp = Some (RefreshToken tokens) /\
  AccessExp tokens = now + a /\ Status p = StatusActive.
Proof.
  intros Hk. unfold Issue. destruct (IsActive (Some p)) eqn:Ha; [|done]. cbn [negb]. rewrite Hk.
  destruct (signClaims _ kp) as [x|]; [|done]. destruct (signClaims _ kp) as [y|]; [|done]. intros [= <-].
  split_and!; try done. by apply bool_decide_eq_true_1 in Ha.
Qed.

(** C23: The sessions of a process end a day after it started: whoever logs in, at any
    time, gets tokens that no protected endpoint accepts from then on, because the
    only token key there is has been made for a day and is never replaced; logging
    in again gives more of the same. *)
Theorem sessions_end_with_the_day (s0 s : KS) (ca jwt event sth : draw) (log_open : bool)
    (ps : MemoryPrincipalStore.t) (h h' : heap) (cs : MemoryCredentialStore.t) (t t2 t3 now : gotime) (j1 j2 method : string)
    (body : option (string * string * string)) (tokens : TokenPair) (n : Z) (p : Principal) (r : Request) :
  ks_keys s0 = ∅ -> NoDup [d_id ca; d_id jwt; d_id event; d_id sth] -> Forall (fun id => id <> "") [d_id ca; d_id jwt; d_id event; d_id sth] ->
  boot_keys s0 ca jwt event sth log_open = (s, true) ->
  LoginHandler ps h cs s t t2 t3 j1 j2 method body = (h', LoggedIn tokens n p) ->
  extractBearer r = inr (AccessToken tokens) \/ extractBearer r = inr (RefreshToken tokens) ->
  d_now jwt + hours 24 < now ->
  RequireAuth (app_middleware s ps "" "" 0%nat) h' now r = Respond 401 "authentication required".
Proof.
  intros Hs Hnd Hne Hb Hl Hr Hn. destruct (boot_token_key s0 s ca jwt event sth log_open Hs Hnd Hne Hb) as (kp & Hk & _ & _ & Hna & Hks & _).
  apply login_issued in Hl as (l & p0 & _ & Hi). destruct (issue_signed _ _ _ _ _ _ _ _ _ Hk Hi) as (Ha & Hrf & _ & _).
  unfold RequireAuth, Authenticate_request, app_middleware, New_middleware. rewrite (bool_decide_eq_false_2 ("" = "development")) by done.
  cbn [mw_devToken mw_authority mw_revocations].
  destruct Hr as [-> | ->]; rewrite (bool_decide_eq_true_2 ("" = "")) by done; cbn [negb andb].
  - destruct (signed_refused_after s _ now kp _ _ None TypeAccess Hks Hna Ha Hn) as [e ->]. done.
  - destruct (signed_refused_after s _ now kp _ _ None TypeAccess Hks Hna Hrf Hn) as [e ->]. done.
Qed.

Lemma bearer_header tok : tok <> "" -> forall r, rq_Authorization r = "Bearer " +:+ tok -> extractBearer r = inr tok.
Proof.
  intros Ht r Hr. unfold extractBearer. rewrite Hr. rewrite bool_decide_eq_false_2 by done. unfold SplitN2.
  change ("Bearer " +:+ tok) with ("Bearer" +:+ String " " tok). rewrite (Cut_app " "%char "Bearer" tok eq_refl).
  by rewrite (bool_decide_eq_false_2 (tok = "")).
Qed.

(** The seeded stores: the administrator, and a password credential that
    [FindBySubject] finds under its name. *)
Definition admin_store (l : loc) : MemoryPrincipalStore.t := MemoryPrincipalStore.mk {[ admin_id := l ]} {[ "admin" := admin_id ]}.
Definition admin_credential (hash : bytes) (secret : string) : Credential :=
  PasswordTOTPCredential admin_id "admin" hash secret "OWASAKA".

Lemma admin_found (cs : MemoryCredentialStore.t) hash secret : cs = MemoryCredentialStore.Save MemoryCredentialStore.New (admin_credential hash secret) ->
  MemoryCredentialStore.FindBySubject cs CredentialPassword "admin" = inr (admin_credential hash secret) /\
  forall key, MemoryCredentialStore.FindBySubject (MemoryCredentialStore.Save cs (APIKeyCredential admin_id key.1 key.2 "default"))
    CredentialPassword "admin" = inr (admin_credential hash secret).
Proof.
  intros ->. split.
  - unfold MemoryCredentialStore.FindBySubject, MemoryCredentialStore.Save.
    cbn [MemoryCredentialStore.credentials Kind cred_Subject admin_credential]. by rewrite lookup_insert_eq.
  - intros [k hk]. unfold MemoryCredentialStore.FindBySubject, MemoryCredentialStore.Save.
    cbn [MemoryCredentialStore.credentials Kind cred_Subject admin_credential]. rewrite lookup_insert_ne by done. by rewrite lookup_insert_eq.
Qed.

Lemma seeded (env secret : string) (l : loc) (bcrypt : bytes -> option bytes) (hash : bytes) (rand1 rand2 : option bytes) :
  secret <> "" -> bcrypt (go_bytes (admin_password env)) = Some hash ->
  exists cs, seedAdmin MemoryPrincipalStore.New ∅ MemoryCredentialStore.New env (Some secret) l bcrypt rand1 rand2 =
      (admin_store l, {[ l := admin ]}, cs) /\
    MemoryCredentialStore.FindBySubject cs CredentialPassword "admin" = inr (admin_credential hash secret).
Proof.
  intros Hsec Hb. assert (admin_password env <> "") as Hpw by (unfold admin_password; by case_bool_decide).
  unfold seedAdmin. assert (MemoryPrincipalStore.Get MemoryPrincipalStore.New admin_id = inl ErrPrincipalNotFound) as -> by reflexivity.
  assert (MemoryPrincipalStore.Save MemoryPrincipalStore.New (<[l := admin]> ∅) (Some l) = Some (admin_store l, None)) as ->.
  { unfold MemoryPrincipalStore.Save. by rewrite lookup_insert_eq. }
  unfold NewPasswordTOTPCredential. rewrite (bool_decide_eq_false_2 (admin_id = "")), (bool_decide_eq_false_2 ("admin" = "")) by done.
  rewrite !bool_decide_eq_false_2 by done. cbn [orb]. rewrite Hb. cbn match. fold (admin_credential hash secret).
  destruct (admin_found _ hash secret eq_refl) as [Hone Hkey]. unfold NewAPIKey. rewrite (bool_decide_eq_false_2 (admin_id = "")) by done.
  destruct rand1 as [b1|]; [|eexists; split; [reflexivity|exact Hone]]. destruct rand2 as [b2|]; [|eexists; split; [reflexivity|exact Hone]].
  destruct (bcrypt (go_bytes (base64_RawURL b2))) as [hk|]; [|eexists; split; [reflexivity|exact Hone]].
  eexists. split; [reflexivity|]. apply (Hkey (_, hk)).
Qed.

(** What a login whose factors are accepted answers. *)
Lemma login_replies ps h cs (s : KS) t t2 t3 j1 j2 username password code l p tokens kp :
  username <> "" -> password <> "" -> code <> "" ->
  Authenticate ps h cs (login_factors username password code) = inr l -> h !! l = Some p ->
  ActiveKey s PurposeJWTSigning = ROk kp -> Issue s DefaultAccessTTL DefaultRefreshTTL t j1 j2 (Some p) = inr tokens ->
  let h' := (MemoryPrincipalStore.UpdateLastSeen ps h (ID p) t2).1 in
  LoginHandler ps h cs s t t2 t3 j1 j2 "POST" (Some (username, password, code)) =
    (h', LoggedIn tokens (Z.quot (t + DefaultAccessTTL - t3) ns_per_s) (default p (h' !! l))).
Proof.
  intros Hu Hpw Hc Hau Hl Hk Hi h'. destruct (issue_signed _ _ _ _ _ _ _ _ _ Hk Hi) as (_ & _ & Hexp & _).
  unfold LoginHandler. rewrite (bool_decide_eq_true_2 ("POST" = "POST")) by done. cbn [negb].
  rewrite !bool_decide_eq_false_2 by done. cbn [orb]. by rewrite Hau, Hl, Hi, Hexp.
Qed.

(** C22: From an empty program to a served request: the seeded administrator logs in
    with the password and a code of the seeded secret; the reply tells the whole
    seconds left of the quarter of an hour when it is written, 899 in the first
    second after the issue; and the token works, at once and until a second before
    its quarter of an hour or the end of the token key. *)
Theorem first_login_works (s : KS) (until : gotime) (env secret code : string) (l : loc) (bcrypt : bytes -> option bytes) (hash : bytes)
    (rand1 rand2 : option bytes) (t t2 t3 now : gotime) (j1 j2 : string) (tokens : TokenPair) (r : Request) :
  token_key_until s until -> secret <> "" -> code <> "" -> totp_Validate code secret = true ->
  bcrypt (go_bytes (admin_password env)) = Some hash -> CompareHashAndPassword hash (go_bytes (admin_password env)) = true ->
  Issue s DefaultAccessTTL DefaultRefreshTTL t j1 j2 (Some admin) = inr tokens -> AccessToken tokens <> "" ->
  rq_Authorization r = "Bearer " +:+ AccessToken tokens -> t <= now -> now + ns_per_s <= t + DefaultAccessTTL -> now <= until ->
  let '(ps, h, cs) := seedAdmin MemoryPrincipalStore.New ∅ MemoryCredentialStore.New env (Some secret) l bcrypt rand1 rand2 in
  exists h' n, LoginHandler ps h cs s t t2 t3 j1 j2 "POST" (Some ("admin", admin_password env, code)) =
      (h', LoggedIn tokens n (set_LastSeenAt admin t2)) /\
    n = Z.quot (t + DefaultAccessTTL - t3) ns_per_s /\ (t < t3 <= t + ns_per_s -> n = 899) /\
    RequireAuth (app_middleware s ps "" "" l) h' now r = Next (WithPrincipal r l).
Proof.
  intros (kp & Hk & Hid & Hg & Hna & Hks & Hst) Hsec Hcode Htotp Hb Hcmp Hi Htok Hr Ht1 Ht2 Hu.
  destruct (seeded env secret l bcrypt hash rand1 rand2 Hsec Hb) as (cs & -> & Hcs). set (h := {[ l := admin ]}).
  assert (MemoryPrincipalStore.Get (admin_store l) admin_id = inr l) as Hget.
  { unfold MemoryPrincipalStore.Get. cbn [admin_store MemoryPrincipalStore.byID]. by rewrite lookup_singleton_eq. }
  assert (Authenticate (admin_store l) h cs (login_factors "admin" (admin_password env) code) = inr l) as Hau.
  { apply login_authenticates; [done|]. exists admin. exists admin_id, "admin", hash, secret, "OWASAKA". split_and!; try done.
    - unfold h. by rewrite lookup_singleton_eq.
    - by left. }
  assert (admin_password env <> "") as Hpw by (unfold admin_password; by case_bool_decide).
  assert (h !! l = Some admin) as Hh by (unfold h; by rewrite lookup_singleton_eq).
  assert ((MemoryPrincipalStore.UpdateLastSeen (admin_store l) h (ID admin) t2).1 !! l = Some (set_LastSeenAt admin t2)) as Hseen.
  { unfold MemoryPrincipalStore.UpdateLastSeen. cbn [admin_store MemoryPrincipalStore.byID ID admin]. rewrite lookup_singleton_eq. cbn [fst].
    by rewrite lookup_alter_eq, Hh. }
  pose proof (login_replies (admin_store l) h cs s t t2 t3 j1 j2 "admin" _ code l admin tokens kp ltac:(done) Hpw Hcode Hau Hh Hk Hi) as Hlogin.
  cbv zeta in Hlogin. set (h' := (MemoryPrincipalStore.UpdateLastSeen _ _ _ _).1) in *. rewrite Hseen in Hlogin.
  exists h'. eexists. split; [exact Hlogin|]. split; [done|]. split.
  { unfold DefaultAccessTTL, ns_per_s. intros Ht3. rewrite Z.quot_div_nonneg by lia. symmetry. apply (Z.div_unique _ _ _ (t + 15 * 60 * 1000000000 - t3 - 899 * 1000000000)); lia. }
  destruct (issue_signed _ _ _ _ _ _ _ _ _ Hk Hi) as (Ha & _ & _ & _). unfold RequireAuth.
  assert (Authenticate_request (app_middleware s (admin_store l) "" "" l) h' now r = inr l) as ->; [|done].
  apply authenticate_request_iff. exists (set_LastSeenAt admin t2), (AccessToken tokens).
  split_and!; [by apply bearer_header|done|done|]. right. unfold app_middleware.
  rewrite (bool_decide_eq_false_2 ("" = "development")) by done. split; [by left|].
  exists (buildClaims admin j1 t (t + DefaultAccessTTL) AudienceAccess TypeAccess). split.
  - apply verify_token_iff. pose proof (numeric_date t). pose proof (numeric_date (t + DefaultAccessTTL)). unfold ns_per_s in Ht2.
    split; [apply (issued_parses s now kp _ _ Hg Hid Ha); [|apply within_built; lia]|split; [|done]].
    + exists kp. split_and!; [done|done|by rewrite Hst|lia].
    + right. split; [done|]. cbn. set_solver.
  - change (ps_Get (admin_store l) admin_id = inr (Some l)). unfold ps_Get, memory_principals. by rewrite Hget.
Qed.
End Sessions.

Section Signatures.
Context {KS : Type} `{KeyStore KS} `{Ed25519} `{!KeyStoreLaws KS} `{!Ed25519Laws} `{JSON NetworkEvent}.

(** Nor do the event signatures last: the key that signed an event verifies for a
    week from the start of the process, and the next process, whose keys are new,
    does not know it: no event stored before a restart verifies after it. *)
Theorem signatures_do_not_last (s0 s s0' s' : KS) (ca jwt event sth ca' jwt' event' sth' : draw) (log_open log_open' running running' : bool)
    (e e1 : NetworkEvent) (now : gotime) :
  ks_keys s0 = ∅ -> ks_keys s0' = ∅ -> Forall (fun id => id <> "") [d_id ca; d_id jwt; d_id event; d_id sth] ->
  Forall (fun id => id <> "") [d_id ca'; d_id jwt'; d_id event'; d_id sth'] ->
  boot_keys s0 ca jwt event sth log_open = (s, running) -> boot_keys s0' ca' jwt' event' sth' log_open' = (s', running') ->
  Signer_Sign s (Some e) = (Some e1, None) -> ActiveKey s PurposeEventSigning <> RPanic ->
  (d_now event + hours (7 * 24) < now -> Verifier_Verify s now e1 <> None) /\
  (ne_SignerKeyID e1 ∉ [d_id ca'; d_id jwt'; d_id event'; d_id sth'] -> Verifier_Verify s' now e1 <> None).
Proof.
  intros Hs Hs' Hne Hne' Hb Hb' Hsign Hp. destruct (sign_inv s e e1 Hsign Hp) as (kp & canonical & Hk & _ & ->).
  assert (forall s, Verifier_Verify s now (set_signature e (Sign (kp_Private kp) canonical) (kp_ID kp)) = None ->
    exists k, ks_keys s !! kp_ID kp = Some k /\ now <= kp_NotAfter k /\ kp_Purpose k = PurposeEventSigning) as Hv.
  { intros s1 Hv. unfold Verifier_Verify in Hv. destruct (negb (IsSigned _)); [done|]. unfold GetKey in Hv. rewrite ks_Get_spec in Hv.
    cbn [ne_SignerKeyID set_signature] in Hv. destruct (ks_keys s1 !! kp_ID kp) as [k|]; [|done]. exists k. split; [done|].
    destruct (IsVerifyable (Some k) now) eqn:Hver; [|done]. cbn [negb] in Hv. case_bool_decide as Hpu; [|done]. split; [|done].
    unfold IsVerifyable in Hver. case_bool_decide; [done|]. apply negb_true_iff, Z.ltb_ge in Hver. done. }
  split.
  - intros Hn Hver. destruct (Hv s Hver) as (k & Hin & Hna & Hpu). destruct (boot_keys_made _ _ _ _ _ _ _ _ Hs Hne Hb _ _ Hin) as [_ Hend].
    specialize (Hend Hpu). lia.
  - intros Hout Hver. destruct (Hv s' Hver) as (k & Hin & _). destruct (boot_keys_made _ _ _ _ _ _ _ _ Hs' Hne' Hb' _ _ Hin) as [Hid _]. done.
Qed.
End Signatures.

(** ** A first day *)

Module BootDemo.
Import PkiDemo ToyJwt.
#[local] Existing Instance AuthnDemo.demo.

Definition booted : MemoryKeyStore.t :=
  (boot_keys MemoryKeyStore.NewMemoryKeyStore (mkDraw [1] "ca" 1) (mkDraw [2] "jwt" 2) (mkDraw [3] "ev" 3) (mkDraw [4] "sth" 4) true).1.
Definition s1 := seedAdmin MemoryPrincipalStore.New ∅ MemoryCredentialStore.New "" (Some "SEED") 1%nat AuthnDemo.generate (Some [5]) (Some [6]).
Definition request (token : string) : Request := mkRequest "GET" ("Bearer " +:+ token) "" "" "" None None None.
Definition issue (t : gotime) : TokenPair :=
  match Issue booted DefaultAccessTTL DefaultRefreshTTL t "a" "r" (Some admin) with inr q => q | inl _ => mkTokenPair "" "" "" "" 0 0 "" end.

Lemma booted_key : token_key_until booted (2 + hours 24).
Proof.
  eapply (boot_token_key MemoryKeyStore.NewMemoryKeyStore booted (mkDraw [1] "ca" 1) (mkDraw [2] "jwt" 2) (mkDraw [3] "ev" 3) (mkDraw [4] "sth" 4) true).
  - reflexivity.
  - apply (bool_decide_unpack _). vm_compute. exact I.
  - by repeat constructor.
  - reflexivity.
Qed.

Lemma first_login_works_witness :
  let '(ps, h, cs) := s1 in exists h' n, LoginHandler ps h cs booted (hours 1) (hours 1 + 10) (hours 1 + 50) "a" "r" "POST"
        (Some ("admin", "owasaka-admin", "123456")) =
      (h', LoggedIn (issue (hours 1)) n (set_LastSeenAt admin (hours 1 + 10))) /\
    n = Z.quot (hours 1 + DefaultAccessTTL - (hours 1 + 50)) ns_per_s /\ (hours 1 < hours 1 + 50 <= hours 1 + ns_per_s -> n = 899) /\
    RequireAuth (app_middleware booted ps "" "" 1%nat) h' (hours 1 + 60 * ns_per_s) (request (AccessToken (issue (hours 1)))) =
      Next (WithPrincipal (request (AccessToken (issue (hours 1)))) 1%nat).
Proof.
  apply (first_login_works booted (2 + hours 24) "" "SEED" "123456" 1%nat AuthnDemo.generate (7 :: go_bytes "owasaka-admin") (Some [5]) (Some [6])
    (hours 1) (hours 1 + 10) (hours 1 + 50) (hours 1 + 60 * ns_per_s) "a" "r" (issue (hours 1)) (request (AccessToken (issue (hours 1))))).
  - exact booted_key.
  - discriminate.
  - discriminate.
  - reflexivity.
  - reflexivity.
  - reflexivity.
  - vm_compute. reflexivity.
  - vm_compute. discriminate.
  - reflexivity.
  - vm_compute. discriminate.
  - vm_compute. discriminate.
  - vm_compute. discriminate.
Defined.

(** On the second day the login succeeds, and its token is refused at once. *)
Lemma sessions_end_with_the_day_witness :
  let '(ps, h, cs) := s1 in exists h' tokens,
    LoginHandler ps h cs booted (hours 25) (hours 25 + 1) (hours 25 + 2) "a" "r" "POST" (Some ("admin", "owasaka-admin", "123456")) =
      (h', LoggedIn tokens 899 (set_LastSeenAt admin (hours 25 + 1))) /\
    RequireAuth (app_middleware booted ps "" "" 0%nat) h' (hours 25) (request (AccessToken tokens)) = Respond 401 "authentication required".
Proof.
  destruct s1 as [[ps h] cs] eqn:Hs. injection Hs as <- <- <-.
  eexists _, (issue (hours 25)).
  match goal with |- ?L = (?h', ?x) /\ _ => assert (L = (L.1, x)) as Hl by (vm_compute; reflexivity) end.
  split; [exact Hl|].
  refine (sessions_end_with_the_day MemoryKeyStore.NewMemoryKeyStore booted (mkDraw [1] "ca" 1) (mkDraw [2] "jwt" 2) (mkDraw [3] "ev" 3) (mkDraw [4] "sth" 4)
    true _ _ _ _ _ _ _ _ _ _ _ _ _ _ _ _ _ _ _ _ Hl _ _).
  - reflexivity.
  - apply (bool_decide_unpack _). vm_compute. exact I.
  - by repeat constructor.
  - reflexivity.
  - left. vm_compute. reflexivity.
  - vm_compute. reflexivity.
Defined.

#[local] Existing Instance SigningDemo.event_json.
Definition rebooted : MemoryKeyStore.t :=
  (boot_keys MemoryKeyStore.NewMemoryKeyStore (mkDraw [1] "ca2" 100) (mkDraw [2] "jwt2" 100) (mkDraw [3] "ev2" 100) (mkDraw [4] "sth2" 100) true).1.
Definition signed : NetworkEvent := default SigningDemo.event1 (Signer_Sign booted (Some SigningDemo.event1)).1.

Lemma signatures_do_not_last_witness : Verifier_Verify booted 50 signed = None /\ Verifier_Verify rebooted 150 signed <> None.
Proof.
  split; [vm_compute; reflexivity|].
  refine (proj2 (signatures_do_not_last MemoryKeyStore.NewMemoryKeyStore booted MemoryKeyStore.NewMemoryKeyStore rebooted
    (mkDraw [1] "ca" 1) (mkDraw [2] "jwt" 2) (mkDraw [3] "ev" 3) (mkDraw [4] "sth" 4)
    (mkDraw [1] "ca2" 100) (mkDraw [2] "jwt2" 100) (mkDraw [3] "ev2" 100) (mkDraw [4] "sth2" 100) true true true true
    SigningDemo.event1 signed 150 _ _ _ _ _ _ _ _) _).
  - reflexivity.
  - reflexivity.
  - by repeat constructor.
  - by repeat constructor.
  - reflexivity.
  - reflexivity.
  - vm_compute. reflexivity.
  - vm_compute. discriminate.
  - apply (bool_decide_unpack _). vm_compute. exact I.
Defined.
End BootDemo.
