(* ===== verification/Durations.v ===== *)
(** * Numbers and durations in query strings

    [strconv.Atoi] and [time.ParseDuration], with the widths and the rounding of the
    standard library, and [parseDuration] of internal/api/events_handler.go, which
    adds days to them. *)
From stdpp Require Import base list strings pretty.
From Stdlib Require Import ZArith Lia Bool Ascii SpecFloat.
From S2P Require Import Prelude Models GoStrings GoFloat GoTime Canary NetAddr.
Local Open Scope string_scope.
Local Open Scope list_scope.
Local Open Scope Z_scope.

(** ** Integers *)

Definition digit (c : ascii) : option Z :=
  let n := Z.of_N (N_of_ascii c) in if (48 <=? n) && (n <=? 57) then Some (n - 48) else None.

(** The value of a text of digits, after [acc]. *)
Fixpoint read_digits (acc : Z) (s : string) : option Z :=
  match s with
  | EmptyString => Some acc
  | String c s' => match digit c with Some d => read_digits (10 * acc + d) s' | None => None end
  end.

(** [strconv.Atoi]: the value and whether there is an error; out of range the
    value is the nearest [int]. *)
Definition Atoi (s : string) : Z * bool :=
  let '(neg, t) := match s with
                   | String "+" t => (false, t)
                   | String "-" t => (true, t)
                   | _ => (false, s)
                   end in
  if bool_decide (t = "") then (0, false)
  else
    match read_digits 0 t with
    | None => (0, false)
    | Some v =>
        let v := if neg then - v else v in
        if v <? - 2 ^ 63 then (- 2 ^ 63, false) else if 2 ^ 63 - 1 <? v then (2 ^ 63 - 1, false) else (v, true)
    end.

(** ** Durations, in nanoseconds *)

(** [leadingInt]: [None] is an overflow. *)
Fixpoint leadingInt (x : Z) (s : string) : option (Z * string) :=
  match s with
  | EmptyString => Some (x, s)
  | String c s' =>
      match digit c with
      | None => Some (x, s)
      | Some d =>
          if 2 ^ 63 / 10 <? x then None
          else let x := 10 * x + d in if 2 ^ 63 <? x then None else leadingInt x s'
      end
  end.

(** [leadingFraction]: digits that no longer fit are dropped. *)
Fixpoint leadingFraction (x : Z) (scale : float64) (overflow : bool) (s : string) : Z * float64 * string :=
  match s with
  | EmptyString => (x, scale, s)
  | String c s' =>
      match digit c with
      | None => (x, scale, s)
      | Some d =>
          if overflow then leadingFraction x scale true s'
          else if (2 ^ 63 - 1) / 10 <? x then leadingFraction x scale true s'
          else let y := 10 * x + d in
               if 2 ^ 63 <? y then leadingFraction x scale true s' else leadingFraction y (fmul scale (float_of_Z 10)) false s'
      end
  end.

Fixpoint take_unit (s : string) : string * string :=
  match s with
  | EmptyString => ("", "")
  | String c s' =>
      if Ascii.eqb c "." then ("", s)
      else match digit c with Some _ => ("", s) | None => let '(u, r) := take_unit s' in (String c u, r) end
  end.

(** The two spellings of the micro sign are the bytes C2 B5 and CE BC. *)
Definition micro (a b : N) : string := String (ascii_of_N a) (String (ascii_of_N b) "s").
Definition unitMap (u : string) : option Z :=
  if bool_decide (u = "ns") then Some 1
  else if bool_decide (u = "us") || bool_decide (u = micro 194 181) || bool_decide (u = micro 206 188) then Some 1000
  else if bool_decide (u = "ms") then Some 1000000
  else if bool_decide (u = "s") then Some ns_per_s
  else if bool_decide (u = "m") then Some (60 * ns_per_s)
  else if bool_decide (u = "h") then Some (3600 * ns_per_s)
  else None.

(** [uint64(x)] of a float in range, towards zero. *)
Definition uint_of_float (x : float64) : Z :=
  match x with S754_finite false m e => if 0 <=? e then Zpos m * 2 ^ e else Zpos m / 2 ^ (- e) | _ => 0 end.

(** One number with its unit: its nanoseconds and the rest. *)
Definition duration_part (s : string) : option (Z * string) :=
  match s with
  | EmptyString => None
  | String c _ =>
      if negb (Ascii.eqb c "." || match digit c with Some _ => true | None => false end) then None
      else
        match leadingInt 0 s with
        | None => None
        | Some (v, s1) =>
            let pre := negb (String.length s =? String.length s1)%nat in
            let '(f, scale, s2, post) :=
              match s1 with
              | String "." s1' => let '(f, scale, r) := leadingFraction 0 (float_of_Z 1) false s1' in
                                  (f, scale, r, negb (String.length s1' =? String.length r)%nat)
              | _ => (0, float_of_Z 1, s1, false)
              end in
            if negb pre && negb post then None
            else
              let '(u, s3) := take_unit s2 in
              if bool_decide (u = "") then None
              else
                match unitMap u with
                | None => None
                | Some unit =>
                    if 2 ^ 63 / unit <? v then None
                    else
                      let v := v * unit in
                      let v := if 0 <? f then wrap 64 (v + uint_of_float (fmul (float_of_Z f) (fdiv (float_of_Z unit) scale))) else v in
                      if (0 <? f) && (2 ^ 63 <? v) then None else Some (v, s3)
                end
        end
  end.

(** Every part takes a character, so the length is enough fuel. *)
Fixpoint duration_parts (fuel : nat) (d : Z) (s : string) : option Z :=
  match fuel with
  | O => None
  | S fuel =>
      if bool_decide (s = "") then Some d
      else
        match duration_part s with
        | None => None
        | Some (v, s) => let d := wrap 64 (d + v) in if 2 ^ 63 <? d then None else duration_parts fuel d s
        end
  end.

Definition ParseDuration (s : string) : option Z :=
  let '(neg, s) := match s with
                   | String "-" t => (true, t)
                   | String "+" t => (false, t)
                   | _ => (false, s)
                   end in
  if bool_decide (s = "0") then Some 0
  else if bool_decide (s = "") then None
  else
    match duration_parts (S (String.length s)) 0 s with
    | None => None
    | Some d => if neg then Some (- d) else if 2 ^ 63 - 1 <? d then None else Some d
    end.

Example durations_demo : map ParseDuration ["2h"; "1h30m"; "1.5h"; "-3ms"; ".5s"; "0"; ""; "2"; "1d"; "9223372036854775807ns"; "9223372036854775808ns"; "-9223372036854775808ns"; "1.2us"] =
  [Some (7200 * ns_per_s); Some (5400 * ns_per_s); Some (5400 * ns_per_s); Some (-3000000); Some 500000000; Some 0; None; None; None;
   Some (2 ^ 63 - 1); None; Some (- 2 ^ 63); Some 1200].
Proof. reflexivity. Qed.

(** [parseDuration]: a text that ends in d counts days, with [int64] arithmetic. *)
Definition parseDuration (s : string) : option Z :=
  match rev_string s with
  | String "d" t =>
      let '(days, ok) := Atoi (rev_string t) in if ok then Some (int64 (int64 (days * 24) * (3600 * ns_per_s))) else None
  | _ => ParseDuration s
  end.

(** ** Reading back a decimal *)

Lemma digit_char m : (m < 10)%N -> digit (pretty_N_char m) = Some (Z.of_N m).
Proof.
  intros Hm. assert (m = 0 \/ m = 1 \/ m = 2 \/ m = 3 \/ m = 4 \/ m = 5 \/ m = 6 \/ m = 7 \/ m = 8 \/ m = 9)%N as Hc by lia.
  repeat destruct Hc as [->|Hc]; try subst m; reflexivity.
Qed.

Lemma read_pretty x : forall s, read_digits 0 (pretty_N_go x s) = read_digits (Z.of_N x) s.
Proof.
  induction (N.lt_wf_0 x) as [x _ IH]. intros s. destruct (decide (x = 0%N)) as [->|Hx]; [by rewrite pretty_N_go_0|].
  rewrite pretty_N_go_step by lia. rewrite IH by (apply N.div_lt; lia). cbn [read_digits]. pose proof (N.mod_lt x 10 ltac:(lia)) as Hm.
  rewrite (digit_char _ Hm). f_equal. pose proof (N.div_mod x 10 ltac:(lia)). lia.
Qed.

Lemma read_fmt_d n : 0 <= n -> read_digits 0 (fmt_d n) = Some n.
Proof.
  intros Hn. destruct n as [|p|p]; [reflexivity| |lia]. unfold fmt_d, pretty, pretty_Z. unfold pretty, pretty_positive, pretty, pretty_N.
  destruct (decide _); [done|]. by rewrite read_pretty.
Qed.

Lemma digit_text_head s : digit_text s = true -> s <> "" -> exists c s', s = String c s' /\ is_Some (digit c).
Proof.
  destruct s as [|c s']; [done|]. unfold digit_text. cbn [string_forallb]. intros [Hc _]%andb_true_iff _. exists c, s'. split; [done|].
  unfold is_digit, code in Hc. unfold digit. rewrite Hc. by eexists.
Qed.

Lemma Atoi_fmt_d n : 0 <= n < 2 ^ 63 -> Atoi (fmt_d n) = (n, true).
Proof.
  intros Hn. pose proof (read_fmt_d n ltac:(lia)) as Hr. pose proof (fmt_d_digits n ltac:(lia)) as Hd.
  assert (fmt_d n <> "") as Hne.
  { intros He. rewrite He in Hr. cbn in Hr. injection Hr as <-. by vm_compute in He. }
  destruct (digit_text_head _ Hd Hne) as (c & s' & Hs & Hc). unfold Atoi. rewrite Hs in Hr, Hne |- *.
  assert (c <> "+"%char /\ c <> "-"%char) as [Hp Hm] by (split; intros ->; vm_compute in Hc; by destruct Hc).
  assert (match String c s' with String "+" t => (false, t) | String "-" t => (true, t) | _ => (false, String c s') end = (false, String c s')) as ->.
  { clear -Hp Hm. destruct c as [[] [] [] [] [] [] [] []]; try reflexivity; by exfalso. }
  rewrite bool_decide_eq_false_2 by done. rewrite Hr. by rewrite (proj2 (Z.ltb_ge _ _)), (proj2 (Z.ltb_ge _ _)) by lia.
Qed.

(** ** Windows of days *)

Lemma int64_mod x y : int64 (int64 x * y) = int64 (x * y).
Proof.
  unfold int64. f_equal. set (M := 2 ^ 64). set (H := 2 ^ 63).
  rewrite <- (Z.add_mod_idemp_l ((_ - H) * y)), <- (Z.add_mod_idemp_l (x * y)) by done. f_equal. f_equal.
  rewrite <- Z.mul_mod_idemp_l by done. rewrite <- (Z.mul_mod_idemp_l x) by done. f_equal. f_equal.
  rewrite Zminus_mod_idemp_l. f_equal. lia.
Qed.

(** A window given in days is as long as it says up to 106751 days, some 292
    years; from there on it is a wrapped number of nanoseconds, negative up to
    213503 days. *)
Lemma days_exact n : 0 <= n < 2 ^ 63 -> parseDuration (fmt_d n +:+ "d") = Some (int64 (n * (86400 * ns_per_s))).
Proof.
  intros Hn. unfold parseDuration. rewrite rev_string_app. change (rev_string "d" +:+ rev_string (fmt_d n)) with (String "d" (rev_string (fmt_d n))).
  cbn match. rewrite rev_string_involutive, Atoi_fmt_d by done. rewrite int64_mod. do 2 f_equal. unfold ns_per_s. lia.
Qed.

Lemma int64_small x : - 2 ^ 63 <= x < 2 ^ 63 -> int64 x = x.
Proof. intros Hx. unfold int64. rewrite Z.mod_small by lia. lia. Qed.

Theorem day_window (n : Z) : 0 <= n <= 213503 ->
  exists d, parseDuration (fmt_d n +:+ "d") = Some d /\
    (n <= 106751 -> d = n * (86400 * ns_per_s)) /\ (106752 <= n -> d = n * (86400 * ns_per_s) - 2 ^ 64 /\ d < 0).
Proof.
  intros Hn. exists (int64 (n * (86400 * ns_per_s))). split; [apply days_exact; lia|]. unfold ns_per_s. split.
  - intros Hs. apply int64_small. lia.
  - intros Hl. unfold int64. rewrite <- (Z.mod_add _ (-1)) by done. rewrite Z.mod_small by lia. lia.
Qed.

Lemma day_window_witness : exists d, parseDuration "106752d" = Some d /\ d < 0.
Proof.
  destruct (day_window 106752) as (d & Hd & _ & Hneg); [lia|]. exists d. split; [exact Hd|]. exact (proj2 (Hneg ltac:(lia))).
Defined.
