(* ===== verification/Api.v ===== *)
(** * The HTTP handlers

    internal/api: alerts_handler.go, events_handler.go, canary_admin.go and
    admin_honeypot.go, with canary_webhook.go of Sources.v, over the repository, and
    internal/canary/honeypot_token.go: what each endpoint answers and changes, then
    what follows for the server that routes to them. *)
From stdpp Require Import base list strings gmap.
From Stdlib Require Import ZArith Lia Bool Ascii.
From S2P Require Import Prelude Models GoStrings GoTime Bolt Pki Identity Authn Jwt Authz AuthHttp Sources Repository Canary Durations Hub Server.
Local Open Scope string_scope.
Local Open Scope list_scope.
Local Open Scope Z_scope.

(** ** Replies *)

Record canaryTokenResponse := mkTokenResponse {
  tr_ID : string; tr_Token : string; tr_Type : string; tr_Label : string; tr_Subdomain : string; tr_URL : string; tr_CreatedAt : gotime;
  tr_TriggeredAt : option gotime; tr_TriggerCount : Z; tr_LastTriggerSource : string }.
Definition toCanaryResponse (t : CanaryToken) : canaryTokenResponse :=
  mkTokenResponse (ct_ID t) (Token t) (ct_Type t) (Label t) (Subdomain t) (URL t) (ct_CreatedAt t) (ct_TriggeredAt t) (TriggerCount t) (LastTriggerSource t).

(** The bodies: text, a JSON error, and the values that are encoded; [BEvents None]
    encodes to null. *)
Inductive body :=
| BText (s : string) | BError (s : string) | BAlert (a : Alert) | BAlerts (l : list Alert) | BEvents (l : option (list NetworkEvent))
| BToken (t : canaryTokenResponse) | BTokens (l : list canaryTokenResponse) | BHoneypot (slug url snippet : string)
| BContainment (ip command : string) | BOther.

Inductive ws_message := AlertUpdate (a : Alert) | ContainmentRequest (ip : string).

Definition json_headers : gmap string string := {[ "Content-Type" := "application/json" ]}.
Definition open_json_headers : gmap string string := <["Access-Control-Allow-Origin" := "*"]> json_headers.
Definition writeJSON (status : Z) (b : body) : reply := mkReply status open_json_headers b.
Definition writeErr (status : Z) (msg : string) : reply := writeJSON status (BError msg).
Definition http_Error (msg : string) (status : Z) : reply := mkReply status ∅ (BText msg).

(** ** Honeypot tokens *)

Definition CanaryHoneypotVM := "HONEYPOT_VM".

Definition quoted (s : string) : string := String (ascii_of_nat 34) (s +:+ String (ascii_of_nat 34) "").
Definition newline : string := String (ascii_of_nat 10) "".

(** [slug8] is [slug[:8]]; a slug has sixteen characters. *)
Definition honeypotVMSnippet (webhookURL slug8 : string) : string :=
  Join
    ["# Add to your NixOS flake and run: nix run .#honeypot-" +:+ slug8;
     "nixosConfigurations." +:+ quoted ("honeypot-" +:+ slug8) +:+ " = nixpkgs.lib.nixosSystem {";
     "  system = " +:+ quoted "x86_64-linux" +:+ ";";
     "  modules = [";
     "    microvm.nixosModules.microvm";
     "    owasaka.nixosModules.honeypot";
     "    {";
     "      owasaka.honeypot.enable = true;";
     "      owasaka.honeypot.webhookURL = " +:+ quoted webhookURL +:+ ";";
     "    }";
     "  ];";
     "};";
     "# Runner (add to apps):";
     "# apps." +:+ quoted "x86_64-linux" +:+ "." +:+ quoted ("honeypot-" +:+ slug8) +:+ " = {";
     "#   type = " +:+ quoted "app" +:+ ";";
     "#   program = " +:+ quoted ("${nixosConfigurations." +:+ quoted ("honeypot-" +:+ slug8) +:+ ".config.microvm.runner.qemu}/bin/microvm-run") +:+ ";";
     "# };"] newline.

Section Handlers.
Context {store : Type} `{Bolt store} `{JSON NetworkEvent} `{JSON CanaryToken} `{JSON Alert} `{JSON Asset}.

Definition GenerateHoneypotToken (db : store) (baseURL webhookPath label : string) (rand : option bytes) (uuid : string) (now : gotime)
  : store * res cterror CanaryToken :=
  match randomSlug rand with
  | inl e => (db, RErr e)
  | inr slug =>
      let url := trim_right_slash baseURL +:+ "/" +:+ trim_slash webhookPath +:+ "/" +:+ slug in
      plant db (mkCanary uuid slug CanaryHoneypotVM label "" url now None 0 "")
  end.

(** What the handlers share with the rest of the program: the repository, and the
    events pushed into the pipeline. *)
Record world := mkWorld { w_db : store; w_pushed : list NetworkEvent }.

(** The sections of the configuration, the JSON decoders of the three request bodies
    (the canary handlers ignore an error and use what was filled in), the texts of
    the errors, and what a request draws. *)
Record setup := mkSetup { DNSZone : string; WebhookBaseURL : string; WebhookPath : string }.
Context (cfg : setup) (unicode_fold : string -> string -> bool) (err_text : dberror -> string).
Context (decode_patch : option bytes -> option (string * string)) (decode_label : option bytes -> string) (decode_ip : option bytes -> option string).
Context (rand : option bytes) (uuid : string) (now : gotime).

Definition answer := (world * list ws_message * reply (B := body))%type.
Definition same (w : world) (r : reply) : answer := (w, [], r).
(** A panic, which net/http recovers: the connection is closed without a reply. *)
Definition panicked (w : world) : answer := same w (mkReply 0 ∅ BOther).

Definition query (r : http_req) (k : string) : string := default "" (hq_query r !! k).

(** *** Alerts *)

Definition getAlert (w : world) (id : string) : answer :=
  match GetAlert (w_db w) id with
  | ROk a => same w (writeJSON 200 (BAlert a))
  | RErr e => same w (writeErr 404 (err_text e))
  | RPanic => panicked w
  end.

Definition listAlerts (w : world) (r : http_req) : answer :=
  match ListAlerts unicode_fold (w_db w) (mkFilter (query r "status") (query r "severity") (Atoi (query r "limit")).1) with
  | ROk l => same w (writeJSON 200 (BAlerts l))
  | RErr e => same w (writeErr 500 (err_text e))
  | RPanic => panicked w
  end.

Definition ServeAlerts (w : world) (r : http_req) : answer :=
  let id := trim_slash (TrimPrefix (hq_path r) "/api/alerts") in
  if bool_decide (hq_method r = "GET") then if bool_decide (id <> "") then getAlert w id else listAlerts w r
  else same w (writeErr 405 "method not allowed").

Definition PatchAlert (w : world) (r : http_req) : answer :=
  if negb (bool_decide (hq_method r = "PATCH")) then same w (writeErr 405 "method not allowed")
  else
    let id := TrimPrefix (hq_path r) "/api/alerts/" in
    if bool_decide (id = "") then same w (writeErr 400 "missing alert id")
    else
      match decode_patch (rq_Body (hq_auth r)) with
      | None => same w (writeErr 400 "invalid JSON body")
      | Some (status, note) =>
          match UpdateAlert (w_db w) id status note now with
          | (db, ROk updated) => (mkWorld db (w_pushed w), [AlertUpdate updated], writeJSON 200 (BAlert updated))
          | (db, RErr e) => same (mkWorld db (w_pushed w)) (writeErr 404 (err_text e))
          | (db, RPanic) => panicked (mkWorld db (w_pushed w))
          end
      end.

Definition ServeContainment (w : world) (r : http_req) : answer :=
  if negb (bool_decide (hq_method r = "POST")) then same w (writeErr 405 "method not allowed")
  else
    match decode_ip (rq_Body (hq_auth r)) with
    | None => same w (writeErr 400 "invalid body")
    | Some ip =>
        if bool_decide (ip = "") then same w (writeErr 400 "invalid body")
        else (w, [ContainmentRequest ip], writeJSON 202 (BContainment ip ("nft add rule inet filter input ip saddr " +:+ ip +:+ " drop")))
    end.

(** *** Events *)

(** The start of the window: the zero time without one, or when it does not parse. *)
Definition window_start (from : string) : gotime :=
  if bool_decide (from = "") then 0
  else match parseDuration (TrimSpace from) with Some d => now + int64 (- d) | None => 0 end.

Definition ServeEvents (w : world) (r : http_req) : answer :=
  if negb (bool_decide (hq_method r = "GET")) then same w (writeErr 405 "method not allowed")
  else
    match ListEventsByType (w_db w) (query r "type") (window_start (query r "from")) (Atoi (query r "limit")).1 with
    | ROk l => same w (writeJSON 200 (BEvents (match l with [] => None | _ => Some l end)))
    | RErr e => same w (writeErr 500 (err_text e))
    | RPanic => panicked w
    end.

(** *** Canaries *)

Definition planted (w : world) (x : store * res cterror CanaryToken) (b : CanaryToken -> body) : answer :=
  match x with
  | (db, ROk t) => same (mkWorld db (w_pushed w)) (mkReply 200 json_headers (b t))
  | (db, RErr _) => same (mkWorld db (w_pushed w)) (http_Error "failed to generate token" 500)
  | (db, RPanic) => panicked (mkWorld db (w_pushed w))
  end.

Definition CreateDNS (w : world) (r : http_req) : answer :=
  if negb (bool_decide (hq_method r = "POST")) then same w (http_Error "POST only" 405)
  else planted w (GenerateDNSToken (w_db w) (DNSZone cfg) (decode_label (rq_Body (hq_auth r))) rand uuid now) (fun t => BToken (toCanaryResponse t)).

Definition CreateHTTP (w : world) (r : http_req) : answer :=
  if negb (bool_decide (hq_method r = "POST")) then same w (http_Error "POST only" 405)
  else planted w (GenerateHTTPToken (w_db w) (WebhookBaseURL cfg) (WebhookPath cfg) (decode_label (rq_Body (hq_auth r))) rand uuid now)
         (fun t => BToken (toCanaryResponse t)).

Definition CreateHoneypot (w : world) (r : http_req) : answer :=
  if negb (bool_decide (hq_method r = "POST")) then same w (http_Error "POST only" 405)
  else planted w (GenerateHoneypotToken (w_db w) (WebhookBaseURL cfg) (WebhookPath cfg) (decode_label (rq_Body (hq_auth r))) rand uuid now)
         (fun t => BHoneypot (Token t) (URL t) (honeypotVMSnippet (URL t) (String.substring 0 8 (Token t)))).

Definition List (w : world) (r : http_req) : answer :=
  if negb (bool_decide (hq_method r = "GET")) then same w (http_Error "GET only" 405)
  else
    match ListCanaryTokens (w_db w) with
    | ROk l => same w (mkReply 200 json_headers (BTokens (toCanaryResponse <$> l)))
    | RErr _ => same w (http_Error "failed to list tokens" 500)
    | RPanic => panicked w
    end.

Definition Webhook (w : world) (r : http_req) : answer :=
  match CanaryWebhookHandler (w_db w) (hq_method r) (hq_path r) (hq_remote r) (hq_UserAgent r) (hq_Referer r) now with
  | Some (status, Some e) => same (mkWorld (w_db w) (w_pushed w ++ [e])) (mkReply status ∅ (BText ""))
  | Some (status, None) => same w (mkReply status ∅ (BText ""))
  | None => panicked w
  end.

(** The other endpoints answer from elsewhere (health, metrics, keys, statistics,
    topology, sessions, backups) and change neither the repository nor the
    pipeline. *)
Context (reports : endpoint -> world -> http_req -> reply (B := body)).

Definition api_handler (e : endpoint) (w : world) (r : http_req) : answer :=
  match e with
  | EAlertItem => PatchAlert w r
  | EAlertList => ServeAlerts w r
  | EContainment => ServeContainment w r
  | EEvents => ServeEvents w r
  | ECanaryDNS => CreateDNS w r
  | ECanaryHTTP => CreateHTTP w r
  | EHoneypot => CreateHoneypot w r
  | ECanaryList => List w r
  | EWebhook => Webhook w r
  | _ => same w (reports e w r)
  end.
End Handlers.

(** ** What the handlers promise *)

Section ApiFacts.
Context {store : Type} `{Bolt store} `{JSON NetworkEvent} `{JSON CanaryToken} `{JSON Alert} `{JSON Asset}.
Context (cfg : setup) (unicode_fold : string -> string -> bool) (err_text : dberror -> string).
Context (decode_patch : option bytes -> option (string * string)) (decode_label : option bytes -> string) (decode_ip : option bytes -> option string).
Context (rand : option bytes) (uuid : string) (now : gotime) (reports : endpoint -> world (store := store) -> http_req -> reply (B := body)).
Abbreviation api := (api_handler cfg unicode_fold err_text decode_patch decode_label decode_ip rand uuid now reports).

(** The open handlers leave the repository alone and broadcast nothing; the only
    one that does anything is the decoy, for a known token. *)
Lemma open_handler_effect e x r : open_endpoint e = true ->
  w_db (api e x r).1.1 = w_db x /\ (api e x r).1.2 = [] /\
  (w_pushed (api e x r).1.1 <> w_pushed x -> e = EWebhook /\ hq_method r = "POST" /\
     let token := TrimPrefix (hq_path r) "/api/canary/webhook/" in
     (exists t, FindCanaryTokenByToken (w_db x) token = ROk t) /\
     w_pushed (api e x r).1.1 = w_pushed x ++ [canary_event token (hq_remote r) (hq_UserAgent r) (hq_Referer r) now]).
Proof.
  destruct e; try done. intros _. cbn [api_handler]. unfold Webhook, CanaryWebhookHandler.
  case_bool_decide as Hm; [|done]. cbn [negb]. case_bool_decide; [done|].
  destruct (FindCanaryTokenByToken (w_db x) _) as [t|e|] eqn:Hf; [|done..]. cbn. split_and!; [done..|]. intros _. split_and!; [done..| |done]. by exists t.
Qed.

Lemma closed_handler_pushes e x r : open_endpoint e = false -> w_pushed (api e x r).1.1 = w_pushed x.
Proof.
  destruct e; try done; intros _; cbn [api_handler].
  - unfold CreateDNS. destruct (negb _); [done|]. by destruct (GenerateDNSToken _ _ _ _ _ _) as [? [| |]].
  - unfold CreateHTTP. destruct (negb _); [done|]. by destruct (GenerateHTTPToken _ _ _ _ _ _ _) as [? [| |]].
  - unfold List. destruct (negb _); [done|]. by destruct (ListCanaryTokens _).
  - unfold CreateHoneypot. destruct (negb _); [done|]. by destruct (GenerateHoneypotToken _ _ _ _ _ _ _) as [? [| |]].
  - unfold PatchAlert. destruct (negb _); [done|]. case_bool_decide; [done|]. destruct (decode_patch _) as [[? ?]|]; [|done].
    by destruct (UpdateAlert _ _ _ _ _) as [? [| |]].
  - unfold ServeAlerts, getAlert, listAlerts. case_bool_decide; [|done]. case_bool_decide; [by destruct (GetAlert _ _)|by destruct (ListAlerts _ _ _)].
  - unfold ServeContainment. destruct (negb _); [done|]. destruct (decode_ip _); [|done]. by case_bool_decide.
  - unfold ServeEvents. destruct (negb _); [done|]. by destruct (ListEventsByType _ _ _ _).
Qed.

(** *** Windows that wrap around *)

Lemma from_is_clean n : 0 <= n -> TrimSpace (fmt_d n +:+ "d") = fmt_d n +:+ "d".
Proof.
  intros Hn. pose proof (read_fmt_d n Hn) as Hr. pose proof (NetAddr.fmt_d_digits n Hn) as Hd.
  assert (forall s, strip_space_end (s +:+ "d") = None) as Hend.
  { intros t. unfold strip_space_end. rewrite rev_string_app. reflexivity. }
  destruct (fmt_d n) as [|c t]; [reflexivity|].
  assert (strip_space (String c t +:+ "d") = None) as Hstart.
  { unfold NetAddr.digit_text in Hd. cbn [string_forallb] in Hd. apply andb_true_iff in Hd as [Hc _].
    unfold NetAddr.is_digit, NetAddr.code in Hc. apply andb_true_iff in Hc as [Hlo%Z.leb_le Hhi%Z.leb_le].
    assert (exists k, c = ascii_of_N k /\ (48 <= k <= 57)%N) as (k & -> & Hk).
    { exists (N_of_ascii c). rewrite ascii_N_embedding. split; [done|lia]. }
    assert (k = 48 \/ k = 49 \/ k = 50 \/ k = 51 \/ k = 52 \/ k = 53 \/ k = 54 \/ k = 55 \/ k = 56 \/ k = 57)%N as Hc by lia.
    repeat destruct Hc as [->|Hc]; try subst k; reflexivity. }
  unfold TrimSpace. assert (trim_left (String.length (String c t +:+ "d")) (String c t +:+ "d") = String c t +:+ "d") as ->.
  { change (String.length (String c t +:+ "d")) with (S (String.length (t +:+ "d"))). cbn [trim_left]. by rewrite Hstart. }
  change (String.length (String c t +:+ "d")) with (S (String.length (t +:+ "d"))). cbn [trim_right]. by rewrite Hend.
Qed.

(** A search for the last [n] days starts [n] days ago up to 106751 days; with a
    longer window it starts in the future, so it is answered with null as long as no
    stored event is from the future. *)
Theorem long_window_is_empty (w : world) (r : http_req) (n : Z) (l : list (bytes * bytes)) :
  hq_method r = "GET" -> query r "from" = fmt_d n +:+ "d" -> 0 <= n <= 213503 -> bucket (w_db w) BucketEvents = Some l ->
  (forall k v e, (k, v) ∈ l -> Unmarshal v = Some e -> ne_Timestamp e <= now) -> 0 < now ->
  let kept since := List.filter (event_kept (query r "type") since) (omap (fun '(_, v) => Unmarshal v) (reverse l)) in
  let limit := (Atoi (query r "limit")).1 in
  let found since := match take (if limit <=? 0 then 100 else Z.to_nat limit) (kept since) with [] => None | es => Some es end in
  ServeEvents err_text now w r =
    same w (writeJSON 200 (BEvents (if n <=? 106751 then found (now - n * (86400 * ns_per_s)) else None))).
Proof.
  intros Hm Hq Hn Hb Hts Hnow kept limit found. unfold ServeEvents. rewrite Hm, bool_decide_eq_true_2 by done. cbn [negb].
  assert (window_start now (query r "from") = if n <=? 106751 then now - n * (86400 * ns_per_s) else now + (2 ^ 64 - n * (86400 * ns_per_s))) as ->.
  { unfold window_start. rewrite Hq, bool_decide_eq_false_2 by (by destruct (fmt_d n)). rewrite from_is_clean by lia.
    rewrite days_exact by lia. unfold ns_per_s. destruct (Z.leb_spec n 106751) as [Hs|Hl].
    - rewrite (int64_small (n * _)) by lia. rewrite int64_small by lia. lia.
    - unfold int64 at 2. rewrite <- (Z.mod_add _ (-1)) by done. rewrite Z.mod_small by lia. rewrite int64_small by lia. lia. }
  unfold ListEventsByType, list_last, bkt_entries. rewrite Hb. cbn [res_bind].
  rewrite scan_spec by (cbn; lia). rewrite app_nil_l.
  destruct (Z.leb_spec n 106751) as [Hs|Hl].
  - subst found kept. cbv beta. fold limit. by destruct (take _ _).
  - set (since := now + _). assert (List.filter (event_kept (query r "type") since) (omap (fun '(_, v) => Unmarshal v) (reverse l)) = []) as ->.
    { destruct (List.filter _ _) as [|e es] eqn:Hf; [done|]. exfalso.
      assert (In e (List.filter (event_kept (query r "type") since) (omap (fun '(_, v) => Unmarshal v) (reverse l)))) as Hin by (rewrite Hf; by left).
      apply filter_In in Hin as [Hin Hk]. apply list_elem_of_In, list_elem_of_omap in Hin as ([k v] & Hin & Hu).
      rewrite elem_of_reverse in Hin. specialize (Hts k v e Hin Hu). unfold event_kept in Hk. apply andb_true_iff in Hk as [_ Hk].
      unfold time_IsZero, ns_per_s in *. apply orb_true_iff in Hk as [Hk%Z.eqb_eq|Hk%negb_true_iff%Z.ltb_ge]; subst since; lia. }
    by rewrite take_nil.
Qed.
End ApiFacts.

Section Served.
Context {KS PS : Type} `{KeyStore KS} `{PrincipalStore PS} `{Ed25519} `{JwtLib} `{WebSocketLib}.
Context {store : Type} `{Bolt store} `{JSON NetworkEvent} `{JSON CanaryToken} `{JSON Alert} `{JSON Asset}.
Context (cfg : setup) (unicode_fold : string -> string -> bool) (err_text : dberror -> string).
Context (decode_patch : option bytes -> option (string * string)) (decode_label : option bytes -> string) (decode_ip : option bytes -> option string).
Context (rand : option bytes) (uuid : string) (now : gotime) (reports : endpoint -> world (store := store) -> http_req -> reply (B := body)).
Context (mw : Middleware (KS := KS) (PS := PS)) (o : ServerOptions) (m : list (string * route)) (minted : string) (h : heap) (wr : writer).

(** One request to the program. *)
Definition request (x : world) (r : http_req) : result :=
  serve BText (api_handler cfg unicode_fold err_text decode_patch decode_label decode_ip rand uuid now reports) mw h now m minted x wr r.

(** What changes needs a principal: a request that changes the repository or sends
    a message to the operators carries the credentials of an active principal; one
    that pushes an event is a POST to the decoy endpoint with the token of a stored
    canary, and pushes that one event. *)
Theorem changes_need_a_principal (x : world) (r : http_req) : routes o = Some m -> auth_set o = true ->
  let x' := r_state (request x r) in
  (w_db x' <> w_db x \/ r_msgs (request x r) <> [] -> exists l p, authenticated_as mw h now (hq_auth r) l p) /\
  (w_pushed x' <> w_pushed x ->
     let token := TrimPrefix (hq_path r) "/api/canary/webhook/" in
     hq_method r = "POST" /\ HasPrefix (hq_path r) "/api/canary/webhook/" = true /\
     (exists t, FindCanaryTokenByToken (w_db x) token = ROk t) /\ w_db x' = w_db x /\
     w_pushed x' = w_pushed x ++ [canary_event token (hq_remote r) (hq_UserAgent r) (hq_Referer r) now]).
Proof.
  intros Hm Ha x'. subst x'.
  pose proof (serve_effect BText (api_handler cfg unicode_fold err_text decode_patch decode_label decode_ip rand uuid now reports) mw m minted h now x wr r) as He.
  fold (request x r) in He. cbv zeta in He. destruct (r_called (request x r)) as [[e r']|] eqn:Hcall.
  2: { destruct He as [-> ->]. split; [intros [|]; done|done]. }
  apply (called_iff BText _ mw o m minted h now x wr r r' e Hm Ha) in Hcall as (_ & Hadd & Hcred).
  destruct He as [(-> & -> & ->)|(Hws & -> & -> & _)]; [split; [intros [|]; done|done]|].
  destruct (open_endpoint e) eqn:Hopen.
  - subst r'. destruct (open_handler_effect cfg unicode_fold err_text decode_patch decode_label decode_ip rand uuid now reports e x r Hopen) as (Hdb & Hmsg & Hpush).
    split; [rewrite Hdb, Hmsg; intros [|]; done|]. intros Hp. destruct (Hpush Hp) as (-> & Hpost & Ht & Heq).
    destruct Hadd as (_ & _ & pat & Hin & Hmatch & _). rewrite (route_path o m _ _ _ Hm Hin) in Hmatch by done. apply matches_prefix in Hmatch.
    split_and!; try done.
  - destruct Hcred as (l & p & Hau & _). split; [intros _; by exists l, p|].
    by rewrite closed_handler_pushes.
Qed.

(** No alert can be read by its identifier: a GET below /api/alerts/ is routed to
    the handler of PATCH, which refuses it, and the handler that would read the
    alert is only ever given the path of the list. *)
Theorem no_alert_by_id (x : world) (r r' : http_req) (e : endpoint) : routes o = Some m -> auth_set o = true -> hq_method r = "GET" ->
  r_called (request x r) = Some (e, r') ->
  (e = EAlertItem -> rp_status (r_reply (request x r)) = 405) /\
  (e = EAlertItem \/ e = EAlertList -> forall a, rp_body (r_reply (request x r)) <> BAlert a) /\ r_state (request x r) = x.
Proof.
  intros Hm Ha Hget Hcall.
  pose proof (serve_effect BText (api_handler cfg unicode_fold err_text decode_patch decode_label decode_ip rand uuid now reports) mw m minted h now x wr r) as He.
  fold (request x r) in He. cbv zeta in He. rewrite Hcall in He.
  apply (called_iff BText _ mw o m minted h now x wr r r' e Hm Ha) in Hcall as (_ & Hadd & Hcred).
  assert (hq_method r' = "GET" /\ hq_path r' = hq_path r) as [Hget' Hpath].
  { destruct (open_endpoint e); [by subst r'|]. destruct Hcred as (l & p & _ & ->). by destruct r as [[]]. }
  destruct He as [(-> & -> & _)|(_ & Hst & _ & Hstatus & Hbody)]; [split_and!; [done|by intros [|]|done]|]. rewrite Hst, Hstatus, Hbody.
  clear Hst Hstatus Hbody Hcred.
  destruct e; cbn [api_handler]; (split_and!; [try done|try (by intros [|])|]); try done;
    try (unfold CreateDNS, CreateHTTP, CreateHoneypot, ServeContainment; by rewrite Hget').
  - unfold Webhook, CanaryWebhookHandler. rewrite Hget'. reflexivity.
  - unfold List. destruct (negb (bool_decide (hq_method r' = "GET"))); [reflexivity|]. destruct (ListCanaryTokens _); reflexivity.
  - intros _. unfold PatchAlert. rewrite Hget'. reflexivity.
  - intros _ a. unfold PatchAlert. rewrite Hget'. discriminate.
  - unfold PatchAlert. rewrite Hget'. reflexivity.
  - intros _ a. unfold ServeAlerts. rewrite Hpath. destruct Hadd as (_ & _ & pat & Hin & Hmatch & _).
    rewrite (route_path o m _ _ _ Hm Hin) in Hmatch by done. cbn [fixed_path] in Hmatch. unfold pattern_matches in Hmatch.
    apply orb_true_iff in Hmatch as [<-%bool_decide_eq_true_1|Hmatch]; [|by vm_compute in Hmatch].
    rewrite Hget', bool_decide_eq_true_2 by done. rewrite bool_decide_eq_false_2 by (intros Hn; by apply Hn).
    unfold listAlerts. destruct (ListAlerts _ _ _); discriminate.
  - unfold ServeAlerts, getAlert, listAlerts. case_bool_decide; [|reflexivity]. case_bool_decide; [destruct (GetAlert _ _)|destruct (ListAlerts _ _ _)]; reflexivity.
  - unfold ServeEvents. destruct (negb (bool_decide (hq_method r' = "GET"))); [reflexivity|]. destruct (ListEventsByType _ _ _ _); reflexivity.
Qed.
End Served.

(** ** Three requests *)

Module ApiDemo.
Import MapBolt PkiDemo ToyJwt JwtDemo AuthHttpDemo ServerDemo.
#[local] Existing Instance ServerDemo.gorilla.
#[local] Existing Instance CanaryDemo.event_json.
#[local] Existing Instance CanaryDemo.token_json.
#[local] Existing Instance RepositoryDemo.alert_json.

Definition db : MapBolt.t := <[BucketAlerts := {[ go_bytes "a1" := [10] ]}]> CanaryDemo.db2.
Definition w0 : world := mkWorld db [].
Definition sections : setup := mkSetup "canary.internal" "https://siem" "/api/canary/webhook".
Definition no_report (e : endpoint) (w : world (store := MapBolt.t)) (r : http_req) : reply (B := body) := mkReply 200 ∅ BOther.
Definition patch (b : option bytes) : option (string * string) := Some (AlertStatusTriaging, "looking").
Definition served (r : http_req) : result :=
  request sections (fun _ _ => false) (fun _ => "") patch (fun _ => "") (fun _ => None) None "" (20 * sec) no_report m table "id" h http1 w0 r.

(** An auditor triages an alert, and a stranger steps on the decoy. *)
Lemma changes_need_a_principal_witness :
  (exists l p, authenticated_as m h (20 * sec) (hq_auth (get "PATCH" "/api/alerts/a1" token)) l p) /\
  w_pushed (r_state (served (get "POST" "/api/canary/webhook/a1b2" ""))) = [canary_event "a1b2" "10.0.0.9:5000" "" "" (20 * sec)].
Proof.
  split.
  - refine (proj1 (changes_need_a_principal sections (fun _ _ => false) (fun _ => "") patch (fun _ => "") (fun _ => None) None "" (20 * sec) no_report
      m o table "id" h http1 w0 (get "PATCH" "/api/alerts/a1" token) eq_refl eq_refl) _).
    right. vm_compute. discriminate.
  - refine (proj2 (proj2 (proj2 (proj2 (proj2 (changes_need_a_principal sections (fun _ _ => false) (fun _ => "") patch (fun _ => "") (fun _ => None) None "" (20 * sec)
      no_report m o table "id" h http1 w0 (get "POST" "/api/canary/webhook/a1b2" "") eq_refl eq_refl) _))))). vm_compute. discriminate.
Defined.

Lemma no_alert_by_id_witness : rp_status (r_reply (served (get "GET" "/api/alerts/a1" token))) = 405 /\ GetAlert db "a1" = ROk RepositoryDemo.a1.
Proof.
  split; [|vm_compute; reflexivity].
  refine (proj1 (no_alert_by_id sections (fun _ _ => false) (fun _ => "") patch (fun _ => "") (fun _ => None) None "" (20 * sec) no_report
    m o table "id" h http1 w0 (get "GET" "/api/alerts/a1" token)
    (as_principal (get "GET" "/api/alerts/a1" token) (WithPrincipal (hq_auth (get "GET" "/api/alerts/a1" token)) 1)) EAlertItem eq_refl eq_refl eq_refl _) eq_refl).
  vm_compute. reflexivity.
Defined.

Definition last_days (n : string) : http_req :=
  mkHttp (AuthHttp.mkRequest "GET" "" "" "" "" None None None) "/api/events" "" {[ "from" := n ]} "" "" "" "".
Lemma long_window_is_empty_witness :
  ServeEvents (fun _ => "") 100 w0 (last_days "7d") = same w0 (writeJSON 200 (BEvents (Some [CanaryDemo.query]))) /\
  ServeEvents (fun _ => "") 100 w0 (last_days "106752d") = same w0 (writeJSON 200 (BEvents None)).
Proof.
  split; [vm_compute; reflexivity|].
  apply (long_window_is_empty (fun _ => "") 100 w0 (last_days "106752d") 106752 [(go_bytes "e1", go_bytes "e1")]).
  - reflexivity.
  - vm_compute. reflexivity.
  - lia.
  - vm_compute. reflexivity.
  - intros k v e Hin Hu. apply list_elem_of_singleton in Hin. injection Hin as -> ->.
    change (Unmarshal (go_bytes "e1")) with (Some CanaryDemo.query) in Hu. injection Hu as <-. cbn. lia.
  - lia.
Defined.
End ApiDemo.
