(* ===== verification/Ml.v ===== *)
(** * Anomaly detection

    internal/analytics/ml: baseline.go (the profile of each source and its
    features), iforest.go (the isolation forest) and service.go (when an event is
    scored).  Features are IEEE doubles; the logarithm, the power, the hour of a
    time, the map order and what the random source yields are arguments. *)
From stdpp Require Import base list strings gmap.
From Stdlib Require Import ZArith Lia Bool SpecFloat.
From S2P Require Import Prelude Models GoStrings GoFloat GoTime Canary Neotron Sources.
Local Open Scope string_scope.
Local Open Scope list_scope.
Local Open Scope Z_scope.

(** ** The baseline *)

Record hostProfile := mkProfile {
  eventCounts : gmap string Z; totalEvents : Z; uniqueDests : gset string; firstSeen : gotime; lastSeen : gotime; hourHistogram : list Z }.

(** [profiles] by source; [window] in nanoseconds, [started] when the process was. *)
Record Baseline := mkBaseline { profiles : gmap string hostProfile; window : Z; started : gotime }.

Definition NewBaseline (learningDays : Z) (now : gotime) : Baseline :=
  let learningDays := if learningDays =? 0 then 7 else learningDays in
  mkBaseline ∅ (int64 (int64 (learningDays * 24) * (3600 * ns_per_s))) now.

Definition new_profile (e : NetworkEvent) : hostProfile := mkProfile ∅ 0 ∅ (ne_Timestamp e) 0 (replicate 24 0).

Section Baseline.
(** [hour_of] is [Time.Hour] in the location of the time. *)
Context (hour_of : gotime -> nat) (log2 : float64 -> float64) (order : gmap string Z -> list (string * Z)).

Definition count_event (p : hostProfile) (e : NetworkEvent) : hostProfile :=
  let t := event_type_string (ne_Type e) in
  mkProfile (<[t := default 0 (eventCounts p !! t) + 1]> (eventCounts p)) (totalEvents p + 1)
    (if bool_decide (ne_Destination e = "") then uniqueDests p else {[ ne_Destination e ]} ∪ uniqueDests p)
    (firstSeen p) (ne_Timestamp e) (alter (fun c => c + 1) (hour_of (ne_Timestamp e)) (hourHistogram p)).

Definition Record_ (b : Baseline) (e : NetworkEvent) : Baseline :=
  if bool_decide (ne_Source e = "") then b
  else mkBaseline (<[ne_Source e := count_event (default (new_profile e) (profiles b !! ne_Source e)) e]> (profiles b)) (window b) (started b).

Definition IsLearning (b : Baseline) (now : gotime) : bool := now - started b <? window b.

(** *** Features *)

(** [t.Sub(u).Hours()]: the difference saturates. *)
Definition hours_between (t u : gotime) : float64 :=
  let d := Z.max (- 2 ^ 63) (Z.min (2 ^ 63 - 1) (t - u)) in
  let hour := 3600 * ns_per_s in
  fadd (float_of_Z (Z.quot d hour)) (fdiv (float_of_Z (Z.rem d hour)) (float_of_Z hour)).

Definition event_rate (p : hostProfile) : float64 :=
  let duration := hours_between (lastSeen p) (firstSeen p) in
  let duration := if flt duration (float_of_Z 1) then float_of_Z 1 else duration in
  fdiv (float_of_Z (totalEvents p)) duration.

Definition dest_diversity (p : hostProfile) : float64 :=
  fdiv (float_of_Z (Z.of_nat (size (uniqueDests p)))) (float_of_Z (Z.max 1 (totalEvents p))).

Definition hourDeviation (p : hostProfile) (hour : nat) : float64 :=
  let total := foldl Z.add 0 (hourHistogram p) in
  if total =? 0 then fzero
  else
    let avg := fdiv (float_of_Z total) (float_of_Z 24) in
    if same_float avg fzero then fzero
    else fdiv (SFabs (fsub (float_of_Z (nth hour (hourHistogram p) 0)) avg)) avg.

Definition typeEntropy (p : hostProfile) : float64 :=
  if totalEvents p =? 0 then fzero
  else foldl (fun entropy tc =>
         let prob := fdiv (float_of_Z tc.2) (float_of_Z (totalEvents p)) in
         if flt fzero prob then fsub entropy (fmul prob (log2 prob)) else entropy) fzero (order (eventCounts p)).

Definition features (p : hostProfile) (hour : nat) : list float64 :=
  [event_rate p; dest_diversity p; hourDeviation p hour; typeEntropy p].

Definition FeatureVector (b : Baseline) (source : string) (hour : nat) : list float64 :=
  match profiles b !! source with None => replicate 4 fzero | Some p => features p hour end.

(** [ranged] is the order in which Go walks the profiles. *)
Definition TrainingData (ranged : gmap string hostProfile -> list hostProfile) (b : Baseline) (hour : nat) : list (list float64) :=
  (fun p => features p hour) <$> ranged (profiles b).

(** *** A profile is the summary of the events of its source *)

Definition from_source (s : string) (e : NetworkEvent) : Prop := ne_Source e = s.

Lemma record_other b e s : ne_Source e <> s -> profiles (Record_ b e) !! s = profiles b !! s.
Proof. intros Hs. unfold Record_. case_bool_decide; [done|]. cbn [profiles]. by rewrite lookup_insert_ne. Qed.

(** What the profile of a source says after a history of events. *)
Definition summarises (p : hostProfile) (es : list NetworkEvent) : Prop :=
  totalEvents p = Z.of_nat (length es) /\
  (forall t, default 0 (eventCounts p !! t) = Z.of_nat (length (filter (fun e => event_type_string (ne_Type e) = t) es))) /\
  uniqueDests p = list_to_set (filter (fun d => d <> "") (ne_Destination <$> es)) /\
  Some (firstSeen p) = head (ne_Timestamp <$> es) /\ Some (lastSeen p) = last (ne_Timestamp <$> es) /\
  length (hourHistogram p) = 24%nat /\
  forall h, (h < 24)%nat -> hourHistogram p !! h = Some (Z.of_nat (length (filter (fun e => hour_of (ne_Timestamp e) = h) es))).

Lemma count_first e : (hour_of (ne_Timestamp e) < 24)%nat -> summarises (count_event (new_profile e) e) [e].
Proof.
  intros Hh. unfold summarises, count_event, new_profile. cbn [totalEvents eventCounts uniqueDests firstSeen lastSeen hourHistogram].
  split_and!; try done.
  - intros t. rewrite lookup_empty. cbn [default]. destruct (decide (event_type_string (ne_Type e) = t)) as [<-|Hne].
    + by rewrite lookup_insert_eq, filter_cons_True.
    + by rewrite lookup_insert_ne, filter_cons_False.
  - cbn [fmap list_fmap]. case_bool_decide as Hd; [rewrite filter_cons_False; [done|tauto]|rewrite filter_cons_True by done]. set_solver.
  - rewrite length_alter. by rewrite length_replicate.
  - intros h Hlt. destruct (decide (hour_of (ne_Timestamp e) = h)) as [<-|Hne].
    + rewrite list_lookup_alter_eq, lookup_replicate_2 by done. by rewrite filter_cons_True.
    + rewrite list_lookup_alter_ne, lookup_replicate_2 by done. by rewrite filter_cons_False.
Qed.

Lemma count_next p es e : (hour_of (ne_Timestamp e) < 24)%nat -> es <> [] -> summarises p es -> summarises (count_event p e) (es ++ [e]).
Proof.
  intros Hh Hes (Ht & Hc & Hd & Hf & Hl & Hlen & Hhist). unfold summarises, count_event.
  cbn [totalEvents eventCounts uniqueDests firstSeen lastSeen hourHistogram]. split_and!.
  - rewrite length_app. cbn. lia.
  - intros t. rewrite filter_app, length_app. destruct (decide (event_type_string (ne_Type e) = t)) as [<-|Hne].
    + rewrite lookup_insert_eq, filter_cons_True by done. cbn [default length filter list_filter]. rewrite Hc. cbn. lia.
    + rewrite lookup_insert_ne, filter_cons_False by done. rewrite Hc. cbn. lia.
  - rewrite fmap_app, filter_app, list_to_set_app_L, <- Hd. cbn [fmap list_fmap]. case_bool_decide as Hde.
    + rewrite filter_cons_False by tauto. set_solver.
    + rewrite filter_cons_True by done. set_solver.
  - rewrite fmap_app. by destruct es.
  - rewrite fmap_app. cbn [fmap list_fmap]. by rewrite last_snoc.
  - by rewrite length_alter.
  - intros h Hlt. rewrite filter_app, length_app. destruct (decide (hour_of (ne_Timestamp e) = h)) as [<-|Hne].
    + rewrite list_lookup_alter_eq, Hhist by done. rewrite filter_cons_True by done. cbn. f_equal. lia.
    + rewrite list_lookup_alter_ne, Hhist by done. rewrite filter_cons_False by done. cbn. f_equal. lia.
Qed.

(** The profile of a source is the summary of exactly the events with that source,
    whatever the others do; a source has one as soon as it has an event. *)
Theorem profile_summarises (learningDays : Z) (now : gotime) (es : list NetworkEvent) (s : string) :
  (forall t, (hour_of t < 24)%nat) -> s <> "" ->
  let own := filter (fun e => ne_Source e = s) es in
  match profiles (foldl Record_ (NewBaseline learningDays now) es) !! s with
  | None => own = []
  | Some p => own <> [] /\ summarises p own
  end.
Proof.
  intros Hh Hs own. subst own. induction es as [|e es IH] using rev_ind; [done|]. rewrite foldl_snoc, filter_app.
  set (b := foldl Record_ (NewBaseline learningDays now) es) in *. destruct (decide (ne_Source e = s)) as [He|He].
  - rewrite filter_cons_True by done. cbn [filter list_filter]. unfold Record_. rewrite bool_decide_eq_false_2 by congruence. cbn [profiles].
    rewrite He, lookup_insert_eq. split; [by intros []%app_nil|]. destruct (profiles b !! s) as [p|]; cbn [default].
    + destruct IH as [Hne Hp]. by apply count_next.
    + rewrite IH. by apply count_first.
  - rewrite filter_cons_False by done. cbn [filter list_filter]. rewrite (right_id_L [] (++)). by rewrite record_other.
Qed.
End Baseline.

(** ** The isolation forest *)

(** A node by its [IsLeaf]. *)
Inductive ITree :=
| Leaf (Size : Z)
| Node (SplitAttr : nat) (SplitVal : float64) (Left Right : ITree).

(** What the random source yields while a tree is built, by the turns from the
    root to the node ([true]: right): [Intn] and [Float64]; and the permutation
    of the sample. *)
Record draws := mkDraws { d_Intn : list bool -> nat -> nat; d_Float64 : list bool -> float64; d_Perm : list nat }.

Definition at_ (row : list float64) (attr : nat) : float64 := nth attr row fzero.

(** [data[0]] exists where the code calls it. *)
Definition minMax (data : list (list float64)) (attr : nat) : float64 * float64 :=
  let first := at_ (nth 0 data []) attr in
  foldl (fun mm row =>
    let v := at_ row attr in
    (if flt v mm.1 then v else mm.1, if flt mm.2 v then v else mm.2)) (first, first) (tail data).

Definition goes_left (attr : nat) (split : float64) (row : list float64) : bool := flt (at_ row attr) split.

(** [levels] is [maxDepth - depth]. *)
Fixpoint buildITree (r : draws) (turns : list bool) (data : list (list float64)) (levels : nat) : ITree :=
  let leaf := Leaf (Z.of_nat (length data)) in
  match levels with
  | O => leaf
  | S levels' =>
      if (length data <=? 1)%nat then leaf
      else
        let dims := length (nth 0 data []) in
        if (dims =? 0)%nat then leaf
        else
          let attr := d_Intn r turns dims in
          let '(minVal, maxVal) := minMax data attr in
          if same_float minVal maxVal then leaf
          else
            let splitVal := fadd minVal (fmul (d_Float64 r turns) (fsub maxVal minVal)) in
            Node attr splitVal
              (buildITree r (turns ++ [false]) (List.filter (goes_left attr splitVal) data) levels')
              (buildITree r (turns ++ [true]) (List.filter (fun row => negb (goes_left attr splitVal row)) data) levels')
  end.

(** [int(x)], for the values that fit. *)
Definition int_of_float (x : float64) : Z :=
  match x with
  | S754_finite neg m e => (if neg then Z.opp else id) (Z.shiftl (Zpos m) e)
  | _ => 0
  end.

Section Forest.
Context (log : float64 -> float64) (pow : float64 -> float64 -> float64).

Definition averagePathLength (n : float64) : float64 :=
  if fle n (float_of_Z 1) then fzero
  else fsub (fmul (float_of_Z 2) (fadd (log (fsub n (float_of_Z 1))) (float_of_decimal false 5772156649 (-10))))
            (fdiv (fmul (float_of_Z 2) (fsub n (float_of_Z 1))) n).

(** What a leaf adds for the rows it does not tell apart. *)
Definition leaf_extra (size : Z) : Z := int_of_float (averagePathLength (float_of_Z size)).

Fixpoint pathLength (point : list float64) (tree : ITree) (depth : Z) : Z :=
  match tree with
  | Leaf size => depth + leaf_extra size
  | Node attr split l r => if goes_left attr split point then pathLength point l (depth + 1) else pathLength point r (depth + 1)
  end.

(** A tree that is not built yet is nil. *)
Record IsolationForest := mkForest { trees : list (option ITree); numTrees : nat; maxDepth : nat; threshold : float64 }.

Definition NewIsolationForest (n d : nat) (t : float64) : IsolationForest :=
  mkForest [] (if (n =? 0)%nat then 100%nat else n) (if (d =? 0)%nat then 10%nat else d)
    (if same_float t fzero then float_of_decimal false 6 (-1) else t).

Definition subsample (r : draws) (data : list (list float64)) (size : nat) : list (list float64) :=
  if (length data <=? size)%nat then data else (fun i => nth i data []) <$> take size (d_Perm r).

Definition grow (f : IsolationForest) (r : draws) (data : list (list float64)) : ITree :=
  buildITree r [] (subsample r data (Nat.min 256 (length data))) (maxDepth f).

(** [Train]: the slice of nil trees is in the forest before the first is built. *)
Definition train_start (f : IsolationForest) : IsolationForest :=
  mkForest (replicate (numTrees f) None) (numTrees f) (maxDepth f) (threshold f).
Definition train_tree (f : IsolationForest) (i : nat) (r : draws) (data : list (list float64)) : IsolationForest :=
  mkForest (<[i := Some (grow f r data)]> (trees f)) (numTrees f) (maxDepth f) (threshold f).
Definition Train (f : IsolationForest) (data : list (list float64)) (rs : list draws) : IsolationForest :=
  foldl (fun f ir => train_tree f ir.1 ir.2 data) (train_start f) (imap pair rs).

(** [None]: a nil tree is dereferenced. *)
Definition total_path (ts : list (option ITree)) (point : list float64) : option float64 :=
  foldl (fun acc t => total ← acc; tree ← t; Some (fadd total (float_of_Z (pathLength point tree 0)))) (Some fzero) ts.

Definition Score (f : IsolationForest) (point : list float64) : option float64 :=
  match trees f with
  | [] => Some fzero
  | ts =>
      total ← total_path ts point;
      let avgPath := fdiv total (float_of_Z (Z.of_nat (length ts))) in
      Some (pow (float_of_Z 2) (fdiv (SFopp avgPath) (averagePathLength (float_of_Z 256))))
  end.

Definition IsAnomaly (f : IsolationForest) (point : list float64) : option bool :=
  score ← Score f point; Some (flt (threshold f) score).

Definition Trained (f : IsolationForest) : bool := negb (length (trees f) =? 0)%nat.

(** *** What a path length is *)

(** The turns a row takes down a tree. *)
Fixpoint turns_to (tree : ITree) (row : list float64) : list bool :=
  match tree with
  | Leaf _ => []
  | Node attr split l r => if goes_left attr split row then false :: turns_to l row else true :: turns_to r row
  end.

(** The rows a tree does not tell from [row]. *)
Definition alike (tree : ITree) (data : list (list float64)) (row : list float64) : list (list float64) :=
  List.filter (fun r => bool_decide (turns_to tree r = turns_to tree row)) data.

Lemma filter_filter {A} (p q : A -> bool) (l : list A) : List.filter p (List.filter q l) = List.filter (fun x => q x && p x) l.
Proof. induction l as [|x l IH]; [done|]. cbn. destruct (q x); cbn; [|done]. by rewrite IH. Qed.

Lemma filter_all {A} (p : A -> bool) (l : list A) : (forall x, p x = true) -> List.filter p l = l.
Proof. intros Hp. induction l as [|x l IH]; [done|]. cbn. by rewrite Hp, IH. Qed.

Lemma alike_node attr split l r data row :
  alike (Node attr split l r) data row =
    alike (if goes_left attr split row then l else r) (List.filter (fun x => eqb (goes_left attr split x) (goes_left attr split row)) data) row.
Proof.
  unfold alike. rewrite filter_filter. apply filter_ext. intros x. cbn [turns_to].
  destruct (goes_left attr split x), (goes_left attr split row); cbn [eqb andb];
    first [apply bool_decide_eq_false_2; congruence | apply bool_decide_ext; split; congruence].
Qed.

Lemma build_leaf_or_node r turns data levels :
  buildITree r turns data levels = Leaf (Z.of_nat (length data)) \/
  exists levels' attr split, levels = S levels' /\
    buildITree r turns data levels = Node attr split
      (buildITree r (turns ++ [false]) (List.filter (goes_left attr split) data) levels')
      (buildITree r (turns ++ [true]) (List.filter (fun row => negb (goes_left attr split row)) data) levels').
Proof.
  destruct levels as [|levels']; [by left|]. cbn [buildITree]. destruct (_ <=? 1)%nat; [by left|]. destruct (_ =? 0)%nat; [by left|].
  destruct (minMax data _) as [mn mx]. destruct (same_float mn mx); [by left|]. right. eauto.
Qed.

(** A tree is a function of the data by [build_leaf_or_node]; induction on it. *)
Lemma build_ind (P : list (list float64) -> nat -> ITree -> Prop) r :
  (forall data levels, P data levels (Leaf (Z.of_nat (length data)))) ->
  (forall data levels attr split lt rt,
     P (List.filter (goes_left attr split) data) levels lt ->
     P (List.filter (fun row => negb (goes_left attr split row)) data) levels rt ->
     P data (S levels) (Node attr split lt rt)) ->
  forall turns data levels, P data levels (buildITree r turns data levels).
Proof.
  intros Hleaf Hnode turns data levels. revert turns data. induction levels as [|n IH]; intros turns data.
  - destruct (build_leaf_or_node r turns data 0) as [->|(? & ? & ? & [=] & _)]. apply Hleaf.
  - destruct (build_leaf_or_node r turns data (S n)) as [->|(n' & attr & split & [= <-] & ->)]; [apply Hleaf|]. by apply Hnode.
Qed.

(** The length of the path of a point in a tree is the number of its turns, at
    most [levels], and what its leaf adds for the training rows that end in it:
    exactly those the tree does not tell from the point. *)
Lemma path_of_built r turns data levels point d :
  let tree := buildITree r turns data levels in
  (length (turns_to tree point) <= levels)%nat /\
  pathLength point tree d = d + Z.of_nat (length (turns_to tree point)) + leaf_extra (Z.of_nat (length (alike tree data point))).
Proof.
  cbn zeta. revert d. pattern data, levels, (buildITree r turns data levels). apply build_ind; clear.
  - intros data levels d. cbn [turns_to pathLength length]. split; [lia|]. unfold alike. rewrite filter_all by (intros x; by apply bool_decide_eq_true_2). lia.
  - intros data levels attr split lt rt IHl IHr d. rewrite alike_node. cbn [turns_to pathLength].
    destruct (goes_left attr split point) eqn:Hg; cbn [length].
    + rewrite (filter_ext _ (goes_left attr split)) by (intros x; by destruct (goes_left attr split x)).
      destruct (IHl (d + 1)) as [? ->]. split; [lia|]. lia.
    + rewrite (filter_ext _ (fun x => negb (goes_left attr split x))) by (intros x; by destruct (goes_left attr split x)).
      destruct (IHr (d + 1)) as [? ->]. split; [lia|]. lia.
Qed.

(** *** Few hosts are always anomalous *)

(** Every split leaves rows on both sides (a draw of exactly 0, or a range that
    overflows, may not). *)
Fixpoint separates (tree : ITree) (data : list (list float64)) : bool :=
  match tree with
  | Leaf _ => true
  | Node attr split l r =>
      let dl := List.filter (goes_left attr split) data in
      let dr := List.filter (fun row => negb (goes_left attr split row)) data in
      negb (length dl =? 0)%nat && negb (length dr =? 0)%nat && separates l dl && separates r dr
  end.

(** What a leaf adds for up to [n] rows: at most half the rows but one. *)
Definition extra_ok (n : nat) : bool := forallb (fun k => leaf_extra (Z.of_nat k) <=? Z.of_nat ((k - 1) / 2)) (seq 1 n).

Fixpoint sum_over {A} (f : A -> Z) (l : list A) : Z := match l with [] => 0 | x :: l' => f x + sum_over f l' end.

Lemma sum_filter {A} (f : A -> Z) (p : A -> bool) (l : list A) :
  sum_over f l = sum_over f (List.filter p l) + sum_over f (List.filter (fun x => negb (p x)) l).
Proof. induction l as [|x l IH]; [done|]. cbn. destruct (p x); cbn; lia. Qed.

Lemma sum_ext {A} (f g : A -> Z) (l : list A) : (forall x, x ∈ l -> f x = g x) -> sum_over f l = sum_over g l.
Proof. induction l as [|x l IH]; intros Hfg; [done|]. cbn. rewrite (Hfg x), IH by set_solver. done. Qed.

Lemma sum_scale {A} (c : Z) (f : A -> Z) (l : list A) : sum_over (fun x => c * f x) l = c * sum_over f l.
Proof. induction l as [|x l IH]; cbn [sum_over]; lia. Qed.

Lemma sum_const {A} (c : Z) (l : list A) : sum_over (fun _ => c) l = Z.of_nat (length l) * c.
Proof. induction l as [|x l IH]; [done|]. cbn [sum_over length]. lia. Qed.

Lemma filter_lengths {A} (p : A -> bool) (l : list A) :
  (length (List.filter p l) + length (List.filter (fun x => negb (p x)) l))%nat = length l.
Proof. induction l as [|x l IH]; [done|]. cbn. destruct (p x); cbn; lia. Qed.

Lemma in_filter {A} (p : A -> bool) (l : list A) x : x ∈ List.filter p l <-> x ∈ l /\ p x = true.
Proof. rewrite !list_elem_of_In. apply filter_In. Qed.

(** The sum of the path lengths of the training rows is largest when every split
    cuts one row off. *)
Lemma path_sum r turns data levels :
  extra_ok (length data) = true -> (1 <= length data)%nat -> separates (buildITree r turns data levels) data = true ->
  forall d, let n := Z.of_nat (length data) in
  2 * sum_over (fun row => pathLength row (buildITree r turns data levels) d) data <= 2 * n * d + n * (n + 1) - 2.
Proof.
  pattern data, levels, (buildITree r turns data levels). apply build_ind; clear.
  - intros data levels Hok H1 _ d n. cbn [pathLength]. rewrite sum_const. unfold extra_ok in Hok. rewrite forallb_forall in Hok.
    specialize (Hok (length data)). rewrite in_seq in Hok. specialize (Hok ltac:(lia)). apply Z.leb_le in Hok.
    pose proof (Nat.Div0.mul_div_le (length data - 1) 2). assert (2 * leaf_extra (Z.of_nat (length data)) <= Z.of_nat (length data) - 1) by lia. subst n. nia.
  - intros data levels attr split lt rt IHl IHr Hok H1 Hsep d n. cbn [separates] in Hsep.
    apply andb_true_iff in Hsep as [[[Hl Hr]%andb_true_iff Hsl]%andb_true_iff Hsr].
    apply negb_true_iff, Nat.eqb_neq in Hl, Hr. pose proof (filter_lengths (goes_left attr split) data) as Hlen.
    rewrite (sum_filter _ (goes_left attr split)).
    rewrite (sum_ext _ (fun row => pathLength row lt (d + 1)) (List.filter (goes_left attr split) data))
      by (intros x [_ Hx]%in_filter; cbn; by rewrite Hx).
    rewrite (sum_ext _ (fun row => pathLength row rt (d + 1)) (List.filter (fun x => negb (goes_left attr split x)) data))
      by (intros x [_ Hx]%in_filter; cbn; by destruct (goes_left attr split x)).
    assert (Hsub : forall k, (k <= length data)%nat -> extra_ok k = true).
    { intros k Hk. unfold extra_ok in *. rewrite forallb_forall in *. intros x Hx. apply Hok. rewrite in_seq in *. lia. }
    set (dl := List.filter (goes_left attr split) data) in *. set (dr := List.filter (fun x => negb (goes_left attr split x)) data) in *.
    specialize (IHl (Hsub (length dl) ltac:(lia)) ltac:(lia) Hsl (d + 1)). specialize (IHr (Hsub (length dr) ltac:(lia)) ltac:(lia) Hsr (d + 1)).
    cbn zeta in *. subst n. rewrite <- Hlen, Nat2Z.inj_add. nia.
Qed.

Lemma train_trees f data rs :
  length rs = numTrees f -> trees (Train f data rs) = (fun r => Some (grow f r data)) <$> rs.
Proof.
  intros Hlen. unfold Train.
  enough (H : forall k g, (forall r, grow g r data = grow f r data) ->
            trees (foldl (fun f ir => train_tree f ir.1 ir.2 data) g (imap (fun i r => ((k + i)%nat, r)) rs)) =
            take k (trees g) ++ ((fun r => Some (grow f r data)) <$> rs) ++ drop (k + length rs) (trees g) \/ (length (trees g) < k + length rs)%nat).
  { destruct (H 0%nat (train_start f) ltac:(done)) as [Ht|Ht]; unfold train_start in *; cbn [trees] in *; rewrite ?length_replicate in *; [|lia].
    rewrite (imap_ext _ pair) in Ht by done. rewrite Ht, drop_ge by (rewrite length_replicate; lia). by rewrite (right_id_L [] (++)). }
  clear Hlen. induction rs as [|r rs IH]; intros k g Hg.
  { left. cbn. rewrite Nat.add_0_r. by rewrite take_drop. }
  destruct (decide (length (trees g) < k + length (r :: rs))%nat) as [?|Hlt]; [by right|]. left. cbn [length] in Hlt.
  cbn [imap foldl fst snd]. rewrite Nat.add_0_r. rewrite (imap_ext _ (fun i r => ((S k + i)%nat, r))) by (intros; cbn; f_equal; lia).
  destruct (IH (S k) (train_tree g k r data)) as [->|Hbad]; [by intros r'; apply Hg| |].
  - unfold train_tree. cbn [trees]. rewrite Hg. cbn [fmap list_fmap length].
    rewrite (take_S_r _ _ (Some (grow f r data))) by (apply list_lookup_insert_eq; lia).
    rewrite take_insert_ge by lia. rewrite drop_insert_lt by lia. rewrite <- (assoc_L (++)). cbn [app]. do 4 f_equal. lia.
  - unfold train_tree in Hbad. cbn [trees] in Hbad. rewrite length_insert in Hbad. lia.
Qed.

(** The path lengths of a row in the trees of a forest, added up. *)
Definition forest_path (f : IsolationForest) (row : list float64) : Z :=
  sum_over (fun t => match t with Some tree => pathLength row tree 0 | None => 0 end) (trees f).

Lemma sum_swap {A B} (g : A -> B -> Z) (la : list A) (lb : list B) :
  sum_over (fun a => sum_over (g a) lb) la = sum_over (fun b => sum_over (fun a => g a b) la) lb.
Proof.
  induction la as [|a la IH]; cbn [sum_over].
  - induction lb as [|b lb IH]; cbn [sum_over]; lia.
  - rewrite IH. clear IH. induction lb as [|b lb IH]; cbn [sum_over]; [done|]. lia.
Qed.

Lemma sum_fmap {A B} (h : A -> B) (g : B -> Z) (l : list A) : sum_over g (h <$> l) = sum_over (fun x => g (h x)) l.
Proof. induction l as [|x l IH]; [done|]. cbn. by rewrite IH. Qed.

Lemma sum_le {A} (g : A -> Z) (c : Z) (l : list A) : (forall x, x ∈ l -> g x <= c) -> sum_over g l <= Z.of_nat (length l) * c.
Proof.
  induction l as [|x l IH]; intros Hg; [done|]. cbn [sum_over length]. specialize (IH ltac:(set_solver)). specialize (Hg x ltac:(set_solver)). lia.
Qed.

Lemma some_below {A} (g : A -> Z) (c : Z) (l : list A) : l <> [] -> sum_over g l <= c -> exists x, x ∈ l /\ Z.of_nat (length l) * g x <= c.
Proof.
  intros Hl Hs. destruct (decide (Exists (fun x => Z.of_nat (length l) * g x <= c) l)) as [[x Hx]%Exists_exists|Hno]; [by exists x|]. exfalso.
  apply not_Exists_Forall in Hno; [|intros x; apply _]. rewrite Forall_forall in Hno.
  pose proof (sum_le (fun x => - (Z.of_nat (length l) * g x)) (- c - 1) l ltac:(intros x Hx; specialize (Hno x Hx); unfold compose in Hno; cbv beta in Hno |- *; lia)) as Hle.
  rewrite (sum_ext _ (fun x => (- Z.of_nat (length l)) * g x)) in Hle by (intros; lia). rewrite sum_scale in Hle. destruct l; [done|]. cbn [length] in *. nia.
Qed.

(** However the splits are drawn, some host of a network of [n] is told apart
    from the others by (n + 1) / 2 - 1 / n turns on average. *)
Theorem some_host_isolated (f : IsolationForest) (data : list (list float64)) (rs : list draws) :
  length rs = numTrees f -> (1 <= length data <= 256)%nat -> extra_ok (length data) = true ->
  forallb (fun r => separates (grow f r data) data) rs = true ->
  let n := Z.of_nat (length data) in
  exists row, row ∈ data /\ 2 * n * forest_path (Train f data rs) row <= Z.of_nat (numTrees f) * (n * (n + 1) - 2).
Proof.
  intros Hrs Hn Hok Hsep n. unfold forest_path. rewrite train_trees by done.
  destruct (some_below (fun row => 2 * sum_over (fun r => pathLength row (grow f r data) 0) rs) (Z.of_nat (numTrees f) * (n * (n + 1) - 2)) data)
    as (row & Hrow & Hle).
  - by intros ->; cbn in Hn; lia.
  - rewrite <- Hrs.
    transitivity (sum_over (fun r => 2 * sum_over (fun row => pathLength row (grow f r data) 0) data) rs).
    + rewrite (sum_ext (fun r => 2 * _) (fun r => sum_over (fun row => 2 * pathLength row (grow f r data) 0) data)) by (intros r _; by rewrite sum_scale).
      rewrite <- sum_swap. apply Z.eq_le_incl, sum_ext. intros row _. by rewrite sum_scale.
    + apply sum_le. intros r Hr. rewrite forallb_forall in Hsep. specialize (Hsep r ltac:(by apply list_elem_of_In)).
      assert (Hsub : subsample r data (Nat.min 256 (length data)) = data) by (unfold subsample; by rewrite (proj2 (Nat.leb_le _ _)) by lia).
      unfold grow in *. rewrite Hsub in *. pose proof (path_sum r [] data (maxDepth f) Hok ltac:(lia) Hsep 0) as Hp. cbn zeta in Hp. fold n in Hp. lia.
  - exists row. split; [done|]. rewrite sum_fmap. fold n in Hle. lia.
Qed.
End Forest.

(** ** The service *)

Section Service.
Context (hour_of : gotime -> nat) (log2 log : float64 -> float64) (pow : float64 -> float64 -> float64).
Context (order : gmap string Z -> list (string * Z)) (ranged : gmap string hostProfile -> list hostProfile).

(** [training]: the data [Train] is at work on and the number of trees it has built. *)
Record Service := mkService { forest : IsolationForest; baseline : Baseline; training : option (list (list float64) * nat) }.

(** [loaded] is what [Load] reads; nil is not encoded by encoding/gob. *)
Definition NewService (AnomalyThreshold : float64) (loaded : list ITree) (BaselineLearningDays : Z) (now : gotime) : Service :=
  let f := NewIsolationForest 100 10 AnomalyThreshold in
  mkService (mkForest (Some <$> loaded) (numTrees f) (maxDepth f) (threshold f)) (NewBaseline BaselineLearningDays now) None.

Definition severityFromScore (score : float64) : string :=
  if flt (float_of_decimal false 8 (-1)) score then "critical"
  else if flt (float_of_decimal false 7 (-1)) score then "high"
  else if flt (float_of_decimal false 6 (-1)) score then "medium"
  else "low".

(** What [emitAlert] pushes; the slice of features is a [VList]. *)
Definition anomaly_alert (e : NetworkEvent) (score : float64) (point : list float64) (now : gotime) : NetworkEvent :=
  event EventAlert "" "ml-anomaly-detector" (ne_Source e)
    (<["anomaly_score" := VFloat score]> (<["original_type" := VString (event_type_string (ne_Type e))]>
      (<["features" := VList (VFloat <$> point)]> (<["severity" := VString (severityFromScore score)]>
        {[ "detection_method" := VString "isolation_forest" ]})))) now.

(** [Observe] is called for every event, also when the detector is disabled.
    [None]: the process dies of a nil dereference. *)
Definition Observe (s : Service) (e : NetworkEvent) (now : gotime) : option (Service * list NetworkEvent) :=
  let b := Record_ hour_of (baseline s) e in
  let s' := mkService (forest s) b (training s) in
  if IsLearning b now then Some (s', [])
  else if negb (Trained (forest s)) then Some (s', [])
  else if bool_decide (event_type_string (ne_Type e) = "THREAT_ALERT") then Some (s', [])
  else
    let point := FeatureVector log2 order b (ne_Source e) (hour_of (ne_Timestamp e)) in
    anomalous ← IsAnomaly log pow (forest s) point;
    if (anomalous : bool) then
      score ← Score log pow (forest s) point; Some (s', [anomaly_alert e score point now])
    else Some (s', []).

(** The steps of the goroutines that share the forest: an event is observed (one
    step: what happens when a training starts in the middle of a score is left out),
    the ticker fires ([train]), and one more tree is built. *)
Inductive action :=
| AObserve (e : NetworkEvent) (now : gotime)
| ATick (now : gotime)
| ATree (r : draws).

Definition train_tick (s : Service) (now : gotime) : Service :=
  match training s with
  | Some _ => s
  | None =>
      let data := TrainingData log2 order ranged (baseline s) (hour_of now) in
      if (length data <? 10)%nat then s else mkService (train_start (forest s)) (baseline s) (Some (data, 0%nat))
  end.

Definition train_step (s : Service) (r : draws) : Service :=
  match training s with
  | None => s
  | Some (data, i) =>
      let f := train_tree (forest s) i r data in
      mkService f (baseline s) (if (S i =? numTrees f)%nat then None else Some (data, S i))
  end.

Definition act (s : Service) (a : action) : option (Service * list NetworkEvent) :=
  match a with
  | AObserve e now => Observe s e now
  | ATick now => Some (train_tick s now, [])
  | ATree r => Some (train_step s r, [])
  end.

Inductive reachable (s0 : Service) : Service -> Prop :=
| reach_start : reachable s0 s0
| reach_act s a s' out : reachable s0 s -> act s a = Some (s', out) -> reachable s0 s'.

(** *** Retraining is not safe *)

Definition built (t : option ITree) : Prop := is_Some t.

(** The trees built so far are followed by nil ones. *)
Definition forest_inv (s : Service) : Prop :=
  (0 < numTrees (forest s))%nat /\
  match training s with
  | None => Forall built (trees (forest s))
  | Some (_, i) => (i < numTrees (forest s))%nat /\ exists done_, length done_ = i /\
      trees (forest s) = (Some <$> done_) ++ replicate (numTrees (forest s) - i) None
  end.

Lemma total_none ts point acc : acc = None ->
  foldl (fun acc t => total ← acc; tree ← t; Some (fadd total (float_of_Z (pathLength log point tree 0)))) acc ts = None.
Proof. intros ->. induction ts as [|t ts IH]; [done|]. apply IH. Qed.

Lemma total_built ts point : Forall built ts <-> is_Some (total_path log ts point).
Proof.
  unfold total_path. generalize fzero. induction ts as [|[t|] ts IH]; intros z; cbn [foldl].
  - split; [by eexists|constructor].
  - cbn [mbind option_bind]. rewrite Forall_cons, <- IH. split; [tauto|]. intros Hts. split; [by eexists|done].
  - rewrite total_none by done. split; [intros [[? [=]] _]%Forall_cons|intros [? [=]]].
Qed.

Lemma score_built f point : Forall built (trees f) <-> is_Some (Score log pow f point).
Proof.
  unfold Score. destruct (trees f) as [|t ts]; [split; [by eexists|constructor]|]. rewrite (total_built _ point).
  destruct (total_path log (t :: ts) point); cbn [mbind option_bind]; split; intros [? ?]; by eexists || done.
Qed.

Lemma observe_keeps s e now s' out : Observe s e now = Some (s', out) -> forest s' = forest s /\ training s' = training s.
Proof.
  unfold Observe. repeat (case_match; [by intros [= <- _]|]). destruct (IsAnomaly _ _ _ _) as [[]|]; cbn [mbind option_bind]; [|by intros [= <- _]|done].
  destruct (Score _ _ _ _); cbn [mbind option_bind]; [by intros [= <- _]|done].
Qed.

Lemma forest_inv_step s a s' out : forest_inv s -> act s a = Some (s', out) -> forest_inv s'.
Proof.
  intros [Hn Hs] Ha. destruct a as [e now|now|r]; cbn [act] in Ha.
  - apply observe_keeps in Ha as [Hf Ht]. unfold forest_inv. by rewrite Hf, Ht.
  - injection Ha as <- _. unfold train_tick. destruct (training s) as [[data i]|] eqn:Ht; [unfold forest_inv; by rewrite Ht|].
    case_match; [unfold forest_inv; by rewrite Ht|]. split; [done|]. cbn [training forest train_start numTrees trees].
    split; [done|]. exists []. split; [done|]. by rewrite Nat.sub_0_r.
  - injection Ha as <- _. unfold train_step. destruct (training s) as [[data i]|] eqn:Ht; [|unfold forest_inv; by rewrite Ht].
    destruct Hs as (Hi & built_ & Hlen & Htrees). split; [done|]. cbn [training forest train_tree numTrees trees].
    set (t := grow (forest s) r data). rewrite Htrees.
    replace (numTrees (forest s) - i)%nat with (S (numTrees (forest s) - S i)) by lia. cbn [replicate].
    assert (Hins : <[i := Some t]> ((Some <$> built_) ++ None :: replicate (numTrees (forest s) - S i) None) =
                   (Some <$> (built_ ++ [t])) ++ replicate (numTrees (forest s) - S i) None).
    { rewrite insert_app_r_alt by (rewrite length_fmap; lia). rewrite length_fmap, Hlen, Nat.sub_diag. cbn. rewrite fmap_app, <- (assoc_L (++)). done. }
    destruct (S i =? numTrees (forest s))%nat eqn:Hlast.
    + apply Nat.eqb_eq in Hlast. rewrite Hins, <- Hlast, Nat.sub_diag. cbn [replicate]. rewrite (right_id_L [] (++)).
      apply Forall_fmap, Forall_true. intros x. by eexists.
    + apply Nat.eqb_neq in Hlast. split; [lia|]. exists (built_ ++ [t]). rewrite length_app. cbn [length]. split; [lia|]. done.
Qed.

(** C25: The process dies of an event exactly when it is one to score and a training
    is under way. *)
Theorem crashes_exactly_while_training (thr : float64) (loaded : list ITree) (days : Z) (start : gotime) (s : Service) (e : NetworkEvent) (now : gotime) :
  reachable (NewService thr loaded days start) s ->
  Observe s e now = None <->
    training s <> None /\ window (baseline s) <= now - started (baseline s) /\ event_type_string (ne_Type e) <> "THREAT_ALERT".
Proof.
  intros Hr. assert (Hinv : forest_inv s).
  { induction Hr as [|s a s' out _ IH Ha]; [|by eapply forest_inv_step]. split; [cbn; lia|]. cbn. apply Forall_fmap, Forall_true. intros x. by eexists. }
  destruct Hinv as [Hn Hs]. unfold Observe.
  assert (Hlearn : IsLearning (Record_ hour_of (baseline s) e) now = (now - started (baseline s) <? window (baseline s))) by (unfold IsLearning, Record_; by case_bool_decide).
  rewrite Hlearn. destruct (Z.ltb_spec (now - started (baseline s)) (window (baseline s))); [split; [done|lia]|].
  set (point := FeatureVector _ _ _ _ _).
  destruct (training s) as [[data i]|].
  - destruct Hs as (Hi & built_ & Hlen & Htrees).
    assert (Htr : Trained (forest s) = true) by (unfold Trained; rewrite Htrees, length_app, length_replicate; apply negb_true_iff, Nat.eqb_neq; lia).
    rewrite Htr. cbn [negb]. case_bool_decide as Hal; [split; [done|tauto]|].
    assert (Hsc : Score log pow (forest s) point = None).
    { destruct (Score log pow (forest s) point) eqn:Hsc; [|done]. assert (Hb : is_Some (Score log pow (forest s) point)) by (rewrite Hsc; by eexists).
      apply score_built in Hb. rewrite Htrees in Hb. replace (numTrees (forest s) - i)%nat with (S (numTrees (forest s) - S i)) in Hb by lia.
      cbn [replicate] in Hb. apply Forall_app in Hb as [_ [[? [=]] _]%Forall_cons]. }
    unfold IsAnomaly. rewrite Hsc. done.
  - split; [|tauto]. intros Hobs. exfalso. destruct (negb (Trained (forest s))); [done|]. case_bool_decide; [done|].
    apply (score_built _ point) in Hs as [score Hscore]. unfold IsAnomaly in Hobs. rewrite Hscore in Hobs. cbn [mbind option_bind] in Hobs.
    by destruct (flt _ _).
Qed.
End Service.

(** ** At concrete inputs *)

Module MlDemo.
Definition hour_of (t : gotime) : nat := Z.to_nat (t / (3600 * ns_per_s) mod 24).
Definition seen (source destination : string) (t : gotime) : NetworkEvent := mkNetworkEvent "" EventDNS source destination ∅ t [] "".

(** The natural logarithm where the program of this example needs it. *)
Definition ln (x : float64) : float64 :=
  let table := [(1, 0); (2, 6931471805599453); (3, 10986122886681098); (4, 13862943611198906); (5, 16094379124341003);
                (6, 17917594692280550); (7, 19459101490553132); (8, 20794415416798357); (9, 21972245773362196)] in
  match List.find (fun p => same_float (float_of_Z (fst p)) x) table with
  | Some (_, m) => float_of_decimal false m (-16)
  | None => fzero
  end.

Lemma profile_summarises_witness :
  let es := [seen "10.0.0.5" "SIEM_DNS" 1; seen "10.0.0.6" "" 2; seen "10.0.0.5" "8.8.8.8" 3] in
  (forall t, (hour_of t < 24)%nat) /\ "10.0.0.5" <> "" /\
  match profiles (foldl (Record_ hour_of) (NewBaseline 7 0) es) !! "10.0.0.5" with
  | None => filter (fun e => ne_Source e = "10.0.0.5") es = []
  | Some p => filter (fun e => ne_Source e = "10.0.0.5") es <> [] /\ summarises hour_of p (filter (fun e => ne_Source e = "10.0.0.5") es)
  end.
Proof.
  intros es. assert (Hh : forall t, (hour_of t < 24)%nat).
  { intros t. unfold hour_of. pose proof (Z.mod_pos_bound (t / (3600 * ns_per_s)) 24). lia. }
  split_and!; [exact Hh|discriminate|]. exact (profile_summarises hour_of 7 0 es "10.0.0.5" Hh ltac:(discriminate)).
Defined.

(** Ten hosts with one feature, cut in the middle or at a quarter. *)
Definition hosts : list (list float64) := (fun k => [float_of_Z (Z.of_nat k)]) <$> seq 1 10.
Definition cut (d : Z) : draws := mkDraws (fun _ _ => 0%nat) (fun _ => float_of_decimal false d (-2)) [].
Definition small_forest : IsolationForest := NewIsolationForest 2 10 fzero.

Lemma some_host_isolated_witness :
  exists row, row ∈ hosts /\ 2 * 10 * forest_path ln (Train small_forest hosts [cut 50; cut 25]) row <= 2 * 108.
Proof. apply (some_host_isolated ln small_forest hosts [cut 50; cut 25]); vm_compute; first [reflexivity | lia]. Defined.

Definition demo_observe := Observe hour_of (fun x => x) ln (fun _ _ => fzero) map_to_list.
Definition demo_act := act hour_of (fun x => x) ln (fun _ _ => fzero) map_to_list (fun m => (map_to_list m).*2).
Fixpoint run (s : Service) (acts : list action) : option Service :=
  match acts with [] => Some s | a :: acts' => match demo_act s a with Some (s', _) => run s' acts' | None => None end end.

Lemma run_reachable s0 s acts s' :
  reachable hour_of (fun x => x) ln (fun _ _ => fzero) map_to_list (fun m => (map_to_list m).*2) s0 s -> run s acts = Some s' ->
  reachable hour_of (fun x => x) ln (fun _ _ => fzero) map_to_list (fun m => (map_to_list m).*2) s0 s'.
Proof.
  revert s. induction acts as [|a acts IH]; cbn [run]; intros s Hs; [by intros [= <-]|].
  destruct (demo_act s a) as [[s1 out]|] eqn:Ha; [|done]. apply IH. by eapply reach_act.
Qed.

Definition day : Z := 86400 * ns_per_s.
Definition week_of_ten_hosts : list action :=
  ((fun s => AObserve (seen s "SIEM_DNS" 5) 5) <$> ["a"; "b"; "c"; "d"; "e"; "f"; "g"; "h"; "i"; "j"]) ++ [ATick (8 * day); ATree (cut 50)].
Definition fresh_service : Service := NewService fzero [] 7 0.

Lemma crashes_exactly_while_training_witness :
  exists s, run fresh_service week_of_ten_hosts = Some s /\ training s <> None /\ demo_observe s (seen "a" "SIEM_DNS" (8 * day)) (8 * day) = None.
Proof.
  destruct (run fresh_service week_of_ten_hosts) as [s|] eqn:Hrun; [|exfalso; vm_compute in Hrun; discriminate].
  assert (Hfacts : option_map (fun s => (bool_decide (is_Some (training s)), window (baseline s), started (baseline s))) (run fresh_service week_of_ten_hosts) = Some (true, 7 * day, 0)) by (vm_compute; reflexivity).
  rewrite Hrun in Hfacts. injection Hfacts as Ht Hw Hst. assert (Htr : training s <> None) by (intros Hn; rewrite Hn in Ht; discriminate).
  exists s. split_and!; [done|exact Htr|].
  apply (crashes_exactly_while_training hour_of (fun x => x) ln (fun _ _ => fzero) map_to_list (fun m => (map_to_list m).*2) fzero [] 7 0 s).
  - by eapply run_reachable; [apply reach_start|exact Hrun].
  - rewrite Hw, Hst. split_and!; [exact Htr|vm_compute; discriminate|discriminate].
Defined.
End MlDemo.
