(* ===== verification/PortScanner.v ===== *)
(** * The port scanner

    internal/discovery/attack_surface/scanner.go: [ScanHost], a producer of ports,
    a pool of workers that probe them and two channels, as a state machine in
    which any goroutine that can move may.  What answers a connection is an
    argument. *)
From stdpp Require Import base list strings sets.
From Stdlib Require Import ZArith Lia Bool.
From S2P Require Import Prelude.
Local Open Scope string_scope.
Local Open Scope list_scope.
Local Open Scope Z_scope.

(** ** Configuration and results *)

Record AttackSurfaceConfig := mkConfig { BannerGrabbing : bool; ConcurrentScans : Z; PortRange_Start : Z; PortRange_End : Z }.

Record PortResult := mkResult { pr_Host : string; pr_Port : Z; pr_Open : bool; pr_Banner : string }.
#[global] Instance PortResult_eq_dec : EqDecision PortResult.
Proof. solve_decision. Defined.

Definition first_port (cfg : AttackSurfaceConfig) : Z := if PortRange_Start cfg <=? 0 then 1 else PortRange_Start cfg.
Definition last_port (cfg : AttackSurfaceConfig) : Z :=
  if (PortRange_End cfg <=? 0) || (65535 <? PortRange_End cfg) then 65535 else PortRange_End cfg.

(** [for p := start; p <= end; p++]. *)
Definition ports (cfg : AttackSurfaceConfig) : list Z :=
  (fun k => first_port cfg + Z.of_nat k) <$> seq 0 (Z.to_nat (last_port cfg + 1 - first_port cfg)).

(** A worker waits for a port, has one, has a result to send, or has returned. *)
Inductive worker := Waiting | Got (port : Z) | Holding (r : PortResult) | Returned.

#[global] Instance returned_dec (w : worker) : Decision (w = Returned).
Proof. destruct w; first [by left | by right]. Defined.

(** [unsent]: the ports the producer is still to send; [portCh] and [capacity]: the
    channel; [closed]: whether the producer has closed it; [results]: what has been
    sent to the consumer, which always receives. *)
Record scan := mkScan {
  unsent : list Z; portCh : list Z; closed : bool; workers : list worker; results : list PortResult; cancelled : bool }.

Section Scan.
Context (cfg : AttackSurfaceConfig) (host : string) (dial : string -> Z -> option string).

(** [dial] is what the peer first says when it accepts the connection. *)
Definition probe (port : Z) : bool * string :=
  match dial host port with
  | None => (false, "")
  | Some banner => (true, if BannerGrabbing cfg then banner else "")
  end.

Definition probed (port : Z) : worker := let '(open, banner) := probe port in if open : bool then Holding (mkResult host port true banner) else Waiting.

(** [None]: [make] panics on a negative size, before the workers are counted. *)
Definition ScanHost : option scan :=
  if ConcurrentScans cfg <? 0 then None
  else
    let n := if ConcurrentScans cfg <=? 0 then 100 else ConcurrentScans cfg in
    Some (mkScan (ports cfg) [] false (replicate (Z.to_nat n) Waiting) [] false).

Definition capacity : nat := Z.to_nat (ConcurrentScans cfg).

(** One goroutine moves.  A send on a full channel waits, one without a buffer
    meets a waiting worker; after the context ends the producer's [select] may
    take either branch that is ready. *)
Inductive step : scan -> scan -> Prop :=
| st_send p ps q cl ws rs cc : (length q < capacity)%nat ->
    step (mkScan (p :: ps) q cl ws rs cc) (mkScan ps (q ++ [p]) cl ws rs cc)
| st_handoff p ps cl l1 l2 rs cc : capacity = 0%nat ->
    step (mkScan (p :: ps) [] cl (l1 ++ Waiting :: l2) rs cc) (mkScan ps [] cl (l1 ++ Got p :: l2) rs cc)
| st_abort p ps q ws rs : step (mkScan (p :: ps) q false ws rs true) (mkScan [] q true ws rs true)
| st_close q ws rs cc : step (mkScan [] q false ws rs cc) (mkScan [] q true ws rs cc)
| st_receive ps p q cl l1 l2 rs cc : step (mkScan ps (p :: q) cl (l1 ++ Waiting :: l2) rs cc) (mkScan ps q cl (l1 ++ Got p :: l2) rs cc)
| st_probe ps q cl p l1 l2 rs : step (mkScan ps q cl (l1 ++ Got p :: l2) rs false) (mkScan ps q cl (l1 ++ probed p :: l2) rs false)
| st_quit ps q cl p l1 l2 rs : step (mkScan ps q cl (l1 ++ Got p :: l2) rs true) (mkScan ps q cl (l1 ++ Returned :: l2) rs true)
| st_result ps q cl r l1 l2 rs cc : step (mkScan ps q cl (l1 ++ Holding r :: l2) rs cc) (mkScan ps q cl (l1 ++ Waiting :: l2) (rs ++ [r]) cc)
| st_return ps l1 l2 rs cc : step (mkScan ps [] true (l1 ++ Waiting :: l2) rs cc) (mkScan ps [] true (l1 ++ Returned :: l2) rs cc)
| st_cancel ps q cl ws rs : step (mkScan ps q cl ws rs false) (mkScan ps q cl ws rs true).

(** The results channel is closed when the producer has closed its own and every
    worker has returned. *)
Definition finished (s : scan) : Prop := closed s = true /\ Forall (fun w => w = Returned) (workers s).

(** ** Every open port, once *)

(** What is to be reported of a port: nothing unless something answers, and what it
    first says only when banners are asked for. *)
Definition report (p : Z) : option PortResult :=
  match dial host p with
  | None => None
  | Some banner => Some (mkResult host p true (if BannerGrabbing cfg then banner else ""))
  end.

Fixpoint count (r : PortResult) (l : list PortResult) : nat :=
  match l with [] => 0%nat | x :: l' => ((if decide (x = r) then 1 else 0) + count r l')%nat end.

Lemma count_app r l l' : count r (l ++ l') = (count r l + count r l')%nat.
Proof. induction l as [|x l IH]; cbn; [done|]. rewrite IH. lia. Qed.

Lemma count_zero r l : count r l = 0%nat <-> r ∉ l.
Proof.
  induction l as [|x l IH]; cbn; [by rewrite elem_of_nil; split; [intros _ []|]|]. rewrite elem_of_cons. destruct (decide (x = r)) as [->|Hne].
  - split; [lia|]. intros Hn. exfalso. apply Hn. by left.
  - rewrite IH. split; [intros Hn [->|?]; done|]. intros Hn Hr. apply Hn. by right.
Qed.

Lemma count_perm l l' : (forall r, count r l = count r l') -> l ≡ₚ l'.
Proof.
  revert l'. induction l as [|x l IH]; intros l' Hc.
  - destruct l' as [|y l']; [done|]. specialize (Hc y). cbn in Hc. by rewrite decide_True in Hc.
  - assert (Hin : x ∈ l').
    { destruct (decide (x ∈ l')) as [|Hno]; [done|]. apply count_zero in Hno. specialize (Hc x). cbn in Hc. rewrite decide_True in Hc by done. lia. }
    apply list_elem_of_split in Hin as (l1 & l2 & ->). rewrite <- Permutation_middle. constructor. apply IH. intros r. specialize (Hc r).
    rewrite count_app in *. cbn in Hc. lia.
Qed.

(** What is still to be reported, of a list of ports and of a worker. *)
Definition due (r : PortResult) (ps : list Z) : nat := count r (omap report ps).
Definition in_hand (r : PortResult) (w : worker) : nat :=
  match w with Got p => due r [p] | Holding x => count r [x] | _ => 0%nat end.
Fixpoint total (f : worker -> nat) (ws : list worker) : nat := match ws with [] => 0%nat | w :: ws' => (f w + total f ws')%nat end.

Lemma total_app f l l' : total f (l ++ l') = (total f l + total f l')%nat.
Proof. induction l as [|x l IH]; cbn; [done|]. rewrite IH. lia. Qed.

Lemma due_cons r p ps : due r (p :: ps) = (due r [p] + due r ps)%nat.
Proof. unfold due. cbn. destruct (report p); cbn; lia. Qed.
Lemma due_app r ps qs : due r (ps ++ qs) = (due r ps + due r qs)%nat.
Proof. unfold due. by rewrite omap_app, count_app. Qed.

Lemma in_hand_probed r p : in_hand r (probed p) = due r [p].
Proof. unfold due, report, probed, probe. cbn. destruct (dial host p) as [b|]; cbn; lia. Qed.

Definition accounted (r : PortResult) (s : scan) : nat :=
  (count r (results s) + total (in_hand r) (workers s) + due r (portCh s) + due r (unsent s))%nat.

(** Nothing is reported twice, and nothing is lost while the context lives. *)
Definition exact_so_far (s : scan) : Prop :=
  forall r, (accounted r s <= due r (ports cfg))%nat /\ (cancelled s = false -> accounted r s = due r (ports cfg)).

(** Workers return early only when the scan ends. *)
Definition orderly (s : scan) : Prop :=
  (closed s = true -> unsent s = []) /\
  (Returned ∈ workers s -> closed s = true \/ cancelled s = true) /\
  (cancelled s = false -> Returned ∈ workers s -> portCh s = []) /\
  workers s <> [].

Inductive reaches (s : scan) : nat -> scan -> Prop :=
| reaches_refl : reaches s 0 s
| reaches_step n s1 s2 : reaches s n s1 -> step s1 s2 -> reaches s (S n) s2.

Lemma exact_step s s' : exact_so_far s -> step s s' -> exact_so_far s'.
Proof.
  intros Hacc Hs r. specialize (Hacc r). unfold accounted in *. destruct Hs; cbn [unsent portCh closed workers results cancelled] in *;
    rewrite ?total_app, ?count_app, ?due_app in *; cbn [total in_hand] in *; rewrite ?in_hand_probed; rewrite ?(due_cons _ p ps), ?(due_cons _ p q) in *;
    destruct Hacc as [Hle Heq]; (split; [|intros Hc; first [discriminate Hc | specialize (Heq Hc)]]); change (due r []) with 0%nat in *; cbn [count] in *; lia.
Qed.

Lemma probed_works p : Returned <> probed p.
Proof. unfold probed. by destruct (probe p) as [[] b]. Qed.

Lemma orderly_step s s' : orderly s -> step s s' -> orderly s'.
Proof.
  intros (Hcl & Hret & Hq & Hne) Hs. unfold orderly. destruct Hs; cbn [unsent portCh closed workers results cancelled] in *; split_and!;
    rewrite ?elem_of_app, ?elem_of_cons in *; try done; try tauto; try (by intros [? ?]%app_nil); try (intros Hx; specialize (Hcl Hx); congruence).
  all: try (assert (Returned <> probed p) by apply probed_works).
  all: try (intuition congruence).
Qed.

Lemma reachable_inv s n s' : ScanHost = Some s -> reaches s n s' -> exact_so_far s' /\ orderly s'.
Proof.
  intros Hs Hr. induction Hr as [|n s1 s2 _ [IHa IHo] Hst]; [|split; [by eapply exact_step|by eapply orderly_step]].
  unfold ScanHost in Hs. destruct (Z.ltb_spec (ConcurrentScans cfg) 0); [done|]. injection Hs as <-.
  assert (Hz : forall r n, total (in_hand r) (replicate n Waiting) = 0%nat) by (intros r n; induction n as [|n IH]; [done|exact IH]). split.
  - intros r. unfold accounted. cbn [unsent portCh closed workers results cancelled count]. rewrite Hz. change (due r []) with 0%nat. lia.
  - unfold orderly. cbn [unsent portCh closed workers results cancelled]. split_and!; try done.
    + intros [[=] _]%elem_of_replicate.
    + destruct (Z.leb_spec (ConcurrentScans cfg) 0).
      * done.
      * replace (Z.to_nat (ConcurrentScans cfg)) with (S (Z.to_nat (ConcurrentScans cfg - 1))) by lia. done.
Qed.

(** *** Every scan ends *)

Definition worker_work (w : worker) : nat := match w with Got _ => 3 | Holding _ => 2 | Waiting => 1 | Returned => 0 end.
Definition work (s : scan) : nat :=
  (5 * length (unsent s) + 4 * length (portCh s) + total worker_work (workers s) + (if closed s then 0 else 1) + (if cancelled s then 0 else 1))%nat.

Lemma step_works s s' : step s s' -> (work s' < work s)%nat.
Proof.
  intros Hs. destruct Hs; unfold work; cbn [unsent portCh closed workers results cancelled]; rewrite ?length_app, ?total_app; cbn [length total worker_work]; try lia.
  unfold probed. destruct (probe p) as [[] b]; cbn [worker_work]; lia.
Qed.

Lemma working_worker ws : ~ Forall (fun w => w = Returned) ws -> exists l1 w l2, ws = l1 ++ w :: l2 /\ w <> Returned.
Proof.
  induction ws as [|w ws IH]; intros Hn; [by destruct Hn|]. destruct (decide (Forall (fun w => w = Returned) ws)) as [Hall|Hnot].
  - exists [], w, ws. split; [done|]. intros ->. by apply Hn; constructor.
  - destruct (IH Hnot) as (l1 & w' & l2 & -> & Hw). by exists (w :: l1), w', l2.
Qed.

Lemma no_deadlock s : orderly s -> ~ finished s -> exists s', step s s'.
Proof.
  destruct s as [ps q cl ws rs cc]. intros (Hcl & Hret & Hq & Hne) Hnf. cbn [unsent portCh closed workers results cancelled] in *.
  destruct cl.
  - rewrite (Hcl eq_refl). destruct (working_worker ws) as (l1 & w & l2 & -> & Hw).
    { intros Hall. by apply Hnf. }
    destruct w as [|p|r|]; [| |eexists; by apply st_result|done].
    + destruct q as [|p q]; eexists; [apply st_return|apply st_receive].
    + destruct cc; eexists; [apply st_quit|apply st_probe].
  - destruct ps as [|p ps]; [eexists; apply st_close|]. destruct cc; [eexists; apply st_abort|].
    destruct ws as [|w ws]; [done|]. destruct w as [|p'|r|].
    + destruct (decide (length q < capacity)%nat) as [Hroom|Hfull]; [eexists; by apply st_send|].
      destruct q as [|p' q]; [|eexists; apply (st_receive (p :: ps) p' q false [] ws)].
      eexists. apply (st_handoff p ps false [] ws). cbn in Hfull. lia.
    + eexists. apply (st_probe (p :: ps) q false p' [] ws).
    + eexists. apply (st_result (p :: ps) q false r [] ws).
    + destruct Hret; [apply elem_of_cons; by left|done|done].
Qed.

Lemma due_report r ps : due r ps = count r (omap report ps).
Proof. done. Qed.

Lemma all_returned r ws : Forall (fun w => w = Returned) ws -> total (in_hand r) ws = 0%nat.
Proof. induction 1 as [|w ws -> _ IH]; [done|]. cbn. exact IH. Qed.

(** C11: However the goroutines interleave, a scan whose context lives until its end has
    reported each open port of the range exactly once; one that was cancelled has
    reported some of them, none twice. *)
Theorem port_scan_exact (s0 s : scan) (n : nat) :
  ScanHost = Some s0 -> reaches s0 n s -> finished s ->
  let expected := omap report (ports cfg) in
  (cancelled s = false -> results s ≡ₚ expected) /\ (forall r, (count r (results s) <= count r expected)%nat).
Proof.
  intros H0 Hr [Hcl Hall] expected. destruct (reachable_inv _ _ _ H0 Hr) as [Hacc (Hun & _ & Hq & Hne)]. unfold exact_so_far, accounted in Hacc. split.
  - intros Hcc. apply count_perm. intros r. destruct (Hacc r) as [_ Heq]. specialize (Heq Hcc). rewrite all_returned, (Hun Hcl), Hq in Heq; [change (due r []) with 0%nat in Heq; change (due r (ports cfg)) with (count r expected) in Heq; lia|done| |done].
    destruct (workers s) as [|w ws]; [done|]. rewrite Forall_cons in Hall. destruct Hall as [-> _]. apply elem_of_cons. by left.
  - intros r. destruct (Hacc r) as [Hle _]. change (due r (ports cfg)) with (count r expected) in Hle. lia.
Qed.

(** C26: Every scan ends: no interleaving runs longer than the work there is at the
    start, and one that cannot go on has finished. *)
Theorem port_scan_ends (s0 s : scan) (n : nat) :
  ScanHost = Some s0 -> reaches s0 n s ->
  (n <= work s0)%nat /\ (finished s \/ exists s', step s s').
Proof.
  intros H0 Hr. split.
  - enough (n + work s <= work s0)%nat by lia. clear H0. induction Hr as [|n s1 s2 _ IH Hst]; [lia|]. apply step_works in Hst. lia.
  - destruct (reachable_inv _ _ _ H0 Hr) as [_ Ho].
    assert (Hd : Decision (finished s)) by (unfold finished; apply _).
    destruct (decide (finished s)); [by left|]. right. by apply no_deadlock.
Qed.

(** A negative number of workers is replaced by 100, but the channel is made first. *)
Lemma negative_workers_panic : ConcurrentScans cfg < 0 -> ScanHost = None.
Proof. intros Hn. unfold ScanHost. by rewrite (proj2 (Z.ltb_lt _ _) Hn). Qed.
End Scan.

(** ** At a concrete network *)

Module PortDemo.
Definition cfg : AttackSurfaceConfig := mkConfig true 1 21 22.
Definition dial (host : string) (port : Z) : option string := if port =? 22 then Some "SSH-2.0" else None.
Definition open22 := mkResult "h" 22 true "SSH-2.0".
Definition start : scan := mkScan [21; 22] [] false [Waiting] [] false.
Definition done_ : scan := mkScan [] [] true [Returned] [open22] false.

Lemma run_to_end : exists n, reaches cfg "h" dial start n done_.
Proof.
  eexists. unfold start, done_.
  eapply reaches_step; [|eapply (st_return cfg "h" dial [] [] [] [open22] false)].
  eapply reaches_step; [|eapply (st_close cfg "h" dial [] [Waiting] [open22] false)].
  eapply reaches_step; [|eapply (st_result cfg "h" dial [] [] false open22 [] [] [] false)].
  eapply reaches_step; [|eapply (st_probe cfg "h" dial [] [] false 22 [] [] [])].
  eapply reaches_step; [|eapply (st_receive cfg "h" dial [] 22 [] false [] [] [] false)].
  eapply reaches_step; [|eapply (st_send cfg "h" dial 22 [] [] false [Waiting] [] false); vm_compute; lia].
  eapply reaches_step; [|eapply (st_probe cfg "h" dial [22] [] false 21 [] [] [])].
  eapply reaches_step; [|eapply (st_receive cfg "h" dial [22] 21 [] false [] [] [] false)].
  eapply reaches_step; [|eapply (st_send cfg "h" dial 21 [22] [] false [Waiting] [] false); vm_compute; lia].
  apply reaches_refl.
Qed.

Lemma port_scan_exact_witness :
  ScanHost cfg = Some start /\ (exists n, reaches cfg "h" dial start n done_) /\ finished done_ /\
  ((cancelled done_ = false -> results done_ ≡ₚ omap (report cfg "h" dial) (ports cfg)) /\
   (forall r, (count r (results done_) <= count r (omap (report cfg "h" dial) (ports cfg)))%nat)).
Proof.
  split; [vm_compute; reflexivity|]. split; [exact run_to_end|]. split; [split; [reflexivity|repeat constructor]|].
  destruct run_to_end as [n Hr]. apply (port_scan_exact cfg "h" dial start done_ n); [vm_compute; reflexivity|exact Hr|split; [reflexivity|repeat constructor]].
Defined.

Lemma port_scan_ends_witness :
  exists n, reaches cfg "h" dial start n done_ /\ (n <= work start)%nat /\ (finished done_ \/ exists s', step cfg "h" dial done_ s').
Proof. destruct run_to_end as [n Hr]. exists n. split; [exact Hr|]. apply (port_scan_ends cfg "h" dial start done_ n); [vm_compute; reflexivity|exact Hr]. Defined.
End PortDemo.
