(* ===== verification/Virtual.v ===== *)
(** * Containers and virtual machines

    internal/discovery/virtual: libvirt.go (domains by way of virsh), docker.go and
    stats.go (containers by way of the Docker API).  The commands and responses,
    the order of a map and the formatting of a float are arguments. *)
From stdpp Require Import base list strings gmap.
From Stdlib Require Import ZArith Lia Bool Ascii SpecFloat.
From S2P Require Import Prelude Models GoStrings GoFloat Sources.
Local Open Scope string_scope.
Local Open Scope list_scope.
Local Open Scope Z_scope.

(** ** Text *)

Definition newline : ascii := ascii_of_nat 10.

Definition drop_cr (line : string) : string :=
  match rev_string line with String c r => if Ascii.eqb c (ascii_of_nat 13) then rev_string r else line | "" => line end.

(** [bufio.Scanner] over lines: it ends silently before a line of 64 KiB. *)
Fixpoint scan_short (lines : list string) : list string :=
  match lines with
  | [] | [""] => []
  | line :: lines' => if 65536 <=? Z.of_nat (String.length line) then [] else drop_cr line :: scan_short lines'
  end.
Definition scan_lines (out : string) : list string := scan_short (Split out newline).

(** [strings.Fields]: [cur] is the field being read. *)
Definition flush (cur : string) (rest : list string) : list string := if bool_decide (cur = "") then rest else cur :: rest.
Fixpoint fields_loop (fuel : nat) (cur s : string) : list string :=
  match fuel with
  | O => flush cur []
  | S fuel' =>
      match strip_space s with
      | Some s' => flush cur (fields_loop fuel' "" s')
      | None => match s with "" => flush cur [] | String c s' => fields_loop fuel' (cur +:+ String c "") s' end
      end
  end.
Definition Fields (s : string) : list string := fields_loop (S (String.length s)) "" s.

(** [strings.Index(s, c)] and the part before it, for a one-byte string. *)
Definition before_slash (s : string) : string :=
  match Cut "/" s with Some (b, _) => if bool_decide (b = "") then s else b | None => s end.

(** ** Libvirt domains *)

Record domain := mkDomain { dom_id : string; dom_name : string; dom_state : string }.
Record domInfo := mkDomInfo { vcpus : string; memoryKB : string; autostart : string }.

Definition parse_row (text : string) : list domain :=
  let line := TrimSpace text in
  if bool_decide (line = "") then []
  else match Fields line with
       | id :: name :: s :: state => [mkDomain id name (Join (s :: state) " ")]
       | _ => []
       end.

(** [listDomains] of what [virsh list --all] prints. *)
Definition listDomains (out : option string) : option (list domain) :=
  out ← out; Some (concat (parse_row <$> drop 2 (scan_lines out))).

Definition info_line (info : domInfo) (line : string) : domInfo :=
  match SplitN2 line ":" with
  | [k; v] =>
      let key := TrimSpace k in
      let val := TrimSpace v in
      if bool_decide (key = "CPU(s)") then mkDomInfo val (memoryKB info) (autostart info)
      else if bool_decide (key = "Max memory") || bool_decide (key = "Used memory") then
        mkDomInfo (vcpus info) (if bool_decide (memoryKB info = "") then val else memoryKB info) (autostart info)
      else if bool_decide (key = "Autostart") then mkDomInfo (vcpus info) (memoryKB info) val
      else info
  | _ => info
  end.

Definition domainInfo (out : option string) : option domInfo :=
  out ← out; Some (foldl info_line (mkDomInfo "" "" "") (scan_lines out)).

(** [domainNetwork]: the first row of [virsh domifaddr] with four fields. *)
Fixpoint first_address (lines : list string) : string * string :=
  match lines with
  | [] => ("", "")
  | line :: lines' =>
      match Fields line with
      | _ :: mac :: _ :: ipField :: _ => (before_slash ipField, mac)
      | _ => first_address lines'
      end
  end.
Definition domainNetwork (out : option string) : string * string :=
  match out with None => ("", "") | Some out => first_address (drop 2 (scan_lines out)) end.

Section Virtual.
Context (now : gotime).

Definition vm_asset (d : domain) (ip mac : string) : Asset := mkAsset ("vm-" +:+ dom_id d) ip mac (dom_name d) "vm/libvirt" [] 0 0.

Definition vm_event (d : domain) (info : domInfo) : NetworkEvent :=
  let meta := <["domain" := VString (dom_name d)]> (<["state" := VString (dom_state d)]> (<["vcpus" := VString (vcpus info)]>
                (<["memory_kb" := VString (memoryKB info)]> {[ "vm_id" := VString (dom_id d) ]}))) in
  event EventVM "" "libvirt" (dom_name d) (if bool_decide (autostart info = "") then meta else <["autostart" := VString (autostart info)]> meta) now.

(** [Scan]: [virsh] runs the command with the last arguments given; [None] when it
    fails. *)
Definition scan_domain (virsh : list string -> option string) (d : domain) : list (Asset * NetworkEvent) :=
  match domainInfo (virsh ["dominfo"; dom_name d]) with
  | None => []
  | Some info =>
      let '(ip, mac) := domainNetwork (virsh ["domifaddr"; dom_name d]) in
      [(vm_asset d ip mac, vm_event d info)]
  end.
Definition Scan (installed : bool) (virsh : list string -> option string) : option (list (Asset * NetworkEvent)) :=
  if negb installed then None
  else
    domains ← listDomains (virsh ["list"; "--all"]);
    Some (concat (scan_domain virsh <$> domains)).

(** ** Docker containers *)

(** The part of the listing that is decoded; [networks] is a map of address and
    MAC by network name. *)
Record container := mkContainer { c_Id : string; c_Names : list string; c_Image : string; c_State : string; c_networks : gmap string (string * string) }.

(** [s[:12]], when longer. *)
Definition short_id (id : string) : string := if (12 <? String.length id)%nat then String.substring 0 12 id else id.

Definition container_name (c : container) : string := match c_Names c with [] => "unknown" | n :: _ => n end.

(** The loop over the networks stops at the first, in the order of the map. *)
Definition docker_asset (order : gmap string (string * string) -> list (string * (string * string))) (c : container) : Asset :=
  let '(ip, mac) := match order (c_networks c) with [] => ("", "") | (_, n) :: _ => n end in
  mkAsset ("docker-" +:+ short_id (c_Id c)) ip mac (container_name c) ("container/" +:+ c_Image c) [] 0 0.

(** The response of the API: a transport error, or a status and a decoded body. *)
Inductive reply (A : Type) := Unreachable | Replied (status : Z) (body : option A).
Arguments Unreachable {A}.
Arguments Replied {A}.

Definition answered {A} (r : reply A) : option A :=
  match r with Unreachable => None | Replied status body => if negb (status =? 200) then None else body end.

Definition DockerScan (order : gmap string (string * string) -> list (string * (string * string))) (r : reply (list container)) : option (list Asset) :=
  match answered r with None => None | Some containers => Some (map (docker_asset order) containers) end.

Record dockerStats := mkStats {
  cpu_total : Z; cpu_system : Z; online_cpus : Z; precpu_total : Z; precpu_system : Z;
  mem_usage : Z; mem_limit : Z; net : list (Z * Z); blkio : list (string * Z) }.

Definition u64 (x : Z) : Z := x mod 2 ^ 64.

(** The differences are taken on [uint64], before the conversion. *)
Definition calculateCPUPercent (s : dockerStats) : float64 :=
  let cpuDelta := float_of_Z (u64 (cpu_total s - precpu_total s)) in
  let systemDelta := float_of_Z (u64 (cpu_system s - precpu_system s)) in
  if fle systemDelta fzero || fle cpuDelta fzero then fzero
  else
    let cpus := if online_cpus s =? 0 then 1 else online_cpus s in
    fmul (fmul (fdiv cpuDelta systemDelta) (float_of_Z cpus)) (float_of_Z 100).

Definition memory_percent (s : dockerStats) : float64 :=
  if 0 <? mem_limit s then fmul (fdiv (float_of_Z (mem_usage s)) (float_of_Z (mem_limit s))) (float_of_Z 100) else fzero.

Definition sum_u64 (l : list Z) : Z := foldl (fun a x => u64 (a + x)) 0 l.
Definition blk (ops : list string) (s : dockerStats) : Z :=
  sum_u64 (snd <$> List.filter (fun e => bool_decide (e.1 ∈ ops)) (blkio s)).

(** [Collect]; [fixed] is [fmt.Sprintf] with two decimals. *)
Definition Collect (fixed : float64 -> string) (id name : string) (r : reply dockerStats) : option NetworkEvent :=
  s ← answered r;
  Some (event EventVM "" ("docker-" +:+ short_id id) "resource-stats"
    (<["container_id" := VString (short_id id)]> (<["container_name" := VString name]>
     (<["cpu_percent" := VString (fixed (calculateCPUPercent s))]> (<["memory_usage" := VUint (mem_usage s)]>
     (<["memory_limit" := VUint (mem_limit s)]> (<["memory_percent" := VString (fixed (memory_percent s))]>
     (<["net_rx_bytes" := VUint (sum_u64 (net s).*1)]> (<["net_tx_bytes" := VUint (sum_u64 (net s).*2)]>
     (<["blk_read" := VUint (blk ["read"; "Read"] s)]> {[ "blk_write" := VUint (blk ["write"; "Write"] s) ]}))))))))) now).

Definition CollectAll (fixed : float64 -> string) (r : reply (list container)) (stats : string -> reply dockerStats) : option (list NetworkEvent) :=
  match answered r with None => None | Some containers =>
  Some (omap (fun c => if bool_decide (c_State c = "running") then Collect fixed (c_Id c) (container_name c) (stats (c_Id c)) else None) containers)
  end.
End Virtual.

(** ** What a listing is read as *)

(** Printable ASCII without the space. *)
Definition word_char (c : ascii) : bool := let n := N_of_ascii c in ((33 <=? n) && (n <=? 126))%N.
Definition word (s : string) : Prop := s <> "" /\ string_forallb word_char s = true.

Fixpoint spaces (n : nat) : string := match n with O => "" | S n' => String " " (spaces n') end.

(** A row of the table: the columns padded with spaces; the table ends with an
    empty line. *)
Definition cells (d : domain) (k1 k2 : nat) : string :=
  (dom_id d +:+ String " " (spaces k1 +:+ (dom_name d +:+ String " " (spaces k2 +:+ dom_state d)))).
Definition row (d : domain) (k1 k2 : nat) : string := String " " (cells d k1 k2).
Fixpoint table (rows : list (domain * (nat * nat))) : string :=
  match rows with [] => String newline "" | (d, (k1, k2)) :: rows' => row d k1 k2 +:+ String newline (table rows') end.

(** The state is one word or several. *)
Definition printable (d : domain) : Prop :=
  word (dom_id d) /\ word (dom_name d) /\ exists s states, dom_state d = Join (s :: states) " " /\ Forall word (s :: states).

Lemma strip_space_word c s : word_char c = true -> strip_space (String c s) = None.
Proof. intros Hc. destruct c as [[|] [|] [|] [|] [|] [|] [|] [|]]; vm_compute in Hc; try discriminate; reflexivity. Qed.

Lemma strip_space_blank s : strip_space (String " " s) = Some s.
Proof. reflexivity. Qed.

Lemma fields_word w : forall fuel cur s, string_forallb word_char w = true -> (String.length w <= fuel)%nat ->
  fields_loop fuel cur (w +:+ s) = fields_loop (fuel - String.length w) (cur +:+ w) s.
Proof.
  induction w as [|c w IH]; intros fuel cur s Hw Hf.
  - cbn [String.length]. rewrite Nat.sub_0_r. assert (Hc : cur +:+ "" = cur); [|by rewrite Hc]. induction cur as [|a cur IH]; [done|].
    change (String a cur +:+ "") with (String a (cur +:+ "")). by rewrite IH.
  - cbn [string_forallb] in Hw. apply andb_true_iff in Hw as [Hc Hw]. cbn [String.length] in Hf. destruct fuel as [|fuel]; [lia|].
    change (String c w +:+ s) with (String c (w +:+ s)). cbn [fields_loop]. rewrite strip_space_word by done. rewrite IH by (done || lia).
    cbn [String.length Nat.sub]. by rewrite <- string_app_assoc.
Qed.

Lemma fields_blank fuel cur s : (0 < fuel)%nat -> fields_loop fuel cur (String " " s) = flush cur (fields_loop (fuel - 1) "" s).
Proof. destruct fuel as [|fuel]; [lia|]. intros _. cbn [fields_loop]. rewrite strip_space_blank. by rewrite Nat.sub_succ, Nat.sub_0_r. Qed.

Lemma fields_spaces n : forall fuel s, (n <= fuel)%nat -> fields_loop fuel "" (spaces n +:+ s) = fields_loop (fuel - n) "" s.
Proof.
  induction n as [|n IH]; intros fuel s Hf; [by rewrite Nat.sub_0_r|]. change (spaces (S n) +:+ s) with (String " " (spaces n +:+ s)).
  rewrite fields_blank by lia. unfold flush. rewrite bool_decide_eq_true_2 by done. rewrite IH by lia. f_equal. lia.
Qed.

Lemma fields_end fuel cur : fields_loop fuel cur "" = flush cur [].
Proof. by destruct fuel. Qed.

Lemma forallb_app f s t : string_forallb f (s +:+ t) = string_forallb f s && string_forallb f t.
Proof. induction s as [|a s IH]; [done|]. change (String a s +:+ t) with (String a (s +:+ t)). cbn [string_forallb]. by rewrite IH, andb_assoc. Qed.

Lemma len_app s t : String.length (s +:+ t) = (String.length s + String.length t)%nat.
Proof. induction s as [|a s IH]; [done|]. change (String a s +:+ t) with (String a (s +:+ t)). cbn [String.length]. by rewrite IH. Qed.

Lemma len_spaces n : String.length (spaces n) = n.
Proof. induction n as [|n IH]; [done|]. cbn. by rewrite IH. Qed.

Lemma flush_word w rest : word w -> flush ("" +:+ w) rest = w :: rest.
Proof. intros [Hne _]. unfold flush. by rewrite bool_decide_eq_false_2. Qed.

(** A word, a gap and what follows. *)
Lemma fields_cell w k s fuel : word w -> (String.length w + S k < fuel)%nat ->
  fields_loop fuel "" (w +:+ String " " (spaces k +:+ s)) = w :: fields_loop (fuel - (String.length w + S k)) "" s.
Proof.
  intros Hw Hf. rewrite fields_word by (apply Hw || lia). rewrite fields_blank by lia. rewrite flush_word by done. f_equal.
  rewrite fields_spaces by lia. f_equal. lia.
Qed.

Lemma fields_join ws : Forall word ws -> forall fuel, (String.length (Join ws " ") < fuel)%nat -> fields_loop fuel "" (Join ws " ") = ws.
Proof.
  induction 1 as [|w ws Hw Hws IH]; intros fuel Hf; [by rewrite fields_end|]. destruct ws as [|w' ws].
  - cbn [Join] in *. rewrite <- (string_app_nil_r w) at 1. rewrite fields_word by (apply Hw || lia). rewrite fields_end. by apply flush_word.
  - change (Join (w :: w' :: ws) " ") with (w +:+ String " " (spaces 0 +:+ Join (w' :: ws) " ")) in *. rewrite len_app in Hf. cbn [String.length] in Hf.
    change (spaces 0 +:+ Join (w' :: ws) " ") with (Join (w' :: ws) " ") in Hf. rewrite fields_cell by (done || lia). rewrite IH by lia. done.
Qed.

Definition starts (s : string) : Prop := exists c r, s = String c r /\ word_char c = true.

Lemma word_starts w t : word w -> starts (w +:+ t).
Proof.
  intros [Hne Hw]. destruct w as [|c w]; [done|]. cbn [string_forallb] in Hw. apply andb_true_iff in Hw as [Hc _]. by exists c, (w +:+ t).
Qed.

Lemma rev_word w : word w -> word (rev_string w).
Proof.
  intros [Hne Hw]. split.
  - intros He. apply Hne. rewrite <- (rev_string_involutive w), He. done.
  - clear Hne. induction w as [|c w IH]; [done|]. cbn [string_forallb rev_string] in *. apply andb_true_iff in Hw as [Hc Hw].
    rewrite forallb_app, IH by done. cbn. by rewrite Hc.
Qed.

Lemma join_ends ws s : Forall word (s :: ws) -> starts (rev_string (Join (s :: ws) " ")).
Proof.
  revert s. induction ws as [|w ws IH]; intros s [Hs Hws]%Forall_cons.
  - cbn [Join]. rewrite <- (string_app_nil_r (rev_string s)). by apply word_starts, rev_word.
  - change (Join (s :: w :: ws) " ") with (s +:+ (String " " (Join (w :: ws) " "))). rewrite rev_string_app. cbn [rev_string].
    destruct (IH w Hws) as (c & r & -> & Hc). rewrite <- string_app_assoc. by exists c, (r +:+ (String " " "" +:+ rev_string s)).
Qed.

Lemma TrimSpace_inner x : starts x -> starts (rev_string x) -> TrimSpace (String " " x) = x.
Proof.
  intros (c & x' & -> & Hc) (c' & r & Hr & Hc'). unfold TrimSpace. cbn [String.length trim_left]. rewrite strip_space_blank.
  cbn [trim_left]. rewrite strip_space_word by done. cbn [String.length trim_right].
  assert (strip_space_end (String c x') = None) as ->; [|done]. unfold strip_space_end. rewrite Hr.
  destruct c' as [[|] [|] [|] [|] [|] [|] [|] [|]]; vm_compute in Hc'; try discriminate; reflexivity.
Qed.

Lemma cells_end d k1 k2 : printable d -> starts (rev_string (cells d k1 k2)).
Proof.
  intros (_ & _ & s & states & Hst & Hws). unfold cells. rewrite Hst. change (String " " (spaces k1 +:+ (dom_name d +:+ String " " (spaces k2 +:+ Join (s :: states) " "))))
    with (String " " (spaces k1) +:+ (dom_name d +:+ (String " " (spaces k2) +:+ Join (s :: states) " "))).
  rewrite !string_app_assoc, rev_string_app. destruct (join_ends states s Hws) as (c & r & -> & Hc). by eexists c, _.
Qed.

Lemma parse_printed_row d k1 k2 : printable d -> parse_row (row d k1 k2) = [d].
Proof.
  intros Hp. pose proof Hp as (Hid & Hname & s & states & Hst & Hws). unfold parse_row, row.
  assert (Hstart : starts (cells d k1 k2)) by (unfold cells; by apply word_starts).
  rewrite TrimSpace_inner by (done || by apply cells_end). destruct Hstart as (c & r & Hcells & _). rewrite bool_decide_eq_false_2 by (by rewrite Hcells).
  assert (Hfields : Fields (cells d k1 k2) = dom_id d :: dom_name d :: s :: states).
  { unfold Fields. assert (Hlen : String.length (cells d k1 k2) =
      (String.length (dom_id d) + S k1 + (String.length (dom_name d) + S k2 + String.length (dom_state d)))%nat)
      by (unfold cells; rewrite len_app; cbn [String.length]; rewrite !len_app; cbn [String.length]; rewrite len_app, !len_spaces; lia).
    unfold cells in *. rewrite fields_cell by (done || lia). rewrite fields_cell by (done || lia). rewrite Hst in *. by rewrite fields_join by (done || lia). }
  rewrite Hfields. rewrite <- Hst. by destruct d.
Qed.

(** *** The whole table *)

Definition plain (c : ascii) : bool := word_char c || Ascii.eqb c " ".

Lemma plain_free s : string_forallb plain s = true -> free_of newline s.
Proof.
  unfold free_of. induction s as [|c s IH]; [done|]. cbn [string_forallb]. intros [Hc Hs]%andb_true_iff. rewrite IH by done. rewrite andb_true_r.
  destruct c as [[|] [|] [|] [|] [|] [|] [|] [|]]; vm_compute in Hc; try discriminate; reflexivity.
Qed.

Lemma word_plain w : word w -> string_forallb plain w = true.
Proof.
  intros [_ Hw]. induction w as [|c w IH]; [done|]. cbn [string_forallb] in *. apply andb_true_iff in Hw as [Hc Hw]. unfold plain at 1. by rewrite Hc, IH.
Qed.

Lemma spaces_plain n : string_forallb plain (spaces n) = true.
Proof. induction n as [|n IH]; [done|]. exact IH. Qed.

Lemma join_plain ws : Forall word ws -> string_forallb plain (Join ws " ") = true.
Proof.
  induction 1 as [|w ws Hw _ IH]; [done|]. destruct ws as [|w' ws]; [by apply word_plain|].
  change (Join (w :: w' :: ws) " ") with (w +:+ String " " (Join (w' :: ws) " ")). rewrite forallb_app, word_plain by done. exact IH.
Qed.

Lemma row_plain d k1 k2 : printable d -> string_forallb plain (row d k1 k2) = true.
Proof.
  intros (Hid & Hname & s & states & Hst & Hws). unfold row, cells. rewrite Hst.
  assert (Hsp : forall t, string_forallb plain (String " " t) = string_forallb plain t) by done. rewrite Hsp, forallb_app, word_plain by done.
  rewrite Hsp, forallb_app, spaces_plain, forallb_app, word_plain by done. by rewrite Hsp, forallb_app, spaces_plain, join_plain.
Qed.

Lemma drop_cr_row d k1 k2 : printable d -> drop_cr (row d k1 k2) = row d k1 k2.
Proof.
  intros Hp. unfold drop_cr, row. cbn [rev_string]. destruct (cells_end d k1 k2 Hp) as (c & r & -> & Hc).
  change (String c r +:+ String " " "") with (String c (r +:+ String " " "")). cbv iota.
  destruct (Ascii.eqb_spec c (ascii_of_nat 13)) as [->|]; [by vm_compute in Hc|done].
Qed.

Definition short_row (r : domain * (nat * nat)) : Prop := printable r.1 /\ Z.of_nat (String.length (row r.1 r.2.1 r.2.2)) < 65536.

Lemma scan_table rows : Forall short_row rows ->
  scan_short (Split (table rows) newline) = ((fun r => row r.1 r.2.1 r.2.2) <$> rows) ++ [""].
Proof.
  induction 1 as [|[d [k1 k2]] rows [Hp Hlen] _ IH]; [reflexivity|]. cbn [table fst snd] in *.
  rewrite Split_app, Split_free by (by apply plain_free, row_plain). cbn [app fmap list_fmap fst snd].
  assert (Hsplit : exists l ls, Split (table rows) newline = l :: ls) by (destruct (Split (table rows) newline) eqn:He; [by apply Split_ne in He|eauto]).
  destruct Hsplit as (l & ls & Hsplit). change (row d k1 k2) with (String " " (cells d k1 k2)) at 1. cbn [scan_short].
  change (String " " (cells d k1 k2)) with (row d k1 k2). rewrite (proj2 (Z.leb_gt _ _)) by lia. by rewrite drop_cr_row, IH.
Qed.

Definition heading (s : string) : Prop := s <> "" /\ free_of newline s /\ Z.of_nat (String.length s) < 65536.

(** The table virsh prints, with any heading and any padding, is read back row for
    row, as long as identifiers and names are single words. *)
Theorem listing_roundtrip (h1 h2 : string) (rows : list (domain * (nat * nat))) :
  heading h1 -> heading h2 -> Forall short_row rows ->
  listDomains (Some (h1 +:+ String newline (h2 +:+ String newline (table rows)))) = Some rows.*1.
Proof.
  intros (Hn1 & Hf1 & Hl1) (Hn2 & Hf2 & Hl2) Hrows. unfold listDomains. cbn [mbind option_bind]. f_equal. unfold scan_lines.
  rewrite !Split_app, !Split_free by done. cbn [app]. destruct h1 as [|a1 h1]; [done|]. destruct h2 as [|a2 h2]; [done|].
  set (x1 := String a1 h1) in *. set (x2 := String a2 h2) in *.
  assert (Hstep : forall a h rest, Z.of_nat (String.length (String a h)) < 65536 -> scan_short (String a h :: rest) = drop_cr (String a h) :: scan_short rest)
    by (intros a h rest Hl; cbn [scan_short]; by rewrite (proj2 (Z.leb_gt _ _)) by lia).
  unfold x1, x2. rewrite !Hstep by done. cbn [drop]. rewrite scan_table by done. rewrite drop_0, fmap_app, concat_app.
  change (concat (parse_row <$> [""])) with (@nil domain). rewrite (right_id_L [] (++)). clear -Hrows.
  induction Hrows as [|[d [k1 k2]] rows [Hp _] _ IH]; [done|]. cbn [fmap list_fmap concat fst snd] in *. rewrite parse_printed_row by done. by rewrite IH.
Qed.

(** ** Domains that are off *)

(** The inventory after the assets have been saved under their identifiers. *)
Definition inventory (assets : list Asset) (inv : gmap string Asset) : gmap string Asset :=
  foldl (fun m a => <[as_ID a := a]> m) inv assets.

(** virsh prints the identifier "-" for every domain that is not running, so all of
    them are one asset: after a sweep only the last one listed is in the inventory,
    under an identifier no running domain has. *)
Theorem domains_off_are_one (now : gotime) (virsh : list string -> option string) (doms : list domain) (inv : gmap string Asset) out :
  virsh ["list"; "--all"] = Some out -> listDomains (Some out) = Some doms ->
  (forall d, d ∈ doms -> virsh ["dominfo"; dom_name d] <> None) ->
  exists found, Scan now true virsh = Some found /\ (as_Hostname <$> found.*1) = (dom_name <$> doms) /\
    inventory found.*1 inv !! "vm--" =
      match last (filter (fun d => dom_id d = "-") doms) with
      | Some d => Some (vm_asset d (domainNetwork (virsh ["domifaddr"; dom_name d])).1 (domainNetwork (virsh ["domifaddr"; dom_name d])).2)
      | None => inv !! "vm--"
      end.
Proof.
  intros Hout Hdoms Hinfo. unfold Scan. cbn [negb]. rewrite Hout, Hdoms. cbn [mbind option_bind]. eexists. split; [done|]. clear Hout Hdoms.
  assert (Hone : forall d, virsh ["dominfo"; dom_name d] <> None -> exists e, scan_domain now virsh d =
            [(vm_asset d (domainNetwork (virsh ["domifaddr"; dom_name d])).1 (domainNetwork (virsh ["domifaddr"; dom_name d])).2, e)]).
  { intros d Hd. unfold scan_domain. destruct (virsh ["dominfo"; dom_name d]) as [o|]; [|done]. cbn [domainInfo mbind option_bind].
    destruct (domainNetwork _) as [ip mac]. by eexists. }
  induction doms as [|d doms IH] using rev_ind; [done|]. rewrite fmap_app, concat_app, !fmap_app. cbn [fmap list_fmap concat].
  destruct (Hone d) as [e He]; [apply Hinfo; set_solver|]. rewrite He. cbn [app fmap list_fmap fst]. destruct IH as [IHn IHi]; [set_solver|].
  split; [by rewrite IHn|]. unfold inventory in *. rewrite foldl_app. cbn [foldl]. rewrite filter_app.
  destruct (decide (dom_id d = "-")) as [Hoff|Hon].
  - rewrite filter_cons_True by done. cbn [filter list_filter]. rewrite last_snoc.
    assert (Hid : forall ip mac, as_ID (vm_asset d ip mac) = "vm--") by (intros; unfold vm_asset; cbn [as_ID]; by rewrite Hoff).
    rewrite Hid. by rewrite lookup_insert_eq.
  - rewrite filter_cons_False by done. cbn [filter list_filter]. rewrite (right_id_L [] (++)). rewrite lookup_insert_ne; [exact IHi|].
    unfold vm_asset. cbn [as_ID]. intros Heq. apply Hon. change "vm--" with ("vm-" +:+ "-") in Heq. by apply (inj (String.append "vm-")) in Heq.
Qed.

(** ** At a concrete host *)

Module VirtualDemo.
Definition web := mkDomain "3" "web" "running".
Definition mail := mkDomain "-" "mail" "shut off".
Definition db := mkDomain "-" "db" "shut off".
Definition rows : list (domain * (nat * nat)) := [(web, (3%nat, 6%nat)); (mail, (3%nat, 5%nat)); (db, (3%nat, 7%nat))].
Definition h1 := " Id   Name    State".
Definition h2 := "------------------------".
Definition listing := h1 +:+ String newline (h2 +:+ String newline (table rows)).

Lemma rows_short : Forall short_row rows.
Proof.
  assert (Hw : forall w, match w with "" => False | _ => string_forallb word_char w = true end -> word w) by (intros [|c w] Hc; [done|by split]).
  repeat (apply Forall_cons; split; [|]); [..|by apply Forall_nil];
    (split; [split_and!; [apply Hw; reflexivity|apply Hw; reflexivity|]|vm_compute; reflexivity]).
  - exists "running", []. split; [reflexivity|]. repeat (apply Forall_cons; split; [apply Hw; reflexivity|]). by apply Forall_nil.
  - exists "shut", ["off"]. split; [reflexivity|]. repeat (apply Forall_cons; split; [apply Hw; reflexivity|]). by apply Forall_nil.
  - exists "shut", ["off"]. split; [reflexivity|]. repeat (apply Forall_cons; split; [apply Hw; reflexivity|]). by apply Forall_nil.
Qed.

Lemma listing_roundtrip_witness : listDomains (Some listing) = Some [web; mail; db].
Proof.
  apply (listing_roundtrip h1 h2 rows); [split_and!; [discriminate|reflexivity|vm_compute; reflexivity]|split_and!; [discriminate|reflexivity|vm_compute; reflexivity]|exact rows_short].
Defined.

Definition virsh (args : list string) : option string :=
  match args with "list" :: _ => Some listing | ["dominfo"; _] => Some "CPU(s): 2" | _ => None end.

Lemma domains_off_are_one_witness :
  exists found, Scan 7 true virsh = Some found /\ (as_Hostname <$> found.*1) = ["web"; "mail"; "db"] /\
    inventory found.*1 ∅ !! "vm--" = Some (vm_asset db "" "").
Proof.
  destruct (domains_off_are_one 7 virsh [web; mail; db] ∅ listing) as (found & H1 & H2 & H3).
  - reflexivity.
  - vm_compute. reflexivity.
  - intros d Hd. discriminate.
  - exists found. split; [exact H1|]. split; [exact H2|exact H3].
Defined.

(** A name with a blank is cut, the rest of it taken for the state. *)
Example blank_in_name : parse_row " -    old mail   shut off" = [mkDomain "-" "old" "mail shut off"].
Proof. vm_compute. reflexivity. Qed.

(** Counters that start again are taken for a huge consumption. *)
Definition restarted := mkStats 1000 2000 1 3000 1000 0 0 [] [].
Example restarted_container_cpu : flt (float_of_Z (10 ^ 18)) (calculateCPUPercent restarted) = true.
Proof. vm_compute. reflexivity. Qed.

(** A container on two networks has the address of whichever the map yields first. *)
Definition dual := mkContainer "0123456789abcdef" [] "nginx" "running" (<["a" := ("10.0.0.2", "")]> {[ "b" := ("172.17.0.2", "") ]}).
Example address_depends_on_order :
  as_IP (docker_asset map_to_list dual) <> as_IP (docker_asset (fun m => rev (map_to_list m)) dual).
Proof. vm_compute. discriminate. Qed.
End VirtualDemo.
