(* ===== verification/ProxyCa.v ===== *)
(** * The intercepting proxy

    internal/network/proxy: tls.go (the local certificate authority and the
    certificates it makes for intercepted hosts) and the header and address helpers
    of proxy.go.  X.509 is an argument: what a pair of files holds and what a fresh
    pair is; the files are those of Fs.v. *)
From stdpp Require Import base list strings gmap.
From Stdlib Require Import ZArith Lia Bool Ascii.
From S2P Require Import Prelude Models GoStrings GoTime NetAddr Fs.
Local Open Scope string_scope.
Local Open Scope list_scope.
Local Open Scope Z_scope.

(** ** Headers and addresses *)

(** A header: the values of each canonical key. *)
Abbreviation header := (gmap string (list string)) (only parsing).

Definition hop_headers : list string :=
  ["Connection"; "Proxy-Connection"; "Proxy-Authenticate"; "Proxy-Authorization"; "Te"; "Trailer"; "Transfer-Encoding"; "Upgrade"].

(** [dst.Add]. *)
Definition Add (dst : header) (k v : string) : header := <[k := default [] (dst !! k) ++ [v]]> dst.

(** [ranged] is the order in which the map is walked. *)
Definition copyHeaders (ranged : list (string * list string)) (dst : header) : header :=
  foldl (fun dst kvs => if bool_decide (kvs.1 ∈ hop_headers) then dst else foldl (fun dst v => Add dst kvs.1 v) dst kvs.2) dst ranged.

Definition splitHostPort (addr defaultPort : string) : string * string :=
  if negb (Contains addr ":") then (addr, defaultPort)
  else match SplitHostPort addr with None => (addr, defaultPort) | Some hp => hp end.

Lemma add_all_lookup k vs : forall dst k', foldl (fun dst v => Add dst k v) dst vs !! k' =
  if bool_decide (k' = k /\ vs <> []) then Some (default [] (dst !! k) ++ vs) else dst !! k'.
Proof.
  induction vs as [|v vs IH]; intros dst k'; cbn [foldl]; [rewrite bool_decide_eq_false_2 by tauto; done|]. rewrite IH. unfold Add.
  destruct (decide (k' = k)) as [->|Hk].
  - rewrite lookup_insert_eq. cbn [from_option]. unfold id. rewrite (bool_decide_eq_true_2 (k = k /\ v :: vs <> [])) by done. case_bool_decide as Hv.
    + by rewrite <- app_assoc.
    + destruct vs; [done|]. exfalso. by apply Hv.
  - rewrite !bool_decide_eq_false_2 by tauto. by rewrite lookup_insert_ne.
Qed.

(** Whatever the order of the map, the destination gains exactly the values of the
    source, but for the listed hop-by-hop headers. *)
Theorem copy_headers_exact (src dst : header) (ranged : list (string * list string)) (k : string) :
  ranged ≡ₚ map_to_list src ->
  default [] (copyHeaders ranged dst !! k) =
    default [] (dst !! k) ++ (if bool_decide (k ∈ hop_headers) then [] else default [] (src !! k)).
Proof.
  intros Hr. assert (Hnd : NoDup ranged.*1) by (rewrite Hr; apply NoDup_fst_map_to_list).
  assert (Hlook : forall vs, (k, vs) ∈ ranged <-> src !! k = Some vs) by (intros vs; rewrite Hr; apply elem_of_map_to_list). clear Hr.
  assert (Hgen : forall vals, (forall vs, (k, vs) ∈ ranged <-> vals = Some vs) ->
            default [] (copyHeaders ranged dst !! k) = default [] (dst !! k) ++ (if bool_decide (k ∈ hop_headers) then [] else default [] vals));
    [|by apply Hgen].
  clear Hlook. revert dst. induction ranged as [|[k' vs'] ranged IH]; intros dst vals Hvals.
  - destruct vals as [vs|]; [specialize (proj2 (Hvals vs) eq_refl) as []%elem_of_nil|]. cbn. case_bool_decide; by rewrite (right_id_L [] (++)).
  - cbn [fmap list_fmap fst] in Hnd. apply NoDup_cons in Hnd as [Hk' Hnd]. unfold copyHeaders. cbn [foldl fst snd].
    fold (copyHeaders ranged (if bool_decide (k' ∈ hop_headers) then dst else foldl (fun dst v => Add dst k' v) dst vs')).
    destruct (decide (k = k')) as [->|Hne].
    + assert (vals = Some vs') as -> by (apply Hvals, elem_of_cons; by left).
      rewrite (IH Hnd _ None).
      * case_bool_decide as Hhop; [done|]. cbn [from_option]. rewrite add_all_lookup. case_bool_decide as Hv.
        -- cbn [from_option]. unfold id. by rewrite (right_id_L [] (++)).
        -- destruct vs'; [done|]. exfalso. by apply Hv.
      * intros vs. split; [|done]. intros Hin. exfalso. apply Hk'. apply list_elem_of_fmap. by exists (k', vs).
    + rewrite (IH Hnd _ vals).
      * destruct (bool_decide (k' ∈ hop_headers)); [done|]. rewrite add_all_lookup. rewrite (bool_decide_eq_false_2 (k = k' /\ _)) by tauto. done.
      * intros vs. rewrite <- Hvals, elem_of_cons. split; [by right|]. intros [[= -> _]|?]; done.
Qed.

(** ** The certificate authority *)

Record leaf := mkLeaf { lf_host : string; lf_serial : Z; lf_NotBefore : gotime; lf_NotAfter : gotime }.

(** What the files of an authority hold: [Ecdsa] keys are the only ones the type
    assertion accepts. *)
Record authority := mkAuthority { au_id : Z; Ecdsa : bool }.
Record CA := mkCA { ca_authority : authority; cache : gmap string leaf }.

Inductive ca_error := ErrCertDir | ErrLoad | ErrGenerate | ErrWriteCert | ErrWriteKey.

Section Ca.
Context `{Machine} (certDir : string).
(** [LoadX509KeyPair] of the contents of two files. *)
Context (parse_pair : bytes -> bytes -> option authority).
Local Open Scope io_scope.

Definition caCertPath : string := JoinPath certDir "ca.crt".
Definition caKeyPath : string := JoinPath certDir "ca.key".

(** [generated]: a fresh authority with the PEM texts of its certificate and key,
    [None] when a step of its making fails. *)
Definition newCA (generated : option (authority * bytes * bytes)) : M ca_error CA :=
  do! _ <- wrap_error (fun _ => ErrCertDir) (MkdirAll certDir);
  do! present <- found caCertPath;
  if present : bool then
    do! cert <- wrap_error (fun _ => ErrLoad) (ReadFile caCertPath);
    do! key <- wrap_error (fun _ => ErrLoad) (ReadFile caKeyPath);
    match parse_pair cert key with
    | None => fail ErrLoad
    | Some a => if Ecdsa a then ret (mkCA a ∅) else fun d => (d, RPanic)
    end
  else
    match generated with
    | None => fail ErrGenerate
    | Some (a, cert, key) =>
        do! _ <- wrap_error (fun _ => ErrWriteCert) (WriteFile caCertPath cert);
        do! _ <- wrap_error (fun _ => ErrWriteKey) (WriteFile caKeyPath key);
        ret (mkCA a ∅)
    end.

(** *** One authority for good *)

(** On a working machine the first start makes the authority and every later start
    finds the same one, whatever it would have generated. *)
Theorem authority_persists (a : authority) (cert key : bytes) (gen : option (authority * bytes * bytes)) (d d1 : disk) (r : res ca_error CA) :
  works -> files d !! caCertPath = None -> caCertPath <> caKeyPath -> parse_pair cert key = Some a -> Ecdsa a = true ->
  newCA (Some (a, cert, key)) d = (d1, r) ->
  r = ROk (mkCA a ∅) /\
  forall d2, files d2 !! caCertPath = files d1 !! caCertPath -> files d2 !! caKeyPath = files d1 !! caKeyPath ->
    (newCA gen d2).2 = ROk (mkCA a ∅) /\ files (newCA gen d2).1 = files d2.
Proof.
  intros Hw Hnone Hne Hparse Hec Hg.
  assert (Hmk : forall d, wrap_error (fun _ => ErrCertDir) (MkdirAll certDir) d = (tick d, ROk tt)).
  { intros d'. unfold wrap_error, on_error, MkdirAll, call. by rewrite (proj1 (Hw _)). }
  unfold newCA in Hg. unfold bind in Hg at 1. rewrite Hmk in Hg. rewrite (bind_run _ _ _ _ _ (runs_found Hw caCertPath (tick d))) in Hg.
  change (files (tick d)) with (files d) in Hg. rewrite Hnone, bool_decide_eq_false_2 in Hg by (by intros [? ?]).
  destruct (runs_WriteFile Hw caCertPath cert (tick (tick d))) as (d' & t & Hr & Hf).
  destruct (runs_WriteFile Hw caKeyPath key d') as (d'' & t' & Hr' & Hf'). unfold runs in Hr, Hr'.
  unfold wrap_error, bind, on_error in Hg. rewrite Hr, Hr' in Hg. unfold ret in Hg. injection Hg as <- <-. split; [done|].
  intros d2 Hc Hk. rewrite Hf', lookup_insert_ne, Hf, lookup_insert_eq in Hc by done. rewrite Hf', lookup_insert_eq in Hk.
  assert (Hrun : exists d3, newCA gen d2 = (d3, ROk (mkCA a ∅)) /\ files d3 = files d2).
  { unfold newCA. unfold bind at 1. rewrite Hmk. rewrite (bind_run _ _ _ _ _ (runs_found Hw caCertPath (tick d2))).
  change (files (tick d2)) with (files d2). rewrite Hc, bool_decide_eq_true_2 by (by eexists).
  pose proof (runs_ReadFile Hw caCertPath _ (tick (tick d2)) Hc) as H1. pose proof (runs_ReadFile Hw caKeyPath _ (tick (tick (tick d2))) Hk) as H2.
  unfold runs in H1, H2. unfold wrap_error, bind, on_error. rewrite H1, H2. cbn [body]. rewrite Hparse, Hec. by eexists. }
  destruct Hrun as (d3 & -> & Hf3). exact (conj eq_refl Hf3).
Qed.

(** A first start that fails between the two files leaves a certificate without its
    key, which every later start refuses. *)
Theorem half_authority_is_permanent (a : authority) (cert key : bytes) (gen : option (authority * bytes * bytes)) (d d2 : disk) :
  files d !! caCertPath = None -> files d !! caKeyPath = None -> caCertPath <> caKeyPath ->
  (forall k, (k < 3)%nat -> outcome_at (calls d + k) = Works) -> outcome_at (calls d + 3) = Fails None ->
  files d2 = files (newCA (Some (a, cert, key)) d).1 -> (forall k, outcome_at (calls d2 + k) = Works) ->
  (newCA (Some (a, cert, key)) d).2 = RErr ErrWriteKey /\
  (newCA gen d2).2 = RErr ErrLoad /\ files (newCA gen d2).1 = files d2.
Proof.
  intros Hc Hk Hne Hok Hbad Hd2 Hok2.
  assert (Hrun : exists d', newCA (Some (a, cert, key)) d = (d', RErr ErrWriteKey) /\ files d' = <[caCertPath := mkFile cert (time_at (S (S (calls d))))]> (files d)).
  { pose proof (Hok 0%nat ltac:(lia)) as H0. pose proof (Hok 1%nat ltac:(lia)) as H1. pose proof (Hok 2%nat ltac:(lia)) as H2.
    rewrite Nat.add_0_r in H0. rewrite Nat.add_1_r in H1. rewrite (Nat.add_comm _ 2) in H2. rewrite (Nat.add_comm _ 3) in Hbad. cbn [Nat.add] in H2, Hbad.
    unfold newCA, wrap_error, found, on_error, bind, MkdirAll, Stat, call, WriteFile. rewrite H0. cbn [calls tick]. rewrite H1. cbn [files tick]. rewrite Hc.
    unfold ret, fail. cbn [calls tick]. rewrite H2. cbn [calls set_files tick]. rewrite Hbad. by eexists. }
  destruct Hrun as (d' & Hrun & Hf). rewrite Hrun in *. cbn [fst snd] in *. split; [done|]. rewrite Hf in Hd2.
  pose proof (Hok2 0%nat) as H0. pose proof (Hok2 1%nat) as H1. pose proof (Hok2 2%nat) as H2. pose proof (Hok2 3%nat) as H3.
  rewrite Nat.add_0_r in H0. rewrite Nat.add_1_r in H1. rewrite (Nat.add_comm _ 2) in H2. rewrite (Nat.add_comm _ 3) in H3. cbn [Nat.add] in H2, H3.
  unfold newCA, wrap_error, found, on_error, bind, MkdirAll, Stat, ReadFile, call. rewrite H0. cbn [calls tick]. rewrite H1. cbn [files tick].
  rewrite Hd2, lookup_insert_eq. unfold ret, fail. cbn [calls tick]. rewrite H2. cbn [files tick]. rewrite Hd2, lookup_insert_eq. cbn [calls tick]. rewrite H3.
  cbn [files tick]. rewrite Hd2, lookup_insert_ne, Hk by done. split; [done|]. by cbn [fst files tick].
Qed.
End Ca.

(** *** Certificates for intercepted hosts *)

Definition minute : Z := 60 * ns_per_s.
Definition day : Z := 86400 * ns_per_s.

(** [made]: whether key and certificate could be made. *)
Definition certFor (ca : CA) (hostname : string) (now : gotime) (made : bool) : CA * option leaf :=
  match cache ca !! hostname with
  | Some c => (ca, Some c)
  | None =>
      if negb made then (ca, None)
      else
        let c := mkLeaf hostname now (now - minute) (now + day) in
        (mkCA (ca_authority ca) (<[hostname := c]> (cache ca)), Some c)
  end.

Definition valid_at (c : leaf) (t : gotime) : Prop := lf_NotBefore c <= t <= lf_NotAfter c.

Fixpoint connects (ca : CA) (l : list (string * gotime * bool)) : CA :=
  match l with [] => ca | (h, t, made) :: l' => connects (certFor ca h t made).1 l' end.

Lemma cached_stays h c l : forall ca, cache ca !! h = Some c -> cache (connects ca l) !! h = Some c.
Proof.
  induction l as [|[[h' t] made] l IH]; intros ca Hc; [done|]. cbn [connects]. apply IH. unfold certFor.
  destruct (cache ca !! h') as [c'|] eqn:Hh; [done|]. destruct (negb made); [done|]. cbn [fst cache]. rewrite lookup_insert_ne; [done|congruence].
Qed.

(** A host intercepted once keeps its certificate for the life of the process, so
    the certificate serves its clients for a day and is refused from then on. *)
Theorem certificate_expires_in_cache (ca : CA) (host : string) (t0 now : gotime) (l : list (string * gotime * bool)) (made : bool) :
  cache ca !! host = None -> t0 <= now ->
  exists c, (certFor ca host t0 true).2 = Some c /\ (certFor (connects (certFor ca host t0 true).1 l) host now made).2 = Some c /\
    (valid_at c now <-> now <= t0 + day).
Proof.
  intros Hnone Hle. unfold certFor at 1 3. rewrite Hnone. cbn [negb fst snd]. eexists. split; [done|]. split.
  - unfold certFor. erewrite cached_stays; [done|]. cbn [cache]. apply lookup_insert_eq.
  - unfold valid_at, minute, day, ns_per_s. cbn. lia.
Qed.

(** ** At concrete inputs *)

Module ProxyDemo.
Lemma copy_headers_exact_witness :
  default [] (copyHeaders (map_to_list {[ "Accept" := ["a"; "b"] ]}) {[ "Accept" := ["x"] ]} !! "Accept") = ["x"; "a"; "b"].
Proof.
  rewrite (copy_headers_exact {[ "Accept" := ["a"; "b"] ]} {[ "Accept" := ["x"] ]} (map_to_list {[ "Accept" := ["a"; "b"] ]}) "Accept"); [vm_compute; reflexivity|reflexivity].
Defined.

#[local] Instance machine (l : list outcome) : Machine := { outcome_at n := nth n l Works; time_at n := Z.of_nat n; canceled_at _ := false }.
Definition blank : disk := mkDisk ∅ 0.
Definition parse (cert key : bytes) : option authority := if bool_decide (cert = key) then Some (mkAuthority 1 true) else None.

Lemma authority_persists_witness :
  let d1 := (newCA (H := machine []) "/ca" parse (Some (mkAuthority 1 true, [7], [7])) blank).1 in
  (newCA (H := machine []) "/ca" parse (Some (mkAuthority 2 true, [8], [8])) d1).2 = ROk (mkCA (mkAuthority 1 true) ∅).
Proof.
  intros d1. destruct (newCA (H := machine []) "/ca" parse (Some (mkAuthority 1 true, [7], [7])) blank) as [d r] eqn:Hg.
  destruct (authority_persists (H := machine []) "/ca" parse (mkAuthority 1 true) [7] [7] (Some (mkAuthority 2 true, [8], [8])) blank d r) as [_ Hlater].
  - intros n. split; [destruct n; reflexivity|reflexivity].
  - reflexivity.
  - vm_compute. discriminate.
  - reflexivity.
  - reflexivity.
  - exact Hg.
  - apply (Hlater d1); unfold d1; reflexivity.
Defined.

Lemma half_authority_is_permanent_witness :
  let bad := machine [Works; Works; Works; Fails None] in
  let d1 := (newCA (H := bad) "/ca" parse (Some (mkAuthority 1 true, [7], [7])) blank).1 in
  (newCA (H := bad) "/ca" parse (Some (mkAuthority 2 true, [8], [8])) (mkDisk (files d1) 10)).2 = RErr ErrLoad.
Proof.
  intros bad d1.
  apply (half_authority_is_permanent (H := bad) "/ca" parse (mkAuthority 1 true) [7] [7] (Some (mkAuthority 2 true, [8], [8])) blank (mkDisk (files d1) 10)).
  - reflexivity.
  - reflexivity.
  - vm_compute. discriminate.
  - intros [|[|[|k]]] Hk; [reflexivity..|lia].
  - reflexivity.
  - reflexivity.
  - intros k. cbn. by destruct k.
Defined.

Lemma certificate_expires_in_cache_witness :
  exists c, (certFor (mkCA (mkAuthority 1 true) ∅) "example.com" 0 true).2 = Some c /\
    (certFor (connects (certFor (mkCA (mkAuthority 1 true) ∅) "example.com" 0 true).1 [("other.org", 5, true)]) "example.com" (2 * day) true).2 = Some c /\
    ~ valid_at c (2 * day).
Proof.
  destruct (certificate_expires_in_cache (mkCA (mkAuthority 1 true) ∅) "example.com" 0 (2 * day) [("other.org", 5, true)] true) as (c & H1 & H2 & H3).
  - reflexivity.
  - vm_compute. discriminate.
  - exists c. split; [exact H1|]. split; [exact H2|]. intros Hv. apply H3 in Hv. vm_compute in Hv. by apply Hv.
Defined.
End ProxyDemo.
