(* ===== verification/Nas.v ===== *)
(** * The NAS connector

    internal/storage/nas: mount.go (mounting by way of the system's commands and
    finding out whether it is mounted) and service.go (the retries at start-up and
    the health loop).  What the commands do and what /proc/mounts says are
    arguments. *)
From stdpp Require Import base list strings gmap.
From Stdlib Require Import ZArith Lia Bool Ascii.
From S2P Require Import Prelude Models GoStrings Sources.
Local Open Scope string_scope.
Local Open Scope list_scope.
Local Open Scope Z_scope.

Record NASConfig := mkNAS {
  Type_ : string; Host : string; Share : string; MountPoint : string; Username : string; Password : string; RetryAttempts : Z }.

Inductive nas_error := ErrMountPoint | ErrUnsupported (t : string) | ErrMountFailed | ErrCanceled.

Section Nas.
Context (cfg : NASConfig) (unicode_lower : string -> string).

(** [mounts] is the text of /proc/mounts, [None] when it cannot be read. *)
Definition IsMounted (mounts : option string) : bool :=
  match mounts with None => false | Some data => Contains data (MountPoint cfg) end.

Definition nfsMount : list string :=
  ["mount"; "-t"; "nfs"; "-o"; "noatime,soft,timeo=100,retrans=3"; Host cfg +:+ ":" +:+ Share cfg; MountPoint cfg].
Definition smbMount : list string :=
  ["mount"; "-t"; "cifs"; "-o"; "username=" +:+ Username cfg +:+ ",password=" +:+ Password cfg +:+ ",iocharset=utf8,vers=3.0";
   "//" +:+ Host cfg +:+ "/" +:+ Share cfg; MountPoint cfg].

(** What happens around one call of [Mount]: whether the directory can be made,
    the table it reads, and whether the command succeeds. *)
Record attempt := mkAttempt { mkdir_ok : bool; at_mounts : option string; command_ok : bool }.

(** The command that is run, if one is, and the error. *)
Definition Mount (a : attempt) : option (list string) * option nas_error :=
  if negb (mkdir_ok a) then (None, Some ErrMountPoint)
  else if IsMounted (at_mounts a) then (None, None)
  else
    let run cmd := (Some cmd, if command_ok a then None else Some ErrMountFailed) in
    let t := ToLower unicode_lower (Type_ cfg) in
    if bool_decide (t = "nfs") then run nfsMount
    else if bool_decide (t = "smb") || bool_decide (t = "cifs") then run smbMount
    else (None, Some (ErrUnsupported (Type_ cfg))).

Definition Unmount (mounts : option string) (command_ok : bool) : option (list string) * option nas_error :=
  if negb (IsMounted mounts) then (None, None)
  else (Some ["umount"; MountPoint cfg], if command_ok then None else Some ErrMountFailed).

(** [mountWithRetry]: the attempts in order, each with whether the context ended in
    the pause after it; [n] are left. *)
Fixpoint retries (n : nat) (attempts : list (attempt * bool)) (lastErr : option nas_error) : option nas_error :=
  match n, attempts with
  | S n', (a, canceled) :: attempts' =>
      match (Mount a).2 with
      | None => None
      | Some e => if canceled : bool then Some ErrCanceled else retries n' attempts' (Some e)
      end
  | _, _ => lastErr
  end.
Definition attempts_left : nat := Z.to_nat (if RetryAttempts cfg =? 0 then 3 else RetryAttempts cfg).
Definition mountWithRetry (attempts : list (attempt * bool)) : option nas_error := retries attempts_left attempts None.

(** *** The health loop *)

Definition health_event (status severity : string) (now : gotime) : NetworkEvent :=
  event EventAlert "" "nas-connector" (Host cfg)
    (<["nas_type" := VString (Type_ cfg)]> (<["mount_point" := VString (MountPoint cfg)]>
      (<["status" := VString status]> {[ "severity" := VString severity ]}))) now.

(** One tick: what the check reads, and what a remount would meet.  The statuses
    reported with their severity, and the command run. *)
Record tick := mkTick { t_mounts : option string; t_attempt : attempt }.

Definition health (wasHealthy : bool) (t : tick) : bool * list (string * string) * option (list string) :=
  let mounted := IsMounted (t_mounts t) in
  if mounted && negb wasHealthy then (true, [("recovered", "info")], None)
  else if negb mounted && wasHealthy then
    let '(cmd, err) := Mount (t_attempt t) in
    match err with
    | Some _ => (false, [("mount_lost", "high")], cmd)
    | None => (true, [("mount_lost", "high"); ("remounted", "info")], cmd)
    end
  else (wasHealthy, [], None).

Fixpoint health_loop (wasHealthy : bool) (ts : list tick) : list (list (string * string) * option (list string)) :=
  match ts with
  | [] => []
  | t :: ts' => let '(h, evs, cmd) := health wasHealthy t in (evs, cmd) :: health_loop h ts'
  end.

(** [Start] when enabled: the status first reported and whether the loop starts. *)
Definition Start (attempts : list (attempt * bool)) : (string * string) * bool :=
  match mountWithRetry attempts with
  | Some _ => (("mount_failed", "high"), false)
  | None => (("mounted", "info"), true)
  end.

(** ** What the loop does *)

(** A remount is tried once: after one has failed the loop only looks, until the
    share is back by other means. *)
Lemma health_unhealthy ts : Forall (fun t => IsMounted (t_mounts t) = false) ts ->
  health_loop false ts = replicate (length ts) ([], None).
Proof. induction 1 as [|t ts Ht _ IH]; [done|]. cbn [health_loop length replicate]. unfold health. rewrite Ht. cbn [andb negb]. by rewrite IH. Qed.

Theorem one_remount_per_outage (t : tick) (ts : list tick) (e : nas_error) :
  IsMounted (t_mounts t) = false -> (Mount (t_attempt t)).2 = Some e -> Forall (fun t => IsMounted (t_mounts t) = false) ts ->
  health_loop true (t :: ts) = ([("mount_lost", "high")], (Mount (t_attempt t)).1) :: replicate (length ts) ([], None).
Proof.
  intros Ht He Hts. cbn [health_loop]. unfold health. rewrite Ht. cbn [andb negb]. destruct (Mount (t_attempt t)) as [cmd err]. cbn [snd fst] in *. subst err.
  by rewrite health_unhealthy.
Qed.

(** Losses and recoveries are reported alternately: of any two reports the later
    says the opposite of the earlier. *)
Definition is_loss (s : string * string) : bool := bool_decide (s = ("mount_lost", "high")).
Fixpoint alternates (healthy : bool) (l : list (string * string)) : bool :=
  match l with [] => true | s :: l' => Bool.eqb (is_loss s) healthy && alternates (negb healthy) l' end.

Lemma alternates_loop ts : forall h, alternates h (concat (health_loop h ts).*1) = true.
Proof.
  induction ts as [|t ts IH]; intros h; [done|]. cbn [health_loop]. unfold health. destruct (IsMounted (t_mounts t)), h; cbn [andb negb].
  - cbn [fmap list_fmap concat fst app]. apply IH.
  - cbn [fmap list_fmap concat fst app alternates]. apply IH.
  - destruct (Mount (t_attempt t)) as [cmd [e|]]; cbn [fmap list_fmap concat fst app alternates negb]; apply IH.
  - cbn [fmap list_fmap concat fst app]. apply IH.
Qed.

(** ** What counts as mounted *)

Lemma contains_middle a s b : Contains (a +:+ (s +:+ b)) s = true.
Proof.
  induction a as [|c a IH].
  - assert (Hp : HasPrefix (s +:+ b) s = true) by (unfold HasPrefix; by rewrite strip_prefix_app). change ("" +:+ (s +:+ b)) with (s +:+ b).
    destruct (s +:+ b); cbn [Contains]; by rewrite Hp.
  - change (String c a +:+ (s +:+ b)) with (String c (a +:+ (s +:+ b))). cbn [Contains]. rewrite IH. by rewrite orb_true_r.
Qed.

(** Anything in the table whose text contains the mount point counts as the share:
    with another file system below it, or under a name that only begins the same,
    the connector reports success without mounting anything. *)
Theorem lookalike_counts_as_mounted (before after : string) (ok : bool) (canceled : bool) (rest : list (attempt * bool)) :
  0 <= RetryAttempts cfg ->
  let table := before +:+ (MountPoint cfg +:+ after) in
  Mount (mkAttempt true (Some table) ok) = (None, None) /\ Start ((mkAttempt true (Some table) ok, canceled) :: rest) = (("mounted", "info"), true).
Proof.
  intros Hr table. assert (Hm : Mount (mkAttempt true (Some table) ok) = (None, None)).
  { unfold Mount, IsMounted. cbn [mkdir_ok at_mounts negb]. unfold table. by rewrite contains_middle. }
  split; [done|]. unfold Start, mountWithRetry. assert (Hl : exists k, attempts_left = S k).
  { unfold attempts_left. destruct (Z.eqb_spec (RetryAttempts cfg) 0); [by exists 2%nat|]. exists (Z.to_nat (RetryAttempts cfg - 1)). lia. }
  destruct Hl as [k ->]. cbn [retries]. by rewrite Hm.
Qed.

(** A negative number of attempts makes none and reports success. *)
Theorem no_attempt_is_success (attempts : list (attempt * bool)) : RetryAttempts cfg < 0 -> Start attempts = (("mounted", "info"), true).
Proof.
  intros Hn. unfold Start, mountWithRetry, attempts_left. destruct (Z.eqb_spec (RetryAttempts cfg) 0); [lia|].
  replace (Z.to_nat (RetryAttempts cfg)) with 0%nat by lia. by destruct attempts.
Qed.
End Nas.

(** ** At a concrete share *)

Module NasDemo.
Definition cfg : NASConfig := mkNAS "NFS" "nas" "/export" "/mnt/nas" "" "" 0.
Definition down : tick := mkTick (Some "/dev/sda1 / ext4") (mkAttempt true (Some "/dev/sda1 / ext4") false).
Definition low (s : string) := s.

Lemma one_remount_per_outage_witness :
  health_loop cfg low true [down; down; down] = [([("mount_lost", "high")], Some (nfsMount cfg)); ([], None); ([], None)].
Proof.
  apply (one_remount_per_outage cfg low down [down; down] ErrMountFailed); [vm_compute; reflexivity..|]. repeat (apply Forall_cons; split; [vm_compute; reflexivity|]). by apply Forall_nil.
Defined.

Lemma lookalike_counts_as_mounted_witness :
  Start cfg low [(mkAttempt true (Some "srv:/x /mnt/nas-old nfs") false, false)] = (("mounted", "info"), true).
Proof. apply (lookalike_counts_as_mounted cfg low "srv:/x " "-old nfs" false false []). vm_compute. discriminate. Defined.

Lemma no_attempt_is_success_witness : Start (mkNAS "nfs" "h" "s" "/m" "" "" (-1)) low [] = (("mounted", "info"), true).
Proof. apply (no_attempt_is_success (mkNAS "nfs" "h" "s" "/m" "" "" (-1)) low []). vm_compute. reflexivity. Defined.
End NasDemo.
